(* ===== verification/_CoqProject ===== *)
-Q . S2P
Prelude.v
VpdCodec.v
VpdDb.v
Vpd.v
Errors.v
JobQueue.v
Mask.v
Runner.v
Preempt.v
BuddyTree.v
Buddy.v
Sync.v
Handshake.v
MramAccess.v
DpuHeap.v
SeqRead.v
DpuSet.v
SetLife.v
Launch.v
XferMatrix.v
Memory.v
ScatterGather.v
Interleave.v
SgIterator.v
BankLayout.v
RankXfer.v
Translation.v
Status.v
CiCommands.v
Ci.v
BitConfig.v
Ufi.v
UfiCache.v
UfiSelect.v
UfiFixed.v
Mux.v
MuxFacts.v
MramXfer.v
MramFacts.v
Repair.v
DmaWavegen.v
RankConfig.v
RankFacts.v
Checkpoint.v
Encoder.v
Encodings.v
Debug.v
DebugFacts.v
Properties.v
MramProgram.v
MramProgramFacts.v
