(* ===== verification/Prelude.v ===== *)
(** * A verification of the host library of the UPMEM SDK with lazy preemption

    The repository is the SDK that drives DPUs (processors inside DRAM chips)
    from a host, changed so that a launch can abort the ranks that take longer
    than the others.  This development models the host library under
    library/src/backends, and a part of the runtime library of the DPU under
    library/src/dpu-rt, and proves properties of them.

    ** The parts and how they interact

    An application allocates a set of DPUs (api/src/api/dpu_set.c), gives them
    buffers and transfers them (api/src/api/dpu_memory.c), launches programs and
    waits (api/src/api/dpu_runner.c).  What is asked of a rank becomes jobs in
    its FIFO, which worker threads take (api/src/api/dpu_thread_job.c); the jobs
    call the low level accesses (api/src/dpu_memory.c, api/src/dpu_runner.c),
    which check their arguments and ask the driver; on the Xeon servers the
    driver's transfers are done by pools of threads that stream interleaved
    words to the address space of the rank
    (hw/src/mappings/xeon_sp/xeon_sp_translation.c).  What the DPUs themselves are
    asked goes through their control interfaces (ufi/src): a reset, the selection
    of DPUs, the threads to start, the instruction and working memories, the
    multiplexers that give the MRAMs to the host, the faults; a debugger uses them
    too.  A monitor
    (api/src/api/dpu_polling.c, dpu_runner.c) polls the ranks that run and aborts
    the late ones.  Apart from these, the VPD library (vpd/src) reads and writes
    the description of the memory modules, and the DPU runs an allocator, locks
    and barriers of its own.

    ** The files

    - Prelude: this header, words, arrays with checked accesses, tactics.
    - VpdCodec, VpdDb, Vpd: the codec of lengths and strings, the key/value
      database, the structure with repairs and disabled DPUs.  Theorems: the
      files are read back as written, the database refines a finite map,
      decoding ends on every input, errors.
    - Errors: error codes and the packed status of asynchronous jobs.
    - JobQueue: slots, FIFOs of ranks, queues of ranks, worker loop, clients; a
      step relation interleaves workers and clients.  Theorems: each rank with
      jobs is served by one worker, errors drain the FIFO and wake the clients,
      what goes wrong with global callbacks and aborted ranks.
    - Mask, Runner: masks of DPUs, polling, booting, launching and waiting.
      Theorem: the run context stays consistent under all sequences of them.
    - Preempt: progress of ranks, threshold and time window (floating point
      rounding written out), abort of the late ranks.
    - BuddyTree, Buddy: the buddy allocator of the DPU; an abstract tree of
      blocks, and the state words that implement it.  Theorems: allocation and
      freeing refine operations on a set of disjoint blocks.
    - Sync: semaphores and barriers of the DPU on their shared wait queue, in
      every interleaving of threads.
    - Handshake: notifiers and customers of the DPU, in every interleaving.
    - MramAccess: unaligned and atomic accesses of the DPU to its MRAM under
      virtual mutexes.  Theorems: they are linearizable; disjoint writes that
      share words do not disturb each other; long writes are cut.
    - DpuHeap, SeqRead: the heap of the DPU, its allocator of fixed size blocks
      (a stack of disjoint blocks), the sequential readers.
    - DpuSet: counting and iterating over DPUs, allocation, registry of sets.
    - SetLife: what the allocation of ranks and the freeing of a set take and give
      back.  Theorems: a set leaves nothing; what a failed allocation leaves.
    - Launch: the jobs of launches, callbacks and dpu_sync, and the monitor beside a
      launch with preemption, interleaved with the jobs and the client.
      Theorems: the monitor refines its loop alone, the launch returns, its waits
      and its synchronisation jobs balance.
    - XferMatrix, Memory, ScatterGather: transfer matrices and the checks of
      low level accesses; symbol transfers; transfers of scattered buffers.
      Theorems: accepted accesses lie inside their symbol and memory, prepared
      buffers reach their DPUs, the scatter/gather handler gives each DPU its
      blocks; how lengths that wrap and failed transfers misbehave.
    - Interleave, SgIterator, BankLayout, RankXfer, Translation: the Xeon
      backend, from the bytes of a cache line to the pools of threads.
      Theorems: the vector versions equal the reference loop; iterators refine
      the concatenation of the blocks; lines are disjoint; a job of a pool
      copies exactly the buffers to the MRAMs, or back, in every interleaving;
      the pools follow the ranks of their channel; four ways it goes wrong.

    - Status: the monad of the operations of the backend, whose failures leave a
      function (FF), with its weakest preconditions, invariants and loops.
    - CiCommands, Ci: the commands as words of 64 bits; giving them to the
      interfaces and waiting.  Theorems: a command ends within its polls, when it
      must succeed, the colours it leaves.
    - BitConfig: the permutations of the wires.  Theorem: they translate back what
      they translate.
    - Ufi, UfiCache, UfiSelect, UfiFixed: the commands of the universal interface,
      which leave out structures and selections they believe were given.  Theorems:
      what is noted is what the driver was last given, each frame is executed once
      under its structure, commands reach the DPUs that were selected; where this
      fails.
    - Mux, MuxFacts, MramXfer, MramFacts: the multiplexers of the MRAMs, starting
      threads, the memories from the host.  Theorems: what a switch does to a pair
      of lines; each buffer of a transfer moves once, while the host has its MRAM.
    - Repair, DmaWavegen, RankConfig, RankFacts: the reset of a rank, with the
      repair of its memories and its timings.  Theorems: a repair is found exactly
      when one exists, the defects of the VPD reach their memories, the timings fit
      their registers, which DPUs are enabled after a reset.
    - Checkpoint: contexts as bytes.  Theorem: they are read back as written.
    - Encoder, Encodings: the 1078 macros that make instructions, as data.  Theorem:
      their arguments are read back.
    - Debug, DebugFacts: a debugger on a DPU and on a rank, the reset of one DPU.
      Theorems: registers are read back as written, numbers of faults are found in
      instructions, which faults are not noticed.
    - MramProgram, MramProgramFacts: copies to the MRAM through a program of the DPU,
      over an interface to the DPU.  Theorems: the words asked for are moved whatever
      the number of parts, the other memories are restored; whose buffer is taken.
    - Properties: the configuration, from files and profiles.  Theorems: a profile is
      loaded as a reference parser reads it, properties are a map, lines and
      trimming; texts are never loaded.

    A state is a Record of the fields the code uses, with the name of the C
    structure; a function of the code is a Definition with its name, and a loop
    or a part of a long function has a name of its own.  What a library, the
    kernel or the hardware answers (malloc, files, the driver, clocks, created
    threads) is an argument of the definitions.

    ** Conventions

    Words are integers with their wrap-around written where the code can wrap.
    [None] is an undefined behaviour of C: an access outside an array, a null
    pointer, a failed assertion, and in Translation a call that never returns;
    the theorems prove that it does not occur under their hypotheses, or that it
    does.  Loops over the elements of a list are recursive on it.  The loops that
    are not have a fuel: the limits of the code on its polls in Ci, as many turns as
    bytes left for the decoders of VpdDb (each turn advances), the depth of the tree in Buddy, the number of polls
    in Preempt, Runner, RankConfig, Debug and MramProgram (an argument: the loop
    ends when the hardware does), the turns of an adjustment in DmaWavegen, shown to be enough;
    the theorems on them say that the result is not the exhaustion of the fuel,
    or hold for every number of turns.

    Concurrency is an explicit relation or sequence of steps: JobQueue and Sync
    have a step relation, atomic between two operations on a lock, as Handshake
    does; in Launch and MramAccess a run is a sequence of choices; in RankXfer
    the lines of the threads that write are permuted freely, and the threads
    that read run in any order.  Memory is sequentially consistent: fences and
    flushes have no effect on the model.

    ** What is not modelled

    - The fault reports and traces of the control interfaces, the locks of a rank
      around its operations (one process is modelled), logging, profiling,
      the C++ and Java bindings: input and output.
    - The hardware glue (the rest of hw/src/rank, sysfs, ioctl, mmap).
    - The loader of programs: it parses ELF files with a library.
    - The programs that the DPU runs for the host (reset, dump and restore of
      registers, copies to the MRAM): they are read from files that are not there.
    - The C library of the DPU (strings, memory, printing), mostly in assembly;
      seqread_get, a builtin of the compiler.
    - The translations of the other machines (Power9, FPGA), the compiler
      runtime (vendored), the use cases and benchmarks. *)
From Stdlib Require Export ZArith Lia Bool.
From stdpp Require Export base tactics list numbers option.

#[global] Open Scope Z_scope.

(** * Machine words *)

Definition wrap (w z : Z) : Z := z mod 2 ^ w.
Abbreviation u8 := (wrap 8).
Abbreviation u16 := (wrap 16).
Abbreviation u32 := (wrap 32).
Abbreviation u64 := (wrap 64).

(** Two's complement reading of the low [w] bits. *)
Definition sgn (w z : Z) : Z := (z + 2 ^ (w - 1)) mod 2 ^ w - 2 ^ (w - 1).
Abbreviation s32 := (sgn 32).

Lemma wrap_range w z : 0 <= w -> 0 <= wrap w z < 2 ^ w.
Proof. intros. unfold wrap. apply Z.mod_pos_bound, Z.pow_pos_nonneg; lia. Qed.

Lemma wrap_small w z : 0 <= z < 2 ^ w -> wrap w z = z.
Proof. apply Z.mod_small. Qed.

Lemma wrap_wrap w z : 0 <= w -> wrap w (wrap w z) = wrap w z.
Proof. intros. apply wrap_small, wrap_range; lia. Qed.

Lemma sgn_small w z : 0 < w -> - 2 ^ (w - 1) <= z < 2 ^ (w - 1) -> sgn w z = z.
Proof.
  intros Hw Hz. unfold sgn.
  assert (2 ^ w = 2 * 2 ^ (w - 1)) as E.
  { replace w with (1 + (w - 1)) at 1 by lia. rewrite Z.pow_add_r by lia. lia. }
  rewrite Z.mod_small; lia.
Qed.

Lemma wrap_land_ones w z : 0 <= w -> wrap w z = Z.land z (Z.ones w).
Proof. intros. unfold wrap. by rewrite Z.land_ones. Qed.

Lemma testbit_wrap w z i :
  0 <= w -> 0 <= i -> Z.testbit (wrap w z) i = (i <? w) && Z.testbit z i.
Proof.
  intros. rewrite wrap_land_ones by lia. rewrite Z.land_spec.
  destruct (Z.ltb_spec i w).
  - rewrite Z.ones_spec_low by lia. by rewrite andb_true_r.
  - rewrite Z.ones_spec_high by lia. by rewrite andb_false_r.
Qed.

Lemma testbit_high w z i : 0 <= z < 2 ^ w -> w <= i -> Z.testbit z i = false.
Proof.
  intros Hz Hi. destruct (Z.ltb_spec w 0).
  { rewrite Z.pow_neg_r in Hz by lia. lia. }
  rewrite <- (wrap_small w z Hz). rewrite testbit_wrap by lia.
  destruct (Z.ltb_spec i w); [lia | done].
Qed.

(** A word whose bits above [w] are all clear is in range. *)
Lemma bits_range w z :
  0 <= w -> 0 <= z -> (forall i, w <= i -> Z.testbit z i = false) -> 0 <= z < 2 ^ w.
Proof.
  intros Hw Hz Hbits. split; [done |].
  replace z with (wrap w z); [apply wrap_range; lia |].
  apply Z.bits_inj'. intros i Hi. rewrite testbit_wrap by lia.
  destruct (Z.ltb_spec i w); [done |]. symmetry. apply Hbits. lia.
Qed.

Lemma lor_range w a b : 0 <= w -> 0 <= a < 2 ^ w -> 0 <= b < 2 ^ w -> 0 <= Z.lor a b < 2 ^ w.
Proof.
  intros Hw Ha Hb. apply bits_range; [done | apply Z.lor_nonneg; lia |].
  intros i Hi. rewrite Z.lor_spec, !(testbit_high w) by lia. done.
Qed.

Lemma land_range_r w a b : 0 <= w -> 0 <= b < 2 ^ w -> 0 <= Z.land a b < 2 ^ w.
Proof.
  intros Hw Hb. apply bits_range; [done | apply Z.land_nonneg; lia |].
  intros i Hi. rewrite Z.land_spec, (testbit_high w b) by lia. apply andb_false_r.
Qed.

Lemma testbit_pow2 k i : 0 <= k -> 0 <= i -> Z.testbit (2 ^ k) i = (i =? k).
Proof.
  intros. destruct (Z.eqb_spec i k) as [-> |].
  - by apply Z.pow2_bits_true.
  - apply Z.pow2_bits_false. lia.
Qed.

Lemma shiftl_1_pow2 k : 0 <= k -> Z.shiftl 1 k = 2 ^ k.
Proof. intros. rewrite Z.shiftl_mul_pow2 by lia. lia. Qed.

(** Testing a bit with a one-bit mask. *)
Lemma land_pow2_eqb x k : 0 <= k -> (Z.land x (2 ^ k) =? 0) = negb (Z.testbit x k).
Proof.
  intros Hk. destruct (Z.testbit x k) eqn:E; simpl.
  - apply Z.eqb_neq. intros H. apply (f_equal (fun z => Z.testbit z k)) in H.
    rewrite Z.land_spec, E, Z.pow2_bits_true, Z.bits_0 in H by lia. done.
  - apply Z.eqb_eq, Z.bits_inj'. intros i Hi. rewrite Z.land_spec, testbit_pow2, Z.bits_0 by lia.
    destruct (Z.eqb_spec i k) as [-> |]; [by rewrite E | apply andb_false_r].
Qed.

Lemma testbit_set x k i : 0 <= k -> 0 <= i -> Z.testbit (Z.lor x (2 ^ k)) i = Z.testbit x i || (i =? k).
Proof. intros. by rewrite Z.lor_spec, testbit_pow2 by lia. Qed.

Lemma testbit_clear x k i :
  0 <= k -> 0 <= i -> Z.testbit (Z.ldiff x (2 ^ k)) i = Z.testbit x i && negb (i =? k).
Proof. intros. by rewrite Z.ldiff_spec, testbit_pow2 by lia. Qed.

Lemma clear_set x k : 0 <= k -> Z.testbit x k = false -> Z.ldiff (Z.lor x (2 ^ k)) (2 ^ k) = x.
Proof.
  intros Hk Hx. apply Z.bits_inj'. intros i Hi. rewrite testbit_clear, testbit_set by lia.
  destruct (Z.eqb_spec i k) as [-> |]; simpl; rewrite ?orb_true_r, ?orb_false_r, ?andb_true_r; auto.
Qed.

(** Packing two fields in one word, and reading them back. *)
Lemma lor_shiftl_add a b n : 0 <= n -> 0 <= b < 2 ^ n -> Z.lor (Z.shiftl a n) b = a * 2 ^ n + b.
Proof.
  intros Hn Hb. rewrite <- Z.add_lor_land, Z.shiftl_mul_pow2 by lia.
  enough (Z.land (a * 2 ^ n) b = 0) by lia.
  apply Z.bits_inj'. intros i Hi. rewrite Z.land_spec, Z.bits_0. destruct (Z.ltb_spec i n).
  - by rewrite Z.mul_pow2_bits_low by lia.
  - rewrite (testbit_high n b) by lia. apply andb_false_r.
Qed.

(** * Counting bits, as the compiler's builtins do *)

Fixpoint pos_popcount (p : positive) : Z :=
  match p with
  | xH => 1
  | xO q => pos_popcount q
  | xI q => 1 + pos_popcount q
  end.

Definition popcount (z : Z) : Z :=
  match z with Zpos p => pos_popcount p | _ => 0 end.

Lemma pos_popcount_pos p : 1 <= pos_popcount p.
Proof. induction p; cbn [pos_popcount]; lia. Qed.

(** Number of leading zeros of a 32-bit word. *)
Definition clz32 (z : Z) : Z := if z <=? 0 then 32 else 31 - Z.log2 z.

Fixpoint pos_ctz (p : positive) : Z :=
  match p with xO q => 1 + pos_ctz q | _ => 0 end.

(** Number of trailing zeros of a non-zero word. *)
Definition ctz (z : Z) : Z := match z with Zpos p => pos_ctz p | _ => 0 end.

(** The bits of a word, from the lowest. *)
Fixpoint pos_bits (p : positive) : list Z :=
  match p with
  | xH => [0]
  | xO q => map Z.succ (pos_bits q)
  | xI q => 0 :: map Z.succ (pos_bits q)
  end.

Lemma in_map_succ i l : In i (map Z.succ l) <-> In (i - 1) l.
Proof.
  rewrite in_map_iff. split; [intros (x & <- & Hx); by replace (Z.succ x - 1) with x by lia |].
  intros Hx. exists (i - 1). split; [lia | done].
Qed.

Lemma pos_bits_spec p i : In i (pos_bits p) <-> 0 <= i /\ Z.testbit (Zpos p) i = true.
Proof.
  revert i. induction p as [q IH | q IH |]; intros i; cbn [pos_bits].
  - rewrite Pos2Z.inj_xI. cbn [In]. rewrite in_map_succ, IH. split.
    + intros [<- | [Hi Hb]]; [by split; [| rewrite Z.testbit_odd_0] |]. split; [lia |].
      replace i with (Z.succ (i - 1)) by lia. by rewrite Z.testbit_odd_succ by done.
    + intros [Hi Hb]. destruct (Z.eq_dec i 0) as [-> | Hne]; [by left |]. right. split; [lia |].
      replace i with (Z.succ (i - 1)) in Hb by lia. by rewrite Z.testbit_odd_succ in Hb by lia.
  - rewrite Pos2Z.inj_xO, in_map_succ, IH. split.
    + intros [Hi Hb]. split; [lia |]. replace i with (Z.succ (i - 1)) by lia. by rewrite Z.testbit_even_succ by done.
    + intros [Hi Hb]. destruct (Z.eq_dec i 0) as [-> | Hne]; [by rewrite Z.testbit_even_0 in Hb |]. split; [lia |].
      replace i with (Z.succ (i - 1)) in Hb by lia. by rewrite Z.testbit_even_succ in Hb by lia.
  - cbn [In]. split; [intros [<- | []]; done |]. intros [Hi Hb]. left. destruct (Z.eq_dec i 0) as [-> | Hne]; [done |].
    by rewrite (Z.bits_above_log2 1 i) in Hb by (cbn; lia).
Qed.

Lemma length_pos_bits p : Z.of_nat (length (pos_bits p)) = pos_popcount p.
Proof. induction p as [q IH | q IH |]; cbn [pos_bits pos_popcount length]; rewrite ?length_map; lia. Qed.

Lemma NoDup_pos_bits p : List.NoDup (pos_bits p).
Proof.
  assert (Hm : forall l, List.NoDup l -> List.NoDup (map Z.succ l)).
  { intros l Hl. apply List.NoDup_map_inv with (f := Z.pred). rewrite map_map.
    rewrite (map_ext _ id) by (intros x; apply Z.pred_succ). by rewrite map_id. }
  induction p as [q IH | q IH |]; cbn [pos_bits]; [constructor; [| by apply Hm] | by apply Hm | constructor; [by intros [] | constructor]].
  rewrite in_map_succ. intros Hi%pos_bits_spec. lia.
Qed.

Lemma head_pos_bits p : head (pos_bits p) = Some (pos_ctz p).
Proof.
  induction p as [q IH | q IH |]; cbn [pos_bits pos_ctz]; [done | | done].
  destruct (pos_bits q) as [| b l]; [done |]. cbn in IH |- *. injection IH as <-. f_equal. lia.
Qed.

(** * Tactics *)

(** Case on every boolean comparison of integers in sight. *)
Ltac zcases :=
  repeat match goal with
  | |- context [Z.eqb ?a ?b] => destruct (Z.eqb_spec a b)
  | |- context [Z.ltb ?a ?b] => destruct (Z.ltb_spec a b)
  | |- context [Z.leb ?a ?b] => destruct (Z.leb_spec a b)
  | H : context [Z.eqb ?a ?b] |- _ => destruct (Z.eqb_spec a b)
  | H : context [Z.ltb ?a ?b] |- _ => destruct (Z.ltb_spec a b)
  | H : context [Z.leb ?a ?b] |- _ => destruct (Z.leb_spec a b)
  end.

(** * Arrays: checked loads and stores *)

(** [None] is an access outside the array (undefined behaviour in C). *)
Definition load {A} (l : list A) (i : Z) : option A :=
  if 0 <=? i then l !! Z.to_nat i else None.

Definition store {A} (l : list A) (i : Z) (v : A) : option (list A) :=
  if (0 <=? i) && (i <? Z.of_nat (length l)) then Some (<[Z.to_nat i := v]> l) else None.

(** [memcpy] of a whole block into a buffer, and out of one. *)
Definition blit {A} (l : list A) (i : Z) (src : list A) : option (list A) :=
  if (0 <=? i) && (i + Z.of_nat (length src) <=? Z.of_nat (length l))
  then Some (take (Z.to_nat i) l ++ src ++ drop (Z.to_nat i + length src) l)
  else None.

Definition slice {A} (l : list A) (i n : Z) : option (list A) :=
  if (0 <=? i) && (0 <=? n) && (i + n <=? Z.of_nat (length l))
  then Some (take (Z.to_nat n) (drop (Z.to_nat i) l))
  else None.

Lemma cons_app {A} (x : A) (l : list A) : x :: l = [x] ++ l.
Proof. done. Qed.

Lemma load_app_mid {A} (pre suf : list A) x :
  load (pre ++ x :: suf) (Z.of_nat (length pre)) = Some x.
Proof.
  unfold load. destruct (Z.leb_spec 0 (Z.of_nat (length pre))); [| lia].
  rewrite Nat2Z.id. by apply list_lookup_middle.
Qed.

Lemma store_app_mid {A} (pre suf : list A) x v :
  store (pre ++ x :: suf) (Z.of_nat (length pre)) v = Some (pre ++ v :: suf).
Proof.
  unfold store. rewrite length_app. simpl.
  destruct (Z.leb_spec 0 (Z.of_nat (length pre))); [| lia].
  destruct (Z.ltb_spec (Z.of_nat (length pre)) (Z.of_nat (length pre + S (length suf)))); [| lia].
  simpl. rewrite Nat2Z.id. f_equal.
  replace (length pre) with (length pre + 0)%nat at 1 by lia.
  by rewrite insert_app_r.
Qed.

Lemma blit_app_mid {A} (pre mid suf src : list A) :
  length mid = length src ->
  blit (pre ++ mid ++ suf) (Z.of_nat (length pre)) src = Some (pre ++ src ++ suf).
Proof.
  intros Hlen. unfold blit. rewrite !length_app, Hlen, Nat2Z.id.
  destruct (Z.leb_spec 0 (Z.of_nat (length pre))); [| lia].
  destruct (Z.leb_spec (Z.of_nat (length pre) + Z.of_nat (length src))
    (Z.of_nat (length pre + (length src + length suf)))); [| lia].
  simpl. rewrite take_app_length, <- Hlen.
  by rewrite <- drop_drop, drop_app_length, drop_app_length.
Qed.

Lemma slice_app_mid {A} (pre mid suf : list A) :
  slice (pre ++ mid ++ suf) (Z.of_nat (length pre)) (Z.of_nat (length mid)) = Some mid.
Proof.
  unfold slice. rewrite !length_app, !Nat2Z.id.
  destruct (Z.leb_spec 0 (Z.of_nat (length pre))); [| lia].
  destruct (Z.leb_spec 0 (Z.of_nat (length mid))); [| lia].
  destruct (Z.leb_spec (Z.of_nat (length pre) + Z.of_nat (length mid))
    (Z.of_nat (length pre + (length mid + length suf)))); [| lia].
  simpl. by rewrite drop_app_length, take_app_length.
Qed.

Lemma load_lookup {A} (l : list A) i : 0 <= i -> load l i = l !! Z.to_nat i.
Proof. intros. unfold load. by destruct (Z.leb_spec 0 i); [| lia]. Qed.

Lemma store_insert {A} (l : list A) i v :
  0 <= i < Z.of_nat (length l) -> store l i v = Some (<[Z.to_nat i := v]> l).
Proof. intros. unfold store. zcases; simpl; done || lia. Qed.

Lemma store_blit {A} (l : list A) i v : store l i v = blit l i [v].
Proof.
  unfold store, blit. simpl. change (Z.of_nat 1) with 1.
  zcases; simpl; try done; try lia.
  f_equal. rewrite insert_take_drop by lia. by rewrite Nat.add_1_r.
Qed.

Lemma blit_Some {A} (l l' : list A) i src :
  blit l i src = Some l' <->
  exists pre mid suf, l = pre ++ mid ++ suf /\ i = Z.of_nat (length pre)
    /\ length mid = length src /\ l' = pre ++ src ++ suf.
Proof.
  split.
  - unfold blit. case_match eqn:E; [| done]. intros [= <-].
    apply andb_true_iff in E as [H0 H1]. apply Z.leb_le in H0, H1.
    exists (take (Z.to_nat i) l), (take (length src) (drop (Z.to_nat i) l)),
      (drop (Z.to_nat i + length src) l).
    split_and!; [| rewrite length_take; lia | rewrite length_take, length_drop; lia | done].
    rewrite <- drop_drop, take_drop, take_drop. done.
  - intros (pre & mid & suf & -> & -> & Hlen & ->). by apply blit_app_mid.
Qed.

Lemma blit_in_range {A} (l : list A) i src :
  0 <= i -> i + Z.of_nat (length src) <= Z.of_nat (length l) -> is_Some (blit l i src).
Proof.
  intros H0 H1. unfold blit. apply Z.leb_le in H0, H1. rewrite H0, H1. eauto.
Qed.

Lemma length_blit {A} (l l' : list A) i src : blit l i src = Some l' -> length l' = length l.
Proof.
  intros (pre & mid & suf & -> & -> & Hlen & ->)%blit_Some. rewrite !length_app. lia.
Qed.

(** Two blits in sequence are one. *)
Lemma blit_blit {A} (l : list A) i x y :
  (l' ← blit l i x; blit l' (i + Z.of_nat (length x)) y) = blit l i (x ++ y).
Proof.
  apply option_eq; intros r. rewrite bind_Some. split.
  - intros (l' & (pre & mid & suf & -> & -> & Hm & ->)%blit_Some & H).
    apply blit_Some in H as (pre' & mid' & suf' & E & Hpre & Hm' & ->).
    rewrite app_assoc in E. apply app_inj_1 in E as [<- ->]; [| rewrite length_app; lia].
    apply blit_Some. exists pre, (mid ++ mid'), suf'.
    rewrite !length_app, <- !app_assoc. auto with lia.
  - intros (pre & mid & suf & -> & -> & Hm & ->)%blit_Some. rewrite length_app in Hm.
    exists (pre ++ x ++ drop (length x) mid ++ suf). split.
    + apply blit_Some. exists pre, (take (length x) mid), (drop (length x) mid ++ suf).
      split_and!; [| done | rewrite length_take; lia | done].
      by rewrite (app_assoc (take _ _)), take_drop.
    + apply blit_Some. exists (pre ++ x), (drop (length x) mid), suf.
      rewrite length_app, length_drop, <- !app_assoc. auto with lia.
Qed.

Lemma length_store {A} (l l' : list A) i v : store l i v = Some l' -> length l' = length l.
Proof. unfold store. case_match; intros; simplify_eq. apply length_insert. Qed.

(** * Little-endian views *)

Fixpoint le_bytes (n : nat) (z : Z) : list Z :=
  match n with
  | O => []
  | S n => z mod 256 :: le_bytes n (z / 256)
  end.

Fixpoint le_val (l : list Z) : Z :=
  match l with
  | [] => 0
  | b :: l => b + 256 * le_val l
  end.

Lemma length_le_bytes n z : length (le_bytes n z) = n.
Proof. revert z; induction n; intros; simpl; auto. Qed.

Lemma le_val_bytes n z : 0 <= z < 256 ^ Z.of_nat n -> le_val (le_bytes n z) = z.
Proof.
  revert z; induction n as [| n IH]; intros z Hz.
  - simpl in *. lia.
  - cbn [le_bytes le_val]. rewrite Nat2Z.inj_succ, Z.pow_succ_r in Hz by lia.
    rewrite IH; [pose proof (Z.div_mod z 256); lia |].
    split; [apply Z.div_pos; lia | apply Z.div_lt_upper_bound; lia].
Qed.

(** * More tactics and hints *)

(** Equality of words, bit by bit; [i] is the bit, [Hi : 0 <= i]. *)
Ltac bitwise i Hi := apply Z.bits_inj'; intros i Hi.

Create HintDb words.
Create Rewrite HintDb bits.
#[export] Hint Resolve wrap_range lor_range land_range_r : words.
#[export] Hint Rewrite Z.lor_spec Z.land_spec Z.lxor_spec Z.ldiff_spec Z.bits_0 : bits.
#[export] Hint Rewrite testbit_wrap testbit_pow2 Z.shiftl_spec Z.shiftr_spec using lia : bits.
