(* ===== verification/VpdCodec.v ===== *)
(** Entry codec of the VPD database: [vpd_encode_len] and [vpd_encode_string]
    (library/src/backends/vpd/src/dpu_vpd_encode.c), [vpd_decode_len] and
    [vpd_decode_string] (dpu_vpd_decode.c).

    Buffers are byte lists of fixed length accessed through the checked
    [load]/[store]/[blit]; a [None] result is an access outside the buffer. *)
From S2P Require Import Prelude.

(** * Error codes and type tags (dpu_vpd_structures.h) *)

Inductive dpu_vpd_error :=
| DPU_VPD_OK
| DPU_VPD_ERR_HEADER_FORMAT
| DPU_VPD_ERR_HEADER_VERSION
| DPU_VPD_ERR_REPAIR_ENTRIES
| DPU_VPD_ERR_NB_MAX_REPAIR
| DPU_VPD_ERR_FLASH
| DPU_VPD_ERR_DPU_ALREADY_ENABLED
| DPU_VPD_ERR_DPU_ALREADY_DISABLED
| DPU_VPD_ERR_OVERFLOW
| DPU_VPD_ERR.

#[export] Instance dpu_vpd_error_eq_dec : EqDecision dpu_vpd_error.
Proof. solve_decision. Defined.

Definition VPD_TYPE_STRING : Z := 0.
Definition VPD_TYPE_BYTE : Z := 1.
Definition VPD_TYPE_SHORT : Z := 2.
Definition VPD_TYPE_INT : Z := 4.
Definition VPD_TYPE_LONG : Z := 8.
Definition VPD_TYPE_BYTEARRAY : Z := 9.

(** The cases of the [switch] of [vpd_decode_string]. *)
Definition vpd_type_known (type : Z) : bool :=
  (type =? VPD_TYPE_STRING) || (type =? VPD_TYPE_BYTE) || (type =? VPD_TYPE_SHORT)
  || (type =? VPD_TYPE_INT) || (type =? VPD_TYPE_LONG) || (type =? VPD_TYPE_BYTEARRAY).

(** * Encoding *)

(** First loop of [vpd_encode_len]: reverse the 7-bit groups of the length
    in a 32-bit word. Five turns empty a non-negative [int]. *)
Fixpoint encode_len_reverse (fuel : nat) (shifting reversed_7bits encoded_len : Z) : Z * Z :=
  match fuel with
  | O => (reversed_7bits, encoded_len)
  | S fuel =>
    if shifting =? 0 then (reversed_7bits, encoded_len)
    else encode_len_reverse fuel (Z.shiftr shifting 7)
           (u32 (Z.lor (Z.shiftl reversed_7bits 7) (Z.land shifting 0x7f)))
           (encoded_len + 1)
  end.

(** Second loop: write the groups back, with the MORE flag set on each. *)
Fixpoint encode_len_emit (n : nat) (reversed_7bits : Z) (buf : list Z) (out : Z)
  : option (list Z) :=
  match n with
  | O => Some buf
  | S n =>
    buf' ← store buf out (Z.lor 0x80 (Z.land reversed_7bits 0x7f));
    encode_len_emit n (Z.shiftr reversed_7bits 7) buf' (out + 1)
  end.

(** [encode_buf] is [buf] at offset [pos]; the right injection carries the
    new buffer and [*encoded_len]. *)
Definition vpd_encode_len (len : Z) (buf : list Z) (pos max_len : Z)
  : option (dpu_vpd_error + list Z * Z) :=
  if len <? 0 then Some (inl DPU_VPD_ERR)
  else
    let '(reversed_7bits, encoded_len) := encode_len_reverse 5 len 0 0 in
    if max_len <? encoded_len then Some (inl DPU_VPD_ERR_OVERFLOW)
    else
      let encoded_len := if encoded_len =? 0 then 1 else encoded_len in
      buf ← encode_len_emit (Z.to_nat encoded_len) reversed_7bits buf pos;
      last ← load buf (pos + encoded_len - 1);
      buf ← store buf (pos + encoded_len - 1) (Z.land last 0x7f);
      Some (inr (buf, encoded_len)).

(** [output_buf] always is [buf + *generated_len]; the result is the status,
    the buffer and [*generated_len]. *)
Definition vpd_encode_string (key value : list Z) (value_len value_type max_buffer_len : Z)
    (buf : list Z) (generated_len : Z) : option (dpu_vpd_error * list Z * Z) :=
  let key_len := Z.of_nat (length key) in
  if max_buffer_len <=? generated_len then Some (DPU_VPD_ERR_OVERFLOW, buf, generated_len)
  else
    buf ← store buf generated_len (u8 value_type);
    let generated_len := generated_len + 1 in
    r ← vpd_encode_len key_len buf generated_len (max_buffer_len - generated_len);
    match r with
    | inl _ => Some (DPU_VPD_ERR, buf, generated_len)
    | inr (buf, ret_len) =>
      let generated_len := generated_len + ret_len in
      if max_buffer_len <? generated_len + key_len
      then Some (DPU_VPD_ERR_OVERFLOW, buf, generated_len)
      else
        buf ← blit buf generated_len key;
        let generated_len := generated_len + key_len in
        r ← vpd_encode_len value_len buf generated_len (max_buffer_len - generated_len);
        match r with
        | inl _ => Some (DPU_VPD_ERR, buf, generated_len)
        | inr (buf, ret_len) =>
          let generated_len := generated_len + ret_len in
          if max_buffer_len <? generated_len + value_len
          then Some (DPU_VPD_ERR_OVERFLOW, buf, generated_len)
          else
            src ← slice value 0 value_len;
            buf ← blit buf generated_len src;
            Some (DPU_VPD_OK, buf, generated_len + value_len)
        end
    end.

(** * Decoding *)

(** The [do .. while (more)] loop of [vpd_decode_len] at index [i], with
    [fuel = max_len - i]: an exhausted fuel is the test [i >= max_len]. *)
Fixpoint decode_len_loop (fuel : nat) (input : list Z) (off i length_ : Z)
  : option (dpu_vpd_error + Z * Z) :=
  match fuel with
  | O => Some (inl DPU_VPD_ERR_OVERFLOW)
  | S fuel =>
    b ← load input (off + i);
    let more := Z.land b 0x80 in
    let length_ := s32 (Z.lor (Z.shiftl length_ 7) (Z.land b 0x7f)) in
    if more =? 0 then Some (inr (length_, i + 1))
    else decode_len_loop fuel input off (i + 1) length_
  end.

(** [in] is [input] at offset [off]; the right injection carries [*length]
    and [*decoded_len]. *)
Definition vpd_decode_len (max_len : Z) (input : list Z) (off : Z)
  : option (dpu_vpd_error + Z * Z) :=
  decode_len_loop (Z.to_nat max_len) input off 0 0.

Section decode_string.
Context {A : Type}.
(** The callback receives the key and value as (offset, length) in
    [input_buf], the type, and the caller's argument it updates. *)
Variable callback : Z -> Z -> Z -> Z -> Z -> A -> option (dpu_vpd_error * A).

(** Result: status, [*consumed], callback argument. *)
Definition vpd_decode_string (max_len : Z) (input_buf : list Z) (consumed : Z) (arg : A)
  : option (dpu_vpd_error * Z * A) :=
  if max_len <=? consumed then Some (DPU_VPD_ERR_OVERFLOW, consumed, arg)
  else
    type ← load input_buf consumed;
    if negb (vpd_type_known type) then Some (DPU_VPD_ERR, consumed, arg)
    else
      let consumed := consumed + 1 in
      r ← vpd_decode_len (max_len - consumed) input_buf consumed;
      match r with
      | inl _ => Some (DPU_VPD_ERR_OVERFLOW, consumed, arg)
      | inr (key_len, decoded_len) =>
        if max_len <=? consumed + decoded_len
        then Some (DPU_VPD_ERR_OVERFLOW, consumed, arg)
        else
          let key := consumed + decoded_len in
          let consumed := key + key_len in
          r ← vpd_decode_len (max_len - consumed) input_buf consumed;
          match r with
          | inl _ => Some (DPU_VPD_ERR_OVERFLOW, consumed, arg)
          | inr (value_len, decoded_len) =>
            if max_len <? consumed + decoded_len
            then Some (DPU_VPD_ERR_OVERFLOW, consumed, arg)
            else
              let value := consumed + decoded_len in
              let consumed := value + value_len in
              r ← callback key key_len value value_len type arg;
              let '(status, arg) := r in
              Some (status, consumed, arg)
          end
      end.
End decode_string.

(** * The length code as a mathematical function

    [len_groups n] is the base-128 writing of [n], least significant group
    first; [len_code n] the bytes [vpd_encode_len] writes for it. *)

Fixpoint len_groups (fuel : nat) (n : Z) : list Z :=
  match fuel with
  | O => []
  | S fuel => if n =? 0 then [] else n mod 128 :: len_groups fuel (n / 128)
  end.

Definition be_val (acc : Z) (gs : list Z) : Z := fold_left (fun a g => a * 128 + g) gs acc.

Fixpoint flag_more (gs : list Z) : list Z :=
  match gs with
  | [] => []
  | [g] => [g]
  | g :: gs => (128 + g) :: flag_more gs
  end.

Definition len_code (n : Z) : list Z :=
  match len_groups 5 n with
  | [] => [0]
  | gs => flag_more (rev gs)
  end.

Definition is_group (g : Z) : Prop := 0 <= g < 128.

Lemma lor_shift7 a g : 0 <= a -> is_group g -> Z.lor (Z.shiftl a 7) (Z.land g 0x7f) = a * 128 + g.
Proof.
  unfold is_group. intros Ha Hg. change 0x7f with (Z.ones 7).
  rewrite Z.land_ones by lia. rewrite Z.mod_small by (change (2 ^ 7) with 128; lia).
  rewrite <- Z.add_lor_land, Z.shiftl_mul_pow2 by lia. change (2 ^ 7) with 128.
  enough (Z.land (a * 128) g = 0) by lia.
  bitwise i Hi. rewrite Z.land_spec, Z.bits_0. destruct (Z.ltb_spec i 7).
  - change 128 with (2 ^ 7). rewrite Z.mul_pow2_bits_low by lia. done.
  - rewrite (testbit_high 7 g) by (change (2 ^ 7) with 128; lia). apply andb_false_r.
Qed.

Lemma land_7f z : Z.land z 0x7f = z mod 128.
Proof. change 0x7f with (Z.ones 7). by rewrite Z.land_ones. Qed.

Lemma lor_80 g : is_group g -> Z.lor 0x80 g = 128 + g.
Proof. intros Hg. pose proof (lor_shift7 1 g ltac:(lia) Hg) as H. revert H.
  rewrite land_7f, Z.mod_small by (unfold is_group in *; lia). done. Qed.

Lemma len_groups_ok fuel n : 0 <= n -> Forall is_group (len_groups fuel n).
Proof.
  revert n; induction fuel as [| fuel IH]; intros n Hn; simpl; [constructor |].
  case_match; constructor.
  - unfold is_group. apply Z.mod_pos_bound. lia.
  - apply IH. apply Z.div_pos; lia.
Qed.

Lemma len_groups_length (k : nat) fuel n :
  0 <= n < 128 ^ Z.of_nat k -> (length (len_groups fuel n) <= k)%nat.
Proof.
  revert k n; induction fuel as [| fuel IH]; intros k n Hn; simpl; [lia |].
  destruct (Z.eqb_spec n 0); simpl; [lia |].
  destruct k as [| k]; [simpl in Hn; lia |].
  rewrite Nat2Z.inj_succ, Z.pow_succ_r in Hn by lia.
  enough (length (len_groups fuel (n / 128)) <= k)%nat by lia.
  apply IH. split; [apply Z.div_pos; lia | apply Z.div_lt_upper_bound; lia].
Qed.

Lemma be_val_snoc acc gs g : be_val acc (gs ++ [g]) = be_val acc gs * 128 + g.
Proof. unfold be_val. by rewrite fold_left_app. Qed.

Lemma be_val_groups fuel n : 0 <= n < 128 ^ Z.of_nat fuel -> be_val 0 (rev (len_groups fuel n)) = n.
Proof.
  revert n; induction fuel as [| fuel IH]; intros n Hn; simpl.
  - simpl in Hn. unfold be_val. simpl. lia.
  - destruct (Z.eqb_spec n 0) as [-> |]; [done |]. simpl.
    rewrite Nat2Z.inj_succ, Z.pow_succ_r in Hn by lia.
    rewrite be_val_snoc, IH.
    + pose proof (Z.div_mod n 128). lia.
    + split; [apply Z.div_pos; lia | apply Z.div_lt_upper_bound; lia].
Qed.

Lemma be_val_range acc gs k :
  0 <= k -> 0 <= acc < 128 ^ k -> Forall is_group gs ->
  0 <= be_val acc gs < 128 ^ (k + Z.of_nat (length gs)).
Proof.
  intros Hk Hacc Hgs. revert acc k Hk Hacc.
  induction Hgs as [| g gs Hg _ IH]; intros acc k Hk Hacc; simpl.
  - rewrite Z.add_0_r. done.
  - replace (k + Z.of_nat (S (length gs))) with (Z.succ k + Z.of_nat (length gs)) by lia.
    apply IH; [lia |]. rewrite Z.pow_succ_r by lia. unfold is_group in Hg. lia.
Qed.

(** The reversing loop computes the groups, big-endian in one word. *)
Lemma encode_len_reverse_groups fuel n acc k cnt :
  0 <= n -> 0 <= k -> 0 <= acc < 128 ^ k ->
  k + Z.of_nat (length (len_groups fuel n)) <= 4 ->
  encode_len_reverse fuel n acc cnt
  = (be_val acc (len_groups fuel n), cnt + Z.of_nat (length (len_groups fuel n))).
Proof.
  revert n acc k cnt; induction fuel as [| fuel IH]; intros n acc k cnt Hn Hk Hacc Hlen; simpl.
  - by rewrite Z.add_0_r.
  - simpl in Hlen. destruct (Z.eqb_spec n 0).
    { simpl. by rewrite Z.add_0_r. }
    simpl in Hlen. rewrite Z.shiftr_div_pow2 by lia. change (2 ^ 7) with 128.
    assert (is_group (n mod 128)) as Hg by (apply Z.mod_pos_bound; lia).
    assert (Z.land n 127 = Z.land (n mod 128) 0x7f) as ->
      by (rewrite !land_7f, Z.mod_mod; lia).
    rewrite lor_shift7 by (done || lia).
    assert (128 ^ (Z.succ k) <= 128 ^ 4) by (apply Z.pow_le_mono_r; lia).
    rewrite Z.pow_succ_r in H by lia. change (128 ^ 4) with 268435456 in H.
    unfold is_group in Hg. rewrite wrap_small by (change (2 ^ 32) with 4294967296; lia).
    rewrite (IH _ _ (Z.succ k)).
    + simpl. f_equal. lia.
    + apply Z.div_pos; lia.
    + lia.
    + rewrite Z.pow_succ_r by lia. lia.
    + lia.
Qed.

(** The emitting loop writes the groups of such a word in reverse order. *)
Lemma encode_len_emit_groups gs pre mid suf :
  Forall is_group gs -> length mid = length gs ->
  encode_len_emit (length gs) (be_val 0 gs) (pre ++ mid ++ suf) (Z.of_nat (length pre))
  = Some (pre ++ map (Z.add 128) (rev gs) ++ suf).
Proof.
  revert pre mid; induction gs as [| g gs IH] using rev_ind; intros pre mid Hgs Hmid.
  - destruct mid; [done | simpl in Hmid; lia].
  - rewrite Forall_app, Forall_singleton in Hgs. destruct Hgs as [Hgs Hg].
    rewrite length_app in *. simpl in *. rewrite Nat.add_1_r in *.
    destruct mid as [| m mid]; [simpl in Hmid; lia |]. simpl in Hmid.
    cbn [encode_len_emit app]. rewrite store_app_mid. cbn [mbind option_bind].
    rewrite be_val_snoc, land_7f, Z.shiftr_div_pow2 by lia. change (2 ^ 7) with 128.
    pose proof Hg as Hg'. unfold is_group in Hg'.
    rewrite (Z.add_comm (_ * 128)), Z.mod_add, Z.mod_small by lia.
    rewrite Z.div_add, Z.div_small, Z.add_0_l by lia.
    rewrite lor_80 by done.
    replace (pre ++ (128 + g) :: mid ++ suf) with ((pre ++ [128 + g]) ++ mid ++ suf)
      by (by rewrite <- app_assoc).
    replace (Z.of_nat (length pre) + 1) with (Z.of_nat (length (pre ++ [128 + g])))
      by (rewrite length_app; simpl; lia).
    rewrite IH by (done || lia).
    rewrite rev_app_distr. cbn [map rev app]. by rewrite <- !app_assoc.
Qed.

Lemma flag_more_app gs g : flag_more (gs ++ [g]) = map (Z.add 128) gs ++ [g].
Proof.
  induction gs as [| h gs IH]; [done |]. simpl.
  destruct (gs ++ [g]) eqn:E; [by destruct gs |]. by rewrite IH.
Qed.

Lemma length_flag_more gs : length (flag_more gs) = length gs.
Proof. induction gs as [| g [| h gs] IH]; simpl in *; auto. Qed.

(** Outside the buffer, emission fails as the whole block would. *)
Lemma encode_len_emit_oob n rev buf out :
  (0 < n)%nat -> out < 0 \/ Z.of_nat (length buf) < out + Z.of_nat n ->
  encode_len_emit n rev buf out = None.
Proof.
  revert rev buf out; induction n as [| n IH]; intros rev buf out Hn Hout; [lia |].
  cbn [encode_len_emit]. destruct (store buf out _) as [buf' |] eqn:E; [| done].
  cbn [mbind option_bind]. pose proof (length_store _ _ _ _ E) as Hl.
  unfold store in E. case_match eqn:Hr; [| done].
  apply andb_true_iff in Hr as [H0%Z.leb_le H1%Z.ltb_lt].
  destruct n as [| n]; [lia |]. apply IH; lia.
Qed.

(** Clearing the MORE flag of the last byte written. *)
Lemma clear_last_more pre gs g suf :
  is_group g ->
  (last ← load (pre ++ (map (Z.add 128) gs ++ [128 + g]) ++ suf)
            (Z.of_nat (length pre) + Z.of_nat (S (length gs)) - 1);
   store (pre ++ (map (Z.add 128) gs ++ [128 + g]) ++ suf)
     (Z.of_nat (length pre) + Z.of_nat (S (length gs)) - 1) (Z.land last 0x7f))
  = Some (pre ++ (map (Z.add 128) gs ++ [g]) ++ suf).
Proof.
  intros Hg.
  replace (Z.of_nat (length pre) + Z.of_nat (S (length gs)) - 1)
    with (Z.of_nat (length (pre ++ map (Z.add 128) gs)))
    by (rewrite length_app, length_map; lia).
  rewrite <- !app_assoc, !(app_assoc pre). cbn [app].
  rewrite load_app_mid. cbn [mbind option_bind]. rewrite store_app_mid. do 3 f_equal.
  rewrite land_7f. unfold is_group in Hg.
  rewrite <- Z.add_mod_idemp_l by lia. rewrite Z.mod_same, Z.add_0_l by lia.
  by apply Z.mod_small.
Qed.

(** [vpd_encode_len] below 2^28 is one checked copy of [len_code]. *)
Lemma vpd_encode_len_spec n buf pos max_len :
  0 <= n < 128 ^ 4 ->
  vpd_encode_len n buf pos max_len
  = if max_len <? Z.of_nat (length (len_groups 5 n)) then Some (inl DPU_VPD_ERR_OVERFLOW)
    else buf' ← blit buf pos (len_code n); Some (inr (buf', Z.of_nat (length (len_code n)))).
Proof.
  intros Hn. unfold vpd_encode_len. destruct (Z.ltb_spec n 0); [lia |].
  pose proof (len_groups_length 4 5 n Hn) as Hlen.
  rewrite (encode_len_reverse_groups 5 n 0 0 0) by lia. rewrite Z.add_0_l.
  destruct (Z.ltb_spec max_len (Z.of_nat (length (len_groups 5 n)))); [done |].
  pose proof (len_groups_ok 5 n ltac:(lia)) as Hgs. unfold len_code.
  destruct (len_groups 5 n) as [| g gs] eqn:Egs.
  { (* the zero length: one zero byte *)
    simpl. rewrite !Z.add_simpl_r. rewrite store_blit. unfold be_val; simpl.
    change (Z.lor 128 (Z.land 0 127)) with 128. destruct (blit buf pos [128]) as [b |] eqn:E.
    2:{ unfold blit in E |- *. simpl in E |- *. case_match; done. }
    apply blit_Some in E as (pre & mid & suf & -> & -> & Hm & ->). simpl in Hm.
    cbn [mbind option_bind app]. rewrite load_app_mid. cbn [mbind option_bind].
    rewrite store_app_mid. simpl. rewrite blit_app_mid by done. done. }
  rewrite <- Egs in *. clear H.
  assert (length (len_groups 5 n) <> 0)%nat as Hnz by (rewrite Egs; simpl; lia).
  clear Egs g gs. remember (len_groups 5 n) as gs eqn:El. clear El Hn n.
  destruct (Z.eqb_spec (Z.of_nat (length gs)) 0); [lia |]. rewrite Nat2Z.id.
  rewrite length_flag_more, length_rev.
  destruct (blit buf pos (flag_more (rev gs))) as [b |] eqn:E.
  - apply blit_Some in E as (pre & mid & suf & -> & -> & Hm & ->).
    rewrite length_flag_more, length_rev in Hm.
    rewrite encode_len_emit_groups by done. cbn [mbind option_bind].
    destruct gs as [| g gs]; [done |]. cbn [rev].
    rewrite map_app, flag_more_app. cbn [map length].
    inversion Hgs; subst.
    pose proof (clear_last_more pre (rev gs) g suf ltac:(done)) as Hc.
    rewrite length_rev in Hc. revert Hc.
    destruct (load _ _); [| done]. cbn [mbind option_bind]. intros ->. done.
  - rewrite encode_len_emit_oob; [done | lia |].
    unfold blit in E. rewrite length_flag_more, length_rev in E.
    case_match eqn:Hr; [done |]. apply andb_false_iff in Hr as [?%Z.leb_gt | ?%Z.leb_gt]; lia.
Qed.

Lemma len_code_length n : 0 <= n -> (1 <= length (len_code n) <= 5)%nat.
Proof.
  intros Hn. unfold len_code. destruct (len_groups 5 n) eqn:E; [simpl; lia |].
  rewrite length_flag_more, length_rev, <- E.
  assert (length (len_groups 5 n) <> 0)%nat by (rewrite E; simpl; lia).
  assert (forall f m, (length (len_groups f m) <= f)%nat) as Hf.
  { induction f; intros; simpl; [lia |]. case_match; simpl; [lia |]. specialize (IHf (m / 128)). lia. }
  pose proof (Hf 5%nat n). lia.
Qed.

(** * Decoding a length code *)

Lemma decode_len_groups gs pre suf acc k i fuel :
  gs <> [] -> Forall is_group gs -> 0 <= k -> 0 <= acc < 128 ^ k ->
  k + Z.of_nat (length gs) <= 4 -> (length gs <= fuel)%nat -> 0 <= i <= Z.of_nat (length pre) ->
  decode_len_loop fuel (pre ++ flag_more gs ++ suf) (Z.of_nat (length pre) - i) i acc
  = Some (inr (be_val acc gs, i + Z.of_nat (length gs))).
Proof.
  revert pre acc k i fuel.
  induction gs as [| g gs IH]; intros pre acc k i fuel Hne Hgs Hk Hacc Hlen Hfuel Hi; [done |].
  inversion Hgs as [| ?? Hg Hgs']; subst. pose proof Hg as Hg'. unfold is_group in Hg'.
  simpl length in *. destruct fuel as [| fuel]; [lia |].
  assert (128 ^ (k + 1) <= 128 ^ 4) as Hpow by (apply Z.pow_le_mono_r; lia).
  rewrite Z.pow_add_r in Hpow by lia. change (128 ^ 1) with 128 in Hpow.
  change (128 ^ 4) with 268435456 in Hpow.
  cbn [decode_len_loop]. rewrite Z.sub_add.
  assert (forall a h, 0 <= a -> is_group h -> a * 128 + h < 268435456 ->
          s32 (Z.lor (Z.shiftl a 7) (Z.land h 0x7f)) = a * 128 + h) as Hstep.
  { intros a h Ha Hh Hb. rewrite lor_shift7 by done. unfold is_group in Hh.
    apply sgn_small; [lia | change (2 ^ (32 - 1)) with 2147483648; lia]. }
  destruct gs as [| h gs].
  - cbn [flag_more app]. rewrite load_app_mid. cbn [mbind option_bind].
    rewrite Hstep by (done || lia).
    assert (Z.land g 0x80 = 0) as ->.
    { bitwise j Hj. rewrite Z.land_spec, Z.bits_0. change 0x80 with (2 ^ 7).
      rewrite testbit_pow2 by lia. destruct (Z.eqb_spec j 7) as [-> |]; [| apply andb_false_r].
      rewrite (testbit_high 7 g) by (change (2 ^ 7) with 128; lia). done. }
    simpl. done.
  - change (flag_more (g :: h :: gs)) with ((128 + g) :: flag_more (h :: gs)).
    cbn [app]. rewrite load_app_mid. cbn [mbind option_bind].
    assert (Z.land (128 + g) 0x7f = Z.land g 0x7f) as ->.
    { rewrite !land_7f, <- Z.add_mod_idemp_l, Z.mod_same by lia. done. }
    rewrite Hstep by (done || lia).
    assert ((Z.land (128 + g) 0x80 =? 0) = false) as ->.
    { apply Z.eqb_neq. rewrite <- lor_80 by done. intros H0.
      assert (Z.testbit (Z.land (Z.lor 128 g) 128) 7 = false) as H7 by (by rewrite H0).
      rewrite Z.land_spec, Z.lor_spec in H7. simpl in H7. done. }
    replace (pre ++ (128 + g) :: flag_more (h :: gs) ++ suf)
      with ((pre ++ [128 + g]) ++ flag_more (h :: gs) ++ suf) by (by rewrite <- app_assoc).
    replace (Z.of_nat (length pre) - i) with (Z.of_nat (length (pre ++ [128 + g])) - (i + 1))
      by (rewrite length_app; simpl; lia).
    rewrite (IH _ _ (k + 1)); try done; try lia.
    + cbn [be_val fold_left]. do 3 f_equal. simpl length. lia.
    + rewrite Z.pow_add_r by lia. lia.
    + rewrite length_app; simpl; lia.
Qed.

Lemma vpd_decode_len_code n pre suf max_len :
  0 <= n < 128 ^ 4 -> Z.of_nat (length (len_code n)) <= max_len ->
  vpd_decode_len max_len (pre ++ len_code n ++ suf) (Z.of_nat (length pre))
  = Some (inr (n, Z.of_nat (length (len_code n)))).
Proof.
  intros Hn Hmax. unfold vpd_decode_len, len_code in *.
  pose proof (len_groups_length 4 5 n Hn) as Hlen.
  pose proof (len_groups_ok 5 n ltac:(lia)) as Hgs.
  assert (be_val 0 (rev (len_groups 5 n)) = n) as Hval.
  { apply be_val_groups. change (Z.of_nat 5) with (4 + 1). rewrite Z.pow_add_r by lia. lia. }
  replace (Z.of_nat (length pre)) with (Z.of_nat (length pre) - 0) by lia.
  destruct (len_groups 5 n) as [| g gs] eqn:E.
  - unfold be_val in Hval. simpl in Hval. subst n. simpl in Hmax.
    change [0] with (flag_more [0]).
    rewrite (decode_len_groups [0] pre suf 0 0); simpl; try done; try lia.
    repeat constructor; lia.
  - rewrite <- E in *. assert (rev (len_groups 5 n) <> []) by (rewrite E; simpl; by destruct (rev gs)).
    rewrite length_flag_more, length_rev in *.
    rewrite (decode_len_groups _ pre suf 0 0); rewrite ?length_rev; try done; try lia.
    + rewrite Hval. done.
    + by apply Forall_rev.
Qed.

(** * Database entries on the wire *)

(** The bytes of one entry: type, key length, key, value length, value. *)
Definition entry_code (key value : list Z) (value_len value_type : Z) : list Z :=
  u8 value_type :: len_code (Z.of_nat (length key)) ++ key ++ len_code value_len
    ++ take (Z.to_nat value_len) value.

Lemma slice_full {A} (l : list A) n :
  0 <= n <= Z.of_nat (length l) -> slice l 0 n = Some (take (Z.to_nat n) l).
Proof.
  intros Hn. unfold slice. zcases; simpl; try lia. done.
Qed.

Lemma len_groups_le_code n : (length (len_groups 5 n) <= length (len_code n))%nat.
Proof.
  unfold len_code. destruct (len_groups 5 n) eqn:E; [simpl; lia |].
  by rewrite length_flag_more, length_rev.
Qed.

Lemma length_entry_code key value value_len value_type :
  0 <= value_len <= Z.of_nat (length value) ->
  Z.of_nat (length (entry_code key value value_len value_type))
  = 1 + Z.of_nat (length (len_code (Z.of_nat (length key)))) + Z.of_nat (length key)
    + Z.of_nat (length (len_code value_len)) + value_len.
Proof.
  intros Hv. unfold entry_code. simpl. rewrite !length_app, length_take. lia.
Qed.

Lemma encode_len_reverse_mono fuel n acc cnt : cnt <= (encode_len_reverse fuel n acc cnt).2.
Proof.
  revert n acc cnt; induction fuel as [| fuel IH]; intros n acc cnt; simpl; [lia |].
  case_match; simpl; [lia |].
  etrans; [| apply IH]. lia.
Qed.

(** An encoded length takes at least one byte, and is written in range. *)
Lemma vpd_encode_len_inr n buf pos max_len b e :
  vpd_encode_len n buf pos max_len = Some (inr (b, e)) -> 0 <= n /\ 1 <= e.
Proof.
  unfold vpd_encode_len. destruct (Z.ltb_spec n 0); [done |].
  pose proof (encode_len_reverse_mono 5 n 0 0) as Hm.
  destruct (encode_len_reverse 5 n 0 0) as [r k]. simpl in Hm.
  destruct (max_len <? k); [done |]. intros E.
  apply bind_Some in E as (? & _ & E). apply bind_Some in E as (? & _ & E).
  apply bind_Some in E as (? & _ & E). injection E as _ <-.
  destruct (Z.eqb_spec k 0); lia.
Qed.

(** A length code followed by [n] bytes that fit below [max < 2^28] is the
    code of [vpd_encode_len_spec]. *)
Lemma vpd_encode_len_fits n buf pos max gen b e :
  max < 128 ^ 4 -> 0 <= gen ->
  vpd_encode_len n buf pos (max - gen) = Some (inr (b, e)) -> gen + e + n <= max ->
  blit buf pos (len_code n) = Some b /\ e = Z.of_nat (length (len_code n)).
Proof.
  intros Hmax Hgen E Hfit. pose proof (vpd_encode_len_inr _ _ _ _ _ _ E) as [].
  rewrite vpd_encode_len_spec in E by lia.
  destruct (_ <? _); [done |]. by apply bind_Some in E as (? & ? & [= -> <-]).
Qed.

(** A successful [vpd_encode_string] has copied [entry_code] at the cursor,
    within [max_buffer_len]. *)
Lemma vpd_encode_string_inv key value value_len value_type max buf gen buf' gen' :
  max < 128 ^ 4 -> 0 <= gen -> value_len <= Z.of_nat (length value) ->
  vpd_encode_string key value value_len value_type max buf gen = Some (DPU_VPD_OK, buf', gen') ->
  0 <= value_len
  /\ blit buf gen (entry_code key value value_len value_type) = Some buf'
  /\ gen' = gen + Z.of_nat (length (entry_code key value value_len value_type))
  /\ gen' <= max.
Proof.
  intros Hmax Hgen Hv. unfold vpd_encode_string.
  destruct (Z.leb_spec max gen); [done |]. rewrite store_blit.
  intros (b1 & E1 & E)%bind_Some. apply bind_Some in E as (r & EK & E).
  destruct r as [| [b2 e2]]; [done |].
  destruct (Z.ltb_spec max (gen + 1 + e2 + Z.of_nat (length key))); [done |].
  apply vpd_encode_len_fits in EK as [E2 ->]; [| lia ..].
  apply bind_Some in E as (b3 & E3 & E). apply bind_Some in E as (r & EV & E).
  destruct r as [| [b4 e4]]; [done |].
  match type of E with context [max <? ?x] => destruct (Z.ltb_spec max x); [done |] end.
  pose proof (vpd_encode_len_inr _ _ _ _ _ _ EV) as [Hv0 _].
  apply vpd_encode_len_fits in EV as [E4 ->]; [| lia ..].
  rewrite slice_full in E by lia. cbn [mbind option_bind] in E.
  apply bind_Some in E as (b5 & E5 & E). injection E as <- <-. rewrite length_entry_code by lia. split_and!; [done | | lia | lia].
  unfold entry_code. rewrite (cons_app (u8 value_type)).
  rewrite <- blit_blit, E1. cbn [mbind option_bind length]. change (Z.of_nat 1) with 1.
  rewrite <- blit_blit, E2. cbn [mbind option_bind].
  rewrite <- blit_blit, E3. cbn [mbind option_bind].
  rewrite <- blit_blit, E4. cbn [mbind option_bind].
  rewrite <- E5. f_equal; lia.
Qed.

(** Conversely an entry that fits is encoded. *)
Lemma vpd_encode_string_fits key value value_len value_type max buf gen :
  max < 128 ^ 4 -> max <= Z.of_nat (length buf) -> 0 <= gen ->
  0 <= value_len <= Z.of_nat (length value) ->
  gen + Z.of_nat (length (entry_code key value value_len value_type)) <= max ->
  exists buf', vpd_encode_string key value value_len value_type max buf gen
    = Some (DPU_VPD_OK, buf', gen + Z.of_nat (length (entry_code key value value_len value_type))).
Proof.
  intros Hmax Hbuf Hgen Hv Hfit. rewrite length_entry_code in * by lia.
  unfold vpd_encode_string.
  pose proof (len_groups_le_code (Z.of_nat (length key))).
  pose proof (len_groups_le_code value_len).
  destruct (Z.leb_spec max gen); [lia |]. rewrite store_blit.
  destruct (blit_in_range buf gen [u8 value_type]) as [b1 E1]; [done | simpl; lia |].
  pose proof (length_blit _ _ _ _ E1). rewrite E1. cbn [mbind option_bind].
  rewrite vpd_encode_len_spec by lia. destruct (Z.ltb_spec (max - (gen + 1)) (Z.of_nat (length (len_groups 5 (Z.of_nat (length key)))))); [lia |].
  destruct (blit_in_range b1 (gen + 1) (len_code (Z.of_nat (length key)))) as [b2 E2]; [lia .. |].
  pose proof (length_blit _ _ _ _ E2). rewrite E2. cbn [mbind option_bind].
  destruct (Z.ltb_spec max (gen + 1 + Z.of_nat (length (len_code (Z.of_nat (length key)))) + Z.of_nat (length key))); [lia |].
  match goal with |- context [blit b2 ?i key] => destruct (blit_in_range b2 i key) as [b3 E3]; [lia .. |] end.
  pose proof (length_blit _ _ _ _ E3). rewrite E3. cbn [mbind option_bind].
  rewrite vpd_encode_len_spec by lia.
  match goal with |- context [?x <? ?y] => destruct (Z.ltb_spec x y); [lia |] end.
  match goal with |- context [blit b3 ?i ?x] => destruct (blit_in_range b3 i x) as [b4 E4]; [lia .. |] end.
  pose proof (length_blit _ _ _ _ E4). rewrite E4. cbn [mbind option_bind].
  match goal with |- context [?x <? ?y] => destruct (Z.ltb_spec x y); [lia |] end.
  rewrite slice_full by lia. cbn [mbind option_bind].
  match goal with |- context [blit b4 ?i ?x] => destruct (blit_in_range b4 i x) as [b5 E5];
    [lia | rewrite length_take; lia |] end.
  rewrite E5. cbn [mbind option_bind]. eexists. by rewrite !Z.add_assoc.
Qed.

(** [vpd_decode_string] on an entry hands its key and value to the callback. *)
Lemma vpd_decode_string_entry {A} (callback : Z -> Z -> Z -> Z -> Z -> A -> option (dpu_vpd_error * A))
    key value type pre suf max_len arg :
  vpd_type_known type = true -> max_len < 128 ^ 4 ->
  Z.of_nat (length (pre ++ entry_code key value (Z.of_nat (length value)) type)) <= max_len ->
  exists koff voff,
    pre ++ entry_code key value (Z.of_nat (length value)) type ++ suf
      = (pre ++ u8 type :: len_code (Z.of_nat (length key)))
        ++ key ++ len_code (Z.of_nat (length value)) ++ value ++ suf
    /\ koff = Z.of_nat (length (pre ++ u8 type :: len_code (Z.of_nat (length key))))
    /\ voff = koff + Z.of_nat (length key) + Z.of_nat (length (len_code (Z.of_nat (length value))))
    /\ vpd_decode_string callback max_len
         (pre ++ entry_code key value (Z.of_nat (length value)) type ++ suf)
         (Z.of_nat (length pre)) arg
       = (r ← callback koff (Z.of_nat (length key)) voff (Z.of_nat (length value)) type arg;
          let '(status, arg) := r in
          Some (status, voff + Z.of_nat (length value), arg)).
Proof.
  intros Htype Hmax Hlen. rewrite length_app in Hlen.
  rewrite Nat2Z.inj_add, length_entry_code in Hlen by lia.
  pose proof (len_code_length (Z.of_nat (length key)) ltac:(lia)).
  pose proof (len_code_length (Z.of_nat (length value)) ltac:(lia)).
  assert (pre ++ entry_code key value (Z.of_nat (length value)) type ++ suf
    = (pre ++ u8 type :: len_code (Z.of_nat (length key)))
      ++ key ++ len_code (Z.of_nat (length value)) ++ value ++ suf) as E.
  { unfold entry_code. rewrite Nat2Z.id, take_ge by lia.
    rewrite <- !app_assoc. simpl. by rewrite <- !app_assoc. }
  eexists _, _. split_and!; [exact E | done | done |]. rewrite E. unfold vpd_decode_string.
  destruct (Z.leb_spec max_len (Z.of_nat (length pre))); [lia |].
  assert (u8 type = type) as Hu8.
  { unfold vpd_type_known, VPD_TYPE_STRING, VPD_TYPE_BYTE, VPD_TYPE_SHORT, VPD_TYPE_INT,
      VPD_TYPE_LONG, VPD_TYPE_BYTEARRAY in Htype.
    apply wrap_small. change (2 ^ 8) with 256. zcases; simpl in Htype; lia || done. }
  rewrite <- (app_assoc pre). cbn [app]. rewrite load_app_mid. cbn [mbind option_bind].
  rewrite Hu8, Htype. cbn [negb].
  rewrite (cons_app type), (app_assoc pre).
  replace (Z.of_nat (length pre) + 1) with (Z.of_nat (length (pre ++ [type])))
    by (rewrite length_app; simpl; lia).
  rewrite vpd_decode_len_code by (rewrite ?length_app; simpl; lia).
  cbn [mbind option_bind].
  rewrite !length_app. cbn [length].
  match goal with |- context [?x <=? ?y] => destruct (Z.leb_spec x y); [lia |] end.
  rewrite (app_assoc (pre ++ [type])), (app_assoc ((pre ++ [type]) ++ _)).
  match goal with |- context [vpd_decode_len _ (?p ++ _) ?o] =>
    replace o with (Z.of_nat (length p)) by (rewrite !length_app; simpl; lia) end.
  rewrite vpd_decode_len_code by (rewrite ?length_app; simpl; lia).
  cbn [mbind option_bind]. rewrite !length_app. cbn [length].
  match goal with |- context [?x <? ?y] => destruct (Z.ltb_spec x y); [lia |] end.
  match goal with |- callback ?a _ ?b _ _ _ ≫= _ = callback ?a' _ ?b' _ _ _ ≫= _ =>
    assert (b' = b) as -> by lia; assert (a' = a) as -> by lia end.
  destruct (callback _ _ _ _ _ _) as [[st r] |]; [| done]. cbn [mbind option_bind].
  repeat f_equal; lia.
Qed.
