(* ===== verification/VpdDb.v ===== *)
(** The VPD database: the key/value container
    (library/src/backends/vpd/src/dpu_vpd_container.c, .h) and its file
    (dpu_vpd_db_init, dpu_vpd_db_update, dpu_vpd_db_write of dpu_vpd.c).

    A database is the linked list of its pairs.  A C string is the list of
    the characters before its NUL.  Every [malloc] has an explicit outcome;
    [None] is undefined behaviour. *)
From Stdlib Require Import Strings.Ascii Strings.String.
From stdpp Require Import list gmap.
From S2P Require Import Prelude VpdCodec.

(** * The container *)

Inductive ptr :=
| NULL
| FREED
| PTR (block : list Z).

Record dpu_vpd_string_pair := mk_pair {
  key : ptr;
  value : ptr;
  value_len : Z;
  value_type : Z;
}.

Abbreviation dpu_vpd_database := (list dpu_vpd_string_pair).

(** Outcomes of the allocations of one [vpd_set_string] (the pair, its key,
    its value) and of the key copy of [vpd_decode_cb]. *)
Record mallocs := { m_pair : bool; m_key : bool; m_value : bool; m_key_string : bool }.

Definition malloc_ok : mallocs :=
  {| m_pair := true; m_key := true; m_value := true; m_key_string := true |}.

Definition deref (p : ptr) : option (list Z) := match p with PTR l => Some l | _ => None end.

(** [strcpy]/[strcmp] stop at the first NUL. *)
Fixpoint cstr (l : list Z) : list Z :=
  match l with
  | [] => []
  | c :: l => if c =? 0 then [] else c :: cstr l
  end.

(** The index of the pair found. *)
Fixpoint vpd_find_string (db : dpu_vpd_database) (k : list Z) : option (option nat) :=
  match db with
  | [] => Some None
  | current :: db =>
    k' ← deref (key current);
    if decide (k = k') then Some (Some O)
    else r ← vpd_find_string db k; Some (option_map S r)
  end.

Definition vpd_fill_string_pair (m : mallocs) (p : dpu_vpd_string_pair)
    (k v : list Z) (len type : Z) : option (dpu_vpd_error * dpu_vpd_string_pair) :=
  if negb (m_key m) then Some (DPU_VPD_ERR, mk_pair NULL (value p) (value_len p) (value_type p))
  else if negb (m_value m)
  then Some (DPU_VPD_ERR, mk_pair FREED NULL (value_len p) (value_type p))
  else
    v ← slice v 0 len;
    let block := if type =? VPD_TYPE_STRING then v ++ [0] else v in
    Some (DPU_VPD_OK, mk_pair (PTR k) (PTR block) len type).

Definition vpd_set_string (m : mallocs) (db : dpu_vpd_database) (k v : list Z) (len type : Z)
  : option (dpu_vpd_error * dpu_vpd_database) :=
  found ← vpd_find_string db k;
  match found with
  | Some i =>
    p ← db !! i;
    r ← vpd_fill_string_pair m (mk_pair FREED FREED 0 (value_type p)) k v len type;
    let '(ret, p) := r in
    Some (ret, <[i := p]> db)
  | None =>
    if negb (m_pair m) then Some (DPU_VPD_ERR, db)
    else
      r ← vpd_fill_string_pair m (mk_pair NULL NULL 0 0) k v len type;
      let '(ret, p) := r in
      if decide (ret = DPU_VPD_OK) then Some (DPU_VPD_OK, db ++ [p]) else Some (DPU_VPD_ERR, db)
  end.

(** Result: status, buffer, [*generated]. *)
Fixpoint encode_pairs (db : dpu_vpd_database) (max_buf_len : Z) (buf : list Z) (generated : Z)
  : option (dpu_vpd_error * list Z * Z) :=
  match db with
  | [] => Some (DPU_VPD_OK, buf, generated)
  | current :: db =>
    k ← deref (key current);
    v ← deref (value current);
    r ← vpd_encode_string k v (value_len current) (value_type current) max_buf_len buf generated;
    let '(ret, buf, generated) := r in
    if decide (ret = DPU_VPD_OK) then encode_pairs db max_buf_len buf generated
    else Some (DPU_VPD_ERR, buf, generated)
  end.

Definition vpd_encode_container (db : dpu_vpd_database) (max_buf_len : Z) (buf : list Z)
  : option (dpu_vpd_error * list Z * Z) := encode_pairs db max_buf_len buf 0.

(** The argument is the database with the number of entries decoded so far,
    which selects the allocations' outcomes. *)
Definition vpd_decode_cb (oracle : nat -> mallocs) (buf : list Z)
    (k_off key_len v_off len type : Z) (arg : nat * dpu_vpd_database)
  : option (dpu_vpd_error * (nat * dpu_vpd_database)) :=
  let '(n, db) := arg in
  if negb (m_key_string (oracle n)) then Some (DPU_VPD_ERR, (S n, db))
  else
    key_bytes ← slice buf k_off key_len;
    r ← vpd_set_string (oracle n) db (cstr key_bytes) (drop (Z.to_nat v_off) buf) len type;
    let '(ret, db) := r in
    Some (ret, (S n, db)).

(** [Stuck] is undefined behaviour, [NoFuel] the loop cut short. *)
Inductive run (A : Type) :=
| Done (a : A)
| Stuck
| NoFuel.
Arguments Done {A}. Arguments Stuck {A}. Arguments NoFuel {A}.

Fixpoint decode_loop (fuel : nat) (oracle : nat -> mallocs) (buf : list Z) (max_buf_len consumed : Z)
    (arg : nat * dpu_vpd_database) : run (nat * dpu_vpd_database) :=
  match fuel with
  | O => NoFuel
  | S fuel =>
    match vpd_decode_string (vpd_decode_cb oracle buf) max_buf_len buf consumed arg with
    | None => Stuck
    | Some (ret, consumed, arg) =>
      if decide (ret = DPU_VPD_OK) then decode_loop fuel oracle buf max_buf_len consumed arg
      else Done arg
    end
  end.

(** Always returns [DPU_VPD_OK]; each successful turn consumes a byte. *)
Definition vpd_decode_to_container (oracle : nat -> mallocs) (buf : list Z) (max_buf_len : Z)
    (db : dpu_vpd_database) : run (dpu_vpd_error * dpu_vpd_database) :=
  match decode_loop (S (Z.to_nat max_buf_len)) oracle buf max_buf_len 0 (O, db) with
  | Done (_, db) => Done (DPU_VPD_OK, db)
  | Stuck => Stuck
  | NoFuel => NoFuel
  end.

Definition vpd_get_container_length (db : dpu_vpd_database) : Z := Z.of_nat (length db).

Definition vpd_init_container : dpu_vpd_database := [].

Definition free_ptr (p : ptr) : option () := match p with FREED => None | _ => Some tt end.

(** [None] is a double free. *)
Fixpoint vpd_destroy_container (db : dpu_vpd_database) : option () :=
  match db with
  | [] => Some tt
  | current :: db =>
    _ ← free_ptr (key current); _ ← free_ptr (value current); vpd_destroy_container db
  end.

(** * Default contents and the database file *)

Definition chars (s : string) : list Z := map (fun c => Z.of_nat (nat_of_ascii c)) (list_ascii_of_string s).

Definition VPD_ADD_BYTE (k : string) (v : Z) := (chars k, le_bytes 1 (u8 v), VPD_TYPE_BYTE).
Definition VPD_ADD_SHORT (k : string) (v : Z) := (chars k, le_bytes 2 (u16 v), VPD_TYPE_SHORT).
Definition VPD_ADD_STRING (k s : string) := (chars k, chars s, VPD_TYPE_STRING).

Definition E19_vpd : list (list Z * list Z * Z) :=
  [ VPD_ADD_SHORT "fck" 800; VPD_ADD_SHORT "fck_min" 10; VPD_ADD_SHORT "fck_max" 945;
    VPD_ADD_BYTE "div_min" 3; VPD_ADD_BYTE "div_max" 4; VPD_ADD_SHORT "vdd_limit" 11700;
    VPD_ADD_STRING "chip_version" "v1.2" ].

Definition P21_vpd : list (list Z * list Z * Z) :=
  [ VPD_ADD_SHORT "fck" 700; VPD_ADD_SHORT "fck_min" 700; VPD_ADD_SHORT "fck_max" 700;
    VPD_ADD_BYTE "div_min" 2; VPD_ADD_BYTE "div_max" 3;
    VPD_ADD_SHORT "ltc7106_rfb1" 909; VPD_ADD_SHORT "ltc7106_rfb2" 10000;
    VPD_ADD_SHORT "ltc7106_vref" 1100; VPD_ADD_SHORT "ltc7106_vdddpu" 1200;
    VPD_ADD_SHORT "vdd_limit" 19000; VPD_ADD_STRING "chip_version" "v1.3" ].

(** The statements of an included [.vpd] file, in order; the first failure returns. *)
Fixpoint init_db_from (oracle : nat -> mallocs) (adds : list (list Z * list Z * Z)) (n : nat)
    (db : dpu_vpd_database) : option (dpu_vpd_error * dpu_vpd_database) :=
  match adds with
  | [] => Some (DPU_VPD_OK, db)
  | (k, v, type) :: adds =>
    r ← vpd_set_string (oracle n) db k v (Z.of_nat (length v)) type;
    let '(ret, db) := r in
    if decide (ret = DPU_VPD_OK) then init_db_from oracle adds (S n) db else Some (DPU_VPD_ERR, db)
  end.

Definition FLASH_SIZE_VPD_DB : Z := 0x1F800 - 0x1E800.

(** [db_path]: [None] for a null path, [Some None] for a file that cannot be
    opened, else the file's bytes.  [stack] is the uninitialised [buf]. *)
Definition dpu_vpd_db_init (oracle : nat -> mallocs) (stack : list Z) (dual_rank : Z)
    (db_path : option (option (list Z))) : run (dpu_vpd_error * dpu_vpd_database) :=
  let db := vpd_init_container in
  match db_path with
  | None =>
    let r := if dual_rank =? 0 then init_db_from oracle E19_vpd 0 db
             else if dual_rank =? 1 then init_db_from oracle P21_vpd 0 db
             else Some (DPU_VPD_OK, db) in
    match r with Some r => Done r | None => Stuck end
  | Some None => Done (DPU_VPD_ERR, db)
  | Some (Some file) =>
    let data := take (Z.to_nat FLASH_SIZE_VPD_DB) file in
    match blit stack 0 data with
    | None => Stuck
    | Some buf => vpd_decode_to_container oracle buf (Z.of_nat (length data)) db
    end
  end.

Definition dpu_vpd_db_update (m : mallocs) (db : dpu_vpd_database) (k v : list Z) (len type : Z)
  : option (dpu_vpd_error * dpu_vpd_database) := vpd_set_string m db k v len type.

(** [fopen_ok]: the outcome of [fopen]; [fwrite n]: how many of [n] bytes are
    written.  Result: the status and the file when it was opened ([w+]
    empties it). *)
Definition dpu_vpd_db_write (stack : list Z) (fopen_ok : bool) (fwrite : Z -> Z)
    (db : dpu_vpd_database) : option (dpu_vpd_error * option (list Z)) :=
  r ← vpd_encode_container db FLASH_SIZE_VPD_DB stack;
  let '(err, buf, generated) := r in
  if negb (bool_decide (err = DPU_VPD_OK)) then Some (err, None)
  else if negb fopen_ok then Some (DPU_VPD_ERR, None)
  else if negb (generated mod 2 =? 0) && (FLASH_SIZE_VPD_DB <=? generated)
  then Some (DPU_VPD_ERR, Some [])
  else
    r ← (if negb (generated mod 2 =? 0)
         then buf ← store buf generated 0xFF; Some (buf, generated + 1)
         else Some (buf, generated));
    let '(buf, generated) := r in
    let size_written := fwrite generated in
    Some (if size_written =? generated then DPU_VPD_OK else DPU_VPD_ERR,
          Some (take (Z.to_nat size_written) buf)).

(** * Abstract database: the list of its entries *)

Definition entry : Type := list Z * list Z * Z.

Definition stored (data : list Z) (type : Z) : list Z :=
  if type =? VPD_TYPE_STRING then data ++ [0] else data.

Definition pair_of (e : entry) : dpu_vpd_string_pair :=
  let '(k, d, t) := e in mk_pair (PTR k) (PTR (stored d t)) (Z.of_nat (length d)) t.

Definition entry_key (e : entry) : list Z := e.1.1.

Definition keys (es : list entry) : list (list Z) := map entry_key es.

Fixpoint set_entry (es : list entry) (k d : list Z) (t : Z) : list entry :=
  match es with
  | [] => [(k, d, t)]
  | e :: es => if decide (k = entry_key e) then (k, d, t) :: es else e :: set_entry es k d t
  end.

(** A key is a C string and the type one the decoder knows. *)
Definition entry_ok (e : entry) : Prop := (0 ∉ e.1.1) /\ vpd_type_known e.2 = true.

#[export] Instance entry_ok_dec e : Decision (entry_ok e).
Proof. unfold entry_ok. solve_decision. Defined.

(** The byte code of a database. *)
Definition code_of (e : entry) : list Z :=
  let '(k, d, t) := e in entry_code k d (Z.of_nat (length d)) t.

Definition codes (es : list entry) : list Z := concat (map code_of es).

#[global] Arguments code_of : simpl never.
#[global] Arguments codes : simpl never.

(** The database as a finite map. *)
Definition to_map (es : list entry) : gmap (list Z) (list Z * Z) :=
  list_to_map (map (fun e : entry => (entry_key e, (e.1.2, e.2))) es).

Definition good (m : mallocs) : Prop := m_pair m = true /\ m_key m = true /\ m_value m = true.

(** * Setting a pair *)

Lemma take_stored d t : take (length d) (stored d t) = d.
Proof. unfold stored. case_match; [by rewrite take_app_length | by rewrite take_ge]. Qed.

Lemma find_absent es k :
  k ∉ keys es -> vpd_find_string (map pair_of es) k = Some None.
Proof.
  induction es as [| [[k' d'] t'] es IH]; simpl; [done |].
  rewrite not_elem_of_cons. intros [Hne Hk]. rewrite decide_False by done. by rewrite IH.
Qed.

Lemma find_present es e es' :
  entry_key e ∉ keys es ->
  vpd_find_string (map pair_of (es ++ e :: es')) (entry_key e) = Some (Some (length es)).
Proof.
  destruct e as [[k d] t]. cbn [entry_key fst].
  induction es as [| [[k' d'] t'] es IH]; simpl; [by rewrite decide_True |].
  rewrite not_elem_of_cons. intros [Hne Hk]. rewrite decide_False by done. by rewrite IH.
Qed.

Lemma set_entry_absent es k d t : k ∉ keys es -> set_entry es k d t = es ++ [(k, d, t)].
Proof.
  induction es as [| e es IH]; simpl; [done |].
  rewrite not_elem_of_cons. intros []. rewrite decide_False by done. by rewrite IH.
Qed.

Lemma set_entry_present es e es' d t :
  entry_key e ∉ keys es ->
  set_entry (es ++ e :: es') (entry_key e) d t = es ++ (entry_key e, d, t) :: es'.
Proof.
  induction es as [| e' es IH]; simpl; [by rewrite decide_True |].
  rewrite not_elem_of_cons. intros []. rewrite decide_False by done. by rewrite IH.
Qed.

(** The first entry of a key splits the list. *)
Lemma keys_split es k :
  k ∈ keys es -> exists es1 e es2, es = es1 ++ e :: es2 /\ entry_key e = k /\ k ∉ keys es1.
Proof.
  induction es as [| e es IH]; simpl; [by intros ?%elem_of_nil |].
  destruct (decide (k = entry_key e)) as [-> | Hne].
  - intros _. exists [], e, es. split_and!; [done | done | apply not_elem_of_nil].
  - rewrite elem_of_cons. intros [| Hk]; [done |].
    destruct (IH Hk) as (es1 & e' & es2 & -> & He & Hn). exists (e :: es1), e', es2.
    split_and!; [done | done |]. simpl. by rewrite not_elem_of_cons.
Qed.

Lemma fill_good m p k v len t :
  good m -> 0 <= len <= Z.of_nat (length v) ->
  vpd_fill_string_pair m p k v len t
  = Some (DPU_VPD_OK, pair_of (k, take (Z.to_nat len) v, t)).
Proof.
  intros (_ & Hk & Hv) Hlen. unfold vpd_fill_string_pair. rewrite Hk, Hv. simpl.
  rewrite slice_full by done. simpl. rewrite length_take. unfold stored.
  repeat f_equal. lia.
Qed.

Lemma set_string_good m es k v len t :
  good m -> 0 <= len <= Z.of_nat (length v) ->
  vpd_set_string m (map pair_of es) k v len t
  = Some (DPU_VPD_OK, map pair_of (set_entry es k (take (Z.to_nat len) v) t)).
Proof.
  intros Hm Hlen. unfold vpd_set_string. destruct (decide (k ∈ keys es)) as [Hk | Hk].
  - apply keys_split in Hk as (es1 & e & es2 & -> & <- & Hn).
    rewrite find_present by done. cbn [mbind option_bind].
    rewrite (map_app pair_of es1 (e :: es2)). cbn [map].
    rewrite list_lookup_middle by (by rewrite length_map).
    cbn [mbind option_bind]. rewrite fill_good by done. cbn [mbind option_bind].
    rewrite set_entry_present, map_app by done. cbn [map]. do 2 f_equal.
    replace (length es1) with (length (map pair_of es1) + 0)%nat by (rewrite length_map; lia).
    by rewrite insert_app_r.
  - rewrite find_absent by done. cbn [mbind option_bind].
    destruct Hm as (Hp & Hkv). rewrite Hp. simpl.
    rewrite fill_good by done. cbn [mbind option_bind].
    rewrite decide_True, set_entry_absent, map_app by done. done.
Qed.

Lemma keys_app es es' : keys (es ++ es') = keys es ++ keys es'.
Proof. apply map_app. Qed.

Lemma set_entry_keys es k d t :
  keys (set_entry es k d t) = if decide (k ∈ keys es) then keys es else keys es ++ [k].
Proof.
  destruct (decide (k ∈ keys es)) as [Hk | Hk].
  - apply keys_split in Hk as (es1 & e & es2 & -> & <- & Hn).
    by rewrite set_entry_present, !keys_app.
  - by rewrite set_entry_absent, keys_app.
Qed.

Lemma set_entry_NoDup es k d t : NoDup (keys es) -> NoDup (keys (set_entry es k d t)).
Proof.
  rewrite set_entry_keys. case_decide; [done |]. intros. apply list.NoDup_app. split_and!; [done | | apply NoDup_singleton].
  intros x Hx Hxk. apply list_elem_of_singleton in Hxk as ->. done.
Qed.

Lemma to_map_set es k d t : to_map (set_entry es k d t) = <[k := (d, t)]> (to_map es).
Proof.
  unfold to_map. induction es as [| e es IH]; simpl; [done |].
  case_decide as H; simpl.
  - subst. by rewrite insert_insert_eq.
  - rewrite IH. apply insert_insert_ne. done.
Qed.

(** * Encoding and decoding a database *)

Lemma codes_cons e es : codes (e :: es) = code_of e ++ codes es.
Proof. done. Qed.

Lemma codes_app es es' : codes (es ++ es') = codes es ++ codes es'.
Proof. unfold codes. by rewrite map_app, concat_app. Qed.

Lemma entry_code_stored k d t :
  entry_code k (stored d t) (Z.of_nat (length d)) t = code_of (k, d, t).
Proof. unfold code_of, entry_code. by rewrite Nat2Z.id, take_stored, take_ge. Qed.

Lemma code_of_eq k d t : code_of (k, d, t) = entry_code k d (Z.of_nat (length d)) t.
Proof. done. Qed.

Lemma codes_nil : codes [] = [].
Proof. done. Qed.

#[local] Opaque code_of codes.

Lemma length_stored d t : Z.of_nat (length d) <= Z.of_nat (length (stored d t)).
Proof. unfold stored. case_match; rewrite ?length_app; lia. Qed.

Lemma blit_nil {A} (l : list A) i :
  0 <= i <= Z.of_nat (length l) -> blit l i [] = Some l.
Proof.
  intros. unfold blit. simpl. zcases; try lia. simpl.
  rewrite Nat.add_0_r, take_drop. done.
Qed.

Lemma encode_pairs_inv es max buf gen buf' gen' :
  max < 128 ^ 4 -> max <= Z.of_nat (length buf) -> 0 <= gen <= max ->
  encode_pairs (map pair_of es) max buf gen = Some (DPU_VPD_OK, buf', gen') ->
  blit buf gen (codes es) = Some buf' /\ gen' = gen + Z.of_nat (length (codes es)) /\ gen' <= max.
Proof.
  revert buf gen. induction es as [| [[k d] t] es IH]; intros buf gen Hmax Hbuf Hgen; simpl.
  - intros [= <- <-]. rewrite codes_nil.
    rewrite blit_nil by lia. split_and!; [done | simpl; lia | lia].
  - intros E. apply bind_Some in E as ([[ret b] g] & E1 & E).
    case_decide as Hret; [subst ret | done].
    apply vpd_encode_string_inv in E1 as (_ & E1 & -> & Hg); [| lia | lia | apply length_stored].
    rewrite entry_code_stored in *. pose proof (length_blit _ _ _ _ E1).
    apply IH in E as (E & -> & ?); [| lia ..].
    rewrite codes_cons. split_and!; [| rewrite (length_app (code_of _) (codes _)); lia | lia].
    by rewrite <- blit_blit, E1.
Qed.

Lemma encode_pairs_fits es max buf gen :
  max < 128 ^ 4 -> max <= Z.of_nat (length buf) -> 0 <= gen ->
  gen + Z.of_nat (length (codes es)) <= max ->
  exists buf', encode_pairs (map pair_of es) max buf gen
    = Some (DPU_VPD_OK, buf', gen + Z.of_nat (length (codes es))).
Proof.
  revert buf gen. induction es as [| [[k d] t] es IH]; intros buf gen Hmax Hbuf Hgen; simpl.
  - rewrite codes_nil, Z.add_0_r. eauto.
  - rewrite codes_cons, (length_app (code_of _) (codes _)). intros Hfit.
    destruct (vpd_encode_string_fits k (stored d t) (Z.of_nat (length d)) t max buf gen)
      as [b E]; [lia | lia | lia | split; [lia | apply length_stored] | |].
    { rewrite entry_code_stored. lia. }
    rewrite E. cbn [mbind option_bind]. rewrite decide_True by done.
    apply vpd_encode_string_inv in E as (_ & E1 & _ & _); [| lia | lia | apply length_stored].
    apply length_blit in E1. rewrite entry_code_stored.
    destruct (IH b (gen + Z.of_nat (length (code_of (k, d, t))))) as [b' E']; [lia .. |].
    exists b'. rewrite E', Nat2Z.inj_add, Z.add_assoc. done.
Qed.

Lemma cstr_id l : 0 ∉ l -> cstr l = l.
Proof.
  induction l as [| c l IH]; simpl; [done |]. rewrite not_elem_of_cons. intros [].
  destruct (Z.eqb_spec c 0); [done |]. by rewrite IH.
Qed.

(** Bytes at which decoding stops: none, or an unknown type. *)
Definition stops (pad : list Z) : Prop :=
  match pad with [] => True | c :: _ => vpd_type_known c = false end.

Definition good_oracle (oracle : nat -> mallocs) : Prop :=
  forall n, good (oracle n) /\ m_key_string (oracle n) = true.

Lemma decode_cb_entry oracle pre k mid d suf t n es :
  good_oracle oracle -> 0 ∉ k ->
  vpd_decode_cb oracle (pre ++ k ++ mid ++ d ++ suf) (Z.of_nat (length pre)) (Z.of_nat (length k))
    (Z.of_nat (length pre) + Z.of_nat (length k) + Z.of_nat (length mid)) (Z.of_nat (length d)) t
    (n, map pair_of es)
  = Some (DPU_VPD_OK, (S n, map pair_of (set_entry es k d t))).
Proof.
  intros Ho Hk. destruct (Ho n) as [Hg Hs]. unfold vpd_decode_cb. rewrite Hs. cbn [negb].
  rewrite slice_app_mid. cbn [mbind option_bind]. rewrite cstr_id by done.
  replace (drop _ _) with (d ++ suf).
  2:{ rewrite !app_assoc. rewrite <- (app_assoc _ d suf). symmetry. apply drop_app_length'.
      rewrite !length_app. lia. }
  rewrite set_string_good by (rewrite ?length_app; try done; lia). cbn [mbind option_bind].
  by rewrite Nat2Z.id, take_app_length.
Qed.

Lemma decode_loop_entries es oracle done_ pre pad junk n fuel :
  good_oracle oracle -> Forall entry_ok es -> NoDup (keys (done_ ++ es)) ->
  stops pad -> (length es < fuel)%nat ->
  Z.of_nat (length (pre ++ codes es ++ pad)) < 128 ^ 4 ->
  decode_loop fuel oracle (pre ++ codes es ++ pad ++ junk)
    (Z.of_nat (length (pre ++ codes es ++ pad))) (Z.of_nat (length pre)) (n, map pair_of done_)
  = Done (n + length es, map pair_of (done_ ++ es))%nat.
Proof.
  intros Ho. revert done_ pre n fuel. induction es as [| [[k d] t] es IH];
    intros done_ pre n [| fuel] Hok Hnd Hstop Hf Hmax; simpl in Hf; try lia.
  - rewrite codes_nil in *. simpl. unfold vpd_decode_string. rewrite !app_nil_r, Nat.add_0_r, length_app in *.
    destruct pad as [| c pad]; simpl.
    { destruct (Z.leb_spec (Z.of_nat (length pre + 0)) (Z.of_nat (length pre))); [done | lia]. }
    destruct (Z.leb_spec (Z.of_nat (length pre + S (length pad))) (Z.of_nat (length pre))); [lia |].
    rewrite load_app_mid. cbn [mbind option_bind]. simpl in Hstop. rewrite Hstop. done.
  - inversion_clear Hok as [| ? ? [Hk Ht] Hok']. cbn [fst snd] in *.
    rewrite codes_cons, code_of_eq.
    set (max := Z.of_nat (length (pre ++ (entry_code k d (Z.of_nat (length d)) t ++ codes es) ++ pad))).
    rewrite <- (app_assoc (entry_code _ _ _ _)). cbn [decode_loop].
    destruct (vpd_decode_string_entry
      (vpd_decode_cb oracle (pre ++ entry_code k d (Z.of_nat (length d)) t ++ codes es ++ pad ++ junk))
      k d t pre (codes es ++ pad ++ junk) max (n, map pair_of done_))
      as (koff & voff & E & -> & -> & ->); [done | done | unfold max; rewrite !length_app; lia |].
    rewrite E at 1. rewrite decode_cb_entry by done. cbn [mbind option_bind].
    rewrite decide_True by done.
    rewrite set_entry_absent.
    2:{ rewrite keys_app in Hnd. apply list.NoDup_app in Hnd as (_ & Hdis & _).
        intros Hin. apply (Hdis k Hin). simpl. left. }
    match goal with |- decode_loop _ _ _ _ ?c _ = _ =>
      replace c with (Z.of_nat (length (pre ++ entry_code k d (Z.of_nat (length d)) t))) end.
    2:{ apply (f_equal length) in E. rewrite !length_app in *. simpl in *. lia. }
    unfold max. rewrite !app_assoc. rewrite <- !app_assoc.
    rewrite !(app_assoc pre (entry_code _ _ _ _)). rewrite IH; [| done | | done | lia |].
    + rewrite <- app_assoc. simpl. by rewrite Nat.add_succ_r.
    + by rewrite <- app_assoc.
    + rewrite <- app_assoc. rewrite codes_cons, <- app_assoc in Hmax. done.
Qed.

(** * Consumption: every successful turn of the decoder advances *)

Lemma decode_len_loop_pos fuel input off i acc len j :
  0 <= i -> decode_len_loop fuel input off i acc = Some (inr (len, j)) -> i < j.
Proof.
  revert i acc; induction fuel as [| fuel IH]; intros i acc Hi; cbn [decode_len_loop]; [done |].
  intros E. apply bind_Some in E as (b & _ & E). case_match; [by simplify_eq; lia |].
  apply IH in E; lia.
Qed.

Lemma slice_nonneg {A} (l : list A) i n r : slice l i n = Some r -> 0 <= n.
Proof. unfold slice. zcases; simpl; intros; try done. Qed.

Lemma fill_ok_nonneg m p k v len t p' :
  vpd_fill_string_pair m p k v len t = Some (DPU_VPD_OK, p') -> 0 <= len.
Proof.
  unfold vpd_fill_string_pair. do 2 (case_match; [done |]).
  intros (x & Hx%slice_nonneg & _)%bind_Some. done.
Qed.

Lemma set_string_ok_nonneg m db k v len t db' :
  vpd_set_string m db k v len t = Some (DPU_VPD_OK, db') -> 0 <= len.
Proof.
  unfold vpd_set_string. intros (f & _ & E)%bind_Some. destruct f as [i |].
  - apply bind_Some in E as (p & _ & E). apply bind_Some in E as ([ret q] & E1 & E).
    injection E as -> _. by apply fill_ok_nonneg in E1.
  - case_match; [done |]. apply bind_Some in E as ([ret q] & E1 & E).
    case_decide; [subst | done]. by apply fill_ok_nonneg in E1.
Qed.

Lemma decode_cb_ok_nonneg oracle buf k_off key_len v_off len type arg arg' :
  vpd_decode_cb oracle buf k_off key_len v_off len type arg = Some (DPU_VPD_OK, arg') ->
  0 <= key_len /\ 0 <= len.
Proof.
  destruct arg as [n db]. unfold vpd_decode_cb. case_match; [done |].
  intros (kb & Hk%slice_nonneg & E)%bind_Some. apply bind_Some in E as ([ret d] & E1 & E).
  injection E as -> _. by apply set_string_ok_nonneg in E1.
Qed.

(** A decoded entry is at least three bytes long and starts inside the buffer. *)
Lemma decode_string_advances oracle max buf consumed arg consumed' arg' :
  vpd_decode_string (vpd_decode_cb oracle buf) max buf consumed arg
    = Some (DPU_VPD_OK, consumed', arg') ->
  consumed < max /\ consumed + 3 <= consumed'.
Proof.
  unfold vpd_decode_string. destruct (Z.leb_spec max consumed); [done |].
  intros (t & _ & E)%bind_Some. case_match; [done |].
  apply bind_Some in E as ([|[kl dl]] & E1 & E); [done |]. case_match; [done |].
  apply bind_Some in E as ([|[vl dl']] & E2 & E); [done |]. case_match; [done |].
  apply bind_Some in E as ([st a] & E3 & E). injection E as -> <- <-.
  apply decode_cb_ok_nonneg in E3 as []. apply decode_len_loop_pos in E1, E2; lia.
Qed.

Lemma decode_loop_fuel fuel oracle buf max consumed arg :
  0 <= consumed -> (Z.to_nat (max - consumed) < fuel)%nat ->
  decode_loop fuel oracle buf max consumed arg <> NoFuel.
Proof.
  revert consumed arg; induction fuel as [| fuel IH]; intros consumed arg Hc Hf; [lia |].
  simpl. destruct (vpd_decode_string _ _ _ _ _) as [[[ret c] a] |] eqn:E; [| done].
  case_decide; [subst | done]. apply decode_string_advances in E as [].
  apply IH; lia.
Qed.

(** * The database file *)

Lemma store_end {A} (l suf : list A) x v :
  store (l ++ x :: suf) (Z.of_nat (length l)) v = Some ((l ++ [v]) ++ suf).
Proof. rewrite store_app_mid, <- app_assoc. done. Qed.

Lemma db_write_file es stack :
  Z.of_nat (length stack) = FLASH_SIZE_VPD_DB ->
  Z.of_nat (length (codes es)) <= FLASH_SIZE_VPD_DB ->
  exists pad, stops pad
    /\ dpu_vpd_db_write stack true (fun n => n) (map pair_of es)
       = Some (DPU_VPD_OK, Some (codes es ++ pad))
    /\ Z.of_nat (length (codes es ++ pad)) mod 2 = 0
    /\ Z.of_nat (length (codes es ++ pad)) <= FLASH_SIZE_VPD_DB.
Proof.
  unfold dpu_vpd_db_write. change FLASH_SIZE_VPD_DB with 4096. intros Hs Hfit.
  destruct (encode_pairs_fits es 4096 stack 0) as [buf E]; [lia .. |].
  pose proof E as Hb. apply encode_pairs_inv in Hb as (Hb & _ & _); [| lia ..].
  apply blit_Some in Hb as (pre & mid & suf & -> & Hpre & Hmid & ->).
  destruct pre; [| simpl in Hpre; lia]. cbn [app length] in *. rewrite length_app, Hmid in Hs.
  unfold vpd_encode_container. rewrite E. cbn [mbind option_bind]. rewrite bool_decide_true by done.
  cbn [negb]. rewrite Z.add_0_l. set (n := Z.of_nat (length (codes es))) in *.
  destruct (Z.eqb_spec (n mod 2) 0) as [He | Ho]; cbn [negb andb].
  - exists []. cbn [mbind option_bind]. rewrite Z.eqb_refl, app_nil_r.
    split_and!; [done | | done | done]. unfold n. by rewrite Nat2Z.id, take_app_length.
  - assert (n <> 4096) by (intros E4; by rewrite E4 in Ho).
    destruct (Z.leb_spec 4096 n); [lia |]. exists [0xFF].
    destruct suf as [| x suf]; [simpl in Hs; lia |].
    pose proof (store_end (codes es) suf x 0xFF) as Hst. fold n in Hst. rewrite Hst. cbn [mbind option_bind]. rewrite Z.eqb_refl.
    rewrite length_app, Nat2Z.inj_add. change (Z.of_nat (length [255])) with 1. fold n.
    split_and!; [done | | pose proof (Z.mod_pos_bound n 2); pose proof (Z.div_mod n 2);
      symmetry; apply (Z.mod_unique _ _ (n / 2 + 1)); lia | lia].
    do 3 f_equal. apply take_app_length'. rewrite length_app. simpl. lia.
Qed.

Lemma db_init_file es pad oracle stack dual :
  Forall entry_ok es -> NoDup (keys es) -> good_oracle oracle -> stops pad ->
  Z.of_nat (length stack) = FLASH_SIZE_VPD_DB ->
  Z.of_nat (length (codes es ++ pad)) <= FLASH_SIZE_VPD_DB ->
  dpu_vpd_db_init oracle stack dual (Some (Some (codes es ++ pad)))
  = Done (DPU_VPD_OK, map pair_of es).
Proof.
  intros Hok Hnd Ho Hstop. unfold dpu_vpd_db_init. change FLASH_SIZE_VPD_DB with 4096.
  intros Hs Hfit. rewrite take_ge by lia.
  destruct (blit_in_range stack 0 (codes es ++ pad)) as [buf E]; [done | lia |].
  rewrite E. apply blit_Some in E as (pre & mid & suf & -> & Hpre & Hmid & ->).
  destruct pre; [| simpl in Hpre; lia]. unfold vpd_decode_to_container, vpd_init_container.
  pose proof (decode_loop_entries es oracle [] [] pad suf 0
    (S (Z.to_nat (Z.of_nat (length (codes es ++ pad))))) Ho Hok Hnd Hstop) as H.
  cbn [app length map] in *. rewrite <- app_assoc.
  change (Z.of_nat 0) with 0 in H. rewrite H; [done | | lia].
  rewrite Nat2Z.id, length_app. enough (length es <= length (codes es))%nat by lia.
  clear. induction es as [| [[k d] t] es IH]; [simpl; lia |].
  rewrite codes_cons, length_app, code_of_eq. simpl. lia.
Qed.

(** * The key/value interface *)

(** [vpd_set_string] with a working allocator replaces the value of a
    known key in place and appends an unknown one: the pairs then are those
    of the updated list, keys stay distinct, and as a finite map the database
    is updated at that key only. *)
Theorem vpd_set_string_spec m es k v len t :
  good m -> 0 <= len <= Z.of_nat (length v) -> NoDup (keys es) ->
  let d := take (Z.to_nat len) v in
  exists es',
    vpd_set_string m (map pair_of es) k v len t = Some (DPU_VPD_OK, map pair_of es')
    /\ NoDup (keys es')
    /\ to_map es' = <[k := (d, t)]> (to_map es)
    /\ keys es' = (if decide (k ∈ keys es) then keys es else keys es ++ [k]).
Proof.
  intros Hm Hlen Hnd d. exists (set_entry es k d t).
  split_and!; [by apply set_string_good | by apply set_entry_NoDup | apply to_map_set
    | apply set_entry_keys].
Qed.

Lemma vpd_set_string_spec_witness :
  exists es',
    vpd_set_string malloc_ok (map pair_of [([97], [1; 2], 2); ([98], [7], 1)]) [97] [5; 6; 9] 2 2
      = Some (DPU_VPD_OK, map pair_of es')
    /\ NoDup (keys es')
    /\ to_map es' = <[[97] := ([5; 6], 2)]> (to_map [([97], [1; 2], 2); ([98], [7], 1)])
    /\ keys es' = [[97]; [98]].
Proof.
  apply (vpd_set_string_spec malloc_ok [([97], [1; 2], 2); ([98], [7], 1)] [97] [5; 6; 9] 2 2).
  - by split_and!.
  - simpl. lia.
  - by apply (bool_decide_unpack _).
Defined.

(** C34: a database survives its file.  If [dpu_vpd_db_write] succeeds, with
    every byte accepted by [fwrite], the file has even size at most 4096 and
    [dpu_vpd_db_init] rebuilds exactly the database from it, whatever the
    stack buffers held; and it succeeds as soon as the entries' codes fit. *)
Theorem vpd_db_file_roundtrip es stack stack' oracle dual :
  Forall entry_ok es -> NoDup (keys es) -> good_oracle oracle ->
  Z.of_nat (length stack) = FLASH_SIZE_VPD_DB -> Z.of_nat (length stack') = FLASH_SIZE_VPD_DB ->
  Z.of_nat (length (codes es)) <= FLASH_SIZE_VPD_DB ->
  exists file,
    dpu_vpd_db_write stack true (fun n => n) (map pair_of es) = Some (DPU_VPD_OK, Some file)
    /\ Z.of_nat (length file) mod 2 = 0 /\ Z.of_nat (length file) <= FLASH_SIZE_VPD_DB
    /\ dpu_vpd_db_init oracle stack' dual (Some (Some file)) = Done (DPU_VPD_OK, map pair_of es).
Proof.
  intros Hok Hnd Ho Hs Hs' Hfit.
  destruct (db_write_file es stack Hs Hfit) as (pad & Hstop & Hw & Heven & Hle).
  exists (codes es ++ pad). split_and!; [done .. |]. by apply db_init_file.
Qed.

(** The built-in P21 database survives its file. *)
Lemma vpd_db_file_roundtrip_witness :
  exists file,
    dpu_vpd_db_write (replicate 4096 0) true (fun n => n) (map pair_of P21_vpd) = Some (DPU_VPD_OK, Some file)
    /\ Z.of_nat (length file) mod 2 = 0 /\ Z.of_nat (length file) <= FLASH_SIZE_VPD_DB
    /\ dpu_vpd_db_init (fun _ => malloc_ok) (replicate 4096 0xAA) 1 (Some (Some file))
       = Done (DPU_VPD_OK, map pair_of P21_vpd).
Proof.
  apply (vpd_db_file_roundtrip P21_vpd (replicate 4096 0) (replicate 4096 0xAA) (fun _ => malloc_ok) 1);
    [apply (bool_decide_unpack _); vm_compute; exact I .. | by intros n | | | vm_compute; discriminate];
    by vm_compute.
Defined.

(** Decoding terminates on every input: whatever the buffer, the lengths
    in it and the allocations' outcomes, [vpd_decode_to_container] returns
    [DPU_VPD_OK] with some database unless an access leaves the buffer; the
    loop never runs out of its [max_buf_len + 1] turns. *)
Theorem vpd_decode_to_container_terminates oracle buf max_buf_len db :
  vpd_decode_to_container oracle buf max_buf_len db <> NoFuel
  /\ forall ret db', vpd_decode_to_container oracle buf max_buf_len db = Done (ret, db') -> ret = DPU_VPD_OK.
Proof.
  unfold vpd_decode_to_container.
  pose proof (decode_loop_fuel (S (Z.to_nat max_buf_len)) oracle buf max_buf_len 0 (O, db)
    ltac:(lia) ltac:(lia)) as H.
  destruct (decode_loop _ _ _ _ _ _) as [[n d] | |]; (split; [done |]); intros ? ?; congruence.
Qed.

Lemma vpd_decode_to_container_terminates_witness :
  vpd_decode_to_container (fun _ => malloc_ok) [1; 1; 97; 1; 7; 0xFF] 6 [] <> NoFuel
  /\ forall ret db', vpd_decode_to_container (fun _ => malloc_ok) [1; 1; 97; 1; 7; 0xFF] 6 [] = Done (ret, db') -> ret = DPU_VPD_OK.
Proof. apply (vpd_decode_to_container_terminates (fun _ => malloc_ok) [1; 1; 97; 1; 7; 0xFF] 6 []). Defined.

(** * Failing allocations *)

Lemma destroy_freed db1 p db2 :
  key p = FREED -> vpd_destroy_container (db1 ++ p :: db2) = None.
Proof.
  intros Hp. induction db1 as [| q db1 IH]; simpl; [by rewrite Hp |].
  destruct (free_ptr (key q)), (free_ptr (value q)); simpl; auto.
Qed.

(** A failed [malloc] in [vpd_set_string].  For a new key the database is
    unchanged.  For a known key the old pair is lost: when the value's
    allocation fails its freed key stays in the list, so that destroying the
    database frees it twice. *)
Theorem vpd_set_string_no_memory m es k v len t :
  m_key m = true -> m_value m = false ->
  if decide (k ∈ keys es)
  then exists db, vpd_set_string m (map pair_of es) k v len t = Some (DPU_VPD_ERR, db)
         /\ length db = length es /\ vpd_destroy_container db = None
  else vpd_set_string m (map pair_of es) k v len t = Some (DPU_VPD_ERR, map pair_of es).
Proof.
  intros Hk Hv. unfold vpd_set_string. case_decide as Hin.
  - apply keys_split in Hin as (es1 & e & es2 & -> & <- & Hn).
    rewrite find_present by done. cbn [mbind option_bind].
    rewrite map_app. cbn [map]. rewrite list_lookup_middle by (by rewrite length_map).
    cbn [mbind option_bind]. unfold vpd_fill_string_pair. rewrite Hk, Hv.
    cbn [mbind option_bind negb]. eexists. split; [done |]. split.
    + rewrite length_insert, !length_app, length_map. simpl. by rewrite length_map.
    + replace (length es1) with (length (map pair_of es1) + 0)%nat by (rewrite length_map; lia).
      rewrite insert_app_r. by apply destroy_freed.
  - rewrite find_absent by done. cbn [mbind option_bind]. destruct (m_pair m); [| done].
    unfold vpd_fill_string_pair. rewrite Hk, Hv. done.
Qed.

Lemma vpd_set_string_no_memory_witness :
  exists db,
    vpd_set_string {| m_pair := true; m_key := true; m_value := false; m_key_string := true |}
      (map pair_of [([97], [1], 1)]) [97] [2] 1 1 = Some (DPU_VPD_ERR, db)
    /\ length db = 1%nat /\ vpd_destroy_container db = None.
Proof.
  exact (vpd_set_string_no_memory {| m_pair := true; m_key := true; m_value := false; m_key_string := true |}
    [([97], [1], 1)] [97] [2] 1 1 eq_refl eq_refl).
Defined.

(** [vpd_decode_string] does not compare the key and value lengths it reads
    with the space left: a truncated entry is read past the buffer. *)
Lemma vpd_decode_overread :
  vpd_decode_to_container (fun _ => malloc_ok) [1; 1; 97; 5] 4 [] = Stuck.
Proof. by vm_compute. Qed.

(** [vpd_encode_len] compares the length with the space before clamping it to
    one byte: with no space left it writes one byte past the buffer. *)
Lemma vpd_encode_overflow : vpd_encode_string [97] [] 0 VPD_TYPE_BYTE 3 [0; 0; 0] 0 = None.
Proof. by vm_compute. Qed.
