(* ===== verification/Vpd.v ===== *)
(** The VPD structure of a DIMM (library/src/backends/vpd/src/dpu_vpd.c and
    backends/api/include/lowlevel/dpu_vpd_structures.h): header, repair
    entries, disabled DPUs, its file and the flashing commands.

    A file is its list of bytes; the outcome of each call of the C library is
    an argument; [None] is an access outside an array or an undefined shift. *)
From Stdlib Require Import Strings.String.
From stdpp Require Import list pretty.
From S2P Require Import Prelude VpdCodec VpdDb.

(** * Data *)

Record dpu_vpd_rank_data := { dpu_disabled : Z; wram_repair : Z; iram_repair : Z }.

Record dpu_vpd_repair_entry := {
  iram_wram : Z; rank : Z; ci : Z; dpu : Z; bank : Z; padding : Z; address : Z; bits : Z }.

Record dpu_vpd_header := {
  struct_id : list Z;
  struct_ver : Z;
  struct_size : Z;
  rank_count : Z;
  padding_0 : Z;
  repair_count : Z;
  padding_1 : Z;
  ranks : list dpu_vpd_rank_data }.

Record dpu_vpd := { vpd_header : dpu_vpd_header; repair_entries : list dpu_vpd_repair_entry }.

#[export] Instance dpu_vpd_repair_entry_eq_dec : EqDecision dpu_vpd_repair_entry.
Proof. solve_decision. Defined.
#[export] Instance dpu_vpd_rank_data_eq_dec : EqDecision dpu_vpd_rank_data.
Proof. solve_decision. Defined.

Definition VPD_MAX_RANK : Z := 4.
Definition VPD_STRUCT_ID : list Z := chars "UPMV".
Definition VPD_STRUCT_VERSION : Z := 0x0004000.
Definition VPD_MAX_SIZE : Z := 2048.
Definition VPD_UNDEFINED_REPAIR_COUNT : Z := u16 (-1).
Definition DPU_VPD_REPAIR_IRAM : Z := 0.
Definition DPU_MAX_NR_DPUS_PER_CI : Z := 8.
Definition sizeof_dpu_vpd_header : Z := 112.
Definition sizeof_dpu_vpd_repair_entry : Z := 16.
Definition NB_MAX_REPAIR : Z := (VPD_MAX_SIZE - sizeof_dpu_vpd_header) / sizeof_dpu_vpd_repair_entry.

Definition set_ranks (vpd : dpu_vpd) (r : list dpu_vpd_rank_data) : dpu_vpd :=
  let h := vpd_header vpd in
  {| vpd_header := {| struct_id := struct_id h; struct_ver := struct_ver h; struct_size := struct_size h;
       rank_count := rank_count h; padding_0 := padding_0 h; repair_count := repair_count h;
       padding_1 := padding_1 h; ranks := r |};
     repair_entries := repair_entries vpd |}.

Definition set_repair_count (vpd : dpu_vpd) (n : Z) : dpu_vpd :=
  let h := vpd_header vpd in
  {| vpd_header := {| struct_id := struct_id h; struct_ver := struct_ver h; struct_size := struct_size h;
       rank_count := rank_count h; padding_0 := padding_0 h; repair_count := n;
       padding_1 := padding_1 h; ranks := ranks h |};
     repair_entries := repair_entries vpd |}.

Definition set_repair_entries (vpd : dpu_vpd) (l : list dpu_vpd_repair_entry) : dpu_vpd :=
  {| vpd_header := vpd_header vpd; repair_entries := l |}.

(** * Repair entries and disabled DPUs *)

Definition __dpu_vpd_compare_repair_entry (a b : dpu_vpd_repair_entry) : bool :=
  (iram_wram a =? iram_wram b) && (rank a =? rank b) && (ci a =? ci b) && (dpu a =? dpu b)
  && (bank a =? bank b) && (address a =? address b) && (bits a =? bits b).

(** The loop over the first [n] entries from index [i]: whether one matches. *)
Fixpoint find_repair (n : nat) (entries : list dpu_vpd_repair_entry) (i : Z) (e : dpu_vpd_repair_entry)
  : option bool :=
  match n with
  | O => Some false
  | S n =>
    e' ← load entries i;
    if __dpu_vpd_compare_repair_entry e' e then Some true else find_repair n entries (i + 1) e
  end.

(** [1ULL << (slice_id * DPU_MAX_NR_DPUS_PER_CI + dpu_id)]. *)
Definition dpu_mask (slice_id dpu_id : Z) : option Z :=
  let sh := slice_id * DPU_MAX_NR_DPUS_PER_CI + dpu_id in
  if (0 <=? sh) && (sh <? 64) then Some (Z.shiftl 1 sh) else None.

Definition add_repair_bit (r : dpu_vpd_rank_data) (type mask : Z) : dpu_vpd_rank_data :=
  if type =? DPU_VPD_REPAIR_IRAM
  then {| dpu_disabled := dpu_disabled r; wram_repair := wram_repair r;
          iram_repair := Z.lor (iram_repair r) mask |}
  else {| dpu_disabled := dpu_disabled r; wram_repair := Z.lor (wram_repair r) mask;
          iram_repair := iram_repair r |}.

Definition dpu_vpd_add_repair_entry (vpd : dpu_vpd) (e : dpu_vpd_repair_entry)
  : option (dpu_vpd_error * dpu_vpd) :=
  if repair_count (vpd_header vpd) =? NB_MAX_REPAIR then Some (DPU_VPD_ERR_NB_MAX_REPAIR, vpd)
  else
    let vpd := if repair_count (vpd_header vpd) =? VPD_UNDEFINED_REPAIR_COUNT
               then set_repair_count vpd 0 else vpd in
    let n := repair_count (vpd_header vpd) in
    found ← find_repair (Z.to_nat n) (repair_entries vpd) 0 e;
    if (found : bool) then Some (DPU_VPD_OK, vpd)
    else
      r ← load (ranks (vpd_header vpd)) (rank e);
      mask ← dpu_mask (ci e) (dpu e);
      rs ← store (ranks (vpd_header vpd)) (rank e) (add_repair_bit r (iram_wram e) mask);
      es ← store (repair_entries vpd) n e;
      Some (DPU_VPD_OK, set_repair_count (set_repair_entries (set_ranks vpd rs) es) (u16 (n + 1))).

Definition set_disabled (r : dpu_vpd_rank_data) (d : Z) : dpu_vpd_rank_data :=
  {| dpu_disabled := d; wram_repair := wram_repair r; iram_repair := iram_repair r |}.

Definition dpu_vpd_disable_dpu (vpd : dpu_vpd) (rank_index_in_dimm slice_id dpu_id : Z)
  : option (dpu_vpd_error * dpu_vpd) :=
  mask ← dpu_mask slice_id dpu_id;
  r ← load (ranks (vpd_header vpd)) rank_index_in_dimm;
  if Z.land (dpu_disabled r) mask =? 0 then
    rs ← store (ranks (vpd_header vpd)) rank_index_in_dimm (set_disabled r (Z.lor (dpu_disabled r) mask));
    Some (DPU_VPD_OK, set_ranks vpd rs)
  else Some (DPU_VPD_ERR_DPU_ALREADY_DISABLED, vpd).

Definition dpu_vpd_enable_dpu (vpd : dpu_vpd) (rank_index_in_dimm slice_id dpu_id : Z)
  : option (dpu_vpd_error * dpu_vpd) :=
  mask ← dpu_mask slice_id dpu_id;
  r ← load (ranks (vpd_header vpd)) rank_index_in_dimm;
  if negb (Z.land (dpu_disabled r) mask =? 0) then
    rs ← store (ranks (vpd_header vpd)) rank_index_in_dimm (set_disabled r (Z.ldiff (dpu_disabled r) mask));
    Some (DPU_VPD_OK, set_ranks vpd rs)
  else Some (DPU_VPD_ERR_DPU_ALREADY_ENABLED, vpd).

(** * The structures as bytes (little-endian, natural alignment) *)

Definition rank_bytes (r : dpu_vpd_rank_data) : list Z :=
  le_bytes 8 (dpu_disabled r) ++ le_bytes 8 (wram_repair r) ++ le_bytes 8 (iram_repair r).

Definition header_bytes (h : dpu_vpd_header) : list Z :=
  struct_id h ++ le_bytes 4 (struct_ver h) ++ le_bytes 2 (struct_size h) ++ le_bytes 1 (rank_count h)
    ++ le_bytes 1 (padding_0 h) ++ le_bytes 2 (repair_count h) ++ le_bytes 2 (padding_1 h)
    ++ concat (map rank_bytes (ranks h)).

Definition entry_bytes (e : dpu_vpd_repair_entry) : list Z :=
  le_bytes 1 (iram_wram e) ++ le_bytes 1 (rank e) ++ le_bytes 1 (ci e) ++ le_bytes 1 (dpu e)
    ++ le_bytes 1 (bank e) ++ le_bytes 1 (padding e) ++ le_bytes 2 (address e) ++ le_bytes 8 (bits e).

Definition get_le (n : nat) (l : list Z) : option (Z * list Z) :=
  if (n <=? length l)%nat then Some (le_val (take n l), drop n l) else None.

Definition get_rank (l : list Z) : option (dpu_vpd_rank_data * list Z) :=
  '(d, l) ← get_le 8 l; '(w, l) ← get_le 8 l; '(i, l) ← get_le 8 l;
  Some ({| dpu_disabled := d; wram_repair := w; iram_repair := i |}, l).

(** [fread] of one header; [None] when the file is too short. *)
Definition get_header (l : list Z) : option (dpu_vpd_header * list Z) :=
  if (length l <? 4)%nat then None
  else
    let id := take 4 l in
    let l := drop 4 l in
    '(ver, l) ← get_le 4 l; '(size, l) ← get_le 2 l; '(rc, l) ← get_le 1 l; '(p0, l) ← get_le 1 l;
    '(n, l) ← get_le 2 l; '(p1, l) ← get_le 2 l;
    '(r0, l) ← get_rank l; '(r1, l) ← get_rank l; '(r2, l) ← get_rank l; '(r3, l) ← get_rank l;
    Some ({| struct_id := id; struct_ver := ver; struct_size := size; rank_count := rc;
             padding_0 := p0; repair_count := n; padding_1 := p1; ranks := [r0; r1; r2; r3] |}, l).

Definition get_entry (l : list Z) : option (dpu_vpd_repair_entry * list Z) :=
  '(t, l) ← get_le 1 l; '(r, l) ← get_le 1 l; '(c, l) ← get_le 1 l; '(d, l) ← get_le 1 l;
  '(b, l) ← get_le 1 l; '(p, l) ← get_le 1 l; '(a, l) ← get_le 2 l; '(w, l) ← get_le 8 l;
  Some ({| iram_wram := t; rank := r; ci := c; dpu := d; bank := b; padding := p;
           address := a; bits := w |}, l).

(** * Reading and writing the file *)

(** The reading loop; every turn takes bytes off the file. *)
Fixpoint read_entries (fuel : nat) (file : list Z) (entries : list dpu_vpd_repair_entry) (repair_count : Z)
  : option (list dpu_vpd_repair_entry) :=
  match fuel with
  | O => Some entries
  | S fuel =>
    match get_entry file with
    | None => Some entries
    | Some (e, file) =>
      entries ← store entries repair_count e;
      read_entries fuel file entries (u16 (repair_count + 1))
    end
  end.

Definition zero_rank : dpu_vpd_rank_data := {| dpu_disabled := 0; wram_repair := 0; iram_repair := 0 |}.

(** [vpd] is the caller's uninitialised structure. *)
Definition dpu_vpd_init (vpd_path : option (option (list Z))) (vpd : dpu_vpd)
  : option (dpu_vpd_error * dpu_vpd) :=
  match vpd_path with
  | None =>
    Some (DPU_VPD_OK,
      {| vpd_header := {| struct_id := VPD_STRUCT_ID; struct_ver := VPD_STRUCT_VERSION;
           struct_size := sizeof_dpu_vpd_header; rank_count := 0; padding_0 := 0;
           repair_count := VPD_UNDEFINED_REPAIR_COUNT; padding_1 := 0;
           ranks := [zero_rank; zero_rank; zero_rank; zero_rank] |};
         repair_entries := repair_entries vpd |})
  | Some None => Some (DPU_VPD_ERR, vpd)
  | Some (Some file) =>
    match get_header file with
    | None => Some (DPU_VPD_ERR, vpd)
    | Some (h, file) =>
      let vpd := {| vpd_header := h; repair_entries := repair_entries vpd |} in
      if negb (bool_decide (struct_id h = VPD_STRUCT_ID)) then Some (DPU_VPD_ERR_HEADER_FORMAT, vpd)
      else if negb (struct_ver h =? VPD_STRUCT_VERSION) then Some (DPU_VPD_ERR_HEADER_VERSION, vpd)
      else if repair_count h =? VPD_UNDEFINED_REPAIR_COUNT then Some (DPU_VPD_OK, vpd)
      else
        es ← read_entries (length file) file (repair_entries vpd) 0;
        Some (DPU_VPD_OK, set_repair_entries vpd es)
    end
  end.

(** [fwrite] of one item: an item of size 0 is never written. *)
Definition fwrite1 (ok : bool) (item f : list Z) : bool * list Z :=
  if ok && negb (length item =? 0)%nat then (true, f ++ item) else (false, f).

(** [fok n]: whether the [n]-th [fwrite] succeeds. *)
Fixpoint write_entries (n : nat) (fok : nat -> bool) (entries : list dpu_vpd_repair_entry) (repair : Z)
    (f : list Z) : option (bool * list Z) :=
  match n with
  | O => Some (true, f)
  | S n =>
    e ← load entries repair;
    let '(ok, f) := fwrite1 (fok (S (Z.to_nat repair))) (entry_bytes e) f in
    if (ok : bool) then write_entries n fok entries (repair + 1) f else Some (false, f)
  end.

Definition VPD_SIZE_CHUNK_MULTIPLE : Z := 272.

Definition size_align (size_written : Z) : Z :=
  Z.min (u64 (VPD_MAX_SIZE - size_written)) (VPD_SIZE_CHUNK_MULTIPLE - size_written mod VPD_SIZE_CHUNK_MULTIPLE).

(** The bytes written over the file: status and bytes. *)
Definition dpu_vpd_write_bytes (fok : nat -> bool) (vpd : dpu_vpd) : option (dpu_vpd_error * list Z) :=
  let h := vpd_header vpd in
  let '(ok, f) := fwrite1 (fok O) (header_bytes h) [] in
  if negb ok then Some (DPU_VPD_ERR, f)
  else
    let count := if repair_count h =? VPD_UNDEFINED_REPAIR_COUNT then 0 else repair_count h in
    r ← write_entries (Z.to_nat count) fok (repair_entries vpd) 0 f;
    let '(ok, f) := r in
    if negb ok then Some (DPU_VPD_ERR, f)
    else
      let size_written := sizeof_dpu_vpd_header + count * sizeof_dpu_vpd_repair_entry in
      let '(ok, f) := fwrite1 (fok (S (Z.to_nat count))) (replicate (Z.to_nat (size_align size_written)) 0) f in
      Some (if (ok : bool) then DPU_VPD_OK else DPU_VPD_ERR, f).

(** [old]: the existing file, opened in place ([r+]); a missing one is
    created.  Result: status and file, [None] when it could not be opened. *)
Definition dpu_vpd_write (fopen_ok : bool) (fok : nat -> bool) (vpd : dpu_vpd) (old : option (list Z))
  : option (dpu_vpd_error * option (list Z)) :=
  if negb fopen_ok then Some (DPU_VPD_ERR, None)
  else
    r ← dpu_vpd_write_bytes fok vpd;
    let '(err, f) := r in
    Some (err, Some (f ++ drop (length f) (default [] old))).

(** * Disabled DPUs *)

Definition rank_of (vpd : dpu_vpd) (r : Z) : dpu_vpd_rank_data :=
  default zero_rank (ranks (vpd_header vpd) !! Z.to_nat r).

Definition dpu_bit (s d : Z) : Z := s * 8 + d.

(** Coordinates of a DPU of the DIMM. *)
Definition dpu_coord (r s d : Z) : Prop := 0 <= r < 4 /\ 0 <= s < 8 /\ 0 <= d < 8.

Definition is_disabled (vpd : dpu_vpd) (r s d : Z) : bool := Z.testbit (dpu_disabled (rank_of vpd r)) (dpu_bit s d).

Lemma dpu_mask_eq r s d : dpu_coord r s d -> dpu_mask s d = Some (2 ^ dpu_bit s d).
Proof.
  intros (Hr & Hs & Hd). unfold dpu_mask, dpu_bit. change DPU_MAX_NR_DPUS_PER_CI with 8.
  zcases; simpl; try lia. by rewrite shiftl_1_pow2 by lia.
Qed.

Lemma load_rank vpd r :
  0 <= r < Z.of_nat (length (ranks (vpd_header vpd))) ->
  load (ranks (vpd_header vpd)) r = Some (rank_of vpd r).
Proof.
  intros Hr. rewrite load_lookup by lia. unfold rank_of.
  destruct (lookup_lt_is_Some_2 (ranks (vpd_header vpd)) (Z.to_nat r)) as [x E]; [lia |].
  by rewrite E.
Qed.

Lemma rank_of_set vpd r r' x :
  0 <= r < Z.of_nat (length (ranks (vpd_header vpd))) -> 0 <= r' ->
  rank_of (set_ranks vpd (<[Z.to_nat r := x]> (ranks (vpd_header vpd)))) r'
  = if r' =? r then x else rank_of vpd r'.
Proof.
  intros Hr Hr'. unfold rank_of, set_ranks. simpl. destruct (Z.eqb_spec r' r) as [-> |].
  - by rewrite list_lookup_insert_eq by lia.
  - by rewrite list_lookup_insert_ne by lia.
Qed.

Lemma dpu_bit_inj r s d r' s' d' :
  dpu_coord r s d -> dpu_coord r' s' d' ->
  (r' =? r) && (dpu_bit s' d' =? dpu_bit s d) = (r' =? r) && (s' =? s) && (d' =? d).
Proof. unfold dpu_coord, dpu_bit. intros. zcases; simpl; try done; lia. Qed.

Lemma set_ranks_self vpd r :
  0 <= r < Z.of_nat (length (ranks (vpd_header vpd))) ->
  set_ranks vpd (<[Z.to_nat r := rank_of vpd r]> (ranks (vpd_header vpd))) = vpd.
Proof.
  intros Hr. rewrite list_insert_id.
  - by destruct vpd as [[] ?].
  - rewrite <- load_lookup by lia. by apply load_rank.
Qed.

(** [dpu_vpd_disable_dpu] reports whether the DPU already was disabled,
    disables that DPU and no other of the DIMM, and [dpu_vpd_enable_dpu]
    undoes a successful call exactly. *)
Theorem dpu_vpd_disable_spec vpd r s d :
  dpu_coord r s d -> length (ranks (vpd_header vpd)) = 4%nat ->
  exists vpd',
    dpu_vpd_disable_dpu vpd r s d
      = Some (if is_disabled vpd r s d then DPU_VPD_ERR_DPU_ALREADY_DISABLED else DPU_VPD_OK, vpd')
    /\ (forall r' s' d', dpu_coord r' s' d' ->
          is_disabled vpd' r' s' d' = is_disabled vpd r' s' d' || (r' =? r) && (s' =? s) && (d' =? d))
    /\ dpu_vpd_enable_dpu vpd' r s d
       = Some (DPU_VPD_OK, if is_disabled vpd r s d then
           set_ranks vpd (<[Z.to_nat r := set_disabled (rank_of vpd r)
             (Z.ldiff (dpu_disabled (rank_of vpd r)) (2 ^ dpu_bit s d))]> (ranks (vpd_header vpd)))
           else vpd).
Proof.
  intros Hc Hl. pose proof Hc as (Hr & Hs & Hd).
  assert (0 <= dpu_bit s d) by (unfold dpu_bit; lia).
  assert (0 <= r < Z.of_nat (length (ranks (vpd_header vpd)))) as Hr' by lia.
  unfold dpu_vpd_disable_dpu, dpu_vpd_enable_dpu. rewrite (dpu_mask_eq r s d) by done.
  cbn [mbind option_bind]. rewrite (load_rank vpd) by done. cbn [mbind option_bind].
  rewrite land_pow2_eqb by done. fold (is_disabled vpd r s d).
  destruct (is_disabled vpd r s d) eqn:Hb; cbn [negb].
  - exists vpd. split; [done |]. split.
    + intros r' s' d' Hc'. destruct ((r' =? r) && (s' =? s) && (d' =? d)) eqn:E; [| by rewrite orb_false_r].
      rewrite !andb_true_iff, !Z.eqb_eq in E. destruct E as [[-> ->] ->]. by rewrite Hb.
    + rewrite load_rank by done. cbn [mbind option_bind]. rewrite land_pow2_eqb by done.
      fold (is_disabled vpd r s d). rewrite Hb. simpl. by rewrite store_insert by done.
  - rewrite store_insert by done. cbn [mbind option_bind]. eexists. split; [done |]. split.
    + intros r' s' d' Hc'. pose proof Hc' as (? & ? & ?). unfold is_disabled.
      rewrite rank_of_set by lia. rewrite <- (dpu_bit_inj r s d r' s' d') by done.
      destruct (Z.eqb_spec r' r) as [-> |]; simpl; [| by rewrite orb_false_r].
      apply testbit_set; unfold dpu_bit; lia.
    + rewrite load_rank by (cbn; rewrite length_insert; lia). cbn [mbind option_bind].
      rewrite rank_of_set, Z.eqb_refl by lia. rewrite land_pow2_eqb by done.
      cbn [dpu_disabled set_disabled]. rewrite testbit_set, Z.eqb_refl, orb_true_r by lia. cbn [negb].
      rewrite store_insert by (cbn; rewrite length_insert; lia). cbn [mbind option_bind].
      do 2 f_equal. cbn [vpd_header ranks set_ranks]. rewrite list_insert_insert_eq.
      rewrite clear_set by done.
      match goal with |- context [set_disabled (set_disabled ?a ?b) ?c] =>
        replace (set_disabled (set_disabled a b) c) with a by (by destruct a) end.
      exact (set_ranks_self vpd r Hr').
Qed.

Lemma dpu_vpd_disable_spec_witness :
  let vpd := {| vpd_header := {| struct_id := VPD_STRUCT_ID; struct_ver := VPD_STRUCT_VERSION;
      struct_size := 112; rank_count := 2; padding_0 := 0; repair_count := 0; padding_1 := 0;
      ranks := replicate 4 zero_rank |}; repair_entries := [] |} in
  exists vpd', dpu_vpd_disable_dpu vpd 1 7 7 = Some (DPU_VPD_OK, vpd')
    /\ (forall r' s' d', dpu_coord r' s' d' ->
          is_disabled vpd' r' s' d' = is_disabled vpd r' s' d' || (r' =? 1) && (s' =? 7) && (d' =? 7))
    /\ dpu_vpd_enable_dpu vpd' 1 7 7 = Some (DPU_VPD_OK, vpd).
Proof. intros vpd. apply (dpu_vpd_disable_spec vpd 1 7 7); [unfold dpu_coord; lia | done]. Defined.

(** * The list of repairs *)

(** The entries in use. *)
Definition active (vpd : dpu_vpd) : list dpu_vpd_repair_entry :=
  if repair_count (vpd_header vpd) =? VPD_UNDEFINED_REPAIR_COUNT then []
  else take (Z.to_nat (repair_count (vpd_header vpd))) (repair_entries vpd).

Definition repair_bit (vpd : dpu_vpd) (iram : bool) (r s d : Z) : bool :=
  Z.testbit ((if iram then iram_repair else wram_repair) (rank_of vpd r)) (dpu_bit s d).

Definition repairs_dpu (iram : bool) (r s d : Z) (e : dpu_vpd_repair_entry) : bool :=
  Bool.eqb (iram_wram e =? DPU_VPD_REPAIR_IRAM) iram && (rank e =? r) && (ci e =? s) && (dpu e =? d).

(** The masks of the header summarise the entries, which are distinct. *)
Record repairs_ok (vpd : dpu_vpd) : Prop := {
  ok_ranks : length (ranks (vpd_header vpd)) = 4%nat;
  ok_entries : Z.of_nat (length (repair_entries vpd)) = NB_MAX_REPAIR;
  ok_count : repair_count (vpd_header vpd) = VPD_UNDEFINED_REPAIR_COUNT
             \/ 0 <= repair_count (vpd_header vpd) <= NB_MAX_REPAIR;
  ok_masks : forall iram r s d, dpu_coord r s d ->
    repair_bit vpd iram r s d = existsb (repairs_dpu iram r s d) (active vpd);
  ok_distinct : forall l1 e l2, active vpd = l1 ++ e :: l2 ->
    existsb (fun e' => __dpu_vpd_compare_repair_entry e' e) l1 = false }.

Lemma find_repair_spec n es pre e :
  (n <= length es)%nat ->
  find_repair n (pre ++ es) (Z.of_nat (length pre)) e
  = Some (existsb (fun e' => __dpu_vpd_compare_repair_entry e' e) (take n es)).
Proof.
  revert es pre; induction n as [| n IH]; intros es pre Hn; [done |].
  destruct es as [| x es]; [simpl in Hn; lia |]. simpl.
  rewrite load_app_mid. cbn [mbind option_bind].
  destruct (__dpu_vpd_compare_repair_entry x e); [done |]. simpl.
  rewrite (cons_app x es), app_assoc.
  replace (Z.of_nat (length pre) + 1) with (Z.of_nat (length (pre ++ [x])))
    by (rewrite length_app; simpl; lia).
  apply IH. simpl in Hn. lia.
Qed.

Lemma repairs_ok_reset vpd :
  repairs_ok vpd -> repair_count (vpd_header vpd) = VPD_UNDEFINED_REPAIR_COUNT ->
  repairs_ok (set_repair_count vpd 0) /\ active (set_repair_count vpd 0) = active vpd.
Proof.
  intros [Hr He Hc Hm Hd] Hu.
  assert (active (set_repair_count vpd 0) = active vpd) as E.
  { unfold active. rewrite Hu, Z.eqb_refl. by cbn. }
  split; [| done]. constructor; try done.
  - right. cbn. by vm_compute.
  - intros iram r s d Hco. rewrite E. by apply Hm.
  - rewrite E. done.
Qed.

(** The structure after a new entry. *)
Definition add_entry (vpd : dpu_vpd) (e : dpu_vpd_repair_entry) : dpu_vpd :=
  let n := repair_count (vpd_header vpd) in
  let r := add_repair_bit (rank_of vpd (rank e)) (iram_wram e) (2 ^ dpu_bit (ci e) (dpu e)) in
  set_repair_count (set_repair_entries
    (set_ranks vpd (<[Z.to_nat (rank e) := r]> (ranks (vpd_header vpd))))
    (<[Z.to_nat n := e]> (repair_entries vpd))) (n + 1).

Lemma active_add_entry vpd e :
  repairs_ok vpd -> 0 <= repair_count (vpd_header vpd) < NB_MAX_REPAIR ->
  active (add_entry vpd e) = active vpd ++ [e].
Proof.
  intros [Hr He Hc Hm Hd] Hn. unfold active, add_entry. cbn.
  change VPD_UNDEFINED_REPAIR_COUNT with 65535. change NB_MAX_REPAIR with 121 in *.
  zcases; try lia. rewrite insert_take_drop by lia. rewrite take_app_ge by (rewrite length_take; lia).
  rewrite length_take. replace (_ - _)%nat with 1%nat by lia.
  done.
Qed.

Lemma repair_bit_add_entry vpd e iram r s d :
  length (ranks (vpd_header vpd)) = 4%nat ->
  dpu_coord (rank e) (ci e) (dpu e) -> dpu_coord r s d ->
  repair_bit (add_entry vpd e) iram r s d = repair_bit vpd iram r s d || repairs_dpu iram r s d e.
Proof.
  intros Hr He Hc. pose proof Hc as (Hr1 & Hs1 & Hd1). pose proof He as (Hr2 & Hs2 & Hd2).
  unfold repair_bit.
  change (rank_of (add_entry vpd e) r) with (rank_of (set_ranks vpd (<[Z.to_nat (rank e) :=
    add_repair_bit (rank_of vpd (rank e)) (iram_wram e) (2 ^ dpu_bit (ci e) (dpu e))]>
    (ranks (vpd_header vpd)))) r).
  rewrite rank_of_set by lia. unfold repairs_dpu.
  rewrite (Z.eqb_sym (rank e)), (Z.eqb_sym (ci e)), (Z.eqb_sym (dpu e)).
  rewrite <- !andb_assoc, (andb_assoc (r =? rank e)), <- (dpu_bit_inj (rank e) (ci e) (dpu e)) by done.
  destruct (Z.eqb_spec r (rank e)) as [-> |]; simpl; [| by rewrite andb_false_r, orb_false_r].
  unfold add_repair_bit.
  destruct (iram_wram e =? DPU_VPD_REPAIR_IRAM), iram; simpl; rewrite ?orb_false_r; try done;
    apply testbit_set; unfold dpu_bit; lia.
Qed.

Lemma repairs_ok_add vpd e :
  repairs_ok vpd -> 0 <= repair_count (vpd_header vpd) < NB_MAX_REPAIR ->
  dpu_coord (rank e) (ci e) (dpu e) ->
  existsb (fun e' => __dpu_vpd_compare_repair_entry e' e) (active vpd) = false ->
  repairs_ok (add_entry vpd e).
Proof.
  intros Hok Hn He Hnew. pose proof Hok as [Hr Hes Hc Hm Hd].
  pose proof (active_add_entry vpd e Hok Hn) as Ha. constructor.
  - cbn. by rewrite length_insert.
  - cbn. by rewrite length_insert.
  - right. cbn. lia.
  - intros iram r s d Hco. rewrite repair_bit_add_entry, Ha, Hm by done.
    rewrite existsb_app. simpl. by rewrite orb_false_r.
  - rewrite Ha. intros l1 x l2 E. destruct l2 as [| y l2 _] using rev_ind.
    + apply app_inj_2 in E as [<- [= <-]]; done.
    + rewrite app_comm_cons, app_assoc in E. apply app_inj_2 in E as [E _]; [| done].
      by apply (Hd l1 x l2).
Qed.

(** The repair list.  While the masks of the header are the summary of
    the entries, [dpu_vpd_add_repair_entry] keeps them so, adds the entry
    once (a known one changes nothing), and refuses the entry after the last. *)
Theorem dpu_vpd_add_repair_entry_ok vpd e :
  repairs_ok vpd -> dpu_coord (rank e) (ci e) (dpu e) ->
  let full := repair_count (vpd_header vpd) =? NB_MAX_REPAIR in
  let known := existsb (fun e' => __dpu_vpd_compare_repair_entry e' e) (active vpd) in
  exists vpd',
    dpu_vpd_add_repair_entry vpd e = Some (if full then DPU_VPD_ERR_NB_MAX_REPAIR else DPU_VPD_OK, vpd')
    /\ repairs_ok vpd'
    /\ active vpd' = (if full || known then active vpd else active vpd ++ [e]).
Proof.
  intros Hok He. cbn zeta. unfold dpu_vpd_add_repair_entry.
  destruct (Z.eqb_spec (repair_count (vpd_header vpd)) NB_MAX_REPAIR) as [Hf | Hf]; [by eauto |].
  cbn [orb]. set (vpd1 := if _ : bool then set_repair_count vpd 0 else vpd).
  assert (repairs_ok vpd1 /\ active vpd1 = active vpd /\ 0 <= repair_count (vpd_header vpd1) < NB_MAX_REPAIR)
    as (Hok1 & <- & Hn).
  { unfold vpd1. destruct (Z.eqb_spec (repair_count (vpd_header vpd)) VPD_UNDEFINED_REPAIR_COUNT) as [Hu | Hu].
    - destruct (repairs_ok_reset vpd Hok Hu) as [? ?]. by split_and!.
    - split_and!; [done | done | | ]; destruct (ok_count _ Hok); lia. }
  clearbody vpd1. pose proof Hok1 as [Hr Hes Hc _ _].
  assert (active vpd1 = take (Z.to_nat (repair_count (vpd_header vpd1))) (repair_entries vpd1)) as Ha.
  { unfold active. change VPD_UNDEFINED_REPAIR_COUNT with 65535. change NB_MAX_REPAIR with 121 in *.
    zcases; [lia | done]. }
  change (find_repair ?n ?l 0 e) with (find_repair n ([] ++ l) (Z.of_nat (@length dpu_vpd_repair_entry [])) e).
  rewrite find_repair_spec by lia. rewrite <- Ha. cbn [mbind option_bind].
  destruct (existsb _ (active vpd1)) eqn:Hk; [by eauto |].
  pose proof He as (? & ? & ?). rewrite load_rank by lia. cbn [mbind option_bind].
  rewrite (dpu_mask_eq (rank e)) by done. cbn [mbind option_bind].
  rewrite store_insert by lia. cbn [mbind option_bind].
  rewrite store_insert by lia. cbn [mbind option_bind].
  change NB_MAX_REPAIR with 121 in *. rewrite wrap_small by (change (2 ^ 16) with 65536; lia).
  exists (add_entry vpd1 e). split_and!; [done | by apply repairs_ok_add | by apply active_add_entry].
Qed.

Definition empty_header : dpu_vpd_header :=
  {| struct_id := VPD_STRUCT_ID; struct_ver := VPD_STRUCT_VERSION; struct_size := sizeof_dpu_vpd_header;
     rank_count := 0; padding_0 := 0; repair_count := VPD_UNDEFINED_REPAIR_COUNT; padding_1 := 0;
     ranks := [zero_rank; zero_rank; zero_rank; zero_rank] |}.

Definition repair_sample (d : Z) : dpu_vpd_repair_entry :=
  {| iram_wram := 1; rank := 1; ci := 7; dpu := d; bank := 2; padding := 0; address := 513; bits := 2 ^ 40 |}.

(** Structures as [dpu_vpd_init] makes them by default satisfy the invariant. *)
Lemma repairs_ok_empty es :
  Z.of_nat (length es) = NB_MAX_REPAIR -> repairs_ok {| vpd_header := empty_header; repair_entries := es |}.
Proof.
  intros Hes. constructor; try done.
  - by left.
  - intros iram r s d (Hr & Hs & Hd). unfold repair_bit, rank_of. cbn [vpd_header ranks empty_header].
    assert (([zero_rank; zero_rank; zero_rank; zero_rank] !! Z.to_nat r) = Some zero_rank) as ->.
    { destruct (Z.to_nat r) as [| [| [| [|]]]] eqn:E; try done. lia. }
    destruct iram; cbn; apply Z.bits_0.
  - intros [] ? ? [=].
Qed.

Lemma dpu_vpd_add_repair_entry_ok_witness :
  let vpd := {| vpd_header := empty_header; repair_entries := replicate 121 (repair_sample 0) |} in
  exists vpd',
    dpu_vpd_add_repair_entry vpd (repair_sample 3) = Some (DPU_VPD_OK, vpd')
    /\ repairs_ok vpd' /\ active vpd' = [repair_sample 3].
Proof.
  intros vpd. apply (dpu_vpd_add_repair_entry_ok vpd (repair_sample 3)).
  - by apply repairs_ok_empty.
  - by unfold dpu_coord.
Defined.

(** * The file *)

Definition byte_size (n : nat) (z : Z) : Prop := 0 <= z < 256 ^ Z.of_nat n.

Definition rank_wf (r : dpu_vpd_rank_data) : Prop :=
  byte_size 8 (dpu_disabled r) /\ byte_size 8 (wram_repair r) /\ byte_size 8 (iram_repair r).

Definition entry_wf (e : dpu_vpd_repair_entry) : Prop :=
  byte_size 1 (iram_wram e) /\ byte_size 1 (rank e) /\ byte_size 1 (ci e) /\ byte_size 1 (dpu e)
  /\ byte_size 1 (bank e) /\ byte_size 1 (padding e) /\ byte_size 2 (address e) /\ byte_size 8 (bits e).

(** The fields have the width of their C types; the magic and version are set. *)
Definition header_wf (h : dpu_vpd_header) : Prop :=
  struct_id h = VPD_STRUCT_ID /\ struct_ver h = VPD_STRUCT_VERSION /\ byte_size 2 (struct_size h)
  /\ byte_size 1 (rank_count h) /\ byte_size 1 (padding_0 h) /\ byte_size 2 (repair_count h)
  /\ byte_size 2 (padding_1 h) /\ length (ranks h) = 4%nat /\ Forall rank_wf (ranks h).

Lemma get_le_bytes n z l : byte_size n z -> get_le n (le_bytes n z ++ l) = Some (z, l).
Proof.
  intros Hz. unfold get_le. rewrite length_app, length_le_bytes.
  destruct (Nat.leb_spec n (n + length l)); [| lia].
  rewrite take_app_length', drop_app_length' by (by rewrite length_le_bytes).
  by rewrite le_val_bytes.
Qed.

Lemma get_rank_bytes r l : rank_wf r -> get_rank (rank_bytes r ++ l) = Some (r, l).
Proof.
  intros (? & ? & ?). unfold get_rank, rank_bytes. rewrite <- !app_assoc.
  do 3 (rewrite get_le_bytes by done; cbn [mbind option_bind]). by destruct r.
Qed.

Lemma get_entry_bytes e l : entry_wf e -> get_entry (entry_bytes e ++ l) = Some (e, l).
Proof.
  intros (? & ? & ? & ? & ? & ? & ? & ?). unfold get_entry, entry_bytes. rewrite <- !app_assoc.
  do 8 (rewrite get_le_bytes by done; cbn [mbind option_bind]). by destruct e.
Qed.

Lemma get_header_bytes h l : header_wf h -> get_header (header_bytes h ++ l) = Some (h, l).
Proof.
  intros (Hid & Hver & ? & ? & ? & ? & ? & Hr & Hrs). unfold get_header, header_bytes. cbn zeta.
  assert (byte_size 4 (struct_ver h)) by (rewrite Hver; by split).
  rewrite <- !app_assoc. rewrite length_app, Hid. change (length VPD_STRUCT_ID) with 4%nat.
  match goal with |- context [(?a <? 4)%nat] => destruct (Nat.ltb_spec a 4); [lia |] end.
  rewrite take_app_length', drop_app_length' by done.
  do 6 (rewrite get_le_bytes by done; cbn [mbind option_bind]).
  destruct h as [id ver sz rc p0 n p1 rs]. simpl in *.
  destruct rs as [| r0 [| r1 [| r2 [| r3 [|]]]]]; try done. cbn [map concat].
  rewrite !list.Forall_cons in Hrs. destruct Hrs as (? & ? & ? & ? & _).
  rewrite <- !app_assoc.
  do 4 (rewrite get_rank_bytes by done; cbn [mbind option_bind]). by subst.
Qed.

Lemma length_entry_bytes e : length (entry_bytes e) = 16%nat.
Proof. done. Qed.

Lemma get_entry_length l e l' : get_entry l = Some (e, l') -> length l = (16 + length l')%nat.
Proof.
  assert (forall n l z l', get_le n l = Some (z, l') -> length l = (n + length l')%nat) as Hle.
  { intros n m z m'. unfold get_le. destruct (Nat.leb_spec n (length m)); intros; simplify_eq.
    rewrite length_drop. lia. }
  unfold get_entry. intros E.
  repeat (apply bind_Some in E as ([? ?] & ?%Hle & E)). simplify_eq. lia.
Qed.

(** Reading never goes past the 121 entries of a file that respects the
    maximum size, and keeps what was read first. *)
Lemma read_entries_keeps fuel file es n :
  0 <= n -> Z.of_nat (length file) <= 16 * (Z.of_nat (length es) - n) + 15 ->
  Z.of_nat (length es) < 65536 ->
  exists es', read_entries fuel file es n = Some es' /\ length es' = length es
    /\ take (Z.to_nat n) es' = take (Z.to_nat n) es.
Proof.
  revert file es n; induction fuel as [| fuel IH]; intros file es n Hn Hf He; simpl; [by eauto |].
  destruct (get_entry file) as [[e file'] |] eqn:E; [| by eauto].
  apply get_entry_length in E. rewrite store_insert by lia. cbn [mbind option_bind].
  rewrite wrap_small by (change (2 ^ 16) with 65536; lia).
  destruct (IH file' (<[Z.to_nat n := e]> es) (n + 1)) as (es' & -> & Hl & Ht);
    [lia | rewrite length_insert; lia .. |].
  rewrite length_insert in Hl. exists es'. split_and!; [done | done |].
  replace (Z.to_nat (n + 1)) with (S (Z.to_nat n)) in Ht by lia.
  apply (f_equal (take (Z.to_nat n))) in Ht. rewrite !take_take in Ht.
  replace (_ `min` _)%nat with (Z.to_nat n) in Ht by lia.
  rewrite Ht. apply take_insert_ge. lia.
Qed.

Lemma read_entries_codes new fuel tail es n :
  0 <= n -> Forall entry_wf new -> (length new <= fuel)%nat ->
  Z.of_nat (length (concat (map entry_bytes new) ++ tail)) <= 16 * (Z.of_nat (length es) - n) + 15 ->
  Z.of_nat (length es) < 65536 ->
  exists es', read_entries fuel (concat (map entry_bytes new) ++ tail) es n = Some es'
    /\ length es' = length es
    /\ take (Z.to_nat n + length new) es' = take (Z.to_nat n) es ++ new.
Proof.
  revert fuel es n; induction new as [| e new IH]; intros fuel es n Hn Hw Hfu Hf He.
  { destruct (read_entries_keeps fuel tail es n) as (es' & ? & ? & Ht); [done | done | done |].
    exists es'. rewrite app_nil_r, Nat.add_0_r. done. }
  destruct fuel as [| fuel]; [simpl in Hfu; lia |].
  inversion_clear Hw as [| ? ? He1 Hw']. cbn [map concat read_entries] in *.
  rewrite <- app_assoc in *. rewrite get_entry_bytes by done.
  rewrite length_app, length_entry_bytes in Hf. rewrite store_insert by lia. cbn [mbind option_bind].
  rewrite wrap_small by (change (2 ^ 16) with 65536; lia).
  destruct (IH fuel (<[Z.to_nat n := e]> es) (n + 1)) as (es' & -> & Hl & Ht);
    [lia | done | simpl in Hfu; lia | rewrite length_insert; lia .. |].
  rewrite length_insert in Hl. exists es'. split_and!; [done | done |].
  replace (Z.to_nat (n + 1)) with (S (Z.to_nat n)) in Ht by lia.
  rewrite Nat.add_succ_comm in Ht. simpl. rewrite Ht.
  rewrite (take_S_r _ _ e), <- app_assoc by (apply list_lookup_insert_eq; lia).
  rewrite take_insert_ge by lia. done.
Qed.

Lemma write_entries_ok n fok pre es f :
  (forall k, fok k = true) -> (n <= length es)%nat ->
  write_entries n fok (pre ++ es) (Z.of_nat (length pre)) f
  = Some (true, f ++ concat (map entry_bytes (take n es))).
Proof.
  intros Hok. revert pre es f; induction n as [| n IH]; intros pre es f Hn; simpl.
  { by rewrite app_nil_r. }
  destruct es as [| e es]; [simpl in Hn; lia |]. rewrite load_app_mid. cbn [mbind option_bind].
  rewrite Hok. unfold fwrite1. rewrite length_entry_bytes. cbn [andb negb Nat.eqb].
  rewrite (cons_app e es), app_assoc.
  replace (Z.of_nat (length pre) + 1) with (Z.of_nat (length (pre ++ [e])))
    by (rewrite length_app; simpl; lia).
  rewrite IH by (simpl in Hn; lia). simpl. by rewrite <- app_assoc.
Qed.

Lemma length_header_bytes h : header_wf h -> length (header_bytes h) = 112%nat.
Proof.
  intros (Hid & _ & _ & _ & _ & _ & _ & Hr & _). unfold header_bytes.
  rewrite !length_app, !length_le_bytes, Hid. change (length VPD_STRUCT_ID) with 4%nat.
  destruct (ranks h) as [| r0 [| r1 [| r2 [| r3 [|]]]]]; done.
Qed.

Lemma length_entries_bytes es : length (concat (map entry_bytes es)) = (16 * length es)%nat.
Proof. induction es as [| e es IH]; [done |]. cbn [map concat]. rewrite length_app, IH, length_entry_bytes. simpl. lia. Qed.

(** Number of entries in the file. *)
Definition count_of (h : dpu_vpd_header) : Z :=
  if repair_count h =? VPD_UNDEFINED_REPAIR_COUNT then 0 else repair_count h.

Lemma active_count vpd : active vpd = take (Z.to_nat (count_of (vpd_header vpd))) (repair_entries vpd).
Proof. unfold active, count_of. by case_match. Qed.

Lemma write_bytes_ok fok vpd :
  (forall k, fok k = true) -> header_wf (vpd_header vpd) ->
  Z.of_nat (length (repair_entries vpd)) = NB_MAX_REPAIR -> count_of (vpd_header vpd) <= NB_MAX_REPAIR ->
  exists k,
    dpu_vpd_write_bytes fok vpd
    = Some (if count_of (vpd_header vpd) =? NB_MAX_REPAIR then DPU_VPD_ERR else DPU_VPD_OK,
        header_bytes (vpd_header vpd) ++ concat (map entry_bytes (active vpd)) ++ replicate k 0)
    /\ let size := 112 + 16 * count_of (vpd_header vpd) + Z.of_nat k in
       size <= VPD_MAX_SIZE /\ (size mod VPD_SIZE_CHUNK_MULTIPLE = 0 \/ size = VPD_MAX_SIZE).
Proof.
  intros Hok Hwf Hes Hc. unfold dpu_vpd_write_bytes. rewrite (Hok O). unfold fwrite1 at 1.
  rewrite length_header_bytes by done. cbn [negb andb Nat.eqb app].
  fold (count_of (vpd_header vpd)). rewrite active_count.
  assert (0 <= count_of (vpd_header vpd)) as H0.
  { unfold count_of. destruct Hwf as (_ & _ & _ & _ & _ & [] & _). case_match; lia. }
  revert H0 Hc. generalize (count_of (vpd_header vpd)) as n. intros n H0 Hn.
  change NB_MAX_REPAIR with 121 in *.
  pose proof (write_entries_ok (Z.to_nat n) fok [] (repair_entries vpd)
    (header_bytes (vpd_header vpd)) Hok ltac:(lia)) as H.
  cbn [app length] in H. change (Z.of_nat 0) with 0 in H. rewrite H. cbn [mbind option_bind negb].
  change sizeof_dpu_vpd_header with 112. change sizeof_dpu_vpd_repair_entry with 16.
  exists (Z.to_nat (size_align (112 + n * 16))).
  unfold size_align. change VPD_MAX_SIZE with 2048. change VPD_SIZE_CHUNK_MULTIPLE with 272.
  rewrite wrap_small by (change (2 ^ 64) with 18446744073709551616; lia).
  pose proof (Z.mod_pos_bound (112 + n * 16) 272 ltac:(lia)) as Hm.
  pose proof (Z.div_mod (112 + n * 16) 272 ltac:(lia)) as Hd. split.
  - match goal with |- context [replicate ?e 0] => set (k := e) end.
    assert (n = 121 -> k = 0%nat) as Hk1 by lia. assert (n <> 121 -> k <> 0%nat) as Hk2 by lia.
    clearbody k. unfold fwrite1. rewrite length_replicate, Hok. cbn [andb].
    destruct (Z.eqb_spec n 121) as [E |].
    + rewrite (Hk1 E). cbn. by rewrite app_nil_r.
    + destruct (Nat.eqb_spec k 0); [by destruct Hk2 |]. cbn [negb]. by rewrite <- app_assoc.
  - rewrite Z2Nat.id by lia. split; [lia |].
    destruct (Z.le_ge_cases (2048 - (112 + n * 16)) (272 - (112 + n * 16) mod 272)); [right; lia |].
    left. symmetry. apply (Z.mod_unique _ _ ((112 + n * 16) / 272 + 1)); lia.
Qed.

(** The VPD survives its file, with any stale file of legal size under
    it: [dpu_vpd_init] reads the same header and entries from what
    [dpu_vpd_write] left; the size is a multiple of the chunk or the maximum.
    With all 121 entries in use the empty last [fwrite] makes the status an
    error although the file is complete. *)
Theorem dpu_vpd_write_init vpd fok old vpd0 :
  (forall k, fok k = true) -> header_wf (vpd_header vpd) -> Forall entry_wf (repair_entries vpd) ->
  Z.of_nat (length (repair_entries vpd)) = NB_MAX_REPAIR -> count_of (vpd_header vpd) <= NB_MAX_REPAIR ->
  Z.of_nat (length (default [] old)) <= VPD_MAX_SIZE ->
  Z.of_nat (length (repair_entries vpd0)) = NB_MAX_REPAIR ->
  exists file vpd',
    dpu_vpd_write true fok vpd old
      = Some (if count_of (vpd_header vpd) =? NB_MAX_REPAIR then DPU_VPD_ERR else DPU_VPD_OK, Some file)
    /\ dpu_vpd_init (Some (Some file)) vpd0 = Some (DPU_VPD_OK, vpd')
    /\ vpd_header vpd' = vpd_header vpd /\ active vpd' = active vpd
    /\ (old = None -> let n := Z.of_nat (length file) in
          n <= VPD_MAX_SIZE /\ (n mod VPD_SIZE_CHUNK_MULTIPLE = 0 \/ n = VPD_MAX_SIZE)).
Proof.
  intros Hok Hwf Hew Hes Hc Hold Hes0.
  destruct (write_bytes_ok fok vpd Hok Hwf Hes Hc) as (k & Hw & Hsize & Hmult).
  unfold dpu_vpd_write. cbn [negb]. rewrite Hw. cbn [mbind option_bind].
  assert (Z.of_nat (length (active vpd)) = count_of (vpd_header vpd)) as Hact.
  { rewrite active_count, length_take. unfold count_of in *.
    destruct Hwf as (_ & _ & _ & _ & _ & [] & _). case_match; lia. }
  set (f := header_bytes _ ++ _). set (tail := replicate k 0 ++ drop (length f) (default [] old)).
  assert (Z.of_nat (length f) = 112 + 16 * count_of (vpd_header vpd) + Z.of_nat k) as Hf.
  { unfold f. rewrite !length_app, length_header_bytes, length_entries_bytes, length_replicate by done. lia. }
  assert (f ++ drop (length f) (default [] old)
    = header_bytes (vpd_header vpd) ++ concat (map entry_bytes (active vpd)) ++ tail) as E.
  { unfold f at 1, tail. by rewrite <- !app_assoc. }
  assert (Z.of_nat (length (concat (map entry_bytes (active vpd)) ++ tail)) <= 1936) as Hlen.
  { unfold tail. rewrite !length_app, length_entries_bytes, length_replicate, length_drop.
    change VPD_MAX_SIZE with 2048 in *. lia. }
  change NB_MAX_REPAIR with 121 in *.
  destruct (read_entries_codes (active vpd) (length (concat (map entry_bytes (active vpd)) ++ tail))
    tail (repair_entries vpd0) 0) as (es' & Hr & Hl & Ht); [lia | | | lia | lia |].
  { rewrite active_count. by apply Forall_take. }
  { rewrite length_app, length_entries_bytes. lia. }
  rewrite E. eexists. unfold dpu_vpd_init.
  assert (Hget := get_header_bytes (vpd_header vpd) (concat (map entry_bytes (active vpd)) ++ tail) Hwf).
  destruct Hwf as (Hid & Hver & _).
  destruct (Z.eqb_spec (repair_count (vpd_header vpd)) VPD_UNDEFINED_REPAIR_COUNT) as [Hu | Hu].
  - eexists. split; [done |]. rewrite Hget, Hid, Hver, Hu, bool_decide_true, Z.eqb_refl by done.
    split; [done |]. split; [done |].
    split; [unfold active; cbn; by rewrite Hu |].
    intros ->. rewrite <- E. cbn [default]. by rewrite drop_nil, app_nil_r, Hf.
  - eexists. split; [done |]. rewrite Hget, Hid, Hver, bool_decide_true, Z.eqb_refl by done.
    apply Z.eqb_neq in Hu. cbn [negb repair_entries]. rewrite Hu, Hr. cbn [mbind option_bind].
    split; [done |]. split; [done |]. split.
    + rewrite (active_count vpd). unfold active at 1. cbn [vpd_header repair_entries set_repair_entries].
      rewrite Hu, <- active_count.
      change (Z.to_nat 0) with 0%nat in Ht. rewrite take_0 in Ht. cbn [Nat.add app] in Ht. rewrite <- Ht. f_equal.
      unfold count_of in Hact. rewrite Hu in Hact. lia.
    + intros ->. rewrite <- E. cbn [default]. by rewrite drop_nil, app_nil_r, Hf.
Qed.

Lemma dpu_vpd_write_init_witness :
  let vpd := {| vpd_header := {| struct_id := VPD_STRUCT_ID; struct_ver := VPD_STRUCT_VERSION;
      struct_size := 112; rank_count := 2; padding_0 := 0; repair_count := 2; padding_1 := 0;
      ranks := [zero_rank; {| dpu_disabled := 5; wram_repair := 2 ^ 57; iram_repair := 0 |}; zero_rank; zero_rank] |};
    repair_entries := replicate 121 (repair_sample 1) |} in
  exists file vpd',
    dpu_vpd_write true (fun _ => true) vpd (Some [1; 2; 3]) = Some (DPU_VPD_OK, Some file)
    /\ dpu_vpd_init (Some (Some file)) vpd = Some (DPU_VPD_OK, vpd')
    /\ vpd_header vpd' = vpd_header vpd /\ active vpd' = active vpd
    /\ (Some [1; 2; 3] = None -> let n := Z.of_nat (length file) in
          n <= VPD_MAX_SIZE /\ (n mod VPD_SIZE_CHUNK_MULTIPLE = 0 \/ n = VPD_MAX_SIZE)).
Proof.
  intros vpd. apply (dpu_vpd_write_init vpd (fun _ => true) (Some [1; 2; 3]) vpd); try done.
  - unfold header_wf, byte_size. cbn. split_and!; try done.
    repeat constructor; unfold byte_size; cbn; lia.
  - apply Forall_replicate. unfold entry_wf, byte_size. cbn. lia.
Defined.

(** * Flashing *)

Inductive exit_status :=
| Exited (code : Z)
| Signaled.

Record command := { exec : string; args : list string }.

Definition FLASH_BASE_ADDRESS : Z := 0x08000000.
Definition FLASH_SIZE : Z := 0x20000.
Definition FLASH_OFF_VPD : Z := 0x1E000.
Definition FLASH_OFF_VPD_DB : Z := 0x1E800.
Definition FLASH_SIZE_VPD : Z := FLASH_OFF_VPD_DB - FLASH_OFF_VPD.

Definition partition_off (is_db : bool) : Z := if is_db then FLASH_OFF_VPD_DB else FLASH_OFF_VPD.
Definition partition_size (is_db : bool) : Z := if is_db then FLASH_SIZE_VPD_DB else FLASH_SIZE_VPD.

(** [%u] *)
Definition show_u (z : Z) : string := pretty (Z.to_N z).

(** The status of a child that ran the command. *)
Definition __dpu_vpd_fork (st : exit_status) : dpu_vpd_error :=
  match st with
  | Exited code => if code =? 0 then DPU_VPD_OK else DPU_VPD_ERR_FLASH
  | Signaled => DPU_VPD_ERR_FLASH
  end.

(** [sh n]: the status of the [n]-th command; [mem n]: whether the [n]-th
    group of [asprintf] succeeds.  Result: status and commands run. *)
Definition __dpu_vpd_commit_to_device_from_dfu (sh : nat -> exit_status) (mem : nat -> bool)
    (vpd_path : string) (is_db : bool) : dpu_vpd_error * list command :=
  let address := FLASH_BASE_ADDRESS + partition_off is_db in
  let size := partition_size is_db in
  if negb (mem 0%nat) then (DPU_VPD_ERR, [])
  else (__dpu_vpd_fork (sh 0%nat),
    [{| exec := "dfu-util"; args := ["dfu-util"; "-a"; "0"; "-s"; show_u address ++ ":" ++ show_u size;
        "-D"; vpd_path]%string |}]).

Definition erase_command (device_name : string) (offset size : Z) : command :=
  {| exec := "ectool"; args := ["ectool"; "--interface=ci"; "--name=" ++ device_name;
      "flasherase"; show_u offset; show_u size]%string |}.

Definition write_command (device_name : string) (offset : Z) (path : string) : command :=
  {| exec := "ectool"; args := ["ectool"; "--interface=ci"; "--name=" ++ device_name;
      "flashwrite"; show_u offset; path]%string |}.

Definition __dpu_vpd_commit_to_device_from_rank (sh : nat -> exit_status) (mem : nat -> bool)
    (vpd_path device_name : string) (is_db : bool) : dpu_vpd_error * list command :=
  let offset := partition_off is_db in
  let size := partition_size is_db in
  if negb (mem 0%nat && mem 1%nat) then (DPU_VPD_ERR, [])
  else
    let erase := erase_command device_name offset size in
    let ret := __dpu_vpd_fork (sh 0%nat) in
    if negb (bool_decide (ret = DPU_VPD_OK)) then (ret, [erase])
    else if negb (mem 2%nat) then (DPU_VPD_ERR, [erase])
    else (__dpu_vpd_fork (sh 1%nat), [erase; write_command device_name offset vpd_path]).

Definition __dpu_vpd_commit_to_device (sh : nat -> exit_status) (mem : nat -> bool)
    (vpd_path : string) (device_name : option string) (is_db : bool) : dpu_vpd_error * list command :=
  match device_name with
  | Some name => __dpu_vpd_commit_to_device_from_rank sh mem vpd_path name is_db
  | None => __dpu_vpd_commit_to_device_from_dfu sh mem vpd_path is_db
  end.

(** The temporary file, created empty by [mkstemp], is written then flashed;
    the last component is what it held. *)
Definition dpu_vpd_commit_to_device (sh : nat -> exit_status) (mem : nat -> bool)
    (tmp_path : option string) (fopen_ok : bool) (fok : nat -> bool) (vpd : dpu_vpd)
    (device_name : option string) : option (dpu_vpd_error * list command * option (list Z)) :=
  match tmp_path with
  | None => Some (DPU_VPD_ERR, [], None)
  | Some path =>
    r ← dpu_vpd_write fopen_ok fok vpd (Some []);
    let '(ret, file) := r in
    if negb (bool_decide (ret = DPU_VPD_OK)) then Some (ret, [], file)
    else
      let '(ret, cmds) := __dpu_vpd_commit_to_device sh mem path device_name false in
      Some (ret, cmds, file)
  end.

Definition dpu_vpd_db_commit_to_device (sh : nat -> exit_status) (mem : nat -> bool)
    (tmp_path : option string) (stack : list Z) (fopen_ok : bool) (fwrite : Z -> Z)
    (db : dpu_vpd_database) (device_name : option string)
  : option (dpu_vpd_error * list command * option (list Z)) :=
  match tmp_path with
  | None => Some (DPU_VPD_ERR, [], None)
  | Some path =>
    r ← dpu_vpd_db_write stack fopen_ok fwrite db;
    let '(ret, file) := r in
    if negb (bool_decide (ret = DPU_VPD_OK)) then Some (ret, [], file)
    else
      let '(ret, cmds) := __dpu_vpd_commit_to_device sh mem path device_name true in
      Some (ret, cmds, file)
  end.

(** Flashing through the rank.  Success means both commands ran and
    exited with 0, in the order erase, write; nothing is written unless the
    erase succeeded; and erase and write start at the same offset, with the
    two partitions disjoint and inside the flash. *)
Theorem dpu_vpd_commit_from_rank sh mem path name is_db ret cmds :
  __dpu_vpd_commit_to_device_from_rank sh mem path name is_db = (ret, cmds) ->
  let off := partition_off is_db in
  let erase := erase_command name off (partition_size is_db) in
  let write := write_command name off path in
  cmds `prefix_of` [erase; write]
  /\ (ret = DPU_VPD_OK -> cmds = [erase; write] /\ sh 0%nat = Exited 0 /\ sh 1%nat = Exited 0)
  /\ (write ∈ cmds -> sh 0%nat = Exited 0)
  /\ 0 <= off /\ off + partition_size is_db <= FLASH_SIZE
  /\ partition_off false + partition_size false <= partition_off true.
Proof.
  assert (forall st, __dpu_vpd_fork st = DPU_VPD_OK -> st = Exited 0) as Hfork.
  { intros [code |]; simpl; [| done]. destruct (Z.eqb_spec code 0) as [-> |]; done. }
  intros E off erase write. unfold __dpu_vpd_commit_to_device_from_rank in E.
  assert (write <> erase) as Hne by (intros H; apply (f_equal (fun c => args c !! 3%nat)) in H; done).
  enough (cmds `prefix_of` [erase; write]
    /\ (ret = DPU_VPD_OK -> cmds = [erase; write] /\ sh 0%nat = Exited 0 /\ sh 1%nat = Exited 0)
    /\ (write ∈ cmds -> sh 0%nat = Exited 0)) as (? & ? & ?).
  { split_and!; try done; by destruct is_db; vm_compute. }
  revert E. fold off erase write. destruct (mem 0%nat && mem 1%nat); cbn [negb].
  2:{ intros [= <- <-]. split_and!; [apply prefix_nil | done | by intros ?%elem_of_nil]. }
  destruct (bool_decide_reflect (__dpu_vpd_fork (sh 0%nat) = DPU_VPD_OK)) as [H0 | H0]; cbn [negb].
  2:{ intros [= <- <-]. split_and!; [by exists [write] | done |].
      by intros ?%list_elem_of_singleton. }
  destruct (mem 2%nat); cbn [negb]; intros [= <- <-].
  - split_and!; [by exists [] | by auto | by auto].
  - split_and!; [by exists [write] | done | by auto].
Qed.

Lemma dpu_vpd_commit_from_rank_witness :
  let cmds := (__dpu_vpd_commit_to_device_from_rank (fun _ => Exited 0) (fun _ => true) "/tmp/v" "dimm0" false).2 in
  let erase := erase_command "dimm0" 0x1E000 0x800 in
  let write := write_command "dimm0" 0x1E000 "/tmp/v" in
  cmds `prefix_of` [erase; write]
  /\ (DPU_VPD_OK = DPU_VPD_OK -> cmds = [erase; write] /\ Exited 0 = Exited 0 /\ Exited 0 = Exited 0)
  /\ (write ∈ cmds -> Exited 0 = Exited 0)
  /\ 0 <= 0x1E000 /\ 0x1E000 + 0x800 <= FLASH_SIZE
  /\ partition_off false + partition_size false <= partition_off true.
Proof.
  exact (dpu_vpd_commit_from_rank (fun _ => Exited 0) (fun _ => true) "/tmp/v" "dimm0" false DPU_VPD_OK _ eq_refl).
Defined.
