(* ===== verification/Errors.v ===== *)
(** Status codes of the host API (library/src/backends/api/include/api/dpu_error.h),
    job types (commons/include/dpu_rank.h), the encoding of the failure of an
    asynchronous job, and their printing (api/src/dpu_error.c). *)
From Stdlib Require Import Strings.String.
From S2P Require Import Prelude.

(** * Status codes *)

Inductive dpu_error_t :=
| DPU_OK | DPU_ERR_INTERNAL | DPU_ERR_SYSTEM | DPU_ERR_DRIVER | DPU_ERR_ALLOCATION
| DPU_ERR_INVALID_DPU_SET | DPU_ERR_INVALID_THREAD_ID | DPU_ERR_INVALID_NOTIFY_ID
| DPU_ERR_INVALID_WRAM_ACCESS | DPU_ERR_INVALID_IRAM_ACCESS | DPU_ERR_INVALID_MRAM_ACCESS
| DPU_ERR_INVALID_SYMBOL_ACCESS | DPU_ERR_MRAM_BUSY | DPU_ERR_TRANSFER_ALREADY_SET
| DPU_ERR_NO_PROGRAM_LOADED | DPU_ERR_DIFFERENT_DPU_PROGRAMS | DPU_ERR_CORRUPTED_MEMORY
| DPU_ERR_DPU_DISABLED | DPU_ERR_DPU_ALREADY_RUNNING | DPU_ERR_INVALID_MEMORY_TRANSFER
| DPU_ERR_INVALID_LAUNCH_POLICY | DPU_ERR_DPU_FAULT | DPU_ERR_ELF_INVALID_FILE
| DPU_ERR_ELF_NO_SUCH_FILE | DPU_ERR_ELF_NO_SUCH_SECTION | DPU_ERR_TIMEOUT
| DPU_ERR_INVALID_PROFILE | DPU_ERR_UNKNOWN_SYMBOL | DPU_ERR_LOG_FORMAT
| DPU_ERR_LOG_CONTEXT_MISSING | DPU_ERR_LOG_BUFFER_TOO_SMALL | DPU_ERR_VPD_INVALID_FILE
| DPU_ERR_VPD_NO_REPAIR | DPU_ERR_NO_THREAD_PER_RANK | DPU_ERR_INVALID_BUFFER_SIZE
| DPU_ERR_NONBLOCKING_SYNC_CALLBACK | DPU_ERR_TOO_MANY_TASKLETS | DPU_ERR_SG_TOO_MANY_BLOCKS
| DPU_ERR_SG_LENGTH_MISMATCH | DPU_ERR_SG_NOT_ACTIVATED | DPU_ERR_SG_NOT_MRAM_SYMBOL
| DPU_ERR_ASYNC_JOBS.

#[export] Instance dpu_error_t_eq_dec : EqDecision dpu_error_t.
Proof. solve_decision. Defined.

(** The enumeration in order: the code of a status is its position, except
    the last one. *)
Definition all_errors : list dpu_error_t :=
  [ DPU_OK; DPU_ERR_INTERNAL; DPU_ERR_SYSTEM; DPU_ERR_DRIVER; DPU_ERR_ALLOCATION;
    DPU_ERR_INVALID_DPU_SET; DPU_ERR_INVALID_THREAD_ID; DPU_ERR_INVALID_NOTIFY_ID;
    DPU_ERR_INVALID_WRAM_ACCESS; DPU_ERR_INVALID_IRAM_ACCESS; DPU_ERR_INVALID_MRAM_ACCESS;
    DPU_ERR_INVALID_SYMBOL_ACCESS; DPU_ERR_MRAM_BUSY; DPU_ERR_TRANSFER_ALREADY_SET;
    DPU_ERR_NO_PROGRAM_LOADED; DPU_ERR_DIFFERENT_DPU_PROGRAMS; DPU_ERR_CORRUPTED_MEMORY;
    DPU_ERR_DPU_DISABLED; DPU_ERR_DPU_ALREADY_RUNNING; DPU_ERR_INVALID_MEMORY_TRANSFER;
    DPU_ERR_INVALID_LAUNCH_POLICY; DPU_ERR_DPU_FAULT; DPU_ERR_ELF_INVALID_FILE;
    DPU_ERR_ELF_NO_SUCH_FILE; DPU_ERR_ELF_NO_SUCH_SECTION; DPU_ERR_TIMEOUT;
    DPU_ERR_INVALID_PROFILE; DPU_ERR_UNKNOWN_SYMBOL; DPU_ERR_LOG_FORMAT;
    DPU_ERR_LOG_CONTEXT_MISSING; DPU_ERR_LOG_BUFFER_TOO_SMALL; DPU_ERR_VPD_INVALID_FILE;
    DPU_ERR_VPD_NO_REPAIR; DPU_ERR_NO_THREAD_PER_RANK; DPU_ERR_INVALID_BUFFER_SIZE;
    DPU_ERR_NONBLOCKING_SYNC_CALLBACK; DPU_ERR_TOO_MANY_TASKLETS; DPU_ERR_SG_TOO_MANY_BLOCKS;
    DPU_ERR_SG_LENGTH_MISMATCH; DPU_ERR_SG_NOT_ACTIVATED; DPU_ERR_SG_NOT_MRAM_SYMBOL;
    DPU_ERR_ASYNC_JOBS ].

Fixpoint index_of (e : dpu_error_t) (l : list dpu_error_t) : Z :=
  match l with
  | [] => 0
  | e' :: l => if decide (e = e') then 0 else 1 + index_of e l
  end.

Definition error_code (e : dpu_error_t) : Z :=
  if decide (e = DPU_ERR_ASYNC_JOBS) then 2 ^ 31 else index_of e all_errors.

(** * Job types *)

Inductive dpu_thread_job_type :=
| DPU_THREAD_JOB_LAUNCH_RANK | DPU_THREAD_JOB_LAUNCH_DPU | DPU_THREAD_JOB_SYNC
| DPU_THREAD_JOB_COPY_WRAM_TO_MATRIX | DPU_THREAD_JOB_COPY_IRAM_TO_MATRIX
| DPU_THREAD_JOB_COPY_MRAM_TO_MATRIX | DPU_THREAD_JOB_COPY_WRAM_FROM_MATRIX
| DPU_THREAD_JOB_COPY_IRAM_FROM_MATRIX | DPU_THREAD_JOB_COPY_MRAM_FROM_MATRIX
| DPU_THREAD_JOB_COPY_WRAM_TO_RANK | DPU_THREAD_JOB_COPY_IRAM_TO_RANK
| DPU_THREAD_JOB_COPY_MRAM_TO_RANK | DPU_THREAD_JOB_CALLBACK | DPU_THREAD_JOB_LOAD.

#[export] Instance dpu_thread_job_type_eq_dec : EqDecision dpu_thread_job_type.
Proof. solve_decision. Defined.

Definition job_code (t : dpu_thread_job_type) : Z :=
  match t with
  | DPU_THREAD_JOB_LAUNCH_RANK => 0 | DPU_THREAD_JOB_LAUNCH_DPU => 1 | DPU_THREAD_JOB_SYNC => 2
  | DPU_THREAD_JOB_COPY_WRAM_TO_MATRIX => 3 | DPU_THREAD_JOB_COPY_IRAM_TO_MATRIX => 4
  | DPU_THREAD_JOB_COPY_MRAM_TO_MATRIX => 5 | DPU_THREAD_JOB_COPY_WRAM_FROM_MATRIX => 6
  | DPU_THREAD_JOB_COPY_IRAM_FROM_MATRIX => 7 | DPU_THREAD_JOB_COPY_MRAM_FROM_MATRIX => 8
  | DPU_THREAD_JOB_COPY_WRAM_TO_RANK => 9 | DPU_THREAD_JOB_COPY_IRAM_TO_RANK => 10
  | DPU_THREAD_JOB_COPY_MRAM_TO_RANK => 11 | DPU_THREAD_JOB_CALLBACK => 12 | DPU_THREAD_JOB_LOAD => 13
  end.

(** * Status of a failed asynchronous job *)

Definition DPU_ERROR_ASYNC_JOB_TYPE_SHIFT : Z := 16.

(** [(1 << DPU_ERROR_ASYNC_JOB_TYPE_SHIFT) - 1]. *)
Definition async_error_mask : Z := Z.shiftl 1 DPU_ERROR_ASYNC_JOB_TYPE_SHIFT - 1.

Definition async_status (type : dpu_thread_job_type) (status : Z) : Z :=
  Z.lor (Z.lor (error_code DPU_ERR_ASYNC_JOBS) (Z.shiftl (job_code type) DPU_ERROR_ASYNC_JOB_TYPE_SHIFT))
    (Z.land status async_error_mask).

(** * Printing *)

Local Open Scope string_scope.

Definition dpu_thread_job_type_to_string (code : Z) : string :=
  if (code =? 0)%Z then "launch_rank" else if (code =? 1)%Z then "launch_dpu"
  else if (code =? 2)%Z then "synchronization" else if (code =? 3)%Z then "copy_wram_to_matrix"
  else if (code =? 4)%Z then "copy_iram_to_matrix" else if (code =? 5)%Z then "copy_mram_to_matrix"
  else if (code =? 6)%Z then "copy_wram_from_matrix" else if (code =? 7)%Z then "copy_iram_from_matrix"
  else if (code =? 8)%Z then "copy_mram_from_matrix" else if (code =? 9)%Z then "copy_wram_to_rank"
  else if (code =? 10)%Z then "copy_iram_to_rank" else if (code =? 11)%Z then "copy_mram_to_rank"
  else if (code =? 12)%Z then "callback" else "unknown job type".

Definition error_string (e : dpu_error_t) : string :=
  match e with
  | DPU_OK => "success"
  | DPU_ERR_SYSTEM => "system error"
  | DPU_ERR_DPU_ALREADY_RUNNING => "dpu is already running"
  | DPU_ERR_INVALID_LAUNCH_POLICY => "invalid launch policy"
  | DPU_ERR_DPU_FAULT => "dpu is in fault"
  | DPU_ERR_INTERNAL => "internal error"
  | DPU_ERR_DRIVER => "driver error"
  | DPU_ERR_INVALID_THREAD_ID => "invalid thread id"
  | DPU_ERR_INVALID_NOTIFY_ID => "invalid notify id"
  | DPU_ERR_INVALID_WRAM_ACCESS => "invalid wram access"
  | DPU_ERR_INVALID_IRAM_ACCESS => "invalid iram access"
  | DPU_ERR_MRAM_BUSY => "mram is busy"
  | DPU_ERR_INVALID_MRAM_ACCESS => "invalid mram access"
  | DPU_ERR_CORRUPTED_MEMORY => "corrupted memory"
  | DPU_ERR_DPU_DISABLED => "dpu is disabled"
  | DPU_ERR_TIMEOUT => "result timeout"
  | DPU_ERR_INVALID_PROFILE => "invalid profile"
  | DPU_ERR_ALLOCATION => "dpu allocation error"
  | DPU_ERR_UNKNOWN_SYMBOL => "undefined symbol"
  | DPU_ERR_LOG_FORMAT => "logging format error"
  | DPU_ERR_LOG_CONTEXT_MISSING => "logging context missing"
  | DPU_ERR_LOG_BUFFER_TOO_SMALL => "logging buffer too small"
  | DPU_ERR_INVALID_DPU_SET => "invalid action for this dpu set"
  | DPU_ERR_INVALID_SYMBOL_ACCESS => "invalid memory symbol access"
  | DPU_ERR_TRANSFER_ALREADY_SET => "dpu transfer is already set"
  | DPU_ERR_NO_PROGRAM_LOADED => "no program has been loaded in the dpu set"
  | DPU_ERR_DIFFERENT_DPU_PROGRAMS => "cannot access symbol on dpus with different programs"
  | DPU_ERR_INVALID_MEMORY_TRANSFER => "invalid memory transfer"
  | DPU_ERR_ELF_INVALID_FILE => "invalid ELF file"
  | DPU_ERR_ELF_NO_SUCH_FILE => "no such ELF file"
  | DPU_ERR_ELF_NO_SUCH_SECTION => "no such ELF section"
  | DPU_ERR_VPD_INVALID_FILE => "invalid VPD file"
  | DPU_ERR_VPD_NO_REPAIR => "repairs have not been generated"
  | DPU_ERR_NO_THREAD_PER_RANK => "no thread to perform multiple-rank operation"
  | DPU_ERR_INVALID_BUFFER_SIZE => "invalid buffer size"
  | DPU_ERR_NONBLOCKING_SYNC_CALLBACK => "nonblocking and synchronous callback is invalid"
  | DPU_ERR_TOO_MANY_TASKLETS => "dpu program uses more tasklets than the hardware has threads"
  | DPU_ERR_SG_TOO_MANY_BLOCKS => "scatter/gather transfer prepare exceed max number of blocks"
  | DPU_ERR_SG_LENGTH_MISMATCH => "scatter/gather transfer mismatch between nr bytes in blocks and length"
  | DPU_ERR_SG_NOT_ACTIVATED => "scatter/gather transfer not activated"
  | DPU_ERR_SG_NOT_MRAM_SYMBOL => "scatter/gather transfer unsupported symbol (must be a mram symbol)"
  | DPU_ERR_ASYNC_JOBS => "asynchronous operation error"
  end.

Definition dpu_error_to_string_switch (status : Z) : string :=
  match List.find (fun e => error_code e =? status)%Z all_errors with
  | Some e => error_string e
  | None => "unknown error"
  end.

Definition hex_digit (d : Z) : string :=
  match String.get (Z.to_nat d) "0123456789abcdef" with Some c => String c "" | None => "" end.

(** [%x] of a 32-bit word. *)
Fixpoint show_hex (fuel : nat) (z : Z) : string :=
  match fuel with
  | O => ""
  | S fuel => (if (z <? 16)%Z then "" else show_hex fuel (z / 16)%Z) ++ hex_digit (z mod 16)%Z
  end.

(** [asprintf_ok]: whether [asprintf] could allocate the string. *)
Definition dpu_error_to_string (asprintf_ok : bool) (status : Z) : option string :=
  if negb asprintf_ok then None
  else if negb (Z.land status (error_code DPU_ERR_ASYNC_JOBS) =? 0)%Z then
    let status := Z.ldiff status (error_code DPU_ERR_ASYNC_JOBS) in
    let job_type := Z.shiftr status DPU_ERROR_ASYNC_JOB_TYPE_SHIFT in
    let error := Z.land status async_error_mask in
    Some (dpu_error_to_string_switch (error_code DPU_ERR_ASYNC_JOBS)
          ++ " (" ++ dpu_thread_job_type_to_string job_type ++ "): "
          ++ dpu_error_to_string_switch error ++ " (0x" ++ show_hex 8 status ++ ")")
  else Some (dpu_error_to_string_switch status).

(** * The encoding is lossless *)

Local Open Scope Z_scope.

Lemma job_code_range t : 0 <= job_code t < 14.
Proof. destruct t; simpl; lia. Qed.

Lemma async_status_sum t s : async_status t s = (2 ^ 15 + job_code t) * 2 ^ 16 + s mod 2 ^ 16.
Proof.
  unfold async_status, async_error_mask, DPU_ERROR_ASYNC_JOB_TYPE_SHIFT.
  change (Z.shiftl 1 16 - 1) with (Z.ones 16). rewrite Z.land_ones by lia.
  replace (Z.lor (error_code DPU_ERR_ASYNC_JOBS) (Z.shiftl (job_code t) 16))
    with (Z.shiftl (2 ^ 15 + job_code t) 16) by (by destruct t).
  apply lor_shiftl_add; [lia |]. by apply Z.mod_pos_bound.
Qed.

(** The error is the low half of the status. *)
Lemma async_status_error t s : 0 <= s < 2 ^ 16 -> Z.land (async_status t s) async_error_mask = s.
Proof.
  intros Hs. rewrite async_status_sum. change async_error_mask with (Z.ones 16).
  rewrite Z.land_ones, Z.add_comm, Z_mod_plus_full by lia. rewrite Z.mod_mod by done.
  by apply Z.mod_small.
Qed.

Lemma async_status_nonzero t s : async_status t s <> error_code DPU_OK.
Proof.
  rewrite async_status_sum. change (error_code DPU_OK) with 0.
  pose proof (job_code_range t). pose proof (Z.mod_pos_bound s (2 ^ 16) ltac:(done)). lia.
Qed.

(** The status of a failed asynchronous job keeps the error and the job
    type: it is never [DPU_OK], its low half is the error, and printing it
    names both (a load job prints as an unknown type). *)
Theorem async_status_roundtrip t e :
  e <> DPU_ERR_ASYNC_JOBS ->
  let st := async_status t (error_code e) in
  st <> error_code DPU_OK
  /\ Z.land st async_error_mask = error_code e
  /\ 2 ^ 31 <= st < 2 ^ 32
  /\ exists code, dpu_error_to_string true st
      = Some ("asynchronous operation error (" ++ dpu_thread_job_type_to_string (job_code t) ++ "): "
              ++ error_string e ++ " (0x" ++ code ++ ")")%string.
Proof.
  intros He. cbn zeta. split_and!.
  - apply async_status_nonzero.
  - apply async_status_error. destruct e; vm_compute; split; congruence.
  - rewrite async_status_sum. pose proof (job_code_range t).
    pose proof (Z.mod_pos_bound (error_code e) (2 ^ 16) ltac:(done)). lia.
  - rewrite async_status_sum. pose proof (job_code_range t).
    pose proof (Z.mod_pos_bound (error_code e) (2 ^ 16) ltac:(done)). lia.
  - exists (show_hex 8 (Z.ldiff (async_status t (error_code e)) (2 ^ 31))). destruct t, e; (by destruct He) || (by vm_compute).
Qed.

Lemma async_status_roundtrip_witness :
  let st := async_status DPU_THREAD_JOB_LOAD (error_code DPU_ERR_TOO_MANY_TASKLETS) in
  st <> error_code DPU_OK
  /\ Z.land st async_error_mask = error_code DPU_ERR_TOO_MANY_TASKLETS
  /\ 2 ^ 31 <= st < 2 ^ 32
  /\ exists code, dpu_error_to_string true st
      = Some ("asynchronous operation error (" ++ dpu_thread_job_type_to_string 13 ++ "): "
              ++ error_string DPU_ERR_TOO_MANY_TASKLETS ++ " (0x" ++ code ++ ")")%string.
Proof. by apply (async_status_roundtrip DPU_THREAD_JOB_LOAD DPU_ERR_TOO_MANY_TASKLETS). Defined.
