(* ===== verification/JobQueue.v ===== *)
(** Asynchronous jobs of the host API
    (library/src/backends/api/src/api/dpu_thread_job.c, dpu_rank.h): the job
    slots and FIFO of each rank, the rank queues served by the worker
    threads, the execution of a job, and the clients' side (getting slots,
    adding jobs, waiting).

    The shared store is a [sys]; a function of the program is a state
    transformer [M], whose [None] is a null or dangling dereference.  Each
    function is one critical section, or a sequence of them; the relation
    [step] interleaves those of workers and clients.  The functions a job
    calls (boot, poll, copies, callbacks) are the actions of the trace, whose
    status is given by an environment. *)
From stdpp Require Import gmap list.
From S2P Require Import Prelude Errors.

(** * State *)

Abbreviation rid := nat (only parsing).
Abbreviation jid := nat (only parsing).

(** The callback part of a job; [dpu_set] is the ranks of the set, [None] for
    a set of unknown kind. *)
Record callback := {
  rank_idx : Z;
  dpu_set : option (list rid);
  nr_ranks : Z;
  master_job : option jid;
  slot_owner : rid;
  is_sync : bool;
  is_nonblocking : bool;
  is_single_call : bool }.

Record dpu_thread_job := {
  type : dpu_thread_job_type;
  rank : rid;
  dpu_rank : rid;
  sync : nat;
  cb : callback }.

Record rank_api := {
  jobs : list jid;
  available_jobs : list jid;
  available_jobs_length : Z;
  job_error : Z;
  queue_idx : nat;
  callback_tid_set : bool }.

Record dpu_thread_job_sync := { sync_nr_ranks : Z; sync_status : Z; sync_signals : nat }.

(** The calls to other components, in order. *)
Inductive action :=
| Boot_rank (r : rid) | Sync_rank (r : rid)
| Boot_dpu (j : jid) | Sync_dpu (j : jid)
| Set_running (queue : nat)
| Lock (r : rid) | Unlock (r : rid)
| Copy (r : rid) (t : dpu_thread_job_type) (j : jid)
| Load (r : rid) (j : jid)
| Function (ranks : list rid) (rank_idx : Z)
| Signal_slots (r : rid)
| Broadcast (queue : nat).

Record sys := {
  table : gmap jid dpu_thread_job;
  apis : gmap rid rank_api;
  queues : gmap nat (list jid);
  syncs : gmap nat dpu_thread_job_sync;
  trace : list action }.

Definition NR_QUEUES : nat := 4.

Definition M (A : Type) : Type := sys -> option (A * sys).

#[export] Instance M_ret : MRet M := fun A a s => Some (a, s).
#[export] Instance M_bind : MBind M := fun A B f m s => '(a, s) ← m s; f a s.

(** Undefined behaviour. *)
Definition undef {A} : M A := fun _ => None.

Definition get_api (r : rid) : M rank_api := fun s => a ← apis s !! r; Some (a, s).
Definition set_api (r : rid) (a : rank_api) : M () := fun s =>
  Some (tt, {| table := table s; apis := <[r := a]> (apis s); queues := queues s;
               syncs := syncs s; trace := trace s |}).
Definition get_job (j : jid) : M dpu_thread_job := fun s => a ← table s !! j; Some (a, s).
Definition set_job (j : jid) (a : dpu_thread_job) : M () := fun s =>
  Some (tt, {| table := <[j := a]> (table s); apis := apis s; queues := queues s;
               syncs := syncs s; trace := trace s |}).
Definition get_queue (q : nat) : M (list jid) := fun s => a ← queues s !! q; Some (a, s).
Definition set_queue (q : nat) (l : list jid) : M () := fun s =>
  Some (tt, {| table := table s; apis := apis s; queues := <[q := l]> (queues s);
               syncs := syncs s; trace := trace s |}).
Definition get_sync (i : nat) : M dpu_thread_job_sync := fun s => a ← syncs s !! i; Some (a, s).
Definition set_sync (i : nat) (y : dpu_thread_job_sync) : M () := fun s =>
  Some (tt, {| table := table s; apis := apis s; queues := queues s;
               syncs := <[i := y]> (syncs s); trace := trace s |}).

Definition emit (a : action) : M () := fun s =>
  Some (tt, {| table := table s; apis := apis s; queues := queues s; syncs := syncs s;
               trace := trace s ++ [a] |}).

Fixpoint forM {A} (l : list A) (f : A -> M ()) : M () :=
  match l with
  | [] => mret tt
  | x :: l => f x ≫= fun _ => forM l f
  end.

Definition set_jobs (a : rank_api) (l : list jid) : rank_api :=
  {| jobs := l; available_jobs := available_jobs a; available_jobs_length := available_jobs_length a;
     job_error := job_error a; queue_idx := queue_idx a; callback_tid_set := callback_tid_set a |}.
Definition set_available (a : rank_api) (l : list jid) (n : Z) : rank_api :=
  {| jobs := jobs a; available_jobs := l; available_jobs_length := n;
     job_error := job_error a; queue_idx := queue_idx a; callback_tid_set := callback_tid_set a |}.
Definition set_job_error (a : rank_api) (e : Z) : rank_api :=
  {| jobs := jobs a; available_jobs := available_jobs a; available_jobs_length := available_jobs_length a;
     job_error := e; queue_idx := queue_idx a; callback_tid_set := callback_tid_set a |}.
Definition set_tid (a : rank_api) (b : bool) : rank_api :=
  {| jobs := jobs a; available_jobs := available_jobs a; available_jobs_length := available_jobs_length a;
     job_error := job_error a; queue_idx := queue_idx a; callback_tid_set := b |}.

(** * Queues and slots *)

Definition dpu_thread_job_peek_unlocked (l : list jid) : option jid := head l.

(** Popping an empty list dereferences null. *)
Definition dpu_thread_job_pop_unlocked (l : list jid) : M (jid * list jid) :=
  match l with
  | [] => undef
  | j :: l => mret (j, l)
  end.

Definition dpu_thread_release_job_slot_unlocked (r : rid) (j : jid) : M () :=
  a ← get_api r;
  set_api r (set_available a (available_jobs a ++ [j]) (u32 (available_jobs_length a + 1))) ;;
  match available_jobs a with [] => emit (Signal_slots r) | _ => mret tt end.

Definition dpu_thread_insert_rank_list (first_job : option jid) (queue_idx : nat) : M () :=
  match first_job with
  | None => mret tt
  | Some j =>
    q ← get_queue queue_idx;
    set_queue queue_idx (q ++ [j]) ;;
    emit (Broadcast queue_idx)
  end.

Definition dpu_thread_advance_to_next_job (r : rid) : M (option jid) :=
  a ← get_api r;
  p ← dpu_thread_job_pop_unlocked (jobs a);
  set_api r (set_jobs a p.2) ;;
  dpu_thread_release_job_slot_unlocked r p.1 ;;
  a ← get_api r;
  mret (dpu_thread_job_peek_unlocked (jobs a)).

(** Without a next job the insertion dereferences null.  Broadcasts come
    after, once per queue used. *)
Definition dpu_thread_handle_global_block (r : rid) (ranks : list rid) : M () :=
  forM ranks (fun other =>
    if decide (other = r) then mret tt
    else
      a ← get_api other;
      next ← dpu_thread_advance_to_next_job other;
      match next with
      | None => undef
      | Some j => q ← get_queue (queue_idx a); set_queue (queue_idx a) (q ++ [j])
      end) ;;
  forM (seq 0 NR_QUEUES) (fun each_queue => fun s =>
    if existsb (fun other => negb (other =? r)%nat
         && match apis s !! other with Some a => (queue_idx a =? each_queue)%nat | None => false end) ranks
    then emit (Broadcast each_queue) s else (mret tt : M ()) s).

Definition do_sync_job (i : nat) : M () :=
  y ← get_sync i;
  let n := u32 (sync_nr_ranks y - 1) in
  set_sync i {| sync_nr_ranks := n; sync_status := sync_status y;
                sync_signals := if n =? 0 then S (sync_signals y) else sync_signals y |}.

(** * Executing a job *)

Section compute.
(** The status of the next call, given those made so far. *)
Variable env : list action -> action -> Z.

Definition call (a : action) : M Z := fun s =>
  Some (env (trace s) a, {| table := table s; apis := apis s; queues := queues s; syncs := syncs s;
                            trace := trace s ++ [a] |}).

Definition OK : Z := error_code DPU_OK.

(** Booting then polling, with the rank unlocked while polling when the
    caller is a callback, which holds the lock once more. *)
Definition launch_job (boot poll : action) (r : rid) : M Z :=
  status ← call boot;
  if negb (status =? OK) then mret status
  else
    a ← get_api r;
    emit (Set_running (queue_idx a)) ;;
    (if callback_tid_set a then emit (Unlock r) else mret tt) ;;
    status ← call poll;
    (if callback_tid_set a then emit (Lock r) else mret tt) ;;
    mret status.

Definition with_nr_ranks (j : dpu_thread_job) (n : Z) : dpu_thread_job :=
  let c := cb j in
  {| type := type j; rank := rank j; dpu_rank := dpu_rank j; sync := sync j;
     cb := {| rank_idx := rank_idx c; dpu_set := dpu_set c; nr_ranks := n; master_job := master_job c;
              slot_owner := slot_owner c; is_sync := is_sync c; is_nonblocking := is_nonblocking c;
              is_single_call := is_single_call c |} |}.

Definition when (b : bool) (m : M ()) : M () := if b then m else mret tt.

Definition set_callback_tid (b : bool) (r : rid) : M () := a ← get_api r; set_api r (set_tid a b).

(** The last rank of the callback runs it. *)
Definition run_callback (r : rid) (c : callback) (master : jid) (use_master : bool) : M (Z * bool) :=
  match dpu_set c with
  | None => mret (error_code DPU_ERR_INTERNAL, true)
  | Some ranks =>
    when (is_nonblocking c) (
      emit (Unlock r) ;;
      next ← dpu_thread_advance_to_next_job r;
      a ← get_api r;
      dpu_thread_insert_rank_list next (queue_idx a)) ;;
    when (is_single_call c && negb (is_nonblocking c)) (forM ranks (fun r => emit (Lock r))) ;;
    when (negb (is_nonblocking c)) (forM ranks (set_callback_tid true)) ;;
    status ← call (Function ranks (rank_idx c));
    when (negb (is_nonblocking c)) (forM ranks (set_callback_tid false)) ;;
    when (is_single_call c && negb (is_nonblocking c)) (forM ranks (fun r => emit (Unlock r))) ;;
    when (negb (is_nonblocking c) && is_single_call c && negb (is_sync c))
      (dpu_thread_handle_global_block r ranks) ;;
    when use_master (dpu_thread_release_job_slot_unlocked (slot_owner c) master) ;;
    mret (status, negb (is_nonblocking c))
  end.

Definition compute_callback (r : rid) (j : jid) : M (Z * bool) :=
  job ← get_job j;
  let use_master := match master_job (cb job) with Some _ => true | None => false end in
  let master := default j (master_job (cb job)) in
  m ← get_job master;
  let c := cb m in
  let n := u32 (nr_ranks c - 1) in
  set_job master (with_nr_ranks m n) ;;
  if n =? 0 then run_callback r c master use_master
  else if negb (is_nonblocking c) && is_single_call c && negb (is_sync c)
  then emit (Unlock r) ;; mret (OK, false)
  else mret (OK, true).

(** The status and [*keep_job_list]. *)
Definition dpu_thread_compute_job (r : rid) (j : jid) : M (Z * bool) :=
  job ← get_job j;
  match type job with
  | DPU_THREAD_JOB_LAUNCH_RANK => status ← launch_job (Boot_rank r) (Sync_rank r) r; mret (status, true)
  | DPU_THREAD_JOB_LAUNCH_DPU => status ← launch_job (Boot_dpu j) (Sync_dpu j) (dpu_rank job); mret (status, true)
  | DPU_THREAD_JOB_SYNC => do_sync_job (sync job) ;; mret (OK, true)
  | DPU_THREAD_JOB_LOAD => status ← call (Load r j); mret (status, true)
  | DPU_THREAD_JOB_CALLBACK => compute_callback r j
  | t => status ← call (Copy r t j); mret (status, true)
  end.

(** One job of the rank's list dropped after an error. *)
Definition drop_job (r : rid) (status : Z) (j : jid) : M () :=
  job ← get_job j;
  when (bool_decide (type job = DPU_THREAD_JOB_SYNC)) (
    y ← get_sync (sync job);
    set_sync (sync job) {| sync_nr_ranks := sync_nr_ranks y;
      sync_status := if sync_status y =? OK then status else sync_status y;
      sync_signals := sync_signals y |} ;;
    do_sync_job (sync job)) ;;
  dpu_thread_release_job_slot_unlocked r j.

Definition dpu_thread_update_status (status : Z) (r : rid) (j : jid) : M () :=
  job ← get_job j;
  a ← get_api r;
  let status := async_status (type job) status in
  let l := jobs a in
  set_api r (set_jobs (set_job_error a status) []) ;;
  forM l (drop_job r status).

(** * Worker threads *)

(** A worker waits on its queue, holds a rank and its current job, or has
    returned. *)
Inductive worker :=
| Waiting
| Busy (r : rid) (j : jid)
| Exited.

(** A worker whose rank should stop returns; another is served the first rank
    of its queue, and takes its lock. *)
Definition worker_take (should_stop : bool) (q : nat) : M worker :=
  l ← get_queue q;
  if should_stop then mret Exited
  else
  match l with
  | [] => mret Waiting
  | j :: l =>
    set_queue q l ;;
    job ← get_job j;
    emit (Lock (rank job)) ;;
    mret (Busy (rank job) j)
  end.

(** One turn of the inner loop of [dpu_thread_job_fct]. *)
Definition worker_run (r : rid) (j : jid) : M worker :=
  res ← dpu_thread_compute_job r j;
  let '(status, keep_job_list) := res in
  if negb keep_job_list then mret Waiting
  else if negb (status =? OK) then
    dpu_thread_update_status status r j ;; emit (Unlock r) ;; mret Waiting
  else
    next ← dpu_thread_advance_to_next_job r;
    match next with
    | Some j => mret (Busy r j)
    | None => emit (Unlock r) ;; mret Waiting
    end.
End compute.

(** * Clients *)

Inductive got :=
| Got (j : jid)
| Failed (status : Z)
| Blocked.

(** What the other threads do while this one waits. *)
Definition others {A} (w : sys -> sys) (m : M A) : M A := fun s => m (w s).

(** Waiting for a slot releases the mutex: each element of [waits] is what
    the other threads do during one wait. *)
Fixpoint dpu_thread_job_get_job_unlocked (waits : list (sys -> sys)) (r : rid)
  : M (got * list (sys -> sys)) :=
  a ← get_api r;
  if negb (job_error a =? OK) then mret (Failed (job_error a), waits)
  else
    match available_jobs a with
    | j :: l => set_api r (set_available a l (u32 (available_jobs_length a - 1))) ;; mret (Got j, waits)
    | [] =>
      match waits with
      | [] => mret (Blocked, [])
      | w :: waits => others w (dpu_thread_job_get_job_unlocked waits r)
      end
    end.

(** The slots put back at the head of the available ones of each rank. *)
Definition unget_job (r : rid) (j : jid) : M () :=
  a ← get_api r;
  set_api r (set_available a (j :: available_jobs a) (u32 (available_jobs_length a + 1))).

Definition dpu_thread_job_unget_jobs (l : list (rid * list jid)) : M () :=
  forM l (fun p => forM p.2 (unget_job p.1)).

(** [n] slots of one rank; on failure the slots got so far for this rank are
    not put back. *)
Fixpoint get_rank_jobs (waits : list (sys -> sys)) (r : rid) (n : nat) (acc : list jid)
  : M (got * list jid * list (sys -> sys)) :=
  match n with
  | O => mret (Got 0, acc, waits)
  | S n =>
    g ← dpu_thread_job_get_job_unlocked waits r;
    match g.1 with
    | Got j => get_rank_jobs g.2 r n (acc ++ [j])
    | e => mret (e, acc, g.2)
    end
  end.

(** The status ([None] when blocked forever) and the slots per rank. *)
Fixpoint dpu_thread_job_get_jobs (waits : list (sys -> sys)) (ranks : list rid) (nr_jobs : nat)
    (job_list : list (rid * list jid)) : M (option Z * list (rid * list jid)) :=
  match ranks with
  | [] => mret (Some OK, job_list)
  | r :: ranks =>
    g ← get_rank_jobs waits r nr_jobs [];
    match g.1.1 with
    | Got _ => dpu_thread_job_get_jobs g.2 ranks nr_jobs (job_list ++ [(r, g.1.2)])
    | Failed status => dpu_thread_job_unget_jobs job_list ;; mret (Some status, job_list)
    | Blocked => mret (None, job_list)
    end
  end.

(** One turn of [dpu_thread_job_add_jobs]: a rank without jobs enters its queue. *)
Definition add_rank_jobs (r : rid) (l : list jid) : M () :=
  a ← get_api r;
  match jobs a with
  | [] =>
    match l with
    | [] => undef
    | j :: _ => q ← get_queue (queue_idx a); set_queue (queue_idx a) (q ++ [j])
    end
  | _ => mret tt
  end ;;
  set_api r (set_jobs a (jobs a ++ l)).

Definition dpu_thread_job_add_jobs (l : list (rid * list jid)) : M () := fun s =>
  (forM l (fun p => add_rank_jobs p.1 p.2) ;;
   forM (seq 0 NR_QUEUES) (fun q =>
     when (existsb (fun p : rid * list jid => match apis s !! p.1 with
             | Some a => (queue_idx a =? q)%nat && match jobs a with [] => true | _ => false end
             | None => false end) l)
       (emit (Broadcast q)))) s.

(** The client waits until the counter is 0; each wait is an element of
    [waits].  The status, or [None] when never woken. *)
Fixpoint dpu_thread_job_wait_sync_job (waits : list (sys -> sys)) (i : nat) : M (option Z) :=
  match waits with
  | [] => mret None
  | w :: waits =>
    others w (
      y ← get_sync i;
      if sync_nr_ranks y =? 0 then mret (Some (sync_status y))
      else dpu_thread_job_wait_sync_job waits i)
  end.

Definition dpu_thread_job_do_jobs (env : list action -> action -> Z) (waits : list (sys -> sys))
    (l : list (rid * list jid)) (synchronous : bool) (i : nat) : M (option Z) :=
  direct ← (match l with
            | [(r, j :: _)] =>
              if synchronous then
                a ← get_api r; job ← get_job j;
                mret (if callback_tid_set a && negb (bool_decide (type job = DPU_THREAD_JOB_SYNC))
                      then Some (r, j) else None)
              else mret None
            | _ => mret None
            end);
  match direct with
  | Some (r, j) =>
    emit (Lock r) ;;
    res ← dpu_thread_compute_job env r j;
    emit (Unlock r) ;;
    mret (Some res.1)
  | None =>
    dpu_thread_job_add_jobs l ;;
    if negb synchronous then mret (Some OK)
    else
      st ← dpu_thread_job_wait_sync_job waits i;
      match st with
      | None => mret None
      | Some st =>
        let status := Z.land st async_error_mask in
        when (negb (status =? OK))
          (forM l (fun p => a ← get_api p.1; set_api p.1 (set_job_error a OK))) ;;
        mret (Some status)
      end
  end.

Definition dpu_thread_job_init_sync_job (i : nat) (nr_ranks : Z) : M () :=
  set_sync i {| sync_nr_ranks := nr_ranks; sync_status := OK; sync_signals := 0 |}.

(** * Interleaving of workers and clients *)

Record system := { core : sys; pool : list (nat * worker) }.

(** What the rest of the model depends on. *)
Definition view_jobs (s : sys) (r : rid) : option (list jid * nat) :=
  (fun a => (jobs a, queue_idx a)) <$> apis s !! r.
Definition view_rank (s : sys) (j : jid) : option rid := rank <$> table s !! j.

(** Callbacks that stop other ranks until a single call is done are set apart:
    see [global_block_last_job]. *)
Definition stops_ranks (c : callback) : bool := negb (is_nonblocking c) && is_single_call c && negb (is_sync c).

Definition no_global_block (s : sys) : Prop :=
  forall j job, table s !! j = Some job -> stops_ranks (cb job) = false.

(** A step that leaves the FIFOs, the queues and the ranks of the jobs alone. *)
Record frame (s s' : sys) : Prop := {
  frame_jobs : forall r, view_jobs s' r = view_jobs s r;
  frame_queues : queues s' = queues s;
  frame_rank : forall j, view_rank s' j = view_rank s j;
  frame_block : no_global_block s -> no_global_block s' }.

(** Workers take and run jobs; clients add jobs to a FIFO, and otherwise get,
    fill, put back slots and wait. *)
Inductive step (env : list action -> action -> Z) : system -> system -> Prop :=
| step_take s p w q stop k s' :
    p !! w = Some (q, Waiting) -> worker_take stop q s = Some (k, s') ->
    step env {| core := s; pool := p |} {| core := s'; pool := <[w := (q, k)]> p |}
| step_run s p w q r j k s' :
    p !! w = Some (q, Busy r j) -> worker_run env r j s = Some (k, s') ->
    step env {| core := s; pool := p |} {| core := s'; pool := <[w := (q, k)]> p |}
| step_add s p r l s' :
    Forall (fun j => view_rank s j = Some r) l ->
    add_rank_jobs r l s = Some (tt, s') ->
    step env {| core := s; pool := p |} {| core := s'; pool := p |}
| step_client s p s' :
    frame s s' -> step env {| core := s; pool := p |} {| core := s'; pool := p |}.

(** The jobs that represent rank [r]: in the queues, or held by workers. *)
Definition queued (s : sys) : list jid := concat (map (fun q => default [] (queues s !! q)) (seq 0 NR_QUEUES)).

Definition held (r : rid) (w : nat * worker) : list jid :=
  match w.2 with
  | Waiting | Exited => []
  | Busy r' j => if decide (r' = r) then [j] else []
  end.

Definition tokens (s : sys) (p : list (nat * worker)) (r : rid) : list jid :=
  filter (fun j => view_rank s j = Some r) (queued s) ++ concat (map (held r) p).

(** A rank with jobs is represented once, by its first job; a rank without
    jobs is not. *)
Record inv (S : system) : Prop := {
  inv_rank : forall r l q, view_jobs (core S) r = Some (l, q) ->
    (q < NR_QUEUES)%nat /\ Forall (fun j => view_rank (core S) j = Some r) l
    /\ tokens (core S) (pool S) r ≡ₚ option_list (head l);
  inv_held : forall w q r j, pool S !! w = Some (q, Busy r j) -> is_Some (view_jobs (core S) r);
  inv_pool : forall w q k, pool S !! w = Some (q, k) -> (q < NR_QUEUES)%nat;
  inv_queues : forall q, (q < NR_QUEUES)%nat -> is_Some (queues (core S) !! q);
  inv_jobs : forall j r, view_rank (core S) j = Some r -> is_Some (view_jobs (core S) r);
  inv_block : no_global_block (core S) }.

(** * Framed computations *)

Lemma frame_refl s : frame s s.
Proof. by constructor. Qed.

Lemma frame_trans s1 s2 s3 : frame s1 s2 -> frame s2 s3 -> frame s1 s3.
Proof.
  intros [A1 B1 C1 D1] [A2 B2 C2 D2]. constructor; intros; [by rewrite A2, A1 | by rewrite B2, B1
    | by rewrite C2, C1 | auto].
Qed.

Definition framed {A} (m : M A) : Prop := forall s a s', m s = Some (a, s') -> frame s s'.

Lemma M_bind_Some {A B} (m : M A) (f : A -> M B) s b s' :
  (m ≫= f) s = Some (b, s') <-> exists a s1, m s = Some (a, s1) /\ f a s1 = Some (b, s').
Proof.
  unfold mbind, M_bind. rewrite bind_Some. split.
  - intros ([a s1] & ? & ?). eauto.
  - intros (a & s1 & ? & ?). by exists (a, s1).
Qed.

Lemma framed_ret {A} (a : A) : framed (mret a).
Proof. intros s x s' [= _ <-]. apply frame_refl. Qed.

Lemma framed_undef {A} : framed (@undef A).
Proof. done. Qed.

Lemma framed_bind {A B} (m : M A) (f : A -> M B) :
  framed m -> (forall a, framed (f a)) -> framed (m ≫= f).
Proof. intros Hm Hf s b s' (a & s1 & ? & ?)%M_bind_Some. eapply frame_trans; [by eapply Hm | by eapply Hf]. Qed.

Lemma framed_forM {A} (l : list A) f : (forall x, framed (f x)) -> framed (forM l f).
Proof. intros Hf. induction l; simpl; [apply framed_ret | by apply framed_bind]. Qed.

Lemma framed_when b m : framed m -> framed (when b m).
Proof. destruct b; [done | intros; apply framed_ret]. Qed.

Lemma framed_call env a : framed (call env a).
Proof. intros s x s' [= _ <-]. by constructor. Qed.

Lemma framed_emit a : framed (emit a).
Proof. intros s x s' [= _ <-]. by constructor. Qed.

Lemma framed_get_sync i : framed (get_sync i).
Proof. intros s x s' (? & _ & [= _ <-])%bind_Some. by constructor. Qed.

Lemma framed_set_sync i y : framed (set_sync i y).
Proof. intros s x s' [= _ <-]. by constructor. Qed.

Lemma framed_get_job j : framed (get_job j).
Proof. intros s x s' (? & _ & [= _ <-])%bind_Some. by constructor. Qed.

Lemma framed_get_api r : framed (get_api r).
Proof. intros s x s' (? & _ & [= _ <-])%bind_Some. by constructor. Qed.

(** Updates of a rank that keep its FIFO. *)
Lemma framed_update_api r (f : rank_api -> rank_api) (g : rank_api -> M ()) :
  (forall a, jobs (f a) = jobs a /\ queue_idx (f a) = queue_idx a) -> (forall a, framed (g a)) ->
  framed (get_api r ≫= fun a => set_api r (f a) ≫= fun _ => g a).
Proof.
  intros Hf Hg s x s' (a & s1 & E & H)%M_bind_Some.
  apply bind_Some in E as (a' & E & [= -> ->]).
  apply M_bind_Some in H as (? & s2 & [= _ <-] & H).
  eapply frame_trans; [| by eapply Hg]. constructor; simpl; try done.
  intros r'. unfold view_jobs. simpl. destruct (decide (r = r')) as [<- |].
  - rewrite lookup_insert_eq, E. simpl. by destruct (Hf a) as [-> ->].
  - by rewrite lookup_insert_ne.
Qed.

Lemma framed_update_api' r (f : rank_api -> rank_api) :
  (forall a, jobs (f a) = jobs a /\ queue_idx (f a) = queue_idx a) ->
  framed (get_api r ≫= fun a => set_api r (f a)).
Proof.
  intros Hf s [] s' (a & s1 & E & H)%M_bind_Some.
  apply (framed_update_api r f (fun _ => mret tt) Hf ltac:(intros; apply framed_ret) s tt s').
  apply M_bind_Some. exists a, s1. split; [done |]. apply M_bind_Some. by exists tt, s'.
Qed.

Create HintDb framed.
#[export] Hint Resolve framed_ret framed_undef framed_bind framed_forM framed_when framed_call framed_emit
  framed_get_sync framed_set_sync framed_get_job framed_get_api framed_update_api' : framed.

Lemma framed_release r j : framed (dpu_thread_release_job_slot_unlocked r j).
Proof.
  apply (framed_update_api r (fun a => set_available a (available_jobs a ++ [j]) (u32 (available_jobs_length a + 1)))
    (fun a => match available_jobs a with [] => emit (Signal_slots r) | _ => mret tt end)); [done |].
  intros a. destruct (available_jobs a); auto with framed.
Qed.

Lemma framed_do_sync_job i : framed (do_sync_job i).
Proof. apply framed_bind; [apply framed_get_sync |]. intros y. apply framed_set_sync. Qed.

#[export] Hint Resolve framed_release framed_do_sync_job : framed.

Lemma framed_launch_job env boot poll r : framed (launch_job env boot poll r).
Proof.
  unfold launch_job. apply framed_bind; [auto with framed |]. intros st.
  destruct (negb _); [auto with framed |].
  apply framed_bind; [auto with framed |]. intros a.
  repeat (apply framed_bind; [destruct (callback_tid_set a); auto with framed |]; intros ?).
  destruct (callback_tid_set a); auto with framed.
Qed.

Lemma framed_set_callback_tid b r : framed (set_callback_tid b r).
Proof. unfold set_callback_tid. by apply framed_update_api'. Qed.

Lemma framed_drop_job r st j : framed (drop_job r st j).
Proof.
  apply framed_bind; [auto with framed |]. intros job.
  apply framed_bind; [apply framed_when | auto with framed].
  apply framed_bind; [auto with framed |]. intros y.
  apply framed_bind; auto with framed.
Qed.

#[export] Hint Resolve framed_launch_job framed_set_callback_tid framed_drop_job : framed.

(** Running a blocking callback, when no rank is to be stopped. *)
Lemma framed_run_callback env r c master use_master :
  is_nonblocking c = false -> stops_ranks c = false ->
  framed (run_callback env r c master use_master).
Proof.
  intros Hn Hs. unfold run_callback. fold (stops_ranks c). rewrite Hn, Hs.
  destruct (dpu_set c) as [ranks |]; [| auto with framed]. cbn [when].
  repeat (apply framed_bind; [auto 8 with framed |]; intros ?). auto with framed.
Qed.

Lemma set_nr_ranks_frame s m job n s' a :
  table s !! m = Some job -> set_job m (with_nr_ranks job n) s = Some (a, s') -> frame s s'.
Proof.
  intros E [= _ <-]. constructor; simpl; try done.
  - intros j. unfold view_rank. simpl. destruct (decide (m = j)) as [<- |].
    + by rewrite lookup_insert_eq, E.
    + by rewrite lookup_insert_ne.
  - intros H j jb. destruct (decide (m = j)) as [<- |].
    + simpl. rewrite lookup_insert_eq. intros [= <-]. by apply (H m job).
    + simpl. rewrite lookup_insert_ne by done. apply H.
Qed.

(** * What a worker does to the FIFO of its rank *)

(** The FIFO of [r] becomes [l]; nothing else but the queues may change. *)
Record moved (r : rid) (l : list jid) (s s' : sys) : Prop := {
  moved_jobs : forall r', view_jobs s' r' = if decide (r' = r) then (fun p => (l, p.2)) <$> view_jobs s r
                                            else view_jobs s r';
  moved_rank : forall j, view_rank s' j = view_rank s j;
  moved_block : no_global_block s -> no_global_block s' }.

Lemma moved_frame r l s s1 s2 : moved r l s s1 -> frame s1 s2 -> moved r l s s2 /\ queues s2 = queues s1.
Proof.
  intros [A1 B1 C1] [A2 Q B2 C2]. split; [| done].
  constructor; intros; [by rewrite A2 | by rewrite B2 | auto].
Qed.

Lemma frame_moved r l s s1 s2 : frame s s1 -> moved r l s1 s2 -> moved r l s s2.
Proof.
  intros [A1 Q B1 C1] [A2 B2 C2]. constructor; intros; [by rewrite A2, !A1 | by rewrite B2 | auto].
Qed.

Lemma moved_set_jobs s r a f x s' :
  apis s !! r = Some a -> queue_idx f = queue_idx a -> set_api r f s = Some (x, s') ->
  moved r (jobs f) s s' /\ queues s' = queues s.
Proof.
  intros E Hq [= _ <-]. split; [| done]. constructor; try done.
  intros r'. unfold view_jobs. simpl. case_decide as H.
  - subst. rewrite lookup_insert_eq, E. simpl. by rewrite Hq.
  - by rewrite lookup_insert_ne.
Qed.

Lemma advance_spec s r x s' :
  dpu_thread_advance_to_next_job r s = Some (x, s') ->
  exists j l q, view_jobs s r = Some (j :: l, q) /\ x = head l /\ moved r l s s' /\ queues s' = queues s.
Proof.
  intros (a & s1 & E & H)%M_bind_Some. apply bind_Some in E as (a' & E & [= -> ->]).
  apply M_bind_Some in H as ([j l] & s0 & E1 & H).
  unfold dpu_thread_job_pop_unlocked in E1. destruct (jobs a) as [| j' l'] eqn:Hj; [done |].
  injection E1 as -> -> <-. cbn [fst snd] in H.
  apply M_bind_Some in H as (? & s2 & E2 & H).
  eapply (moved_set_jobs _ _ a) in E2 as [Hm Hq]; [| done | done].
  apply M_bind_Some in H as (? & s3 & E3 & H). apply framed_release in E3.
  destruct (moved_frame _ _ _ _ _ Hm E3) as [Hm' Hq'].
  apply M_bind_Some in H as (b & s4 & E4 & [= <- <-]).
  apply bind_Some in E4 as (b' & E4 & [= -> ->]).
  exists j, l, (queue_idx a). split_and!.
  - unfold view_jobs. rewrite E. simpl. by rewrite Hj.
  - pose proof (moved_jobs _ _ _ _ Hm' r) as Hv. unfold view_jobs in Hv.
    rewrite decide_True, E, E4 in Hv by done. simpl in Hv. injection Hv as ->. done.
  - done.
  - by rewrite Hq', Hq.
Qed.

(** The queue entry of a rank that still has jobs. *)
Definition requeue (q : nat) (next : option jid) (qs qs' : gmap nat (list jid)) : Prop :=
  match next with
  | None => qs' = qs
  | Some j => exists old, qs !! q = Some old /\ qs' = <[q := old ++ [j]]> qs
  end.

Lemma insert_rank_list_spec next q s x s' :
  dpu_thread_insert_rank_list next q s = Some (x, s') ->
  (forall r, view_jobs s' r = view_jobs s r) /\ (forall j, view_rank s' j = view_rank s j)
  /\ (no_global_block s -> no_global_block s') /\ requeue q next (queues s) (queues s').
Proof.
  destruct next as [j |]; cbn [dpu_thread_insert_rank_list].
  - intros (old & s1 & E & H)%M_bind_Some. apply bind_Some in E as (o & E & [= -> ->]).
    apply M_bind_Some in H as (? & s2 & [= _ <-] & [= _ <-]). simpl. split_and!; try done. by exists old.
  - intros [= _ <-]. by simpl.
Qed.

Lemma run_callback_nonblocking env r c master use_master s st keep s' :
  is_nonblocking c = true ->
  run_callback env r c master use_master s = Some (st, keep, s') ->
  (keep = true /\ frame s s')
  \/ exists j l q, keep = false /\ view_jobs s r = Some (j :: l, q) /\ moved r l s s'
       /\ requeue q (head l) (queues s) (queues s').
Proof.
  intros Hn. unfold run_callback. rewrite Hn. cbn [when negb andb]. rewrite andb_false_r. cbn [when].
  destruct (dpu_set c) as [ranks |]; [| intros [= <- <- <-]; left; split; [done | apply frame_refl]].
  intros (u & s4 & E & H)%M_bind_Some. right.
  apply M_bind_Some in E as (? & s1 & [= _ <-] & E).
  apply M_bind_Some in E as (next & s2 & E2 & E).
  apply advance_spec in E2 as (j & l & q & Hv & -> & Hm & Hq).
  apply M_bind_Some in E as (a & s3 & E3 & E). apply bind_Some in E3 as (a' & E3 & [= -> ->]).
  apply insert_rank_list_spec in E as (Hi1 & Hi2 & Hi3 & Hi4).
  assert (frame s4 s' /\ keep = false) as [Hf ->].
  { repeat (apply M_bind_Some in H as (? & ? & [= _ <-] & H)). 
    apply M_bind_Some in H as (? & s5 & E5 & H).
    split; [| by injection H].
    injection H as _ _ <-. eapply frame_trans; [| destruct use_master; [by apply framed_release in E5 |]].
    + by constructor.
    + injection E5 as _ <-. apply frame_refl. }
  exists j, l, q. destruct Hm as [M1 M2 M3]. simpl in *. split_and!; [done | done | |].
  - eapply moved_frame in Hf; [apply Hf |]. constructor; intros; [by rewrite Hi1, M1 | by rewrite Hi2, M2 | auto].
  - rewrite (frame_queues _ _ Hf). rewrite <- Hq.
    specialize (M1 r). rewrite decide_True, Hv in M1 by done. simpl in M1.
    unfold view_jobs in M1. rewrite E3 in M1. injection M1 as _ <-. done.
Qed.

Lemma compute_job_spec env s r j st keep s' :
  no_global_block s -> dpu_thread_compute_job env r j s = Some (st, keep, s') ->
  (keep = true /\ frame s s')
  \/ exists j l q, keep = false /\ view_jobs s r = Some (j :: l, q) /\ moved r l s s'
       /\ requeue q (head l) (queues s) (queues s').
Proof.
  intros Hb (job & s1 & E & H)%M_bind_Some. apply bind_Some in E as (job' & E & [= <- <-]).
  assert (forall m : M Z, framed m -> (st0 ← m; mret (st0, true)) s = Some (st, keep, s') ->
    keep = true /\ frame s s') as Hsimple.
  { intros m Hm (st0 & s2 & E2 & [= _ <- <-])%M_bind_Some. split; [done | by eapply Hm]. }
  destruct (type job'); try (left; eapply Hsimple; [| exact H]; auto with framed; fail).
  - left. apply M_bind_Some in H as (? & s2 & E2 & [= _ <- <-]). split; [done |].
    by apply framed_do_sync_job in E2.
  - apply M_bind_Some in H as (? & s2 & E2 & H). apply bind_Some in E2 as (job2 & E2 & [= <- <-]).
    apply M_bind_Some in H as (m & s2 & E3 & H). apply bind_Some in E3 as (m' & E3 & [= -> <-]).
    apply M_bind_Some in H as (? & s3 & E4 & H).
    pose proof (set_nr_ranks_frame _ _ _ _ _ _ E3 E4) as Hf.
    assert (stops_ranks (cb m) = false) as Hst by (eapply Hb; exact E3).
    fold (stops_ranks (cb m)) in H. rewrite Hst in H.
    destruct (u32 (nr_ranks (cb m) - 1) =? 0).
    + destruct (is_nonblocking (cb m)) eqn:Hn.
      * apply run_callback_nonblocking in H as [[-> H] | (j' & l & q & -> & Hv & Hm & Hq)]; [| | done].
        { left. split; [done |]. by eapply frame_trans. }
        right. exists j', l, q. split_and!; [done | by rewrite <- (frame_jobs _ _ Hf) | by eapply frame_moved |].
        by rewrite (frame_queues _ _ Hf) in Hq.
      * left.
        assert (keep = true) as ->.
        { revert H. unfold run_callback. destruct (dpu_set (cb m)); [| by intros [= _ <- _]].
          rewrite Hn. intros H. repeat (apply M_bind_Some in H as (? & ? & _ & H)). by injection H. }
        split; [done |]. eapply frame_trans; [exact Hf |].
        eapply framed_run_callback; [exact Hn | exact Hst | exact H].
    + left. injection H as _ <- <-. by split.
Qed.

Lemma update_status_spec st r j s x s' :
  dpu_thread_update_status st r j s = Some (x, s') -> moved r [] s s' /\ queues s' = queues s.
Proof.
  intros (job & s1 & E & H)%M_bind_Some. apply bind_Some in E as (job' & E & [= <- <-]).
  apply M_bind_Some in H as (a & s1 & E1 & H). apply bind_Some in E1 as (a' & E1 & [= <- <-]).
  apply M_bind_Some in H as (? & s2 & E2 & H).
  eapply (moved_set_jobs _ _ a') in E2 as [Hm Hq]; [| done | done].
  apply (framed_forM _ _ (framed_drop_job r _)) in H.
  destruct (moved_frame _ _ _ _ _ Hm H) as [? Hq']. split; [done | by rewrite Hq', Hq].
Qed.

(** The three ways a worker leaves the rank [r] it held: with its next job,
    with nothing left, or handed back to its queue. *)
Lemma worker_run_spec env s r j k s' :
  no_global_block s -> worker_run env r j s = Some (k, s') ->
  (exists j0 j' l q, view_jobs s r = Some (j0 :: j' :: l, q) /\ k = Busy r j'
     /\ moved r (j' :: l) s s' /\ queues s' = queues s)
  \/ (k = Waiting /\ moved r [] s s' /\ queues s' = queues s)
  \/ (exists j0 l q, k = Waiting /\ view_jobs s r = Some (j0 :: l, q) /\ moved r l s s'
       /\ requeue q (head l) (queues s) (queues s')).
Proof.
  intros Hb ([st keep] & s1 & E & H)%M_bind_Some.
  apply compute_job_spec in E as [[-> Hf] | (j0 & l & q & -> & Hv & Hm & Hq)]; [| | done]; cbn [negb] in H.
  2:{ injection H as <- <-. right; right. exists j0, l, q. auto. }
  destruct (st =? OK); cbn [negb] in H.
  - apply M_bind_Some in H as (next & s2 & E & H).
    apply advance_spec in E as (j0 & l & q & Hv & -> & Hm & Hq).
    rewrite (frame_jobs _ _ Hf) in Hv. rewrite (frame_queues _ _ Hf) in Hq.
    eapply (frame_moved _ _ _ _ _ Hf) in Hm.
    destruct l as [| j' l]; cbn [list.head] in H.
    + apply M_bind_Some in H as (? & s3 & E3%framed_emit & [= <- <-]).
      right; left. destruct (moved_frame _ _ _ _ _ Hm E3) as [? Hq']. by rewrite Hq', Hq.
    + injection H as <- <-. left. exists j0, j', l, q. auto.
  - apply M_bind_Some in H as (? & s2 & E & H). apply update_status_spec in E as [Hm Hq].
    apply M_bind_Some in H as (? & s3 & E3%framed_emit & [= <- <-]).
    right; left. eapply (frame_moved _ _ _ _ _ Hf) in Hm.
    destruct (moved_frame _ _ _ _ _ Hm E3) as [? Hq'].
    by rewrite Hq', Hq, (frame_queues _ _ Hf).
Qed.

Lemma add_rank_jobs_spec r l s x s' :
  add_rank_jobs r l s = Some (x, s') ->
  exists l0 q, view_jobs s r = Some (l0, q) /\ moved r (l0 ++ l) s s'
    /\ requeue q (match l0 with [] => head l | _ => None end) (queues s) (queues s')
    /\ (l0 = [] -> l <> []).
Proof.
  intros (a & s1 & E & H)%M_bind_Some. apply bind_Some in E as (a' & E & [= <- <-]).
  exists (jobs a'), (queue_idx a'). unfold view_jobs at 1. rewrite E. split; [done |].
  apply M_bind_Some in H as (? & s2 & E1 & H).
  assert (apis s2 = apis s /\ table s2 = table s
    /\ requeue (queue_idx a') (match jobs a' with [] => head l | _ => None end) (queues s) (queues s2)
    /\ (jobs a' = [] -> l <> [])) as (Ha & Ht & Hq & Hne).
  { destruct (jobs a') as [| j0 l0]; [| by injection E1 as _ <-].
    destruct l as [| j l]; [done |]. apply M_bind_Some in E1 as (old & s3 & E3 & [= _ <-]).
    apply bind_Some in E3 as (o & E3 & [= <- <-]). simpl. split_and!; try done. by exists o. }
  eapply (moved_set_jobs _ _ a') in H as [[M1 M2 M3] Hq']; [| by rewrite Ha | done].
  unfold view_jobs, view_rank in *. rewrite Ha, Ht in *. split_and!; [| by rewrite Hq' | done].
  constructor; [exact M1 | exact M2 |].
  intros Hb. apply M3. intros j job. rewrite Ht. apply Hb.
Qed.

(** * The invariant *)

(** Replacing the content of one queue. *)
Lemma queued_insert s s' q l l' :
  (q < NR_QUEUES)%nat -> queues s !! q = Some l -> queues s' = <[q := l']> (queues s) ->
  exists a b, queued s = a ++ l ++ b /\ queued s' = a ++ l' ++ b.
Proof.
  intros Hq E E'. unfold queued. rewrite E'.
  pose (f (m : gmap nat (list jid)) (i : nat) := default [] (m !! i)).
  exists (concat (map (f (queues s)) (seq 0 q))), (concat (map (f (queues s)) (seq (S q) (NR_QUEUES - S q)))).
  assert (seq 0 NR_QUEUES = seq 0 q ++ q :: seq (S q) (NR_QUEUES - S q)) as ->.
  { change (q :: seq (S q) (NR_QUEUES - S q)) with (seq (0 + q) (S (NR_QUEUES - S q))).
    rewrite <- seq_app. f_equal. lia. }
  rewrite !map_app, !concat_app. cbn [map concat]. rewrite E, lookup_insert_eq. cbn [default].
  split; [done |]. f_equal; [| f_equal]; f_equal; apply map_ext_in; intros i Hi%in_seq;
    unfold f; rewrite lookup_insert_ne by lia; done.
Qed.

Lemma held_insert p w q k k0 r :
  p !! w = Some (q, k0) ->
  exists a b, concat (map (held r) p) = a ++ held r (q, k0) ++ b
    /\ concat (map (held r) (<[w := (q, k)]> p)) = a ++ held r (q, k) ++ b.
Proof.
  intros Hp. apply list_elem_of_split_length in Hp as (p1 & p2 & -> & ->).
  exists (concat (map (held r) p1)), (concat (map (held r) p2)).
  rewrite insert_app_r_alt, Nat.sub_diag by lia. cbn [insert list_insert].
  rewrite !map_app, !concat_app. done.
Qed.

Lemma filter_rank_ext s s' (l : list jid) r :
  (forall j, view_rank s' j = view_rank s j) ->
  filter (fun j => view_rank s' j = Some r) l = filter (fun j => view_rank s j = Some r) l.
Proof. intros H. apply list_filter_iff. intros j. by rewrite H. Qed.

(** Frames keep the invariant. *)
Lemma inv_frame s s' p :
  frame s s' -> inv {| core := s; pool := p |} -> inv {| core := s'; pool := p |}.
Proof.
  intros [A B C D] [I1 I2 I0 I3 I4 I5]. constructor; simpl in *.
  - intros r l q. rewrite A. intros Hv. destruct (I1 r l q Hv) as (? & Hl & Ht).
    split_and!; [done | |].
    + eapply list.Forall_impl; [exact Hl |]. intros j. by rewrite C.
    + rewrite <- Ht. unfold tokens, queued. rewrite B. by rewrite (filter_rank_ext s s').
  - intros w q r j Hp. rewrite A. by eapply I2.
  - exact I0.
  - intros q Hq. rewrite B. by apply I3.
  - intros j r. rewrite C, A. apply I4.
  - auto.
Qed.

(** A step of rank [r]: its FIFO becomes [l'], and its representatives change
    from [t] to [t'] somewhere in the queues or the pool. *)
Lemma inv_moved s s' p p' r l q l' :
  inv {| core := s; pool := p |} -> view_jobs s r = Some (l, q) -> moved r l' s s' ->
  Forall (fun j => view_rank s j = Some r) l' ->
  (forall r', r' <> r -> tokens s' p' r' ≡ₚ tokens s p r') ->
  tokens s' p' r ≡ₚ option_list (head l') ->
  (forall q, (q < NR_QUEUES)%nat -> is_Some (queues s' !! q)) ->
  (forall w q r j, p' !! w = Some (q, Busy r j) -> is_Some (view_jobs s r)) ->
  (forall w q k, p' !! w = Some (q, k) -> (q < NR_QUEUES)%nat) ->
  inv {| core := s'; pool := p' |}.
Proof.
  intros [I1 I2 I0 I3 I4 I5] Hv [M1 M2 M3] Hl' Hother Hown Hq Hheld Hpool.
  assert (forall r0, is_Some (view_jobs s r0) -> is_Some (view_jobs s' r0)) as Hdom.
  { intros r0. rewrite M1. case_decide; [| done]. subst. by rewrite Hv. }
  constructor; simpl in *; [| | done | done | | auto].
  - intros r0 l0 q0. rewrite M1. case_decide as Hr.
    + subst. rewrite Hv. intros [= <- <-]. destruct (I1 _ _ _ Hv) as (? & _ & _).
      split_and!; [done | | done]. eapply list.Forall_impl; [exact Hl' |]. intros j. by rewrite M2.
    + intros Hv0. destruct (I1 _ _ _ Hv0) as (? & Hf & Ht). split_and!; [done | | by rewrite Hother].
      eapply list.Forall_impl; [exact Hf |]. intros j. by rewrite M2.
  - intros. eapply Hdom, Hheld; eauto.
  - intros j r0. rewrite M2. intros Hj. eapply Hdom, I4, Hj.
Qed.

(** Tokens of every rank after a change of one queue by appending [t]. *)
Lemma tokens_requeue s s' p q next r :
  (forall j, view_rank s' j = view_rank s j) ->
  (forall q, (q < NR_QUEUES)%nat -> is_Some (queues s !! q)) -> (q < NR_QUEUES)%nat ->
  requeue q next (queues s) (queues s') ->
  tokens s' p r ≡ₚ filter (fun j => view_rank s j = Some r) (option_list next) ++ tokens s p r
  /\ (forall q, (q < NR_QUEUES)%nat -> is_Some (queues s' !! q)).
Proof.
  intros Hr Hqs Hq Hre. unfold tokens. rewrite (filter_rank_ext s s') by done.
  destruct next as [j |]; cbn [requeue option_list] in *.
  - destruct Hre as (old & E & E'). split.
    + destruct (queued_insert s s' q old (old ++ [j]) Hq E E') as (a & b & -> & ->).
      rewrite !list.filter_app, <- !app_assoc.
      by rewrite (app_assoc (filter _ a)), Permutation_app_swap_app, <- !app_assoc.
    + intros i Hi. rewrite E'. destruct (decide (q = i)) as [-> |].
      * by rewrite lookup_insert_eq.
      * rewrite lookup_insert_ne by done. by apply Hqs.
  - unfold queued. rewrite Hre. by split.
Qed.

Lemma filter_one s r r0 j :
  view_rank s j = Some r0 ->
  filter (fun j => view_rank s j = Some r) [j] = if decide (r = r0) then [j] else [].
Proof. intros E. rewrite filter_cons, filter_nil, E. repeat case_decide; congruence. Qed.

Lemma filter_head s r r0 l :
  Forall (fun j => view_rank s j = Some r0) l ->
  filter (fun j => view_rank s j = Some r) (option_list (head l))
  = if decide (r = r0) then option_list (head l) else [].
Proof.
  destruct l as [| j l]; simpl; [by case_decide |]. intros [H _]%list.Forall_cons. by apply filter_one.
Qed.

(** A worker changes state. *)
Lemma inv_pool_insert (p : list (nat * worker)) w q k k0 :
  p !! w = Some (q, k0) ->
  (forall w q k, p !! w = Some (q, k) -> (q < NR_QUEUES)%nat) ->
  forall w' q' k', <[w := (q, k)]> p !! w' = Some (q', k') -> (q' < NR_QUEUES)%nat.
Proof.
  intros Hp Hall w' q' k'. destruct (decide (w = w')) as [<- |].
  - rewrite list_lookup_insert_eq by (by eapply lookup_lt_Some). intros [= <- _]. by eapply Hall.
  - rewrite list_lookup_insert_ne by done. apply Hall.
Qed.

Lemma inv_held_insert s (p : list (nat * worker)) w q k :
  (forall r j, k = Busy r j -> is_Some (view_jobs s r)) ->
  (forall w q r j, p !! w = Some (q, Busy r j) -> is_Some (view_jobs s r)) ->
  forall w' q' r j, <[w := (q, k)]> p !! w' = Some (q', Busy r j) -> is_Some (view_jobs s r).
Proof.
  intros Hk Hall w' q' r j [(_ & [= _ H] & _) | (_ & H)]%list_lookup_insert_Some; [by eapply Hk | by eapply Hall].
Qed.

Lemma inv_exit s p w q :
  inv {| core := s; pool := p |} -> p !! w = Some (q, Waiting) ->
  inv {| core := s; pool := <[w := (q, Exited)]> p |}.
Proof.
  intros [I1 I2 I0 I3 I4 I5] Hp. simpl in *. constructor; simpl; try done.
  - intros r l q' Hv. destruct (I1 r l q' Hv) as (? & ? & Ht). split_and!; [done | done |].
    unfold tokens in *. destruct (held_insert p w q Exited Waiting r Hp) as (c & d & E1 & E2). by rewrite E2, E1 in *.
  - by eapply inv_held_insert.
  - by eapply inv_pool_insert.
Qed.

Lemma inv_take s p w q stop k s' :
  inv {| core := s; pool := p |} -> p !! w = Some (q, Waiting) -> worker_take stop q s = Some (k, s') ->
  inv {| core := s'; pool := <[w := (q, k)]> p |}.
Proof.
  intros Hi Hp (l & s1 & E & H)%M_bind_Some. apply bind_Some in E as (l' & E & [= <- <-]).
  destruct stop; [injection H as <- <-; by apply inv_exit |]. destruct Hi as [I1 I2 I0 I3 I4 I5].
  destruct l' as [| j l].
  { injection H as <- <-. rewrite list_insert_id by done. by constructor. }
  apply M_bind_Some in H as (? & s2 & [= _ <-] & H).
  apply M_bind_Some in H as (job & s3 & E3 & H). apply bind_Some in E3 as (job' & E3 & [= <- <-]).
  apply M_bind_Some in H as (? & s4 & [= _ <-] & [= <- <-]). simpl in *.
  set (s' := {| table := _ |}).
  assert (view_rank s j = Some (rank job')) as Hj by (unfold view_rank; by rewrite E3).
  assert (forall r, tokens s' (<[w := (q, Busy (rank job') j)]> p) r ≡ₚ tokens s p r) as Ht.
  { intros r. unfold tokens. rewrite (filter_rank_ext s s') by done.
    destruct (queued_insert s s' q (j :: l) l) as (a & b & -> & ->); [by eapply I0 | done | done |].
    destruct (held_insert p w q (Busy (rank job') j) Waiting r Hp) as (c & d & -> & ->).
    change (j :: l) with ([j] ++ l). rewrite !list.filter_app, (filter_one s r (rank job')) by done.
    unfold held. cbn [snd app].
    replace (if decide (rank job' = r) then [j] else []) with (if decide (r = rank job') then [j] else [])
      by (repeat case_decide; congruence).
    generalize (if decide (r = rank job') then [j] else []). intros t.
    rewrite <- !app_assoc. rewrite (app_assoc (filter _ b)), (app_assoc (filter _ l)), (app_assoc (filter _ a)).
    rewrite (Permutation_app_swap_app _ t). rewrite <- !app_assoc. by rewrite Permutation_app_swap_app. }
  constructor; simpl.
  - intros r l0 q0 Hv. destruct (I1 r l0 q0 Hv) as (? & ? & Htk). split_and!; [done | done |]. by rewrite Ht.
  - eapply inv_held_insert; [| exact I2]. intros r j' [= <- <-]. by eapply I4.
  - by eapply inv_pool_insert.
  - intros q' Hq'. destruct (decide (q = q')) as [<- |].
    + by rewrite lookup_insert_eq.
    + rewrite lookup_insert_ne by done. by apply I3.
  - exact I4.
  - exact I5.
Qed.

Lemma inv_add s p r l s' :
  inv {| core := s; pool := p |} -> Forall (fun j => view_rank s j = Some r) l ->
  add_rank_jobs r l s = Some (tt, s') -> inv {| core := s'; pool := p |}.
Proof.
  intros Hi Hl Ha. apply add_rank_jobs_spec in Ha as (l0 & q & Hv & Hm & Hre & Hne).
  pose proof Hi as [I1 I2 I0 I3 I4 I5]. simpl in *. destruct (I1 _ _ _ Hv) as (Hq & Hl0 & Ht).
  set (next := match l0 with [] => head l | _ => None end) in *.
  assert (forall r', tokens s' p r' ≡ₚ filter (fun j => view_rank s j = Some r') (option_list next) ++ tokens s p r'
    /\ (forall q, (q < NR_QUEUES)%nat -> is_Some (queues s' !! q))) as Htok.
  { intros r'. apply (tokens_requeue s s' p q next r' (moved_rank _ _ _ _ Hm) I3 Hq Hre). }
  assert (forall r', filter (fun j => view_rank s j = Some r') (option_list next)
    = if decide (r' = r) then option_list next else []) as Hf.
  { intros r'. unfold next. destruct l0; [by apply filter_head |]. simpl. by case_decide. }
  eapply (inv_moved s s' p p r l0 q (l0 ++ l) Hi Hv Hm); [by apply list.Forall_app | | | apply (Htok r) | exact I2 | exact I0].
  - intros r' Hr. rewrite (proj1 (Htok r')), Hf, decide_False by done. done.
  - rewrite (proj1 (Htok r)), Hf, decide_True, Ht by done. unfold next.
    destruct l0; simpl; [by rewrite app_nil_r | done].
Qed.

Lemma inv_run env s p w q r j k s' :
  inv {| core := s; pool := p |} -> p !! w = Some (q, Busy r j) ->
  worker_run env r j s = Some (k, s') -> inv {| core := s'; pool := <[w := (q, k)]> p |}.
Proof.
  intros Hi Hp Hrun. pose proof Hi as [I1 I2 I0 I3 I4 I5]. simpl in *.
  destruct (I2 _ _ _ _ Hp) as [[l0 q0] Hv]. destruct (I1 _ _ _ Hv) as (Hq0 & Hl0 & Ht).
  assert (forall r', exists a b, tokens s p r' = a ++ held r' (q, Busy r j) ++ b
    /\ forall k', tokens s (<[w := (q, k')]> p) r' = a ++ held r' (q, k') ++ b) as Htok.
  { intros r'. apply list_elem_of_split_length in Hp as (p1 & p2 & -> & ->). unfold tokens.
    exists (filter (fun j => view_rank s j = Some r') (queued s) ++ concat (map (held r') p1)),
      (concat (map (held r') p2)).
    rewrite map_app, concat_app. split; [by rewrite <- app_assoc |].
    intros k'. rewrite insert_app_r_alt, Nat.sub_diag by lia. cbn [insert list_insert].
    rewrite map_app, concat_app, <- app_assoc. done. }
  assert (forall k', tokens s (<[w := (q, k')]> p) r ≡ₚ held r (q, k')) as Hown.
  { intros k'. destruct (Htok r) as (a & b & E & E'). rewrite E'. rewrite E in Ht.
    unfold held in Ht. simpl in Ht. rewrite decide_True in Ht by done.
    apply Permutation_length in Ht. rewrite !length_app in Ht. simpl in Ht.
    assert (length (option_list (list.head l0)) <= 1)%nat by (destruct l0; simpl; lia).
    destruct a, b; simpl in *; try lia. by rewrite app_nil_r. }
  assert (forall k' r', r' <> r -> held r' (q, k') = [] ->
    tokens s (<[w := (q, k')]> p) r' ≡ₚ tokens s p r') as Hother.
  { intros k' r' Hr Hk. destruct (Htok r') as (a & b & -> & Ek). rewrite Ek, Hk.
    unfold held. simpl. by rewrite decide_False by done. }
  assert (forall r' j', r' <> r -> held r' (q, Busy r j') = []) as Hbusy.
  { intros r' j' Hr. unfold held. simpl. by rewrite decide_False by done. }
  assert (forall k' q1 next s', (forall j, view_rank s' j = view_rank s j) -> (q1 < NR_QUEUES)%nat ->
    requeue q1 next (queues s) (queues s') ->
    forall r', tokens s' (<[w := (q, k')]> p) r' ≡ₚ filter (fun j => view_rank s j = Some r') (option_list next)
      ++ tokens s (<[w := (q, k')]> p) r') as Hre.
  { intros k' q1 next s1 Hr Hq1 Hq r'. by apply (tokens_requeue s s1 _ q1 next). }
  assert (forall l l1, l0 = l1 ++ l -> Forall (fun j => view_rank s j = Some r) l) as Hsuf.
  { intros l l1 ->. by apply list.Forall_app in Hl0 as []. }
  assert (forall r' j', k = Busy r' j' -> is_Some (view_jobs s r')) as Hk.
  { intros r' j' ->. apply worker_run_spec in Hrun as [(? & ? & ? & ? & _ & [= -> _] & _)
      | [([=] & _) | (? & ? & ? & [=] & _)]]; [| done]. by rewrite Hv. }
  pose proof (inv_held_insert s p w q k Hk I2) as Hheld.
  pose proof (inv_pool_insert p w q k _ Hp I0) as Hpool.
  apply worker_run_spec in Hrun as [(j0 & j' & l & q1 & Hv' & -> & Hm & Hq)
    | [(-> & Hm & Hq) | (j0 & l & q1 & -> & Hv' & Hm & Hq)]]; [| | | done].
  - rewrite Hv in Hv'. injection Hv' as -> ->.
    pose proof (Hre (Busy r j') q1 None s' (moved_rank _ _ _ _ Hm) Hq0 Hq) as Hre'.
    eapply (inv_moved s s' p _ r _ q1 (j' :: l) Hi Hv Hm); [by apply (Hsuf _ [j0]) | | | | exact Hheld | exact Hpool].
    + intros r' Hr. rewrite Hre'. apply Hother; [done |]. by apply Hbusy.
    + rewrite Hre', Hown. unfold held. simpl. by rewrite decide_True.
    + by rewrite Hq.
  - pose proof (Hre Waiting q0 None s' (moved_rank _ _ _ _ Hm) Hq0 Hq) as Hre'.
    eapply (inv_moved s s' p _ r l0 q0 [] Hi Hv Hm); [done | | | | exact Hheld | exact Hpool].
    + intros r' Hr. rewrite Hre'. by apply Hother.
    + by rewrite Hre', Hown.
    + by rewrite Hq.
  - rewrite Hv in Hv'. injection Hv' as -> ->.
    pose proof (Hre Waiting q1 (list.head l) s' (moved_rank _ _ _ _ Hm) Hq0 Hq) as Hre'.
    assert (Forall (fun j => view_rank s j = Some r) l) as Hl by (by apply (Hsuf _ [j0])).
    eapply (inv_moved s s' p _ r _ q1 l Hi Hv Hm); [done | | | | exact Hheld | exact Hpool].
    + intros r' Hr. rewrite Hre', (filter_head s r' r) by done. rewrite decide_False by done. by apply Hother.
    + rewrite Hre', (filter_head s r r) by done. rewrite decide_True by done. by rewrite Hown, app_nil_r.
    + apply (tokens_requeue s s' p q1 (list.head l) r (moved_rank _ _ _ _ Hm) I3 Hq0 Hq).
Qed.

Lemma inv_step env S S' : inv S -> step env S S' -> inv S'.
Proof.
  intros Hi Hs. destruct Hs; [by eapply inv_take | by eapply inv_run | by eapply inv_add | by eapply inv_frame].
Qed.


(** At the start: empty FIFOs and queues, idle workers. *)
Lemma inv_init s p :
  (forall r l q, view_jobs s r = Some (l, q) -> l = [] /\ (q < NR_QUEUES)%nat) ->
  (forall q, (q < NR_QUEUES)%nat -> queues s !! q = Some []) ->
  (forall j r, view_rank s j = Some r -> is_Some (view_jobs s r)) -> no_global_block s ->
  Forall (fun w => w.2 = Waiting /\ (w.1 < NR_QUEUES)%nat) p ->
  inv {| core := s; pool := p |}.
Proof.
  intros Hv Hq Hj Hb Hp. constructor; simpl; [| | | by intros; rewrite Hq | done | done].
  - intros r l q E. destruct (Hv _ _ _ E) as [-> ?]. split_and!; [done | constructor |].
    unfold tokens. replace (queued s) with (@nil jid).
    + simpl. replace (concat (map (held r) p)) with (@nil jid); [done |].
      clear - Hp. induction Hp as [| [q k] p [Hk _] _ IH]; [done |]. simpl in *. by rewrite <- IH, Hk.
    + unfold queued, NR_QUEUES. simpl. by rewrite !Hq by (unfold NR_QUEUES; lia).
  - intros w q r j E. eapply Forall_lookup_1 in Hp; [| exact E]. by destruct Hp.
  - intros w q k E. eapply Forall_lookup_1 in Hp; [| exact E]. by destruct Hp.
Qed.

Definition plain_callback : callback :=
  {| rank_idx := 0; dpu_set := Some [0%nat]; nr_ranks := 1; master_job := None; slot_owner := 0;
     is_sync := false; is_nonblocking := false; is_single_call := false |}.

Definition sample_job (t : dpu_thread_job_type) (r : rid) : dpu_thread_job :=
  {| type := t; rank := r; dpu_rank := r; sync := 0; cb := plain_callback |}.

Definition sample_api (l avail : list jid) : rank_api :=
  {| jobs := l; available_jobs := avail; available_jobs_length := Z.of_nat (length avail);
     job_error := 0; queue_idx := 1; callback_tid_set := false |}.

(** A rank with a launch then a synchronisation, before and after they enter its FIFO. *)
Definition sample_sys (l : list jid) (q1 : list jid) (tr : list action) : sys :=
  {| table := {[0%nat := sample_job DPU_THREAD_JOB_LAUNCH_RANK 0; 1%nat := sample_job DPU_THREAD_JOB_SYNC 0]};
     apis := {[0%nat := sample_api l []]};
     queues := {[0%nat := []; 1%nat := q1; 2%nat := []; 3%nat := []]};
     syncs := {[0%nat := {| sync_nr_ranks := 1; sync_status := 0; sync_signals := 0 |}]};
     trace := tr |}.

Lemma sample_inv : inv {| core := sample_sys [] [] []; pool := [(1%nat, Waiting)] |}.
Proof.
  apply inv_init.
  - intros r l q. unfold view_jobs. simpl. destruct (decide (r = 0%nat)) as [-> |].
    + rewrite lookup_singleton_eq. intros [= <- <-]. unfold NR_QUEUES. auto with lia.
    + by rewrite lookup_singleton_ne.
  - intros [| [| [| [|]]]] Hq; try done. unfold NR_QUEUES in Hq. lia.
  - intros j r (job & H & ->)%fmap_Some. simpl in H.
    apply lookup_insert_Some in H as [[<- <-] | [_ [<- <-]%lookup_singleton_Some]]; by eexists.
  - intros j job H. simpl in H.
    by apply lookup_insert_Some in H as [[<- <-] | [_ [<- <-]%lookup_singleton_Some]].
  - constructor; [| constructor]. simpl. unfold NR_QUEUES. auto with lia.
Qed.


(** Every worker of a queue has returned. *)
Definition abandoned (q : nat) (S : system) : Prop :=
  forall w k, pool S !! w = Some (q, k) -> k = Exited.

(** A queue that only grew. *)
Definition grows (q : nat) (s s' : sys) : Prop :=
  forall l, queues s !! q = Some l -> exists suffix, queues s' !! q = Some (l ++ suffix).

Lemma requeue_grows q q1 next s s' : requeue q1 next (queues s) (queues s') -> grows q s s'.
Proof.
  intros H l Hl. destruct next as [j |]; simpl in H; [| rewrite H; exists []; by rewrite app_nil_r].
  destruct H as (old & Hold & ->). destruct (decide (q1 = q)) as [-> |].
  - rewrite lookup_insert_eq. exists [j]. congruence.
  - rewrite lookup_insert_ne by done. exists []. by rewrite app_nil_r.
Qed.

Lemma step_abandoned env S S' q :
  inv S -> abandoned q S -> step env S S' -> abandoned q S' /\ grows q (core S) (core S').
Proof.
  intros Hi Ha Hs. assert (forall s s' : sys, queues s' = queues s -> grows q s s') as Hsame.
  { intros s s' E l Hl. exists []. by rewrite E, app_nil_r. }
  destruct Hs as [s p w q0 stop k s' Hp Ht | s p w q0 r j k s' Hp Hrun | s p r l s' Hl Hadd | s p s' Hf];
    unfold abandoned in *; cbn [core pool] in *.
  - assert (q0 <> q) as Hq by (intros ->; by specialize (Ha _ _ Hp)). split.
    + intros w' k' [(_ & [= E _] & _) | [_ H]]%list_lookup_insert_Some; [by destruct Hq | by eapply Ha].
    + apply M_bind_Some in Ht as (l & s1 & E & H). apply bind_Some in E as (l' & E & [= <- <-]).
      destruct stop; [injection H as <- <-; by apply Hsame |].
      destruct l' as [| j l]; [injection H as <- <-; by apply Hsame |].
      apply M_bind_Some in H as (? & s2 & [= _ <-] & H).
      apply M_bind_Some in H as (job & s3 & E3 & H). apply bind_Some in E3 as (job' & E3 & [= <- <-]).
      apply M_bind_Some in H as (? & s4 & [= _ <-] & [= <- <-]). intros l0 Hl0. simpl.
      rewrite lookup_insert_ne by done. exists []. by rewrite app_nil_r.
  - assert (q0 <> q) as Hq by (intros ->; by specialize (Ha _ _ Hp)). split.
    + intros w' k' [(_ & [= E _] & _) | [_ H]]%list_lookup_insert_Some; [by destruct Hq | by eapply Ha].
    + apply worker_run_spec in Hrun as [(? & ? & ? & ? & _ & _ & _ & E) | [(_ & _ & E) | (? & ? & q1 & _ & _ & _ & E)]];
        [by apply Hsame | by apply Hsame | by eapply requeue_grows | by destruct Hi].
  - split; [done |]. apply add_rank_jobs_spec in Hadd as (l0 & q1 & _ & _ & E & _). by eapply requeue_grows.
  - split; [done |]. apply Hsame. by destruct Hf.
Qed.



(** * A failing job *)

(** Whether [j] is a SYNC job that counts down [i]. *)
Definition counts (t : gmap jid dpu_thread_job) (i : nat) (j : jid) : bool :=
  match t !! j with
  | Some job => bool_decide (type job = DPU_THREAD_JOB_SYNC) && (sync job =? i)%nat
  | None => false
  end.

Definition count_syncs (t : gmap jid dpu_thread_job) (i : nat) (l : list jid) : Z :=
  Z.of_nat (length (List.filter (counts t i) l)).

(** The parts of the state that dropping jobs of [r] changes. *)
Lemma drop_job_effect r st j s x s' a :
  apis s !! r = Some a -> drop_job r st j s = Some (x, s') ->
  table s' = table s /\ queues s' = queues s
  /\ (exists a', apis s' !! r = Some a' /\ jobs a' = jobs a /\ job_error a' = job_error a
       /\ available_jobs a' = available_jobs a ++ [j]
       /\ available_jobs_length a' = u32 (available_jobs_length a + 1))
  /\ forall i y, syncs s !! i = Some y -> exists y', syncs s' !! i = Some y'
       /\ sync_nr_ranks y' = (if counts (table s) i j then u32 (sync_nr_ranks y - 1) else sync_nr_ranks y)
       /\ sync_status y' = (if counts (table s) i j then if sync_status y =? OK then st else sync_status y
                            else sync_status y).
Proof.
  intros Ha (job & s1 & E & H)%M_bind_Some. apply bind_Some in E as (job' & E & [= <- <-]).
  unfold counts. rewrite E. apply M_bind_Some in H as (? & s2 & E2 & H).
  assert (table s2 = table s /\ apis s2 = apis s /\ queues s2 = queues s
    /\ forall i y, syncs s !! i = Some y -> exists y', syncs s2 !! i = Some y'
       /\ sync_nr_ranks y' = (if bool_decide (type job' = DPU_THREAD_JOB_SYNC) && (sync job' =? i)%nat
                              then u32 (sync_nr_ranks y - 1) else sync_nr_ranks y)
       /\ sync_status y' = (if bool_decide (type job' = DPU_THREAD_JOB_SYNC) && (sync job' =? i)%nat
           then if sync_status y =? OK then st else sync_status y else sync_status y)) as (Ht & Hap & Hq & Hy).
  { destruct (bool_decide _); cbn [when andb] in *; [| injection E2 as _ <-; split_and!; [done .. |]; intros i y Hi; by exists y].
    apply M_bind_Some in E2 as (y0 & s3 & E3 & E2). apply bind_Some in E3 as (y1 & E3 & [= -> <-]).
    apply M_bind_Some in E2 as (? & s4 & [= _ <-] & E2).
    apply M_bind_Some in E2 as (y2 & s5 & E5 & [= _ <-]).
    apply bind_Some in E5 as (y3 & E5 & [= -> <-]). simpl in E5. rewrite lookup_insert_eq in E5.
    injection E5 as <-. simpl. split_and!; try done. intros i y Hi.
    destruct (Nat.eqb_spec (sync job') i) as [<- |].
    - rewrite lookup_insert_eq. rewrite E3 in Hi. injection Hi as ->. eexists. split; [done |]. by simpl.
    - rewrite !lookup_insert_ne by done. eauto. }
  rewrite <- Hap in Ha. apply M_bind_Some in H as (a1 & s3 & E3 & H).
  apply bind_Some in E3 as (a2 & E3 & [= -> <-]). rewrite E3 in Ha. injection Ha as ->.
  apply M_bind_Some in H as (? & s4 & [= _ <-] & H).
  assert (exists tr, s' = {| table := table s2; apis := <[r := set_available a (available_jobs a ++ [j])
    (u32 (available_jobs_length a + 1))]> (apis s2); queues := queues s2; syncs := syncs s2; trace := tr |}) as [tr ->].
  { destruct (available_jobs a); injection H as _ <-; eauto. }
  simpl. rewrite lookup_insert_eq. split_and!; [done | done | | done]. eexists. split; [done |]. by simpl.
Qed.

Lemma u32_sub n k : u32 (u32 (n - 1) - k) = u32 (n - (1 + k)).
Proof. unfold wrap. rewrite Zminus_mod_idemp_l. f_equal. lia. Qed.

Lemma drop_jobs_effect r st l s x s' a :
  st <> OK -> apis s !! r = Some a -> forM l (drop_job r st) s = Some (x, s') ->
  table s' = table s /\ queues s' = queues s
  /\ (exists a', apis s' !! r = Some a' /\ jobs a' = jobs a /\ job_error a' = job_error a
       /\ available_jobs a' = available_jobs a ++ l)
  /\ forall i y, syncs s !! i = Some y -> 0 <= sync_nr_ranks y < 2 ^ 32 ->
       exists y', syncs s' !! i = Some y'
       /\ sync_nr_ranks y' = u32 (sync_nr_ranks y - count_syncs (table s) i l)
       /\ sync_status y' = (if count_syncs (table s) i l =? 0 then sync_status y
                            else if sync_status y =? OK then st else sync_status y).
Proof.
  intros Hst. revert s a. induction l as [| j l IH]; intros s a Ha H; cbn [forM] in H.
  - injection H as _ <-. split_and!; [done | done | by exists a; rewrite app_nil_r |].
    intros i y Hy Hn. exists y. unfold count_syncs. simpl. rewrite Z.sub_0_r, wrap_small by done. done.
  - apply M_bind_Some in H as (? & s1 & E & H).
    apply (drop_job_effect _ _ _ _ _ _ _ Ha) in E as (Ht & Hq & (a1 & Ha1 & Hj & He & Hav & _) & Hs).
    apply (IH _ _ Ha1) in H as (Ht' & Hq' & (a2 & Ha2 & Hj' & He' & Hav') & Hs').
    split_and!; [by rewrite Ht' | by rewrite Hq' | |].
    + exists a2. split_and!; [done | by rewrite Hj' | by rewrite He' | by rewrite Hav', Hav, <- app_assoc].
    + intros i y Hy Hn. destruct (Hs i y Hy) as (y1 & Hy1 & Hn1 & Hst1).
      destruct (Hs' i y1 Hy1) as (y2 & Hy2 & Hn2 & Hst2).
      { rewrite Hn1. case_match; [by apply wrap_range | done]. }
      exists y2. split; [done |]. rewrite Hn2, Hst2, Hn1, Hst1, Ht. unfold count_syncs. simpl.
      pose proof (Nat2Z.is_nonneg (length (List.filter (counts (table s) i) l))).
      destruct (counts (table s) i j).
      * cbn [length]. rewrite Nat2Z.inj_succ, u32_sub. split; [f_equal; lia |].
        set (k := Z.of_nat (length (List.filter (counts (table s) i) l))) in *.
        destruct (Z.eqb_spec (Z.succ k) 0); [lia |]. apply Z.eqb_neq in Hst.
        destruct (k =? 0), (sync_status y =? OK) eqn:Hy0; rewrite ?Hst, ?Hy0; done.
      * done.
Qed.



(** * Single-call blocking callbacks *)

Lemma forM_app {A} (l1 l2 : list A) f s :
  forM (l1 ++ l2) f s = (forM l1 f ≫= fun _ => forM l2 f) s.
Proof.
  revert s. induction l1 as [| x l1 IH]; intros s; [done |].
  cbn [app forM]. unfold mbind, M_bind. destruct (f x s) as [[u s1] |]; cbn [mbind option_bind]; [| done].
  rewrite IH. done.
Qed.

(** When the last rank reaches a blocking single-call callback, the
    other ranks go on with the job after it; if that callback is the last job
    of one of them, the null next job is inserted in its queue: undefined
    behaviour. *)
Theorem global_block_last_job r r' ranks1 ranks2 j q s :
  r' <> r -> r' ∉ ranks1 -> view_jobs s r' = Some ([j], q) ->
  dpu_thread_handle_global_block r (ranks1 ++ r' :: ranks2) s = None.
Proof.
  intros Hr Hn Hv. unfold dpu_thread_handle_global_block.
  set (f := fun other => if decide (other = r) then _ else _).
  match goal with |- (_ ≫= ?g) s = None => set (rest := g) end.
  enough (forM (ranks1 ++ r' :: ranks2) f s = None) as E by (unfold mbind, M_bind; by rewrite E).
  destruct (forM (ranks1 ++ r' :: ranks2) f s) as [[u s'] |] eqn:E; [| done]. exfalso.
  rewrite forM_app in E. apply M_bind_Some in E as (? & s1 & E1 & E2).
  assert (view_jobs s1 r' = Some ([j], q)) as Hv1.
  { clear E2 rest. revert s Hv E1. induction ranks1 as [| o ranks1 IH]; intros s Hv E1; cbn [forM] in E1.
    - by injection E1 as _ <-.
    - rewrite not_elem_of_cons in Hn. destruct Hn as [Ho Hn].
      apply M_bind_Some in E1 as (? & s2 & E2 & E1). eapply IH; [done | | exact E1].
      unfold f in E2. case_decide; [by injection E2 as _ <- |].
      apply M_bind_Some in E2 as (a & s3 & E3 & E2). apply bind_Some in E3 as (a' & E3 & [= <- <-]).
      apply M_bind_Some in E2 as (next & s4 & E4 & E2).
      apply advance_spec in E4 as (j0 & l & q0 & _ & -> & Hm & _).
      assert (view_jobs s2 r' = view_jobs s4 r') as ->.
      { destruct (list.head l); [| done]. by apply M_bind_Some in E2 as (? & s5 & E5 & [= _ <-]);
          apply bind_Some in E5 as (? & _ & [= _ <-]). }
      by rewrite (moved_jobs _ _ _ _ Hm), decide_False. }
  cbn [forM] in E2. apply M_bind_Some in E2 as (? & s2 & E2 & _). unfold f in E2.
  rewrite decide_False in E2 by done.
  apply M_bind_Some in E2 as (a & s3 & E3 & E2). apply bind_Some in E3 as (a' & E3 & [= <- <-]).
  apply M_bind_Some in E2 as (next & s4 & E4 & E2).
  apply advance_spec in E4 as (j0 & l & q0 & Hv2 & -> & _). rewrite Hv1 in Hv2. by injection Hv2 as <- <- <-.
Qed.

Lemma global_block_last_job_witness :
  dpu_thread_handle_global_block 0 [0%nat; 1%nat]
    {| table := {[0%nat := sample_job DPU_THREAD_JOB_CALLBACK 0; 1%nat := sample_job DPU_THREAD_JOB_CALLBACK 1]};
       apis := {[0%nat := sample_api [0%nat] []; 1%nat := sample_api [1%nat] []]};
       queues := {[0%nat := []; 1%nat := []; 2%nat := []; 3%nat := []]}; syncs := ∅; trace := [] |} = None.
Proof.
  apply (global_block_last_job 0 1 [0%nat] [] 1 1); [done | | reflexivity].
  intros H. by apply list_elem_of_singleton in H.
Defined.

(** * Creation and destruction of the workers *)

(** The configuration of a rank with the outcomes of [calloc] and of each
    [pthread_create]. *)
Record rank_config := { nr_jobs : nat; calloc_ok : bool; numa_node : Z; thread_ok : list bool }.

(** What [dpu_thread_job_create] set up for a rank. *)
Record created := {
  c_api : option rank_api;
  table_allocated : bool;
  running_threads : nat;
  nr_threads : nat;
  should_stop : bool;
  done : bool }.

Definition not_created (c : rank_config) : created :=
  {| c_api := None; table_allocated := false; running_threads := 0; nr_threads := length (thread_ok c);
     should_stop := false; done := false |}.

(** The threads started before the first failure. *)
Fixpoint started (l : list bool) : nat :=
  match l with true :: l => S (started l) | _ => O end.

(** Slots are inserted at the head, the first of the table at index [base]. *)
Definition create_rank (base : jid) (c : rank_config) : dpu_error_t * created :=
  if negb (calloc_ok c) then (DPU_ERR_SYSTEM, not_created c)
  else
    let queue_idx := u32 (if numa_node c =? -1 then 0 else numa_node c) in
    let api := {| jobs := []; available_jobs := rev (seq base (nr_jobs c));
                  available_jobs_length := Z.of_nat (nr_jobs c); job_error := OK;
                  queue_idx := Z.to_nat queue_idx; callback_tid_set := false |} in
    if Z.of_nat NR_QUEUES <=? queue_idx
    then (DPU_ERR_SYSTEM, {| c_api := Some api; table_allocated := true; running_threads := 0;
            nr_threads := length (thread_ok c); should_stop := false; done := false |})
    else
      let n := started (thread_ok c) in
      (if (n =? length (thread_ok c))%nat then DPU_OK else DPU_ERR_SYSTEM,
       {| c_api := Some api; table_allocated := true; running_threads := n;
          nr_threads := length (thread_ok c); should_stop := false; done := true |}).

Fixpoint create_ranks (base : jid) (l : list rank_config) : dpu_error_t * list created :=
  match l with
  | [] => (DPU_OK, [])
  | c :: l =>
    let '(status, r) := create_rank base c in
    if negb (bool_decide (status = DPU_OK)) then (status, r :: map not_created l)
    else let '(status, rs) := create_ranks (base + nr_jobs c) l in (status, r :: rs)
  end.

(** Threads of a rank that was set up are stopped and joined. *)
Definition stop_rank (r : created) : created :=
  if negb (done r) then r
  else {| c_api := c_api r; table_allocated := false; running_threads := 0; nr_threads := 0;
          should_stop := true; done := done r |}.

Definition dpu_thread_job_create (l : list rank_config) : dpu_error_t * list created :=
  let '(status, rs) := create_ranks 0 l in
  if bool_decide (status = DPU_OK) then (status, rs) else (status, map stop_rank rs).

Definition dpu_thread_job_free (l : list created) : list created :=
  map (fun r => {| c_api := c_api r; table_allocated := false; running_threads := 0;
                   nr_threads := nr_threads r; should_stop := true; done := done r |}) l.

(** A rank ready to work. *)
Definition ready (base : jid) (c : rank_config) (r : created) : Prop :=
  running_threads r = length (thread_ok c) /\ should_stop r = false /\ table_allocated r = true
  /\ exists a, c_api r = Some a /\ jobs a = [] /\ job_error a = OK /\ (queue_idx a < NR_QUEUES)%nat
       /\ available_jobs a ≡ₚ seq base (nr_jobs c) /\ available_jobs_length a = Z.of_nat (nr_jobs c).

Fixpoint all_ready (base : jid) (l : list rank_config) (rs : list created) : Prop :=
  match l, rs with
  | [], [] => True
  | c :: l, r :: rs => ready base c r /\ all_ready (base + nr_jobs c) l rs
  | _, _ => False
  end.

Lemma create_rank_spec base c status r :
  create_rank base c = (status, r) ->
  (status = DPU_OK -> ready base c r) /\ (done r = false -> running_threads r = 0%nat)
  /\ (done r = true -> table_allocated r = true)
  /\ (done r = false -> table_allocated r = true -> calloc_ok c = true /\ status <> DPU_OK).
Proof.
  unfold create_rank. destruct (calloc_ok c); cbn [negb]; [| intros [= <- <-]; by split_and!].
  destruct (Z.leb_spec (Z.of_nat NR_QUEUES) (u32 (if numa_node c =? -1 then 0 else numa_node c))).
  { intros [= <- <-]. by split_and!. }
  intros [= <- <-]. split_and!; simpl; [| done ..].
  destruct (Nat.eqb_spec (started (thread_ok c)) (length (thread_ok c))); [| done].
  intros _. unfold ready. simpl. split_and!; [done .. |]. eexists. split; [done |]. simpl.
  pose proof (wrap_range 32 (if numa_node c =? -1 then 0 else numa_node c) ltac:(lia)).
  split_and!; [done | done | lia | by rewrite <- Permutation_rev | done].
Qed.

(** Creating the job threads.  On success every rank has its slots free,
    its FIFO empty, a valid queue and all its threads; on failure no thread
    is left running, whatever the rank at fault and the moment. *)
Theorem dpu_thread_job_create_spec l :
  let '(status, rs) := dpu_thread_job_create l in
  length rs = length l
  /\ if decide (status = DPU_OK) then all_ready 0 l rs
     else Forall (fun r => running_threads r = 0%nat) rs.
Proof.
  unfold dpu_thread_job_create.
  assert (forall base, let '(status, rs) := create_ranks base l in length rs = length l
    /\ (status = DPU_OK -> all_ready base l rs)
    /\ Forall (fun r => done r = false -> running_threads r = 0%nat) rs) as H.
  { induction l as [| c l IH]; intros base; simpl; [by split_and! |].
    destruct (create_rank base c) as [status r] eqn:E. apply create_rank_spec in E as (E1 & E2 & _).
    case_bool_decide as Hs; cbn [negb].
    - specialize (IH (base + nr_jobs c)%nat). destruct (create_ranks _ l) as [status' rs].
      destruct IH as (IH1 & IH2 & IH3). simpl. split_and!; [by rewrite IH1 | by auto | by constructor].
    - simpl. split_and!; [by rewrite length_map | done |]. constructor; [done |].
      apply Forall_map, Forall_true. done. }
  specialize (H 0%nat). destruct (create_ranks 0 l) as [status rs].
  destruct H as (Hl & Hok & Hf). case_bool_decide as Hs.
  - rewrite decide_True by done. auto.
  - rewrite decide_False by done. rewrite length_map. split; [done |].
    apply Forall_map. eapply list.Forall_impl; [exact Hf |]. intros r Hr. unfold stop_rank. simpl.
    destruct (done r) eqn:E; simpl; auto.
Qed.
