(* ===== verification/Mask.v ===== *)
(** Bit fields of the DPUs of a control interface
    (library/src/backends/commons/include/dpu_mask.h): 8-bit words. *)
From S2P Require Import Prelude.

Definition DPU_MAX_NR_DPUS_PER_CI : Z := 8.
Definition DPU_MAX_NR_CIS : nat := 8.

Definition dpu_mask_empty : Z := 0.
Definition dpu_mask_one (dpu_id : Z) : Z := u8 (Z.shiftl 1 dpu_id).
Definition dpu_mask_all (nb_of_dpus : Z) : Z := u8 (Z.shiftl 1 nb_of_dpus - 1).
Definition dpu_mask_union (mask1 mask2 : Z) : Z := Z.lor mask1 mask2.
Definition dpu_mask_intersection (mask1 mask2 : Z) : Z := Z.land mask1 mask2.
Definition dpu_mask_difference (mask1 mask2 : Z) : Z := Z.ldiff mask1 mask2.
Definition dpu_mask_disjoint (mask1 mask2 : Z) : Z := Z.lxor mask1 mask2.
Definition dpu_mask_select (mask dpu_id : Z) : Z := dpu_mask_union mask (dpu_mask_one dpu_id).
Definition dpu_mask_unselect (mask dpu_id : Z) : Z := dpu_mask_difference mask (dpu_mask_one dpu_id).
Definition dpu_bitfield_toggle (mask dpu_id : Z) : Z := dpu_mask_disjoint mask (dpu_mask_one dpu_id).
Definition dpu_mask_is_selected (mask dpu_id : Z) : bool :=
  negb (dpu_mask_intersection mask (dpu_mask_one dpu_id) =? dpu_mask_empty).
Definition dpu_mask_count (mask : Z) : Z := popcount mask.

(** * Masks as sets of DPU numbers *)

Definition is_mask (m : Z) : Prop := 0 <= m < 2 ^ 8.

Lemma mask_one_pow2 d : 0 <= d < 8 -> dpu_mask_one d = 2 ^ d.
Proof.
  intros Hd. unfold dpu_mask_one. rewrite shiftl_1_pow2, wrap_small; [done | | lia].
  split; [lia |]. apply Z.pow_lt_mono_r; lia.
Qed.

Lemma is_selected_testbit m d : 0 <= d < 8 -> dpu_mask_is_selected m d = Z.testbit m d.
Proof.
  intros Hd. unfold dpu_mask_is_selected, dpu_mask_intersection, dpu_mask_empty.
  rewrite mask_one_pow2, land_pow2_eqb by lia. apply negb_involutive.
Qed.

Lemma mask_ext m1 m2 :
  is_mask m1 -> is_mask m2 -> (forall d, 0 <= d < 8 -> Z.testbit m1 d = Z.testbit m2 d) -> m1 = m2.
Proof.
  intros H1 H2 H. apply Z.bits_inj'. intros i Hi. destruct (Z.ltb_spec i 8); [by apply H |].
  by rewrite !(testbit_high 8) by (done || lia).
Qed.

(** The members of a mask, in order. *)
Definition members (m : Z) : list Z := List.filter (Z.testbit m) (seqZ 0 8).

Lemma count_members m : is_mask m -> dpu_mask_count m = Z.of_nat (length (members m)).
Proof.
  intros Hm. assert (forallb (fun i => dpu_mask_count (Z.of_nat i) =? Z.of_nat (length (members (Z.of_nat i))))
    (seq 0 256) = true) as H by (vm_compute; reflexivity).
  rewrite forallb_forall in H. unfold is_mask in Hm.
  specialize (H (Z.to_nat m)). rewrite Z2Nat.id in H by lia. apply Z.eqb_eq, H, in_seq.
  change (2 ^ 8) with 256 in Hm. lia.
Qed.

(** The mask operations are the operations on sets of DPU numbers, and
    counting gives the number of members. *)
Theorem mask_ops_spec m1 m2 d e :
  is_mask m1 -> is_mask m2 -> 0 <= d < 8 -> 0 <= e < 8 ->
  dpu_mask_is_selected (dpu_mask_select m1 d) e = dpu_mask_is_selected m1 e || (e =? d)
  /\ dpu_mask_is_selected (dpu_mask_unselect m1 d) e = dpu_mask_is_selected m1 e && negb (e =? d)
  /\ dpu_mask_is_selected (dpu_bitfield_toggle m1 d) e = xorb (dpu_mask_is_selected m1 e) (e =? d)
  /\ dpu_mask_is_selected (dpu_mask_union m1 m2) e = dpu_mask_is_selected m1 e || dpu_mask_is_selected m2 e
  /\ dpu_mask_is_selected (dpu_mask_intersection m1 m2) e = dpu_mask_is_selected m1 e && dpu_mask_is_selected m2 e
  /\ dpu_mask_is_selected (dpu_mask_all d) e = (e <? d)
  /\ dpu_mask_count m1 = Z.of_nat (length (members m1))
  /\ (dpu_mask_count m1 = 0 <-> m1 = dpu_mask_empty).
Proof.
  intros H1 H2 Hd He. rewrite !is_selected_testbit by done.
  unfold dpu_mask_select, dpu_mask_unselect, dpu_bitfield_toggle, dpu_mask_union, dpu_mask_difference,
    dpu_mask_disjoint, dpu_mask_intersection. rewrite !mask_one_pow2 by done.
  split_and!.
  - apply testbit_set; lia.
  - apply testbit_clear; lia.
  - by rewrite Z.lxor_spec, testbit_pow2 by lia.
  - apply Z.lor_spec.
  - apply Z.land_spec.
  - unfold dpu_mask_all. rewrite testbit_wrap, shiftl_1_pow2 by lia.
    destruct (Z.ltb_spec e 8); [| lia]. cbn [andb].
    change (2 ^ d - 1) with (Z.pred (2 ^ d)). rewrite <- Z.ones_equiv.
    destruct (Z.ltb_spec e d); [apply Z.ones_spec_low; lia | apply Z.ones_spec_high; lia].
  - by apply count_members.
  - rewrite count_members by done. split; [| intros ->; by vm_compute].
    intros H. apply mask_ext; [done | done |]. intros i Hi. unfold dpu_mask_empty. rewrite Z.bits_0.
    destruct (Z.testbit m1 i) eqn:E; [| done]. exfalso.
    assert (In i (members m1)) as Hin.
    { apply filter_In. split; [| done]. apply list_elem_of_In, elem_of_seqZ. lia. }
    destruct (members m1); [done | simpl in H; lia].
Qed.

Lemma mask_ops_spec_witness :
  dpu_mask_is_selected (dpu_mask_select 5 3) 3 = dpu_mask_is_selected 5 3 || (3 =? 3).
Proof. apply (mask_ops_spec 5 12 3 3); unfold is_mask; lia. Defined.
