(* ===== verification/Runner.v ===== *)
(** Booting, polling and status of a rank
    (library/src/backends/api/src/dpu_runner.c) and waiting for its DPUs
    (api/src/api/dpu_polling.c).

    The state of a rank is its run context, the number of times its recursive
    lock is held and the trace of the calls made to the backend; an
    environment answers these calls.  Arrays indexed by a control interface
    hold [DPU_MAX_NR_CIS] entries. *)
From stdpp Require Import list.
From S2P Require Import Prelude Errors Mask.

(** * State *)

Inductive dpu_profiling_type :=
| DPU_PROFILING_NOP | DPU_PROFILING_MCOUNT | DPU_PROFILING_STATS
| DPU_PROFILING_SAMPLES | DPU_PROFILING_SECTIONS.

Record dpu_t := { slice_id : nat; dpu_id : Z; enabled : bool }.

Record dpu_run_context := {
  dpu_running : list Z;
  dpu_in_fault : list Z;
  poll_status : Z;
  nb_dpu_running : Z }.

(** What does not change: topology, enabled DPUs, profiling. *)
Record rank_info := {
  nr_of_control_interfaces : nat;
  nr_of_threads : Z;
  enabled_dpus : list Z;
  enable_profiling : dpu_profiling_type;
  profiled_dpu : dpu_t;
  nr_profiling_symbols : nat }.

(** Calls to the backend, the profiler and the custom handlers. *)
Inductive request :=
| Poll_rank
| Start_thread_rank (thread : Z) (resume : bool)
| Start_thread_dpu (d : dpu_t) (thread : Z) (resume : bool)
| Copy_from_wrams (d : dpu_t)
| Sample_pc (d : dpu_t)
| Set_magic (d : dpu_t)
| Clear_samples
| Collect (d : dpu_t)
| Dump (d : dpu_t)
| Custom_rank (pre : bool)
| Custom_dpu (pre : bool) (d : dpu_t)
| Wake_up.

(** The status, and for [Poll_rank] the two bit fields. *)
Record answer := { a_status : Z; a_running : list Z; a_fault : list Z }.

Record rst := { ctx : dpu_run_context; locks : Z; requests : list request }.

Definition R (A : Type) : Type := rst -> A * rst.

#[export] Instance R_ret : MRet R := fun A a s => (a, s).
#[export] Instance R_bind : MBind R := fun A B f m s => let '(a, s) := m s in f a s.

Definition OK : Z := error_code DPU_OK.

Definition lock : R () := fun s => (tt, {| ctx := ctx s; locks := locks s + 1; requests := requests s |}).
Definition unlock : R () := fun s => (tt, {| ctx := ctx s; locks := locks s - 1; requests := requests s |}).
Definition get_ctx : R dpu_run_context := fun s => (ctx s, s).
Definition set_ctx (c : dpu_run_context) : R () := fun s =>
  (tt, {| ctx := c; locks := locks s; requests := requests s |}).

(** [a[i]], within the array. *)
Definition ci (a : list Z) (i : nat) : Z := nth i a 0.

(** The field of every control interface of the rank, the rest unchanged. *)
Definition each_ci (n : nat) (f : nat -> Z) (a : list Z) : list Z := map f (seq 0 n) ++ drop n a.

Definition sum_count (l : list Z) : Z := fold_right (fun m acc => dpu_mask_count m + acc) 0 l.

Section runner.
Variable env : list request -> request -> answer.
Variable info : rank_info.

Definition ask (q : request) : R answer := fun s =>
  (env (requests s) q, {| ctx := ctx s; locks := locks s; requests := requests s ++ [q] |}).

(** [FF(q)]: an error is the status, without a value. *)
Definition ff {A} (q : request) (k : answer -> R (Z * option A)) : R (Z * option A) :=
  a ← ask q; if negb (a_status a =? OK) then mret (a_status a, None) else k a.

(** * Polling *)

Definition profiled_mask : Z := dpu_mask_one (dpu_id (profiled_dpu info)).

(** The profiled DPU stopped since the last poll. *)
Definition profiled_stopped (c : dpu_run_context) (running fault : list Z) : bool :=
  let s := slice_id (profiled_dpu info) in
  let m := profiled_mask in
  ((Z.land (ci running s) m =? 0) || negb (Z.land (ci fault s) m =? 0))
  && negb (Z.land (ci (dpu_running c) s) m =? 0).

Fixpoint dump_sections (n : nat) : R (Z * option ()) :=
  match n with
  | O => mret (OK, Some tt)
  | S n => ff (Copy_from_wrams (profiled_dpu info)) (fun _ =>
             ask (Dump (profiled_dpu info)) ≫= fun _ => dump_sections n)
  end.

Definition dump_if (b : bool) : R (Z * option ()) :=
  if b then ask (Dump (profiled_dpu info)) ≫= fun _ => mret (OK, Some tt) else mret (OK, Some tt).

Definition poll_profiling (c : dpu_run_context) (running fault : list Z) : R (Z * option ()) :=
  let d := profiled_dpu info in
  let stopped := profiled_stopped c running fault in
  match enable_profiling info with
  | DPU_PROFILING_STATS =>
    ff (Copy_from_wrams d) (fun _ => ask (Collect d) ≫= fun _ => dump_if stopped)
  | DPU_PROFILING_SAMPLES =>
    ff (Sample_pc d) (fun _ => ask (Collect d) ≫= fun _ => dump_if stopped)
  | DPU_PROFILING_SECTIONS =>
    if stopped then ff (Copy_from_wrams d) (fun _ => dump_sections (nr_profiling_symbols info))
    else mret (OK, Some tt)
  | _ => mret (OK, Some tt)
  end.

(** The run context after a successful poll. *)
Definition polled (c : dpu_run_context) (running fault : list Z) : dpu_run_context :=
  let n := nr_of_control_interfaces info in
  let in_fault i := Z.land (ci fault i) (ci (enabled_dpus info) i) in
  let run i := Z.ldiff (Z.land (ci running i) (ci (enabled_dpus info) i)) (in_fault i) in
  {| dpu_running := each_ci n run (dpu_running c);
     dpu_in_fault := each_ci n in_fault (dpu_in_fault c);
     poll_status := poll_status c;
     nb_dpu_running := u8 (sum_count (map run (seq 0 n))) |}.

Definition dpu_poll_rank : R Z :=
  lock ≫= fun _ =>
  res ← ff Poll_rank (fun a =>
    c ← get_ctx;
    res ← poll_profiling c (a_running a) (a_fault a);
    match res.2 with
    | None => mret (res.1, None)
    | Some _ => set_ctx (polled c (a_running a) (a_fault a)) ≫= fun _ => mret (OK, Some tt)
    end);
  unlock ≫= fun _ =>
  mret res.1.

Definition mask_of (d : dpu_t) : Z := dpu_mask_one (dpu_id d).

(** The status, [*dpu_is_running] and [*dpu_is_in_fault]; a disabled DPU
    leaves them unset. *)
Definition dpu_poll_dpu (d : dpu_t) : R (Z * option (bool * bool)) :=
  if negb (enabled d) then mret (error_code DPU_ERR_DPU_DISABLED, None)
  else
    lock ≫= fun _ =>
    status ← dpu_poll_rank;
    c ← get_ctx;
    let r := negb (Z.land (ci (dpu_running c) (slice_id d)) (mask_of d) =? 0) in
    let f := negb (Z.land (ci (dpu_in_fault c) (slice_id d)) (mask_of d) =? 0) in
    unlock ≫= fun _ =>
    mret (status, Some (r, f)).

(** * Booting *)

(** Preparing the profiler before a thread is started. *)
Definition boot_profiling (d : dpu_t) : R Z :=
  match enable_profiling info with
  | DPU_PROFILING_STATS => a ← ask (Set_magic d); mret (a_status a)
  | DPU_PROFILING_SAMPLES => ask Clear_samples ≫= fun _ => mret OK
  | _ => mret OK
  end.

(** Every enabled DPU of the rank is running. *)
Definition all_running (c : dpu_run_context) : dpu_run_context :=
  let n := nr_of_control_interfaces info in
  {| dpu_running := each_ci n (ci (enabled_dpus info)) (dpu_running c);
     dpu_in_fault := dpu_in_fault c;
     poll_status := poll_status c;
     nb_dpu_running := u8 (sum_count (map (ci (enabled_dpus info)) (seq 0 n))) |}.

Definition dpu_launch_thread_on_rank (thread : Z) (should_resume : bool) : R Z :=
  if nr_of_threads info <=? thread then mret (error_code DPU_ERR_INVALID_THREAD_ID)
  else
    lock ≫= fun _ =>
    status ← dpu_poll_rank;
    if negb (status =? OK) then unlock ≫= fun _ => mret status
    else
      status ← (if should_resume then mret OK else boot_profiling (profiled_dpu info));
      if negb (status =? OK) then unlock ≫= fun _ => mret status
      else
        a ← ask (Start_thread_rank thread should_resume);
        if negb (a_status a =? OK) then unlock ≫= fun _ => mret (a_status a)
        else
          c ← get_ctx;
          set_ctx (all_running c) ≫= fun _ =>
          unlock ≫= fun _ =>
          mret OK.

(** One more DPU is running. *)
Definition one_running (d : dpu_t) (c : dpu_run_context) : dpu_run_context :=
  {| dpu_running := <[slice_id d := Z.lor (ci (dpu_running c) (slice_id d)) (mask_of d)]> (dpu_running c);
     dpu_in_fault := dpu_in_fault c;
     poll_status := poll_status c;
     nb_dpu_running := u8 (nb_dpu_running c + 1) |}.

Definition dpu_eqb (d e : dpu_t) : bool := (slice_id d =? slice_id e)%nat && (dpu_id d =? dpu_id e).

Definition dpu_launch_thread_on_dpu (d : dpu_t) (thread : Z) (should_resume : bool) : R Z :=
  if negb (enabled d) then mret (error_code DPU_ERR_DPU_DISABLED)
  else if nr_of_threads info <=? thread then mret (error_code DPU_ERR_INVALID_THREAD_ID)
  else
    lock ≫= fun _ =>
    p ← dpu_poll_dpu d;
    let '(status, flags) := p in
    if negb (status =? OK) then unlock ≫= fun _ => mret status
    else
      status ← (if negb should_resume && dpu_eqb (profiled_dpu info) d then boot_profiling d else mret OK);
      if negb (status =? OK) then unlock ≫= fun _ => mret status
      else
        a ← ask (Start_thread_dpu d thread should_resume);
        if negb (a_status a =? OK) then unlock ≫= fun _ => mret (a_status a)
        else
          c ← get_ctx;
          let dpu_is_running := match flags with Some (r, _) => r | None => false end in
          (if dpu_is_running then mret tt else set_ctx (one_running d c)) ≫= fun _ =>
          unlock ≫= fun _ =>
          mret OK.

Definition DPU_BOOT_THREAD : Z := 0.

Definition dpu_boot_dpu (d : dpu_t) : R Z :=
  if negb (enabled d) then mret (error_code DPU_ERR_DPU_DISABLED)
  else
    lock ≫= fun _ =>
    c ← get_ctx;
    if negb (dpu_mask_intersection (ci (dpu_running c) (slice_id d)) (mask_of d) =? dpu_mask_empty)
    then unlock ≫= fun _ => mret (error_code DPU_ERR_DPU_ALREADY_RUNNING)
    else
      a ← ask (Custom_dpu true d);
      if negb (a_status a =? OK) then unlock ≫= fun _ => mret (a_status a)
      else
        status ← dpu_launch_thread_on_dpu d DPU_BOOT_THREAD false;
        unlock ≫= fun _ => mret status.

Definition dpu_boot_rank : R Z :=
  lock ≫= fun _ =>
  c ← get_ctx;
  if negb (nb_dpu_running c =? 0)
  then unlock ≫= fun _ => mret (error_code DPU_ERR_DPU_ALREADY_RUNNING)
  else
    a ← ask (Custom_rank true);
    if negb (a_status a =? OK) then unlock ≫= fun _ => mret (a_status a)
    else
      status ← dpu_launch_thread_on_rank DPU_BOOT_THREAD false;
      unlock ≫= fun _ => mret status.

(** * Status *)

Definition rank_done (c : dpu_run_context) : bool :=
  forallb (fun i => ci (dpu_running c) i =? dpu_mask_empty) (seq 0 (nr_of_control_interfaces info)).
Definition rank_fault (c : dpu_run_context) : bool :=
  existsb (fun i => negb (ci (dpu_in_fault c) i =? dpu_mask_empty)) (seq 0 (nr_of_control_interfaces info)).

Definition dpu_status_rank : R (Z * bool * bool) :=
  lock ≫= fun _ =>
  c ← get_ctx;
  unlock ≫= fun _ =>
  mret (OK, rank_done c, rank_fault c).

Definition dpu_status_dpu (d : dpu_t) : R (Z * option (bool * bool)) :=
  if negb (enabled d) then mret (error_code DPU_ERR_DPU_DISABLED, None)
  else
    lock ≫= fun _ =>
    c ← get_ctx;
    unlock ≫= fun _ =>
    mret (OK, Some (negb (dpu_mask_is_selected (ci (dpu_running c) (slice_id d)) (dpu_id d)),
                    dpu_mask_is_selected (ci (dpu_in_fault c) (slice_id d)) (dpu_id d))).

(** * Waiting *)

(** New faults of one control interface: the faults seen so far and the status. *)
Definition check_fault_ci (c : dpu_run_context) (seen : list Z) (status : Z) (i : nat) : list Z * Z :=
  if ci seen i =? ci (dpu_in_fault c) i then (seen, status)
  else (<[i := ci (dpu_in_fault c) i]> seen, error_code DPU_ERR_DPU_FAULT).

Definition dpu_check_fault_rank (c : dpu_run_context) (seen : list Z) (status : Z) : list Z * Z :=
  if negb (poll_status c =? OK) then (seen, poll_status c)
  else fold_left (fun p i => check_fault_ci c p.1 p.2 i) (seq 0 (nr_of_control_interfaces info)) (seen, status).

Definition goes_on (status : Z) : bool := (status =? OK) || (status =? error_code DPU_ERR_DPU_FAULT).

(** The waiting loop; each element of [wakes] is what the other threads do
    during one wait.  [None]: never woken again. *)
Fixpoint sync_loop (wakes : list (rst -> rst)) (seen : list Z) (status : Z) (s : rst)
  : option (list Z * Z * rst) :=
  if (0 <? nb_dpu_running (ctx s)) && goes_on status then
    match wakes with
    | [] => None
    | w :: wakes =>
      let s := w s in
      let '(seen, status) := dpu_check_fault_rank (ctx s) seen status in
      sync_loop wakes seen status s
    end
  else Some (seen, status, s).

Definition dpu_sync_rank (wakes : list (rst -> rst)) (s : rst) : option (Z * rst) :=
  r ← sync_loop wakes (replicate DPU_MAX_NR_CIS 0) OK s;
  let '(seen, status, s) := r in
  let '(_, status) := dpu_check_fault_rank (ctx s) seen status in
  if status =? OK then let '(a, s) := ask (Custom_rank false) s in Some (a_status a, s)
  else Some (status, s).

Fixpoint sync_dpu_loop (wakes : list (rst -> rst)) (d : dpu_t) (s : rst) : option rst :=
  if dpu_mask_is_selected (ci (dpu_running (ctx s)) (slice_id d)) (dpu_id d) then
    match wakes with [] => None | w :: wakes => sync_dpu_loop wakes d (w s) end
  else Some s.

Definition dpu_sync_dpu (wakes : list (rst -> rst)) (d : dpu_t) (s : rst) : option (Z * rst) :=
  s ← sync_dpu_loop wakes d s;
  if dpu_mask_is_selected (ci (dpu_in_fault (ctx s)) (slice_id d)) (dpu_id d)
  then Some (error_code DPU_ERR_DPU_FAULT, s)
  else let '(a, s) := ask (Custom_dpu false d) s in Some (a_status a, s).

(** One visit of the polling thread; [trylock]: whether the lock was free.
    The result tells whether the rank still runs. *)
Definition polling_thread_rank (trylock : bool) : R bool :=
  c ← get_ctx;
  if nb_dpu_running c =? 0 then mret false
  else if negb trylock then mret true
  else
    lock ≫= fun _ =>
    status ← dpu_poll_rank;
    c' ← get_ctx;
    set_ctx {| dpu_running := dpu_running c'; dpu_in_fault := dpu_in_fault c'; poll_status := status;
               nb_dpu_running := nb_dpu_running c' |} ≫= fun _ =>
    if negb (status =? OK) then
      ask Wake_up ≫= fun _ => unlock ≫= fun _ => mret false
    else
      (if nb_dpu_running c' <? nb_dpu_running c then ask Wake_up ≫= fun _ => mret tt else mret tt) ≫= fun _ =>
      unlock ≫= fun _ =>
      mret (negb (nb_dpu_running c' =? 0)).
End runner.

(** * The invariant of the run context *)

Record info_ok (info : rank_info) : Prop := {
  info_cis : (nr_of_control_interfaces info <= DPU_MAX_NR_CIS)%nat;
  info_masks : forall i, is_mask (ci (enabled_dpus info) i) }.

(** An enabled DPU is one of the rank. *)
Definition dpu_ok (info : rank_info) (d : dpu_t) : Prop :=
  enabled d = true -> (slice_id d < nr_of_control_interfaces info)%nat /\ 0 <= dpu_id d < 8.

(** The counter is the number of running DPUs, which are enabled ones. *)
Record run_ok (info : rank_info) (c : dpu_run_context) : Prop := {
  run_lens : length (dpu_running c) = DPU_MAX_NR_CIS /\ length (dpu_in_fault c) = DPU_MAX_NR_CIS;
  run_masks : forall i, (i < nr_of_control_interfaces info)%nat -> is_mask (ci (dpu_running c) i);
  run_count : nb_dpu_running c
    = sum_count (map (ci (dpu_running c)) (seq 0 (nr_of_control_interfaces info))) }.

Lemma length_each_ci n f a : (n <= length a)%nat -> length (each_ci n f a) = length a.
Proof. intros H. unfold each_ci. rewrite length_app, length_map, length_seq, length_drop. lia. Qed.

Lemma ci_each_ci n f a i : (i < n)%nat -> ci (each_ci n f a) i = f i.
Proof.
  intros Hi. unfold ci, each_ci. rewrite app_nth1 by (by rewrite length_map, length_seq).
  rewrite (nth_indep _ 0 (f 0%nat)) by (by rewrite length_map, length_seq).
  rewrite map_nth, seq_nth by done. done.
Qed.

Lemma map_each_ci n f a : map (ci (each_ci n f a)) (seq 0 n) = map f (seq 0 n).
Proof. apply map_ext_in. intros i Hi%in_seq. apply ci_each_ci. lia. Qed.

Lemma count_range m : is_mask m -> 0 <= dpu_mask_count m <= 8.
Proof.
  intros Hm. rewrite count_members by done. unfold members.
  pose proof (filter_length_le (Z.testbit m) (seqZ 0 8)) as H. rewrite length_seqZ in H. lia.
Qed.

Lemma sum_count_range l : Forall is_mask l -> 0 <= sum_count l <= 8 * Z.of_nat (length l).
Proof.
  induction 1 as [| m l Hm _ IH]; simpl; [lia |]. pose proof (count_range m Hm). lia.
Qed.

Lemma sum_count_zero l : Forall is_mask l -> sum_count l = 0 <-> Forall (eq 0) l.
Proof.
  induction 1 as [| m l Hm Hl IH]; simpl; [done |].
  pose proof (count_range m Hm). pose proof (sum_count_range l Hl).
  assert (dpu_mask_count m = 0 <-> m = 0) as E.
  { split; [| by intros ->]. intros H1. rewrite count_members in H1 by done.
    apply mask_ext; [done | by unfold is_mask; lia |]. intros i Hi. rewrite Z.bits_0.
    destruct (Z.testbit m i) eqn:Et; [| done]. exfalso.
    assert (In i (members m)) as Hin by (apply filter_In; split; [apply list_elem_of_In, elem_of_seqZ; lia | done]).
    destruct (members m); [done | simpl in H1; lia]. }
  rewrite list.Forall_cons, <- IH, (eq_comm 0 m), <- E. lia.
Qed.

Lemma masks_forall (f : nat -> Z) n : (forall i, (i < n)%nat -> is_mask (f i)) -> Forall is_mask (map f (seq 0 n)).
Proof. intros H. apply Forall_map, List.Forall_forall. intros i Hi%in_seq. apply H. lia. Qed.

(** At most 64 DPUs: the 8-bit counter does not wrap. *)
Lemma sum_count_u8 f n :
  (n <= DPU_MAX_NR_CIS)%nat -> (forall i, (i < n)%nat -> is_mask (f i)) ->
  u8 (sum_count (map f (seq 0 n))) = sum_count (map f (seq 0 n)).
Proof.
  intros Hn Hm. apply wrap_small. pose proof (sum_count_range _ (masks_forall f n Hm)) as H.
  rewrite length_map, length_seq in H. unfold DPU_MAX_NR_CIS in Hn. change (2 ^ 8) with 256. lia.
Qed.

Lemma mask_ldiff a b : is_mask a -> 0 <= b -> is_mask (Z.ldiff a b).
Proof.
  intros Ha Hb. apply bits_range; [lia | apply Z.ldiff_nonneg; unfold is_mask in Ha; lia |].
  intros i Hi. rewrite Z.ldiff_spec, (testbit_high 8 a) by done. done.
Qed.

Lemma polled_ok info c running fault :
  info_ok info -> run_ok info c -> run_ok info (polled info c running fault).
Proof.
  intros [Hn He] [[Hl1 Hl2] _ _].
  assert (forall i, is_mask (Z.ldiff (Z.land (ci running i) (ci (enabled_dpus info) i))
    (Z.land (ci fault i) (ci (enabled_dpus info) i)))) as Hm.
  { intros i. apply mask_ldiff; [apply land_range_r; [lia | apply He] |].
    apply Z.land_nonneg. right. apply He. }
  constructor; cbn [polled dpu_running dpu_in_fault nb_dpu_running].
  - rewrite !length_each_ci by lia. done.
  - intros i Hi. rewrite ci_each_ci by done. apply Hm.
  - rewrite map_each_ci. apply sum_count_u8; [done |]. intros i _. apply Hm.
Qed.

Lemma all_running_ok info c : info_ok info -> run_ok info c -> run_ok info (all_running info c).
Proof.
  intros [Hn He] [[Hl1 Hl2] _ _].
  constructor; cbn [all_running dpu_running dpu_in_fault nb_dpu_running].
  - by rewrite length_each_ci by lia.
  - intros i Hi. rewrite ci_each_ci by done. apply He.
  - rewrite map_each_ci. apply sum_count_u8; [done |]. intros i _. apply He.
Qed.

Lemma ci_insert a i j x : (i < length a)%nat -> ci (<[i := x]> a) j = if (j =? i)%nat then x else ci a j.
Proof.
  intros Hi. unfold ci. rewrite !nth_lookup. destruct (Nat.eqb_spec j i) as [-> |].
  - by rewrite list_lookup_insert_eq.
  - by rewrite list_lookup_insert_ne.
Qed.

Lemma count_set m d :
  is_mask m -> 0 <= d < 8 -> Z.testbit m d = false -> dpu_mask_count (Z.lor m (2 ^ d)) = dpu_mask_count m + 1.
Proof.
  intros Hm Hd Ht.
  assert (forallb (fun m => forallb (fun d => Z.testbit (Z.of_nat m) (Z.of_nat d)
     || (dpu_mask_count (Z.lor (Z.of_nat m) (2 ^ Z.of_nat d)) =? dpu_mask_count (Z.of_nat m) + 1)) (seq 0 8))
    (seq 0 256) = true) as H by (vm_compute; reflexivity).
  rewrite forallb_forall in H. unfold is_mask in Hm. change (2 ^ 8) with 256 in Hm.
  specialize (H (Z.to_nat m) ltac:(apply in_seq; lia)). rewrite forallb_forall in H.
  specialize (H (Z.to_nat d) ltac:(apply in_seq; lia)). rewrite !Z2Nat.id in H by lia.
  rewrite Ht in H. by apply Z.eqb_eq.
Qed.

Lemma sum_count_insert (f g : nat -> Z) n k :
  (k < n)%nat -> (forall i, i <> k -> g i = f i) -> dpu_mask_count (g k) = dpu_mask_count (f k) + 1 ->
  sum_count (map g (seq 0 n)) = sum_count (map f (seq 0 n)) + 1.
Proof.
  intros Hk Hext Hg.
  assert (seq 0 n = seq 0 k ++ k :: seq (S k) (n - S k)) as ->.
  { change (k :: seq (S k) (n - S k)) with (seq (0 + k) (S (n - S k))). rewrite <- seq_app. f_equal. lia. }
  assert (forall l1 l2, sum_count (l1 ++ l2) = sum_count l1 + sum_count l2) as Happ.
  { intros l1 l2. unfold sum_count. induction l1; simpl; lia. }
  rewrite !map_app, !Happ. cbn [map sum_count fold_right].
  rewrite (map_ext_in g f (seq 0 k)) by (intros i Hi%in_seq; apply Hext; lia).
  rewrite (map_ext_in g f (seq (S k) _)) by (intros i Hi%in_seq; apply Hext; lia).
  fold (sum_count (map f (seq (S k) (n - S k)))). lia.
Qed.

Lemma one_running_ok info c d :
  info_ok info -> run_ok info c -> dpu_ok info d -> enabled d = true ->
  Z.land (ci (dpu_running c) (slice_id d)) (mask_of d) = 0 -> run_ok info (one_running d c).
Proof.
  intros [Hn He] [[Hl1 Hl2] Hm Hcnt] Hd Hen Hz. destruct (Hd Hen) as [Hs Hid].
  unfold mask_of in Hz. rewrite mask_one_pow2 in Hz by done.
  apply Z.eqb_eq in Hz. rewrite land_pow2_eqb, negb_true_iff in Hz by lia.
  constructor; cbn [one_running dpu_running dpu_in_fault nb_dpu_running]; unfold mask_of;
    rewrite !mask_one_pow2 by done.
  - by rewrite length_insert.
  - intros i Hi. rewrite ci_insert by (unfold DPU_MAX_NR_CIS in *; lia). case_match; [| by apply Hm].
    apply lor_range; [lia | by apply Hm |]. split; [lia | apply Z.pow_lt_mono_r; lia].
  - rewrite (sum_count_insert (ci (dpu_running c)) _ _ (slice_id d)); [| done | |].
    + rewrite Hcnt. apply wrap_small. pose proof (sum_count_range _ (masks_forall _ _ Hm)) as H.
      rewrite length_map, length_seq in H. unfold DPU_MAX_NR_CIS in *. change (2 ^ 8) with 256. lia.
    + intros i Hi. rewrite ci_insert by lia. by apply Nat.eqb_neq in Hi as ->.
    + rewrite ci_insert, Nat.eqb_refl by lia. apply count_set; [by apply Hm | done | done].
Qed.

(** * Every operation keeps the invariant and releases the lock *)

Section keeps.
Context (env : list request -> request -> answer) (info : rank_info).

(** [m] leaves the run context alone and the lock as it was. *)
Definition silent {A} (m : R A) : Prop := forall s, ctx (m s).2 = ctx s /\ locks (m s).2 = locks s.

Lemma silent_ret {A} (a : A) : silent (mret a).
Proof. done. Qed.

Lemma silent_ask q : silent (ask env q).
Proof. done. Qed.

Lemma silent_bind {A B} (m : R A) (f : A -> R B) : silent m -> (forall a, silent (f a)) -> silent (m ≫= f).
Proof.
  intros Hm Hf s. unfold mbind, R_bind. specialize (Hm s). destruct (m s) as [a s1]. simpl in Hm.
  destruct (Hf a s1) as [-> ->]. done.
Qed.

Lemma silent_ff {A} q (k : answer -> R (Z * option A)) : (forall a, silent (k a)) -> silent (ff env q k).
Proof. intros Hk. apply silent_bind; [apply silent_ask |]. intros a. case_match; [apply silent_ret | apply Hk]. Qed.

Create HintDb silent.
Hint Resolve silent_ret silent_ask silent_ff : silent.

Lemma silent_dump_if b : silent (dump_if env info b).
Proof. destruct b; simpl; [apply silent_bind |]; auto with silent. Qed.

Lemma silent_dump_sections n : silent (dump_sections env info n).
Proof.
  induction n; simpl; [auto with silent |]. apply silent_ff. intros _. apply silent_bind; auto with silent.
Qed.

Hint Resolve silent_dump_if silent_dump_sections : silent.

Lemma silent_poll_profiling c running fault : silent (poll_profiling env info c running fault).
Proof.
  unfold poll_profiling. destruct (enable_profiling info); [auto with silent .. | | |].
  - apply silent_ff. intros _. apply silent_bind; auto with silent.
  - apply silent_ff. intros _. apply silent_bind; auto with silent.
  - case_match; auto with silent.
Qed.

Lemma silent_boot_profiling d : silent (boot_profiling env info d).
Proof.
  unfold boot_profiling. destruct (enable_profiling info); [auto with silent .. | | |]; auto with silent;
    apply silent_bind; auto with silent.
Qed.

(** A poll either fails and changes nothing, or updates the context. *)
Lemma poll_rank_ctx s :
  locks (dpu_poll_rank env info s).2 = locks s
  /\ let st := (dpu_poll_rank env info s).1 in
     (st <> OK -> ctx (dpu_poll_rank env info s).2 = ctx s)
     /\ (st = OK -> exists running fault,
           ctx (dpu_poll_rank env info s).2 = polled info (ctx s) running fault).
Proof.
  unfold dpu_poll_rank, ff, mbind, R_bind, lock, ask, get_ctx, set_ctx, unlock, mret, R_ret.
  cbn -[poll_profiling polled].
  set (a := env _ _). destruct (Z.eqb_spec (a_status a) OK) as [Ha | Ha]; cbn [negb];
    [| cbn; split; [lia | by split]]. cbn -[poll_profiling polled].
  match goal with |- context [poll_profiling env info (ctx s) ?r ?f ?s0] =>
    pose proof (silent_poll_profiling (ctx s) r f s0) as [H1 H2];
    destruct (poll_profiling env info (ctx s) r f s0) as [[st o] s1] eqn:E end.
  cbn in H1, H2. destruct o as [u |]; cbn.
  - rewrite H2. split; [lia |]. split; [done |]. eauto.
  - rewrite H2, H1. split; [lia |]. split; [done |].
    intros ->. exfalso. revert E. clear.
    assert (forall q (k : answer -> R (Z * option ())) s s', (forall a s s', k a s <> ((OK, None), s')) ->
      ff env q k s <> ((OK, None), s')) as Hff.
    { intros q k s0 s' Hk. unfold ff, mbind, R_bind. destruct (ask env q s0) as [a1 s2].
      destruct (Z.eqb_spec (a_status a1) OK); cbn [negb]; [apply Hk |]. unfold mret, R_ret. congruence. }
    assert (forall b s s', dump_if env info b s <> ((OK, None), s')) as Hdump by (by intros []).
    assert (forall n s s', dump_sections env info n s <> ((OK, None), s')) as Hsec.
    { induction n; intros s2 s'; simpl; [done |]. apply Hff. intros a2 s3 s4. apply IHn. }
    unfold poll_profiling. destruct (enable_profiling info); try done.
    + apply Hff. intros a2 s3 s4. apply Hdump.
    + apply Hff. intros a2 s3 s4. apply Hdump.
    + case_match; [| done]. apply Hff. intros a2 s3 s4. apply Hsec.
Qed.

(** Hoare triples on the context and the lock. *)
Definition triple {A} (P : dpu_run_context -> Z -> Prop) (m : R A) (Q : A -> dpu_run_context -> Z -> Prop) : Prop :=
  forall s, P (ctx s) (locks s) -> Q (m s).1 (ctx (m s).2) (locks (m s).2).

Lemma triple_ret {A} (a : A) (P : dpu_run_context -> Z -> Prop) (Q : A -> dpu_run_context -> Z -> Prop) :
  (forall c l, P c l -> Q a c l) -> triple P (mret a) Q.
Proof. intros H s. apply H. Qed.

Lemma triple_bind {A B} (m : R A) (f : A -> R B) P Q Q' :
  triple P m Q -> (forall a, triple (Q a) (f a) Q') -> triple P (m ≫= f) Q'.
Proof.
  intros Hm Hf s HP. unfold mbind, R_bind. specialize (Hm s HP). destruct (m s) as [a s1].
  by apply Hf.
Qed.

Lemma triple_silent {A} (m : R A) (P : dpu_run_context -> Z -> Prop) :
  silent m -> triple P m (fun _ => P).
Proof. intros Hm s HP. by destruct (Hm s) as [-> ->]. Qed.

Lemma triple_lock (P : dpu_run_context -> Z -> Prop) : triple P lock (fun _ c l => P c (l - 1)).
Proof. intros s HP. cbn. by replace (locks s + 1 - 1) with (locks s) by lia. Qed.

Lemma triple_unlock (P : dpu_run_context -> Z -> Prop) : triple P unlock (fun _ c l => P c (l + 1)).
Proof. intros s HP. cbn. by replace (locks s - 1 + 1) with (locks s) by lia. Qed.

Lemma triple_get (P : dpu_run_context -> Z -> Prop) : triple P get_ctx (fun c c' l => P c' l /\ c = c').
Proof. intros s HP. by split. Qed.

Lemma triple_weaken {A} (m : R A) (P P' : dpu_run_context -> Z -> Prop) (Q Q' : A -> dpu_run_context -> Z -> Prop) :
  triple P' m Q' -> (forall c l, P c l -> P' c l) -> (forall a c l, Q' a c l -> Q a c l) -> triple P m Q.
Proof. intros Hm HP HQ s H. apply HQ, Hm, HP, H. Qed.

(** The invariant with the lock held [n] times. *)
Definition I (n : Z) (c : dpu_run_context) (l : Z) : Prop := run_ok info c /\ l = n.

Lemma triple_set c (P : dpu_run_context -> Z -> Prop) n :
  (forall c' l, P c' l -> run_ok info c /\ l = n) -> triple P (set_ctx c) (fun _ => I n).
Proof. intros H s HP. by apply (H _ _ HP). Qed.

(** Unlocking and leaving. *)
Lemma triple_leave {A} (a : A) n : triple (I (n + 1)) (unlock ≫= fun _ => mret a) (fun _ => I n).
Proof.
  eapply triple_bind; [apply triple_unlock |]. intros ?. apply triple_ret. intros c l [H E]. split; [done | lia].
Qed.

Hypothesis Hinfo : info_ok info.

Lemma keeps_poll_rank n : triple (I n) (dpu_poll_rank env info) (fun _ => I n).
Proof.
  intros s [Hok Hl]. destruct (poll_rank_ctx s) as (-> & He & Ho). split; [| done].
  destruct (Z.eq_dec (dpu_poll_rank env info s).1 OK) as [E | E].
  - destruct (Ho E) as (r & f & ->). by apply polled_ok.
  - by rewrite (He E).
Qed.

(** The flags tell whether the DPU is running after the poll. *)
Lemma keeps_poll_dpu n d :
  enabled d = true ->
  triple (I n) (dpu_poll_dpu env info d) (fun p c l => I n c l /\ exists f,
    p.2 = Some (negb (Z.land (ci (dpu_running c) (slice_id d)) (mask_of d) =? 0), f)).
Proof.
  intros Hd. unfold dpu_poll_dpu. rewrite Hd. cbn [negb].
  eapply triple_bind; [apply (triple_lock (I n)) |]. intros ?.
  eapply triple_bind; [eapply (triple_weaken _ _ (I (n + 1)));
    [apply keeps_poll_rank | intros c l [? ?]; split; [done | lia] | by intros] |]. intros st.
  eapply triple_bind; [apply triple_get |]. intros c.
  eapply triple_bind; [apply triple_unlock |]. intros ?. apply triple_ret.
  intros c' l [[Hc Hl] ->]. split; [split; [done | lia] |]. by eexists.
Qed.

Lemma keeps_launch_on_rank n thread resume :
  triple (I n) (dpu_launch_thread_on_rank env info thread resume) (fun _ => I n).
Proof.
  unfold dpu_launch_thread_on_rank. case_match; [by apply triple_ret |].
  eapply triple_bind; [apply (triple_lock (I n)) |]. intros ?.
  eapply (triple_weaken _ _ (I (n + 1)) _ (fun _ => I n)); [| intros c l [? ?]; split; [done | lia] | by intros].
  eapply triple_bind; [apply keeps_poll_rank |]. intros st. case_match; [apply triple_leave |].
  eapply triple_bind; [apply triple_silent; destruct resume; [done | apply silent_boot_profiling] |].
  intros st2. case_match; [apply triple_leave |].
  eapply triple_bind; [apply triple_silent, silent_ask |]. intros ans. case_match; [apply triple_leave |].
  eapply triple_bind; [apply triple_get |]. intros c.
  eapply triple_bind; [apply (triple_set _ _ (n + 1)) | intros ?; apply triple_leave].
  intros c' l [[Hc Hl] ->]. split; [by apply all_running_ok | done].
Qed.

Lemma keeps_launch_on_dpu n d thread resume :
  dpu_ok info d -> triple (I n) (dpu_launch_thread_on_dpu env info d thread resume) (fun _ => I n).
Proof.
  intros Hdok. unfold dpu_launch_thread_on_dpu. destruct (enabled d) eqn:Hd; cbn [negb]; [| by apply triple_ret].
  case_match; [by apply triple_ret |].
  eapply triple_bind; [apply (triple_lock (I n)) |]. intros ?.
  eapply (triple_weaken _ _ (I (n + 1)) _ (fun _ => I n)); [| intros c l [? ?]; split; [done | lia] | by intros].
  eapply triple_bind; [by apply keeps_poll_dpu |]. intros [st flags]. cbn [snd].
  assert (forall A (a : A) (P : dpu_run_context -> Z -> Prop), (forall c l, P c l -> I (n + 1) c l) ->
    triple P (unlock ≫= fun _ => mret a) (fun _ => I n)) as Hleave.
  { intros B b P HP. eapply triple_weaken; [apply (triple_leave b n) | apply HP | by intros]. }
  case_match; [apply Hleave; tauto |].
  eapply triple_bind; [apply triple_silent; case_match; [apply silent_boot_profiling | done] |].
  intros st2. case_match; [apply Hleave; tauto |].
  eapply triple_bind; [apply triple_silent, silent_ask |]. intros ans. case_match; [apply Hleave; tauto |].
  eapply triple_bind; [apply triple_get |]. intros c.
  destruct flags as [[r f] |].
  - destruct r.
    + eapply triple_bind; [apply triple_silent, silent_ret |]. intros ?. apply Hleave. intros c' l Hx. apply Hx.
    + eapply triple_bind; [apply (triple_set _ _ (n + 1)) | intros ?; apply triple_leave].
      intros c' l [[[Hc Hl] [f' [= Hf _]]] ->]. split; [| done].
      apply one_running_ok; [done .. |]. by apply Z.eqb_eq, negb_false_iff.
  - eapply (triple_weaken _ _ (fun _ _ => False) _ (fun _ => I n)); [| by intros c' l [[_ [f' [=]]] _] | by intros].
    intros s0 [].
Qed.

Lemma leave_weaken {A} (a : A) n (P : dpu_run_context -> Z -> Prop) :
  (forall c l, P c l -> I (n + 1) c l) -> triple P (unlock ≫= fun _ => mret a) (fun _ => I n).
Proof. intros HP. eapply triple_weaken; [apply (triple_leave a n) | apply HP | by intros]. Qed.

Lemma triple_enter {A} (m : R A) n (Q : A -> dpu_run_context -> Z -> Prop) :
  triple (I (n + 1)) m Q -> triple (I n) (lock ≫= fun _ => m) Q.
Proof.
  intros Hm. eapply triple_bind; [apply (triple_lock (I n)) |]. intros ?.
  eapply triple_weaken; [exact Hm | intros c l [? ?]; split; [done | lia] | by intros].
Qed.

Lemma keeps_boot_dpu n d : dpu_ok info d -> triple (I n) (dpu_boot_dpu env info d) (fun _ => I n).
Proof.
  intros Hdok. unfold dpu_boot_dpu. destruct (enabled d) eqn:Hd; cbn [negb]; [| by apply triple_ret].
  apply triple_enter. eapply triple_bind; [apply triple_get |]. intros c.
  case_match; [apply leave_weaken; tauto |].
  eapply triple_bind; [apply triple_silent, silent_ask |]. intros ans.
  case_match; [apply leave_weaken; tauto |].
  eapply (triple_weaken _ _ (I (n + 1)) _ (fun _ => I n)); [| by intros c' l [H' _]; exact H' | by intros].
  eapply triple_bind; [by apply keeps_launch_on_dpu |]. intros st. apply triple_leave.
Qed.

Lemma keeps_boot_rank n : triple (I n) (dpu_boot_rank env info) (fun _ => I n).
Proof.
  unfold dpu_boot_rank. apply triple_enter. eapply triple_bind; [apply triple_get |]. intros c.
  case_match; [apply leave_weaken; tauto |].
  eapply triple_bind; [apply triple_silent, silent_ask |]. intros ans.
  case_match; [apply leave_weaken; tauto |].
  eapply (triple_weaken _ _ (I (n + 1)) _ (fun _ => I n)); [| by intros c' l [H' _]; exact H' | by intros].
  eapply triple_bind; [apply keeps_launch_on_rank |]. intros st. apply triple_leave.
Qed.

Lemma keeps_polling_thread n trylock : triple (I n) (polling_thread_rank env info trylock) (fun _ => I n).
Proof.
  unfold polling_thread_rank. eapply triple_bind; [apply triple_get |]. intros c.
  eapply (triple_weaken _ _ (I n) _ (fun _ => I n)); [| by intros c' l [H' _]; exact H' | by intros].
  case_match; [by apply triple_ret |]. case_match; [by apply triple_ret |].
  apply triple_enter. eapply triple_bind; [apply keeps_poll_rank |]. intros st.
  eapply triple_bind; [apply triple_get |]. intros c'.
  eapply triple_bind; [apply (triple_set _ _ (n + 1)); intros c2 l [[[H1 H2 H3] ?] ->]; by split |].
  intros ?. case_match.
  - eapply triple_bind; [apply triple_silent, silent_ask |]. intros ans. apply triple_leave.
  - eapply triple_bind; [apply triple_silent; case_match; [apply silent_bind; auto with silent | done] |].
    intros ?. apply triple_leave.
Qed.
End keeps.

(** * Theorems *)

(** The operations that act on a rank. *)
Inductive operation :=
| Op_poll_rank
| Op_poll_dpu (d : dpu_t)
| Op_launch_rank (thread : Z) (resume : bool)
| Op_launch_dpu (d : dpu_t) (thread : Z) (resume : bool)
| Op_boot_dpu (d : dpu_t)
| Op_boot_rank
| Op_polling (trylock : bool).

Definition run_op env info (o : operation) (s : rst) : rst :=
  match o with
  | Op_poll_rank => (dpu_poll_rank env info s).2
  | Op_poll_dpu d => (dpu_poll_dpu env info d s).2
  | Op_launch_rank t b => (dpu_launch_thread_on_rank env info t b s).2
  | Op_launch_dpu d t b => (dpu_launch_thread_on_dpu env info d t b s).2
  | Op_boot_dpu d => (dpu_boot_dpu env info d s).2
  | Op_boot_rank => (dpu_boot_rank env info s).2
  | Op_polling b => (polling_thread_rank env info b s).2
  end.

Definition op_ok (info : rank_info) (o : operation) : Prop :=
  match o with Op_launch_dpu d _ _ | Op_boot_dpu d => dpu_ok info d | _ => True end.


(** An environment where every call succeeds and nothing runs any more. *)
Definition idle_env (_ : list request) (_ : request) : answer :=
  {| a_status := OK; a_running := replicate 8 0; a_fault := replicate 8 0 |}.

Definition sample_info : rank_info :=
  {| nr_of_control_interfaces := 8; nr_of_threads := 24; enabled_dpus := replicate 8 255;
     enable_profiling := DPU_PROFILING_NOP; profiled_dpu := {| slice_id := 0; dpu_id := 0; enabled := false |};
     nr_profiling_symbols := 0 |}.

Definition sample_rst : rst :=
  {| ctx := {| dpu_running := replicate 8 0; dpu_in_fault := replicate 8 0; poll_status := OK; nb_dpu_running := 0 |};
     locks := 0; requests := [] |}.

Lemma sample_run_ok : run_ok sample_info (ctx sample_rst).
Proof.
  constructor; [done | | done]. intros i Hi.
  do 8 (destruct i as [| i]; [vm_compute; split; congruence |]). cbn in Hi. lia.
Qed.

Lemma R_bind_eq {A B} (m : R A) (f : A -> R B) s : (m ≫= f) s = f (m s).1 (m s).2.
Proof. unfold mbind, R_bind. by destruct (m s). Qed.

(** A launch that succeeds marks the enabled DPUs as running. *)
Lemma launch_on_rank_ok env info thread resume s :
  (dpu_launch_thread_on_rank env info thread resume s).1 = OK ->
  exists c, ctx (dpu_launch_thread_on_rank env info thread resume s).2 = all_running info c.
Proof.
  unfold dpu_launch_thread_on_rank. destruct (nr_of_threads info <=? thread); [done |].
  rewrite !R_bind_eq. set (s1 := (lock s).2). set (s2 := (dpu_poll_rank env info s1).2).
  destruct (Z.eqb_spec (dpu_poll_rank env info s1).1 OK) as [_ | Hbad]; cbn [negb]; [| intros H; by destruct Hbad].
  rewrite !R_bind_eq. set (p := (if resume then mret OK else boot_profiling env info (profiled_dpu info)) s2).
  destruct (Z.eqb_spec p.1 OK) as [_ | Hbad]; cbn [negb]; [| intros H; by destruct Hbad].
  rewrite !R_bind_eq.
  match goal with |- context [a_status ?a =? OK] =>
    destruct (Z.eqb_spec (a_status a) OK) as [_ | Hbad]; cbn [negb]; [| intros H; by destruct Hbad] end.
  intros _. eexists. reflexivity.
Qed.

Lemma boot_rank_ok env info s :
  nb_dpu_running (ctx s) = 0 -> (dpu_boot_rank env info s).1 = OK ->
  exists c, ctx (dpu_boot_rank env info s).2 = all_running info c.
Proof.
  intros Hz. unfold dpu_boot_rank. rewrite !R_bind_eq. cbn [get_ctx lock ctx fst snd]. rewrite Hz. cbn [Z.eqb negb].
  rewrite !R_bind_eq.
  match goal with |- context [a_status ?a =? OK] =>
    destruct (Z.eqb_spec (a_status a) OK) as [_ | Hbad]; cbn [negb]; [| intros H; by destruct Hbad] end.
  rewrite !R_bind_eq. intros H. apply launch_on_rank_ok in H as [c Hc]. exists c. exact Hc.
Qed.

(** Status and boot of a rank.  The status is "done" exactly when the
    counter is 0 and "fault" exactly when some DPU is in fault; booting fails
    with the "already running" code, calling nothing, exactly when the
    counter is not 0, and a boot that succeeds leaves every enabled DPU, and
    no other, marked as running. *)
Theorem dpu_boot_status_spec env info s :
  info_ok info -> run_ok info (ctx s) ->
  (dpu_status_rank info s).1 = (OK, nb_dpu_running (ctx s) =? 0, rank_fault info (ctx s))
  /\ (rank_fault info (ctx s) = true <->
      exists i, (i < nr_of_control_interfaces info)%nat /\ ci (dpu_in_fault (ctx s)) i <> 0)
  /\ (nb_dpu_running (ctx s) <> 0 ->
      dpu_boot_rank env info s = (error_code DPU_ERR_DPU_ALREADY_RUNNING, s))
  /\ (nb_dpu_running (ctx s) = 0 -> (dpu_boot_rank env info s).1 = OK ->
      let c := ctx (dpu_boot_rank env info s).2 in
      (forall i, (i < nr_of_control_interfaces info)%nat -> ci (dpu_running c) i = ci (enabled_dpus info) i)
      /\ nb_dpu_running c = sum_count (map (ci (enabled_dpus info)) (seq 0 (nr_of_control_interfaces info)))).
Proof.
  intros Hi Hok. destruct Hok as [Hl Hm Hc]. pose proof Hi as [Hn He]. split_and!.
  - change ((dpu_status_rank info s).1) with (OK, rank_done info (ctx s), rank_fault info (ctx s)).
    unfold rank_done. do 2 f_equal.
    rewrite Hc. destruct (Z.eqb_spec (sum_count (map (ci (dpu_running (ctx s))) (seq 0 (nr_of_control_interfaces info)))) 0) as [E | E].
    + apply sum_count_zero in E; [| by apply masks_forall].
      apply forallb_forall. intros i Hin. apply Z.eqb_eq. symmetry.
      rewrite Forall_map, List.Forall_forall in E. by apply E.
    + apply not_true_is_false. intros Hall. apply E, sum_count_zero; [by apply masks_forall |].
      apply Forall_map, List.Forall_forall. intros i Hin. rewrite forallb_forall in Hall.
      symmetry. by apply Z.eqb_eq, Hall.
  - unfold rank_fault. rewrite existsb_exists. split.
    + intros (i & Hin%in_seq & Hf%negb_true_iff%Z.eqb_neq). exists i. split; [lia | done].
    + intros (i & Hin & Hf). exists i. split; [apply in_seq; lia |]. by apply negb_true_iff, Z.eqb_neq.
  - intros Hnz. unfold dpu_boot_rank. unfold mbind, R_bind, lock, get_ctx. cbn -[error_code].
    apply Z.eqb_neq in Hnz. rewrite Hnz. cbn -[error_code]. destruct s as [c l r]. cbn. do 2 f_equal. lia.
  - intros Hz Hst. destruct (boot_rank_ok env info s Hz Hst) as [c Hb]. cbn zeta. rewrite Hb.
    cbn [all_running dpu_running nb_dpu_running]. split; [intros i Hin; by apply ci_each_ci |].
    apply sum_count_u8; auto.
Qed.

Lemma sample_info_ok : info_ok sample_info.
Proof.
  constructor; [cbn; unfold DPU_MAX_NR_CIS; lia |].
  intros i. do 9 (destruct i as [| i]; [vm_compute; split; congruence |]). vm_compute. split; congruence.
Qed.


Lemma dpu_boot_status_spec_witness :
  (dpu_status_rank sample_info sample_rst).1 = (OK, true, false)
  /\ (forall i, (i < 8)%nat -> ci (dpu_running (ctx (dpu_boot_rank idle_env sample_info sample_rst).2)) i = 255).
Proof.
  destruct (dpu_boot_status_spec idle_env sample_info sample_rst sample_info_ok sample_run_ok)
    as (H1 & _ & _ & H2).
  split; [exact H1 |]. intros i Hi. destruct (H2 eq_refl eq_refl) as [H3 _]. rewrite H3 by exact Hi.
  do 8 (destruct i as [| i]; [reflexivity |]). lia.
Defined.

(** * Waiting for the end of the DPUs *)

Lemma check_fault_fold c l seen status seen' :
  fold_left (fun p i => check_fault_ci c p.1 p.2 i) l (seen, status) = (seen', OK) ->
  seen' = seen /\ status = OK /\ forall i, In i l -> ci seen i = ci (dpu_in_fault c) i.
Proof.
  revert seen status. induction l as [| i l IH]; intros seen status; simpl; [by intros [= -> ->] |].
  unfold check_fault_ci at 2. cbn [fst snd]. destruct (Z.eqb_spec (ci seen i) (ci (dpu_in_fault c) i)) as [E | E].
  - intros H. apply IH in H as (-> & -> & Hl). split_and!; [done | done |]. intros j [<- | Hj]; auto.
  - intros H. by apply IH in H as (_ & [=] & _).
Qed.

Lemma check_fault_ok info c seen status seen' :
  dpu_check_fault_rank info c seen status = (seen', OK) ->
  poll_status c = OK /\ seen' = seen /\ status = OK
  /\ forall i, (i < nr_of_control_interfaces info)%nat -> ci (dpu_in_fault c) i = ci seen i.
Proof.
  unfold dpu_check_fault_rank. destruct (Z.eqb_spec (poll_status c) OK) as [E | E]; cbn [negb].
  - intros (-> & -> & Hl)%check_fault_fold. split_and!; [done .. |].
    intros i Hi. symmetry. apply Hl, in_seq. lia.
  - by intros [= _ H].
Qed.

(** An error seen once stays. *)
Lemma sync_loop_bad info wakes seen status s seen' s' :
  status <> OK -> sync_loop info wakes seen status s <> Some (seen', OK, s').
Proof.
  revert seen status s. induction wakes as [| w wakes IH]; intros seen status s Hst; cbn [sync_loop];
    (destruct ((0 <? nb_dpu_running (ctx s)) && goes_on status); [| by intros [= _ ? _]]); [done |].
  destruct (dpu_check_fault_rank info (ctx (w s)) seen status) as [seen2 st2] eqn:E.
  apply IH. intros ->. by apply check_fault_ok in E as (_ & _ & ? & _).
Qed.

Lemma sync_loop_ok info wakes seen status s seen' s' :
  sync_loop info wakes seen status s = Some (seen', OK, s') ->
  seen' = seen /\ nb_dpu_running (ctx s') <= 0.
Proof.
  revert seen status s. induction wakes as [| w wakes IH]; intros seen status s; cbn [sync_loop].
  - destruct (Z.ltb_spec 0 (nb_dpu_running (ctx s))); cbn [andb].
    + destruct (goes_on status) eqn:Hg; [done |]. intros [= -> -> ->]. by vm_compute in Hg.
    + intros [= -> -> ->]. split; [done | lia].
  - destruct (Z.ltb_spec 0 (nb_dpu_running (ctx s))); cbn [andb]; [| by intros [= -> -> ->]].
    destruct (goes_on status) eqn:Hg; [| intros [= -> -> ->]; by vm_compute in Hg].
    destruct (dpu_check_fault_rank info (ctx (w s)) seen status) as [seen1 st1] eqn:E.
    intros Hrun. assert (st1 = OK -> seen1 = seen) as Hs.
    { intros ->. by apply check_fault_ok in E as (_ & ? & _). }
    destruct (Z.eq_dec st1 OK) as [Hst | Hst].
    + apply IH in Hrun as [-> ?]. by rewrite Hs.
    + by apply sync_loop_bad in Hrun.
Qed.

(** Waiting for a rank.  [dpu_sync_rank] returns [DPU_OK] only if no DPU
    of the rank runs any more, the last poll succeeded, no DPU was seen in
    fault at any wake-up nor is at the end, and the post-execution handler
    accepted. *)
Theorem dpu_sync_rank_ok env info wakes s s' :
  dpu_sync_rank env info wakes s = Some (OK, s') ->
  nb_dpu_running (ctx s') <= 0 /\ poll_status (ctx s') = OK
  /\ (forall i, (i < nr_of_control_interfaces info)%nat -> ci (dpu_in_fault (ctx s')) i = 0)
  /\ list.last (requests s') = Some (Custom_rank false).
Proof.
  unfold dpu_sync_rank. intros (r & E & H)%bind_Some. destruct r as [[seen status] s1].
  destruct (dpu_check_fault_rank info (ctx s1) seen status) as [seen2 st2] eqn:E2.
  destruct (Z.eqb_spec st2 OK) as [-> | Hst]; [| by injection H as -> _].
  apply check_fault_ok in E2 as (Hp & _ & -> & Hf). apply sync_loop_ok in E as [-> Hn].
  injection H as _ <-. cbn [ctx requests]. split_and!; [done | done | |].
  - intros i Hi. rewrite Hf by done. unfold ci. rewrite nth_lookup.
    destruct (replicate DPU_MAX_NR_CIS 0 !! i) eqn:El; [| done]. by apply lookup_replicate in El as [-> _].
  - apply list.last_snoc.
Qed.

Lemma dpu_sync_rank_ok_witness :
  let s := {| ctx := {| dpu_running := replicate 8 1; dpu_in_fault := replicate 8 0; poll_status := OK;
      nb_dpu_running := 8 |}; locks := 1; requests := [] |} in
  exists s', dpu_sync_rank idle_env sample_info [fun _ => sample_rst] s = Some (OK, s')
  /\ nb_dpu_running (ctx s') <= 0 /\ poll_status (ctx s') = OK
  /\ (forall i, (i < 8)%nat -> ci (dpu_in_fault (ctx s')) i = 0)
  /\ list.last (requests s') = Some (Custom_rank false).
Proof.
  intros s. eexists. split; [reflexivity |].
  apply (dpu_sync_rank_ok idle_env sample_info [fun _ => sample_rst] s _ eq_refl).
Defined.
