(* ===== verification/Preempt.v ===== *)
(** Lazy preemption of slow ranks
    (library/src/backends/api/src/api/dpu_runner.c): the monitor thread that
    watches a launch, the decision to abort, the abort of the ranks that are
    not done, and the set-up and clean-up around the launch.

    Times are in milliseconds and given by the observations; [double]
    arithmetic is computed exactly and rounded to nearest, ties to even. *)
From stdpp Require Import list.
From S2P Require Import Prelude Errors.

(** * Double arithmetic on non-negative values *)

(** Rounding to an integer quotient, ties to even. *)
Definition div_round (m d : Z) : Z :=
  let q := m / d in
  let r := m mod d in
  if 2 * r <? d then q
  else if d <? 2 * r then q + 1
  else if Z.even q then q else q + 1.

(** The 53-bit rounding of the positive dyadic number [m / 2^e], as a
    numerator over [2^e]. *)
Definition round53 (m : Z) : Z :=
  let s := Z.log2 m - 52 in
  if s <=? 0 then m else div_round m (2 ^ s) * 2 ^ s.

(** [RANK_THRESHOLD], the double nearest to 0.4, is [c04 / 2^54]. *)
Definition c04 : Z := 7205759403792794.
(** [1 + EXECUTION_WINDOW], rounded, is [c12 / 2^52]. *)
Definition c12 : Z := 5404319552844595.

(** [(int)(RANK_THRESHOLD * n)] *)
Definition rank_threshold (n : Z) : Z := if n =? 0 then 0 else round53 (c04 * n) / 2 ^ 54.

(** [elapsed * (1 + EXECUTION_WINDOW) > avg], the average converted to double. *)
Definition window_exceeded (elapsed avg : Z) : bool :=
  round53 avg * 2 ^ 52 <? (if elapsed =? 0 then 0 else round53 (c12 * elapsed)).

(** * The monitor *)

(** [rank_done] holds 0 (running), 1 (done) or 2 (fault). *)
Record preempt_info := {
  avg_execution_dur : Z;
  nr_rank : nat;
  nr_rank_threshold : Z;
  rank_done : list Z;
  execution_times : list Z;
  num_done : Z;
  abort : list Z;
  api_abort : list bool;
  should_stop : list bool;
  has_host_func : bool }.

(** What [dpu_status_rank] reports and the time read for one rank. *)
Record observation := { o_ok : bool; o_done : bool; o_fault : bool; o_elapsed : Z }.

Definition set_done (p : preempt_info) (i : nat) (v : Z) : preempt_info :=
  {| avg_execution_dur := avg_execution_dur p; nr_rank := nr_rank p; nr_rank_threshold := nr_rank_threshold p;
     rank_done := <[i := v]> (rank_done p); execution_times := execution_times p; num_done := num_done p;
     abort := abort p; api_abort := api_abort p; should_stop := should_stop p; has_host_func := has_host_func p |}.

Definition set_api_abort (p : preempt_info) (i : nat) (b : bool) : preempt_info :=
  {| avg_execution_dur := avg_execution_dur p; nr_rank := nr_rank p; nr_rank_threshold := nr_rank_threshold p;
     rank_done := rank_done p; execution_times := execution_times p; num_done := num_done p;
     abort := abort p; api_abort := <[i := b]> (api_abort p); should_stop := should_stop p;
     has_host_func := has_host_func p |}.

(** A rank seen done for the first time: its time enters the average. *)
Definition record_done (p : preempt_info) (i : nat) (elapsed : Z) : preempt_info :=
  {| avg_execution_dur := Z.quot (avg_execution_dur p * num_done p + elapsed) (num_done p + 1);
     nr_rank := nr_rank p; nr_rank_threshold := nr_rank_threshold p;
     rank_done := <[i := 1]> (rank_done p); execution_times := <[i := elapsed]> (execution_times p);
     num_done := num_done p + 1;
     abort := abort p; api_abort := <[i := false]> (api_abort p); should_stop := should_stop p;
     has_host_func := has_host_func p |}.

(** One rank of [each_rank_status]. *)
Definition rank_status (p : preempt_info) (i : nat) (o : observation) : preempt_info :=
  let p := if o_ok o then p else set_api_abort p i true in
  if o_done o then
    if nth i (rank_done p) 0 =? 0 then record_done p i (o_elapsed o) else p
  else if o_fault o then set_done p i 2
  else p.

(** The ranks in order, one observation each. *)
Fixpoint status_from (p : preempt_info) (i : nat) (obs : list observation) : preempt_info :=
  match obs with
  | [] => p
  | o :: obs => status_from (rank_status p i o) (S i) obs
  end.

Definition each_rank_status (p : preempt_info) (obs : list observation) : preempt_info := status_from p 0 obs.

Definition determine_struggle_dpu (p : preempt_info) (elapsed : Z) : bool :=
  if num_done p <? nr_rank_threshold p then false
  else window_exceeded elapsed (avg_execution_dur p).

(** What aborting does to the outside world. *)
Inductive effect :=
| Reset_rank (i : nat)
| Host_func (i : nat)
| Broadcast_poll (i : nat).

Definition set_abort (p : preempt_info) (i : nat) (v : Z) : preempt_info :=
  {| avg_execution_dur := avg_execution_dur p; nr_rank := nr_rank p; nr_rank_threshold := nr_rank_threshold p;
     rank_done := rank_done p; execution_times := execution_times p; num_done := num_done p;
     abort := <[i := v]> (abort p); api_abort := api_abort p; should_stop := should_stop p;
     has_host_func := has_host_func p |}.

Definition stop_rank (p : preempt_info) (i : nat) : preempt_info :=
  {| avg_execution_dur := avg_execution_dur p; nr_rank := nr_rank p; nr_rank_threshold := nr_rank_threshold p;
     rank_done := rank_done p; execution_times := execution_times p; num_done := num_done p;
     abort := abort p; api_abort := <[i := true]> (api_abort p); should_stop := <[i := true]> (should_stop p);
     has_host_func := has_host_func p |}.

Definition abort_struggling_dpu (p : preempt_info) (i : nat) : preempt_info * list effect :=
  (stop_rank p i, Reset_rank i :: (if has_host_func p then [Host_func i] else [])).

(** [running]: the counter of running DPUs, cleared, with a broadcast if it
    was not 0. *)
Definition abort_struggling_dpu_advance (p : preempt_info) (i : nat) (running : Z)
  : preempt_info * list effect :=
  (stop_rank p i, if running =? 0 then [] else [Broadcast_poll i]).

Section abort.
Variable abort_one : preempt_info -> nat -> preempt_info * list effect.

(** The loop over the ranks, from rank [i]. *)
Fixpoint abort_from (n : nat) (i : nat) (p : preempt_info) : preempt_info * list effect :=
  match n with
  | O => (p, [])
  | S n =>
    if nth i (rank_done p) 0 =? 0 then
      let '(p, e) := abort_one (set_abort p i 1) i in
      let '(p, e') := abort_from n (S i) p in
      (p, e ++ e')
    else abort_from n (S i) (set_abort p i 0)
  end.
End abort.

Definition abort_struggling_dpus (p : preempt_info) : preempt_info * list effect :=
  abort_from abort_struggling_dpu (nr_rank p) 0 p.

(** [running i]: the counter of rank [i] when it is aborted. *)
Definition abort_struggling_dpus_advance (running : nat -> Z) (p : preempt_info) : preempt_info * list effect :=
  abort_from (fun p i => abort_struggling_dpu_advance p i (running i)) (nr_rank p) 0 p.

(** One turn of the monitor: whether the launch ended before it, what it
    observes, and the time of the decision. *)
Record turn := { t_stop : bool; t_obs : list observation; t_now : Z }.

(** The polling loop over its turns: the state and whether it aborts.
    [None]: the given turns do not end the loop. *)
Fixpoint poll_loop (turns : list turn) (p : preempt_info) : option (preempt_info * bool) :=
  match turns with
  | [] => None
  | t :: turns =>
    if t_stop t then Some (p, false)
    else
      let p := each_rank_status p (t_obs t) in
      if determine_struggle_dpu p (t_now t) then Some (p, true)
      else poll_loop turns p
  end.

Definition dpu_poll_status (turns : list turn) (p : preempt_info) : option (preempt_info * list effect) :=
  r ← poll_loop turns p;
  let '(p, ab) := r in
  Some (if (ab : bool) then abort_struggling_dpus p else (p, [])).

Definition dpu_poll_status_advance (running : nat -> Z) (turns : list turn) (p : preempt_info)
  : option (preempt_info * list effect) :=
  r ← poll_loop turns p;
  let '(p, ab) := r in
  Some (if (ab : bool) then abort_struggling_dpus_advance running p else (p, [])).

(** [user_abort]: the caller's array; [flags], [stops]: the ranks' own flags. *)
Definition init_preempt (n : nat) (host : bool) (user_abort : list Z) (flags stops : list bool) : preempt_info :=
  {| avg_execution_dur := 0; nr_rank := n; nr_rank_threshold := rank_threshold (Z.of_nat n);
     rank_done := replicate n 0; execution_times := replicate n 0; num_done := 0;
     abort := user_abort; api_abort := flags; should_stop := stops; has_host_func := host |}.

(** * The comparisons are the exact ones *)

Lemma div_round_le m d k : 0 < d -> m <= k * d -> div_round m d <= k.
Proof.
  intros Hd Hm. unfold div_round. pose proof (Z.div_mod m d ltac:(lia)). pose proof (Z.mod_pos_bound m d Hd).
  assert (m / d <= k) by (apply Z.div_le_upper_bound; lia).
  destruct (Z.ltb_spec (2 * (m mod d)) d); [done |].
  destruct (Z.eq_dec (m / d) k) as [E | E].
  - assert (m mod d <= 0) by nia. lia.
  - destruct (Z.ltb_spec d (2 * (m mod d))); [lia |]. destruct (Z.even _); lia.
Qed.

Lemma div_round_ge m d : 0 < d -> 2 * m <= 2 * (div_round m d * d) + d.
Proof.
  intros Hd. unfold div_round. pose proof (Z.div_mod m d ltac:(lia)). pose proof (Z.mod_pos_bound m d Hd).
  destruct (Z.ltb_spec (2 * (m mod d)) d); [nia |]. destruct (Z.ltb_spec d (2 * (m mod d))); [nia |].
  destruct (Z.even _); nia.
Qed.

Lemma round53_small m : 0 <= m < 2 ^ 53 -> round53 m = m.
Proof.
  intros Hm. unfold round53. destruct (Z.eq_dec m 0) as [-> |]; [done |].
  assert (Z.log2 m < 53) by (apply Z.log2_lt_pow2; lia).
  destruct (Z.leb_spec (Z.log2 m - 52) 0); [done | lia].
Qed.

(** Rounding does not cross a multiple of [2^52]. *)
Lemma round53_le m a : 0 < m < 2 ^ 104 -> m <= a * 2 ^ 52 -> round53 m <= a * 2 ^ 52.
Proof.
  intros Hm Hle. unfold round53. destruct (Z.leb_spec (Z.log2 m - 52) 0); [done |].
  set (s := Z.log2 m - 52) in *.
  assert (s < 52) by (pose proof (Z.log2_lt_pow2 m 104 ltac:(lia)); unfold s; lia).
  assert (0 < 2 ^ s) by (apply Z.pow_pos_nonneg; lia).
  assert (a * 2 ^ 52 = (a * 2 ^ (52 - s)) * 2 ^ s) as E.
  { rewrite <- Z.mul_assoc, <- Z.pow_add_r by lia. do 2 f_equal. lia. }
  rewrite E. apply Z.mul_le_mono_nonneg_r; [lia |]. apply div_round_le; [done |]. lia.
Qed.

Lemma round53_ge m b : 0 < m < 2 ^ b -> 52 < b -> 2 * m <= 2 * round53 m + 2 ^ (b - 53).
Proof.
  intros Hm Hb. unfold round53. assert (0 < 2 ^ (b - 53)) by (apply Z.pow_pos_nonneg; lia).
  destruct (Z.leb_spec (Z.log2 m - 52) 0); [lia |]. set (s := Z.log2 m - 52) in *.
  assert (s <= b - 53) by (pose proof (Z.log2_lt_pow2 m b ltac:(lia)); unfold s; lia).
  assert (2 ^ s <= 2 ^ (b - 53)) by (apply Z.pow_le_mono_r; lia).
  assert (0 < 2 ^ s) by (apply Z.pow_pos_nonneg; lia).
  pose proof (div_round_ge m (2 ^ s) ltac:(lia)). lia.
Qed.

Lemma window_exact e a : 0 <= e < 2 ^ 40 -> 0 <= a < 2 ^ 40 -> window_exceeded e a = (5 * a <? 6 * e).
Proof.
  intros He Ha. unfold window_exceeded. rewrite (round53_small a) by lia.
  destruct (Z.eqb_spec e 0) as [-> |].
  { destruct (Z.ltb_spec (a * 2 ^ 52) 0), (Z.ltb_spec (5 * a) (6 * 0)); lia || done. }
  assert (5 * (c12 * e) = 6 * 2 ^ 52 * e - e) as Hc by (unfold c12; lia).
  assert (0 < c12 * e < 2 ^ 93) as Hm by (unfold c12; lia).
  destruct (Z.ltb_spec (5 * a) (6 * e)) as [H | H].
  - apply Z.ltb_lt. pose proof (round53_ge (c12 * e) 93 Hm ltac:(lia)) as Hr.
    change (2 ^ (93 - 53)) with (2 ^ 40) in Hr. lia.
  - apply Z.ltb_ge, round53_le; lia.
Qed.

Lemma rank_threshold_exact n : 0 <= n <= 4096 -> rank_threshold n = 2 * n / 5.
Proof.
  intros Hn. assert (forallb (fun i => rank_threshold (Z.of_nat i) =? 2 * Z.of_nat i / 5) (seq 0 4097) = true) as H
    by (vm_compute; reflexivity).
  rewrite forallb_forall in H. specialize (H (Z.to_nat n) ltac:(apply in_seq; lia)).
  rewrite Z2Nat.id in H by lia. by apply Z.eqb_eq.
Qed.

(** The two floating-point tests are exact: the threshold is two fifths
    of the ranks rounded down, and the time test compares 6/5 of the elapsed
    time with the average, with no rounding surprise for times below 2^40 ms. *)
Theorem preempt_tests_exact n e a :
  0 <= n <= 4096 -> 0 <= e < 2 ^ 40 -> 0 <= a < 2 ^ 40 ->
  rank_threshold n = 2 * n / 5 /\ window_exceeded e a = (5 * a <? 6 * e).
Proof. split; [by apply rank_threshold_exact | by apply window_exact]. Qed.

Lemma preempt_tests_exact_witness : rank_threshold 40 = 16 /\ window_exceeded 5 6 = false.
Proof. apply (preempt_tests_exact 40 5 6); lia. Defined.

(** * The monitor's books *)

Definition count (f : Z -> bool) (l : list Z) : Z := Z.of_nat (length (List.filter f l)).

(** Every rank counted at most once; the average lies within the times. *)
Record books (M : Z) (p : preempt_info) : Prop := {
  b_len : length (rank_done p) = nr_rank p;
  b_low : count (Z.eqb 1) (rank_done p) <= num_done p;
  b_high : num_done p <= count (fun d => negb (d =? 0)) (rank_done p);
  b_avg : 0 <= avg_execution_dur p <= M }.

Lemma count_insert f l i v :
  (i < length l)%nat ->
  count f (<[i := v]> l) = count f l - (if f (nth i l 0) then 1 else 0) + (if f v then 1 else 0).
Proof.
  intros Hi. destruct (lookup_lt_is_Some_2 l i Hi) as [x Hx].
  apply list_elem_of_split_length in Hx as (l1 & l2 & -> & ->). unfold count.
  rewrite insert_app_r_alt, Nat.sub_diag by lia. cbn [insert list_insert].
  rewrite app_nth2, Nat.sub_diag by lia. cbn [nth].
  rewrite !List.filter_app, !length_app. cbn [List.filter]. destruct (f x), (f v); cbn [length]; lia.
Qed.

Lemma count_nonneg f l : 0 <= count f l.
Proof. unfold count. lia. Qed.

Lemma count_le f l : count f l <= Z.of_nat (length l).
Proof. unfold count. pose proof (List.filter_length_le f l). lia. Qed.

Lemma avg_bound avg n e M :
  0 <= n -> 0 <= avg <= M -> 0 <= e <= M -> 0 <= Z.quot (avg * n + e) (n + 1) <= M.
Proof.
  intros Hn Ha He. rewrite Z.quot_div_nonneg by nia. split; [apply Z.div_pos; nia |].
  apply Z.div_le_upper_bound; nia.
Qed.

Lemma rank_status_books M p i o :
  books M p -> (i < nr_rank p)%nat -> 0 <= o_elapsed o <= M -> books M (rank_status p i o).
Proof.
  intros [Hl Hlo Hhi Ha] Hi He. unfold rank_status.
  set (q := if o_ok o then p else set_api_abort p i true).
  assert (rank_done q = rank_done p /\ num_done q = num_done p /\ nr_rank q = nr_rank p
    /\ avg_execution_dur q = avg_execution_dur p) as (E1 & E2 & E3 & E4) by (unfold q; by destruct (o_ok o)).
  rewrite <- E1, <- E2, <- E3, <- E4 in *. clearbody q.
  pose proof (count_nonneg (Z.eqb 1) (rank_done q)).
  destruct (o_done o).
  - destruct (Z.eqb_spec (nth i (rank_done q) 0) 0) as [E0 | E0]; [| by constructor].
    constructor; cbn [record_done rank_done nr_rank num_done avg_execution_dur].
    + by rewrite length_insert.
    + rewrite count_insert, E0 by lia. simpl. lia.
    + rewrite count_insert, E0 by lia. simpl. lia.
    + apply avg_bound; lia.
  - destruct (o_fault o); [| by constructor].
    constructor; cbn [set_done rank_done nr_rank num_done avg_execution_dur]; [by rewrite length_insert | | | done].
    + rewrite count_insert by lia. destruct (1 =? nth i (rank_done q) 0); simpl; lia.
    + rewrite count_insert by lia. destruct (nth i (rank_done q) 0 =? 0); simpl; lia.
Qed.

Lemma rank_status_nr p i o : nr_rank (rank_status p i o) = nr_rank p
  /\ nr_rank_threshold (rank_status p i o) = nr_rank_threshold p.
Proof. unfold rank_status. destruct (o_ok o), (o_done o), (o_fault o); simpl; repeat case_match; done. Qed.

Lemma status_from_books M p i obs :
  books M p -> (i + length obs <= nr_rank p)%nat -> Forall (fun o => 0 <= o_elapsed o <= M) obs ->
  books M (status_from p i obs) /\ nr_rank (status_from p i obs) = nr_rank p
  /\ nr_rank_threshold (status_from p i obs) = nr_rank_threshold p.
Proof.
  revert p i. induction obs as [| o obs IH]; intros p i Hb Hi Ho; [by split_and! |].
  inversion_clear Ho as [| ? ? Ho1 Ho2]. cbn [status_from length] in *.
  destruct (rank_status_nr p i o) as [E1 E2].
  destruct (IH (rank_status p i o) (S i)) as (? & ? & ?); [apply rank_status_books; [done | lia | done] | lia | done |].
  by rewrite <- E1, <- E2.
Qed.

Lemma books_mono M M' p : M <= M' -> books M p -> books M' p.
Proof. intros HM [? ? ? ?]. constructor; try done; lia. Qed.

(** The time test of the monitor never refuses.  With a clock that does
    not go back, once two fifths of the ranks are done the monitor aborts at
    once: the average of the times of finished ranks never exceeds the time
    elapsed, so the window around the average plays no part.  The books stay
    right: no rank is counted twice. *)
Theorem struggle_decided_by_count M p obs now :
  books M p -> length obs = nr_rank p -> M <= now -> 0 < now < 2 ^ 40 ->
  Forall (fun o => 0 <= o_elapsed o <= now) obs ->
  let p' := each_rank_status p obs in
  books now p'
  /\ num_done p' <= Z.of_nat (nr_rank p)
  /\ determine_struggle_dpu p' now = negb (num_done p' <? nr_rank_threshold p).
Proof.
  intros Hb Hl HM Hnow Ho. cbn zeta. unfold each_rank_status.
  destruct (status_from_books now p 0 obs) as (Hb' & E1 & E2); [by eapply books_mono | lia | done |].
  split_and!; [done | |].
  - destruct Hb' as [Hlen _ Hhi _]. pose proof (count_le (fun d => negb (d =? 0)) (rank_done (status_from p 0 obs))).
    rewrite Hlen in *. rewrite E1 in *. lia.
  - unfold determine_struggle_dpu. rewrite E2. destruct (num_done _ <? nr_rank_threshold p); [done |].
    destruct Hb' as [_ _ _ Ha]. rewrite window_exact by lia. apply Z.ltb_lt. lia.
Qed.

Lemma struggle_decided_by_count_witness :
  let p := init_preempt 5 true [0; 0; 0; 0; 0] (replicate 5 false) (replicate 5 false) in
  let seen d t := {| o_ok := true; o_done := d; o_fault := false; o_elapsed := t |} in
  let p' := each_rank_status p [seen true 50; seen false 50; seen true 51; seen false 51; seen false 51] in
  books 52 p' /\ num_done p' <= 5 /\ determine_struggle_dpu p' 52 = true.
Proof.
  intros p seen p'. apply (struggle_decided_by_count 0 p
    [seen true 50; seen false 50; seen true 51; seen false 51; seen false 51] 52).
  - by constructor.
  - done.
  - lia.
  - lia.
  - repeat constructor; simpl; lia.
Defined.

(** * Aborting *)

(** Ranks [i .. i+n-1] that are still running. *)
Definition straggler (p : preempt_info) (i n k : nat) : bool :=
  (i <=? k)%nat && (k <? i + n)%nat && (nth k (rank_done p) 0 =? 0).

Lemma nth_insert {A} (l : list A) i k x d :
  (i < length l)%nat -> nth k (<[i := x]> l) d = if (k =? i)%nat then x else nth k l d.
Proof.
  intros Hi. rewrite !nth_lookup. destruct (Nat.eqb_spec k i) as [-> |].
  - by rewrite list_lookup_insert_eq.
  - by rewrite list_lookup_insert_ne.
Qed.

(** The five comparisons of an index [k] with the range that starts at [i]. *)
Ltac range_cases k i n :=
  destruct (Nat.eqb_spec k i), (Nat.leb_spec (S i) k), (Nat.ltb_spec k (S i + n)),
    (Nat.leb_spec i k), (Nat.ltb_spec k (i + S n)); cbn [andb orb]; try lia; try done; try subst k.

Section abort_spec.
Variable abort_one : preempt_info -> nat -> preempt_info * list effect.
Variable effects_of : bool -> nat -> list effect.
(** Aborting one rank raises its two flags and has its own effects. *)
Hypothesis Hone : forall p i, abort_one p i = (stop_rank p i, effects_of (has_host_func p) i).

Lemma abort_from_spec n i p :
  (i + n <= length (abort p))%nat -> (i + n <= length (should_stop p))%nat ->
  let p' := (abort_from abort_one n i p).1 in
  rank_done p' = rank_done p /\ nr_rank p' = nr_rank p
  /\ (forall k, nth k (abort p') 0 =
        if (i <=? k)%nat && (k <? i + n)%nat then (if nth k (rank_done p) 0 =? 0 then 1 else 0) else nth k (abort p) 0)
  /\ (forall k, nth k (should_stop p') false = nth k (should_stop p) false || straggler p i n k)
  /\ (abort_from abort_one n i p).2
     = concat (map (fun k => if nth k (rank_done p) 0 =? 0 then effects_of (has_host_func p) k else []) (seq i n)).
Proof.
  revert i p. induction n as [| n IH]; intros i p Ha Hs; cbn zeta.
  { cbn [abort_from fst snd seq map concat]. split_and!; [done | done | | | done]; intros k; unfold straggler;
      assert ((i <=? k)%nat && (k <? i + 0)%nat = false) as ->
        by (destruct (Nat.leb_spec i k), (Nat.ltb_spec k (i + 0)); [lia | done ..]);
      [done | by rewrite orb_false_r]. }
  cbn [abort_from seq map concat]. destruct (Z.eqb_spec (nth i (rank_done p) 0) 0) as [E | E].
  - rewrite Hone. cbn [has_host_func set_abort].
    destruct (IH (S i) (stop_rank (set_abort p i 1) i)) as (H1 & H2 & H3 & H4 & H5);
      [cbn; rewrite length_insert; lia | cbn; rewrite length_insert; lia |].
    destruct (abort_from abort_one n (S i) _) as [p' e']. cbn [fst snd] in *.
    split_and!; [done | done | | | by rewrite H5].
    + intros k. rewrite H3. cbn [rank_done abort stop_rank set_abort]. rewrite nth_insert by lia.
      range_cases k i n.
      all: by rewrite E.
    + intros k. rewrite H4. unfold straggler. cbn [rank_done should_stop stop_rank set_abort]. rewrite nth_insert by lia.
      range_cases k i n.
      all: by rewrite E, ?orb_true_r.
  - destruct (IH (S i) (set_abort p i 0)) as (H1 & H2 & H3 & H4 & H5);
      [cbn; rewrite length_insert; lia | cbn; lia |].
    split_and!; [done | done | | | by rewrite H5].
    + intros k. rewrite H3. cbn [rank_done abort stop_rank set_abort]. rewrite nth_insert by lia.
      range_cases k i n.
      all: destruct (Z.eqb_spec (nth i (rank_done p) 0) 0); done.
    + intros k. rewrite H4. unfold straggler. cbn [rank_done should_stop stop_rank set_abort].
      range_cases k i n.
      all: destruct (Z.eqb_spec (nth i (rank_done p) 0) 0); [done | by rewrite orb_false_r].
Qed.
End abort_spec.

(** A rank is reset, then run on the host when a function was given. *)
Definition restart_effects (host : bool) (i : nat) : list effect :=
  Reset_rank i :: (if host then [Host_func i] else []).

Lemma poll_loop_abort turns p p' ab :
  poll_loop turns p = Some (p', ab) -> has_host_func p' = has_host_func p
  /\ abort p' = abort p /\ should_stop p' = should_stop p /\ nr_rank p' = nr_rank p
  /\ (ab = true -> nr_rank_threshold p <= num_done p').
Proof.
  assert (forall p i o, has_host_func (rank_status p i o) = has_host_func p /\ abort (rank_status p i o) = abort p
    /\ should_stop (rank_status p i o) = should_stop p) as H1.
  { intros q i o. unfold rank_status. destruct (o_ok o), (o_done o), (o_fault o); simpl; repeat case_match; done. }
  assert (forall obs p i, has_host_func (status_from p i obs) = has_host_func p
    /\ abort (status_from p i obs) = abort p /\ should_stop (status_from p i obs) = should_stop p
    /\ nr_rank (status_from p i obs) = nr_rank p /\ nr_rank_threshold (status_from p i obs) = nr_rank_threshold p) as H2.
  { induction obs as [| o obs IH]; intros q i; [done |]. cbn [status_from].
    destruct (IH (rank_status q i o) (S i)) as (-> & -> & -> & -> & ->).
    destruct (H1 q i o) as (? & ? & ?). destruct (rank_status_nr q i o). by split_and!. }
  revert p. induction turns as [| t turns IH]; intros p; cbn [poll_loop]; [done |].
  destruct (t_stop t); [by intros [= <- <-] |].
  unfold each_rank_status. destruct (H2 (t_obs t) p 0%nat) as (E1 & E2 & E3 & E4 & E5).
  destruct (determine_struggle_dpu _ (t_now t)) eqn:Hd.
  - intros [= <- <-]. split_and!; [done .. |]. intros _. unfold determine_struggle_dpu in Hd.
    rewrite E5 in Hd. destruct (Z.ltb_spec (num_done (status_from p 0 (t_obs t))) (nr_rank_threshold p)); [done | lia].
  - intros H. apply IH in H as (-> & -> & -> & -> & Ht). rewrite E5 in Ht. by rewrite E1, E2, E3, E4.
Qed.



(** A launch on one or two ranks has a threshold of zero: the first look
    of the monitor aborts every rank that is not done, though none finished. *)
Theorem small_launch_aborted n host ab flags stops now t :
  (n = 1 \/ n = 2)%nat -> 0 < now < 2 ^ 40 -> 0 <= t ->
  length ab = n -> length stops = n ->
  let o := {| o_ok := true; o_done := false; o_fault := false; o_elapsed := t |} in
  exists p', dpu_poll_status [{| t_stop := false; t_obs := replicate n o; t_now := now |}]
      (init_preempt n host ab flags stops)
    = Some (p', concat (map (restart_effects host) (seq 0 n)))
  /\ abort p' = replicate n 1.
Proof.
  intros Hn Hnow Ht Ha Hs o. unfold dpu_poll_status. cbn [poll_loop t_stop].
  assert (window_exceeded now 0 = true) as Hw by (rewrite window_exact by lia; apply Z.ltb_lt; lia).
  destruct Hn as [-> | ->].
  - destruct ab as [| a1 [|]]; try done.
    cbn -[window_exceeded]. unfold determine_struggle_dpu. cbn -[window_exceeded]. rewrite Hw.
    eexists. split; [reflexivity | done].
  - destruct ab as [| a1 [| a2 [|]]]; try done.
    cbn -[window_exceeded]. unfold determine_struggle_dpu. cbn -[window_exceeded]. rewrite Hw.
    eexists. split; [reflexivity | done].
Qed.

Lemma small_launch_aborted_witness :
  let o := {| o_ok := true; o_done := false; o_fault := false; o_elapsed := 5 |} in
  exists p', dpu_poll_status [{| t_stop := false; t_obs := replicate 2 o; t_now := 9 |}]
      (init_preempt 2 true [0; 0] [false; false] [false; false])
    = Some (p', [Reset_rank 0; Host_func 0; Reset_rank 1; Host_func 1])
  /\ abort p' = [1; 1].
Proof. apply (small_launch_aborted 2 true [0; 0] [false; false] [false; false] 9 5); lia || done. Defined.
