(* ===== verification/BuddyTree.v ===== *)
(** The abstract view of the buddy heap: a binary tree of blocks with one bit
    each.  Block [i] of level [l] has the halves [2i] and [2i+1] of level
    [l+1]; the root has a ghost buddy of index 1, whose bit is never set.
    What it means for a block to be allocated or available, and the effect on
    the allocated blocks of the two updates of the allocator: clearing the bits
    of a chain of blocks below a free one, setting those above an allocated one. *)
From S2P Require Import Prelude.

(** Bits per level and index. *)
Definition bits : Type := Z -> Z -> bool.

Definition in_level (l i : Z) : Prop := 0 <= l /\ 0 <= i < 2 ^ l.

(** The block of level [l] that contains block [i] of level [l']. *)
Definition up (l l' i : Z) : Z := i / 2 ^ (l' - l).

Definition sibling (i : Z) : Z := if Z.even i then i + 1 else i - 1.

Definition inside (l i l' i' : Z) : Prop := l <= l' /\ up l l' i' = i.

Definition overlap (l i l' i' : Z) : Prop := inside l i l' i' \/ inside l' i' l i.

Section tree.
Variables (D : Z) (b : bits).

Definition halves (l i : Z) : bool := b (l + 1) (2 * i) && b (l + 1) (2 * i + 1).

Definition allocated (l i : Z) : Prop :=
  in_level l i /\ l <= D /\ b l i = false /\ (l = D \/ halves l i = true).

Definition free (l i : Z) : Prop := b l i = true /\ b l (sibling i) = false.

(** No allocated block shares a byte with this one. *)
Definition available (l i : Z) : Prop := forall l' i', allocated l' i' -> ~ overlap l i l' i'.

Record wf_tree : Prop := {
  tree_depth : 0 <= D;
  tree_down : forall l i, in_level l i -> l < D -> b l i = true -> halves l i = true;
  tree_ghost : b 0 1 = false }.
End tree.

(** * Ancestors *)

Lemma up_self l i : up l l i = i.
Proof. unfold up. rewrite Z.sub_diag. apply Z.div_1_r. Qed.

Lemma up_up l l1 l2 i : l <= l1 <= l2 -> 0 <= i -> up l l1 (up l1 l2 i) = up l l2 i.
Proof.
  intros Hl Hi. unfold up. pose proof (Z.pow_pos_nonneg 2 (l2 - l1)). pose proof (Z.pow_pos_nonneg 2 (l1 - l)).
  rewrite Z.div_div by lia.
  rewrite <- Z.pow_add_r by lia. do 2 f_equal. lia.
Qed.

Lemma up_succ l l' i : l < l' -> 0 <= i -> up l l' i = up (l + 1) l' i / 2.
Proof.
  intros. rewrite <- (up_up l (l + 1) l') by lia. unfold up at 1.
  by replace (l + 1 - l) with 1 by lia.
Qed.

Lemma up_parent l i : up l (l + 1) i = i / 2.
Proof. unfold up. by replace (l + 1 - l) with 1 by lia. Qed.

Lemma up_in_level l l' i : 0 <= l <= l' -> in_level l' i -> in_level l (up l l' i).
Proof.
  intros Hl [_ Hi]. split; [lia |]. unfold up. split.
  - apply Z.div_pos; [lia | apply Z.pow_pos_nonneg; lia].
  - apply Z.div_lt_upper_bound; [apply Z.pow_pos_nonneg; lia |].
    rewrite <- Z.pow_add_r by lia. replace (l' - l + l) with l' by lia. lia.
Qed.

Lemma in_level_half l i c : in_level l i -> 0 <= c <= 1 -> in_level (l + 1) (2 * i + c).
Proof. intros [? ?] ?. split; [lia |]. rewrite Z.pow_add_r by lia. lia. Qed.

Lemma half_cases i : exists c, 0 <= c <= 1 /\ i = 2 * (i / 2) + c /\ sibling i = 2 * (i / 2) + (1 - c).
Proof.
  exists (i mod 2). pose proof (Z.div_mod i 2). pose proof (Z.mod_pos_bound i 2). split_and!; [lia .. |].
  pose proof (Zmod_even i). unfold sibling. destruct (Z.even i); lia.
Qed.

Lemma halves_spec b l i : halves b l i = true <-> forall c, 0 <= c <= 1 -> b (l + 1) (2 * i + c) = true.
Proof.
  unfold halves. rewrite andb_true_iff. split.
  - intros [H0 H1] c Hc. assert (c = 0 \/ c = 1) as [-> | ->] by lia; by rewrite ?Z.add_0_r.
  - intros H. split; [| apply H; lia]. specialize (H 0). rewrite Z.add_0_r in H. apply H. lia.
Qed.

(** Both blocks of a pair are set when the halves of their parent are. *)
Lemma halves_pair b l i : halves b l (i / 2) = true -> b (l + 1) i = true /\ b (l + 1) (sibling i) = true.
Proof.
  rewrite halves_spec. intros H. destruct (half_cases i) as (c & Hc & E1 & E2).
  rewrite E2. rewrite E1 at 1. split; apply H; lia.
Qed.

Lemma pair_halves b l i : b (l + 1) i = true -> b (l + 1) (sibling i) = true -> halves b l (i / 2) = true.
Proof.
  rewrite halves_spec. intros H1 H2 d Hd. destruct (half_cases i) as (c & Hc & E1 & E2).
  rewrite E2 in H2. rewrite E1 in H1. assert (d = c \/ d = 1 - c) as [-> | ->] by lia; congruence.
Qed.

Lemma sibling_inside l l' i : l < l' -> 0 <= i -> up l l' (sibling i) = up l l' i.
Proof.
  intros Hl Hi. destruct (half_cases i) as (c & Hc & E1 & E2).
  assert (0 <= sibling i) as Hs by lia.
  rewrite <- (up_up l (l' - 1) l'), <- (up_up l (l' - 1) l' i) by lia. f_equal.
  replace l' with (l' - 1 + 1) at 2 4 by lia. rewrite !up_parent, E2.
  rewrite Z.add_comm, Z.mul_comm, Z.div_add, Z.div_small by lia. lia.
Qed.

Section tree_lemmas.
Context (D : Z) (b : bits) (W : wf_tree D b).

(** Everything inside a set block is set. *)
Lemma set_inside l i l' i' :
  0 <= l -> l' <= D -> in_level l' i' -> inside l i l' i' -> b l i = true -> b l' i' = true.
Proof.
  intros Hl HD Hi' [Hle Hup] Hb. assert (exists n, l' = l + Z.of_nat n) as [n ->].
  { exists (Z.to_nat (l' - l)). lia. }
  clear Hle. revert i' Hi' Hup. induction n as [| n IH]; intros i' Hi' Hup.
  { replace (l + Z.of_nat 0) with l in * by lia. rewrite up_self in Hup. by subst. }
  replace (l + Z.of_nat (S n)) with (l + Z.of_nat n + 1) in * by lia.
  apply (halves_pair b). apply (tree_down D b W); [| lia |].
  - rewrite <- up_parent with (l := l + Z.of_nat n). apply up_in_level; [lia | done].
  - apply IH; [lia | |].
    + rewrite <- up_parent with (l := l + Z.of_nat n). apply up_in_level; [lia | done].
    + rewrite <- Hup. destruct Hi'. rewrite <- (up_up l (l + Z.of_nat n) (l + Z.of_nat n + 1)) by lia.
      by rewrite up_parent.
Qed.

(** The root of a tree, or a block with a set buddy and an unset parent, is
    not inside any other allocated block. *)
Lemma clear_above l i l' i' : 0 <= l' -> in_level l i -> inside l' i' l i -> l <= D -> b l i = false -> b l' i' = false.
Proof.
  intros Hl' Hi Hin HD Hb. destruct (b l' i') eqn:E; [| done].
  by rewrite (set_inside l' i' l i) in Hb by done.
Qed.

(** An unset block contains an allocated one. *)
Lemma unset_allocated l i :
  in_level l i -> l <= D -> b l i = false -> exists l' i', allocated D b l' i' /\ inside l i l' i'.
Proof.
  remember (Z.to_nat (D - l)) as n eqn:En. revert l i En.
  induction n as [| n IH]; intros l i En Hi HD Hb.
  { exists l, i. split; [| split; [lia | apply up_self]]. split_and!; try done. left. lia. }
  destruct (halves b l i) eqn:Eh.
  { exists l, i. split; [| split; [lia | apply up_self]]. split_and!; try done. by right. }
  assert (exists c, 0 <= c <= 1 /\ b (l + 1) (2 * i + c) = false) as (c & Hc & Hbc).
  { unfold halves in Eh. apply andb_false_iff in Eh as [E | E]; [exists 0 | exists 1]; split; try lia; try done.
    by rewrite Z.add_0_r. }
  destruct Hi as [Hl Hi].
  destruct (IH (l + 1) (2 * i + c)) as (l' & i' & Ha & Hle & Hup);
    [lia | by apply in_level_half | lia | done |].
  exists l', i'. split; [done |]. split; [lia |]. destruct Ha as [[_ [Hi' _]] _].
  rewrite (up_succ l l') by lia. rewrite Hup. rewrite Z.add_comm, Z.mul_comm, Z.div_add, Z.div_small; lia.
Qed.

Lemma available_set l i : in_level l i -> l <= D -> available D b l i -> b l i = true.
Proof.
  intros Hi HD Ha. destruct (b l i) eqn:E; [done |].
  destruct (unset_allocated l i Hi HD E) as (l' & i' & Hal & Hin). destruct (Ha l' i' Hal). by left.
Qed.

(** An available block lies in a free one. *)
Lemma available_free l i :
  in_level l i -> l <= D -> available D b l i -> exists l', 0 <= l' <= l /\ free b l' (up l' l i).
Proof.
  intros Hi HD Ha. pose proof (available_set l i Hi HD Ha) as Hb.
  destruct Hi as [Hl Hi].
  enough (forall n, Z.of_nat n <= l -> b (Z.of_nat n) (up (Z.of_nat n) l i) = true ->
    exists l', 0 <= l' <= l /\ free b l' (up l' l i)) as H.
  { apply (H (Z.to_nat l)); rewrite Z2Nat.id by lia; [lia |]. by rewrite up_self. }
  induction n as [| n IH]; intros Hn Hbn.
  { exists 0. split; [lia |]. split; [done |].
    assert (up 0 l i = 0) as ->; [| apply (tree_ghost D b W)].
    unfold up. rewrite Z.sub_0_r. apply Z.div_small. lia. }
  destruct (b (Z.of_nat (S n)) (sibling (up (Z.of_nat (S n)) l i))) eqn:Es.
  2:{ exists (Z.of_nat (S n)). split; [lia |]. by split. }
  apply IH; [lia |].
  destruct (b (Z.of_nat n) (up (Z.of_nat n) l i)) eqn:Ep; [done | exfalso].
  apply (Ha (Z.of_nat n) (up (Z.of_nat n) l i)).
  - split_and!; [apply up_in_level; [lia | done] | lia | done |]. right.
    rewrite up_succ by lia. replace (Z.of_nat n + 1) with (Z.of_nat (S n)) by lia.
    replace (Z.of_nat (S n)) with (Z.of_nat n + 1) in * by lia. by apply pair_halves.
  - right. split; [lia | done].
Qed.

(** A block inside a free one is available. *)
Lemma free_available l i l' i' :
  in_level l i -> l' <= D -> in_level l' i' -> free b l i -> inside l i l' i' -> available D b l' i'.
Proof.
  intros Hi HD Hi' [Hb Hs] Hin la ia (Ha & HaD & Hba & Hh) Hov.
  assert (inside la ia l i \/ (l <= la /\ inside l i la ia)) as [Hab | [Hle Hbe]].
  { destruct Hov as [[H1 H2] | [H1 H2]], Hin as [H3 H4].
    - right. split; [lia |]. split; [lia |]. destruct Ha. rewrite <- (up_up l l' la) by lia. by rewrite H2.
    - destruct (Z.le_gt_cases l la).
      + right. split; [done |]. split; [done |]. destruct Hi'. rewrite <- H2, up_up by lia. done.
      + left. split; [lia |]. destruct Ha, Hi'. rewrite <- H4, up_up by lia. done. }
  - destruct (Z.eq_dec la l) as [-> |].
    { destruct Hab as [_ Hab]. rewrite up_self in Hab. subst. congruence. }
    destruct Hab as [Hle Hup], Hin as [HlD _]. destruct Hh as [-> | Hh]; [lia |].
    (* the pair of (l, i) lies in the halves of (la, ia) *)
    enough (halves b (l - 1) (i / 2) = true) as H.
    { apply halves_pair in H as [_ H]. replace (l - 1 + 1) with l in H by lia. congruence. }
    assert (up (l - 1) l i = i / 2) as E by (rewrite <- (up_parent (l - 1)); f_equal; lia).
    assert (in_level (l - 1) (i / 2)) as Hpar by (rewrite <- E; apply up_in_level; [destruct Ha; lia | done]).
    destruct (Z.eq_dec la (l - 1)) as [-> |]; [rewrite E in Hup; by rewrite Hup |].
    apply (tree_down D b W); [done | lia |].
    apply (set_inside (la + 1) (up (la + 1) l i)); [destruct Ha; lia | lia | done | |].
    + split; [lia |]. destruct Hi. rewrite <- (up_up (la + 1) (l - 1) l) by lia. by rewrite E.
    + apply halves_pair. rewrite <- up_succ; [by rewrite Hup | lia | destruct Hi; lia].
  - rewrite (set_inside l i la ia) in Hba by (done || destruct Hi; lia). done.
Qed.

(** Two allocated blocks that overlap are the same. *)
Lemma allocated_disjoint l i l' i' :
  allocated D b l i -> allocated D b l' i' -> overlap l i l' i' -> l = l' /\ i = i'.
Proof.
  assert (forall l i l' i', allocated D b l i -> allocated D b l' i' -> inside l i l' i' -> l = l' /\ i = i') as H.
  { intros l1 i1 l2 i2 (H1 & HD1 & Hb1 & Hh1) (H2 & HD2 & Hb2 & Hh2) [Hle Hup].
    destruct (Z.eq_dec l1 l2) as [-> |]; [by rewrite up_self in Hup |]. exfalso.
    destruct Hh1 as [-> | Hh1]; [lia |].
    rewrite (set_inside (l1 + 1) (up (l1 + 1) l2 i2) l2 i2) in Hb2; [done | destruct H1; lia | done | done | by split; [lia |] |].
    apply halves_pair. rewrite <- up_succ; [by rewrite Hup | lia | destruct H2; lia]. }
  intros H1 H2 [Hin | Hin]; [by apply H | destruct (H l' i' l i); auto].
Qed.
End tree_lemmas.

(** * Updates along a chain of ancestors *)

(** Blocks with a bit: those of the tree and the ghost buddy of the root. *)
Definition slot (l i : Z) : Prop := in_level l i \/ (l = 0 /\ i = 1).

(** The ancestors of block [i] of level [B], from level [L] down to itself. *)
Definition on_chain (L B i l j : Z) : bool := (L <=? l) && (l <=? B) && (j =? up l B i).

Lemma on_chain_spec L B i l j : on_chain L B i l j = true <-> L <= l <= B /\ j = up l B i.
Proof. unfold on_chain. rewrite !andb_true_iff, !Z.leb_le, Z.eqb_eq. tauto. Qed.

Lemma on_chain_self L B i : L <= B -> on_chain L B i B i = true.
Proof. rewrite on_chain_spec, up_self. lia. Qed.

(** The parent of a block of the chain, unless at the top. *)
Lemma on_chain_parent L B i l j c :
  0 <= i -> 0 <= c <= 1 -> L <= l -> on_chain L B i (l + 1) (2 * j + c) = true -> on_chain L B i l j = true.
Proof.
  intros Hi Hc HL. rewrite !on_chain_spec. intros [Hl Hj]. split; [lia |].
  rewrite (up_succ l) by lia. rewrite <- Hj. rewrite Z.add_comm, Z.mul_comm, Z.div_add, Z.div_small; lia.
Qed.

(** One half of a block of the chain is in the chain, the other is its buddy. *)
Lemma on_chain_half L B i l j :
  0 <= i -> l < B -> on_chain L B i l j = true ->
  exists c, 0 <= c <= 1 /\ up (l + 1) B i = 2 * j + c /\ sibling (up (l + 1) B i) = 2 * j + (1 - c).
Proof.
  intros Hi HlB. rewrite on_chain_spec. intros [Hl ->]. destruct (half_cases (up (l + 1) B i)) as (c & Hc & E1 & E2).
  exists c. rewrite (up_succ l) by lia. done.
Qed.

Lemma not_on_chain_ghost L B i : in_level B i -> on_chain L B i 0 1 = false.
Proof.
  intros [HB Hi]. destruct (on_chain L B i 0 1) eqn:E; [| done]. apply on_chain_spec in E as [Hl E].
  unfold up in E. rewrite Z.sub_0_r, Z.div_small in E; [lia | done].
Qed.

Section alloc_update.
Context (D : Z) (b b' : bits) (W : wf_tree D b) (L B i : Z).
Hypothesis HB : in_level B i.
Hypothesis HL : 0 <= L <= B.
Hypothesis HD : B <= D.
Hypothesis Hfree : free b L (up L B i).
Hypothesis Hupd : forall l j, slot l j -> l <= D -> b' l j = b l j && negb (on_chain L B i l j).

(** A half in the chain of a block off the chain is the top of the chain. *)
Lemma top_half l j c :
  0 <= c <= 1 -> on_chain L B i l j = false -> on_chain L B i (l + 1) (2 * j + c) = true ->
  halves b l j = false.
Proof.
  intros Hc Hoff Hon. destruct HB as [_ Hi]. destruct (Z.le_gt_cases L l) as [Hl | Hl].
  { by rewrite (on_chain_parent L B i l j c) in Hoff by (done || lia). }
  apply on_chain_spec in Hon as [Hl1 Hj]. assert (l + 1 = L) as E by lia.
  destruct (halves b l j) eqn:Eh; [| done]. destruct Hfree as [_ Hs].
  rewrite <- E, <- Hj in Hs. replace j with ((2 * j + c) / 2) in Eh
    by (rewrite Z.add_comm, Z.mul_comm, Z.div_add, Z.div_small; lia).
  apply halves_pair in Eh as [_ Eh]. congruence.
Qed.

Lemma alloc_halves l j : in_level l j -> l < D -> on_chain L B i l j = false -> halves b l j = true -> halves b' l j = true.
Proof.
  intros Hj HlD Hoff Hh. apply halves_spec. intros c Hc.
  rewrite Hupd by (lia || (left; by apply in_level_half)).
  destruct (on_chain L B i (l + 1) (2 * j + c)) eqn:E.
  { by rewrite (top_half l j c) in Hh. }
  rewrite andb_true_r. by apply halves_spec.
Qed.

Lemma halves_alloc l j : in_level l j -> l < D -> halves b' l j = true -> halves b l j = true.
Proof.
  intros Hj HlD. rewrite !halves_spec. intros H c Hc. specialize (H c Hc).
  rewrite Hupd in H by (lia || (left; by apply in_level_half)). by apply andb_true_iff in H as [H _].
Qed.

Lemma alloc_wf : wf_tree D b'.
Proof.
  destruct W as [HD0 Hdown Hghost]. constructor; [done | |].
  - intros l j Hj HlD Hb. rewrite Hupd in Hb by (by left || lia). apply andb_true_iff in Hb as [Hb Hoff].
    apply negb_true_iff in Hoff. apply alloc_halves; auto.
  - rewrite Hupd by (by right || (destruct W; done)). by rewrite Hghost.
Qed.

Lemma alloc_allocated l j : allocated D b' l j <-> allocated D b l j \/ (l = B /\ j = i).
Proof.
  assert (0 <= i) as Hi0 by (destruct HB; lia). split.
  - intros (Hj & HlD & Hb & Hh). rewrite Hupd in Hb by (by left || lia).
    destruct (on_chain L B i l j) eqn:E.
    + destruct (Z.eq_dec l B) as [-> | Hne].
      { apply on_chain_spec in E as [_ E]. rewrite up_self in E. by right. }
      exfalso. pose proof E as E'. apply on_chain_spec in E' as [HlB _].
      destruct Hh as [-> | Hh]; [lia |].
      destruct (on_chain_half L B i l j) as (c & Hc & Ec & _); [done | lia | done |].
      rewrite halves_spec in Hh. specialize (Hh c Hc). rewrite Hupd in Hh by (lia || (left; by apply in_level_half)).
      rewrite (proj2 (on_chain_spec L B i (l + 1) (2 * j + c))), andb_false_r in Hh; [done | lia].
    + left. rewrite andb_true_r in Hb. split_and!; try done.
      destruct (Z.eq_dec l D) as [-> |]; [by left | right]; destruct Hh as [-> | Hh]; [done |]. apply halves_alloc; [done | lia | done].
  - intros [(Hj & HlD & Hb & Hh) | [-> ->]].
    + split_and!; [done | done | rewrite Hupd by (by left || lia); by rewrite Hb |].
      destruct (Z.eq_dec l D) as [-> |]; [by left | right]; destruct Hh as [-> | Hh]; [done |]. apply alloc_halves; [done | lia | | done].
      destruct (on_chain L B i l j) eqn:E; [exfalso | done].
      apply on_chain_spec in E as [HlB ->].
      rewrite (set_inside D b W L (up L B i) l (up l B i)) in Hb; [done | lia | done | done | | by destruct Hfree].
      split; [lia | apply up_up; lia].
    + split_and!; [done | done | rewrite Hupd by (by left || lia); rewrite on_chain_self by lia; apply andb_false_r |].
      destruct (Z.eq_dec B D) as [-> |]; [by left | right].
      apply halves_spec. intros c Hc. rewrite Hupd by (lia || (left; by apply in_level_half)).
      destruct (on_chain L B i (B + 1) (2 * i + c)) eqn:E; [apply on_chain_spec in E; lia |].
      rewrite andb_true_r.
      rewrite (set_inside D b W L (up L B i) (B + 1) (2 * i + c)); [done | lia | lia | by apply in_level_half | | by destruct Hfree].
      split; [lia |]. rewrite <- (up_up L B (B + 1)) by lia. rewrite up_parent.
      by rewrite Z.add_comm, Z.mul_comm, Z.div_add, Z.div_small by lia.
Qed.
End alloc_update.

Section free_update.
Context (D : Z) (b b' : bits) (W : wf_tree D b) (L B i : Z).
Hypothesis Hal : allocated D b B i.
Hypothesis HL : 0 <= L <= B.
(** The chain goes up through set buddies, and stops where it must. *)
Hypothesis Hpair : forall l, L < l <= B -> b l (sibling (up l B i)) = true.
Hypothesis Htop : L = 0 \/ b L (sibling (up L B i)) = false.
Hypothesis Hupd : forall l j, slot l j -> l <= D -> b' l j = b l j || on_chain L B i l j.

Lemma free_mono l j : slot l j -> l <= D -> b l j = true -> b' l j = true.
Proof. intros Hj HlD Hb. by rewrite Hupd, Hb. Qed.

Lemma chain_unset l j : in_level l j -> on_chain L B i l j = true -> b l j = false.
Proof.
  intros Hj. rewrite on_chain_spec. intros [Hl ->]. destruct Hal as (HB & HBD & Hb & _).
  apply (clear_above D b W B i); [by destruct Hj | done | by split; [lia |] | done | done].
Qed.

Lemma free_wf : wf_tree D b'.
Proof.
  destruct Hal as (HB & HBD & Hb & Hh). constructor; [by destruct W | |].
  - intros l j Hj HlD. rewrite Hupd by (by left || lia). intros [Hbl | E]%orb_true_iff.
    + apply halves_spec. intros c Hc. apply free_mono; [left; by apply in_level_half | lia |].
      revert c Hc. apply halves_spec. by apply (tree_down D b W).
    + pose proof E as E'. apply on_chain_spec in E' as [HlB Ej]. destruct (Z.eq_dec l B) as [-> |].
      * rewrite up_self in Ej. subst j. destruct Hh as [-> | Hh]; [lia |].
        apply halves_spec. intros c Hc. apply free_mono; [left; by apply in_level_half | lia |].
        revert c Hc. by apply halves_spec.
      * destruct (on_chain_half L B i l j) as (c & Hc & Ec & Es); [destruct HB; lia | lia | done |].
        apply halves_spec. intros d Hd. rewrite Hupd by (lia || (left; by apply in_level_half)).
        assert (d = c \/ d = 1 - c) as [-> | ->] by lia.
        -- rewrite (proj2 (on_chain_spec L B i (l + 1) (2 * j + c))) by lia. apply orb_true_r.
        -- rewrite <- Es, Hpair by lia. done.
  - rewrite Hupd by (by right || (destruct W; done)). by rewrite (tree_ghost D b W), not_on_chain_ghost.
Qed.

Lemma free_allocated l j : allocated D b' l j <-> allocated D b l j /\ ~ (l = B /\ j = i).
Proof.
  pose proof Hal as (HB & HBD & Hb & Hh). assert (0 <= i) as Hi0 by (destruct HB; lia). split.
  - intros (Hj & HlD & Hbl & Hhl). rewrite Hupd in Hbl by (by left || lia). apply orb_false_iff in Hbl as [Hbl Hoff].
    split; [| intros [-> ->]; by rewrite on_chain_self in Hoff by lia].
    split_and!; try done. destruct (Z.eq_dec l D) as [-> |]; [by left | right]; destruct Hhl as [-> | Hhl]; [done |].
    apply halves_spec. intros c Hc. rewrite halves_spec in Hhl. pose proof (Hhl c Hc) as H.
    rewrite Hupd in H by (lia || (left; by apply in_level_half)). apply orb_true_iff in H as [H | H]; [done | exfalso].
    destruct (Z.le_gt_cases L l) as [Hl | Hl].
    { by rewrite (on_chain_parent L B i l j c) in Hoff by (done || lia). }
    apply on_chain_spec in H as [HlB Hc']. assert (l + 1 = L) as E by lia.
    destruct Hj as [Hl0 Hj]. destruct Htop as [-> | Htop']; [lia |].
    rewrite <- E, <- Hc' in Htop'. destruct (half_cases (2 * j + c)) as (d & Hd & E1 & E2).
    assert ((2 * j + c) / 2 = j) as Ej by (rewrite Z.add_comm, Z.mul_comm, Z.div_add, Z.div_small; lia).
    rewrite E2, Ej in Htop'. assert (1 - d = 1 - c) as Ed by lia. rewrite Ed in Htop'.
    specialize (Hhl (1 - c) ltac:(lia)). rewrite Hupd in Hhl by (lia || (left; apply in_level_half; [done | lia])).
    rewrite Htop' in Hhl. apply on_chain_spec in Hhl as [_ Hhl]. rewrite <- Hc' in Hhl. lia.
  - intros [(Hj & HlD & Hbl & Hhl) Hne]. split_and!; try done.
    + rewrite Hupd, Hbl by (by left || lia). destruct (on_chain L B i l j) eqn:E; [exfalso | done].
      pose proof E as E'. apply on_chain_spec in E' as [HlB Ej].
      destruct (Z.eq_dec l B) as [-> |]; [apply Hne; by rewrite up_self in Ej |].
      destruct Hhl as [-> | Hhl]; [lia |].
      destruct (on_chain_half L B i l j) as (c & Hc & Ec & _); [done | lia | done |].
      rewrite halves_spec in Hhl. specialize (Hhl c Hc).
      rewrite (chain_unset (l + 1) (2 * j + c)) in Hhl; [done | by apply in_level_half |].
      apply on_chain_spec. lia.
    + destruct (Z.eq_dec l D) as [-> |]; [by left | right]; destruct Hhl as [-> | Hhl]; [done |].
      apply halves_spec. intros c Hc. apply free_mono; [left; by apply in_level_half | lia |].
      revert c Hc. by apply halves_spec.
Qed.
End free_update.
