(* ===== verification/Buddy.v ===== *)
(** The buddy allocator of the DPU runtime
    (library/src/dpu-rt/src/syslib/buddy_alloc.c, buddy_realloc.c).

    The heap of [2 ^ max_power] bytes is a binary tree of blocks, level 0 the
    whole heap and the deepest level blocks of 16 bytes.  Each block has one
    bit in the array [blocks]; a block is free when its bit is set and its
    buddy's is not, allocated when its bit is clear and both halves are set.

    First the code, then the position of a block's bit, then the tree seen as a
    function from blocks to bits, then the refinement: the operations implement
    a set of disjoint allocated blocks. *)
From S2P Require Import Prelude BuddyTree.

(** * The code *)

Record heap := {
  blocks : list Z;
  heap_start : Z;
  size_of_heap : Z;
  max_power : Z;
  number_of_levels : Z }.

Inductive errno := EINVAL | ENOMEM.

Definition DEPTH_LEVELS : Z := 3.
Definition SHIFT_ADDRESS_TO_INDEX : Z := 4.

Definition set_blocks (h : heap) (ws : list Z) : heap :=
  {| blocks := ws; heap_start := heap_start h; size_of_heap := size_of_heap h;
     max_power := max_power h; number_of_levels := number_of_levels h |}.

(** A shift by a register takes the low five bits of the amount. *)
Definition shl (x n : Z) : Z := u32 (Z.shiftl x (n mod 32)).

Definition next_power_of_2 (x : Z) : Z :=
  let power_of_2 := 31 - clz32 x in
  if popcount x =? 1 then power_of_2 else power_of_2 + 1.

(** The bits of a level in the words it is stored in. *)
Definition level_mask (level : Z) : Z :=
  match level with
  | 0 => 0x40000000
  | 1 => 0x30000000
  | 2 => 0x0F000000
  | 3 => 0x00FF0000
  | 4 => 0x0000FFFF
  | _ => 0xFFFFFFFF
  end.

Definition initial_bitfield (level : Z) : Z :=
  match level with
  | 0 | 1 | 2 | 3 | 4 => 0
  | _ => Z.shiftr (shl 1 level) 5 - 1
  end.

Definition highlight (level index : Z) : Z :=
  let target := shl 1 index in
  if level <? 4 then shl target (32 - shl 2 level) else target.

Definition real_index (level index : Z) : Z :=
  if level - 5 <? 0 then 0 else shl 1 (level - 5) + Z.shiftr index 5.

(** The free block of one bitfield: its bit and its index in the level. *)
Definition pick (level loaded_case index_in_level : Z) : option (Z * Z) :=
  let tmp := Z.land (Z.lxor (u32 (Z.shiftl loaded_case 1)) loaded_case) 0xAAAAAAAA in
  if tmp =? 0 then None
  else
    let index := u32 (index_in_level - clz32 tmp - 1) in
    let index := if level <? 5 then u32 (index + shl 1 level) else index in
    let target := highlight level index in
    if Z.land loaded_case target =? 0 then Some (Z.shiftr target 1, index - 1)
    else Some (target, index).

(** The bitfields of a level, [n - 1] down to 0: the word, bit and index of a
    free block. *)
Fixpoint scan (n : nat) (ws : list Z) (level index_in_level : Z) : option (option (Z * Z * Z)) :=
  match n with
  | O => Some None
  | S n =>
    let address := Z.of_nat n + Z.shiftr (shl 1 level) 5 in
    w ← load ws address;
    match pick level (Z.land w (level_mask level)) index_in_level with
    | Some (target, index) => Some (Some (address, target, index))
    | None => scan n ws level (u32 (index_in_level - 32))
    end
  end.

(** The levels from [n - 1] up to the root. *)
Fixpoint search (n : nat) (ws : list Z) : option (option (Z * Z * Z * Z)) :=
  match n with
  | O => Some None
  | S n =>
    let level := Z.of_nat n in
    found ← scan (Z.to_nat (initial_bitfield level + 1)) ws level (shl 1 level);
    match found with
    | Some (address, target, index) => Some (Some (level, address, target, index))
    | None => search n ws
    end
  end.

(** Cutting in half: the first halves are marked, [n] levels down. *)
Fixpoint descend (n : nat) (ws : list Z) (level index : Z) : option (list Z * Z) :=
  match n with
  | O => Some (ws, index)
  | S n =>
    let index := u32 (Z.shiftl index 1) in
    w ← load ws (real_index level index);
    ws ← store ws (real_index level index) (u32 (w - highlight level index));
    descend n ws (level + 1) index
  end.

Definition safe_buddy_alloc (h : heap) (size : Z) : option (heap * (Z + errno)) :=
  if (size =? 0) || (size_of_heap h <? size) then Some (h, inr EINVAL)
  else
    let blocks_level := max_power h - next_power_of_2 size in
    let blocks_level :=
      if number_of_levels h <=? blocks_level then number_of_levels h - 1 else blocks_level in
    found ← search (Z.to_nat (blocks_level + 1)) (blocks h);
    match found with
    | None => Some (h, inr ENOMEM)
    | Some (level, address, target, index) =>
      w ← load (blocks h) address;
      ws ← store (blocks h) address (u32 (w - target));
      '(ws, index) ← descend (Z.to_nat (blocks_level - level)) ws (level + 1) index;
      Some (set_blocks h ws, inl (heap_start h + shl index (max_power h - blocks_level)))
    end.

Record search_context := {
  target_level : Z;
  context_index : Z;
  highlight_target_bit : Z;
  highlight_buddy_bit : Z }.

Definition highlight_buddy (level index : Z) : Z :=
  let target := shl 1 index in
  let buddy := if Z.land (clz32 target) 1 =? 0 then Z.shiftr target 1 else u32 (Z.shiftl target 1) in
  if level <? 4 then shl buddy (32 - shl 2 level) else buddy.

(** The loop of [buddy_search_for_pointer] from level [n] up. *)
Fixpoint search_up (n : nat) (ws : list Z) (index : Z) : option (Z * search_context + errno) :=
  let level := Z.of_nat n in
  let target := highlight level index in
  let buddy := highlight_buddy level index in
  w ← load ws (real_index level index);
  let found := Some (inl (index, {| target_level := level; context_index := real_index level index;
                                    highlight_target_bit := target; highlight_buddy_bit := buddy |})) in
  if Z.land w target =? 0 then found
  else
    match n with
    | O => found
    | S n => if Z.land w buddy =? 0 then Some (inr EINVAL) else search_up n ws (Z.shiftr index 1)
    end.

Definition buddy_search_for_pointer (h : heap) (pointer : Z) : option (Z * search_context + errno) :=
  if negb (Z.land pointer 7 =? 0) || (pointer <? heap_start h)
     || (heap_start h + size_of_heap h - 1 <? pointer)
  then Some (inr EINVAL)
  else search_up (Z.to_nat (number_of_levels h - 1)) (blocks h)
         (Z.shiftr (pointer - heap_start h) SHIFT_ADDRESS_TO_INDEX).

(** The loop of [buddy_free_fusion_of_blocks], from level [n]. *)
Fixpoint fuse (n : nat) (ws : list Z) (index loaded_case target buddy : Z) : option (list Z) :=
  match n with
  | O => Some ws
  | S n =>
    if (Z.land loaded_case target =? 0) || (Z.land loaded_case buddy =? 0) then Some ws
    else
      let index := Z.shiftr index 1 in
      let level := Z.of_nat n in
      let target := highlight level index in
      let buddy := highlight_buddy level index in
      w ← load ws (real_index level index);
      ws ← store ws (real_index level index) (Z.lor w target);
      fuse n ws index (Z.lor w target) target buddy
  end.

Definition buddy_free_fusion_of_blocks (ws : list Z) (index : Z) (c : search_context) : option (list Z) :=
  w ← load ws (context_index c);
  fuse (Z.to_nat (target_level c)) ws index w (highlight_target_bit c) (highlight_buddy_bit c).

Definition safe_buddy_free (h : heap) (pointer : Z) : option (heap * option errno) :=
  r ← buddy_search_for_pointer h pointer;
  match r with
  | inr e => Some (h, Some e)
  | inl (index, c) =>
    w ← load (blocks h) (context_index c);
    ws ← store (blocks h) (context_index c) (Z.lor w (highlight_target_bit c));
    ws ← buddy_free_fusion_of_blocks ws index c;
    Some (set_blocks h ws, None)
  end.

(** The state array, and the heap after it. *)
Definition fresh_blocks (levels : Z) : list Z :=
  0x7fffffff :: replicate (Z.to_nat ((shl (shl 1 (levels - 5)) 2 - 4) / 4)) 0xffffffff.

(** [memory] is what [mem_alloc] returned. *)
Definition buddy_init (size memory : Z) : heap :=
  let power := u8 (31 - clz32 size) in
  let levels := u8 (power - DEPTH_LEVELS) in
  let blocks_in_buddy_blocks := shl (shl 1 (levels - 5)) 2 in
  {| blocks := fresh_blocks levels; heap_start := memory + 4 * Z.shiftr blocks_in_buddy_blocks 2;
     size_of_heap := size; max_power := power; number_of_levels := levels |}.

Definition buddy_reset (h : heap) : heap := set_blocks h (fresh_blocks (number_of_levels h)).

(** [memcpy (dst, src, n)]. *)
Record copy := { c_dst : Z; c_src : Z; c_len : Z }.

Definition buddy_sizeofblock (h : heap) (pointer : Z) : option Z :=
  r ← buddy_search_for_pointer h pointer;
  match r with
  | inr _ => Some (-1)
  | inl (index, _) => Some (shl 1 (12 - index))
  end.

(** The heap, the pointer returned and the bytes copied.  Null is 0. *)
Definition buddy_realloc (h : heap) (ptr size : Z) : option (heap * Z * list copy) :=
  let pointer (r : Z + errno) := match r with inl p => p | inr _ => 0 end in
  if ptr =? 0 then
    '(h, r) ← safe_buddy_alloc h size; Some (h, pointer r, [])
  else if size =? 0 then
    '(h, _) ← safe_buddy_free h ptr; Some (h, ptr, [])
  else
    size_block ← buddy_sizeofblock h ptr;
    let size_block := u32 size_block in
    if size_block =? u32 (-1) then Some (h, 0, [])
    else if negb (size <=? Z.shiftr size_block 1) && (size <=? size_block) then Some (h, ptr, [])
    else
      let size_block := if size <=? Z.shiftr size_block 1 then size else size_block in
      '(h, _) ← safe_buddy_free h ptr;
      '(h, r) ← safe_buddy_alloc h size;
      Some (h, pointer r, [{| c_dst := pointer r; c_src := ptr; c_len := size_block |}]).

(** * Where the bit of a block is *)

(** The first five levels share word 0, level [l] from bit [32 - 2^(l+1)];
    level [l >= 5] fills the words from [2^(l-5)]. *)
Definition pos (l i : Z) : Z := if l <? 5 then 32 - 2 ^ (l + 1) + i else i mod 32.
Definition wordn (l i : Z) : Z := if l <? 5 then 0 else 2 ^ (l - 5) + i / 32.

(** The bits of the tree. *)
Definition bit (ws : list Z) : bits := fun l i => Z.testbit (nth (Z.to_nat (wordn l i)) ws 0) (pos l i).

Definition max_level : Z := 26.

Lemma shl_pow2 n : shl 1 n = 2 ^ (n mod 32).
Proof.
  unfold shl. pose proof (Z.mod_pos_bound n 32 ltac:(lia)). rewrite shiftl_1_pow2 by lia.
  apply wrap_small. split; [apply Z.pow_nonneg; lia | apply Z.pow_lt_mono_r; lia].
Qed.

Lemma shl_pow2_small n : 0 <= n < 32 -> shl 1 n = 2 ^ n.
Proof. intros. by rewrite shl_pow2, Z.mod_small. Qed.

(** A property of the blocks of the first five levels is checked on all. *)
Lemma small_slots (f : Z -> Z -> bool) :
  forallb (fun l => forallb (f l) (seqZ 0 (Z.max 2 (2 ^ l)))) (seqZ 0 5) = true ->
  forall l i, slot l i -> l < 5 -> f l i = true.
Proof.
  rewrite forallb_forall. intros H l i Hs Hl.
  assert (0 <= l /\ 0 <= i < Z.max 2 (2 ^ l)) as [? ?] by (destruct Hs as [[? ?] | [-> ->]]; lia).
  specialize (H l). rewrite <- list_elem_of_In, elem_of_seqZ, forallb_forall in H.
  apply H; [lia |]. rewrite <- list_elem_of_In, elem_of_seqZ. lia.
Qed.

Ltac small_slot f l i Hs := exact (proj1 (Z.eqb_eq _ _) (small_slots f eq_refl l i Hs ltac:(lia))).

Lemma slot_large l i : slot l i -> 5 <= l -> 0 <= i < 2 ^ l.
Proof. intros [[_ ?] | [-> _]] ?; lia. Qed.

Lemma slot_sibling l i : slot l i -> l = 0 \/ in_level l i -> slot l (sibling i).
Proof.
  intros [[Hl Hi] | [-> ->]] _; [| left; done]. unfold sibling. destruct (Z.even i) eqn:E.
  - destruct (Z.eq_dec l 0) as [-> |].
    { right. simpl in Hi. lia. }
    left. split; [done |]. assert (2 ^ l = 2 * 2 ^ (l - 1)) by (rewrite <- Z.pow_succ_r by lia; f_equal; lia).
    pose proof (Zmod_even i) as Em. rewrite E in Em. pose proof (Z.div_mod i 2). lia.
  - left. split; [done |]. pose proof (Zmod_even i) as Em. rewrite E in Em.
    assert (i <> 0) by (intros ->; done). lia.
Qed.

Lemma highlight_pos l i : slot l i -> l <= max_level -> highlight l i = 2 ^ pos l i.
Proof.
  intros Hs Hl. destruct (Z.ltb_spec l 5) as [H5 | H5].
  - small_slot (fun l i => highlight l i =? 2 ^ pos l i) l i Hs.
  - unfold highlight, pos. zcases; try lia. apply shl_pow2.
Qed.

Lemma pos_range l i : slot l i -> 0 <= pos l i < 32.
Proof.
  intros Hs. destruct (Z.ltb_spec l 5) as [H5 | H5].
  - assert ((0 <=? pos l i) && (pos l i <? 32) = true) as H.
    { exact (small_slots (fun l i => (0 <=? pos l i) && (pos l i <? 32)) eq_refl l i Hs H5). }
    apply andb_true_iff in H as [H1 H2]. lia.
  - unfold pos. zcases; try lia. apply Z.mod_pos_bound. lia.
Qed.

Lemma sibling_half k c : 0 <= c <= 1 -> sibling (2 * k + c) = 2 * k + (1 - c).
Proof.
  intros Hc. destruct (half_cases (2 * k + c)) as (d & Hd & E1 & ->).
  assert ((2 * k + c) / 2 = k) as E by (rewrite Z.add_comm, Z.mul_comm, Z.div_add, Z.div_small; lia). lia.
Qed.

Lemma sibling_word i : sibling i / 32 = i / 32 /\ sibling i mod 32 = sibling (i mod 32).
Proof.
  destruct (half_cases i) as (c & Hc & E1 & ->). rewrite E1 at 2 4.
  set (k := i / 2). pose proof (Z.div_mod k 16 ltac:(lia)) as Ek. pose proof (Z.mod_pos_bound k 16 ltac:(lia)).
  assert (forall d, 0 <= d <= 1 -> (2 * k + d) / 32 = k / 16 /\ (2 * k + d) mod 32 = 2 * (k mod 16) + d) as H1.
  { intros d Hd. split; symmetry; [apply (Z.div_unique _ _ _ (2 * (k mod 16) + d)) | apply (Z.mod_unique _ _ (k / 16))]; lia. }
  destruct (H1 c Hc) as [-> ->]. destruct (H1 (1 - c) ltac:(lia)) as [-> ->]. by rewrite sibling_half.
Qed.

Lemma pos_sibling l i : slot l i -> pos l (sibling i) = sibling (pos l i).
Proof.
  intros Hs. destruct (Z.ltb_spec l 5) as [H5 | H5].
  - small_slot (fun l i => pos l (sibling i) =? sibling (pos l i)) l i Hs.
  - unfold pos. zcases; try lia. apply sibling_word.
Qed.

Lemma wordn_sibling l i : wordn l (sibling i) = wordn l i.
Proof. unfold wordn. zcases; [done |]. f_equal. apply sibling_word. Qed.

Lemma real_index_wordn l i : slot l i -> l <= max_level -> real_index l i = wordn l i.
Proof.
  intros Hs Hl. unfold real_index, wordn, max_level in *. zcases; try lia.
  rewrite shl_pow2_small, Z.shiftr_div_pow2 by lia. done.
Qed.

(** The level of the blocks stored in a word of the second part. *)
Lemma wordn_range l i : slot l i -> 5 <= l -> 2 ^ (l - 5) <= wordn l i < 2 ^ (l - 4).
Proof.
  intros Hs Hl. pose proof (slot_large l i Hs Hl) as Hi. unfold wordn. zcases; [lia |].
  assert (2 ^ l = 32 * 2 ^ (l - 5)) as E.
  { replace l with (5 + (l - 5)) at 1 by lia. rewrite Z.pow_add_r by lia. done. }
  assert (2 ^ (l - 4) = 2 * 2 ^ (l - 5)) as E2 by (rewrite <- Z.pow_succ_r by lia; f_equal; lia).
  pose proof (Z.div_pos i 32). assert (i / 32 < 2 ^ (l - 5)) by (apply Z.div_lt_upper_bound; lia). lia.
Qed.

Lemma wordn_bound D l i : slot l i -> l <= D -> 4 <= D -> 0 <= wordn l i < 2 ^ (D - 4).
Proof.
  intros Hs Hl HD. destruct (Z.ltb_spec l 5) as [H5 | H5].
  - assert (wordn l i = 0) as -> by (unfold wordn; zcases; lia).
    pose proof (Z.pow_pos_nonneg 2 (D - 4)). lia.
  - pose proof (wordn_range l i Hs H5). pose proof (Z.pow_le_mono_r 2 (l - 4) (D - 4)).
    pose proof (Z.pow_pos_nonneg 2 (l - 5)). lia.
Qed.

(** Distinct blocks have distinct bits. *)
Lemma place_inj l i l' i' :
  slot l i -> slot l' i' -> wordn l i = wordn l' i' -> pos l i = pos l' i' -> l = l' /\ i = i'.
Proof.
  intros Hs Hs' Hw Hp.
  destruct (Z.ltb_spec l 5) as [H5 | H5], (Z.ltb_spec l' 5) as [H5' | H5'].
  - assert (forallb (fun l' => forallb (fun i' => negb (pos l i =? pos l' i') || ((l =? l') && (i =? i')))
      (seqZ 0 (if l' =? 0 then 2 else 2 ^ l'))) (seqZ 0 5) = true) as H.
    { exact (small_slots (fun l i => forallb (fun l' => forallb (fun i' => negb (pos l i =? pos l' i')
        || ((l =? l') && (i =? i'))) (seqZ 0 (if l' =? 0 then 2 else 2 ^ l'))) (seqZ 0 5)) eq_refl l i Hs H5). }
    rewrite forallb_forall in H. specialize (H l').
    rewrite <- list_elem_of_In, elem_of_seqZ, forallb_forall in H.
    specialize (H ltac:(destruct Hs' as [[? ?] | [-> ->]]; lia) i').
    rewrite <- list_elem_of_In, elem_of_seqZ in H.
    specialize (H ltac:(destruct Hs' as [[? ?] | [-> ->]]; zcases; subst; simpl in *; lia)).
    rewrite Hp, Z.eqb_refl in H. simpl in H. apply andb_true_iff in H. lia.
  - pose proof (wordn_range l' i' Hs' H5'). pose proof (Z.pow_pos_nonneg 2 (l' - 5)).
    assert (wordn l i = 0) by (unfold wordn; zcases; lia). lia.
  - pose proof (wordn_range l i Hs H5). pose proof (Z.pow_pos_nonneg 2 (l - 5)).
    assert (wordn l' i' = 0) by (unfold wordn; zcases; lia). lia.
  - pose proof (wordn_range l i Hs H5). pose proof (wordn_range l' i' Hs' H5').
    assert (l = l') as ->.
    { destruct (Z.lt_trichotomy l l') as [Hlt | [-> | Hlt]]; [| done |].
      - pose proof (Z.pow_le_mono_r 2 (l - 4) (l' - 5)). lia.
      - pose proof (Z.pow_le_mono_r 2 (l' - 4) (l - 5)). lia. }
    split; [done |]. unfold wordn, pos in *. revert Hw Hp. zcases; [lia |]. intros Hw Hp.
    pose proof (Z.div_mod i 32). pose proof (Z.div_mod i' 32). lia.
Qed.

Lemma sibling_pow2 p : 0 <= p < 32 ->
  (if Z.land (clz32 (2 ^ p)) 1 =? 0 then Z.shiftr (2 ^ p) 1 else u32 (Z.shiftl (2 ^ p) 1)) = 2 ^ sibling p.
Proof.
  intros Hp.
  enough (forallb (fun p => (if Z.land (clz32 (2 ^ p)) 1 =? 0 then Z.shiftr (2 ^ p) 1
    else u32 (Z.shiftl (2 ^ p) 1)) =? 2 ^ sibling p) (seqZ 0 32) = true) as H; [| reflexivity].
  rewrite forallb_forall in H. apply Z.eqb_eq, H. rewrite <- list_elem_of_In, elem_of_seqZ. lia.
Qed.

Lemma highlight_buddy_pos l i :
  slot l i -> l <= max_level -> highlight_buddy l i = 2 ^ pos l (sibling i).
Proof.
  intros Hs Hl. destruct (Z.ltb_spec l 5) as [H5 | H5].
  - small_slot (fun l i => highlight_buddy l i =? 2 ^ pos l (sibling i)) l i Hs.
  - rewrite pos_sibling by done. unfold highlight_buddy, pos.
    destruct (Z.ltb_spec l 4), (Z.ltb_spec l 5); try lia.
    rewrite shl_pow2, sibling_pow2 by (apply Z.mod_pos_bound; lia); done.
Qed.

(** * The state array as a tree *)

Record shape (D : Z) (ws : list Z) : Prop := {
  shape_depth : 4 <= D <= max_level;
  shape_length : Z.of_nat (length ws) = 2 ^ (D - 4);
  shape_words : Forall (fun w => 0 <= w < 2 ^ 32) ws }.

Definition word (ws : list Z) (n : Z) : Z := nth (Z.to_nat n) ws 0.

Lemma word_load D ws n : shape D ws -> 0 <= n < 2 ^ (D - 4) -> load ws n = Some (word ws n) /\ 0 <= word ws n < 2 ^ 32.
Proof.
  intros [_ Hlen Hw] Hn. rewrite load_lookup by lia. unfold word.
  destruct (lookup_lt_is_Some_2 ws (Z.to_nat n)) as [w E]; [lia |].
  rewrite (nth_lookup_Some _ _ _ _ E), E. split; [done |]. by eapply (Forall_lookup_1 _ _ _ _ Hw).
Qed.

(** Storing a word in place changes the bits of that word only. *)
Lemma word_store D ws n w :
  shape D ws -> 0 <= n < 2 ^ (D - 4) -> 0 <= w < 2 ^ 32 ->
  exists ws', store ws n w = Some ws' /\ shape D ws'
    /\ forall m, 0 <= m -> word ws' m = if m =? n then w else word ws m.
Proof.
  intros [HD Hlen Hw] Hn Hw'. rewrite store_insert by lia. eexists. split; [done |]. split.
  - constructor; [done | by rewrite length_insert | by apply Forall_insert].
  - intros m Hm. unfold word. rewrite !nth_lookup. destruct (Z.eqb_spec m n) as [-> |].
    + rewrite list_lookup_insert_eq by lia. done.
    + rewrite list_lookup_insert_ne by lia. done.
Qed.

(** Updating the bit of one block with a word that differs in that bit. *)
Lemma bit_store D ws l i w v :
  shape D ws -> slot l i -> l <= D -> 0 <= w < 2 ^ 32 ->
  (forall p, 0 <= p < 32 -> Z.testbit w p = if p =? pos l i then v else Z.testbit (word ws (wordn l i)) p) ->
  exists ws', store ws (wordn l i) w = Some ws' /\ shape D ws'
    /\ forall l' j, slot l' j -> l' <= D -> bit ws' l' j = if (l' =? l) && (j =? i) then v else bit ws l' j.
Proof.
  intros Hsh Hs HlD Hw Hbits. pose proof Hsh as [HD _ _].
  destruct (word_store D ws (wordn l i) w) as (ws' & E & Hsh' & Hget); [done | apply wordn_bound; done || lia | done |].
  exists ws'. split_and!; [done | done |]. intros l' j Hs' Hl'. unfold bit.
  change (nth (Z.to_nat ?n) ?x 0) with (word x n).
  rewrite Hget by (apply (wordn_bound D l' j); done || lia).
  destruct (Z.eqb_spec (wordn l' j) (wordn l i)) as [Ew | Ew].
  - rewrite Hbits by (by apply pos_range). destruct (Z.eqb_spec (pos l' j) (pos l i)) as [Ep | Ep].
    + destruct (place_inj l' j l i) as [-> ->]; try done. by rewrite !Z.eqb_refl.
    + destruct (Z.eqb_spec l' l) as [-> |]; [| by rewrite Ew]. destruct (Z.eqb_spec j i) as [-> |]; [done | by rewrite Ew].
  - destruct (Z.eqb_spec l' l) as [-> |]; [| done]. by destruct (Z.eqb_spec j i) as [-> |].
Qed.

Lemma bit_clear D ws l i :
  shape D ws -> slot l i -> l <= D -> bit ws l i = true ->
  exists ws', store ws (wordn l i) (u32 (word ws (wordn l i) - 2 ^ pos l i)) = Some ws' /\ shape D ws'
    /\ forall l' j, slot l' j -> l' <= D -> bit ws' l' j = bit ws l' j && negb ((l' =? l) && (j =? i)).
Proof.
  intros Hsh Hs HlD Hb. pose proof Hsh as [HD _ _]. pose proof (pos_range l i Hs) as Hp.
  destruct (word_load D ws (wordn l i)) as [_ Hw]; [done | apply wordn_bound; done || lia |].
  assert (word ws (wordn l i) - 2 ^ pos l i = Z.ldiff (word ws (wordn l i)) (2 ^ pos l i)) as E.
  { apply Z.sub_nocarry_ldiff. bitwise k Hk. rewrite Z.ldiff_spec, testbit_pow2, Z.bits_0 by lia.
    destruct (Z.eqb_spec k (pos l i)) as [-> |]; [| done]. unfold bit in Hb. unfold word. by rewrite Hb. }
  assert (0 <= Z.ldiff (word ws (wordn l i)) (2 ^ pos l i) < 2 ^ 32) as Hr.
  { apply bits_range; [lia | apply Z.ldiff_nonneg; lia |]. intros k Hk.
    rewrite Z.ldiff_spec, (testbit_high 32) by done. done. }
  rewrite E, wrap_small by done.
  destruct (bit_store D ws l i (Z.ldiff (word ws (wordn l i)) (2 ^ pos l i)) false) as (ws' & Est & Hsh' & Hbit);
    [done .. | |].
  { intros p Hpr. rewrite testbit_clear by lia. destruct (p =? pos l i); [apply andb_false_r | apply andb_true_r]. }
  exists ws'. split_and!; [done | done |]. intros l' j Hs' Hl'. rewrite Hbit by done.
  destruct ((l' =? l) && (j =? i)); [by rewrite andb_false_r | by rewrite andb_true_r].
Qed.

Lemma bit_set D ws l i :
  shape D ws -> slot l i -> l <= D ->
  exists ws', store ws (wordn l i) (Z.lor (word ws (wordn l i)) (2 ^ pos l i)) = Some ws' /\ shape D ws'
    /\ word ws' (wordn l i) = Z.lor (word ws (wordn l i)) (2 ^ pos l i)
    /\ forall l' j, slot l' j -> l' <= D -> bit ws' l' j = bit ws l' j || ((l' =? l) && (j =? i)).
Proof.
  intros Hsh Hs HlD. pose proof Hsh as [HD _ _]. pose proof (pos_range l i Hs) as Hp.
  destruct (word_load D ws (wordn l i)) as [_ Hw]; [done | apply wordn_bound; done || lia |].
  assert (0 <= Z.lor (word ws (wordn l i)) (2 ^ pos l i) < 2 ^ 32) as Hr.
  { apply lor_range; [lia | done |]. split; [apply Z.pow_nonneg; lia | apply Z.pow_lt_mono_r; lia]. }
  destruct (bit_store D ws l i (Z.lor (word ws (wordn l i)) (2 ^ pos l i)) true) as (ws' & Est & Hsh' & Hbit);
    [done .. | |].
  { intros p Hpr. rewrite testbit_set by lia. destruct (p =? pos l i); [apply orb_true_r | apply orb_false_r]. }
  exists ws'. split_and!; [done | done | |].
  - pose proof (wordn_bound D l i Hs HlD ltac:(lia)).
    rewrite store_insert in Est by (destruct Hsh as [_ -> _]; done). injection Est as <-.
    unfold word. rewrite nth_lookup, list_lookup_insert_eq; [done |].
    destruct Hsh as [_ Hlen _]. lia.
  - intros l' j Hs' Hl'. rewrite Hbit by done.
    destruct ((l' =? l) && (j =? i)); [by rewrite orb_true_r | by rewrite orb_false_r].
Qed.


(** * Searching a free block *)

(** The pairs with exactly one bit set show at their odd position. *)
Lemma tmp_bit loaded p :
  0 <= loaded < 2 ^ 32 -> 0 <= p < 32 ->
  Z.testbit (Z.land (Z.lxor (u32 (Z.shiftl loaded 1)) loaded) 0xAAAAAAAA) p
  = Z.odd p && xorb (Z.testbit loaded (p - 1)) (Z.testbit loaded p).
Proof.
  intros Hl Hp. rewrite Z.land_spec, Z.lxor_spec, testbit_wrap, Z.shiftl_spec by lia.
  destruct (Z.ltb_spec p 32); [| lia]. rewrite andb_true_l, andb_comm. f_equal.
  enough (forallb (fun p => eqb (Z.testbit 0xAAAAAAAA p) (Z.odd p)) (seqZ 0 32) = true) as H1; [| reflexivity].
  rewrite forallb_forall in H1. apply eqb_prop, H1. rewrite <- list_elem_of_In, elem_of_seqZ. lia.
Qed.

Lemma tmp_range loaded : 0 <= Z.land (Z.lxor (u32 (Z.shiftl loaded 1)) loaded) 0xAAAAAAAA < 2 ^ 32.
Proof. apply land_range_r; lia. Qed.

(** The index of the bit of odd position [p], in bitfield [n] of the level. *)
Definition index_at (l n p : Z) : Z := if l <? 5 then p - (32 - 2 ^ (l + 1)) else 32 * n + p.

(** Position [p] of bitfield [n] of level [l] is in use, as the first or the
    second of a pair. *)
Definition used (l p : Z) : bool := Z.testbit (level_mask l) p || Z.testbit (level_mask l) (p - 1).

Definition first_word (l : Z) : Z := if l <? 5 then 0 else 2 ^ (l - 5).

Definition in_bitfields (l n : Z) : Prop := if l <? 5 then n = 0 else 0 <= n < 2 ^ (l - 5).

(** A check over the positions of the first five levels. *)
Lemma small_positions (f : Z -> Z -> bool) :
  forallb (fun l => forallb (f l) (seqZ 0 32)) (seqZ 0 5) = true ->
  forall l p, 0 <= l < 5 -> 0 <= p < 32 -> f l p = true.
Proof.
  rewrite forallb_forall. intros H l p Hl Hp. specialize (H l).
  rewrite <- list_elem_of_In, elem_of_seqZ, forallb_forall in H.
  apply H; [lia |]. rewrite <- list_elem_of_In, elem_of_seqZ. lia.
Qed.

Definition slotb (l i : Z) : bool := (0 <=? i) && (i <? (if l =? 0 then 2 else 2 ^ l)).

Lemma slotb_slot l i : 0 <= l -> slotb l i = true -> slot l i.
Proof.
  intros Hl. unfold slotb. rewrite andb_true_iff, Z.leb_le, Z.ltb_lt.
  destruct (Z.eqb_spec l 0) as [-> |]; intros [H1 H2].
  - assert (i = 0 \/ i = 1) as [-> | ->] by lia; [left; by split | by right].
  - left. done.
Qed.

(** An odd position in use is the bit of a block, second of its pair. *)
Lemma index_at_slot l n p :
  0 <= l <= max_level -> in_bitfields l n -> 0 <= p < 32 -> Z.odd p = true -> used l p = true ->
  let i := index_at l n p in
  slot l i /\ wordn l i = n + first_word l /\ pos l i = p /\ sibling i = i - 1.
Proof.
  intros Hl Hn Hp Ho Hu i. unfold i, index_at, wordn, pos, first_word, in_bitfields in *.
  destruct (Z.ltb_spec l 5) as [H5 | H5].
  - pose proof (small_positions (fun l p => negb (Z.odd p && used l p)
      || (slotb l (p - (32 - 2 ^ (l + 1))) && (sibling (p - (32 - 2 ^ (l + 1))) =? p - (32 - 2 ^ (l + 1)) - 1)))
      eq_refl l p ltac:(lia) Hp) as H.
    cbn beta in H. rewrite Ho, Hu in H. cbn [andb negb orb] in H.
    apply andb_true_iff in H as [H1 H2]. apply Z.eqb_eq in H2.
    split_and!; [apply slotb_slot; [lia | done] | lia | lia | done].
  - assert (2 ^ l = 32 * 2 ^ (l - 5)) as E.
    { replace l with (5 + (l - 5)) at 1 by lia. rewrite Z.pow_add_r by lia. done. }
    split_and!.
    + left. split; [lia |]. rewrite E. lia.
    + rewrite Z.mul_comm, Z.div_add_l, (Z.div_small p) by lia. lia.
    + rewrite Z.add_comm, Z.mul_comm, Z.mod_add, Z.mod_small; lia.
    + unfold sibling. assert (Z.even (32 * n + p) = false) as ->; [| done].
      pose proof (Z.negb_odd p) as Ep. rewrite Ho in Ep. by rewrite Z.even_add, Z.even_mul, <- Ep.
Qed.


Lemma masked_bit ws l i :
  slot l i -> l <= max_level -> bit ws 0 1 = false ->
  Z.testbit (Z.land (word ws (wordn l i)) (level_mask l)) (pos l i) = bit ws l i.
Proof.
  intros Hs Hl Hg. rewrite Z.land_spec. unfold bit at 1. change (nth (Z.to_nat ?n) ?x 0) with (word x n).
  destruct Hs as [Hi | [-> ->]]; [| unfold bit in Hg; unfold word; simpl in *; by rewrite Hg].
  assert (Z.testbit (level_mask l) (pos l i) = true) as ->; [| apply andb_true_r].
  assert (slot l i) as Hs by (by left). destruct (Z.ltb_spec l 5) as [H5 | H5].
  - pose proof (small_slots (fun l i => ((l =? 0) && (i =? 1)) || Z.testbit (level_mask l) (pos l i)) eq_refl l i Hs H5) as H.
    cbn beta in H. apply orb_true_iff in H as [H | H]; [| done].
    apply andb_true_iff in H as [H1 H2]. apply Z.eqb_eq in H1, H2. subst. destruct Hi. lia.
  - assert (level_mask l = Z.ones 32) as ->.
    { unfold level_mask. destruct l as [| p | p]; try lia. do 3 (destruct p; try lia; try done). }
    apply Z.ones_spec_low. by apply pos_range.
Qed.

(** A bit left by the mask is of a position in use. *)
Lemma masked_used w l p : 0 <= p -> Z.odd p = true ->
  xorb (Z.testbit (Z.land w (level_mask l)) (p - 1)) (Z.testbit (Z.land w (level_mask l)) p) = true -> used l p = true.
Proof.
  intros Hp Ho. rewrite !Z.land_spec. unfold used.
  destruct (Z.testbit (level_mask l) p), (Z.testbit (level_mask l) (p - 1)); rewrite ?andb_false_r; done.
Qed.

Lemma odd_sibling p : Z.odd p = true -> sibling p = p - 1.
Proof. intros Ho. unfold sibling. rewrite <- Z.negb_odd, Ho. done. Qed.

Lemma level_mask_range l : 0 <= level_mask l < 2 ^ 32.
Proof. unfold level_mask. destruct l as [| p | p]; try lia. do 3 (destruct p; try lia). Qed.

Definition start_index (l n : Z) : Z := if l <? 5 then 2 ^ l else 32 * (n + 1).

(** The index computed from the leading zeros. *)
Lemma index_computed l n p :
  0 <= l <= max_level -> in_bitfields l n -> 0 <= p < 32 -> Z.odd p = true -> used l p = true ->
  (if l <? 5 then u32 (u32 (start_index l n - (31 - p) - 1) + shl 1 l)
   else u32 (start_index l n - (31 - p) - 1)) = index_at l n p.
Proof.
  intros Hl Hn Hp Ho Hu. destruct (index_at_slot l n p Hl Hn Hp Ho Hu) as (Hs & Hw & _).
  unfold index_at, start_index, in_bitfields, max_level in *. destruct (Z.ltb_spec l 5) as [H5 | H5].
  - pose proof (small_positions (fun l p => negb (Z.odd p && used l p)
      || (u32 (u32 (2 ^ l - (31 - p) - 1) + shl 1 l) =? p - (32 - 2 ^ (l + 1)))) eq_refl l p ltac:(lia) Hp) as H.
    cbn beta in H. rewrite Ho, Hu in H. by apply Z.eqb_eq in H.
  - replace (32 * (n + 1) - (31 - p) - 1) with (32 * n + p) by lia. apply wrap_small.
    assert (2 ^ (l - 5) <= 2 ^ 21) by (apply Z.pow_le_mono_r; lia). lia.
Qed.

(** What [pick] finds in one bitfield. *)
Lemma pick_spec D ws l n :
  shape D ws -> 0 <= l <= D -> in_bitfields l n -> bit ws 0 1 = false ->
  let w := word ws (n + first_word l) in
  match pick l (Z.land w (level_mask l)) (start_index l n) with
  | Some (target, i) => in_level l i /\ wordn l i = n + first_word l /\ target = 2 ^ pos l i /\ free (bit ws) l i
  | None => forall i, slot l i -> wordn l i = n + first_word l -> ~ free (bit ws) l i
  end.
Proof.
  intros Hsh Hl Hn Hg w. pose proof Hsh as [HD _ _]. assert (l <= max_level) as HlM by lia. unfold pick.
  set (loaded := Z.land w (level_mask l)).
  assert (0 <= loaded < 2 ^ 32) as Hlr by (apply land_range_r; [lia | apply level_mask_range]).
  pose proof (tmp_range loaded) as Htr. pose proof (fun p Hp => tmp_bit loaded p Hlr Hp) as Htb.
  set (tmp := Z.land (Z.lxor _ _) _) in *.
  destruct (Z.eqb_spec tmp 0) as [E0 | E0].
  - intros i Hs Hw [Hb1 Hb2].
    assert (Z.testbit loaded (pos l i) = bit ws l i) as E1.
    { rewrite <- masked_bit by done. by rewrite Hw. }
    assert (Z.testbit loaded (sibling (pos l i)) = bit ws l (sibling i)) as E2.
    { rewrite <- pos_sibling by done. rewrite <- masked_bit; [| | done | done].
      - by rewrite wordn_sibling, Hw.
      - destruct Hs as [Hi | [-> ->]]; [apply slot_sibling; [by left | by right] | left; done]. }
    pose proof (pos_range l i Hs) as Hp. destruct (Z.odd (pos l i)) eqn:Ho.
    + specialize (Htb (pos l i) Hp). rewrite E0, Z.bits_0, Ho in Htb.
      rewrite (odd_sibling _ Ho) in E2. rewrite E1, E2, Hb1, Hb2 in Htb. done.
    + assert (sibling (pos l i) = pos l i + 1) as Es by (unfold sibling; by rewrite <- Z.negb_odd, Ho).
      rewrite Es in E2. assert (Z.odd (pos l i + 1) = true) as Ho'.
      { rewrite Z.odd_add, Ho. done. }
      assert (pos l i + 1 < 32) by (destruct (Z.eq_dec (pos l i) 31) as [E31 |]; [rewrite E31 in Ho; done | lia]).
      specialize (Htb (pos l i + 1) ltac:(lia)). rewrite E0, Z.bits_0, Ho' in Htb.
      replace (pos l i + 1 - 1) with (pos l i) in Htb by lia. rewrite E1, E2, Hb1, Hb2 in Htb. done.
  - set (p := Z.log2 tmp). assert (0 <= p < 32) as Hp.
    { split; [apply Z.log2_nonneg |]. apply Z.log2_lt_pow2; lia. }
    assert (Z.testbit tmp p = true) as Ht by (apply Z.bit_log2; lia).
    rewrite Htb in Ht by done. apply andb_true_iff in Ht as [Ho Hx].
    assert (used l p = true) as Hu by (apply (masked_used w); [lia | done | done]).
    assert (clz32 tmp = 31 - p) as -> by (unfold clz32; zcases; [lia | done]).
    cbn zeta. rewrite (index_computed l n p) by (done || lia).
    destruct (index_at_slot l n p) as (Hs & Hw & Hpp & Hsib); [lia | done .. |].
    set (i := index_at l n p) in *. rewrite (highlight_pos l i), Hpp by done.
    assert (slot l (sibling i)) as Hs'.
    { destruct Hs as [Hi | [E1 E2]]; [apply slot_sibling; [by left | by right] |].
      rewrite E1, E2. left. done. }
    pose proof (masked_bit ws l i Hs HlM Hg) as Hm. rewrite Hw, Hpp in Hm. fold w loaded in Hm.
    pose proof (masked_bit ws l (sibling i) Hs' HlM Hg) as Hm'.
    rewrite wordn_sibling, Hw, pos_sibling, Hpp, (odd_sibling p Ho) in Hm' by done. fold w loaded in Hm'.
    rewrite land_pow2_eqb by lia. rewrite Hm, Hm' in Hx.
    rewrite Hm. destruct (bit ws l i) eqn:Eb; simpl.
    + assert (bit ws l (sibling i) = false) as Eb' by (by destruct (bit ws l (sibling i))).
      split_and!; [| done | by rewrite Hpp | by split].
      destruct Hs as [Hi | [-> E2]]; [done |]. rewrite E2, Hg in Eb. done.
    + assert (bit ws l (sibling i) = true) as Eb' by (by destruct (bit ws l (sibling i))).
      rewrite <- Hsib. split_and!.
      * destruct Hs' as [Hi | [E1 E2]]; [done |]. rewrite E1, E2, Hg in Eb'. done.
      * by rewrite wordn_sibling.
      * rewrite pos_sibling, Hpp, (odd_sibling p Ho) by done. rewrite Z.shiftr_div_pow2 by lia.
        rewrite <- Z.pow_sub_r by (destruct (Z.eq_dec p 0) as [E |]; [rewrite E in Ho; done | lia]). done.
      * split; [done |]. assert (sibling (sibling i) = i) as ->; [| done].
        rewrite Hsib. destruct (half_cases i) as (c & Hc & E1 & E2). rewrite <- Hsib, E2, sibling_half by lia. lia.
Qed.

Lemma shiftr_level l : 0 <= l <= max_level -> Z.shiftr (shl 1 l) 5 = first_word l.
Proof.
  unfold max_level. intros Hl. rewrite shl_pow2_small, Z.shiftr_div_pow2 by lia. unfold first_word.
  destruct (Z.ltb_spec l 5).
  - apply Z.div_small. split; [apply Z.pow_nonneg; lia | apply Z.pow_lt_mono_r; lia].
  - rewrite <- Z.pow_sub_r by lia. done.
Qed.

Lemma initial_bitfield_count l : 0 <= l <= max_level ->
  initial_bitfield l + 1 = (if l <? 5 then 1 else 2 ^ (l - 5)).
Proof.
  intros Hl. destruct (Z.ltb_spec l 5) as [H5 | H5].
  - assert (l = 0 \/ l = 1 \/ l = 2 \/ l = 3 \/ l = 4) as H by lia. by destruct_or! H; subst.
  - assert (initial_bitfield l = Z.shiftr (shl 1 l) 5 - 1) as ->.
    { unfold initial_bitfield. destruct l as [| p | p]; try lia. do 3 (destruct p; try lia; try done). }
    rewrite shiftr_level by done. unfold first_word. zcases; lia.
Qed.

Lemma wordn_first l i : slot l i -> 0 <= l -> first_word l <= wordn l i < first_word l + (if l <? 5 then 1 else 2 ^ (l - 5)).
Proof.
  intros Hs Hl. unfold first_word. destruct (Z.ltb_spec l 5) as [H5 | H5].
  - unfold wordn. zcases; lia.
  - pose proof (wordn_range l i Hs H5).
    assert (2 ^ (l - 4) = 2 * 2 ^ (l - 5)) by (rewrite <- Z.pow_succ_r by lia; f_equal; lia). lia.
Qed.

Lemma scan_spec D ws l n index :
  shape D ws -> 0 <= l <= D -> bit ws 0 1 = false ->
  Z.of_nat n <= (if l <? 5 then 1 else 2 ^ (l - 5)) ->
  (n <> O -> index = start_index l (Z.of_nat n - 1)) ->
  exists r, scan n ws l index = Some r /\
  match r with
  | Some (address, target, i) =>
      in_level l i /\ wordn l i = address /\ target = 2 ^ pos l i /\ free (bit ws) l i
  | None => forall i, slot l i -> wordn l i < Z.of_nat n + first_word l -> ~ free (bit ws) l i
  end.
Proof.
  intros Hsh Hl Hg. pose proof Hsh as [HD _ _]. revert index.
  induction n as [| n IH]; intros index Hn Hi; cbn [scan].
  { eexists. split; [done |]. intros i Hs Hw. pose proof (wordn_first l i Hs). lia. }
  assert (in_bitfields l (Z.of_nat n)) as Hb by (unfold in_bitfields; revert Hn; zcases; lia).
  rewrite shiftr_level by (unfold max_level in *; lia).
  assert (0 <= Z.of_nat n + first_word l < 2 ^ (D - 4)) as Hr.
  { unfold first_word. revert Hn. destruct (Z.ltb_spec l 5); intros Hn.
    - pose proof (Z.pow_pos_nonneg 2 (D - 4)). lia.
    - assert (2 ^ (l - 4) = 2 * 2 ^ (l - 5)) by (rewrite <- Z.pow_succ_r by lia; f_equal; lia).
      pose proof (Z.pow_le_mono_r 2 (l - 4) (D - 4)). pose proof (Z.pow_pos_nonneg 2 (l - 5)). lia. }
  destruct (word_load D ws _ Hsh Hr) as [-> _]. cbn [mbind option_bind].
  rewrite Hi by done. replace (Z.of_nat (S n) - 1) with (Z.of_nat n) by lia.
  pose proof (pick_spec D ws l (Z.of_nat n) Hsh Hl Hb Hg) as Hp. cbn zeta in Hp.
  destruct (pick l _ _) as [[t i] |].
  { eexists. split; [done |]. cbn. tauto. }
  destruct (IH (u32 (start_index l (Z.of_nat n) - 32))) as (r & -> & Hr'); [lia | |].
  { intros Hn0. unfold start_index. destruct (Z.ltb_spec l 5) as [H5 | H5]; [lia |].
    replace (32 * (Z.of_nat n + 1) - 32) with (32 * (Z.of_nat n - 1 + 1)) by lia. apply wrap_small.
    assert (2 ^ (l - 5) <= 2 ^ 21) by (apply Z.pow_le_mono_r; unfold max_level in *; lia). lia. }
  exists r. split; [done |]. destruct r as [[[a t] i] |]; [done |].
  intros i Hs Hw. destruct (Z.eq_dec (wordn l i) (Z.of_nat n + first_word l)) as [E |].
  - by apply Hp.
  - apply Hr'; [done | lia].
Qed.

Lemma search_spec D ws n :
  shape D ws -> Z.of_nat n <= D + 1 -> bit ws 0 1 = false ->
  exists r, search n ws = Some r /\
  match r with
  | Some (l, address, target, i) =>
      0 <= l < Z.of_nat n /\ in_level l i /\ wordn l i = address /\ target = 2 ^ pos l i /\ free (bit ws) l i
  | None => forall l i, 0 <= l < Z.of_nat n -> slot l i -> ~ free (bit ws) l i
  end.
Proof.
  intros Hsh Hn Hg. pose proof Hsh as [HD _ _]. induction n as [| n IH]; cbn [search].
  { exists None. split; [done |]. intros l i Hl. lia. }
  assert (0 <= Z.of_nat n <= max_level) as Hl by lia.
  pose proof (initial_bitfield_count _ Hl) as Hc.
  assert (0 < (if Z.of_nat n <? 5 then 1 else 2 ^ (Z.of_nat n - 5))) by (zcases; [lia | apply Z.pow_pos_nonneg; lia]).
  destruct (scan_spec D ws (Z.of_nat n) (Z.to_nat (initial_bitfield (Z.of_nat n) + 1)) (shl 1 (Z.of_nat n)))
    as (r & -> & Hr); [done | lia | done | lia | |].
  { intros _. rewrite Hc, Z2Nat.id by lia. unfold start_index, max_level in *. rewrite shl_pow2_small by lia.
    destruct (Z.ltb_spec (Z.of_nat n) 5); [done |].
    replace (Z.of_nat n) with (5 + (Z.of_nat n - 5)) at 1 by lia. rewrite Z.pow_add_r by lia. lia. }
  cbn [mbind option_bind]. destruct r as [[[a t] i] |].
  - eexists. split; [done |]. cbn. split; [lia |]. tauto.
  - destruct IH as (r & -> & Hr'); [lia |]. exists r. split; [done |].
    destruct r as [[[[l a] t] i] |]; [split; [lia | tauto] |].
    intros l i Hli Hs. destruct (Z.eq_dec l (Z.of_nat n)) as [-> |]; [| apply Hr'; [lia | done]].
    apply Hr; [done |]. pose proof (wordn_first (Z.of_nat n) i Hs). lia.
Qed.

Lemma descend_spec D n ws l i :
  shape D ws -> 0 <= l -> in_level l i -> l + Z.of_nat n <= D ->
  (forall k, l < k <= l + Z.of_nat n -> bit ws k (i * 2 ^ (k - l)) = true) ->
  exists ws', descend n ws (l + 1) i = Some (ws', i * 2 ^ Z.of_nat n) /\ shape D ws'
    /\ forall l' j, slot l' j -> l' <= D ->
       bit ws' l' j = bit ws l' j && negb (on_chain (l + 1) (l + Z.of_nat n) (i * 2 ^ Z.of_nat n) l' j).
Proof.
  revert ws l i. induction n as [| n IH]; intros ws l i Hsh Hl Hi HD Hb; cbn [descend].
  { exists ws. split_and!; [do 2 f_equal; lia | done |]. intros l' j _ _.
    destruct (on_chain _ _ _ l' j) eqn:E; [apply on_chain_spec in E; lia | by rewrite andb_true_r]. }
  pose proof Hsh as [HD' _ _]. unfold max_level in HD'.
  assert (in_level (l + 1) (2 * i)) as Hi2.
  { pose proof (in_level_half l i 0 Hi ltac:(lia)) as H. by rewrite Z.add_0_r in H. }
  assert (u32 (Z.shiftl i 1) = 2 * i) as ->.
  { rewrite Z.shiftl_mul_pow2 by lia. replace (i * 2 ^ 1) with (2 * i) by lia. apply wrap_small.
    destruct Hi2 as [_ Hi2]. pose proof (Z.pow_le_mono_r 2 (l + 1) 32). lia. }
  assert (slot (l + 1) (2 * i)) as Hs by (by left).
  rewrite real_index_wordn, highlight_pos by (done || unfold max_level; lia).
  destruct (word_load D ws (wordn (l + 1) (2 * i))) as [-> _]; [done | apply wordn_bound; done || lia |].
  cbn [mbind option_bind].
  destruct (bit_clear D ws (l + 1) (2 * i)) as (ws1 & -> & Hsh1 & Hb1); [done | done | lia | |].
  { specialize (Hb (l + 1) ltac:(lia)). replace (l + 1 - l) with 1 in Hb by lia.
    by replace (2 * i) with (i * 2 ^ 1) by lia. }
  cbn [mbind option_bind].
  assert (forall k, l < k -> i * 2 ^ (k - l) = 2 * i * 2 ^ (k - (l + 1))) as Epow.
  { intros k Hk. replace (k - l) with (1 + (k - (l + 1))) by lia. rewrite Z.pow_add_r by lia. lia. }
  destruct (IH ws1 (l + 1) (2 * i)) as (ws2 & -> & Hsh2 & Hb2); [done | lia | done | lia | |].
  { intros k Hk. rewrite <- Epow by lia.
    assert (slot k (i * 2 ^ (k - l))) as Hk'.
    { left. destruct Hi as [_ Hi]. split; [lia |]. pose proof (Z.pow_pos_nonneg 2 (k - l)).
      split; [apply Z.mul_nonneg_nonneg; lia |].
      replace k with (l + (k - l)) at 2 by lia. rewrite Z.pow_add_r by lia. apply Z.mul_lt_mono_pos_r; lia. }
    rewrite Hb1 by (done || lia). rewrite Hb by lia.
    destruct (Z.eqb_spec k (l + 1)); [lia | done]. }
  assert (2 * i * 2 ^ Z.of_nat n = i * 2 ^ Z.of_nat (S n)) as E.
  { rewrite Nat2Z.inj_succ, Z.pow_succ_r by lia. lia. }
  exists ws2. rewrite E in *. split_and!; [done | done |].
  intros l' j Hs' Hl'. rewrite Hb2, Hb1, <- andb_assoc by done. f_equal. rewrite <- negb_orb. f_equal.
  replace (l + 1 + Z.of_nat n) with (l + Z.of_nat (S n)) by lia.
  apply eq_true_iff_eq. rewrite orb_true_iff, andb_true_iff, !Z.eqb_eq, !on_chain_spec.
  assert (up (l + 1) (l + Z.of_nat (S n)) (i * 2 ^ Z.of_nat (S n)) = 2 * i) as Eup.
  { unfold up. rewrite <- E. replace (l + Z.of_nat (S n) - (l + 1)) with (Z.of_nat n) by lia.
    apply Z.div_mul. apply Z.pow_nonzero; lia. }
  split.
  - intros [[-> ->] | [H1 H2]]; [split; [lia | done] | split; [lia | done]].
  - intros [H1 H2]. destruct (Z.eq_dec l' (l + 1)) as [-> |]; [left; by rewrite <- Eup | right; split; [lia | done]].
Qed.

(** * Allocation *)

Lemma popcount_pow2 k : 0 <= k -> popcount (2 ^ k) = 1.
Proof.
  intros Hk. pattern k. apply natlike_ind; [done | | done]. intros x Hx IH. rewrite Z.pow_succ_r by lia.
  destruct (2 ^ x) as [| p | p] eqn:E; try done; pose proof (Z.pow_pos_nonneg 2 x); lia.
Qed.

Lemma popcount_one x : 0 < x -> popcount x = 1 -> exists k, 0 <= k /\ x = 2 ^ k.
Proof.
  destruct x as [| p | p]; try lia. intros _. cbn [popcount]. induction p as [p IH | p IH |]; cbn [pos_popcount]; intros H.
  - pose proof (pos_popcount_pos p). lia.
  - destruct (IH H) as (k & Hk & E). exists (k + 1). split; [lia |]. rewrite Z.pow_add_r by lia. lia.
  - by exists 0.
Qed.

Lemma next_power_of_2_log2_up x : 0 < x -> next_power_of_2 x = Z.log2_up x.
Proof.
  intros Hx. unfold next_power_of_2, clz32. zcases; [lia | | lia |].
  - destruct (popcount_one x) as (k & Hk & ->); [done | done |].
    rewrite Z.log2_pow2, Z.log2_up_pow2 by lia. lia.
  - destruct (Z.eq_dec (Z.log2_up x) (Z.log2 x)) as [E | Hne].
    + symmetry in E. apply Z.log2_log2_up_exact in E as [k Hk]; [| done]. exfalso.
      assert (0 <= k) by (destruct (Z.ltb_spec k 0); [rewrite Z.pow_neg_r in Hk by done; lia | done]).
      rewrite Hk, popcount_pow2 in * by lia. lia.
    + pose proof (Z.le_log2_log2_up x). pose proof (Z.le_log2_up_succ_log2 x). lia.
Qed.

(** A heap ready for use. *)
Record wf (h : heap) : Prop := {
  wf_power : 8 <= max_power h <= 30;
  wf_size : size_of_heap h = 2 ^ max_power h;
  wf_levels : number_of_levels h = max_power h - 3;
  wf_start : 0 < heap_start h /\ heap_start h + 2 ^ max_power h <= 2 ^ 32 /\ heap_start h mod 8 = 0;
  wf_shape : shape (max_power h - 4) (blocks h);
  wf_bits : wf_tree (max_power h - 4) (bit (blocks h)) }.

(** The blocks of a heap: allocated, free for allocation, address and size. *)
Definition Allocated (h : heap) : Z -> Z -> Prop := allocated (max_power h - 4) (bit (blocks h)).
Definition Available (h : heap) : Z -> Z -> Prop := available (max_power h - 4) (bit (blocks h)).
Definition block_size (h : heap) (l : Z) : Z := 2 ^ (max_power h - l).
Definition address (h : heap) (l i : Z) : Z := heap_start h + i * block_size h l.

(** The level of the smallest blocks that hold [size] bytes. *)
Definition best_level (h : heap) (size l : Z) : Prop :=
  0 <= l <= max_power h - 4 /\ size <= block_size h l
  /\ (l = max_power h - 4 \/ block_size h (l + 1) < size).

Lemma blocks_level_best h size :
  wf h -> 0 < size <= size_of_heap h ->
  let l := max_power h - next_power_of_2 size in
  best_level h size (if number_of_levels h <=? l then number_of_levels h - 1 else l).
Proof.
  intros [HP Hsz Hlv _ _ _] Hs. rewrite Hsz in Hs. rewrite Hlv, next_power_of_2_log2_up by lia. cbn zeta.
  unfold best_level, block_size.
  pose proof (Z.log2_up_nonneg size) as H0.
  assert (Z.log2_up size <= max_power h) as H1 by (apply Z.log2_up_le_pow2; lia).
  assert (size <= 2 ^ Z.log2_up size) as H2 by (destruct (Z.eq_dec size 1) as [-> |]; [done | apply Z.log2_up_spec; lia]).
  destruct (Z.leb_spec (max_power h - 3) (max_power h - Z.log2_up size)) as [Hl | Hl].
  - split_and!; [lia | lia | | left; lia].
    pose proof (Z.pow_le_mono_r 2 (Z.log2_up size) (max_power h - (max_power h - 3 - 1))). lia.
  - split_and!; [lia | lia | by replace (max_power h - (max_power h - Z.log2_up size)) with (Z.log2_up size) by lia |].
    right. destruct (Z.log2_up_spec size) as [H3 _].
    { destruct (Z.eq_dec size 1) as [-> |]; [change (Z.log2_up 1) with 0 in Hl; lia | lia]. }
    by replace (max_power h - (max_power h - Z.log2_up size + 1)) with (Z.pred (Z.log2_up size)) by lia.
Qed.

(** Taking a free block of level [L] and cutting it down to level [l]. *)
Lemma take_spec D ws L i0 l :
  shape D ws -> wf_tree D (bit ws) -> 0 <= L <= l -> l <= D -> in_level L i0 -> free (bit ws) L i0 ->
  let i := i0 * 2 ^ (l - L) in
  exists ws1 ws2,
    load ws (wordn L i0) = Some (word ws (wordn L i0))
    /\ store ws (wordn L i0) (u32 (word ws (wordn L i0) - 2 ^ pos L i0)) = Some ws1
    /\ descend (Z.to_nat (l - L)) ws1 (L + 1) i0 = Some (ws2, i)
    /\ shape D ws2 /\ in_level l i /\ up L l i = i0
    /\ forall l' j, slot l' j -> l' <= D -> bit ws2 l' j = bit ws l' j && negb (on_chain L l i l' j).
Proof.
  intros Hsh W HL HlD Hi0 Hf i. pose proof Hsh as [HD _ _]. pose proof Hf as [Hb _].
  assert (slot L i0) as Hs by (by left).
  assert (forall k, L <= k <= l -> in_level k (i0 * 2 ^ (k - L)) /\ up L k (i0 * 2 ^ (k - L)) = i0) as Hlow.
  { intros k Hk. destruct Hi0 as [_ Hi0]. pose proof (Z.pow_pos_nonneg 2 (k - L)). split.
    - split; [lia |]. split; [apply Z.mul_nonneg_nonneg; lia |].
      replace k with (L + (k - L)) at 2 by lia. rewrite Z.pow_add_r by lia. apply Z.mul_lt_mono_pos_r; lia.
    - unfold up. apply Z.div_mul. lia. }
  destruct (word_load D ws (wordn L i0)) as [El _]; [done | apply wordn_bound; done || lia |].
  destruct (bit_clear D ws L i0) as (ws1 & Est & Hsh1 & Hb1); [done | done | lia | done |].
  destruct (descend_spec D (Z.to_nat (l - L)) ws1 L i0) as (ws2 & Ed & Hsh2 & Hb2); [done | lia | done | lia | |].
  { intros k Hk. rewrite Z2Nat.id in Hk by lia. destruct (Hlow k ltac:(lia)) as [Hk1 Hk2].
    rewrite Hb1 by (by left || lia). destruct (Z.eqb_spec k L); [lia |]. rewrite andb_true_r.
    apply (set_inside D (bit ws) W L i0); [lia | lia | done | split; [lia | done] | done]. }
  rewrite Z2Nat.id in * by lia. fold i in Ed, Hb2. replace (L + (l - L)) with l in Hb2 by lia.
  destruct (Hlow l ltac:(lia)) as [Hi1 Hi2]. fold i in Hi1, Hi2.
  exists ws1, ws2. split_and!; try done. intros l' j Hs' Hl'. rewrite Hb2, Hb1, <- andb_assoc by done.
  f_equal. rewrite <- negb_orb. f_equal. apply eq_true_iff_eq.
  rewrite orb_true_iff, andb_true_iff, !Z.eqb_eq, !on_chain_spec. split.
  - intros [[-> ->] | [H1 H2]]; split; [lia | done | lia | done].
  - intros [H1 H2]. destruct (Z.eq_dec l' L) as [-> |]; [left; split; [done | by rewrite H2] | right; split; [lia | done]].
Qed.

(** * Freeing *)

(** The bits the code tests, and the word they are in. *)
Lemma tests_spec D ws l i :
  shape D ws -> in_level l i -> l <= D ->
  load ws (real_index l i) = Some (word ws (wordn l i))
  /\ (Z.land (word ws (wordn l i)) (highlight l i) =? 0) = negb (bit ws l i)
  /\ (Z.land (word ws (wordn l i)) (highlight_buddy l i) =? 0) = negb (bit ws l (sibling i)).
Proof.
  intros Hsh Hi HlD. pose proof Hsh as [HD _ _]. assert (slot l i) as Hs by (by left).
  assert (slot l (sibling i)) as Hs' by (apply slot_sibling; [done | by right]).
  rewrite highlight_pos, highlight_buddy_pos, real_index_wordn by (done || lia).
  destruct (word_load D ws (wordn l i)) as [-> _]; [done | apply wordn_bound; done || lia |].
  rewrite !land_pow2_eqb by (by apply pos_range). split_and!; [done | done |].
  unfold bit. by rewrite wordn_sibling.
Qed.

Lemma search_up_spec D ws n i :
  shape D ws -> wf_tree D (bit ws) -> in_level D i -> Z.of_nat n <= D ->
  (forall k, Z.of_nat n < k <= D -> bit ws k (up k D i) = true /\ bit ws k (sibling (up k D i)) = true) ->
  exists r, search_up n ws (up (Z.of_nat n) D i) = Some r /\
  match r with
  | inl (index, c) =>
      exists l, 0 <= l <= D /\ index = up l D i
      /\ c = {| target_level := l; context_index := wordn l index; highlight_target_bit := 2 ^ pos l index;
                highlight_buddy_bit := 2 ^ pos l (sibling index) |}
      /\ (allocated D (bit ws) l index \/ (l = 0 /\ bit ws l index = true))
  | inr e => e = EINVAL /\ exists l, 0 < l <= D /\ free (bit ws) l (up l D i)
  end.
Proof.
  intros Hsh W Hi. pose proof Hsh as [HD _ _].
  assert (forall l, 0 <= l <= D -> in_level l (up l D i)) as Hin by (intros; by apply up_in_level).
  assert (forall l, 0 <= l <= D -> bit ws l (up l D i) = false ->
    (forall k, l < k <= D -> bit ws k (up k D i) = true /\ bit ws k (sibling (up k D i)) = true) ->
    allocated D (bit ws) l (up l D i)) as Hal.
  { intros l Hl Hb Hpath. split_and!; [by apply Hin | lia | done |].
    destruct (Z.eq_dec l D) as [-> |]; [by left | right].
    rewrite up_succ by (destruct Hi; lia). destruct (Hpath (l + 1) ltac:(lia)). by apply pair_halves. }
  induction n as [| n IH]; intros Hn Hpath.
  - cbn [search_up]. destruct (tests_spec D ws (Z.of_nat 0) (up (Z.of_nat 0) D i)) as (-> & E & _);
      [done | apply Hin; lia | lia |]. cbn [mbind option_bind]. rewrite E.
    rewrite highlight_pos, highlight_buddy_pos, real_index_wordn by (lia || left; apply Hin; lia).
    eexists. split; [cbn; by destruct (negb _) |]. exists 0. split_and!; [lia | lia | done | done |].
    destruct (bit ws 0 (up 0 D i)) eqn:Eb; [by right | left; apply Hal; [lia | done | done]].
  - cbn [search_up]. set (lv := Z.of_nat (S n)) in *.
    destruct (tests_spec D ws lv (up lv D i)) as (-> & E1 & E2); [done | apply Hin; lia | lia |].
    cbn [mbind option_bind]. rewrite E1, E2.
    rewrite highlight_pos, highlight_buddy_pos, real_index_wordn by (lia || left; apply Hin; lia).
    destruct (bit ws lv (up lv D i)) eqn:Eb; cbn [negb].
    2:{ eexists. split; [done |]. exists lv. split_and!; [lia | lia | done | done | left; apply Hal; [lia | done | done]]. }
    destruct (bit ws lv (sibling (up lv D i))) eqn:Es; cbn [negb].
    + rewrite Z.shiftr_div_pow2 by lia. change (2 ^ 1) with 2.
      assert (lv = Z.of_nat n + 1) as El by lia. rewrite El in *. rewrite <- up_succ by (destruct Hi; lia).
      apply IH; [lia |]. intros k Hk. destruct (Z.eq_dec k (Z.of_nat n + 1)) as [-> |]; [done | apply Hpath; lia].
    + eexists. split; [done |]. cbn. split; [done |]. exists lv. split; [lia | done].
Qed.

Lemma fuse_spec D n ws i :
  shape D ws -> Z.of_nat n <= D -> in_level (Z.of_nat n) i -> bit ws (Z.of_nat n) i = true ->
  exists ws' L,
    fuse n ws i (word ws (wordn (Z.of_nat n) i)) (2 ^ pos (Z.of_nat n) i) (2 ^ pos (Z.of_nat n) (sibling i)) = Some ws'
    /\ shape D ws' /\ 0 <= L <= Z.of_nat n
    /\ (forall k, L < k <= Z.of_nat n -> bit ws k (sibling (up k (Z.of_nat n) i)) = true)
    /\ (L = 0 \/ bit ws L (sibling (up L (Z.of_nat n) i)) = false)
    /\ forall l j, slot l j -> l <= D ->
         bit ws' l j = bit ws l j || on_chain L (Z.of_nat n) i l j.
Proof.
  revert ws i. induction n as [| n IH]; intros ws i Hsh Hn Hi Hb; pose proof Hsh as [HD _ _].
  { exists ws, 0. split_and!; [done | done | lia | lia | intros; lia | by left |].
    intros l j Hs _. destruct (on_chain 0 _ i l j) eqn:E; [| by rewrite orb_false_r].
    apply on_chain_spec in E as [H1 H2]. assert (l = 0) as -> by lia. rewrite up_self in H2. by rewrite H2, (Hb : bit ws 0 i = true). }
  cbn [fuse]. set (lv := Z.of_nat (S n)) in *. assert (slot lv i) as Hs by (by left).
  assert (slot lv (sibling i)) as Hs' by (apply slot_sibling; [done | by right]).
  rewrite !land_pow2_eqb by (by apply pos_range).
  assert (Z.testbit (word ws (wordn lv i)) (pos lv i) = true) as -> by done.
  assert (Z.testbit (word ws (wordn lv i)) (pos lv (sibling i)) = bit ws lv (sibling i)) as ->
    by (unfold bit; by rewrite wordn_sibling).
  cbn [negb orb]. destruct (bit ws lv (sibling i)) eqn:Es; cbn [negb].
  2:{ exists ws, lv. split_and!; [done | done | lia | lia | intros; lia | right; by rewrite up_self |].
      intros l j _ _. destruct (on_chain lv lv i l j) eqn:E; [| by rewrite orb_false_r].
      apply on_chain_spec in E as [H1 H2]. assert (l = lv) as -> by lia. rewrite up_self in H2. by rewrite H2, Hb. }
  assert (lv = Z.of_nat n + 1) as El by lia.
  assert (Z.shiftr i 1 = up (Z.of_nat n) lv i) as ->.
  { rewrite El, up_parent, Z.shiftr_div_pow2 by lia. done. }
  set (j := up (Z.of_nat n) lv i) in *.
  assert (in_level (Z.of_nat n) j) as Hj by (apply up_in_level; [lia | done]).
  assert (slot (Z.of_nat n) j) as Hsj by (by left).
  rewrite highlight_pos, highlight_buddy_pos, real_index_wordn by (done || lia).
  destruct (word_load D ws (wordn (Z.of_nat n) j)) as [-> _]; [done | apply wordn_bound; done || lia |].
  cbn [mbind option_bind].
  destruct (bit_set D ws (Z.of_nat n) j) as (ws1 & -> & Hsh1 & Hw1 & Hb1); [done | done | lia |].
  cbn [mbind option_bind]. rewrite <- Hw1.
  destruct (IH ws1 j) as (ws' & L & -> & Hsh' & HL & Hpair & Htop & Hb'); [done | lia | done | |].
  { rewrite Hb1, !Z.eqb_refl by (done || lia). apply orb_true_r. }
  assert (0 <= i) as Hi0 by (destruct Hi; lia).
  assert (forall k, k <= Z.of_nat n -> 0 <= k -> bit ws1 k (sibling (up k (Z.of_nat n) j)) = bit ws k (sibling (up k lv i))) as Hsame.
  { intros k Hk Hk0. unfold j. rewrite up_up by lia.
    assert (in_level k (up k lv i)) as Hk' by (apply up_in_level; [lia | done]).
    rewrite Hb1; [| apply slot_sibling; [by left | by right] | lia].
    destruct (Z.eqb_spec k (Z.of_nat n)) as [-> |]; [| by rewrite orb_false_r].
    destruct (Z.eqb_spec (sibling (up (Z.of_nat n) lv i)) j) as [E |]; [| by rewrite orb_false_r].
    exfalso. revert E. unfold j, sibling. destruct (Z.even _); lia. }
  exists ws', L. split_and!; [done | done | lia | lia | | |].
  - intros k Hk. destruct (Z.eq_dec k lv) as [-> |]; [by rewrite up_self |].
    rewrite <- Hsame by lia. apply Hpair. lia.
  - destruct Htop as [-> | Htop]; [by left | right]. by rewrite <- Hsame by lia.
  - intros l c Hsc Hlc. rewrite Hb', Hb1, <- orb_assoc by done.
    apply eq_true_iff_eq. rewrite !orb_true_iff, andb_true_iff, !Z.eqb_eq, !on_chain_spec. split.
    + intros [H | [[-> ->] | [H1 H2]]]; [by left | right | right].
      * split; [lia | done].
      * split; [lia |]. rewrite H2. unfold j. apply up_up; lia.
    + intros [H | [H1 H2]]; [by left |]. destruct (Z.eq_dec l lv) as [-> |].
      * left. rewrite up_self in H2. by rewrite H2.
      * right. right. split; [lia |]. rewrite H2. unfold j. symmetry. apply up_up; lia.
Qed.

(** * The operations as updates of the tree *)

Lemma place_surj D n p :
  4 <= D <= max_level -> 0 <= n < 2 ^ (D - 4) -> 0 <= p < 32 ->
  exists l i, slot l i /\ l <= D /\ wordn l i = n /\ pos l i = p.
Proof.
  intros HD Hn Hp. destruct (Z.eq_dec n 0) as [-> |].
  - enough (forallb (fun p => existsb (fun l => existsb (fun i => slotb l i && (pos l i =? p)) (seqZ 0 16))
      (seqZ 0 5)) (seqZ 0 32) = true) as H; [| reflexivity].
    rewrite forallb_forall in H. specialize (H p). rewrite <- list_elem_of_In, elem_of_seqZ in H.
    specialize (H ltac:(lia)). apply existsb_exists in H as (l & Hl & H). apply existsb_exists in H as (i & _ & H).
    rewrite <- list_elem_of_In, elem_of_seqZ in Hl. apply andb_true_iff in H as [H1 H2].
    exists l, i. split_and!; [apply slotb_slot; [lia | done] | lia | | lia].
    unfold wordn. zcases; lia.
  - pose proof (Z.log2_spec n ltac:(lia)) as [H1 H2]. pose proof (Z.log2_nonneg n) as H0.
    assert (Z.log2 n < D - 4) by (apply Z.log2_lt_pow2; lia).
    exists (Z.log2 n + 5), ((n - 2 ^ Z.log2 n) * 32 + p).
    rewrite Z.pow_succ_r in H2 by lia. unfold wordn, pos. zcases; try lia.
    replace (Z.log2 n + 5 - 5) with (Z.log2 n) by lia. split_and!.
    + left. split; [lia |]. rewrite Z.pow_add_r by lia. lia.
    + lia.
    + rewrite Z.div_add_l, Z.div_small by lia. lia.
    + rewrite Z.add_comm, Z.mod_add, Z.mod_small by lia. done.
Qed.

(** Two state arrays with the same tree are equal. *)
Lemma shape_ext D ws ws' :
  shape D ws -> shape D ws' -> (forall l i, slot l i -> l <= D -> bit ws l i = bit ws' l i) -> ws = ws'.
Proof.
  intros Hsh Hsh' H. pose proof Hsh as [HD Hlen Hw]. pose proof Hsh' as [_ Hlen' Hw'].
  apply (nth_ext _ _ 0 0); [lia |]. intros n Hn. bitwise p Hp.
  destruct (word_load D ws (Z.of_nat n) Hsh ltac:(lia)) as [_ R].
  destruct (word_load D ws' (Z.of_nat n) Hsh' ltac:(lia)) as [_ R'].
  unfold word in R, R'. rewrite Nat2Z.id in R, R'.
  destruct (Z.ltb_spec p 32) as [H32 | H32]; [| by rewrite !(testbit_high 32)].
  destruct (place_surj D (Z.of_nat n) p) as (l & i & Hs & Hl & E1 & E2); [done | lia | lia |].
  specialize (H l i Hs Hl). unfold bit in H. by rewrite E1, E2, Nat2Z.id in H.
Qed.

Lemma address_block h i l :
  wf h -> in_level l i -> l <= max_power h - 4 ->
  heap_start h + shl i (max_power h - l) = address h l i.
Proof.
  intros [HP Hsz Hlv Hst Hsh W] [Hl Hi] HlD. unfold address, block_size, shl. f_equal.
  rewrite (Z.mod_small (max_power h - l)) by lia. rewrite Z.shiftl_mul_pow2 by lia.
  apply wrap_small. pose proof (Z.pow_pos_nonneg 2 (max_power h - l)).
  assert (2 ^ max_power h = 2 ^ l * 2 ^ (max_power h - l)) as E by (rewrite <- Z.pow_add_r by lia; f_equal; lia).
  pose proof (Z.pow_lt_mono_r 2 (max_power h) 32 ltac:(lia) ltac:(lia) ltac:(lia)).
  split; [apply Z.mul_nonneg_nonneg; lia |]. nia.
Qed.

(** A successful allocation clears the chain from a free block down. *)
Lemma alloc_bits h size l :
  wf h -> 0 < size <= size_of_heap h ->
  l = (let l := max_power h - next_power_of_2 size in
       if number_of_levels h <=? l then number_of_levels h - 1 else l) ->
  let D := max_power h - 4 in
  (safe_buddy_alloc h size = Some (h, inr ENOMEM) /\ forall k i, 0 <= k <= l -> slot k i -> ~ free (bit (blocks h)) k i)
  \/ exists L i ws, safe_buddy_alloc h size = Some (set_blocks h ws, inl (address h l i))
     /\ shape D ws /\ in_level l i /\ 0 <= L <= l /\ free (bit (blocks h)) L (up L l i)
     /\ forall k j, slot k j -> k <= D -> bit ws k j = bit (blocks h) k j && negb (on_chain L l i k j).
Proof.
  intros Hwf Hs El D. pose proof (blocks_level_best h size Hwf Hs) as Hbest. cbn zeta in *. rewrite <- El in Hbest.
  destruct Hbest as (Hl & _). pose proof Hwf as [HP Hsz Hlv Hst Hsh W].
  unfold safe_buddy_alloc. destruct (Z.eqb_spec size 0); [lia |].
  destruct (Z.ltb_spec (size_of_heap h) size); [lia |]. cbn [orb]. rewrite <- El.
  destruct (search_spec D (blocks h) (Z.to_nat (l + 1)) Hsh) as (r & -> & Hr); [lia | apply W |].
  cbn [mbind option_bind]. destruct r as [[[[L a] t] i0] |].
  - right. destruct Hr as (HL & Hi0 & <- & -> & Hf).
    destruct (take_spec D (blocks h) L i0 l Hsh W) as (ws1 & ws2 & -> & Est & Ed & Hsh2 & Hi & Hup & Hb);
      [lia | unfold D; lia | done | done |].
    cbn [mbind option_bind]. rewrite Est. cbn [mbind option_bind]. rewrite Ed. cbn [mbind option_bind].
    exists L, (i0 * 2 ^ (l - L)), ws2. rewrite address_block by (done || lia). rewrite Hup. split_and!; done || lia.
  - left. split; [done |]. intros k i Hk Hsl. apply Hr; [lia | done].
Qed.

(** The deepest block at an address of the heap. *)
Definition deep_index (h : heap) (pointer : Z) : Z := Z.shiftr (pointer - heap_start h) SHIFT_ADDRESS_TO_INDEX.

Definition in_heap (h : heap) (pointer : Z) : Prop :=
  heap_start h <= pointer < heap_start h + size_of_heap h.

(** Being at an address of a block. *)
Definition in_block (h : heap) (l i pointer : Z) : Prop :=
  address h l i <= pointer < address h l i + block_size h l.

Lemma deep_index_level h pointer :
  wf h -> in_heap h pointer -> in_level (max_power h - 4) (deep_index h pointer).
Proof.
  intros [HP Hsz _ _ _ _] Hp. unfold in_heap in Hp. rewrite Hsz in Hp. split; [lia |]. unfold deep_index, SHIFT_ADDRESS_TO_INDEX.
  rewrite Z.shiftr_div_pow2 by lia. split; [apply Z.div_pos; lia |]. apply Z.div_lt_upper_bound; [lia |].
  rewrite <- Z.pow_add_r by lia. replace (4 + (max_power h - 4)) with (max_power h) by lia. lia.
Qed.

Lemma in_block_deep h l i pointer :
  wf h -> in_heap h pointer -> in_level l i -> l <= max_power h - 4 ->
  in_block h l i pointer <-> up l (max_power h - 4) (deep_index h pointer) = i.
Proof.
  intros [HP Hsz _ _ _ _] Hp [Hl Hi] HlD. unfold in_block, address, block_size, up, deep_index, SHIFT_ADDRESS_TO_INDEX.
  unfold in_heap in Hp. set (off := pointer - heap_start h).
  rewrite Z.shiftr_div_pow2 by lia. rewrite Z.div_div by (try apply Z.pow_pos_nonneg; try apply Z.pow_nonzero; lia).
  rewrite <- Z.pow_add_r by lia. replace (4 + (max_power h - 4 - l)) with (max_power h - l) by lia.
  pose proof (Z.pow_pos_nonneg 2 (max_power h - l)) as Hpow. set (s := 2 ^ (max_power h - l)) in *.
  pose proof (Z.div_mod off s) as Hd. pose proof (Z.mod_pos_bound off s) as Hm. split; intros H.
  - symmetry. apply (Z.div_unique _ _ _ (off - i * s)); lia.
  - subst i. lia.
Qed.

Lemma in_block_heap h l i pointer :
  wf h -> in_level l i -> l <= max_power h - 4 -> in_block h l i pointer -> in_heap h pointer.
Proof.
  intros [HP Hsz _ _ _ _] [Hl Hi] HlD. unfold in_block, in_heap, address, block_size. rewrite Hsz.
  assert (2 ^ max_power h = 2 ^ l * 2 ^ (max_power h - l)) as -> by (rewrite <- Z.pow_add_r by lia; f_equal; lia).
  pose proof (Z.pow_pos_nonneg 2 (max_power h - l)). nia.
Qed.

Lemma search_pointer_spec h pointer :
  wf h ->
  if bool_decide (in_heap h pointer) && (pointer mod 8 =? 0)
  then exists r, buddy_search_for_pointer h pointer = Some r /\
    match r with
    | inl (index, c) =>
        exists l, 0 <= l <= max_power h - 4 /\ index = up l (max_power h - 4) (deep_index h pointer)
        /\ c = {| target_level := l; context_index := wordn l index; highlight_target_bit := 2 ^ pos l index;
                  highlight_buddy_bit := 2 ^ pos l (sibling index) |}
        /\ (Allocated h l index \/ (l = 0 /\ bit (blocks h) l index = true))
    | inr e => e = EINVAL /\ exists l, 0 < l <= max_power h - 4
                 /\ free (bit (blocks h)) l (up l (max_power h - 4) (deep_index h pointer))
    end
  else buddy_search_for_pointer h pointer = Some (inr EINVAL).
Proof.
  intros Hwf. pose proof Hwf as [HP Hsz Hlv Hst Hsh W]. unfold buddy_search_for_pointer.
  change 7 with (Z.ones 3). rewrite Z.land_ones by lia. change (2 ^ 3) with 8.
  destruct (Z.eqb_spec (pointer mod 8) 0); [| rewrite andb_false_r; done].
  case_bool_decide as Hin; unfold in_heap in Hin; cbn [andb negb orb].
  - destruct (Z.ltb_spec pointer (heap_start h)); [lia |].
    destruct (Z.ltb_spec (heap_start h + size_of_heap h - 1) pointer); [lia |]. cbn [orb].
    rewrite Hlv. destruct (search_up_spec (max_power h - 4) (blocks h) (Z.to_nat (max_power h - 3 - 1))
      (deep_index h pointer) Hsh W) as (r & E & Hr); [by apply deep_index_level | lia | intros; lia |].
    rewrite Z2Nat.id in E by lia. replace (max_power h - 3 - 1) with (max_power h - 4) in * by lia.
    rewrite up_self in E. exists r. split; [done | done].
  - destruct (Z.ltb_spec pointer (heap_start h)); [done |].
    destruct (Z.ltb_spec (heap_start h + size_of_heap h - 1) pointer); [done | lia].
Qed.

(** An allocated block is found from any aligned address inside. *)
Lemma search_pointer_allocated h l i pointer :
  wf h -> Allocated h l i -> in_block h l i pointer -> pointer mod 8 = 0 ->
  buddy_search_for_pointer h pointer
  = Some (inl (i, {| target_level := l; context_index := wordn l i; highlight_target_bit := 2 ^ pos l i;
                     highlight_buddy_bit := 2 ^ pos l (sibling i) |})).
Proof.
  intros Hwf Ha Hb Hal. pose proof Ha as (Hi & HlD & Hbit & _). pose proof Hwf as [HP Hsz Hlv Hst Hsh W].
  assert (in_heap h pointer) as Hin by (by eapply in_block_heap).
  pose proof (deep_index_level h pointer Hwf Hin) as Hdeep.
  pose proof (search_pointer_spec h pointer Hwf) as H.
  rewrite bool_decide_eq_true_2, Hal, Z.eqb_refl in H by done. cbn [andb] in H.
  apply (in_block_deep h l i pointer) in Hb; [| done ..].
  assert (0 <= l) as Hl by (destruct Hi; lia). assert (0 <= deep_index h pointer) as Hd0 by (destruct Hdeep; lia).
  assert (forall l', 0 <= l' <= max_power h - 4 ->
    overlap l' (up l' (max_power h - 4) (deep_index h pointer)) l i) as Hov.
  { intros l' Hl'. rewrite <- Hb. destruct (Z.le_ge_cases l' l).
    - left. split; [lia |]. apply up_up; lia.
    - right. split; [lia |]. apply up_up; lia. }
  destruct H as ([[index c] | e] & E & Hr).
  - destruct Hr as (l' & Hl' & -> & -> & [Ha' | [-> Hroot]]).
    + destruct (allocated_disjoint _ _ W _ _ _ _ Ha' Ha (Hov l' Hl')) as [-> <-]. exact E.
    + exfalso. assert (bit (blocks h) l i = true) as Hcontra; [| by rewrite Hcontra in Hbit].
      apply (set_inside (max_power h - 4) _ W 0 (up 0 (max_power h - 4) (deep_index h pointer)));
        [lia | done | done | | done].
      split; [done |]. rewrite <- Hb. apply up_up; lia.
  - exfalso. destruct Hr as (_ & l' & Hl' & Hf).
    assert (Available h (max_power h - 4) (deep_index h pointer)) as Hav.
    { apply (free_available (max_power h - 4) _ W l' (up l' (max_power h - 4) (deep_index h pointer)));
        [apply up_in_level; [lia | done] | done | done | done | split; [lia | done]]. }
    apply (Hav l i Ha). right. split; [lia | done].
Qed.

(** Setting the bit of a found block and merging upwards. *)
Lemma free_found h l i :
  wf h -> in_level l i -> l <= max_power h - 4 ->
  let D := max_power h - 4 in
  let b := bit (blocks h) in
  exists L ws0 ws,
    load (blocks h) (wordn l i) = Some (word (blocks h) (wordn l i))
    /\ store (blocks h) (wordn l i) (Z.lor (word (blocks h) (wordn l i)) (2 ^ pos l i)) = Some ws0
    /\ buddy_free_fusion_of_blocks ws0 i {| target_level := l; context_index := wordn l i;
         highlight_target_bit := 2 ^ pos l i; highlight_buddy_bit := 2 ^ pos l (sibling i) |} = Some ws
    /\ shape D ws /\ 0 <= L <= l
    /\ (forall k, L < k <= l -> b k (sibling (up k l i)) = true)
    /\ (L = 0 \/ b L (sibling (up L l i)) = false)
    /\ forall k j, slot k j -> k <= D -> bit ws k j = b k j || on_chain L l i k j.
Proof.
  intros Hwf Hi HlD D b. pose proof Hwf as [HP Hsz Hlv Hst Hsh W]. assert (slot l i) as Hs by (by left).
  assert (0 <= l) as Hl by (destruct Hi; lia).
  destruct (word_load D (blocks h) (wordn l i) Hsh) as [El _]; [apply wordn_bound; unfold D; done || lia |].
  destruct (bit_set D (blocks h) l i Hsh Hs HlD) as (ws0 & Es & Hsh0 & Hw0 & Hb0).
  destruct (word_load D ws0 (wordn l i) Hsh0) as [El0 _]; [apply wordn_bound; unfold D; done || lia |].
  destruct (fuse_spec D (Z.to_nat l) ws0 i Hsh0) as (ws & L & Ef & Hsh1 & HL & Hpair & Htop & Hb1).
  { rewrite Z2Nat.id by lia. done. }
  { rewrite Z2Nat.id by lia. done. }
  { rewrite Z2Nat.id, Hb0, !Z.eqb_refl by (done || lia). apply orb_true_r. }
  rewrite Z2Nat.id in * by lia.
  assert (forall k, 0 <= k <= l -> bit ws0 k (sibling (up k l i)) = b k (sibling (up k l i))) as Hsame.
  { intros k Hk. assert (in_level k (up k l i)) as Hk' by (apply up_in_level; [lia | done]).
    rewrite Hb0; [| apply slot_sibling; [by left | by right] | lia].
    destruct (Z.eqb_spec k l) as [-> |]; [| apply orb_false_r]. rewrite up_self.
    destruct (Z.eqb_spec (sibling i) i) as [E |]; [| apply orb_false_r].
    exfalso. revert E. unfold sibling. destruct (Z.even i); lia. }
  exists L, ws0, ws. split_and!; try done; try lia.
  - unfold buddy_free_fusion_of_blocks. cbn [context_index target_level highlight_target_bit highlight_buddy_bit].
    rewrite El0. cbn [mbind option_bind]. exact Ef.
  - intros k Hk. rewrite <- Hsame by lia. apply Hpair. lia.
  - destruct Htop as [-> | Htop]; [by left | right]. by rewrite <- Hsame by lia.
  - intros k j Hsk Hk. rewrite Hb1, Hb0, <- orb_assoc by done. f_equal.
    destruct (Z.eqb_spec k l) as [-> |]; [| done]. destruct (Z.eqb_spec j i) as [-> |]; [| done].
    by rewrite on_chain_self by lia.
Qed.

Lemma free_bits h l i pointer :
  wf h -> Allocated h l i -> in_block h l i pointer -> pointer mod 8 = 0 ->
  let D := max_power h - 4 in
  let b := bit (blocks h) in
  exists L ws, safe_buddy_free h pointer = Some (set_blocks h ws, None)
    /\ shape D ws /\ 0 <= L <= l
    /\ (forall k, L < k <= l -> b k (sibling (up k l i)) = true)
    /\ (L = 0 \/ b L (sibling (up L l i)) = false)
    /\ forall k j, slot k j -> k <= D -> bit ws k j = b k j || on_chain L l i k j.
Proof.
  intros Hwf Ha Hb Hal D b. destruct Ha as (Hi & HlD & Hbit). unfold safe_buddy_free.
  rewrite (search_pointer_allocated h l i pointer) by done. cbn [mbind option_bind context_index highlight_target_bit].
  destruct (free_found h l i Hwf Hi HlD) as (L & ws0 & ws & -> & Hst & Hf & Hrest).
  cbn [mbind option_bind]. rewrite Hst. cbn [mbind option_bind]. rewrite Hf. by exists L, ws.
Qed.

(** The heap after an update of its bits. *)
Lemma wf_update h ws :
  wf h -> shape (max_power h - 4) ws -> wf_tree (max_power h - 4) (bit ws) -> wf (set_blocks h ws).
Proof. intros [? ? ? ? ? ?] ? ?. by constructor. Qed.

(** Allocation always returns. *)
Lemma safe_buddy_alloc_total h size : wf h -> 0 <= size -> exists h' r, safe_buddy_alloc h size = Some (h', r).
Proof.
  intros Hwf Hs. destruct (decide (size = 0 \/ size_of_heap h < size)) as [Hbad | Hok].
  - exists h, (inr EINVAL). unfold safe_buddy_alloc.
    destruct Hbad as [-> | H]; [done |]. apply Z.ltb_lt in H. by rewrite H, orb_true_r.
  - destruct (alloc_bits h size _ Hwf ltac:(lia) eq_refl) as [[-> _] | (L & i & ws & -> & _)]; eauto.
Qed.

(** C2: allocation.  On a well-formed heap [safe_buddy_alloc] always returns.
    It fails with EINVAL exactly on a null size or one larger than the heap,
    with ENOMEM only if every block of the smallest sufficient size shares
    memory with an allocated one; otherwise it returns the address of a block
    of that size, disjoint from every allocated one, and adds precisely this
    block to the allocated ones. *)
Theorem safe_buddy_alloc_spec h size :
  wf h -> 0 <= size < 2 ^ 32 ->
  exists h' r, safe_buddy_alloc h size = Some (h', r) /\ wf h' /\
  match r with
  | inr EINVAL => h' = h /\ (size = 0 \/ size_of_heap h < size)
  | inr ENOMEM => h' = h /\ exists l, best_level h size l /\ forall i, in_level l i -> ~ Available h l i
  | inl p => exists l i, best_level h size l /\ in_level l i /\ p = address h l i /\ Available h l i
      /\ h' = set_blocks h (blocks h')
      /\ forall l' j, Allocated h' l' j <-> Allocated h l' j \/ (l' = l /\ j = i)
  end.
Proof.
  intros Hwf Hs. destruct (decide (size = 0 \/ size_of_heap h < size)) as [Hbad | Hok].
  { exists h, (inr EINVAL). split_and!; try done. unfold safe_buddy_alloc.
    destruct Hbad as [-> | H]; [done |]. apply Z.ltb_lt in H. by rewrite H, orb_true_r. }
  assert (0 < size <= size_of_heap h) as Hs' by lia.
  pose proof (blocks_level_best h size Hwf Hs') as Hbest.
  destruct (alloc_bits h size _ Hwf Hs' eq_refl) as [[E Hno] | (L & i & ws & E & Hsh & Hi & HL & Hf & Hb)];
    cbn zeta in *; set (l := if _ <=? _ then _ else _) in *; pose proof Hwf as [HP _ _ _ _ W].
  - exists h, (inr ENOMEM). split_and!; try done. exists l. split; [done |]. intros i Hi Hav.
    destruct (available_free _ _ W l i Hi ltac:(apply Hbest) Hav) as (l' & Hl' & Hf).
    apply (Hno l' (up l' l i)); [done | left; apply up_in_level; [done | done] | done].
  - exists (set_blocks h ws), (inl (address h l i)). split; [done |].
    assert (l <= max_power h - 4) as HlD by apply Hbest.
    assert (0 <= L <= max_power h - 4) as HLD by lia.
    split_and!; [apply wf_update; [done | done | by eapply alloc_wf; eauto] |].
    exists l, i. split_and!; [done | done | done | | done |].
    { apply (free_available _ _ W L (up L l i)); [apply up_in_level; [lia | done] | done | done | done | split; [lia | done]]. }
    intros l' j. unfold Allocated. cbn [max_power set_blocks blocks]. eapply alloc_allocated; eauto.
Qed.

(** A heap of 256 bytes whose first 16 bytes are allocated. *)
Definition sample_heap : heap :=
  {| blocks := [0x2EFEFFFE]; heap_start := 1032; size_of_heap := 256; max_power := 8; number_of_levels := 5 |}.

(** The tree conditions are decided by looking at every bit. *)
Definition wf_treeb (D : Z) (b : bits) : bool :=
  (0 <=? D) && negb (b 0 1) && forallb (fun l => forallb (fun i =>
    implb (b l i) (halves b l i)) (seqZ 0 (2 ^ l))) (seqZ 0 D).

Lemma wf_treeb_spec D b : wf_treeb D b = true -> wf_tree D b.
Proof.
  unfold wf_treeb. rewrite !andb_true_iff, Z.leb_le, negb_true_iff, forallb_forall. intros [[HD Hg] Hd].
  constructor; [done | | done]. intros l i [Hl Hi] HlD Hb. specialize (Hd l).
  rewrite <- list_elem_of_In, elem_of_seqZ, forallb_forall in Hd. specialize (Hd ltac:(lia) i).
  rewrite <- list_elem_of_In, elem_of_seqZ, Hb in Hd. apply Hd. lia.
Qed.

Lemma sample_heap_wf : wf sample_heap.
Proof.
  constructor; [split; done | done | done | done | | by apply wf_treeb_spec].
  constructor; [split; done | done | by repeat constructor].
Qed.

Lemma safe_buddy_alloc_spec_witness :
  wf sample_heap /\ exists h' r, safe_buddy_alloc sample_heap 20 = Some (h', r) /\ wf h' /\ r = inl 1064.
Proof.
  split; [apply sample_heap_wf |].
  destruct (safe_buddy_alloc_spec sample_heap 20 sample_heap_wf ltac:(lia)) as (h' & r & E & Hwf & _).
  exists h', r. split_and!; [done | done |]. vm_compute in E. by injection E as _ <-.
Defined.

(** C10: freeing.  On a well-formed heap [safe_buddy_free] always returns.
    From any aligned address inside an allocated block it removes precisely
    that block from the allocated ones; any other address leaves the heap as it
    was, and is reported by EINVAL, except on a heap where nothing is
    allocated. *)
Theorem safe_buddy_free_spec h pointer :
  wf h ->
  exists h' e, safe_buddy_free h pointer = Some (h', e) /\ wf h' /\
  ((exists l i, Allocated h l i /\ in_block h l i pointer /\ pointer mod 8 = 0 /\ e = None
      /\ h' = set_blocks h (blocks h')
      /\ forall l' j, Allocated h' l' j <-> Allocated h l' j /\ ~ (l' = l /\ j = i))
   \/ (h' = h /\ (pointer mod 8 = 0 -> forall l i, Allocated h l i -> ~ in_block h l i pointer)
       /\ (e = Some EINVAL
           \/ (e = None /\ in_heap h pointer /\ pointer mod 8 = 0 /\ forall l i, ~ Allocated h l i)))).
Proof.
  intros Hwf. pose proof Hwf as [HP Hsz Hlv Hst Hsh W]. pose proof (search_pointer_spec h pointer Hwf) as H.
  destruct (bool_decide (in_heap h pointer) && (pointer mod 8 =? 0)) eqn:Ein.
  2:{ exists h, (Some EINVAL). unfold safe_buddy_free. rewrite H. split_and!; [done | done |]. right.
      split_and!; [done | | by left]. intros Hal l i (Hi & HlD & _) Hb.
      rewrite Hal, Z.eqb_refl, andb_true_r in Ein. apply bool_decide_eq_false in Ein. apply Ein.
      by eapply in_block_heap. }
  apply andb_true_iff in Ein as [Hin Hal]. apply bool_decide_eq_true in Hin. apply Z.eqb_eq in Hal.
  pose proof (deep_index_level h pointer Hwf Hin) as Hdeep.
  destruct H as ([[index c] | e] & E & Hr).
  - destruct Hr as (l & Hl & -> & -> & Ha). set (i := up l (max_power h - 4) (deep_index h pointer)) in *.
    assert (in_level l i) as Hi by (apply up_in_level; [lia | done]).
    destruct Ha as [Ha | [-> Hroot]].
    + assert (in_block h l i pointer) as Hb by (apply in_block_deep; [done | done | done | lia | done]).
      destruct (free_bits h l i pointer Hwf Ha Hb Hal) as (L & ws & Ef & Hsh' & HL & Hpair & Htop & Hbits).
      exists (set_blocks h ws), None. split_and!; [done | |].
      * apply wf_update; [done | done | by eapply free_wf; eauto].
      * left. exists l, i. split_and!; try done. intros l' j. unfold Allocated. cbn [max_power set_blocks blocks].
        eapply free_allocated; eauto.
    + (* nothing is allocated: the root's bit is set again *)
      assert (forall l i, ~ Allocated h l i) as Hnone.
      { intros l j (Hj & HlD & Hbj & _).
        rewrite (set_inside (max_power h - 4) _ W 0 i l j) in Hbj; [done | lia | done | done | | done].
        split; [destruct Hj; lia |]. assert (in_level 0 (up 0 l j)) as [_ H1] by (apply up_in_level; [destruct Hj; lia | done]).
        destruct Hi as [_ H2]. simpl in H1, H2. lia. }
      destruct (free_found h 0 i Hwf Hi ltac:(lia)) as (L & ws0 & ws & El & Est & Efu & Hsh' & HL & _ & _ & Hbits).
      assert (ws = blocks h) as Ews.
      { apply (shape_ext (max_power h - 4)); [done | done |]. intros k j Hs Hk. rewrite Hbits by done.
        destruct (on_chain L 0 i k j) eqn:Ec; [| apply orb_false_r].
        apply on_chain_spec in Ec as [H1 ->]. assert (k = 0) as -> by lia. by rewrite up_self, Hroot. }
      exists h, None. unfold safe_buddy_free. rewrite E. cbn [mbind option_bind context_index highlight_target_bit].
      rewrite El. cbn [mbind option_bind]. rewrite Est. cbn [mbind option_bind]. rewrite Efu, Ews.
      cbn [mbind option_bind]. split_and!; [by destruct h | done |]. right. split_and!; [done | | by right].
      intros _ l j Ha. by destruct (Hnone l j).
  - destruct Hr as (-> & l & Hl & Hf). exists h, (Some EINVAL). unfold safe_buddy_free. rewrite E.
    split_and!; [done | done |]. right. split_and!; [done | | by left]. intros _ l' i Ha Hb.
    rewrite (search_pointer_allocated h l' i pointer) in E by done. done.
Qed.

Lemma safe_buddy_free_spec_witness :
  wf sample_heap /\ exists h' e, safe_buddy_free sample_heap 1040 = Some (h', e) /\ wf h'
    /\ e = None /\ blocks h' = [0x7FFFFFFF].
Proof.
  split; [apply sample_heap_wf |].
  destruct (safe_buddy_free_spec sample_heap 1040 sample_heap_wf) as (h' & e & E & Hwf & _).
  exists h', e. split_and!; [done | done | |]; vm_compute in E; by injection E as <- <-.
Defined.

(** A block just allocated can be freed, from any aligned address inside,
    and the heap is back to what it was, bit for bit. *)
Theorem buddy_alloc_free_roundtrip h size h' p q :
  wf h -> 0 <= size < 2 ^ 32 -> safe_buddy_alloc h size = Some (h', inl p) ->
  p <= q < p + size -> q mod 8 = 0 ->
  safe_buddy_free h' q = Some (h, None).
Proof.
  intros Hwf Hs E Hq Hal. pose proof Hwf as [HP Hsz _ _ Hsh W].
  assert (0 < size <= size_of_heap h) as Hs'.
  { revert E. unfold safe_buddy_alloc. destruct (Z.eqb_spec size 0), (Z.ltb_spec (size_of_heap h) size); try done; lia. }
  pose proof (blocks_level_best h size Hwf Hs') as (Hl & Hsize & _).
  destruct (alloc_bits h size _ Hwf Hs' eq_refl) as [[E' _] | (L & i & ws & E' & Hsh1 & Hi & HL & Hf & Hb)];
    cbn zeta in *; set (l := if _ <=? _ then _ else _) in *; rewrite E in E'; [done |]. injection E' as -> ->.
  assert (wf (set_blocks h ws)) as Hwf' by (apply wf_update; [done | done | by eapply alloc_wf; eauto; lia]).
  assert (Allocated (set_blocks h ws) l i) as Ha.
  { unfold Allocated. cbn [max_power set_blocks blocks]. eapply alloc_allocated; eauto; lia. }
  assert (in_block (set_blocks h ws) l i q) as Hblk.
  { unfold in_block. change (address (set_blocks h ws) l i) with (address h l i).
    change (block_size (set_blocks h ws) l) with (block_size h l). lia. }
  destruct (free_bits _ l i q Hwf' Ha Hblk Hal) as (L' & ws' & -> & Hsh2 & HL' & Hpair & Htop & Hb').
  cbn [max_power set_blocks blocks] in *.
  assert (forall k, 0 <= k <= l -> in_level k (up k l i)) as Hchain by (intros; by apply up_in_level).
  assert (forall k, 0 <= k <= l -> on_chain L l i k (sibling (up k l i)) = false) as Hoff.
  { intros k Hk. destruct (on_chain L l i k (sibling (up k l i))) eqn:Ec; [| done].
    apply on_chain_spec in Ec as [_ Ec]. exfalso. revert Ec. unfold sibling. destruct (Z.even _); lia. }
  assert (forall k, 0 <= k <= l -> bit ws k (sibling (up k l i)) = bit (blocks h) k (sibling (up k l i))) as Hsib.
  { intros k Hk. rewrite Hb; [| apply slot_sibling; [left | right]; by apply Hchain | lia].
    rewrite Hoff by done. apply andb_true_r. }
  assert (L' = L) as ->.
  { destruct (Z.lt_trichotomy L' L) as [Hlt | [? | Hlt]]; [exfalso | done | exfalso].
    - specialize (Hpair L ltac:(lia)). rewrite Hsib in Hpair by lia. destruct Hf as [_ Hf]. congruence.
    - destruct Htop as [-> | Htop]; [lia |]. rewrite Hsib in Htop by lia.
      assert (slot L' (sibling (up L' l i))) as Hs'' by (apply slot_sibling; [left | right]; apply Hchain; lia).
      rewrite (set_inside _ _ W L (up L l i)) in Htop; [done | lia | lia | | | by destruct Hf].
      + destruct Hs'' as [? | [-> _]]; [done | lia].
      + split; [lia |]. rewrite sibling_inside by (lia || apply Hchain; lia).
        apply up_up; [lia | destruct Hi; lia]. }
  do 2 f_equal. assert (ws' = blocks h) as ->; [| by destruct h].
  apply (shape_ext (max_power h - 4)); [done | done |]. intros k j Hs1 Hk. rewrite Hb', Hb by done.
  destruct (on_chain L l i k j) eqn:Ec; [| by rewrite andb_true_r, orb_false_r].
  rewrite orb_true_r. symmetry. apply on_chain_spec in Ec as [H1 ->].
  apply (set_inside _ _ W L (up L l i)); [lia | lia | apply Hchain; lia | | by destruct Hf].
  split; [lia |]. apply up_up; [lia | destruct Hi; lia].
Qed.

Lemma buddy_alloc_free_roundtrip_witness :
  exists h', safe_buddy_alloc sample_heap 20 = Some (h', inl 1064) /\ safe_buddy_free h' 1080 = Some (sample_heap, None).
Proof.
  destruct (safe_buddy_alloc sample_heap 20) as [[h' r] |] eqn:E; [| vm_compute in E; discriminate].
  assert (r = inl 1064) as -> by (vm_compute in E; by injection E as _ <-).
  exists h'. split; [done |].
  apply (buddy_alloc_free_roundtrip sample_heap 20 h' 1064 1080 sample_heap_wf ltac:(lia) E); [lia | done].
Defined.

(** * Initialisation and reset *)

Lemma fresh_blocks_tree D : 4 <= D <= max_level ->
  shape D (fresh_blocks (D + 1)) /\ wf_tree D (bit (fresh_blocks (D + 1)))
  /\ forall l i, in_level l i -> l <= D -> bit (fresh_blocks (D + 1)) l i = true.
Proof.
  unfold max_level. intros HD.
  assert (Z.to_nat ((shl (shl 1 (D + 1 - 5)) 2 - 4) / 4) = Z.to_nat (2 ^ (D - 4) - 1)) as En.
  { rewrite shl_pow2_small by lia. unfold shl. change (2 mod 32) with 2. rewrite Z.shiftl_mul_pow2 by lia.
    replace (D + 1 - 5) with (D - 4) by lia. change (2 ^ 2) with 4.
    pose proof (Z.pow_pos_nonneg 2 (D - 4)). pose proof (Z.pow_le_mono_r 2 (D - 4) 26).
    rewrite wrap_small by lia. f_equal. symmetry. apply (Z.div_unique _ _ _ 0); lia. }
  assert (forall l i, in_level l i -> l <= D -> bit (fresh_blocks (D + 1)) l i = true) as Hset.
  { intros l i Hi HlD. unfold bit, fresh_blocks. rewrite En.
    assert (slot l i) as Hs by (by left). pose proof (pos_range l i Hs) as Hp.
    pose proof (wordn_bound D l i Hs HlD ltac:(lia)) as Hw.
    destruct (Z.to_nat (wordn l i)) as [| n] eqn:E; cbn [nth].
    - destruct (Z.ltb_spec l 5) as [H5 | H5].
      + pose proof (small_slots (fun l i => ((l =? 0) && (i =? 1)) || Z.testbit 0x7fffffff (pos l i)) eq_refl l i Hs H5) as H.
        cbn beta in H. apply orb_true_iff in H as [H | H]; [| done].
        apply andb_true_iff in H as [H1 H2]. apply Z.eqb_eq in H1, H2. subst. destruct Hi. lia.
      + pose proof (wordn_range l i Hs H5). pose proof (Z.pow_pos_nonneg 2 (l - 5)). lia.
    - assert (nth n (replicate (Z.to_nat (2 ^ (D - 4) - 1)) 0xffffffff) 0 = Z.ones 32) as ->;
        [| by apply Z.ones_spec_low].
      apply nth_lookup_Some. apply lookup_replicate. split; [done | lia]. }
  split_and!; [| | done].
  - constructor; [done | |].
    + unfold fresh_blocks. cbn [length]. rewrite En, length_replicate.
      pose proof (Z.pow_pos_nonneg 2 (D - 4)). lia.
    + unfold fresh_blocks. constructor; [lia |]. apply Forall_replicate. lia.
  - constructor; [lia | | done]. intros l i Hi HlD _. apply halves_spec. intros c Hc.
    apply Hset; [by apply in_level_half | lia].
Qed.

(** [buddy_init] on a power of two from 512 bytes up, and [buddy_reset]
    at any time, give a well-formed heap where nothing is allocated, so that
    every block of every size is available. *)
Theorem buddy_init_reset_spec k memory h :
  9 <= k <= 30 -> 0 <= memory -> memory mod 8 = 0 -> memory + 2 ^ (k - 6) + 2 ^ k <= 2 ^ 32 -> wf h ->
  let fresh h := wf h /\ (forall l i, ~ Allocated h l i)
    /\ forall l i, in_level l i -> l <= max_power h - 4 -> Available h l i in
  fresh (buddy_init (2 ^ k) memory) /\ heap_start (buddy_init (2 ^ k) memory) = memory + 2 ^ (k - 6)
  /\ fresh (buddy_reset h) /\ heap_start (buddy_reset h) = heap_start h.
Proof.
  intros Hk Hm0 Hm8 Hm Hwf fresh.
  assert (forall h0 ws, wf h0 -> ws = fresh_blocks (max_power h0 - 4 + 1) -> fresh (set_blocks h0 ws)) as Hfresh.
  { intros h0 ws Hwf0 ->. pose proof Hwf0 as [HP _ _ _ _ _].
    destruct (fresh_blocks_tree (max_power h0 - 4)) as (Hsh & W & Hset); [unfold max_level; lia |].
    assert (forall l i, ~ Allocated (set_blocks h0 (fresh_blocks (max_power h0 - 4 + 1))) l i) as Hno.
    { intros l i (Hi & HlD & Hb & _). cbn [max_power blocks set_blocks] in *. by rewrite Hset in Hb. }
    split_and!; [by apply wf_update | done |]. intros l i _ _ l' i' Ha. by destruct (Hno l' i'). }
  assert (forall x, 8 <= x <= 30 -> fresh_blocks (u8 (u8 (31 - clz32 (2 ^ x)) - DEPTH_LEVELS)) = fresh_blocks (x - 4 + 1)
    /\ u8 (31 - clz32 (2 ^ x)) = x /\ 4 * Z.shiftr (shl (shl 1 (x - 3 - 5)) 2) 2 = 2 ^ (x - 6)) as Hgeo.
  { intros x Hx. assert (u8 (31 - clz32 (2 ^ x)) = x) as E.
    { unfold clz32. pose proof (Z.pow_pos_nonneg 2 x). destruct (Z.leb_spec (2 ^ x) 0); [lia |].
      rewrite Z.log2_pow2 by lia. rewrite wrap_small; lia. }
    rewrite E. unfold DEPTH_LEVELS. rewrite wrap_small by lia. split_and!; [f_equal; lia | done |].
    rewrite shl_pow2_small by lia. unfold shl. change (2 mod 32) with 2.
    rewrite Z.shiftl_mul_pow2, <- Z.pow_add_r, wrap_small, Z.shiftr_div_pow2, <- Z.pow_sub_r by
      (try (split; [apply Z.pow_nonneg; lia | apply Z.pow_lt_mono_r; lia]); lia).
    replace (x - 6) with (2 + (x - 3 - 5 + 2 - 2)) by lia. rewrite (Z.pow_add_r 2 2) by lia. done. }
  destruct (Hgeo k ltac:(lia)) as (E1 & E2 & E3).
  set (h0 := buddy_init (2 ^ k) memory).
  assert (max_power h0 = k) as Ek by (unfold h0, buddy_init; cbn; exact E2).
  assert (number_of_levels h0 = k - 3) as El.
  { unfold h0, buddy_init. cbn [number_of_levels]. rewrite E2. unfold DEPTH_LEVELS. apply wrap_small. lia. }
  assert (heap_start h0 = memory + 2 ^ (k - 6)) as Es.
  { assert (heap_start h0 = memory + 4 * Z.shiftr (shl (shl 1 (number_of_levels h0 - 5)) 2) 2) as -> by done.
    by rewrite El, E3. }
  assert (blocks h0 = fresh_blocks (max_power h0 - 4 + 1)) as Eb by (rewrite Ek; unfold h0, buddy_init; cbn; exact E1).
  assert (wf h0) as Hwf0.
  { destruct (fresh_blocks_tree (max_power h0 - 4)) as (Hsh & W & _); [unfold max_level; lia |].
    constructor; [lia | by rewrite Ek | lia | | by rewrite Eb | by rewrite Eb].
    rewrite Es, Ek. pose proof (Z.pow_pos_nonneg 2 (k - 6)). split_and!; [lia | lia |].
    rewrite Z.add_mod, Hm8 by lia.
    replace (k - 6) with (3 + (k - 9)) by lia. rewrite Z.pow_add_r by lia.
    rewrite Z.mul_comm, Z.mod_mul by lia. done. }
  split_and!.
  - replace h0 with (set_blocks h0 (blocks h0)) by (by destruct h0). by apply Hfresh.
  - done.
  - apply Hfresh; [done |]. pose proof Hwf as [_ _ -> _ _ _]. f_equal. lia.
  - done.
Qed.

Lemma buddy_init_reset_spec_witness :
  let h := buddy_init 2048 1024 in
  wf h /\ heap_start h = 1056 /\ (forall l i, ~ Allocated (buddy_reset sample_heap) l i).
Proof.
  destruct (buddy_init_reset_spec 11 1024 sample_heap ltac:(lia) ltac:(lia) ltac:(done) ltac:(lia) sample_heap_wf)
    as ((H1 & _) & H2 & (_ & H3 & _) & _).
  split_and!; [exact H1 | exact H2 | exact H3].
Defined.

(** * Reallocation *)

(** [buddy_realloc] takes the size of the block from its index in its
    level instead of its level.  The block at the start of the heap counts as
    4096 bytes whatever its size: any request above 2048 and up to 4096 bytes
    is granted by returning the same pointer, without any change, even when the
    block has 16 bytes; and any smaller request larger than the block copies
    more bytes than the block holds. *)
Theorem buddy_realloc_first_block h l size :
  wf h -> Allocated h l 0 -> 0 < size <= 4096 ->
  (2048 < size -> buddy_realloc h (heap_start h) size = Some (h, heap_start h, []))
  /\ (block_size h l < size <= 2048 -> exists h' p,
       buddy_realloc h (heap_start h) size
       = Some (h', p, [{| c_dst := p; c_src := heap_start h; c_len := size |}])).
Proof.
  intros Hwf Ha Hsize. pose proof Hwf as [HP Hsz Hlv Hst Hsh W].
  assert (in_block h l 0 (heap_start h)) as Hb.
  { unfold in_block, address. pose proof (Z.pow_pos_nonneg 2 (max_power h - l)). destruct Ha as (_ & ? & _).
    unfold block_size. lia. }
  assert (buddy_sizeofblock h (heap_start h) = Some 4096) as Esz.
  { unfold buddy_sizeofblock. rewrite (search_pointer_allocated h l 0) by (done || lia). done. }
  unfold buddy_realloc. destruct (Z.eqb_spec (heap_start h) 0); [lia |].
  destruct (Z.eqb_spec size 0); [lia |]. rewrite Esz. cbn [mbind option_bind].
  change (u32 4096 =? u32 (-1)) with false. change (Z.shiftr (u32 4096) 1) with 2048. change (u32 4096) with 4096.
  destruct (Z.leb_spec size 2048); cbn [negb andb]; split; intros Hr; try lia.
  - destruct (free_bits h l 0 (heap_start h) Hwf Ha Hb ltac:(lia)) as (L & ws & -> & Hsh' & HL & Hp & Ht & Hbits).
    cbn [mbind option_bind].
    destruct (safe_buddy_alloc_total (set_blocks h ws) size) as (h' & r & ->);
      [apply wf_update; [done | done | by eapply free_wf; eauto] | lia |].
    cbn [mbind option_bind]. by exists h', (match r with inl p => p | inr _ => 0 end).
  - destruct (Z.leb_spec size 4096); [done | lia].
Qed.

(** The first 16 bytes reallocated to 3000, then to 100. *)
Lemma buddy_realloc_first_block_witness :
  wf sample_heap /\ buddy_realloc sample_heap 1032 3000 = Some (sample_heap, 1032, [])
  /\ exists h2 p, buddy_realloc sample_heap 1032 100 = Some (h2, p, [{| c_dst := p; c_src := 1032; c_len := 100 |}]).
Proof.
  assert (Allocated sample_heap 4 0) as Ha by (split_and!; [split; [lia | done] | done | done | by left]).
  split_and!; [apply sample_heap_wf | |].
  - apply (buddy_realloc_first_block sample_heap 4 3000 sample_heap_wf Ha); lia.
  - apply (buddy_realloc_first_block sample_heap 4 100 sample_heap_wf Ha); [lia |].
    change (block_size sample_heap 4) with 16. lia.
Defined.
