(* ===== verification/Sync.v ===== *)
(** Semaphores and barriers of the DPU runtime
    (library/src/dpu-rt/src/syslib/sem.c, barrier.c, waitqueue.c).

    A wait queue is a circular list threaded through one table shared by all
    objects: the entry of a waiting thread is the next one, the entry of the
    last is the first, and the object knows the last.  The body of an operation
    runs under the lock of the object, hence atomically for it; stopping comes
    after the lock is released, and resuming spins until the target is stopped.

    First the operations, then the queues they implement, then the interleaving
    of threads on any number of semaphores and barriers. *)
From stdpp Require Import sets list relations.
From S2P Require Import Prelude.

(** * The code *)

Record obj := { wait_queue : Z; count : Z; initial_count : Z }.

Definition EMPTY_WAIT_QUEUE : Z := 0xFF.

Definition with_queue (o : obj) (q c : Z) : obj :=
  {| wait_queue := q; count := c; initial_count := initial_count o |}.

(** Thread [tid] at the end of the queue. *)
Definition enqueue (tid last : Z) (table : list Z) : option (list Z) :=
  if last =? EMPTY_WAIT_QUEUE then store table tid tid
  else
    first ← load table last;
    table ← store table tid first;
    store table last tid.

(** The object, the table, and whether the thread stops.  [count] is a signed
    [char]. *)
Definition sem_take (tid : Z) (sem : obj) (table : list Z) : option (obj * list Z * bool) :=
  let c := sgn 8 (count sem - 1) in
  if c <? 0 then
    table ← enqueue tid (wait_queue sem) table;
    Some (with_queue sem tid (u8 c), table, true)
  else Some (with_queue sem (wait_queue sem) (u8 c), table, false).

(** The object, the table and the thread resumed. *)
Definition sem_give (sem : obj) (table : list Z) : option (obj * list Z * option Z) :=
  let c := u8 (count sem + 1) in
  let last := wait_queue sem in
  if last =? EMPTY_WAIT_QUEUE then Some (with_queue sem last c, table, None)
  else
    first ← load table last;
    if first =? last then Some (with_queue sem EMPTY_WAIT_QUEUE c, table, Some first)
    else
      next ← load table first;
      table ← store table last next;
      Some (with_queue sem last c, table, Some first).

(** The threads from [first] to [last]; the queue has at most as many as the
    table, the fuel. *)
Fixpoint resume_all (fuel : nat) (table : list Z) (first last : Z) : option (list Z) :=
  if first =? last then Some [first]
  else
    match fuel with
    | O => None
    | S fuel =>
      next ← load table first;
      l ← resume_all fuel table next last;
      Some (first :: l)
    end.

(** The object, the table, the threads resumed, and whether the thread stops. *)
Definition barrier_wait (tid : Z) (barrier : obj) (table : list Z) : option (obj * list Z * list Z * bool) :=
  let last := wait_queue barrier in
  if count barrier =? 1 then
    if negb (last =? EMPTY_WAIT_QUEUE) then
      first ← load table last;
      resumed ← resume_all (length table) table first last;
      Some (with_queue barrier EMPTY_WAIT_QUEUE (initial_count barrier), table, resumed, false)
    else Some (barrier, table, [], false)
  else
    table ← enqueue tid last table;
    Some (with_queue barrier tid (u8 (count barrier - 1)), table, [], true).

(** * Threads *)

(** A thread that released the lock is about to stop. *)
Inductive tstate := Running | Stopping | Stopped.

#[export] Instance tstate_eq_dec : EqDecision tstate.
Proof. solve_decision. Defined.

Inductive kind := Semaphore | Barrier.

Inductive event :=
| Passed (i : nat) (t : Z)     (* went through at once *)
| Queued (i : nat) (t : Z)
| Woken (i : nat) (t : Z)
| Given (i : nat).

Record world := {
  table : list Z;
  objs : list obj;
  threads : list tstate;
  trace : list event }.

(** Operations on object [i]; the resumed threads must be stopped.  [cfg] is
    the kind and the initial counter of each object.  Gives that would take the
    counter past a signed [char] are left out. *)
Inductive step (cfg : list (kind * Z)) : world -> world -> Prop :=
| step_take i n t w o o' tbl stop ths :
    cfg !! i = Some (Semaphore, n) -> objs w !! i = Some o -> load (threads w) t = Some Running ->
    sem_take t o (table w) = Some (o', tbl, stop) ->
    store (threads w) t (if stop then Stopping else Running) = Some ths ->
    step cfg w {| table := tbl; objs := <[i := o']> (objs w); threads := ths;
                    trace := trace w ++ [if stop : bool then Queued i t else Passed i t] |}
| step_give_none i n t w o o' tbl :
    cfg !! i = Some (Semaphore, n) -> objs w !! i = Some o -> load (threads w) t = Some Running ->
    sgn 8 (count o) < 127 -> sem_give o (table w) = Some (o', tbl, None) ->
    step cfg w {| table := tbl; objs := <[i := o']> (objs w); threads := threads w; trace := trace w ++ [Given i] |}
| step_give_some i n t w o o' tbl x ths :
    cfg !! i = Some (Semaphore, n) -> objs w !! i = Some o -> load (threads w) t = Some Running ->
    sgn 8 (count o) < 127 -> sem_give o (table w) = Some (o', tbl, Some x) ->
    load (threads w) x = Some Stopped -> store (threads w) x Running = Some ths ->
    step cfg w {| table := tbl; objs := <[i := o']> (objs w); threads := ths;
                    trace := trace w ++ [Given i; Woken i x] |}
| step_arrive i n t w o o' tbl ths :
    cfg !! i = Some (Barrier, n) -> objs w !! i = Some o -> load (threads w) t = Some Running ->
    barrier_wait t o (table w) = Some (o', tbl, [], true) ->
    store (threads w) t Stopping = Some ths ->
    step cfg w {| table := tbl; objs := <[i := o']> (objs w); threads := ths; trace := trace w ++ [Queued i t] |}
| step_last i n t w o o' tbl l :
    cfg !! i = Some (Barrier, n) -> objs w !! i = Some o -> load (threads w) t = Some Running ->
    barrier_wait t o (table w) = Some (o', tbl, l, false) ->
    Forall (fun x => load (threads w) x = Some Stopped) l ->
    step cfg w {| table := tbl; objs := <[i := o']> (objs w);
                    threads := fold_left (fun ths x => <[Z.to_nat x := Running]> ths) l (threads w);
                    trace := trace w ++ [Passed i t] ++ map (Woken i) l |}
| step_stop t w ths :
    load (threads w) t = Some Stopping -> store (threads w) t Stopped = Some ths ->
    step cfg w {| table := table w; objs := objs w; threads := ths; trace := trace w |}.

(** * The queues *)

(** The circular list through the table, from its last element [wq]. *)
Record queue_is (tbl : list Z) (wq : Z) (q : list Z) : Prop := {
  queue_nodup : NoDup q;
  queue_range : Forall (fun x => 0 <= x < Z.of_nat (length tbl)) q;
  queue_last : wq = default EMPTY_WAIT_QUEUE (list.last q);
  queue_next : forall k x y, q !! k = Some x -> q !! S k = Some y -> load tbl x = Some y;
  queue_loop : q <> [] -> load tbl wq = list.head q }.

Lemma load_store_eq {A} (l l' : list A) k v : store l k v = Some l' -> load l' k = Some v.
Proof.
  unfold store. destruct (Z.leb_spec 0 k), (Z.ltb_spec k (Z.of_nat (length l))); try done. intros [= <-].
  rewrite load_lookup by done. apply list_lookup_insert_eq. lia.
Qed.

Lemma load_store_ne {A} (l l' : list A) k j v : store l k v = Some l' -> j <> k -> load l' j = load l j.
Proof.
  unfold store, load. destruct (Z.leb_spec 0 k), (Z.ltb_spec k (Z.of_nat (length l))); try done. intros [= <-] Hj.
  destruct (Z.leb_spec 0 j); [| done]. apply list_lookup_insert_ne. lia.
Qed.

Lemma store_Some {A} (l : list A) k v : 0 <= k < Z.of_nat (length l) -> exists l', store l k v = Some l'.
Proof. intros. rewrite store_insert by done. eauto. Qed.

Lemma load_Some {A} (l : list A) k x : load l k = Some x -> 0 <= k < Z.of_nat (length l).
Proof. unfold load. destruct (Z.leb_spec 0 k); [| done]. intros H1%lookup_lt_Some. lia. Qed.

(** Only the entries of the queue matter. *)
Lemma queue_frame tbl tbl' wq q :
  queue_is tbl wq q -> length tbl' = length tbl -> (forall x, x ∈ q -> load tbl' x = load tbl x) ->
  queue_is tbl' wq q.
Proof.
  intros [Hnd Hr Hl Hn Hc] Hlen H. constructor; [done | by rewrite Hlen | done | |].
  - intros k x y Hx Hy. rewrite H by (by eapply list_elem_of_lookup_2). by eapply Hn.
  - intros Hne. rewrite H; [by apply Hc |]. rewrite Hl.
    destruct (list.last q) as [x |] eqn:E; [| by apply list.last_None in E]. simpl. apply list.last_Some in E as [q' ->]. set_solver.
Qed.

Lemma queue_empty tbl q : (Z.of_nat (length tbl) <= 255) -> queue_is tbl EMPTY_WAIT_QUEUE q -> q = [].
Proof.
  intros Hlen [_ Hr Hl _ _]. destruct (list.last q) as [x |] eqn:E; [| by apply list.last_None in E].
  apply list.last_Some in E as [q' ->]. apply Forall_app in Hr as [_ Hr]. inversion Hr; subst.
  simpl in Hl. unfold EMPTY_WAIT_QUEUE in Hl. lia.
Qed.

Lemma queue_last_spec tbl wq q :
  Z.of_nat (length tbl) <= 255 -> queue_is tbl wq q -> q <> [] ->
  exists q' , q = q' ++ [wq] /\ wq <> EMPTY_WAIT_QUEUE /\ 0 <= wq < Z.of_nat (length tbl).
Proof.
  intros Hlen [_ Hr Hl _ _] Hne. destruct (list.last q) as [x |] eqn:E; [| by apply list.last_None in E].
  simpl in Hl. subst x. apply list.last_Some in E as [q' ->]. exists q'. split; [done |].
  apply Forall_app in Hr as [_ Hr]. inversion Hr; subst. unfold EMPTY_WAIT_QUEUE. lia.
Qed.

(** Putting a thread at the end. *)
Lemma enqueue_spec tbl wq q tid :
  Z.of_nat (length tbl) <= 255 -> queue_is tbl wq q -> tid ∉ q -> 0 <= tid < Z.of_nat (length tbl) ->
  exists tbl', enqueue tid wq tbl = Some tbl' /\ queue_is tbl' tid (q ++ [tid])
    /\ length tbl' = length tbl /\ forall x, x ∉ q -> x <> tid -> load tbl' x = load tbl x.
Proof.
  intros Hlen Hq Hin Htid. unfold enqueue. destruct (decide (q = [])) as [-> | Hne].
  - destruct Hq as [_ _ Hl _ _]. simpl in Hl. subst wq. rewrite Z.eqb_refl.
    destruct (store_Some tbl tid tid Htid) as [tbl' E]. pose proof (length_store _ _ _ _ E) as El.
    exists tbl'. split_and!; [done | | done |].
    + cbn [app]. constructor; [apply NoDup_singleton | rewrite El; constructor; [lia | constructor] | done | by intros [] x y | ].
      intros _. by apply (load_store_eq _ _ _ _ E).
    + intros x _ Hx. by apply (load_store_ne _ _ _ _ _ E).
  - destruct (queue_last_spec tbl wq q Hlen Hq Hne) as (q' & Eq & Hwq & Hr).
    destruct Hq as [Hnd Hrange Hl Hn Hc]. destruct (Z.eqb_spec wq EMPTY_WAIT_QUEUE); [done |].
    rewrite Hc by done. destruct q as [| first q0]; [done |]. cbn [list.head mbind option_bind].
    destruct (store_Some tbl tid first Htid) as [t1 E1]. rewrite E1. cbn [mbind option_bind].
    pose proof (length_store _ _ _ _ E1) as El1.
    destruct (store_Some t1 wq tid ltac:(lia)) as [t2 E2]. pose proof (length_store _ _ _ _ E2) as El2.
    assert (wq ∈ first :: q0) as Hwin by (rewrite Eq; apply elem_of_app; right; by apply list_elem_of_singleton).
    assert (tid <> wq) as Htw by congruence.
    assert (forall x, x <> tid -> x <> wq -> load t2 x = load tbl x) as Hother.
    { intros x H1 H2. rewrite (load_store_ne _ _ _ _ _ E2), (load_store_ne _ _ _ _ _ E1); done. }
    exists t2. split_and!; [done | | lia |].
    2:{ intros x Hx Hxt. apply Hother; [done | congruence]. }
    constructor.
    + apply list.NoDup_app. split_and!; [done | intros y Hy ->%list_elem_of_singleton; done | apply NoDup_singleton].
    + rewrite El2, El1. apply Forall_app. split; [done | constructor; [lia | constructor]].
    + by rewrite list.last_snoc.
    + intros k x y Hx Hy. apply lookup_snoc_Some in Hy as [[Hk Hy] | [Hk ->]].
      * rewrite lookup_app_l in Hx by lia. rewrite Hother; [by eapply Hn | |].
        -- intros ->. apply Hin. by eapply list_elem_of_lookup_2.
        -- intros ->. rewrite Eq in Hx, Hy, Hnd, Hk. rewrite length_app in Hk. simpl in Hk.
           assert (k = length q') as ->; [| lia].
           eapply (NoDup_lookup _ _ _ _ Hnd Hx). by apply list_lookup_middle.
      * rewrite lookup_app_l in Hx by lia. rewrite Eq in Hx. rewrite Eq, length_app in Hk. simpl in Hk.
        assert (k = length q') as -> by lia. rewrite list_lookup_middle in Hx by done. injection Hx as <-.
        by apply (load_store_eq _ _ _ _ E2).
    + intros _. rewrite (load_store_ne _ _ _ _ _ E2), (load_store_eq _ _ _ _ E1); done.
Qed.

(** The first thread of the queue is the one after the last. *)
Lemma queue_first tbl wq x q : queue_is tbl wq (x :: q) -> load tbl wq = Some x.
Proof. intros [_ _ _ _ Hc]. by apply Hc. Qed.


(** Taking the first thread out. *)
Lemma dequeue_last tbl wq x : queue_is tbl wq [x] -> wq = x /\ queue_is tbl EMPTY_WAIT_QUEUE [].
Proof. intros [_ _ Hl _ _]. simpl in Hl. split; [done |]. constructor; try done; constructor. Qed.

Lemma dequeue_spec tbl wq x y q :
  Z.of_nat (length tbl) <= 255 -> queue_is tbl wq (x :: y :: q) ->
  x <> wq /\ load tbl x = Some y /\ exists tbl', store tbl wq y = Some tbl' /\ queue_is tbl' wq (y :: q)
    /\ length tbl' = length tbl /\ forall z, z <> wq -> load tbl' z = load tbl z.
Proof.
  intros Hlen Hq. destruct (queue_last_spec tbl wq (x :: y :: q) Hlen Hq ltac:(done)) as (q' & Eq & _ & Hr).
  destruct Hq as [Hnd Hrange Hl Hn Hc].
  assert (x <> wq) as Hx.
  { destruct q' as [| x' q'']; [done |]. injection Eq as <- Eq. apply list.NoDup_cons in Hnd as [Hnd _]. intros ->.
    apply Hnd. rewrite Eq. apply elem_of_app. right. by apply list_elem_of_singleton. }
  split_and!; [done | by apply (Hn 0%nat) |].
  destruct (store_Some tbl wq y Hr) as [tbl' E]. pose proof (length_store _ _ _ _ E) as El.
  assert (forall z, z <> wq -> load tbl' z = load tbl z) as Hother by (intros; by apply (load_store_ne _ _ _ _ _ E)).
  exists tbl'. split_and!; [done | | done | done]. apply list.NoDup_cons in Hnd as [_ Hnd].
  constructor; [done | rewrite El; by inversion Hrange | done | |].
  - intros k a b Ha Hb. rewrite Hother; [by apply (Hn (S k)) |]. intros ->.
    destruct q' as [| x' q'']; [done |]. injection Eq as _ Eq. rewrite Eq in Ha, Hb, Hnd.
    assert (k = length q'') as ->.
    { eapply (NoDup_lookup _ _ _ _ Hnd Ha). by apply list_lookup_middle. }
    apply lookup_lt_Some in Hb. rewrite length_app in Hb. simpl in Hb. lia.
  - intros _. by apply (load_store_eq _ _ _ _ E).
Qed.

(** All the threads of the queue are found, in order. *)
Lemma resume_all_spec tbl wq x q n :
  (length q <= n)%nat ->
  NoDup (x :: q) -> list.last (x :: q) = Some wq ->
  (forall k a b, (x :: q) !! k = Some a -> (x :: q) !! S k = Some b -> load tbl a = Some b) ->
  resume_all n tbl x wq = Some (x :: q).
Proof.
  revert x n. induction q as [| y q IH]; intros x n Hn Hnd Hl Hnext.
  { simpl in Hl. injection Hl as ->. destruct n; simpl; by rewrite Z.eqb_refl. }
  destruct n as [| n]; [simpl in Hn; lia |]. cbn [resume_all].
  destruct (Z.eqb_spec x wq) as [-> |].
  { exfalso. apply list.NoDup_cons in Hnd as [Hnd _]. apply Hnd. apply list.last_Some in Hl as [q' E].
    destruct q' as [| ? q'']; [done |]. injection E as -> ->. apply elem_of_app. right. by apply list_elem_of_singleton. }
  rewrite (Hnext 0%nat x y eq_refl eq_refl). cbn [mbind option_bind].
  rewrite IH; [done | simpl in Hn; lia | by apply list.NoDup_cons in Hnd as [_ ?] | done |].
  intros k a b Ha Hb. by apply (Hnext (S k)).
Qed.

(** A queue has at most as many threads as the table has entries. *)
Lemma queue_length tbl wq q : queue_is tbl wq q -> (length q <= length tbl)%nat.
Proof.
  intros [Hnd Hr _ _ _]. rewrite <- (Nat2Z.id (length tbl)), <- (length_seqZ 0 (Z.of_nat (length tbl))).
  apply submseteq_length, NoDup_submseteq; [done |]. intros x Hx.
  apply elem_of_seqZ. rewrite list.Forall_forall in Hr. apply Hr in Hx. lia.
Qed.

(** * The history of an object *)

Definition queued (i : nat) (tr : list event) : list Z :=
  omap (fun e => match e with Queued j t => if (j =? i)%nat then Some t else None | _ => None end) tr.
Definition woken (i : nat) (tr : list event) : list Z :=
  omap (fun e => match e with Woken j t => if (j =? i)%nat then Some t else None | _ => None end) tr.
Definition passed (i : nat) (tr : list event) : list Z :=
  omap (fun e => match e with Passed j t => if (j =? i)%nat then Some t else None | _ => None end) tr.
Definition given (i : nat) (tr : list event) : list Z :=
  omap (fun e => match e with Given j => if (j =? i)%nat then Some 0 else None | _ => None end) tr.

Definition len (l : list Z) : Z := Z.of_nat (length l).

Definition about (e : event) : nat :=
  match e with Passed i _ | Queued i _ | Woken i _ | Given i => i end.

Lemma len_app l k : len (l ++ k) = len l + len k.
Proof. unfold len. rewrite length_app. lia. Qed.

Lemma history_other i tr es :
  Forall (fun e => about e <> i) es ->
  queued i (tr ++ es) = queued i tr /\ woken i (tr ++ es) = woken i tr
  /\ passed i (tr ++ es) = passed i tr /\ given i (tr ++ es) = given i tr.
Proof.
  intros H. unfold queued, woken, passed, given. rewrite !omap_app.
  enough (forall f : event -> option Z, (forall e, about e <> i -> f e = None) -> omap f es = []) as Hn.
  { split_and!; (rewrite Hn; [apply app_nil_r |]); intros [j t | j t | j t | j] Hj; simpl in *; try done;
      by destruct (Nat.eqb_spec j i). }
  intros f Hf. induction H as [| e es He _ IH]; [done |]. cbn [omap list_omap]. by rewrite Hf.
Qed.

Lemma woken_map i l : queued i (map (Woken i) l) = [] /\ woken i (map (Woken i) l) = l
  /\ passed i (map (Woken i) l) = [] /\ given i (map (Woken i) l) = [].
Proof.
  unfold queued, woken, passed, given. induction l as [| x l (H1 & H2 & H3 & H4)]; [done |].
  cbn [map omap list_omap]. rewrite Nat.eqb_refl. split_and!; [done | by f_equal | done | done].
Qed.

(** What the history says of an object with queue [q]. *)
Definition obj_ok (k : kind) (n : Z) (i : nat) (o : obj) (q : list Z) (tr : list event) : Prop :=
  queued i tr = woken i tr ++ q /\ initial_count o = u8 n /\
  match k with
  | Semaphore => 0 <= count o < 256 /\ sgn 8 (count o) = n + len (given i tr) - len (passed i tr) - len (queued i tr)
                 /\ len q = Z.max 0 (- sgn 8 (count o))
  | Barrier => count o = n - len q /\ 1 <= count o /\ len (woken i tr) = (n - 1) * len (passed i tr)
  end.

Definition blocked (w : world) (x : Z) : Prop := load (threads w) x = Some Stopping \/ load (threads w) x = Some Stopped.

(** Every object has its queue, and the threads that do not run are in exactly
    one of them. *)
Record inv (cfg : list (kind * Z)) (w : world) (qs : nat -> list Z) : Prop := {
  inv_length : (length (table w) <= 24)%nat /\ length (threads w) = length (table w);
  inv_objs : forall i, is_Some (objs w !! i) <-> is_Some (cfg !! i);
  inv_queue : forall i o, objs w !! i = Some o -> queue_is (table w) (wait_queue o) (qs i);
  inv_obj : forall i o k n, objs w !! i = Some o -> cfg !! i = Some (k, n) -> obj_ok k n i o (qs i) (trace w);
  inv_none : forall i, objs w !! i = None -> qs i = [];
  inv_disjoint : forall i j x, x ∈ qs i -> x ∈ qs j -> i = j;
  inv_blocked : forall x, blocked w x <-> exists i, x ∈ qs i }.

(** Semaphores start from 0 up, barriers from 1 up, both below 128. *)
Definition cfg_ok (cfg : list (kind * Z)) : Prop :=
  Forall (fun c => match c.1 with Semaphore => 0 | Barrier => 1 end <= c.2 < 128) cfg.

(** An operation on object [i] that leaves the other queues alone. *)
Lemma inv_update cfg w qs i o o' tbl ths es q' :
  inv cfg w qs -> objs w !! i = Some o ->
  length tbl = length (table w) -> length ths = length (threads w) ->
  (forall j x, j <> i -> x ∈ qs j -> load tbl x = load (table w) x) ->
  queue_is tbl (wait_queue o') q' ->
  (forall k n, cfg !! i = Some (k, n) -> obj_ok k n i o' q' (trace w ++ es)) ->
  Forall (fun e => about e = i) es ->
  (forall j x, j <> i -> x ∈ qs j -> x ∉ q') ->
  (forall x, (load ths x = Some Stopping \/ load ths x = Some Stopped) <-> x ∈ q' \/ exists j, j <> i /\ x ∈ qs j) ->
  inv cfg {| table := tbl; objs := <[i := o']> (objs w); threads := ths; trace := trace w ++ es |}
    (fun j => if (j =? i)%nat then q' else qs j).
Proof.
  intros [Hlen Hobjs Hqueue Hobj Hnone Hdis Hblk] Hi Htbl Hths Hsame Hq' Hok Hes Hdq Hb.
  pose proof (lookup_lt_Some _ _ _ Hi) as Hlt.
  constructor; cbn [table objs threads trace].
  - by rewrite Htbl, Hths.
  - intros j. rewrite <- Hobjs. rewrite !lookup_lt_is_Some, length_insert. done.
  - intros j oj Hj. destruct (Nat.eqb_spec j i) as [-> |].
    + rewrite list_lookup_insert_eq in Hj by done. by injection Hj as <-.
    + rewrite list_lookup_insert_ne in Hj by done. apply (queue_frame (table w)); [by apply Hqueue | done |].
      intros x Hx. by apply (Hsame j).
  - intros j oj k n Hj Hc. destruct (Nat.eqb_spec j i) as [-> |].
    + rewrite list_lookup_insert_eq in Hj by done. injection Hj as <-. by apply Hok.
    + rewrite list_lookup_insert_ne in Hj by done. specialize (Hobj j oj k n Hj Hc). unfold obj_ok in *.
      destruct (history_other j (trace w) es) as (-> & -> & -> & ->); [| done].
      eapply list.Forall_impl; [exact Hes |]. intros e He. simpl in He. congruence.
  - intros j Hj. destruct (Nat.eqb_spec j i) as [-> |].
    + by rewrite list_lookup_insert_eq in Hj.
    + rewrite list_lookup_insert_ne in Hj by done. by apply Hnone.
  - intros j j' x. destruct (Nat.eqb_spec j i) as [Ej | Ej], (Nat.eqb_spec j' i) as [Ej' | Ej']; intros Hx Hx';
      [congruence | | | by eapply Hdis].
    + by destruct (Hdq j' x Ej' Hx').
    + by destruct (Hdq j x Ej Hx).
  - intros x. unfold blocked. cbn [threads]. rewrite Hb. split.
    + intros [Hx | (j & Hj & Hx)]; [exists i; by rewrite Nat.eqb_refl |]. exists j.
      by destruct (Nat.eqb_spec j i).
    + intros (j & Hx). destruct (Nat.eqb_spec j i) as [Ej | Ej]; [by left | right; by exists j].
Qed.

(** * Each operation *)

(** The history after the events of one operation. *)
Lemma history_snoc i tr es :
  queued i (tr ++ es) = queued i tr ++ queued i es /\ woken i (tr ++ es) = woken i tr ++ woken i es
  /\ passed i (tr ++ es) = passed i tr ++ passed i es /\ given i (tr ++ es) = given i tr ++ given i es.
Proof. unfold queued, woken, passed, given. by rewrite !omap_app. Qed.

Lemma history_one i t :
  (queued i [Queued i t] = [t] /\ woken i [Queued i t] = [] /\ passed i [Queued i t] = [] /\ given i [Queued i t] = [])
  /\ (queued i [Passed i t] = [] /\ woken i [Passed i t] = [] /\ passed i [Passed i t] = [t] /\ given i [Passed i t] = [])
  /\ (queued i [Given i] = [] /\ woken i [Given i] = [] /\ passed i [Given i] = [] /\ given i [Given i] = [0])
  /\ (queued i [Given i; Woken i t] = [] /\ woken i [Given i; Woken i t] = [t]
      /\ passed i [Given i; Woken i t] = [] /\ given i [Given i; Woken i t] = [0]).
Proof. unfold queued, woken, passed, given. cbn [omap list_omap]. by rewrite Nat.eqb_refl. Qed.

Lemma sgn8_u8 c : -128 <= c < 128 -> sgn 8 (u8 c) = c.
Proof.
  intros Hc. unfold sgn, wrap. rewrite Z.add_mod_idemp_l by done.
  rewrite Z.mod_small; simpl; lia.
Qed.

Lemma sgn8_pred c : 0 <= c < 256 -> -128 < sgn 8 c -> sgn 8 (c - 1) = sgn 8 c - 1.
Proof.
  intros Hc. unfold sgn. change (2 ^ (8 - 1)) with 128. change (2 ^ 8) with 256. intros H.
  pose proof (Z.div_mod (c + 128) 256). pose proof (Z.mod_pos_bound (c + 128) 256).
  replace ((c - 1 + 128) mod 256) with ((c + 128) mod 256 - 1); [lia |].
  apply (Z.mod_unique _ _ ((c + 128) / 256)); lia.
Qed.

Lemma sgn8_succ c : 0 <= c < 256 -> sgn 8 c < 127 -> sgn 8 (u8 (c + 1)) = sgn 8 c + 1.
Proof.
  intros Hc Hlt. unfold sgn, wrap in *. change (2 ^ (8 - 1)) with 128 in *. change (2 ^ 8) with 256 in *.
  rewrite Z.add_mod_idemp_l by done.
  pose proof (Z.div_mod (c + 128) 256). pose proof (Z.mod_pos_bound (c + 128) 256).
  replace ((c + 1 + 128) mod 256) with ((c + 128) mod 256 + 1); [lia |].
  apply (Z.mod_unique _ _ ((c + 128) / 256)); lia.
Qed.

Lemma sgn8_range c : -128 <= sgn 8 c < 128.
Proof. unfold sgn. change (2 ^ (8 - 1)) with 128. pose proof (Z.mod_pos_bound (c + 128) (2 ^ 8)). simpl in *. lia. Qed.

(** A thread that runs is in no queue. *)
Lemma running_free cfg w qs t j : inv cfg w qs -> load (threads w) t = Some Running -> t ∉ qs j.
Proof.
  intros Hinv Hr Hin. assert (blocked w t) as [H | H] by (apply (inv_blocked _ _ _ Hinv); by exists j); congruence.
Qed.

(** Threads blocked after thread [t] joined queue [i]. *)
Lemma blocked_join cfg w qs i t ths :
  inv cfg w qs -> load (threads w) t = Some Running -> store (threads w) t Stopping = Some ths ->
  forall x, (load ths x = Some Stopping \/ load ths x = Some Stopped)
            <-> x ∈ qs i ++ [t] \/ exists j, j <> i /\ x ∈ qs j.
Proof.
  intros Hinv Hr E x. pose proof (inv_blocked _ _ _ Hinv x) as Hb. unfold blocked in Hb.
  rewrite elem_of_app, list_elem_of_singleton. destruct (Z.eq_dec x t) as [-> | Hne].
  - rewrite (load_store_eq _ _ _ _ E). split; [by left; right | by left].
  - rewrite (load_store_ne _ _ _ _ _ E Hne), Hb. split.
    + intros (j & Hj). destruct (Nat.eq_dec j i) as [-> |]; [by left; left | right; by exists j].
    + intros [[H | H] | (j & _ & H)]; [by exists i | done | by exists j].
Qed.

(** A thread joining the queue of object [i]. *)
Lemma inv_join cfg w qs i t o o' tbl ths :
  inv cfg w qs -> objs w !! i = Some o -> load (threads w) t = Some Running ->
  enqueue t (wait_queue o) (table w) = Some tbl -> store (threads w) t Stopping = Some ths ->
  wait_queue o' = t ->
  (forall k n, cfg !! i = Some (k, n) -> obj_ok k n i o' (qs i ++ [t]) (trace w ++ [Queued i t])) ->
  exists qs', inv cfg {| table := tbl; objs := <[i := o']> (objs w); threads := ths; trace := trace w ++ [Queued i t] |} qs'.
Proof.
  intros Hinv Ho Hr Henq Hst Hwq Hok. pose proof (inv_length _ _ _ Hinv) as [Hlen Hlen'].
  destruct (enqueue_spec (table w) (wait_queue o) (qs i) t) as (tbl' & E & Hq & Hl & Hother);
    [lia | by apply (inv_queue _ _ _ Hinv) | by eapply running_free | apply load_Some in Hr; lia |].
  rewrite Henq in E. injection E as <-. eexists.
  eapply (inv_update cfg w qs i o o' tbl ths [Queued i t] (qs i ++ [t])); [done | done | done | by eapply length_store | | by rewrite Hwq | done | by constructor | |].
  - intros j x Hj Hx. apply Hother; [intros Hxi; by eapply Hj, (inv_disjoint _ _ _ Hinv) |].
    intros ->. by eapply running_free.
  - intros j x Hj Hx [Hx' | ->%list_elem_of_singleton]%elem_of_app; [by eapply Hj, (inv_disjoint _ _ _ Hinv) | by eapply running_free].
  - by eapply blocked_join.
Qed.

(** Threads blocked after the threads [l] of queue [i] were resumed. *)
Lemma blocked_leave cfg w qs i l q' ths :
  inv cfg w qs -> qs i = l ++ q' -> NoDup (qs i) ->
  (forall x, load ths x = if decide (x ∈ l) then Some Running else load (threads w) x) ->
  forall x, (load ths x = Some Stopping \/ load ths x = Some Stopped)
            <-> x ∈ q' \/ exists j, j <> i /\ x ∈ qs j.
Proof.
  intros Hinv Hq Hnd Hths x. pose proof (inv_blocked _ _ _ Hinv x) as Hb. unfold blocked in Hb.
  rewrite Hths. rewrite Hq in Hnd. apply list.NoDup_app in Hnd as (_ & Hd & _). destruct (decide (x ∈ l)) as [Hx | Hx].
  - split; [by intros [? | ?] |]. intros [H | (j & Hj & H)]; [by destruct (Hd x) |].
    destruct Hj. eapply (inv_disjoint _ _ _ Hinv); [done |]. rewrite Hq. apply elem_of_app. by left.
  - rewrite Hb. split.
    + intros (j & H). destruct (Nat.eq_dec j i) as [-> |]; [| right; by exists j].
      rewrite Hq in H. apply elem_of_app in H as [H | H]; [done | by left].
    + intros [H | (j & _ & H)]; [exists i; rewrite Hq; apply elem_of_app; by right | by exists j].
Qed.

Lemma resume_load l ths : Forall (fun x => 0 <= x < Z.of_nat (length ths)) l ->
  length (fold_left (fun ths x => <[Z.to_nat x := Running]> ths) l ths) = length ths
  /\ forall x, load (fold_left (fun ths x => <[Z.to_nat x := Running]> ths) l ths) x
               = if decide (x ∈ l) then Some Running else load ths x.
Proof.
  revert ths. induction l as [| y l IH]; intros ths Hl; cbn [fold_left].
  { split; [done |]. intros x. by destruct (decide (x ∈ [])) as [H |]; [apply elem_of_nil in H |]. }
  apply list.Forall_cons in Hl as [Hy Hl].
  destruct (IH (<[Z.to_nat y:=Running]> ths)) as [E1 E2]; [by rewrite length_insert |].
  rewrite length_insert in E1. split; [done |]. intros x. rewrite E2.
  destruct (decide (x ∈ l)) as [H | H], (decide (x ∈ y :: l)) as [H' | H']; try done.
  - destruct H'. by apply list_elem_of_further.
  - apply elem_of_cons in H' as [-> | H']; [| done]. rewrite load_lookup by lia. apply list_lookup_insert_eq. lia.
  - unfold load. destruct (Z.leb_spec 0 x); [| done]. apply list_lookup_insert_ne.
    intros E. apply H'. apply elem_of_cons. left. lia.
Qed.

Ltac history := match goal with
  | |- context [queued ?i (?tr ++ ?es)] => let H1 := fresh in let H2 := fresh in let H3 := fresh in let H4 := fresh in
      destruct (history_snoc i tr es) as (H1 & H2 & H3 & H4); rewrite ?H1, ?H2, ?H3, ?H4; clear H1 H2 H3 H4 end.

(** Taking: at once when the counter stays non-negative, else in the queue. *)
Lemma take_inv cfg w qs i n t o o' tbl stop ths :
  inv cfg w qs -> cfg !! i = Some (Semaphore, n) -> objs w !! i = Some o -> load (threads w) t = Some Running ->
  sem_take t o (table w) = Some (o', tbl, stop) ->
  store (threads w) t (if stop then Stopping else Running) = Some ths ->
  exists qs', inv cfg {| table := tbl; objs := <[i := o']> (objs w); threads := ths;
                         trace := trace w ++ [if stop : bool then Queued i t else Passed i t] |} qs'.
Proof.
  intros Hinv Hc Ho Hr Ht Hst. destruct (inv_obj _ _ _ Hinv i o _ _ Ho Hc) as (Hh & Hi & Hco & Hcnt & Hq).
  destruct (history_one i t) as ((E1 & E2 & E3 & E4) & (F1 & F2 & F3 & F4) & _).
  pose proof (queue_length _ _ _ (inv_queue _ _ _ Hinv i o Ho)) as Hql. pose proof (inv_length _ _ _ Hinv) as [Hlen _].
  assert (sgn 8 (count o - 1) = sgn 8 (count o) - 1) as Ec by (apply sgn8_pred; unfold len in Hq; lia).
  assert (sgn 8 (u8 (sgn 8 (count o) - 1)) = sgn 8 (count o) - 1) as Ec'.
  { apply sgn8_u8. pose proof (sgn8_range (count o)). unfold len in Hq. lia. }
  unfold sem_take in Ht. rewrite Ec in Ht. destruct (Z.ltb_spec (sgn 8 (count o) - 1) 0).
  - destruct (enqueue t (wait_queue o) (table w)) as [tbl' |] eqn:Henq; [| done]. injection Ht as <- <- <-.
    eapply inv_join; [done | done | done | done | done | done |]. intros k m Hc'. rewrite Hc in Hc'. injection Hc' as <- <-.
    unfold obj_ok. history. cbn [count initial_count with_queue]. rewrite E1, E2, E3, E4, Ec', !app_nil_r, !len_app.
    split_and!; [by rewrite Hh, app_assoc | done | apply wrap_range; lia | apply wrap_range; lia | change (len [t]) with 1; lia |].
    change (len [t]) with 1. lia.
  - injection Ht as <- <- <-. assert (ths = threads w) as ->.
    { unfold store in Hst. destruct ((0 <=? t) && _); [| done]. injection Hst as <-. apply list_insert_id.
      unfold load in Hr. by destruct (0 <=? t). }
    eexists. eapply (inv_update cfg w qs i o _ _ _ [Passed i t] (qs i)); [done | done | done | done | done | | | by constructor | |].
    + cbn [wait_queue with_queue]. by apply (inv_queue _ _ _ Hinv).
    + intros k m Hc'. rewrite Hc in Hc'. injection Hc' as <- <-.
      unfold obj_ok. history. cbn [count initial_count with_queue]. rewrite F1, F2, F3, F4, Ec', !app_nil_r, !len_app.
      split_and!; [done | done | apply wrap_range; lia | apply wrap_range; lia | change (len [t]) with 1; lia |]. lia.
    + intros j x Hj Hx Hx'. by eapply Hj, (inv_disjoint _ _ _ Hinv).
    + intros x. pose proof (inv_blocked _ _ _ Hinv x) as Hb. unfold blocked in Hb. rewrite Hb. split.
      * intros (j & Hj). destruct (Nat.eq_dec j i) as [Ej | Ej]; [left; by rewrite <- Ej | right; by exists j].
      * intros [Hx | (j & _ & Hx)]; [by exists i | by exists j].
Qed.

(** Giving: the counter goes up, and the first waiting thread is resumed. *)
Lemma give_queue cfg w qs i n o o' tbl r :
  inv cfg w qs -> cfg !! i = Some (Semaphore, n) -> objs w !! i = Some o ->
  sgn 8 (count o) < 127 -> sem_give o (table w) = Some (o', tbl, r) ->
  exists l q', qs i = l ++ q' /\ l = option_list r /\ (r = None -> q' = []) /\ queue_is tbl (wait_queue o') q'
  /\ length tbl = length (table w) /\ (forall j x, j <> i -> x ∈ qs j -> load tbl x = load (table w) x)
  /\ obj_ok Semaphore n i o' q' (trace w ++ match r with None => [Given i] | Some x => [Given i; Woken i x] end).
Proof.
  intros Hinv Hc Ho Hlt Hg. destruct (inv_obj _ _ _ Hinv i o _ _ Ho Hc) as (Hh & Hi & Hco & Hcnt & Hq).
  pose proof (inv_length _ _ _ Hinv) as [Hlen _]. pose proof (inv_queue _ _ _ Hinv i o Ho) as Hqi.
  assert (sgn 8 (u8 (count o + 1)) = sgn 8 (count o) + 1) as Ec by (apply sgn8_succ; done).
  unfold sem_give in Hg. destruct (Z.eqb_spec (wait_queue o) EMPTY_WAIT_QUEUE) as [Ew | Ew].
  - injection Hg as <- <- <-. pose proof Hqi as Hqi'. rewrite Ew in Hqi'.
    pose proof (queue_empty (table w) _ ltac:(lia) Hqi') as Eq.
    exists [], []. split_and!; [done | done | done | by rewrite Eq in Hqi | done | done |].
    destruct (history_one i 0) as (_ & _ & (E1 & E2 & E3 & E4) & _).
    unfold obj_ok. history. cbn [count initial_count with_queue]. rewrite E1, E2, E3, E4, Ec, !app_nil_r, !len_app.
    rewrite Eq in *. change (len []) with 0 in Hq. change (len [0]) with 1.
    split_and!; [by rewrite app_nil_r in Hh | done | apply wrap_range; lia | apply wrap_range; lia | lia | change (len []) with 0; lia].
  - destruct (qs i) as [| x q] eqn:Eq.
    { destruct Hqi as [_ _ Hl _ _]. by simpl in Hl. }
    pose proof (queue_first _ _ _ _ Hqi) as Ef. rewrite Ef in Hg. cbn [mbind option_bind] in Hg.
    destruct (history_one i x) as (_ & _ & _ & (E1 & E2 & E3 & E4)).
    assert (len (x :: q) = 1 + len q) as Elen by (unfold len; simpl; lia). rewrite Elen in Hq.
    assert (0 <= len q) by (unfold len; lia).
    assert (forall wq, obj_ok Semaphore n i (with_queue o wq (u8 (count o + 1))) q (trace w ++ [Given i; Woken i x])) as Hok.
    { intros wq. unfold obj_ok. history. cbn [count initial_count with_queue].
      rewrite E1, E2, E3, E4, Ec, !app_nil_r, !len_app. change (len [0]) with 1.
      split_and!; [by rewrite Hh, <- app_assoc | done | apply wrap_range; lia | apply wrap_range; lia | lia | lia]. }
    destruct (Z.eqb_spec x (wait_queue o)) as [Ex | Ex].
    + injection Hg as <- <- <-. destruct q as [| y q].
      * destruct (dequeue_last _ _ _ Hqi) as [_ Hq0]. exists [x], []. by split_and!.
      * destruct (dequeue_spec (table w) _ _ _ _ ltac:(lia) Hqi) as [Hcontra _]; done.
    + destruct q as [| y q].
      { destruct (dequeue_last _ _ _ Hqi) as [Hcontra _]; congruence. }
      destruct (dequeue_spec (table w) _ _ _ _ ltac:(lia) Hqi) as (_ & Ey & tbl' & Est & Hq' & Hl' & Hother).
      rewrite Ey in Hg. cbn [mbind option_bind] in Hg. rewrite Est in Hg. cbn [mbind option_bind] in Hg.
      injection Hg as <- <- <-. exists [x], (y :: q). split_and!; try done.
      intros j z Hj Hz. apply Hother. intros ->.
      destruct (queue_last_spec (table w) _ _ ltac:(lia) Hqi ltac:(done)) as (q'' & Eqq & _).
      apply Hj. eapply (inv_disjoint _ _ _ Hinv); [done |]. rewrite Eq, Eqq. apply elem_of_app. right.
      by apply list_elem_of_singleton.
Qed.

Lemma give_inv cfg w qs i n o o' tbl r ths :
  inv cfg w qs -> cfg !! i = Some (Semaphore, n) -> objs w !! i = Some o ->
  sgn 8 (count o) < 127 -> sem_give o (table w) = Some (o', tbl, r) ->
  length ths = length (threads w) ->
  (forall x, load ths x = if decide (x ∈ option_list r) then Some Running else load (threads w) x) ->
  exists qs', inv cfg {| table := tbl; objs := <[i := o']> (objs w); threads := ths;
    trace := trace w ++ match r with None => [Given i] | Some x => [Given i; Woken i x] end |} qs'.
Proof.
  intros Hinv Hc Ho Hlt Hg Hlen Hths.
  destruct (give_queue cfg w qs i n o o' tbl r) as (l & q' & Eq & -> & Hr & Hq' & Hl & Hsame & Hok); [done .. |].
  pose proof (queue_nodup _ _ _ (inv_queue _ _ _ Hinv i o Ho)) as Hnd.
  eexists. eapply (inv_update cfg w qs i o o' tbl ths _ q'); try done.
  - intros k m Hc'. rewrite Hc in Hc'. by injection Hc' as <- <-.
  - destruct r; by repeat constructor.
  - intros j x Hj Hx Hx'. apply Hj. eapply (inv_disjoint _ _ _ Hinv); [done |]. rewrite Eq. apply elem_of_app. by right.
  - by eapply blocked_leave.
Qed.

(** Arriving at a barrier. *)
Lemma arrive_inv cfg w qs i n t o o' tbl ths :
  inv cfg w qs -> cfg_ok cfg -> cfg !! i = Some (Barrier, n) -> objs w !! i = Some o -> load (threads w) t = Some Running ->
  barrier_wait t o (table w) = Some (o', tbl, [], true) -> store (threads w) t Stopping = Some ths ->
  exists qs', inv cfg {| table := tbl; objs := <[i := o']> (objs w); threads := ths; trace := trace w ++ [Queued i t] |} qs'.
Proof.
  intros Hinv Hcfg Hc Ho Hr Hb Hst. destruct (inv_obj _ _ _ Hinv i o _ _ Ho Hc) as (Hh & Hi & Hco & Hge & Hw).
  destruct (history_one i t) as ((E1 & E2 & E3 & E4) & _).
  assert (n < 128) as Hn by (eapply Forall_lookup_1 in Hcfg; [| exact Hc]; simpl in Hcfg; lia).
  unfold barrier_wait in Hb. destruct (Z.eqb_spec (count o) 1).
  { destruct (negb _); [| done]. destruct (load (table w) (wait_queue o)) as [f |]; [| done]. cbn [mbind option_bind] in Hb.
    by destruct (resume_all _ _ _ _). }
  destruct (enqueue t (wait_queue o) (table w)) as [tbl' |] eqn:Henq; [| done]. injection Hb as <- <-.
  eapply inv_join; [done | done | done | done | done | done |]. intros k m Hc'. rewrite Hc in Hc'. injection Hc' as <- <-.
  unfold obj_ok. history. cbn [count initial_count with_queue]. rewrite E1, E2, E3, !app_nil_r, !len_app.
  change (len [t]) with 1. assert (0 <= len (qs i)) by (unfold len; lia). rewrite (wrap_small 8 (count o - 1)) by lia.
  split_and!; [by rewrite Hh, app_assoc | done | lia | lia | done].
Qed.

(** The last thread at a barrier. *)
Lemma last_inv cfg w qs i n t o o' tbl l :
  inv cfg w qs -> cfg_ok cfg -> cfg !! i = Some (Barrier, n) -> objs w !! i = Some o ->
  barrier_wait t o (table w) = Some (o', tbl, l, false) ->
  exists qs', inv cfg {| table := tbl; objs := <[i := o']> (objs w);
                         threads := fold_left (fun ths x => <[Z.to_nat x := Running]> ths) l (threads w);
                         trace := trace w ++ [Passed i t] ++ map (Woken i) l |} qs'.
Proof.
  intros Hinv Hcfg Hc Ho Hb. destruct (inv_obj _ _ _ Hinv i o _ _ Ho Hc) as (Hh & Hi & Hco & Hge & Hw).
  destruct (history_one i t) as (_ & (E1 & E2 & E3 & E4) & _). destruct (woken_map i l) as (F1 & F2 & F3 & F4).
  pose proof (inv_length _ _ _ Hinv) as [Hlen Hlen']. pose proof (inv_queue _ _ _ Hinv i o Ho) as Hqi.
  assert (1 <= n < 128) as Hn by (eapply Forall_lookup_1 in Hcfg; [| exact Hc]; simpl in Hcfg; lia).
  assert (l = qs i /\ tbl = table w /\ wait_queue o' = EMPTY_WAIT_QUEUE /\ count o' = n /\ initial_count o' = u8 n /\ count o = 1) as
    (-> & -> & Hwq & Hcnt & Hini & Hc1).
  { unfold barrier_wait in Hb. destruct (Z.eqb_spec (count o) 1) as [E |].
    2:{ by destruct (enqueue _ _ _). }
    destruct (Z.eqb_spec (wait_queue o) EMPTY_WAIT_QUEUE) as [Ew | Ew]; cbn [negb] in Hb.
    - injection Hb as <- <- <-. rewrite Ew in Hqi. pose proof (queue_empty (table w) _ ltac:(lia) Hqi) as Eq. rewrite Eq in *.
      change (len []) with 0 in Hco. split_and!; try done. lia.
    - destruct (qs i) as [| x q] eqn:Eq.
      { destruct Hqi as [_ _ Hl _ _]. by simpl in Hl. }
      rewrite (queue_first _ _ _ _ Hqi) in Hb. cbn [mbind option_bind] in Hb.
      pose proof (queue_length _ _ _ Hqi) as Hql. simpl in Hql.
      destruct (queue_last_spec (table w) _ _ ltac:(lia) Hqi ltac:(done)) as (q' & Eq' & _).
      rewrite (resume_all_spec (table w) (wait_queue o) x q) in Hb;
        [| lia | by destruct Hqi | rewrite Eq'; apply list.last_snoc | by destruct Hqi].
      cbn [mbind option_bind] in Hb. injection Hb as <- <- <-. split_and!; try done.
      cbn [count with_queue]. rewrite Hi. apply wrap_small. lia. }
  destruct (resume_load (qs i) (threads w)) as [El Hload].
  { rewrite Hlen'. by destruct Hqi. }
  eexists. eapply (inv_update cfg w qs i o o' (table w) _ _ []); try done.
  - rewrite Hwq. destruct Hqi. constructor; try done; constructor.
  - intros k m Hc'. rewrite Hc in Hc'. injection Hc' as <- <-. unfold obj_ok. history.
    history.
    rewrite E1, E2, E3, F1, F2, F3, !app_nil_r, !len_app. change (len [t]) with 1. change (len []) with 0.
    rewrite Hcnt. cbn [app]. split_and!; [done | done | lia | lia | lia].
  - apply list.Forall_app. split; [by constructor |]. apply list.Forall_forall. intros e He.
    apply list_elem_of_fmap in He as (x & -> & _). done.
  - intros j x _ _ Hx. by apply elem_of_nil in Hx.
  - eapply (blocked_leave cfg w qs i (qs i) []); [done | by rewrite app_nil_r | by destruct Hqi | done].
Qed.

(** * The properties *)

Lemma step_inv cfg w w' qs : cfg_ok cfg -> inv cfg w qs -> step cfg w w' -> exists qs', inv cfg w' qs'.
Proof.
  intros Hcfg Hinv Hs. destruct Hs.
  - eapply take_inv; eassumption.
  - eapply (give_inv cfg w qs i n o o' tbl None); try done.
  - eapply (give_inv cfg w qs i n o o' tbl (Some x)); try done; [by eapply length_store |].
    intros y. destruct (decide (y ∈ option_list (Some x))) as [Hy | Hy]; cbn [option_list] in Hy.
    + apply list_elem_of_singleton in Hy as ->. by eapply load_store_eq.
    + eapply load_store_ne; [done |]. intros ->. apply Hy. by apply list_elem_of_singleton.
  - eapply arrive_inv; eassumption.
  - eapply last_inv; eassumption.
  - exists qs. destruct Hinv as [Hlen Hobjs Hqueue Hobj Hnone Hdis Hblk].
    constructor; cbn [table objs threads trace]; try done.
    + pose proof (length_store _ _ _ _ H0) as ->. done.
    + intros x. rewrite <- Hblk. unfold blocked. cbn [threads]. destruct (Z.eq_dec x t) as [-> | Hne].
      * rewrite (load_store_eq _ _ _ _ H0), H. split; auto.
      * by rewrite (load_store_ne _ _ _ _ _ H0 Hne).
Qed.

(** Nothing has been done yet, and every thread runs. *)
Definition start (cfg : list (kind * Z)) (nr_threads : nat) : world :=
  {| table := replicate nr_threads EMPTY_WAIT_QUEUE;
     objs := map (fun c => {| wait_queue := EMPTY_WAIT_QUEUE; count := u8 c.2; initial_count := u8 c.2 |}) cfg;
     threads := replicate nr_threads Running; trace := [] |}.

Lemma start_inv cfg n : cfg_ok cfg -> (n <= 24)%nat -> inv cfg (start cfg n) (fun _ => []).
Proof.
  intros Hcfg Hn. constructor; cbn [table objs threads trace start].
  - by rewrite !length_replicate.
  - intros i. rewrite !lookup_lt_is_Some. by rewrite length_map.
  - intros i o Hi. rewrite list_lookup_fmap in Hi. destruct (cfg !! i) as [c |]; [| done]. injection Hi as <-.
    constructor; try done; constructor.
  - intros i o k m Hi Hc. rewrite list_lookup_fmap, Hc in Hi. injection Hi as <-.
    eapply Forall_lookup_1 in Hcfg; [| exact Hc]. cbn [fst snd] in *. split; [done |]. split; [done |].
    cbn [count snd]. unfold len. destruct k; cbn [length queued woken passed given omap list_omap].
    + split; [apply wrap_range; lia |]. rewrite sgn8_u8 by lia. cbn. lia.
    + rewrite wrap_small by lia. cbn. lia.
  - done.
  - intros i j x H. by apply elem_of_nil in H.
  - intros x. unfold blocked, load. cbn [threads]. split; [| by intros (i & H); apply elem_of_nil in H].
    destruct (0 <=? x); [| by intros [? | ?]].
    intros [H | H]; apply lookup_replicate in H as [H _]; done.
Qed.

Lemma reachable_inv cfg n w : cfg_ok cfg -> (n <= 24)%nat -> rtc (step cfg) (start cfg n) w -> exists qs, inv cfg w qs.
Proof.
  intros Hcfg Hn H. assert (exists qs, inv cfg (start cfg n) qs) as Hi by (eexists; by apply start_inv).
  induction H as [w | w1 w2 w3 Hs _ IH]; [done |]. apply IH. destruct Hi as [qs Hi]. by eapply step_inv.
Qed.

(** C5: semaphores.  Whatever the interleaving of up to 24 threads on any
    semaphores and barriers, the threads woken by a semaphore are those that
    queued on it, in the same order, without any lost or doubled; those that
    went through, at once or woken, are never more than its initial counter
    plus the gives, and exactly as many while a thread waits; and the threads
    waiting are those that stopped. *)
Theorem semaphore_fair cfg nr_threads w i n :
  cfg_ok cfg -> (nr_threads <= 24)%nat -> rtc (step cfg) (start cfg nr_threads) w ->
  cfg !! i = Some (Semaphore, n) ->
  let through := len (passed i (trace w)) + len (woken i (trace w)) in
  exists q, queued i (trace w) = woken i (trace w) ++ q
    /\ through <= n + len (given i (trace w))
    /\ (q <> [] -> through = n + len (given i (trace w)))
    /\ NoDup q /\ Forall (blocked w) q.
Proof.
  intros Hcfg Hn Hr Hc through. destruct (reachable_inv cfg nr_threads w) as [qs Hinv]; [done .. |].
  destruct (proj2 (inv_objs _ _ _ Hinv i)) as [o Ho]; [by eexists |].
  destruct (inv_obj _ _ _ Hinv i o _ _ Ho Hc) as (Hh & _ & Hco & Hcnt & Hq). exists (qs i).
  assert (len (queued i (trace w)) = len (woken i (trace w)) + len (qs i)) as El by (by rewrite Hh, len_app).
  split_and!; [done | lia | | by eapply queue_nodup, (inv_queue _ _ _ Hinv) |].
  - intros Hne. assert (1 <= len (qs i)) by (unfold len; destruct (qs i); [done | simpl; lia]). lia.
  - apply list.Forall_forall. intros x Hx. apply (inv_blocked _ _ _ Hinv). by exists i.
Qed.

(** C13: barriers.  Whatever the interleaving, the threads woken by a barrier
    of [n] threads are those that queued on it, in the same order; at any time
    fewer than [n] wait, and each thread that went through without waiting,
    the last of a round, woke exactly the [n - 1] others, so nobody passes before
    [n] threads arrived and the barrier is then ready for the next round. *)
Theorem barrier_rounds cfg nr_threads w i n :
  cfg_ok cfg -> (nr_threads <= 24)%nat -> rtc (step cfg) (start cfg nr_threads) w ->
  cfg !! i = Some (Barrier, n) ->
  exists q, queued i (trace w) = woken i (trace w) ++ q
    /\ len q < n
    /\ len (woken i (trace w)) = (n - 1) * len (passed i (trace w))
    /\ len (queued i (trace w)) + len (passed i (trace w)) = n * len (passed i (trace w)) + len q
    /\ NoDup q /\ Forall (blocked w) q.
Proof.
  intros Hcfg Hn Hr Hc. destruct (reachable_inv cfg nr_threads w) as [qs Hinv]; [done .. |].
  destruct (proj2 (inv_objs _ _ _ Hinv i)) as [o Ho]; [by eexists |].
  destruct (inv_obj _ _ _ Hinv i o _ _ Ho Hc) as (Hh & _ & Hco & Hge & Hw). exists (qs i).
  assert (len (queued i (trace w)) = len (woken i (trace w)) + len (qs i)) as El by (by rewrite Hh, len_app).
  split_and!; [done | lia | done | lia | by eapply queue_nodup, (inv_queue _ _ _ Hinv) |].
  apply list.Forall_forall. intros x Hx. apply (inv_blocked _ _ _ Hinv). by exists i.
Qed.

(** The operations are defined in every reachable state: no access leaves
    the wait queue table, and waking a whole barrier terminates. *)
Theorem sync_defined cfg nr_threads w i n k o t :
  cfg_ok cfg -> (nr_threads <= 24)%nat -> rtc (step cfg) (start cfg nr_threads) w ->
  cfg !! i = Some (k, n) -> objs w !! i = Some o -> load (threads w) t = Some Running ->
  match k with
  | Semaphore => is_Some (sem_take t o (table w)) /\ is_Some (sem_give o (table w))
  | Barrier => is_Some (barrier_wait t o (table w))
  end.
Proof.
  intros Hcfg Hn Hr Hc Ho Ht. destruct (reachable_inv cfg nr_threads w) as [qs Hinv]; [done .. |].
  pose proof (inv_length _ _ _ Hinv) as [Hlen Hlen']. pose proof (inv_queue _ _ _ Hinv i o Ho) as Hqi.
  assert (is_Some (enqueue t (wait_queue o) (table w))) as [tbl He].
  { destruct (enqueue_spec (table w) (wait_queue o) (qs i) t) as (tbl & -> & _);
      [lia | done | by eapply running_free | apply load_Some in Ht; lia | by eexists]. }
  assert (wait_queue o <> EMPTY_WAIT_QUEUE -> exists x q, qs i = x :: q /\ load (table w) (wait_queue o) = Some x) as Hne.
  { intros Hne. destruct (qs i) as [| x q] eqn:Eq; [by destruct Hqi as [_ _ Hl _ _]; simpl in Hl |].
    exists x, q. split; [done | by eapply queue_first]. }
  destruct k.
  - split.
    + unfold sem_take. destruct (_ <? 0); [| by eexists]. rewrite He. by eexists.
    + unfold sem_give. destruct (Z.eqb_spec (wait_queue o) EMPTY_WAIT_QUEUE) as [| Ew]; [by eexists |].
      destruct (Hne Ew) as (x & q & Eq & ->). cbn [mbind option_bind].
      destruct (Z.eqb_spec x (wait_queue o)); [by eexists |]. rewrite Eq in Hqi. destruct q as [| y q].
      { by destruct (dequeue_last _ _ _ Hqi). }
      destruct (dequeue_spec (table w) _ _ _ _ ltac:(lia) Hqi) as (_ & -> & tbl' & E & _). cbn [mbind option_bind].
      rewrite E. by eexists.
  - unfold barrier_wait. destruct (Z.eqb_spec (count o) 1); [| rewrite He; by eexists].
    destruct (Z.eqb_spec (wait_queue o) EMPTY_WAIT_QUEUE) as [| Ew]; [by eexists |]. cbn [negb].
    destruct (Hne Ew) as (x & q & Eq & ->). cbn [mbind option_bind]. rewrite Eq in Hqi.
    pose proof (queue_length _ _ _ Hqi) as Hql. simpl in Hql.
    destruct (queue_last_spec (table w) _ _ ltac:(lia) Hqi ltac:(done)) as (q' & Eq' & _).
    rewrite (resume_all_spec (table w) (wait_queue o) x q);
      [by eexists | lia | by destruct Hqi | rewrite Eq'; apply list.last_snoc | by destruct Hqi].
Qed.

(** A run: a binary semaphore and a barrier of two; thread 0 takes the
    semaphore, threads 1 and 2 wait on it, thread 0 gives it back twice, then
    threads 0 and 1 meet at the barrier. *)
Definition sample_cfg : list (kind * Z) := [(Semaphore, 1); (Barrier, 2)].

Lemma sample_run : exists w, rtc (step sample_cfg) (start sample_cfg 3) w
  /\ trace w = [Passed 0 0; Queued 0 1; Queued 0 2; Given 0; Woken 0 1; Queued 1 0; Passed 1 1; Woken 1 0].
Proof.
  eexists. split.
  - eapply rtc_l; [eapply (step_take _ 0 1 0); reflexivity |].
    eapply rtc_l; [eapply (step_take _ 0 1 1); reflexivity |].
    eapply rtc_l; [eapply (step_take _ 0 1 2); reflexivity |].
    eapply rtc_l; [eapply (step_stop _ 1); reflexivity |].
    eapply rtc_l; [eapply (step_give_some _ 0 1 0); reflexivity |].
    eapply rtc_l; [eapply (step_arrive _ 1 2 0); reflexivity |].
    eapply rtc_l; [eapply (step_stop _ 0); reflexivity |].
    eapply rtc_l; [eapply (step_last _ 1 2 1); [reflexivity .. | by repeat constructor] |].
    apply rtc_refl.
  - reflexivity.
Qed.

Lemma sample_cfg_ok : cfg_ok sample_cfg.
Proof. repeat constructor; simpl; lia. Qed.

Lemma semaphore_fair_witness :
  exists w, rtc (step sample_cfg) (start sample_cfg 3) w
  /\ exists q, queued 0 (trace w) = woken 0 (trace w) ++ q /\ q = [2] /\ Forall (blocked w) q.
Proof.
  destruct sample_run as (w & Hw & Et). exists w. split; [done |].
  destruct (semaphore_fair sample_cfg 3 w 0 1 sample_cfg_ok ltac:(lia) Hw eq_refl) as (q & E & _ & _ & _ & Hb).
  exists q. split_and!; [done | | done]. rewrite Et in E. cbn in E. by injection E as <-.
Defined.

Lemma barrier_rounds_witness :
  exists w, rtc (step sample_cfg) (start sample_cfg 3) w
  /\ exists q, queued 1 (trace w) = woken 1 (trace w) ++ q /\ q = [] /\ len (woken 1 (trace w)) = 1.
Proof.
  destruct sample_run as (w & Hw & Et). exists w. split; [done |].
  destruct (barrier_rounds sample_cfg 3 w 1 2 sample_cfg_ok ltac:(lia) Hw eq_refl) as (q & E & _ & Hw' & _).
  exists q. split_and!; [done | | rewrite Et; reflexivity]. rewrite Et in E. cbn in E. by injection E as <-.
Defined.

Lemma sync_defined_witness :
  let o := {| wait_queue := EMPTY_WAIT_QUEUE; count := 1; initial_count := 1 |} in
  is_Some (sem_take 2 o (table (start sample_cfg 3))) /\ is_Some (sem_give o (table (start sample_cfg 3))).
Proof.
  intros o. apply (sync_defined sample_cfg 3 (start sample_cfg 3) 0 1 Semaphore o 2 sample_cfg_ok); [lia | apply rtc_refl | done ..].
Defined.
