(* ===== verification/Handshake.v ===== *)
(** Handshakes between tasklets of the DPU
    (library/src/dpu-rt/src/syslib/handshake.c): a notifier and a customer meet;
    the first to come stops, the second resumes it.  The body of an operation runs
    under the lock of the notifier; stopping comes after the lock is released, and
    resuming spins until the target is stopped. *)
From stdpp Require Import list relations.
From S2P Require Import Prelude.

Definition EMPTY_WAIT_QUEUE : Z := 0xFF.

(** The array and the tasklet resumed; [None] in its place: the caller stops. *)
Definition handshake_notify (tid : Z) (handshake_array : list Z) : option (list Z * option Z) :=
  info ← load handshake_array tid;
  if info =? EMPTY_WAIT_QUEUE then arr ← store handshake_array tid tid; Some (arr, None)
  else arr ← store handshake_array tid EMPTY_WAIT_QUEUE; Some (arr, Some info).

Inductive wait_result :=
| Wait_stops
| Wait_already                  (* EALREADY, also in errno *)
| Wait_resumes (thread : Z).

Definition handshake_wait_for (tid notifier : Z) (handshake_array : list Z) : option (list Z * wait_result) :=
  let thread := u8 notifier in
  info ← load handshake_array thread;
  if info =? EMPTY_WAIT_QUEUE then arr ← store handshake_array thread tid; Some (arr, Wait_stops)
  else if negb (info =? thread) then Some (handshake_array, Wait_already)
  else arr ← store handshake_array thread EMPTY_WAIT_QUEUE; Some (arr, Wait_resumes info).

(** * Tasklets *)

(** What a tasklet stopped for; the code does not keep it. *)
Inductive reason := Notifying | Waiting_for (notifier : Z).
Inductive tasklet := Running | Stopping (r : reason) | Stopped (r : reason).

(** Who resumed whom, and what the resumed one had stopped for. *)
Inductive meeting :=
| By_notify (notifier resumed : Z) (r : reason)
| By_wait (customer notifier resumed : Z) (r : reason)
| Refused (customer notifier : Z).

Record world := { array : list Z; tasklets : list tasklet; meetings : list meeting }.

(** A tasklet does not wait for itself: it is documented not to be woken. *)
Inductive step (w : world) : world -> Prop :=
| notify_stops t arr ths :
    load (tasklets w) t = Some Running -> handshake_notify t (array w) = Some (arr, None) ->
    store (tasklets w) t (Stopping Notifying) = Some ths ->
    step w {| array := arr; tasklets := ths; meetings := meetings w |}
| notify_resumes t x r arr ths :
    load (tasklets w) t = Some Running -> handshake_notify t (array w) = Some (arr, Some x) ->
    load (tasklets w) x = Some (Stopped r) -> store (tasklets w) x Running = Some ths ->
    step w {| array := arr; tasklets := ths; meetings := meetings w ++ [By_notify t x r] |}
| wait_stops t n arr ths :
    load (tasklets w) t = Some Running -> t <> u8 n -> handshake_wait_for t n (array w) = Some (arr, Wait_stops) ->
    store (tasklets w) t (Stopping (Waiting_for (u8 n))) = Some ths ->
    step w {| array := arr; tasklets := ths; meetings := meetings w |}
| wait_already t n arr :
    load (tasklets w) t = Some Running -> t <> u8 n -> handshake_wait_for t n (array w) = Some (arr, Wait_already) ->
    step w {| array := arr; tasklets := tasklets w; meetings := meetings w ++ [Refused t (u8 n)] |}
| wait_resumes t n x r arr ths :
    load (tasklets w) t = Some Running -> t <> u8 n -> handshake_wait_for t n (array w) = Some (arr, Wait_resumes x) ->
    load (tasklets w) x = Some (Stopped r) -> store (tasklets w) x Running = Some ths ->
    step w {| array := arr; tasklets := ths; meetings := meetings w ++ [By_wait t (u8 n) x r] |}
| tasklet_stops t r ths :
    load (tasklets w) t = Some (Stopping r) -> store (tasklets w) t (Stopped r) = Some ths ->
    step w {| array := array w; tasklets := ths; meetings := meetings w |}.

Definition start (nr_threads : nat) : world :=
  {| array := replicate nr_threads EMPTY_WAIT_QUEUE; tasklets := replicate nr_threads Running; meetings := [] |}.

(** * Invariant *)

(** The notifier a stopped tasklet is at. *)
Definition at_ (t : Z) (x : tasklet) : option Z :=
  match x with
  | Running => None
  | Stopping Notifying | Stopped Notifying => Some t
  | Stopping (Waiting_for n) | Stopped (Waiting_for n) => Some n
  end.

Definition fair_meeting (m : meeting) : Prop :=
  match m with
  | By_notify n c r => c <> n /\ r = Waiting_for n
  | By_wait c n x r => c <> n /\ x = n /\ r = Notifying
  | Refused _ _ => True
  end.

(** The entry of a notifier is the tasklet that is stopped at it, if there is
    one. *)
Record world_ok (w : world) : Prop := {
  ok_length : length (array w) = length (tasklets w) /\ (length (tasklets w) <= 255)%nat;
  ok_entry : forall n v, load (array w) n = Some v -> v <> EMPTY_WAIT_QUEUE ->
    exists x, load (tasklets w) v = Some x /\ at_ v x = Some n;
  ok_stopped : forall t x n, load (tasklets w) t = Some x -> at_ t x = Some n -> load (array w) n = Some t;
  ok_reason : forall t n r, (r = Stopping (Waiting_for n) \/ r = Stopped (Waiting_for n)) -> load (tasklets w) t = Some r -> t <> n;
  ok_meetings : Forall fair_meeting (meetings w) }.

Lemma load_range {A} (l : list A) i x : load l i = Some x -> 0 <= i < Z.of_nat (length l).
Proof. unfold load. destruct (Z.leb_spec 0 i); [| done]. intros E%lookup_lt_Some. lia. Qed.

Lemma store_changes_one {A} (l l' : list A) i v : store l i v = Some l' ->
  length l' = length l /\ load l' i = Some v /\ forall j, j <> i -> load l' j = load l j.
Proof.
  unfold store. destruct (Z.leb_spec 0 i), (Z.ltb_spec i (Z.of_nat (length l))); cbn; try done. intros [= <-].
  rewrite length_insert. split_and!; [done | |].
  - rewrite load_lookup by done. apply list_lookup_insert_eq. lia.
  - intros j Hj. unfold load. destruct (Z.leb_spec 0 j); [| done]. apply list_lookup_insert_ne. lia.
Qed.

Lemma nobody_meets_ok n : (n <= 255)%nat -> world_ok (start n).
Proof.
  intros Hn. assert (forall {A} (x y : A) i, load (replicate n x) i = Some y -> y = x) as Hrep.
  { intros A x y i. unfold load. destruct (0 <=? i); [| done]. intros [-> _]%lookup_replicate. done. }
  split; cbn; [by rewrite !length_replicate | | | | done].
  - intros i v Hl%Hrep. done.
  - intros t x i ->%Hrep. done.
  - intros t i r Hr ->%Hrep. by destruct Hr.
Qed.

Lemma block_ok w n t x arr ths l : world_ok w -> load (tasklets w) t = Some Running -> load (array w) n = Some EMPTY_WAIT_QUEUE ->
  at_ t x = Some n -> (x = Stopping Notifying \/ (x = Stopping (Waiting_for n) /\ t <> n)) ->
  store (array w) n t = Some arr -> store (tasklets w) t x = Some ths -> Forall fair_meeting l ->
  world_ok {| array := arr; tasklets := ths; meetings := l |}.
Proof.
  intros [[Hl Hle] Hen Hst Hre _] Ht Hn Hat Hx Ea Es Hf.
  apply store_changes_one in Ea as (La & Aeq & Ane). apply store_changes_one in Es as (Ls & Seq & Sne). pose proof (load_range _ _ _ Ht) as Hr.
  split; cbn; [by rewrite La, Ls | | | | done].
  - intros i v Hi Hv. destruct (Z.eq_dec i n) as [-> | Hne].
    + rewrite Aeq in Hi. injection Hi as <-. by exists x.
    + rewrite Ane in Hi by done. destruct (Hen i v Hi Hv) as (y & Hy & Hay). exists y. split; [| done].
      rewrite Sne; [done |]. intros ->. rewrite Ht in Hy. injection Hy as <-. done.
  - intros u y i Hu Hay. destruct (Z.eq_dec u t) as [-> | Hne].
    + rewrite Seq in Hu. injection Hu as <-. rewrite Hat in Hay. injection Hay as <-. done.
    + rewrite Sne in Hu by done. pose proof (Hst u y i Hu Hay) as Hi. rewrite Ane; [done |]. intros ->. rewrite Hn in Hi.
      injection Hi as <-. pose proof (load_range _ _ _ Hu). unfold EMPTY_WAIT_QUEUE in *. lia.
  - intros u i y Hy Hu. destruct (Z.eq_dec u t) as [-> | Hne].
    + rewrite Seq in Hu. injection Hu as <-. destruct Hx as [-> | [-> Htn]]; [by destruct Hy | by destruct Hy as [[= <-] | ?]].
    + rewrite Sne in Hu by done. by eapply Hre.
Qed.

Lemma resume_ok w n t arr ths l : world_ok w -> load (array w) n = Some t -> t <> EMPTY_WAIT_QUEUE ->
  store (array w) n EMPTY_WAIT_QUEUE = Some arr -> store (tasklets w) t Running = Some ths -> Forall fair_meeting l ->
  world_ok {| array := arr; tasklets := ths; meetings := l |}.
Proof.
  intros [[Hl Hle] Hen Hst Hre _] Hn Hv Ea Es Hf.
  apply store_changes_one in Ea as (La & Aeq & Ane). apply store_changes_one in Es as (Ls & Seq & Sne).
  split; cbn; [by rewrite La, Ls | | | | done].
  - intros i v Hi Hv'. destruct (Z.eq_dec i n) as [-> | Hne]; [rewrite Aeq in Hi; by injection Hi as <- |].
    rewrite Ane in Hi by done. destruct (Hen i v Hi Hv') as (y & Hy & Hay). exists y. split; [| done].
    rewrite Sne; [done |]. intros ->. destruct (Hen n t Hn Hv) as (y' & Hy' & Hay'). congruence.
  - intros u y i Hu Hay. destruct (Z.eq_dec u t) as [-> | Hne]; [rewrite Seq in Hu; by injection Hu as <- |].
    rewrite Sne in Hu by done. pose proof (Hst u y i Hu Hay) as Hi. rewrite Ane; [done |]. intros ->. congruence.
  - intros u i y Hy Hu. destruct (Z.eq_dec u t) as [-> | Hne]; [rewrite Seq in Hu; injection Hu as <-; by destruct Hy |].
    rewrite Sne in Hu by done. by eapply Hre.
Qed.

(** The tasklet in an entry is stopped for the reason the entry tells. *)
Lemma entry_reason w n v r : world_ok w -> load (array w) n = Some v -> v <> EMPTY_WAIT_QUEUE ->
  load (tasklets w) v = Some (Stopped r) -> (v = n /\ r = Notifying) \/ (v <> n /\ r = Waiting_for n).
Proof.
  intros [_ Hen _ Hre _] Hn Hv Ht. destruct (Hen n v Hn Hv) as (x & Hx & Hax). rewrite Ht in Hx. injection Hx as <-.
  destruct r as [| m]; cbn in Hax; injection Hax as <-; [by left | right; split; [| done]]. eapply Hre; [by right | done].
Qed.

Lemma step_ok w w' : world_ok w -> step w w' -> world_ok w'.
Proof.
  intros Hok Hs. pose proof (ok_meetings _ Hok) as Hf.
  destruct Hs as [t arr ths Ht En Es | t x r arr ths Ht En Hx Es | t n arr ths Ht Hne Ew Es | t n arr Ht Hne Ew
    | t n x r arr ths Ht Hne Ew Hx Es | t r ths Ht Es].
  - unfold handshake_notify in En. apply bind_Some in En as (info & Ei & En). destruct (Z.eqb_spec info EMPTY_WAIT_QUEUE) as [-> |].
    + apply bind_Some in En as (a & Ea & [= <-]). eapply (block_ok w t t (Stopping Notifying)); (done || by left).
    + by apply bind_Some in En as (a & _ & ?).
  - unfold handshake_notify in En. apply bind_Some in En as (info & Ei & En). destruct (Z.eqb_spec info EMPTY_WAIT_QUEUE) as [-> |].
    + by apply bind_Some in En as (a & _ & ?).
    + apply bind_Some in En as (a & Ea & [= <- ->]). eapply (resume_ok w t x); try done.
      apply list.Forall_app. split; [done |]. apply list.Forall_singleton.
      destruct (entry_reason w t x r Hok Ei ltac:(done) Hx) as [[-> _] | [? ->]]; [congruence | done].
  - unfold handshake_wait_for in Ew. apply bind_Some in Ew as (info & Ei & Ew). destruct (Z.eqb_spec info EMPTY_WAIT_QUEUE) as [-> |].
    + apply bind_Some in Ew as (a & Ea & [= <-]). eapply (block_ok w (u8 n) t (Stopping (Waiting_for (u8 n)))); (done || by right).
    + destruct (negb _); [done |]. by apply bind_Some in Ew as (a & _ & ?).
  - unfold handshake_wait_for in Ew. apply bind_Some in Ew as (info & Ei & Ew). destruct (Z.eqb_spec info EMPTY_WAIT_QUEUE) as [-> |].
    + by apply bind_Some in Ew as (a & _ & ?).
    + destruct (negb _); [injection Ew as <- | by apply bind_Some in Ew as (a & _ & ?)].
      destruct Hok. split; try done. cbn. apply list.Forall_app. split; [done |]. by apply list.Forall_singleton.
  - unfold handshake_wait_for in Ew. apply bind_Some in Ew as (info & Ei & Ew). destruct (Z.eqb_spec info EMPTY_WAIT_QUEUE) as [-> |].
    + by apply bind_Some in Ew as (a & _ & ?).
    + destruct (Z.eqb_spec info (u8 n)) as [-> |]; cbn [negb] in Ew; [| done]. apply bind_Some in Ew as (a & Ea & [= <- <-]).
      eapply (resume_ok w (u8 n) (u8 n)); try done. apply list.Forall_app. split; [done |]. apply list.Forall_singleton.
      destruct (entry_reason w (u8 n) (u8 n) r Hok Ei ltac:(done) Hx) as [[_ ->] | [? _]]; done.
  - apply store_changes_one in Es as (Ls & Seq & Sne). destruct Hok as [[Hl Hle] Hen Hst Hre _]. split; cbn; [by rewrite Ls | | | | done].
    + intros i v Hi Hv. destruct (Hen i v Hi Hv) as (x & Hx & Hax). destruct (Z.eq_dec v t) as [-> | Hne].
      * exists (Stopped r). split; [done |]. rewrite Ht in Hx. injection Hx as <-. done.
      * exists x. by rewrite Sne.
    + intros u x i Hu Hax. destruct (Z.eq_dec u t) as [-> | Hne]; [rewrite Seq in Hu; injection Hu as <-; by eapply (Hst t (Stopping r)) |].
      rewrite Sne in Hu by done. by eapply Hst.
    + intros u i x Hx Hu. destruct (Z.eq_dec u t) as [-> | Hne].
      * rewrite Seq in Hu. injection Hu as <-. destruct Hx as [? | [= ->]]; [done |]. eapply (Hre t i); [by left | done].
      * rewrite Sne in Hu by done. by eapply Hre.
Qed.

Lemma reach_ok n w : (n <= 255)%nat -> rtc step (start n) w -> world_ok w.
Proof.
  intros Hn H. assert (world_ok (start n)) as Hok by by apply nobody_meets_ok. revert Hok.
  induction H as [| w1 w2 w3 Hs _ IH]; [done |]. intros Hok. by eapply IH, step_ok.
Qed.

(** C31: handshakes pair notifiers and customers.  In every interleaving, a
    notification resumes only a customer that waits for this notifier, a wait
    resumes only its notifier, stopped in a notification; and a meeting is never
    missed: when one of the two has stopped, the other one resumes it at once. *)
Theorem handshake_rendezvous nr_threads w :
  (nr_threads <= 255)%nat -> rtc step (start nr_threads) w ->
  Forall fair_meeting (meetings w)
  /\ (forall c n, load (tasklets w) c = Some (Stopped (Waiting_for n)) -> load (tasklets w) n = Some Running ->
      exists w', step w w' /\ load (tasklets w') c = Some Running /\ meetings w' = meetings w ++ [By_notify n c (Waiting_for n)])
  /\ (forall c n, load (tasklets w) n = Some (Stopped Notifying) -> load (tasklets w) c = Some Running ->
      exists w', step w w' /\ load (tasklets w') n = Some Running /\ meetings w' = meetings w ++ [By_wait c n n Notifying]).
Proof.
  intros Hn H. pose proof (reach_ok _ _ Hn H) as Hok. split_and!; [apply (ok_meetings _ Hok) | |].
  - intros c n Hc Hr. pose proof (ok_stopped _ Hok c _ n Hc eq_refl) as He. pose proof (load_range _ _ _ Hc) as Hrc.
    pose proof (load_range _ _ _ He) as Hrn. destruct (ok_length _ Hok) as [_ Hle].
    pose proof (store_insert (array w) n EMPTY_WAIT_QUEUE Hrn) as Ea. pose proof (store_insert (tasklets w) c Running Hrc) as Es.
    eexists. split; [eapply (notify_resumes w n c) | split]; [done | | done | exact Es | | done].
    + unfold handshake_notify. rewrite He. cbn. destruct (Z.eqb_spec c EMPTY_WAIT_QUEUE); [unfold EMPTY_WAIT_QUEUE in *; lia |].
      by rewrite Ea.
    + cbn. by apply store_changes_one in Es as (_ & ? & _).
  - intros c n Hs Hr. pose proof (ok_stopped _ Hok n _ n Hs eq_refl) as He. pose proof (load_range _ _ _ Hs) as Hrs.
    pose proof (load_range _ _ _ He) as Hrn. destruct (ok_length _ Hok) as [_ Hle].
    pose proof (store_insert (array w) n EMPTY_WAIT_QUEUE Hrn) as Ea. pose proof (store_insert (tasklets w) n Running Hrs) as Es.
    assert (u8 n = n) as Eu by (apply wrap_small; lia). assert (c <> n) as Hne by (intros ->; congruence).
    eexists. split; [eapply (wait_resumes w c n n) | split]; [done | by rewrite Eu | | done | exact Es | | by rewrite Eu].
    + unfold handshake_wait_for. rewrite Eu, He. cbn. destruct (Z.eqb_spec n EMPTY_WAIT_QUEUE); [unfold EMPTY_WAIT_QUEUE in *; lia |].
      by rewrite Z.eqb_refl, Ea.
    + cbn. by apply store_changes_one in Es as (_ & ? & _).
Qed.

(** The customer 1 comes first. *)
Lemma handshake_rendezvous_witness :
  let w := {| array := [1; EMPTY_WAIT_QUEUE]; tasklets := [Running; Stopped (Waiting_for 0)]; meetings := [] |} in
  exists w', step w w' /\ load (tasklets w') 1 = Some Running /\ meetings w' = [By_notify 0 1 (Waiting_for 0)].
Proof.
  intros w. assert (rtc step (start 2) w) as Hr.
  { eapply rtc_l; [by apply (wait_stops (start 2) 1 0) |]. eapply rtc_l; [by eapply (tasklet_stops _ 1) |]. apply rtc_refl. }
  destruct (handshake_rendezvous 2 w ltac:(lia) Hr) as (_ & H & _). by apply (H 1 0).
Defined.
