(* ===== verification/MramAccess.v ===== *)
(** Unaligned and atomic accesses of the DPU to its MRAM
    (library/src/dpu-rt/src/syslib/mram_unaligned.c, mram_unaligned.h, the
    virtual mutexes of vmutex.h): any number of tasklets, interleaved between two
    accesses to a memory.

    An MRAM or a WRAM is a function from addresses to bytes.  A transfer that the
    hardware does not define is [None]. *)
From stdpp Require Import list.
From S2P Require Import Prelude.

(** * Memories *)

Definition mem := Z -> Z.

Definition bytes (m : mem) (a n : Z) : list Z := map (fun i => m (a + Z.of_nat i)) (seq 0 (Z.to_nat n)).

Definition upd (m : mem) (a : Z) (l : list Z) : mem :=
  fun b => if (a <=? b) && (b <? a + Z.of_nat (length l)) then nth (Z.to_nat (b - a)) l 0 else m b.

(** * Virtual mutexes *)

(** One turn of the loop of the lock: the byte of the mutex is read and written
    under the hardware mutex; the bit that was already set makes the turn fail. *)
Definition vmutex_lock (vm : list Z) (id : Z) : option (list Z) :=
  byte ← load vm (Z.shiftr id 3);
  let new := Z.lor byte (Z.shiftl 1 (Z.land id 7)) in
  if byte =? new then None else store vm (Z.shiftr id 3) new.

Definition vmutex_unlock (vm : list Z) (id : Z) : option (list Z) :=
  byte ← load vm (Z.shiftr id 3);
  store vm (Z.shiftr id 3) (Z.land byte (Z.lxor 255 (Z.shiftl 1 (Z.land id 7)))).

(** * The accesses *)

Definition VL_HASH_MRAM_ADDR (addr : Z) : Z := Z.land (Z.shiftr addr 3) (Z.shiftl 1 11 - 1).
Definition ALIGN_8_LOW (x : Z) : Z := Z.shiftl (Z.shiftr x 3) 3.
Definition ALIGN_8_HIGH (x : Z) : Z := Z.shiftl (Z.shiftr (u32 (x + 7)) 3) 3.

(** A change of the word at [a] in the critical section of a virtual mutex, or
    a transfer of aligned words. *)
Inductive access :=
| Critical (id a : Z) (f : list Z -> list Z)
| Direct (a : Z) (l : list Z).

(** The copy of some bytes in the word. *)
Definition fill (start : Z) (l word : list Z) : list Z :=
  take (Z.to_nat start) word ++ l ++ drop (Z.to_nat start + length l) word.

(** The transfer takes aligned addresses, and a multiple of 8 bytes up to 2048. *)
Definition mram_write (wram : mem) (from dest nb_of_bytes : Z) : option (list access) :=
  if (8 <=? nb_of_bytes) && (nb_of_bytes <=? 2048) && (Z.land nb_of_bytes 7 =? 0)
     && (Z.land from 7 =? 0) && (Z.land dest 7 =? 0)
  then Some [Direct dest (bytes wram from nb_of_bytes)] else None.

(** The transfer of the aligned part, and the end. *)
Definition write_aligned_part (wram : mem) (wram_addr dest nb_of_bytes : Z) : option (list access) :=
  let nb_bytes_low := u8 (ALIGN_8_LOW nb_of_bytes) in
  let dest_high := ALIGN_8_HIGH dest in
  direct ← (if nb_bytes_low =? 0 then Some [] else mram_write wram wram_addr dest_high nb_bytes_low);
  let wram_addr := if nb_bytes_low =? 0 then wram_addr else u32 (wram_addr + nb_bytes_low) in
  if nb_bytes_low <? nb_of_bytes then
    let addr := u32 (dest_high + nb_bytes_low) in
    let diff := u8 (nb_of_bytes - nb_bytes_low) in
    Some (direct ++ [Critical (VL_HASH_MRAM_ADDR addr) addr (fill 0 (bytes wram wram_addr diff))])
  else Some direct.

Definition mram_write_unaligned (wram : mem) (from dest nb_of_bytes : Z) : option (list access) :=
  let is_addr_aligned := Z.land dest 7 =? 0 in
  if is_addr_aligned && (Z.land nb_of_bytes 7 =? 0) then mram_write wram from dest nb_of_bytes
  else if negb (Z.land from 7 =? Z.land dest 7) then None
  else if is_addr_aligned then write_aligned_part wram from dest nb_of_bytes
  else
    let start := Z.land dest 7 in
    let copied := Z.min (8 - start) nb_of_bytes in
    let prolog := Critical (VL_HASH_MRAM_ADDR dest) (ALIGN_8_LOW dest) (fill start (bytes wram from copied)) in
    let nb_of_bytes := nb_of_bytes - copied in
    if nb_of_bytes =? 0 then Some [prolog]
    else rest ← write_aligned_part wram (u32 (from + copied)) dest nb_of_bytes; Some (prolog :: rest).

(** [g] is the function of the caller with its arguments, on the bits of the
    integer. *)
Definition mram_update_int_atomic (dest : Z) (g : Z -> Z) : access :=
  let dest_low := ALIGN_8_LOW dest in
  let at_ := if dest_low =? dest then 0 else 4 in
  Critical (VL_HASH_MRAM_ADDR dest) dest_low
    (fun word => fill at_ (le_bytes 4 (g (le_val (take 4 (drop (Z.to_nat at_) word))))) word).

Definition mram_write_int_atomic (dest val : Z) : access := mram_update_int_atomic dest (fun _ => val).

Definition mram_update_byte_atomic (dest : Z) (g : Z -> Z) : access :=
  let dest_low := ALIGN_8_LOW dest in
  Critical (VL_HASH_MRAM_ADDR dest) dest_low
    (fun word => fill (dest - dest_low) [u8 (g (nth (Z.to_nat (dest - dest_low)) word 0))] word).

Definition mram_write_byte_atomic (dest val : Z) : access := mram_update_byte_atomic dest (fun _ => val).

(** The transfer to the WRAM: the WRAM and the address of the first byte. *)
Definition mram_read_unaligned (mram wram : mem) (from buffer nb_of_bytes : Z) : option (mem * Z) :=
  let addr_8align := ALIGN_8_LOW from in
  let diff := u8 (from - addr_8align) in
  let size_8align := ALIGN_8_HIGH (u32 (nb_of_bytes + diff)) in
  if (8 <=? size_8align) && (size_8align <=? 2048) && (Z.land buffer 7 =? 0)
  then Some (upd wram buffer (bytes mram addr_8align size_8align), u32 (buffer + diff)) else None.

(** * The tasklets *)

Inductive instr :=
| Lock (id : Z)
| Read_word (a : Z)
| Update (f : list Z -> list Z)
| Write_word (a : Z)
| Unlock (id : Z)
| Write (a : Z) (l : list Z).

Definition code_of (x : access) : list instr :=
  match x with
  | Critical id a f => [Lock id; Read_word a; Update f; Write_word a; Unlock id]
  | Direct a l => [Write a l]
  end.

(** [access_buffer]: the word of each tasklet in
    [__mram_unaligned_access_buffer]; [code]: what each has still to do. *)
Record machine := {
  mram : mem;
  vlocks : list Z;
  access_buffer : nat -> list Z;
  code : nat -> list instr }.

Definition put {A} (f : nat -> A) (t : nat) (v : A) : nat -> A := fun u => if (u =? t)%nat then v else f u.

(** One step of a tasklet; [None]: it has nothing to do, or it spins. *)
Definition exec (s : machine) (t : nat) : option machine :=
  match code s t with
  | [] => None
  | i :: c =>
    let next m v b := {| mram := m; vlocks := v; access_buffer := b; code := put (code s) t c |} in
    match i with
    | Lock id => v ← vmutex_lock (vlocks s) id; Some (next (mram s) v (access_buffer s))
    | Read_word a => Some (next (mram s) (vlocks s) (put (access_buffer s) t (bytes (mram s) a 8)))
    | Update f => Some (next (mram s) (vlocks s) (put (access_buffer s) t (f (access_buffer s t))))
    | Write_word a => Some (next (upd (mram s) a (access_buffer s t)) (vlocks s) (access_buffer s))
    | Unlock id => v ← vmutex_unlock (vlocks s) id; Some (next (mram s) v (access_buffer s))
    | Write a l => Some (next (upd (mram s) a l) (vlocks s) (access_buffer s))
    end
  end.

Fixpoint run (s : machine) (sched : list nat) : option machine :=
  match sched with
  | [] => Some s
  | t :: sched => s ← exec s t; run s sched
  end.

(** All mutexes are free at first. *)
Definition start (m : mem) (buffers : nat -> list Z) (todo : nat -> list access) : machine :=
  {| mram := m; vlocks := replicate 256 0; access_buffer := buffers; code := fun t => concat (map code_of (todo t)) |}.

(** An access as one step. *)
Definition apply_access (x : access) (m : mem) : mem :=
  match x with
  | Critical _ a f => upd m a (f (bytes m a 8))
  | Direct a l => upd m a l
  end.

Example write_3 : mram_write_unaligned (fun a => a) 5 13 6 =
  Some [Critical 1 8 (fill 5 [5; 6; 7]); Critical 2 16 (fill 0 [8; 9; 10])].
Proof. reflexivity. Qed.

(** * Memories and mutexes *)

Lemma put_eq {A} (f : nat -> A) t v : put f t v t = v.
Proof. unfold put. by rewrite Nat.eqb_refl. Qed.

Lemma put_ne {A} (f : nat -> A) t v u : u <> t -> put f t v u = f u.
Proof. intros. unfold put. by destruct (Nat.eqb_spec u t). Qed.

Lemma length_bytes m a n : length (bytes m a n) = Z.to_nat n.
Proof. unfold bytes. by rewrite length_map, length_seq. Qed.

Lemma nth_bytes m a n i : (i < Z.to_nat n)%nat -> nth i (bytes m a n) 0 = m (a + Z.of_nat i).
Proof.
  intros Hi. unfold bytes. rewrite (nth_indep _ 0 (m (a + Z.of_nat 0%nat))) by (rewrite length_map, length_seq; lia).
  rewrite (map_nth (fun i => m (a + Z.of_nat i)) (seq 0 (Z.to_nat n)) 0%nat). by rewrite seq_nth by lia.
Qed.

Lemma bytes_ext m m' a n : (forall b, a <= b < a + n -> m b = m' b) -> bytes m a n = bytes m' a n.
Proof. intros H. unfold bytes. apply map_ext_in. intros i Hi%in_seq. apply H. lia. Qed.

Lemma length_fill st l word : 0 <= st -> st + Z.of_nat (length l) <= 8 -> length word = 8%nat -> length (fill st l word) = 8%nat.
Proof. intros Hs Hl Hw. unfold fill. rewrite !length_app, length_take, length_drop. lia. Qed.

(** Two ranges of addresses have nothing in common. *)
Definition apart (a n b k : Z) : Prop := a + n <= b \/ b + k <= a.

Lemma upd_outside m a l b : b < a \/ a + Z.of_nat (length l) <= b -> upd m a l b = m b.
Proof. intros H. unfold upd. zcases; done || lia. Qed.

Lemma upd_inside m a l b : a <= b < a + Z.of_nat (length l) -> upd m a l b = nth (Z.to_nat (b - a)) l 0.
Proof. intros H. unfold upd. zcases; done || lia. Qed.

Lemma bytes_upd_apart m a l b n : apart a (Z.of_nat (length l)) b n -> bytes (upd m a l) b n = bytes m b n.
Proof. intros H. apply bytes_ext. intros i Hi. apply upd_outside. unfold apart in H. lia. Qed.

(** The mutex [id] is taken. *)
Definition taken (vm : list Z) (id : Z) : bool := Z.testbit (nth (Z.to_nat (Z.shiftr id 3)) vm 0) (Z.land id 7).

Lemma id_split id : Z.shiftr id 3 = id / 8 /\ Z.land id 7 = id mod 8.
Proof. split; [by rewrite Z.shiftr_div_pow2 by lia | apply (Z.land_ones id 3); lia]. Qed.

Lemma taken_insert vm id id' v : length vm = 256%nat -> 0 <= id < 2048 -> 0 <= id' < 2048 ->
  taken (<[Z.to_nat (id / 8) := v]> vm) id' = if id / 8 =? id' / 8 then Z.testbit v (id' mod 8) else taken vm id'.
Proof.
  intros Hl Hi Hi'. unfold taken. destruct (id_split id') as [-> ->].
  assert (0 <= id / 8 < 256) by (split; [apply Z.div_pos | apply Z.div_lt_upper_bound]; lia).
  assert (0 <= id' / 8 < 256) by (split; [apply Z.div_pos | apply Z.div_lt_upper_bound]; lia).
  rewrite !nth_lookup. destruct (Z.eqb_spec (id / 8) (id' / 8)) as [-> | E].
  - by rewrite list_lookup_insert_eq by lia.
  - rewrite list_lookup_insert_ne by lia. done.
Qed.

Lemma same_bit id id' : 0 <= id < 2048 -> 0 <= id' < 2048 -> (id' =? id) = (id / 8 =? id' / 8) && (id' mod 8 =? id mod 8).
Proof.
  intros. pose proof (Z.div_mod id 8 ltac:(lia)). pose proof (Z.div_mod id' 8 ltac:(lia)).
  destruct (Z.eqb_spec id' id), (Z.eqb_spec (id / 8) (id' / 8)), (Z.eqb_spec (id' mod 8) (id mod 8)); subst; cbn; done || lia.
Qed.

Lemma vmutex_lock_spec vm id vm' : length vm = 256%nat -> 0 <= id < 2048 -> vmutex_lock vm id = Some vm' ->
  length vm' = 256%nat /\ taken vm id = false /\ forall id', 0 <= id' < 2048 -> taken vm' id' = taken vm id' || (id' =? id).
Proof.
  intros Hl Hi. unfold vmutex_lock. destruct (id_split id) as [E1 E2]. rewrite E1, E2.
  assert (0 <= id / 8 < 256) by (split; [apply Z.div_pos | apply Z.div_lt_upper_bound]; lia).
  pose proof (Z.mod_pos_bound id 8 ltac:(lia)).
  rewrite load_lookup by lia. destruct (vm !! Z.to_nat (id / 8)) as [byte |] eqn:Eb; [| done]. cbn.
  rewrite store_insert, shiftl_1_pow2 by lia. destruct (Z.eqb_spec byte (Z.lor byte (2 ^ (id mod 8)))) as [E | E]; [done |].
  intros [= <-]. rewrite length_insert. split; [done |].
  assert (forall id', id' / 8 = id / 8 -> taken vm id' = Z.testbit byte (id' mod 8)) as Ht.
  { intros id' E'. unfold taken. destruct (id_split id') as [-> ->]. by rewrite nth_lookup, E', Eb. }
  split.
  - rewrite Ht by done. destruct (Z.testbit byte (id mod 8)) eqn:Et; [| done]. destruct E. symmetry.
    bitwise i Hb. rewrite testbit_set by lia. destruct (Z.eqb_spec i (id mod 8)) as [-> |]; [by rewrite Et | by rewrite orb_false_r].
  - intros id' Hi'. rewrite taken_insert by done. rewrite (same_bit id id') by done.
    pose proof (Z.mod_pos_bound id' 8 ltac:(lia)).
    destruct (Z.eqb_spec (id / 8) (id' / 8)) as [Ee | Ee]; [| by rewrite orb_false_r].
    by rewrite testbit_set, Ht by lia.
Qed.

Lemma vmutex_unlock_spec vm id : length vm = 256%nat -> 0 <= id < 2048 -> exists vm', vmutex_unlock vm id = Some vm' /\
  length vm' = 256%nat /\ forall id', 0 <= id' < 2048 -> taken vm' id' = taken vm id' && negb (id' =? id).
Proof.
  intros Hl Hi. unfold vmutex_unlock. destruct (id_split id) as [E1 E2]. rewrite E1, E2.
  assert (0 <= id / 8 < 256) by (split; [apply Z.div_pos | apply Z.div_lt_upper_bound]; lia).
  pose proof (Z.mod_pos_bound id 8 ltac:(lia)).
  rewrite load_lookup by lia. destruct (lookup_lt_is_Some_2 vm (Z.to_nat (id / 8))) as [byte Eb]; [lia |]. rewrite Eb. cbn.
  rewrite store_insert, shiftl_1_pow2 by lia. eexists. split; [done |]. rewrite length_insert. split; [done |].
  intros id' Hi'. rewrite taken_insert by done. rewrite (same_bit id id') by done.
  pose proof (Z.mod_pos_bound id' 8 ltac:(lia)).
  destruct (Z.eqb_spec (id / 8) (id' / 8)) as [Ee | Ee]; [| by rewrite andb_true_r].
  unfold taken. destruct (id_split id') as [-> ->]. rewrite nth_lookup, <- Ee, Eb. cbn [default andb].
  rewrite Z.land_spec, Z.lxor_spec, testbit_pow2 by lia. f_equal.
  change 255 with (Z.ones 8). rewrite Z.ones_spec_low by lia. done.
Qed.

Lemma vmutex_lock_free vm id : length vm = 256%nat -> 0 <= id < 2048 -> taken vm id = false -> is_Some (vmutex_lock vm id).
Proof.
  intros Hl Hi Ht. unfold vmutex_lock. unfold taken in Ht. destruct (id_split id) as [E1 E2]. rewrite E1, E2 in *.
  assert (0 <= id / 8 < 256) by (split; [apply Z.div_pos | apply Z.div_lt_upper_bound]; lia).
  pose proof (Z.mod_pos_bound id 8 ltac:(lia)).
  rewrite load_lookup by lia. destruct (lookup_lt_is_Some_2 vm (Z.to_nat (id / 8))) as [byte Eb]; [lia |].
  rewrite nth_lookup, Eb in Ht. rewrite Eb. cbn in *. rewrite store_insert, shiftl_1_pow2 by lia.
  destruct (Z.eqb_spec byte (Z.lor byte (2 ^ (id mod 8)))) as [E |]; [| done].
  rewrite E, testbit_set, Z.eqb_refl, orb_true_r in Ht by lia. done.
Qed.

(** * Linearization *)

(** The mutex of a critical section is the one of its word; its change keeps the
    size of the word. *)
Definition access_ok (x : access) : Prop :=
  match x with
  | Critical id a f => id = VL_HASH_MRAM_ADDR a /\ a mod 8 = 0 /\ forall l, length l = 8%nat -> length (f l) = 8%nat
  | Direct a l => True
  end.

(** A transfer of one does not meet a word the other changes. *)
Definition compatible (x y : access) : Prop :=
  match x, y with
  | Critical _ a _, Direct b l | Direct b l, Critical _ a _ => apart a 8 b (Z.of_nat (length l))
  | _, _ => True
  end.

Lemma hash_range a : 0 <= VL_HASH_MRAM_ADDR a < 2048.
Proof. unfold VL_HASH_MRAM_ADDR. change (Z.shiftl 1 11 - 1) with 2047. apply (land_range_r 11); lia. Qed.

Lemma hash_apart a b : a mod 8 = 0 -> b mod 8 = 0 -> VL_HASH_MRAM_ADDR a <> VL_HASH_MRAM_ADDR b -> apart a 8 b 8.
Proof.
  intros Ha Hb H. unfold apart. pose proof (Z.div_mod a 8 ltac:(lia)). pose proof (Z.div_mod b 8 ltac:(lia)).
  assert (a <> b) by congruence. lia.
Qed.

(** Where a tasklet is: the accesses it has not yet made, and its mutex. *)
Inductive tasklet_at (m : mem) (b : list Z) : list instr -> list access -> option Z -> Prop :=
| At_start xs : tasklet_at m b (concat (map code_of xs)) xs None
| At_locked id a f xs : tasklet_at m b (Read_word a :: Update f :: Write_word a :: Unlock id :: concat (map code_of xs))
    (Critical id a f :: xs) (Some id)
| At_read id a f xs : b = bytes m a 8 -> tasklet_at m b (Update f :: Write_word a :: Unlock id :: concat (map code_of xs))
    (Critical id a f :: xs) (Some id)
| At_updated id a f xs : b = f (bytes m a 8) -> tasklet_at m b (Write_word a :: Unlock id :: concat (map code_of xs))
    (Critical id a f :: xs) (Some id)
| At_written id xs : tasklet_at m b (Unlock id :: concat (map code_of xs)) xs (Some id).

(** A change of the memory elsewhere. *)
Lemma tasklet_at_upd m b c xs h a l : tasklet_at m b c xs h ->
  (forall id a' f, head xs = Some (Critical id a' f) -> h = Some id -> apart a (Z.of_nat (length l)) a' 8) ->
  tasklet_at (upd m a l) b c xs h.
Proof.
  intros H Hap. destruct H; constructor; subst; rewrite bytes_upd_apart; done || by eapply Hap.
Qed.

(** The accesses of a tasklet in a history. *)
Definition made_by (t : nat) (log : list (nat * access)) : list access :=
  map snd (List.filter (fun p => (p.1 =? t)%nat) log).

Definition replay (log : list (nat * access)) (m : mem) : mem := foldl (fun m p => apply_access p.2 m) m log.

Lemma made_by_snoc t log u x : made_by t (log ++ [(u, x)]) = made_by t log ++ (if (u =? t)%nat then [x] else []).
Proof. unfold made_by. rewrite List.filter_app, map_app. cbn. by destruct (u =? t)%nat. Qed.

Lemma made_by_elem t x log : x ∈ made_by t log <-> (t, x) ∈ log.
Proof.
  unfold made_by. rewrite list_elem_of_In, in_map_iff. split.
  - intros ([u y] & <- & Hf). apply filter_In in Hf as [Hi E]. apply Nat.eqb_eq in E as <-. by apply list_elem_of_In.
  - intros Hi. exists (t, x). split; [done |]. apply filter_In. split; [by apply list_elem_of_In | apply Nat.eqb_refl].
Qed.

Section linearization.
Variables (m0 : mem) (todo : nat -> list access).
Hypothesis Hok : forall t, Forall access_ok (todo t).
Hypothesis Hcomp : forall t u x y, t <> u -> x ∈ todo t -> y ∈ todo u -> compatible x y.

(** [rem]: what each tasklet has not yet made; [hold]: its mutex; [log]: the
    accesses made, in order. *)
Record linear (s : machine) (rem : nat -> list access) (hold : nat -> option Z) (log : list (nat * access)) : Prop := {
  l_locks : length (vlocks s) = 256%nat;
  l_at : forall t, tasklet_at (mram s) (access_buffer s t) (code s t) (rem t) (hold t);
  l_log : mram s = replay log m0;
  l_made : forall t, made_by t log ++ rem t = todo t;
  l_range : forall t id, hold t = Some id -> 0 <= id < 2048;
  l_taken : forall id, 0 <= id < 2048 -> taken (vlocks s) id = true <-> exists t, hold t = Some id;
  l_unique : forall t u id, hold t = Some id -> hold u = Some id -> t = u }.

Lemma linear_todo s rem hold log t x : linear s rem hold log -> x ∈ rem t -> x ∈ todo t.
Proof. intros H Hx. rewrite <- (l_made _ _ _ _ H t). apply elem_of_app. by right. Qed.

Lemma linear_ok s rem hold log t x : linear s rem hold log -> x ∈ rem t -> access_ok x.
Proof. intros H Hx. eapply linear_todo in Hx; [| done]. pose proof (Hok t) as Ho. rewrite list.Forall_forall in Ho. by apply Ho. Qed.

(** An access made by a tasklet that holds its mutex, if it has one, leaves the
    others where they are. *)
Lemma commit_others s rem hold log t x xs : linear s rem hold log -> rem t = x :: xs ->
  (forall id a f, x = Critical id a f -> hold t = Some id) ->
  forall u, u <> t -> tasklet_at (apply_access x (mram s)) (access_buffer s u) (code s u) (rem u) (hold u).
Proof.
  intros H Hx Hh u Hu. assert (x ∈ rem t) as Hin by (rewrite Hx; apply list_elem_of_here).
  pose proof (linear_ok _ _ _ _ _ _ H Hin) as Hokx. pose proof (linear_todo _ _ _ _ _ _ H Hin) as Htx.
  assert (forall a l, (forall id' a' f', head (rem u) = Some (Critical id' a' f') -> hold u = Some id' -> apart a (Z.of_nat (length l)) a' 8) ->
    tasklet_at (upd (mram s) a l) (access_buffer s u) (code s u) (rem u) (hold u)) as Hupd
    by (intros a l Ha; apply tasklet_at_upd; [apply (l_at _ _ _ _ H) | done]).
  assert (forall id' a' f', head (rem u) = Some (Critical id' a' f') ->
    access_ok (Critical id' a' f') /\ compatible x (Critical id' a' f')) as Hhd.
  { intros id' a' f' Hd. assert (Critical id' a' f' ∈ rem u) as Hin'
      by (destruct (rem u); [done |]; injection Hd as ->; apply list_elem_of_here).
    split; [by eapply linear_ok |]. apply (Hcomp t u); [done | done | by eapply linear_todo]. }
  destruct x as [id a f | a l]; cbn [apply_access]; apply Hupd; intros id' a' f' Hd Hh'; destruct (Hhd _ _ _ Hd) as [Ho' Hc].
  - destruct Hokx as (-> & Ha & Hf), Ho' as (-> & Ha' & _). rewrite Hf by (rewrite length_bytes; lia).
    apply hash_apart; [done | done |]. intros E. destruct Hu. eapply (l_unique _ _ _ _ H); [exact Hh' |].
    rewrite <- E. by eapply Hh.
  - cbn in Hc. unfold apart in *. lia.
Qed.

(** The next state from what the step of [t] does to it. *)
Lemma linear_next s rem hold log t m v bf c xs h log' : linear s rem hold log ->
  length v = 256%nat -> tasklet_at m (bf t) c xs h ->
  (forall u, u <> t -> bf u = access_buffer s u /\ tasklet_at m (access_buffer s u) (code s u) (rem u) (hold u)) ->
  m = replay log' m0 -> (forall u, made_by u log' ++ put rem t xs u = todo u) ->
  (forall id, h = Some id -> 0 <= id < 2048 /\ forall u, u <> t -> hold u <> Some id) ->
  (forall id, 0 <= id < 2048 -> taken v id = true <-> h = Some id \/ exists u, u <> t /\ hold u = Some id) ->
  linear {| mram := m; vlocks := v; access_buffer := bf; code := put (code s) t c |} (put rem t xs) (put hold t h) log'.
Proof.
  intros H Hv Ht Hu Hm Hmade Hh Htk. split; cbn; try done.
  - intros u. destruct (decide (u = t)) as [-> |]; [by rewrite !put_eq |]. rewrite !put_ne by done.
    by destruct (Hu u) as [-> ?].
  - intros u id. destruct (decide (u = t)) as [-> |]; [rewrite put_eq; intros E; by destruct (Hh id E) |].
    rewrite put_ne by done. apply (l_range _ _ _ _ H).
  - intros id Hi. rewrite Htk by done. split.
    + intros [E | (u & Hut & E)]; [exists t; by rewrite put_eq | exists u; rewrite put_ne by done; done].
    + intros [u E]. destruct (decide (u = t)) as [-> |]; [left; by rewrite put_eq in E | right; exists u; rewrite put_ne in E by done; done].
  - intros u u' id. destruct (decide (u = t)) as [-> |], (decide (u' = t)) as [-> |]; rewrite ?put_eq, ?put_ne by done; try done.
    + intros E E'. by apply Hh in E as [_ E]; destruct (E u').
    + intros E' E. by apply Hh in E as [_ E]; destruct (E u).
    + apply (l_unique _ _ _ _ H).
Qed.

(** A step on the buffer only. *)
Lemma linear_buffer s rem hold log t b c : linear s rem hold log -> tasklet_at (mram s) b c (rem t) (hold t) ->
  exists rem' hold' log', linear {| mram := mram s; vlocks := vlocks s; access_buffer := put (access_buffer s) t b; code := put (code s) t c |} rem' hold' log'.
Proof.
  intros H Ht. exists (put rem t (rem t)), (put hold t (hold t)), log. eapply linear_next; try done.
  - apply (l_locks _ _ _ _ H).
  - by rewrite put_eq.
  - intros u Hu. rewrite put_ne by done. split; [done | apply (l_at _ _ _ _ H)].
  - apply (l_log _ _ _ _ H).
  - intros u. rewrite <- (l_made _ _ _ _ H u). f_equal. by destruct (decide (u = t)) as [-> |]; rewrite ?put_eq, ?put_ne.
  - intros id Hh. split; [by eapply (l_range _ _ _ _ H) |]. intros u Hu E. destruct Hu. by eapply (l_unique _ _ _ _ H).
  - intros id Hi. rewrite (l_taken _ _ _ _ H) by done. split.
    + intros [u E]. destruct (decide (u = t)) as [-> |]; [by left | right; by exists u].
    + intros [E | (u & _ & E)]; [by exists t | by exists u].
Qed.

(** A step that makes an access. *)
Lemma linear_commit s rem hold log t x xs c : linear s rem hold log -> rem t = x :: xs ->
  (forall id a f, x = Critical id a f -> hold t = Some id) ->
  tasklet_at (apply_access x (mram s)) (access_buffer s t) c xs (hold t) ->
  exists rem' hold' log', linear {| mram := apply_access x (mram s); vlocks := vlocks s; access_buffer := access_buffer s; code := put (code s) t c |} rem' hold' log'.
Proof.
  intros H Hx Hh Ht. exists (put rem t xs), (put hold t (hold t)), (log ++ [(t, x)]). eapply linear_next; try done.
  - apply (l_locks _ _ _ _ H).
  - intros u Hu. split; [done |]. by eapply commit_others.
  - unfold replay. rewrite foldl_app. cbn. f_equal. apply (l_log _ _ _ _ H).
  - intros u. rewrite <- (l_made _ _ _ _ H u), made_by_snoc. destruct (decide (u = t)) as [-> |].
    + by rewrite put_eq, Nat.eqb_refl, Hx, <- app_assoc.
    + rewrite put_ne by done. destruct (Nat.eqb_spec t u); [congruence | by rewrite app_nil_r].
  - intros id E. split; [by eapply (l_range _ _ _ _ H) |]. intros u Hu E'. destruct Hu. by eapply (l_unique _ _ _ _ H).
  - intros id Hi. rewrite (l_taken _ _ _ _ H) by done. split.
    + intros [u E]. destruct (decide (u = t)) as [-> |]; [by left | right; by exists u].
    + intros [E | (u & _ & E)]; [by exists t | by exists u].
Qed.

Lemma exec_linear s t s' rem hold log : linear s rem hold log -> exec s t = Some s' ->
  exists rem' hold' log', linear s' rem' hold' log'.
Proof.
  intros H E. unfold exec in E. pose proof (l_at _ _ _ _ H t) as Ht.
  remember (code s t) as c eqn:Ec. remember (rem t) as r eqn:Er. remember (hold t) as h eqn:Eh.
  destruct Ht as [xs | id a f xs | id a f xs Hb | id a f xs Hb | id xs].
  - destruct xs as [| [id a f | a l] xs]; [done | |]; cbn [map concat code_of app] in E.
    + apply bind_Some in E as (v & Ev & [= <-]).
      assert (0 <= id < 2048) as Hid.
      { pose proof (linear_ok _ _ _ _ t (Critical id a f) H ltac:(rewrite <- Er; apply list_elem_of_here)) as [-> _]. apply hash_range. }
      destruct (vmutex_lock_spec _ _ _ (l_locks _ _ _ _ H) Hid Ev) as (Hv & Hfree & Htk).
      assert (forall u, hold u <> Some id) as Hno.
      { intros u Eu. assert (taken (vlocks s) id = true) by (apply (l_taken _ _ _ _ H); [done | by exists u]). congruence. }
      exists (put rem t (Critical id a f :: xs)), (put hold t (Some id)), log. eapply linear_next; try done.
      * constructor.
      * intros u Hu. split; [done | apply (l_at _ _ _ _ H)].
      * apply (l_log _ _ _ _ H).
      * intros u. rewrite <- (l_made _ _ _ _ H u). f_equal. by destruct (decide (u = t)) as [-> |]; rewrite ?put_eq, ?put_ne.
      * by intros ? [= <-].
      * intros id' Hi'. rewrite Htk, orb_true_iff, (l_taken _ _ _ _ H), Z.eqb_eq by done. split.
        -- intros [[u Eu] | ->]; [right; exists u; split; [congruence | done] | by left].
        -- intros [[= ->] | (u & _ & Eu)]; [by right | left; by exists u].
    + injection E as <-. eapply (linear_commit s rem hold log t (Direct a l) xs); try done. rewrite <- Eh. constructor.
  - injection E as <-. eapply linear_buffer; [done |]. rewrite <- Er, <- Eh. by constructor.
  - injection E as <-. eapply linear_buffer; [done |]. rewrite <- Er, <- Eh. constructor. by rewrite Hb.
  - injection E as <-. pose proof (linear_commit s rem hold log t (Critical id a f) xs (Unlock id :: concat (map code_of xs)) H) as Hc.
    cbn [apply_access] in Hc. rewrite <- Hb in Hc. apply Hc; [done | by intros ? ? ? [= -> -> ->] |]. rewrite <- Eh. constructor.
  - apply bind_Some in E as (v & Ev & [= <-]).
    assert (0 <= id < 2048) as Hid by (eapply (l_range _ _ _ _ H t); done).
    destruct (vmutex_unlock_spec _ _ (l_locks _ _ _ _ H) Hid) as (v' & Ev' & Hv & Htk). rewrite Ev in Ev'. injection Ev' as <-.
    assert (forall u, hold u = Some id -> u = t) as Hun by (intros u Eu; by eapply (l_unique _ _ _ _ H)).
    exists (put rem t xs), (put hold t None), log. eapply linear_next; try done.
    + constructor.
    + intros u Hu. split; [done | apply (l_at _ _ _ _ H)].
    + apply (l_log _ _ _ _ H).
    + intros u. rewrite <- (l_made _ _ _ _ H u). f_equal. by destruct (decide (u = t)) as [-> |]; rewrite ?put_eq, ?put_ne.
    + intros id' Hi'. rewrite Htk, andb_true_iff, (l_taken _ _ _ _ H), negb_true_iff, Z.eqb_neq by done. split.
      * intros [[u Eu] Hne]. right. exists u. split; [congruence | done].
      * intros [? | (u & Hu & Eu)]; [done |]. split; [by exists u |]. intros ->. by apply Hu, Hun.
Qed.

Lemma start_linear buffers : linear (start m0 buffers todo) todo (fun _ => None) [].
Proof.
  split; try done; [constructor |]. intros id Hi. split; [| by intros []]. unfold taken. cbn [vlocks start].
  destruct (id_split id) as [-> ->]. rewrite nth_lookup, lookup_replicate_2; [by rewrite Z.bits_0 |].
  assert (id / 8 < 256) by (apply Z.div_lt_upper_bound; lia). lia.
Qed.

Lemma run_linear sched s s' rem hold log : linear s rem hold log -> run s sched = Some s' ->
  exists rem' hold' log', linear s' rem' hold' log'.
Proof.
  revert s rem hold log. induction sched as [| t sched IH]; intros s rem hold log H; cbn; [intros [= <-]; by exists rem, hold, log |].
  intros (s1 & E & Es)%bind_Some. destruct (exec_linear _ _ _ _ _ _ H E) as (? & ? & ? & H1). by eapply IH.
Qed.

(** Some tasklet that has something to do can do it. *)
Lemma linear_progress s rem hold log t : linear s rem hold log -> code s t <> [] -> exists u s', exec s u = Some s'.
Proof.
  intros H Hc. pose proof (l_at _ _ _ _ H t) as Ht. destruct (hold t) as [id |] eqn:Eh.
  - exists t. unfold exec. inversion Ht as [| ? | ? | ? | ? ?]; try (by eexists). subst.
    destruct (vmutex_unlock_spec (vlocks s) id (l_locks _ _ _ _ H)) as (v & -> & _); [by eapply (l_range _ _ _ _ H) | by eexists].
  - inversion Ht as [xs E1 E2 E3 | | | |]. destruct xs as [| [id a f | a l] xs]; [by rewrite <- E1 in Hc | | exists t; unfold exec; rewrite <- E1; by eexists].
    assert (0 <= id < 2048) as Hid.
    { pose proof (linear_ok _ _ _ _ t (Critical id a f) H ltac:(rewrite <- E2; apply list_elem_of_here)) as [-> _]. apply hash_range. }
    destruct (taken (vlocks s) id) eqn:Et.
    + apply (l_taken _ _ _ _ H) in Et as [u Eu]; [| done]. exists u. unfold exec.
      pose proof (l_at _ _ _ _ H u) as Hu. rewrite Eu in Hu. inversion Hu as [| ? | ? | ? | ? ?]; try (by eexists). subst.
      destruct (vmutex_unlock_spec (vlocks s) id (l_locks _ _ _ _ H) Hid) as (v & -> & _). by eexists.
    + exists t. unfold exec. rewrite <- E1. cbn. destruct (vmutex_lock_free _ _ (l_locks _ _ _ _ H) Hid Et) as [v ->]. by eexists.
Qed.

(** A run, as the accesses it has made. *)
Lemma run_log buffers sched s : run (start m0 buffers todo) sched = Some s ->
  exists log, mram s = replay log m0 /\ (forall t, made_by t log `prefix_of` todo t)
    /\ ((forall t, code s t = []) -> forall t, made_by t log = todo t).
Proof.
  intros E. destruct (run_linear sched _ _ _ _ _ (start_linear buffers) E) as (rem & hold & log & H).
  exists log. split_and!; [apply (l_log _ _ _ _ H) | intros t; exists (rem t); by rewrite (l_made _ _ _ _ H) |].
  intros Hd t. rewrite <- (l_made _ _ _ _ H t). pose proof (l_at _ _ _ _ H t) as Ht. rewrite Hd in Ht.
  inversion Ht as [xs E1 E2 E3 | | | |]. destruct xs as [| [] ?]; [by rewrite <- E2, app_nil_r | done | done].
Qed.
End linearization.

(** Each step of a tasklet is one of its instructions. *)
Lemma run_count s0 sched s t : run s0 sched = Some s ->
  (count_occ Nat.eq_dec sched t + length (code s t) = length (code s0 t))%nat.
Proof.
  revert s0. induction sched as [| u sched IH]; intros s0; cbn; [by intros [= <-] |].
  intros (s1 & E1 & Es)%bind_Some. apply IH in Es.
  assert (length (code s0 t) = length (code s1 t) + if Nat.eq_dec u t then 1 else 0)%nat as Hl.
  { unfold exec in E1. destruct (code s0 u) as [| i c] eqn:Ec; [done |].
    assert (code s1 = put (code s0) u c) as -> by (destruct i; try (apply bind_Some in E1 as (? & _ & E1)); by injection E1 as <-).
    destruct (Nat.eq_dec u t) as [-> |]; [rewrite put_eq, Ec; cbn; lia | rewrite put_ne by done; lia]. }
  destruct (Nat.eq_dec u t); lia.
Qed.

(** C23: the accesses of the tasklets to the MRAM are atomic.  In every
    interleaving of their steps, the memory is the one left by whole accesses one
    after the other, a beginning of those of each tasklet in its order, and all of
    them at the end.  A tasklet with something left to do never deadlocks the
    others, and each step brings the end nearer. *)
Theorem mram_accesses_linearizable m0 buffers todo sched s :
  (forall t, Forall access_ok (todo t)) ->
  (forall t u x y, t <> u -> x ∈ todo t -> y ∈ todo u -> compatible x y) ->
  run (start m0 buffers todo) sched = Some s ->
  (exists log, mram s = replay log m0 /\ (forall t, made_by t log `prefix_of` todo t)
     /\ ((forall t, code s t = []) -> forall t, made_by t log = todo t))
  /\ (forall t, code s t <> [] -> exists u s', exec s u = Some s')
  /\ (forall t, (count_occ Nat.eq_dec sched t + length (code s t) = length (concat (map code_of (todo t))))%nat).
Proof.
  intros Hok Hcomp E.
  destruct (run_linear m0 todo Hok Hcomp sched _ _ _ _ _ (start_linear m0 todo buffers) E) as (rem & hold & log & H).
  split_and!.
  - by eapply run_log.
  - intros t. by eapply linear_progress.
  - intros t. by apply (run_count _ _ _ t) in E.
Qed.

(** Two tasklets that add to the same counter. *)
Lemma mram_accesses_linearizable_witness :
  let add n := [mram_update_int_atomic 12 (fun v => u32 (v + n))] in
  let todo t := match t with 0%nat => add 5 | 1%nat => add 7 | _ => [] end in
  exists s log, run (start (fun _ => 0) (fun _ => []) todo) [0; 0; 0; 0; 0; 1; 1; 1; 1; 1]%nat = Some s
    /\ mram s = replay log (fun _ => 0) /\ le_val (bytes (mram s) 12 4) = 12.
Proof.
  intros add todo.
  assert (match run (start (fun _ => 0) (fun _ => []) todo) [0; 0; 0; 0; 0; 1; 1; 1; 1; 1]%nat with
    Some s => le_val (bytes (mram s) 12 4) | None => 0 end = 12) as Hr by (vm_compute; reflexivity).
  destruct (run (start (fun _ => 0) (fun _ => []) todo) [0; 0; 0; 0; 0; 1; 1; 1; 1; 1]%nat) as [s |] eqn:E; [| discriminate].
  assert (forall t x, x ∈ todo t -> exists g, x = mram_update_int_atomic 12 g) as Ht.
  { intros t x Hx. unfold todo, add in Hx. clear -Hx. destruct t as [| [| t]]; [| | by apply not_elem_of_nil in Hx];
      (eexists; rewrite list_elem_of_singleton in Hx; exact Hx). }
  destruct (mram_accesses_linearizable (fun _ => 0) (fun _ => []) todo [0; 0; 0; 0; 0; 1; 1; 1; 1; 1]%nat s) as [(log & Hl & _) _];
    [| | exact E | exists s, log; exact (conj eq_refl (conj Hl Hr))].
  - intros t. apply list.Forall_forall. intros x Hx. destruct (Ht t x Hx) as [g ->]. split_and!; [done | done |].
    intros l Hw. by apply length_fill.
  - intros t u x y _ Hx Hy. destruct (Ht t x Hx) as [g ->], (Ht u y Hy) as [g' ->]. exact I.
Defined.

(** * Unaligned writes *)

Lemma land7 x : Z.land x 7 = x mod 8.
Proof. apply (Z.land_ones x 3). lia. Qed.

Lemma align_low x : ALIGN_8_LOW x = 8 * (x / 8).
Proof. unfold ALIGN_8_LOW. rewrite Z.shiftl_mul_pow2, Z.shiftr_div_pow2 by lia. change (2 ^ 3) with 8. lia. Qed.

Lemma align_high x : 0 <= x < 2 ^ 32 - 8 -> ALIGN_8_HIGH x = 8 * ((x + 7) / 8).
Proof. intros. unfold ALIGN_8_HIGH. rewrite wrap_small by lia. apply (align_low (x + 7)). Qed.

Lemma hash_align x y : x / 8 = y / 8 -> VL_HASH_MRAM_ADDR x = VL_HASH_MRAM_ADDR y.
Proof. intros E. unfold VL_HASH_MRAM_ADDR. rewrite !Z.shiftr_div_pow2 by lia. change (2 ^ 3) with 8. by rewrite E. Qed.

(** An access that puts the bytes of [src] on [n] addresses from [lo], and
    changes nothing else. *)
Record piece (src : mem) (x : access) (lo n : Z) : Prop := {
  piece_ok : access_ok x;
  piece_effect : forall m b, apply_access x m b = if (lo <=? b) && (b <? lo + n) then src b else m b;
  piece_place : match x with Critical _ a _ => a <= lo /\ lo + n <= a + 8 | Direct a l => a = lo /\ Z.of_nat (length l) = n /\ a mod 8 = 0 /\ n mod 8 = 0 end }.

(** Pieces that follow each other. *)
Fixpoint pieces (src : mem) (xs : list access) (lo hi : Z) : Prop :=
  match xs with
  | [] => lo = hi
  | x :: xs => exists n, 0 < n /\ piece src x lo n /\ pieces src xs (lo + n) hi
  end.

Lemma direct_piece src a l n : a mod 8 = 0 -> n mod 8 = 0 -> Z.of_nat (length l) = n -> (forall b, a <= b < a + n -> nth (Z.to_nat (b - a)) l 0 = src b) ->
  piece src (Direct a l) a n.
Proof.
  intros Ha Hn Hl H. split; [done | | done]. intros m b. cbn. unfold upd. rewrite Hl.
  destruct (Z.leb_spec a b), (Z.ltb_spec b (a + n)); cbn; try done. by apply H.
Qed.

Lemma critical_piece src id a st l n : id = VL_HASH_MRAM_ADDR a -> a mod 8 = 0 -> 0 <= st -> Z.of_nat (length l) = n -> st + n <= 8 ->
  (forall b, a + st <= b < a + st + n -> nth (Z.to_nat (b - (a + st))) l 0 = src b) ->
  piece src (Critical id a (fill st l)) (a + st) n.
Proof.
  intros Hid Ha Hst Hl Hn H. split; [split_and!; [done | done |]; intros w Hw; apply length_fill; lia | | lia].
  intros m b. cbn. unfold upd. rewrite length_fill by (rewrite ?length_bytes; lia). change (Z.of_nat 8) with 8.
  unfold fill. destruct (Z.leb_spec a b), (Z.ltb_spec b (a + 8)); cbn.
  - rewrite !nth_lookup. destruct (Z.leb_spec (a + st) b); cbn.
    + rewrite lookup_app_r by (rewrite length_take, length_bytes; lia). rewrite length_take, length_bytes.
      replace (Z.to_nat (b - a) - Z.to_nat st `min` Z.to_nat 8)%nat with (Z.to_nat (b - (a + st))) by lia.
      destruct (Z.ltb_spec b (a + st + n)).
      * rewrite lookup_app_l by lia. rewrite <- nth_lookup. apply H. lia.
      * rewrite lookup_app_r, lookup_drop by lia. rewrite <- nth_lookup, nth_bytes by lia. f_equal. lia.
    + rewrite lookup_app_l by (rewrite length_take, length_bytes; lia). rewrite lookup_take_lt by lia.
      rewrite <- nth_lookup, nth_bytes by lia. f_equal. lia.
  - destruct (Z.leb_spec (a + st) b), (Z.ltb_spec b (a + st + n)); done || lia.
  - destruct (Z.leb_spec (a + st) b); [lia | done].
  - destruct (Z.leb_spec (a + st) b); [lia | done].
Qed.

Lemma mram_write_pieces src wram from dest n : 8 <= n <= 2048 -> n mod 8 = 0 -> from mod 8 = 0 -> dest mod 8 = 0 ->
  (forall i, 0 <= i < n -> src (dest + i) = wram (from + i)) ->
  exists x, mram_write wram from dest n = Some [x] /\ piece src x dest n.
Proof.
  intros Hn Hm Hf Hd H. unfold mram_write. rewrite !land7, Hm, Hf, Hd.
  destruct (Z.leb_spec 8 n), (Z.leb_spec n 2048); try lia. eexists. split; [done |].
  apply direct_piece; [done | done | by rewrite length_bytes; lia |]. intros b Hb. rewrite nth_bytes by lia.
  rewrite Z2Nat.id by lia. rewrite <- H by lia. f_equal. lia.
Qed.

Lemma aligned_part_pieces src wram wa dest nb : 0 <= dest -> dest + nb + 8 < 2 ^ 32 -> 0 < nb < 256 -> 0 <= wa -> wa + nb < 2 ^ 32 ->
  wa mod 8 = 0 -> let dh := 8 * ((dest + 7) / 8) in
  (forall i, 0 <= i < nb -> src (dh + i) = wram (wa + i)) ->
  exists xs, write_aligned_part wram wa dest nb = Some xs /\ pieces src xs dh (dh + nb).
Proof.
  intros Hd Hdn Hnb Hwa Hwn Hw dh H. unfold write_aligned_part. rewrite align_low, align_high by lia. fold dh.
  pose proof (Z.div_mod nb 8 ltac:(lia)) as Enb. pose proof (Z.mod_pos_bound nb 8 ltac:(lia)) as Hr.
  pose proof (Z.div_mod (dest + 7) 8 ltac:(lia)). pose proof (Z.mod_pos_bound (dest + 7) 8 ltac:(lia)).
  set (q := nb / 8) in *. set (r := nb mod 8) in *. assert (dh mod 8 = 0) as Hdh by (unfold dh; rewrite Z.mul_comm; apply Z_mod_mult).
  assert (dest <= dh <= dest + 7) as Hdd by (unfold dh; lia).
  rewrite (wrap_small 8 (8 * q)) by lia. clearbody q r dh.
  assert (exists xs, (if 8 * q =? 0 then Some [] else mram_write wram wa dh (8 * q)) = Some xs /\
    (if 8 * q =? 0 then xs = [] else exists x, xs = [x] /\ piece src x dh (8 * q))) as (xs & -> & Hxs).
  { destruct (Z.eqb_spec (8 * q) 0); [by exists [] |].
    destruct (mram_write_pieces src wram wa dh (8 * q)) as (x & E & Hp); [lia | rewrite Z.mul_comm; apply Z_mod_mult | done | done | intros; apply H; lia |].
    exists [x]. split; [done | by exists x]. }
  cbn [mbind option_bind].
  assert ((if 8 * q =? 0 then wa else u32 (wa + 8 * q)) = wa + 8 * q) as -> by (destruct (Z.eqb_spec (8 * q) 0); [lia | by rewrite wrap_small by lia]).
  rewrite (wrap_small 32 (dh + 8 * q)) by lia. replace (nb - 8 * q) with r by lia. rewrite (wrap_small 8 r) by lia.
  assert (forall tail, pieces src tail (dh + 8 * q) (dh + nb) -> pieces src (xs ++ tail) dh (dh + nb)) as Happ.
  { intros tail Ht. destruct (Z.eqb_spec (8 * q) 0) as [E |]; [subst xs; by rewrite E, Z.add_0_r in Ht |].
    destruct Hxs as (x & -> & Hp). exists (8 * q). split_and!; [lia | done | done]. }
  destruct (Z.ltb_spec (8 * q) nb).
  - eexists. split; [done |]. apply Happ. exists r. split_and!; [lia | | cbn; lia].
    pose proof (critical_piece src (VL_HASH_MRAM_ADDR (dh + 8 * q)) (dh + 8 * q) 0 (bytes wram (wa + 8 * q) r) r) as Hp.
    rewrite Z.add_0_r in Hp. apply Hp; [done | by rewrite Z.mul_comm, Z_mod_plus_full | lia | rewrite length_bytes; lia | lia |].
    intros b Hb. rewrite nth_bytes by lia. replace b with (dh + (b - dh)) at 2 by lia. rewrite H by lia. f_equal. lia.
  - exists xs. split; [done |]. rewrite <- (app_nil_r xs). apply Happ. cbn. lia.
Qed.

(** A write within the limits of the code. *)
Definition write_ok (from dest nb : Z) : Prop :=
  0 <= from /\ from + nb < 2 ^ 32 /\ 0 <= dest /\ dest + nb + 8 < 2 ^ 32 /\ from mod 8 = dest mod 8
  /\ (0 < nb < 256 \/ (dest mod 8 = 0 /\ nb mod 8 = 0 /\ 0 < nb <= 2048)).

Definition source (wram : mem) (from dest : Z) : mem := fun b => wram (from + (b - dest)).

Lemma write_unaligned_pieces wram from dest nb : write_ok from dest nb ->
  exists xs, mram_write_unaligned wram from dest nb = Some xs /\ pieces (source wram from dest) xs dest (dest + nb).
Proof.
  intros (Hf & Hfn & Hd & Hdn & Hal & Hnb). unfold mram_write_unaligned. rewrite !land7.
  set (src := source wram from dest).
  assert (forall i, src (dest + i) = wram (from + i)) as Hsrc by (intros i; unfold src, source; f_equal; lia).
  pose proof (Z.div_mod dest 8 ltac:(lia)) as Ed. pose proof (Z.mod_pos_bound dest 8 ltac:(lia)) as Hr.
  pose proof (Z.div_mod from 8 ltac:(lia)) as Ef. pose proof (Z.div_mod nb 8 ltac:(lia)) as En.
  destruct (Z.eqb_spec (dest mod 8) 0) as [E0 | E0]; cbn [andb].
  - destruct (Z.eqb_spec (nb mod 8) 0) as [En0 | En0].
    + destruct (mram_write_pieces src wram from dest nb) as (x & E & Hp); [lia | done | congruence | done | intros; apply Hsrc |].
      exists [x]. split; [done |]. exists nb. split_and!; [lia | done | done].
    + rewrite Hal, Z.eqb_refl. cbn [negb].
      assert (8 * ((dest + 7) / 8) = dest) as Edh.
      { assert ((dest + 7) / 8 = dest / 8) as ->; [| lia]. symmetry. apply (Z.div_unique _ _ _ 7); lia. }
      destruct (aligned_part_pieces src wram from dest nb) as (xs & E & Hp); try lia; rewrite Edh in *; [intros; apply Hsrc |].
      by exists xs.
  - rewrite Hal, Z.eqb_refl. cbn [negb]. destruct Hnb as [Hnb | [? _]]; [| done].
    set (r := dest mod 8) in *. set (c := Z.min (8 - r) nb). rewrite align_low.
    assert (0 < c <= nb /\ r + c <= 8) as Hc by (unfold c; lia).
    set (prolog := Critical _ _ _). assert (piece src prolog dest c) as Hp.
    { rewrite Ed at 1. apply critical_piece; [by apply hash_align; rewrite Z.mul_comm, Z.div_mul by lia
      | by rewrite Z.mul_comm, Z_mod_mult | lia | rewrite length_bytes; lia | lia |].
      rewrite <- Ed. intros b Hb. rewrite nth_bytes by lia. rewrite <- Hsrc. f_equal. lia. }
    clearbody prolog. destruct (Z.eqb_spec (nb - c) 0) as [Ec | Ec].
    + exists [prolog]. split; [done |]. exists c. split_and!; [lia | done | cbn; lia].
    + assert (c = 8 - r) as Ec' by lia.
      assert (8 * ((dest + 7) / 8) = dest + c) as Edh.
      { assert ((dest + 7) / 8 = dest / 8 + 1) as ->; [| lia]. symmetry. apply (Z.div_unique _ _ _ (r - 1)); lia. }
      rewrite (wrap_small 32 (from + c)) by lia.
      destruct (aligned_part_pieces src wram (from + c) dest (nb - c)) as (xs & -> & Hxs); try lia.
      * rewrite Ec', Ef, Hal. fold r. replace (8 * (from / 8) + r + (8 - r)) with ((from / 8 + 1) * 8) by lia. apply Z_mod_mult.
      * rewrite Edh. intros i Hi. rewrite <- Z.add_assoc, Hsrc. f_equal. lia.
      * exists (prolog :: xs). split; [done |]. exists c. split_and!; [lia | done |]. rewrite Edh in Hxs.
        by replace (dest + nb) with (dest + c + (nb - c)) by lia.
Qed.

(** * Disjoint writes *)

Definition keeps (x : access) (b : Z) : Prop := forall m, apply_access x m b = m b.
Definition sets (x : access) (b v : Z) : Prop := forall m, apply_access x m b = v.

Lemma replay_byte log m b v : (forall p, p ∈ log -> keeps p.2 b \/ sets p.2 b v) ->
  m b = v \/ (exists p, p ∈ log /\ sets p.2 b v) -> replay log m b = v.
Proof.
  revert m. induction log as [| p log IH]; intros m H Hv; cbn.
  - destruct Hv as [? | (p & Hp & _)]; [done | by apply not_elem_of_nil in Hp].
  - apply IH; [intros q Hq; apply H, list_elem_of_further, Hq |].
    destruct (H p (list_elem_of_here _ _)) as [Hk | Hs]; [| left; apply Hs].
    destruct Hv as [E | (q & Hq & Hs)]; [left; by rewrite Hk |].
    apply elem_of_cons in Hq as [-> | Hq]; [left; apply Hs | right; by exists q].
Qed.

Lemma pieces_in src xs lo hi x : pieces src xs lo hi -> x ∈ xs ->
  exists l n, lo <= l /\ 0 < n /\ l + n <= hi /\ piece src x l n.
Proof.
  assert (forall xs lo hi, pieces src xs lo hi -> lo <= hi) as Hle.
  { clear. intros xs. induction xs as [| x xs IH]; cbn; intros lo hi; [lia |]. intros (n & Hn & _ & H). apply IH in H. lia. }
  revert lo. induction xs as [| y xs IH]; intros lo; cbn; [by intros _ ?%not_elem_of_nil |].
  intros (n & Hn & Hp & Hps) [-> | Hx]%elem_of_cons.
  - exists lo, n. apply Hle in Hps. split_and!; [lia | lia | lia | done].
  - destruct (IH _ Hps Hx) as (l & k & ? & ? & ? & ?). exists l, k. split_and!; [lia | lia | lia | done].
Qed.

Lemma pieces_cover src xs lo hi b : pieces src xs lo hi -> lo <= b < hi -> exists x, x ∈ xs /\ sets x b (src b).
Proof.
  revert lo. induction xs as [| y xs IH]; intros lo; cbn; [lia |]. intros (n & Hn & Hp & Hps) Hb.
  destruct (Z.ltb_spec b (lo + n)) as [E | E].
  - exists y. split; [apply list_elem_of_here |]. intros m. rewrite (piece_effect _ _ _ _ Hp).
    destruct (Z.leb_spec lo b), (Z.ltb_spec b (lo + n)); done || lia.
  - destruct (IH _ Hps ltac:(lia)) as (x & Hx & Hs). exists x. split; [by apply list_elem_of_further | done].
Qed.

Lemma piece_byte src x lo n b : piece src x lo n -> keeps x b \/ (lo <= b < lo + n /\ sets x b (src b)).
Proof.
  intros Hp. destruct (decide (lo <= b < lo + n)) as [Hb | Hb].
  - right. split; [done |]. intros m. rewrite (piece_effect _ _ _ _ Hp).
    destruct (Z.leb_spec lo b), (Z.ltb_spec b (lo + n)); done || lia.
  - left. intros m. rewrite (piece_effect _ _ _ _ Hp). destruct (Z.leb_spec lo b), (Z.ltb_spec b (lo + n)); done || lia.
Qed.

(** Each tasklet makes one write: from, to, number of bytes. *)
Definition todo_of (wram : mem) (jobs : list (Z * Z * Z)) (t : nat) : list access :=
  match jobs !! t with
  | Some (from, dest, nb) => default [] (mram_write_unaligned wram from dest nb)
  | None => []
  end.

Definition expected (wram : mem) (jobs : list (Z * Z * Z)) (m : mem) (b : Z) : Z :=
  match List.find (fun '(_, dest, nb) => (dest <=? b) && (b <? dest + nb)) jobs with
  | Some (from, dest, _) => source wram from dest b
  | None => m b
  end.

Lemma todo_of_pieces wram jobs t x : Forall (fun '(from, dest, nb) => write_ok from dest nb) jobs -> x ∈ todo_of wram jobs t ->
  exists from dest nb l n, jobs !! t = Some (from, dest, nb) /\ dest <= l /\ 0 < n /\ l + n <= dest + nb /\ piece (source wram from dest) x l n.
Proof.
  intros Hw. unfold todo_of. destruct (jobs !! t) as [[[from dest] nb] |] eqn:E; [| by intros ?%not_elem_of_nil].
  rewrite list.Forall_lookup in Hw. destruct (write_unaligned_pieces wram from dest nb (Hw _ _ E)) as (xs & -> & Hp).
  intros Hx. destruct (pieces_in _ _ _ _ _ Hp Hx) as (l & n & H). exists from, dest, nb, l, n. by destruct H as (? & ? & ? & ?).
Qed.

Lemma words_apart a b n lo k : a mod 8 = 0 -> b mod 8 = 0 -> n mod 8 = 0 -> 0 < n -> 0 < k -> a <= lo -> lo + k <= a + 8 ->
  apart lo k b n -> apart a 8 b n.
Proof.
  unfold apart. intros Ha Hb Hn ? ? ? ? H. pose proof (Z.div_mod a 8 ltac:(lia)). pose proof (Z.div_mod b 8 ltac:(lia)).
  pose proof (Z.div_mod n 8 ltac:(lia)). lia.
Qed.

(** Writes of tasklets to disjoint ranges of the MRAM, of any alignment, do
    not disturb each other, though they share words.  Within the limits of the code
    each write is defined; in every interleaving, once all are done, each range
    holds the bytes of its tasklet and every other byte is the one it was. *)
Theorem unaligned_writes_disjoint wram m0 buffers jobs sched s :
  Forall (fun '(from, dest, nb) => write_ok from dest nb) jobs ->
  (forall t u f d n f' d' n', t <> u -> jobs !! t = Some (f, d, n) -> jobs !! u = Some (f', d', n') -> apart d n d' n') ->
  run (start m0 buffers (todo_of wram jobs)) sched = Some s -> (forall t, code s t = []) ->
  Forall (fun '(from, dest, nb) => is_Some (mram_write_unaligned wram from dest nb)) jobs
  /\ forall b, mram s b = expected wram jobs m0 b.
Proof.
  intros Hw Hap E Hd. pose proof (fun t x => todo_of_pieces wram jobs t x Hw) as Hin.
  assert (forall t, Forall access_ok (todo_of wram jobs t)) as Hok.
  { intros t. apply list.Forall_forall. intros x Hx. destruct (Hin t x Hx) as (? & ? & ? & ? & ? & _ & _ & _ & _ & Hp). apply Hp. }
  assert (forall t u x y, t <> u -> x ∈ todo_of wram jobs t -> y ∈ todo_of wram jobs u -> compatible x y) as Hcomp.
  { intros t u x y Hne Hx Hy. destruct (Hin t x Hx) as (f & d & n & l & k & Et & ? & ? & ? & Hp), (Hin u y Hy) as (f' & d' & n' & l' & k' & Eu & ? & ? & ? & Hp').
    specialize (Hap _ _ _ _ _ _ _ _ Hne Et Eu). assert (apart l k l' k') as Hlk by (unfold apart in *; lia).
    destruct Hp as [Ho _ Hpl], Hp' as [Ho' _ Hpl'], x, y; cbn in *; try done; destruct_and?; subst.
    - by eapply (words_apart _ _ _ l k).
    - apply (words_apart _ _ _ l' k'); try done. unfold apart in *. lia. }
  split.
  { apply list.Forall_lookup. intros t [[f d] n] Et. rewrite list.Forall_lookup in Hw.
    destruct (write_unaligned_pieces wram f d n (Hw _ _ Et)) as (xs & -> & _). by eexists. }
  intros b. destruct (run_log m0 _ Hok Hcomp _ _ _ E) as (log & -> & _ & Hall). specialize (Hall Hd).
  assert (forall p, p ∈ log -> p.2 ∈ todo_of wram jobs p.1) as Hlog.
  { intros [t x] Hp. rewrite <- Hall. by apply made_by_elem. }
  unfold expected. destruct (List.find _ jobs) as [[[f d] n] |] eqn:Ef.
  - apply List.find_some in Ef as [Hj Hb]. apply list_elem_of_In, list_elem_of_lookup_1 in Hj as [t Et].
    apply andb_true_iff in Hb as [?%Z.leb_le ?%Z.ltb_lt]. apply replay_byte.
    + intros p Hp. destruct (Hin _ _ (Hlog p Hp)) as (f' & d' & n' & l & k & Eu & ? & ? & ? & Hpc).
      destruct (piece_byte _ _ _ _ b Hpc) as [Hk | [Hb Hs]]; [by left | right].
      destruct (decide (t = p.1)) as [-> | Hne]; [congruence |]. specialize (Hap _ _ _ _ _ _ _ _ Hne Et Eu). unfold apart in Hap. lia.
    + right. rewrite list.Forall_lookup in Hw. destruct (write_unaligned_pieces wram f d n (Hw _ _ Et)) as (xs & Ex & Hps).
      destruct (pieces_cover _ _ _ _ b Hps ltac:(lia)) as (x & Hx & Hs). exists (t, x). split; [| done].
      apply made_by_elem. rewrite Hall. unfold todo_of. by rewrite Et, Ex.
  - apply replay_byte; [| by left]. intros p Hp. left.
    destruct (Hin _ _ (Hlog p Hp)) as (f & d & n & l & k & Eu & ? & ? & ? & Hpc).
    destruct (piece_byte _ _ _ _ b Hpc) as [Hk | [Hb _]]; [done |].
    apply list_elem_of_lookup_2, list_elem_of_In in Eu. pose proof (List.find_none _ _ Ef _ Eu) as Hn. cbn in Hn.
    destruct (Z.leb_spec d b), (Z.ltb_spec b (d + n)); done || lia.
Qed.

(** Two tasklets that share the word at 16. *)
Lemma unaligned_writes_disjoint_witness :
  let wram a := a + 100 in
  let jobs := [(5, 13, 6); (3, 19, 5)] in
  exists s, run (start (fun _ => 0) (fun _ => []) (todo_of wram jobs)) (replicate 10 0 ++ replicate 5 1)%nat = Some s
    /\ mram s 18 = 110 /\ mram s 19 = 103 /\ mram s 24 = 0.
Proof.
  intros wram jobs.
  assert (forall t u f d n f' d' n', t <> u -> jobs !! t = Some (f, d, n) -> jobs !! u = Some (f', d', n') -> apart d n d' n') as Hap.
  { intros [| [| t]] [| [| u]] f d n f' d' n' Hne Et Eu; try done; injection Et as <- <- <-; injection Eu as <- <- <-;
      unfold apart; lia. }
  assert (Forall (fun '(from, dest, nb) => write_ok from dest nb) jobs) as Hw
    by (repeat constructor; try lia; vm_compute; done).
  assert (match run (start (fun _ => 0) (fun _ => []) (todo_of wram jobs)) (replicate 10 0 ++ replicate 5 1)%nat with
    Some _ => true | None => false end = true) as Hr by (vm_compute; reflexivity).
  destruct (run (start (fun _ => 0) (fun _ => []) (todo_of wram jobs)) (replicate 10 0 ++ replicate 5 1)%nat) as [s |] eqn:E; [| discriminate].
  exists s. split; [reflexivity |].
  assert (forall t, code s t = []) as Hd.
  { intros t. apply (run_count _ _ _ t) in E. apply length_zero_iff_nil. revert E. generalize (length (code s t)) as k.
    destruct t as [| [| t]]; intros k E; vm_compute in E; lia. }
  destruct (unaligned_writes_disjoint wram (fun _ => 0) (fun _ => []) jobs (replicate 10 0 ++ replicate 5 1)%nat s Hw Hap E Hd)
    as [_ H]. rewrite !H. vm_compute. auto.
Defined.

(** * The limits of the code *)

Lemma replay_pieces src xs lo hi m b : pieces src xs lo hi ->
  foldl (fun m x => apply_access x m) m xs b = if (lo <=? b) && (b <? hi) then src b else m b.
Proof.
  intros Hps. replace (foldl _ m xs) with (replay (map (fun x => (0%nat, x)) xs) m)
    by (unfold replay; clear; revert m; induction xs as [| x xs IH]; intros m; cbn; [done | apply IH]).
  assert (forall p, p ∈ map (fun x => (0%nat, x)) xs -> p.2 ∈ xs) as Hin.
  { intros p Hp. apply list_elem_of_In, in_map_iff in Hp as (x & <- & Hx). by apply list_elem_of_In. }
  destruct (decide (lo <= b < hi)) as [Hb | Hb].
  - replace ((lo <=? b) && (b <? hi)) with true by (symmetry; apply andb_true_iff; rewrite Z.leb_le, Z.ltb_lt; lia).
    apply replay_byte.
    + intros p Hp. destruct (pieces_in _ _ _ _ _ Hps (Hin p Hp)) as (l & n & _ & _ & _ & H).
      destruct (piece_byte _ _ _ _ b H) as [Hk | [_ Hs]]; [by left | by right].
    + right. destruct (pieces_cover _ _ _ _ b Hps Hb) as (x & Hx & Hs). exists (0%nat, x). split; [| done].
      apply list_elem_of_In, in_map_iff. exists x. split; [done | by apply list_elem_of_In].
  - replace ((lo <=? b) && (b <? hi)) with false
      by (symmetry; apply andb_false_iff; rewrite Z.leb_gt, Z.ltb_ge; lia).
    apply replay_byte; [| by left]. intros p Hp. left. destruct (pieces_in _ _ _ _ _ Hps (Hin p Hp)) as (l & n & ? & ? & ? & H).
    destruct (piece_byte _ _ _ _ b H) as [Hk | [? _]]; [done | lia].
Qed.

(** A write of more than 255 bytes is cut.  The size of the aligned part is
    kept in 8 bits, so a write to an aligned address whose size is not a multiple
    of 8 is the one of the size modulo 256: the bytes after it are silently not
    written, though 2048 bytes are documented to be. *)
Theorem long_write_truncated wram from dest nb m :
  write_ok from dest (nb mod 256) -> dest mod 8 = 0 -> nb mod 8 <> 0 -> 256 <= nb <= 2048 ->
  exists xs, mram_write_unaligned wram from dest nb = Some xs
  /\ forall b, foldl (fun m x => apply_access x m) m xs b
       = if (dest <=? b) && (b <? dest + nb mod 256) then source wram from dest b else m b.
Proof.
  intros Hok Hd Hn Hnb. destruct (write_unaligned_pieces wram from dest (nb mod 256) Hok) as (xs & E & Hps).
  exists xs. split; [| intros b; by apply replay_pieces].
  pose proof (Z.div_mod nb 256 ltac:(lia)) as En. pose proof (Z.mod_pos_bound nb 256 ltac:(lia)) as Hr.
  pose proof (Z.div_mod nb 8 ltac:(lia)) as En8. pose proof (Z.mod_pos_bound nb 8 ltac:(lia)) as Hr8.
  set (k := nb mod 256) in *. set (r := nb mod 8) in *. set (q := nb / 8) in *. set (q' := nb / 256) in *.
  assert (k mod 8 = r /\ k / 8 = q - 32 * q') as [Ek Ekq].
  { split; symmetry; [apply (Z.mod_unique _ _ (q - 32 * q')) | apply (Z.div_unique _ _ _ r)]; lia. }
  assert (u8 (8 * q) = 8 * (q - 32 * q')) as Elow by (symmetry; apply (Z.mod_unique _ _ q'); lia).
  assert (u8 (nb - 8 * (q - 32 * q')) = r) as Ediff by (symmetry; apply (Z.mod_unique _ _ q'); lia).
  rewrite <- E. unfold mram_write_unaligned. rewrite !land7, Hd, Ek. fold r. destruct (Z.eqb_spec r 0); [done |]. cbn [Z.eqb andb].
  destruct Hok as (_ & _ & _ & _ & -> & _). rewrite Hd. cbn [Z.eqb negb].
  unfold write_aligned_part. rewrite !align_low, Ekq. fold q. rewrite Elow, (wrap_small 8 (8 * (q - 32 * q'))) by lia.
  rewrite Ediff. replace (k - 8 * (q - 32 * q')) with r by lia. rewrite (wrap_small 8 r) by lia.
  destruct (Z.ltb_spec (8 * (q - 32 * q')) nb), (Z.ltb_spec (8 * (q - 32 * q')) k); done || lia.
Qed.

Lemma long_write_truncated_witness :
  exists xs, mram_write_unaligned (fun a => a) 0 64 260 = Some xs /\ foldl (fun m x => apply_access x m) (fun _ => 0) xs 68 = 0.
Proof.
  destruct (long_write_truncated (fun a => a) 0 64 260 (fun _ => 0)) as (xs & E & H);
    [repeat split; try lia; left; vm_compute; auto | done | done | lia |].
  exists xs. split; [exact E | rewrite H; reflexivity].
Defined.

(** An unaligned read gives a pointer to the bytes asked for and changes
    less than 16 bytes of the buffer besides them, as documented; but it needs the
    bytes with those before the first to fit in a transfer: a read of 2048 bytes,
    the documented maximum, from an unaligned address is not defined. *)
Theorem mram_read_unaligned_spec mram wram from buffer nb :
  0 <= from -> 0 < nb -> from + nb < 2 ^ 31 -> 0 <= buffer -> buffer + nb < 2 ^ 31 -> buffer mod 8 = 0 ->
  (nb + from mod 8 <= 2048 -> exists wram' p, mram_read_unaligned mram wram from buffer nb = Some (wram', p)
     /\ buffer <= p < buffer + 8 /\ (forall i, 0 <= i < nb -> wram' (p + i) = mram (from + i))
     /\ (forall b, b < buffer \/ buffer + nb + 16 <= b -> wram' b = wram b))
  /\ (2048 < nb + from mod 8 -> mram_read_unaligned mram wram from buffer nb = None).
Proof.
  intros Hf Hn Hfn Hb Hbn Hba. unfold mram_read_unaligned. rewrite align_low.
  pose proof (Z.div_mod from 8 ltac:(lia)) as Ef. pose proof (Z.mod_pos_bound from 8 ltac:(lia)) as Hr.
  set (r := from mod 8) in *. set (q := from / 8) in *. clearbody r q. subst from. replace (8 * q + r - 8 * q) with r by lia.
  rewrite (wrap_small 8 r), (wrap_small 32 (nb + r)) by lia. rewrite align_high by lia.
  pose proof (Z.div_mod (nb + r + 7) 8 ltac:(lia)). pose proof (Z.mod_pos_bound (nb + r + 7) 8 ltac:(lia)).
  set (k := (nb + r + 7) / 8) in *. clearbody k. rewrite land7, Hba. cbn [Z.eqb]. rewrite andb_true_r. split.
  - intros Hle. destruct (Z.leb_spec 8 (8 * k)), (Z.leb_spec (8 * k) 2048); try lia. cbn [andb].
    eexists _, _. split; [reflexivity |]. rewrite (wrap_small 32) by lia. split_and!; [lia | lia | |].
    + intros i Hi. rewrite upd_inside by (rewrite length_bytes; lia). rewrite nth_bytes by lia. f_equal. lia.
    + intros b Hbb. apply upd_outside. rewrite length_bytes. lia.
  - intros Hgt. destruct (Z.leb_spec 8 (8 * k)), (Z.leb_spec (8 * k) 2048); try done; lia.
Qed.

Lemma mram_read_unaligned_spec_witness :
  mram_read_unaligned (fun a => a) (fun _ => 0) 4 64 2048 = None.
Proof. by apply (mram_read_unaligned_spec (fun a => a) (fun _ => 0) 4 64 2048). Defined.
