(* ===== verification/DpuHeap.v ===== *)
(** The heap and the allocator of fixed size blocks of the DPU
    (library/src/dpu-rt/src/syslib/alloc.c, fsb_allocator.c).

    The WRAM is a function from the addresses of words to words.  [None] is a
    fault of the DPU: an access outside of the WRAM, or a fault instruction.  The
    locks make an operation one step. *)
From stdpp Require Import list.
From S2P Require Import Prelude.

Record dpu_wram := { heap_pointer : Z; word : Z -> Z }.

Section heap.
(** The size of the WRAM, and the value of [__sys_heap_pointer_reset]. *)
Variables (wram_size sys_heap_pointer_reset : Z).

Definition load_word (s : dpu_wram) (a : Z) : option Z :=
  if (0 <=? a) && (a + 4 <=? wram_size) then Some (word s a) else None.

Definition store_word (s : dpu_wram) (a v : Z) : option dpu_wram :=
  if (0 <=? a) && (a + 4 <=? wram_size)
  then Some {| heap_pointer := heap_pointer s; word := fun b => if b =? a then v else word s b |} else None.

(** * The heap *)

Definition align8 (z : Z) : Z := Z.shiftl (Z.shiftr (u32 (z + 7)) 3) 3.

Definition mem_alloc_nolock (s : dpu_wram) (size : Z) : option (Z * dpu_wram) :=
  if size =? 0 then Some (heap_pointer s, s)
  else
    let pointer := align8 (heap_pointer s) in
    let new_heap_pointer := pointer + size in
    if (2 ^ 32 <=? new_heap_pointer) || (wram_size <=? new_heap_pointer - 1) then None
    else Some (pointer, {| heap_pointer := new_heap_pointer; word := word s |}).

Definition mem_alloc : dpu_wram -> Z -> option (Z * dpu_wram) := mem_alloc_nolock.

Definition mem_reset (s : dpu_wram) : Z * dpu_wram :=
  (sys_heap_pointer_reset, {| heap_pointer := sys_heap_pointer_reset; word := word s |}).

(** * The blocks *)

(** The list of the free blocks: each block points to the next. *)
Fixpoint link_blocks (turns : nat) (block_size : Z) (s : dpu_wram) (memory : Z) : option (Z * dpu_wram) :=
  match turns with
  | O => Some (memory, s)
  | S turns =>
    let next_block_address := u32 (memory + block_size) in
    s ← store_word s memory next_block_address;
    link_blocks turns block_size s next_block_address
  end.

Definition fsb_alloc (s : dpu_wram) (block_size nb_of_blocks : Z) : option (Z * dpu_wram) :=
  if 4294967288 <? block_size then None
  else
    let block_size := if block_size =? 0 then 8 else align8 block_size in
    let memory_space_to_allocate := u32 (u32 (block_size * nb_of_blocks) + 4) in
    '(memory, s) ← mem_alloc s memory_space_to_allocate;
    let first_block := memory in
    '(memory, s) ← link_blocks (Z.to_nat (u32 (nb_of_blocks - 1))) block_size s memory;
    s ← store_word s memory 0;
    let free_ptr := u32 (memory + block_size) in
    s ← store_word s free_ptr first_block;
    Some (free_ptr, s).

(** The block, [0] when there is none. *)
Definition fsb_get (s : dpu_wram) (allocator : Z) : option (Z * dpu_wram) :=
  result ← load_word s allocator;
  if result =? 0 then Some (0, s)
  else
    next ← load_word s result;
    s ← store_word s allocator next;
    Some (result, s).

Definition fsb_free (s : dpu_wram) (allocator ptr : Z) : option dpu_wram :=
  next_free ← load_word s allocator;
  s ← store_word s ptr next_free;
  store_word s allocator ptr.

(** What the tasklets do with an allocator; a write is one of the owner of a
    block, or elsewhere. *)
Inductive fsb_op :=
| Get
| Free (ptr : Z)
| Store (a v : Z).

(** The result of a Get, [0] for the others. *)
Definition fsb_step (allocator : Z) (s : dpu_wram) (o : fsb_op) : option (Z * dpu_wram) :=
  match o with
  | Get => fsb_get s allocator
  | Free ptr => s ← fsb_free s allocator ptr; Some (0, s)
  | Store a v => s ← store_word s a v; Some (0, s)
  end.

Fixpoint fsb_run (allocator : Z) (s : dpu_wram) (ops : list fsb_op) : option (list Z * dpu_wram) :=
  match ops with
  | [] => Some ([], s)
  | o :: ops => '(r, s) ← fsb_step allocator s o; '(rs, s) ← fsb_run allocator s ops; Some (r :: rs, s)
  end.

(** * What it promises *)

(** A stack of free blocks and a set of owned ones. *)
Record pool := { free_blocks : list Z; owned : list Z }.

Definition pool_step (p : pool) (o : fsb_op) : Z * pool :=
  match o with
  | Get =>
    match free_blocks p with
    | [] => (0, p)
    | b :: l => (b, {| free_blocks := l; owned := b :: owned p |})
    end
  | Free ptr => (0, {| free_blocks := ptr :: free_blocks p; owned := filter (fun b => b <> ptr) (owned p) |})
  | Store _ _ => (0, p)
  end.

(** The tasklets free what they own, and write inside the blocks they own or
    outside of the memory of the allocator, which is from [lo] to [hi]. *)
Definition polite (lo hi bs : Z) (p : pool) (o : fsb_op) : Prop :=
  match o with
  | Get => True
  | Free ptr => ptr ∈ owned p
  | Store a _ => 0 <= a /\ a + 4 <= wram_size /\ a mod 4 = 0
      /\ ((exists b, b ∈ owned p /\ b <= a /\ a + 4 <= b + bs) \/ a + 4 <= lo \/ hi <= a)
  end.

Fixpoint pool_run (p : pool) (ops : list fsb_op) : list Z * pool :=
  match ops with
  | [] => ([], p)
  | o :: ops => let '(r, p) := pool_step p o in let '(rs, p) := pool_run p ops in (r :: rs, p)
  end.

Fixpoint all_polite (lo hi bs : Z) (p : pool) (ops : list fsb_op) : Prop :=
  match ops with
  | [] => True
  | o :: ops => polite lo hi bs p o /\ all_polite lo hi bs (pool_step p o).2 ops
  end.

(** * Lemmas *)

Hypothesis Hwram : 0 <= wram_size <= 2 ^ 31 - 16.

Lemma store_word_Some s a v s' : store_word s a v = Some s' ->
  0 <= a /\ a + 4 <= wram_size /\ heap_pointer s' = heap_pointer s /\ word s' a = v /\ forall b, b <> a -> word s' b = word s b.
Proof.
  unfold store_word. destruct (Z.leb_spec 0 a), (Z.leb_spec (a + 4) wram_size); cbn; try done. intros [= <-]. cbn.
  rewrite Z.eqb_refl. split_and!; try done. intros b Hb. by destruct (Z.eqb_spec b a).
Qed.

Lemma store_word_ok s a v : 0 <= a -> a + 4 <= wram_size -> is_Some (store_word s a v).
Proof. intros H1 H2. unfold store_word. apply Z.leb_le in H1, H2. rewrite H1, H2. by eexists. Qed.

Lemma load_word_ok s a : 0 <= a -> a + 4 <= wram_size -> load_word s a = Some (word s a).
Proof. intros H1 H2. unfold load_word. apply Z.leb_le in H1, H2. by rewrite H1, H2. Qed.

Lemma align8_spec z : 0 <= z <= 2 ^ 32 - 8 -> z <= align8 z < z + 8 /\ align8 z mod 8 = 0.
Proof.
  intros Hz. unfold align8. rewrite Z.shiftl_mul_pow2, Z.shiftr_div_pow2, wrap_small by lia. change (2 ^ 3) with 8.
  pose proof (Z.div_mod (z + 7) 8 ltac:(lia)). pose proof (Z.mod_pos_bound (z + 7) 8 ltac:(lia)).
  split; [lia | apply Z_mod_mult].
Qed.

Lemma mem_alloc_Some s size p s' : 0 < size -> 0 <= heap_pointer s <= 2 ^ 31 -> mem_alloc s size = Some (p, s') ->
  p = align8 (heap_pointer s) /\ p + size <= wram_size /\ s' = {| heap_pointer := p + size; word := word s |}.
Proof.
  intros Hs Hh. unfold mem_alloc, mem_alloc_nolock. destruct (Z.eqb_spec size 0); [lia |].
  destruct (Z.leb_spec (2 ^ 32) (align8 (heap_pointer s) + size)); [done |].
  destruct (Z.leb_spec wram_size (align8 (heap_pointer s) + size - 1)); [done |]. cbn. intros [= <- <-]. split_and!; [done | lia | done].
Qed.

(** The loop, for blocks that go up, *)
Lemma link_up turns bs s m m' s' : 0 < bs < 2 ^ 31 -> 0 <= m < 2 ^ 31 -> link_blocks turns bs s m = Some (m', s') ->
  let n := Z.of_nat turns in
  m' = m + n * bs /\ (turns <> O -> m + (n - 1) * bs + 4 <= wram_size) /\ heap_pointer s' = heap_pointer s
  /\ (forall k, (k < turns)%nat -> word s' (m + Z.of_nat k * bs) = m + (Z.of_nat k + 1) * bs)
  /\ (forall a, a < m -> word s' a = word s a).
Proof.
  intros Hbs. revert s m. induction turns as [| turns IH]; intros s m Hm; cbn [link_blocks].
  { intros [= <- <-]. split_and!; [lia | done | done | lia | done]. }
  intros (s1 & E1 & E)%bind_Some. apply store_word_Some in E1 as (H1 & H2 & H3 & H4 & H5).
  rewrite wrap_small in * by lia. destruct (Z.ltb_spec (m + bs) (2 ^ 31)) as [Hlt | Hge].
  - destruct (IH s1 (m + bs) ltac:(lia) E) as (-> & Hr & Hh & Hw & Hb). rewrite Nat2Z.inj_succ. split_and!.
    + lia.
    + intros _. destruct turns as [| t]; [| specialize (Hr ltac:(done))]; nia.
    + congruence.
    + intros [| k] Hk.
      * rewrite Hb by lia. replace (m + Z.of_nat 0 * bs) with m by lia. rewrite H4. lia.
      * replace (m + Z.of_nat (S k) * bs) with (m + bs + Z.of_nat k * bs) by lia. rewrite Hw by lia. lia.
    + intros a Ha. rewrite Hb by lia. apply H5. lia.
  - destruct turns as [| t].
    + injection E as <- <-. split_and!; [lia | intros _; lia | done | | intros; apply H5; lia].
      intros k Hk. replace k with O by lia. replace (m + Z.of_nat 0 * bs) with m by lia. rewrite H4. lia.
    + cbn [link_blocks] in E. apply bind_Some in E as (s2 & E2 & _). apply store_word_Some in E2 as (_ & ? & _). lia.
Qed.

(** and for sizes that are small negative numbers. *)
Lemma link_down turns d s m m' s' : 0 < d <= 2 ^ 31 -> 0 <= m < 2 ^ 31 -> link_blocks turns (2 ^ 32 - d) s m = Some (m', s') ->
  m' + 4 <= wram_size -> m' = m - Z.of_nat turns * d /\ 0 <= m'.
Proof.
  intros Hd. revert s m. induction turns as [| turns IH]; intros s m Hm; cbn [link_blocks].
  { intros [= <- <-] _. lia. }
  intros (s1 & E1 & E)%bind_Some Hm'. destruct (Z.leb_spec d m) as [Hle | Hgt].
  - assert (u32 (m + (2 ^ 32 - d)) = m - d) as Eu by (symmetry; apply (Z.mod_unique _ _ 1); lia). rewrite Eu in E.
    destruct (IH s1 (m - d) ltac:(lia) E Hm') as [-> ?]. lia.
  - rewrite (wrap_small 32) in E by lia. destruct turns as [| t].
    + injection E as <- <-. lia.
    + cbn [link_blocks] in E. apply bind_Some in E as (s2 & E2 & _). apply store_word_Some in E2 as (_ & ? & _). lia.
Qed.

Definition block_bytes (block_size : Z) : Z := if block_size =? 0 then 8 else align8 block_size.

Lemma block_bytes_spec bs : 0 <= bs <= 4294967288 ->
  bs <= block_bytes bs <= 4294967288 /\ 8 <= block_bytes bs /\ block_bytes bs mod 8 = 0.
Proof.
  intros Hb. unfold block_bytes. destruct (Z.eqb_spec bs 0); [split_and!; [lia.. | done] |].
  destruct (align8_spec bs ltac:(lia)) as [H1 H2]. pose proof (Z.div_mod (align8 bs) 8 ltac:(lia)).
  split_and!; [lia | lia | lia | done].
Qed.

(** An allocation that does not fault did not wrap. *)
Lemma fsb_no_wrap b nb lo turns m' s0 s1 : 8 <= b <= 4294967288 -> 0 <= nb < 2 ^ 32 -> 0 <= lo < 2 ^ 31 ->
  turns = Z.to_nat (u32 (nb - 1)) -> lo + u32 (u32 (b * nb) + 4) <= wram_size ->
  link_blocks turns b s0 lo = Some (m', s1) -> m' + 4 <= wram_size -> 0 < nb /\ b * nb + 4 < 2 ^ 32 /\ b < 2 ^ 31.
Proof.
  intros Hb Hnb Hlo Ht Ha Hl Hm. assert (0 < nb -> Z.of_nat turns = nb - 1) as Hpos by (intros; rewrite Ht, wrap_small by lia; lia).
  assert (nb = 0 -> Z.of_nat turns = 2 ^ 32 - 1) as Hzero by (intros ->; rewrite Ht; change (u32 (0 - 1)) with (2 ^ 32 - 1); lia).
  clear Ht. destruct (Z.ltb_spec b (2 ^ 31)) as [Hs | Hs].
  - destruct (link_up turns b s0 lo m' s1 ltac:(lia) ltac:(lia) Hl) as (-> & _). destruct (Z.eqb_spec nb 0) as [-> |]; [specialize (Hzero eq_refl); nia |].
    specialize (Hpos ltac:(lia)). rewrite Hpos in Hm. split_and!; [lia | nia | lia].
  - replace b with (2 ^ 32 - (2 ^ 32 - b)) in Hl by lia. set (d := 2 ^ 32 - b) in *.
    destruct (link_down turns d s0 lo m' s1 ltac:(lia) ltac:(lia) Hl Hm) as [-> Hge].
    destruct (Z.eqb_spec nb 0) as [-> |]; [specialize (Hzero eq_refl); nia |]. specialize (Hpos ltac:(lia)). rewrite Hpos in Hge.
    assert (u32 (b * nb) = 2 ^ 32 - d * nb) as E by (symmetry; apply (Z.mod_unique _ _ (nb - 1)); unfold d in *; nia).
    rewrite E, wrap_small in Ha by nia. nia.
Qed.

Record fsb_fresh (s s' : dpu_wram) (lo b nb allocator : Z) : Prop := {
  fresh_nb : 0 < nb;
  fresh_allocator : allocator = lo + nb * b /\ allocator + 4 <= wram_size /\ heap_pointer s' = allocator + 4;
  fresh_links : forall k, 0 <= k < nb - 1 -> word s' (lo + k * b) = lo + (k + 1) * b;
  fresh_last : word s' (lo + (nb - 1) * b) = 0;
  fresh_first : word s' allocator = lo;
  fresh_below : forall a, a < lo -> word s' a = word s a }.

Lemma fsb_alloc_fresh s bs nb allocator s' : 0 <= bs < 2 ^ 32 -> 0 <= nb < 2 ^ 32 -> 0 <= heap_pointer s <= 2 ^ 31 - 16 ->
  fsb_alloc s bs nb = Some (allocator, s') ->
  bs <= 4294967288 /\ fsb_fresh s s' (align8 (heap_pointer s)) (block_bytes bs) nb allocator.
Proof.
  intros Hbs Hnb Hh. unfold fsb_alloc. destruct (Z.ltb_spec 4294967288 bs); [done |]. fold (block_bytes bs).
  destruct (block_bytes_spec bs ltac:(lia)) as ([_ Hb'] & Hb & Hb8).
  set (b := block_bytes bs) in *. destruct (align8_spec (heap_pointer s) ltac:(lia)) as [Hlo _]. set (lo := align8 (heap_pointer s)) in *.
  intros ([p s1] & E1 & E)%bind_Some. cbn beta iota in E. apply bind_Some in E as ([m' s2] & E2 & E). cbn beta iota in E.
  apply bind_Some in E as (s3 & E3 & E). cbn zeta in E. apply bind_Some in E as (s4 & E4 & E). injection E as <- <-.
  pose proof (store_word_Some _ _ _ _ E3) as (F1 & F2 & F3 & F4 & F5).
  pose proof (store_word_Some _ _ _ _ E4) as (G1 & G2 & G3 & G4 & G5).
  assert (0 < u32 (u32 (b * nb) + 4)) as Hpos.
  { assert (u32 (u32 (b * nb) + 4) mod 8 = 4) as Hm.
    { unfold wrap. rewrite Z.mod_mod_divide by (exists (2 ^ 29); lia).
      rewrite <- Zplus_mod_idemp_l, Z.mod_mod_divide by (exists (2 ^ 29); lia).
      by rewrite <- Zmult_mod_idemp_l, Hb8. }
    pose proof (wrap_range 32 (u32 (b * nb) + 4) ltac:(lia)). destruct (Z.eq_dec (u32 (u32 (b * nb) + 4)) 0) as [E0 |]; [by rewrite E0 in Hm | lia]. }
  destruct (mem_alloc_Some s _ _ _ Hpos ltac:(lia) E1) as (-> & Hfit & ->). fold lo in Hfit, E2, G4, G5, E4, E3, G1, G2.
  destruct (fsb_no_wrap b nb lo _ m' _ s2 ltac:(lia) Hnb ltac:(lia) eq_refl Hfit E2 F2) as (Hn & Hw & Hbb).
  rewrite (wrap_small 32 (nb - 1)) in E2 by lia.
  destruct (link_up _ b _ lo _ _ ltac:(lia) ltac:(lia) E2) as (Em & _ & Hh2 & Hk & Hbelow). rewrite Z2Nat.id in Em by lia. subst m'.
  assert (u32 (lo + (nb - 1) * b + b) = lo + nb * b) as Ea by (rewrite wrap_small by nia; lia). rewrite Ea in *.
  rewrite (wrap_small 32 (b * nb)), (wrap_small 32 (b * nb + 4)) in * by nia. cbn [heap_pointer word] in *.
  split; [done |]. split; [done | split_and!; [done | done | rewrite G3, F3, Hh2; lia] | | | done |].
  - intros k Hkk. rewrite G5, F5 by nia. specialize (Hk (Z.to_nat k) ltac:(lia)). by rewrite Z2Nat.id in Hk by lia.
  - rewrite G5 by nia. done.
  - intros a Ha. rewrite G5, F5 by nia. by apply Hbelow.
Qed.

(** * The free list *)

Fixpoint chain (w : Z -> Z) (p : Z) (l : list Z) : Prop :=
  match l with
  | [] => p = 0
  | b :: l => p = b /\ b <> 0 /\ chain w (w b) l
  end.

Lemma chain_ext w w' p l : (forall x, x ∈ l -> w' x = w x) -> chain w p l -> chain w' p l.
Proof.
  revert p. induction l as [| x l IH]; intros p H; cbn; [done |]. intros (-> & Hx & Hc). split_and!; [done | done |].
  rewrite H by apply list_elem_of_here. apply IH; [| done]. intros y Hy. apply H. by apply list_elem_of_further.
Qed.

Section blocks.
Variables (lo b nb allocator : Z).
Hypothesis Hb : 8 <= b.
Hypothesis Hlo : 0 < lo.
Hypothesis Hall : allocator = lo + nb * b.
Hypothesis Hin : allocator + 4 <= wram_size.
Hypothesis Hnb : 0 <= nb.

Definition block_list : list Z := map (fun k => lo + Z.of_nat k * b) (seq 0 (Z.to_nat nb)).

Lemma block_list_elem x : x ∈ block_list <-> exists k, 0 <= k < nb /\ x = lo + k * b.
Proof.
  unfold block_list. rewrite list_elem_of_In, in_map_iff. split.
  - intros (k & <- & Hk%in_seq). exists (Z.of_nat k). lia.
  - intros (k & Hk & ->). exists (Z.to_nat k). rewrite in_seq, Z2Nat.id by lia. lia.
Qed.

Lemma block_in x : x ∈ block_list -> lo <= x /\ x + b <= allocator.
Proof. rewrite block_list_elem. intros (k & Hk & ->). nia. Qed.

Lemma blocks_apart x y : x ∈ block_list -> y ∈ block_list -> x <> y -> x + b <= y \/ y + b <= x.
Proof. rewrite !block_list_elem. intros (k & Hk & ->) (j & Hj & ->) Hne. assert (k < j \/ j < k) as [?|?] by nia; nia. Qed.

Lemma block_list_nodup : base.NoDup block_list.
Proof.
  unfold block_list. assert (Inj (=) (=) (fun k : nat => lo + Z.of_nat k * b)) by (intros x y ?; nia).
  apply (list.NoDup_fmap_2 (fun k : nat => lo + Z.of_nat k * b)), NoDup_seq.
Qed.

Record pool_ok (s : dpu_wram) (p : pool) : Prop := {
  ok_chain : chain (word s) (word s allocator) (free_blocks p);
  ok_perm : free_blocks p ++ owned p ≡ₚ block_list }.

Lemma pool_mem s p x : pool_ok s p -> x ∈ free_blocks p \/ x ∈ owned p -> x ∈ block_list.
Proof. intros [_ Hp] Hx. rewrite <- Hp. by apply elem_of_app. Qed.

Lemma pool_nodup s p : pool_ok s p -> base.NoDup (free_blocks p ++ owned p).
Proof. intros [_ Hp]. rewrite Hp. apply block_list_nodup. Qed.

Lemma remove_owned (x : Z) (l : list Z) : base.NoDup l -> x ∈ l -> l ≡ₚ x :: filter (fun y => y <> x) l.
Proof.
  intros Hn Hx. induction l as [| y l IH]; [by apply not_elem_of_nil in Hx |]. apply list.NoDup_cons in Hn as [Hy Hn].
  destruct (decide (y = x)) as [-> |].
  - rewrite filter_cons_False by naive_solver. f_equiv. clear IH Hx. induction l as [| z l IH]; [done |].
    apply list.NoDup_cons in Hn as [? ?]. apply not_elem_of_cons in Hy as [? ?]. rewrite filter_cons_True by naive_solver. f_equiv. by apply IH.
  - apply elem_of_cons in Hx as [-> | Hx]; [done |]. rewrite filter_cons_True by done.
    rewrite Permutation_swap. f_equiv. by apply IH.
Qed.

Lemma pool_step_ok s p o : pool_ok s p -> polite lo (allocator + 4) b p o ->
  exists s', fsb_step allocator s o = Some ((pool_step p o).1, s') /\ pool_ok s' (pool_step p o).2.
Proof.
  intros Hok Hp. pose proof (fun x => pool_mem s p x Hok) as Hmem. pose proof (pool_nodup _ _ Hok) as Hnd.
  destruct Hok as [Hc Hperm]. destruct o as [| ptr | a v]; cbn [fsb_step pool_step polite] in *.
  - unfold fsb_get. rewrite load_word_ok by (rewrite ?Hall; nia). cbn [mbind option_bind].
    destruct (free_blocks p) as [| x l] eqn:Ef; cbn in Hc.
    + rewrite Hc. exists s. cbn. split; [done |]. split; [by rewrite Ef | by rewrite Ef].
    + destruct Hc as (Ew & Hx & Hc). rewrite Ew. destruct (Z.eqb_spec x 0); [done |].
      assert (x ∈ block_list) as Hxb by (apply Hmem; left; apply list_elem_of_here). apply block_in in Hxb as [? ?].
      rewrite load_word_ok by lia. cbn [mbind option_bind].
      destruct (store_word_ok s allocator (word s x)) as [s' Es]; [nia | lia |]. rewrite Es. exists s'. split; [done |].
      apply store_word_Some in Es as (_ & _ & _ & Hv & Hr). split; cbn.
      * rewrite Hv. eapply chain_ext; [| exact Hc]. intros y Hy. apply Hr.
        assert (y ∈ block_list) as Hyb by (apply Hmem; left; by apply list_elem_of_further). apply block_in in Hyb. lia.
      * rewrite <- Hperm. symmetry. apply Permutation_middle.
  - assert (ptr ∈ block_list) as Hpb by (apply Hmem; by right). pose proof (block_in _ Hpb) as [? ?].
    unfold fsb_free. rewrite load_word_ok by (rewrite ?Hall; nia). cbn [mbind option_bind].
    destruct (store_word_ok s ptr (word s allocator)) as [s1 E1]; [lia | lia |]. rewrite E1. cbn [mbind option_bind].
    destruct (store_word_ok s1 allocator ptr) as [s2 E2]; [nia | lia |]. rewrite E2. cbn. exists s2. split; [done |].
    apply store_word_Some in E1 as (_ & _ & _ & Hv1 & Hr1). apply store_word_Some in E2 as (_ & _ & _ & Hv2 & Hr2).
    apply list.NoDup_app in Hnd as (_ & Hdis & Hno). split; cbn.
    + split_and!; [done | lia |]. rewrite Hr2, Hv1 by lia. eapply chain_ext; [| exact Hc]. intros y Hy.
      assert (y ∈ block_list) as Hyb by (apply Hmem; by left). pose proof (block_in _ Hyb).
      rewrite Hr2, Hr1; [done | | lia]. intros ->. by apply (Hdis ptr).
    + rewrite <- Hperm, Permutation_middle. f_equiv. symmetry. by apply remove_owned.
  - destruct Hp as (Ha0 & Ha4 & Hm & Hp). destruct (store_word_ok s a v) as [s' Es]; [lia | lia |]. rewrite Es. cbn.
    exists s'. split; [done |]. apply store_word_Some in Es as (_ & _ & _ & _ & Hr). split; [| done].
    rewrite Hr.
    + eapply chain_ext; [| exact Hc]. intros y Hy. apply Hr. assert (y ∈ block_list) as Hyb by (apply Hmem; by left).
      pose proof (block_in _ Hyb). intros ->. destruct Hp as [(x & Hx & ? & ?) | [? | ?]]; [| lia | lia].
      assert (x ∈ block_list) as Hxb by (apply Hmem; by right).
      destruct (decide (x = a)) as [-> |]; [| destruct (blocks_apart x a Hxb Hyb); [done | lia | lia]].
      apply list.NoDup_app in Hnd as (_ & Hdis & _). by apply (Hdis a).
    + intros <-. destruct Hp as [(x & Hx & ? & ?) | [? | ?]]; [| lia | lia].
      assert (x ∈ block_list) as Hxb by (apply Hmem; by right). apply block_in in Hxb. lia.
Qed.

Lemma pool_run_ok ops s p : pool_ok s p -> all_polite lo (allocator + 4) b p ops ->
  exists s', fsb_run allocator s ops = Some ((pool_run p ops).1, s') /\ pool_ok s' (pool_run p ops).2.
Proof.
  revert s p. induction ops as [| o ops IH]; intros s p Hok; cbn [fsb_run pool_run all_polite]; [by exists s |].
  intros [Hp Hps]. destruct (pool_step_ok s p o Hok Hp) as (s1 & -> & Hok1). cbn [mbind option_bind].
  destruct (pool_step p o) as [r p1]. cbn [fst snd] in *. destruct (IH s1 p1 Hok1 Hps) as (s2 & -> & Hok2). cbn [mbind option_bind].
  destruct (pool_run p1 ops) as [rs p2]. by exists s2.
Qed.

(** The list that an allocation builds. *)
Lemma fresh_chain w : (forall k, 0 <= k < nb - 1 -> w (lo + k * b) = lo + (k + 1) * b) -> w (lo + (nb - 1) * b) = 0 ->
  0 < nb -> chain w lo block_list.
Proof.
  intros Hk Hl Hn. assert (forall n k, (Z.of_nat k + Z.of_nat n = nb)%Z -> (0 < n)%nat ->
    chain w (lo + Z.of_nat k * b) (map (fun k => lo + Z.of_nat k * b) (seq k n))) as H.
  { induction n as [| n IH]; intros k E Hn0; [lia |]. cbn [seq map chain]. split_and!; [done | nia |].
    destruct n as [| n].
    - cbn. by replace (Z.of_nat k) with (nb - 1) by lia.
    - rewrite Hk by lia. replace (Z.of_nat k + 1) with (Z.of_nat (S k)) by lia. apply IH; lia. }
  specialize (H (Z.to_nat nb) O ltac:(lia) ltac:(lia)). by rewrite Z.mul_0_l, Z.add_0_r in H.
Qed.
End blocks.

Lemma link_ok turns b s m : 0 < b -> 0 <= m -> m + (Z.of_nat turns - 1) * b + 4 <= wram_size -> m + Z.of_nat turns * b < 2 ^ 32 ->
  exists s', link_blocks turns b s m = Some (m + Z.of_nat turns * b, s').
Proof.
  intros Hb. revert s m. induction turns as [| turns IH]; intros s m Hm Hfit Hw; cbn [link_blocks].
  { exists s. do 2 f_equal. lia. }
  destruct (store_word_ok s m (u32 (m + b))) as [s1 ->]; [done | nia |]. cbn [mbind option_bind].
  rewrite wrap_small by nia. destruct (IH s1 (m + b)) as [s2 ->]; [lia | lia | lia |]. exists s2. do 2 f_equal. lia.
Qed.

Lemma fsb_alloc_fits s bs nb : 0 <= bs <= 4294967288 -> 0 < nb < 2 ^ 32 -> 0 <= heap_pointer s <= 2 ^ 31 - 16 ->
  align8 (heap_pointer s) + nb * block_bytes bs + 4 <= wram_size -> is_Some (fsb_alloc s bs nb).
Proof.
  intros Hbs Hnb Hh Hfit. unfold fsb_alloc. destruct (Z.ltb_spec 4294967288 bs); [lia |]. fold (block_bytes bs).
  destruct (block_bytes_spec bs ltac:(lia)) as ([_ Hb'] & Hb & _). set (b := block_bytes bs) in *.
  destruct (align8_spec (heap_pointer s) ltac:(lia)) as [Hlo _].
  rewrite (wrap_small 32 (b * nb)), (wrap_small 32 (b * nb + 4)), (wrap_small 32 (nb - 1)) by nia.
  unfold mem_alloc, mem_alloc_nolock. destruct (Z.eqb_spec (b * nb + 4) 0); [nia |]. set (lo := align8 (heap_pointer s)) in *.
  destruct (Z.leb_spec (2 ^ 32) (lo + (b * nb + 4))); [lia |]. destruct (Z.leb_spec wram_size (lo + (b * nb + 4) - 1)); [lia |].
  cbn [orb mbind option_bind]. set (s0 := {| heap_pointer := _; word := _ |}).
  destruct (link_ok (Z.to_nat (nb - 1)) b s0 lo) as [s1 ->]; [lia | lia | nia | nia |]. cbn [mbind option_bind].
  rewrite Z2Nat.id by lia. destruct (store_word_ok s1 (lo + (nb - 1) * b) 0) as [s2 ->]; [nia | nia |]. cbn [mbind option_bind].
  rewrite wrap_small by nia. destruct (store_word_ok s2 (lo + (nb - 1) * b + b) lo) as [s3 ->]; [nia | nia |]. by eexists.
Qed.
End heap.

(** C24: an allocator of blocks is a stack of disjoint blocks.  Its creation
    faults exactly when there are no blocks, their size is too large, or they do
    not fit in the WRAM, though the sizes are computed modulo 2^32; it then
    changes nothing below the heap pointer.  Under all sequences of gets, frees of
    owned blocks, and writes of the owners inside their blocks or outside, nothing
    faults, each get has the result of the stack, and the free and the owned
    blocks are always all the blocks, each once. *)
Theorem fsb_alloc_refines_pool wram_size s block_size nb :
  0 <= wram_size <= 2 ^ 31 - 16 -> 0 < heap_pointer s <= 2 ^ 31 - 16 -> 0 <= block_size < 2 ^ 32 -> 0 <= nb < 2 ^ 32 ->
  let lo := align8 (heap_pointer s) in let b := block_bytes block_size in let allocator := lo + nb * b in
  let p0 := {| free_blocks := block_list lo b nb; owned := [] |} in
  (is_Some (fsb_alloc wram_size s block_size nb) <-> block_size <= 4294967288 /\ 0 < nb /\ allocator + 4 <= wram_size)
  /\ forall r s', fsb_alloc wram_size s block_size nb = Some (r, s') ->
     r = allocator /\ heap_pointer s' = allocator + 4 /\ block_size <= b /\ b mod 8 = 0
     /\ (forall a, a < lo -> word s' a = word s a)
     /\ forall ops, all_polite wram_size lo (allocator + 4) b p0 ops ->
        exists s'', fsb_run wram_size allocator s' ops = Some ((pool_run p0 ops).1, s'')
          /\ free_blocks (pool_run p0 ops).2 ++ owned (pool_run p0 ops).2 ≡ₚ block_list lo b nb.
Proof.
  intros Hw Hh Hbs Hnb lo b allocator p0. pose proof (fun r s' => fsb_alloc_fresh wram_size Hw s block_size nb r s' Hbs Hnb) as Hf.
  destruct (align8_spec (heap_pointer s) ltac:(lia)) as [Hlo _]. split.
  - split.
    + intros [[r s'] E]. destruct (Hf r s' ltac:(lia) E) as (Hs & [Hn (-> & Hfit & _) _ _ _ _]). done.
    + intros (Hs & Hn & Hfit). apply fsb_alloc_fits; [done | lia | lia | lia | done].
  - intros r s' E. destruct (Hf r s' ltac:(lia) E) as (Hs & [Hn (-> & Hfit & Hp) Hk Hl H1 Hbelow]).
    fold lo b in Hfit, Hp, Hk, Hl, H1, Hbelow |- *. destruct (block_bytes_spec block_size ltac:(lia)) as (Hb1 & Hb2 & Hb3). fold b in Hb1, Hb2, Hb3.
    split_and!; [done | done | lia | done | done |]. intros ops Hops.
    destruct (pool_run_ok wram_size Hw lo b nb allocator Hb2 ltac:(lia) eq_refl Hfit ltac:(lia) ops s' p0) as (s'' & E' & Hok).
    + split; [cbn; unfold allocator; rewrite H1; apply fresh_chain; first [done | lia] | by rewrite app_nil_r].
    + done.
    + exists s''. split; [done | apply Hok].
Qed.

(** Two blocks in a WRAM of 64 bytes; the third get finds none. *)
Lemma fsb_alloc_refines_pool_witness :
  let s := {| heap_pointer := 9; word := fun _ => 0 |} in
  let ops := [Get; Store 20 7; Get; Get; Free 16; Get] in
  exists s' s'', fsb_alloc 64 s 5 2 = Some (32, s') /\ fsb_run 64 32 s' ops = Some ([16; 0; 24; 0; 0; 16], s'').
Proof.
  intros s ops. assert (all_polite 64 16 36 8 {| free_blocks := [16; 24]; owned := [] |} ops) as Hops.
  { cbn. split_and!; try done; try lia; [left; exists 16; split; [apply list_elem_of_here | lia] |].
    apply list_elem_of_further, list_elem_of_here. }
  destruct (fsb_alloc_refines_pool 64 s 5 2 ltac:(lia) ltac:(cbn; lia) ltac:(lia) ltac:(lia)) as [[_ Hex] H].
  destruct Hex as [[r s'] E]; [vm_compute; split_and!; done |]. destruct (H r s' E) as (-> & _ & _ & _ & _ & Hrun).
  destruct (Hrun ops Hops) as (s'' & E' & _). exists s', s''. split; [exact E | exact E'].
Defined.
