(* ===== verification/SeqRead.v ===== *)
(** Sequential readers of the MRAM
    (library/src/dpu-rt/src/syslib/seqread.inc, seqread.h): a cache of two pages
    in the heap of the DPU.  The increment of a pointer (seqread_get) is a builtin
    of the compiler and is not modelled. *)
From stdpp Require Import list.
From S2P Require Import Prelude MramAccess DpuHeap.

Section seqread.
(** [SEQREAD_CACHE_SIZE] *)
Variable PAGE_SIZE : Z.

Definition PAGE_ALLOC_SIZE : Z := 2 * PAGE_SIZE.
Definition PAGE_OFF_MASK : Z := PAGE_SIZE - 1.
Definition PAGE_IDX_MASK : Z := Z.lxor (2 ^ 32 - 1) PAGE_OFF_MASK.

Record seqreader_t := { wram_cache : Z; mram_addr : Z }.

Definition seqread_alloc (wram_size : Z) (s : dpu_wram) : option (Z * dpu_wram) :=
  let heap_ptr := heap_pointer s in
  let pointer := Z.land (u32 (heap_ptr + PAGE_OFF_MASK)) PAGE_IDX_MASK in
  let size := u32 (u32 (pointer + PAGE_ALLOC_SIZE) - heap_ptr) in
  '(_, s) ← mem_alloc_nolock wram_size s size;
  Some (pointer, s).

(** The pointer in the cache, the reader and the WRAM. *)
Definition seqread_seek (mram wram : mem) (reader : seqreader_t) (target_addr : Z) : Z * seqreader_t * mem :=
  let mram_offset := u32 (target_addr - mram_addr reader) in
  if Z.land mram_offset PAGE_IDX_MASK =? 0 then (u32 (mram_offset + wram_cache reader), reader, wram)
  else
    let target_addr_idx_page := Z.land target_addr PAGE_IDX_MASK in
    (u32 (Z.land target_addr PAGE_OFF_MASK + wram_cache reader),
     {| wram_cache := wram_cache reader; mram_addr := target_addr_idx_page |},
     upd wram (wram_cache reader) (bytes mram target_addr_idx_page PAGE_ALLOC_SIZE)).

(** 2^26 is [1 << __DPU_MRAM_SIZE_LOG2]. *)
Definition seqread_init (mram wram : mem) (cache target_addr : Z) : Z * seqreader_t * mem :=
  seqread_seek mram wram {| wram_cache := cache; mram_addr := Z.shiftl 1 26 |} target_addr.

Definition seqread_tell (ptr : Z) (reader : seqreader_t) : Z := u32 (mram_addr reader + Z.land ptr PAGE_OFF_MASK).

(** Seeks one after the other. *)
Fixpoint seeks (mram wram : mem) (reader : seqreader_t) (targets : list Z) : seqreader_t * mem :=
  match targets with
  | [] => (reader, wram)
  | t :: targets => let '(_, reader, wram) := seqread_seek mram wram reader t in seeks mram wram reader targets
  end.

(** * Lemmas *)

Variable k : Z.
Hypothesis Hk : 5 <= k <= 10.
Hypothesis Hpage : PAGE_SIZE = 2 ^ k.

Lemma page_bounds : 32 <= PAGE_SIZE <= 1024.
Proof.
  rewrite Hpage. change 32 with (2 ^ 5). change 1024 with (2 ^ 10). split; apply Z.pow_le_mono_r; lia.
Qed.

Lemma land_off x : Z.land x PAGE_OFF_MASK = x mod PAGE_SIZE.
Proof. unfold PAGE_OFF_MASK. rewrite Hpage, <- Z.land_ones, Z.ones_equiv, Z.sub_1_r by lia. done. Qed.

Lemma land_idx x : 0 <= x < 2 ^ 32 -> Z.land x PAGE_IDX_MASK = x - x mod PAGE_SIZE.
Proof.
  intros Hx. assert (Z.land x PAGE_IDX_MASK = Z.ldiff x (Z.ones k)) as ->.
  { unfold PAGE_IDX_MASK, PAGE_OFF_MASK. rewrite Hpage. replace (2 ^ k - 1) with (Z.ones k) by (rewrite Z.ones_equiv; lia).
    change (2 ^ 32 - 1) with (Z.ones 32). bitwise i Hi. rewrite Z.land_spec, Z.lxor_spec, Z.ldiff_spec.
    destruct (Z.ltb_spec i 32).
    - by rewrite (Z.ones_spec_low 32) by lia.
    - by rewrite (testbit_high 32 x) by lia. }
  rewrite Z.ldiff_ones_r, Z.shiftl_mul_pow2, Z.shiftr_div_pow2, <- Hpage by lia.
  pose proof page_bounds. pose proof (Z.div_mod x PAGE_SIZE ltac:(lia)). lia.
Qed.

(** The cache is aligned, and holds two pages, once one has been loaded. *)
Record reader_ok (mram wram : mem) (r : seqreader_t) : Prop := {
  cache_aligned : wram_cache r mod PAGE_SIZE = 0;
  cache_range : 0 <= wram_cache r < 2 ^ 31;
  cache_page : mram_addr r = 2 ^ 26 \/ (0 <= mram_addr r < 2 ^ 26 /\ mram_addr r mod PAGE_SIZE = 0 /\
    forall i, 0 <= i < 2 * PAGE_SIZE -> wram (wram_cache r + i) = mram (mram_addr r + i)) }.

Lemma seek_ok mram wram r target : reader_ok mram wram r -> 0 <= target < 2 ^ 26 ->
  let '(p, r', wram') := seqread_seek mram wram r target in
  p = wram_cache r + target mod PAGE_SIZE /\ wram_cache r' = wram_cache r /\ mram_addr r' = target - target mod PAGE_SIZE
  /\ reader_ok mram wram' r' /\ (forall a, a < wram_cache r \/ wram_cache r + 2 * PAGE_SIZE <= a -> wram' a = wram a).
Proof.
  intros [Ha Hr Hp] Ht. unfold seqread_seek. pose proof page_bounds as HP.
  assert (forall x, 0 <= x mod PAGE_SIZE < PAGE_SIZE) as Hmod by (intros; apply Z.mod_pos_bound; lia).
  rewrite land_idx by (apply wrap_range; lia). set (off := u32 (target - mram_addr r)).
  destruct (Z.eqb_spec (off - off mod PAGE_SIZE) 0) as [E | E].
  - pose proof (Hmod off). assert (0 <= mram_addr r <= 2 ^ 26) as Hm by lia.
    assert (off = target - mram_addr r) as Eo.
    { unfold off in *. destruct (Z.leb_spec (mram_addr r) target); [apply wrap_small; lia |].
      assert (u32 (target - mram_addr r) = target - mram_addr r + 2 ^ 32) as Ew by (symmetry; apply (Z.mod_unique _ _ (-1)); lia). lia. }
    destruct Hp as [Hp | (Hp1 & Hp2 & Hp3)]; [lia |].
    assert (target mod PAGE_SIZE = off) as Em.
    { rewrite Eo in *. pose proof (Z.div_mod (mram_addr r) PAGE_SIZE ltac:(lia)).
      symmetry. apply (Z.mod_unique _ _ (mram_addr r / PAGE_SIZE)); lia. }
    split_and!; [rewrite wrap_small; lia | done | lia | | done]. split; [done | done | by right].
  - rewrite land_off, land_idx by lia. cbn [wram_cache mram_addr]. pose proof (Hmod target).
    pose proof (Z.div_mod target PAGE_SIZE ltac:(lia)). assert (target / PAGE_SIZE * PAGE_SIZE = target - target mod PAGE_SIZE) as Ed by lia.
    split_and!; [rewrite wrap_small; lia | done | done | |].
    + split; cbn; [done | done | right]. split_and!; [pose proof (Z.mod_le target PAGE_SIZE ltac:(lia) ltac:(lia)); lia | lia | rewrite <- Ed; apply Z_mod_mult |].
      intros i Hi. unfold PAGE_ALLOC_SIZE. rewrite upd_inside by (rewrite length_bytes; lia). rewrite nth_bytes by lia. f_equal. lia.
    + intros a Hout. apply upd_outside. rewrite length_bytes. unfold PAGE_ALLOC_SIZE. lia.
Qed.

Lemma alloc_ok wram_size s cache s' : 0 <= wram_size < 2 ^ 31 -> 0 <= heap_pointer s < 2 ^ 31 - 4096 ->
  seqread_alloc wram_size s = Some (cache, s') ->
  cache mod PAGE_SIZE = 0 /\ heap_pointer s <= cache /\ cache + 2 * PAGE_SIZE <= heap_pointer s' /\ heap_pointer s' <= wram_size.
Proof.
  intros Hw Hh. unfold seqread_alloc, PAGE_ALLOC_SIZE. pose proof page_bounds as HP.
  unfold PAGE_OFF_MASK at 1 2. rewrite wrap_small by lia. rewrite land_idx by lia.
  pose proof (Z.div_mod (heap_pointer s + (PAGE_SIZE - 1)) PAGE_SIZE ltac:(lia)).
  pose proof (Z.mod_pos_bound (heap_pointer s + (PAGE_SIZE - 1)) PAGE_SIZE ltac:(lia)).
  set (q := (heap_pointer s + (PAGE_SIZE - 1)) / PAGE_SIZE) in *. set (r := (heap_pointer s + (PAGE_SIZE - 1)) mod PAGE_SIZE) in *.
  assert (heap_pointer s + (PAGE_SIZE - 1) - r = q * PAGE_SIZE) as -> by lia.
  rewrite (wrap_small 32 (q * PAGE_SIZE + 2 * PAGE_SIZE)) by lia. rewrite wrap_small by lia.
  unfold mem_alloc_nolock. destruct (Z.eqb_spec (q * PAGE_SIZE + 2 * PAGE_SIZE - heap_pointer s) 0); [lia |].
  destruct (align8_spec (heap_pointer s) ltac:(lia)) as [Hal _].
  destruct (Z.leb_spec (2 ^ 32) (align8 (heap_pointer s) + (q * PAGE_SIZE + 2 * PAGE_SIZE - heap_pointer s))); [done |].
  destruct (Z.leb_spec wram_size (align8 (heap_pointer s) + (q * PAGE_SIZE + 2 * PAGE_SIZE - heap_pointer s) - 1)); [done |].
  cbn. intros [= <- <-]. cbn. split_and!; [apply Z_mod_mult | lia | lia | lia].
Qed.

Lemma seeks_ok mram targets : forall wram r, reader_ok mram wram r -> Forall (fun t => 0 <= t < 2 ^ 26) targets ->
  let '(r', wram') := seeks mram wram r targets in
  reader_ok mram wram' r' /\ wram_cache r' = wram_cache r
  /\ (forall a, a < wram_cache r \/ wram_cache r + 2 * PAGE_SIZE <= a -> wram' a = wram a).
Proof.
  induction targets as [| t targets IH]; intros wram r Hok Ht; cbn [seeks]; [done |].
  apply list.Forall_cons in Ht as [Ht Hts]. pose proof (seek_ok mram wram r t Hok Ht) as H.
  destruct (seqread_seek mram wram r t) as [[p r1] w1]. destruct H as (_ & Hc & _ & Hok1 & Hout).
  specialize (IH w1 r1 Hok1 Hts). destruct (seeks mram w1 r1 targets) as [r2 w2]. destruct IH as (Hok2 & Hc2 & Hout2).
  split_and!; [done | congruence |]. intros a Ha. rewrite Hout2 by (by rewrite Hc). by apply Hout.
Qed.

(** Sequential readers.  An allocated cache is a page aligned part of the
    heap, reserved for it.  Once a reader is initialised, whatever it has sought
    before, a seek gives a pointer to the byte sought and to at least a page of
    those after it, whether the pages were reloaded or not; the pointer tells the
    address sought; and no byte outside of the cache changes. *)
Theorem seqread_seek_spec wram_size s cache s' mram wram t0 targets target :
  0 <= wram_size < 2 ^ 31 -> 0 <= heap_pointer s < 2 ^ 31 - 4096 -> Forall (fun t => 0 <= t < 2 ^ 26) (t0 :: target :: targets) ->
  seqread_alloc wram_size s = Some (cache, s') ->
  let '(_, r0, w0) := seqread_init mram wram cache t0 in
  let '(r, w) := seeks mram w0 r0 targets in
  let '(p, r', w') := seqread_seek mram w r target in
  heap_pointer s <= cache /\ cache <= p /\ p + PAGE_SIZE < heap_pointer s' /\ heap_pointer s' <= wram_size
  /\ (forall i, 0 <= i <= PAGE_SIZE -> w' (p + i) = mram (target + i))
  /\ seqread_tell p r' = target
  /\ (forall a, a < cache \/ cache + 2 * PAGE_SIZE <= a -> w' a = wram a).
Proof.
  intros Hw Hh Ht Ha. apply list.Forall_cons in Ht as [Ht0 Ht]. apply list.Forall_cons in Ht as [Ht Hts].
  destruct (alloc_ok wram_size s cache s' Hw Hh Ha) as (Hal & Hc1 & Hc2 & Hc3). pose proof page_bounds as HP. unfold seqread_init.
  assert (reader_ok mram wram {| wram_cache := cache; mram_addr := Z.shiftl 1 26 |}) as Hok
    by (split; cbn [wram_cache mram_addr]; [done | lia | by left]).
  pose proof (seek_ok mram wram _ t0 Hok Ht0) as H0. destruct (seqread_seek mram wram _ t0) as [[p0 r0] w0].
  destruct H0 as (_ & Hr0 & _ & Hok0 & Hout0). cbn [wram_cache] in *.
  pose proof (seeks_ok mram targets w0 r0 Hok0 Hts) as H1. destruct (seeks mram w0 r0 targets) as [r w]. destruct H1 as (Hok1 & Hr1 & Hout1).
  pose proof (seek_ok mram w r target Hok1 Ht) as H2. destruct (seqread_seek mram w r target) as [[p r'] w'].
  destruct H2 as (-> & Hr2 & Hm & Hok2 & Hout2). rewrite Hr1, Hr0 in *.
  pose proof (Z.mod_pos_bound target PAGE_SIZE ltac:(lia)) as Hmod. split_and!; [lia | lia | lia | lia | | |].
  - intros i Hi. destruct Hok2 as [_ _ [E | (_ & _ & Hp)]].
    + pose proof (Z.mod_le target PAGE_SIZE). lia.
    + rewrite Hr2, Hm in Hp. rewrite <- Z.add_assoc, Hp by lia. f_equal. lia.
  - unfold seqread_tell. rewrite land_off, Hm. rewrite <- Zplus_mod_idemp_l, Hal, Z.add_0_l, Z.mod_mod by lia.
    rewrite wrap_small; lia.
  - intros a Hout. rewrite Hout2, Hout1, Hout0; done.
Qed.

(** A pointer to the second page of the cache tells the address one page
    too low, though it points to the bytes of the second page. *)
Theorem seqread_tell_second_page mram wram r i :
  reader_ok mram wram r -> mram_addr r < 2 ^ 26 -> 0 <= i < PAGE_SIZE ->
  let ptr := wram_cache r + PAGE_SIZE + i in
  wram ptr = mram (mram_addr r + PAGE_SIZE + i) /\ seqread_tell ptr r = mram_addr r + i.
Proof.
  intros [Ha Hr [Hp | (Hp1 & Hp2 & Hp3)]] Hm Hi ptr; [lia |]. pose proof page_bounds as HP. split.
  - unfold ptr. rewrite <- !Z.add_assoc. apply Hp3. lia.
  - unfold seqread_tell, ptr. rewrite land_off. replace (wram_cache r + PAGE_SIZE + i) with (wram_cache r + (i + 1 * PAGE_SIZE)) by lia.
    rewrite <- Zplus_mod_idemp_l, Ha, Z.add_0_l, Z_mod_plus_full, Z.mod_small by lia. rewrite wrap_small; lia.
Qed.
End seqread.

Lemma seqread_seek_spec_witness :
  let s := {| heap_pointer := 100; word := fun _ => 0 |} in
  let '(_, r0, w0) := seqread_init 32 (fun a => a) (fun _ => 0) 128 40 in
  let '(r, w) := seeks 32 (fun a => a) w0 r0 [70; 65] in
  let '(p, r', w') := seqread_seek 32 (fun a => a) w r 90 in
  w' p = 90 /\ seqread_tell 32 p r' = 90.
Proof.
  pose proof (seqread_seek_spec 32 5 ltac:(lia) eq_refl 65536 {| heap_pointer := 100; word := fun _ => 0 |} 128
    {| heap_pointer := 196; word := fun _ => 0 |} (fun a => a) (fun _ => 0) 40 [70; 65] 90 ltac:(lia) ltac:(cbn; lia)
    ltac:(repeat constructor; lia) eq_refl) as H.
  destruct (seqread_init 32 (fun a => a) (fun _ => 0) 128 40) as [[p0 r0] w0].
  destruct (seeks 32 (fun a => a) w0 r0 [70; 65]) as [r w].
  destruct (seqread_seek 32 (fun a => a) w r 90) as [[p r'] w']. destruct H as (_ & _ & _ & _ & H1 & H2 & _).
  split; [| exact H2]. specialize (H1 0 ltac:(lia)). by rewrite !Z.add_0_r in H1.
Defined.

Lemma seqread_tell_second_page_witness :
  let r := {| wram_cache := 128; mram_addr := 64 |} in
  seqread_tell 32 165 r = 69.
Proof.
  destruct (seqread_tell_second_page 32 5 ltac:(lia) eq_refl (fun a => a) (fun a => a - 64) {| wram_cache := 128; mram_addr := 64 |} 5) as [_ H].
  - split; cbn [wram_cache mram_addr]; [done | lia | right; split_and!; [lia | lia | done | lia]].
  - cbn. lia.
  - lia.
  - exact H.
Defined.
