(* ===== verification/DpuSet.v ===== *)
(** DPU sets of the host API (library/src/backends/api/src/api/dpu_set.c,
    dpu_disable_one_dpu of dpu_internals.c): counting the DPUs of a set,
    iterating over them, choosing the DPUs to disable, allocating a set and the
    registry of allocated sets.

    A rank is its control interfaces ("slices"), each with the [enabled] flags
    of its DPUs and the redundant summary the counts use.  Ranks are designated
    by their position in the array of a set, pointers into this array being
    positions.  What the driver answers during an allocation is an argument. *)
From stdpp Require Import list.
From S2P Require Import Prelude Errors Mask.

(** * Ranks *)

Record slice := { dpu_enabled : list bool; enabled_dpus : Z; all_dpus_are_enabled : bool }.

Record rank_t := { nr_dpus_per_ci : nat; slices : list slice }.

Definition OK : Z := error_code DPU_OK.

(** The array [rank->dpus]. *)
Definition dpus (r : rank_t) : list bool := concat (map dpu_enabled (slices r)).

Definition get_nr_of_dpus_in_rank (r : rank_t) : Z :=
  fold_left (fun count s =>
    u32 (count + (if all_dpus_are_enabled s then Z.of_nat (nr_dpus_per_ci r) else dpu_mask_count (enabled_dpus s))))
    (slices r) 0.

Definition DPU_INDEX (r : rank_t) (ci dpu : nat) : nat := nr_dpus_per_ci r * ci + dpu.

(** [status] is what the driver answers. *)
Definition dpu_disable_one_dpu (status : Z) (r : rank_t) (slice_id dpu_id : nat) : option (rank_t * Z) :=
  s ← slices r !! slice_id;
  enabled ← dpu_enabled s !! dpu_id;
  if negb enabled then Some (r, error_code DPU_ERR_DPU_DISABLED)
  else if negb (status =? OK) then Some (r, status)
  else
    let s := {| dpu_enabled := <[dpu_id := false]> (dpu_enabled s);
                enabled_dpus := Z.ldiff (enabled_dpus s) (Z.shiftl 1 (Z.of_nat dpu_id));
                all_dpus_are_enabled := false |} in
    Some ({| nr_dpus_per_ci := nr_dpus_per_ci r; slices := <[slice_id := s]> (slices r) |}, status).

(** * Sets and iterators *)

Inductive dpu_set_t :=
| Set_ranks (ranks nr_ranks : nat)
| Set_dpu (rank dpu : nat)
| Set_other.

Definition dpu_get_nr_ranks (set : dpu_set_t) : Z * option Z :=
  match set with
  | Set_ranks _ n => (OK, Some (Z.of_nat n))
  | Set_dpu _ _ => (OK, Some 1)
  | Set_other => (error_code DPU_ERR_INTERNAL, None)
  end.

Definition dpu_get_nr_dpus (arr : list rank_t) (set : dpu_set_t) : Z * option Z :=
  match set with
  | Set_ranks p n =>
    (OK, Some (fold_left (fun c r => u32 (c + get_nr_of_dpus_in_rank r)) (take n (drop p arr)) 0))
  | Set_dpu _ _ => (OK, Some 1)
  | Set_other => (error_code DPU_ERR_INTERNAL, None)
  end.

Record rank_iterator := {
  it_set : dpu_set_t;
  it_count : Z;
  it_next_idx : nat;
  it_has_next : bool;
  it_next : dpu_set_t }.

Definition dpu_set_rank_iterator_from (set : dpu_set_t) : rank_iterator :=
  let '(has_next, first) :=
    match set with
    | Set_ranks p n => (negb (n =? 0)%nat, Set_ranks p 1)
    | Set_dpu _ _ => (true, set)
    | Set_other => (false, set)
    end in
  {| it_set := set; it_count := 0; it_next_idx := 1; it_has_next := has_next; it_next := first |}.

Definition dpu_set_rank_iterator_next (it : rank_iterator) : rank_iterator :=
  let count := u32 (it_count it + 1) in
  let stop := {| it_set := it_set it; it_count := count; it_next_idx := it_next_idx it;
                 it_has_next := false; it_next := it_next it |} in
  if negb (it_has_next it) then stop
  else
    match it_set it with
    | Set_ranks p n =>
      if (it_next_idx it <? n)%nat then
        {| it_set := it_set it; it_count := count; it_next_idx := S (it_next_idx it); it_has_next := true;
           it_next := match it_next it with Set_ranks _ m => Set_ranks (p + it_next_idx it) m | s => s end |}
      else stop
    | Set_dpu _ _ | Set_other => stop
    end.

Record dpu_iterator := {
  rank_it : rank_iterator;
  d_count : Z;
  d_next_idx : nat;
  d_has_next : bool;
  d_next : dpu_set_t }.

(** The first enabled DPU from index [i]. *)
Fixpoint find_enabled (l : list bool) (i : nat) : option nat :=
  match l with
  | [] => None
  | b :: l => if b : bool then Some i else find_enabled l (S i)
  end.

(** The loops of [advance_to_next_dpu_in_rank_list] from DPU [dpu_idx] of the
    rank the rank iterator is on; [fuel] bounds the ranks left. *)
Fixpoint advance_to_next_dpu_in_rank_list (fuel : nat) (arr : list rank_t) (it : dpu_iterator) (dpu_idx : nat)
  : option dpu_iterator :=
  match it_next (rank_it it) with
  | Set_ranks p _ =>
    rank ← arr !! p;
    match find_enabled (drop dpu_idx (dpus rank)) dpu_idx with
    | Some idx =>
      Some {| rank_it := rank_it it; d_count := d_count it; d_next_idx := S idx; d_has_next := true;
              d_next := Set_dpu p idx |}
    | None =>
      let it := {| rank_it := dpu_set_rank_iterator_next (rank_it it); d_count := d_count it;
                   d_next_idx := d_next_idx it; d_has_next := d_has_next it; d_next := d_next it |} in
      if it_has_next (rank_it it) then
        match fuel with
        | O => None
        | S fuel => advance_to_next_dpu_in_rank_list fuel arr it 0
        end
      else Some {| rank_it := rank_it it; d_count := d_count it; d_next_idx := d_next_idx it;
                   d_has_next := false; d_next := d_next it |}
    end
  | _ => None
  end.

Definition dpu_set_dpu_iterator_from (arr : list rank_t) (set : dpu_set_t) : option dpu_iterator :=
  let it b next := {| rank_it := dpu_set_rank_iterator_from set; d_count := 0; d_next_idx := 0;
                      d_has_next := b; d_next := next |} in
  if negb (it_has_next (dpu_set_rank_iterator_from set)) then Some (it false Set_other)
  else
    match set with
    | Set_ranks _ n => advance_to_next_dpu_in_rank_list n arr (it false Set_other) 0
    | Set_dpu _ _ => Some (it true set)
    | Set_other => Some (it false Set_other)
    end.

Definition dpu_set_dpu_iterator_next (arr : list rank_t) (it : dpu_iterator) : option dpu_iterator :=
  let it' b := {| rank_it := rank_it it; d_count := u32 (d_count it + 1); d_next_idx := d_next_idx it;
                  d_has_next := b; d_next := d_next it |} in
  if negb (d_has_next it) then Some (it' false)
  else
    match it_set (rank_it it) with
    | Set_ranks _ n => advance_to_next_dpu_in_rank_list n arr (it' true) (d_next_idx it)
    | Set_dpu _ _ | Set_other => Some (it' false)
    end.

(** [DPU_FOREACH]: the indices and DPUs its body is run on. *)
Fixpoint foreach_from (fuel : nat) (arr : list rank_t) (it : dpu_iterator) : option (list (Z * dpu_set_t)) :=
  if d_has_next it then
    match fuel with
    | O => None
    | S fuel =>
      it' ← dpu_set_dpu_iterator_next arr it;
      l ← foreach_from fuel arr it';
      Some ((d_count it, d_next it) :: l)
    end
  else Some [].

Definition DPU_FOREACH (fuel : nat) (arr : list rank_t) (set : dpu_set_t) : option (list (Z * dpu_set_t)) :=
  it ← dpu_set_dpu_iterator_from arr set;
  foreach_from fuel arr it.

(** * Choosing the DPUs to disable *)

(** The best line so far. *)
Record choice := {
  target : option (nat * nat * nat);   (* rank, slice, line *)
  max_disabled_on_line : Z;
  max_enabled_on_rank : Z }.

(** One line of a rank: the disabled DPUs on it and the last slice where it is
    enabled. *)
Definition line_of (r : rank_t) (line : nat) : option (Z * option nat) :=
  fold_left (fun acc ci =>
    '(count, last) ← acc;
    enabled ← dpus r !! DPU_INDEX r ci line;
    Some (if enabled : bool then (count, Some ci) else (count + 1, last)))
    (seq 0 (length (slices r))) (Some (0, None)).

Definition consider_line (rank : nat) (r : rank_t) (c : choice) (line : nat) : option choice :=
  '(count, last) ← line_of r line;
  Some match last with
       | Some ci =>
         let enabled := get_nr_of_dpus_in_rank r in
         if (max_disabled_on_line c <? count)
            || ((count =? max_disabled_on_line c) && (max_enabled_on_rank c <=? enabled))
         then {| target := Some (rank, ci, line); max_disabled_on_line := count; max_enabled_on_rank := enabled |}
         else c
       | None => c
       end.

Definition consider_rank (c : choice) (rank : nat) (r : rank_t) : option choice :=
  if get_nr_of_dpus_in_rank r =? 1 then Some c
  else fold_left (fun c line => c ← c; consider_line rank r c line) (seq 0 (nr_dpus_per_ci r)) (Some c).

Fixpoint consider_ranks (c : choice) (rank : nat) (l : list rank_t) : option choice :=
  match l with
  | [] => Some c
  | r :: l => c ← consider_rank c rank r; consider_ranks c (S rank) l
  end.

(** [None] is a failed assertion (or an access out of the arrays). *)
Definition disable_one_dpu (status : Z) (ranks : list rank_t) : option (list rank_t * Z) :=
  c ← consider_ranks {| target := None; max_disabled_on_line := 0; max_enabled_on_rank := 0 |} 0 ranks;
  '(rank, ci, line) ← target c;
  r ← ranks !! rank;
  '(r, st) ← dpu_disable_one_dpu status r ci line;
  Some (<[rank := r]> ranks, st).

(** [n] DPUs to disable; one answer of the driver for each. *)
Fixpoint disable_loop (n : nat) (answers : list Z) (ranks : list rank_t) : option (list rank_t * Z) :=
  match n with
  | O => Some (ranks, OK)
  | S n =>
    a ← list.head answers;
    '(ranks, st) ← disable_one_dpu a ranks;
    if st =? OK then disable_loop n (tail answers) ranks else Some (ranks, st)
  end.

Definition disable_unused_dpus (answers : list Z) (current_nr_of_dpus nr_dpus : Z) (ranks : list rank_t)
  : option (list rank_t * Z) :=
  if (length ranks =? 0)%nat || (current_nr_of_dpus <? nr_dpus) then None
  else disable_loop (Z.to_nat (current_nr_of_dpus - nr_dpus)) answers ranks.

(** * Allocation *)

Definition DPU_ALLOCATE_ALL : Z := 0xFFFFFFFF.

(** One turn of the allocation loop: whether the array could grow, the answer
    of the driver, the rank if any, whether a reset is wanted and its status. *)
Record attempt := {
  realloc_ok : bool;
  get_status : Z;
  new_rank : rank_t;
  wants_reset : bool;
  reset_status : Z }.

Inductive allocation :=
| Allocated (ranks : list rank_t)
| Refused (status : Z) (freed : list rank_t).

(** The loop of [dpu_alloc]: the ranks and their number of DPUs, or the status
    and the ranks to free; with the attempts whose answer was not asked for. *)
Fixpoint alloc_loop (attempts : list attempt) (dispatch : bool) (nr_dpus : Z) (capacity : nat)
    (ranks : list rank_t) (current_nr_of_dpus : Z)
  : option ((list rank_t * Z + Z * list rank_t) * list attempt) :=
  match attempts with
  | [] => None
  | a :: rest =>
    let grow := (length ranks =? capacity)%nat in
    if grow && negb (realloc_ok a) then Some (inr (error_code DPU_ERR_SYSTEM, ranks), attempts)
    else
      let capacity := if grow then (2 * capacity + 2)%nat else capacity in
      let refused := get_status a =? error_code DPU_ERR_ALLOCATION in
      if refused && negb (length ranks =? 0)%nat && ((nr_dpus =? DPU_ALLOCATE_ALL) || dispatch) then
        if dispatch && (current_nr_of_dpus <? nr_dpus) then Some (inr (get_status a, ranks), rest)
        else Some (inl (ranks, current_nr_of_dpus), rest)
      else if negb (get_status a =? OK) then Some (inr (get_status a, ranks), rest)
      else
        let ranks := ranks ++ [new_rank a] in
        let status := if wants_reset a then reset_status a else OK in
        if negb (status =? OK) then Some (inr (status, ranks), rest)
        else
          let current := u32 (current_nr_of_dpus + get_nr_of_dpus_in_rank (new_rank a)) in
          if (Z.of_nat (length ranks) <? nr_dpus) && (dispatch || (current <? nr_dpus))
          then alloc_loop rest dispatch nr_dpus capacity ranks current
          else Some (inl (ranks, current), rest)
  end.

(** [profile] is the dispatch property, [None] when the profile is invalid;
    [answers] those of the driver when DPUs are disabled; [init] the statuses
    of [init_dpu_set] and of the transfer buffers. *)
Definition dpu_alloc (nr_dpus : Z) (profile : option bool) (attempts : list attempt) (answers : list Z)
    (init : Z * Z) : option (allocation * list attempt) :=
  if nr_dpus =? 0 then Some (Refused (error_code DPU_ERR_ALLOCATION) [], attempts)
  else
    match profile with
    | None => Some (Refused (error_code DPU_ERR_INVALID_PROFILE) [], attempts)
    | Some dispatch =>
      let dispatch := dispatch && negb (nr_dpus =? DPU_ALLOCATE_ALL) in
      '(r, rest) ← alloc_loop attempts dispatch nr_dpus 0 [] 0;
      match r with
      | inr (status, ranks) => Some (Refused status ranks, rest)
      | inl (ranks, current) =>
        let nr_dpus := if nr_dpus =? DPU_ALLOCATE_ALL then current else nr_dpus in
        '(ranks, status) ← disable_unused_dpus answers current nr_dpus ranks;
        if negb (status =? OK) then Some (Refused status ranks, rest)
        else if negb (init.1 =? OK) then Some (Refused init.1 ranks, rest)
        else if negb (init.2 =? OK) then Some (Refused init.2 ranks, rest)
        else Some (Allocated ranks, rest)
      end
    end.

(** * The registry of allocated sets *)

(** [room] is the real size of the array; [capacity] what the code believes. *)
Record registry := { sets : list dpu_set_t; capacity : nat; room : nat }.

#[export] Instance dpu_set_eq_dec : EqDecision dpu_set_t.
Proof. solve_decision. Defined.

(** [None] is a write past the end of the array. *)
Definition append_set (g : registry) (set : dpu_set_t) : option registry :=
  if (length (sets g) <? room g)%nat
  then Some {| sets := sets g ++ [set]; capacity := capacity g; room := room g |}
  else None.

Definition set_allocator_register (realloc_ok : bool) (g : registry) (set : dpu_set_t) : option (registry * Z) :=
  if (length (sets g) =? capacity g)%nat then
    let cap := (2 * capacity g + 2)%nat in
    if realloc_ok then
      g ← append_set {| sets := sets g; capacity := cap; room := cap |} set; Some (g, OK)
    else Some ({| sets := sets g; capacity := cap; room := room g |}, error_code DPU_ERR_SYSTEM)
  else g ← append_set g set; Some (g, OK).

(** The position of the set. *)
Fixpoint set_allocator_find (l : list dpu_set_t) (set : dpu_set_t) : option nat :=
  match l with
  | [] => None
  | s :: l => if decide (s = set) then Some O else S <$> set_allocator_find l set
  end.

Definition set_allocator_unregister (g : registry) (set : dpu_set_t) : registry * Z :=
  match set_allocator_find (sets g) set with
  | None => (g, error_code DPU_ERR_INVALID_DPU_SET)
  | Some idx => ({| sets := take idx (sets g) ++ drop (S idx) (sets g); capacity := capacity g; room := room g |}, OK)
  end.

(** * Ranks: the summary and the flags *)

Definition count_true (l : list bool) : nat := length (List.filter (fun b => b) l).

Record slice_ok (dpc : nat) (s : slice) : Prop := {
  slice_length : length (dpu_enabled s) = dpc;
  slice_mask : is_mask (enabled_dpus s);
  slice_bits : forall d, (d < 8)%nat -> Z.testbit (enabled_dpus s) (Z.of_nat d) = nth d (dpu_enabled s) false;
  slice_all : all_dpus_are_enabled s = true -> count_true (dpu_enabled s) = dpc }.

(** At most 8 slices of at most 8 DPUs, as the hardware has. *)
Record rank_ok (r : rank_t) : Prop := {
  rank_dpc : (nr_dpus_per_ci r <= 8)%nat;
  rank_cis : (length (slices r) <= 8)%nat;
  rank_slices : Forall (slice_ok (nr_dpus_per_ci r)) (slices r) }.

(** The number of enabled DPUs. *)
Definition total (r : rank_t) : nat := count_true (dpus r).

Lemma count_true_app l k : count_true (l ++ k) = (count_true l + count_true k)%nat.
Proof. unfold count_true. by rewrite List.filter_app, length_app. Qed.

Lemma count_true_le l : (count_true l <= length l)%nat.
Proof. apply List.filter_length_le. Qed.

Lemma count_true_nth l start n : (length l <= n)%nat ->
  length (List.filter (fun i => nth (i - start) l false) (seq start n)) = count_true l.
Proof.
  revert start l. induction n as [| n IH]; intros start l Hl; [destruct l; [done | simpl in Hl; lia] |].
  cbn [seq List.filter]. rewrite Nat.sub_diag. destruct l as [| b l].
  - rewrite <- (IH (S start) []) by (simpl; lia). cbn [nth].
    f_equal. apply List.filter_ext. intros i. by destruct (i - start)%nat, (i - S start)%nat.
  - simpl in Hl. assert (List.filter (fun i => nth (i - start) (b :: l) false) (seq (S start) n)
      = List.filter (fun i => nth (i - S start) l false) (seq (S start) n)) as ->.
    { apply List.filter_ext_in. intros i Hi. apply in_seq in Hi.
      replace (i - start)%nat with (S (i - S start)) by lia. done. }
    unfold count_true. cbn [nth List.filter]. destruct b; cbn [length]; rewrite IH by lia; done.
Qed.

Lemma slice_count dpc s : slice_ok dpc s -> (dpc <= 8)%nat ->
  (if all_dpus_are_enabled s then Z.of_nat dpc else dpu_mask_count (enabled_dpus s)) = Z.of_nat (count_true (dpu_enabled s)).
Proof.
  intros [Hlen Hm Hb Hall] Hd. destruct (all_dpus_are_enabled s).
  { rewrite (Hall eq_refl). done. }
  rewrite count_members by done. f_equal. unfold members. change (seqZ 0 8) with (map Z.of_nat (seq 0 8)).
  rewrite <- (count_true_nth (dpu_enabled s) 0 8) by lia.
  rewrite <- (length_map Z.of_nat). f_equal.
  assert (forall l, Forall (fun d => (d < 8)%nat) l ->
    List.filter (Z.testbit (enabled_dpus s)) (map Z.of_nat l)
    = map Z.of_nat (List.filter (fun i => nth (i - 0) (dpu_enabled s) false) l)) as H.
  { induction 1 as [| d l Hd8 _ IH]; [done |]. cbn [map List.filter]. rewrite Hb, Nat.sub_0_r by done.
    rewrite IH. by destruct (nth d _ false). }
  apply H. rewrite Forall_seq. lia.
Qed.

Lemma total_slices r : total r = sum_list_with (fun s => count_true (dpu_enabled s)) (slices r).
Proof.
  unfold total, dpus. induction (slices r) as [| s l IH]; [done |]. cbn [map concat sum_list_with].
  by rewrite count_true_app, IH.
Qed.

Lemma total_bound r : rank_ok r -> (total r <= 64)%nat.
Proof.
  intros [Hd Hc Hs]. rewrite total_slices.
  enough (sum_list_with (fun s => count_true (dpu_enabled s)) (slices r) <= 8 * length (slices r))%nat by lia.
  clear Hc. induction Hs as [| s l [Hlen _ _ _] _ IH]; [done |]. cbn [sum_list_with length].
  pose proof (count_true_le (dpu_enabled s)). lia.
Qed.

(** The counts of the API are the enabled DPUs. *)
Lemma nr_of_dpus_total r : rank_ok r -> get_nr_of_dpus_in_rank r = Z.of_nat (total r).
Proof.
  intros [Hd Hc Hs]. rewrite total_slices. unfold get_nr_of_dpus_in_rank.
  enough (forall l acc, Forall (slice_ok (nr_dpus_per_ci r)) l -> 0 <= acc -> acc + 8 * Z.of_nat (length l) < 2 ^ 32 ->
    fold_left (fun count s => u32 (count + (if all_dpus_are_enabled s then Z.of_nat (nr_dpus_per_ci r)
      else dpu_mask_count (enabled_dpus s)))) l acc
    = acc + Z.of_nat (sum_list_with (fun s => count_true (dpu_enabled s)) l)) as H.
  { rewrite H by (done || lia). lia. }
  induction l as [| s l IH]; intros acc Hl H0 Hb; cbn [fold_left sum_list_with]; [simpl; lia |].
  apply list.Forall_cons in Hl as [Hs1 Hl]. cbn [length] in Hb.
  rewrite (slice_count _ s Hs1 Hd). pose proof (count_true_le (dpu_enabled s)). destruct Hs1 as [Hlen _ _ _].
  rewrite wrap_small by lia. rewrite IH by (done || lia). lia.
Qed.

(** * The DPU that is disabled *)

(** The flag of DPU [line] of slice [ci] in the array of the rank. *)
Lemma concat_lookup (n : nat) (l : list slice) ci line :
  Forall (fun s => length (dpu_enabled s) = n) l -> (line < n)%nat ->
  concat (map dpu_enabled l) !! (n * ci + line)%nat = s ← l !! ci; dpu_enabled s !! line.
Proof.
  intros Hl Hline. revert ci. induction Hl as [| s l Hs Hl IH]; intros ci; [done |]. cbn [map concat].
  destruct ci as [| ci]; [rewrite lookup_app_l by lia; cbn; f_equal; lia |].
  rewrite lookup_app_r by lia. replace (n * S ci + line - length (dpu_enabled s))%nat with (n * ci + line)%nat by lia.
  apply IH.
Qed.

Lemma slices_length r : rank_ok r -> Forall (fun s => length (dpu_enabled s) = nr_dpus_per_ci r) (slices r).
Proof. intros [_ _ Hs]. eapply list.Forall_impl; [exact Hs |]. intros s H. apply H. Qed.

Lemma dpus_lookup r ci line : rank_ok r -> (line < nr_dpus_per_ci r)%nat ->
  dpus r !! DPU_INDEX r ci line = s ← slices r !! ci; dpu_enabled s !! line.
Proof. intros Hr Hl. by apply concat_lookup; [apply slices_length |]. Qed.

Lemma dpus_lookup_some r ci line : rank_ok r -> (ci < length (slices r))%nat -> (line < nr_dpus_per_ci r)%nat ->
  exists b, dpus r !! DPU_INDEX r ci line = Some b.
Proof.
  intros Hr Hc Hl. rewrite dpus_lookup by done. destruct (lookup_lt_is_Some_2 _ _ Hc) as [s Es].
  rewrite Es. cbn [mbind option_bind]. apply lookup_lt_is_Some_2.
  pose proof (slices_length r Hr) as H. rewrite list.Forall_lookup in H. by rewrite (H _ _ Es).
Qed.

Definition enabled_at (r : rank_t) (ci line : nat) : Prop :=
  (ci < length (slices r))%nat /\ (line < nr_dpus_per_ci r)%nat /\ dpus r !! DPU_INDEX r ci line = Some true.

(** A line is read without leaving the rank; what it yields is a DPU. *)
Lemma line_of_spec r line : rank_ok r -> (line < nr_dpus_per_ci r)%nat ->
  exists count last, line_of r line = Some (count, last) /\ 0 <= count
    /\ (forall ci, last = Some ci -> enabled_at r ci line)
    /\ (last = None -> forall ci, ~ enabled_at r ci line).
Proof.
  intros Hr Hl. unfold line_of.
  enough (forall n m count last, (n + m <= length (slices r))%nat -> 0 <= count ->
    (forall ci, last = Some ci -> enabled_at r ci line) ->
    (last = None -> forall ci, (ci < n)%nat -> ~ enabled_at r ci line) ->
    exists count' last', fold_left (fun acc ci => '(count, last) ← acc; enabled ← dpus r !! DPU_INDEX r ci line;
      Some (if enabled : bool then (count, Some ci) else (count + 1, last))) (seq n m) (Some (count, last))
      = Some (count', last') /\ 0 <= count' /\ (forall ci, last' = Some ci -> enabled_at r ci line)
      /\ (last' = None -> forall ci, (ci < n + m)%nat -> ~ enabled_at r ci line)) as H.
  { destruct (H 0%nat (length (slices r)) 0 None) as (c & l & E & H0 & H1 & H2); [lia.. | done | lia |].
    exists c, l. split_and!; [done.. |]. intros El ci Hci. by apply (H2 El ci); [destruct Hci |]. }
  intros n m. revert n. induction m as [| m IH]; intros n count last Hn H0 H1 H2.
  { exists count, last. split_and!; [done.. |]. intros E ci Hci. apply H2; [done | lia]. }
  cbn [seq fold_left]. destruct (dpus_lookup_some r n line) as [b Eb]; [done | lia | done |].
  rewrite Eb. cbn [mbind option_bind]. replace (n + S m)%nat with (S n + m)%nat by lia. destruct b.
  - apply IH; [lia | done | | done]. intros ci [= <-]. by split; [lia |].
  - apply IH; [lia.. | done |]. intros El ci Hci He. destruct (decide (ci = n)) as [-> |].
    + destruct He as (_ & _ & He). congruence.
    + apply (H2 El ci); [lia | done].
Qed.

(** What is chosen among [l] is an enabled DPU of a rank with others. *)
Record choice_ok (l : list rank_t) (c : choice) : Prop := {
  choice_none : target c = None -> max_disabled_on_line c = 0 /\ max_enabled_on_rank c = 0;
  choice_some : forall rank ci line, target c = Some (rank, ci, line) ->
    exists r, l !! rank = Some r /\ enabled_at r ci line /\ total r <> 1%nat }.

Lemma consider_line_ok l rank r c line :
  l !! rank = Some r -> rank_ok r -> total r <> 1%nat -> (line < nr_dpus_per_ci r)%nat -> choice_ok l c ->
  exists c', consider_line rank r c line = Some c' /\ choice_ok l c'
    /\ (target c <> None -> target c' <> None)
    /\ ((exists ci, enabled_at r ci line) -> target c' <> None).
Proof.
  intros Hl Hr H1 Hline Hc. unfold consider_line.
  destruct (line_of_spec r line Hr Hline) as (count & last & -> & H0 & Hlast & Hnone). cbn [mbind option_bind].
  eexists. split; [reflexivity |]. destruct last as [ci |].
  - specialize (Hlast ci eq_refl).
    assert (choice_ok l {| target := Some (rank, ci, line); max_disabled_on_line := count;
      max_enabled_on_rank := get_nr_of_dpus_in_rank r |}) as Hn.
    { split; [done |]. cbn. intros ? ? ? [= <- <- <-]. by exists r. }
    destruct (target c) eqn:Et.
    + case_match; (split_and!; [done | cbn; congruence.. ]).
    + destruct (choice_none _ _ Hc Et) as [-> ->]. rewrite nr_of_dpus_total in * by done.
      destruct (Z.leb_spec 0 (Z.of_nat (total r))); [| lia].
      rewrite andb_true_r. destruct (Z.ltb_spec 0 count), (Z.eqb_spec count 0); try lia; cbn [orb];
        by split_and!.
  - split_and!; [done.. |]. intros [ci Hci]. by destruct (Hnone eq_refl ci).
Qed.

Lemma count_true_pos l : (1 <= count_true l)%nat -> exists i, l !! i = Some true.
Proof.
  unfold count_true. induction l as [| [] l IH]; cbn [List.filter length]; intros H; [lia | by exists 0%nat |].
  destruct (IH H) as [i Hi]. by exists (S i).
Qed.

Lemma total_pos r : rank_ok r -> (1 <= total r)%nat -> exists ci line, enabled_at r ci line.
Proof.
  intros Hr H. rewrite total_slices in H.
  assert (exists ci s, slices r !! ci = Some s /\ (1 <= count_true (dpu_enabled s))%nat) as (ci & s & Es & Hs).
  { induction (slices r) as [| s l IH]; cbn [sum_list_with] in H; [lia |].
    destruct (decide (1 <= count_true (dpu_enabled s))%nat); [by exists 0%nat, s |].
    destruct IH as (ci & s' & ? & ?); [lia |]. by exists (S ci), s'. }
  destruct (count_true_pos _ Hs) as [line Eline]. exists ci, line.
  assert (line < nr_dpus_per_ci r)%nat as Hline.
  { pose proof (slices_length r Hr) as Hl. rewrite list.Forall_lookup in Hl. rewrite <- (Hl _ _ Es).
    by eapply lookup_lt_Some. }
  split_and!; [by eapply lookup_lt_Some | done |]. rewrite dpus_lookup by done. by rewrite Es.
Qed.

Lemma consider_rank_ok l rank r c :
  l !! rank = Some r -> rank_ok r -> choice_ok l c ->
  exists c', consider_rank c rank r = Some c' /\ choice_ok l c'
    /\ (target c <> None -> target c' <> None)
    /\ ((2 <= total r)%nat -> target c' <> None).
Proof.
  intros Hl Hr Hc. unfold consider_rank. rewrite nr_of_dpus_total by done.
  destruct (Z.eqb_spec (Z.of_nat (total r)) 1) as [E1 | E1]; [exists c; split_and!; [done.. | lia] |].
  enough (forall n m c, (n + m <= nr_dpus_per_ci r)%nat -> choice_ok l c ->
    exists c', fold_left (fun c line => c ← c; consider_line rank r c line) (seq n m) (Some c) = Some c'
      /\ choice_ok l c' /\ (target c <> None -> target c' <> None)
      /\ ((exists ci line, (n <= line < n + m)%nat /\ enabled_at r ci line) -> target c' <> None)) as H.
  { destruct (H 0%nat (nr_dpus_per_ci r) c) as (c' & E & H1 & H2 & H3); [lia | done |].
    exists c'. split_and!; [done.. |]. intros H4. apply H3.
    destruct (total_pos r Hr) as (ci & line & He); [lia |]. exists ci, line. destruct He as (? & ? & ?).
    by split; [lia |]. }
  clear c Hc. intros n m. revert n. induction m as [| m IH]; intros n c Hn Hc.
  { exists c. split_and!; [done.. |]. intros (? & ? & ? & _). lia. }
  cbn [seq fold_left]. cbn [mbind option_bind].
  destruct (consider_line_ok l rank r c n Hl Hr) as (c1 & E & Hc1 & Hk1 & He1); [lia | lia | done |]. rewrite E.
  destruct (IH (S n) c1) as (c2 & -> & Hc2 & Hk2 & He2); [lia | done |].
  exists c2. split_and!; [done.. | by auto |]. intros (ci & line & Hline & He).
  destruct (decide (line = n)) as [-> |]; [apply Hk2, He1; by exists ci |].
  apply He2. exists ci, line. by split; [lia |].
Qed.

Lemma consider_ranks_ok l pre k c : l = pre ++ k -> Forall rank_ok l -> choice_ok l c ->
  exists c', consider_ranks c (length pre) k = Some c' /\ choice_ok l c'
    /\ (target c <> None -> target c' <> None)
    /\ (Exists (fun r => (2 <= total r)%nat) k -> target c' <> None).
Proof.
  revert pre c. induction k as [| r k IH]; intros pre c El Hl Hc.
  { exists c. split_and!; [done.. |]. intros H. inversion H. }
  cbn [consider_ranks].
  destruct (consider_rank_ok l (length pre) r c) as (c1 & -> & Hc1 & Hk1 & He1); [| | done |].
  { rewrite El. by apply list_lookup_middle. }
  { rewrite El in Hl. apply list.Forall_app in Hl as [_ Hl]. by inversion Hl. }
  cbn [mbind option_bind]. destruct (IH (pre ++ [r]) c1) as (c2 & E & Hc2 & Hk2 & He2); [| done.. |].
  { by rewrite <- app_assoc. }
  rewrite length_app, Nat.add_1_r in E. exists c2. split_and!; [done.. | by auto |].
  intros H. inversion H as [? ? H2 | ? ? H2]; subst; auto.
Qed.

(** * Disabling it *)

Lemma count_true_insert l i : l !! i = Some true -> count_true l = S (count_true (<[i := false]> l)).
Proof.
  revert i. unfold count_true. induction l as [| b l IH]; intros [| i]; cbn; [done | done | intros [= ->]; done |].
  intros H. destruct b; cbn [length]; by rewrite (IH i H).
Qed.

Definition disable_slice (s : slice) (line : nat) : slice :=
  {| dpu_enabled := <[line := false]> (dpu_enabled s);
     enabled_dpus := Z.ldiff (enabled_dpus s) (Z.shiftl 1 (Z.of_nat line));
     all_dpus_are_enabled := false |}.

Lemma disable_slice_ok n s line : slice_ok n s -> (line < n)%nat -> (n <= 8)%nat -> slice_ok n (disable_slice s line).
Proof.
  intros [Hlen Hm Hb Hall] Hline Hn. split; cbn [disable_slice dpu_enabled enabled_dpus all_dpus_are_enabled]; [| | | done].
  - by rewrite length_insert.
  - unfold is_mask in *. apply bits_range; [lia | |].
    + apply Z.ldiff_nonneg. lia.
    + intros i Hi. rewrite Z.ldiff_spec, (testbit_high 8) by lia. done.
  - intros d Hd. rewrite shiftl_1_pow2 by lia. rewrite testbit_clear, Hb by lia.
    destruct (Z.eqb_spec (Z.of_nat d) (Z.of_nat line)) as [E | E]; cbn [negb].
    + replace d with line by lia. rewrite andb_false_r, nth_lookup, list_lookup_insert_eq by lia. done.
    + rewrite andb_true_r, !nth_lookup, list_lookup_insert_ne by lia. done.
Qed.

(** [r'] is [r] with some DPUs disabled. *)
Definition disabled_from (r r' : rank_t) : Prop :=
  nr_dpus_per_ci r' = nr_dpus_per_ci r /\ length (slices r') = length (slices r)
  /\ forall i, dpus r' !! i = Some true -> dpus r !! i = Some true.

Lemma concat_disable n l ci line s : Forall (fun s => length (dpu_enabled s) = n) l -> l !! ci = Some s -> (line < n)%nat ->
  concat (map dpu_enabled (<[ci := disable_slice s line]> l))
  = <[(n * ci + line)%nat := false]> (concat (map dpu_enabled l)).
Proof.
  intros Hl. revert ci. induction Hl as [| s0 l Hs Hl IH]; intros [| ci] Es Hline; [done.. | |].
  - injection Es as ->. cbn [list_insert insert]. cbn [map concat disable_slice dpu_enabled].
    rewrite insert_app_l by lia. do 3 f_equal. lia.
  - cbn in Es |- *. rewrite insert_app_r_alt by lia. f_equal.
    replace (n * S ci + line - length (dpu_enabled s0))%nat with (n * ci + line)%nat by lia. by apply IH.
Qed.

Lemma disable_spec r ci line : rank_ok r -> enabled_at r ci line ->
  exists r', rank_ok r' /\ total r = S (total r') /\ disabled_from r r' /\
  forall status, dpu_disable_one_dpu status r ci line = Some (if status =? OK then r' else r, status).
Proof.
  intros Hr (Hci & Hline & He). destruct (lookup_lt_is_Some_2 _ _ Hci) as [s Es].
  pose proof (dpus_lookup r ci line Hr Hline) as Hlook. rewrite He, Es in Hlook. cbn in Hlook.
  exists {| nr_dpus_per_ci := nr_dpus_per_ci r; slices := <[ci := disable_slice s line]> (slices r) |}.
  set (r' := Build_rank_t _ _).
  assert (dpus r' = <[DPU_INDEX r ci line := false]> (dpus r)) as Ed
    by (apply (concat_disable (nr_dpus_per_ci r)); [by apply slices_length | done..]).
  split_and!.
  - destruct Hr as [H1 H2 H3]. split; cbn; [done | by rewrite length_insert |].
    apply Forall_insert; [done |]. apply disable_slice_ok; [| done..].
    rewrite list.Forall_lookup in H3. by eapply H3.
  - unfold total. rewrite Ed. by apply count_true_insert.
  - split_and!; [done | by cbn; rewrite length_insert |]. intros i. rewrite Ed.
    destruct (decide (i = DPU_INDEX r ci line)) as [-> |]; [done |]. by rewrite list_lookup_insert_ne.
  - intros status. unfold dpu_disable_one_dpu. rewrite Es. cbn [mbind option_bind]. rewrite <- Hlook.
    cbn [mbind option_bind negb]. destruct (Z.eqb_spec status OK) as [-> |]; done.
Qed.

Definition total_of (l : list rank_t) : nat := sum_list_with total l.

Record ranks_ok (l : list rank_t) : Prop := {
  ranks_each : Forall rank_ok l;
  ranks_alive : Forall (fun r => (1 <= total r)%nat) l }.

Lemma disabled_refl r : disabled_from r r.
Proof. by split_and!. Qed.

Lemma disabled_trans r1 r2 r3 : disabled_from r1 r2 -> disabled_from r2 r3 -> disabled_from r1 r3.
Proof. intros (E1 & E2 & H1) (E3 & E4 & H2). split_and!; [congruence.. | by auto]. Qed.

#[global] Instance disabled_from_po : PreOrder disabled_from.
Proof. split; [exact disabled_refl | exact disabled_trans]. Qed.

Lemma total_insert l k r r' : l !! k = Some r -> total r = S (total r') -> total_of l = S (total_of (<[k := r']> l)).
Proof.
  unfold total_of. revert k. induction l as [| r0 l IH]; intros [| k] E H; [done.. | |].
  - injection E as ->. cbn. lia.
  - cbn in E. change (total r0 + sum_list_with total l = S (total r0 + sum_list_with total (<[k := r']> l)))%nat.
    rewrite (IH k E H). lia.
Qed.

(** With a rank of two DPUs or more, one DPU is disabled and no rank is
    emptied. *)
Lemma disable_one_spec l : ranks_ok l -> Exists (fun r => (2 <= total r)%nat) l ->
  exists l', ranks_ok l' /\ total_of l = S (total_of l') /\ Forall2 disabled_from l l' /\
  forall status, disable_one_dpu status l = Some (if status =? OK then l' else l, status).
Proof.
  intros [Hl H1] H2. unfold disable_one_dpu.
  destruct (consider_ranks_ok l [] l {| target := None; max_disabled_on_line := 0; max_enabled_on_rank := 0 |})
    as (c & E & Hc & _ & Hsome); [done.. | by split |].
  cbn [length] in E. rewrite E. cbn [mbind option_bind]. specialize (Hsome H2).
  destruct (target c) as [[[k ci] line] |] eqn:Et; [| done]. cbn [mbind option_bind].
  destruct (choice_some _ _ Hc _ _ _ Et) as (r & Er & He & Hn). rewrite Er. cbn [mbind option_bind].
  pose proof Hl as Hl'. rewrite list.Forall_lookup in Hl'.
  pose proof H1 as H1'. rewrite list.Forall_lookup in H1'. specialize (H1' _ _ Er).
  destruct (disable_spec r ci line (Hl' _ _ Er) He) as (r' & Hr' & Ht & Hd & Hdo).
  exists (<[k := r']> l). split_and!.
  - split; apply Forall_insert; (done || lia).
  - by apply (total_insert l k r r').
  - rewrite <- (list_insert_id l k r Er) at 1. apply Forall2_insert; [| done].
    reflexivity.
  - intros status. rewrite Hdo. cbn [mbind option_bind]. destruct (status =? OK); [done |].
    by rewrite list_insert_id.
Qed.

(** * Allocation *)

Lemma total_alive l : ranks_ok l -> (length l <= total_of l)%nat.
Proof.
  intros [_ H]. unfold total_of. induction H as [| r l Hr _ IH]; cbn [length sum_list_with]; lia.
Qed.

Lemma total_of_bound l : ranks_ok l -> (total_of l <= 64 * length l)%nat.
Proof.
  intros [H _]. unfold total_of. induction H as [| r l Hr _ IH]; cbn [length sum_list_with]; [lia |].
  pose proof (total_bound r Hr). lia.
Qed.

Lemma pigeonhole l : ranks_ok l -> (length l < total_of l)%nat -> Exists (fun r => (2 <= total r)%nat) l.
Proof.
  intros [_ H]. unfold total_of. induction H as [| r l Hr _ IH]; cbn [length sum_list_with]; [lia |].
  intros Hlt. destruct (decide (2 <= total r)%nat); [by left | right; apply IH; lia].
Qed.

(** All that is asked for is disabled, unless the driver refuses. *)
Lemma disable_loop_spec n N answers l :
  ranks_ok l -> (length l <= N)%nat -> total_of l = (N + n)%nat -> (n <= length answers)%nat ->
  exists l' st, disable_loop n answers l = Some (l', st) /\ ranks_ok l' /\ Forall2 disabled_from l l'
    /\ (st = OK -> total_of l' = N) /\ (st <> OK -> In st answers).
Proof.
  revert answers l. induction n as [| n IH]; intros answers l Hl HN Ht Ha.
  { exists l, OK. split_and!; [done.. | | lia | done].
    reflexivity. }
  destruct answers as [| a answers]; [cbn in Ha; lia |].
  destruct (disable_one_spec l Hl) as (l1 & Hl1 & Ht1 & Hd1 & Hdo); [by apply pigeonhole; [| lia] |].
  cbn [disable_loop list.head tail mbind option_bind]. cbn in Ha. rewrite Hdo. cbn [mbind option_bind].
  destruct (Z.eqb_spec a OK) as [-> | Hne]; cbn.
  - destruct (IH answers l1) as (l' & st & -> & Hl' & Hd' & Hok & Hin); [done | | lia.. |].
    { apply Forall2_length in Hd1. lia. }
    exists l', st. split_and!; [done.. | | done | by right; auto].
    by etrans.
  - exists l, a. split_and!; [done.. | | done | by left].
    reflexivity.
Qed.

(** The ranks the driver gave. *)
Definition granted (called : list attempt) : list rank_t :=
  map new_rank (List.filter (fun a => get_status a =? OK) called).

Definition attempt_ok (a : attempt) : Prop :=
  get_status a = OK -> rank_ok (new_rank a) /\ (1 <= total (new_rank a))%nat.

Lemma total_of_snoc l r : total_of (l ++ [r]) = (total_of l + total r)%nat.
Proof. unfold total_of. rewrite sum_list_with_app. cbn. lia. Qed.

Lemma ranks_ok_snoc l r : ranks_ok l -> rank_ok r -> (1 <= total r)%nat -> ranks_ok (l ++ [r]).
Proof. intros [H1 H2] Hr Ht. split; apply list.Forall_app; (split; [done | by apply list.Forall_singleton]). Qed.

(** Something went wrong in this turn. *)
Definition attempt_failed (a : attempt) : Prop :=
  realloc_ok a = false \/ get_status a <> OK \/ (wants_reset a = true /\ reset_status a <> OK).

Definition loop_post (nr : Z) (ranks : list rank_t) (res : list rank_t * Z + Z * list rank_t)
    (called attempts : list attempt) : Prop :=
  match res with
  | inl (rs, cur) =>
    rs = ranks ++ granted called /\ ranks_ok rs /\ cur = Z.of_nat (total_of rs)
    /\ Z.of_nat (length rs) <= nr /\ rs <> [] /\ (nr = DPU_ALLOCATE_ALL \/ nr <= cur)
  | inr (st, rs) => st <> OK /\ rs = ranks ++ granted called /\ Exists attempt_failed attempts
  end.

Lemma alloc_loop_spec attempts dispatch nr cap ranks :
  Forall attempt_ok attempts -> ranks_ok ranks -> Z.of_nat (64 * (length ranks + length attempts)) < 2 ^ 32 ->
  Z.of_nat (length ranks) < nr ->
  Exists (fun a => get_status a <> OK) attempts \/ nr <= Z.of_nat (length ranks + length attempts) ->
  exists res called rest, alloc_loop attempts dispatch nr cap ranks (Z.of_nat (total_of ranks)) = Some (res, rest)
    /\ attempts = called ++ rest /\ loop_post nr ranks res called attempts.
Proof.
  revert cap ranks. induction attempts as [| a attempts IH]; intros cap ranks Ha Hr Hb Hlen Hend.
  { destruct Hend as [H | H]; [inversion H | cbn in H; lia]. }
  apply list.Forall_cons in Ha as [Ha Has]. cbn [alloc_loop length] in *.
  destruct (_ && negb (realloc_ok a)) eqn:Eg0.
  { eexists _, [], _. split; [done |]. split; [done |]. cbn. rewrite app_nil_r. split_and!; [done.. |].
    left. left. apply andb_true_iff in Eg0 as [_ ?]. by destruct (realloc_ok a). }
  clear Eg0.
  set (cap' := if _ : bool then _ else cap). clearbody cap'.
  destruct (Z.eqb_spec (get_status a) OK) as [E | E].
  2: { cbn [negb]. assert (granted [a] = []) as Eg by (unfold granted; cbn; by destruct (Z.eqb_spec (get_status a) OK)).
    repeat case_match; eexists _, [a], _; (split; [done |]); (split; [done |]); cbn [loop_post]; rewrite Eg, app_nil_r;
      try (split_and!; [done.. | left; by right; left]).
    repeat match goal with H : _ && _ = true |- _ => apply andb_true_iff in H as [? H] end.
    split_and!; [done | done | done | lia | |].
    - intros ->. done.
    - destruct (Z.eqb_spec nr DPU_ALLOCATE_ALL); [by left | right]. destruct dispatch; [| done]. cbn [andb] in *. by apply Z.ltb_ge. }
  rewrite E. cbn [negb andb]. destruct (Ha E) as [Hra Hta].
  assert (granted [a] = [new_rank a]) as Eg by (unfold granted; cbn; by rewrite E).
  change (OK =? error_code DPU_ERR_ALLOCATION) with false. cbn [andb].
  destruct (Z.eqb_spec (if wants_reset a then reset_status a else OK) OK) as [Er | Er]; cbn [negb].
  2: { eexists _, [a], _. split; [done |]. split; [done |]. cbn [loop_post]. rewrite Eg.
    split_and!; [done.. |]. left. right; right. by destruct (wants_reset a). }
  pose proof (ranks_ok_snoc ranks (new_rank a) Hr Hra Hta) as Hr'. pose proof (total_of_bound _ Hr').
  rewrite nr_of_dpus_total, <- Nat2Z.inj_add, <- total_of_snoc by done.
  rewrite length_app in *. cbn [length] in *. rewrite wrap_small by lia.
  destruct (_ && _) eqn:Ec.
  - apply andb_true_iff in Ec as [Ec%Z.ltb_lt _].
    destruct (IH cap' (ranks ++ [new_rank a])) as (res & called & rest & -> & -> & Hp).
    + done.
    + done.
    + rewrite length_app; cbn [length]; lia.
    + rewrite length_app; cbn [length]; lia.
    + destruct Hend as [H1 | H1]; [inversion H1; subst; [done | by left] |].
      right. rewrite length_app; cbn [length]; lia.
    + exists res, (a :: called), rest. split_and!; [done.. |].
      assert (granted (a :: called) = new_rank a :: granted called) as Eg' by (unfold granted; cbn; by rewrite E).
      destruct res as [[] | []]; cbn [loop_post] in *; rewrite Eg', cons_app, app_assoc; [done |].
      destruct Hp as (? & ? & ?). split_and!; [done.. | by right].
  - eexists _, [a], _. split; [done |]. split; [done |]. cbn [loop_post]. rewrite Eg.
    pose proof (total_alive _ Hr') as Hal. rewrite length_app in *. cbn [length] in *.
    split_and!; [done | done | done | lia | by destruct ranks |]. right.
    apply andb_false_iff in Ec as [Ec%Z.ltb_ge | Ec]; [lia |]. apply orb_false_iff in Ec as [_ Ec%Z.ltb_ge]. lia.
Qed.

Lemma count_total l : Forall rank_ok l -> Z.of_nat (64 * length l) < 2 ^ 32 ->
  fold_left (fun c r => u32 (c + get_nr_of_dpus_in_rank r)) l 0 = Z.of_nat (total_of l).
Proof.
  enough (forall l acc, Forall rank_ok l -> (0 <= acc) -> acc + Z.of_nat (64 * length l) < 2 ^ 32 ->
    fold_left (fun c r => u32 (c + get_nr_of_dpus_in_rank r)) l acc = acc + Z.of_nat (total_of l)) as H.
  { intros Hl Hb. rewrite H by (done || lia). lia. }
  clear. unfold total_of. induction l as [| r l IH]; intros acc Hl H0 Hb; cbn [fold_left sum_list_with]; [simpl; lia |].
  apply list.Forall_cons in Hl as [Hr Hl]. cbn [length] in Hb. pose proof (total_bound r Hr).
  rewrite (nr_of_dpus_total r Hr), wrap_small by lia. rewrite IH by (done || lia). lia.
Qed.

Lemma get_nr_dpus_all l : ranks_ok l -> Z.of_nat (64 * length l) < 2 ^ 32 ->
  dpu_get_nr_dpus l (Set_ranks 0 (length l)) = (OK, Some (Z.of_nat (total_of l))).
Proof.
  intros [Hl _] Hb. unfold dpu_get_nr_dpus. rewrite drop_0, firstn_all. do 2 f_equal. by apply count_total.
Qed.


(** A rank of one slice of four DPUs. *)
Definition rank4 : rank_t :=
  {| nr_dpus_per_ci := 4;
     slices := [{| dpu_enabled := [true; true; true; true]; enabled_dpus := 15; all_dpus_are_enabled := true |}] |}.

Definition got (r : rank_t) : attempt :=
  {| realloc_ok := true; get_status := OK; new_rank := r; wants_reset := true; reset_status := OK |}.

Lemma rank4_ok : rank_ok rank4 /\ (1 <= total rank4)%nat.
Proof.
  split; [| by vm_compute; lia]. split; cbn; [lia.. |]. apply list.Forall_singleton.
  split; cbn; [done | by unfold is_mask; lia | | done].
  intros d Hd. do 8 (destruct d; [done |]). lia.
Qed.


(** * Iterating *)

(** The DPUs of rank [p] from DPU [j], and those of a set. *)
Definition enabled_from (p : nat) (r : rank_t) (j : nat) : list dpu_set_t :=
  map (Set_dpu p) (List.filter (fun d => nth d (dpus r) false) (seq j (length (dpus r) - j))).

Fixpoint ranks_from (p : nat) (l : list rank_t) : list dpu_set_t :=
  match l with
  | [] => []
  | r :: l => enabled_from p r 0 ++ ranks_from (S p) l
  end.

Definition dpus_of (arr : list rank_t) (set : dpu_set_t) : list dpu_set_t :=
  match set with
  | Set_ranks p n => ranks_from p (take n (drop p arr))
  | Set_dpu r d => [Set_dpu r d]
  | Set_other => []
  end.

Lemma find_enabled_spec p r j :
  match find_enabled (drop j (dpus r)) j with
  | Some i => enabled_from p r j = Set_dpu p i :: enabled_from p r (S i)
  | None => enabled_from p r j = []
  end.
Proof.
  unfold enabled_from. remember (length (dpus r) - j)%nat as n eqn:En. revert j En.
  induction n as [| n IH]; intros j En.
  { by rewrite drop_ge by lia. }
  destruct (lookup_lt_is_Some_2 (dpus r) j) as [b Eb]; [lia |].
  rewrite (drop_S _ _ _ Eb). cbn [find_enabled seq List.filter].
  rewrite (nth_lookup_Some _ _ _ _ Eb). destruct b.
  - by replace (length (dpus r) - S j)%nat with n by lia.
  - apply IH. lia.
Qed.

(** The rank iterator is on the [k]-th rank of the set. *)
Definition at_rank (p n k : nat) (it : rank_iterator) : Prop :=
  it_set it = Set_ranks p n /\ it_next_idx it = S k /\ it_has_next it = true /\ it_next it = Set_ranks (p + k) 1.

Lemma next_dpu_spec fuel arr it p n k r l j :
  at_rank p n k (rank_it it) -> (p + n <= length arr)%nat -> (k < n <= k + S fuel)%nat ->
  take (n - k) (drop (p + k) arr) = r :: l ->
  exists it', advance_to_next_dpu_in_rank_list fuel arr it j = Some it' /\ d_count it' = d_count it /\
  match enabled_from (p + k) r j ++ ranks_from (S (p + k)) l with
  | [] => d_has_next it' = false
  | s :: rest =>
    d_has_next it' = true /\ d_next it' = s /\
    exists k' r' l', at_rank p n k' (rank_it it') /\ (k' < n)%nat /\ take (n - k') (drop (p + k') arr) = r' :: l'
      /\ rest = enabled_from (p + k') r' (d_next_idx it') ++ ranks_from (S (p + k')) l'
  end.
Proof.
  intros Hat Hp. revert it k r l j Hat. induction fuel as [| fuel IH];
    intros it k r l j Hat Hk El; pose proof Hat as (Hset & Hidx & Hhas & Hnext);
    cbn [advance_to_next_dpu_in_rank_list]; rewrite Hnext.
  all: assert (arr !! (p + k)%nat = Some r) as Er by
    (apply (f_equal (fun l => l !! 0%nat)) in El; rewrite lookup_take_lt, lookup_drop, Nat.add_0_r in El by lia; done).
  all: assert (l = take (n - S k) (drop (p + S k) arr)) as El'
    by (rewrite (drop_S _ _ _ Er) in El; replace (n - k)%nat with (S (n - S k)) in El by lia;
        replace (p + S k)%nat with (S (p + k)) by lia; by injection El).
  all: rewrite Er; cbn [mbind option_bind]; pose proof (find_enabled_spec (p + k) r j) as Hf;
    destruct (find_enabled _ _) as [i |]; rewrite Hf.
  all: try (eexists; split; [reflexivity |]; split; [done |]; cbn [app d_has_next d_next d_next_idx rank_it];
    split_and!; [done.. |]; exists k, r, l; split_and!; (done || lia)).
  all: unfold dpu_set_rank_iterator_next; cbn [rank_it]; rewrite Hset, Hidx, Hhas; cbn [negb app].
  all: destruct (Nat.ltb_spec (S k) n); cbn [it_has_next d_count d_next_idx d_has_next d_next].
  all: try (eexists; split; [reflexivity |]; split; [done |]; replace (n - S k)%nat with 0%nat in El' by lia;
    cbn in El'; by rewrite El').
  - lia.
  - destruct l as [| r' l].
    { apply (f_equal length) in El'. rewrite length_take, length_drop in El'. cbn in El'. lia. }
    match goal with |- context [advance_to_next_dpu_in_rank_list fuel arr ?it1 0] =>
      destruct (IH it1 (S k) r' l 0%nat) as (it' & E & Hc & Hp') end.
    + cbn. rewrite Hnext. by split_and!.
    + lia.
    + done.
    + rewrite E. exists it'. split; [done |]. split; [exact Hc |].
      cbn [ranks_from]. replace (S (p + k)) with (p + S k)%nat by lia. exact Hp'.
Qed.

(** The indices of a loop. *)
Definition numbered (c : Z) (l : list dpu_set_t) : list (Z * dpu_set_t) := imap (fun i s => (u32 (c + Z.of_nat i), s)) l.

Lemma numbered_cons c s l : numbered c (s :: l) = (u32 c, s) :: numbered (u32 (c + 1)) l.
Proof.
  unfold numbered. cbn [imap]. rewrite Z.add_0_r. f_equal. apply imap_ext. intros i x _. cbn. f_equal.
  unfold wrap. rewrite Z.add_mod_idemp_l by lia. f_equal. lia.
Qed.

Lemma foreach_spec rest fuel arr it p n k r l :
  at_rank p n k (rank_it it) -> (p + n <= length arr)%nat -> (k < n)%nat -> take (n - k) (drop (p + k) arr) = r :: l ->
  d_has_next it = true -> rest = enabled_from (p + k) r (d_next_idx it) ++ ranks_from (S (p + k)) l ->
  (length rest < fuel)%nat -> d_count it = u32 (d_count it) ->
  foreach_from fuel arr it = Some (numbered (d_count it) (d_next it :: rest)).
Proof.
  revert fuel it k r l. induction rest as [| s rest IH]; intros fuel it k r l Hat Hp Hk El Hh Hr Hfuel Hc;
    (destruct fuel as [| fuel]; [lia |]); cbn [foreach_from]; rewrite Hh;
    unfold dpu_set_dpu_iterator_next; rewrite Hh; destruct (id Hat) as (Hset & _); rewrite Hset; cbn [negb].
  all: assert (k < n <= k + S n)%nat as Hkn by lia.
  all: match goal with |- context [advance_to_next_dpu_in_rank_list _ _ ?it1 ?j] =>
      destruct (next_dpu_spec n arr it1 p n k r l j Hat Hp Hkn El) as (it' & E & Hct & Hpost) end.
  all: rewrite E, numbered_cons, <- Hc; cbn [mbind option_bind]; rewrite <- Hr in Hpost; cbn [d_count] in Hct.
  - destruct fuel; cbn [foreach_from]; rewrite Hpost; done.
  - destruct Hpost as (Hh' & Hn' & k' & r' & l' & Hat' & Hk' & El' & Hr').
    rewrite (IH fuel it' k' r' l'); cbn [length] in Hfuel; try done || lia.
    + by rewrite Hct, Hn'.
    + by rewrite Hct, wrap_wrap.
Qed.

Lemma foreach_dpus fuel arr set :
  match set with Set_ranks p n => (p + n <= length arr)%nat | _ => True end ->
  (length (dpus_of arr set) <= fuel)%nat ->
  DPU_FOREACH fuel arr set = Some (numbered 0 (dpus_of arr set)).
Proof.
  intros Hset Hfuel. unfold DPU_FOREACH, dpu_set_dpu_iterator_from. destruct set as [p n | rk d |]; cbn [dpus_of] in *.
  - destruct n as [| n]; [by destruct fuel |]. cbn [dpu_set_rank_iterator_from it_has_next Nat.eqb negb].
    destruct (take (S n) (drop p arr)) as [| r l] eqn:El.
    { apply (f_equal length) in El. rewrite length_take, length_drop in El. cbn [length] in El. lia. }
    match goal with |- context [advance_to_next_dpu_in_rank_list _ _ ?it1 _] =>
      destruct (next_dpu_spec (S n) arr it1 p (S n) 0 r l 0) as (it' & E & Hc & Hpost) end.
    + split_and!; cbn; rewrite ?Nat.add_0_r; done.
    + done.
    + lia.
    + by rewrite Nat.add_0_r.
    + rewrite E. cbn [mbind option_bind]. rewrite Nat.add_0_r in Hpost. cbn [ranks_from] in *. cbn [d_count] in Hc.
      destruct (enabled_from p r 0 ++ ranks_from (S p) l) as [| s rest].
      { destruct fuel; cbn [foreach_from]; by rewrite Hpost. }
      destruct Hpost as (Hh & <- & k & r' & l' & Hat & Hk & El' & Hr'). cbn [length] in Hfuel.
      rewrite (foreach_spec rest fuel arr it' p (S n) k r' l'); rewrite ?Hc; try done || lia.
  - destruct fuel as [| fuel]; [cbn in Hfuel; lia |]. cbn. by destruct fuel.
  - by destruct fuel.
Qed.

Lemma ranks_from_elem p l s :
  In s (ranks_from p l) <-> exists k r d, (p <= k)%nat /\ l !! (k - p)%nat = Some r /\ dpus r !! d = Some true /\ s = Set_dpu k d.
Proof.
  revert p. induction l as [| r l IH]; intros p; cbn [ranks_from].
  { split; [done |]. by intros (k & r & d & _ & E & _). }
  rewrite in_app_iff, IH. unfold enabled_from. rewrite in_map_iff. split.
  - intros [(d & <- & Hd) | (k & r' & d & Hk & E & Hd & ->)].
    + apply filter_In in Hd as [_ Hd]. exists p, r, d. rewrite Nat.sub_diag. split_and!; [done.. | | done].
      rewrite nth_lookup in Hd. destruct (dpus r !! d) as [[] |]; done.
    + exists k, r', d. replace (k - p)%nat with (S (k - S p)) by lia. split_and!; [lia | done..].
  - intros (k & r' & d & Hk & E & Hd & ->). destruct (decide (k = p)) as [-> |].
    + rewrite Nat.sub_diag in E. injection E as <-. left. exists d. split; [done |]. apply filter_In.
      split; [apply in_seq; apply lookup_lt_Some in Hd; lia |]. by rewrite (nth_lookup_Some _ _ _ _ Hd).
    + right. exists k, r', d. replace (k - p)%nat with (S (k - S p)) in E by lia. split_and!; [lia | done..].
Qed.

Lemma ranks_from_nodup p l : NoDup (ranks_from p l).
Proof.
  revert p. induction l as [| r l IH]; intros p; cbn [ranks_from]; [constructor |].
  apply list.NoDup_app. split_and!; [| | apply IH].
  - unfold enabled_from. apply NoDup_fmap; [by intros ? ? [= ->] |].
    apply NoDup_ListNoDup, List.NoDup_filter, seq_NoDup.
  - intros s Hs%list_elem_of_In H%list_elem_of_In. apply ranks_from_elem in H as (k & ? & d & Hk & _ & _ & ->).
    unfold enabled_from in Hs. apply in_map_iff in Hs as (? & [= <- <-] & _). lia.
Qed.

Lemma ranks_from_length p l : length (ranks_from p l) = total_of l.
Proof.
  revert p. unfold total_of. induction l as [| r l IH]; intros p; cbn [ranks_from sum_list_with]; [done |].
  rewrite length_app, IH. f_equal. unfold enabled_from. rewrite length_map, Nat.sub_0_r. unfold total.
  rewrite <- (count_true_nth (dpus r) 0 (length (dpus r))) by done.
  f_equal. apply List.filter_ext. intros i. by rewrite Nat.sub_0_r.
Qed.

Definition in_set (arr : list rank_t) (set : dpu_set_t) (s : dpu_set_t) : Prop :=
  match set with
  | Set_ranks p n =>
    exists k r d, (p <= k < p + n)%nat /\ arr !! k = Some r /\ dpus r !! d = Some true /\ s = Set_dpu k d
  | Set_dpu _ _ => s = set
  | Set_other => False
  end.

(** The loop of [DPU_FOREACH] ends; it visits each enabled DPU of the set
    once and nothing else, in the order of the ranks, with indices from 0; and
    it makes as many turns as [dpu_get_nr_dpus] says. *)
Theorem foreach_visits_set arr set fuel :
  match set with Set_ranks p n => (p + n <= length arr)%nat | _ => True end ->
  Forall rank_ok arr -> Z.of_nat (64 * length arr) < 2 ^ 32 -> (64 * length arr < fuel)%nat ->
  exists l, DPU_FOREACH fuel arr set = Some l
    /\ (forall s, In s (map snd l) <-> in_set arr set s) /\ NoDup (map snd l)
    /\ map fst l = seqZ 0 (Z.of_nat (length l))
    /\ (set <> Set_other -> dpu_get_nr_dpus arr set = (OK, Some (Z.of_nat (length l)))).
Proof.
  intros Hset Har Hb Hfuel.
  assert (forall l, Forall rank_ok l -> (total_of l <= 64 * length l)%nat) as Hbound.
  { unfold total_of. induction 1 as [| r l Hr _ IH]; cbn [length sum_list_with]; [lia |]. pose proof (total_bound r Hr). lia. }
  assert (match set with Set_ranks p n => total_of (take n (drop p arr)) | Set_dpu _ _ => 1%nat | Set_other => 0%nat end
    = length (dpus_of arr set)) as Hlen by (destruct set; cbn [dpus_of]; by rewrite ?ranks_from_length).
  assert (Z.of_nat (length (dpus_of arr set)) < 2 ^ 32 /\ (length (dpus_of arr set) <= fuel)%nat) as [Hl1 Hl2].
  { rewrite <- Hlen. destruct set as [p n | |]; [| lia..].
    assert (Forall rank_ok (take n (drop p arr))) as H by (by apply Forall_take, Forall_drop).
    apply Hbound in H. rewrite length_take, length_drop in H. lia. }
  exists (numbered 0 (dpus_of arr set)). rewrite foreach_dpus by done.
  assert (map snd (numbered 0 (dpus_of arr set)) = dpus_of arr set) as Esnd.
  { unfold numbered. change (map snd) with (fmap (M := list) (@snd Z dpu_set_t)). rewrite fmap_imap.
    apply list_eq. intros i. rewrite list_lookup_imap. by destruct (_ !! i). }
  rewrite Esnd. assert (length (numbered 0 (dpus_of arr set)) = length (dpus_of arr set)) as El by apply length_imap.
  rewrite El. split_and!; [done | | | |].
  - intros s. destruct set as [p n | rk d |]; cbn [dpus_of in_set].
    + rewrite ranks_from_elem. split.
      * intros (k & r & d & Hk & E & Hd & ->). apply lookup_take_Some in E as [E Hk']. rewrite lookup_drop in E.
        replace (p + (k - p))%nat with k in E by lia. exists k, r, d. split_and!; [lia.. | done | done | done].
      * intros (k & r & d & Hk & E & Hd & ->). exists k, r, d. split_and!; [lia | | done | done].
        rewrite lookup_take_lt, lookup_drop by lia. by replace (p + (k - p))%nat with k by lia.
    + cbn. split; [by intros [<- |] | by left].
    + done.
  - destruct set as [p n | |]; cbn [dpus_of]; [apply ranks_from_nodup | apply NoDup_singleton | constructor].
  - unfold numbered. change (map fst) with (fmap (M := list) (@fst Z dpu_set_t)). rewrite fmap_imap.
    unfold seqZ. rewrite Nat2Z.id. apply list_eq. intros i. rewrite list_lookup_imap, list_lookup_fmap.
    destruct (decide (i < length (dpus_of arr set))%nat) as [Hi | Hi].
    + rewrite lookup_seq_lt by done. destruct (lookup_lt_is_Some_2 _ _ Hi) as [x ->]. cbn. f_equal.
      rewrite wrap_small by lia. lia.
    + rewrite lookup_seq_ge by lia. by rewrite lookup_ge_None_2 by lia.
  - rewrite <- Hlen. destruct set as [p n | |]; [| done..]. intros _. unfold dpu_get_nr_dpus.
    assert (Forall rank_ok (take n (drop p arr))) as H by (by apply Forall_take, Forall_drop).
    rewrite count_total; [done | done |]. rewrite length_take, length_drop. lia.
Qed.

Lemma foreach_visits_set_witness :
  exists l, DPU_FOREACH 129 [rank4; rank4] (Set_ranks 1 1) = Some l /\ map fst l = [0; 1; 2; 3]
    /\ NoDup (map snd l).
Proof.
  destruct (foreach_visits_set [rank4; rank4] (Set_ranks 1 1) 129) as (l & E & _ & Hn & Hf & _).
  - cbn. lia.
  - repeat (apply List.Forall_cons; [exact (proj1 rank4_ok) |]). apply List.Forall_nil.
  - cbn. lia.
  - cbn. lia.
  - exists l. split_and!; [exact E | | exact Hn]. rewrite Hf. vm_compute in E. injection E as <-. reflexivity.
Defined.

(** * The registry *)

Record registry_ok (g : registry) : Prop := {
  registry_size : (length (sets g) <= capacity g)%nat;
  registry_room : room g = capacity g }.

Lemma find_spec l set :
  match set_allocator_find l set with
  | Some i => exists pre post, l = pre ++ set :: post /\ length pre = i /\ ~ In set pre
  | None => ~ In set l
  end.
Proof.
  induction l as [| s l IH]; cbn [set_allocator_find]; [by intros [] |]. destruct (decide (s = set)) as [-> | Hs].
  { exists [], l. split_and!; [done.. | by intros []]. }
  destruct (set_allocator_find l set) as [i |]; cbn.
  - destruct IH as (pre & post & -> & <- & Hn). exists (s :: pre), post. split_and!; [done.. |]. intros [E | E]; [by destruct Hs | by auto].
  - by intros [|].
Qed.

(** Registering a set adds it, whether or not the array has to grow;
    unregistering removes one occurrence, the first, and says so when there is
    none; the array is never overrun as long as it grows when asked. *)
Theorem set_allocator_spec g set : registry_ok g ->
  (exists g', set_allocator_register true g set = Some (g', OK) /\ registry_ok g' /\ sets g' = sets g ++ [set]
    /\ (~ In set (sets g) -> sets (set_allocator_unregister g' set).1 = sets g))
  /\ let '(g', st) := set_allocator_unregister g set in
     registry_ok g' /\
     ((st = OK /\ exists pre post, sets g = pre ++ set :: post /\ ~ In set pre /\ sets g' = pre ++ post)
      \/ (st = error_code DPU_ERR_INVALID_DPU_SET /\ g' = g /\ ~ In set (sets g))).
Proof.
  intros [Hs Hr]. assert (forall cap, (length (sets g) < cap)%nat ->
    registry_ok {| sets := sets g ++ [set]; capacity := cap; room := cap |}) as Hok.
  { intros cap Hcap. split; cbn; [rewrite length_app; cbn; lia | done]. }
  assert (forall cap rm, ~ In set (sets g) ->
    sets (set_allocator_unregister {| sets := sets g ++ [set]; capacity := cap; room := rm |} set).1 = sets g) as Hrt.
  { intros cap rm Hn. unfold set_allocator_unregister. cbn [sets]. pose proof (find_spec (sets g ++ [set]) set) as Hf.
    destruct (set_allocator_find _ _) as [i |]; [| destruct Hf; apply in_app_iff; by right; left].
    destruct Hf as (pre & post & E & <- & Hnp). cbn. rewrite E, take_app_length.
    replace (S (length pre)) with (length (pre ++ [set])) by (rewrite length_app; cbn; lia).
    rewrite (cons_app set post), app_assoc, drop_app_length. destruct post as [| s post _] using rev_ind.
    - rewrite app_nil_r. by apply app_inj_tail in E as [-> _].
    - exfalso. rewrite app_comm_cons, app_assoc in E. apply app_inj_tail in E as [E _]. apply Hn. rewrite E.
      apply in_app_iff. by right; left. }
  split.
  - unfold set_allocator_register, append_set. destruct (Nat.eqb_spec (length (sets g)) (capacity g)); cbn [sets room capacity].
    + destruct (Nat.ltb_spec (length (sets g)) (2 * capacity g + 2)); [| lia]. eexists. split; [done |].
      split_and!; [apply Hok; lia | done | apply Hrt].
    + rewrite Hr. destruct (Nat.ltb_spec (length (sets g)) (capacity g)); [| lia]. eexists. split; [done |].
      split_and!; [apply Hok; lia | done | apply Hrt].
  - unfold set_allocator_unregister. pose proof (find_spec (sets g) set) as Hf.
    destruct (set_allocator_find _ _) as [i |]; [| by split; [| right]].
    destruct Hf as (pre & post & E & <- & Hn). cbn [fst snd].
    assert (take (length pre) (sets g) ++ drop (S (length pre)) (sets g) = pre ++ post) as Et.
    { rewrite E, take_app_length. replace (S (length pre)) with (length (pre ++ [set])) by (rewrite length_app; cbn; lia).
      by rewrite (cons_app set post), app_assoc, drop_app_length. }
    split.
    + split; cbn [sets capacity room]; [| done]. rewrite Et. rewrite E, length_app in Hs. cbn in Hs.
      rewrite length_app. lia.
    + left. split; [done |]. exists pre, post. by rewrite Et.
Qed.

Lemma set_allocator_spec_witness :
  exists g', set_allocator_register true {| sets := []; capacity := 0; room := 0 |} (Set_ranks 0 2) = Some (g', OK)
    /\ registry_ok g'.
Proof.
  destruct (set_allocator_spec {| sets := []; capacity := 0; room := 0 |} (Set_ranks 0 2)) as [(g' & E & Hok & _) _].
  - split; cbn; [lia | reflexivity].
  - exists g'. by split.
Defined.

(** When the array of the registry cannot grow, the capacity is raised all
    the same: the failure is reported, but the next registration, whatever it
    registers, writes past the end of the array. *)
Theorem failed_growth_overruns g set : registry_ok g -> length (sets g) = capacity g ->
  exists g', set_allocator_register false g set = Some (g', error_code DPU_ERR_SYSTEM) /\ sets g' = sets g
    /\ forall realloc_ok set', set_allocator_register realloc_ok g' set' = None.
Proof.
  intros [Hs Hr] Hfull. unfold set_allocator_register at 1. rewrite Hfull, Nat.eqb_refl. eexists.
  split; [reflexivity |]. split; [done |]. intros b set'. unfold set_allocator_register, append_set.
  cbn [sets capacity room]. destruct (Nat.eqb_spec (length (sets g)) (2 * capacity g + 2)); [lia |].
  destruct (Nat.ltb_spec (length (sets g)) (room g)); [lia | done].
Qed.

Lemma failed_growth_overruns_witness :
  exists g', set_allocator_register false {| sets := []; capacity := 0; room := 0 |} (Set_ranks 0 2)
      = Some (g', error_code DPU_ERR_SYSTEM)
    /\ set_allocator_register true g' (Set_ranks 0 2) = None.
Proof.
  destruct (failed_growth_overruns {| sets := []; capacity := 0; room := 0 |} (Set_ranks 0 2)) as (g' & E & _ & H).
  - split; cbn; [lia | reflexivity].
  - reflexivity.
  - exists g'. by split.
Defined.
