(* ===== verification/SetLife.v ===== *)
(** The life of a set (dpu_alloc_ranks, init_dpu_set,
    init_scatter_gather_transfer_buffer, sg_buffer_pool_free and dpu_free of
    library/src/backends/api/src/api/dpu_set.c): what each operation takes and
    gives back.

    A rank is a number, an array of ranks an address; the answers of the driver,
    of malloc and of the threads are those of [env].  [None]: an operation on
    something that is not an array of ranks. *)
From stdpp Require Import list.
From S2P Require Import Prelude Errors DpuSet.

Record env := {
  get_rank : nat -> Z * nat;         (* dpu_get_rank_of_type, for each_rank *)
  disable_reset_on_alloc : nat -> bool;
  reset_rank : nat -> Z;
  free_rank : nat -> Z;
  calloc_ranks : option nat;
  thread_job_create : Z;
  sets_realloc_ok : bool;
  polling_create : Z;
  sg_enable : option bool;           (* None: not fetched from the profile *)
  sg_max_blocks : option Z }.

(** [taken]: the ranks of the driver; [arrays]: the arrays of ranks; [threads]:
    the ranks whose workers run; [pools]: the first ranks of the sets that have a
    pool of scatter/gather buffers. *)
Record resources := {
  taken : list nat;
  arrays : list (nat * list nat);
  threads : list nat;
  reg : registry;
  sg_enabled : list nat;
  pools : list nat }.

Definition with_taken (s : resources) (l : list nat) : resources :=
  {| taken := l; arrays := arrays s; threads := threads s; reg := reg s; sg_enabled := sg_enabled s; pools := pools s |}.
Definition with_arrays (s : resources) (l : list (nat * list nat)) : resources :=
  {| taken := taken s; arrays := l; threads := threads s; reg := reg s; sg_enabled := sg_enabled s; pools := pools s |}.
Definition with_threads (s : resources) (l : list nat) : resources :=
  {| taken := taken s; arrays := arrays s; threads := l; reg := reg s; sg_enabled := sg_enabled s; pools := pools s |}.
Definition with_reg (s : resources) (g : registry) : resources :=
  {| taken := taken s; arrays := arrays s; threads := threads s; reg := g; sg_enabled := sg_enabled s; pools := pools s |}.
Definition with_sg (s : resources) (e p : list nat) : resources :=
  {| taken := taken s; arrays := arrays s; threads := threads s; reg := reg s; sg_enabled := e; pools := p |}.

Definition minus (l m : list nat) : list nat := filter (fun k => k ∉ m) l.

Definition ranks_of (s : resources) (p : nat) : option (list nat) :=
  snd <$> List.find (fun a => (a.1 =? p)%nat) (arrays s).

(** * Allocation *)

Section operations.
Variable e : env.

(** The loop on the ranks: the status, the ranks before the one that failed. *)
Fixpoint get_ranks (turns i : nat) (got : list nat) (s : resources) : Z * list nat * resources :=
  match turns with
  | O => (OK, got, s)
  | S turns =>
    let '(status, k) := get_rank e i in
    if negb (status =? OK) then (status, got, s)
    else
      let s := with_taken s (taken s ++ [k]) in
      let status := if disable_reset_on_alloc e k then OK else reset_rank e k in
      if negb (status =? OK) then (status, got, s) else get_ranks turns (S i) (got ++ [k]) s
  end.

(** The status is the last that is not OK. *)
Fixpoint free_ranks (l : list nat) (status : Z) (s : resources) : Z * resources :=
  match l with
  | [] => (status, s)
  | k :: l =>
    let ret := free_rank e k in
    free_ranks l (if ret =? OK then status else ret) (with_taken s (minus (taken s) [k]))
  end.

Definition init_dpu_set (p : nat) (ranks : list nat) (s : resources) : option (Z * resources) :=
  if negb (thread_job_create e =? OK) then Some (thread_job_create e, s)
  else
    let s := with_threads s (threads s ++ ranks) in
    '(g, status) ← set_allocator_register (sets_realloc_ok e) (reg s) (Set_ranks p (length ranks));
    let s := with_reg s g in
    if negb (status =? OK) then Some (status, s) else Some (polling_create e, s).

(** The first rank and its pool; the contents of the pool are in ScatterGather. *)
Definition init_scatter_gather_transfer_buffer (ranks : list nat) (s : resources) : option (Z * resources) :=
  match sg_enable e, sg_max_blocks e with
  | None, _ | _, None => Some (error_code DPU_ERR_INVALID_PROFILE, s)
  | Some enabled, Some blocks =>
    if negb enabled && (0 <? blocks) then Some (error_code DPU_ERR_INVALID_PROFILE, s)
    else
      let s := with_sg s (if enabled then sg_enabled s ++ ranks else minus (sg_enabled s) ranks) (pools s) in
      if enabled then
        r0 ← list.head ranks;
        if bool_decide (r0 ∈ pools s) then Some (error_code DPU_ERR_INTERNAL, s)
        else Some (OK, with_sg s (sg_enabled s) (pools s ++ [r0]))
      else Some (OK, s)
  end.

(** [alloc_all] is the answer of [dpu_alloc] to a request of all DPUs. *)
Definition dpu_alloc_ranks (alloc_all : option (Z * option dpu_set_t * resources)) (nr_ranks : Z) (s : resources)
  : option (Z * option dpu_set_t * resources) :=
  if nr_ranks =? DPU_ALLOCATE_ALL then alloc_all
  else if nr_ranks =? 0 then Some (error_code DPU_ERR_ALLOCATION, None, s)
  else
    match calloc_ranks e with
    | None => Some (error_code DPU_ERR_SYSTEM, None, s)
    | Some p =>
      let undo got status s :=
        let s := (free_ranks got OK s).2 in
        Some (status, None, with_arrays s (List.filter (fun a => negb (a.1 =? p)%nat) (arrays s))) in
      let '(status, ranks, s) := get_ranks (Z.to_nat nr_ranks) 0 [] s in
      let s := with_arrays s (arrays s ++ [(p, ranks)]) in
      if negb (status =? OK) then undo ranks status s
      else
        '(status, s) ← init_dpu_set p ranks s;
        if negb (status =? OK) then undo ranks status s
        else
          '(status, s) ← init_scatter_gather_transfer_buffer ranks s;
          if negb (status =? OK) then undo ranks status s
          else Some (OK, Some (Set_ranks p (length ranks)), s)
    end.

(** * Release *)

Definition sg_buffer_pool_free (ranks : list nat) (s : resources) : option (Z * resources) :=
  r0 ← list.head ranks;
  if negb (bool_decide (r0 ∈ sg_enabled s)) then Some (OK, s)
  else if negb (bool_decide (r0 ∈ pools s)) then Some (error_code DPU_ERR_INTERNAL, s)
  else Some (OK, with_sg s (minus (sg_enabled s) [r0]) (minus (pools s) [r0])).

Definition dpu_free (set : dpu_set_t) (s : resources) : option (Z * resources) :=
  match set with
  | Set_ranks p n =>
    ranks ← ranks_of s p;
    let ranks := take n ranks in
    '(status, s) ← sg_buffer_pool_free ranks s;
    if negb (status =? OK) then Some (status, s)
    else
      let '(g, status) := set_allocator_unregister (reg s) set in
      let s := with_reg s g in
      if negb (status =? OK) then Some (status, s)
      else
        let s := with_threads s (minus (threads s) ranks) in
        let '(status, s) := free_ranks ranks status s in
        Some (status, with_arrays s (List.filter (fun a => negb (a.1 =? p)%nat) (arrays s)))
  | _ => None
  end.
End operations.

(** * Lemmas *)

Lemma minus_fresh l m : (forall k, k ∈ m -> k ∉ l) -> minus l m = l.
Proof.
  intros H. unfold minus. induction l as [| x l IH]; [done |]. rewrite filter_cons_True.
  - f_equal. apply IH. intros k Hk Hl. apply (H k Hk). by apply list_elem_of_further.
  - intros Hx. apply (H x Hx). apply list_elem_of_here.
Qed.

Lemma minus_all m m' : (forall k, k ∈ m -> k ∈ m') -> minus m m' = [].
Proof.
  intros H. unfold minus. induction m as [| x m IH]; [done |]. rewrite filter_cons_False.
  - apply IH. intros k Hk. apply H. by apply list_elem_of_further.
  - intros Hx. apply Hx, H, list_elem_of_here.
Qed.

Lemma minus_added l m : (forall k, k ∈ m -> k ∉ l) -> minus (l ++ m) m = l.
Proof. intros H. unfold minus. rewrite list.filter_app. fold (minus l m) (minus m m). by rewrite minus_fresh, minus_all, app_nil_r. Qed.

Lemma minus_minus l m m' : minus (minus l m) m' = minus l (m ++ m').
Proof.
  unfold minus. rewrite list_filter_filter. apply list_filter_iff. intros k. rewrite elem_of_app. tauto.
Qed.

(** The ranks that the driver gives. *)
Definition given (e : env) (n : nat) : list nat := map (fun i => (get_rank e i).2) (seq 0 n).

Arguments given : simpl never.

Lemma given_S e n : given e (S n) = given e n ++ [(get_rank e n).2].
Proof. unfold given. by rewrite seq_S, map_app. Qed.

(** The loop: either all the ranks, or those before one that failed, which
    stays taken when its reset failed. *)
Lemma get_ranks_cases e turns i s : let '(status, got, s') := get_ranks e turns i (given e i) s in
  (status = OK /\ got = given e (i + turns) /\ s' = with_taken s (taken s ++ drop i (given e (i + turns))))
  \/ (status <> OK /\ exists j, (i <= j < i + turns)%nat /\ got = given e j /\
      (s' = with_taken s (taken s ++ drop i (given e j))
       \/ (status = reset_rank e (get_rank e j).2 /\ s' = with_taken s (taken s ++ drop i (given e (S j)))))).
Proof.
  assert (forall n, length (given e n) = n) as Hlen by (intros n; unfold given; by rewrite length_map, length_seq).
  assert (forall j n, drop j (given e (j + n)) = map (fun i => (get_rank e i).2) (seq j n)) as Hdrop.
  { intros j n. unfold given. by rewrite seq_app, map_app, drop_app_length' by (by rewrite length_map, length_seq). }
  revert i s. induction turns as [| turns IH]; intros i s; cbn [get_ranks].
  { left. split_and!; [done | by rewrite Nat.add_0_r |]. rewrite Hdrop. cbn. rewrite app_nil_r. by destruct s. }
  destruct (get_rank e i) as [status k] eqn:Eg.
  assert (given e i ++ [k] = given e (S i)) as Ek by (by rewrite given_S, Eg).
  destruct (Z.eqb_spec status OK) as [-> | Hs]; cbn [negb].
  2:{ right. split; [done |]. exists i. split_and!; [lia | lia | done | left].
      rewrite drop_ge, app_nil_r by (rewrite Hlen; lia). by destruct s. }
  set (st := if disable_reset_on_alloc e k then OK else reset_rank e k).
  destruct (Z.eqb_spec st OK) as [E | E]; cbn [negb].
  2:{ right. split; [done |]. exists i. split_and!; [lia | lia | done | right]. rewrite Eg. split.
      - unfold st in *. by destruct (disable_reset_on_alloc e k).
      - replace (S i) with (i + 1)%nat by lia. rewrite Hdrop. cbn. by rewrite Eg. }
  rewrite Ek. specialize (IH (S i) (with_taken s (taken s ++ [k]))). destruct (get_ranks e turns (S i) _ _) as [[status got] s'].
  assert (forall n, (i < n)%nat -> taken s ++ drop i (given e n) = (taken s ++ [k]) ++ drop (S i) (given e n)) as Hshift.
  { intros n Hn. rewrite <- app_assoc. f_equal. replace n with (i + S (n - S i))%nat at 1 by lia. rewrite Hdrop. cbn. rewrite Eg. cbn. f_equal.
    replace n with (S i + (n - S i))%nat at 2 by lia. by rewrite Hdrop. }
  destruct IH as [(-> & -> & ->) | (Hst & j & Hj & -> & Hs')].
  - left. split_and!; [done | f_equal; lia |]. rewrite Hshift by lia. cbn. by replace (i + S turns)%nat with (S (i + turns)) by lia.
  - right. split; [done |]. exists j. split_and!; [lia | lia | done |]. destruct Hs' as [-> | [-> ->]]; [left | right; split; [done |]];
      unfold with_taken; cbn [taken arrays threads reg sg_enabled pools]; by rewrite <- Hshift by lia.
Qed.

Lemma minus_nil l : minus l [] = l.
Proof. apply minus_fresh. by intros k ?%not_elem_of_nil. Qed.

Lemma with_taken_taken s l l' : with_taken (with_taken s l) l' = with_taken s l'.
Proof. done. Qed.

Lemma free_ranks_taken e l st s : snd (free_ranks e l st s) = with_taken s (minus (taken s) l).
Proof.
  revert st s. induction l as [| k l IH]; intros st s; cbn [free_ranks]; [rewrite minus_nil; by destruct s |].
  rewrite IH. cbn [taken with_taken]. by rewrite minus_minus.
Qed.

Lemma free_ranks_ok e l s : (forall k, k ∈ l -> free_rank e k = OK) -> fst (free_ranks e l OK s) = OK.
Proof.
  revert s. induction l as [| k l IH]; intros s H; cbn [free_ranks]; [done |].
  rewrite H by apply list_elem_of_here. apply IH. intros j Hj. apply H. by apply list_elem_of_further.
Qed.

(** The ranks and the array that are given are new. *)
Record fresh (e : env) (n : nat) (p : nat) (s : resources) : Prop := {
  fresh_ranks : forall k, k ∈ given e n -> k ∉ taken s /\ k ∉ threads s /\ k ∉ pools s;
  fresh_distinct : base.NoDup (given e n);
  fresh_array : forall a, a ∈ arrays s -> fst a <> p;
  fresh_set : registry_ok (reg s) /\ ~ In (Set_ranks p n) (sets (reg s)) }.

Lemma given_le e j n k : (j <= n)%nat -> k ∈ given e j -> k ∈ given e n.
Proof.
  unfold given. intros Hj. rewrite !list_elem_of_In, !in_map_iff. intros (i & E & Hi%in_seq). exists i. split; [done |]. apply in_seq. lia.
Qed.

Lemma length_given e n : length (given e n) = n.
Proof. unfold given. by rewrite length_map, length_seq. Qed.

Lemma filter_array s p ranks : (forall a, a ∈ arrays s -> fst a <> p) ->
  List.filter (fun a => negb (a.1 =? p)%nat) (arrays s ++ [(p, ranks)]) = arrays s.
Proof.
  intros H. rewrite List.filter_app. cbn. rewrite Nat.eqb_refl, app_nil_r. cbn.
  induction (arrays s) as [| a l IH]; [done |]. cbn. destruct (Nat.eqb_spec a.1 p) as [E | E]; cbn.
  - destruct (H a (list_elem_of_here _ _) E).
  - f_equal. apply IH. intros b Hb. apply H. by apply list_elem_of_further.
Qed.

Lemma find_array s p ranks : (forall a, a ∈ arrays s -> fst a <> p) ->
  List.find (fun a => (a.1 =? p)%nat) (arrays s ++ [(p, ranks)]) = Some (p, ranks).
Proof.
  induction (arrays s) as [| a l IH]; intros H; cbn; [by rewrite Nat.eqb_refl |].
  destruct (Nat.eqb_spec a.1 p) as [E | E]; [by destruct (H a (list_elem_of_here _ _)) |].
  apply IH. intros b Hb. apply H. by apply list_elem_of_further.
Qed.

(** What is left of a set that could not be initialised. *)
Inductive leftover (e : env) (ranks : list nat) (p : nat) (s s' : resources) : Z -> Prop :=
| Nothing_left st : taken s' = taken s -> threads s' = threads s -> sets (reg s') = sets (reg s) -> leftover e ranks p s s' st
| Rank_left k : k ∈ ranks -> reset_rank e k <> OK -> taken s' = taken s ++ [k] -> threads s' = threads s ->
    sets (reg s') = sets (reg s) -> leftover e ranks p s s' (reset_rank e k)
| Threads_left : sets_realloc_ok e = false -> taken s' = taken s -> threads s' = threads s ++ ranks ->
    sets (reg s') = sets (reg s) -> leftover e ranks p s s' (error_code DPU_ERR_SYSTEM)
| Set_left st : thread_job_create e = OK -> taken s' = taken s -> threads s' = threads s ++ ranks ->
    sets (reg s') = sets (reg s) ++ [Set_ranks p (length ranks)] -> leftover e ranks p s s' st.

Lemma register_cases b g set : registry_ok g -> exists g' st, set_allocator_register b g set = Some (g', st) /\
  ((st = OK /\ sets g' = sets g ++ [set] /\ snd (set_allocator_unregister g' set) = OK
      /\ (~ In set (sets g) -> sets (fst (set_allocator_unregister g' set)) = sets g))
   \/ (st = error_code DPU_ERR_SYSTEM /\ b = false /\ sets g' = sets g)).
Proof.
  intros Hg. destruct (set_allocator_spec g set Hg) as [(g' & E & Hg' & Hs & Hu) _].
  assert (snd (set_allocator_unregister g' set) = OK) as Hok.
  { unfold set_allocator_unregister. pose proof (find_spec (sets g') set) as Hf. destruct (set_allocator_find _ _); [done |].
    destruct Hf. rewrite Hs. apply in_app_iff. by right; left. }
  destruct (set_allocator_register b g set) as [[g1 st] |] eqn:Eb.
  - exists g1, st. split; [done |]. destruct b; [rewrite E in Eb; injection Eb as <- <-; by left |].
    unfold set_allocator_register in *. destruct (length (sets g) =? capacity g)%nat.
    + injection Eb as <- <-. by right.
    + rewrite E in Eb. injection Eb as <- <-. by left.
  - exfalso. destruct b; [congruence |]. unfold set_allocator_register in *. destruct (length (sets g) =? capacity g)%nat; congruence.
Qed.

Lemma given_new e j n : base.NoDup (given e n) -> (j < n)%nat -> (get_rank e j).2 ∉ given e j.
Proof.
  intros Hnd Hj Hin. assert (given e (S j) `prefix_of` given e n) as [r E].
  { exists (map (fun i => (get_rank e i).2) (seq (S j) (n - S j))). unfold given. rewrite <- map_app, <- seq_app. do 2 f_equal. lia. }
  rewrite E, given_S, <- app_assoc in Hnd. apply list.NoDup_app in Hnd as (_ & Hd & _). apply (Hd _ Hin), list_elem_of_here.
Qed.

(** A set and its resources. *)
Record allocated (e : env) (p : nat) (ranks : list nat) (s s1 : resources) : Prop := {
  al_taken : taken s1 = taken s ++ ranks;
  al_arrays : arrays s1 = arrays s ++ [(p, ranks)];
  al_threads : threads s1 = threads s ++ ranks;
  al_reg : snd (set_allocator_unregister (reg s1) (Set_ranks p (length ranks))) = OK
    /\ sets (fst (set_allocator_unregister (reg s1) (Set_ranks p (length ranks)))) = sets (reg s);
  al_sg : (sg_enable e = Some false /\ pools s1 = pools s /\ sg_enabled s1 = minus (sg_enabled s) ranks)
    \/ (sg_enable e = Some true /\ sg_enabled s1 = sg_enabled s ++ ranks /\ exists r0, list.head ranks = Some r0 /\ pools s1 = pools s ++ [r0]) }.

Lemma alloc_ranks_cases e all nr p s : 0 < nr < DPU_ALLOCATE_ALL -> calloc_ranks e = Some p -> fresh e (Z.to_nat nr) p s ->
  let ranks := given e (Z.to_nat nr) in
  exists st set s', dpu_alloc_ranks e all nr s = Some (st, set, s') /\
  ((st = OK /\ set = Some (Set_ranks p (length ranks)) /\ allocated e p ranks s s')
   \/ (st <> OK /\ set = None /\ arrays s' = arrays s /\ pools s' = pools s /\ leftover e ranks p s s' st)).
Proof.
  intros Hnr Hc [Hfr Hnd Hfa [Hg Hns]] ranks. unfold dpu_alloc_ranks. rewrite Hc.
  destruct (Z.eqb_spec nr DPU_ALLOCATE_ALL) as [? | _]; [lia |]. destruct (Z.eqb_spec nr 0) as [? | _]; [lia |].
  pose proof (get_ranks_cases e (Z.to_nat nr) 0 s) as H. change (given e 0) with (@nil nat) in H.
  destruct (get_ranks e (Z.to_nat nr) 0 [] s) as [[status got] s1]. rewrite Nat.add_0_l in H.
  set (n := Z.to_nat nr) in *. assert (n <> O) as Hn by lia. pose proof (length_given e n) as Hl. fold ranks in Hl.
  assert (forall k, k ∈ ranks -> k ∉ taken s) as Hft by (intros k Hk; by apply Hfr).
  destruct H as [(-> & -> & ->) | (Hst & j & Hj & -> & Hs1)]; cbn [Z.eqb OK negb].
  2:{ destruct (Z.eqb_spec status OK) as [? | _]; [done |]. cbn [negb]. do 3 eexists. split; [reflexivity |]. right.
      rewrite free_ranks_taken. split_and!; [done | done | destruct Hs1 as [-> | [_ ->]]; by apply (filter_array s) | destruct Hs1 as [-> | [_ ->]]; done |].
      assert (minus (taken s) (given e j) = taken s) as Hmin by (apply minus_fresh; intros k Hk; apply Hft; apply (given_le e j n); [lia | done]).
      assert (minus (given e j) (given e j) = []) as Hmg by by apply minus_all.
      destruct Hs1 as [-> | [-> ->]]; rewrite drop_0.
      - apply Nothing_left; [| done | done]. cbn. unfold minus in *. by rewrite list.filter_app, Hmin, Hmg, app_nil_r.
      - set (k := (get_rank e j).2). assert (k ∈ ranks) as Hk
          by (apply (given_le e (S j) n); [lia |]; rewrite given_S; apply elem_of_app; right; apply list_elem_of_here).
        assert (k ∉ given e j) as Hkj by (eapply given_new; [exact Hnd | lia]).
        destruct (Z.eqb_spec (reset_rank e k) OK) as [Er | Er]; [by destruct Hst |].
        apply (Rank_left e ranks p s _ k); [done | done | | done | done]. cbn. rewrite given_S. fold k.
        unfold minus in *. rewrite !list.filter_app, Hmin, Hmg, filter_cons_True by done. done. }
  rewrite drop_0. fold ranks. set (s1 := with_arrays (with_taken s (taken s ++ ranks)) (arrays (with_taken s (taken s ++ ranks)) ++ [(p, ranks)])).
  unfold init_dpu_set.
  assert (forall s2, arrays s2 = arrays s1 -> taken s2 = taken s1 ->
    let s3 := with_arrays (free_ranks e ranks OK s2).2 (List.filter (fun a => negb (a.1 =? p)%nat) (arrays (free_ranks e ranks OK s2).2)) in
    arrays s3 = arrays s /\ taken s3 = taken s /\ pools s3 = pools s2 /\ threads s3 = threads s2 /\ reg s3 = reg s2) as Hundo.
  { intros s2 Ha Ht s3. unfold s3. rewrite free_ranks_taken. cbn. rewrite Ha, Ht. unfold s1. cbn [arrays taken with_arrays with_taken].
    split_and!; [by apply filter_array | by apply minus_added | done..]. }
  destruct (Z.eqb_spec (thread_job_create e) OK) as [Htj | Htj]; cbn [negb mbind option_bind].
  2:{ destruct (Z.eqb_spec (thread_job_create e) OK) as [? | _]; [done |]. cbn [negb]. do 3 eexists. split; [reflexivity |]. right.
      destruct (Hundo s1 eq_refl eq_refl) as (H1 & H2 & H3 & H4 & H5). split_and!; [done | done | done | by rewrite H3 |].
      apply Nothing_left; [done | by rewrite H4 | by rewrite H5]. }
  set (s2 := with_threads _ _). destruct (register_cases (sets_realloc_ok e) (reg s) (Set_ranks p (length ranks)) Hg) as (g' & st & Er & Hcase).
  change (reg s2) with (reg s). rewrite Er. cbn [mbind option_bind]. destruct Hcase as [(-> & Hg' & Hu1 & Hu2) | (-> & Hb & Hg')].
  2:{ cbn. do 3 eexists. split; [reflexivity |]. right.
      destruct (Hundo (with_reg s2 g') eq_refl eq_refl) as (H1 & H2 & H3 & H4 & H5). split_and!; [done | done | done | by rewrite H3 |].
      apply Threads_left; [done | done | by rewrite H4 | by rewrite H5]. }
  rewrite Z.eqb_refl. cbn [negb mbind option_bind]. set (s3 := with_reg s2 g').
  assert (forall st s4, arrays s4 = arrays s3 -> taken s4 = taken s3 -> pools s4 = pools s3 -> threads s4 = threads s3 -> reg s4 = reg s3 -> st <> OK ->
    let s5 := with_arrays (free_ranks e ranks OK s4).2 (List.filter (fun a => negb (a.1 =? p)%nat) (arrays (free_ranks e ranks OK s4).2)) in
    arrays s5 = arrays s /\ pools s5 = pools s /\ leftover e ranks p s s5 st) as Hset.
  { intros st s4 Ha Ht Hp Hth Hre Hne. destruct (Hundo s4 Ha Ht) as (H1 & H2 & H3 & H4 & H5).
    split_and!; [done | by rewrite H3, Hp |]. apply Set_left; [done | done | by rewrite H4, Hth | by rewrite H5, Hre]. }
  destruct (Z.eqb_spec (polling_create e) OK) as [-> | Hpo]; cbn [negb].
  2:{ do 3 eexists. split; [reflexivity |]. right. split; [done |]. split; [done |]. by apply (Hset (polling_create e) s3). }
  assert (exists r0, list.head ranks = Some r0 /\ r0 ∈ ranks) as (r0 & Hr0 & Hin)
    by (destruct ranks as [| r0 l]; [done |]; exists r0; split; [done | apply list_elem_of_here]).
  unfold init_scatter_gather_transfer_buffer. rewrite Hr0.
  destruct (sg_enable e) as [enabled |] eqn:Ee, (sg_max_blocks e) as [blocks |]; cbn [mbind option_bind].
  2-4: do 3 eexists; split; [reflexivity |]; right; split; [done |]; split; [done |]; by apply (Hset _ s3).
  destruct (negb enabled && (0 <? blocks)).
  { do 3 eexists. split; [reflexivity |]. right. split; [done |]. split; [done |]. by apply (Hset _ s3). }
  assert (forall en po, allocated e p ranks s (with_sg s3 en po) <->
    (sg_enable e = Some false /\ po = pools s /\ en = minus (sg_enabled s) ranks)
    \/ (sg_enable e = Some true /\ en = sg_enabled s ++ ranks /\ exists r0, list.head ranks = Some r0 /\ po = pools s ++ [r0])) as Hal.
  { intros en po. split; [intros [_ _ _ _ H]; exact H |]. intros H. split; [done | done | done | | exact H].
    split; [done |]. apply Hu2. by rewrite Hl. }
  destruct enabled.
  - change (pools (with_sg _ _ (pools s3))) with (pools s). rewrite bool_decide_false by by apply Hfr.
    cbn [mbind option_bind]. rewrite Z.eqb_refl. cbn [negb]. do 3 eexists. split; [reflexivity |]. left. split; [done |]. split; [done |].
    apply Hal. right. split_and!; [done | done |]. by exists r0.
  - cbn [mbind option_bind]. rewrite Z.eqb_refl. cbn [negb]. do 3 eexists. split; [reflexivity |]. left. split; [done |]. split; [done |].
    apply Hal. by left.
Qed.

Lemma minus_elem l m k : k ∈ minus l m <-> k ∉ m /\ k ∈ l.
Proof. unfold minus. by rewrite list_elem_of_filter. Qed.

Lemma pool_free_ok e p ranks s s1 : allocated e p ranks s s1 -> ranks <> [] -> (forall k, k ∈ ranks -> k ∉ pools s) ->
  exists en, sg_buffer_pool_free ranks s1 = Some (OK, with_sg s1 en (pools s))
    /\ forall k, k ∉ ranks -> k ∈ en <-> k ∈ sg_enabled s.
Proof.
  intros [_ _ _ _ Hsg] Hne Hfr. destruct ranks as [| r0 l]; [done |]. unfold sg_buffer_pool_free. cbn [list.head mbind option_bind].
  destruct Hsg as [(_ & Hp & Hen) | (_ & Hen & r & [= <-] & Hp)].
  - rewrite bool_decide_false by (rewrite Hen, minus_elem; intros [H _]; apply H, list_elem_of_here).
    exists (sg_enabled s1). split; [rewrite <- Hp; by destruct s1 |]. intros k Hk. rewrite Hen, minus_elem. tauto.
  - rewrite bool_decide_true by (rewrite Hen; apply elem_of_app; right; apply list_elem_of_here).
    rewrite bool_decide_true by (rewrite Hp; apply elem_of_app; right; apply list_elem_of_here). cbn [negb].
    exists (minus (sg_enabled s1) [r0]). split.
    + do 3 f_equal. rewrite Hp. apply minus_added. intros k ->%list_elem_of_singleton. apply Hfr, list_elem_of_here.
    + intros k Hk. rewrite minus_elem, Hen, elem_of_app, list_elem_of_singleton. rewrite elem_of_cons in Hk. rewrite elem_of_cons. tauto.
Qed.

(** C33: a set that is allocated and freed leaves nothing.  The allocation of a
    number of ranks ends with the ranks of the driver, their workers, the set
    registered and, when enabled, one pool; if the driver takes its ranks back,
    [dpu_free] succeeds and leaves the ranks taken, the arrays, the workers, the
    registered sets and the pools as they were, and the flags of all other ranks. *)
Theorem alloc_free_leaves_nothing e all nr p s set s1 :
  0 < nr < DPU_ALLOCATE_ALL -> calloc_ranks e = Some p -> fresh e (Z.to_nat nr) p s ->
  (forall k, k ∈ given e (Z.to_nat nr) -> free_rank e k = OK) ->
  dpu_alloc_ranks e all nr s = Some (OK, Some set, s1) ->
  exists s2, dpu_free e set s1 = Some (OK, s2) /\ taken s2 = taken s /\ arrays s2 = arrays s /\ threads s2 = threads s
    /\ sets (reg s2) = sets (reg s) /\ pools s2 = pools s
    /\ forall k, k ∉ given e (Z.to_nat nr) -> k ∈ sg_enabled s2 <-> k ∈ sg_enabled s.
Proof.
  intros Hnr Hc Hf Hfree E. destruct (alloc_ranks_cases e all nr p s Hnr Hc Hf) as (st & set' & s' & E' & Hcase).
  rewrite E in E'. injection E' as <- <- <-. destruct Hcase as [(_ & [= ->] & [Ht Ha Hth [Hu1 Hu2] Hsg]) | (? & ? & _)]; [| done].
  set (ranks := given e (Z.to_nat nr)) in *. destruct Hf as [Hfr Hnd Hfa Hfs].
  assert (ranks <> []) as Hne by (intros E0; pose proof (length_given e (Z.to_nat nr)) as Hl; fold ranks in Hl; rewrite E0 in Hl; cbn in Hl; lia).
  unfold dpu_free, ranks_of. rewrite Ha, (find_array s p ranks Hfa). cbn [fmap option_fmap option_map snd mbind option_bind]. rewrite firstn_all.
  destruct (pool_free_ok e p ranks s s1 ltac:(done) Hne ltac:(intros k Hk; by apply Hfr)) as (en & -> & Hen).
  cbn [mbind option_bind]. rewrite Z.eqb_refl. cbn [negb]. change (reg (with_sg s1 en (pools s))) with (reg s1).
  destruct (set_allocator_unregister (reg s1) (Set_ranks p (length ranks))) as [g st]. cbn [fst snd] in Hu1, Hu2. subst st.
  rewrite Z.eqb_refl. cbn [negb]. set (s2 := with_threads _ _).
  pose proof (free_ranks_ok e ranks s2 Hfree) as H1. pose proof (free_ranks_taken e ranks OK s2) as H2.
  destruct (free_ranks e ranks OK s2) as [st s3]. cbn [fst snd] in H1, H2. subst st s3. eexists. split; [reflexivity |].
  unfold s2. cbn [taken arrays threads reg pools sg_enabled with_arrays with_taken with_threads with_reg with_sg].
  rewrite Ht, Ha, Hth. split_and!; [apply minus_added; intros k Hk; by apply Hfr | by apply filter_array | apply minus_added; intros k Hk; by apply Hfr | done | done | done].
Qed.

(** Two ranks, with scatter/gather transfers. *)
Definition env2 (reset : nat -> Z) (polling : Z) : env :=
  {| get_rank := fun i => (OK, 10 + i)%nat; disable_reset_on_alloc := fun _ => false; reset_rank := reset; free_rank := fun _ => OK;
     calloc_ranks := Some 7%nat; thread_job_create := OK; sets_realloc_ok := true; polling_create := polling;
     sg_enable := Some true; sg_max_blocks := Some 3 |}.

Definition no_resources : resources :=
  {| taken := []; arrays := []; threads := []; reg := {| sets := []; capacity := 0; room := 0 |}; sg_enabled := []; pools := [] |}.

Lemma env2_fresh reset polling : fresh (env2 reset polling) 2 7 no_resources.
Proof.
  split; [| | | split; [split; cbn; lia | by intros []]].
  - intros k _. split_and!; apply not_elem_of_nil.
  - apply (bool_decide_unpack _). vm_compute. exact I.
  - by intros a ?%not_elem_of_nil.
Qed.

Lemma alloc_free_leaves_nothing_witness :
  exists s1 s2, dpu_alloc_ranks (env2 (fun _ => OK) OK) None 2 no_resources = Some (OK, Some (Set_ranks 7 2), s1)
    /\ taken s1 = [10; 11]%nat /\ pools s1 = [10%nat] /\ dpu_free (env2 (fun _ => OK) OK) (Set_ranks 7 2) s1 = Some (OK, s2) /\ taken s2 = [].
Proof.
  destruct (dpu_alloc_ranks (env2 (fun _ => OK) OK) None 2 no_resources) as [[[st set] s1] |] eqn:E; [| vm_compute in E; discriminate].
  assert (st = OK /\ set = Some (Set_ranks 7 2) /\ taken s1 = [10; 11]%nat /\ pools s1 = [10%nat]) as (-> & -> & H1 & H2)
    by (vm_compute in E; injection E as <- <- <-; split_and!; reflexivity).
  destruct (alloc_free_leaves_nothing (env2 (fun _ => OK) OK) None 2 7 no_resources (Set_ranks 7 2) s1) as (s2 & Hf & Ht & _).
  - split; reflexivity.
  - reflexivity.
  - apply env2_fresh.
  - reflexivity.
  - exact E.
  - exists s1, s2. split_and!; [reflexivity | exact H1 | exact H2 | exact Hf | exact Ht].
Defined.

(** What a failed allocation leaves.  It gives back the array, touches no
    pool, and leaves nothing else when the driver refuses a rank or the workers
    are not created.  But a rank whose reset fails stays taken, workers stay
    with ranks that are given back when the registry cannot grow, and when the
    polling threads or the transfer buffers fail, so does the set in the registry.
    These are all the cases, and the first and the last do occur. *)
Theorem failed_alloc_leaves e all nr p s :
  0 < nr < DPU_ALLOCATE_ALL -> calloc_ranks e = Some p -> fresh e (Z.to_nat nr) p s ->
  (forall st set s', dpu_alloc_ranks e all nr s = Some (st, set, s') -> st <> OK ->
     set = None /\ arrays s' = arrays s /\ pools s' = pools s /\ leftover e (given e (Z.to_nat nr)) p s s' st)
  /\ is_Some (dpu_alloc_ranks e all nr s).
Proof.
  intros Hnr Hc Hf. destruct (alloc_ranks_cases e all nr p s Hnr Hc Hf) as (st & set & s' & E & Hcase). rewrite E. split; [| by eexists].
  intros st1 set1 s1 [= <- <- <-] Hst. destruct Hcase as [(? & _) | (_ & Hset & Ha & Hp & Hl)]; [done | done].
Qed.

(** The reset of rank 11 fails; then the polling threads do. *)
Lemma failed_alloc_leaves_witness :
  let e1 := env2 (fun k => if (k =? 11)%nat then 2 else OK) OK in
  let e2 := env2 (fun _ => OK) 2 in
  exists s1 s2, dpu_alloc_ranks e1 None 2 no_resources = Some (2, None, s1) /\ taken s1 = [11%nat] /\ arrays s1 = []
    /\ dpu_alloc_ranks e2 None 2 no_resources = Some (2, None, s2) /\ taken s2 = [] /\ threads s2 = [10; 11]%nat
    /\ sets (reg s2) = [Set_ranks 7 2] /\ arrays s2 = [].
Proof.
  intros e1 e2.
  destruct (dpu_alloc_ranks e1 None 2 no_resources) as [[[st1 set1] s1] |] eqn:E1; [| vm_compute in E1; discriminate].
  destruct (dpu_alloc_ranks e2 None 2 no_resources) as [[[st2 set2] s2] |] eqn:E2; [| vm_compute in E2; discriminate].
  destruct (failed_alloc_leaves e1 None 2 7 no_resources) as [H1 _]; [split; reflexivity | reflexivity | apply env2_fresh |].
  destruct (failed_alloc_leaves e2 None 2 7 no_resources) as [H2 _]; [split; reflexivity | reflexivity | apply env2_fresh |].
  assert (st1 = 2 /\ taken s1 = [11%nat]) as [-> H3] by (vm_compute in E1; injection E1 as <- <- <-; split; reflexivity).
  assert (st2 = 2 /\ taken s2 = [] /\ threads s2 = [10; 11]%nat /\ sets (reg s2) = [Set_ranks 7 2]) as (-> & H4)
    by (vm_compute in E2; injection E2 as <- <- <-; split_and!; reflexivity).
  destruct (H1 _ _ _ E1) as (-> & Ha1 & _); [discriminate |]. destruct (H2 _ _ _ E2) as (-> & Ha2 & _); [discriminate |].
  destruct H4 as (? & ? & ?). exists s1, s2. split_and!; done.
Defined.

(** Freeing a part of a set breaks the whole.  The set of the first rank of
    an allocated set is refused, but the pool of the whole set has been freed and
    its scatter/gather transfers are disabled for that rank. *)
Theorem freeing_a_part_frees_the_pool e p ranks s s1 :
  allocated e p ranks s s1 -> (1 < length ranks)%nat -> sg_enable e = Some true -> (forall k, k ∈ ranks -> k ∉ pools s) ->
  (forall a, a ∈ arrays s -> fst a <> p) -> ~ In (Set_ranks p 1) (sets (reg s1)) ->
  exists s2, dpu_free e (Set_ranks p 1) s1 = Some (error_code DPU_ERR_INVALID_DPU_SET, s2)
    /\ pools s2 = pools s /\ taken s2 = taken s ++ ranks /\ reg s2 = reg s1.
Proof.
  intros Hal Hn He Hfr Hfa Hns. pose proof Hal as [Ht Ha Hth [Hu1 Hu2] [[? _] | (_ & Hsg & r0 & Hr0 & Hp)]]; [congruence |].
  unfold dpu_free, ranks_of. rewrite Ha, (find_array s p ranks Hfa). cbn [fmap option_fmap option_map snd mbind option_bind].
  destruct ranks as [| r l]; [done |]. injection Hr0 as ->. cbn [firstn]. unfold sg_buffer_pool_free. cbn [list.head mbind option_bind].
  rewrite bool_decide_true by (rewrite Hsg; apply elem_of_app; right; apply list_elem_of_here).
  rewrite bool_decide_true by (rewrite Hp; apply elem_of_app; right; apply list_elem_of_here). cbn [negb mbind option_bind].
  rewrite Z.eqb_refl. cbn [negb]. change (reg (with_sg s1 _ _)) with (reg s1). unfold set_allocator_unregister.
  pose proof (find_spec (sets (reg s1)) (Set_ranks p 1)) as Hf. destruct (set_allocator_find _ _) as [i |].
  - exfalso. destruct Hf as (pre & post & E & _). apply Hns. rewrite E. apply in_app_iff. by right; left.
  - eexists. split; [reflexivity |]. cbn [pools taken reg with_reg with_sg]. rewrite Hp, Ht. split_and!; [| done | done].
    apply minus_added. intros k ->%list_elem_of_singleton. apply Hfr, list_elem_of_here.
Qed.

Lemma freeing_a_part_frees_the_pool_witness :
  exists s1 s2, dpu_alloc_ranks (env2 (fun _ => OK) OK) None 2 no_resources = Some (OK, Some (Set_ranks 7 2), s1)
    /\ dpu_free (env2 (fun _ => OK) OK) (Set_ranks 7 1) s1 = Some (error_code DPU_ERR_INVALID_DPU_SET, s2) /\ pools s2 = [].
Proof.
  destruct (dpu_alloc_ranks (env2 (fun _ => OK) OK) None 2 no_resources) as [[[st set] s1] |] eqn:E; [| vm_compute in E; discriminate].
  assert (st = OK /\ set = Some (Set_ranks 7 2)) as (-> & ->) by (vm_compute in E; injection E as <- <- <-; split; reflexivity).
  assert (allocated (env2 (fun _ => OK) OK) 7 [10; 11]%nat no_resources s1) as Hal.
  { vm_compute in E. injection E as <-. split; try reflexivity; [split; reflexivity |]. right. split_and!; [reflexivity | reflexivity |]. exists 10%nat. split; reflexivity. }
  assert (~ In (Set_ranks 7 1) (sets (reg s1))) as Hns by (vm_compute in E; injection E as <-; intros [|[]]; discriminate).
  destruct (freeing_a_part_frees_the_pool (env2 (fun _ => OK) OK) 7 [10; 11]%nat no_resources s1 Hal) as (s2 & Hf & Hp & _).
  - cbn. lia.
  - reflexivity.
  - intros k _. apply not_elem_of_nil.
  - by intros a ?%not_elem_of_nil.
  - exact Hns.
  - exists s1, s2. split_and!; [reflexivity | exact Hf | exact Hp].
Defined.
