(* ===== verification/Launch.v ===== *)
(** Launching programs
    (library/src/backends/api/src/api/dpu_runner.c, dpu_sync of
    api/src/api/dpu_polling.c, dpu_callback of api/src/api/dpu_set.c, the macros of
    api/src/api/include/dpu_thread_job.h): the jobs of launches and callbacks, and the life of the monitor around a launch with
    preemption, in every interleaving with the jobs and the client.

    An operation is the list of what it asks of the job queue; what the queue
    answers is an argument.  [None]: the operation uses a value that has not been
    initialised, or the ranks of a set that has none. *)
From stdpp Require Import list.
From S2P Require Import Prelude Errors DpuSet Preempt.

(** * The jobs of an operation *)

Inductive dpu_launch_policy_t := DPU_ASYNCHRONOUS | DPU_SYNCHRONOUS.

(** The job of a callback without its function; [rank_idx] -1: the callback gets
    the set of the call. *)
Record callback_job := {
  rank_idx : Z;
  call_set : dpu_set_t;
  is_nonblocking : bool;
  is_sync : bool;
  is_single_call : bool }.

Inductive job := Launch_rank | Launch_dpu (dpu : nat) | Sync_job | Callback_job (c : callback_job) | Callback_of_master (slot_owner : nat).

(** What the queue answers: to the request of jobs, and of one job on a rank, at
    the end of a wait, and when a job is computed at once by the callback that
    asks for it; the free slots of a rank. *)
Record queue := {
  callback_tid_set : nat -> bool;
  get_jobs : Z;
  get_job : nat -> Z;
  available_jobs : nat -> Z;
  wait_status : Z;
  compute_job : nat -> job -> Z }.

Inductive action :=
| Init_sync (nr_ranks : nat)
| Get_jobs (nr_jobs_per_rank : nat)
| Get_job (rank : nat)
| Unget_jobs
| Init_master (rank : nat) (c : callback_job) (nr_ranks : nat)
| Start_monitor (nr_ranks : nat) (advance host_func : bool)
| Compute (rank : nat) (j : job)
| Add_jobs (jobs : list (nat * list job))
| Wait
| Clear_job_errors (ranks : list nat)
| Stop_monitor.

(** The ranks of a set; [None]: not a set. *)
Definition set_ranks (set : dpu_set_t) : option (list nat) :=
  match set with
  | Set_ranks p n => Some (seq p n)
  | Set_dpu k _ => Some [k]
  | Set_other => None
  end.

(** The operation is on the only rank of the callback that asks for it. *)
Definition in_own_callback (q : queue) (ranks : list nat) : bool :=
  match ranks with [k] => callback_tid_set q k | _ => false end.

(** The number of jobs for each rank, whether the synchronisation is
    initialised, the status. *)
Definition DPU_THREAD_JOB_GET_JOBS (q : queue) (ranks : list nat) (bool_sync : bool) : nat * list action * Z :=
  let two := bool_sync && negb (in_own_callback q ranks) in
  let nr_jobs_per_rank := if two then 2%nat else 1%nat in
  let init := if two then [Init_sync (length ranks)] else [] in
  if bool_sync && in_own_callback q ranks then (nr_jobs_per_rank, init, OK)
  else (nr_jobs_per_rank, init ++ [Get_jobs nr_jobs_per_rank], get_jobs q).

Definition DPU_THREAD_JOB_SET_JOBS (q : queue) (ranks : list nat) (bool_sync : bool) (statement : nat -> job) : list (nat * list job) :=
  let two := bool_sync && negb (in_own_callback q ranks) in
  map (fun k => (k, if two then [statement k; Sync_job] else [statement k])) ranks.

(** Jobs are added and waited for; after an error the ranks forget theirs. *)
Definition add_and_wait (q : queue) (ranks : list nat) (jobs : list (nat * list job)) : Z * list action :=
  let status := Z.land (wait_status q) async_error_mask in
  (status, [Add_jobs jobs; Wait] ++ (if status =? OK then [] else [Clear_job_errors ranks])).

Definition dpu_thread_job_do_jobs (q : queue) (ranks : list nat) (jobs : list (nat * list job)) (synchronous : bool)
  : Z * list action :=
  match ranks, jobs with
  | [k], (_, j :: _) :: _ =>
    if synchronous && callback_tid_set q k && negb (match j with Sync_job => true | _ => false end)
    then (compute_job q k j, [Compute k j])
    else if synchronous then add_and_wait q ranks jobs
    else (OK, [Add_jobs jobs])
  | _, _ => if synchronous then add_and_wait q ranks jobs else (OK, [Add_jobs jobs])
  end.

(** * The launches *)

(** The monitor of a launch: whether it is the advanced one, and whether it has
    a host function. *)
Definition init_preempt_thread (set : dpu_set_t) (sync_ranks : option nat) (advance host_func : bool) : option (list action) :=
  match set with
  | Set_ranks _ _ => n ← sync_ranks; Some [Start_monitor n advance host_func]
  | _ => None
  end.

(** The number of ranks of the synchronisation, once initialised. *)
Definition sync_ranks (l : list action) : option nat :=
  match l with Init_sync n :: _ => Some n | _ => None end.

Section launches.
Variable q : queue.

Definition launch (monitor : option (bool * bool)) (set : dpu_set_t) (policy : dpu_launch_policy_t) : option (Z * list action) :=
  match set_ranks set with
  | None => Some (error_code DPU_ERR_INTERNAL, [])
  | Some ranks =>
    let synchronous := match policy with DPU_SYNCHRONOUS => true | DPU_ASYNCHRONOUS => false end in
    let '(_, asked, status) := DPU_THREAD_JOB_GET_JOBS q ranks synchronous in
    if negb (status =? OK) then Some (status, asked)
    else
      let jobs := DPU_THREAD_JOB_SET_JOBS q ranks synchronous
        (fun _ => match set with Set_dpu _ d => Launch_dpu d | _ => Launch_rank end) in
      start ← match monitor with
              | None => Some []
              | Some (advance, host) => init_preempt_thread set (sync_ranks asked) advance host
              end;
      let '(status, done) := dpu_thread_job_do_jobs q ranks jobs synchronous in
      Some (status, asked ++ start ++ done ++ match monitor with None => [] | Some _ => [Stop_monitor] end)
  end.

Definition dpu_launch : dpu_set_t -> dpu_launch_policy_t -> option (Z * list action) := launch None.

Definition dpu_launch_preempt : dpu_set_t -> dpu_launch_policy_t -> option (Z * list action) := launch (Some (false, false)).

Definition dpu_launch_preempt_restart (host_func : bool) : dpu_set_t -> dpu_launch_policy_t -> option (Z * list action) :=
  launch (Some (false, host_func)).

Definition dpu_launch_preempt_advance : dpu_set_t -> dpu_launch_policy_t -> option (Z * list action) := launch (Some (true, false)).

(** * Waiting and status *)

Definition dpu_sync (set : dpu_set_t) : Z * list action :=
  match set_ranks set with
  | None => (error_code DPU_ERR_INTERNAL, [])
  | Some ranks =>
    let '(_, asked, status) := DPU_THREAD_JOB_GET_JOBS q ranks false in
    if negb (status =? OK) then (status, Init_sync (length ranks) :: asked)
    else
      let '(status, done) := dpu_thread_job_do_jobs q ranks (map (fun k => (k, [Sync_job])) ranks) true in
      (status, Init_sync (length ranks) :: asked ++ done)
  end.

(** [rank_status]: what the status of a rank is: error, done, fault; the status
    of [dpu_sync] is not looked at. *)
Fixpoint ranks_status (rank_status : nat -> Z * bool * bool) (ranks : list nat) (d f : bool) : Z * (bool * bool) :=
  match ranks with
  | [] => (OK, (d, f))
  | k :: ranks =>
    let '(status, rank_done, rank_fault) := rank_status k in
    if negb (status =? OK) then (status, (d, f)) else ranks_status rank_status ranks (d && rank_done) (f || rank_fault)
  end.

Definition dpu_status (rank_status : nat -> Z * bool * bool) (dpu_status_dpu : nat -> nat -> Z * (bool * bool)) (set : dpu_set_t)
  : Z * list action * (bool * bool) :=
  let '(_, asked) := dpu_sync set in
  match set with
  | Set_ranks p n => let '(status, r) := ranks_status rank_status (seq p n) true false in (status, asked, r)
  | Set_dpu k d => let '(status, r) := dpu_status_dpu k d in (status, asked, r)
  | Set_other => (error_code DPU_ERR_INTERNAL, asked, (false, false))
  end.
End launches.

(** * Callbacks *)

(** The first of the ranks that have the most free slots. *)
Fixpoint most_available (q : queue) (ranks : list nat) (best : nat) : nat :=
  match ranks with
  | [] => best
  | k :: ranks => most_available q ranks (if available_jobs q best <? available_jobs q k then k else best)
  end.

(** The ranks of a single asynchronous call share a master job, which takes a
    slot of one of them; each other callback has its own job, on a set of one rank
    or on the set of the call. *)
Definition dpu_callback (q : queue) (set : dpu_set_t) (async nonblocking single_call : bool) : option (Z * list action) :=
  match set_ranks set with
  | None => Some (error_code DPU_ERR_INTERNAL, [])
  | Some ranks =>
    let sync := negb async in
    if sync && nonblocking then Some (error_code DPU_ERR_NONBLOCKING_SYNC_CALLBACK, [])
    else
      let initial := match set with Set_dpu _ _ => true | _ => single_call && sync end in
      let ranks := if single_call && sync then take 1 ranks else ranks in
      let '(_, asked, status) := DPU_THREAD_JOB_GET_JOBS q ranks sync in
      if negb (status =? OK) then Some (status, asked)
      else if single_call && negb (length ranks =? 1)%nat then
        r0 ← list.head ranks;
        let m := if nonblocking then most_available q (tail ranks) r0 else r0 in
        if negb (get_job q m =? OK) then Some (get_job q m, asked ++ [Get_job m; Unget_jobs])
        else
          let c := {| rank_idx := -1; call_set := set; is_nonblocking := nonblocking; is_sync := false; is_single_call := true |} in
          let jobs := map (fun k => (k, [Callback_of_master m])) ranks in
          let '(status, done) := dpu_thread_job_do_jobs q ranks jobs sync in
          Some (status, asked ++ [Get_job m; Init_master m c (length ranks)] ++ done)
      else
        let base := match ranks with k :: _ => k | [] => O end in
        let jobs := DPU_THREAD_JOB_SET_JOBS q ranks sync (fun k => Callback_job
          {| rank_idx := if initial then -1 else Z.of_nat (k - base);
             call_set := if initial then set else Set_ranks k 1;
             is_nonblocking := nonblocking; is_sync := sync; is_single_call := false |}) in
        let '(status, done) := dpu_thread_job_do_jobs q ranks jobs sync in
        Some (status, asked ++ done)
  end.

(** * The monitor beside the launch *)

(** The client waits, has told the monitor to stop, has returned. *)
Inductive client_state := Waiting | Stopping | Returned.

(** The monitor is about to test [stop_polling], sleeps before it looks at the
    ranks, has decided to abort, has ended. *)
Inductive monitor_state := Testing | Looking | Aborting | Ended.

(** [left]: the jobs the synchronisation still counts; [arrays]: the arrays of
    the monitor are allocated. *)
Record session := {
  left : nat;
  stop_polling : bool;
  client : client_state;
  monitor : monitor_state;
  arrays : bool;
  info : preempt_info;
  effects : list effect }.

Inductive choice :=
| Job_ends
| Client_wakes
| Client_joins
| Monitor_tests
| Monitor_looks (obs : list observation) (now : Z)
| Monitor_aborts (running : nat -> Z).

(** The beginning of the wait. *)
Definition start_session (n : nat) (host : bool) (user_abort : list Z) (flags stops : list bool) : session :=
  {| left := n; stop_polling := false; client := Waiting; monitor := Testing; arrays := true;
     info := init_preempt n host user_abort flags stops; effects := [] |}.

Definition with_client (s : session) (stop : bool) (c : client_state) (arr : bool) : session :=
  {| left := left s; stop_polling := stop; client := c; monitor := monitor s; arrays := arr; info := info s; effects := effects s |}.

Definition with_monitor (s : session) (stop : bool) (m : monitor_state) (p : preempt_info) (e : list effect) : session :=
  {| left := left s; stop_polling := stop; client := client s; monitor := m; arrays := arrays s; info := p; effects := effects s ++ e |}.

(** One step; [None]: it is not possible. [clean_preempt] is the last two of the
    client's. *)
Definition act (advance : bool) (s : session) (c : choice) : option session :=
  match c with
  | Job_ends =>
    match left s with
    | O => None
    | S n => Some {| left := n; stop_polling := stop_polling s; client := client s; monitor := monitor s; arrays := arrays s;
                     info := info s; effects := effects s |}
    end
  | Client_wakes => match client s, left s with Waiting, O => Some (with_client s true Stopping (arrays s)) | _, _ => None end
  | Client_joins => match client s, monitor s with Stopping, Ended => Some (with_client s (stop_polling s) Returned false) | _, _ => None end
  | Monitor_tests =>
    match monitor s with
    | Testing => Some (with_monitor s (stop_polling s) (if stop_polling s then Ended else Looking) (info s) [])
    | _ => None
    end
  | Monitor_looks obs now =>
    match monitor s with
    | Looking =>
      if (length obs =? nr_rank (info s))%nat then
        let p := each_rank_status (info s) obs in
        Some (if determine_struggle_dpu p now then with_monitor s true Aborting p [] else with_monitor s (stop_polling s) Testing p [])
      else None
    | _ => None
    end
  | Monitor_aborts running =>
    match monitor s with
    | Aborting =>
      let '(p, e) := if advance then abort_struggling_dpus_advance running (info s) else abort_struggling_dpus (info s) in
      Some (with_monitor s (stop_polling s) Ended p e)
    | _ => None
    end
  end.

Fixpoint acts (advance : bool) (s : session) (cs : list choice) : option session :=
  match cs with
  | [] => Some s
  | c :: cs => s ← act advance s c; acts advance s cs
  end.

(** * Invariant of a session *)

(** The monitor alone, over its turns. *)
Definition poll (advance : bool) (running : nat -> Z) (turns : list turn) (p : preempt_info) : option (preempt_info * list effect) :=
  if advance then dpu_poll_status_advance running turns p else dpu_poll_status turns p.

(** Turns after which the loop goes on from [p]. *)
Definition goes_on (p0 : preempt_info) (turns : list turn) (p : preempt_info) : Prop :=
  forall more, poll_loop (turns ++ more) p0 = poll_loop more p.

(** How far the monitor is along the loop. *)
Definition along (advance : bool) (p0 : preempt_info) (s : session) : Prop :=
  match monitor s with
  | Testing | Looking => exists turns, goes_on p0 turns (info s)
  | Aborting => stop_polling s = true /\ exists turns, poll_loop turns p0 = Some (info s, true)
  | Ended => stop_polling s = true /\ exists turns running, poll advance running turns p0 = Some (info s, effects s)
  end.

Record session_ok (advance : bool) (p0 : preempt_info) (s : session) : Prop := {
  ok_arrays : arrays s = match client s with Returned => false | _ => true end;
  ok_client : client s <> Waiting -> left s = O /\ stop_polling s = true;
  ok_returned : client s = Returned -> monitor s = Ended;
  ok_running : monitor s <> Ended ->
    effects s = [] /\ abort (info s) = abort p0 /\ should_stop (info s) = should_stop p0 /\ nr_rank (info s) = nr_rank p0;
  ok_along : along advance p0 s }.

Lemma status_from_keeps p i obs : let p' := status_from p i obs in
  abort p' = abort p /\ should_stop p' = should_stop p /\ nr_rank p' = nr_rank p.
Proof.
  revert p i. induction obs as [| o obs IH]; intros p i; [done |]. cbn [status_from].
  destruct (IH (rank_status p i o) (S i)) as (-> & -> & ->).
  unfold rank_status. destruct (o_ok o), (o_done o), (o_fault o); cbn; repeat case_match; done.
Qed.

Lemma goes_on_look p0 turns p obs now : goes_on p0 turns p -> determine_struggle_dpu (each_rank_status p obs) now = false ->
  goes_on p0 (turns ++ [{| t_stop := false; t_obs := obs; t_now := now |}]) (each_rank_status p obs).
Proof. intros H E more. rewrite <- app_assoc, H. cbn [app poll_loop t_stop t_obs t_now]. by rewrite E. Qed.

Lemma start_ok advance n host ua flags stops :
  session_ok advance (init_preempt n host ua flags stops) (start_session n host ua flags stops).
Proof. split; cbn; try done. by exists []. Qed.

Lemma with_monitor_ok advance p0 s stop m p e : session_ok advance p0 s -> monitor s <> Ended ->
  (stop_polling s = true -> stop = true) ->
  (m <> Ended -> e = [] /\ abort p = abort p0 /\ should_stop p = should_stop p0 /\ nr_rank p = nr_rank p0) ->
  along advance p0 (with_monitor s stop m p e) -> session_ok advance p0 (with_monitor s stop m p e).
Proof.
  intros [Harr Hcl Hret Hrun _] Hm Hstop H1 H2. destruct (Hrun Hm) as (He & _).
  split; cbn; try done.
  - intros Hw. destruct (Hcl Hw). split; [done | by apply Hstop].
  - intros Hr. by apply Hret in Hr.
  - by rewrite He.
Qed.

Lemma act_ok advance p0 s c s' : session_ok advance p0 s -> act advance s c = Some s' -> session_ok advance p0 s'.
Proof.
  intros Hs E. pose proof Hs as [Harr Hcl Hret Hrun Hal]. unfold act in E. unfold along in Hal.
  destruct c as [| | | | obs now | running].
  - destruct (left s) as [| k] eqn:El; [done |].
    assert (client s = Waiting) as Ec by (destruct (client s); [done | by destruct Hcl..]).
    injection E as <-. split; cbn; try done. all: by rewrite ?Ec.
  - destruct (client s) eqn:Ec, (left s) eqn:El; try done. injection E as <-.
    split; cbn; try done. unfold along; cbn. destruct (monitor s); try done; by destruct Hal.
  - destruct (client s) eqn:Ec, (monitor s) eqn:Em; try done. injection E as <-.
    split; cbn; try done; [intros _; by apply Hcl |]. unfold along; cbn. by rewrite Em.
  - destruct (monitor s) eqn:Em; try done. injection E as <-. destruct (Hrun ltac:(done)) as (He & Ha & Hf & Hn).
    apply with_monitor_ok; [done | by rewrite Em | done | done |]. unfold along. cbn. rewrite He.
    destruct Hal as [turns Ht]. destruct (stop_polling s); [| by exists turns]. split; [done |].
    exists (turns ++ [{| t_stop := true; t_obs := []; t_now := 0 |}]), (fun _ => 0).
    destruct advance; cbn; [unfold dpu_poll_status_advance | unfold dpu_poll_status]; by rewrite Ht.
  - destruct (monitor s) eqn:Em; try done. destruct (Nat.eqb_spec (length obs) (nr_rank (info s))) as [_ |]; [| done].
    destruct (status_from_keeps (info s) 0 obs) as (H1 & H2 & H3). fold (each_rank_status (info s) obs) in *.
    destruct (Hrun ltac:(done)) as (_ & Ha & Hf & Hn). destruct Hal as [turns Ht]. injection E as <-.
    destruct (determine_struggle_dpu _ now) eqn:Ed;
      (apply with_monitor_ok; [done | by rewrite Em | done | intros _; split_and!; [done | by rewrite H1 | by rewrite H2 | by rewrite H3] |]).
    + split; [done |]. eexists. cbn. rewrite (Ht [{| t_stop := false; t_obs := obs; t_now := now |}]).
      cbn [poll_loop t_stop t_obs t_now]. by rewrite Ed.
    + eexists. by apply goes_on_look.
  - destruct (monitor s) eqn:Em; try done. destruct (Hrun ltac:(done)) as (He & _). destruct Hal as [Hstop [turns Ht]].
    destruct (if advance then _ else _) as [p e] eqn:Er in E. injection E as <-.
    apply with_monitor_ok; [done | by rewrite Em | done | done |]. split; [done |]. exists turns, running. cbn. rewrite He. cbn [app].
    destruct advance; cbn; [unfold dpu_poll_status_advance | unfold dpu_poll_status]; rewrite Ht; cbn; by rewrite Er.
Qed.

Lemma acts_ok advance p0 cs s s' : session_ok advance p0 s -> acts advance s cs = Some s' -> session_ok advance p0 s'.
Proof.
  revert s. induction cs as [| c cs IH]; intros s Hs; cbn; [by intros [= <-] |].
  intros (s1 & E & Es)%bind_Some. by eapply IH, Es; eapply act_ok.
Qed.



(** * The end of a session *)

Definition client_weight (c : client_state) : nat := match c with Waiting => 2 | Stopping => 1 | Returned => 0 end.

Definition monitor_weight (m : monitor_state) : nat := match m with Looking => 3 | Testing => 2 | Aborting => 1 | Ended => 0 end.

Definition weight (s : session) : nat := (left s + client_weight (client s) + monitor_weight (monitor s))%nat.

Lemma act_weight advance s c s' : stop_polling s = true -> act advance s c = Some s' ->
  stop_polling s' = true /\ (weight s' < weight s)%nat.
Proof.
  intros Hs E. unfold weight. unfold act in E. repeat case_match; simplify_eq; cbn in *; rewrite ?Hs in *; try done;
    repeat match goal with H : _ = _ |- _ => rewrite H in * end; cbn; (split; [done | lia]).
Qed.

Lemma acts_weight advance cs s s' : stop_polling s = true -> acts advance s cs = Some s' ->
  (length cs + weight s' <= weight s)%nat.
Proof.
  revert s. induction cs as [| c cs IH]; intros s Hs; cbn; [by intros [= <-] |].
  intros (s1 & E & Es)%bind_Some. destruct (act_weight advance s c s1 Hs E). apply IH in Es; [lia | done].
Qed.

Lemma act_progress advance s : client s <> Returned -> exists c s', act advance s c = Some s'.
Proof.
  intros Hc. destruct (monitor s) eqn:Em.
  - exists Monitor_tests. eexists. cbn. by rewrite Em.
  - exists (Monitor_looks (replicate (nr_rank (info s)) {| o_ok := true; o_done := true; o_fault := false; o_elapsed := 0 |}) 0).
    eexists. cbn. by rewrite Em, length_replicate, Nat.eqb_refl.
  - destruct (if advance then abort_struggling_dpus_advance (fun _ => 0) (info s) else abort_struggling_dpus (info s))
      as [p e] eqn:Er.
    exists (Monitor_aborts (fun _ => 0)). eexists. cbn. by rewrite Em, Er.
  - destruct (client s) eqn:Ec; [| exists Client_joins; eexists; cbn; by rewrite Ec, Em | done].
    destruct (left s) eqn:El; [exists Client_wakes | exists Job_ends]; eexists; cbn; by rewrite ?Ec, El.
Qed.



(** * What a launch asks of the queue *)

Fixpoint syncs (l : list action) : nat :=
  match l with
  | [] => 0
  | Add_jobs jobs :: l => length (List.filter (fun j => match j with Sync_job => true | _ => false end) (concat (map snd jobs))) + syncs l
  | _ :: l => syncs l
  end.

Definition waits (l : list action) : bool := existsb (fun a => match a with Wait => true | _ => false end) l.

Lemma set_jobs_syncs q ranks b st : (forall k, st k <> Sync_job) ->
  syncs [Add_jobs (DPU_THREAD_JOB_SET_JOBS q ranks b st)]
  = if b && negb (in_own_callback q ranks) then length ranks else 0%nat.
Proof.
  intros Hst. cbn [syncs]. unfold DPU_THREAD_JOB_SET_JOBS. rewrite Nat.add_0_r.
  generalize (b && negb (in_own_callback q ranks)) as two. intros two.
  induction ranks as [| k ranks IH]; [by destruct two |]. cbn [map snd concat]. rewrite List.filter_app, length_app, IH.
  specialize (Hst k). destruct two; cbn; by destruct (st k).
Qed.

Lemma do_jobs_cases q ranks st b : (forall k, st k <> Sync_job) ->
  let jobs := DPU_THREAD_JOB_SET_JOBS q ranks b st in
  (b && in_own_callback q ranks = true /\ exists k, ranks = [k] /\
     dpu_thread_job_do_jobs q ranks jobs b = (compute_job q k (st k), [Compute k (st k)]))
  \/ (b && in_own_callback q ranks = false /\
      dpu_thread_job_do_jobs q ranks jobs b = if b then add_and_wait q ranks jobs else (OK, [Add_jobs jobs])).
Proof.
  intros Hst jobs. subst jobs. unfold in_own_callback, DPU_THREAD_JOB_SET_JOBS, dpu_thread_job_do_jobs.
  destruct ranks as [| k [| k' ranks]]; [right; by destruct b | | right; by destruct b].
  specialize (Hst k). destruct b; cbn; [| right; split; [done | by destruct (st k)]].
  destruct (callback_tid_set q k) eqn:Ec; cbn; rewrite ?Ec; [left | right]; (split; [done |]).
  - exists k. split; [done |]. by destruct (st k).
  - by destruct (st k).
Qed.

Definition starts (l : list action) : nat := length (List.filter (fun a => match a with Start_monitor _ _ _ => true | _ => false end) l).
Definition stops (l : list action) : nat := length (List.filter (fun a => match a with Stop_monitor => true | _ => false end) l).

Lemma launch_job_not_sync (set : dpu_set_t) (k : nat) : (fun _ : nat => match set with Set_dpu _ d => Launch_dpu d | _ => Launch_rank end) k <> Sync_job.
Proof. by destruct set. Qed.

Lemma syncs_app l1 l2 : syncs (l1 ++ l2) = (syncs l1 + syncs l2)%nat.
Proof. induction l1 as [| a l1 IH]; [done |]. destruct a; cbn; rewrite IH; lia. Qed.

(** A launch waits for exactly the synchronisation jobs it adds.  It waits
    when it is synchronous, not computed at once in the callback of its rank, and
    its jobs were granted; then the synchronisation counts the ranks of the set and
    each of them gets one synchronisation job.  Otherwise no job refers to the
    synchronisation, which dies with the call.  A monitor that is started is
    stopped. *)
Theorem launch_waits_balanced q mon set ranks policy st l :
  set_ranks set = Some ranks -> launch q mon set policy = Some (st, l) ->
  (waits l = true <-> policy = DPU_SYNCHRONOUS /\ in_own_callback q ranks = false /\ get_jobs q = OK)
  /\ (waits l = true -> sync_ranks l = Some (length ranks) /\ syncs l = length ranks)
  /\ (waits l = false -> syncs l = O)
  /\ starts l = stops l.
Proof.
  intros Hr. unfold launch. rewrite Hr. unfold DPU_THREAD_JOB_GET_JOBS.
  set (b := match policy with DPU_SYNCHRONOUS => true | _ => false end).
  assert (policy = DPU_SYNCHRONOUS <-> b = true) as -> by (unfold b; by destruct policy).
  set (stm := fun _ : nat => _). destruct (do_jobs_cases q ranks stm b (launch_job_not_sync set)) as [(Hb & k & -> & Hj) | [Hb Hj]].
  - destruct b; [| done]. cbn [andb] in Hb. rewrite Hb. cbn [andb negb].
    rewrite Hj. destruct mon as [[advance host] |]; [by destruct set |]. cbn. intros [= <- <-]. split; [by split; [| intros (_ & ? & _)] |]. by split_and!.
  - pose proof (set_jobs_syncs q ranks b stm (launch_job_not_sync set)) as Hs. rewrite Hj.
    set (jobs := DPU_THREAD_JOB_SET_JOBS _ _ _ _) in *. rewrite Hb. set (own := in_own_callback q ranks) in *.
    clearbody b own jobs stm. cbn zeta.
    destruct (Z.eqb_spec (get_jobs q) OK) as [E | E]; cbn [negb];
      [| intros [= <- <-]; destruct b, own; try done; cbn; (split; [split; [done | by intros (? & ? & ?)] |]; by split_and!)].
    destruct mon as [[advance host] |]; [destruct set as [p n | |]; try done; destruct b, own; try done |]; cbn [negb andb] in *.
    2: destruct b, own; try done; cbn [negb andb] in *.
    all: unfold add_and_wait; try destruct (Z.land _ _ =? OK); cbn in *; intros [= <- <-]; cbn;
      (split; [split; [by intros | by intros (? & ? & ?)] |]); rewrite ?app_nil_r in *; split_and!; try done;
      intros _; cbn in *; try split; (done || lia).
Qed.

Lemma launch_waits_balanced_witness :
  let q := {| callback_tid_set := fun _ => false; get_jobs := OK; get_job := fun _ => OK; available_jobs := fun _ => 0; wait_status := 0; compute_job := fun _ _ => 0 |} in
  let l := [Init_sync 2; Get_jobs 2; Start_monitor 2 false true; Add_jobs [(4%nat, [Launch_rank; Sync_job]); (5%nat, [Launch_rank; Sync_job])];
            Wait; Stop_monitor] in
  dpu_launch_preempt_restart q true (Set_ranks 4 2) DPU_SYNCHRONOUS = Some (0, l) /\ syncs l = 2%nat.
Proof.
  intros q l. split; [done |].
  destruct (launch_waits_balanced q (Some (false, true)) (Set_ranks 4 2) [4%nat; 5%nat] DPU_SYNCHRONOUS 0 l ltac:(done) ltac:(done))
    as (_ & H & _). by apply H.
Defined.

(** A launch with preemption starts its monitor from the number of ranks
    of the synchronisation and from the list of ranks of the set.  Once the jobs
    are granted, this is defined exactly for a synchronous launch on a set of
    ranks that is not computed in the callback of its rank: every other launch
    reads a synchronisation that was not initialised, or the ranks of a single
    DPU.  A plain launch is always defined. *)
Theorem preempt_launch_defined q mon set ranks policy :
  set_ranks set = Some ranks -> get_jobs q = OK ->
  (dpu_launch q set policy <> None)
  /\ (launch q (Some mon) set policy <> None <->
      policy = DPU_SYNCHRONOUS /\ in_own_callback q ranks = false /\ exists p n, set = Set_ranks p n).
Proof.
  intros Hr Hg. unfold dpu_launch, launch. rewrite Hr. unfold DPU_THREAD_JOB_GET_JOBS. rewrite Hg.
  destruct policy, (in_own_callback q ranks), mon as [advance host]; cbn; destruct (dpu_thread_job_do_jobs _ _ _ _);
    (split; [done |]); destruct set as [p n | |]; try done; cbn;
    (split; [intros H; try by destruct H | intros (? & ? & ? & ? & ?); by simplify_eq]).
  split_and!; [done | done | by exists p, n].
Qed.

Lemma preempt_launch_defined_witness :
  let q := {| callback_tid_set := fun _ => false; get_jobs := OK; get_job := fun _ => OK; available_jobs := fun _ => 0; wait_status := 0; compute_job := fun _ _ => 0 |} in
  dpu_launch_preempt q (Set_ranks 0 2) DPU_ASYNCHRONOUS = None /\ dpu_launch_preempt q (Set_dpu 0 3) DPU_SYNCHRONOUS = None.
Proof.
  intros q. split.
  - destruct (preempt_launch_defined q (false, false) (Set_ranks 0 2) [0%nat; 1%nat] DPU_ASYNCHRONOUS ltac:(done) ltac:(done)) as [_ H].
    unfold dpu_launch_preempt. destruct (launch _ _ _ _); [by destruct (proj1 H ltac:(done)) | done].
  - destruct (preempt_launch_defined q (false, false) (Set_dpu 0 3) [0%nat] DPU_SYNCHRONOUS ltac:(done) ltac:(done)) as [_ H].
    unfold dpu_launch_preempt. destruct (launch _ _ _ _); [| done]. by destruct (proj1 H ltac:(done)) as (_ & _ & ? & ? & ?).
Defined.

Lemma most_available_max q ranks best :
  let m := most_available q ranks best in
  m ∈ best :: ranks /\ forall k, k ∈ best :: ranks -> available_jobs q k <= available_jobs q m.
Proof.
  revert best. induction ranks as [| k ranks IH]; intros best; cbn.
  - split; [by left |]. intros k' [-> | H%not_elem_of_nil]%elem_of_cons; [lia | done].
  - set (b := if available_jobs q best <? available_jobs q k then k else best). destruct (IH b) as [Hin Hmax].
    assert (Hb : available_jobs q best <= available_jobs q b /\ available_jobs q k <= available_jobs q b).
    { unfold b. destruct (Z.ltb_spec (available_jobs q best) (available_jobs q k)); lia. }
    pose proof (Hmax b ltac:(by left)) as Hm. split.
    + apply elem_of_cons in Hin as [-> | Hin]; [| by do 2 right].
      unfold b. destruct (_ <? _); [by right; left | by left].
    + intros k' [-> | [-> | Hk']%elem_of_cons]%elem_of_cons; [lia | lia |]. apply Hmax. by right.
Qed.

(** A single asynchronous call on several ranks takes one job on each of them and
    one more for the master, on the rank with the most free slots when it does not
    block; the master counts as many jobs as point to it.  When the rank has no
    slot for it the jobs are given back, and nothing is queued.  A single
    synchronous call is a job on the first rank only. *)
Theorem callback_single_call q set ranks (nonblocking : bool) :
  set_ranks set = Some ranks -> (1 < length ranks)%nat -> get_jobs q = OK ->
  (exists m c, m ∈ ranks /\ call_set c = set
    /\ (if nonblocking then forall k, k ∈ ranks -> available_jobs q k <= available_jobs q m else list.head ranks = Some m)
    /\ dpu_callback q set true nonblocking true
       = Some (if get_job q m =? OK
               then (OK, [Get_jobs 1; Get_job m; Init_master m c (length ranks); Add_jobs (map (fun k => (k, [Callback_of_master m])) ranks)])
               else (get_job q m, [Get_jobs 1; Get_job m; Unget_jobs])))
  /\ (nonblocking = false -> callback_tid_set q (hd 0%nat ranks) = false -> exists c st,
      call_set c = set /\ dpu_callback q set false nonblocking true
      = Some (st, [Init_sync 1; Get_jobs 2; Add_jobs [(hd 0%nat ranks, [Callback_job c; Sync_job])]; Wait]
                  ++ if st =? OK then [] else [Clear_job_errors [hd 0%nat ranks]])).
Proof.
  intros Hr Hlen Hg. destruct ranks as [| r0 [| r1 rest]]; [cbn in *; lia | cbn in *; lia |]. clear Hlen. split.
  - set (m := if nonblocking then most_available q (r1 :: rest) r0 else r0).
    exists m. do 1 eexists. split; [| split; [| split]].
    4: { unfold dpu_callback. rewrite Hr. cbn [negb andb]. unfold DPU_THREAD_JOB_GET_JOBS. rewrite Hg. cbn -[most_available Z.eqb].
         rewrite ?Z.eqb_refl. cbn -[most_available Z.eqb]. fold m. by destruct (get_job q m =? OK). }
    + unfold m. destruct nonblocking; [apply most_available_max | by left].
    + done.
    + unfold m. destruct nonblocking; [apply most_available_max | done].
  - intros -> Hc. cbn [hd] in *. unfold dpu_callback. rewrite Hr. cbn [negb andb take length]. unfold DPU_THREAD_JOB_GET_JOBS.
    unfold in_own_callback. rewrite Hc, Hg. cbn -[Z.eqb]. rewrite ?Z.eqb_refl. cbn -[Z.eqb]. rewrite Hc. cbn -[Z.eqb Z.land].
    do 2 eexists. split; [| reflexivity]. by destruct set.
Qed.
