(* ===== verification/XferMatrix.v ===== *)
(** Transfer matrices and the low level memory accesses of the host
    (library/src/backends/api/src/dpu_memory.c, the checks of
    api/src/include/dpu_internals.h, the copy jobs of
    api/src/api/dpu_thread_job.c).

    What the driver does with a request is an argument, its answer; an access
    yields its status and the requests it makes, with the lock of the rank.  The
    program that copies to the MRAM through the DPU is such a request as well. *)
From stdpp Require Import list.
From S2P Require Import Prelude Errors Mask DpuSet.

(** * Transfer matrices *)

Definition MAX_NR_DPUS_PER_RANK : Z := 64.

Inductive dpu_transfer_matrix_type_t := DPU_DEFAULT_XFER_MATRIX | DPU_SG_XFER_MATRIX.

(** An entry is a host buffer, or the position in the rank's pool of a
    scatter/gather buffer. *)
Inductive entry :=
| Null
| Buffer (address : Z)
| Pool (index : Z).

Record dpu_transfer_matrix := {
  ptr : list entry;
  offset : Z;
  size : Z;
  type : dpu_transfer_matrix_type_t }.

(** A null host pointer is address 0. *)
Definition buffer_of (address : Z) : entry := if address =? 0 then Null else Buffer address.

Definition get_transfer_matrix_index (rank : rank_t) (slice_id dpu_id : nat) : Z :=
  u8 (Z.of_nat dpu_id * Z.of_nat (length (slices rank)) + Z.of_nat slice_id).

Definition set_ptr (m : dpu_transfer_matrix) (p : list entry) : dpu_transfer_matrix :=
  {| ptr := p; offset := offset m; size := size m; type := type m |}.

Definition dpu_transfer_matrix_add_dpu (rank : rank_t) (slice_id dpu_id : nat) (m : dpu_transfer_matrix) (buffer : entry)
  : option dpu_transfer_matrix :=
  set_ptr m <$> store (ptr m) (get_transfer_matrix_index rank slice_id dpu_id) buffer.

Definition dpu_transfer_matrix_clear_dpu (rank : rank_t) (slice_id dpu_id : nat) (m : dpu_transfer_matrix)
  : option dpu_transfer_matrix :=
  dpu_transfer_matrix_add_dpu rank slice_id dpu_id m Null.

Definition dpu_transfer_matrix_clear_all : dpu_transfer_matrix :=
  {| ptr := replicate 64 Null; offset := 0; size := 0; type := DPU_DEFAULT_XFER_MATRIX |}.

Definition dpu_transfer_matrix_copy (dst src : dpu_transfer_matrix) : dpu_transfer_matrix := src.

(** Every DPU of a rank, by slice then by number. *)
Definition all_dpus (rank : rank_t) : list (nat * nat) :=
  flat_map (fun ci => map (pair ci) (seq 0 (nr_dpus_per_ci rank))) (seq 0 (length (slices rank))).

Definition is_enabled (rank : rank_t) (slice_id dpu_id : nat) : option bool := dpus rank !! DPU_INDEX rank slice_id dpu_id.

Definition dpu_transfer_matrix_set_all (rank : rank_t) (m : dpu_transfer_matrix) (buffer : entry)
  : option dpu_transfer_matrix :=
  fold_left (fun m d =>
    m ← m;
    enabled ← is_enabled rank d.1 d.2;
    dpu_transfer_matrix_add_dpu rank d.1 d.2 m (if enabled : bool then buffer else Null))
    (all_dpus rank) (Some m).

Definition dpu_transfer_matrix_get_ptr (rank : rank_t) (slice_id dpu_id : nat) (m : dpu_transfer_matrix) : option entry :=
  enabled ← is_enabled rank slice_id dpu_id;
  if negb enabled then Some Null else load (ptr m) (get_transfer_matrix_index rank slice_id dpu_id).

(** * Requests to the rank *)

Inductive feature :=
| Copy_to_irams | Copy_from_irams | Copy_to_wrams | Copy_from_wrams | Copy_to_mrams | Copy_from_mrams
| Program_to_mrams | Program_from_mrams.

#[export] Instance feature_eq_dec : EqDecision feature.
Proof. solve_decision. Defined.

Inductive target :=
| For_rank (buffer : Z)
| For_dpu (slice_id dpu_id : nat) (buffer : Z)
| For_matrix (m : dpu_transfer_matrix).

(** Addresses and lengths are in instructions, words or bytes. *)
Record request := { req_feature : feature; req_target : target; req_offset : Z; req_size : Z }.

Inductive event := Lock | Unlock | Request (r : request).

Record rank_env := {
  topology : rank_t;
  iram_size : Z;
  wram_size : Z;
  mram_size : Z;
  mram_access_by_dpu_only : bool;
  nb_dpu_running : Z;
  answer : request -> Z }.

(** [sum] is the end of the access, as the code computes it. *)
Definition verify_access (limit : Z) (error : dpu_error_t) (o s sum : Z) : option Z :=
  if s =? 0 then Some OK else if (limit <=? o) || (limit <? sum) then Some (error_code error) else None.

(** Arguments of 32 bits: the sum wraps; of 16 bits: it does not. *)
Definition verify_wram_access (env : rank_env) (o s : Z) : option Z :=
  verify_access (wram_size env) DPU_ERR_INVALID_WRAM_ACCESS o s (u32 (o + s)).
Definition verify_iram_access32 (env : rank_env) (o s : Z) : option Z :=
  verify_access (iram_size env) DPU_ERR_INVALID_IRAM_ACCESS o s (u32 (o + s)).
Definition verify_iram_access16 (env : rank_env) (o s : Z) : option Z :=
  verify_access (iram_size env) DPU_ERR_INVALID_IRAM_ACCESS o s (o + s).

Definition verify_mram_access_offset_and_size (env : rank_env) (o s : Z) : option Z :=
  if negb (s mod 8 =? 0) || negb (o mod 8 =? 0) || (mram_size env <=? o) || (mram_size env <? u32 (o + s))
  then Some (error_code DPU_ERR_INVALID_MRAM_ACCESS) else None.

Definition locked (env : rank_env) (r : request) : Z * list event := (answer env r, [Lock; Request r; Unlock]).

Definition checked (env : rank_env) (verdict : option Z) (f : feature) (t : target) (o s : Z) : Z * list event :=
  match verdict with
  | Some status => (status, [])
  | None => locked env {| req_feature := f; req_target := t; req_offset := o; req_size := s |}
  end.

Definition dpu_copy_to_iram_for_matrix (env : rank_env) (m : dpu_transfer_matrix) : Z * list event :=
  checked env (verify_iram_access32 env (offset m) (size m)) Copy_to_irams (For_matrix m) (offset m) (size m).

Definition dpu_copy_from_iram_for_matrix (env : rank_env) (m : dpu_transfer_matrix) : Z * list event :=
  checked env (verify_iram_access32 env (offset m) (size m)) Copy_from_irams (For_matrix m) (offset m) (size m).

(** The address and the number of instructions are converted to 16 bits. *)
Definition dpu_copy_to_iram_for_rank (env : rank_env) (address source nb : Z) : Z * list event :=
  let address := u16 address in
  let nb := u16 nb in
  checked env (verify_iram_access16 env address nb) Copy_to_irams (For_rank source) address nb.

Definition for_dpu (env : rank_env) (slice_id dpu_id : nat) (k : Z * list event) : option (Z * list event) :=
  enabled ← is_enabled (topology env) slice_id dpu_id;
  Some (if negb enabled then (error_code DPU_ERR_DPU_DISABLED, []) else k).

Definition dpu_copy_to_iram_for_dpu (env : rank_env) (slice_id dpu_id : nat) (address source nb : Z)
  : option (Z * list event) :=
  let address := u16 address in
  let nb := u16 nb in
  for_dpu env slice_id dpu_id
    (checked env (verify_iram_access16 env address nb) Copy_to_irams (For_dpu slice_id dpu_id source) address nb).

Definition dpu_copy_from_iram_for_dpu (env : rank_env) (slice_id dpu_id : nat) (destination address nb : Z)
  : option (Z * list event) :=
  let address := u16 address in
  let nb := u16 nb in
  for_dpu env slice_id dpu_id
    (checked env (verify_iram_access16 env address nb) Copy_from_irams (For_dpu slice_id dpu_id destination) address nb).

Definition dpu_copy_to_wram_for_rank (env : rank_env) (address source nb : Z) : Z * list event :=
  checked env (verify_wram_access env address nb) Copy_to_wrams (For_rank source) address nb.

Definition dpu_copy_to_wram_for_dpu (env : rank_env) (slice_id dpu_id : nat) (address source nb : Z)
  : option (Z * list event) :=
  for_dpu env slice_id dpu_id
    (checked env (verify_wram_access env address nb) Copy_to_wrams (For_dpu slice_id dpu_id source) address nb).

Definition dpu_copy_from_wram_for_dpu (env : rank_env) (slice_id dpu_id : nat) (destination address nb : Z)
  : option (Z * list event) :=
  for_dpu env slice_id dpu_id
    (checked env (verify_wram_access env address nb) Copy_from_wrams (For_dpu slice_id dpu_id destination) address nb).

Definition dpu_copy_to_wram_for_matrix (env : rank_env) (m : dpu_transfer_matrix) : Z * list event :=
  checked env (verify_wram_access env (offset m) (size m)) Copy_to_wrams (For_matrix m) (offset m) (size m).

Definition dpu_copy_from_wram_for_matrix (env : rank_env) (m : dpu_transfer_matrix) : Z * list event :=
  checked env (verify_wram_access env (offset m) (size m)) Copy_from_wrams (For_matrix m) (offset m) (size m).

(** The MRAM belongs to the DPUs while they run. *)
Definition mram_access (env : rank_env) (direct by_program : feature) (m : dpu_transfer_matrix) : Z * list event :=
  match verify_mram_access_offset_and_size env (offset m) (size m) with
  | Some status => (status, [])
  | None =>
    if 0 <? nb_dpu_running env then (error_code DPU_ERR_MRAM_BUSY, [Lock; Unlock])
    else locked env {| req_feature := if mram_access_by_dpu_only env then by_program else direct;
                       req_target := For_matrix m; req_offset := offset m; req_size := size m |}
  end.

Definition dpu_copy_to_mrams (env : rank_env) (m : dpu_transfer_matrix) : Z * list event :=
  mram_access env Copy_to_mrams Program_to_mrams m.

Definition dpu_copy_from_mrams (env : rank_env) (m : dpu_transfer_matrix) : Z * list event :=
  mram_access env Copy_from_mrams Program_from_mrams m.

(** The matrix of a transfer with one DPU. *)
Definition single_matrix (rank : rank_t) (slice_id dpu_id : nat) (buffer : entry) (o s : Z) : option dpu_transfer_matrix :=
  m ← dpu_transfer_matrix_add_dpu rank slice_id dpu_id dpu_transfer_matrix_clear_all buffer;
  Some {| ptr := ptr m; offset := o; size := s; type := type m |}.

Definition mram_of_dpu (copy : rank_env -> dpu_transfer_matrix -> Z * list event) (env : rank_env) (slice_id dpu_id : nat)
    (address buffer nb : Z) : option (Z * list event) :=
  enabled ← is_enabled (topology env) slice_id dpu_id;
  if negb enabled then Some (error_code DPU_ERR_DPU_DISABLED, [])
  else if nb =? 0 then Some (OK, [])
  else m ← single_matrix (topology env) slice_id dpu_id (buffer_of buffer) address nb; Some (copy env m).

Definition dpu_copy_to_mram (env : rank_env) (slice_id dpu_id : nat) (address source nb : Z) : option (Z * list event) :=
  mram_of_dpu dpu_copy_to_mrams env slice_id dpu_id address source nb.

Definition dpu_copy_from_mram (env : rank_env) (slice_id dpu_id : nat) (destination address nb : Z) : option (Z * list event) :=
  mram_of_dpu dpu_copy_from_mrams env slice_id dpu_id address destination nb.

(** * Copy jobs *)

Record copy_job := {
  job_type : dpu_thread_job_type;
  job_matrix : dpu_transfer_matrix;
  job_address : Z;
  job_length : Z;
  job_buffer : Z }.

(** What a worker does with a copy job; [junk] is the content of its stack,
    where the matrix of a broadcast to the MRAM is built. *)
Definition compute_copy (junk : dpu_transfer_matrix) (env : rank_env) (job : copy_job) : option (Z * list event) :=
  match job_type job with
  | DPU_THREAD_JOB_COPY_WRAM_TO_MATRIX => Some (dpu_copy_to_wram_for_matrix env (job_matrix job))
  | DPU_THREAD_JOB_COPY_IRAM_TO_MATRIX => Some (dpu_copy_to_iram_for_matrix env (job_matrix job))
  | DPU_THREAD_JOB_COPY_MRAM_TO_MATRIX => Some (dpu_copy_to_mrams env (job_matrix job))
  | DPU_THREAD_JOB_COPY_WRAM_FROM_MATRIX => Some (dpu_copy_from_wram_for_matrix env (job_matrix job))
  | DPU_THREAD_JOB_COPY_IRAM_FROM_MATRIX => Some (dpu_copy_from_iram_for_matrix env (job_matrix job))
  | DPU_THREAD_JOB_COPY_MRAM_FROM_MATRIX => Some (dpu_copy_from_mrams env (job_matrix job))
  | DPU_THREAD_JOB_COPY_WRAM_TO_RANK =>
    Some (dpu_copy_to_wram_for_rank env (job_address job) (job_buffer job) (job_length job))
  | DPU_THREAD_JOB_COPY_IRAM_TO_RANK =>
    Some (dpu_copy_to_iram_for_rank env (job_address job) (job_buffer job) (job_length job))
  | DPU_THREAD_JOB_COPY_MRAM_TO_RANK =>
    m ← dpu_transfer_matrix_set_all (topology env) junk (buffer_of (job_buffer job));
    Some (dpu_copy_to_mrams env {| ptr := ptr m; offset := job_address job; size := job_length job; type := type m |})
  | _ => None
  end.

(** * The entries of the DPUs *)

Definition in_rank (r : rank_t) (d : nat * nat) : Prop := (d.1 < length (slices r))%nat /\ (d.2 < nr_dpus_per_ci r)%nat.

(** The entry of a DPU. *)
Definition entry_at (r : rank_t) (m : dpu_transfer_matrix) (d : nat * nat) : entry :=
  nth (Z.to_nat (get_transfer_matrix_index r d.1 d.2)) (ptr m) Null.

Definition is_matrix (m : dpu_transfer_matrix) : Prop := length (ptr m) = 64%nat.

Lemma index_small r d : rank_ok r -> in_rank r d ->
  get_transfer_matrix_index r d.1 d.2 = Z.of_nat (d.2 * length (slices r) + d.1)
  /\ (d.2 * length (slices r) + d.1 < 64)%nat.
Proof.
  intros [Hd Hc _] [H1 H2].
  assert (d.2 * length (slices r) + d.1 < 64)%nat by nia. split; [| done].
  unfold get_transfer_matrix_index. rewrite wrap_small; lia.
Qed.

(** Two DPUs never share an entry. *)
Lemma index_inj r d e : rank_ok r -> in_rank r d -> in_rank r e ->
  get_transfer_matrix_index r d.1 d.2 = get_transfer_matrix_index r e.1 e.2 -> d = e.
Proof.
  intros Hr Hd He. destruct (index_small r d Hr Hd) as [-> _], (index_small r e Hr He) as [-> _].
  intros E%Nat2Z.inj. destruct d as [a b], e as [a' b'], Hd as [Ha Hb], He as [Ha' Hb']. cbn in *.
  rewrite !(Nat.mul_comm _ (length (slices r))) in E.
  destruct (Nat.div_mod_unique (length (slices r)) b b' a a') as [-> ->]; [lia.. | done].
Qed.

Lemma add_dpu_spec r m d b : rank_ok r -> in_rank r d -> is_matrix m ->
  exists m', dpu_transfer_matrix_add_dpu r d.1 d.2 m b = Some m' /\ is_matrix m'
    /\ offset m' = offset m /\ size m' = size m /\ type m' = type m
    /\ entry_at r m' d = b /\ forall e, in_rank r e -> e <> d -> entry_at r m' e = entry_at r m e.
Proof.
  intros Hr Hd Hm. unfold is_matrix in *. destruct (index_small r d Hr Hd) as [Ei Hi].
  unfold dpu_transfer_matrix_add_dpu, store. rewrite Ei, Hm.
  destruct (Z.leb_spec 0 (Z.of_nat (d.2 * length (slices r) + d.1))); [| lia].
  destruct (Z.ltb_spec (Z.of_nat (d.2 * length (slices r) + d.1)) (Z.of_nat 64)); [| lia].
  cbn [andb fmap option_fmap option_map]. rewrite Nat2Z.id. eexists. split; [reflexivity |].
  unfold entry_at. cbn [ptr offset size type set_ptr]. rewrite length_insert. split_and!; [done.. | |].
  - rewrite Ei, Nat2Z.id, nth_lookup, list_lookup_insert_eq by lia. done.
  - intros e He Hne. rewrite !nth_lookup, list_lookup_insert_ne; [done |].
    intros E. apply Hne. symmetry. apply (index_inj r d e Hr Hd He). rewrite Ei.
    destruct (index_small r e Hr He) as [Ee _]. rewrite Ee in *. lia.
Qed.

(** A loop over DPUs that changes the entry of each in turn. *)
Section fold.
Context {S : Type} (r : rank_t) (P : S -> Prop) (view : S -> nat * nat -> entry) (step : S -> nat * nat -> option S)
  (g : nat * nat -> entry -> entry).
Context (Hstep : forall s d, P s -> in_rank r d ->
  exists s', step s d = Some s' /\ P s' /\ view s' d = g d (view s d)
    /\ forall e, in_rank r e -> e <> d -> view s' e = view s e).

Lemma fold_dpus l s : P s -> Forall (in_rank r) l -> NoDup l ->
  exists s', fold_left (fun s d => s ← s; step s d) l (Some s) = Some s' /\ P s'
    /\ forall e, in_rank r e -> view s' e = if decide (e ∈ l) then g e (view s e) else view s e.
Proof.
  intros Hs Hl Hn. revert s Hs. induction Hl as [| d l Hd Hl IH]; intros s Hs.
  { exists s. split_and!; [done.. |]. intros e _. by rewrite decide_False by (intros H; inversion H). }
  apply list.NoDup_cons in Hn as [Hd' Hn]. cbn [fold_left mbind option_bind].
  destruct (Hstep s d Hs Hd) as (s1 & -> & Hs1 & Hv & Ho).
  destruct (IH Hn s1 Hs1) as (s2 & E & Hs2 & Hv2). exists s2. split_and!; [done.. |].
  intros e He. rewrite Hv2 by done. destruct (decide (e = d)) as [-> | Hne].
  - rewrite decide_False by done. rewrite decide_True by apply list_elem_of_here. done.
  - rewrite Ho by done. destruct (decide (e ∈ l)) as [Hin | Hin].
    + by rewrite decide_True by (by apply list_elem_of_further).
    + rewrite decide_False; [done |]. by intros [-> | H]%elem_of_cons.
Qed.
End fold.

Lemma all_dpus_elem r d : d ∈ all_dpus r <-> in_rank r d.
Proof.
  unfold all_dpus, in_rank. rewrite list_elem_of_In, in_flat_map. split.
  - intros (ci & Hc & Hd). apply in_map_iff in Hd as (x & <- & Hx). apply in_seq in Hc, Hx. cbn. lia.
  - intros [H1 H2]. exists d.1. split; [apply in_seq; lia |]. apply in_map_iff. exists d.2.
    split; [by destruct d | apply in_seq; lia].
Qed.

Lemma all_dpus_nodup r : NoDup (all_dpus r).
Proof.
  unfold all_dpus. generalize 0%nat at 2 as s. generalize (length (slices r)) as n.
  induction n as [| n IH]; intros s; cbn [seq flat_map]; [constructor |].
  apply list.NoDup_app. split_and!; [| | apply IH].
  - apply (NoDup_fmap_2 (pair s)), NoDup_seq.
  - intros d Hd%list_elem_of_In H%list_elem_of_In. apply in_map_iff in Hd as (x & <- & _).
    apply in_flat_map in H as (ci & Hc & H). apply in_map_iff in H as (y & E & _). apply in_seq in Hc.
    injection E as -> _. lia.
Qed.

Lemma enabled_some r d : rank_ok r -> in_rank r d -> exists b, is_enabled r d.1 d.2 = Some b.
Proof. intros Hr [H1 H2]. by apply dpus_lookup_some. Qed.

Lemma set_all_spec r m b : rank_ok r -> is_matrix m ->
  exists m', dpu_transfer_matrix_set_all r m b = Some m' /\ is_matrix m' /\ type m' = type m
    /\ forall d, in_rank r d -> entry_at r m' d = if decide (is_enabled r d.1 d.2 = Some true) then b else Null.
Proof.
  intros Hr Hm. unfold dpu_transfer_matrix_set_all.
  destruct (fold_dpus r (fun m' => is_matrix m' /\ type m' = type m) (entry_at r)
    (fun m d => enabled ← is_enabled r d.1 d.2;
      dpu_transfer_matrix_add_dpu r d.1 d.2 m (if enabled : bool then b else Null))
    (fun d _ => if decide (is_enabled r d.1 d.2 = Some true) then b else Null)) with (l := all_dpus r) (s := m)
    as (m' & E & [Hm' Ht] & Hv).
  - intros s d [Hs Hts] Hd. destruct (enabled_some r d Hr Hd) as [en Een]. rewrite Een. cbn [mbind option_bind].
    destruct (add_dpu_spec r s d (if en then b else Null) Hr Hd Hs) as (s' & E & Hs' & _ & _ & Ht & He & Ho).
    exists s'. split_and!; [done.. | congruence | | done]. rewrite He. destruct en; [by rewrite decide_True |].
    by rewrite decide_False.
  - done.
  - apply list.Forall_forall. intros d. apply all_dpus_elem.
  - apply all_dpus_nodup.
  - exists m'. split_and!; [exact E | done.. |]. intros d Hd. rewrite Hv by done.
    by rewrite decide_True by (by apply all_dpus_elem).
Qed.
