(* ===== verification/Memory.v ===== *)
(** Symbol accesses of the host API
    (library/src/backends/api/src/api/dpu_memory.c): checks, conversion of the
    addresses of the memories, transfer matrices of the ranks, jobs submitted.

    The ranks of a set are positions in an array, as in [DpuSet]; what the job
    queue answers is an argument, and an operation yields the ranks afterwards,
    the jobs it submits and its status. *)
From Stdlib Require Import Strings.String.
From stdpp Require Import list strings.
From S2P Require Import Prelude Errors Mask DpuSet XferMatrix.

(** * Memories and addresses *)

Definition IRAM_MASK : Z := 0x80000000.
Definition MRAM_MASK : Z := 0x08000000.
Definition IRAM_ALIGN : Z := 3.
Definition WRAM_ALIGN : Z := 2.
Definition ALIGN_MASK (align : Z) : Z := u32 (Z.lnot (Z.shiftl 1 align - 1)).

Inductive memory := Iram | Mram | Wram.

Definition MEMORY_SWITCH (address : Z) : memory :=
  if Z.land address IRAM_MASK =? IRAM_MASK then Iram
  else if Z.land address MRAM_MASK =? MRAM_MASK then Mram
  else Wram.

(** The address and the length in the units of the memory. *)
Definition UPDATE_COPY_PARAMETERS (address length : Z) : Z * Z :=
  match MEMORY_SWITCH address with
  | Iram => (Z.shiftr (Z.ldiff address IRAM_MASK) IRAM_ALIGN, Z.shiftr length IRAM_ALIGN)
  | Mram => (Z.ldiff address MRAM_MASK, length)
  | Wram => (Z.shiftr address WRAM_ALIGN, Z.shiftr length WRAM_ALIGN)
  end.

Record dpu_symbol_t := { sym_address : Z; sym_size : Z }.

(** The bits that [~ALIGN_MASK] keeps. *)
Definition misaligned (align x : Z) : bool := negb (Z.land x (u32 (Z.lnot (ALIGN_MASK align))) =? 0).

(** The length is a [size_t]: the sum is on 64 bits. *)
Definition CHECK_SYMBOL (symbol : dpu_symbol_t) (symbol_offset length : Z) : option Z :=
  let address := u32 (sym_address symbol + symbol_offset) in
  if sym_size symbol <? u64 (symbol_offset + length) then Some (error_code DPU_ERR_INVALID_SYMBOL_ACCESS)
  else
    match MEMORY_SWITCH address with
    | Iram =>
      if misaligned IRAM_ALIGN address || misaligned IRAM_ALIGN length
      then Some (error_code DPU_ERR_INVALID_IRAM_ACCESS) else None
    | Mram => None
    | Wram =>
      if misaligned WRAM_ALIGN address || misaligned WRAM_ALIGN length
      then Some (error_code DPU_ERR_INVALID_WRAM_ACCESS) else None
    end.

Definition DPU_BROADCAST_SET_JOB_TYPE (address : Z) : dpu_thread_job_type :=
  match MEMORY_SWITCH address with
  | Iram => DPU_THREAD_JOB_COPY_IRAM_TO_RANK
  | Mram => DPU_THREAD_JOB_COPY_MRAM_TO_RANK
  | Wram => DPU_THREAD_JOB_COPY_WRAM_TO_RANK
  end.

Inductive dpu_xfer_t := DPU_XFER_TO_DPU | DPU_XFER_FROM_DPU | Other_xfer.

Definition DPU_COPY_MATRIX_SET_JOB_TYPE (xfer : dpu_xfer_t) (address : Z) : option dpu_thread_job_type :=
  match xfer, MEMORY_SWITCH address with
  | DPU_XFER_TO_DPU, Iram => Some DPU_THREAD_JOB_COPY_IRAM_TO_MATRIX
  | DPU_XFER_TO_DPU, Mram => Some DPU_THREAD_JOB_COPY_MRAM_TO_MATRIX
  | DPU_XFER_TO_DPU, Wram => Some DPU_THREAD_JOB_COPY_WRAM_TO_MATRIX
  | DPU_XFER_FROM_DPU, Iram => Some DPU_THREAD_JOB_COPY_IRAM_FROM_MATRIX
  | DPU_XFER_FROM_DPU, Mram => Some DPU_THREAD_JOB_COPY_MRAM_FROM_MATRIX
  | DPU_XFER_FROM_DPU, Wram => Some DPU_THREAD_JOB_COPY_WRAM_FROM_MATRIX
  | Other_xfer, _ => None
  end.

(** * Ranks and jobs *)

Definition DPU_XFER_NO_RESET : Z := 1.
Definition DPU_XFER_ASYNC : Z := 2.
Definition SYNCHRONOUS_FLAGS (flags : Z) : bool := Z.land DPU_XFER_ASYNC flags =? 0.

(** [in_callback]: the caller is the callback the rank runs; the programs of
    the DPUs, in the order of [dpus], are references, [None] when there is
    none. *)
Record api_rank := {
  topo : rank_t;
  programs : list (option nat);
  matrix : dpu_transfer_matrix;
  callback_matrix : dpu_transfer_matrix;
  in_callback : bool }.

Definition dpu_get_transfer_matrix (r : api_rank) : dpu_transfer_matrix :=
  if in_callback r then callback_matrix r else matrix r.

Definition set_transfer_matrix (r : api_rank) (m : dpu_transfer_matrix) : api_rank :=
  {| topo := topo r; programs := programs r;
     matrix := if in_callback r then matrix r else m;
     callback_matrix := if in_callback r then m else callback_matrix r;
     in_callback := in_callback r |}.

(** What the job queue answers: to the request of jobs, and at the end. *)
Record queue_env := { get_jobs : Z; do_jobs : Z }.

(** One job for each of these ranks, waited for or not. *)
Record submission := { waited : bool; copies : list (nat * copy_job) }.

(** A refused request of jobs ends the operation at once ([false]). *)
Definition submit (q : queue_env) (synchronous : bool) (l : list (nat * copy_job)) : bool * Z * list submission :=
  if get_jobs q =? OK then (true, do_jobs q, [{| waited := synchronous; copies := l |}])
  else (false, get_jobs q, []).

Definition dpu_slice (r : rank_t) (d : nat) : nat := d / nr_dpus_per_ci r.
Definition dpu_member (r : rank_t) (d : nat) : nat := d mod nr_dpus_per_ci r.

Definition result : Type := Z * list submission.

(** One DPU of rank [k], at position [d] of its array. *)
Definition dpu_copy_symbol_dpu (q : queue_env) (k : nat) (r : rank_t) (d : nat) (symbol : dpu_symbol_t) (symbol_offset : Z)
    (buffer : entry) (length : Z) (xfer : dpu_xfer_t) (flags : Z) : option result :=
  enabled ← dpus r !! d;
  if negb enabled then Some (error_code DPU_ERR_DPU_DISABLED, [])
  else
    match CHECK_SYMBOL symbol symbol_offset length with
    | Some e => Some (e, [])
    | None =>
      let address := u32 (sym_address symbol + symbol_offset) in
      match DPU_COPY_MATRIX_SET_JOB_TYPE xfer address with
      | None => Some (error_code DPU_ERR_INVALID_MEMORY_TRANSFER, [])
      | Some t =>
        let '(o, s) := UPDATE_COPY_PARAMETERS address length in
        m ← single_matrix r (dpu_slice r d) (dpu_member r d) buffer o (u32 s);
        let '(_, st, subs) := submit q (SYNCHRONOUS_FLAGS flags)
          [(k, {| job_type := t; job_matrix := m; job_address := 0; job_length := 0; job_buffer := 0 |})] in
        Some (st, subs)
      end
    end.

Definition dpu_broadcast_to_symbol_for_ranks (q : queue_env) (ranks : list nat) (symbol : dpu_symbol_t) (symbol_offset src length : Z)
    (flags : Z) : result :=
  match CHECK_SYMBOL symbol symbol_offset length with
  | Some e => (e, [])
  | None =>
    let address := u32 (sym_address symbol + symbol_offset) in
    let '(o, s) := UPDATE_COPY_PARAMETERS address length in
    let job := {| job_type := DPU_BROADCAST_SET_JOB_TYPE address; job_matrix := dpu_transfer_matrix_clear_all;
                  job_address := o; job_length := u32 s; job_buffer := src |} in
    let '(_, st, subs) := submit q (SYNCHRONOUS_FLAGS flags) (map (fun k => (k, job)) ranks) in
    (st, subs)
  end.

(** * Programs and symbols *)

(** The programs of the enabled DPUs of a rank. *)
Definition enabled_programs (r : api_rank) : list (option nat) :=
  map snd (List.filter fst (combine (dpus (topo r)) (programs r))).

(** [None] when two DPUs differ. *)
Definition common_program (l : list (option nat)) : option (option nat) :=
  fold_left (fun the p =>
    the ← the;
    let the := match the with None => p | Some _ => the end in
    if decide (the = p) then Some the else None)
    l (Some None).

Definition dpu_get_common_program (arr : list api_rank) (set : dpu_set_t) : option (Z + nat) :=
  the ← match set with
        | Set_ranks p n => Some (common_program (flat_map enabled_programs (take n (drop p arr))))
        | Set_dpu k d => r ← arr !! k; p ← programs r !! d; Some (Some p)
        | Set_other => Some None
        end;
  Some match set, the with
       | Set_other, _ => inl (error_code DPU_ERR_INTERNAL)
       | _, None => inl (error_code DPU_ERR_DIFFERENT_DPU_PROGRAMS)
       | _, Some None => inl (error_code DPU_ERR_NO_PROGRAM_LOADED)
       | _, Some (Some p) => inr p
       end.

(** The symbols of a program, in order. *)
Definition dpu_get_symbol (symbols : list (string * dpu_symbol_t)) (name : string) : Z + dpu_symbol_t :=
  match List.find (fun s => String.eqb name s.1) symbols with
  | Some s => inr s.2
  | None => inl (error_code DPU_ERR_UNKNOWN_SYMBOL)
  end.

(** * The operations of the API *)

Section api.
(** The symbols of the programs. *)
Variable symbols : nat -> list (string * dpu_symbol_t).
Variable q : queue_env.

Definition dpu_broadcast_to_symbol (arr : list api_rank) (set : dpu_set_t) (symbol : dpu_symbol_t)
    (symbol_offset src length flags : Z) : option result :=
  match set with
  | Set_ranks p n => Some (dpu_broadcast_to_symbol_for_ranks q (seq p n) symbol symbol_offset src length flags)
  | Set_dpu k d =>
    r ← arr !! k;
    dpu_copy_symbol_dpu q k (topo r) d symbol symbol_offset (buffer_of src) length DPU_XFER_TO_DPU flags
  | Set_other => Some (error_code DPU_ERR_INTERNAL, [])
  end.

(** The operations by name: the common program, then its symbol. *)
Definition with_symbol (arr : list api_rank) (set : dpu_set_t) (name : string) (k : dpu_symbol_t -> option result)
  : option result :=
  the ← dpu_get_common_program arr set;
  match the with
  | inl e => Some (e, [])
  | inr program =>
    match dpu_get_symbol (symbols program) name with
    | inl e => Some (e, [])
    | inr symbol => k symbol
    end
  end.

Definition dpu_broadcast_to (arr : list api_rank) (set : dpu_set_t) (name : string) (symbol_offset src length flags : Z)
  : option result :=
  with_symbol arr set name (fun symbol => dpu_broadcast_to_symbol arr set symbol symbol_offset src length flags).

Definition dpu_copy_to (arr : list api_rank) (set : dpu_set_t) (name : string) (symbol_offset src length : Z) : option result :=
  with_symbol arr set name (fun symbol => dpu_broadcast_to_symbol arr set symbol symbol_offset src length 0).

Definition dpu_copy_to_symbol (arr : list api_rank) (set : dpu_set_t) (symbol : dpu_symbol_t) (symbol_offset src length : Z)
  : option result :=
  dpu_broadcast_to_symbol arr set symbol symbol_offset src length 0.

Definition dpu_copy_from_symbol (arr : list api_rank) (set : dpu_set_t) (symbol : dpu_symbol_t) (symbol_offset dst length : Z)
  : option result :=
  match set with
  | Set_dpu k d =>
    r ← arr !! k;
    dpu_copy_symbol_dpu q k (topo r) d symbol symbol_offset (buffer_of dst) length DPU_XFER_FROM_DPU 0
  | Set_ranks _ _ => Some (error_code DPU_ERR_INVALID_DPU_SET, [])
  | Set_other => Some (error_code DPU_ERR_INTERNAL, [])
  end.

Definition dpu_copy_from (arr : list api_rank) (set : dpu_set_t) (name : string) (symbol_offset dst length : Z)
  : option result :=
  match set with
  | Set_dpu k d =>
    r ← arr !! k;
    program ← programs r !! d;
    match program with
    | None => Some (error_code DPU_ERR_NO_PROGRAM_LOADED, [])
    | Some program =>
      match dpu_get_symbol (symbols program) name with
      | inl e => Some (e, [])
      | inr symbol => dpu_copy_from_symbol arr set symbol symbol_offset dst length
      end
    end
  | Set_ranks _ _ => Some (error_code DPU_ERR_INVALID_DPU_SET, [])
  | Set_other => Some (error_code DPU_ERR_INTERNAL, [])
  end.

(** ** Prepared transfers *)

Definition add_dpu (r : api_rank) (slice_id dpu_id : nat) (buffer : entry) : option api_rank :=
  set_transfer_matrix r <$> dpu_transfer_matrix_add_dpu (topo r) slice_id dpu_id (dpu_get_transfer_matrix r) buffer.

(** Every enabled DPU of a rank. *)
Definition prepare_rank (buffer : entry) (r : api_rank) : option api_rank :=
  fold_left (fun r d =>
    r ← r;
    enabled ← is_enabled (topo r) d.1 d.2;
    if enabled : bool then add_dpu r d.1 d.2 buffer else Some r)
    (all_dpus (topo r)) (Some r).

(** The ranks [p], ..., [p + n - 1] of the array are changed one by one. *)
Fixpoint on_ranks (f : api_rank -> option api_rank) (p n : nat) (arr : list api_rank) : option (list api_rank) :=
  match n with
  | O => Some arr
  | S n => r ← arr !! p; r ← f r; on_ranks f (S p) n (<[p := r]> arr)
  end.

Definition dpu_prepare_xfer (arr : list api_rank) (set : dpu_set_t) (buffer : Z) : option (list api_rank * Z) :=
  match set with
  | Set_ranks p n => arr ← on_ranks (prepare_rank (buffer_of buffer)) p n arr; Some (arr, OK)
  | Set_dpu k d =>
    r ← arr !! k;
    enabled ← dpus (topo r) !! d;
    if negb enabled then Some (arr, error_code DPU_ERR_DPU_DISABLED)
    else
      r ← add_dpu r (dpu_slice (topo r) d) (dpu_member (topo r) d) (buffer_of buffer);
      Some (<[k := r]> arr, OK)
  | Set_other => Some (arr, error_code DPU_ERR_INTERNAL)
  end.

(** The jobs of a prepared transfer. *)
Definition matrix_jobs (t : dpu_thread_job_type) (o s : Z) (p n : nat) (arr : list api_rank) : list (nat * copy_job) :=
  imap (fun i r =>
    let m := dpu_transfer_matrix_copy dpu_transfer_matrix_clear_all (dpu_get_transfer_matrix r) in
    ((p + i)%nat,
     {| job_type := t; job_matrix := {| ptr := ptr m; offset := o; size := s; type := type m |};
        job_address := 0; job_length := 0; job_buffer := 0 |}))
    (take n (drop p arr)).

Definition reset_matrices (arr : list api_rank) (set : dpu_set_t) : option (list api_rank) :=
  match set with
  | Set_ranks p n => on_ranks (fun r => Some (set_transfer_matrix r dpu_transfer_matrix_clear_all)) p n arr
  | Set_dpu k d =>
    r ← arr !! k;
    m ← dpu_transfer_matrix_clear_dpu (topo r) (dpu_slice (topo r) d) (dpu_member (topo r) d) (dpu_get_transfer_matrix r);
    Some (<[k := set_transfer_matrix r m]> arr)
  | Set_other => Some arr
  end.

(** The transfer itself: whether the operation goes on to reset the matrices,
    its status and what is submitted. *)
Definition push_transfer (arr : list api_rank) (set : dpu_set_t) (xfer : dpu_xfer_t) (symbol : dpu_symbol_t)
    (symbol_offset length flags : Z) : option (bool * Z * list submission) :=
  match set with
  | Set_ranks p n =>
    match CHECK_SYMBOL symbol symbol_offset length with
    | Some e => Some (false, e, [])
    | None =>
      let address := u32 (sym_address symbol + symbol_offset) in
      match DPU_COPY_MATRIX_SET_JOB_TYPE xfer address with
      | None => Some (false, error_code DPU_ERR_INVALID_MEMORY_TRANSFER, [])
      | Some t =>
        let '(o, s) := UPDATE_COPY_PARAMETERS address length in
        Some (submit q (SYNCHRONOUS_FLAGS flags) (matrix_jobs t o (u32 s) p n arr))
      end
    end
  | Set_dpu k d =>
    r ← arr !! k;
    buffer ← load (ptr (dpu_get_transfer_matrix r))
      (get_transfer_matrix_index (topo r) (dpu_slice (topo r) d) (dpu_member (topo r) d));
    '(st, subs) ← dpu_copy_symbol_dpu q k (topo r) d symbol symbol_offset buffer length xfer flags;
    Some (true, st, subs)
  | Set_other => Some (false, error_code DPU_ERR_INTERNAL, [])
  end.

Definition dpu_push_xfer_symbol (arr : list api_rank) (set : dpu_set_t) (xfer : dpu_xfer_t) (symbol : dpu_symbol_t)
    (symbol_offset length flags : Z) : option (list api_rank * result) :=
  '(goes_on, st, subs) ← push_transfer arr set xfer symbol symbol_offset length flags;
  if goes_on && negb (flags =? DPU_XFER_NO_RESET)
  then arr ← reset_matrices arr set; Some (arr, (st, subs))
  else Some (arr, (st, subs)).

Definition dpu_push_xfer (arr : list api_rank) (set : dpu_set_t) (xfer : dpu_xfer_t) (name : string)
    (symbol_offset length flags : Z) : option (list api_rank * result) :=
  the ← dpu_get_common_program arr set;
  match the with
  | inl e => Some (arr, (e, []))
  | inr program =>
    match dpu_get_symbol (symbols program) name with
    | inl e => Some (arr, (e, []))
    | inr symbol => dpu_push_xfer_symbol arr set xfer symbol symbol_offset length flags
    end
  end.
End api.

(** * Addresses *)

Lemma land_pow2_self x k : 0 <= k -> (Z.land x (2 ^ k) =? 2 ^ k) = Z.testbit x k.
Proof.
  intros Hk. pose proof (land_pow2_eqb x k Hk) as H. destruct (Z.testbit x k) eqn:E; cbn [negb] in H.
  - apply Z.eqb_eq, Z.bits_inj'. intros i Hi. rewrite Z.land_spec, testbit_pow2 by lia.
    destruct (Z.eqb_spec i k) as [-> |]; [by rewrite E | apply andb_false_r].
  - apply Z.eqb_eq in H. rewrite H. apply Z.eqb_neq. pose proof (Z.pow_pos_nonneg 2 k). lia.
Qed.

Lemma switch_bits address :
  MEMORY_SWITCH address = if Z.testbit address 31 then Iram else if Z.testbit address 27 then Mram else Wram.
Proof.
  unfold MEMORY_SWITCH. change IRAM_MASK with (2 ^ 31). change MRAM_MASK with (2 ^ 27).
  by rewrite !land_pow2_self by lia.
Qed.

(** Where each memory starts, and what its addresses count. *)
Definition base (m : memory) : Z := match m with Iram => IRAM_MASK | Mram => MRAM_MASK | Wram => 0 end.
Definition unit_of (m : memory) : Z := match m with Iram => 8 | Mram => 1 | Wram => 4 end.

Lemma testbit_add_pow2 k a : 0 <= k -> 0 <= a < 2 ^ k -> Z.testbit (2 ^ k + a) k = true.
Proof.
  intros Hk Ha. rewrite Z.add_nocarry_lxor.
  - rewrite Z.lxor_spec, testbit_pow2, Z.eqb_refl, (testbit_high k) by lia. done.
  - apply Z.bits_inj'. intros i Hi. rewrite Z.land_spec, testbit_pow2, Z.bits_0 by lia.
    destruct (Z.eqb_spec i k) as [-> |]; [by rewrite (testbit_high k) by lia | done].
Qed.

Lemma switch_base m a : 0 <= a < 2 ^ 27 -> MEMORY_SWITCH (base m + a) = m.
Proof.
  intros Ha. rewrite switch_bits. destruct m; cbn [base].
  - change IRAM_MASK with (2 ^ 31). by rewrite testbit_add_pow2 by lia.
  - change MRAM_MASK with (2 ^ 27). rewrite (testbit_high 28), testbit_add_pow2 by lia. done.
  - by rewrite !(testbit_high 27) by lia.
Qed.

Lemma ldiff_add_pow2 k a : 0 <= k -> 0 <= a < 2 ^ k -> Z.ldiff (2 ^ k + a) (2 ^ k) = a.
Proof.
  intros Hk Ha. rewrite (Z.add_comm (2 ^ k)), Z.add_nocarry_lxor, Z.lxor_lor.
  - apply clear_set; [done |]. by apply (testbit_high k).
  - apply Z.bits_inj'. intros i Hi. rewrite Z.land_spec, testbit_pow2, Z.bits_0 by lia.
    destruct (Z.eqb_spec i k) as [-> |]; [by rewrite (testbit_high k) by lia | apply andb_false_r].
  - apply Z.bits_inj'. intros i Hi. rewrite Z.land_spec, testbit_pow2, Z.bits_0 by lia.
    destruct (Z.eqb_spec i k) as [-> |]; [by rewrite (testbit_high k) by lia | apply andb_false_r].
Qed.

(** The converted address counts from the base of the memory. *)
Lemma update_base m a length : 0 <= a < 2 ^ 27 ->
  UPDATE_COPY_PARAMETERS (base m + a) length = (a / unit_of m, length / unit_of m).
Proof.
  intros Ha. unfold UPDATE_COPY_PARAMETERS. rewrite switch_base by done. destruct m; cbn [base unit_of].
  - change IRAM_MASK with (2 ^ 31). rewrite ldiff_add_pow2, !Z.shiftr_div_pow2 by (done || lia). done.
  - change MRAM_MASK with (2 ^ 27). rewrite ldiff_add_pow2, !Z.div_1_r by lia. done.
  - by rewrite !Z.shiftr_div_pow2.
Qed.

Lemma misaligned_mod align x : 0 <= align <= 31 -> misaligned align x = negb (x mod 2 ^ align =? 0).
Proof.
  intros Ha. unfold misaligned. do 2 f_equal. rewrite <- Z.land_ones by lia.
  apply Z.bits_inj'. intros i Hi. rewrite !Z.land_spec. f_equal. unfold ALIGN_MASK.
  rewrite testbit_wrap, Z.lnot_spec, testbit_wrap, Z.lnot_spec, negb_andb, negb_involutive by lia.
  rewrite shiftl_1_pow2 by lia. change (2 ^ align - 1) with (Z.pred (2 ^ align)). rewrite <- Z.ones_equiv.
  destruct (Z.ltb_spec i align).
  - rewrite !Z.ones_spec_low by lia. destruct (Z.ltb_spec i 32); [done | lia].
  - rewrite !Z.ones_spec_high by lia. by destruct (Z.ltb_spec i 32).
Qed.

(** * Checked accesses *)

(** A symbol of [m], at [a] bytes from its base. *)
Record symbol_in (m : memory) (a : Z) (symbol : dpu_symbol_t) : Prop := {
  symbol_base : sym_address symbol = base m + a;
  symbol_start : 0 <= a;
  symbol_nonneg : 0 <= sym_size symbol;
  symbol_end : a + sym_size symbol < 2 ^ 27 }.

Lemma check_symbol_ok m a symbol o length :
  symbol_in m a symbol -> 0 <= o -> 0 <= length -> o + length < 2 ^ 64 -> CHECK_SYMBOL symbol o length = None ->
  o + length <= sym_size symbol /\ u32 (sym_address symbol + o) = base m + (a + o)
  /\ (m <> Mram -> (a + o) mod unit_of m = 0 /\ length mod unit_of m = 0).
Proof.
  intros [Hb Ha H0 He] Ho Hl Hlt. unfold CHECK_SYMBOL. rewrite (wrap_small 64) by lia.
  destruct (Z.ltb_spec (sym_size symbol) (o + length)); [done |].
  assert (0 <= base m <= 2 ^ 31) as Hbase by (destruct m; by vm_compute).
  rewrite Hb, wrap_small by lia. replace (base m + a + o) with (base m + (a + o)) by lia.
  rewrite switch_base by lia. intros Hc. split_and!; [done.. |]. intros Hm.
  destruct m; [| done |].
  - destruct (_ || _) eqn:E; [done |]. apply orb_false_iff in E as [E1 E2].
    rewrite misaligned_mod in E1, E2 by (unfold IRAM_ALIGN; lia). apply negb_false_iff, Z.eqb_eq in E1, E2.
    unfold IRAM_ALIGN in *. change (2 ^ 3) with 8 in *. change (base Iram) with (268435456 * 8) in E1.
    rewrite Z.add_comm, Z.mod_add in E1 by lia. done.
  - destruct (_ || _) eqn:E; [done |]. apply orb_false_iff in E as [E1 E2].
    rewrite misaligned_mod in E1, E2 by (unfold WRAM_ALIGN; lia). apply negb_false_iff, Z.eqb_eq in E1, E2.
    unfold WRAM_ALIGN in *. change (2 ^ 2) with 4 in *. done.
Qed.

Definition units_of (env : rank_env) (m : memory) : Z :=
  match m with Iram => iram_size env | Mram => mram_size env | Wram => wram_size env end.
Definition limit_of (env : rank_env) (m : memory) : Z := unit_of m * units_of env m.

(** The matrix job of an access. *)
Definition matrix_job (t : dpu_thread_job_type) (p : list entry) (ty : dpu_transfer_matrix_type_t) (o s : Z) : copy_job :=
  {| job_type := t; job_matrix := {| ptr := p; offset := o; size := s; type := ty |};
     job_address := 0; job_length := 0; job_buffer := 0 |}.

(** What an access of [length] bytes, [b] bytes into the memory, may do on a
    rank: exactly that, under the lock of the rank; or nothing, when it is
    empty, or when the MRAM is not accessible or its alignment not right. *)
Definition access_result (env : rank_env) (m : memory) (b length : Z) (res : Z * list event) : Prop :=
  (exists r, res = (answer env r, [Lock; Request r; Unlock])
    /\ req_offset r * unit_of m = b /\ req_size r * unit_of m = length
    /\ (m = Mram -> nb_dpu_running env <= 0 /\ b mod 8 = 0 /\ length mod 8 = 0))
  \/ (forall r, ~ In (Request r) res.2) /\
     (length = 0
      \/ m = Mram /\ ((res.1 = error_code DPU_ERR_MRAM_BUSY /\ 0 < nb_dpu_running env)
                     \/ (res.1 = error_code DPU_ERR_INVALID_MRAM_ACCESS /\ (b mod 8 <> 0 \/ length mod 8 <> 0)))).

Lemma access_wram_iram env m limit err sum f t b length :
  m <> Mram -> b mod unit_of m = 0 -> length mod unit_of m = 0 -> 0 <= b -> 0 <= length ->
  sum = b / unit_of m + length / unit_of m -> b + length <= unit_of m * limit ->
  access_result env m b length
    (checked env (verify_access limit err (b / unit_of m) (length / unit_of m) sum) f t (b / unit_of m) (length / unit_of m)).
Proof.
  intros Hm Hb Hl Hb0 Hl0 -> Hlim. unfold verify_access.
  assert (0 < unit_of m) as Hu by (destruct m; by vm_compute).
  apply Z.div_exact in Hb, Hl; [| lia..].
  destruct (Z.eqb_spec (length / unit_of m) 0) as [E | E].
  { right. split; [by intros r [] |]. left. rewrite Hl, E. lia. }
  pose proof (Z.div_pos length (unit_of m) Hl0 Hu).
  destruct (Z.leb_spec limit (b / unit_of m)); [nia |].
  destruct (Z.ltb_spec limit (b / unit_of m + length / unit_of m)); [nia |].
  left. eexists. split; [reflexivity |]. cbn. split_and!; [lia | lia | done].
Qed.

Lemma access_mram env direct prog m b length :
  offset m = b -> size m = length -> 0 <= b -> 0 <= length -> b + length <= mram_size env -> mram_size env < 2 ^ 32 ->
  access_result env Mram b length (mram_access env direct prog m).
Proof.
  intros Ho Hs Hb Hl Hlim Hmax. unfold mram_access, verify_mram_access_offset_and_size. rewrite Ho, Hs, wrap_small by lia.
  destruct (Z.eqb_spec (length mod 8) 0) as [E1 | E1]; cbn [negb orb].
  2: { right. split; [by intros r [] |]. right. split; [done |]. right. by split; [| right]. }
  destruct (Z.eqb_spec (b mod 8) 0) as [E2 | E2]; cbn [negb orb].
  2: { right. split; [by intros r [] |]. right. split; [done |]. right. by split; [| left]. }
  destruct (Z.ltb_spec (mram_size env) (b + length)); [lia |]. rewrite orb_false_r.
  destruct (Z.leb_spec (mram_size env) b).
  { right. split; [by intros r [] |]. left. lia. }
  destruct (Z.ltb_spec 0 (nb_dpu_running env)).
  { right. split; [intros r [|[|[]]]; done |]. right. split; [done |]. by left. }
  left. eexists. split; [reflexivity |]. cbn [req_offset req_size unit_of]. split_and!; [lia.. | done].
Qed.

(** The sizes of the memories of a rank: the addresses of the IRAM are on 16
    bits, those of the MRAM on 32. *)
Record env_ok (env : rank_env) : Prop := {
  env_topology : rank_ok (topology env);
  env_iram : iram_size env < 2 ^ 16;
  env_wram : wram_size env < 2 ^ 25;
  env_mram : mram_size env < 2 ^ 32 }.

Lemma unit_bound m b length limit : 0 <= b -> 0 <= length -> b + length <= unit_of m * limit ->
  0 <= b / unit_of m /\ 0 <= length / unit_of m /\ b / unit_of m <= limit /\ length / unit_of m <= limit
  /\ b / unit_of m + length / unit_of m <= limit.
Proof.
  intros Hb Hl H. assert (0 < unit_of m) as Hu by (destruct m; by vm_compute).
  pose proof (Z.mul_div_le b (unit_of m) Hu). pose proof (Z.mul_div_le length (unit_of m) Hu).
  pose proof (Z.div_pos b (unit_of m) Hb Hu). pose proof (Z.div_pos length (unit_of m) Hl Hu).
  split_and!; nia.
Qed.

(** C26: an access the symbol check accepts, to a symbol that lies in its
    memory, asks the rank for exactly the bytes of the access and nothing else,
    whether it goes through a transfer matrix or is a broadcast; it is refused
    only in the MRAM, when the DPUs run or the access is not 8-byte aligned. *)
Theorem symbol_access_lands_inside env m a symbol o length :
  env_ok env -> symbol_in m a symbol -> a + sym_size symbol <= limit_of env m ->
  0 <= o -> 0 <= length -> o + length < 2 ^ 64 -> CHECK_SYMBOL symbol o length = None ->
  let address := u32 (sym_address symbol + o) in
  let '(x, s) := UPDATE_COPY_PARAMETERS address length in
  (forall junk xfer t p ty, DPU_COPY_MATRIX_SET_JOB_TYPE xfer address = Some t ->
     exists res, compute_copy junk env (matrix_job t p ty x (u32 s)) = Some res /\ access_result env m (a + o) length res)
  /\ (forall junk matrix src, is_matrix junk ->
     exists res, compute_copy junk env {| job_type := DPU_BROADCAST_SET_JOB_TYPE address; job_matrix := matrix;
       job_address := x; job_length := u32 s; job_buffer := src |} = Some res /\ access_result env m (a + o) length res).
Proof.
  intros [Ht Hi Hw Hmr] Hsym Hlim Ho Hl Hlt Hc. pose proof Hsym as [_ Ha _ He].
  destruct (check_symbol_ok m a symbol o length Hsym Ho Hl Hlt Hc) as (Hin & Eaddr & Hal). rewrite Eaddr.
  intros address. unfold address at 1. rewrite update_base by lia. unfold limit_of in Hlim.
  destruct (unit_bound m (a + o) length (units_of env m)) as (H1 & H2 & H3 & H4 & H5); [lia.. |].
  assert (units_of env m < 2 ^ 32) as Hu by (destruct m; cbn [units_of]; lia).
  assert (DPU_BROADCAST_SET_JOB_TYPE address = match m with Iram => DPU_THREAD_JOB_COPY_IRAM_TO_RANK
    | Mram => DPU_THREAD_JOB_COPY_MRAM_TO_RANK | Wram => DPU_THREAD_JOB_COPY_WRAM_TO_RANK end) as Eb.
  { unfold DPU_BROADCAST_SET_JOB_TYPE, address. by rewrite switch_base by lia. }
  rewrite (wrap_small 32 (length / unit_of m)) by lia.
  assert (m <> Mram -> forall k limit err f t,
    limit = units_of env m ->
    k = (a + o) / unit_of m + length / unit_of m ->
    access_result env m (a + o) length
      (checked env (verify_access limit err ((a + o) / unit_of m) (length / unit_of m) k) f t ((a + o) / unit_of m) (length / unit_of m)))
    as Hwi.
  { intros Hm k limit err f t -> ->. destruct (Hal Hm). apply access_wram_iram; (done || lia). }
  assert (u32 ((a + o) / unit_of m + length / unit_of m) = (a + o) / unit_of m + length / unit_of m) as Ew
    by (apply wrap_small; lia).
  split.
  - intros junk xfer t p ty Et. unfold DPU_COPY_MATRIX_SET_JOB_TYPE, address in Et. rewrite switch_base in Et by lia.
    destruct m, xfer; try discriminate; injection Et as <-; eexists; (split; [reflexivity |]);
      solve [apply Hwi; done | apply access_mram; cbn [offset size job_matrix matrix_job unit_of units_of] in *; rewrite ?Z.div_1_r; lia].
  - intros junk mat src Hj. rewrite Eb. unfold compute_copy. cbn [job_type job_address job_length job_buffer]. destruct m.
    + eexists. split; [reflexivity |]. unfold dpu_copy_to_iram_for_rank. cbn [units_of] in *. rewrite !(wrap_small 16) by lia. by apply Hwi.
    + destruct (set_all_spec (topology env) junk (buffer_of src) Ht Hj) as (m' & -> & _). cbn [mbind option_bind].
      eexists. split; [reflexivity |]. apply access_mram; cbn [offset size unit_of units_of] in *; rewrite ?Z.div_1_r; lia.
    + eexists. split; [reflexivity |]. by apply Hwi.
Qed.

(** A rank of one slice of four DPUs with small memories. *)
Definition sample_env : rank_env :=
  {| topology := rank4; iram_size := 64; wram_size := 64; mram_size := 1024; mram_access_by_dpu_only := false;
     nb_dpu_running := 0; answer := fun _ => OK |}.

Lemma sample_env_ok : env_ok sample_env.
Proof. split; cbn; [apply rank4_ok | lia..]. Qed.

Lemma symbol_access_lands_inside_witness :
  let symbol := {| sym_address := MRAM_MASK + 16; sym_size := 64 |} in
  CHECK_SYMBOL symbol 8 24 = None /\
  exists res, compute_copy dpu_transfer_matrix_clear_all sample_env
      {| job_type := DPU_THREAD_JOB_COPY_MRAM_TO_RANK; job_matrix := dpu_transfer_matrix_clear_all; job_address := 24;
         job_length := 24; job_buffer := 4096 |} = Some res
    /\ access_result sample_env Mram 24 24 res.
Proof.
  split; [reflexivity |].
  assert (symbol_in Mram 16 {| sym_address := MRAM_MASK + 16; sym_size := 64 |}) as Hs by (split; by vm_compute).
  assert (16 + sym_size {| sym_address := MRAM_MASK + 16; sym_size := 64 |} <= limit_of sample_env Mram) as Hl by (by vm_compute).
  destruct (symbol_access_lands_inside sample_env Mram 16 {| sym_address := MRAM_MASK + 16; sym_size := 64 |} 8 24
    sample_env_ok Hs Hl ltac:(lia) ltac:(lia) ltac:(lia) eq_refl) as [_ H].
  exact (H dpu_transfer_matrix_clear_all dpu_transfer_matrix_clear_all 4096 eq_refl).
Defined.

(** The sums of the checks wrap.  A length close to 2^64 makes the symbol
    check accept an access that starts inside the symbol, and the access it
    becomes is accepted in turn by the check of the MRAM: the rank is asked to
    transfer almost 4 GiB. *)
Theorem wrapped_length_accepted env a symbol :
  symbol_in Mram a symbol -> 8 < sym_size symbol -> a mod 8 = 0 -> a + sym_size symbol <= mram_size env ->
  mram_size env < 2 ^ 32 -> nb_dpu_running env <= 0 ->
  let length := 2 ^ 64 - 8 in
  CHECK_SYMBOL symbol 8 length = None /\
  let '(x, s) := UPDATE_COPY_PARAMETERS (u32 (sym_address symbol + 8)) length in
  forall junk p ty, exists r st,
    compute_copy junk env (matrix_job DPU_THREAD_JOB_COPY_MRAM_FROM_MATRIX p ty x (u32 s))
      = Some (st, [Lock; Request r; Unlock])
    /\ req_size r = 2 ^ 32 - 8.
Proof.
  intros [Hb Ha H0 He] H8 Hal Hlim Hmax Hrun length.
  assert (u32 (sym_address symbol + 8) = base Mram + (a + 8)) as Eaddr.
  { rewrite Hb. cbn [base]. unfold MRAM_MASK. rewrite wrap_small; lia. }
  split.
  - unfold CHECK_SYMBOL. rewrite Eaddr, switch_base by lia. subst length. change (u64 (8 + (2 ^ 64 - 8))) with 0.
    by destruct (Z.ltb_spec (sym_size symbol) 0); [lia |].
  - rewrite Eaddr, update_base by lia. cbn [unit_of]. rewrite !Z.div_1_r. intros junk p ty. subst length.
    change (u32 (2 ^ 64 - 8)) with (2 ^ 32 - 8). unfold compute_copy. cbn [job_type matrix_job job_matrix].
    unfold dpu_copy_from_mrams, mram_access, verify_mram_access_offset_and_size. cbn [offset size].
    replace ((2 ^ 32 - 8) mod 8 =? 0) with true by done.
    replace ((a + 8) mod 8) with 0 by (rewrite <- Z.add_mod_idemp_l, Hal by lia; done).
    assert (u32 (a + 8 + (2 ^ 32 - 8)) = a) as ->.
    { unfold wrap. replace (a + 8 + (2 ^ 32 - 8)) with (a + 1 * 2 ^ 32) by lia. rewrite Z.mod_add, Z.mod_small; lia. }
    cbn [Z.eqb negb orb]. destruct (Z.leb_spec (mram_size env) (a + 8)); [lia |].
    destruct (Z.ltb_spec (mram_size env) a); [lia |]. destruct (Z.ltb_spec 0 (nb_dpu_running env)); [lia |]. cbn [orb].
    eexists _, _. split; [reflexivity | done].
Qed.

Lemma wrapped_length_accepted_witness :
  CHECK_SYMBOL {| sym_address := MRAM_MASK + 16; sym_size := 64 |} 8 (2 ^ 64 - 8) = None.
Proof.
  refine (proj1 (wrapped_length_accepted sample_env 16 {| sym_address := MRAM_MASK + 16; sym_size := 64 |} _ _ _ _ _ _)).
  - split; cbn; lia.
  - cbn. lia.
  - reflexivity.
  - cbn. lia.
  - cbn. lia.
  - cbn. lia.
Defined.

(** * Prepared transfers *)

(** Slice and number of the DPU at a position of the array of a rank. *)
Definition coords (r : rank_t) (d : nat) : nat * nat := (dpu_slice r d, dpu_member r d).

Lemma length_concat_slices n l : Forall (fun s => length (dpu_enabled s) = n) l ->
  length (concat (map dpu_enabled l)) = (n * length l)%nat.
Proof. induction 1 as [| s l Hs _ IH]; cbn [map concat length]; [lia |]. rewrite length_app, IH. lia. Qed.

Lemma coords_ok r d b : rank_ok r -> dpus r !! d = Some b ->
  in_rank r (coords r d) /\ DPU_INDEX r (dpu_slice r d) (dpu_member r d) = d.
Proof.
  intros Hr Hd. apply lookup_lt_Some in Hd. unfold dpus in Hd.
  rewrite (length_concat_slices _ _ (slices_length r Hr)) in Hd.
  assert (nr_dpus_per_ci r <> 0)%nat as H0 by lia. unfold coords, in_rank, DPU_INDEX, dpu_slice, dpu_member. cbn [fst snd].
  split_and!; [by apply Nat.Div0.div_lt_upper_bound | by apply Nat.mod_upper_bound |].
  symmetry. by apply Nat.div_mod.
Qed.

Lemma coords_inj r d e b c : rank_ok r -> dpus r !! d = Some b -> dpus r !! e = Some c -> coords r d = coords r e -> d = e.
Proof.
  intros Hr Hd He E. destruct (coords_ok r d b Hr Hd) as [_ <-], (coords_ok r e c Hr He) as [_ <-].
  unfold coords in E. by injection E as -> ->.
Qed.

Definition api_ok (r : api_rank) : Prop := rank_ok (topo r) /\ is_matrix (dpu_get_transfer_matrix r).

(** What a preparation leaves alone. *)
Definition same_rank (r r' : api_rank) : Prop :=
  topo r' = topo r /\ programs r' = programs r /\ in_callback r' = in_callback r.

#[global] Instance same_rank_po : PreOrder same_rank.
Proof. split; [by intros r | intros r1 r2 r3 (? & ? & ?) (? & ? & ?); split_and!; congruence]. Qed.

Definition rank_entry (r : api_rank) (c : nat * nat) : entry := entry_at (topo r) (dpu_get_transfer_matrix r) c.

Lemma get_set_matrix r m : dpu_get_transfer_matrix (set_transfer_matrix r m) = m.
Proof. unfold dpu_get_transfer_matrix, set_transfer_matrix. cbn. by destruct (in_callback r). Qed.

Lemma same_set_matrix r m : same_rank r (set_transfer_matrix r m).
Proof. done. Qed.

Lemma add_dpu_rank r c b : api_ok r -> in_rank (topo r) c ->
  exists r', add_dpu r c.1 c.2 b = Some r' /\ api_ok r' /\ same_rank r r'
    /\ rank_entry r' c = b /\ forall e, in_rank (topo r) e -> e <> c -> rank_entry r' e = rank_entry r e.
Proof.
  intros [Hr Hm] Hc. unfold add_dpu.
  destruct (add_dpu_spec (topo r) (dpu_get_transfer_matrix r) c b Hr Hc Hm) as (m & -> & Hm' & _ & _ & _ & Hb & Ho).
  exists (set_transfer_matrix r m). unfold api_ok, rank_entry. rewrite get_set_matrix. by split_and!.
Qed.

Lemma prepare_rank_spec r b : api_ok r ->
  exists r', prepare_rank b r = Some r' /\ api_ok r' /\ same_rank r r'
    /\ forall c, in_rank (topo r) c -> is_enabled (topo r) c.1 c.2 = Some true -> rank_entry r' c = b.
Proof.
  intros Hr. unfold prepare_rank.
  destruct (fold_dpus (topo r) (fun s => api_ok s /\ same_rank r s) rank_entry
    (fun r d => enabled ← is_enabled (topo r) d.1 d.2; if enabled : bool then add_dpu r d.1 d.2 b else Some r)
    (fun d e => if decide (is_enabled (topo r) d.1 d.2 = Some true) then b else e))
    with (l := all_dpus (topo r)) (s := r) as (r' & E & [Hr' Hs] & Hv).
  - intros s d [Hs Hsr] Hd. pose proof Hsr as (Et & _). rewrite Et.
    destruct (enabled_some (topo r) d (proj1 Hr) Hd) as [en ->]. cbn [mbind option_bind]. destruct en.
    + destruct (add_dpu_rank s d b Hs) as (s' & E & Hs' & Hss & Hb & Ho); [by rewrite Et |].
      exists s'. split_and!; [done.. | by etrans | by rewrite decide_True |]. rewrite <- Et. exact Ho.
    + exists s. split_and!; [done.. | by rewrite decide_False | done].
  - by split; [| reflexivity].
  - apply list.Forall_forall. intros d. apply all_dpus_elem.
  - apply all_dpus_nodup.
  - exists r'. split_and!; [exact E | done.. |]. intros c Hc Hen. rewrite Hv by done.
    by rewrite decide_True by (by apply all_dpus_elem); rewrite decide_True.
Qed.


(** Ranks changed one by one. *)
Lemma on_ranks_spec f Q p n arr :
  (forall k r, (p <= k < p + n)%nat -> arr !! k = Some r -> exists r', f r = Some r' /\ Q r r') ->
  (p + n <= length arr)%nat ->
  exists arr', on_ranks f p n arr = Some arr' /\ length arr' = length arr
    /\ (forall k, (p <= k < p + n)%nat -> exists r r', arr !! k = Some r /\ arr' !! k = Some r' /\ Q r r')
    /\ (forall k, ~ (p <= k < p + n)%nat -> arr' !! k = arr !! k).
Proof.
  revert p arr. induction n as [| n IH]; intros p arr Hf Hp; cbn [on_ranks].
  { exists arr. split_and!; [done.. | | done]. intros k Hk. lia. }
  destruct (lookup_lt_is_Some_2 arr p) as [r Er]; [lia |]. rewrite Er. cbn [mbind option_bind].
  destruct (Hf p r) as (r' & -> & Hq); [lia | done |]. cbn [mbind option_bind].
  destruct (IH (S p) (<[p := r']> arr)) as (arr' & E & Hl & Hin & Hout).
  - intros k r0 Hk Ek. rewrite list_lookup_insert_ne in Ek by lia. by apply (Hf k); [lia |].
  - rewrite length_insert. lia.
  - rewrite length_insert in Hl. exists arr'. split_and!; [done.. | |].
    + intros k Hk. destruct (decide (k = p)) as [-> |].
      * exists r, r'. rewrite Hout, list_lookup_insert_eq by lia. done.
      * destruct (Hin k) as (r0 & r1 & E0 & H); [lia |]. rewrite list_lookup_insert_ne in E0 by lia. by exists r0, r1.
    + intros k Hk. rewrite Hout, list_lookup_insert_ne by lia. done.
Qed.

Definition dpu_entry (arr : list api_rank) (k d : nat) : entry :=
  match arr !! k with Some r => rank_entry r (coords (topo r) d) | None => Null end.

Definition enabled_dpu (arr : list api_rank) (k d : nat) : Prop :=
  exists r, arr !! k = Some r /\ dpus (topo r) !! d = Some true.

Definition covers (set : dpu_set_t) (k d : nat) : bool :=
  match set with
  | Set_ranks p n => (p <=? k)%nat && (k <? p + n)%nat
  | Set_dpu k' d' => (k' =? k)%nat && (d' =? d)%nat
  | Set_other => false
  end.

Definition in_array (arr : list api_rank) (set : dpu_set_t) : Prop :=
  match set with
  | Set_ranks p n => (p + n <= length arr)%nat
  | Set_dpu k d => enabled_dpu arr k d
  | Set_other => False
  end.

Definition same_ranks (arr arr' : list api_rank) : Prop := forall k, option_Forall2 same_rank (arr !! k) (arr' !! k).

#[global] Instance same_ranks_po : PreOrder same_ranks.
Proof. split; [intros arr k; reflexivity | intros a b c H1 H2 k; exact (transitivity (H1 k) (H2 k))]. Qed.

Lemma same_ranks_lookup arr arr' k r r' : same_ranks arr arr' -> arr !! k = Some r -> arr' !! k = Some r' -> same_rank r r'.
Proof. intros Hs Er Er'. specialize (Hs k). rewrite Er, Er' in Hs. by inversion Hs. Qed.

Lemma enabled_dpu_same arr arr' k d : same_ranks arr arr' -> enabled_dpu arr k d -> enabled_dpu arr' k d.
Proof.
  intros Hs (r & Er & Hd). specialize (Hs k). rewrite Er in Hs. inversion Hs as [? r' (Ht & _) E1 E2 |]; subst.
  exists r'. by rewrite Ht.
Qed.

Lemma in_array_same arr arr' set : same_ranks arr arr' -> length arr' = length arr -> in_array arr set -> in_array arr' set.
Proof. intros Hs Hl. destruct set; cbn; [lia | by apply enabled_dpu_same | done]. Qed.

Lemma is_enabled_coords r d b : rank_ok r -> dpus r !! d = Some b -> is_enabled r (coords r d).1 (coords r d).2 = Some b.
Proof. intros Hr Hd. unfold is_enabled. destruct (coords_ok r d b Hr Hd) as [_ E]. cbn [coords fst snd]. by rewrite E. Qed.

(** A preparation gives its buffer to the DPUs of its set and to no other. *)
Lemma prepare_xfer_spec arr set b : Forall api_ok arr -> in_array arr set ->
  exists arr', dpu_prepare_xfer arr set b = Some (arr', OK) /\ Forall api_ok arr' /\ length arr' = length arr
    /\ same_ranks arr arr'
    /\ forall k d, enabled_dpu arr k d ->
         dpu_entry arr' k d = if covers set k d then buffer_of b else dpu_entry arr k d.
Proof.
  intros Ha Hin. pose proof Ha as Hok. rewrite list.Forall_lookup in Hok. destruct set as [p n | k0 d0 |]; cbn [in_array dpu_prepare_xfer covers] in *; [| | done].
  - destruct (on_ranks_spec (prepare_rank (buffer_of b))
      (fun r r' => api_ok r' /\ same_rank r r'
        /\ forall c, in_rank (topo r) c -> is_enabled (topo r) c.1 c.2 = Some true -> rank_entry r' c = buffer_of b) p n arr)
      as (arr' & E & Hl & H1 & H2); [| done |].
    { intros k r _ Er. destruct (prepare_rank_spec r (buffer_of b)) as (r' & E & ? & ? & ?); [by eapply Hok |]. by exists r'. }
    rewrite E. cbn [mbind option_bind]. exists arr'. split_and!; [done | | done | |].
    + apply list.Forall_lookup. intros k r Er. destruct (decide (p <= k < p + n)%nat) as [Hk | Hk].
      * destruct (H1 k Hk) as (? & ? & _ & E1 & ? & _). congruence.
      * rewrite H2 in Er by done. by eapply Hok.
    + intros k. destruct (decide (p <= k < p + n)%nat) as [Hk | Hk]; [| by rewrite H2].
      destruct (H1 k Hk) as (? & ? & -> & -> & _ & ? & _). by constructor.
    + intros k d (r & Er & Hd). unfold dpu_entry. destruct (decide (p <= k < p + n)%nat) as [Hk | Hk].
      * destruct (H1 k Hk) as (r0 & r' & E0 & -> & _ & (-> & _) & Hb). simplify_eq.
        destruct (Nat.leb_spec p k), (Nat.ltb_spec k (p + n)); try lia. cbn [andb].
        assert (rank_ok (topo r)) as Hr by apply (Hok _ _ Er).
        apply Hb; [by eapply coords_ok | by apply is_enabled_coords].
      * rewrite H2 by done. destruct (Nat.leb_spec p k), (Nat.ltb_spec k (p + n)); try lia; done.
  - destruct Hin as (r & Er & Hd). rewrite Er. cbn [mbind option_bind]. rewrite Hd. cbn [mbind option_bind negb].
    assert (rank_ok (topo r)) as Hr by apply (Hok _ _ Er).
    destruct (add_dpu_rank r (coords (topo r) d0) (buffer_of b)) as (r' & E & Hr' & Hs & Hb & Ho);
      [by eapply Hok | by eapply coords_ok |].
    cbn [coords fst snd] in E. rewrite E. cbn [mbind option_bind]. eexists. split; [reflexivity |].
    pose proof (lookup_lt_Some _ _ _ Er) as Hk0. split_and!.
    + by apply Forall_insert.
    + apply length_insert.
    + intros k. destruct (decide (k = k0)) as [-> |]; [| by rewrite list_lookup_insert_ne].
      rewrite list_lookup_insert_eq, Er by done. by constructor.
    + intros k d (r1 & Er1 & Hd1). unfold dpu_entry. destruct (Nat.eqb_spec k0 k) as [<- | Hk]; cbn [andb].
      * rewrite list_lookup_insert_eq, Er by done. simplify_eq. destruct Hs as (-> & _).
        destruct (Nat.eqb_spec d0 d) as [<- | Hne]; [done |]. apply Ho; [by eapply coords_ok |].
        intros Ec. apply Hne. symmetry. by eapply coords_inj.
      * rewrite list_lookup_insert_ne by done. by rewrite Er1.
Qed.

(** A program that prepares transfers. *)
Fixpoint prepare_all (arr : list api_rank) (ops : list (dpu_set_t * Z)) : option (list api_rank) :=
  match ops with
  | [] => Some arr
  | (set, b) :: ops =>
    '(arr, status) ← dpu_prepare_xfer arr set b;
    if status =? OK then prepare_all arr ops else None
  end.

(** The last buffer given to a DPU. *)
Definition last_buffer (ops : list (dpu_set_t * Z)) (k d : nat) (e : entry) : entry :=
  fold_left (fun e op => if covers op.1 k d then buffer_of op.2 else e) ops e.

Lemma prepare_all_spec ops arr : Forall api_ok arr -> Forall (fun op => in_array arr op.1) ops ->
  exists arr', prepare_all arr ops = Some arr' /\ Forall api_ok arr' /\ length arr' = length arr /\ same_ranks arr arr'
    /\ forall k d, enabled_dpu arr k d -> dpu_entry arr' k d = last_buffer ops k d (dpu_entry arr k d).
Proof.
  revert arr. induction ops as [| [set b] ops IH]; intros arr Ha Hops; cbn [prepare_all].
  { exists arr. by split_and!. }
  apply list.Forall_cons in Hops as [Hin Hops].
  destruct (prepare_xfer_spec arr set b Ha Hin) as (arr1 & -> & Ha1 & Hl1 & Hs1 & He1). cbn [mbind option_bind].
  destruct (IH arr1 Ha1) as (arr2 & E & Ha2 & Hl2 & Hs2 & He2).
  { eapply list.Forall_impl; [exact Hops |]. intros op. by apply in_array_same. }
  exists arr2. split_and!; [exact E | done | congruence | by etrans |].
  intros k d Hd. rewrite He2 by (by eapply enabled_dpu_same). by rewrite He1.
Qed.

Lemma matrix_jobs_lookup t o s p n arr i : (i < n)%nat ->
  matrix_jobs t o s p n arr !! i
  = (fun r => ((p + i)%nat, matrix_job t (ptr (dpu_get_transfer_matrix r)) (type (dpu_get_transfer_matrix r)) o s)) <$> arr !! (p + i)%nat.
Proof. intros Hi. unfold matrix_jobs. by rewrite list_lookup_imap, lookup_take_lt, lookup_drop by done. Qed.

Lemma clear_all_entry r c : rank_ok r -> in_rank r c -> entry_at r dpu_transfer_matrix_clear_all c = Null.
Proof.
  intros Hr Hc. unfold entry_at. destruct (index_small r c Hr Hc) as [-> Hi]. rewrite Nat2Z.id, nth_lookup. cbn [ptr dpu_transfer_matrix_clear_all].
  by rewrite lookup_replicate_2.
Qed.

Lemma reset_spec p n arr : Forall api_ok arr -> (p + n <= length arr)%nat ->
  exists arr', reset_matrices arr (Set_ranks p n) = Some arr'
    /\ forall k d, enabled_dpu arr k d -> dpu_entry arr' k d = if covers (Set_ranks p n) k d then Null else dpu_entry arr k d.
Proof.
  intros Ha Hp. cbn [reset_matrices covers].
  destruct (on_ranks_spec (fun r => Some (set_transfer_matrix r dpu_transfer_matrix_clear_all))
    (fun r r' => r' = set_transfer_matrix r dpu_transfer_matrix_clear_all) p n arr) as (arr' & -> & _ & H1 & H2);
    [by eauto | done |].
  exists arr'. split; [done |]. intros k d (r & Er & Hd). unfold dpu_entry.
  rewrite list.Forall_lookup in Ha. destruct (Ha _ _ Er) as [Hr _].
  destruct (Nat.leb_spec p k), (Nat.ltb_spec k (p + n)); cbn [andb]; try (by rewrite H2 by lia).
  destruct (H1 k) as (r0 & ? & E0 & -> & ->); [lia |]. simplify_eq. unfold rank_entry. rewrite get_set_matrix.
  apply clear_all_entry; [done | by eapply coords_ok].
Qed.


Definition sample_rank : api_rank :=
  {| topo := rank4; programs := replicate 4 None; matrix := dpu_transfer_matrix_clear_all;
     callback_matrix := dpu_transfer_matrix_clear_all; in_callback := false |}.

