(* ===== verification/ScatterGather.v ===== *)
(** Scatter/gather transfers of the host API
    (library/src/backends/api/src/api/dpu_memory.c, the pools of
    api/src/api/dpu_set.c, dpu_transfer_matrix_add_dpu_block of
    api/src/dpu_memory.c).

    The user's function, that gives the blocks of each DPU, is an argument, and
    so is the answer of the rank.  The buffers of the pool of a rank are
    designated by their position, which is also the entry of their DPU in the
    transfer matrix. *)
From stdpp Require Import list.
From S2P Require Import Prelude Errors Mask DpuSet XferMatrix Memory.

#[export] Instance dpu_xfer_t_eq_dec : EqDecision dpu_xfer_t.
Proof. solve_decision. Defined.

(** * Buffers and pools *)

(** The arrays have one place more than [max_nr_blocks]. *)
Record sg_xfer_buffer := {
  max_nr_blocks : Z;
  blocks_addr : list Z;
  blocks_length : list Z;
  nr_blocks : Z }.

Record sg_rank := {
  sg_env : rank_env;
  sg_xfer_enabled : bool;
  dpu_offset : Z;
  sg_buffer_pool : list sg_xfer_buffer }.

Definition with_pool (r : sg_rank) (pool : list sg_xfer_buffer) : sg_rank :=
  {| sg_env := sg_env r; sg_xfer_enabled := sg_xfer_enabled r; dpu_offset := dpu_offset r; sg_buffer_pool := pool |}.

(** A new buffer: what [malloc] leaves in its arrays is [junk]. *)
Definition fresh_buffer (max : Z) (junk : list Z * list Z) : sg_xfer_buffer :=
  {| max_nr_blocks := max; blocks_addr := junk.1; blocks_length := junk.2; nr_blocks := 0 |}.

(** [first_null]: the pool of the first rank has no array yet. *)
Definition sg_buffer_pool_create (first_null : bool) (max : Z) (junk : list (list (list Z * list Z))) (ranks : list sg_rank)
  : option (list sg_rank * Z) :=
  r ← list.head ranks;
  Some (if negb (sg_xfer_enabled r) then (ranks, error_code DPU_ERR_INTERNAL)
        else if negb first_null then (ranks, error_code DPU_ERR_INTERNAL)
        else (zip_with (fun r j => with_pool r (map (fresh_buffer max) j)) ranks junk, OK)).

(** [fill_rank_offset]: the number of DPUs of the ranks before each. *)
Fixpoint fill_dpu_offsets (nr_dpus : Z) (ranks : list sg_rank) : list sg_rank :=
  match ranks with
  | [] => []
  | r :: ranks =>
    {| sg_env := sg_env r; sg_xfer_enabled := sg_xfer_enabled r; dpu_offset := nr_dpus; sg_buffer_pool := sg_buffer_pool r |}
    :: fill_dpu_offsets (u32 (nr_dpus + get_nr_of_dpus_in_rank (topology (sg_env r)))) ranks
  end.

(** The matrix and the pool. *)
Definition state : Type := dpu_transfer_matrix * list sg_xfer_buffer.

Definition dpu_transfer_matrix_add_dpu_block (rank : rank_t) (slice_id dpu_id : nat) (st : state) (buffer length : Z)
  : option (state * Z) :=
  let '(m, pool) := st in
  match type m with
  | DPU_DEFAULT_XFER_MATRIX => Some (st, error_code DPU_ERR_INTERNAL)
  | DPU_SG_XFER_MATRIX =>
    e ← load (ptr m) (get_transfer_matrix_index rank slice_id dpu_id);
    match e with
    | Pool i =>
      b ← load pool i;
      if max_nr_blocks b <=? nr_blocks b then Some (st, error_code DPU_ERR_INTERNAL)
      else
        addr ← store (blocks_addr b) (nr_blocks b) buffer;
        len ← store (blocks_length b) (nr_blocks b) length;
        pool ← store pool i {| max_nr_blocks := max_nr_blocks b; blocks_addr := addr; blocks_length := len;
                               nr_blocks := u32 (nr_blocks b + 1) |};
        Some ((m, pool), OK)
    | _ => None
    end
  end.

(** * The handler of a rank *)

Definition DPU_SG_XFER_ASYNC : Z := 2.
Definition DPU_SG_XFER_DISABLE_LENGTH_CHECK : Z := 4.

Record sg_xfer_callback_args := {
  get_block : Z -> Z -> option (Z * Z);   (* DPU, block: address and length *)
  xfer : dpu_xfer_t;
  symbol_addr : Z;
  xfer_length : Z;
  sg_flags : Z }.

(** A block that is not empty is added to the DPU; its buffer is entered in the
    matrix first when it is not there. *)
Definition add_block (rank : rank_t) (slice_id dpu_id : nat) (xfer : dpu_xfer_t) (st : state) (b : Z * Z) : option (state * Z) :=
  match xfer with
  | Other_xfer => Some (st, error_code DPU_ERR_INVALID_MEMORY_TRANSFER)
  | _ =>
    let index := get_transfer_matrix_index rank slice_id dpu_id in
    e ← load (ptr st.1) index;
    p ← match e with Null => store (ptr st.1) index (Pool index) | _ => Some (ptr st.1) end;
    dpu_transfer_matrix_add_dpu_block rank slice_id dpu_id (set_ptr st.1 p, st.2) b.1 b.2
  end.

Section handler.
Variable args : sg_xfer_callback_args.
Variable rank : rank_t.

Definition check_length : bool := Z.land (sg_flags args) DPU_SG_XFER_DISABLE_LENGTH_CHECK =? 0.

(** The blocks of one DPU from [block_index]; [fuel] bounds the blocks left. *)
Fixpoint add_blocks (fuel : nat) (dpu_index : Z) (slice_id dpu_id : nat) (max : Z) (block_index nr_bytes : Z) (st : state)
  : option (state * Z) :=
  match get_block args dpu_index block_index with
  | None =>
    Some (st, if check_length && negb (nr_bytes =? xfer_length args) then error_code DPU_ERR_SG_LENGTH_MISMATCH else OK)
  | Some b =>
    if max <=? block_index then Some (st, error_code DPU_ERR_SG_TOO_MANY_BLOCKS)
    else if negb (b.2 =? 0) && (check_length && (xfer_length args <=? nr_bytes))
    then Some (st, error_code DPU_ERR_SG_LENGTH_MISMATCH)
    else
      '(st, status, nr_bytes) ←
        (if b.2 =? 0 then Some (st, OK, nr_bytes)
         else '(st, status) ← add_block rank slice_id dpu_id (xfer args) st b; Some (st, status, u32 (nr_bytes + b.2)));
      if negb (status =? OK) then Some (st, status)
      else
        match fuel with
        | O => None
        | S fuel => add_blocks fuel dpu_index slice_id dpu_id max (u32 (block_index + 1)) nr_bytes st
        end
  end.

(** The DPUs of the rank, as [DPU_FOREACH] gives them. *)
Fixpoint add_dpus (offset : Z) (l : list (Z * dpu_set_t)) (st : state) : option (state * Z) :=
  match l with
  | [] => Some (st, OK)
  | (rank_dpu_index, Set_dpu _ d) :: l =>
    let slice_id := dpu_slice rank d in
    let dpu_id := dpu_member rank d in
    b ← load st.2 (get_transfer_matrix_index rank slice_id dpu_id);
    '(st, status) ← add_blocks (Z.to_nat (max_nr_blocks b)) (u32 (rank_dpu_index + offset)) slice_id dpu_id (max_nr_blocks b) 0 0 st;
    if negb (status =? OK) then Some (st, status) else add_dpus offset l st
  | _ => None
  end.

(** The buffers of the DPUs are emptied. *)
Definition reset_sg_buffer_pool (l : list (Z * dpu_set_t)) (pool : list sg_xfer_buffer) : option (list sg_xfer_buffer) :=
  fold_left (fun pool p =>
    pool ← pool;
    match p.2 with
    | Set_dpu _ d =>
      let index := get_transfer_matrix_index rank (dpu_slice rank d) (dpu_member rank d) in
      b ← load pool index;
      store pool index {| max_nr_blocks := max_nr_blocks b; blocks_addr := blocks_addr b; blocks_length := blocks_length b;
                          nr_blocks := 0 |}
    | _ => None
    end) l (Some pool).
End handler.

(** What a handler leaves: its status, the pool, what it asked of the rank,
    with the matrix and the pool at that time, and whether it released the
    arguments. *)
Record sg_result := {
  sg_status : Z;
  sg_pool : list sg_xfer_buffer;
  sg_events : list event;
  sg_sent : state;
  sg_released : bool }.

Definition sg_xfer_rank_handler (args : sg_xfer_callback_args) (r : sg_rank) : option sg_result :=
  let env := sg_env r in
  let rank := topology env in
  let m := {| ptr := ptr dpu_transfer_matrix_clear_all; offset := Z.ldiff (symbol_addr args) MRAM_MASK;
              size := u32 (xfer_length args); type := DPU_SG_XFER_MATRIX |} in
  let failed st status events :=
    {| sg_status := status; sg_pool := st.2; sg_events := events; sg_sent := st; sg_released := false |} in
  if negb (sg_xfer_enabled r) then Some (failed (m, sg_buffer_pool r) (error_code DPU_ERR_SG_NOT_ACTIVATED) [])
  else
    l ← DPU_FOREACH 65 [rank] (Set_ranks 0 1);
    '(st, status) ← add_dpus args rank (dpu_offset r) l (m, sg_buffer_pool r);
    if negb (status =? OK) then Some (failed st status [])
    else
      match match xfer args with
            | DPU_XFER_TO_DPU => Some (dpu_copy_to_mrams env st.1)
            | DPU_XFER_FROM_DPU => Some (dpu_copy_from_mrams env st.1)
            | Other_xfer => None
            end with
      | None => Some (failed st (error_code DPU_ERR_INVALID_MEMORY_TRANSFER) [])
      | Some (status, events) =>
        if negb (status =? OK) then Some (failed st status events)
        else
          pool ← reset_sg_buffer_pool rank l st.2;
          Some {| sg_status := OK; sg_pool := pool; sg_events := events; sg_sent := st; sg_released := true |}
      end.

(** The operation on a set: its status, and the arguments of the callback it
    submits; [callback] is the status of [dpu_callback]. *)
Definition dpu_push_sg_xfer_symbol (callback : Z) (set : dpu_set_t) (x : dpu_xfer_t) (symbol : dpu_symbol_t)
    (symbol_offset len : Z) (f : Z -> Z -> option (Z * Z)) (flags : Z) : Z * option (sg_xfer_callback_args * bool) :=
  match set with
  | Set_ranks _ _ =>
    let address := u32 (sym_address symbol + symbol_offset) in
    if negb (Z.land address MRAM_MASK =? MRAM_MASK) then (error_code DPU_ERR_SG_NOT_MRAM_SYMBOL, None)
    else (callback, Some ({| get_block := f; xfer := x; symbol_addr := address; xfer_length := len; sg_flags := flags |},
                          negb (Z.land flags DPU_SG_XFER_ASYNC =? 0)))
  | Set_dpu _ _ | Set_other => (error_code DPU_ERR_INTERNAL, None)
  end.

(** * Invariants of the buffers *)

Record buffer_ok (b : sg_xfer_buffer) : Prop := {
  buffer_max : 0 <= max_nr_blocks b < 2 ^ 32;
  buffer_nr : 0 <= nr_blocks b <= max_nr_blocks b;
  buffer_addr : Z.of_nat (length (blocks_addr b)) = max_nr_blocks b + 1;
  buffer_length : Z.of_nat (length (blocks_length b)) = max_nr_blocks b + 1 }.

(** The blocks of a buffer. *)
Definition blocks_of (b : sg_xfer_buffer) : list (Z * Z) :=
  take (Z.to_nat (nr_blocks b)) (combine (blocks_addr b) (blocks_length b)).

Record pool_ok (pool : list sg_xfer_buffer) : Prop := {
  pool_length : length pool = 64%nat;
  pool_buffers : Forall buffer_ok pool }.

(** The blocks of a DPU in a pool, and their maximum. *)
Definition buffer_at (rank : rank_t) (pool : list sg_xfer_buffer) (d : nat * nat) : option sg_xfer_buffer :=
  load pool (get_transfer_matrix_index rank d.1 d.2).
Definition blocks_at (rank : rank_t) (pool : list sg_xfer_buffer) (d : nat * nat) : list (Z * Z) :=
  match buffer_at rank pool d with Some b => blocks_of b | None => [] end.

Lemma blocks_of_length b : buffer_ok b -> Z.of_nat (length (blocks_of b)) = nr_blocks b.
Proof. intros [H1 H2 H3 H4]. unfold blocks_of. rewrite length_take, length_combine. lia. Qed.

Lemma combine_insert {A B} (l : list A) (k : list B) i x y :
  combine (<[i:=x]> l) (<[i:=y]> k) = <[i:=(x, y)]> (combine l k).
Proof.
  revert k i. induction l as [| a l IH]; intros [| c k] [| i]; try done.
  change (combine (a :: <[i:=x]> l) (c :: <[i:=y]> k) = (a, c) :: <[i:=(x, y)]> (combine l k)). cbn. by rewrite IH.
Qed.

Lemma buffer_push b x y : buffer_ok b -> nr_blocks b < max_nr_blocks b ->
  exists addr len, store (blocks_addr b) (nr_blocks b) x = Some addr /\ store (blocks_length b) (nr_blocks b) y = Some len
  /\ let b' := {| max_nr_blocks := max_nr_blocks b; blocks_addr := addr; blocks_length := len; nr_blocks := u32 (nr_blocks b + 1) |} in
     buffer_ok b' /\ blocks_of b' = blocks_of b ++ [(x, y)].
Proof.
  intros [H1 H2 H3 H4] Hlt. unfold store. rewrite H3, H4.
  destruct (Z.leb_spec 0 (nr_blocks b)); [| lia]. destruct (Z.ltb_spec (nr_blocks b) (max_nr_blocks b + 1)); [| lia].
  cbn [andb]. do 2 eexists. split; [reflexivity |]. split; [reflexivity |]. rewrite wrap_small by lia. split.
  - split; cbn [max_nr_blocks nr_blocks blocks_addr blocks_length]; rewrite ?length_insert; lia.
  - unfold blocks_of. cbn [nr_blocks blocks_addr blocks_length]. rewrite combine_insert.
    replace (Z.to_nat (nr_blocks b + 1)) with (S (Z.to_nat (nr_blocks b))) by lia.
    rewrite (take_S_r _ _ (x, y)).
    + by rewrite take_insert_ge.
    + rewrite list_lookup_insert_eq; [done |]. rewrite length_combine. lia.
Qed.

(** * One DPU *)

Definition index_of (rank : rank_t) (d : nat * nat) : Z := get_transfer_matrix_index rank d.1 d.2.

Record sg_inv (rank : rank_t) (st : state) : Prop := {
  inv_matrix : is_matrix st.1;
  inv_type : type st.1 = DPU_SG_XFER_MATRIX;
  inv_pool : pool_ok st.2;
  inv_entries : forall d, in_rank rank d -> entry_at rank st.1 d = Null \/ entry_at rank st.1 d = Pool (index_of rank d) }.

(** Only the DPU [d] changed, and not the capacity of its buffer. *)
Record only_dpu (rank : rank_t) (d : nat * nat) (st st' : state) : Prop := {
  only_params : offset st'.1 = offset st.1 /\ size st'.1 = size st.1;
  only_entries : forall e, in_rank rank e -> e <> d -> entry_at rank st'.1 e = entry_at rank st.1 e;
  only_buffers : forall e, in_rank rank e -> e <> d -> buffer_at rank st'.2 e = buffer_at rank st.2 e;
  only_max : max_nr_blocks <$> buffer_at rank st'.2 d = max_nr_blocks <$> buffer_at rank st.2 d }.

Lemma only_dpu_refl rank d st : only_dpu rank d st st.
Proof. by split. Qed.

Lemma only_dpu_trans rank d s1 s2 s3 : only_dpu rank d s1 s2 -> only_dpu rank d s2 s3 -> only_dpu rank d s1 s3.
Proof.
  intros [[H1 H2] H3 H4 H5] [[G1 G2] G3 G4 G5]. split; [split; congruence | | | congruence].
  - intros e He Hn. by rewrite G3, H3.
  - intros e He Hn. by rewrite G4, H4.
Qed.

Lemma index_range rank d : rank_ok rank -> in_rank rank d -> 0 <= index_of rank d < 64.
Proof. intros Hr Hd. unfold index_of. destruct (index_small rank d Hr Hd) as [-> H]. lia. Qed.

Lemma load_entry rank m d : rank_ok rank -> in_rank rank d -> is_matrix m ->
  load (ptr m) (index_of rank d) = Some (entry_at rank m d).
Proof.
  intros Hr Hd Hm. pose proof (index_range rank d Hr Hd). unfold load, entry_at, index_of in *.
  destruct (Z.leb_spec 0 (get_transfer_matrix_index rank d.1 d.2)); [| lia].
  rewrite nth_lookup. destruct (lookup_lt_is_Some_2 (ptr m) (Z.to_nat (get_transfer_matrix_index rank d.1 d.2))) as [x ->];
    [unfold is_matrix in Hm; lia | done].
Qed.

Lemma load_buffer rank pool d : rank_ok rank -> in_rank rank d -> pool_ok pool ->
  exists b, buffer_at rank pool d = Some b /\ buffer_ok b.
Proof.
  intros Hr Hd [Hl Hb]. pose proof (index_range rank d Hr Hd). unfold buffer_at, load, index_of in *.
  destruct (Z.leb_spec 0 (get_transfer_matrix_index rank d.1 d.2)); [| lia].
  destruct (lookup_lt_is_Some_2 pool (Z.to_nat (get_transfer_matrix_index rank d.1 d.2))) as [b Eb]; [lia |].
  exists b. split; [done |]. rewrite list.Forall_lookup in Hb. by eapply Hb.
Qed.

Lemma store_buffer rank pool d b : rank_ok rank -> in_rank rank d -> pool_ok pool -> buffer_ok b ->
  exists pool', store pool (index_of rank d) b = Some pool' /\ pool_ok pool' /\ buffer_at rank pool' d = Some b
    /\ forall e, in_rank rank e -> e <> d -> buffer_at rank pool' e = buffer_at rank pool e.
Proof.
  intros Hr Hd [Hl Hp] Hb. pose proof (index_range rank d Hr Hd) as Hi. unfold store, buffer_at, load, index_of in *. rewrite Hl.
  destruct (Z.leb_spec 0 (get_transfer_matrix_index rank d.1 d.2)); [| lia].
  destruct (Z.ltb_spec (get_transfer_matrix_index rank d.1 d.2) (Z.of_nat 64)); [| lia].
  cbn [andb]. eexists. split; [reflexivity |]. split_and!.
  - split; [by rewrite length_insert | by apply Forall_insert].
  - rewrite list_lookup_insert_eq by lia. done.
  - intros e He Hne. pose proof (index_range rank e Hr He) as Hj. unfold index_of in Hj.
    destruct (Z.leb_spec 0 (get_transfer_matrix_index rank e.1 e.2)); [| done].
    rewrite list_lookup_insert_ne; [done |]. intros E. apply Hne. symmetry. apply (index_inj rank d e Hr Hd He). lia.
Qed.

(** The buffer of the DPU is entered in the matrix, if it was not. *)
Lemma enter_buffer rank d st : rank_ok rank -> in_rank rank d -> sg_inv rank st ->
  exists p, match entry_at rank st.1 d with
            | Null => store (ptr st.1) (index_of rank d) (Pool (index_of rank d))
            | _ => Some (ptr st.1)
            end = Some p
    /\ is_matrix (set_ptr st.1 p) /\ entry_at rank (set_ptr st.1 p) d = Pool (index_of rank d)
    /\ forall e, in_rank rank e -> e <> d -> entry_at rank (set_ptr st.1 p) e = entry_at rank st.1 e.
Proof.
  intros Hr Hd [Hm _ _ He].
  destruct (add_dpu_spec rank st.1 d (Pool (index_of rank d)) Hr Hd Hm) as (m' & Em & Hm' & _ & _ & _ & Hed & Heo).
  destruct (He d Hd) as [E | E]; rewrite E.
  - unfold dpu_transfer_matrix_add_dpu in Em. fold (index_of rank d) in Em.
    destruct (store _ _ _) as [p |]; [| done]. injection Em as <-. by exists p.
  - exists (ptr st.1). split_and!; [done.. | exact E | done].
Qed.

Lemma add_block_spec rank d x st b : rank_ok rank -> in_rank rank d -> sg_inv rank st -> x <> Other_xfer ->
  exists st' status, add_block rank d.1 d.2 x st b = Some (st', status) /\ sg_inv rank st' /\ only_dpu rank d st st'
    /\ (status = OK /\ blocks_at rank st'.2 d = blocks_at rank st.2 d ++ [b] /\ entry_at rank st'.1 d = Pool (index_of rank d)
        \/ status = error_code DPU_ERR_INTERNAL).
Proof.
  intros Hr Hd Hinv Hx. pose proof Hinv as [Hm Ht Hp He].
  destruct (enter_buffer rank d st Hr Hd Hinv) as (p & Ep & Hmp & Hpd & Hpo).
  destruct (load_buffer rank st.2 d Hr Hd Hp) as (buf & Eb & Hb).
  assert (add_block rank d.1 d.2 x st b
    = dpu_transfer_matrix_add_dpu_block rank d.1 d.2 (set_ptr st.1 p, st.2) b.1 b.2) as ->.
  { unfold add_block. fold (index_of rank d). rewrite (load_entry rank st.1 d Hr Hd Hm). cbn [mbind option_bind].
    rewrite Ep. by destruct x. }
  assert (forall e, in_rank rank e ->
    entry_at rank (set_ptr st.1 p) e = Null \/ entry_at rank (set_ptr st.1 p) e = Pool (index_of rank e)) as He'.
  { intros e Hin. destruct (decide (e = d)) as [-> | Hne]; [by right |]. rewrite Hpo by done. by apply He. }
  unfold dpu_transfer_matrix_add_dpu_block. fold (index_of rank d). cbn [type set_ptr]. rewrite Ht.
  pose proof (load_entry rank (set_ptr st.1 p) d Hr Hd Hmp) as Hl.
  rewrite Hl. cbn [mbind option_bind]. rewrite Hpd. unfold buffer_at in Eb. fold (index_of rank d) in Eb.
  rewrite Eb. cbn [mbind option_bind]. destruct (Z.leb_spec (max_nr_blocks buf) (nr_blocks buf)) as [Hfull | Hroom].
  - do 2 eexists. split; [reflexivity |]. split; [by split |]. split; [| by right]. split; [done | exact Hpo | done | done].
  - destruct (buffer_push buf b.1 b.2 Hb Hroom) as (addr & len & -> & -> & Hb' & Hbl). cbn [mbind option_bind].
    destruct (store_buffer rank st.2 d _ Hr Hd Hp Hb') as (pool' & -> & Hp' & Hnew & Hold). cbn [mbind option_bind].
    do 2 eexists. split; [reflexivity |]. split; [by split |]. split.
    + split; [done | exact Hpo | exact Hold |]. cbn [snd]. rewrite Hnew. unfold buffer_at. fold (index_of rank d).
      by rewrite Eb.
    + left. split; [done |]. split; [| exact Hpd]. unfold blocks_at. cbn [snd]. rewrite Hnew.
      unfold buffer_at. fold (index_of rank d). rewrite Eb, Hbl. by destruct b.
Qed.

(** The blocks a function gives from an index, without the empty ones. *)
Inductive gives (f : Z -> option (Z * Z)) : Z -> list (Z * Z) -> Prop :=
| gives_end i : f i = None -> gives f i []
| gives_empty i b l : f i = Some b -> b.2 = 0 -> gives f (i + 1) l -> gives f i l
| gives_block i b l : f i = Some b -> b.2 <> 0 -> gives f (i + 1) l -> gives f i (b :: l).

(** Their bytes, counted on 32 bits. *)
Definition bytes_of (n : Z) (l : list (Z * Z)) : Z := fold_left (fun n b => u32 (n + b.2)) l n.

(** Whatever the function gives, the loop over the blocks of a DPU ends; when
    it succeeds the blocks given, and they only, have been added. *)
Lemma add_blocks_spec args rank fuel k d max i n st :
  rank_ok rank -> in_rank rank d -> sg_inv rank st -> 0 <= i <= max -> max < 2 ^ 32 -> max - i <= Z.of_nat fuel ->
  exists st' status, add_blocks args rank fuel k d.1 d.2 max i n st = Some (st', status)
    /\ sg_inv rank st' /\ only_dpu rank d st st'
    /\ (status = OK -> exists l, gives (get_block args k) i l
         /\ blocks_at rank st'.2 d = blocks_at rank st.2 d ++ l
         /\ entry_at rank st'.1 d = (match l with [] => entry_at rank st.1 d | _ => Pool (index_of rank d) end)
         /\ (check_length args = true -> bytes_of n l = xfer_length args)).
Proof.
  intros Hr Hd. revert i n st. induction fuel as [| fuel IH]; intros i n st Hinv Hi Hmax Hf; cbn [add_blocks];
    (destruct (get_block args k i) as [b |] eqn:Eb;
     [| exists st; eexists; split; [reflexivity |]; split; [done |]; split; [apply only_dpu_refl |]; intros Hok; exists [];
        rewrite app_nil_r; split_and!; [by constructor | done | done |]; intros Hc; rewrite Hc in Hok; cbn [andb] in Hok;
        destruct (Z.eqb_spec n (xfer_length args)); done]);
    (destruct (Z.leb_spec max i); [exists st; eexists; split; [reflexivity |]; split; [done |]; split; [apply only_dpu_refl | done] |]);
    [lia |].
  destruct (_ && (_ && _)).
  { exists st. eexists. split; [reflexivity |]. split; [done |]. split; [apply only_dpu_refl | done]. }
  destruct (Z.eqb_spec b.2 0) as [E0 | E0].
  - cbn [mbind option_bind]. rewrite Z.eqb_refl. cbn [negb].
    destruct (IH (u32 (i + 1)) n st) as (st' & status & E & Hinv' & Ho & Hok); [done | rewrite ?(wrap_small 32 (i + 1)) by lia; lia.. |].
    exists st', status. split_and!; [done.. |]. intros Hst. destruct (Hok Hst) as (l & Hg & Hbl).
    exists l. rewrite wrap_small in Hg by lia. split; [by eapply gives_empty | done].
  - destruct (decide (xfer args = Other_xfer)) as [Ex | Ex].
    { unfold add_block. rewrite Ex. cbn [mbind option_bind]. exists st. eexists. split; [reflexivity |]. split; [done |].
      split; [apply only_dpu_refl | done]. }
    destruct (add_block_spec rank d (xfer args) st b Hr Hd Hinv Ex) as (st1 & status1 & -> & Hinv1 & Ho1 & Hcase).
    cbn [mbind option_bind]. destruct Hcase as [(-> & Hbl1 & He1) | ->].
    2: { exists st1. eexists. split; [reflexivity |]. by split_and!. }
    rewrite Z.eqb_refl. cbn [negb].
    destruct (IH (u32 (i + 1)) (u32 (n + b.2)) st1) as (st' & status & E & Hinv' & Ho & Hok);
      [done | rewrite ?(wrap_small 32 (i + 1)) by lia; lia.. |].
    exists st', status. split_and!; [done.. | by eapply only_dpu_trans |]. intros Hst.
    destruct (Hok Hst) as (l & Hg & Hbl & He & Hb). exists (b :: l). rewrite wrap_small in Hg by lia.
    split_and!; [by eapply gives_block | by rewrite Hbl, Hbl1, <- app_assoc | rewrite He; by destruct l | exact Hb].
Qed.

Lemma gives_fun f i l k : gives f i l -> gives f i k -> l = k.
Proof.
  intros H. revert k. induction H as [i E | i b l E E0 _ IH | i b l E E0 _ IH]; intros k Hk;
    inversion Hk; simplify_eq; try done; try (by apply IH). f_equal. by apply IH.
Qed.

(** * All the DPUs of a rank *)

(** What a successful handler has added for the DPU at position [d], the
    [j]-th of the rank. *)
Definition added (args : sg_xfer_callback_args) (rank : rank_t) (offset : Z) (st st' : state) (j : Z) (d : nat) : Prop :=
  exists l, gives (get_block args (u32 (j + offset))) 0 l
    /\ blocks_at rank st'.2 (coords rank d) = blocks_at rank st.2 (coords rank d) ++ l
    /\ entry_at rank st'.1 (coords rank d)
       = (match l with [] => entry_at rank st.1 (coords rank d) | _ => Pool (index_of rank (coords rank d)) end)
    /\ (check_length args = true -> bytes_of 0 l = xfer_length args).

Definition in_foreach (L : list (Z * nat)) : list (Z * dpu_set_t) := map (fun p => (p.1, Set_dpu 0 p.2)) L.

Record untouched (rank : rank_t) (L : list (Z * nat)) (st st' : state) : Prop := {
  un_params : offset st'.1 = offset st.1 /\ size st'.1 = size st.1;
  un_entries : forall c, in_rank rank c -> (forall j d, In (j, d) L -> c <> coords rank d) ->
    entry_at rank st'.1 c = entry_at rank st.1 c /\ buffer_at rank st'.2 c = buffer_at rank st.2 c }.

Lemma add_dpus_spec args rank offset L st :
  rank_ok rank -> sg_inv rank st -> NoDup (map snd L) -> (forall j d, In (j, d) L -> exists b, dpus rank !! d = Some b) ->
  exists st' status, add_dpus args rank offset (in_foreach L) st = Some (st', status)
    /\ sg_inv rank st' /\ untouched rank L st st'
    /\ (status = OK -> forall j d, In (j, d) L -> added args rank offset st st' j d).
Proof.
  intros Hr. revert st. induction L as [| [j d] L IH]; intros st Hinv Hnd Hd; cbn [in_foreach map add_dpus fst snd].
  { exists st, OK. by split_and!. }
  destruct (Hd j d) as [en Een]; [by left |]. destruct (coords_ok rank d en Hr Een) as [Hc _].
  cbn [map snd] in Hnd. apply list.NoDup_cons in Hnd as [Hnin Hnd].
  destruct (load_buffer rank st.2 (coords rank d) Hr Hc (inv_pool _ _ Hinv)) as (b & Eb & Hb).
  unfold buffer_at, coords in Eb. cbn [fst snd] in Eb. rewrite Eb. cbn [mbind option_bind].
  destruct (add_blocks_spec args rank (Z.to_nat (max_nr_blocks b)) (u32 (j + offset)) (coords rank d) (max_nr_blocks b) 0 0 st)
    as (st1 & status1 & E1 & Hinv1 & Ho1 & Hok1); [done.. | destruct Hb; lia | destruct Hb; lia | lia |].
  cbn [coords fst snd] in E1. rewrite E1. cbn [mbind option_bind].
  destruct (Z.eqb_spec status1 OK) as [-> | Hst]; cbn [negb].
  2: { exists st1, status1. split_and!; [done.. | | done]. destruct Ho1 as [H1 H2 H3 _]. split; [done |].
       intros c Hcr Hcn. assert (c <> coords rank d) by (apply (Hcn j); by left). by rewrite H2, H3. }
  destruct (IH st1 Hinv1 Hnd) as (st2 & status2 & E2 & Hinv2 & Hu2 & Hok2); [intros; eapply Hd; by right |].
  assert (forall j' d', In (j', d') L -> coords rank d <> coords rank d') as Hne.
  { intros j' d' Hin Ec. destruct (Hd j' d') as [en' Een']; [by right |].
    assert (d = d') as -> by (by eapply coords_inj). apply Hnin. apply list_elem_of_In, in_map_iff. by exists (j', d'). }
  exists st2, status2. split_and!; [done.. | |].
  - destruct Ho1 as [[H1 H1'] H2 H3 _], Hu2 as [[G1 G1'] G2]. split; [split; congruence |].
    intros c Hcr Hcn. assert (c <> coords rank d) by (apply (Hcn j); by left).
    destruct (G2 c Hcr) as [-> ->]; [intros; eapply Hcn; by right |]. by rewrite H2, H3.
  - intros Hst j' d' [[= <- <-] | Hin].
    + destruct (Hok1 eq_refl) as (l & Hg & Hbl & He & Hb'). exists l.
      destruct Hu2 as [_ G2]. destruct (G2 (coords rank d) Hc) as [Ge Gb]; [intros; by eapply Hne |].
      unfold blocks_at in *. rewrite Gb, Ge. by split_and!.
    + destruct (Hok2 Hst j' d' Hin) as (l & Hg & Hbl & He & Hb'). exists l.
      destruct (Hd j' d') as [en' Een']; [by right |]. destruct (coords_ok rank d' en' Hr Een') as [Hc' _].
      destruct Ho1 as [_ H2 H3 _]. unfold blocks_at in *.
      rewrite H2 in He by (done || (intros Ec; symmetry in Ec; by eapply Hne)).
      rewrite H3 in Hbl by (done || (intros Ec; symmetry in Ec; by eapply Hne)). by split_and!.
Qed.

(** The enabled DPUs of a rank, with their order. *)
Definition enabled_list (rank : rank_t) : list (Z * nat) :=
  imap (fun i d => (u32 (0 + Z.of_nat i), d)) (List.filter (fun d => nth d (dpus rank) false) (seq 0 (length (dpus rank)))).

Lemma foreach_rank rank : rank_ok rank -> DPU_FOREACH 65 [rank] (Set_ranks 0 1) = Some (in_foreach (enabled_list rank)).
Proof.
  intros Hr. assert (dpus_of [rank] (Set_ranks 0 1)
    = map (Set_dpu 0) (List.filter (fun d => nth d (dpus rank) false) (seq 0 (length (dpus rank))))) as E.
  { cbn. unfold enabled_from. by rewrite app_nil_r, Nat.sub_0_r. }
  rewrite foreach_dpus; [| cbn; lia |].
  - f_equal. rewrite E. unfold numbered, in_foreach, enabled_list.
    change (map (Set_dpu 0)) with (fmap (M := list) (Set_dpu 0)). rewrite imap_fmap.
    change (map (fun p : Z * nat => (p.1, Set_dpu 0 p.2))) with (fmap (M := list) (fun p : Z * nat => (p.1, Set_dpu 0 p.2))).
    rewrite fmap_imap. apply imap_ext. done.
  - rewrite E, length_map. pose proof (total_bound rank Hr) as H. unfold total in H.
    rewrite <- (count_true_nth (dpus rank) 0 (length (dpus rank))) in H by done.
    erewrite List.filter_ext; [apply Nat.le_trans with 64%nat; [exact H | lia] |]. intros i. cbn. by rewrite Nat.sub_0_r.
Qed.

Lemma enabled_list_spec rank : NoDup (map snd (enabled_list rank))
  /\ forall j d, In (j, d) (enabled_list rank) -> dpus rank !! d = Some true.
Proof.
  unfold enabled_list. set (l := List.filter _ _).
  assert (map snd (imap (fun i d => (u32 (0 + Z.of_nat i), d)) l) = l) as E.
  { change (map snd) with (fmap (M := list) (@snd Z nat)). rewrite fmap_imap. apply list_eq. intros i.
    rewrite list_lookup_imap. by destruct (l !! i). }
  split.
  - rewrite E. apply NoDup_ListNoDup, List.NoDup_filter, seq_NoDup.
  - intros j d Hin. assert (In d l) as Hd by (rewrite <- E; apply in_map_iff; by exists (j, d)).
    apply filter_In in Hd as [_ Hd]. rewrite nth_lookup in Hd. destruct (dpus rank !! d) as [[] |]; done.
Qed.

Lemma reset_pool_spec rank L pool : rank_ok rank -> pool_ok pool -> NoDup (map snd L) ->
  (forall j d, In (j, d) L -> exists b, dpus rank !! d = Some b) ->
  exists pool', reset_sg_buffer_pool rank (in_foreach L) pool = Some pool' /\ pool_ok pool'
    /\ (forall j d, In (j, d) L -> blocks_at rank pool' (coords rank d) = [])
    /\ forall c, in_rank rank c -> blocks_at rank pool c = [] -> blocks_at rank pool' c = [].
Proof.
  intros Hr. revert pool. induction L as [| [j d] L IH]; intros pool Hp Hnd Hd.
  { exists pool. by split_and!. }
  cbn [map snd] in Hnd. apply list.NoDup_cons in Hnd as [_ Hnd].
  destruct (Hd j d) as [en Een]; [by left |]. destruct (coords_ok rank d en Hr Een) as [Hc _].
  destruct (load_buffer rank pool (coords rank d) Hr Hc Hp) as (b & Eb & Hb).
  set (b0 := {| max_nr_blocks := max_nr_blocks b; blocks_addr := blocks_addr b; blocks_length := blocks_length b; nr_blocks := 0 |}).
  assert (buffer_ok b0) as Hb0 by (destruct Hb; by split; cbn; try lia).
  destruct (store_buffer rank pool (coords rank d) b0 Hr Hc Hp Hb0) as (pool1 & E1 & Hp1 & Hnew & Hold).
  destruct (IH pool1 Hp1 Hnd) as (pool2 & E2 & Hp2 & Hin & Hkeep); [intros; eapply Hd; by right |].
  assert (blocks_at rank pool1 (coords rank d) = []) as H1 by (unfold blocks_at; by rewrite Hnew).
  exists pool2. split_and!.
  - unfold reset_sg_buffer_pool in *. cbn [in_foreach map fold_left fst snd mbind option_bind].
    unfold buffer_at in Eb. cbn [coords fst snd] in Eb. rewrite Eb. cbn [mbind option_bind].
    unfold index_of in E1. cbn [coords fst snd] in E1. fold b0. by rewrite E1.
  - done.
  - intros j' d' [[= <- <-] | Hin']; [by apply Hkeep | by eapply Hin].
  - intros c Hcr Hz. apply Hkeep; [done |]. destruct (decide (c = coords rank d)) as [-> |]; [done |].
    unfold blocks_at. by rewrite Hold.
Qed.

Lemma enabled_list_complete rank d : dpus rank !! d = Some true -> exists j, In (j, d) (enabled_list rank).
Proof.
  intros Hd. unfold enabled_list. set (l := List.filter _ _).
  assert (In d l) as Hin.
  { apply filter_In. split; [apply in_seq; apply lookup_lt_Some in Hd; lia |]. by rewrite nth_lookup, Hd. }
  apply list_elem_of_In, list_elem_of_lookup_1 in Hin as [i Hi]. exists (u32 (0 + Z.of_nat i)).
  apply list_elem_of_In, list_elem_of_lookup_2 with i. by rewrite list_lookup_imap, Hi.
Qed.

(** Every buffer of the DPUs of the rank is empty. *)
Definition clean (rank : rank_t) (pool : list sg_xfer_buffer) : Prop :=
  pool_ok pool /\ forall d b, dpus rank !! d = Some b -> blocks_at rank pool (coords rank d) = [].

(** The blocks a request transfers for a DPU. *)
Definition transferred (rank : rank_t) (sent : state) (c : nat * nat) : list (Z * Z) :=
  match entry_at rank sent.1 c with
  | Pool i => match load sent.2 i with Some b => blocks_of b | None => [] end
  | _ => []
  end.

(** What a handler does in its two stages. *)
Lemma handler_stages args r : rank_ok (topology (sg_env r)) -> pool_ok (sg_buffer_pool r) ->
  let rank := topology (sg_env r) in
  exists res, sg_xfer_rank_handler args r = Some res /\ pool_ok (sg_pool res)
  /\ (sg_events res = [] /\ sg_status res <> OK \/
      (forall j d, In (j, d) (enabled_list rank) ->
         exists l, gives (get_block args (u32 (j + dpu_offset r))) 0 l
           /\ blocks_at rank (sg_sent res).2 (coords rank d) = blocks_at rank (sg_buffer_pool r) (coords rank d) ++ l
           /\ transferred rank (sg_sent res) (coords rank d)
              = (match l with [] => [] | _ => blocks_at rank (sg_sent res).2 (coords rank d) end)
           /\ (check_length args = true -> bytes_of 0 l = xfer_length args))
      /\ (forall d, dpus rank !! d = Some false -> transferred rank (sg_sent res) (coords rank d) = []
            /\ blocks_at rank (sg_sent res).2 (coords rank d) = blocks_at rank (sg_buffer_pool r) (coords rank d))
      /\ (sg_status res, sg_events res)
         = mram_access (sg_env r) (match xfer args with DPU_XFER_TO_DPU => Copy_to_mrams | _ => Copy_from_mrams end)
             (match xfer args with DPU_XFER_TO_DPU => Program_to_mrams | _ => Program_from_mrams end) (sg_sent res).1
      /\ (sg_status res = OK -> sg_released res = true
           /\ (forall j d, In (j, d) (enabled_list rank) -> blocks_at rank (sg_pool res) (coords rank d) = [])
           /\ forall c, in_rank rank c -> blocks_at rank (sg_sent res).2 c = [] -> blocks_at rank (sg_pool res) c = [])
      /\ (sg_status res <> OK -> sg_released res = false /\ sg_pool res = (sg_sent res).2)).
Proof.
  intros Hr Hp rank. unfold sg_xfer_rank_handler. fold rank.
  destruct (sg_xfer_enabled r); cbn [negb].
  2: { eexists. split; [reflexivity |]. split; [done |]. by left. }
  rewrite foreach_rank by done. cbn [mbind option_bind]. destruct (enabled_list_spec rank) as [Hnd Hen].
  set (m := {| ptr := _; offset := _; size := _; type := _ |}).
  assert (forall c, in_rank rank c -> entry_at rank m c = Null) as Hnull by (intros c Hc; by apply clear_all_entry).
  assert (sg_inv rank (m, sg_buffer_pool r)) as Hinv by (split; [done.. | intros c Hc; left; by apply Hnull]).
  destruct (add_dpus_spec args rank (dpu_offset r) (enabled_list rank) (m, sg_buffer_pool r) Hr Hinv Hnd)
    as (st & status & -> & [Hm' Ht' Hp' He'] & [Hpar Hun] & Hok); [intros j d Hin; exists true; by eapply Hen |].
  cbn [mbind option_bind]. destruct (Z.eqb_spec status OK) as [-> | Hst]; cbn [negb].
  2: { eexists. split; [reflexivity |]. split; [done |]. by left. }
  assert (forall j d, In (j, d) (enabled_list rank) ->
    exists l, gives (get_block args (u32 (j + dpu_offset r))) 0 l
      /\ blocks_at rank st.2 (coords rank d) = blocks_at rank (sg_buffer_pool r) (coords rank d) ++ l
      /\ transferred rank st (coords rank d) = (match l with [] => [] | _ => blocks_at rank st.2 (coords rank d) end)
      /\ (check_length args = true -> bytes_of 0 l = xfer_length args)) as Hadd.
  { intros j d Hin. destruct (Hok eq_refl j d Hin) as (l & Hg & Hb & He & Hc). exists l. split_and!; [done.. | | done].
    destruct (coords_ok rank d true Hr (Hen _ _ Hin)) as [Hcr _].
    unfold transferred. rewrite He. destruct l; [by rewrite Hnull | done]. }
  assert (forall d, dpus rank !! d = Some false -> transferred rank st (coords rank d) = []
    /\ blocks_at rank st.2 (coords rank d) = blocks_at rank (sg_buffer_pool r) (coords rank d)) as Hdis.
  { intros d Hd. destruct (coords_ok rank d false Hr Hd) as [Hcr _]. destruct (Hun (coords rank d) Hcr) as [Ee Eb].
    - intros j d' Hin Ec. assert (d = d') as -> by (eapply coords_inj; [done | exact Hd | by eapply Hen | done]).
      rewrite (Hen _ _ Hin) in Hd. done.
    - unfold transferred, blocks_at. rewrite Ee, Hnull by done. by rewrite Eb. }
  destruct (decide (xfer args = Other_xfer)) as [-> | Hx].
  { eexists. split; [reflexivity |]. split; [done |]. by left. }
  match goal with |- context [match xfer args with DPU_XFER_TO_DPU => Some ?a | DPU_XFER_FROM_DPU => Some ?b | Other_xfer => None end] =>
    assert (match xfer args with DPU_XFER_TO_DPU => Some a | DPU_XFER_FROM_DPU => Some b | Other_xfer => None end
      = Some (mram_access (sg_env r) (match xfer args with DPU_XFER_TO_DPU => Copy_to_mrams | _ => Copy_from_mrams end)
         (match xfer args with DPU_XFER_TO_DPU => Program_to_mrams | _ => Program_from_mrams end) st.1)) as -> by (by destruct (xfer args))
  end.
  destruct (mram_access _ _ _ st.1) as [status events] eqn:Eacc.
  destruct (Z.eqb_spec status OK) as [-> | Hst]; cbn [negb].
  - destruct (reset_pool_spec rank (enabled_list rank) st.2 Hr Hp' Hnd) as (pool & -> & Hpool & Hz & Hk);
      [intros j d Hin; exists true; by eapply Hen |].
    cbn [mbind option_bind]. eexists. split; [reflexivity |]. split; [done |]. right. cbn [sg_sent sg_status sg_events sg_released sg_pool].
    split_and!; [done.. |]. intros []; done.
  - eexists. split; [reflexivity |]. split; [done |]. right. cbn [sg_sent sg_status sg_events sg_released sg_pool].
    by split_and!.
Qed.


(** When the transfer itself fails because DPUs of the rank run, the blocks
    stay in the pool and the arguments are not released; the same transfer done
    again once the DPUs have stopped, if it succeeds, sends each block twice. *)
Theorem sg_retry_duplicates args r env res1 res2 :
  let rank := topology (sg_env r) in
  rank_ok rank -> clean rank (sg_buffer_pool r) -> topology env = rank ->
  sg_xfer_rank_handler args r = Some res1 -> sg_events res1 = [Lock; Unlock] ->
  sg_xfer_rank_handler args {| sg_env := env; sg_xfer_enabled := sg_xfer_enabled r; dpu_offset := dpu_offset r;
    sg_buffer_pool := sg_pool res1 |} = Some res2 ->
  sg_status res1 = error_code DPU_ERR_MRAM_BUSY /\ sg_released res1 = false
  /\ (sg_status res2 = OK -> forall j d, In (j, d) (enabled_list rank) ->
        exists l, gives (get_block args (u32 (j + dpu_offset r))) 0 l
          /\ transferred rank (sg_sent res2) (coords rank d) = l ++ l).
Proof.
  intros rank Hr [Hp Hclean] Htop E1 Hev E2.
  destruct (handler_stages args r Hr Hp) as (res & E & Hp1 & Hcase). fold rank in Hcase. rewrite E1 in E. injection E as <-.
  destruct Hcase as [[H _] | (Hadd & _ & Hacc & _ & Hfail)]; [by rewrite Hev in H |].
  assert (sg_status res1 = error_code DPU_ERR_MRAM_BUSY) as Hst.
  { rewrite Hev in Hacc. unfold mram_access, locked in Hacc.
    destruct (verify_mram_access_offset_and_size _ _ _); [done |].
    destruct (0 <? nb_dpu_running (sg_env r)); [by injection Hacc | done]. }
  destruct Hfail as [Hrel Hpool]; [by rewrite Hst |]. split_and!; [done.. |].
  intros Hst2 j d Hin. set (r2 := Build_sg_rank _ _ _ _) in E2.
  assert (rank_ok (topology (sg_env r2))) as Hr2 by (cbn; by rewrite Htop).
  destruct (handler_stages args r2 Hr2 Hp1) as (res & E & _ & Hcase2). rewrite E2 in E. injection E as <-.
  destruct Hcase2 as [[_ H] | (Hadd2 & _)]; [done |]. cbn [sg_env r2] in Hadd2. rewrite Htop in Hadd2.
  destruct (Hadd j d Hin) as (l & Hg & Hb & _). destruct (Hadd2 j d Hin) as (l2 & Hg2 & Hb2 & Ht2 & _).
  cbn [sg_buffer_pool dpu_offset r2] in *. assert (l2 = l) as -> by (by eapply gives_fun). exists l. split; [done |].
  rewrite Ht2, Hb2, Hpool, Hb. destruct (enabled_list_spec rank) as [_ Hen].
  rewrite (Hclean d true) by (by eapply Hen). by destruct l.
Qed.

(** Pools for two blocks per DPU, and one block of 16 bytes for each. *)
Definition sample_pool : list sg_xfer_buffer := replicate 64 (fresh_buffer 2 ([0; 0; 0], [0; 0; 0])).
Definition sample_args : sg_xfer_callback_args :=
  {| get_block := fun dpu i => if i =? 0 then Some (1000 * (dpu + 1), 16) else None; xfer := DPU_XFER_TO_DPU;
     symbol_addr := MRAM_MASK; xfer_length := 16; sg_flags := 0 |}.
Definition sample_sg (running : Z) (pool : list sg_xfer_buffer) : sg_rank :=
  {| sg_env := {| topology := rank4; iram_size := 64; wram_size := 64; mram_size := 1024;
                  mram_access_by_dpu_only := false; nb_dpu_running := running; answer := fun _ => OK |};
     sg_xfer_enabled := true; dpu_offset := 8; sg_buffer_pool := pool |}.

Lemma sample_clean : clean rank4 sample_pool.
Proof.
  split.
  - split; [reflexivity |]. apply Forall_replicate. split; cbn; lia.
  - intros d b Hd. apply lookup_lt_Some in Hd. cbn in Hd. do 4 (destruct d as [| d]; [reflexivity |]). lia.
Qed.


Lemma sg_retry_duplicates_witness :
  exists res1 res2, sg_xfer_rank_handler sample_args (sample_sg 1 sample_pool) = Some res1
    /\ sg_xfer_rank_handler sample_args (sample_sg 0 (sg_pool res1)) = Some res2
    /\ sg_status res1 = error_code DPU_ERR_MRAM_BUSY /\ sg_status res2 = OK
    /\ transferred rank4 (sg_sent res2) (0, 2)%nat = [(11000, 16); (11000, 16)].
Proof.
  destruct (sg_xfer_rank_handler sample_args (sample_sg 1 sample_pool)) as [res1 |] eqn:E1;
    [| vm_compute in E1; discriminate].
  destruct (sg_xfer_rank_handler sample_args (sample_sg 0 (sg_pool res1))) as [res2 |] eqn:E2.
  2: { vm_compute in E1. injection E1 as <-. vm_compute in E2. discriminate. }
  exists res1, res2. split; [reflexivity |]. split; [exact E2 |].
  assert (sg_events res1 = [Lock; Unlock]) as Hev by (vm_compute in E1; injection E1 as <-; reflexivity).
  destruct (sg_retry_duplicates sample_args (sample_sg 1 sample_pool) (sg_env (sample_sg 0 [])) res1 res2
    (proj1 rank4_ok) sample_clean eq_refl E1 Hev E2) as (Hst & _ & _).
  split; [exact Hst |]. vm_compute in E1. injection E1 as <-. vm_compute in E2. injection E2 as <-. split; reflexivity.
Defined.
