(* ===== verification/Interleave.v ===== *)
(** Byte interleaving of the Xeon backend
    (library/src/backends/hw/src/mappings/xeon_sp/xeon_sp_translation.c): the
    reference loop, its vector versions, the blocks of control interfaces.

    An array of eight 64-bit words is its 64 bytes in memory order, and so is a
    vector register; the vector intrinsics are the moves of bytes their
    documentation gives. *)
From stdpp Require Import list.
From S2P Require Import Prelude.

(** * Bytes of arrays of words *)

Definition NB_REAL_CIS : nat := 8.
Definition NB_ELEM_MATRIX : nat := 8.

Definition byte_at (l : list Z) (i : nat) : Z := nth i l 0.

(** Byte [j] of word [i] of the output is byte [i] of word [j] of the input. *)
Definition byte_interleave (input : list Z) : list Z :=
  flat_map (fun i => map (fun j => byte_at input (8 * j + i)) (seq 0 8)) (seq 0 NB_ELEM_MATRIX).

(** * Vector intrinsics *)

(** Lanes of [w] bytes. *)
Definition lane (w : nat) (l : list Z) (i : nat) : list Z := take w (drop (w * i) l).

Definition mm_set_epi8 (l : list Z) : list Z := rev l.

(** The 64-bit constants of a register, the last argument first in memory. *)
Definition mm512_set_epi64 (l : list Z) : list Z := flat_map (le_bytes 8) (rev l).

Definition shuffle_epi8_lane (a mask : list Z) : list Z :=
  map (fun m => if Z.testbit m 7 then 0 else byte_at a (Z.to_nat (Z.land m 15))) mask.

Definition mm_shuffle_epi8 (a mask : list Z) : list Z := shuffle_epi8_lane a mask.

(** Wider registers are shuffled 128 bits at a time. *)
Definition wide_shuffle_epi8 (lanes : nat) (a mask : list Z) : list Z :=
  flat_map (fun k => shuffle_epi8_lane (lane 16 a k) (lane 16 mask k)) (seq 0 lanes).
Definition mm256_shuffle_epi8 : list Z -> list Z -> list Z := wide_shuffle_epi8 2.
Definition mm512_shuffle_epi8 : list Z -> list Z -> list Z := wide_shuffle_epi8 4.

Definition field2 (imm : Z) (k : Z) : nat := Z.to_nat (Z.land (Z.shiftr imm (2 * k)) 3).

Definition mm_shuffle_ps (a b : list Z) (imm : Z) : list Z :=
  lane 4 a (field2 imm 0) ++ lane 4 a (field2 imm 1) ++ lane 4 b (field2 imm 2) ++ lane 4 b (field2 imm 3).

Definition mm_blend_ps (a b : list Z) (imm : Z) : list Z :=
  flat_map (fun k => if Z.testbit imm (Z.of_nat k) then lane 4 b k else lane 4 a k) (seq 0 4).

(** Loads of 32 bits at the byte offsets [vindex]. *)
Definition i32gather_epi32 (base : list Z) (vindex : list Z) : list Z :=
  flat_map (fun i => take 4 (drop (Z.to_nat i) base)) vindex.

Definition permute_epi32 (n : Z) (idx : list Z) (a : list Z) : list Z :=
  flat_map (fun i => lane 4 a (Z.to_nat (i mod n))) idx.
Definition mm256_permutevar8x32_epi32 (a idx : list Z) : list Z := permute_epi32 8 idx a.
Definition mm512_permutexvar_epi32 (idx a : list Z) : list Z := permute_epi32 16 idx a.

Definition mm512_permutexvar_epi8 (idx a : list Z) : list Z :=
  map (fun i => byte_at a (Z.to_nat (Z.land i 63))) idx.

(** * The vector versions *)

Definition byte_interleave_sse4_1 (A : list Z) : list Z :=
  let pshufbcnst_0 := mm_set_epi8 [15; 7; 11; 3; 13; 5; 9; 1; 14; 6; 10; 2; 12; 4; 8; 0] in
  let pshufbcnst_1 := mm_set_epi8 [13; 5; 9; 1; 15; 7; 11; 3; 12; 4; 8; 0; 14; 6; 10; 2] in
  let pshufbcnst_2 := mm_set_epi8 [11; 3; 15; 7; 9; 1; 13; 5; 10; 2; 14; 6; 8; 0; 12; 4] in
  let pshufbcnst_3 := mm_set_epi8 [9; 1; 13; 5; 11; 3; 15; 7; 8; 0; 12; 4; 10; 2; 14; 6] in
  let B0 := lane 16 A 0 in
  let B1 := lane 16 A 1 in
  let B2 := lane 16 A 2 in
  let B3 := lane 16 A 3 in
  let B1 := mm_shuffle_ps B1 B1 0xB1 in
  let B3 := mm_shuffle_ps B3 B3 0xB1 in
  let T0 := mm_blend_ps B0 B1 0xA in
  let T1 := mm_blend_ps B2 B3 0xA in
  let T2 := mm_blend_ps B0 B1 0x5 in
  let T3 := mm_blend_ps B2 B3 0x5 in
  let B0 := mm_shuffle_epi8 T0 pshufbcnst_0 in
  let B1 := mm_shuffle_epi8 T1 pshufbcnst_1 in
  let B2 := mm_shuffle_epi8 T2 pshufbcnst_2 in
  let B3 := mm_shuffle_epi8 T3 pshufbcnst_3 in
  let T0 := mm_blend_ps B0 B1 0xA in
  let T1 := mm_blend_ps B0 B1 0x5 in
  let T2 := mm_blend_ps B2 B3 0xA in
  let T3 := mm_blend_ps B2 B3 0x5 in
  let T1 := mm_shuffle_ps T1 T1 0xB1 in
  let T3 := mm_shuffle_ps T3 T3 0xB1 in
  T0 ++ T1 ++ T2 ++ T3.

Definition byte_interleave_avx2 (src1 : list Z) : list Z :=
  let tm := mm_set_epi8 [15; 11; 7; 3; 14; 10; 6; 2; 13; 9; 5; 1; 12; 8; 4; 0;
                         15; 11; 7; 3; 14; 10; 6; 2; 13; 9; 5; 1; 12; 8; 4; 0] in
  let vindex := [0; 8; 16; 24; 32; 40; 48; 56] in
  let perm := [0; 4; 1; 5; 2; 6; 3; 7] in
  let load0 := i32gather_epi32 src1 vindex in
  let load1 := i32gather_epi32 (drop 4 src1) vindex in
  let transpose0 := mm256_shuffle_epi8 load0 tm in
  let transpose1 := mm256_shuffle_epi8 load1 tm in
  mm256_permutevar8x32_epi32 transpose0 perm ++ mm256_permutevar8x32_epi32 transpose1 perm.

Definition transpose_mask : list Z :=
  mm512_set_epi64 [0x0f0b07030e0a0602; 0x0d0905010c080400; 0x0f0b07030e0a0602; 0x0d0905010c080400;
                   0x0f0b07030e0a0602; 0x0d0905010c080400; 0x0f0b07030e0a0602; 0x0d0905010c080400].

(** Storing or streaming the result is the same for its bytes. *)
Definition byte_interleave_avx512 (input : list Z) : list Z :=
  let mask := transpose_mask in
  let vindex := [0; 8; 16; 24; 32; 40; 48; 56; 4; 12; 20; 28; 36; 44; 52; 60] in
  let perm := [0; 4; 1; 5; 2; 6; 3; 7; 8; 12; 9; 13; 10; 14; 11; 15] in
  let load := i32gather_epi32 input vindex in
  let transpose := mm512_shuffle_epi8 load mask in
  mm512_permutexvar_epi32 perm transpose.

Definition byte_interleave_avx512vbmi (src : list Z) : list Z :=
  let trans8x8shuf := transpose_mask in
  mm512_permutexvar_epi8 trans8x8shuf src.

(** * Blocks *)

(** [_mm_set_epi64x] takes the high word first. *)
Definition mm_set_epi64x (e1 e0 : list Z) : list Z := e0 ++ e1.

Definition write_block_sse4_1 (data : list Z) : list Z :=
  let d := lane 8 data in
  mm_set_epi64x (d 0%nat) (d 1%nat) ++ mm_set_epi64x (d 2%nat) (d 3%nat)
  ++ mm_set_epi64x (d 4%nat) (d 5%nat) ++ mm_set_epi64x (d 6%nat) (d 7%nat).

Definition write_block_avx512 (data : list Z) : list Z :=
  let d := lane 8 data in
  d 0%nat ++ d 1%nat ++ d 2%nat ++ d 3%nat ++ d 4%nat ++ d 5%nat ++ d 6%nat ++ d 7%nat.

Definition read_block_avx512 (zmm : list Z) : list Z := flat_map (lane 8 zmm) (seq 0 8).

(** * Theorems *)

Lemma list_64 {A} (l : list A) : length l = 64%nat -> exists f, l = map f (seq 0 64).
Proof.
  intros H. destruct l as [| a l]; [done |]. exists (fun i => nth i (a :: l) a). apply list_eq. intros i.
  change (map ?f ?k) with (f <$> k). rewrite list_lookup_fmap. destruct (decide (i < 64)%nat).
  - rewrite lookup_seq_lt by done. cbn [fmap option_fmap option_map Nat.add].
    destruct (lookup_lt_is_Some_2 (a :: l) i) as [x E]; [lia |]. by rewrite E, (nth_lookup_Some _ _ _ _ E).
  - rewrite lookup_seq_ge by lia. rewrite lookup_ge_None_2 by lia. done.
Qed.

Lemma interleave_vectors (input : list Z) : length input = 64%nat ->
  byte_interleave_sse4_1 input = byte_interleave input /\ byte_interleave_avx2 input = byte_interleave input
  /\ byte_interleave_avx512 input = byte_interleave input /\ byte_interleave (byte_interleave input) = input.
Proof. intros H. apply list_64 in H as [f ->]. split_and!; vm_compute; reflexivity. Qed.

Lemma byte_interleave_at (input : list Z) i j : (i < 8)%nat -> (j < 8)%nat ->
  byte_at (byte_interleave input) (8 * i + j) = byte_at input (8 * j + i).
Proof.
  intros Hi Hj. do 8 (destruct i as [| i]; [do 8 (destruct j as [| j]; [reflexivity |]); lia |]). lia.
Qed.

Lemma length_byte_interleave input : length (byte_interleave input) = 64%nat.
Proof. done. Qed.

(** The SSE4.1, AVX2 and AVX512 versions compute the reference
    interleaving, which is the transposition of an 8 by 8 matrix of bytes and
    its own inverse. *)
Theorem interleave_variants (input : list Z) : length input = 64%nat ->
  byte_interleave_sse4_1 input = byte_interleave input
  /\ byte_interleave_avx2 input = byte_interleave input
  /\ byte_interleave_avx512 input = byte_interleave input
  /\ byte_interleave (byte_interleave input) = input
  /\ forall i j, (i < 8)%nat -> (j < 8)%nat -> byte_at (byte_interleave input) (8 * i + j) = byte_at input (8 * j + i).
Proof.
  intros H. destruct (interleave_vectors input H) as (? & ? & ? & ?). split_and!; [done.. |]. apply byte_interleave_at.
Qed.

Lemma interleave_variants_witness :
  byte_interleave_avx512 (map Z.of_nat (seq 0 64)) = byte_interleave (map Z.of_nat (seq 0 64)).
Proof. apply (interleave_variants (map Z.of_nat (seq 0 64))). reflexivity. Defined.

(** The VBMI version does not interleave: it reads the first 16 bytes only,
    whatever the others are.  The SSE block write swaps the two words of each
    pair, the other block operations move the words as they are. *)
Theorem wrong_vector_versions (input : list Z) : length input = 64%nat ->
  byte_interleave_avx512vbmi input = byte_interleave_avx512vbmi (take 16 input ++ replicate 48 0)
  /\ write_block_avx512 input = input /\ read_block_avx512 input = input
  /\ forall k, (k < 4)%nat ->
       lane 8 (write_block_sse4_1 input) (2 * k) = lane 8 input (2 * k + 1)
       /\ lane 8 (write_block_sse4_1 input) (2 * k + 1) = lane 8 input (2 * k).
Proof.
  intros H. apply list_64 in H as [f ->]. split_and!; [vm_compute; reflexivity.. |].
  intros k Hk. do 4 (destruct k as [| k]; [split; vm_compute; reflexivity |]). lia.
Qed.

Lemma wrong_vector_versions_witness :
  byte_interleave_avx512vbmi (map Z.of_nat (seq 0 64)) = byte_interleave_avx512vbmi (map Z.of_nat (seq 0 16) ++ replicate 48 0)
  /\ byte_interleave_avx512vbmi (map Z.of_nat (seq 0 64)) <> byte_interleave (map Z.of_nat (seq 0 64)).
Proof.
  split; [| vm_compute; discriminate].
  exact (proj1 (wrong_vector_versions (map Z.of_nat (seq 0 64)) eq_refl)).
Defined.
