(* ===== verification/SgIterator.v ===== *)
(** Iterators over scattered host buffers, for the transfers of the Xeon backend
    (library/src/backends/hw/src/mappings/xeon_sp/xeon_sp_translation.c).

    The host memory is a function from addresses to bytes; [zeros] is the
    address of the static array of 4096 bytes the transfers are padded with. *)
From stdpp Require Import list.
From S2P Require Import Prelude ScatterGather.

(** * Host memory *)

Definition memory := Z -> Z.

(** [n] addresses in a row. *)
Definition run (a : Z) (n : nat) : list Z := map (fun k => a + Z.of_nat k) (seq 0 n).

Definition read (m : memory) (a : Z) (n : nat) : list Z := map m (run a n).

Definition set_byte (m : memory) (a b : Z) : memory := fun x => if x =? a then b else m x.

(** Bytes written one by one at some addresses. *)
Fixpoint write_bytes (m : memory) (l : list Z) (bytes : list Z) : memory :=
  match l, bytes with
  | a :: l, b :: bytes => write_bytes (set_byte m a b) l bytes
  | _, _ => m
  end.

Definition write (m : memory) (a : Z) (l : list Z) : memory :=
  write_bytes m (run a (length l)) l.

(** * Iterators *)

Section iterator.
Variable zeros : Z.

(** The pointers into the arrays of blocks are positions. *)
Record sg_xfer_buffer_iterator := {
  it_blocks_addr : list Z;
  it_blocks_length : list Z;
  current_block_length : Z;
  current_block_addr : Z;
  current_block_index : Z;
  blocks_ptr : Z;
  blocks_ptr_end : Z }.

(** The place after the last block gets the padding, once the first block has
    been read. *)
Definition init_sg_xfer_buffer_iterator (sg_buff : sg_xfer_buffer) : option sg_xfer_buffer_iterator :=
  len ← load (blocks_length sg_buff) 0;
  addr ← load (blocks_addr sg_buff) 0;
  lengths ← store (blocks_length sg_buff) (nr_blocks sg_buff) 4096;
  addrs ← store (blocks_addr sg_buff) (nr_blocks sg_buff) zeros;
  Some {| it_blocks_addr := addrs; it_blocks_length := lengths; current_block_length := len;
          current_block_addr := addr; current_block_index := 0; blocks_ptr := 0; blocks_ptr_end := nr_blocks sg_buff |}.

Definition set_index (it : sg_xfer_buffer_iterator) (i : Z) : sg_xfer_buffer_iterator :=
  {| it_blocks_addr := it_blocks_addr it; it_blocks_length := it_blocks_length it;
     current_block_length := current_block_length it; current_block_addr := current_block_addr it;
     current_block_index := i; blocks_ptr := blocks_ptr it; blocks_ptr_end := blocks_ptr_end it |}.

Definition go_to_next_block (it : sg_xfer_buffer_iterator) : option sg_xfer_buffer_iterator :=
  if blocks_ptr_end it - blocks_ptr it =? 0 then Some (set_index it 0)
  else
    addr ← load (it_blocks_addr it) (blocks_ptr it + 1);
    len ← load (it_blocks_length it) (blocks_ptr it + 1);
    Some {| it_blocks_addr := it_blocks_addr it; it_blocks_length := it_blocks_length it;
            current_block_length := len; current_block_addr := addr; current_block_index := 0;
            blocks_ptr := blocks_ptr it + 1; blocks_ptr_end := blocks_ptr_end it |}.

(** The address of the byte, and the iterator after it. *)
Definition get_next_byte (it : sg_xfer_buffer_iterator) : option (Z * sg_xfer_buffer_iterator) :=
  let byte := current_block_addr it + current_block_index it in
  let index := u32 (current_block_index it + 1) in
  let it := set_index it index in
  it ← (if index =? current_block_length it
        then if negb (blocks_ptr it =? blocks_ptr_end it) then go_to_next_block it else Some (set_index it 0)
        else Some it);
  Some (byte, it).

(** Eight bytes one by one: their addresses. *)
Fixpoint next_bytes (n : nat) (it : sg_xfer_buffer_iterator) : option (list Z * sg_xfer_buffer_iterator) :=
  match n with
  | O => Some ([], it)
  | S n => '(a, it) ← get_next_byte it; '(l, it) ← next_bytes n it; Some (a :: l, it)
  end.

Definition get_next_eight_bytes (m : memory) (it : sg_xfer_buffer_iterator) : option (list Z * sg_xfer_buffer_iterator) :=
  let length := current_block_length it in
  let current := current_block_index it in
  let word := read m (current_block_addr it + current) 8 in
  if u32 (8 + current) <? length then Some (word, set_index it (u32 (current + 8)))
  else if length =? u32 (8 + current) then it ← go_to_next_block it; Some (word, it)
  else '(l, it) ← next_bytes 8 it; Some (map m l, it).

Definition write_next_eight_bytes (m : memory) (it : sg_xfer_buffer_iterator) (bytes : list Z)
  : option (memory * sg_xfer_buffer_iterator) :=
  if blocks_ptr it =? blocks_ptr_end it then Some (m, it)
  else
    let length := current_block_length it in
    let current := current_block_index it in
    let m' := write m (current_block_addr it + current) bytes in
    if u32 (8 + current) <? length then Some (m', set_index it (u32 (current + 8)))
    else if length =? u32 (8 + current) then it ← go_to_next_block it; Some (m', it)
    else '(l, it) ← next_bytes 8 it; Some (write_bytes m l bytes, it).

(** The words written in turn. *)
Fixpoint write_words (m : memory) (it : sg_xfer_buffer_iterator) (ws : list (list Z)) : option memory :=
  match ws with
  | [] => Some m
  | w :: ws => '(m, it) ← write_next_eight_bytes m it w; write_words m it ws
  end.

(** The words read in turn. *)
Fixpoint next_words (n : nat) (m : memory) (it : sg_xfer_buffer_iterator) : option (list (list Z)) :=
  match n with
  | O => Some []
  | S n => '(w, it) ← get_next_eight_bytes m it; ws ← next_words n m it; Some (w :: ws)
  end.
End iterator.

(** * What an iterator has left *)

Definition block_addrs (b : Z * Z) : list Z := run b.1 (Z.to_nat b.2).

(** The addresses of the bytes of blocks, in order. *)
Definition addrs_of (l : list (Z * Z)) : list Z := flat_map block_addrs l.

(** [blocks]: the current block, entered at the index, and the following ones. *)
Record it_at (zeros : Z) (it : sg_xfer_buffer_iterator) (blocks : list (Z * Z)) : Prop := {
  at_ptr : 0 <= blocks_ptr it <= blocks_ptr_end it;
  at_blocks : blocks = take (Z.to_nat (blocks_ptr_end it - blocks_ptr it))
                            (drop (Z.to_nat (blocks_ptr it)) (combine (it_blocks_addr it) (it_blocks_length it)));
  at_count : Z.of_nat (length blocks) = blocks_ptr_end it - blocks_ptr it;
  at_end : combine (it_blocks_addr it) (it_blocks_length it) !! Z.to_nat (blocks_ptr_end it) = Some (zeros, 4096);
  at_current : list.head (blocks ++ [(zeros, 4096)]) = Some (current_block_addr it, current_block_length it);
  at_index : 0 <= current_block_index it < current_block_length it;
  at_sizes : Forall (fun b => 0 < b.2 < 2 ^ 31) blocks }.

Definition left_of (it : sg_xfer_buffer_iterator) (blocks : list (Z * Z)) : list Z :=
  drop (Z.to_nat (current_block_index it)) (addrs_of blocks).

Lemma combine_lookup {A B} (l : list A) (k : list B) i x y :
  combine l k !! i = Some (x, y) <-> l !! i = Some x /\ k !! i = Some y.
Proof.
  revert k i. induction l as [| a l IH]; intros [| b k] [| i]; cbn; split; try done; try (by intros [? ?]).
  - by intros [= -> ->].
  - by intros [[= ->] [= ->]].
  - apply IH.
  - apply IH.
Qed.

Lemma length_run a n : length (run a n) = n.
Proof. unfold run. by rewrite length_map, length_seq. Qed.

Lemma run_lookup a n i : (i < n)%nat -> run a n !! i = Some (a + Z.of_nat i).
Proof.
  intros Hi. unfold run. change (map ?f ?l) with (f <$> l). rewrite list_lookup_fmap, lookup_seq_lt by done. done.
Qed.

Lemma run_cons a n : run a (S n) = a :: run (a + 1) n.
Proof. unfold run. cbn [seq map]. f_equal; [lia |]. rewrite <- seq_shift, map_map. apply map_ext. lia. Qed.

Lemma length_block_addrs b : length (block_addrs b) = Z.to_nat b.2.
Proof. apply length_run. Qed.

Lemma block_addrs_lookup b i : 0 <= i < b.2 -> block_addrs b !! Z.to_nat i = Some (b.1 + i).
Proof.
  intros Hi. unfold block_addrs. rewrite run_lookup by lia. f_equal. lia.
Qed.

(** Entering the next block. *)
Lemma go_to_next_spec zeros it b blocks : it_at zeros it (b :: blocks) ->
  exists it', go_to_next_block it = Some it' /\ it_at zeros it' blocks /\ current_block_index it' = 0.
Proof.
  intros [Hp Hb Hc He Hcur Hi Hs]. cbn [length] in Hc. unfold go_to_next_block.
  destruct (Z.eqb_spec (blocks_ptr_end it - blocks_ptr it) 0); [lia |].
  set (l := combine (it_blocks_addr it) (it_blocks_length it)) in *.
  assert (Z.to_nat (blocks_ptr_end it - blocks_ptr it) = S (length blocks)) as En by lia.
  assert (l !! Z.to_nat (blocks_ptr it) = Some b) as Eb.
  { apply (f_equal (fun l => l !! 0%nat)) in Hb. rewrite lookup_take_lt, lookup_drop, Nat.add_0_r in Hb by lia. done. }
  rewrite En, (drop_S _ _ _ Eb) in Hb. cbn [take] in Hb. injection Hb as Hb.
  assert (exists nb, l !! Z.to_nat (blocks_ptr it + 1) = Some nb /\ list.head (blocks ++ [(zeros, 4096)]) = Some nb
    /\ 0 < nb.2) as ([na nl] & En1 & Eh & Hpos).
  { destruct blocks as [| b' blocks].
    - exists (zeros, 4096). split_and!; [| done | cbn; lia]. rewrite <- He. f_equal. cbn in Hc. lia.
    - exists b'. apply list.Forall_cons in Hs as [_ Hs]. apply list.Forall_cons in Hs as [Hs _]. split_and!; [| done | lia].
      apply (f_equal (fun l => l !! 0%nat)) in Hb. rewrite lookup_take_lt, lookup_drop, Nat.add_0_r in Hb by (cbn; lia).
      replace (Z.to_nat (blocks_ptr it + 1)) with (S (Z.to_nat (blocks_ptr it))) by lia. done. }
  pose proof En1 as [Ea El]%combine_lookup.
  unfold load. destruct (Z.leb_spec 0 (blocks_ptr it + 1)); [| lia]. rewrite Ea, El. cbn [mbind option_bind].
  eexists. split; [reflexivity |]. split; [| done].
  split; cbn [blocks_ptr blocks_ptr_end it_blocks_addr it_blocks_length current_block_addr current_block_length current_block_index].
  - lia.
  - rewrite Hb. f_equal; [lia |]. f_equal. lia.
  - lia.
  - exact He.
  - exact Eh.
  - cbn in Hpos. lia.
  - by apply list.Forall_cons in Hs as [_ Hs].
Qed.

Lemma go_to_next_end zeros it : it_at zeros it [] -> go_to_next_block it = Some (set_index it 0).
Proof. intros [Hp _ Hc _ _ _ _]. cbn in Hc. unfold go_to_next_block. by replace (blocks_ptr_end it - blocks_ptr it) with 0 by lia. Qed.

Lemma it_at_index zeros it blocks i : it_at zeros it blocks -> 0 <= i < current_block_length it -> it_at zeros (set_index it i) blocks.
Proof. intros [Hp Hb Hc He Hcur Hi Hs] Hi'. by split. Qed.

(** The current block. *)
Lemma current_first zeros it b blocks : it_at zeros it (b :: blocks) ->
  b = (current_block_addr it, current_block_length it) /\ current_block_length it < 2 ^ 31.
Proof.
  intros [_ _ _ _ Hcur _ Hs]. cbn in Hcur. injection Hcur as ->. split; [done |].
  apply list.Forall_cons in Hs as [Hs _]. cbn in Hs. lia.
Qed.

Lemma current_padding zeros it : it_at zeros it [] -> current_block_addr it = zeros /\ current_block_length it = 4096.
Proof. intros [_ _ _ _ Hcur _ _]. cbn in Hcur. by injection Hcur as -> ->. Qed.

Lemma left_next it b blocks : left_of (set_index it b.2) (b :: blocks) = addrs_of blocks.
Proof.
  unfold left_of. cbn [current_block_index set_index addrs_of flat_map].
  rewrite drop_app_ge by (rewrite length_block_addrs; lia). rewrite length_block_addrs, Nat.sub_diag. done.
Qed.

(** [n] bytes inside the current block. *)
Lemma left_advance zeros it b blocks n : it_at zeros it (b :: blocks) ->
  current_block_index it + Z.of_nat n <= current_block_length it ->
  left_of it (b :: blocks)
  = run (current_block_addr it + current_block_index it) n
    ++ left_of (set_index it (current_block_index it + Z.of_nat n)) (b :: blocks).
Proof.
  intros Hat Hn. pose proof (current_first _ _ _ _ Hat) as [-> _]. destruct Hat as [_ _ _ _ _ Hi _].
  unfold left_of. cbn [current_block_index set_index addrs_of flat_map].
  set (l := block_addrs _). assert (length l = Z.to_nat (current_block_length it)) as El by apply length_block_addrs.
  rewrite !drop_app_le by lia. rewrite app_assoc. f_equal.
  rewrite Z2Nat.inj_add, Nat2Z.id by lia. rewrite <- drop_drop, <- (take_drop n (drop (Z.to_nat (current_block_index it)) l)) at 1.
  f_equal. apply list_eq. intros k.
  destruct (Nat.lt_ge_cases k n) as [Hk | Hk].
  - rewrite lookup_take_lt, lookup_drop, run_lookup by done. unfold l.
    replace (Z.to_nat (current_block_index it) + k)%nat with (Z.to_nat (current_block_index it + Z.of_nat k)) by lia.
    rewrite block_addrs_lookup by (cbn; lia). cbn. f_equal. lia.
  - rewrite !lookup_ge_None_2; [done | rewrite length_run; lia | rewrite length_take; lia].
Qed.

(** * Reading *)

(** An address of the padding. *)
Definition in_padding (zeros a : Z) : Prop := zeros <= a < zeros + 4096.

(** [l] has the next [n] addresses, and the padding once no block is left. *)
Record took (zeros : Z) (n : nat) (left : list Z) (l : list Z) (left' : list Z) : Prop := {
  took_pads : exists pads, l = take n left ++ pads /\ Forall (in_padding zeros) pads;
  took_length : length l = n;
  took_left : left' = drop n left }.

(** [n] consecutive bytes of the current block, and the position after them. *)
Definition advance (it : sg_xfer_buffer_iterator) (n : Z) : option sg_xfer_buffer_iterator :=
  if current_block_index it + n <? current_block_length it then Some (set_index it (current_block_index it + n))
  else go_to_next_block it.

Lemma advance_took zeros it blocks n : it_at zeros it blocks -> (0 < n)%nat ->
  current_block_index it + Z.of_nat n <= current_block_length it ->
  exists it' blocks', advance it (Z.of_nat n) = Some it' /\ it_at zeros it' blocks' /\
    took zeros n (left_of it blocks)
      (run (current_block_addr it + current_block_index it) n) (left_of it' blocks').
Proof.
  intros Hat Hpos Hn. unfold advance. pose proof (at_index _ _ _ Hat) as Hi.
  set (l := run _ n). assert (length l = n) as El by apply length_run.
  destruct blocks as [| b blocks].
  - pose proof (current_padding _ _ Hat) as [Ea Ec].
    assert (Forall (in_padding zeros) l).
    { apply list.Forall_forall. intros x Hx. apply list_elem_of_In, in_map_iff in Hx as (k & <- & Hk%in_seq).
      unfold in_padding. lia. }
    assert (forall it', took zeros n (left_of it []) l (left_of it' [])) as Ht.
    { intros it'. unfold left_of. cbn [addrs_of flat_map]. rewrite !drop_nil. split; [| done | by rewrite drop_nil].
      exists l. by rewrite take_nil. }
    destruct (Z.ltb_spec (current_block_index it + Z.of_nat n) (current_block_length it)).
    + eexists _, []. split; [done |]. split; [apply it_at_index; [done | lia] | apply Ht].
    + rewrite (go_to_next_end zeros) by done. eexists _, []. split; [done |].
      split; [apply it_at_index; [done | lia] | apply Ht].
  - pose proof (left_advance _ _ _ _ n Hat Hn) as El'. fold l in El'.
    assert (forall left', left_of (set_index it (current_block_index it + Z.of_nat n)) (b :: blocks) = left' ->
      took zeros n (left_of it (b :: blocks)) l left') as Ht.
    { intros left' <-. rewrite El'. split; [| done | by rewrite drop_app_length' by done].
      exists []. by rewrite app_nil_r, take_app_length' by done. }
    destruct (Z.ltb_spec (current_block_index it + Z.of_nat n) (current_block_length it)).
    + eexists _, (b :: blocks). split; [done |]. split; [apply it_at_index; [done | lia] | by apply Ht].
    + pose proof (current_first _ _ _ _ Hat) as [Eb _].
      destruct (go_to_next_spec _ _ _ _ Hat) as (it' & -> & Hat' & E0).
      exists it', blocks. split; [done |]. split; [done |]. apply Ht.
      replace (current_block_index it + Z.of_nat n) with b.2 by (rewrite Eb; cbn; lia). rewrite left_next.
      unfold left_of. by rewrite E0.
Qed.

Lemma index_u32 zeros it blocks n : it_at zeros it blocks -> 0 <= n <= 8 ->
  u32 (current_block_index it + n) = current_block_index it + n /\ u32 (n + current_block_index it) = current_block_index it + n.
Proof.
  intros Hat Hn. rewrite (Z.add_comm n). unfold u32. rewrite Z.mod_small; [done |].
  pose proof (at_index _ _ _ Hat). destruct blocks as [| b blocks].
  - pose proof (current_padding _ _ Hat). lia.
  - pose proof (current_first _ _ _ _ Hat). lia.
Qed.

Lemma get_next_byte_advance zeros it blocks : it_at zeros it blocks ->
  get_next_byte it = (it' ← advance it 1; Some (current_block_addr it + current_block_index it, it')).
Proof.
  intros Hat. pose proof (at_index _ _ _ Hat) as Hi. unfold get_next_byte, advance.
  destruct (index_u32 _ _ _ 1 Hat) as [-> _]; [lia |]. cbn [current_block_length set_index blocks_ptr blocks_ptr_end].
  destruct (Z.ltb_spec (current_block_index it + 1) (current_block_length it)).
  - by destruct (Z.eqb_spec (current_block_index it + 1) (current_block_length it)); [lia |].
  - destruct (Z.eqb_spec (current_block_index it + 1) (current_block_length it)); [| lia].
    unfold go_to_next_block. cbn [blocks_ptr blocks_ptr_end it_blocks_addr it_blocks_length set_index].
    destruct (Z.eqb_spec (blocks_ptr it) (blocks_ptr_end it)) as [E | E]; cbn [negb].
    + by rewrite E, Z.sub_diag.
    + by destruct (Z.eqb_spec (blocks_ptr_end it - blocks_ptr it) 0); [lia |].
Qed.

Lemma get_next_byte_spec zeros it blocks : it_at zeros it blocks -> exists a it' blocks',
  get_next_byte it = Some (a, it') /\ it_at zeros it' blocks' /\ took zeros 1 (left_of it blocks) [a] (left_of it' blocks').
Proof.
  intros Hat. pose proof (at_index _ _ _ Hat) as Hi. rewrite (get_next_byte_advance zeros it blocks) by done.
  destruct (advance_took _ _ _ 1 Hat) as (it' & blocks' & Hadv & Hat' & Ht); [lia.. |].
  change (Z.of_nat 1) with 1 in Hadv. rewrite Hadv. rewrite run_cons in Ht. by eexists _, it', blocks'.
Qed.

(** Bytes of one block. *)
Lemma next_bytes_run zeros n it blocks : it_at zeros it blocks ->
  current_block_index it + Z.of_nat (S n) <= current_block_length it ->
  next_bytes (S n) it = (it' ← advance it (Z.of_nat (S n));
    Some (run (current_block_addr it + current_block_index it) (S n), it')).
Proof.
  revert it. induction n as [| n IH]; intros it Hat Hn; pose proof (at_index _ _ _ Hat) as Hi.
  - cbn [next_bytes]. rewrite (get_next_byte_advance _ _ _ Hat). change (Z.of_nat 1) with 1. rewrite run_cons.
    by destruct (advance it 1).
  - remember (S n) as k eqn:Ek. cbn [next_bytes]. rewrite (get_next_byte_advance _ _ _ Hat). unfold advance at 1.
    destruct (Z.ltb_spec (current_block_index it + 1) (current_block_length it)); [| lia]. cbn [mbind option_bind].
    rewrite IH; [| apply (it_at_index _ _ _ _ Hat); lia | cbn; lia].
    unfold advance. cbn [current_block_index current_block_addr current_block_length set_index].
    replace (current_block_index it + 1 + Z.of_nat k) with (current_block_index it + Z.of_nat (S k)) by lia.
    rewrite (run_cons _ k), Z.add_assoc. change (go_to_next_block (set_index it _)) with (go_to_next_block it).
    by destruct (_ <? _); [| destruct (go_to_next_block it)].
Qed.

Lemma took_trans zeros n k left l left' l' left'' : took zeros n left l left' -> took zeros k left' l' left'' ->
  took zeros (n + k) left (l ++ l') left''.
Proof.
  intros [(pads & -> & Hp) El ->] [(pads' & -> & Hp') El' ->]. split.
  - destruct (Nat.le_gt_cases n (length left)) as [Hn | Hn].
    + rewrite length_app, length_take in El. assert (pads = []) as -> by (apply length_zero_iff_nil; lia).
      exists pads'. rewrite app_nil_r, <- (take_take_drop left n k), app_assoc. done.
    + exists (pads ++ pads'). rewrite (drop_ge left), take_nil by lia. rewrite !take_ge by lia. cbn. rewrite <- app_assoc.
      split; [done |]. by apply list.Forall_app.
  - rewrite length_app. lia.
  - by rewrite drop_drop.
Qed.

Lemma next_bytes_spec zeros n it blocks : it_at zeros it blocks -> exists l it' blocks',
  next_bytes n it = Some (l, it') /\ it_at zeros it' blocks' /\ took zeros n (left_of it blocks) l (left_of it' blocks').
Proof.
  revert it blocks. induction n as [| n IH]; intros it blocks Hat.
  - exists [], it, blocks. split; [done |]. split; [done |]. split; [| done..]. exists []. by rewrite take_0.
  - destruct (get_next_byte_spec _ _ _ Hat) as (a & it1 & blocks1 & E1 & Hat1 & H1).
    destruct (IH _ _ Hat1) as (l & it2 & blocks2 & E2 & Hat2 & H2).
    exists (a :: l), it2, blocks2. cbn [next_bytes]. rewrite E1. cbn. rewrite E2. split; [done |]. split; [done |].
    apply (took_trans _ 1 n _ [a] _ _ _ H1 H2).
Qed.

(** A word is the next eight bytes, whichever branch reads it. *)
Lemma get_next_eight_bytes_spec zeros m it blocks : it_at zeros it blocks -> exists l it' blocks',
  get_next_eight_bytes m it = Some (map m l, it') /\ it_at zeros it' blocks' /\
  took zeros 8 (left_of it blocks) l (left_of it' blocks').
Proof.
  intros Hat. pose proof (at_index _ _ _ Hat) as Hi. unfold get_next_eight_bytes.
  destruct (index_u32 _ _ _ 8 Hat) as [-> ->]; [lia |].
  destruct (Z.leb_spec (current_block_index it + 8) (current_block_length it)) as [Hle | Hgt].
  - destruct (advance_took _ _ _ 8 Hat) as (it' & blocks' & Hadv & Hat' & Ht); [lia.. |].
    eexists _, it', blocks'. split; [| by split]. unfold read. unfold advance in Hadv. change (Z.of_nat 8) with 8 in Hadv.
    destruct (Z.ltb_spec (current_block_index it + 8) (current_block_length it)).
    + by injection Hadv as <-.
    + destruct (Z.eqb_spec (current_block_length it) (current_block_index it + 8)); [| lia]. by rewrite Hadv.
  - destruct (Z.ltb_spec (current_block_index it + 8) (current_block_length it)); [lia |].
    destruct (Z.eqb_spec (current_block_length it) (current_block_index it + 8)); [lia |].
    destruct (next_bytes_spec _ 8 _ _ Hat) as (l & it' & blocks' & E & Hat' & Ht).
    exists l, it', blocks'. rewrite E. by split.
Qed.

Lemma next_words_addrs zeros m n it blocks : it_at zeros it blocks -> exists ws l left',
  next_words n m it = Some ws /\ concat ws = map m l /\ Forall (fun w => length w = 8%nat) ws /\
  took zeros (8 * n) (left_of it blocks) l left'.
Proof.
  revert it blocks. induction n as [| n IH]; intros it blocks Hat.
  - exists [], [], (left_of it blocks). split_and!; [done.. |]. split; [| done..]. exists []. by rewrite take_0.
  - destruct (get_next_eight_bytes_spec _ m _ _ Hat) as (l & it1 & blocks1 & E1 & Hat1 & H1).
    destruct (IH _ _ Hat1) as (ws & l' & left' & E2 & Ec & Hl & H2).
    exists (map m l :: ws), (l ++ l'), left'. cbn [next_words]. rewrite E1. cbn [mbind option_bind]. rewrite E2.
    split_and!; [done | cbn; by rewrite Ec, map_app | |].
    + constructor; [rewrite length_map; apply H1 | done].
    + replace (8 * S n)%nat with (8 + 8 * n)%nat by lia. by eapply took_trans.
Qed.

(** * A fresh iterator *)

(** The blocks of a buffer. *)
Definition blocks_of (sg : sg_xfer_buffer) : list (Z * Z) :=
  take (Z.to_nat (nr_blocks sg)) (combine (blocks_addr sg) (blocks_length sg)).

(** A buffer with room for the padding after its last block. *)
Record with_room (sg : sg_xfer_buffer) : Prop := {
  room_some : 0 < nr_blocks sg;
  room_addr : nr_blocks sg < Z.of_nat (length (blocks_addr sg));
  room_length : nr_blocks sg < Z.of_nat (length (blocks_length sg));
  room_sizes : Forall (fun b => 0 < b.2 < 2 ^ 31) (blocks_of sg) }.

Lemma load_lt {A} (l : list A) i : 0 <= i < Z.of_nat (length l) -> exists x, load l i = Some x /\ l !! Z.to_nat i = Some x.
Proof.
  intros Hi. unfold load. destruct (Z.leb_spec 0 i); [| lia].
  destruct (lookup_lt_is_Some_2 l (Z.to_nat i)) as [x Hx]; [lia |]. by exists x.
Qed.

Lemma init_at zeros sg : with_room sg -> exists it, init_sg_xfer_buffer_iterator zeros sg = Some it /\
  it_at zeros it (blocks_of sg) /\ left_of it (blocks_of sg) = addrs_of (blocks_of sg).
Proof.
  intros [Hn Ha Hl Hs]. unfold init_sg_xfer_buffer_iterator.
  destruct (load_lt (blocks_length sg) 0) as (len & -> & El); [lia |].
  destruct (load_lt (blocks_addr sg) 0) as (addr & -> & Ea); [lia |]. cbn [mbind option_bind].
  rewrite !store_insert by lia. cbn [mbind option_bind]. eexists. split; [done |]. split; [| done].
  set (n := Z.to_nat (nr_blocks sg)) in *.
  assert (length (blocks_of sg) = n) as Elen by (unfold blocks_of; rewrite length_take, length_combine; lia).
  assert (blocks_of sg !! 0%nat = Some (addr, len)) as E0.
  { unfold blocks_of. rewrite lookup_take_lt by lia. by apply combine_lookup. }
  split; cbn [blocks_ptr blocks_ptr_end it_blocks_addr it_blocks_length current_block_addr current_block_length current_block_index].
  - lia.
  - rewrite combine_insert, Z.sub_0_r. change (Z.to_nat 0) with 0%nat. rewrite drop_0, take_insert_ge by lia. done.
  - lia.
  - rewrite combine_insert, list_lookup_insert_eq by (rewrite length_combine; lia). done.
  - destruct (blocks_of sg) as [| b bs]; [done |]. by injection E0 as ->.
  - pose proof (Forall_lookup_1 _ _ _ _ Hs E0) as H. cbn in H. lia.
  - done.
Qed.

(** The bytes of the blocks, padded with zeros, cut into [n] words. *)
Definition padded (m : memory) (n : nat) (l : list (Z * Z)) : list Z :=
  take (8 * n) (map m (addrs_of l)) ++ replicate (8 * n - length (addrs_of l)) 0.

Lemma took_padded zeros m n left l left' : took zeros n left l left' ->
  (forall a, in_padding zeros a -> m a = 0) -> map m l = take n (map m left) ++ replicate (n - length left) 0.
Proof.
  intros [(pads & -> & Hp) El ->] Hz. rewrite map_app. f_equal.
  - symmetry. exact (firstn_map m n left).
  - rewrite length_app, length_take in El. replace (n - length left)%nat with (length pads) by lia.
    clear El. induction Hp as [| a pads Ha _ IH]; [done |]. cbn. by rewrite Hz, IH.
Qed.

(** C17: the 64-bit words a transfer reads through a fresh iterator are the bytes of the blocks in order, across block
    boundaries wherever they fall, followed by zeros, whatever the number of words; no read leaves the blocks and
    the padding. *)
Theorem sg_words_refine_concatenation zeros m sg n : with_room sg -> (forall a, in_padding zeros a -> m a = 0) ->
  exists it ws, init_sg_xfer_buffer_iterator zeros sg = Some it /\ next_words n m it = Some ws /\
    Forall (fun w => length w = 8%nat) ws /\ concat ws = padded m n (blocks_of sg).
Proof.
  intros Hr Hz. destruct (init_at zeros sg Hr) as (it & E & Hat & El).
  destruct (next_words_addrs _ m n _ _ Hat) as (ws & l & left' & Ew & Ec & Hl & Ht). rewrite El in Ht.
  exists it, ws. split_and!; [done.. |]. rewrite Ec. by apply (took_padded zeros _ _ _ _ left').
Qed.

Definition two_blocks : sg_xfer_buffer :=
  {| max_nr_blocks := 2; blocks_addr := [100; 200; 0]; blocks_length := [3; 10; 0]; nr_blocks := 2 |}.

Lemma sg_words_refine_concatenation_witness : exists it ws,
  init_sg_xfer_buffer_iterator 10000 two_blocks = Some it /\ next_words 3 (fun a => if a <? 10000 then a else 0) it = Some ws /\
  Forall (fun w => length w = 8%nat) ws /\ concat ws = padded (fun a => if a <? 10000 then a else 0) 3 (blocks_of two_blocks).
Proof.
  apply (sg_words_refine_concatenation 10000 (fun a => if a <? 10000 then a else 0) two_blocks 3).
  - split; [done.. |]. repeat (constructor; [cbn; lia |]). constructor.
  - intros a [Ha _]. destruct (Z.ltb_spec a 10000); [lia | done].
Defined.

(** * Writing *)

Lemma write_bytes_app m l l' bytes bytes' : length l = length bytes ->
  write_bytes m (l ++ l') (bytes ++ bytes') = write_bytes (write_bytes m l bytes) l' bytes'.
Proof. revert m bytes. induction l as [| a l IH]; intros m [| b bytes] E; cbn in *; [done.. |]. apply IH. lia. Qed.

Lemma write_bytes_other m l bytes a : a ∉ l -> write_bytes m l bytes a = m a.
Proof.
  revert m bytes. induction l as [| x l IH]; intros m [| b bytes] Ha; [done.. |]. cbn.
  apply not_elem_of_cons in Ha as [Hx Ha]. rewrite IH by done. unfold set_byte. by destruct (Z.eqb_spec a x).
Qed.

Lemma write_bytes_back m l bytes : base.NoDup l ->
  map (write_bytes m l bytes) (take (length bytes) l) = take (length l) bytes.
Proof.
  intros Hl. revert m bytes. induction Hl as [| x l Hx Hl IH]; intros m [| b bytes]; [done.. |]. cbn.
  rewrite IH. f_equal. rewrite write_bytes_other by done. unfold set_byte. by rewrite Z.eqb_refl.
Qed.

(** A word goes to the next eight addresses, the padding included. *)
Lemma write_next_eight_bytes_spec zeros m it b blocks w : it_at zeros it (b :: blocks) -> length w = 8%nat ->
  exists l it' blocks', write_next_eight_bytes m it w = Some (write_bytes m l w, it') /\ it_at zeros it' blocks' /\
    took zeros 8 (left_of it (b :: blocks)) l (left_of it' blocks').
Proof.
  intros Hat Hw. pose proof (at_index _ _ _ Hat) as Hi. pose proof (at_count _ _ _ Hat) as Hc. cbn [length] in Hc.
  unfold write_next_eight_bytes. destruct (Z.eqb_spec (blocks_ptr it) (blocks_ptr_end it)); [lia |].
  destruct (index_u32 _ _ _ 8 Hat) as [-> ->]; [lia |].
  destruct (Z.leb_spec (current_block_index it + 8) (current_block_length it)) as [Hle | Hgt].
  - destruct (advance_took _ _ _ 8 Hat) as (it' & blocks' & Hadv & Hat' & Ht); [lia.. |].
    eexists _, it', blocks'. split; [| by split]. unfold write, advance in *. rewrite Hw. change (Z.of_nat 8) with 8 in Hadv.
    destruct (Z.ltb_spec (current_block_index it + 8) (current_block_length it)).
    + by injection Hadv as <-.
    + destruct (Z.eqb_spec (current_block_length it) (current_block_index it + 8)); [| lia]. by rewrite Hadv.
  - destruct (Z.ltb_spec (current_block_index it + 8) (current_block_length it)); [lia |].
    destruct (Z.eqb_spec (current_block_length it) (current_block_index it + 8)); [lia |].
    destruct (next_bytes_spec _ 8 _ _ Hat) as (l & it' & blocks' & E & Hat' & Ht).
    exists l, it', blocks'. rewrite E. by split.
Qed.

Lemma left_nonempty zeros it b blocks : it_at zeros it (b :: blocks) -> (0 < length (left_of it (b :: blocks)))%nat.
Proof.
  intros Hat. rewrite (left_advance _ _ _ _ 1 Hat); [cbn; lia |]. pose proof (at_index _ _ _ Hat). lia.
Qed.

Lemma write_words_spec zeros m it blocks ws : it_at zeros it blocks -> (8 | Z.of_nat (length (left_of it blocks))) ->
  Forall (fun w => length w = 8%nat) ws -> write_words m it ws = Some (write_bytes m (left_of it blocks) (concat ws)).
Proof.
  intros Hat H8 Hw. revert m it blocks Hat H8. induction Hw as [| w ws Hw _ IH]; intros m it blocks Hat H8.
  - cbn. by destruct (left_of it blocks).
  - cbn [write_words concat]. destruct blocks as [| b blocks].
    + pose proof (at_count _ _ _ Hat) as Hc. cbn in Hc. unfold write_next_eight_bytes.
      destruct (Z.eqb_spec (blocks_ptr it) (blocks_ptr_end it)); [| lia]. cbn [mbind option_bind].
      rewrite (IH _ _ _ Hat H8). unfold left_of. cbn [addrs_of flat_map]. by rewrite drop_nil.
    + pose proof (left_nonempty _ _ _ _ Hat) as Hpos.
      destruct (write_next_eight_bytes_spec _ m _ _ _ w Hat Hw) as (l & it' & blocks' & -> & Hat' & [(pads & -> & Hp) El Eleft]).
      cbn [mbind option_bind]. destruct H8 as [k Hk].
      assert (pads = []) as ->.
      { rewrite length_app, length_take in El. apply length_zero_iff_nil. lia. }
      rewrite app_nil_r in *. rewrite (IH _ _ _ Hat').
      * f_equal. rewrite Eleft, <- write_bytes_app by (rewrite Hw; done). by rewrite take_drop.
      * rewrite Eleft, length_drop. exists (k - 1). lia.
Qed.

(** The words a transfer brings back are scattered over the blocks in order, and nothing else of the host memory
    changes, when the blocks do not overlap and make whole words; what comes after the last block is dropped. *)
Theorem sg_words_scatter zeros m sg ws : with_room sg -> base.NoDup (addrs_of (blocks_of sg)) ->
  (8 | Z.of_nat (length (addrs_of (blocks_of sg)))) -> Forall (fun w => length w = 8%nat) ws ->
  exists it m', init_sg_xfer_buffer_iterator zeros sg = Some it /\ write_words m it ws = Some m' /\
    map m' (take (length (concat ws)) (addrs_of (blocks_of sg))) = take (length (addrs_of (blocks_of sg))) (concat ws) /\
    forall a, a ∉ addrs_of (blocks_of sg) -> m' a = m a.
Proof.
  intros Hr Hnd H8 Hw. destruct (init_at zeros sg Hr) as (it & E & Hat & El). rewrite <- El in *.
  eexists it, _. split; [done |]. split; [by eapply write_words_spec |].
  split; [by apply write_bytes_back | intros a Ha; by apply write_bytes_other].
Qed.

Definition three_blocks : sg_xfer_buffer :=
  {| max_nr_blocks := 3; blocks_addr := [100; 200; 300; 0]; blocks_length := [3; 10; 3; 0]; nr_blocks := 3 |}.

Lemma sg_words_scatter_witness : exists it m', init_sg_xfer_buffer_iterator 10000 three_blocks = Some it /\
  write_words (fun _ => 0) it [[1; 2; 3; 4; 5; 6; 7; 8]; [9; 10; 11; 12; 13; 14; 15; 16]] = Some m' /\
  map m' (take 16 (addrs_of (blocks_of three_blocks))) = [1; 2; 3; 4; 5; 6; 7; 8; 9; 10; 11; 12; 13; 14; 15; 16] /\
  forall a, a ∉ addrs_of (blocks_of three_blocks) -> m' a = 0.
Proof.
  apply (sg_words_scatter 10000 (fun _ => 0) three_blocks [[1; 2; 3; 4; 5; 6; 7; 8]; [9; 10; 11; 12; 13; 14; 15; 16]]).
  - split; [done.. |]. repeat (constructor; [cbn; lia |]). constructor.
  - refine (bool_decide_unpack _ _). vm_compute. exact I.
  - exists 2. reflexivity.
  - repeat constructor.
Defined.

(** Eight bytes across the end of the last block. *)
Lemma next_bytes_app n k it : next_bytes (n + k) it
  = ('(l, it) ← next_bytes n it; '(l', it) ← next_bytes k it; Some (l ++ l', it)).
Proof.
  revert it. induction n as [| n IH]; intros it; cbn [next_bytes Nat.add].
  - cbn. by destruct (next_bytes k it) as [[? ?] |].
  - destruct (get_next_byte it) as [[a it'] |]; [| done]. cbn [mbind option_bind]. rewrite IH.
    destruct (next_bytes n it') as [[l it2] |]; [| done]. cbn [mbind option_bind].
    by destruct (next_bytes k it2) as [[l' it3] |].
Qed.

Lemma next_bytes_partial zeros it b : it_at zeros it [b] ->
  let left := current_block_length it - current_block_index it in left < 8 ->
  exists it', next_bytes 8 it = Some (run (current_block_addr it + current_block_index it) (Z.to_nat left)
    ++ run zeros (8 - Z.to_nat left), it').
Proof.
  intros Hat left Hleft. pose proof (at_index _ _ _ Hat) as Hi.
  destruct (Z.to_nat left) as [| n] eqn:En; [lia |]. replace 8%nat with (S n + S (7 - S n))%nat by lia.
  rewrite next_bytes_app, (next_bytes_run _ _ _ _ Hat) by lia. unfold advance.
  destruct (Z.ltb_spec (current_block_index it + Z.of_nat (S n)) (current_block_length it)); [lia |].
  destruct (go_to_next_spec _ _ _ _ Hat) as (it1 & -> & Hat1 & E0). cbn [mbind option_bind].
  pose proof (current_padding _ _ Hat1) as [Ea Ec].
  rewrite (next_bytes_run _ _ _ _ Hat1) by lia. unfold advance.
  destruct (Z.ltb_spec (current_block_index it1 + Z.of_nat (S (7 - S n))) (current_block_length it1)); [| lia].
  cbn [mbind option_bind]. rewrite Ea, E0, Z.add_0_r. eexists. do 4 f_equal. lia.
Qed.

Lemma write_bytes_run m a l k : 0 <= k < Z.of_nat (length l) ->
  write_bytes m (run a (length l)) l (a + k) = nth (Z.to_nat k) l 0.
Proof.
  revert m a k. induction l as [| b l IH]; intros m a k Hk; [cbn in Hk; lia |]. cbn [length] in *. rewrite run_cons. cbn [write_bytes].
  destruct (Z.eq_dec k 0) as [-> | Hk0].
  - rewrite write_bytes_other.
    + unfold set_byte. destruct (Z.eqb_spec (a + 0) a); [done | lia].
    + intros (i & Hi & _)%list_elem_of_In%in_map_iff. lia.
  - replace (a + k) with (a + 1 + (k - 1)) by lia. rewrite IH by lia.
    replace (Z.to_nat k) with (S (Z.to_nat (k - 1))) by lia. done.
Qed.

(** When the last block ends inside a word, the write does not stop there: the rest of the word goes to the
    padding, from which every later transfer reads its zeros. *)
Theorem partial_last_word_corrupts_padding zeros m it b w : it_at zeros it [b] -> length w = 8%nat ->
  let left := current_block_length it - current_block_index it in left < 8 ->
  exists m' it', write_next_eight_bytes m it w = Some (m', it') /\
    forall k, 0 <= k < 8 - left -> m' (zeros + k) = nth (Z.to_nat (left + k)) w 0.
Proof.
  intros Hat Hw left Hleft. pose proof (at_index _ _ _ Hat) as Hi.
  destruct (next_bytes_partial _ _ _ Hat) as (it' & E); [fold left; lia |]. fold left in E.
  unfold write_next_eight_bytes. pose proof (at_count _ _ _ Hat) as Hc. cbn [length] in Hc.
  destruct (Z.eqb_spec (blocks_ptr it) (blocks_ptr_end it)); [lia |].
  destruct (index_u32 _ _ _ 8 Hat) as [-> ->]; [lia |].
  destruct (Z.ltb_spec (current_block_index it + 8) (current_block_length it)); [lia |].
  destruct (Z.eqb_spec (current_block_length it) (current_block_index it + 8)); [lia |].
  rewrite E. cbn [mbind option_bind]. eexists _, it'. split; [done |]. intros k Hk.
  rewrite <- (take_drop (Z.to_nat left) w) at 1. rewrite write_bytes_app.
  2: { rewrite length_run, length_take. lia. }
  replace (8 - Z.to_nat left)%nat with (length (drop (Z.to_nat left) w)) by (rewrite length_drop; lia).
  rewrite write_bytes_run by (rewrite length_drop; lia).
  rewrite <- (take_drop (Z.to_nat left) w) at 2. rewrite app_nth2; rewrite length_take; [f_equal; lia | lia].
Qed.

Lemma partial_last_word_corrupts_padding_witness : exists it m' it',
  init_sg_xfer_buffer_iterator 10000 {| max_nr_blocks := 1; blocks_addr := [100; 0]; blocks_length := [4; 0]; nr_blocks := 1 |} = Some it /\
  write_next_eight_bytes (fun _ => 0) it [1; 2; 3; 4; 5; 6; 7; 8] = Some (m', it') /\
  forall k, 0 <= k < 8 - 4 -> m' (10000 + k) = nth (Z.to_nat (4 + k)) [1; 2; 3; 4; 5; 6; 7; 8] 0.
Proof.
  destruct (init_at 10000 {| max_nr_blocks := 1; blocks_addr := [100; 0]; blocks_length := [4; 0]; nr_blocks := 1 |})
    as (it & E & Hat & _).
  { split; [done.. |]. repeat (constructor; [cbn; lia |]). constructor. }
  exists it. assert (current_block_length it - current_block_index it = 4) as El by by injection E as <-.
  destruct (partial_last_word_corrupts_padding 10000 (fun _ => 0) it _ [1; 2; 3; 4; 5; 6; 7; 8] Hat) as (m' & it' & Ew & H).
  - reflexivity.
  - lia.
  - exists m', it'. split; [done |]. split; [done |]. intros k Hk. rewrite El in H. by apply H.
Defined.
