(* ===== verification/BankLayout.v ===== *)
(** The banks of a rank in the address space of a Xeon host
    (library/src/backends/hw/src/mappings/xeon_sp/xeon_sp_translation.c): where
    each 64-bit word of the MRAMs and the control interfaces are.

    Addresses are relative to the start of the region.  A cache line of 64 bytes
    holds one word of the DPUs of the same number in the eight chips. *)
From stdpp Require Import list.
From S2P Require Import Prelude.

(** [lia] with divisions. *)
Local Ltac Zify.zify_post_hook ::= Z.to_euclidean_division_equations.

Definition BANK_START (dpu_id : Z) : Z := 0x40000 * (dpu_id mod 4) + (if 4 <=? dpu_id then 0x40 else 0).
Definition BANK_OFFSET_NEXT_DATA (i : Z) : Z := i * 16.
Definition BANK_CHUNK_SIZE : Z := 0x20000.
Definition BANK_NEXT_CHUNK_OFFSET : Z := 0x100000.

Definition apply_address_translation_on_mram_offset (byte_offset : Z) : Z :=
  let mask_21_to_15 := Z.shiftl (Z.shiftl 1 (21 - 15 + 1) - 1) 15 in
  let mask_21_to_14 := Z.shiftl (Z.shiftl 1 (21 - 14 + 1) - 1) 14 in
  let bits_21_to_15 := Z.shiftr (Z.land byte_offset mask_21_to_15) 15 in
  let bit_14 := Z.land (Z.shiftr byte_offset 14) 1 in
  let unchanged_bits := Z.land byte_offset (u32 (Z.lnot mask_21_to_14)) in
  Z.lor (Z.lor unchanged_bits (Z.shiftl bits_21_to_15 14)) (Z.shiftl bit_14 21).

(** The line of word [i] of a transfer at [offset], from the start of the bank. *)
Definition line_offset (i offset : Z) : Z :=
  let mram_64_bit_word_offset := apply_address_translation_on_mram_offset (u32 (i * 8 + offset)) / 8 in
  let next_data := u64 (BANK_OFFSET_NEXT_DATA (mram_64_bit_word_offset * 8)) in
  (next_data mod BANK_CHUNK_SIZE) + next_data / BANK_CHUNK_SIZE * BANK_NEXT_CHUNK_OFFSET.

Definition line_address (dpu_id i offset : Z) : Z := BANK_START dpu_id + line_offset i offset.

(** The commands and the results of the control interfaces. *)
Definition ci_write_address : Z := 0x20000.
Definition ci_read_address : Z := 0x20000 + 32 * 1024.

(** * The permutation of the MRAM *)

(** Bit 14 moves to 21, bits 15 to 21 move down by one. *)
Definition rotated (x : Z) : Z :=
  x / 2 ^ 22 * 2 ^ 22 + (x / 2 ^ 14) mod 2 * 2 ^ 21 + (x / 2 ^ 15) mod 2 ^ 7 * 2 ^ 14 + x mod 2 ^ 14.

Lemma lor_shiftl_low a b n : 0 <= n -> 0 <= b < 2 ^ n -> Z.lor b (Z.shiftl a n) = b + a * 2 ^ n.
Proof. intros Hn Hb. rewrite Z.lor_comm, lor_shiftl_add by done. lia. Qed.

Lemma land_high_field x k n : 0 <= k -> 0 <= n -> 0 <= x < 2 ^ (k + n) ->
  Z.land x (Z.shiftl (Z.ones n) k) = Z.shiftl (x / 2 ^ k) k.
Proof.
  intros Hk Hn Hx. bitwise i Hi. rewrite Z.land_spec, !Z.shiftl_spec by done. destruct (Z.ltb_spec i k).
  - rewrite !(Z.testbit_neg_r _ (i - k)) by lia. apply andb_false_r.
  - rewrite Z.testbit_ones_nonneg, <- Z.shiftr_div_pow2, Z.shiftr_spec by lia. rewrite Z.sub_add.
    destruct (Z.ltb_spec (i - k) n); [apply andb_true_r |]. by rewrite (testbit_high (k + n) x i) by lia.
Qed.

Lemma apply_address_translation_rotates x : 0 <= x < 2 ^ 32 ->
  apply_address_translation_on_mram_offset x = rotated x.
Proof.
  intros Hx. unfold apply_address_translation_on_mram_offset, rotated.
  set (mask := Z.shiftl (Z.shiftl 1 (21 - 15 + 1) - 1) 15).
  assert (Z.shiftr (Z.land x mask) 15 = (x / 2 ^ 15) mod 2 ^ 7) as ->.
  { rewrite Z.shiftr_land, Z.shiftr_div_pow2 by lia. change (Z.shiftr mask 15) with (Z.ones 7). by rewrite Z.land_ones by lia. }
  assert (Z.land (Z.shiftr x 14) 1 = (x / 2 ^ 14) mod 2) as ->.
  { rewrite Z.shiftr_div_pow2 by lia. change 1 with (Z.ones 1). by rewrite Z.land_ones by lia. }
  assert (Z.land x (u32 (Z.lnot (Z.shiftl (Z.shiftl 1 (21 - 14 + 1) - 1) 14))) = Z.lor (x mod 2 ^ 14) (Z.shiftl (x / 2 ^ 22) 22)) as ->.
  { change (u32 _) with (Z.lor (Z.ones 14) (Z.shiftl (Z.ones 10) 22)).
    by rewrite Z.land_lor_distr_r, Z.land_ones, land_high_field by lia. }
  set (lo := x mod 2 ^ 14). set (mid := (x / 2 ^ 15) mod 2 ^ 7). set (b := (x / 2 ^ 14) mod 2). set (hi := x / 2 ^ 22).
  assert (0 <= lo < 2 ^ 14 /\ 0 <= mid < 2 ^ 7 /\ 0 <= b < 2) as (Hlo & Hmid & Hb)
    by (unfold lo, mid, b; repeat split; apply Z.mod_pos_bound; lia).
  clearbody lo mid b hi.
  replace (Z.lor _ _) with (Z.lor (Z.lor (Z.lor lo (Z.shiftl mid 14)) (Z.shiftl b 21)) (Z.shiftl hi 22)).
  - rewrite (lor_shiftl_low mid lo), (lor_shiftl_low b (lo + mid * 2 ^ 14)), lor_shiftl_low by lia. lia.
  - bitwise i Hi. rewrite !Z.lor_spec. destruct (Z.testbit lo i), (Z.testbit (Z.shiftl mid 14) i), (Z.testbit (Z.shiftl b 21) i); cbn [orb];
      by rewrite ?orb_true_r, ?orb_false_r.
Qed.

(** The fields of an offset. *)
Lemma offset_fields x : exists lo b mid hi, (0 <= lo < 2 ^ 14 /\ 0 <= b < 2 /\ 0 <= mid < 2 ^ 7) /\
  x = hi * 2 ^ 22 + mid * 2 ^ 15 + b * 2 ^ 14 + lo /\ rotated x = hi * 2 ^ 22 + b * 2 ^ 21 + mid * 2 ^ 14 + lo.
Proof.
  assert (x / 2 ^ 14 / 2 = x / 2 ^ 15) as E15 by by rewrite Z.div_div.
  assert (x / 2 ^ 15 / 2 ^ 7 = x / 2 ^ 22) as E22 by by rewrite Z.div_div.
  pose proof (Z.div_mod x (2 ^ 14)) as H1. pose proof (Z.div_mod (x / 2 ^ 14) 2) as H2. rewrite E15 in H2.
  pose proof (Z.div_mod (x / 2 ^ 15) (2 ^ 7)) as H3. rewrite E22 in H3.
  exists (x mod 2 ^ 14), ((x / 2 ^ 14) mod 2), ((x / 2 ^ 15) mod 2 ^ 7), (x / 2 ^ 22).
  split_and!; try (apply Z.mod_pos_bound; lia); [| done].
  set (lo := x mod 2 ^ 14) in *. set (b := (x / 2 ^ 14) mod 2) in *. set (mid := (x / 2 ^ 15) mod 2 ^ 7) in *.
  set (h1 := x / 2 ^ 14) in *. set (h2 := x / 2 ^ 15) in *. set (hi := x / 2 ^ 22) in *. clearbody lo b mid h1 h2 hi. lia.
Qed.

Lemma rotated_inj x y : rotated x = rotated y -> x = y.
Proof.
  destruct (offset_fields x) as (lo & b & mid & hi & H & -> & ->).
  destruct (offset_fields y) as (lo' & b' & mid' & hi' & H' & -> & ->). lia.
Qed.

Lemma rotated_aligned x : x mod 8 = 0 -> rotated x mod 8 = 0.
Proof.
  destruct (offset_fields x) as (lo & b & mid & hi & H & -> & ->).
  replace (hi * 2 ^ 22 + mid * 2 ^ 15 + b * 2 ^ 14 + lo) with (lo + (hi * 2 ^ 19 + mid * 2 ^ 12 + b * 2 ^ 11) * 8) by lia.
  replace (hi * 2 ^ 22 + b * 2 ^ 21 + mid * 2 ^ 14 + lo) with (lo + (hi * 2 ^ 19 + b * 2 ^ 18 + mid * 2 ^ 11) * 8) by lia.
  by rewrite !Z.mod_add by lia.
Qed.

Lemma rotated_range x : 0 <= x < 2 ^ 26 -> 0 <= rotated x < 2 ^ 26.
Proof. destruct (offset_fields x) as (lo & b & mid & hi & H & E & ->). lia. Qed.

(** * Lines *)

Lemma line_offset_aligned i offset x : u32 (i * 8 + offset) = x -> x mod 8 = 0 ->
  line_offset i offset = rotated x * 16 mod 2 ^ 17 + rotated x * 16 / 2 ^ 17 * 2 ^ 20.
Proof.
  intros <- Hx. set (x := u32 (i * 8 + offset)) in *. assert (0 <= x < 2 ^ 32) as Hr by (apply wrap_range; lia).
  unfold line_offset, BANK_OFFSET_NEXT_DATA, BANK_CHUNK_SIZE, BANK_NEXT_CHUNK_OFFSET. fold x. clearbody x.
  rewrite apply_address_translation_rotates by done. pose proof (rotated_aligned x Hx) as Ha.
  assert (0 <= rotated x < 2 ^ 32) as Hrot by (destruct (offset_fields x) as (lo & b & mid & hi & H & E & ->); lia).
  set (r := rotated x) in *. clearbody r. replace (r / 8 * 8) with r by lia. by rewrite (wrap_small 64) by lia.
Qed.

Lemma lines_disjoint d d' i i' o o' : 0 <= d < 8 -> 0 <= d' < 8 ->
  0 <= i * 8 + o < 2 ^ 26 -> 0 <= i' * 8 + o' < 2 ^ 26 -> o mod 8 = 0 -> o' mod 8 = 0 ->
  let a := line_address d i o in let a' := line_address d' i' o' in
  a mod 64 = 0 /\ 0 <= a /\ a + 64 <= 2 ^ 33 /\ (a + 64 <= a' \/ a' + 64 <= a \/ (d = d' /\ i * 8 + o = i' * 8 + o'))
  /\ (a + 64 <= ci_write_address \/ ci_read_address + 64 <= a).
Proof.
  intros Hd Hd' Hx Hx' Ho Ho'. unfold line_address.
  rewrite (line_offset_aligned i o (i * 8 + o)), (line_offset_aligned i' o' (i' * 8 + o'))
    by (try apply wrap_small; lia).
  pose proof (rotated_inj (i * 8 + o) (i' * 8 + o')) as Hinj.
  pose proof (rotated_range _ Hx). pose proof (rotated_range _ Hx').
  pose proof (rotated_aligned (i * 8 + o)) as Ha. pose proof (rotated_aligned (i' * 8 + o')) as Ha'.
  set (r := rotated (i * 8 + o)) in *. set (r' := rotated (i' * 8 + o')) in *. clearbody r r'.
  unfold BANK_START, ci_write_address, ci_read_address.
  destruct (Z.leb_spec 4 d), (Z.leb_spec 4 d'); lia.
Qed.

(** C28: in a rank of eight DPUs per chip, the lines of two words never overlap unless they are the same word of the
    same DPUs, they never overlap the control interfaces, they are aligned, and the MRAMs of 64 MB fit in 8 GB. *)
Theorem mram_lines_disjoint d d' i i' o o' : 0 <= d < 8 -> 0 <= d' < 8 ->
  0 <= i * 8 + o < 2 ^ 26 -> 0 <= i' * 8 + o' < 2 ^ 26 -> o mod 8 = 0 -> o' mod 8 = 0 ->
  let a := line_address d i o in let a' := line_address d' i' o' in
  a mod 64 = 0 /\ 0 <= a /\ a + 64 <= 2 ^ 33 /\ (a + 64 <= a' \/ a' + 64 <= a \/ (d = d' /\ i * 8 + o = i' * 8 + o'))
  /\ (a + 64 <= ci_write_address \/ ci_read_address + 64 <= a).
Proof. apply lines_disjoint. Qed.

Lemma mram_lines_disjoint_witness :
  let a := line_address 3 0 8 in let a' := line_address 7 0 8 in
  a mod 64 = 0 /\ 0 <= a /\ a + 64 <= 2 ^ 33 /\ (a + 64 <= a' \/ a' + 64 <= a \/ (3 = 7 /\ 0 * 8 + 8 = 0 * 8 + 8))
  /\ (a + 64 <= ci_write_address \/ ci_read_address + 64 <= a).
Proof. apply (mram_lines_disjoint 3 7 0 0 8 8); (lia || done). Defined.
