(* ===== verification/RankXfer.v ===== *)
(** Transfers between the host and the MRAMs of a rank, as the threads of the
    Xeon backend do them
    (library/src/backends/hw/src/mappings/xeon_sp/xeon_sp_translation.c).

    A thread that writes to the rank is the list of the lines it streams to the
    region, so that the lines of several threads can be interleaved; a thread
    that reads changes the host memory.  The flushes and the fences have no
    effect on a coherent memory and are left out.  The two branches on the type
    of the matrix differ in where the words of a DPU come from: [stream]. *)
From stdpp Require Import list.
From S2P Require Import Prelude XferMatrix ScatterGather Interleave SgIterator BankLayout.

(** * Loops *)

Fixpoint for_each {A S} (f : S -> A -> option S) (l : list A) (s : S) : option S :=
  match l with
  | [] => Some s
  | x :: l => s ← f s x; for_each f l s
  end.

(** * The words of one DPU *)

Inductive stream :=
| No_stream
| Memory_stream (address : Z)
| Block_stream (it : sg_xfer_buffer_iterator).

Section transfer.
(** The padding, and the scatter/gather buffers of the rank. *)
Variables (zeros : Z) (pool : list sg_xfer_buffer).

(** [None]: an index outside the matrix, or a buffer of the other type. *)
Definition open_stream (m : dpu_transfer_matrix) (index : Z) : option stream :=
  p ← load (ptr m) index;
  match p, type m with
  | Null, _ => Some No_stream
  | Buffer a, DPU_DEFAULT_XFER_MATRIX => Some (Memory_stream a)
  | Pool k, DPU_SG_XFER_MATRIX => sg ← load pool k; Block_stream <$> init_sg_xfer_buffer_iterator zeros sg
  | _, _ => None
  end.

Definition next_word (host : memory) (i : Z) (s : stream) : option (option (list Z) * stream) :=
  match s with
  | No_stream => Some (None, s)
  | Memory_stream a => Some (Some (read host (a + 8 * i) 8), s)
  | Block_stream it => '(w, it) ← get_next_eight_bytes host it; Some (Some w, Block_stream it)
  end.

Definition store_word (host : memory) (i : Z) (s : stream) (w : list Z) : option (memory * stream) :=
  match s with
  | No_stream => Some (host, s)
  | Memory_stream a => Some (write host (a + 8 * i) w, s)
  | Block_stream it => '(host, it) ← write_next_eight_bytes host it w; Some (host, Block_stream it)
  end.

(** * The threads *)

Inductive thread_mram_xfer := thread_mram_xfer_read | thread_mram_xfer_write.

Record xeon_sp_private := {
  nb_cis : Z;
  direction : thread_mram_xfer;
  xfer_matrix : dpu_transfer_matrix;
  nb_dpus_per_ci : Z;
  nb_threads_for_xfer : Z;
  nb_threads : Z }.

(** The DPUs of a thread. *)
Definition FOREACH_DPU_MULTITHREAD (start stop : Z) : list Z := seqZ start (stop - start).

(** The index of the first chip. *)
Definition line_index (dpu_id : Z) : Z := u8 (dpu_id * Z.of_nat NB_REAL_CIS).

Fixpoint do_dpu_transfer (m : dpu_transfer_matrix) (idx : Z) (cis : list Z) : option bool :=
  match cis with
  | [] => Some false
  | ci :: cis => p ← load (ptr m) (idx + ci); match p with Null => do_dpu_transfer m idx cis | _ => Some true end
  end.

Definition open_streams (m : dpu_transfer_matrix) (idx nb_cis : Z) : option (list stream) :=
  mapM (fun ci => open_stream m (idx + ci)) (seqZ 0 nb_cis).

(** A chip without buffer keeps the word the array had. *)
Fixpoint fill_cache_line (host : memory) (i : Z) (ci : Z) (ss : list stream) (cache_line : list Z)
  : option (list Z * list stream) :=
  match ss with
  | [] => Some (cache_line, [])
  | s :: ss =>
    '(w, s) ← next_word host i s;
    cache_line ← match w with Some w => blit cache_line (8 * ci) w | None => Some cache_line end;
    '(cache_line, ss) ← fill_cache_line host i (ci + 1) ss cache_line;
    Some (cache_line, s :: ss)
  end.

(** The lines streamed, [n] words from word [i]. *)
Fixpoint write_lines (host : memory) (dpu_id offset : Z) (n : nat) (i : Z) (ss : list stream) (cache_line : list Z)
  : option (list (Z * list Z) * list Z) :=
  match n with
  | O => Some ([], cache_line)
  | S n =>
    '(cache_line, ss) ← fill_cache_line host i 0 ss cache_line;
    '(lines, cache_line') ← write_lines host dpu_id offset n (i + 1) ss cache_line;
    Some ((line_address dpu_id i offset, byte_interleave_avx512 cache_line) :: lines, cache_line')
  end.

(** [junk]: what the stack holds before the first word. *)
Definition threads_write_to_rank (host : memory) (priv : xeon_sp_private) (junk : list Z) (dpu_id_start dpu_id_stop : Z)
  : option (list (Z * list Z)) :=
  let m := xfer_matrix priv in
  if size m =? 0 then Some []
  else
    '(lines, _) ← for_each (fun '(lines, cache_line) dpu_id =>
      active ← do_dpu_transfer m (line_index dpu_id) (seqZ 0 (nb_cis priv));
      if negb active then Some (lines, cache_line)
      else
        ss ← open_streams m (line_index dpu_id) (nb_cis priv);
        '(l, cache_line) ← write_lines host dpu_id (offset m) (Z.to_nat (size m / 8)) 0 ss cache_line;
        Some (lines ++ l, cache_line))
      (FOREACH_DPU_MULTITHREAD dpu_id_start dpu_id_stop) ([], junk);
    Some lines.

Fixpoint store_cache_line (host : memory) (i : Z) (ci : nat) (ss : list stream) (cache_line_interleave : list Z)
  : option (memory * list stream) :=
  match ss with
  | [] => Some (host, [])
  | s :: ss =>
    '(host, s) ← store_word host i s (lane 8 cache_line_interleave ci);
    '(host, ss) ← store_cache_line host i (ci + 1) ss cache_line_interleave;
    Some (host, s :: ss)
  end.

Fixpoint read_lines (region : memory) (dpu_id offset : Z) (n : nat) (i : Z) (ss : list stream) (host : memory) : option memory :=
  match n with
  | O => Some host
  | S n =>
    let cache_line := read region (line_address dpu_id i offset) 64 in
    '(host, ss) ← store_cache_line host i 0 ss (byte_interleave_avx2 cache_line);
    read_lines region dpu_id offset n (i + 1) ss host
  end.

Definition threads_read_from_rank (region : memory) (priv : xeon_sp_private) (dpu_id_start dpu_id_stop : Z) (host : memory)
  : option memory :=
  let m := xfer_matrix priv in
  if size m =? 0 then Some host
  else
    for_each (fun host dpu_id =>
      active ← do_dpu_transfer m (line_index dpu_id) (seqZ 0 (nb_cis priv));
      if negb active then Some host
      else
        ss ← open_streams m (line_index dpu_id) (nb_cis priv);
        read_lines region dpu_id (offset m) (Z.to_nat (size m / 8)) 0 ss host)
      (FOREACH_DPU_MULTITHREAD dpu_id_start dpu_id_stop) host.

(** The DPUs of a thread of the pool; [None]: nothing to do. *)
Definition thread_dpus (priv : xeon_sp_private) (thread_id : Z) : option (Z * Z) :=
  if negb (thread_id <? nb_threads_for_xfer priv) then None
  else
    let nb_dpus_per_thread := nb_dpus_per_ci priv / nb_threads_for_xfer priv in
    let dpu_id_stop := if thread_id =? nb_threads_for_xfer priv - 1 then nb_dpus_per_ci priv
                       else u8 ((thread_id + 1) * nb_dpus_per_thread) in
    Some (u8 (thread_id * nb_dpus_per_thread), dpu_id_stop).

(** What a thread does of a job: it streams lines, or it changes the host memory. *)
Definition thread_do_mram_xfer (region : memory) (priv : xeon_sp_private) (junk : list Z) (thread_id : Z) (host : memory)
  : option (list (Z * list Z) * memory) :=
  match thread_dpus priv thread_id with
  | None => Some ([], host)
  | Some (dpu_id_start, dpu_id_stop) =>
    match direction priv with
    | thread_mram_xfer_read => host ← threads_read_from_rank region priv dpu_id_start dpu_id_stop host; Some ([], host)
    | thread_mram_xfer_write => lines ← threads_write_to_rank host priv junk dpu_id_start dpu_id_stop; Some (lines, host)
    end
  end.

(** The lines of every thread of the pool. *)
Definition pool_write (region host : memory) (priv : xeon_sp_private) (junk : Z -> list Z) : option (list (list (Z * list Z))) :=
  mapM (fun thread_id => fst <$> thread_do_mram_xfer region priv (junk thread_id) thread_id host) (seqZ 0 (nb_threads priv)).

(** The threads of the pool, one after the other in some order. *)
Definition pool_read (region : memory) (priv : xeon_sp_private) (order : list Z) (host : memory) : option memory :=
  for_each (fun host thread_id => snd <$> thread_do_mram_xfer region priv [] thread_id host) order host.

End transfer.

(** * Stores of bytes *)

Definition set_bytes (m : memory) (l : list (Z * Z)) : memory := fold_left (fun m p => set_byte m p.1 p.2) l m.

(** The bytes of a line. *)
Definition line_bytes (l : Z * list Z) : list (Z * Z) := combine (run l.1 (length l.2)) l.2.

(** The region after some lines. *)
Definition apply_lines (region : memory) (lines : list (Z * list Z)) : memory :=
  fold_left (fun m l => write m l.1 l.2) lines region.

Lemma write_set_bytes m l bytes : write_bytes m l bytes = set_bytes m (combine l bytes).
Proof. revert m bytes. induction l as [| a l IH]; intros m [| b bytes]; [done.. |]. apply IH. Qed.

Lemma set_bytes_app m l l' : set_bytes m (l ++ l') = set_bytes (set_bytes m l) l'.
Proof. apply fold_left_app. Qed.

Lemma apply_lines_bytes region lines : apply_lines region lines = set_bytes region (flat_map line_bytes lines).
Proof.
  revert region. induction lines as [| l lines IH]; intros region; [done |]. cbn [flat_map]. rewrite set_bytes_app, <- IH.
  change (apply_lines (write region l.1 l.2) lines = apply_lines (set_bytes region (line_bytes l)) lines).
  f_equal. apply write_set_bytes.
Qed.

Lemma line_bytes_in a l x b : (x, b) ∈ line_bytes (a, l) <-> exists k, (k < length l)%nat /\ x = a + Z.of_nat k /\ b = nth k l 0.
Proof.
  unfold line_bytes. cbn [fst snd]. split.
  - intros (k & Hk)%list_elem_of_lookup_1. apply combine_lookup in Hk as [H1 H2]. exists k.
    pose proof (lookup_lt_Some _ _ _ H2). rewrite run_lookup in H1 by done. injection H1 as <-.
    split_and!; [done.. |]. symmetry. by apply nth_lookup_Some.
  - intros (k & Hk & -> & ->). apply (list_elem_of_lookup_2 _ k), combine_lookup. rewrite run_lookup by done. split; [done |].
    destruct (lookup_lt_is_Some_2 l k Hk) as [b E]. by rewrite E, (nth_lookup_Some _ _ _ _ E).
Qed.

Lemma set_bytes_other m l a : (forall b, (a, b) ∉ l) -> set_bytes m l a = m a.
Proof.
  revert m. induction l as [| [x y] l IH]; intros m Ha; [done |].
  change (set_bytes (set_byte m x y) l a = m a). rewrite IH.
  - unfold set_byte. destruct (Z.eqb_spec a x) as [-> |]; [| done]. destruct (Ha y). apply list_elem_of_here.
  - intros b Hb. apply (Ha b). by apply list_elem_of_further.
Qed.

Lemma set_bytes_pick m l a b : (a, b) ∈ l -> (forall b', (a, b') ∈ l -> b' = b) -> set_bytes m l a = b.
Proof.
  revert m. induction l as [| [x y] l IH]; intros m Hin Hall; [by apply not_elem_of_nil in Hin |].
  change (set_bytes (set_byte m x y) l a = b).
  destruct (decide (Exists (fun p => p.1 = a) l)) as [He | He].
  - apply list.Exists_exists in He as ([a' b'] & Hb' & Ea). cbn in Ea. subst a'.
    assert (b' = b) as -> by (apply Hall; by apply list_elem_of_further).
    apply IH; [done |]. intros b2 H2. apply Hall. by apply list_elem_of_further.
  - rewrite set_bytes_other.
    + assert (x = a) as ->.
      { apply elem_of_cons in Hin as [[= <- <-] | Hin]; [done |]. destruct He. apply list.Exists_exists. exists (a, b). by split. }
      cbn. unfold set_byte. rewrite Z.eqb_refl. apply Hall, list_elem_of_here.
    + intros b2 H2. apply He, list.Exists_exists. exists (a, b2). by split.
Qed.

(** * A rule for loops *)

Lemma for_each_rule {A S} (f : S -> A -> option S) (P : list A -> S -> Prop) l s :
  P [] s -> (forall seen x s, x ∈ l -> P seen s -> exists s', f s x = Some s' /\ P (seen ++ [x]) s') ->
  exists s', for_each f l s = Some s' /\ P l s'.
Proof.
  intros H0 Hstep. enough (forall rest seen s, seen ++ rest = l -> P seen s -> exists s', for_each f rest s = Some s' /\ P l s') as H
    by by apply (H l []).
  clear s H0. induction rest as [| x rest IH]; intros seen s E Hs.
  - rewrite app_nil_r in E. subst seen. by exists s.
  - destruct (Hstep seen x s) as (s' & Ef & Hs'); [rewrite <- E; apply list_elem_of_In, in_app_iff; right; by left | done |].
    cbn. rewrite Ef. apply (IH (seen ++ [x])); [by rewrite <- app_assoc | done].
Qed.

(** * Sources of words *)

Section sources.
Variables (zeros : Z) (pool : list sg_xfer_buffer) (host : memory).
Hypothesis padding_zero : forall a, in_padding zeros a -> host a = 0.

(** The bytes a buffer provides, padded with zeros when it is scattered. *)
Definition entry_source (e : entry) : option memory :=
  match e with
  | Null => None
  | Buffer a => Some (fun k => host (a + k))
  | Pool k => (fun sg => fun x => nth (Z.to_nat x) (map host (addrs_of (blocks_of sg))) 0) <$> load pool k
  end.

Definition entry_ok (t : dpu_transfer_matrix_type_t) (e : entry) : Prop :=
  match e, t with
  | Null, _ => True
  | Buffer _, DPU_DEFAULT_XFER_MATRIX => True
  | Pool k, DPU_SG_XFER_MATRIX => exists sg, load pool k = Some sg /\ with_room sg
  | _, _ => False
  end.

(** From word [i], a stream yields the words of a source. *)
Definition provides (i : Z) (s : stream) (src : option memory) : Prop :=
  match s with
  | No_stream => src = None
  | Memory_stream a => src = Some (fun k => host (a + k))
  | Block_stream it => exists blocks addrs, it_at zeros it blocks /\ left_of it blocks = drop (Z.to_nat (8 * i)) addrs
      /\ src = Some (fun k => nth (Z.to_nat k) (map host addrs) 0)
  end.

Lemma open_stream_provides m index e : load (ptr m) index = Some e -> entry_ok (type m) e ->
  exists s, open_stream zeros pool m index = Some s /\ provides 0 s (entry_source e).
Proof.
  intros He Hok. unfold open_stream. rewrite He. cbn [mbind option_bind].
  destruct e as [| a | k], (type m); try by destruct Hok.
  - by exists No_stream.
  - by exists No_stream.
  - by exists (Memory_stream a).
  - destruct Hok as (sg & Hsg & Hr). cbn [entry_source]. rewrite Hsg. cbn [mbind option_bind fmap option_fmap option_map].
    destruct (init_at zeros sg Hr) as (it & -> & Hat & El). exists (Block_stream it). split; [done |].
    exists (blocks_of sg), (addrs_of (blocks_of sg)). by split_and!.
Qed.

Lemma read_ext f g a b n : (forall k, 0 <= k < Z.of_nat n -> f (a + k) = g (b + k)) -> read f a n = read g b n.
Proof.
  intros H. unfold read, run. rewrite !map_map. apply map_ext_in. intros k Hk%in_seq. apply H. lia.
Qed.

Lemma read_nth f a n k : (k < n)%nat -> nth k (read f a n) 0 = f (a + Z.of_nat k).
Proof.
  intros Hk. apply nth_lookup_Some. unfold read. change (map f ?l) with (f <$> l). by rewrite list_lookup_fmap, run_lookup.
Qed.

Lemma length_read f a n : length (read f a n) = n.
Proof. unfold read. by rewrite length_map, length_run. Qed.

Lemma nth_replicate {A} (x : A) n k : nth k (replicate n x) x = x.
Proof. revert k. induction n as [| n IH]; intros [| k]; cbn; done || apply IH. Qed.

(** A word taken from the blocks, with its padding. *)
Lemma took_word left l left' : took zeros 8 left l left' -> forall k, (k < 8)%nat -> nth k (map host l) 0 = nth k (map host left) 0.
Proof.
  intros Ht k Hk. rewrite (took_padded zeros host 8 left l left' Ht padding_zero).
  assert (length (take 8 (map host left)) = (8 `min` length left)%nat) as El by by rewrite length_take, length_map.
  destruct (Nat.lt_ge_cases k (length left)) as [Hl | Hl].
  - rewrite app_nth1 by lia. transitivity (nth k (take 8 (map host left) ++ drop 8 (map host left)) 0);
      [by rewrite app_nth1 by lia | by rewrite take_drop].
  - rewrite (nth_overflow (map host left)) by (rewrite length_map; lia). rewrite app_nth2 by lia. apply nth_replicate.
Qed.

Lemma next_word_provides i s src : 0 <= i -> provides i s src ->
  exists s', next_word host i s = Some ((fun f => read f (8 * i) 8) <$> src, s') /\ provides (i + 1) s' src.
Proof.
  intros Hi Hp. destruct s as [| a | it]; cbn [provides next_word] in *.
  - subst src. by exists No_stream.
  - subst src. exists (Memory_stream a). split; [| done].
    by rewrite (read_ext host (fun k => host (a + k)) (a + 8 * i) (8 * i)) by (intros; f_equal; lia).
  - destruct Hp as (blocks & addrs & Hat & El & ->).
    destruct (get_next_eight_bytes_spec _ host _ _ Hat) as (l & it' & blocks' & -> & Hat' & Ht).
    cbn [mbind option_bind fmap option_fmap option_map]. exists (Block_stream it'). split.
    + do 3 f_equal. apply nth_ext with (d := 0) (d' := 0).
      { rewrite length_map, length_read. apply Ht. }
      intros k Hk. rewrite length_map, (took_length _ _ _ _ _ Ht) in Hk. rewrite read_nth by done.
      rewrite (took_word _ _ _ Ht k Hk), El. rewrite <- (skipn_map host).
      rewrite nth_skipn. f_equal. lia.
    + exists blocks', addrs. split_and!; [done | | done]. rewrite (took_left _ _ _ _ _ Ht), El, drop_drop. f_equal. lia.
Qed.

(** * A line *)

Lemma blit_word cl ci w : length cl = 64%nat -> length w = 8%nat -> 0 <= ci < 8 -> exists cl', blit cl (8 * ci) w = Some cl' /\
  length cl' = 64%nat /\ (forall r, (r < 8)%nat -> nth (8 * Z.to_nat ci + r) cl' 0 = nth r w 0) /\
  (forall x, (x < 8 * Z.to_nat ci \/ 8 * Z.to_nat ci + 8 <= x)%nat -> nth x cl' 0 = nth x cl 0).
Proof.
  intros Hl Hw Hc. destruct (blit_in_range cl (8 * ci) w) as [cl' E]; [lia.. |]. exists cl'. split; [done |].
  apply blit_Some in E as (pre & mid & suf & -> & Ep & Hmid & ->). rewrite !length_app in *.
  replace (8 * Z.to_nat ci)%nat with (length pre) by lia. split_and!; [lia | |].
  - intros r Hr. rewrite app_nth2, app_nth1 by lia. f_equal. lia.
  - intros x Hx. destruct (Nat.lt_ge_cases x (length pre)).
    + by rewrite !app_nth1 by lia.
    + rewrite !(app_nth2 pre) by lia. rewrite !app_nth2 by lia. f_equal. lia.
Qed.

Lemma fill_cache_line_spec i ci ss srcs cl : 0 <= i -> 0 <= ci -> ci + Z.of_nat (length ss) <= 8 -> length cl = 64%nat ->
  Forall2 (provides i) ss srcs -> exists cl' ss', fill_cache_line host i ci ss cl = Some (cl', ss') /\
    length cl' = 64%nat /\ Forall2 (provides (i + 1)) ss' srcs /\
    (forall j f r, srcs !! j = Some (Some f) -> (r < 8)%nat -> nth (8 * (Z.to_nat ci + j) + r) cl' 0 = f (8 * i + Z.of_nat r)) /\
    (forall x, (x < 8 * Z.to_nat ci)%nat -> nth x cl' 0 = nth x cl 0).
Proof.
  intros Hi Hci Hlen Hcl HF. revert ci cl Hci Hlen Hcl. induction HF as [| s src ss srcs Hs HF IH]; intros ci cl Hci Hlen Hcl.
  - exists cl, []. by split_and!.
  - cbn [length] in Hlen. destruct (next_word_provides _ _ _ Hi Hs) as (s' & E & Hs'). cbn [fill_cache_line]. rewrite E.
    cbn [mbind option_bind].
    assert (exists cl1, match (fun f => read f (8 * i) 8) <$> src with Some w => blit cl (8 * ci) w | None => Some cl end = Some cl1 /\
      length cl1 = 64%nat /\ (forall f r, src = Some f -> (r < 8)%nat -> nth (8 * Z.to_nat ci + r) cl1 0 = f (8 * i + Z.of_nat r)) /\
      (forall x, (x < 8 * Z.to_nat ci)%nat -> nth x cl1 0 = nth x cl 0)) as (cl1 & -> & Hl1 & Hw1 & Hb1).
    { destruct src as [f |]; cbn [fmap option_fmap option_map]; [| by exists cl].
      destruct (blit_word cl ci (read f (8 * i) 8)) as (cl1 & Eb & Hl1 & Hin & Hout); [done | apply length_read | lia |].
      exists cl1. split_and!; [done.. | |].
      - intros g r [= <-] Hr. by rewrite Hin, read_nth by done.
      - intros x Hx. apply Hout. lia. }
    cbn [mbind option_bind]. destruct (IH (ci + 1) cl1) as (cl' & ss' & -> & Hl' & HF' & Hw & Hb); [lia.. | done |].
    cbn [mbind option_bind]. exists cl', (s' :: ss'). split_and!; [done | done | by constructor | |].
    + intros [| j] f r Hj Hr.
      * cbn in Hj. injection Hj as Hj. rewrite Hb by lia. rewrite Nat.add_0_r. by apply Hw1.
      * cbn in Hj. replace (8 * (Z.to_nat ci + S j) + r)%nat with (8 * (Z.to_nat (ci + 1) + j) + r)%nat by lia. by apply Hw.
    + intros x Hx. rewrite Hb by lia. by apply Hb1.
Qed.

(** The bytes streamed for words [i] to [i + n] of the DPUs [d] of the chips. *)
Record lines_for (d o : Z) (srcs : list (option memory)) (i n : Z) (lines : list (Z * list Z)) : Prop := {
  lines_in : forall x b, (x, b) ∈ flat_map line_bytes lines -> exists q y, i <= q < i + n /\ (y < 64)%nat /\
    x = line_address d q o + Z.of_nat y /\
    forall ci r f, y = (8 * r + ci)%nat -> (ci < 8)%nat -> srcs !! ci = Some (Some f) -> b = f (8 * q + Z.of_nat r);
  lines_all : forall q y, i <= q < i + n -> (y < 64)%nat -> exists b, (line_address d q o + Z.of_nat y, b) ∈ flat_map line_bytes lines }.

Lemma elem_flat_map {A B} (f : A -> list B) l x : x ∈ flat_map f l <-> exists y, y ∈ l /\ x ∈ f y.
Proof.
  rewrite list_elem_of_In, in_flat_map. split; intros (y & H1 & H2); exists y;
    [apply list_elem_of_In in H1, H2 | apply list_elem_of_In in H1; apply list_elem_of_In in H2]; done.
Qed.

Lemma interleaved_byte cl r ci : length cl = 64%nat -> (r < 8)%nat -> (ci < 8)%nat ->
  nth (8 * r + ci) (byte_interleave_avx512 cl) 0 = nth (8 * ci + r) cl 0.
Proof.
  intros Hl Hr Hc. destruct (interleave_vectors cl Hl) as (_ & _ & -> & _). by apply byte_interleave_at.
Qed.

Lemma length_interleaved cl : length cl = 64%nat -> length (byte_interleave_avx512 cl) = 64%nat.
Proof. intros Hl. by destruct (interleave_vectors cl Hl) as (_ & _ & -> & _). Qed.

Lemma write_lines_spec d o n i ss srcs cl : 0 <= i -> (length ss <= 8)%nat -> length cl = 64%nat ->
  Forall2 (provides i) ss srcs -> exists lines cl', write_lines host d o n i ss cl = Some (lines, cl') /\
    length cl' = 64%nat /\ lines_for d o srcs i (Z.of_nat n) lines.
Proof.
  revert i ss cl. induction n as [| n IH]; intros i ss cl Hi Hlen Hcl HF.
  - exists [], cl. split_and!; [done.. |]. split; [by intros x b ?%not_elem_of_nil | lia].
  - destruct (fill_cache_line_spec i 0 ss srcs cl) as (cl1 & ss' & E & Hl1 & HF' & Hw & _); [lia.. | done | done |].
    cbn [write_lines]. rewrite E. cbn [mbind option_bind].
    assert (length ss' = length ss) as Els by (apply Forall2_length in HF, HF'; lia).
    destruct (IH (i + 1) ss' cl1) as (lines & cl' & -> & Hl' & [Hin Hall]); [lia.. | done | done |].
    cbn [mbind option_bind]. eexists _, cl'. split; [done |]. split; [done |]. split.
    + intros x b Hx. cbn [flat_map] in Hx. apply list_elem_of_In, in_app_iff in Hx as [Hx | Hx]; apply list_elem_of_In in Hx.
      * apply line_bytes_in in Hx as (y & Hy & -> & ->). rewrite length_interleaved in Hy by done.
        exists i, y. split_and!; [lia.. | done | done |]. intros ci r f -> Hci Hf.
        rewrite interleaved_byte by (done || lia). apply (Hw ci f r Hf). lia.
      * apply Hin in Hx as (q & y & Hq & Hy & -> & Hb). exists q, y. split_and!; [lia.. | done | done | done].
    + intros q y Hq Hy. destruct (Z.eq_dec q i) as [-> | Hne].
      * eexists. apply list_elem_of_In, in_app_iff. left. apply list_elem_of_In, line_bytes_in. exists y.
        split; [by rewrite length_interleaved | done].
      * destruct (Hall q y) as [b Hb]; [lia.. |]. exists b. apply list_elem_of_In, in_app_iff. right. by apply list_elem_of_In.
Qed.

(** * A thread *)

(** What a transfer has to have: at most eight chips of eight DPUs, as many entries as a matrix has, aligned words that
    fit in the MRAM. *)
Record xfer_ok (priv : xeon_sp_private) : Prop := {
  ok_cis : 0 <= nb_cis priv <= 8;
  ok_dpus : 0 <= nb_dpus_per_ci priv <= 8;
  ok_ptr : length (ptr (xfer_matrix priv)) = 64%nat;
  ok_offset : 0 <= offset (xfer_matrix priv) /\ offset (xfer_matrix priv) mod 8 = 0;
  ok_size : 0 <= size (xfer_matrix priv) /\ offset (xfer_matrix priv) + size (xfer_matrix priv) <= 2 ^ 26;
  ok_entries : Forall (entry_ok (type (xfer_matrix priv))) (ptr (xfer_matrix priv)) }.

Definition words (priv : xeon_sp_private) : Z := size (xfer_matrix priv) / 8.

(** The source of DPU [d] of each chip. *)
Definition sources (priv : xeon_sp_private) (d : Z) : list (option memory) :=
  map (fun ci => e ← load (ptr (xfer_matrix priv)) (8 * d + ci); entry_source e) (seqZ 0 (nb_cis priv)).

Definition active (priv : xeon_sp_private) (d : Z) : Prop :=
  do_dpu_transfer (xfer_matrix priv) (line_index d) (seqZ 0 (nb_cis priv)) = Some true.

(** The bytes streamed for the DPUs [ds]. *)
Record written (priv : xeon_sp_private) (ds : list Z) (lines : list (Z * list Z)) : Prop := {
  written_in : forall x b, (x, b) ∈ flat_map line_bytes lines -> exists d q y, d ∈ ds /\ active priv d /\ 0 <= q < words priv /\
    (y < 64)%nat /\ x = line_address d q (offset (xfer_matrix priv)) + Z.of_nat y /\
    forall ci r f, y = (8 * r + ci)%nat -> (ci < 8)%nat -> sources priv d !! ci = Some (Some f) -> b = f (8 * q + Z.of_nat r);
  written_all : forall d q y, d ∈ ds -> active priv d -> 0 <= q < words priv -> (y < 64)%nat ->
    exists b, (line_address d q (offset (xfer_matrix priv)) + Z.of_nat y, b) ∈ flat_map line_bytes lines }.

Lemma written_nil priv : written priv [] [].
Proof. split; [by intros x b ?%not_elem_of_nil | by intros d q y ?%not_elem_of_nil]. Qed.

Lemma written_app priv ds ds' l l' : written priv ds l -> written priv ds' l' -> written priv (ds ++ ds') (l ++ l').
Proof.
  intros [Hin Hall] [Hin' Hall']. split.
  - intros x b Hx. rewrite flat_map_app in Hx. apply elem_of_app in Hx as [Hx | Hx].
    + destruct (Hin _ _ Hx) as (d & q & y & Hd & H). exists d, q, y. split; [apply elem_of_app; by left | done].
    + destruct (Hin' _ _ Hx) as (d & q & y & Hd & H). exists d, q, y. split; [apply elem_of_app; by right | done].
  - intros d q y Hd Ha Hq Hy. rewrite flat_map_app. apply elem_of_app in Hd as [Hd | Hd].
    + destruct (Hall _ _ _ Hd Ha Hq Hy) as [b Hb]. exists b. apply elem_of_app. by left.
    + destruct (Hall' _ _ _ Hd Ha Hq Hy) as [b Hb]. exists b. apply elem_of_app. by right.
Qed.

Lemma written_perm priv ds l l' : l ≡ₚ l' -> written priv ds l -> written priv ds l'.
Proof.
  intros Hp [Hin Hall]. assert (flat_map line_bytes l ≡ₚ flat_map line_bytes l') as E by by apply Permutation_flat_map.
  split.
  - intros x b Hx. apply Hin. by rewrite E.
  - intros d q y Hd Ha Hq Hy. destruct (Hall d q y Hd Ha Hq Hy) as [b Hb]. exists b. by rewrite <- E.
Qed.

(** A line without buffers is skipped. *)
Lemma written_inactive priv d : ~ active priv d -> written priv [d] [].
Proof.
  intros Hn. split; [by intros x b ?%not_elem_of_nil |]. intros d' q y Hd. apply elem_of_cons in Hd as [-> | Hd]; [done |].
  by apply not_elem_of_nil in Hd.
Qed.

Lemma written_dpu priv d lines : active priv d ->
  lines_for d (offset (xfer_matrix priv)) (sources priv d) 0 (words priv) lines -> written priv [d] lines.
Proof.
  intros Ha [Hin Hall]. split.
  - intros x b Hx. destruct (Hin x b Hx) as (q & y & Hq & Hy & -> & Hb). exists d, q, y.
    split_and!; [by apply list_elem_of_here | done | lia.. | done | done].
  - intros d' q y Hd _ Hq Hy. apply elem_of_cons in Hd as [-> | Hd]; [by apply Hall | by apply not_elem_of_nil in Hd].
Qed.

Section ok.
Variable priv : xeon_sp_private.
Hypothesis Hok : xfer_ok priv.

Lemma entry_load d ci : 0 <= d < nb_dpus_per_ci priv -> 0 <= ci < nb_cis priv ->
  exists e, load (ptr (xfer_matrix priv)) (8 * d + ci) = Some e /\ entry_ok (type (xfer_matrix priv)) e.
Proof.
  intros Hd Hc. destruct Hok as [Hcis Hdpus Hptr _ _ He].
  destruct (load_lt (ptr (xfer_matrix priv)) (8 * d + ci)) as (e & E & El); [lia |].
  exists e. split; [done |]. by apply (Forall_lookup_1 _ _ _ _ He El).
Qed.

Lemma line_index_8 d : 0 <= d < nb_dpus_per_ci priv -> line_index d = 8 * d.
Proof. intros Hd. destruct Hok. unfold line_index, NB_REAL_CIS. rewrite wrap_small; lia. Qed.

Lemma do_dpu_transfer_spec idx cis : (forall ci, ci ∈ cis -> is_Some (load (ptr (xfer_matrix priv)) (idx + ci))) ->
  exists b, do_dpu_transfer (xfer_matrix priv) idx cis = Some b /\
    (b = false -> forall ci, ci ∈ cis -> load (ptr (xfer_matrix priv)) (idx + ci) = Some Null).
Proof.
  induction cis as [| ci cis IH]; intros Hl.
  - exists false. split; [done |]. by intros _ ci ?%not_elem_of_nil.
  - destruct (Hl ci) as [e He]; [apply list_elem_of_here |]. cbn [do_dpu_transfer]. rewrite He. cbn [mbind option_bind].
    destruct IH as (b & Hb & Hn); [intros c Hc; apply Hl; by apply list_elem_of_further |].
    destruct e; [| by exists true..]. exists b. split; [done |]. intros -> c Hc.
    apply elem_of_cons in Hc as [-> | Hc]; [done | by apply Hn].
Qed.

(** A line is skipped only when no chip has a source. *)
Lemma active_spec d : 0 <= d < nb_dpus_per_ci priv -> exists b,
  do_dpu_transfer (xfer_matrix priv) (line_index d) (seqZ 0 (nb_cis priv)) = Some b /\
  (b = false -> forall ci, (0 <= ci < nb_cis priv) -> load (ptr (xfer_matrix priv)) (8 * d + ci) = Some Null).
Proof.
  intros Hd. rewrite line_index_8 by done. destruct (do_dpu_transfer_spec (8 * d) (seqZ 0 (nb_cis priv))) as (b & Hb & Hn).
  - intros ci Hc%elem_of_seqZ. destruct (entry_load d ci) as (e & E & _); [done | lia |]. by exists e.
  - exists b. split; [done |]. intros Eb ci Hc. apply Hn; [done |]. apply elem_of_seqZ. lia.
Qed.

Lemma open_streams_spec d : 0 <= d < nb_dpus_per_ci priv ->
  exists ss, open_streams zeros pool (xfer_matrix priv) (line_index d) (nb_cis priv) = Some ss /\
    Forall2 (provides 0) ss (sources priv d).
Proof.
  intros Hd. unfold open_streams, sources. rewrite line_index_8 by done.
  assert (forall ci, ci ∈ seqZ 0 (nb_cis priv) -> 0 <= ci < nb_cis priv) as Hcs by (intros ci Hc%elem_of_seqZ; lia).
  revert Hcs. induction (seqZ 0 (nb_cis priv)) as [| ci cis IH]; intros Hcs.
  - exists []. by split.
  - destruct IH as (ss & E & HF); [intros c Hc; apply Hcs; by apply list_elem_of_further |].
    destruct (entry_load d ci) as (e & Ee & Hoke); [done | apply Hcs, list_elem_of_here |].
    destruct (open_stream_provides _ _ _ Ee Hoke) as (s & Es & Hs).
    exists (s :: ss). cbn [mapM map]. rewrite Es, Ee. cbn [mbind option_bind]. rewrite E. split; [done |]. by constructor.
Qed.

(** A thread streams the lines of its DPUs, and only those. *)
Lemma threads_write_to_rank_spec junk start stop : 0 <= start -> stop <= nb_dpus_per_ci priv -> length junk = 64%nat ->
  exists lines, threads_write_to_rank zeros pool host priv junk start stop = Some lines /\
    written priv (seqZ start (stop - start)) lines.
Proof.
  intros Hstart Hstop Hj. unfold threads_write_to_rank. destruct (Z.eqb_spec (size (xfer_matrix priv)) 0) as [E0 | E0].
  { exists []. split; [done |]. split; [by intros x b ?%not_elem_of_nil |]. intros d q y _ _. unfold words. rewrite E0. change (0 / 8) with 0. intros [? ?]. lia. }
  destruct (for_each_rule (fun '(lines, cache_line) dpu_id =>
      active ← do_dpu_transfer (xfer_matrix priv) (line_index dpu_id) (seqZ 0 (nb_cis priv));
      if negb active then Some (lines, cache_line)
      else
        ss ← open_streams zeros pool (xfer_matrix priv) (line_index dpu_id) (nb_cis priv);
        '(l, cache_line) ← write_lines host dpu_id (offset (xfer_matrix priv)) (Z.to_nat (size (xfer_matrix priv) / 8)) 0 ss cache_line;
        Some (lines ++ l, cache_line))
    (fun seen s => written priv seen s.1 /\ length s.2 = 64%nat)
    (FOREACH_DPU_MULTITHREAD start stop) ([], junk)) as ([lines cl] & -> & Hw & _).
  - split; [apply written_nil | done].
  - intros seen d [lines cl] Hd%elem_of_seqZ [Hw Hcl]. cbn [fst snd] in *.
    destruct (active_spec d) as (b & Eb & _); [lia |]. rewrite Eb. cbn [mbind option_bind]. destruct b; cbn [negb].
    + destruct (open_streams_spec d) as (ss & -> & HF); [lia |]. cbn [mbind option_bind].
      assert (length ss <= 8)%nat as Hlen.
      { pose proof HF as El. apply Forall2_length in El. rewrite El. unfold sources. rewrite length_map, length_seqZ. destruct Hok. lia. }
      destruct (write_lines_spec d (offset (xfer_matrix priv)) (Z.to_nat (size (xfer_matrix priv) / 8)) 0 ss (sources priv d) cl) as (l & cl' & -> & Hl' & Hfor);
        [done.. |].
      eexists. split; [done |]. split; [| done]. cbn [fst]. apply written_app; [done |]. apply written_dpu; [done |].
      destruct Hok as [_ _ _ _ [Hs _] _]. by rewrite Z2Nat.id in Hfor by (apply Z.div_pos; lia).
    + eexists. split; [done |]. split; [| done]. cbn [fst]. rewrite <- (app_nil_r lines). apply written_app; [done |].
      apply written_inactive. unfold active. by rewrite Eb.
  - exists lines. by split.
Qed.
End ok.
End sources.

(** * The MRAM of one DPU *)

(** Byte [x] of the MRAM of the DPU [d] of chip [ci]. *)
Definition mram (region : memory) (d ci : Z) : memory := fun x =>
  region (line_address d 0 (x - x mod 8) + 8 * (x mod 8) + ci).

Lemma line_address_mram d q o : line_address d q o = line_address d 0 (8 * q + o).
Proof. unfold line_address, line_offset. by replace (q * 8 + o) with (0 * 8 + (8 * q + o)) by lia. Qed.

Lemma mram_at region d ci o q r : 0 <= o -> o mod 8 = 0 -> 0 <= q -> 0 <= r < 8 ->
  mram region d ci (o + (8 * q + r)) = region (line_address d q o + (8 * r + ci)).
Proof.
  intros Ho Hm Hq Hr. unfold mram. rewrite (line_address_mram d q o).
  assert ((o + (8 * q + r)) mod 8 = r) as ->.
  { replace (o + (8 * q + r)) with (r + (o / 8 + q) * 8) by (pose proof (Z.div_mod o 8); lia).
    by rewrite Z.mod_add, Z.mod_small by lia. }
  replace (o + (8 * q + r) - r) with (8 * q + o) by lia. f_equal. lia.
Qed.

(** Two bytes at the same place are the same byte of the same line. *)
Lemma line_byte_inj d d' q q' o o' y y' : 0 <= d < 8 -> 0 <= d' < 8 -> 0 <= q * 8 + o < 2 ^ 26 -> 0 <= q' * 8 + o' < 2 ^ 26 ->
  o mod 8 = 0 -> o' mod 8 = 0 -> 0 <= y < 64 -> 0 <= y' < 64 -> line_address d q o + y = line_address d' q' o' + y' ->
  d = d' /\ q * 8 + o = q' * 8 + o' /\ y = y'.
Proof.
  intros Hd Hd' Hq Hq' Ho Ho' Hy Hy' E.
  destruct (lines_disjoint d d' q q' o o' Hd Hd' Hq Hq' Ho Ho') as (_ & _ & _ & [H | [H | [-> Eq]]] & _); [lia.. |].
  split; [done |]. split; [done |].
  rewrite (line_address_mram d' q o), (line_address_mram d' q' o') in E. replace (8 * q + o) with (8 * q' + o') in E by lia. lia.
Qed.

(** * The threads of a pool *)

(** The DPUs of thread [t], without the wrap-around. *)
Lemma thread_dpus_range priv t start stop : 0 <= nb_dpus_per_ci priv <= 8 -> 0 < nb_threads_for_xfer priv <= 8 -> 0 <= t ->
  let q := nb_dpus_per_ci priv / nb_threads_for_xfer priv in
  thread_dpus priv t = Some (start, stop) <-> t < nb_threads_for_xfer priv /\ start = t * q /\
    stop = (if t =? nb_threads_for_xfer priv - 1 then nb_dpus_per_ci priv else (t + 1) * q).
Proof.
  intros Hd Hx Ht q. unfold thread_dpus. fold q. set (n := nb_threads_for_xfer priv) in *.
  assert (0 <= q /\ q * n <= nb_dpus_per_ci priv) as [Hq0 Hq].
  { split; [apply Z.div_pos; lia |]. rewrite Z.mul_comm. apply Z.mul_div_le. lia. }
  assert (forall k, 0 <= k <= n -> u8 (k * q) = k * q) as Hu.
  { intros k Hk. assert (0 <= k * q <= q * n) by nia. apply wrap_small. lia. }
  destruct (Z.ltb_spec t n) as [Htn | Htn]; cbn [negb]; [| split; [done | lia]]. rewrite !Hu by lia.
  split; [by intros [= <- <-] | by intros (_ & -> & ->)].
Qed.

(** The threads of a transfer share its DPUs. *)
Lemma thread_dpus_bounds priv t start stop : 0 <= nb_dpus_per_ci priv <= 8 -> 0 < nb_threads_for_xfer priv <= 8 -> 0 <= t ->
  thread_dpus priv t = Some (start, stop) -> 0 <= start /\ stop <= nb_dpus_per_ci priv.
Proof.
  intros Hd Hx Ht (Htn & -> & ->)%thread_dpus_range; [| done..].
  pose proof (Z.mul_div_le (nb_dpus_per_ci priv) (nb_threads_for_xfer priv) ltac:(lia)) as Hm.
  pose proof (Z.div_pos (nb_dpus_per_ci priv) (nb_threads_for_xfer priv) ltac:(lia) ltac:(lia)) as Hq.
  destruct (Z.eqb_spec t (nb_threads_for_xfer priv - 1)); nia.
Qed.

Lemma thread_dpus_cover priv d : 0 <= d < nb_dpus_per_ci priv -> nb_dpus_per_ci priv <= 8 -> 0 < nb_threads_for_xfer priv <= 8 ->
  exists t start stop, 0 <= t < nb_threads_for_xfer priv /\ thread_dpus priv t = Some (start, stop) /\ start <= d < stop.
Proof.
  intros Hd Hn Hx. set (n := nb_threads_for_xfer priv) in *. set (q := nb_dpus_per_ci priv / n).
  assert (0 <= q) as Hq by (apply Z.div_pos; lia).
  destruct (Z.ltb_spec d ((n - 1) * q)) as [Hlt | Hge].
  - assert (0 < q) as Hqpos by nia. pose proof (Z.div_mod d q) as Hdm. pose proof (Z.mod_pos_bound d q Hqpos) as Hm.
    assert (0 <= d / q) by (apply Z.div_pos; lia). assert (d / q < n - 1) by (apply Z.div_lt_upper_bound; lia).
    exists (d / q), (d / q * q), ((d / q + 1) * q). split; [lia |]. split; [| lia].
    apply thread_dpus_range; [lia.. |]. fold n q. destruct (Z.eqb_spec (d / q) (n - 1)); [lia |]. split_and!; [lia | done..].
  - exists (n - 1), ((n - 1) * q), (nb_dpus_per_ci priv). split; [lia |]. split; [| lia].
    apply thread_dpus_range; [lia.. |]. fold n q. rewrite Z.eqb_refl. split_and!; [lia | done..].
Qed.

Lemma thread_dpus_disjoint priv t t' start stop start' stop' d : 0 <= nb_dpus_per_ci priv <= 8 -> 0 < nb_threads_for_xfer priv <= 8 ->
  0 <= t < t' -> thread_dpus priv t = Some (start, stop) -> thread_dpus priv t' = Some (start', stop') ->
  start <= d < stop -> start' <= d < stop' -> False.
Proof.
  intros Hn Hx Ht (Htn & -> & ->)%thread_dpus_range (Htn' & -> & _)%thread_dpus_range Hd Hd'; [| lia..].
  pose proof (Z.div_pos (nb_dpus_per_ci priv) (nb_threads_for_xfer priv) ltac:(lia) ltac:(lia)) as Hq.
  destruct (Z.eqb_spec t (nb_threads_for_xfer priv - 1)); nia.
Qed.

Lemma thread_dpus_spec priv : 0 <= nb_dpus_per_ci priv <= 8 -> 0 < nb_threads_for_xfer priv <= nb_threads priv -> nb_threads priv <= 8 ->
  (forall t start stop, 0 <= t < nb_threads priv -> thread_dpus priv t = Some (start, stop) ->
     0 <= start /\ stop <= nb_dpus_per_ci priv) /\
  (forall d, 0 <= d < nb_dpus_per_ci priv ->
     exists t start stop, 0 <= t < nb_threads priv /\ thread_dpus priv t = Some (start, stop) /\ start <= d < stop).
Proof.
  intros Hd Hx Ht. split.
  - intros t start stop Hti. apply thread_dpus_bounds; lia.
  - intros d Hdr. destruct (thread_dpus_cover priv d) as (t & start & stop & Htr & H); [lia.. |].
    exists t, start, stop. split; [lia | done].
Qed.

(** What a job of the pool needs besides the transfer: enough threads in the pool. *)
Record job_ok (pool : list sg_xfer_buffer) (priv : xeon_sp_private) : Prop := {
  job_xfer : xfer_ok pool priv;
  job_threads : 0 < nb_threads_for_xfer priv <= nb_threads priv;
  job_pool : nb_threads priv <= 8 }.

Section write.
Variables (zeros : Z) (pool : list sg_xfer_buffer) (host : memory).
Hypothesis padding_zero : forall a, in_padding zeros a -> host a = 0.
Variable priv : xeon_sp_private.
Hypothesis Hok : xfer_ok pool priv.

Lemma written_in_rank region ds ls d ci f k : written pool host priv ds ls -> (forall x, x ∈ ds -> 0 <= x < 8) ->
  d ∈ ds -> 0 <= d < nb_dpus_per_ci priv -> 0 <= ci < nb_cis priv -> sources pool host priv d !! Z.to_nat ci = Some (Some f) ->
  0 <= k < 8 * words priv -> mram (apply_lines region ls) d ci (offset (xfer_matrix priv) + k) = f k.
Proof.
  intros [Hin Hall] Hds Hd Hdn Hci Hf Hk. set (o := offset (xfer_matrix priv)) in *.
  destruct Hok as [Hcis Hdpus _ [Ho Hm] [Hs Hsum] _]. fold o in Ho, Hm, Hsum.
  assert (8 * words priv <= size (xfer_matrix priv)) as Hw by (unfold words; apply Z.mul_div_le; lia).
  pose proof (Z.div_mod k 8 ltac:(lia)) as Ek. pose proof (Z.mod_pos_bound k 8 ltac:(lia)) as Hr.
  set (q := k / 8) in *. set (r := k mod 8) in *. rewrite Ek.
  rewrite mram_at by lia. rewrite apply_lines_bytes.
  assert (active priv d) as Ha.
  { destruct (active_spec pool priv Hok d Hdn) as (b & Eb & Hn). destruct b; [done |].
    unfold sources in Hf. change (map ?g ?l) with (g <$> l) in Hf. rewrite list_lookup_fmap, lookup_seqZ_lt in Hf by lia.
    cbn [fmap option_fmap option_map] in Hf. rewrite Z.add_0_l, Z2Nat.id in Hf by lia. by rewrite (Hn eq_refl ci Hci) in Hf. }
  destruct (Hall d q (8 * Z.to_nat r + Z.to_nat ci)%nat Hd Ha) as [b Hb]; [lia.. |]. fold o in Hb.
  replace (Z.of_nat (8 * Z.to_nat r + Z.to_nat ci)) with (8 * r + ci) in Hb by lia.
  assert (forall b, (line_address d q o + (8 * r + ci), b) ∈ flat_map line_bytes ls -> b = f (8 * q + r)) as Hsame.
  { intros b' Hb'. destruct (Hin _ _ Hb') as (d' & q' & y & Hd' & _ & Hq' & Hy & Ex & Hval). fold o in Ex.
    destruct (line_byte_inj d d' q q' o o (8 * r + ci) (Z.of_nat y)) as (-> & Eq & Ey); [by apply Hds | by apply Hds | lia.. | done |].
    assert (q' = q) as -> by lia. rewrite (Hval (Z.to_nat ci) (Z.to_nat r) f); [by rewrite Z2Nat.id by lia | lia | lia | done]. }
  pose proof (Hsame _ Hb) as ->. by apply set_bytes_pick.
Qed.

Lemma written_elsewhere region ds ls x : written pool host priv ds ls ->
  (forall d q y, d ∈ ds -> active priv d -> 0 <= q < words priv -> (y < 64)%nat ->
     x <> line_address d q (offset (xfer_matrix priv)) + Z.of_nat y) ->
  apply_lines region ls x = region x.
Proof.
  intros [Hin _] Hx. rewrite apply_lines_bytes. apply set_bytes_other. intros b Hb.
  destruct (Hin _ _ Hb) as (d & q & y & Hd & Ha & Hq & Hy & E & _). by apply (Hx d q y).
Qed.

(** The DPUs of some threads. *)
Lemma threads_written region junk tids : direction priv = thread_mram_xfer_write -> (forall t, length (junk t) = 64%nat) ->
  (forall t start stop, t ∈ tids -> thread_dpus priv t = Some (start, stop) -> 0 <= start /\ stop <= nb_dpus_per_ci priv) ->
  exists lss ds, mapM (fun t => fst <$> thread_do_mram_xfer zeros pool region priv (junk t) t host) tids = Some lss /\
    written pool host priv ds (concat lss) /\
    (forall d, d ∈ ds <-> exists t start stop, t ∈ tids /\ thread_dpus priv t = Some (start, stop) /\ start <= d < stop).
Proof.
  intros Hdir Hjunk. induction tids as [| t tids IH]; intros Hr.
  - exists [], []. split; [done |]. split; [apply written_nil |].
    intros d. split; [by intros ?%not_elem_of_nil | by intros (t & start & stop & ?%not_elem_of_nil & _)].
  - destruct IH as (lss & ds & E & Hw & Hds); [intros t' start stop Ht'; apply Hr; by apply list_elem_of_further |].
    assert (exists ls dt, fst <$> thread_do_mram_xfer zeros pool region priv (junk t) t host = Some ls /\ written pool host priv dt ls /\
      (forall d, d ∈ dt <-> exists start stop, thread_dpus priv t = Some (start, stop) /\ start <= d < stop)) as (ls & dt & Et & Hwt & Hdt).
    { unfold thread_do_mram_xfer. rewrite Hdir. destruct (thread_dpus priv t) as [[start stop] |] eqn:Ed.
      - destruct (Hr t start stop) as [Hstart Hstop]; [apply list_elem_of_here | done |].
        destruct (threads_write_to_rank_spec zeros pool host padding_zero priv Hok (junk t) start stop) as (ls & -> & Hls); [done.. |].
        exists ls, (seqZ start (stop - start)). split; [done |]. split; [done |]. intros d. rewrite elem_of_seqZ. split.
        + intros Hd. exists start, stop. split; [done | lia].
        + intros (start' & stop' & [= <- <-] & Hd). lia.
      - exists [], []. split; [done |]. split; [apply written_nil |]. intros d. split; [by intros ?%not_elem_of_nil | by intros (? & ? & ? & _)]. }
    exists (ls :: lss), (dt ++ ds). cbn [mapM]. rewrite Et. cbn [mbind option_bind]. rewrite E. split; [done |].
    split; [by apply written_app |]. intros d. rewrite elem_of_app, Hdt, Hds. split.
    + intros [(start & stop & Ed & Hd) | (t' & start & stop & Ht' & Hrest)].
      * exists t, start, stop. split; [apply list_elem_of_here | done].
      * exists t', start, stop. split; [by apply list_elem_of_further | done].
    + intros (t' & start & stop & Ht' & Ed & Hd). apply elem_of_cons in Ht' as [-> | Ht'];
        [left; by exists start, stop | right; by exists t', start, stop].
Qed.
End write.


(** When a transfer is cut for more threads than the pool has, it succeeds all the same, and the MRAMs of the DPUs of
    the missing threads are left as they were. *)
Theorem missing_threads_drop_dpus zeros pool host region priv junk : (forall a, in_padding zeros a -> host a = 0) ->
  xfer_ok pool priv -> direction priv = thread_mram_xfer_write -> (forall t, length (junk t) = 64%nat) ->
  0 <= nb_threads priv < nb_threads_for_xfer priv -> nb_threads_for_xfer priv <= 8 ->
  exists lss, pool_write zeros pool region host priv junk = Some lss /\
    forall t start stop d ci x, nb_threads priv <= t -> thread_dpus priv t = Some (start, stop) -> start <= d < stop ->
      0 <= ci < 8 -> 0 <= x < 2 ^ 26 -> mram (apply_lines region (concat lss)) d ci x = mram region d ci x.
Proof.
  intros Hz Hx Hdir Hj Hn Hn8. pose proof Hx as [Hcis Hdpus _ [Ho Hm] [Hs Hsum] _].
  destruct (threads_written zeros pool host Hz priv Hx region junk (seqZ 0 (nb_threads priv)) Hdir Hj) as (lss & ds & E & Hw & Hall).
  { intros t start stop Htt%elem_of_seqZ. apply thread_dpus_bounds; lia. }
  assert (8 * words priv <= size (xfer_matrix priv)) as Hwords by (unfold words; apply Z.mul_div_le; lia).
  exists lss. split; [exact E |]. intros t start stop d ci x Ht Et Hd Hci Hxr.
  apply (written_elsewhere pool host priv region ds); [done |]. intros d' q y Hd' _ Hq Hy Eq.
  apply Hall in Hd' as (t' & start' & stop' & Htt%elem_of_seqZ & Et' & Hd').
  destruct (thread_dpus_bounds priv t start stop) as [Hb1 Hb2]; [lia.. | done |].
  destruct (thread_dpus_bounds priv t' start' stop') as [Hb1' Hb2']; [lia.. | done |].
  pose proof (Z.div_mod x 8 ltac:(lia)) as Ex. pose proof (Z.mod_pos_bound x 8 ltac:(lia)) as Hr.
  assert ((x - x mod 8) mod 8 = 0) as Hxm by (replace (x - x mod 8) with (x / 8 * 8) by lia; apply Z.mod_mul; lia).
  rewrite <- Z.add_assoc in Eq. destruct (line_byte_inj d d' 0 q (x - x mod 8) (offset (xfer_matrix priv))
    (8 * (x mod 8) + ci) (Z.of_nat y)) as (-> & _); [lia.. | done | done | lia | lia | done |].
  by apply (thread_dpus_disjoint priv t' t start' stop' start stop d'); [lia.. | done | done | |].
Qed.

(** A transfer of one word for two DPUs of different lines and chips. *)
Definition two_dpus (dir : thread_mram_xfer) : xeon_sp_private :=
  {| nb_cis := 2; direction := dir; nb_dpus_per_ci := 2; nb_threads_for_xfer := 2; nb_threads := 4;
     xfer_matrix := {| ptr := <[9%nat := Buffer 2000]> (<[0%nat := Buffer 1000]> (replicate 64 Null)); offset := 16; size := 8;
                       type := DPU_DEFAULT_XFER_MATRIX |} |}.

Lemma two_dpus_ok dir : job_ok [] (two_dpus dir).
Proof.
  split; [split | |]; cbn [two_dpus nb_cis nb_dpus_per_ci xfer_matrix ptr offset size type nb_threads nb_threads_for_xfer]; try (done || lia).
  apply Forall_insert; [apply Forall_insert; [by apply Forall_replicate | done] | done].
Qed.

Definition host_bytes : memory := fun a => if a <? 10000 then a mod 256 else 0.

Lemma host_padding a : in_padding 10000 a -> host_bytes a = 0.
Proof. intros [Ha _]. unfold host_bytes. destruct (Z.ltb_spec a 10000); [lia | done]. Qed.


(** The same transfer cut in two for a pool of one thread. *)
Definition short_pool : xeon_sp_private :=
  {| nb_cis := 2; direction := thread_mram_xfer_write; nb_dpus_per_ci := 2; nb_threads_for_xfer := 2; nb_threads := 1;
     xfer_matrix := xfer_matrix (two_dpus thread_mram_xfer_write) |}.

Lemma missing_threads_drop_dpus_witness : exists lss,
  pool_write 10000 [] (fun _ => 0) host_bytes short_pool (fun _ => replicate 64 7) = Some lss /\
  mram (apply_lines (fun _ => 0) (concat lss)) 1 1 (16 + 3) = 0.
Proof.
  destruct (missing_threads_drop_dpus 10000 [] host_bytes (fun _ => 0) short_pool (fun _ => replicate 64 7) host_padding)
    as (lss & E & H); [| done.. |].
  - destruct (two_dpus_ok thread_mram_xfer_write) as [[Hcis Hdpus Hptr Ho Hs He] _ _]. by split.
  - exists lss. split; [exact E |]. apply (H 1 1 2 1 1 (16 + 3)); cbn; done || lia.
Defined.

(** * Reading *)

Section sinks.
Variables (zeros : Z) (pool : list sg_xfer_buffer).

(** Where byte [k] of the MRAM goes. *)
Definition entry_sink (e : entry) : option (Z -> option Z) :=
  match e with
  | Null => None
  | Buffer a => Some (fun k => Some (a + k))
  | Pool p => (fun sg => fun k => addrs_of (blocks_of sg) !! Z.to_nat k) <$> load pool p
  end.

(** Scattered buffers of whole words. *)
Definition whole_words (e : entry) : Prop :=
  match e with
  | Pool p => forall sg, load pool p = Some sg -> (8 | Z.of_nat (length (addrs_of (blocks_of sg))))
  | _ => True
  end.

Definition accepts (i : Z) (s : stream) (snk : option (Z -> option Z)) : Prop :=
  match s with
  | No_stream => snk = None
  | Memory_stream a => snk = Some (fun k => Some (a + k))
  | Block_stream it => exists blocks addrs, it_at zeros it blocks /\ left_of it blocks = drop (Z.to_nat (8 * i)) addrs
      /\ (8 | Z.of_nat (length (left_of it blocks))) /\ snk = Some (fun k => addrs !! Z.to_nat k)
  end.

Lemma open_stream_accepts m index e : load (ptr m) index = Some e -> entry_ok pool (type m) e -> whole_words e ->
  exists s, open_stream zeros pool m index = Some s /\ accepts 0 s (entry_sink e).
Proof.
  intros He Hok H8. unfold open_stream. rewrite He. cbn [mbind option_bind].
  destruct e as [| a | k], (type m); try by destruct Hok.
  - by exists No_stream.
  - by exists No_stream.
  - by exists (Memory_stream a).
  - destruct Hok as (sg & Hsg & Hr). cbn [entry_sink]. rewrite Hsg. cbn [mbind option_bind fmap option_fmap option_map].
    destruct (init_at zeros sg Hr) as (it & -> & Hat & El). exists (Block_stream it). split; [done |].
    exists (blocks_of sg), (addrs_of (blocks_of sg)). split_and!; [done.. | | done]. rewrite El. by apply H8.
Qed.

(** The bytes of a word, at the places of a sink. *)
Definition word_stores (i : Z) (snk : option (Z -> option Z)) (w : list Z) (l : list (Z * Z)) : Prop :=
  forall x b, (x, b) ∈ l <-> exists f r, snk = Some f /\ (r < 8)%nat /\ f (8 * i + Z.of_nat r) = Some x /\ b = nth r w 0.

Lemma combine_in {A} (l : list A) w x b : length w = 8%nat -> (x, b) ∈ combine l w <->
  exists r, (r < 8)%nat /\ l !! r = Some x /\ b = nth r w 0.
Proof.
  intros Hw. split.
  - intros (r & Hr)%list_elem_of_lookup_1. apply combine_lookup in Hr as [H1 H2]. exists r.
    pose proof (lookup_lt_Some _ _ _ H2). split_and!; [lia | done |]. symmetry. by apply nth_lookup_Some.
  - intros (r & Hr & Hl & ->). apply (list_elem_of_lookup_2 _ r), combine_lookup. split; [done |].
    destruct (lookup_lt_is_Some_2 w r) as [b E]; [lia |]. by rewrite E, (nth_lookup_Some _ _ _ _ E).
Qed.

Lemma store_word_accepts host i s snk w : 0 <= i -> accepts i s snk -> length w = 8%nat -> exists l s',
  store_word host i s w = Some (set_bytes host l, s') /\ accepts (i + 1) s' snk /\ word_stores i snk w l.
Proof.
  intros Hi Ha Hw. destruct s as [| a | it]; cbn [accepts store_word] in *.
  - subst snk. exists [], No_stream. split; [done |]. split; [done |]. intros x b. split; [by intros ?%not_elem_of_nil | by intros (f & r & ? & _)].
  - subst snk. exists (combine (run (a + 8 * i) 8) w), (Memory_stream a). split; [| split; [done |]].
    + unfold write. by rewrite Hw, write_set_bytes.
    + intros x b. rewrite combine_in by done. split.
      * intros (r & Hr & Hl & ->). rewrite run_lookup in Hl by done. exists (fun k => Some (a + k)), r. split_and!; [done.. | | done].
        rewrite <- Hl. f_equal. lia.
      * intros (f & r & [= <-] & Hr & Hl & ->). exists r. split_and!; [done | | done]. rewrite run_lookup by done. rewrite <- Hl. f_equal. lia.
  - destruct Ha as (blocks & addrs & Hat & El & H8 & ->). destruct blocks as [| b0 blocks].
    + pose proof (at_count _ _ _ Hat) as Hc. cbn in Hc. unfold write_next_eight_bytes.
      destruct (Z.eqb_spec (blocks_ptr it) (blocks_ptr_end it)); [| lia]. cbn [mbind option_bind].
      assert (left_of it [] = []) as E0 by (unfold left_of; cbn [addrs_of flat_map]; by rewrite drop_nil).
      rewrite E0 in El. assert (length addrs <= Z.to_nat (8 * i))%nat as Hlen.
      { apply (f_equal length) in El. rewrite length_drop in El. cbn in El. lia. }
      exists [], (Block_stream it). split; [done |]. split.
      * exists [], addrs. split_and!; [done | | by rewrite E0; exists 0 | done]. by rewrite E0, drop_ge by lia.
      * intros x b. split; [by intros ?%not_elem_of_nil |]. intros (f & r & [= <-] & Hr & Hl & _).
        apply lookup_lt_Some in Hl. lia.
    + pose proof (left_nonempty _ _ _ _ Hat) as Hpos. destruct H8 as [c Hc].
      destruct (write_next_eight_bytes_spec _ host _ _ _ w Hat Hw) as (l & it' & blocks' & -> & Hat' & [(pads & -> & _) Hl Eleft]).
      assert (pads = []) as -> by (rewrite length_app, length_take in Hl; apply length_zero_iff_nil; lia).
      rewrite app_nil_r in *. cbn [mbind option_bind]. rewrite write_set_bytes. eexists _, (Block_stream it'). split; [done |]. split.
      * exists blocks', addrs. split_and!; [done | rewrite Eleft, El, drop_drop; f_equal; lia | | done].
        rewrite Eleft, length_drop. exists (c - 1). lia.
      * intros x b. rewrite combine_in by done. rewrite El. split.
        -- intros (r & Hr & Hx & ->). rewrite lookup_take_lt, lookup_drop in Hx by done. eexists _, r. split_and!; [done.. | | done].
           cbn. rewrite <- Hx. f_equal. lia.
        -- intros (f & r & [= <-] & Hr & Hx & ->). exists r. split_and!; [done | | done]. rewrite lookup_take_lt, lookup_drop by done.
           rewrite <- Hx. f_equal. lia.
Qed.

(** * A line read *)

Lemma length_lane cl ci : length cl = 64%nat -> (ci < 8)%nat -> length (lane 8 cl ci) = 8%nat.
Proof. intros Hl Hc. unfold lane. rewrite length_take, length_drop. lia. Qed.

Lemma nth_lane cl ci r : (r < 8)%nat -> nth r (lane 8 cl ci) 0 = nth (8 * ci + r) cl 0.
Proof.
  intros Hr. unfold lane. rewrite <- (nth_skipn (8 * ci)).
  assert (forall (l : list Z), nth r (take 8 l) 0 = nth r l 0) as H; [| apply H].
  intros l. destruct (Nat.lt_ge_cases r (length (take 8 l))) as [H | H].
  - rewrite <- (take_drop 8 l) at 2. by rewrite app_nth1.
  - rewrite !nth_overflow; [done | | done]. rewrite length_take in H. lia.
Qed.

Definition line_stores (i : Z) (ci : nat) (snks : list (option (Z -> option Z))) (cl : list Z) (l : list (Z * Z)) : Prop :=
  forall x b, (x, b) ∈ l <-> exists j f r, snks !! j = Some (Some f) /\ (r < 8)%nat /\ f (8 * i + Z.of_nat r) = Some x
    /\ b = nth (8 * (ci + j) + r) cl 0.

Lemma store_cache_line_spec host i ci ss snks cl : 0 <= i -> (ci + length ss <= 8)%nat -> length cl = 64%nat ->
  Forall2 (accepts i) ss snks -> exists l ss', store_cache_line host i ci ss cl = Some (set_bytes host l, ss') /\
    Forall2 (accepts (i + 1)) ss' snks /\ line_stores i ci snks cl l.
Proof.
  intros Hi Hlen Hcl HF. revert host ci Hlen. induction HF as [| s snk ss snks Hs HF IH]; intros host ci Hlen.
  - exists [], []. split; [done |]. split; [done |]. intros x b. split; [by intros ?%not_elem_of_nil |].
    intros (j & f & r & Hj & _). by rewrite lookup_nil in Hj.
  - cbn [length] in Hlen. cbn [store_cache_line].
    destruct (store_word_accepts host i s snk (lane 8 cl ci)) as (l & s' & -> & Hs' & Hl); [done.. | apply length_lane; [done | lia] |].
    cbn [mbind option_bind]. destruct (IH (set_bytes host l) (ci + 1)%nat) as (l' & ss' & -> & HF' & Hl'); [lia |].
    cbn [mbind option_bind]. rewrite <- set_bytes_app. exists (l ++ l'), (s' :: ss'). split; [done |]. split; [by constructor |].
    intros x b. rewrite elem_of_app, (Hl x b), (Hl' x b). split.
    + intros [(f & r & -> & Hr & Hf & ->) | (j & f & r & Hj & Hr & Hf & ->)].
      * exists 0%nat, f, r. split_and!; [done.. |]. rewrite nth_lane by done. f_equal. lia.
      * exists (S j), f, r. split_and!; [done.. |]. f_equal. lia.
    + intros ([| j] & f & r & Hj & Hr & Hf & ->).
      * left. exists f, r. cbn in Hj. injection Hj as ->. split_and!; [done.. |]. rewrite nth_lane by done. f_equal. lia.
      * right. exists j, f, r. split_and!; [done.. |]. f_equal. lia.
Qed.

(** The bytes of words [i] to [i + n] of the DPUs [d], and where they go. *)
Definition dpu_stores (region : memory) (d o : Z) (snks : list (option (Z -> option Z))) (i n : Z) (l : list (Z * Z)) : Prop :=
  forall x b, (x, b) ∈ l <-> exists q ci f r, i <= q < i + n /\ snks !! ci = Some (Some f) /\ (r < 8)%nat /\ (ci < 8)%nat /\
    f (8 * q + Z.of_nat r) = Some x /\ b = region (line_address d q o + (8 * Z.of_nat r + Z.of_nat ci)).

Lemma deinterleaved_byte region a ci r : (ci < 8)%nat -> (r < 8)%nat ->
  nth (8 * ci + r) (byte_interleave_avx2 (read region a 64)) 0 = region (a + (8 * Z.of_nat r + Z.of_nat ci)).
Proof.
  intros Hc Hr. destruct (interleave_vectors (read region a 64) (length_read _ _ _)) as (_ & -> & _ & _).
  transitivity (byte_at (read region a 64) (8 * r + ci)); [by apply byte_interleave_at |].
  unfold byte_at. rewrite read_nth by lia. f_equal. lia.
Qed.

Lemma read_lines_spec region d o n i ss snks host : 0 <= i -> (length ss <= 8)%nat -> Forall2 (accepts i) ss snks ->
  exists l, read_lines region d o n i ss host = Some (set_bytes host l) /\ dpu_stores region d o snks i (Z.of_nat n) l.
Proof.
  revert i ss host. induction n as [| n IH]; intros i ss host Hi Hlen HF.
  - exists []. split; [done |]. intros x b. split; [by intros ?%not_elem_of_nil | intros (q & ? & ? & ? & Hq & _); lia].
  - cbn [read_lines]. set (cl := byte_interleave_avx2 _).
    assert (length cl = 64%nat) as Hcl.
    { unfold cl. by destruct (interleave_vectors (read region (line_address d i o) 64) (length_read _ _ _)) as (_ & -> & _ & _). }
    destruct (store_cache_line_spec host i 0 ss snks cl) as (l & ss' & -> & HF' & Hl); [done | lia | done | done |].
    assert (length ss' = length snks /\ length ss = length snks) as [El' El] by (by apply Forall2_length in HF, HF').
    cbn [mbind option_bind]. destruct (IH (i + 1) ss' (set_bytes host l)) as (l' & -> & Hl'); [lia | lia | done |].
    rewrite <- set_bytes_app. exists (l ++ l'). split; [done |].
    assert (forall q ci r, q = i -> (ci < 8)%nat -> (r < 8)%nat ->
      nth (8 * (0 + ci) + r) cl 0 = region (line_address d q o + (8 * Z.of_nat r + Z.of_nat ci))) as Hb
      by (intros q ci r -> Hc Hr; by apply deinterleaved_byte).
    intros x b. rewrite elem_of_app, (Hl x b), (Hl' x b). split.
    + intros [(ci & f & r & Hci & Hr & Hf & ->) | (q & ci & f & r & Hq & Hrest)].
      * pose proof (lookup_lt_Some _ _ _ Hci). exists i, ci, f, r. split_and!; [lia.. | done | done | lia | done |]. apply Hb; [done | lia | done].
      * exists q, ci, f, r. split; [lia | done].
    + intros (q & ci & f & r & Hq & Hci & Hr & Hc & Hf & ->). destruct (Z.eq_dec q i) as [-> | Hne].
      * left. exists ci, f, r. split_and!; [done.. |]. by rewrite (Hb i).
      * right. exists q, ci, f, r. split_and!; [lia.. | done | done | done | done | done].
Qed.

(** * A thread that reads *)

Definition sinks (priv : xeon_sp_private) (d : Z) : list (option (Z -> option Z)) :=
  map (fun ci => e ← load (ptr (xfer_matrix priv)) (8 * d + ci); entry_sink e) (seqZ 0 (nb_cis priv)).

(** The host bytes written for the DPUs [ds]. *)
Definition brought (region : memory) (priv : xeon_sp_private) (ds : list Z) (l : list (Z * Z)) : Prop :=
  forall x b, (x, b) ∈ l <-> exists d q ci f r, d ∈ ds /\ 0 <= q < words priv /\ sinks priv d !! ci = Some (Some f) /\ (r < 8)%nat /\
    (ci < 8)%nat /\ f (8 * q + Z.of_nat r) = Some x /\
    b = region (line_address d q (offset (xfer_matrix priv)) + (8 * Z.of_nat r + Z.of_nat ci)).

Lemma brought_nil region priv ds : (forall d ci, d ∈ ds -> 0 < words priv -> sinks priv d !! ci = None \/ sinks priv d !! ci = Some None) ->
  brought region priv ds [].
Proof.
  intros H x b. split; [by intros ?%not_elem_of_nil |]. intros (d & q & ci & f & r & Hd & Hq & Hf & _).
  destruct (H d ci Hd) as [E | E]; [lia | by rewrite E in Hf..].
Qed.

Lemma brought_app region priv ds ds' l l' : brought region priv ds l -> brought region priv ds' l' ->
  brought region priv (ds ++ ds') (l ++ l').
Proof.
  intros H H' x b. rewrite elem_of_app, (H x b), (H' x b). split.
  - intros [(d & q & ci & f & r & Hd & Hrest) | (d & q & ci & f & r & Hd & Hrest)]; exists d, q, ci, f, r;
      (split; [apply elem_of_app; auto | done]).
  - intros (d & q & ci & f & r & [Hd | Hd]%elem_of_app & Hrest); [left | right]; by exists d, q, ci, f, r.
Qed.

Lemma open_streams_accepts priv d : xfer_ok pool priv -> Forall whole_words (ptr (xfer_matrix priv)) -> 0 <= d < nb_dpus_per_ci priv ->
  exists ss, open_streams zeros pool (xfer_matrix priv) (line_index d) (nb_cis priv) = Some ss /\ Forall2 (accepts 0) ss (sinks priv d).
Proof.
  intros Hok H8 Hd. unfold open_streams, sinks. rewrite (line_index_8 pool priv Hok) by done.
  assert (forall ci, ci ∈ seqZ 0 (nb_cis priv) -> 0 <= ci < nb_cis priv) as Hcs by (intros ci Hc%elem_of_seqZ; lia).
  revert Hcs. induction (seqZ 0 (nb_cis priv)) as [| ci cis IH]; intros Hcs.
  - exists []. by split.
  - destruct IH as (ss & E & HF); [intros c Hc; apply Hcs; by apply list_elem_of_further |].
    destruct (entry_load pool priv Hok d ci) as (e & Ee & Hoke); [done | apply Hcs, list_elem_of_here |].
    assert (whole_words e) as H8e.
    { unfold load in Ee. destruct (0 <=? 8 * d + ci); [| done]. by apply (Forall_lookup_1 _ _ _ _ H8 Ee). }
    destruct (open_stream_accepts _ _ _ Ee Hoke H8e) as (s & Es & Hs).
    exists (s :: ss). cbn [mapM map]. rewrite Es, Ee. cbn [mbind option_bind]. rewrite E. split; [done |]. by constructor.
Qed.

Lemma threads_read_from_rank_spec region priv start stop host : xfer_ok pool priv -> Forall whole_words (ptr (xfer_matrix priv)) ->
  0 <= start -> stop <= nb_dpus_per_ci priv ->
  exists l, threads_read_from_rank zeros pool region priv start stop host = Some (set_bytes host l) /\
    brought region priv (seqZ start (stop - start)) l.
Proof.
  intros Hok H8 Hstart Hstop. unfold threads_read_from_rank. destruct (Z.eqb_spec (size (xfer_matrix priv)) 0) as [E0 | E0].
  { exists []. split; [done |]. apply brought_nil. unfold words. rewrite E0. change (0 / 8) with 0. lia. }
  destruct (for_each_rule (fun host dpu_id =>
      active ← do_dpu_transfer (xfer_matrix priv) (line_index dpu_id) (seqZ 0 (nb_cis priv));
      if negb active then Some host
      else
        ss ← open_streams zeros pool (xfer_matrix priv) (line_index dpu_id) (nb_cis priv);
        read_lines region dpu_id (offset (xfer_matrix priv)) (Z.to_nat (size (xfer_matrix priv) / 8)) 0 ss host)
    (fun seen m => exists l, m = set_bytes host l /\ brought region priv seen l)
    (FOREACH_DPU_MULTITHREAD start stop) host) as (m & Em & l & -> & Hl).
  - exists []. split; [done |]. apply brought_nil. by intros d ci ?%not_elem_of_nil.
  - intros seen d m Hd%elem_of_seqZ (l & -> & Hl).
    destruct (active_spec pool priv Hok d) as (b & -> & Hn); [lia |]. cbn [mbind option_bind]. destruct b; cbn [negb].
    + destruct (open_streams_accepts priv d Hok H8) as (ss & -> & HF); [lia |]. cbn [mbind option_bind].
      assert (length ss <= 8)%nat as Hlen.
      { pose proof HF as El. apply Forall2_length in El. rewrite El. unfold sinks. rewrite length_map, length_seqZ. destruct Hok. lia. }
      destruct (read_lines_spec region d (offset (xfer_matrix priv)) (Z.to_nat (size (xfer_matrix priv) / 8)) 0 ss (sinks priv d)
        (set_bytes host l)) as (l' & -> & Hl'); [done.. |].
      rewrite <- set_bytes_app. eexists. split; [done |]. exists (l ++ l'). split; [done |]. apply brought_app; [done |].
      destruct Hok as [_ _ _ _ [Hs _] _]. rewrite Z2Nat.id in Hl' by (apply Z.div_pos; lia). fold (words priv) in Hl'.
      intros x b. rewrite (Hl' x b). split.
      * intros (q & ci & f & r & Hrest). exists d, q, ci, f, r. split; [apply list_elem_of_here | done].
      * intros (d' & q & ci & f & r & Hd' & Hrest). apply elem_of_cons in Hd' as [-> | Hd']; [| by apply not_elem_of_nil in Hd'].
        by exists q, ci, f, r.
    + eexists. split; [done |]. exists l. split; [done |]. rewrite <- (app_nil_r l). apply brought_app; [done |].
      apply brought_nil. intros d' ci Hd' _. apply elem_of_cons in Hd' as [-> | Hd']; [| by apply not_elem_of_nil in Hd'].
      unfold sinks. change (map ?g ?k) with (g <$> k). rewrite list_lookup_fmap.
      destruct (seqZ 0 (nb_cis priv) !! ci) as [c |] eqn:Ec; [| by left]. right. cbn [fmap option_fmap option_map].
      apply lookup_seqZ in Ec as [-> Hc]. by rewrite Hn by (done || lia).
  - exists l. by split.
Qed.

Lemma threads_brought region priv order host : xfer_ok pool priv -> Forall whole_words (ptr (xfer_matrix priv)) ->
  direction priv = thread_mram_xfer_read ->
  (forall t start stop, t ∈ order -> thread_dpus priv t = Some (start, stop) -> 0 <= start /\ stop <= nb_dpus_per_ci priv) ->
  exists l ds, pool_read zeros pool region priv order host = Some (set_bytes host l) /\ brought region priv ds l /\
    (forall d, d ∈ ds -> 0 <= d < nb_dpus_per_ci priv) /\
    (forall t start stop d, t ∈ order -> thread_dpus priv t = Some (start, stop) -> start <= d < stop -> d ∈ ds).
Proof.
  intros Hok H8 Hdir Hr. unfold pool_read.
  destruct (for_each_rule (fun host t => snd <$> thread_do_mram_xfer zeros pool region priv [] t host)
    (fun seen m => exists l ds, m = set_bytes host l /\ brought region priv ds l /\ (forall d, d ∈ ds -> 0 <= d < nb_dpus_per_ci priv) /\
       (forall t start stop d, t ∈ seen -> thread_dpus priv t = Some (start, stop) -> start <= d < stop -> d ∈ ds)) order host)
    as (m & E & l & ds & -> & H); [| | by exists l, ds].
  - exists [], []. split_and!; [done | | by intros d ?%not_elem_of_nil | by intros t start stop d ?%not_elem_of_nil].
    apply brought_nil. by intros d ci ?%not_elem_of_nil.
  - intros seen t m Ht (l & ds & -> & Hl & Hds & Hall). unfold thread_do_mram_xfer. rewrite Hdir.
    destruct (thread_dpus priv t) as [[start stop] |] eqn:Ed.
    + destruct (Hr t start stop Ht Ed) as [Hstart Hstop].
      destruct (threads_read_from_rank_spec region priv start stop (set_bytes host l) Hok H8 Hstart Hstop) as (l' & -> & Hl').
      cbn [mbind option_bind fmap option_fmap option_map snd]. rewrite <- set_bytes_app. eexists. split; [done |].
      exists (l ++ l'), (ds ++ seqZ start (stop - start)). split_and!; [done | by apply brought_app | |].
      * intros d [Hd | Hd%elem_of_seqZ]%elem_of_app; [by apply Hds | lia].
      * intros t' start' stop' d [Ht' | Ht']%elem_of_app Ed' Hd; apply elem_of_app; [left; by eapply Hall |].
        apply elem_of_cons in Ht' as [-> | Ht']; [| by apply not_elem_of_nil in Ht']. right. rewrite Ed in Ed'. injection Ed' as <- <-.
        apply elem_of_seqZ. lia.
    + eexists. split; [done |]. exists l, ds. split_and!; [done.. |]. intros t' start stop d [Ht' | Ht']%elem_of_app Ed' Hd; [by eapply Hall |].
      apply elem_of_cons in Ht' as [-> | Ht']; [| by apply not_elem_of_nil in Ht']. by rewrite Ed in Ed'.
Qed.
End sinks.


