(* ===== verification/Translation.v ===== *)
(** The pools of threads of the Xeon backend and its entry points
    (library/src/backends/hw/src/mappings/xeon_sp/xeon_sp_translation.c): one
    pool per channel, created with the first rank of the channel and destroyed
    with the last.

    [None] stands for an access outside of an array, a barrier initialised again
    while threads wait at it, and a call that never returns.  The binding of the
    threads to the NUMA nodes and their names are left out, and the processor
    is not looked for: every branch of the search gives the same configuration. *)
From stdpp Require Import list.
From S2P Require Import Prelude XferMatrix ScatterGather Interleave SgIterator BankLayout RankXfer.

(** * Configuration *)

Definition DPU_XFER_THREAD_CONF_DEFAULT : Z := 2 ^ 32 - 1.
Definition MAX_THREAD_PER_POOL : Z := 8.
Definition MAX_NB_POOL : Z := 31.
Definition MAX_NB_CHANNEL : Z := MAX_NB_POOL.

Record dpu_transfer_thread_configuration := {
  nb_thread_per_pool : Z;
  threshold_1_thread : Z;
  threshold_2_threads : Z;
  threshold_4_threads : Z }.

Definition get_default_xfer_thread_configuration : dpu_transfer_thread_configuration :=
  {| nb_thread_per_pool := 4; threshold_1_thread := 1024; threshold_2_threads := 2048; threshold_4_threads := 32 * 1024 |}.

Definition xeon_sp_set_configuration (conf : dpu_transfer_thread_configuration) : dpu_transfer_thread_configuration :=
  let default := get_default_xfer_thread_configuration in
  let or_default v d := if v =? DPU_XFER_THREAD_CONF_DEFAULT then d else v in
  {| nb_thread_per_pool :=
       if nb_thread_per_pool conf =? DPU_XFER_THREAD_CONF_DEFAULT then nb_thread_per_pool default
       else if MAX_THREAD_PER_POOL <? nb_thread_per_pool conf then MAX_THREAD_PER_POOL else nb_thread_per_pool conf;
     threshold_1_thread := or_default (threshold_1_thread conf) (threshold_1_thread default);
     threshold_2_threads := or_default (threshold_2_threads conf) (threshold_2_threads default);
     threshold_4_threads := or_default (threshold_4_threads conf) (threshold_4_threads default) |}.

(** * State *)

(** The translation of a rank: its topology, its threads. *)
Record dpu_region_address_translation := {
  nr_of_control_interfaces : Z;
  nr_of_dpus_per_control_interface : Z;
  xfer_thread_conf : dpu_transfer_thread_configuration;
  one_read : bool }.

Definition set_conf (tr : dpu_region_address_translation) (conf : dpu_transfer_thread_configuration) : dpu_region_address_translation :=
  {| nr_of_control_interfaces := nr_of_control_interfaces tr;
     nr_of_dpus_per_control_interface := nr_of_dpus_per_control_interface tr;
     xfer_thread_conf := conf; one_read := one_read tr |}.

Definition set_one_read (tr : dpu_region_address_translation) (b : bool) : dpu_region_address_translation :=
  {| nr_of_control_interfaces := nr_of_control_interfaces tr;
     nr_of_dpus_per_control_interface := nr_of_dpus_per_control_interface tr;
     xfer_thread_conf := xfer_thread_conf tr; one_read := b |}.

(** A pool: what its creation sets, the threads that wait at its barrier. *)
Record thread_pool := {
  pool_dpus_per_ci : Z;
  pool_threads : Z;
  barrier_threads : Z;
  waiting : Z }.

Record context := { pools : list thread_pool; nb_region_per_channel : list Z }.

Definition xeon_sp_ctx : context :=
  {| pools := replicate 31 {| pool_dpus_per_ci := 0; pool_threads := 0; barrier_threads := 0; waiting := 0 |};
     nb_region_per_channel := replicate 31 0 |}.

Definition set_pool (ctx : context) (i : Z) (p : thread_pool) : option context :=
  ps ← store (pools ctx) i p; Some {| pools := ps; nb_region_per_channel := nb_region_per_channel ctx |}.

Definition set_count (ctx : context) (c n : Z) : option context :=
  l ← store (nb_region_per_channel ctx) c (u32 n); Some {| pools := pools ctx; nb_region_per_channel := l |}.

Definition channel_id_to_pool_id (channel_id : Z) : Z := if channel_id =? 0xFF then MAX_NB_CHANNEL - 1 else channel_id.

(** The mutex taken, and the pool. *)
Definition xeon_sp_acquire_pool (channel_id : Z) : Z * Z :=
  (if channel_id <? MAX_NB_CHANNEL then channel_id else MAX_NB_CHANNEL - 1, channel_id_to_pool_id channel_id).

(** The mutex released. *)
Definition xeon_sp_release_pool (channel_id : Z) : Z :=
  if channel_id <? MAX_NB_CHANNEL then channel_id else MAX_NB_CHANNEL - 1.

(** * Creation and destruction *)

(** The threads are created until one fails: how many there are, the error;
    [result k] is what the creation of thread [k] returns. *)
Fixpoint create_threads (n : nat) (each_thread : Z) (result : Z -> Z) : Z * Z :=
  match n with
  | O => (each_thread, 0)
  | S n => if result each_thread =? 0 then create_threads n (each_thread + 1) result else (each_thread, result each_thread)
  end.

(** [barrier_ret]: what the creation of the barrier returns. *)
Definition xeon_sp_init_rank (tr : dpu_region_address_translation) (channel_id : Z) (barrier_ret : Z) (result : Z -> Z)
    (ctx : context) : option (Z * dpu_region_address_translation * context) :=
  let conf := xeon_sp_set_configuration (xfer_thread_conf tr) in
  let tr := set_conf tr conf in
  let channel_id := if MAX_NB_CHANNEL <? channel_id then MAX_NB_CHANNEL - 1 else channel_id in
  count ← load (nb_region_per_channel ctx) channel_id;
  ctx ← set_count ctx channel_id (count + 1);
  if 0 <? count then Some (0, tr, ctx)
  else
    let pool_id := channel_id_to_pool_id channel_id in
    p ← load (pools ctx) pool_id;
    if 0 <? waiting p then None
    else
      let p := {| pool_dpus_per_ci := u8 (nr_of_dpus_per_control_interface tr); pool_threads := u8 (nb_thread_per_pool conf);
                  barrier_threads := barrier_threads p; waiting := 0 |} in
      if negb (barrier_ret =? 0) then
        ctx ← set_pool ctx pool_id p; ctx ← set_count ctx channel_id count; Some (barrier_ret, tr, ctx)
      else
        let '(k, ret) := create_threads (Z.to_nat (pool_threads p)) 0 result in
        ctx ← set_pool ctx pool_id {| pool_dpus_per_ci := pool_dpus_per_ci p; pool_threads := pool_threads p;
                                      barrier_threads := nb_thread_per_pool conf + 1; waiting := k |};
        ctx ← (if negb (ret =? 0) then set_count ctx channel_id count else Some ctx);
        Some (ret, tr, ctx).

(** The threads stop when the last one reaches the barrier. *)
Definition xeon_sp_destroy_rank (tr : dpu_region_address_translation) (channel_id : Z) (ctx : context)
  : option (dpu_region_address_translation * context) :=
  let channel_id := if MAX_NB_CHANNEL <? channel_id then MAX_NB_CHANNEL - 1 else channel_id in
  let tr := set_conf tr (xeon_sp_set_configuration (xfer_thread_conf tr)) in
  count ← load (nb_region_per_channel ctx) channel_id;
  ctx ← set_count ctx channel_id (count - 1);
  if negb (u32 (count - 1) =? 0) then Some (tr, ctx)
  else
    let pool_id := channel_id_to_pool_id channel_id in
    p ← load (pools ctx) pool_id;
    if negb (waiting p + 1 =? barrier_threads p) then None
    else
      ctx ← set_pool ctx pool_id {| pool_dpus_per_ci := pool_dpus_per_ci p; pool_threads := pool_threads p;
                                    barrier_threads := barrier_threads p; waiting := 0 |};
      Some (tr, ctx).

(** * Transfers *)

Definition choose_threads (conf : dpu_transfer_thread_configuration) (size_transfer : Z) : Z :=
  if size_transfer <? threshold_1_thread conf then 1
  else if (size_transfer <? threshold_2_threads conf) && (2 <=? nb_thread_per_pool conf) then 2
  else if (size_transfer <? threshold_4_threads conf) && (4 <=? nb_thread_per_pool conf) then 4
  else u8 (nb_thread_per_pool conf).

(** The job the threads find at the barrier. *)
Definition xeon_sp_init_and_do_xfer (p : thread_pool) (tr : dpu_region_address_translation) (m : dpu_transfer_matrix)
    (direction : thread_mram_xfer) : option xeon_sp_private :=
  if negb (waiting p + 1 =? barrier_threads p) then None
  else Some {| nb_cis := u8 (nr_of_control_interfaces tr); direction := direction; xfer_matrix := m;
               nb_dpus_per_ci := pool_dpus_per_ci p; nb_threads_for_xfer := choose_threads (xfer_thread_conf tr) (size m);
               nb_threads := pool_threads p |}.

Definition xeon_sp_job (ctx : context) (tr : dpu_region_address_translation) (channel_id : Z) (m : dpu_transfer_matrix)
    (direction : thread_mram_xfer) : option xeon_sp_private :=
  let '(_, pool_id) := xeon_sp_acquire_pool channel_id in
  p ← load (pools ctx) pool_id;
  xeon_sp_init_and_do_xfer p tr m direction.

(** The lines the threads of the pool stream. *)
Definition xeon_sp_write_to_rank (zeros : Z) (sgs : list sg_xfer_buffer) (ctx : context) (tr : dpu_region_address_translation)
    (channel_id : Z) (m : dpu_transfer_matrix) (region host : memory) (junk : Z -> list Z) : option (list (list (Z * list Z))) :=
  job ← xeon_sp_job ctx tr channel_id m thread_mram_xfer_write;
  pool_write zeros sgs region host job junk.

(** The host memory once the threads have run in some order. *)
Definition xeon_sp_read_from_rank (zeros : Z) (sgs : list sg_xfer_buffer) (ctx : context) (tr : dpu_region_address_translation)
    (channel_id : Z) (m : dpu_transfer_matrix) (region : memory) (order : list Z) (host : memory) : option memory :=
  job ← xeon_sp_job ctx tr channel_id m thread_mram_xfer_read;
  pool_read zeros sgs region job order host.

(** * Control interfaces *)

Definition xeon_sp_write_to_cis (tr : dpu_region_address_translation) (block_data : list Z) (region : memory)
  : dpu_region_address_translation * memory :=
  (set_one_read tr false, write region ci_write_address (byte_interleave_avx512 block_data)).

(** The line changes between two reads: [line] is what each of them finds. *)
Definition xeon_sp_read_from_cis (tr : dpu_region_address_translation) (line : nat -> list Z)
  : dpu_region_address_translation * list Z :=
  let nb_reads := if one_read tr then 2%nat else 3%nat in
  (set_one_read tr true, byte_interleave_avx512 (line (nb_reads - 1)%nat)).

(** * The pools follow the counts *)

(** The entry of a channel in the table of the counts, and of its pool. *)
Definition slot (channel_id : Z) : Z := if MAX_NB_CHANNEL <? channel_id then MAX_NB_CHANNEL - 1 else channel_id.

Record pool_ok (n : Z) (p : thread_pool) : Prop := {
  pool_count : 0 <= n < 2 ^ 32;
  pool_idle : n = 0 -> waiting p = 0;
  pool_busy : 0 < n -> waiting p = pool_threads p /\ barrier_threads p = pool_threads p + 1 /\ 0 <= pool_threads p <= 8 }.

(** A channel without rank has no thread; the others have all of theirs. *)
Record ctx_ok (ctx : context) : Prop := {
  ctx_counts : length (nb_region_per_channel ctx) = 31%nat;
  ctx_pools : Forall2 pool_ok (nb_region_per_channel ctx) (pools ctx) }.

Lemma xeon_sp_ctx_ok : ctx_ok xeon_sp_ctx.
Proof. split; [done |]. apply Forall2_replicate. split; cbn; lia. Qed.

Lemma slot_pool c : 0 <= c < 256 -> c <> 31 -> 0 <= slot c < 31 /\ channel_id_to_pool_id (slot c) = slot c.
Proof.
  intros Hc Hne. unfold slot, channel_id_to_pool_id, MAX_NB_CHANNEL, MAX_NB_POOL.
  destruct (Z.ltb_spec 31 c); [done |]. destruct (Z.eqb_spec c 255); [lia |]. split; [lia | done].
Qed.

Lemma ctx_at ctx i : ctx_ok ctx -> 0 <= i < 31 -> exists n p, load (nb_region_per_channel ctx) i = Some n /\ load (pools ctx) i = Some p /\
  pool_ok n p.
Proof.
  intros [Hl HF] Hi. destruct (load_lt (nb_region_per_channel ctx) i) as (n & En & Hn); [lia |].
  pose proof HF as Hlen. apply Forall2_length in Hlen.
  destruct (load_lt (pools ctx) i) as (p & Ep & Hp); [lia |]. exists n, p. split_and!; [done.. |].
  by apply (Forall2_lookup_lr _ _ _ _ _ _ HF Hn Hp).
Qed.

(** One entry of both tables. *)
Definition ctx_with (ctx : context) (i n : Z) (p : thread_pool) : context :=
  {| pools := <[Z.to_nat i := p]> (pools ctx); nb_region_per_channel := <[Z.to_nat i := n]> (nb_region_per_channel ctx) |}.

Lemma ctx_with_ok ctx i n p : ctx_ok ctx -> pool_ok n p -> ctx_ok (ctx_with ctx i n p).
Proof. intros [Hl HF] Hp. split; cbn; [by rewrite length_insert | by apply Forall2_insert]. Qed.

Lemma set_count_with ctx i n p : ctx_ok ctx -> 0 <= i < 31 -> load (pools ctx) i = Some p -> 0 <= n < 2 ^ 32 ->
  set_count ctx i n = Some (ctx_with ctx i n p).
Proof.
  intros [Hl HF] Hi Hp Hn. unfold set_count, ctx_with. rewrite (wrap_small 32 n) by done. rewrite store_insert by lia.
  cbn [mbind option_bind]. rewrite load_lookup in Hp by lia. by rewrite (list_insert_id (pools ctx)).
Qed.

Lemma set_pool_with ctx i n p p' : ctx_ok ctx -> 0 <= i < 31 -> set_pool (ctx_with ctx i n p) i p' = Some (ctx_with ctx i n p').
Proof.
  intros [Hl HF] Hi. apply Forall2_length in HF. unfold set_pool, ctx_with. cbn [pools nb_region_per_channel].
  rewrite store_insert by (rewrite length_insert; lia). cbn [mbind option_bind]. by rewrite list_insert_insert_eq.
Qed.

Lemma ctx_with_at ctx i n p : ctx_ok ctx -> 0 <= i < 31 ->
  load (nb_region_per_channel (ctx_with ctx i n p)) i = Some n /\ load (pools (ctx_with ctx i n p)) i = Some p.
Proof.
  intros [Hl HF] Hi. apply Forall2_length in HF. cbn. rewrite !load_lookup by lia. by rewrite !list_lookup_insert_eq by lia.
Qed.

Lemma create_all n k : create_threads n k (fun _ => 0) = (k + Z.of_nat n, 0).
Proof. revert k. induction n as [| n IH]; intros k; cbn [create_threads]; [f_equal; lia |]. cbn. rewrite IH. f_equal. lia. Qed.

Lemma configured_threads conf : 0 <= nb_thread_per_pool conf -> 0 <= nb_thread_per_pool (xeon_sp_set_configuration conf) <= 8.
Proof.
  intros H. unfold xeon_sp_set_configuration, MAX_THREAD_PER_POOL. cbn [nb_thread_per_pool].
  destruct (Z.eqb_spec (nb_thread_per_pool conf) DPU_XFER_THREAD_CONF_DEFAULT); [cbn; lia |].
  destruct (Z.ltb_spec 8 (nb_thread_per_pool conf)); lia.
Qed.

(** A rank comes: the first of its channel creates the pool. *)
Lemma init_rank_ok ctx tr c n p : ctx_ok ctx -> 0 <= c < 256 -> c <> 31 -> 0 <= nb_thread_per_pool (xfer_thread_conf tr) ->
  load (nb_region_per_channel ctx) (slot c) = Some n -> load (pools ctx) (slot c) = Some p -> n + 1 < 2 ^ 32 ->
  let conf := xeon_sp_set_configuration (xfer_thread_conf tr) in
  let p' := if 0 <? n then p else {| pool_dpus_per_ci := u8 (nr_of_dpus_per_control_interface tr);
    pool_threads := nb_thread_per_pool conf; barrier_threads := nb_thread_per_pool conf + 1; waiting := nb_thread_per_pool conf |} in
  xeon_sp_init_rank tr c 0 (fun _ => 0) ctx = Some (0, set_conf tr conf, ctx_with ctx (slot c) (n + 1) p') /\ pool_ok (n + 1) p'.
Proof.
  intros Hctx Hc Hne Hnt En Ep Hn conf p'. destruct (slot_pool c Hc Hne) as [Hs Eid].
  destruct (ctx_at ctx (slot c) Hctx Hs) as (n0 & p0 & En0 & Ep0 & [H0 Hidle Hbusy]).
  rewrite En in En0. injection En0 as <-. rewrite Ep in Ep0. injection Ep0 as <-.
  unfold xeon_sp_init_rank. cbv zeta. fold (slot c). rewrite En. cbn [mbind option_bind].
  rewrite (set_count_with _ _ _ p) by (done || lia). cbn [mbind option_bind].
  pose proof (configured_threads (xfer_thread_conf tr) Hnt) as Hconf. fold conf in Hconf |- *.
  unfold p'. destruct (Z.ltb_spec 0 n) as [Hpos | Hz].
  - split; [done |]. split; [lia | lia | by intros _; apply Hbusy].
  - rewrite Eid. destruct (ctx_with_at ctx (slot c) (n + 1) p Hctx Hs) as [_ ->]. cbn [mbind option_bind].
    rewrite Hidle by lia. cbn [Z.ltb Z.compare Z.eqb negb pool_threads pool_dpus_per_ci nr_of_dpus_per_control_interface set_conf].
    rewrite (wrap_small 8 (nb_thread_per_pool conf)) by lia. rewrite create_all. rewrite Z2Nat.id by lia.
    rewrite set_pool_with by done. cbn [mbind option_bind Z.eqb negb]. split; [done |]. split; cbn [waiting pool_threads barrier_threads]; lia.
Qed.

(** A rank goes: the last of its channel destroys the pool. *)
Lemma destroy_rank_ok ctx tr c n p : ctx_ok ctx -> 0 <= c < 256 -> c <> 31 ->
  load (nb_region_per_channel ctx) (slot c) = Some n -> load (pools ctx) (slot c) = Some p -> 0 < n ->
  let p' := if n =? 1 then {| pool_dpus_per_ci := pool_dpus_per_ci p; pool_threads := pool_threads p;
                              barrier_threads := barrier_threads p; waiting := 0 |} else p in
  xeon_sp_destroy_rank tr c ctx
  = Some (set_conf tr (xeon_sp_set_configuration (xfer_thread_conf tr)), ctx_with ctx (slot c) (n - 1) p') /\ pool_ok (n - 1) p'.
Proof.
  intros Hctx Hc Hne En Ep Hn p'. destruct (slot_pool c Hc Hne) as [Hs Eid].
  destruct (ctx_at ctx (slot c) Hctx Hs) as (n0 & p0 & En0 & Ep0 & [H0 Hidle Hbusy]).
  rewrite En in En0. injection En0 as <-. rewrite Ep in Ep0. injection Ep0 as <-.
  destruct (Hbusy Hn) as (Hw & Hb & Ht).
  unfold xeon_sp_destroy_rank. cbv zeta. fold (slot c). rewrite En. cbn [mbind option_bind].
  rewrite (set_count_with _ _ _ p) by (done || lia). cbn [mbind option_bind]. rewrite (wrap_small 32) by lia.
  unfold p'. destruct (Z.eqb_spec (n - 1) 0), (Z.eqb_spec n 1); try lia; cbn [negb].
  - rewrite Eid. destruct (ctx_with_at ctx (slot c) (n - 1) p Hctx Hs) as [_ ->]. cbn [mbind option_bind].
    rewrite Hw, Hb, Z.eqb_refl. cbn [negb]. rewrite set_pool_with by done. cbn [mbind option_bind]. split; [done |].
    split; cbn; lia.
  - split; [done |]. split; [lia | lia | by intros _; apply Hbusy].
Qed.

Lemma choose_threads_range conf s : 0 < nb_thread_per_pool conf <= 8 -> 0 < choose_threads conf s <= nb_thread_per_pool conf.
Proof.
  intros H. unfold choose_threads. rewrite (wrap_small 8) by lia.
  repeat case_match; rewrite ?andb_true_iff, ?Z.leb_le in *; lia.
Qed.


(** A rank of eight lines of eight chips. *)
Definition some_rank (threads : Z) : dpu_region_address_translation :=
  {| nr_of_control_interfaces := 8; nr_of_dpus_per_control_interface := 8; one_read := false;
     xfer_thread_conf := {| nb_thread_per_pool := threads; threshold_1_thread := 1024; threshold_2_threads := 2048;
                            threshold_4_threads := 32768 |} |}.


(** The tables have 31 entries: a rank on channel 31 is counted outside of the table, and every channel from 31 to
    254 makes a transfer use a pool that does not exist, although ranks of channels above 31 are counted on the last one. *)
Theorem channels_out_of_bounds ctx tr m dir : ctx_ok ctx ->
  xeon_sp_init_rank tr 31 0 (fun _ => 0) ctx = None /\ xeon_sp_destroy_rank tr 31 ctx = None /\
  (forall c, 31 <= c < 255 -> xeon_sp_job ctx tr c m dir = None) /\ forall c, 31 < c < 256 -> slot c = 30.
Proof.
  intros [Hl HF]. pose proof HF as Hlen. apply Forall2_length in Hlen.
  assert (forall A (l : list A) c, length l = 31%nat -> 31 <= c -> load l c = None) as Hout.
  { intros A l c El Hc. rewrite load_lookup by lia. apply lookup_ge_None_2. lia. }
  split_and!.
  - unfold xeon_sp_init_rank. cbn [Z.ltb Z.compare]. by rewrite Hout by (done || lia).
  - unfold xeon_sp_destroy_rank. cbn [Z.ltb Z.compare]. by rewrite Hout by (done || lia).
  - intros c Hc. unfold xeon_sp_job, xeon_sp_acquire_pool, channel_id_to_pool_id. destruct (Z.eqb_spec c 0xFF); [lia |].
    by rewrite Hout by lia.
  - intros c Hc. unfold slot, MAX_NB_CHANNEL, MAX_NB_POOL. destruct (Z.ltb_spec 31 c); lia.
Qed.

Lemma channels_out_of_bounds_witness : xeon_sp_job xeon_sp_ctx (some_rank 4) 40 dpu_transfer_matrix_clear_all thread_mram_xfer_read = None.
Proof.
  destruct (channels_out_of_bounds xeon_sp_ctx (some_rank 4) dpu_transfer_matrix_clear_all thread_mram_xfer_read xeon_sp_ctx_ok)
    as (_ & _ & H & _). apply H. lia.
Defined.

Lemma create_until n k j result : (forall i, k <= i < j -> result i = 0) -> result j <> 0 -> k <= j < k + Z.of_nat n ->
  create_threads n k result = (j, result j).
Proof.
  revert k. induction n as [| n IH]; intros k H0 Hj Hr; [lia |]. cbn [create_threads]. destruct (Z.eqb_spec (result k) 0) as [E | E].
  - destruct (Z.eq_dec k j) as [-> | Hne]; [done |]. apply IH; [intros i Hi; apply H0; lia | done | lia].
  - destruct (Z.eq_dec k j) as [-> | Hne]; [done |]. by rewrite H0 in E by lia.
Qed.

(** A pool whose creation fails after some threads keeps these threads at its barrier: the error is returned and the
    rank is not counted, but no rank can come on the channel any more. *)
Theorem failed_pool_is_not_undone ctx tr c k result : ctx_ok ctx -> 0 <= c < 256 -> c <> 31 ->
  load (nb_region_per_channel ctx) (slot c) = Some 0 ->
  0 < k < nb_thread_per_pool (xeon_sp_set_configuration (xfer_thread_conf tr)) -> 0 <= nb_thread_per_pool (xfer_thread_conf tr) ->
  (forall i, 0 <= i < k -> result i = 0) -> result k <> 0 ->
  exists tr' ctx', xeon_sp_init_rank tr c 0 result ctx = Some (result k, tr', ctx') /\
    nb_region_per_channel ctx' = nb_region_per_channel ctx /\
    forall tr2 ret result2, xeon_sp_init_rank tr2 c ret result2 ctx' = None.
Proof.
  intros Hctx Hc Hne En Hk Hnt H0 Hfail. destruct (slot_pool c Hc Hne) as [Hs Eid].
  destruct (ctx_at ctx (slot c) Hctx Hs) as (n & p & En' & Ep & [_ Hidle _]). rewrite En in En'. injection En' as <-.
  pose proof (configured_threads (xfer_thread_conf tr) Hnt) as Hconf.
  set (conf := xeon_sp_set_configuration (xfer_thread_conf tr)) in *.
  set (p' := {| pool_dpus_per_ci := u8 (nr_of_dpus_per_control_interface tr); pool_threads := nb_thread_per_pool conf;
                barrier_threads := nb_thread_per_pool conf + 1; waiting := k |}).
  assert (forall tr barrier result ctx' p, load (nb_region_per_channel ctx') (slot c) = Some 0 -> load (pools ctx') (slot c) = Some p ->
    0 < waiting p -> xeon_sp_init_rank tr c barrier result ctx' = None) as Hblocked.
  { intros tr2 ret r2 ctx' p2 Ec Ep2 Hw. unfold xeon_sp_init_rank. cbv zeta. fold (slot c). rewrite Ec. cbn [mbind option_bind].
    unfold set_count. destruct (store _ _ _); [| done]. cbn [mbind option_bind Z.ltb Z.compare pools]. rewrite Eid, Ep2.
    cbn [mbind option_bind]. destruct (Z.ltb_spec 0 (waiting p2)); [done | lia]. }
  exists (set_conf tr conf), (ctx_with ctx (slot c) 0 p'). split_and!.
  - unfold xeon_sp_init_rank. cbv zeta. fold (slot c) conf. rewrite En. cbn [mbind option_bind].
    rewrite (set_count_with _ _ _ p) by (done || lia). cbn [mbind option_bind Z.ltb Z.compare]. rewrite Eid.
    destruct (ctx_with_at ctx (slot c) (0 + 1) p Hctx Hs) as [_ ->]. cbn [mbind option_bind].
    rewrite Hidle by done. cbn [Z.ltb Z.compare Z.eqb negb pool_threads pool_dpus_per_ci nr_of_dpus_per_control_interface set_conf].
    rewrite (wrap_small 8 (nb_thread_per_pool conf)) by lia.
    rewrite (create_until _ 0 k) by (done || lia). fold p'. rewrite set_pool_with by done. cbn [mbind option_bind].
    destruct (Z.eqb_spec (result k) 0); [done |]. cbn [negb].
    unfold set_count, ctx_with. cbn [nb_region_per_channel pools]. destruct Hctx as [Hl _].
    rewrite store_insert by (rewrite length_insert; lia). cbn [mbind option_bind]. by rewrite list_insert_insert_eq.
  - cbn. apply list_insert_id. by rewrite <- load_lookup by lia.
  - intros tr2 ret r2. destruct (ctx_with_at ctx (slot c) 0 p' Hctx Hs) as [E1 E2]. apply (Hblocked _ _ _ _ p'); [done.. |]. cbn. lia.
Qed.

Lemma failed_pool_is_not_undone_witness : exists tr' ctx',
  xeon_sp_init_rank (some_rank 4) 2 0 (fun k => if k =? 3 then 11 else 0) xeon_sp_ctx = Some (11, tr', ctx') /\
  xeon_sp_init_rank (some_rank 4) 2 0 (fun _ => 0) ctx' = None.
Proof.
  destruct (failed_pool_is_not_undone xeon_sp_ctx (some_rank 4) 2 3 (fun k => if k =? 3 then 11 else 0) xeon_sp_ctx_ok)
    as (tr' & ctx' & E & _ & H); [lia.. | reflexivity | by cbn | by cbn | | done |].
  - intros i Hi. destruct (Z.eqb_spec i 3); [lia | done].
  - by exists tr', ctx'.
Defined.
