(* ===== verification/Status.v ===== *)
(** Operations of the backend: they change a state and return a status of the
    API.  The macro FF of api/src/include/dpu_internals.h leaves a function with
    the first status that is not DPU_OK, keeping the changes made so far; it is
    the sequence of this monad.  Weakest preconditions, and loops. *)
From stdpp Require Import list.
From S2P Require Import Prelude Errors.

(** [Undefined]: the code has no defined behaviour. *)
Inductive result (A : Type) :=
| Return (a : A)
| Failed (status : Z)
| Undefined.

Arguments Return {_} _.
Arguments Failed {_} _.
Arguments Undefined {_}.

Definition cmd (S A : Type) : Type := S -> S * result A.

#[export] Instance cmd_ret {S} : MRet (cmd S) := fun A a s => (s, Return a).

(** [FF(m); k]. *)
#[export] Instance cmd_bind {S} : MBind (cmd S) := fun A B k m s =>
  match m s with
  | (s, Return a) => k a s
  | (s, Failed e) => (s, Failed e)
  | (s, Undefined) => (s, Undefined)
  end.

Definition fails {S A} (e : Z) : cmd S A := fun s => (s, Failed e).
Definition error {S A} (e : dpu_error_t) : cmd S A := fails (error_code e).
Definition undefined {S A} : cmd S A := fun s => (s, Undefined).
Definition read {S A} (f : S -> A) : cmd S A := fun s => (s, Return (f s)).
Definition update {S} (f : S -> S) : cmd S () := fun s => (f s, Return tt).
Definition defined {S A} (o : option A) : cmd S A := match o with Some a => mret a | None => undefined end.

(** A call whose status is not looked at. *)
Definition ignore {S A} (m : cmd S A) : cmd S () := fun s =>
  match m s with
  | (s, Undefined) => (s, Undefined)
  | (s, _) => (s, Return tt)
  end.

(** [m], then [last] on every way out of it. *)
Definition finally {S A} (m : cmd S A) (last : cmd S ()) : cmd S A := fun s =>
  let '(s, r) := m s in
  match last s with
  | (s, Undefined) => (s, Undefined)
  | (s, _) => (s, r)
  end.

Fixpoint for_each {S A} (l : list A) (f : A -> cmd S ()) : cmd S () :=
  match l with
  | [] => mret tt
  | a :: l => f a ≫= fun _ => for_each l f
  end.

(** The same with a value that goes from one step to the next. *)
Fixpoint accumulate {S A B} (l : list A) (f : B -> A -> cmd S B) (b : B) : cmd S B :=
  match l with
  | [] => mret b
  | a :: l => f b a ≫= accumulate l f
  end.

(** The status the caller sees. *)
Definition status_of {S A} (r : S * result A) : option Z :=
  match r.2 with Return _ => Some (error_code DPU_OK) | Failed e => Some e | Undefined => None end.

(** * Weakest preconditions *)

Definition wp {S A} (m : cmd S A) (Q : A -> S -> Prop) (E : Z -> S -> Prop) (s : S) : Prop :=
  match m s with
  | (s, Return a) => Q a s
  | (s, Failed e) => E e s
  | (_, Undefined) => False
  end.

Arguments wp : simpl never.

Section rules.
Context {S : Type}.
Implicit Types s : S.

Lemma wp_ret {A} (a : A) Q (E : Z -> S -> Prop) s : Q a s -> wp (mret a) Q E s.
Proof. done. Qed.

Lemma wp_bind {A B} (m : cmd S A) (k : A -> cmd S B) Q E s :
  wp m (fun a => wp (k a) Q E) E s -> wp (m ≫= k) Q E s.
Proof. unfold wp, mbind, cmd_bind. by destruct (m s) as [s1 [a | e |]]. Qed.

Lemma wp_bind_inv {A B} (m : cmd S A) (k : A -> cmd S B) Q E s :
  wp (m ≫= k) Q E s -> wp m (fun a => wp (k a) Q E) E s.
Proof. unfold wp, mbind, cmd_bind. by destruct (m s) as [s1 [a | e |]]. Qed.

Lemma wp_mono {A} (m : cmd S A) (Q Q' : A -> S -> Prop) (E E' : Z -> S -> Prop) s :
  wp m Q E s -> (forall a s, Q a s -> Q' a s) -> (forall e s, E e s -> E' e s) -> wp m Q' E' s.
Proof. unfold wp. destruct (m s) as [s1 [a | e |]]; auto. Qed.

Lemma wp_and {A} (m : cmd S A) (Q Q' : A -> S -> Prop) (E E' : Z -> S -> Prop) s :
  wp m Q E s -> wp m Q' E' s -> wp m (fun a s => Q a s /\ Q' a s) (fun e s => E e s /\ E' e s) s.
Proof. unfold wp. destruct (m s) as [s1 [a | e |]]; auto. Qed.

Lemma wp_read {A} (f : S -> A) Q (E : Z -> S -> Prop) s : Q (f s) s -> wp (read f) Q E s.
Proof. done. Qed.

Lemma wp_update (f : S -> S) Q (E : Z -> S -> Prop) s : Q tt (f s) -> wp (update f) Q E s.
Proof. done. Qed.

Lemma wp_defined {A} (o : option A) (a : A) Q (E : Z -> S -> Prop) s : o = Some a -> Q a s -> wp (defined o) Q E s.
Proof. by intros ->. Qed.

Lemma wp_ignore {A} (m : cmd S A) Q (E : Z -> S -> Prop) s :
  wp m (fun _ => Q tt) (fun _ => Q tt) s -> wp (ignore m) Q E s.
Proof. unfold wp, ignore. by destruct (m s) as [s1 [a | e |]]. Qed.

Lemma wp_finally {A} (m : cmd S A) last Q E s :
  wp m (fun a => wp last (fun _ => Q a) (fun _ => Q a)) (fun e => wp last (fun _ => E e) (fun _ => E e)) s ->
  wp (finally m last) Q E s.
Proof.
  unfold wp, finally. destruct (m s) as [s1 [a | e |]]; [| | done]; destruct (last s1) as [s2 [[] | e' |]]; done.
Qed.

(** A loop keeps an invariant on what it has visited and what it has left. *)
Lemma wp_for_each {A} (f : A -> cmd S ()) (I : list A -> S -> Prop) (E : Z -> S -> Prop) l s :
  I l s -> (forall a l s, I (a :: l) s -> wp (f a) (fun _ => I l) E s) -> wp (for_each l f) (fun _ => I []) E s.
Proof.
  intros Hs Hf. revert s Hs. induction l as [| a l IH]; intros s Hs; [done |].
  cbn [for_each]. apply wp_bind. eapply wp_mono; [by apply Hf | |]; [| done]. intros [] s1 Hs1. by apply IH.
Qed.

Lemma wp_accumulate {A B} (f : B -> A -> cmd S B) (I : list A -> B -> S -> Prop) (E : Z -> S -> Prop) l b s :
  I l b s -> (forall a l b s, I (a :: l) b s -> wp (f b a) (I l) E s) -> wp (accumulate l f b) (I []) E s.
Proof.
  intros Hs Hf. revert b s Hs. induction l as [| a l IH]; intros b s Hs; [done |].
  cbn [accumulate]. apply wp_bind. eapply wp_mono; [by apply Hf | |]; [| done]. intros b1 s1 Hs1. by apply IH.
Qed.

(** What holds of the state on every way out. *)
Lemma wp_run {A} (m : cmd S A) Q E s : wp m Q E s ->
  match m s with (s', Return a) => Q a s' | (s', Failed e) => E e s' | (_, Undefined) => False end.
Proof. done. Qed.

Lemma for_each_app {A} (l l' : list A) (f : A -> cmd S ()) s :
  for_each (l ++ l') f s = (for_each l f ≫= fun _ => for_each l' f) s.
Proof.
  revert s. induction l as [| a l IH]; intros s; [done |]. cbn [app for_each]. unfold mbind, cmd_bind.
  destruct (f a s) as [s1 [[] | e |]]; [apply IH | done | done].
Qed.
End rules.

(** * Invariants *)

(** What an operation keeps, however it ends. *)
Definition keeps {S A} (I : S -> Prop) (m : cmd S A) : Prop :=
  forall s, I s -> match m s with (_, Undefined) => True | (s', _) => I s' end.

Create HintDb keeps.

Section keeps.
Context {S : Type} (I : S -> Prop).

Lemma keeps_ret {A} (a : A) : keeps I (mret a : cmd S A).
Proof. by intros s. Qed.

Lemma keeps_bind {A B} (m : cmd S A) (k : A -> cmd S B) : keeps I m -> (forall a, keeps I (k a)) -> keeps I (m ≫= k).
Proof.
  intros Hm Hk s Hs. specialize (Hm s Hs). unfold mbind, cmd_bind. destruct (m s) as [s1 [a | e |]]; [by apply Hk | done | done].
Qed.

Lemma keeps_bind_pair {A B C} (m1 : cmd S A) (m2 : A -> cmd S B) (k : B -> cmd S C) :
  keeps I (m1 ≫= m2) -> (forall b, keeps I (k b)) -> keeps I (m1 ≫= fun a => m2 a ≫= k).
Proof.
  intros Hm Hk s Hs. specialize (Hm s Hs). unfold mbind, cmd_bind in *. destruct (m1 s) as [s1 [a | e |]]; [| done | done].
  destruct (m2 a s1) as [s2 [b | e |]]; [by apply Hk | done | done].
Qed.

Lemma keeps_fails {A} e : keeps I (fails e : cmd S A).
Proof. by intros s. Qed.

Lemma keeps_error {A} e : keeps I (error e : cmd S A).
Proof. by intros s. Qed.

Lemma keeps_undefined {A} : keeps I (undefined : cmd S A).
Proof. by intros s. Qed.

Lemma keeps_read {A} (f : S -> A) : keeps I (read f).
Proof. by intros s. Qed.

Lemma keeps_defined {A} (o : option A) : keeps I (defined o).
Proof. destruct o; by intros s. Qed.

Lemma keeps_update (f : S -> S) : (forall s, I s -> I (f s)) -> keeps I (update f).
Proof. intros Hf s Hs. by apply Hf. Qed.

Lemma keeps_ignore {A} (m : cmd S A) : keeps I m -> keeps I (ignore m).
Proof. intros Hm s Hs. specialize (Hm s Hs). unfold ignore. by destruct (m s) as [s1 [a | e |]]. Qed.

Lemma keeps_finally {A} (m : cmd S A) last : keeps I m -> keeps I last -> keeps I (finally m last).
Proof.
  intros Hm Hl s Hs. specialize (Hm s Hs). unfold finally. destruct (m s) as [s1 [a | e |]].
  - specialize (Hl s1 Hm). by destruct (last s1) as [s2 [[] | e' |]].
  - specialize (Hl s1 Hm). by destruct (last s1) as [s2 [[] | e' |]].
  - by destruct (last s1) as [s2 [[] | e' |]].
Qed.

Lemma keeps_for_each {A} (l : list A) (f : A -> cmd S ()) : (forall a, keeps I (f a)) -> keeps I (for_each l f).
Proof. intros Hf. induction l as [| a l IH]; [apply keeps_ret |]. by apply keeps_bind. Qed.

Lemma keeps_accumulate {A B} (l : list A) (f : B -> A -> cmd S B) b : (forall b a, keeps I (f b a)) -> keeps I (accumulate l f b).
Proof. intros Hf. revert b. induction l as [| a l IH]; intros b; [apply keeps_ret |]. apply keeps_bind; [done |]. intros b'. apply IH. Qed.

Lemma keeps_accumulate_in {A B} (l : list A) (f : B -> A -> cmd S B) b :
  (forall b a, In a l -> keeps I (f b a)) -> keeps I (accumulate l f b).
Proof.
  revert b. induction l as [| a l IH]; intros b Hf; [apply keeps_ret |]. apply keeps_bind; [apply Hf; by left |]. intros b'.
  apply IH. intros b1 a1 Ha1. apply Hf. by right.
Qed.

Lemma keeps_if {A} (b : bool) (m1 m2 : cmd S A) : keeps I m1 -> keeps I m2 -> keeps I (if b then m1 else m2).
Proof. by destruct b. Qed.

Lemma keeps_run {A} (m : cmd S A) s : keeps I m -> I s -> status_of (m s) <> None -> I (m s).1.
Proof. intros Hm Hs. specialize (Hm s Hs). unfold status_of. by destruct (m s) as [s1 [a | e |]]. Qed.
End keeps.

#[export] Hint Resolve keeps_ret keeps_bind keeps_fails keeps_error keeps_undefined keeps_read keeps_defined keeps_ignore
  keeps_finally keeps_for_each keeps_accumulate keeps_if : keeps.

(** * What an operation that succeeds leaves *)

Definition triple {S A} (P : S -> Prop) (m : cmd S A) (Q : A -> S -> Prop) : Prop :=
  forall s, P s -> match m s with (s', Return a) => Q a s' | _ => True end.

Section triple.
Context {S : Type}.
Implicit Types P : S -> Prop.

Lemma triple_mret {A} P (a : A) (Q : A -> S -> Prop) : (forall s, P s -> Q a s) -> triple P (mret a) Q.
Proof. intros Hq s Hs. by apply Hq. Qed.

Lemma triple_seq {A B} P (m : cmd S A) (k : A -> cmd S B) (R : A -> S -> Prop) Q :
  triple P m R -> (forall a, triple (R a) (k a) Q) -> triple P (m ≫= k) Q.
Proof.
  intros Hm Hk s Hs. specialize (Hm s Hs). unfold mbind, cmd_bind. destruct (m s) as [s1 [a | e |]]; [by apply (Hk a) | done | done].
Qed.

Lemma triple_mono {A} P P' (m : cmd S A) (Q Q' : A -> S -> Prop) :
  triple P m Q -> (forall s, P' s -> P s) -> (forall a s, Q a s -> Q' a s) -> triple P' m Q'.
Proof. intros Hm HP HQ s Hs. specialize (Hm s (HP s Hs)). destruct (m s) as [s1 [a | e |]]; auto. Qed.

Lemma triple_read {A} P (f : S -> A) : triple P (read f) (fun _ => P).
Proof. by intros s. Qed.

Lemma triple_defined {A} P (o : option A) : triple P (defined o) (fun _ => P).
Proof. destruct o; by intros s. Qed.

Lemma triple_if {A} P (b : bool) (m1 m2 : cmd S A) Q : triple P m1 Q -> triple P m2 Q -> triple P (if b then m1 else m2) Q.
Proof. by destruct b. Qed.

Lemma triple_for_each {A} P (l : list A) (f : A -> cmd S ()) :
  (forall a, triple P (f a) (fun _ => P)) -> triple P (for_each l f) (fun _ => P).
Proof. intros Hf. induction l as [| a l IH]; [by apply triple_mret |]. by apply (triple_seq _ _ _ (fun _ => P)). Qed.

Lemma triple_accumulate {A B} P (l : list A) (f : B -> A -> cmd S B) b :
  (forall b a, In a l -> triple P (f b a) (fun _ => P)) -> triple P (accumulate l f b) (fun _ => P).
Proof.
  revert b. induction l as [| a l IH]; intros b Hf; [by apply triple_mret |]. apply (triple_seq _ _ _ (fun _ => P)); [apply Hf; by left |].
  intros b'. apply IH. intros b1 a1 Ha1. apply Hf. by right.
Qed.

Lemma triple_pure {A} (phi : Prop) P (m : cmd S A) Q : (phi -> triple P m Q) -> triple (fun s => phi /\ P s) m Q.
Proof. intros Hm s [Hp Hs]. by apply Hm. Qed.

(** A loop that counts. *)
Lemma triple_for_each_seq (P : nat -> S -> Prop) (f : nat -> cmd S ()) n k :
  (forall j, (k <= j < k + n)%nat -> triple (P j) (f j) (fun _ => P (Datatypes.S j))) -> triple (P k) (for_each (seq k n) f) (fun _ => P (k + n)%nat).
Proof.
  revert k. induction n as [| n IH]; intros k Hf; cbn [seq for_each]; [apply triple_mret; intros s; by rewrite Nat.add_0_r |].
  apply (triple_seq _ _ _ (fun _ => P (Datatypes.S k))); [apply Hf; lia | intros _]. rewrite Nat.add_succ_r, <- Nat.add_succ_l.
  apply IH. intros j Hj. apply Hf. lia.
Qed.

Lemma triple_run {A} P (m : cmd S A) Q s s' a : triple P m Q -> P s -> m s = (s', Return a) -> Q a s'.
Proof. intros Hm Hs E. specialize (Hm s Hs). by rewrite E in Hm. Qed.
End triple.

Lemma for_each_map {S A B} (g : A -> B) (f : B -> cmd S ()) l : for_each (map g l) f = for_each l (fun a => f (g a)).
Proof. induction l as [| a l IH]; cbn [map for_each]; [done | by rewrite IH]. Qed.
