(* ===== verification/CiCommands.v ===== *)
(** The commands of the control interfaces of a chip
    (library/src/backends/ufi/include/ufi/ufi_ci_commands.h): a command is a word
    of 64 bits, most of them a structure and a frame, whose bytes are a request or
    those of an instruction the DPU is to execute.  Lemmas: the bytes of a command
    are read back from its word; structures and frames are told apart. *)
From stdpp Require Import list.
From S2P Require Import Prelude.

(** [(u64)(v) << s]. *)
Definition place (s v : Z) : Z := u64 (Z.shiftl (u64 v) s).

(** The words of a structure or a frame: its kind, then its bytes. *)
Fixpoint place_bytes (s : Z) (l : list Z) (acc : Z) : Z :=
  match l with [] => acc | b :: l => place_bytes (s + 8) l (Z.lor acc (place s b)) end.

Definition packet (kind : Z) (bytes : list Z) : Z := place_bytes 0 bytes (Z.shiftl kind 56).

Definition byte_of (k x : Z) : Z := Z.land (Z.shiftr x (Z.shiftl k 3)) 0xff.

(** The bits of an operand, [((operand >> from) & mask) << to]. *)
Definition operand_field (f : Z * Z * Z * Z) : Z :=
  let '(operand, from, mask, to) := f in Z.shiftl (Z.land (Z.shiftr (u64 operand) from) mask) to.

Definition instruction (opcode : Z) (fields : list (Z * Z * Z * Z)) : Z :=
  fold_left (fun acc f => Z.lor acc (operand_field f)) fields opcode.

(** * Instructions inside of commands *)

Definition BOOT_instruction (thread_id : Z) : Z :=
  instruction 0x7d8320000000 [(24, 0, 0x1f, 34); (0, 0, 0xf, 24); (thread_id, 0, 0xf, 20); (thread_id, 4, 0xf, 16);
    (0, 0, 0xffff, 0)].

Definition RESUME_instruction (thread_id : Z) : Z :=
  instruction 0x7d0320000000 [(24, 0, 0x1f, 34); (0, 0, 0xf, 24); (thread_id, 0, 0xf, 20); (thread_id, 4, 0xf, 16);
    (0, 0, 0xffff, 0)].

Definition CLR_RUN_instruction (thread_id : Z) : Z :=
  instruction 0x7c8320000000 [(24, 0, 0x1f, 34); (0, 0, 0xf, 24); (thread_id, 0, 0xf, 20); (thread_id, 4, 0xf, 16);
    (0, 0, 0xffff, 0)].

Definition READ_RUN_instruction (thread_id : Z) : Z :=
  instruction 0x7c0330000000 [(24, 0, 0x1f, 34); (0, 0, 0xf, 24); (thread_id, 0, 0xf, 20); (thread_id, 4, 0xf, 16);
    (0, 0, 0xffff, 0)].

Definition SW_instruction (address : Z) : Z :=
  instruction 0x7c0044000000 [(0, 0, 7, 17); (0, 3, 3, 32); (24, 0, 0x1f, 34); (0, 0, 1, 27);
    (Z.shiftl address 2, 0, 0xf, 20); (Z.shiftl address 2, 4, 7, 39); (Z.shiftl address 2, 7, 1, 24);
    (Z.shiftl address 2, 8, 1, 15); (Z.shiftl address 2, 9, 1, 14); (Z.shiftl address 2, 10, 1, 13);
    (Z.shiftl address 2, 11, 1, 12); (Z.shiftl address 2, 12, 0xfff, 0)].

Definition LW_instruction (address : Z) : Z :=
  instruction 0x700344000000 [(24, 0, 0x1f, 34); (0, 0, 1, 27); (Z.shiftl address 2, 0, 0xf, 20);
    (Z.shiftl address 2, 4, 0xf, 16); (Z.shiftl address 2, 8, 1, 15); (Z.shiftl address 2, 9, 1, 14);
    (Z.shiftl address 2, 10, 1, 13); (Z.shiftl address 2, 11, 1, 12); (Z.shiftl address 2, 12, 0xfff, 0);
    (0, 0, 0x1f, 39)].

Definition STOP_instruction : Z :=
  instruction 0x7ef320000000 [(0, 0, 0xf, 24); (0, 0, 0xffff, 0)].

Definition NOP_instruction : Z :=
  0x7c6300000000.

(** * Commands *)

Definition CI_EMPTY : Z := 0.

Definition CI_BIT_ORDER (ne stutter c2d d2c : Z) : Z :=
  Z.lor (Z.lor (Z.lor (Z.lor 0x0100000000000000 (place 0 ne)) (place 8 stutter)) (place 16 c2d)) (place 32 d2c).

Definition CI_IDENTITY : Z := 0x01ff000000000000.

Definition CI_SOFTWARE_RESET (factor cycle_accurate : Z) : Z :=
  Z.lor (Z.lor 0x01ff00000000ff00 (place 0 factor)) (place 4 cycle_accurate).

Definition CI_THERMAL_CONFIG (threshold : Z) : Z := Z.lor 0x01ff000000ff0000 (place 0 threshold).

Definition CI_CMD_DURATION_FUTUR (duration : Z) : Z := Z.lor 0x01ff000000ffff00 (place 0 duration).

Definition CI_RES_DURATION_FUTUR (duration : Z) : Z := Z.lor 0x01ff0000ff000000 (place 0 duration).

Definition CI_RES_SAMPLING_FUTUR (sampling : Z) : Z := Z.lor 0x01ff0000ff00ff00 (place 0 sampling).

Definition CI_BYTE_ORDER : Z := 0x7777777777777777.

Definition CI_NOP : Z := 0xff00000000000000.

Definition CI_SELECT_DPU_STRUCT : Z := packet 0x11 [2; 0; 0; 0; 0; 0].

Definition CI_SELECT_DPU_FRAME (dpu_id : Z) : Z := packet 0x33 [0xa; dpu_id; 0xff; 2; 0; 0; 0].

Definition CI_SELECT_GROUP_STRUCT : Z := packet 0x11 [2; 0; 0; 0; 0; 0].

Definition CI_SELECT_GROUP_FRAME (group_id : Z) : Z := packet 0x33 [9; group_id; 0xff; 2; 0; 0; 0].

Definition CI_SELECT_ALL_STRUCT : Z := packet 0x11 [0; 0; 0; 0; 0; 0].

Definition CI_SELECT_ALL_FRAME : Z := packet 0x33 [8; 0xff; 2; 0; 0; 0; 0].

Definition CI_WRITE_GROUP_STRUCT : Z := packet 0x11 [2; 0; 0; 0; 0; 0].

Definition CI_WRITE_GROUP_FRAME (group_id : Z) : Z := packet 0x33 [0xc; group_id; 0xff; 2; 0; 0; 0].

Definition CI_DMA_CTRL_READ_STRUCT : Z := packet 0x11 [0; 0; 0; 0; 0; 0].

Definition CI_DMA_CTRL_READ_FRAME : Z := packet 0x33 [0x10; 2; 0; 0; 0; 0; 0].

Definition CI_DMA_CTRL_WRITE_STRUCT : Z := packet 0x11 [0x3f; 0; 0xff; 2; 0; 0].

Definition CI_DMA_CTRL_WRITE_FRAME (byte0 byte1 byte2 byte3 byte4 byte5 : Z) : Z :=
  packet 0x33 [byte0; byte1; byte2; byte3; byte4; byte5; 0xa7].

Definition CI_DMA_CTRL_CLEAR_STRUCT : Z := packet 0x11 [0x3f; 0; 0xff; 2; 0; 0].

Definition CI_DMA_CTRL_CLEAR_FRAME : Z := packet 0x33 [0; 0; 0; 0; 0; 0; 0xa6].

Definition CI_DMA_FAULT_THREAD_INDEX_READ_STRUCT : Z := packet 0x11 [0; 0; 0; 0; 0; 0].

Definition CI_DMA_FAULT_THREAD_INDEX_READ_FRAME : Z := packet 0x33 [0x11; 2; 0; 0; 0; 0; 0].

Definition CI_BKP_FAULT_THREAD_INDEX_READ_STRUCT : Z := packet 0x11 [0; 0; 0; 0; 0; 0].

Definition CI_BKP_FAULT_THREAD_INDEX_READ_FRAME : Z := packet 0x33 [0x12; 2; 0; 0; 0; 0; 0].

Definition CI_MEM_FAULT_THREAD_INDEX_READ_STRUCT : Z := packet 0x11 [0; 0; 0; 0; 0; 0].

Definition CI_MEM_FAULT_THREAD_INDEX_READ_FRAME : Z := packet 0x33 [0x13; 2; 0; 0; 0; 0; 0].

Definition CI_PC_LSB_READ_STRUCT : Z := packet 0x11 [0; 0; 0; 0; 0; 0].

Definition CI_PC_LSB_READ_FRAME : Z := packet 0x33 [0x14; 2; 0; 0; 0; 0; 0].

Definition CI_PC_MSB_READ_STRUCT : Z := packet 0x11 [0; 0; 0; 0; 0; 0].

Definition CI_PC_MSB_READ_FRAME : Z := packet 0x33 [0x15; 2; 0; 0; 0; 0; 0].

Definition CI_PC_MODE_READ_STRUCT : Z := packet 0x11 [0; 0; 0; 0; 0; 0].

Definition CI_PC_MODE_READ_FRAME : Z := packet 0x33 [0x16; 2; 0; 0; 0; 0; 0].

Definition CI_PC_MODE_WRITE_STRUCT : Z := packet 0x11 [0xbf; 0; 0; 0xff; 2; 0].

Definition CI_PC_MODE_WRITE_FRAME (pc_mode : Z) : Z := packet 0x33 [pc_mode; 0; 0; 0; 0; 0; 0xa4].

Definition CI_DPU_FAULT_STATE_READ_STRUCT : Z := packet 0x11 [0; 0; 0; 0; 0; 0].

Definition CI_DPU_FAULT_STATE_READ_FRAME : Z := packet 0x33 [0x80; 2; 0; 0; 0; 0; 0].

Definition CI_DPU_FAULT_STATE_CLR_STRUCT : Z := packet 0x11 [0; 0; 0; 0; 0; 0].

Definition CI_DPU_FAULT_STATE_CLR_FRAME : Z := packet 0x33 [0x86; 0xff; 2; 0; 0; 0; 0].

Definition CI_DPU_FAULT_STATE_SET_AND_STEP_STRUCT : Z := packet 0x11 [0; 0; 0; 0; 0; 0].

Definition CI_DPU_FAULT_STATE_SET_AND_STEP_FRAME : Z := packet 0x33 [0x87; 0xff; 2; 0; 0; 0; 0].

Definition CI_DPU_RUN_STATE_READ_STRUCT : Z := packet 0x11 [0; 0; 0; 0; 0; 0].

Definition CI_DPU_RUN_STATE_READ_FRAME : Z := packet 0x33 [0x84; 2; 0; 0; 0; 0; 0].

Definition CI_BKP_FAULT_READ_STRUCT : Z := packet 0x11 [0; 0; 0; 0; 0; 0].

Definition CI_BKP_FAULT_READ_FRAME : Z := packet 0x33 [0xb0; 2; 0; 0; 0; 0; 0].

Definition CI_BKP_FAULT_CLEAR_STRUCT : Z := packet 0x11 [0; 0; 0; 0; 0; 0].

Definition CI_BKP_FAULT_CLEAR_FRAME : Z := packet 0x33 [0xb2; 0xff; 2; 0; 0; 0; 0].

Definition CI_BKP_FAULT_SET_STRUCT : Z := packet 0x11 [0; 0; 0; 0; 0; 0].

Definition CI_BKP_FAULT_SET_FRAME : Z := packet 0x33 [0xb3; 0xff; 2; 0; 0; 0; 0].

Definition CI_POISON_FAULT_READ_STRUCT : Z := packet 0x11 [0; 0; 0; 0; 0; 0].

Definition CI_POISON_FAULT_READ_FRAME : Z := packet 0x33 [0xb4; 2; 0; 0; 0; 0; 0].

Definition CI_POISON_FAULT_CLEAR_STRUCT : Z := packet 0x11 [0; 0; 0; 0; 0; 0].

Definition CI_POISON_FAULT_CLEAR_FRAME : Z := packet 0x33 [0xb6; 0xff; 2; 0; 0; 0; 0].

Definition CI_POISON_FAULT_SET_STRUCT : Z := packet 0x11 [0; 0; 0; 0; 0; 0].

Definition CI_POISON_FAULT_SET_FRAME : Z := packet 0x33 [0xb7; 0xff; 2; 0; 0; 0; 0].

Definition CI_DMA_FAULT_READ_AND_CLR_STRUCT : Z := packet 0x11 [0; 0; 0; 0; 0; 0].

Definition CI_DMA_FAULT_READ_AND_CLR_FRAME : Z := packet 0x33 [0x82; 2; 0; 0; 0; 0; 0].

Definition CI_MEM_FAULT_READ_AND_CLR_STRUCT : Z := packet 0x11 [0; 0; 0; 0; 0; 0].

Definition CI_MEM_FAULT_READ_AND_CLR_FRAME : Z := packet 0x33 [0xf4; 2; 0; 0; 0; 0; 0].

Definition CI_STACK_UP_READ_AND_CLR_STRUCT : Z := packet 0x11 [0; 0; 0; 0; 0; 0].

Definition CI_STACK_UP_READ_AND_CLR_FRAME : Z := packet 0x33 [0xf0; 2; 0; 0; 0; 0; 0].

Definition CI_STACK_UP_READ_AND_SET_STRUCT : Z := packet 0x11 [0; 0; 0; 0; 0; 0].

Definition CI_STACK_UP_READ_AND_SET_FRAME : Z := packet 0x33 [0xf2; 2; 0; 0; 0; 0; 0].

Definition CI_THREAD_BOOT_STRUCT : Z := packet 0x11 [0x3f; 0; 2; 0; 0; 0].

Definition CI_THREAD_BOOT_FRAME (thread_id : Z) : Z :=
  packet 0x33 [byte_of 2 (BOOT_instruction thread_id); byte_of 5 (BOOT_instruction thread_id);
    byte_of 4 (BOOT_instruction thread_id); byte_of 0 (BOOT_instruction thread_id);
    byte_of 1 (BOOT_instruction thread_id); byte_of 3 (BOOT_instruction thread_id); 0x98].

Definition CI_THREAD_RESUME_STRUCT : Z := packet 0x11 [0x3f; 0; 2; 0; 0; 0].

Definition CI_THREAD_RESUME_FRAME (thread_id : Z) : Z :=
  packet 0x33 [byte_of 2 (RESUME_instruction thread_id); byte_of 5 (RESUME_instruction thread_id);
    byte_of 4 (RESUME_instruction thread_id); byte_of 0 (RESUME_instruction thread_id);
    byte_of 1 (RESUME_instruction thread_id); byte_of 3 (RESUME_instruction thread_id); 0x98].

Definition CI_THREAD_CLR_RUN_STRUCT : Z := packet 0x11 [0x3f; 0; 2; 0; 0; 0].

Definition CI_THREAD_CLR_RUN_FRAME (thread_id : Z) : Z :=
  packet 0x33 [byte_of 2 (CLR_RUN_instruction thread_id); byte_of 5 (CLR_RUN_instruction thread_id);
    byte_of 4 (CLR_RUN_instruction thread_id); byte_of 0 (CLR_RUN_instruction thread_id);
    byte_of 1 (CLR_RUN_instruction thread_id); byte_of 3 (CLR_RUN_instruction thread_id); 0x98].

Definition CI_THREAD_READ_RUN_STRUCT : Z := packet 0x11 [0x3f; 0; 2; 0; 0; 0].

Definition CI_THREAD_READ_RUN_FRAME (thread_id : Z) : Z :=
  packet 0x33 [byte_of 2 (READ_RUN_instruction thread_id); byte_of 5 (READ_RUN_instruction thread_id);
    byte_of 4 (READ_RUN_instruction thread_id); byte_of 0 (READ_RUN_instruction thread_id);
    byte_of 1 (READ_RUN_instruction thread_id); byte_of 3 (READ_RUN_instruction thread_id); 0x98].

Definition CI_IRAM_WRITE_INSTRUCTION_STRUCT (address : Z) : Z := packet 0x11 [0xff; 0; byte_of 1 address; 0x47; 2; 0].

Definition CI_IRAM_WRITE_INSTRUCTION_FRAME (data address : Z) : Z :=
  packet 0x33 [byte_of 0 data; byte_of 1 data; byte_of 2 data; byte_of 3 data; byte_of 4 data; byte_of 5 data;
    byte_of 0 address].

Definition CI_IRAM_READ_BYTE0_STRUCT : Z := packet 0x11 [3; 0; 0; 0; 0; 0].

Definition CI_IRAM_READ_BYTE0_FRAME (address : Z) : Z :=
  packet 0x33 [byte_of 0 address; byte_of 1 address; 0x40; 2; 0; 0; 0].

Definition CI_IRAM_READ_BYTE1_STRUCT : Z := packet 0x11 [3; 0; 0; 0; 0; 0].

Definition CI_IRAM_READ_BYTE1_FRAME (address : Z) : Z :=
  packet 0x33 [byte_of 0 address; byte_of 1 address; 0x41; 2; 0; 0; 0].

Definition CI_IRAM_READ_BYTE2_STRUCT : Z := packet 0x11 [3; 0; 0; 0; 0; 0].

Definition CI_IRAM_READ_BYTE2_FRAME (address : Z) : Z :=
  packet 0x33 [byte_of 0 address; byte_of 1 address; 0x42; 2; 0; 0; 0].

Definition CI_IRAM_READ_BYTE3_STRUCT : Z := packet 0x11 [3; 0; 0; 0; 0; 0].

Definition CI_IRAM_READ_BYTE3_FRAME (address : Z) : Z :=
  packet 0x33 [byte_of 0 address; byte_of 1 address; 0x43; 2; 0; 0; 0].

Definition CI_IRAM_READ_BYTE4_STRUCT : Z := packet 0x11 [3; 0; 0; 0; 0; 0].

Definition CI_IRAM_READ_BYTE4_FRAME (address : Z) : Z :=
  packet 0x33 [byte_of 0 address; byte_of 1 address; 0x44; 2; 0; 0; 0].

Definition CI_IRAM_READ_BYTE5_STRUCT : Z := packet 0x11 [3; 0; 0; 0; 0; 0].

Definition CI_IRAM_READ_BYTE5_FRAME (address : Z) : Z :=
  packet 0x33 [byte_of 0 address; byte_of 1 address; 0x45; 2; 0; 0; 0].

Definition CI_WRAM_WRITE_WORD_STRUCT (address : Z) : Z :=
  packet 0x11 [0xff; 3; byte_of 0 (SW_instruction address); byte_of 1 (SW_instruction address);
    byte_of 3 (SW_instruction address); 0x99].

Definition CI_WRAM_WRITE_WORD_FRAME (data address : Z) : Z :=
  packet 0x33 [byte_of 0 data; byte_of 1 data; byte_of 2 data; byte_of 3 data; byte_of 2 (SW_instruction address);
    byte_of 5 (SW_instruction address); byte_of 4 (SW_instruction address)].

Definition CI_WRAM_READ_WORD_STRUCT : Z := packet 0x11 [0x3f; 0; 2; 0; 0; 0].

Definition CI_WRAM_READ_WORD_FRAME (address : Z) : Z :=
  packet 0x33 [byte_of 2 (LW_instruction address); byte_of 5 (LW_instruction address);
    byte_of 4 (LW_instruction address); byte_of 0 (LW_instruction address); byte_of 1 (LW_instruction address);
    byte_of 3 (LW_instruction address); 0x99].

Definition CI_IREPAIR_CONFIG_AB_STRUCT : Z := packet 0x11 [0xa; 0; 0; 0; 0; 0].

Definition CI_IREPAIR_CONFIG_AB_FRAME (msb lsb_A lsb_B : Z) : Z :=
  packet 0x33 [0x90; msb; 0x91; Z.lor lsb_B (Z.shiftl lsb_A 4); 0xff; 2; 0].

Definition CI_IREPAIR_CONFIG_CD_STRUCT : Z := packet 0x11 [0xa; 0; 0; 0; 0; 0].

Definition CI_IREPAIR_CONFIG_CD_FRAME (msb lsb_C lsb_D : Z) : Z :=
  packet 0x33 [0x92; msb; 0x93; Z.lor lsb_D (Z.shiftl lsb_C 4); 0xff; 2; 0].

Definition CI_IREPAIR_CONFIG_OE_STRUCT : Z := packet 0x11 [0xa; 0; 0; 0; 0; 0].

Definition CI_IREPAIR_CONFIG_OE_FRAME (odd_index even_index timing : Z) : Z :=
  packet 0x33 [0x97; Z.shiftr odd_index 1; 0x96; Z.lor (Z.shiftl timing 5) (Z.shiftr even_index 1); 0xff; 2; 0].

Definition CI_REGISTER_FILE_TIMING_CONFIG_STRUCT : Z := packet 0x11 [0x7f; 1; 0xa5; 0; 0xff; 2].

Definition CI_REGISTER_FILE_TIMING_CONFIG_FRAME (rf_timing : Z) : Z := packet 0x33 [0; rf_timing; 0; 0; 0; 0; 0].

Definition CI_CMD_BUS_CONFIG_DURATION_STRUCT : Z := packet 0x11 [2; 0; 0; 0; 0; 0].

Definition CI_CMD_BUS_CONFIG_DURATION_FRAME (duration : Z) : Z := packet 0x33 [4; duration; 0xff; 2; 0; 0; 0].

Definition CI_CMD_BUS_CONFIG_SAMPLING_STRUCT : Z := packet 0x11 [2; 0; 0; 0; 0; 0].

Definition CI_CMD_BUS_CONFIG_SAMPLING_FRAME (sampling : Z) : Z := packet 0x33 [5; sampling; 0xff; 2; 0; 0; 0].

Definition CI_CMD_BUS_SYNC_STRUCT : Z := packet 0x11 [0; 0; 0; 0; 0; 0].

Definition CI_CMD_BUS_SYNC_FRAME : Z := packet 0x33 [7; 0xff; 2; 0; 0; 0; 0].

Definition CI_RES_BUS_CONFIG_DURATION_STRUCT : Z := packet 0x11 [0xbf; 0; 0; 2; 0; 0].

Definition CI_RES_BUS_CONFIG_DURATION_FRAME (duration : Z) : Z := packet 0x33 [duration; 0; 0; 0; 0; 0; 0xf6].

Definition CI_RES_BUS_SYNC_STRUCT : Z := packet 0x11 [0; 0; 0; 0; 0; 0].

Definition CI_RES_BUS_SYNC_FRAME : Z := packet 0x33 [0xf7; 0xff; 2; 0; 0; 0; 0].

Definition CI_NOTIFY_READ_STRUCT : Z := packet 0x11 [0x3f; 0; 2; 0; 0; 0].

Definition CI_NOTIFY_READ_FRAME (thread_id : Z) : Z :=
  packet 0x33 [byte_of 2 (READ_RUN_instruction thread_id); byte_of 5 (READ_RUN_instruction thread_id);
    byte_of 4 (READ_RUN_instruction thread_id); byte_of 0 (READ_RUN_instruction thread_id);
    byte_of 1 (READ_RUN_instruction thread_id); byte_of 3 (READ_RUN_instruction thread_id); 0x98].

Definition CI_NOTIFY_CLR_STRUCT : Z := packet 0x11 [0x3f; 0; 2; 0; 0; 0].

Definition CI_NOTIFY_CLR_FRAME (thread_id : Z) : Z :=
  packet 0x33 [byte_of 2 (CLR_RUN_instruction thread_id); byte_of 5 (CLR_RUN_instruction thread_id);
    byte_of 4 (CLR_RUN_instruction thread_id); byte_of 0 (CLR_RUN_instruction thread_id);
    byte_of 1 (CLR_RUN_instruction thread_id); byte_of 3 (CLR_RUN_instruction thread_id); 0x98].

Definition CI_NOTIFY_SET_STRUCT : Z := packet 0x11 [0x3f; 0; 2; 0; 0; 0].

Definition CI_NOTIFY_SET_FRAME (thread_id : Z) : Z :=
  packet 0x33 [byte_of 2 (BOOT_instruction thread_id); byte_of 5 (BOOT_instruction thread_id);
    byte_of 4 (BOOT_instruction thread_id); byte_of 0 (BOOT_instruction thread_id);
    byte_of 1 (BOOT_instruction thread_id); byte_of 3 (BOOT_instruction thread_id); 0x98].

Definition CI_DEBUG_STD_REPLACE_STOP_ENABLED_STRUCT : Z := packet 0x11 [0x3f; 0; 2; 0; 0; 0].

Definition CI_DEBUG_STD_REPLACE_STOP_ENABLED_FRAME : Z :=
  packet 0x33 [byte_of 2 STOP_instruction; byte_of 5 STOP_instruction; byte_of 4 STOP_instruction;
    byte_of 0 STOP_instruction; byte_of 1 STOP_instruction; byte_of 3 STOP_instruction; 0x9e].

Definition CI_DEBUG_STD_REPLACE_CLEAR_STRUCT : Z := packet 0x11 [0; 0; 0; 0; 0; 0].

Definition CI_DEBUG_STD_REPLACE_CLEAR_FRAME : Z := packet 0x33 [0x9c; 2; 0; 0; 0; 0; 0].

Definition CI_DEBUG_STD_SAMPLE_PC_STRUCT : Z := packet 0x11 [0x3f; 0; 0x9c; 2; 0; 0].

Definition CI_DEBUG_STD_SAMPLE_PC_FRAME : Z :=
  packet 0x33 [byte_of 2 NOP_instruction; byte_of 5 NOP_instruction; byte_of 4 NOP_instruction;
    byte_of 0 NOP_instruction; byte_of 1 NOP_instruction; byte_of 3 NOP_instruction; 0x9e].

(** * The kinds of commands *)

Definition is_structure (word : Z) : bool := Z.shiftr word 56 =? 0x11.

Lemma place_bytes_bit n l s acc : Z.testbit acc n = true -> Z.testbit (place_bytes s l acc) n = true.
Proof.
  revert s acc. induction l as [| b l IH]; intros s acc Hn; [done |]. cbn [place_bytes]. apply IH. by rewrite Z.lor_spec, Hn.
Qed.

Lemma place_byte s b : 0 <= b < 256 -> 0 <= s -> s + 8 <= 56 -> 0 <= place s b < 2 ^ 56.
Proof.
  intros Hb Hs1 Hs2. unfold place. assert (E : u64 b = b) by (unfold u64, wrap; apply Z.mod_small; lia). rewrite E.
  assert (0 <= Z.shiftl b s < 2 ^ 56).
  { rewrite Z.shiftl_mul_pow2 by lia. assert (2 ^ s * 2 ^ 8 <= 2 ^ 56).
    { rewrite <- Z.pow_add_r by lia. by apply Z.pow_le_mono_r. }
    assert (0 < 2 ^ s) by (by apply Z.pow_pos_nonneg). nia. }
  unfold u64, wrap. rewrite Z.mod_small; [done |]. split; [lia |]. eapply Z.lt_trans; [apply H |]. by apply Z.pow_lt_mono_r.
Qed.

Lemma shiftr_56_small x : 0 <= x < 2 ^ 56 -> Z.shiftr x 56 = 0.
Proof. intros Hx. rewrite Z.shiftr_div_pow2 by done. by apply Z.div_small. Qed.

Lemma place_bytes_kind l s acc : Forall (fun b => 0 <= b < 256) l -> 0 <= s -> s + 8 * Z.of_nat (length l) <= 56 ->
  Z.shiftr (place_bytes s l acc) 56 = Z.shiftr acc 56.
Proof.
  revert s acc. induction l as [| b l IH]; intros s acc Hl Hs Hn; [done |]. cbn [place_bytes]. cbn [length] in Hn.
  apply list.Forall_cons in Hl as [Hb Hl]. rewrite IH by (done || lia).
  rewrite Z.shiftr_lor, (shiftr_56_small (place s b)); [by rewrite Z.lor_0_r |]. apply place_byte; [done | done | lia].
Qed.

Lemma byte_of_range k x : 0 <= byte_of k x < 256.
Proof.
  unfold byte_of. change 0xff with (Z.ones 8). rewrite Z.land_ones by done. change (2 ^ 8) with 256. by apply Z.mod_pos_bound.
Qed.

Lemma packet_structure l : Forall (fun b => 0 <= b < 256) l -> (length l <= 7)%nat -> is_structure (packet 0x11 l) = true.
Proof. intros Hl Hn. unfold is_structure, packet. rewrite place_bytes_kind by (done || lia). done. Qed.

Lemma packet_frame l : is_structure (packet 0x33 l) = false.
Proof.
  unfold is_structure. apply Z.eqb_neq. intros E. apply (f_equal (fun x => Z.testbit x 5)) in E.
  rewrite Z.shiftr_spec in E by done. unfold packet in E. rewrite place_bytes_bit in E; done.
Qed.

Lemma empty_not_structure : is_structure CI_EMPTY = false.
Proof. done. Qed.

Lemma iram_write_structure a : is_structure (CI_IRAM_WRITE_INSTRUCTION_STRUCT a) = true.
Proof. apply packet_structure; [| cbn; lia]. pose proof (byte_of_range 1 a). repeat constructor; lia. Qed.

Lemma wram_write_structure a : is_structure (CI_WRAM_WRITE_WORD_STRUCT a) = true.
Proof.
  apply packet_structure; [| cbn; lia]. pose proof (byte_of_range 0 (SW_instruction a)).
  pose proof (byte_of_range 1 (SW_instruction a)). pose proof (byte_of_range 3 (SW_instruction a)). repeat constructor; lia.
Qed.

(** A word that is executed. *)
Definition is_frame (word : Z) : bool := negb (word =? CI_EMPTY) && negb (is_structure word).

Lemma packet_is_frame l : is_frame (packet 0x33 l) = true.
Proof.
  unfold is_frame. rewrite packet_frame. destruct (Z.eqb_spec (packet 0x33 l) CI_EMPTY) as [E |]; [| done].
  apply (f_equal (fun x => Z.testbit x 61)) in E. unfold packet in E. rewrite place_bytes_bit in E; done.
Qed.

(** * The bytes of a frame *)

Lemma byte_of_bits k x : 0 <= k -> byte_of k x = (x / 2 ^ (8 * k)) mod 256.
Proof.
  intros Hk. unfold byte_of. rewrite Z.shiftl_mul_pow2 by done. change (2 ^ 3) with 8. rewrite (Z.mul_comm k 8).
  rewrite Z.shiftr_div_pow2 by lia. change 0xff with (Z.ones 8). by rewrite Z.land_ones.
Qed.

Lemma byte_of_testbit k x n : 0 <= k -> 0 <= n < 8 -> Z.testbit (byte_of k x) n = Z.testbit x (8 * k + n).
Proof.
  intros Hk Hn. unfold byte_of. rewrite Z.land_spec, Z.shiftr_spec by lia. change 0xff with (Z.ones 8).
  rewrite Z.ones_spec_low by lia. rewrite andb_true_r. f_equal. rewrite Z.shiftl_mul_pow2 by done. change (2 ^ 3) with 8. lia.
Qed.

Lemma place_testbit s b n : 0 <= b < 256 -> 0 <= s -> s + 8 <= 64 -> 0 <= n ->
  Z.testbit (place s b) n = (s <=? n) && (n <? s + 8) && Z.testbit b (n - s).
Proof.
  intros Hb Hs Hs' Hn. unfold place. assert (E : u64 b = b) by (unfold u64, wrap; apply Z.mod_small; lia). rewrite E.
  assert (Hsmall : 0 <= Z.shiftl b s < 2 ^ 64).
  { rewrite Z.shiftl_mul_pow2 by lia. assert (2 ^ s * 2 ^ 8 <= 2 ^ 64).
    { rewrite <- Z.pow_add_r by lia. by apply Z.pow_le_mono_r. }
    assert (0 < 2 ^ s) by (by apply Z.pow_pos_nonneg). nia. }
  unfold u64, wrap. rewrite Z.mod_small by exact Hsmall. rewrite Z.shiftl_spec by done.
  destruct (Z.leb_spec s n); cbn [andb]; [| apply Z.testbit_neg_r; lia].
  destruct (Z.ltb_spec n (s + 8)); cbn [andb]; [done |].
  destruct (Z.eq_dec b 0) as [-> | Hb0]; [apply Z.testbit_0_l |]. apply Z.bits_above_log2; [lia |].
  eapply Z.lt_le_trans; [apply (Z.log2_lt_pow2 b 8); lia | lia].
Qed.

Lemma place_bytes_low l s acc n : 0 <= n < s -> Forall (fun b => 0 <= b < 256) l -> s + 8 * Z.of_nat (length l) <= 64 ->
  Z.testbit (place_bytes s l acc) n = Z.testbit acc n.
Proof.
  revert s acc. induction l as [| b l IH]; intros s acc Hn Hl Hlen; [done |]. cbn [place_bytes]. cbn [length] in Hlen.
  apply list.Forall_cons in Hl as [Hb Hl]. rewrite IH by (done || lia). rewrite Z.lor_spec, place_testbit by lia.
  destruct (Z.leb_spec s n); [lia |]. by rewrite orb_false_r.
Qed.

(** A frame and the bytes it is made of. *)
Lemma packet_byte kind l k b : Forall (fun b => 0 <= b < 256) l -> (length l <= 7)%nat -> l !! k = Some b ->
  byte_of (Z.of_nat k) (packet kind l) = b.
Proof.
  intros Hl Hlen Hk. assert (Hkl := lookup_lt_Some _ _ _ Hk).
  assert (Hb : 0 <= b < 256) by (rewrite list.Forall_lookup in Hl; by apply (Hl k)).
  apply Z.bits_inj'. intros n Hn. destruct (Z.lt_ge_cases n 8) as [Hn8 | Hn8].
  2: { assert (E : forall x, 0 <= x < 256 -> Z.testbit x n = false).
       { intros x Hx. destruct (Z.eq_dec x 0) as [-> |]; [apply Z.testbit_0_l |]. apply Z.bits_above_log2; [lia |].
         eapply Z.lt_le_trans; [apply (Z.log2_lt_pow2 x 8); lia | lia]. }
       rewrite !E; [done | done | apply byte_of_range]. }
  rewrite byte_of_testbit by lia. unfold packet.
  assert (Hgen : forall l s acc k, Forall (fun b => 0 <= b < 256) l -> 0 <= s -> s + 8 * Z.of_nat (length l) <= 56 -> l !! k = Some b ->
    (forall j, 0 <= j < 56 -> s <= j -> Z.testbit acc j = false) ->
    Z.testbit (place_bytes s l acc) (s + (8 * Z.of_nat k + n)) = Z.testbit b n).
  { clear l Hl Hlen k Hk Hkl. induction l as [| c l IH]; intros s acc k Hl Hs Hlen Hk Hacc; [done |]. cbn [place_bytes]. cbn [length] in Hlen.
    apply list.Forall_cons in Hl as [Hc Hl]. destruct k as [| k].
    - injection Hk as ->. rewrite place_bytes_low by (done || lia). rewrite Z.lor_spec, Hacc, place_testbit by lia. cbn [orb].
      destruct (Z.leb_spec s (s + (8 * Z.of_nat 0 + n))); [| lia]. destruct (Z.ltb_spec (s + (8 * Z.of_nat 0 + n)) (s + 8)); [| lia].
      cbn [andb]. f_equal. lia.
    - replace (s + (8 * Z.of_nat (S k) + n)) with (s + 8 + (8 * Z.of_nat k + n)) by lia.
      apply IH; [done | lia | lia | done |]. intros j Hj1 Hj2. rewrite Z.lor_spec, Hacc, place_testbit by lia.
      destruct (Z.leb_spec s j); [| done]. destruct (Z.ltb_spec j (s + 8)); [lia | done]. }
  rewrite <- (Hgen l 0 (Z.shiftl kind 56) k); [done | done | lia | lia | done |].
  intros j Hj _. apply Z.shiftl_spec_low. lia.
Qed.
