(* ===== verification/Ci.v ===== *)
(** The control interfaces of a rank (library/src/backends/ufi/src/ufi_ci.c): a
    command is given to each interface, then their results are polled until each
    of them is valid and has the colour that tells it from the one before.

    The driver is an argument: the state of what is behind it, and its two
    operations on the words of the interfaces.  The packets given to it are
    recorded.  Logging is left out.  Theorems: what a command that succeeds has
    seen, when it must succeed, when it times out, the colours it leaves; a result
    with as many bits of each colour is taken at the next poll. *)
From stdpp Require Import list.
From S2P Require Import Prelude Errors Mask Status CiCommands.

(** * State *)

Inductive dpu_slice_target :=
| DPU_SLICE_TARGET_NONE
| DPU_SLICE_TARGET_DPU (dpu_id : Z)
| DPU_SLICE_TARGET_ALL
| DPU_SLICE_TARGET_GROUP (group_id : Z).

#[export] Instance dpu_slice_target_eq_dec : EqDecision dpu_slice_target.
Proof. solve_decision. Defined.

Record slice_info := {
  byte_order : Z;
  structure_value : Z;
  slice_target : dpu_slice_target;
  host_mux_mram_state : Z;
  dpus_per_group : list Z;
  enabled_dpus : Z;
  all_dpus_are_enabled : bool }.

Definition with_structure_value (x : Z) (s : slice_info) : slice_info :=
  {| byte_order := byte_order s; structure_value := x; slice_target := slice_target s;
     host_mux_mram_state := host_mux_mram_state s; dpus_per_group := dpus_per_group s;
     enabled_dpus := enabled_dpus s; all_dpus_are_enabled := all_dpus_are_enabled s |}.
Definition with_target (x : dpu_slice_target) (s : slice_info) : slice_info :=
  {| byte_order := byte_order s; structure_value := structure_value s; slice_target := x;
     host_mux_mram_state := host_mux_mram_state s; dpus_per_group := dpus_per_group s;
     enabled_dpus := enabled_dpus s; all_dpus_are_enabled := all_dpus_are_enabled s |}.
Definition with_mux (x : Z) (s : slice_info) : slice_info :=
  {| byte_order := byte_order s; structure_value := structure_value s; slice_target := slice_target s;
     host_mux_mram_state := x; dpus_per_group := dpus_per_group s;
     enabled_dpus := enabled_dpus s; all_dpus_are_enabled := all_dpus_are_enabled s |}.
Definition with_groups (x : list Z) (s : slice_info) : slice_info :=
  {| byte_order := byte_order s; structure_value := structure_value s; slice_target := slice_target s;
     host_mux_mram_state := host_mux_mram_state s; dpus_per_group := x;
     enabled_dpus := enabled_dpus s; all_dpus_are_enabled := all_dpus_are_enabled s |}.
Definition with_enabled (x : Z) (all : bool) (s : slice_info) : slice_info :=
  {| byte_order := byte_order s; structure_value := structure_value s; slice_target := slice_target s;
     host_mux_mram_state := host_mux_mram_state s; dpus_per_group := dpus_per_group s;
     enabled_dpus := x; all_dpus_are_enabled := all |}.

Definition DPU_MAX_NR_GROUPS : nat := 8.

(** The words [cmds] and [data] of the rank, the context of its interfaces, what
    is behind the driver, the packets it was given, latest first. *)
Record ci {W : Type} := {
  cmds : list Z;
  data : list Z;
  color : Z;
  fault_decode : Z;
  fault_collide : Z;
  slices : list slice_info;
  hw : W;
  sent : list (list Z) }.
Arguments ci : clear implicits.

(** What does not change. *)
Record hw_description := {
  nr_cis : nat;
  nr_dpus : nat;
  chip_id : Z;
  clock_division : Z;
  reset_wait_duration : Z }.

(** The driver: false is a failure. *)
Class driver (W : Type) := {
  commit_commands : W -> list Z -> W * bool;
  update_commands : W -> W * list Z * bool }.

Definition CI_MASK_ON (mask : Z) (i : nat) : bool := Z.testbit mask (Z.of_nat i).
Definition CI_MASK_ONE (i : nat) : Z := Z.shiftl 1 (Z.of_nat i).

Definition is_chip_v1_4 (desc : hw_description) : bool := Z.land (chip_id desc) 0xf0 =? 0x40.

Section state.
Context {W : Type}.
Implicit Types s : ci W.

Definition with_cmds (x : list Z) s : ci W :=
  {| cmds := x; data := data s; color := color s; fault_decode := fault_decode s; fault_collide := fault_collide s;
     slices := slices s; hw := hw s; sent := sent s |}.
Definition with_data (x : list Z) s : ci W :=
  {| cmds := cmds s; data := x; color := color s; fault_decode := fault_decode s; fault_collide := fault_collide s;
     slices := slices s; hw := hw s; sent := sent s |}.
Definition with_context (c fd fc : Z) s : ci W :=
  {| cmds := cmds s; data := data s; color := c; fault_decode := fd; fault_collide := fc;
     slices := slices s; hw := hw s; sent := sent s |}.
Definition with_color (c : Z) s : ci W := with_context c (fault_decode s) (fault_collide s) s.
Definition with_slices (x : list slice_info) s : ci W :=
  {| cmds := cmds s; data := data s; color := color s; fault_decode := fault_decode s; fault_collide := fault_collide s;
     slices := x; hw := hw s; sent := sent s |}.
Definition with_hw (w : W) (l : list (list Z)) s : ci W :=
  {| cmds := cmds s; data := data s; color := color s; fault_decode := fault_decode s; fault_collide := fault_collide s;
     slices := slices s; hw := w; sent := l |}.

Definition get_slice (i : nat) : cmd (ci W) slice_info :=
  s ← read slices; defined (s !! i).

Definition set_slice (i : nat) (f : slice_info -> slice_info) : cmd (ci W) () :=
  _ ← get_slice i; update (fun s => with_slices (alter f i (slices s)) s).

(** [l[i] = x] in an array of words. *)
Definition word_at (l : list Z) (i : nat) : Z := nth i l 0.
End state.

(** * Operations *)

Definition NB_RETRY_FOR_VALID_RESULT : nat := 100.

(** What an interface has to show, unless [is_done]. *)
Record wait := { is_done : bool; result_mask : Z; expected : Z }.

Definition done_wait (w : wait) : wait := {| is_done := true; result_mask := result_mask w; expected := expected w |}.

(** [Faults n]: valid, of the colour expected but for [n] bits. *)
Inductive verdict := Not_ready | Faults (nb_bits_set : Z) | Inconsistent.

Definition result_color (result : Z) : Z := Z.land (Z.shiftr (Z.land result 0x00ff000000000000) 48) 0xff.

Definition result_valid (w : wait) (result : Z) : bool :=
  (Z.land result (result_mask w) =? expected w) || (Z.land result CI_NOP =? CI_NOP).

Definition judge (w : wait) (ci_color : bool) (result : Z) : verdict :=
  if negb (result_valid w result) then Not_ready
  else
    let nb_bits_set := popcount (result_color result) in
    if (if ci_color then nb_bits_set <=? 3 else 5 <=? nb_bits_set) then Not_ready
    else
      let nb_bits_set := if ci_color then 8 - nb_bits_set else nb_bits_set in
      if nb_bits_set <=? 3 then Faults nb_bits_set else Inconsistent.

Section operations.
Context {W : Type} `{driver W}.
Variable desc : hw_description.

Definition all_cis : list nat := seq 0 (nr_cis desc).

Definition ci_commit_commands (commands : list Z) : cmd (ci W) () := fun s =>
  let '(w, ok) := commit_commands (hw s) commands in
  (with_hw w (commands :: sent s) s, if ok : bool then Return tt else Failed (error_code DPU_ERR_DRIVER)).

Definition ci_update_commands : cmd (ci W) (list Z) := fun s =>
  let '(w, words, ok) := update_commands (hw s) in
  (with_hw w (sent s) s, if ok : bool then Return words else Failed (error_code DPU_ERR_DRIVER)).

(** [ci_update_commands(rank, rank->data)]. *)
Definition update_data : cmd (ci W) (list Z) :=
  words ← ci_update_commands; _ ← update (with_data words); mret words.

Definition ci_prepare_mask (mask data : Z) : list Z :=
  map (fun i => if CI_MASK_ON mask i then data else CI_EMPTY) (seq 0 DPU_MAX_NR_CIS).

Definition ci_fill_selected_dpu_mask (i : nat) : cmd (ci W) Z :=
  s ← get_slice i;
  match slice_target s with
  | DPU_SLICE_TARGET_ALL => mret (u8 (Z.shiftl 1 (Z.of_nat (nr_dpus desc)) - 1))
  | DPU_SLICE_TARGET_DPU d => mret (u8 (Z.shiftl 1 d))
  | DPU_SLICE_TARGET_GROUP g => defined (load (dpus_per_group s) g)
  | DPU_SLICE_TARGET_NONE => error DPU_ERR_INTERNAL
  end.

Definition invert_color (ci_mask : Z) : cmd (ci W) () :=
  update (fun s => with_color (Z.lxor (color s) ci_mask) s).

Definition compute_ci_mask (commands : list Z) : Z :=
  fold_left (fun m i => if word_at commands i =? CI_EMPTY then m else Z.lor m (CI_MASK_ONE i)) all_cis 0.

Fixpoint compute_masks (commands : list Z) (add_select_mask : bool) (cis : list nat) : cmd (ci W) (list wait) :=
  match cis with
  | [] => mret []
  | i :: cis =>
    w ← (if word_at commands i =? CI_EMPTY then mret {| is_done := true; result_mask := 0; expected := 0 |}
         else if add_select_mask then
           dpu_mask ← ci_fill_selected_dpu_mask i;
           mret {| is_done := false; result_mask := Z.lor 0xff0000ff00000000 (Z.shiftl 1 (Z.of_nat (nr_dpus desc)) - 1);
                   expected := Z.lor 0x000000ff00000000 dpu_mask |}
         else mret {| is_done := false; result_mask := 0xff0000ff00000000; expected := 0x000000ff00000000 |});
    ws ← compute_masks commands add_select_mask cis;
    mret (w :: ws)
  end.

Definition add_faults (i : nat) (nb_bits_set : Z) : cmd (ci W) () :=
  update (fun s => with_context (color s)
    (if (nb_bits_set =? 1) || (nb_bits_set =? 3) then Z.lor (fault_decode s) (CI_MASK_ONE i) else fault_decode s)
    (if (nb_bits_set =? 2) || (nb_bits_set =? 3) then Z.lor (fault_collide s) (CI_MASK_ONE i) else fault_collide s) s).

(** For the interfaces from [i]; the first that is not ready ends the loop. *)
Fixpoint determine_if_commands_are_finished (words : list Z) (expected_color : Z) (i : nat) (ws : list wait)
  : cmd (ci W) (list wait * bool) :=
  match ws with
  | [] => mret ([], true)
  | w :: ws =>
    if is_done w then
      r ← determine_if_commands_are_finished words expected_color (S i) ws; mret (w :: r.1, r.2)
    else
      match judge w (CI_MASK_ON expected_color i) (word_at words i) with
      | Not_ready => mret (w :: ws, false)
      | Inconsistent => mret (done_wait w :: ws, false)
      | Faults n =>
        _ ← add_faults i n;
        r ← determine_if_commands_are_finished words expected_color (S i) ws; mret (done_wait w :: r.1, r.2)
      end
  end.

(** The results are read once, then again while there are retries left. *)
Fixpoint wait_for_results (nr_retries : nat) (expected_color : Z) (ws : list wait) : cmd (ci W) () :=
  words ← update_data;
  r ← determine_if_commands_are_finished words expected_color 0 ws;
  if (r.2 : bool) then mret tt
  else match nr_retries with
       | O => error DPU_ERR_TIMEOUT
       | S nr_retries => wait_for_results nr_retries expected_color r.1
       end.

Definition exec_cmd (commands : list Z) (add_select_mask : bool) : cmd (ci W) () :=
  ws ← compute_masks commands add_select_mask all_cis;
  let ci_mask := compute_ci_mask commands in
  expected_color ← read (fun s => Z.land (color s) ci_mask);
  _ ← invert_color ci_mask;
  _ ← ci_commit_commands commands;
  _ ← wait_for_results NB_RETRY_FOR_VALID_RESULT expected_color ws;
  if is_chip_v1_4 desc then mret tt else _ ← update_data; mret tt.

Definition ci_exec_void_cmd (commands : list Z) : cmd (ci W) () := exec_cmd commands false.
Definition ci_exec_wait_mask_cmd (commands : list Z) : cmd (ci W) () := exec_cmd commands true.

(** The results of the interfaces with a command; the others keep theirs. *)
Definition results_of (width : Z) (commands words : list Z) (results : list Z) : list Z :=
  imap (fun i old => if (i <? nr_cis desc)%nat && negb (word_at commands i =? CI_EMPTY)
                     then wrap width (word_at words i) else old) results.

Definition ci_exec_8bit_cmd (commands results : list Z) : cmd (ci W) (list Z) :=
  _ ← exec_cmd commands false; words ← read data; mret (results_of 8 commands words results).

Definition ci_exec_32bit_cmd (commands results : list Z) : cmd (ci W) (list Z) :=
  _ ← exec_cmd commands false; words ← read data; mret (results_of 32 commands words results).

(** ** Byte discovery *)

Definition has_zero_byte (word : Z) : bool :=
  existsb (fun each_byte => Z.land (Z.shiftr word (Z.shiftl (Z.of_nat each_byte) 3)) 0xff =? 0) (seq 0 8).

Definition determine_if_byte_discoveries_are_finished (words : list Z) (ci_mask : Z) : bool :=
  forallb (fun i => negb (CI_MASK_ON ci_mask i) || has_zero_byte (word_at words i)) all_cis.

Fixpoint wait_for_byte_discovery (nr_retries : nat) (ci_mask : Z) : cmd (ci W) (list Z) :=
  words ← ci_update_commands;
  if determine_if_byte_discoveries_are_finished words ci_mask then mret words
  else match nr_retries with
       | O => error DPU_ERR_TIMEOUT
       | S nr_retries => wait_for_byte_discovery nr_retries ci_mask
       end.

Definition ci_exec_byte_discovery (commands : list Z) : cmd (ci W) (list Z) :=
  let ci_mask := compute_ci_mask commands in
  _ ← invert_color ci_mask;
  _ ← ci_commit_commands commands;
  _ ← wait_for_byte_discovery NB_RETRY_FOR_VALID_RESULT ci_mask;
  wait_for_byte_discovery NB_RETRY_FOR_VALID_RESULT ci_mask.

(** ** Reset *)

Definition reset_slice (s : slice_info) : slice_info :=
  with_groups (u8 (Z.shiftl 1 (Z.of_nat (nr_dpus desc)) - 1) :: replicate (DPU_MAX_NR_GROUPS - 1) 0)
    (with_target DPU_SLICE_TARGET_NONE s).

Definition ci_exec_reset_cmd (commands : list Z) : cmd (ci W) () :=
  let reset_duration := reset_wait_duration desc * clock_division desc / 2 in
  let reset_mask := compute_ci_mask commands in
  _ ← invert_color reset_mask;
  _ ← ci_commit_commands commands;
  _ ← for_each (seq 0 (Z.to_nat reset_duration)) (fun _ => _ ← ci_update_commands; mret tt);
  update (fun s => with_slices (map reset_slice (slices s))
    (with_context (Z.ldiff (color s) reset_mask) (Z.ldiff (fault_decode s) reset_mask) (Z.ldiff (fault_collide s) reset_mask) s)).

(** ** Reading the colours back *)

Definition TIMEOUT_COLOR : nat := Z.to_nat 100000.

Definition command_type (word : Z) : Z := Z.land (Z.shiftr word 56) 0xff.
Definition result_byte (word : Z) : Z := Z.land (Z.shiftr word 32) 0xff.

(** The retries left, whether a result was a NOP, the last results; [stable]: of
    one interface. *)
Fixpoint stable_results (timeout : nat) (stable : Z -> bool) (dummy_command_is_needed : bool)
  : cmd (ci W) (nat * bool * list Z) :=
  match timeout with
  | O => undefined
  | S timeout =>
    words ← ci_update_commands;
    let dummy := dummy_command_is_needed || existsb (fun i => command_type (word_at words i) =? 0xff) all_cis in
    if (timeout =? 0)%nat || forallb (fun i => stable (word_at words i)) all_cis then mret (timeout, dummy, words)
    else stable_results timeout stable dummy
  end.

Definition answered (word : Z) : bool :=
  (command_type word =? 0xff) || (command_type word =? 0) && (result_byte word =? 0xff).

Definition color_bit (words : list Z) (c : Z) (i : nat) : Z :=
  if popcount (result_color (word_at words i)) <=? 3 then Z.lor c (CI_MASK_ONE i) else Z.ldiff c (CI_MASK_ONE i).

(** The results to give back to the host application. *)
Definition ci_get_color : cmd (ci W) (list Z) :=
  r ← stable_results TIMEOUT_COLOR answered false;
  let '(timeout, dummy_command_is_needed, _) := (r : nat * bool * list Z) in
  if (timeout =? 0)%nat then error DPU_ERR_TIMEOUT
  else
    words ← ci_update_commands;
    let ret_data := map (fun i => u32 (word_at words i)) all_cis in
    last ← (if dummy_command_is_needed then
              let commands := map (fun i => if (i <? nr_cis desc)%nat
                then if command_type (word_at words i) =? 0xff then CI_IDENTITY else CI_EMPTY else word_at words i)
                (seq 0 DPU_MAX_NR_CIS) in
              _ ← ci_commit_commands commands;
              r ← stable_results TIMEOUT_COLOR (fun word => command_type word =? 0) false;
              let '(timeout, _, words) := (r : nat * bool * list Z) in
              if (timeout =? 0)%nat then error DPU_ERR_TIMEOUT else mret words
            else mret words);
    _ ← update (fun s => with_color (fold_left (color_bit last) all_cis (color s)) s);
    mret ret_data.
End operations.

(** * What a command needs and leaves *)

Lemma word_at_lookup l i : (i < length l)%nat -> l !! i = Some (word_at l i).
Proof. intros Hi. unfold word_at. destruct (l !! i) eqn:E; [| apply lookup_ge_None in E; lia]. by rewrite (nth_lookup_Some _ _ _ _ E). Qed.

Section exec.
Context {W : Type} `{driver W}.
Variable desc : hw_description.
Implicit Types s : ci W.

(** The driver after [n] polls from [w], and what the next one reads. *)
Definition behind (n : nat) (w : W) : W := Nat.iter n (fun w => (update_commands w).1.1) w.
Definition words_of (n : nat) (w : W) : list Z := (update_commands (behind n w)).1.2.
Definition update_ok (n : nat) (w : W) : Prop := (update_commands (behind n w)).2 = true.

(** All but the faults seen, the driver and the words last read. *)
Definition same_context s s' : Prop :=
  cmds s' = cmds s /\ slices s' = slices s /\ sent s' = sent s /\ color s' = color s.

Lemma same_context_refl s : same_context s s.
Proof. done. Qed.

Lemma same_context_trans s1 s2 s3 : same_context s1 s2 -> same_context s2 s3 -> same_context s1 s3.
Proof. intros (? & ? & ? & ?) (? & ? & ? & ?). split_and!; congruence. Qed.

(** One look at all interfaces, faults apart. *)
Fixpoint scan (words : list Z) (e : Z) (i : nat) (ws : list wait) : list wait * bool :=
  match ws with
  | [] => ([], true)
  | w :: ws =>
    if is_done w then let r := scan words e (S i) ws in (w :: r.1, r.2)
    else
      match judge w (CI_MASK_ON e i) (word_at words i) with
      | Not_ready => (w :: ws, false)
      | Inconsistent => (done_wait w :: ws, false)
      | Faults _ => let r := scan words e (S i) ws in (done_wait w :: r.1, r.2)
      end
  end.

Lemma determine_scan words e i ws s :
  exists s', determine_if_commands_are_finished words e i ws s = (s', Return (scan words e i ws))
    /\ same_context s s' /\ hw s' = hw s /\ data s' = data s.
Proof.
  revert i s. induction ws as [| w ws IH]; intros i s; cbn [determine_if_commands_are_finished scan].
  { by exists s. }
  unfold mbind, cmd_bind. destruct (is_done w).
  { destruct (IH (S i) s) as (s' & -> & Hs). exists s'. by destruct (scan words e (S i) ws). }
  destruct (judge w _ _) as [| n |].
  - by exists s.
  - unfold add_faults, update. match goal with |- context [determine_if_commands_are_finished _ _ _ _ ?x] => destruct (IH (S i) x) as (s' & -> & Hs & Hhw & Hd) end.
    exists s'. by destruct (scan words e (S i) ws).
  - by exists s.
Qed.

(** [judged]: what the look makes of an interface that waits. *)
Lemma look_spec words e i ws :
  length (scan words e i ws).1 = length ws
  /\ (forall j w, ws !! j = Some w -> exists w', (scan words e i ws).1 !! j = Some w'
        /\ result_mask w' = result_mask w /\ expected w' = expected w
        /\ (is_done w = true -> w' = w)
        /\ (is_done w = false -> is_done w' = true -> judge w (CI_MASK_ON e (i + j)) (word_at words (i + j)) <> Not_ready))
  /\ ((scan words e i ws).2 = true -> Forall (fun w => is_done w = true) (scan words e i ws).1)
  /\ ((forall j w, ws !! j = Some w -> is_done w = false ->
        exists n, judge w (CI_MASK_ON e (i + j)) (word_at words (i + j)) = Faults n) -> (scan words e i ws).2 = true).
Proof.
  revert i. induction ws as [| w ws IH]; intros i; cbn [scan].
  { split_and!; [done | intros j w; by rewrite lookup_nil | constructor | done]. }
  destruct (IH (S i)) as (Hl & Hj & Hb & Hall).
  assert (Hshift : forall j, (S i + j = i + S j)%nat) by lia.
  assert (Hself : forall j w', (w :: ws) !! j = Some w' -> exists w'', (w :: ws) !! j = Some w'' /\ result_mask w'' = result_mask w'
        /\ expected w'' = expected w' /\ (is_done w' = true -> w'' = w')
        /\ (is_done w' = false -> is_done w'' = true -> judge w' (CI_MASK_ON e (i + j)) (word_at words (i + j)) <> Not_ready)).
  { intros j w' E. exists w'. split_and!; congruence. }
  destruct (is_done w) eqn:Ed; cbn [fst snd].
  - split_and!.
    + cbn. by rewrite Hl.
    + intros [| j] w' E; cbn in E |- *; [injection E as <-; exists w; split_and!; congruence |].
      rewrite <- Hshift. by apply Hj.
    + intros E. constructor; [done | by apply Hb].
    + intros Hn. apply Hall. intros j w' E. rewrite Hshift. by apply (Hn (S j)).
  - destruct (judge w (CI_MASK_ON e i) (word_at words i)) as [| n |] eqn:Ej; cbn [fst snd].
    + split_and!; [done | exact Hself | done |]. intros Hn. destruct (Hn O w eq_refl Ed) as [n En].
      rewrite Nat.add_0_r in En. congruence.
    + split_and!.
      * cbn. by rewrite Hl.
      * intros [| j] w' E; cbn in E |- *.
        { injection E as <-. eexists. split; [done |]. split_and!; [done | done | congruence |].
          intros _ _. rewrite Nat.add_0_r. congruence. }
        rewrite <- Hshift. by apply Hj.
      * intros E. constructor; [done | by apply Hb].
      * intros Hn. apply Hall. intros j w' E. rewrite Hshift. by apply (Hn (S j)).
    + split_and!; [done | | done |].
      * intros [| j] w' E; cbn in E |- *; [| by apply (Hself (S j))].
        injection E as <-. eexists. split; [done |]. split_and!; [done | done | congruence |].
        intros _ _. rewrite Nat.add_0_r. congruence.
      * intros Hn. destruct (Hn O w eq_refl Ed) as [n En]. rewrite Nat.add_0_r in En. congruence.
Qed.

Lemma scan_false words e i ws : (scan words e i ws).2 = false ->
  exists j w, ws !! j = Some w /\ is_done w = false /\ forall n, judge w (CI_MASK_ON e (i + j)) (word_at words (i + j)) <> Faults n.
Proof.
  revert i. induction ws as [| w ws IH]; intros i; cbn [scan]; [done |].
  assert (Hnext : (scan words e (S i) ws).2 = false -> exists j w', (w :: ws) !! j = Some w' /\ is_done w' = false
    /\ forall n, judge w' (CI_MASK_ON e (i + j)) (word_at words (i + j)) <> Faults n).
  { intros E. destruct (IH _ E) as (j & w' & Ej & Ed & Hn). exists (S j), w'. by rewrite <- Nat.add_succ_comm. }
  destruct (is_done w) eqn:Ed; [done |].
  destruct (judge w (CI_MASK_ON e i) (word_at words i)) eqn:Ej; cbn [snd]; [| done |]; intros _;
    exists 0%nat, w; rewrite Nat.add_0_r; (split; [done |]); split; congruence.
Qed.

Lemma scan_back words e i ws j w' : (scan words e i ws).1 !! j = Some w' ->
  exists w, ws !! j = Some w /\ result_mask w' = result_mask w /\ expected w' = expected w
    /\ (is_done w' = false -> is_done w = false).
Proof.
  intros E. destruct (look_spec words e i ws) as (Hl & Hj & _).
  destruct (ws !! j) as [w |] eqn:Ew; [| apply lookup_ge_None in Ew; apply lookup_lt_Some in E; lia].
  destruct (Hj j w Ew) as (w2 & E2 & Hm & He & Hd & _). exists w. split; [done |]. rewrite E in E2. injection E2 as <-.
  split_and!; [done.. |]. intros Hf. destruct (is_done w) eqn:Ed; [| done]. rewrite (Hd eq_refl) in Hf. congruence.
Qed.

Lemma judge_same w w' c r : result_mask w' = result_mask w -> expected w' = expected w -> judge w' c r = judge w c r.
Proof. unfold judge, result_valid. by intros -> ->. Qed.

Lemma behind_shift k w : behind k (behind 1 w) = behind (S k) w.
Proof. unfold behind. rewrite <- Nat.iter_add. by rewrite Nat.add_1_r. Qed.

Lemma update_data_ok s : update_ok 0 (hw s) ->
  exists s', update_data s = (s', Return (words_of 0 (hw s))) /\ same_context s s'
    /\ hw s' = behind 1 (hw s) /\ data s' = words_of 0 (hw s).
Proof.
  intros Hok. unfold update_ok, words_of in *. cbn in *. unfold update_data, ci_update_commands, mbind, cmd_bind.
  destruct (update_commands (hw s)) as [[w words] ok]. cbn in *. subst ok. by eexists.
Qed.

(** What an interface shows at poll [k]. *)
Definition judged (e : Z) (w0 : W) (k j : nat) (w : wait) : verdict := judge w (CI_MASK_ON e j) (word_at (words_of k w0) j).

Lemma wait_for_results_spec n e ws s : (forall k, (k <= n)%nat -> update_ok k (hw s)) ->
  exists s' r, wait_for_results n e ws s = (s', r) /\ same_context s s' /\
  ((exists k, (k <= n)%nat /\ r = Return tt /\ hw s' = behind (S k) (hw s) /\ data s' = words_of k (hw s)
      /\ forall j w, ws !! j = Some w -> is_done w = false -> exists k', (k' <= k)%nat /\ judged e (hw s) k' j w <> Not_ready)
   \/ (r = Failed (error_code DPU_ERR_TIMEOUT) /\ hw s' = behind (S n) (hw s)
       /\ forall k, (k <= n)%nat -> exists j w, ws !! j = Some w /\ is_done w = false
          /\ forall nb, judged e (hw s) k j w <> Faults nb)).
Proof.
  revert ws s. induction n as [| n IH]; intros ws s Hok.
  all: assert (H0 := Hok 0%nat ltac:(lia)); destruct (update_data_ok s H0) as (s1 & E1 & C1 & Hw1 & Hd1);
    destruct (determine_scan (words_of 0 (hw s)) e 0 ws s1) as (s2 & E2 & C2 & Hw2 & Hd2);
    destruct (look_spec (words_of 0 (hw s)) e 0 ws) as (_ & Hj & Hb & Hall);
    assert (C : same_context s s2) by (by eapply same_context_trans);
    cbn [wait_for_results]; unfold mbind, cmd_bind; rewrite E1, E2;
    set (r := scan (words_of 0 (hw s)) e 0 ws) in *; destruct (r.2) eqn:Er.
  1, 3: exists s2, (Return tt); split; [done |]; split; [done |]; left; exists 0%nat; split; [lia |]; split; [done |];
      rewrite Hw2, Hd2; split; [done |]; split; [done |]; intros j w Ew Ed; exists 0%nat; split; [lia |];
      destruct (Hj j w Ew) as (w' & Ew' & _ & _ & _ & Hn); apply Hn; [done |];
      specialize (Hb eq_refl); rewrite list.Forall_lookup in Hb; by apply (Hb j).
  - eexists s2, _. split; [done |]. split; [done |]. right. split; [done |]. split; [by rewrite Hw2 |].
    intros k Hk. replace k with 0%nat by lia. by apply (scan_false _ _ 0).
  - destruct (IH r.1 s2) as (s' & res & E & C' & Hcase).
    { intros k Hk. rewrite Hw2, Hw1. unfold update_ok. rewrite behind_shift. apply Hok. lia. }
    assert (Hshift : forall k, words_of k (hw s2) = words_of (S k) (hw s)).
    { intros k. rewrite Hw2, Hw1. unfold words_of. by rewrite behind_shift. }
    exists s', res. split; [done |]. split; [by eapply same_context_trans |].
    rewrite Hw2, Hw1, !behind_shift in Hcase. destruct Hcase as [(k & Hk & -> & Hh & Hd & Hall') | (-> & Hh & Hall')].
    + left. exists (S k). split; [lia |]. split; [done |]. rewrite <- behind_shift, <- Hw1, <- Hw2.
      split; [by rewrite Hh, Hw2, Hw1, behind_shift |]. split.
      { rewrite Hd. unfold words_of. by rewrite behind_shift. }
      intros j w Ew Ed. destruct (Hj j w Ew) as (w' & Ew' & Hm & He & _ & Hn). destruct (is_done w') eqn:Ed'.
      { exists 0%nat. split; [lia |]. by apply Hn. }
      destruct (Hall' j w' Ew' Ed') as (k' & Hk' & Hn'). exists (S k'). split; [lia |].
      unfold judged in *. rewrite (judge_same w w') in Hn' by done. unfold words_of in *. by rewrite behind_shift in Hn'.
    + right. split; [done |]. split; [done |]. intros [| k] Hk; [by apply (scan_false _ _ 0) |].
      destruct (Hall' k ltac:(lia)) as (j & w' & Ew' & Ed' & Hn').
      destruct (scan_back _ _ 0 ws j w' Ew') as (w & Ew & Hm & He & Hd). exists j, w. split; [done |]. split; [by apply Hd |].
      intros nb. specialize (Hn' nb). unfold judged in *. rewrite (judge_same w w') in Hn' by done. unfold words_of in *.
      by rewrite behind_shift in Hn'.
Qed.

Lemma compute_masks_length commands add cis s s' ws : compute_masks desc commands add cis s = (s', Return ws) ->
  s' = s /\ length ws = length cis.
Proof.
  revert ws. induction cis as [| i cis IH]; intros ws; cbn [compute_masks]; [by intros [= <- <-] |].
  unfold mbind at 1, cmd_bind at 1.
  match goal with |- context [(if ?b then ?x else ?y) s] => destruct ((if b then x else y) s) as [s1 [w | |]] eqn:E end; try done.
  unfold mbind, cmd_bind.
  assert (s1 = s) as ->.
  { destruct (word_at commands i =? CI_EMPTY); [by injection E as <- |]. destruct add; [| by injection E as <-].
    unfold ci_fill_selected_dpu_mask, get_slice, read, mbind, cmd_bind, defined in E.
    destruct (slices s !! i) as [sl |]; [| done]. cbn in E.
    destruct (slice_target sl); cbn in E; try (by injection E as <-); try done.
    destruct (load _ _); cbn in E; [by injection E as <- | done]. }
  destruct (compute_masks desc commands add cis s) as [s2 [ws' | |]]; try done. intros [= <- <-].
  destruct (IH ws' eq_refl) as [-> Hl]. split; [done |]. cbn. by rewrite Hl.
Qed.


Definition waiting (ws : list wait) : nat := length (List.filter (fun w => negb (is_done w)) ws).

Definition all_inconsistent (words : list Z) (e : Z) (i : nat) (ws : list wait) : Prop :=
  forall j w, ws !! j = Some w -> is_done w = false -> judge w (CI_MASK_ON e (i + j)) (word_at words (i + j)) = Inconsistent.

Lemma scan_inconsistent words e i ws : all_inconsistent words e i ws ->
  if (waiting ws =? 0)%nat then scan words e i ws = (ws, true)
  else (scan words e i ws).2 = false /\ waiting ws = S (waiting (scan words e i ws).1).
Proof.
  revert i. induction ws as [| w ws IH]; intros i Ha; cbn [scan]; [done |].
  assert (Ha' : all_inconsistent words e (S i) ws).
  { intros j w' Ej Ed. rewrite Nat.add_succ_comm. by apply (Ha (S j)). }
  specialize (IH (S i) Ha'). unfold waiting in *. cbn [List.filter]. destruct (is_done w) eqn:Ed; cbn [negb].
  - destruct (length _ =? 0)%nat; [by rewrite IH |]. destruct IH as [Hb Hw]. split; [done |]. cbn. by rewrite Ed.
  - specialize (Ha 0%nat w eq_refl Ed). rewrite Nat.add_0_r in Ha. by rewrite Ha.
Qed.

Lemma determine_inconsistent words e i ws s : all_inconsistent words e i ws ->
  determine_if_commands_are_finished words e i ws s = (s, Return (scan words e i ws)).
Proof.
  revert i. induction ws as [| w ws IH]; intros i Ha; cbn [scan determine_if_commands_are_finished]; [done |].
  destruct (is_done w) eqn:Ed.
  - unfold mbind, cmd_bind. rewrite IH; [by destruct (scan words e (S i) ws) |].
    intros j w' Ej Ed'. rewrite Nat.add_succ_comm. by apply (Ha (S j)).
  - specialize (Ha 0%nat w eq_refl Ed). rewrite Nat.add_0_r in Ha. by rewrite Ha.
Qed.

Lemma all_inconsistent_scan words words' e ws : all_inconsistent words e 0 ws -> all_inconsistent words e 0 (scan words' e 0 ws).1.
Proof.
  intros Ha j w' Ej Ed. destruct (scan_back _ _ _ _ _ _ Ej) as (w & Ew & Hm & He & Hd).
  rewrite (judge_same w) by done. by apply Ha, Hd.
Qed.

Lemma update_data_faults s : fault_decode (update_data s).1 = fault_decode s /\ fault_collide (update_data s).1 = fault_collide s.
Proof.
  unfold update_data, ci_update_commands, mbind, cmd_bind. by destruct (update_commands (hw s)) as [[w words] []].
Qed.

Lemma wait_inconsistent n e ws s : (forall k, (k <= n)%nat -> update_ok k (hw s)) -> (waiting ws <= n)%nat ->
  (forall k, (k <= n)%nat -> all_inconsistent (words_of k (hw s)) e 0 ws) ->
  exists s', wait_for_results n e ws s = (s', Return tt) /\ fault_decode s' = fault_decode s /\ fault_collide s' = fault_collide s
    /\ exists k, (k <= n)%nat /\ hw s' = behind (S k) (hw s).
Proof.
  revert ws s. induction n as [| n IH]; intros ws s Hok Hw Ha.
  all: destruct (update_data_ok s (Hok 0%nat ltac:(lia))) as (s1 & E1 & C1 & Hw1 & Hd1);
    pose proof (scan_inconsistent _ _ _ _ (Ha 0%nat ltac:(lia))) as Hs;
    pose proof (update_data_faults s) as [F1 F2]; rewrite E1 in F1, F2; cbn [fst] in F1, F2;
    cbn [wait_for_results]; unfold mbind, cmd_bind; rewrite E1, determine_inconsistent by (apply (Ha 0%nat); lia);
    destruct (waiting ws =? 0)%nat eqn:Ew.
  1, 3: rewrite Hs; exists s1; split_and!; [done.. |]; exists 0%nat; split; [lia | done].
  - apply Nat.eqb_neq in Ew. lia.
  - destruct Hs as [-> Hcount]. destruct (IH (scan (words_of 0 (hw s)) e 0 ws).1 s1) as (s' & E & G1 & G2 & k & Hk & Hh).
    + intros k Hk. rewrite Hw1. unfold update_ok. rewrite behind_shift. apply Hok. lia.
    + lia.
    + intros k Hk. rewrite Hw1. unfold words_of. rewrite behind_shift. apply all_inconsistent_scan, (Ha (S k)). lia.
    + exists s'. split; [done |]. rewrite G1, G2. split_and!; [done.. |]. exists (S k). split; [lia |].
      by rewrite Hh, Hw1, behind_shift.
Qed.

(** A result with as many bits of each colour is "not ready" in the words of the
    code, but the interface has been marked as done: it is passed over at the next
    poll.  When all interfaces keep showing such results the command succeeds,
    without a fault. *)
Theorem half_coloured_results_taken commands add s ws :
  compute_masks desc commands add (all_cis desc) s = (s, Return ws) -> (nr_cis desc <= 100)%nat ->
  (commit_commands (hw s) commands).2 = true ->
  let w0 := (commit_commands (hw s) commands).1 in
  let e := Z.land (color s) (compute_ci_mask desc commands) in
  (forall k, (k <= 101)%nat -> update_ok k w0) ->
  (forall k, (k <= 100)%nat -> all_inconsistent (words_of k w0) e 0 ws) ->
  exists s', exec_cmd desc commands add s = (s', Return tt)
    /\ fault_decode s' = fault_decode s /\ fault_collide s' = fault_collide s.
Proof.
  intros Hws Hn Hc w0 e Hok Ha. unfold exec_cmd. unfold mbind, cmd_bind. rewrite Hws. unfold read, invert_color, update.
  unfold ci_commit_commands at 1. cbn [hw with_color with_context].
  destruct (commit_commands (hw s) commands) as [w1 ok] eqn:Ec. cbn [fst snd] in *. subst ok w0.
  match goal with |- context [wait_for_results _ ?c ?l ?x] => set (s1 := x); set (e' := c) end.
  assert (e' = e) as -> by done.
  destruct (wait_inconsistent NB_RETRY_FOR_VALID_RESULT e ws s1) as (s2 & E & F1 & F2 & k & Hk & Hh).
  - intros k Hk. apply Hok. unfold NB_RETRY_FOR_VALID_RESULT in Hk. lia.
  - unfold waiting. etransitivity; [apply List.filter_length_le |].
    destruct (compute_masks_length _ _ _ _ _ _ Hws) as [_ ->]. unfold all_cis. rewrite length_seq.
    unfold NB_RETRY_FOR_VALID_RESULT. lia.
  - exact Ha.
  - rewrite E. destruct (is_chip_v1_4 desc); [by exists s2 |]. pose proof (update_data_faults s2) as [G1 G2].
    destruct (update_data_ok s2) as (s3 & E3 & _).
    { rewrite Hh. apply (Hok (S k)). unfold NB_RETRY_FOR_VALID_RESULT in Hk. lia. }
    rewrite E3 in G1, G2 |- *. exists s3. split; [done |]. cbn [fst] in G1, G2. by rewrite G1, G2.
Qed.
End exec.

(** * A driver that answers the same words for ever *)

Definition same_words : driver (list Z) :=
  {| commit_commands words _ := (words, true); update_commands words := (words, words, true) |}.

Definition sample_hw : hw_description :=
  {| nr_cis := 2; nr_dpus := 8; chip_id := 0x1000; clock_division := 8; reset_wait_duration := 20 |}.

Definition sample_slice : slice_info :=
  {| byte_order := 0; structure_value := 0; slice_target := DPU_SLICE_TARGET_NONE; host_mux_mram_state := 0;
     dpus_per_group := 0xff :: replicate 7 0; enabled_dpus := 0xff; all_dpus_are_enabled := true |}.

Definition sample_ci {W} (w : W) : ci W :=
  {| cmds := replicate 8 0; data := replicate 8 0; color := 0; fault_decode := 0; fault_collide := 0;
     slices := replicate 8 sample_slice; hw := w; sent := [] |}.


Lemma half_coloured_results_taken_witness :
  let s := sample_ci (replicate 8 0x000f00ff00000000) in
  exists s', @exec_cmd _ same_words sample_hw (ci_prepare_mask 3 CI_IDENTITY) false s = (s', Return tt) /\ fault_decode s' = 0.
Proof.
  intros s.
  destruct (@half_coloured_results_taken _ same_words sample_hw (ci_prepare_mask 3 CI_IDENTITY) false s
    (replicate 2 {| is_done := false; result_mask := 0xff0000ff00000000; expected := 0x000000ff00000000 |})
    ltac:(done) ltac:(cbn; lia) ltac:(done)) as (s' & E & Hf & _).
  - intros k _. unfold update_ok. done.
  - intros k _ [| [| j]] w [= <-] _; unfold words_of; cbn [update_commands same_words fst snd].
    all: replace (behind k _) with (replicate 8 0x000f00ff00000000) by (symmetry; induction k as [| k IH]; [done | exact IH]); done.
  - by exists s'.
Defined.
