(* ===== verification/BitConfig.v ===== *)
(** The order of the bits between the host and a DPU
    (library/src/backends/ufi/src/ufi_bit_config.c): the wires of a module may
    permute the bits of each nibble and swap the nibbles of a byte.  What a DPU
    answers to a known word gives the permutations; words are then translated both
    ways.  Theorems: a configuration that is computed translates back what it
    translates, in both directions. *)
From stdpp Require Import list.
From S2P Require Import Prelude.

Record dpu_bit_config := { cpu2dpu : Z; dpu2cpu : Z; nibble_swap : Z; stutter : Z }.

Definition index_in_nibble (nibble : Z) : Z := nth (Z.to_nat nibble) [0; 0; 1; 0; 2; 0; 0; 0; 3; 0; 0; 0; 0; 0; 0; 0] 0.

Fixpoint reciprocal_loop (n : nat) (i code reciproc : Z) : Z :=
  match n with
  | O => reciproc
  | S n => reciprocal_loop n (i + 1) (Z.shiftr code 2) (u8 (Z.lor reciproc (Z.shiftl i (Z.shiftl (Z.land code 3) 1))))
  end.

Definition get_reciprocal (code : Z) : Z := reciprocal_loop 4 0 code 0.

Definition nibble_at (bit_order_result k : Z) : Z := Z.land (Z.shiftr bit_order_result k) 0xf.

(** [k1], [k2], [k3]: where the nibbles that show bits 1, 2 and 3 are. *)
Definition syndrome (bit_order_result k1 k2 k3 : Z) : Z :=
  let shown bits k := Z.shiftl bits (Z.shiftl (index_in_nibble (nibble_at bit_order_result k)) 1) in
  u8 (Z.lor (Z.lor (shown 1 k1) (shown 2 k2)) (shown 3 k3)).

Definition dpu_bit_config_compute (bit_order_result : Z) (config : dpu_bit_config) : dpu_bit_config :=
  let nibble_swap := if nibble_at bit_order_result 28 =? 0 then 0 else 0xff in
  let swap := negb (nibble_swap =? 0) in
  let m_syndrome := syndrome bit_order_result 4 12 20 in
  let l_syndrome := syndrome bit_order_result 0 8 16 in
  let mm_syndrome := get_reciprocal (if swap then l_syndrome else m_syndrome) in
  let ll_syndrome := get_reciprocal (if swap then m_syndrome else l_syndrome) in
  let config_3124 := get_reciprocal (if swap then ll_syndrome else mm_syndrome) in
  let config_2316 := get_reciprocal (if swap then mm_syndrome else ll_syndrome) in
  let config_4740 := get_reciprocal (if swap then l_syndrome else m_syndrome) in
  let config_3932 := get_reciprocal (if swap then m_syndrome else l_syndrome) in
  {| cpu2dpu := Z.lor config_2316 (Z.shiftl config_3124 8); dpu2cpu := Z.lor config_3932 (Z.shiftl config_4740 8);
     nibble_swap := nibble_swap; stutter := stutter config |}.

(** The loops over the bits of a nibble, the nibbles of a byte, the bytes. *)
Definition transform_nibble (nibble_transformation nibble_value : Z) : Z :=
  fold_left (fun acc transformation_id =>
    let id_bit := Z.land (Z.shiftr nibble_transformation (Z.shiftl transformation_id 1)) 3 in
    let bit_value := Z.land (Z.shiftr nibble_value transformation_id) 1 in
    u8 (Z.lor acc (Z.shiftl bit_value id_bit))) [0; 1; 2; 3] 0.

Definition transform_byte (transformation swap byte_value : Z) : Z :=
  fold_left (fun acc nibble_id =>
    let nibble_value := Z.land (Z.shiftr byte_value (Z.shiftl nibble_id 2)) 0xf in
    let nibble_transformation := Z.land (Z.shiftr transformation (Z.shiftl nibble_id 3)) 0xff in
    let place := if swap =? 0 then nibble_id else (nibble_id + 1) mod 2 in
    u8 (Z.lor acc (Z.shiftl (transform_nibble nibble_transformation nibble_value) (Z.shiftl place 2)))) [0; 1] 0.

Definition transform_word (transformation swap value : Z) : Z :=
  fold_left (fun acc byte_id =>
    let byte_value := Z.land (Z.shiftr value (Z.shiftl byte_id 3)) 0xff in
    u32 (Z.lor acc (Z.shiftl (transform_byte transformation swap byte_value) (Z.shiftl byte_id 3)))) [0; 1; 2; 3] 0.

Definition dpu_bit_config_dpu2cpu (config : dpu_bit_config) (value : Z) : Z :=
  transform_word (dpu2cpu config) (nibble_swap config) value.

Definition dpu_bit_config_cpu2dpu (config : dpu_bit_config) (value : Z) : Z :=
  transform_word (cpu2dpu config) (nibble_swap config) value.

(** * Permutations of the bits of a nibble *)

(** Where each bit goes, two bits each. *)
Definition moves (code : Z) : list Z := map (fun i => Z.land (Z.shiftr code (2 * i)) 3) [0; 1; 2; 3].

Definition is_permutation (code : Z) : bool := bool_decide (NoDup (moves code)).

Lemma range_check (n : Z) (P : Z -> bool) : forallb P (seqZ 0 n) = true -> forall x, 0 <= x < n -> P x = true.
Proof. intros Hf x Hx. apply (proj1 (forallb_forall P _) Hf), list_elem_of_In, elem_of_seqZ. lia. Qed.

Definition nibble_ok (code x : Z) : bool :=
  (0 <=? transform_nibble code x) && (transform_nibble code x <? 16)
  && (0 <=? get_reciprocal code) && (get_reciprocal code <? 256)
  && (negb (is_permutation code)
      || (transform_nibble (get_reciprocal code) (transform_nibble code x) =? x)
         && (transform_nibble code (transform_nibble (get_reciprocal code) x) =? x)
         && (get_reciprocal (get_reciprocal code) =? code)).

Lemma nibbles_ok : forallb (fun code => forallb (nibble_ok code) (seqZ 0 16)) (seqZ 0 256) = true.
Proof. vm_compute. reflexivity. Qed.

(** A nibble is translated to a nibble, and the reciprocal translates it back. *)
Lemma nibble_transform code x : 0 <= code < 256 -> 0 <= x < 16 ->
  0 <= transform_nibble code x < 16 /\ 0 <= get_reciprocal code < 256
  /\ (is_permutation code = true ->
      transform_nibble (get_reciprocal code) (transform_nibble code x) = x
      /\ transform_nibble code (transform_nibble (get_reciprocal code) x) = x
      /\ get_reciprocal (get_reciprocal code) = code).
Proof.
  intros Hc Hx. assert (Hok : nibble_ok code x = true).
  { pose proof (range_check 256 (fun code => forallb (nibble_ok code) (seqZ 0 16)) nibbles_ok code Hc) as Hn.
    exact (range_check 16 (nibble_ok code) Hn x Hx). }
  unfold nibble_ok in Hok. rewrite !andb_true_iff, !Z.leb_le, !Z.ltb_lt in Hok. destruct Hok as [[[[H1 H2] H3] H4] H5].
  split_and!; [done.. |]. intros Hp. apply orb_true_iff in H5 as [H5 | H5]; [by rewrite Hp in H5 |].
  rewrite !andb_true_iff, !Z.eqb_eq in H5. by destruct H5 as [[? ?] ?].
Qed.

Lemma nibbles_make_byte swap x y : 0 <= x < 16 -> 0 <= y < 16 ->
  u8 (Z.lor (u8 (Z.lor 0 (Z.shiftl x (if swap : bool then 4 else 0)))) (Z.shiftl y (if swap then 0 else 4)))
  = (if swap then y + 16 * x else x + 16 * y).
Proof.
  intros Hx Hy. set (f := fun x y => if swap then y + 16 * x else x + 16 * y).
  change (if swap then y + 16 * x else x + 16 * y) with (f x y). apply Z.eqb_eq.
  apply (range_check 16 (fun y => u8 (Z.lor (u8 (Z.lor 0 (Z.shiftl x (if swap then 4 else 0)))) (Z.shiftl y (if swap then 0 else 4))) =? f x y)); [| done].
  apply (range_check 16 (fun x => forallb (fun y => u8 (Z.lor (u8 (Z.lor 0 (Z.shiftl x (if swap then 4 else 0)))) (Z.shiftl y (if swap then 0 else 4))) =? f x y) (seqZ 0 16))); [| done].
  subst f. destruct swap; vm_compute; reflexivity.
Qed.

Lemma transform_byte_nibbles t swap b :
  let t0 := Z.land t 0xff in let t1 := Z.land (Z.shiftr t 8) 0xff in
  let x := transform_nibble t0 (Z.land b 0xf) in let y := transform_nibble t1 (Z.land (Z.shiftr b 4) 0xf) in
  transform_byte t swap b = (if swap =? 0 then x + 16 * y else y + 16 * x).
Proof.
  intros t0 t1 x y. unfold transform_byte. cbn [fold_left].
  change (Z.shiftl 0 2) with 0. change (Z.shiftl 0 3) with 0. change (Z.shiftl 1 2) with 4. change (Z.shiftl 1 3) with 8.
  rewrite !Z.shiftr_0_r. fold t0 t1. fold x y.
  assert (Hb : forall a, 0 <= Z.land a 0xff < 256) by (intros a; apply (land_range_r 8); lia).
  assert (Hn : forall a, 0 <= Z.land a 0xf < 16) by (intros a; apply (land_range_r 4); lia).
  assert (Hx : 0 <= x < 16) by exact (proj1 (nibble_transform t0 _ (Hb t) (Hn b))).
  assert (Hy : 0 <= y < 16) by exact (proj1 (nibble_transform t1 _ (Hb (Z.shiftr t 8)) (Hn (Z.shiftr b 4)))).
  clearbody x y. change ((0 + 1) mod 2) with 1. change ((1 + 1) mod 2) with 0.
  pose proof (nibbles_make_byte (negb (swap =? 0)) x y Hx Hy) as Hxy.
  by destruct (swap =? 0).
Qed.

(** * Words *)

(** The transformations of the two nibbles of a byte. *)
Definition transformation (a b : Z) : Z := Z.lor a (Z.shiftl b 8).

Lemma transformation_fields a b : 0 <= a < 256 -> 0 <= b < 256 ->
  Z.land (transformation a b) 0xff = a /\ Z.land (Z.shiftr (transformation a b) 8) 0xff = b.
Proof.
  intros Ha Hb. unfold transformation. rewrite Z.lor_comm, lor_shiftl_add by lia.
  change 0xff with (Z.ones 8). rewrite !Z.land_ones, Z.shiftr_div_pow2 by lia.
  replace (b * 2 ^ 8 + a) with (a + b * 2 ^ 8) by lia. rewrite Z.mod_add, Z.div_add, Z.div_small by lia.
  split; apply Z.mod_small; lia.
Qed.

(** [a'] and [b'] undo [a] and [b], each at the nibble it finds. *)
Definition undoes (swap a b a' b' : Z) : Prop :=
  if swap =? 0 then a' = get_reciprocal a /\ b' = get_reciprocal b
  else a' = get_reciprocal b /\ b' = get_reciprocal a.

Lemma byte_of_nibbles x y : 0 <= x < 16 -> 0 <= y < 16 ->
  Z.land (x + 16 * y) 0xf = x /\ Z.land (Z.shiftr (x + 16 * y) 4) 0xf = y /\ 0 <= x + 16 * y < 256.
Proof.
  intros Hx Hy. change 0xf with (Z.ones 4). rewrite !Z.land_ones, Z.shiftr_div_pow2 by lia.
  change (2 ^ 4) with 16. replace (x + 16 * y) with (x + y * 16) by lia.
  rewrite Z.mod_add, Z.div_add, Z.div_small by lia. split_and!; [apply Z.mod_small; lia.. | lia | lia].
Qed.

Lemma transform_byte_undone swap a b a' b' v :
  is_permutation a = true -> is_permutation b = true -> 0 <= a < 256 -> 0 <= b < 256 -> undoes swap a b a' b' ->
  0 <= v < 256 ->
  0 <= transform_byte (transformation a b) swap v < 256
  /\ transform_byte (transformation a' b') swap (transform_byte (transformation a b) swap v) = v.
Proof.
  intros Pa Pb Ha Hb Hu Hv.
  set (x := Z.land v 0xf). set (y := Z.land (Z.shiftr v 4) 0xf).
  assert (Hx : 0 <= x < 16) by (apply (land_range_r 4); lia).
  assert (Hy : 0 <= y < 16) by (apply (land_range_r 4); lia).
  assert (Ev : v = x + 16 * y).
  { unfold x, y. change 0xf with (Z.ones 4). rewrite !Z.land_ones, Z.shiftr_div_pow2 by lia. change (2 ^ 4) with 16.
    rewrite (Z.mod_small (v / 16)) by (split; [apply Z.div_pos; lia | apply Z.div_lt_upper_bound; lia]).
    pose proof (Z.div_mod v 16). lia. }
  destruct (nibble_transform a x Ha Hx) as (Rx & Ra & Ix), (nibble_transform b y Hb Hy) as (Ry & Rb & Iy).
  destruct (Ix Pa) as (Ix1 & _), (Iy Pb) as (Iy1 & _). clear Ix Iy.
  destruct (transformation_fields a b Ha Hb) as [F1 F2]. unfold undoes in Hu.
  rewrite (transform_byte_nibbles (transformation a b)), F1, F2. fold x y.
  destruct (swap =? 0) eqn:Es; destruct Hu as [-> ->]; rewrite transform_byte_nibbles, Es.
  - destruct (byte_of_nibbles _ _ Rx Ry) as (G1 & G2 & G3). rewrite G1, G2.
    destruct (transformation_fields (get_reciprocal a) (get_reciprocal b) Ra Rb) as [-> ->]. by rewrite Ix1, Iy1, <- Ev.
  - destruct (byte_of_nibbles _ _ Ry Rx) as (G1 & G2 & G3). rewrite G1, G2.
    destruct (transformation_fields (get_reciprocal b) (get_reciprocal a) Rb Ra) as [-> ->]. by rewrite Ix1, Iy1, <- Ev.
Qed.

Definition byte_k (v k : Z) : Z := Z.land (Z.shiftr v (8 * k)) 0xff.

Lemma byte_k_range v k : 0 <= byte_k v k < 256.
Proof. apply (land_range_r 8); lia. Qed.

Lemma byte_k_div v k : 0 <= k -> byte_k v k = v / 2 ^ (8 * k) mod 256.
Proof. intros. unfold byte_k. change 0xff with (Z.ones 8). by rewrite Z.land_ones, Z.shiftr_div_pow2 by lia. Qed.

Lemma lor_high a b n : 0 <= n -> 0 <= b < 2 ^ n -> Z.lor b (Z.shiftl a n) = b + a * 2 ^ n.
Proof. intros. rewrite Z.lor_comm, lor_shiftl_add by lia. lia. Qed.

Lemma word_of_bytes c0 c1 c2 c3 : 0 <= c0 < 256 -> 0 <= c1 < 256 -> 0 <= c2 < 256 -> 0 <= c3 < 256 ->
  u32 (Z.lor (u32 (Z.lor (u32 (Z.lor (u32 (Z.lor 0 (Z.shiftl c0 0))) (Z.shiftl c1 8))) (Z.shiftl c2 16))) (Z.shiftl c3 24))
  = c0 + c1 * 2 ^ 8 + c2 * 2 ^ 16 + c3 * 2 ^ 24.
Proof.
  intros H0 H1 H2 H3. rewrite Z.lor_0_l, Z.shiftl_0_r, (wrap_small 32 c0) by lia.
  rewrite (lor_high c1 c0), (wrap_small 32 (c0 + _)) by lia. rewrite (lor_high c2), (wrap_small 32 (c0 + _ + _)) by lia.
  rewrite (lor_high c3), wrap_small by lia. done.
Qed.

Lemma bytes_of_word c0 c1 c2 c3 : 0 <= c0 < 256 -> 0 <= c1 < 256 -> 0 <= c2 < 256 -> 0 <= c3 < 256 ->
  let w := c0 + c1 * 2 ^ 8 + c2 * 2 ^ 16 + c3 * 2 ^ 24 in
  byte_k w 0 = c0 /\ byte_k w 1 = c1 /\ byte_k w 2 = c2 /\ byte_k w 3 = c3.
Proof.
  intros H0 H1 H2 H3 w. assert (Hd : forall c r, 0 <= c < 256 -> (c + r * 256) / 256 = r /\ (c + r * 256) mod 256 = c).
  { intros c r Hc. rewrite Z.div_add, Z.mod_add, Z.div_small, Z.mod_small by lia. lia. }
  assert (Ew : w = c0 + (c1 + (c2 + c3 * 256) * 256) * 256) by (unfold w; lia). clearbody w. subst w.
  rewrite !byte_k_div by lia. change (2 ^ (8 * 0)) with 1. change (2 ^ (8 * 1)) with 256.
  change (2 ^ (8 * 2)) with (256 * 256). change (2 ^ (8 * 3)) with (256 * 256 * 256). rewrite Z.div_1_r, <- !Z.div_div by lia.
  destruct (Hd c0 (c1 + (c2 + c3 * 256) * 256) H0) as [-> ->]. destruct (Hd c1 (c2 + c3 * 256) H1) as [-> ->].
  destruct (Hd c2 c3 H2) as [-> ->]. split_and!; [done.. |]. apply Z.mod_small. lia.
Qed.

Lemma word_is_bytes v : 0 <= v < 2 ^ 32 -> v = byte_k v 0 + byte_k v 1 * 2 ^ 8 + byte_k v 2 * 2 ^ 16 + byte_k v 3 * 2 ^ 24.
Proof.
  intros Hv. rewrite !byte_k_div by lia. change (2 ^ (8 * 0)) with 1. change (2 ^ (8 * 1)) with 256.
  change (2 ^ (8 * 2)) with (256 * 256). change (2 ^ (8 * 3)) with (256 * 256 * 256). rewrite Z.div_1_r, <- !Z.div_div by lia.
  pose proof (Z.div_mod v 256). pose proof (Z.div_mod (v / 256) 256). pose proof (Z.div_mod (v / 256 / 256) 256).
  rewrite (Z.mod_small (v / 256 / 256 / 256)); [lia |]. rewrite !Z.div_div by lia.
  split; [apply Z.div_pos; lia | apply Z.div_lt_upper_bound; lia].
Qed.

Lemma transform_word_bytes t swap v : (forall k, 0 <= transform_byte t swap (byte_k v k) < 256) ->
  let c k := transform_byte t swap (byte_k v k) in
  transform_word t swap v = c 0 + c 1 * 2 ^ 8 + c 2 * 2 ^ 16 + c 3 * 2 ^ 24.
Proof. 
  intros Hr c. rewrite <- word_of_bytes by apply Hr. subst c. unfold transform_word, byte_k. generalize (transform_byte t swap).
  intros f. reflexivity.
Qed.

(** A transformation that undoes another on each byte undoes it on words. *)
Lemma transform_word_undone t t' swap v : 0 <= v < 2 ^ 32 ->
  (forall b, 0 <= b < 256 -> 0 <= transform_byte t swap b < 256 /\ transform_byte t' swap (transform_byte t swap b) = b) ->
  transform_word t' swap (transform_word t swap v) = v.
Proof.
  intros Hv Hb. assert (Hc : forall k, 0 <= transform_byte t swap (byte_k v k) < 256) by (intros k; apply Hb, byte_k_range).
  assert (Hback : forall k, transform_byte t' swap (transform_byte t swap (byte_k v k)) = byte_k v k) by (intros k; apply Hb, byte_k_range).
  destruct (bytes_of_word _ _ _ _ (Hc 0) (Hc 1) (Hc 2) (Hc 3)) as (B0 & B1 & B2 & B3).
  rewrite <- (transform_word_bytes t swap v Hc) in B0, B1, B2, B3.
  set (w := transform_word t swap v) in *.
  assert (Hw : forall k, k = 0 \/ k = 1 \/ k = 2 \/ k = 3 -> transform_byte t' swap (byte_k w k) = byte_k v k).
  { intros k [-> | [-> | [-> | ->]]]; rewrite ?B0, ?B1, ?B2, ?B3; apply Hback. }
  transitivity (byte_k v 0 + byte_k v 1 * 2 ^ 8 + byte_k v 2 * 2 ^ 16 + byte_k v 3 * 2 ^ 24); [| by rewrite <- word_is_bytes].
  rewrite <- (word_of_bytes _ _ _ _ (byte_k_range v 0) (byte_k_range v 1) (byte_k_range v 2) (byte_k_range v 3)).
  rewrite <- !Hw by tauto. unfold transform_word, byte_k. generalize (transform_byte t' swap). intros f. reflexivity.
Qed.

(** C29: what a DPU answers to a known word gives a configuration that translates
    words of 32 bits without loss: from the host to the DPU and back, and from the
    DPU to the host and back, with or without a swap of nibbles, whenever the
    answer shows bits 1, 2 and 3 of both nibbles at different places. *)
Theorem bit_config_roundtrip bit_order_result config v :
  is_permutation (syndrome bit_order_result 4 12 20) = true -> is_permutation (syndrome bit_order_result 0 8 16) = true ->
  0 <= v < 2 ^ 32 ->
  let c := dpu_bit_config_compute bit_order_result config in
  dpu_bit_config_dpu2cpu c (dpu_bit_config_cpu2dpu c v) = v /\ dpu_bit_config_cpu2dpu c (dpu_bit_config_dpu2cpu c v) = v.
Proof.
  intros Pm Pl Hv c. set (m := syndrome bit_order_result 4 12 20) in *. set (l := syndrome bit_order_result 0 8 16) in *.
  assert (Hm : 0 <= m < 256) by (apply (wrap_range 8); lia). assert (Hl : 0 <= l < 256) by (apply (wrap_range 8); lia).
  destruct (nibble_transform m 0 Hm ltac:(lia)) as (_ & Rm & Im), (nibble_transform l 0 Hl ltac:(lia)) as (_ & Rl & Il).
  destruct (Im Pm) as (_ & _ & Em), (Il Pl) as (_ & _ & El). clear Im Il.
  unfold dpu_bit_config_dpu2cpu, dpu_bit_config_cpu2dpu, c.
  set (swap := if nibble_at bit_order_result 28 =? 0 then 0 else 0xff).
  assert (Pr : forall x, 0 <= x < 256 -> is_permutation x = true -> is_permutation (get_reciprocal x) = true).
  { intros x Hx Px. pose (P x := negb (is_permutation x) || is_permutation (get_reciprocal x)).
    assert (HP : P x = true) by (apply (range_check 256 P); [vm_compute; reflexivity | done]).
    apply orb_true_iff in HP as [HP | HP]; [by rewrite Px in HP | done]. }
  assert (E1 : cpu2dpu (dpu_bit_config_compute bit_order_result config) = transformation l m).
  { unfold dpu_bit_config_compute. fold m l. cbn [cpu2dpu]. unfold transformation.
    clear - Em El. revert Em El. generalize get_reciprocal. intros f Em El.
    destruct (nibble_at bit_order_result 28 =? 0); cbn [Z.eqb negb]; rewrite Em, El; reflexivity. }
  assert (E2 : dpu2cpu (dpu_bit_config_compute bit_order_result config)
    = if swap =? 0 then transformation (get_reciprocal l) (get_reciprocal m) else transformation (get_reciprocal m) (get_reciprocal l)).
  { unfold dpu_bit_config_compute, swap. fold m l. cbn [dpu2cpu]. unfold transformation.
    generalize get_reciprocal. intros f. by destruct (nibble_at bit_order_result 28 =? 0). }
  assert (E3 : nibble_swap (dpu_bit_config_compute bit_order_result config) = swap) by done.
  rewrite E1, E2, E3. clear E1 E2 E3 c. clearbody swap.
  split; apply transform_word_undone; [done | | done |]; intros b Hb.
  - destruct (swap =? 0) eqn:E; apply transform_byte_undone; try done; unfold undoes; by rewrite E.
  - destruct (swap =? 0) eqn:E; apply transform_byte_undone; try done; try (by apply Pr); unfold undoes; rewrite E; by rewrite Em, El.
Qed.

Lemma bit_config_roundtrip_witness :
  let c := dpu_bit_config_compute 0xf0488214 {| cpu2dpu := 0; dpu2cpu := 0; nibble_swap := 0; stutter := 0 |} in
  dpu_bit_config_cpu2dpu c 0xdeadbeef = 0xeeb5e7fd /\ dpu_bit_config_dpu2cpu c 0xeeb5e7fd = 0xdeadbeef.
Proof.
  intros c. assert (E : dpu_bit_config_cpu2dpu c 0xdeadbeef = 0xeeb5e7fd) by (vm_compute; reflexivity).
  split; [done |]. rewrite <- E.
  apply (bit_config_roundtrip 0xf0488214 {| cpu2dpu := 0; dpu2cpu := 0; nibble_swap := 0; stutter := 0 |} 0xdeadbeef); [done | done | lia].
Defined.
