(* ===== verification/Ufi.v ===== *)
(** The commands of the universal interface of a rank
    (library/src/backends/ufi/src/ufi.c): a frame is given to the interfaces of a
    mask after its structure, which is not sent again to interfaces that have it;
    DPUs are selected, and not again when they are; then instructions, words,
    threads, faults and the control of the DMA.

    Arrays of results that the caller has not initialised are arguments, as are
    the buffers of the host, a list for each interface.  When an operation fails
    the buffers it was filling are not described.  Theorems are in UfiCache.v and
    UfiSelect.v. *)
From stdpp Require Import list.
From S2P Require Import Prelude Errors Mask Status CiCommands Ci BitConfig.

Definition ALL_CIS : Z := 0xff.
Definition DPU_ENABLED_GROUP : Z := 0.
Definition DPU_DISABLED_GROUP : Z := 1.

(** [u8 next_ci]: the counter is a byte, -1 its last value. *)
Fixpoint next_ci (fuel : nat) (ci_mask : Z) (current nr_cis : nat) : nat :=
  let current := (S current mod 256)%nat in
  match fuel with
  | O => current
  | S fuel => if (current <? nr_cis)%nat && negb (CI_MASK_ON ci_mask current) then next_ci fuel ci_mask current nr_cis else current
  end.

Fixpoint cis_from (fuel : nat) (ci_mask : Z) (i nr_cis : nat) : list nat :=
  match fuel with
  | O => []
  | S fuel => if (i <? nr_cis)%nat then i :: cis_from fuel ci_mask (next_ci nr_cis ci_mask i nr_cis) nr_cis else []
  end.

(** The interfaces [for_each_ci] visits.  Its body may take the one it is at out
    of the mask: the loop has gone past it. *)
Definition for_each_ci (nr_cis : nat) (mask : Z) : list nat := cis_from nr_cis mask (next_ci nr_cis mask 255 nr_cis) nr_cis.

Section ufi.
Context {W : Type} `{driver W}.
Variable desc : hw_description.
Local Abbreviation op := (cmd (ci W)).

Definition each_ci (mask : Z) : list nat := for_each_ci (nr_cis desc) mask.

Definition set_cmds (l : list Z) : op () := update (with_cmds l).
Definition set_cmd (i : nat) (v : Z) : op () := update (fun s => with_cmds (<[i := v]> (cmds s)) s).
Definition exec_cmds : op () := c ← read cmds; ci_exec_void_cmd desc c.

(** * Structures and frames *)

(** The interfaces to have the structure that [wanted] gives them; whether one
    of them did not. *)
Fixpoint note_structures (wanted : nat -> option Z) (cis : list nat) : op bool :=
  match cis with
  | [] => mret false
  | i :: cis =>
    s ← get_slice i;
    changed ← match wanted i with
              | Some v => if structure_value s =? v then mret false else _ ← set_slice i (with_structure_value v); mret true
              | None => mret false
              end;
    others ← note_structures wanted cis;
    mret ((changed : bool) || (others : bool))
  end.

Definition UFI_exec_write_structure (ci_mask structure : Z) : op () :=
  do_write_structure ← note_structures (fun _ => Some structure) (each_ci ci_mask);
  if do_write_structure : bool then _ ← set_cmds (ci_prepare_mask ci_mask structure); exec_cmds else mret tt.

Definition UFI_exec_write_structures (ci_mask : Z) (structures : list Z) : op () :=
  do_write_structure ← note_structures
    (fun i => if word_at structures i =? CI_EMPTY then None else Some (word_at structures i)) (each_ci ci_mask);
  if do_write_structure : bool then ci_exec_void_cmd desc structures else mret tt.

Definition UFI_exec_void_frame (ci_mask structure frame : Z) : op () :=
  _ ← UFI_exec_write_structure ci_mask structure;
  _ ← set_cmds (ci_prepare_mask ci_mask frame);
  exec_cmds.

(** The frames are the words [cmds] of the rank. *)
Definition UFI_exec_void_frames (ci_mask : Z) (structures : list Z) : op () :=
  _ ← UFI_exec_write_structures ci_mask structures; exec_cmds.

Definition UFI_exec_8bit_frame (ci_mask structure frame : Z) (results : list Z) : op (list Z) :=
  _ ← UFI_exec_write_structure ci_mask structure;
  _ ← set_cmds (ci_prepare_mask ci_mask frame);
  c ← read cmds; ci_exec_8bit_cmd desc c results.

Definition UFI_exec_32bit_frame (ci_mask structure frame : Z) (results : list Z) : op (list Z) :=
  _ ← UFI_exec_write_structure ci_mask structure;
  _ ← set_cmds (ci_prepare_mask ci_mask frame);
  c ← read cmds; ci_exec_32bit_cmd desc c results.

(** [results == NULL ? ... : ...]. *)
Definition exec_frame (ci_mask structure frame : Z) (results : option (list Z)) : op (option (list Z)) :=
  match results with
  | None => _ ← UFI_exec_void_frame ci_mask structure frame; mret None
  | Some results => r ← UFI_exec_8bit_frame ci_mask structure frame results; mret (Some r)
  end.

(** * Configuration of the interfaces *)

Definition ufi_byte_order (ci_mask : Z) : op (list Z) :=
  _ ← set_cmds (ci_prepare_mask ci_mask CI_BYTE_ORDER); c ← read cmds; ci_exec_byte_discovery desc c.

Definition ufi_soft_reset (ci_mask clock_division cycle_accurate : Z) : op () :=
  _ ← set_cmds (ci_prepare_mask ci_mask (CI_SOFTWARE_RESET clock_division cycle_accurate));
  c ← read cmds; ci_exec_reset_cmd desc c.

(** [pcb]: the bit order of the module. *)
Definition ufi_bit_config (pcb : dpu_bit_config) (ci_mask : Z) (config : option dpu_bit_config) (results : option (list Z))
  : op (option (list Z)) :=
  let command := match config with
    | None => CI_BIT_ORDER 0 0 0 0
    | Some config => CI_BIT_ORDER (nibble_swap config) (stutter config)
                       (dpu_bit_config_dpu2cpu pcb (cpu2dpu config)) (dpu_bit_config_dpu2cpu pcb (dpu2cpu config))
    end in
  _ ← set_cmds (ci_prepare_mask ci_mask command);
  match results with
  | None => _ ← exec_cmds; mret None
  | Some results => c ← read cmds; r ← ci_exec_32bit_cmd desc c results; mret (Some r)
  end.

Definition ufi_identity (pcb : dpu_bit_config) (ci_mask : Z) (results : list Z) : op (list Z) :=
  _ ← set_cmds (ci_prepare_mask ci_mask CI_IDENTITY);
  c ← read cmds;
  results ← ci_exec_32bit_cmd desc c results;
  mret (fold_left (fun results i => <[i := dpu_bit_config_cpu2dpu pcb (word_at results i)]> results) (each_ci ci_mask) results).

Definition ufi_thermal_config (ci_mask threshold : Z) : op () :=
  _ ← set_cmds (ci_prepare_mask ci_mask (CI_THERMAL_CONFIG threshold)); exec_cmds.

(** * Selection *)

Inductive choice := Keep | Drop | Retarget (t : dpu_slice_target).

#[export] Instance choice_eq_dec : EqDecision choice.
Proof. solve_decision. Defined.

(** Interfaces are dropped from the mask; those that get another target are
    returned with it, after [store]. *)
Fixpoint retarget (choose : slice_info -> option choice) (store : nat -> dpu_slice_target -> op ()) (cis : list nat) (mask : Z)
  : op (Z * list (nat * dpu_slice_target)) :=
  match cis with
  | [] => mret (mask, [])
  | i :: cis =>
    s ← get_slice i;
    c ← defined (choose s);
    match c with
    | Keep => retarget choose store cis mask
    | Drop => retarget choose store cis (Z.ldiff mask (CI_MASK_ONE i))
    | Retarget t =>
      _ ← store i t;
      _ ← set_slice i (with_target t);
      r ← retarget choose store cis mask;
      mret (r.1, (i, t) :: r.2)
    end
  end.

Definition no_store (_ : nat) (_ : dpu_slice_target) : op () := mret tt.

Definition select_when (mask : Z) (choose : slice_info -> option choice) (structure frame : Z) : op Z :=
  r ← retarget choose no_store (each_ci mask) mask;
  _ ← (if bool_decide (r.2 = []) then mret tt else UFI_exec_void_frame r.1 structure frame);
  mret r.1.

Definition ufi_select_cis (mask : Z) : op Z :=
  r ← retarget (fun s => Some (if enabled_dpus s =? 0 then Drop else Keep)) no_store (each_ci mask) mask;
  mret r.1.

Definition target_struct (t : dpu_slice_target) : Z :=
  match t with DPU_SLICE_TARGET_ALL => CI_SELECT_ALL_STRUCT | _ => CI_SELECT_GROUP_STRUCT end.
Definition target_frame (t : dpu_slice_target) : Z :=
  match t with DPU_SLICE_TARGET_GROUP g => CI_SELECT_GROUP_FRAME g | _ => CI_SELECT_ALL_FRAME end.

(** [structs]: empty but for the interfaces of the list. *)
Definition structs_of (l : list (nat * dpu_slice_target)) : list Z :=
  fold_left (fun structs x => <[x.1 := target_struct x.2]> structs) l (ci_prepare_mask 0 0).

(** The frames are stored in the words of the rank, which keeps the others as
    the last command left them. *)
Definition select_frames (mask : Z) (choose : slice_info -> option choice) : op Z :=
  r ← retarget choose (fun i t => set_cmd i (target_frame t)) (each_ci mask) mask;
  _ ← (if bool_decide (r.2 = []) then mret tt else UFI_exec_void_frames r.1 (structs_of r.2));
  mret r.1.

Definition choose_all (s : slice_info) : choice :=
  if all_dpus_are_enabled s then
    if decide (slice_target s = DPU_SLICE_TARGET_ALL) then Keep else Retarget DPU_SLICE_TARGET_ALL
  else if decide (slice_target s = DPU_SLICE_TARGET_GROUP DPU_ENABLED_GROUP) then Keep
  else if enabled_dpus s =? 0 then Drop else Retarget (DPU_SLICE_TARGET_GROUP DPU_ENABLED_GROUP).

Definition choose_all_even_disabled (s : slice_info) : choice :=
  if enabled_dpus s =? 0 then Drop
  else if decide (slice_target s = DPU_SLICE_TARGET_ALL) then Keep else Retarget DPU_SLICE_TARGET_ALL.

Definition choose_target (available : bool) (t : dpu_slice_target) (s : slice_info) : choice :=
  if available then if decide (slice_target s = t) then Keep else Retarget t else Drop.

Definition ufi_select_all (mask : Z) : op Z := select_frames mask (fun s => Some (choose_all s)).

Definition ufi_select_all_even_disabled (mask : Z) : op Z := select_frames mask (fun s => Some (choose_all_even_disabled s)).

Definition ufi_select_group (mask group : Z) : op Z :=
  select_when mask (fun s => dpus ← load (dpus_per_group s) group;
                             Some (choose_target (negb (dpus =? 0)) (DPU_SLICE_TARGET_GROUP group) s))
    CI_SELECT_GROUP_STRUCT (CI_SELECT_GROUP_FRAME group).

Definition ufi_select_dpu (mask dpu : Z) : op Z :=
  select_when mask (fun s => Some (choose_target (negb (Z.land (enabled_dpus s) (Z.shiftl 1 dpu) =? 0)) (DPU_SLICE_TARGET_DPU dpu) s))
    CI_SELECT_DPU_STRUCT (CI_SELECT_DPU_FRAME dpu).

Definition ufi_select_dpu_even_disabled (mask dpu : Z) : op Z :=
  select_when mask (fun s => Some (choose_target (negb (enabled_dpus s =? 0)) (DPU_SLICE_TARGET_DPU dpu) s))
    CI_SELECT_DPU_STRUCT (CI_SELECT_DPU_FRAME dpu).

(** The targets are set, the frame is always sent. *)
Definition select_uncached (mask : Z) (t : dpu_slice_target) (structure frame : Z) : op () :=
  _ ← for_each (each_ci mask) (fun i => set_slice i (with_target t));
  UFI_exec_void_frame mask structure frame.

Definition ufi_select_all_uncached (mask : Z) : op () :=
  select_uncached mask DPU_SLICE_TARGET_ALL CI_SELECT_ALL_STRUCT CI_SELECT_ALL_FRAME.
Definition ufi_select_group_uncached (mask group : Z) : op () :=
  select_uncached mask (DPU_SLICE_TARGET_GROUP group) CI_SELECT_GROUP_STRUCT (CI_SELECT_GROUP_FRAME group).
Definition ufi_select_dpu_uncached (mask dpu : Z) : op () :=
  select_uncached mask (DPU_SLICE_TARGET_DPU dpu) CI_SELECT_DPU_STRUCT (CI_SELECT_DPU_FRAME dpu).

Definition ufi_write_group (ci_mask group : Z) : op () :=
  _ ← for_each (each_ci ci_mask) (fun i =>
    dpu_mask ← ci_fill_selected_dpu_mask desc i;
    s ← get_slice i;
    groups ← defined (let groups := map (fun g => Z.ldiff g dpu_mask) (dpus_per_group s) in
                      g ← load groups group; Prelude.store groups group (Z.lor g dpu_mask));
    set_slice i (with_groups groups));
  UFI_exec_void_frame ci_mask CI_WRITE_GROUP_STRUCT (CI_WRITE_GROUP_FRAME group).

(** * Timings, faults, run bits *)

Record dpu_carousel_config := { cmd_duration : Z; cmd_sampling : Z; res_duration : Z; res_sampling : Z }.

Definition ufi_carousel_config (ci_mask : Z) (config : dpu_carousel_config) : op () :=
  _ ← set_cmds (ci_prepare_mask ci_mask (CI_CMD_DURATION_FUTUR (cmd_duration config)));
  _ ← exec_cmds;
  _ ← UFI_exec_void_frame ci_mask CI_CMD_BUS_CONFIG_DURATION_STRUCT (CI_CMD_BUS_CONFIG_DURATION_FRAME (cmd_duration config));
  _ ← UFI_exec_void_frame ci_mask CI_CMD_BUS_CONFIG_SAMPLING_STRUCT (CI_CMD_BUS_CONFIG_SAMPLING_FRAME (cmd_sampling config));
  _ ← UFI_exec_void_frame ci_mask CI_CMD_BUS_SYNC_STRUCT CI_CMD_BUS_SYNC_FRAME;
  _ ← set_cmds (ci_prepare_mask ci_mask (CI_RES_DURATION_FUTUR (res_duration config)));
  _ ← exec_cmds;
  _ ← set_cmds (ci_prepare_mask ci_mask (CI_RES_SAMPLING_FUTUR (res_sampling config)));
  _ ← exec_cmds;
  _ ← UFI_exec_void_frame ci_mask CI_RES_BUS_CONFIG_DURATION_STRUCT (CI_RES_BUS_CONFIG_DURATION_FRAME (res_duration config));
  UFI_exec_void_frame ci_mask CI_RES_BUS_SYNC_STRUCT CI_RES_BUS_SYNC_FRAME.

Definition ufi_clear_debug_replace (ci_mask : Z) : op () :=
  UFI_exec_void_frame ci_mask CI_DEBUG_STD_REPLACE_CLEAR_STRUCT CI_DEBUG_STD_REPLACE_CLEAR_FRAME.
Definition ufi_clear_fault_poison (ci_mask : Z) : op () :=
  UFI_exec_void_frame ci_mask CI_POISON_FAULT_CLEAR_STRUCT CI_POISON_FAULT_CLEAR_FRAME.
Definition ufi_clear_fault_bkp (ci_mask : Z) : op () :=
  UFI_exec_void_frame ci_mask CI_BKP_FAULT_CLEAR_STRUCT CI_BKP_FAULT_CLEAR_FRAME.
Definition ufi_clear_fault_dma (ci_mask : Z) : op () :=
  UFI_exec_void_frame ci_mask CI_DMA_FAULT_READ_AND_CLR_STRUCT CI_DMA_FAULT_READ_AND_CLR_FRAME.
Definition ufi_clear_fault_mem (ci_mask : Z) : op () :=
  UFI_exec_void_frame ci_mask CI_MEM_FAULT_READ_AND_CLR_STRUCT CI_MEM_FAULT_READ_AND_CLR_FRAME.
Definition ufi_clear_fault_dpu (ci_mask : Z) : op () :=
  UFI_exec_void_frame ci_mask CI_DPU_FAULT_STATE_CLR_STRUCT CI_DPU_FAULT_STATE_CLR_FRAME.
Definition ufi_clear_fault_intercept (ci_mask : Z) : op () :=
  UFI_exec_void_frame ci_mask CI_BKP_FAULT_READ_STRUCT CI_BKP_FAULT_READ_FRAME.

Definition ufi_clear_run_bit (ci_mask run_bit : Z) (previous : option (list Z)) : op (option (list Z)) :=
  exec_frame ci_mask CI_THREAD_CLR_RUN_STRUCT (CI_THREAD_CLR_RUN_FRAME run_bit) previous.

(** A frame for each interface of the mask, in the words of the rank. *)
Definition set_frames (ci_mask : Z) (frame : nat -> option Z) : op () :=
  for_each (each_ci ci_mask) (fun i => f ← defined (frame i); set_cmd i f).

Definition exec_structure_frames (ci_mask structure : Z) (frame : nat -> option Z) : op () :=
  _ ← UFI_exec_write_structure ci_mask structure; _ ← set_frames ci_mask frame; exec_cmds.

(** * Repair of the memories *)

Record dpu_repair_config := {
  AB_msbs : Z; CD_msbs : Z; A_lsbs : Z; B_lsbs : Z; C_lsbs : Z; D_lsbs : Z; even_index : Z; odd_index : Z }.

Definition IRAM_TIMING_SAFE_VALUE : Z := 0x02.
Definition WRAM_TIMING_SAFE_VALUE : Z := 0x02.
Definition RFRAM_TIMING_SAFE_VALUE : Z := 0x01.

Definition frame_of (config : list dpu_repair_config) (f : dpu_repair_config -> Z) (i : nat) : option Z := f <$> config !! i.

Definition ufi_iram_repair_config (ci_mask : Z) (config : list dpu_repair_config) : op () :=
  _ ← exec_structure_frames ci_mask CI_IREPAIR_CONFIG_AB_STRUCT
        (frame_of config (fun c => CI_IREPAIR_CONFIG_AB_FRAME (AB_msbs c) (A_lsbs c) (B_lsbs c)));
  _ ← exec_structure_frames ci_mask CI_IREPAIR_CONFIG_CD_STRUCT
        (frame_of config (fun c => CI_IREPAIR_CONFIG_CD_FRAME (CD_msbs c) (C_lsbs c) (D_lsbs c)));
  _ ← exec_structure_frames ci_mask CI_IREPAIR_CONFIG_OE_STRUCT
        (frame_of config (fun c => CI_IREPAIR_CONFIG_OE_FRAME (odd_index c) (even_index c) IRAM_TIMING_SAFE_VALUE));
  UFI_exec_void_frame ci_mask CI_REGISTER_FILE_TIMING_CONFIG_STRUCT
    (CI_REGISTER_FILE_TIMING_CONFIG_FRAME RFRAM_TIMING_SAFE_VALUE).

Definition ufi_clear_dma_ctrl (ci_mask : Z) : op () :=
  UFI_exec_void_frame ci_mask CI_DMA_CTRL_CLEAR_STRUCT CI_DMA_CTRL_CLEAR_FRAME.

Definition repair_frames (b0 b1 : Z) (b2 b3 : dpu_repair_config -> Z) (c : dpu_repair_config) : Z :=
  CI_DMA_CTRL_WRITE_FRAME b0 b1 (Z.lor 0x60 (b2 c)) (Z.lor 0x60 (b3 c)) 0x60 0x40.

Definition ufi_wram_repair_config (ci_mask bank : Z) (config : list dpu_repair_config) : op () :=
  let b0 := u8 (Z.lor 0x60 (Z.shiftl bank 2)) in
  let send b1 b2 b3 := _ ← set_frames ci_mask (frame_of config (repair_frames b0 b1 b2 b3)); exec_cmds in
  _ ← UFI_exec_write_structure ci_mask CI_DMA_CTRL_WRITE_STRUCT;
  _ ← send 0x60 (fun c => Z.shiftr (even_index c) 1) (fun c => Z.shiftr (odd_index c) 1);
  _ ← send 0x61 (fun c => Z.shiftr (AB_msbs c) 4) (fun c => Z.land (AB_msbs c) 0xf);
  _ ← send 0x62 A_lsbs B_lsbs;
  _ ← send 0x63 (fun c => Z.shiftr (CD_msbs c) 4) (fun c => Z.land (CD_msbs c) 0xf);
  _ ← send 0x64 C_lsbs D_lsbs;
  _ ← UFI_exec_void_frame ci_mask CI_DMA_CTRL_WRITE_STRUCT
        (CI_DMA_CTRL_WRITE_FRAME b0 0x65 0x60 (Z.lor 0x60 WRAM_TIMING_SAFE_VALUE) 0x60 0x40);
  ufi_clear_dma_ctrl ci_mask.

(** * Modes *)

(** The results of the interfaces of the mask. *)
Definition take_results (ci_mask : Z) (results : list Z) (f : nat -> Z) : list Z :=
  fold_left (fun results i => <[i := f i]> results) (each_ci ci_mask) results.

(** [modes]: what the local array held. *)
Definition ufi_get_pc_mode (modes : list Z) (ci_mask : Z) (pc_mode : list Z) : op (list Z) :=
  modes ← UFI_exec_8bit_frame ci_mask CI_PC_MODE_READ_STRUCT CI_PC_MODE_READ_FRAME modes;
  mret (take_results ci_mask pc_mode (word_at modes)).

Definition ufi_set_pc_mode (ci_mask : Z) (pc_mode : list Z) : op () :=
  exec_structure_frames ci_mask CI_PC_MODE_WRITE_STRUCT (fun i => CI_PC_MODE_WRITE_FRAME <$> pc_mode !! i).

Definition ufi_set_stack_direction (ci_mask : Z) (direction : list bool) (previous : option (list Z)) : op (option (list Z)) :=
  _ ← UFI_exec_write_structure ci_mask CI_STACK_UP_READ_AND_SET_STRUCT;
  _ ← set_frames ci_mask (fun i =>
        (fun up : bool => if up then CI_STACK_UP_READ_AND_SET_FRAME else CI_STACK_UP_READ_AND_CLR_FRAME) <$> direction !! i);
  match previous with
  | None => _ ← exec_cmds; mret None
  | Some previous => c ← read cmds; r ← ci_exec_8bit_cmd desc c previous; mret (Some r)
  end.

(** * Control of the DMA *)

Definition ci_dma_ctrl_write_frame (address data : Z) : Z :=
  let b0 := Z.lor 0x60 (Z.land (Z.shiftr address 4) 0xf) in
  let b1 := Z.lor 0x60 (Z.land (Z.shiftr address 0) 0xf) in
  let b2 := Z.lor 0x60 (Z.land (Z.shiftr data 4) 0xf) in
  let b3 := Z.lor 0x60 (Z.land (Z.shiftr data 0) 0xf) in
  CI_DMA_CTRL_WRITE_FRAME b0 b1 b2 b3 0x60 0x20.

Definition ufi_write_dma_ctrl (ci_mask address data : Z) : op () :=
  UFI_exec_void_frame ci_mask CI_DMA_CTRL_WRITE_STRUCT (ci_dma_ctrl_write_frame address data).

Definition ufi_write_dma_ctrl_datas (ci_mask address : Z) (datas : list Z) : op () :=
  exec_structure_frames ci_mask CI_DMA_CTRL_WRITE_STRUCT (fun i => ci_dma_ctrl_write_frame address <$> datas !! i).

Definition ufi_read_dma_ctrl (ci_mask : Z) (data : list Z) : op (list Z) :=
  UFI_exec_8bit_frame ci_mask CI_DMA_CTRL_READ_STRUCT CI_DMA_CTRL_READ_FRAME data.

(** [mux_value]: of the interfaces of the mask, the others are not looked at. *)
Definition ufi_set_mram_mux (ci_mask ci_mux_pos : Z) : op () :=
  let mux_value := map (fun i => if Z.land ci_mux_pos (CI_MASK_ONE i) =? 0 then 1 else 0) (seq 0 DPU_MAX_NR_CIS) in
  _ ← ufi_write_dma_ctrl_datas ci_mask 0x80 mux_value;
  _ ← ufi_write_dma_ctrl ci_mask 0x81 0;
  _ ← ufi_write_dma_ctrl_datas ci_mask 0x82 mux_value;
  _ ← ufi_write_dma_ctrl_datas ci_mask 0x84 mux_value;
  ufi_clear_dma_ctrl ci_mask.

(** * Memories *)

(** [l[i][j]]. *)
Definition cell (l : list (list Z)) (i j : nat) : option Z := row ← l !! i; row !! j.

Definition set_cell (l : list (list Z)) (i j : nat) (v : Z) : option (list (list Z)) :=
  row ← l !! i;
  if (j <? length row)%nat then Some (<[i := <[j := v]> row]> l) else None.

Fixpoint set_column (l : list (list Z)) (cis : list nat) (j : nat) (v : nat -> Z -> Z) : option (list (list Z)) :=
  match cis with
  | [] => Some l
  | i :: cis => x ← cell l i j; l ← set_cell l i j (v i x); set_column l cis j v
  end.

Definition ufi_iram_write (ci_mask : Z) (src : list (list Z)) (offset len : Z) : op () :=
  for_each (seq 0 (Z.to_nat len)) (fun each_address =>
    let addr := u16 (offset + Z.of_nat each_address) in
    _ ← UFI_exec_write_structure ci_mask (CI_IRAM_WRITE_INSTRUCTION_STRUCT addr);
    _ ← set_frames ci_mask (fun i => (fun d => CI_IRAM_WRITE_INSTRUCTION_FRAME d addr) <$> cell src i each_address);
    c ← read cmds; ci_exec_wait_mask_cmd desc c).

(** Byte [k] of a word, the first is the least significant. *)
Definition set_byte (k : Z) (b x : Z) : Z := Z.lor (Z.ldiff x (Z.shiftl 0xff (8 * k))) (Z.shiftl b (8 * k)).

Definition iram_read_commands : list (Z * Z * (Z -> Z)) :=
  [ (0, CI_IRAM_READ_BYTE0_STRUCT, CI_IRAM_READ_BYTE0_FRAME); (1, CI_IRAM_READ_BYTE1_STRUCT, CI_IRAM_READ_BYTE1_FRAME);
    (2, CI_IRAM_READ_BYTE2_STRUCT, CI_IRAM_READ_BYTE2_FRAME); (3, CI_IRAM_READ_BYTE3_STRUCT, CI_IRAM_READ_BYTE3_FRAME);
    (4, CI_IRAM_READ_BYTE4_STRUCT, CI_IRAM_READ_BYTE4_FRAME); (5, CI_IRAM_READ_BYTE5_STRUCT, CI_IRAM_READ_BYTE5_FRAME) ].

(** With the bytes read, kept in a local array, and the destinations; the bytes 6
    and 7 are cleared with byte 5. *)
Definition ufi_iram_read (bytes : list Z) (ci_mask : Z) (dst : list (list Z)) (offset len : Z) : op (list (list Z)) :=
  r ← accumulate (seq 0 (Z.to_nat len)) (fun r each_address =>
        accumulate iram_read_commands (fun r command =>
            let '(k, structure, frame) := (command : Z * Z * (Z -> Z)) in
            bytes ← UFI_exec_8bit_frame ci_mask structure (frame (offset + Z.of_nat each_address)) r.1;
            dst ← defined (set_column r.2 (each_ci ci_mask) each_address (fun i x =>
                     let x := set_byte k (word_at bytes i) x in if k =? 5 then set_byte 7 0 (set_byte 6 0 x) else x));
            mret (bytes, dst))
          r)
      (bytes, dst);
  mret r.2.

Definition ufi_wram_write (ci_mask : Z) (src : list (list Z)) (offset len : Z) : op () :=
  for_each (seq 0 (Z.to_nat len)) (fun each_address =>
    let addr := u16 (offset + Z.of_nat each_address) in
    _ ← UFI_exec_write_structure ci_mask (CI_WRAM_WRITE_WORD_STRUCT addr);
    _ ← set_frames ci_mask (fun i => (fun d => CI_WRAM_WRITE_WORD_FRAME d addr) <$> cell src i each_address);
    c ← read cmds; ci_exec_wait_mask_cmd desc c).

Definition ufi_wram_read (words : list Z) (ci_mask : Z) (dst : list (list Z)) (offset len : Z) : op (list (list Z)) :=
  r ← accumulate (seq 0 (Z.to_nat len)) (fun r each_address =>
        words ← UFI_exec_32bit_frame ci_mask CI_WRAM_READ_WORD_STRUCT
                  (CI_WRAM_READ_WORD_FRAME (offset + Z.of_nat each_address)) r.1;
        dst ← defined (set_column r.2 (each_ci ci_mask) each_address (fun i _ => word_at words i));
        mret (words, dst))
      (words, dst);
  mret r.2.

(** * Threads and faults *)

Definition ufi_thread_boot (ci_mask thread : Z) (previous : option (list Z)) : op (option (list Z)) :=
  exec_frame ci_mask CI_THREAD_BOOT_STRUCT (CI_THREAD_BOOT_FRAME thread) previous.
Definition ufi_thread_resume (ci_mask thread : Z) (previous : option (list Z)) : op (option (list Z)) :=
  exec_frame ci_mask CI_THREAD_RESUME_STRUCT (CI_THREAD_RESUME_FRAME thread) previous.

Definition ufi_read_run_bit (ci_mask run_bit : Z) (running : list Z) : op (list Z) :=
  UFI_exec_8bit_frame ci_mask CI_THREAD_READ_RUN_STRUCT (CI_THREAD_READ_RUN_FRAME run_bit) running.
Definition ufi_read_dpu_run (ci_mask : Z) (run : list Z) : op (list Z) :=
  UFI_exec_8bit_frame ci_mask CI_DPU_RUN_STATE_READ_STRUCT CI_DPU_RUN_STATE_READ_FRAME run.
Definition ufi_read_dpu_fault (ci_mask : Z) (fault : list Z) : op (list Z) :=
  UFI_exec_8bit_frame ci_mask CI_DPU_FAULT_STATE_READ_STRUCT CI_DPU_FAULT_STATE_READ_FRAME fault.

Definition ufi_set_dpu_fault_and_step (ci_mask : Z) : op () :=
  UFI_exec_void_frame ci_mask CI_DPU_FAULT_STATE_SET_AND_STEP_STRUCT CI_DPU_FAULT_STATE_SET_AND_STEP_FRAME.
Definition ufi_set_bkp_fault (ci_mask : Z) : op () :=
  UFI_exec_void_frame ci_mask CI_BKP_FAULT_SET_STRUCT CI_BKP_FAULT_SET_FRAME.
Definition ufi_set_poison_fault (ci_mask : Z) : op () :=
  UFI_exec_void_frame ci_mask CI_POISON_FAULT_SET_STRUCT CI_POISON_FAULT_SET_FRAME.

Definition ufi_read_bkp_fault (ci_mask : Z) (fault : option (list Z)) : op (option (list Z)) :=
  exec_frame ci_mask CI_BKP_FAULT_READ_STRUCT CI_BKP_FAULT_READ_FRAME fault.
Definition ufi_read_poison_fault (ci_mask : Z) (fault : list Z) : op (list Z) :=
  UFI_exec_8bit_frame ci_mask CI_POISON_FAULT_READ_STRUCT CI_POISON_FAULT_READ_FRAME fault.
Definition ufi_read_and_clear_dma_fault (ci_mask : Z) (fault : option (list Z)) : op (option (list Z)) :=
  exec_frame ci_mask CI_DMA_FAULT_READ_AND_CLR_STRUCT CI_DMA_FAULT_READ_AND_CLR_FRAME fault.
Definition ufi_read_and_clear_mem_fault (ci_mask : Z) (fault : option (list Z)) : op (option (list Z)) :=
  exec_frame ci_mask CI_MEM_FAULT_READ_AND_CLR_STRUCT CI_MEM_FAULT_READ_AND_CLR_FRAME fault.

Definition ufi_read_bkp_fault_thread_index (ci_mask : Z) (thread : list Z) : op (list Z) :=
  UFI_exec_8bit_frame ci_mask CI_BKP_FAULT_THREAD_INDEX_READ_STRUCT CI_BKP_FAULT_THREAD_INDEX_READ_FRAME thread.
Definition ufi_read_dma_fault_thread_index (ci_mask : Z) (thread : list Z) : op (list Z) :=
  UFI_exec_8bit_frame ci_mask CI_DMA_FAULT_THREAD_INDEX_READ_STRUCT CI_DMA_FAULT_THREAD_INDEX_READ_FRAME thread.
Definition ufi_read_mem_fault_thread_index (ci_mask : Z) (thread : list Z) : op (list Z) :=
  UFI_exec_8bit_frame ci_mask CI_MEM_FAULT_THREAD_INDEX_READ_STRUCT CI_MEM_FAULT_THREAD_INDEX_READ_FRAME thread.

Definition ufi_debug_replace_stop (ci_mask : Z) : op () :=
  UFI_exec_void_frame ci_mask CI_DEBUG_STD_REPLACE_STOP_ENABLED_STRUCT CI_DEBUG_STD_REPLACE_STOP_ENABLED_FRAME.

Definition pc_bits_in_lsb (iram_size : Z) : Z :=
  if iram_size =? Z.shiftl 1 12 then 6
  else if (iram_size =? Z.shiftl 1 13) || (iram_size =? Z.shiftl 1 14) then 7 else 8.

(** [lsb], [msb]: what the local arrays held. *)
Definition ufi_debug_pc_read (iram_size : Z) (lsb msb : list Z) (ci_mask : Z) (pcs : list Z) : op (list Z) :=
  lsb ← UFI_exec_8bit_frame ci_mask CI_PC_LSB_READ_STRUCT CI_PC_LSB_READ_FRAME lsb;
  msb ← UFI_exec_8bit_frame ci_mask CI_PC_MSB_READ_STRUCT CI_PC_MSB_READ_FRAME msb;
  let nr_bits_in_lsb := pc_bits_in_lsb iram_size in
  mret (take_results ci_mask pcs (fun i =>
    u16 (Z.lor (Z.land (word_at lsb i) (Z.shiftl 1 nr_bits_in_lsb - 1)) (Z.shiftl (word_at msb i) nr_bits_in_lsb)))).

Definition ufi_debug_pc_sample (ci_mask : Z) : op () :=
  UFI_exec_void_frame ci_mask CI_DEBUG_STD_SAMPLE_PC_STRUCT CI_DEBUG_STD_SAMPLE_PC_FRAME.
End ufi.
