(* ===== verification/UfiCache.v ===== *)
(** What the universal interface believes of the chips (Ufi.v): the structure an
    interface was last given, which it is not given again, and what the frames it
    executes mean under it.  The packets given to the driver are looked at: the
    last structure among them is the one the rank has noted, whatever the commands
    so far and however they ended; so each frame of a command is executed under
    its structure, and by the interfaces of its mask only when the command sends
    one frame.  Commands that send a frame to each interface, or select all DPUs,
    give the driver the words other interfaces had from the command before. *)
From stdpp Require Import list.
From S2P Require Import Prelude Errors Mask Status CiCommands Ci BitConfig Ufi.

(** * The interfaces of a mask *)

Definition cis_of (mask : Z) (i n : nat) : list nat := List.filter (CI_MASK_ON mask) (seq i n).

Lemma next_ci_cis fuel mask current nr k : k = (S current mod 256)%nat -> (k <= nr)%nat -> (nr - k <= fuel)%nat -> (nr < 256)%nat ->
  let j := next_ci fuel mask current nr in
  cis_of mask k (nr - k) = (if (j <? nr)%nat then j :: cis_of mask (S j) (nr - S j) else []) /\ (k <= j <= nr)%nat.
Proof.
  revert current k. induction fuel as [| fuel IH]; intros current k -> Hk Hf Hnr; cbn [next_ci].
  { replace (S current mod 256)%nat with nr by lia. rewrite Nat.sub_diag, Nat.ltb_irrefl. split; [done | lia]. }
  destruct (Nat.ltb_spec (S current mod 256) nr) as [Hlt | Hge]; cbn [andb].
  - assert (E : (nr - S current mod 256 = S (nr - S (S current mod 256)))%nat) by lia. rewrite E. unfold cis_of.
    cbn [seq List.filter]. destruct (CI_MASK_ON mask (S current mod 256)) eqn:Eon; cbn [negb].
    + destruct (Nat.ltb_spec (S current mod 256) nr); [| lia]. split; [done | lia].
    + destruct (IH (S current mod 256)%nat (S (S current mod 256)))%nat as [IH1 IH2]; [| lia.. | split; [exact IH1 | lia]].
      symmetry. apply Nat.mod_small. lia.
  - destruct (Nat.ltb_spec (S current mod 256) nr); [lia |]. replace (nr - S current mod 256)%nat with 0%nat by lia.
    split; [done | lia].
Qed.

Lemma cis_from_spec fuel mask current nr k : k = (S current mod 256)%nat -> (k <= nr)%nat -> (nr - k <= fuel)%nat -> (nr < 256)%nat ->
  cis_from fuel mask (next_ci nr mask current nr) nr = cis_of mask k (nr - k).
Proof.
  revert current k. induction fuel as [| fuel IH]; intros current k Ek Hk Hf Hnr.
  { by replace (nr - k)%nat with 0%nat by lia. }
  destruct (next_ci_cis nr mask current nr k Ek Hk ltac:(lia) Hnr) as [E Hj]. rewrite E. cbn [cis_from].
  destruct (Nat.ltb_spec (next_ci nr mask current nr) nr) as [Hlt | Hge]; [| done]. f_equal.
  apply IH; [| lia..]. symmetry. apply Nat.mod_small. lia.
Qed.

Lemma for_each_ci_spec nr mask : (nr < 256)%nat -> for_each_ci nr mask = List.filter (CI_MASK_ON mask) (seq 0 nr).
Proof. intros Hnr. unfold for_each_ci. rewrite (cis_from_spec _ _ _ _ 0) by (done || lia). unfold cis_of. by rewrite Nat.sub_0_r. Qed.

(** * The packets *)

(** The structure an interface was last given; latest packet first. *)
Fixpoint structure_of (i : nat) (packets : list (list Z)) : option Z :=
  match packets with
  | [] => None
  | p :: packets => if is_structure (word_at p i) then Some (word_at p i) else structure_of i packets
  end.

(** The frames it executed, with the structure each was under. *)
Fixpoint executions (i : nat) (packets : list (list Z)) : list (option Z * Z) :=
  match packets with
  | [] => []
  | p :: packets =>
    let word := word_at p i in
    if (word =? CI_EMPTY) || is_structure word then executions i packets
    else (structure_of i packets, word) :: executions i packets
  end.

Section cache.
Context {W : Type} `{driver W}.
Variable desc : hw_description.
Hypothesis few_cis : (nr_cis desc <= DPU_MAX_NR_CIS)%nat.
Implicit Types s : ci W.

Lemma elem_of_each_ci mask i : In i (each_ci desc mask) <-> (i < nr_cis desc)%nat /\ CI_MASK_ON mask i = true.
Proof.
  unfold each_ci. rewrite for_each_ci_spec by (unfold DPU_MAX_NR_CIS in few_cis; lia). rewrite filter_In, in_seq. split; intros [? ?]; split; auto; lia.
Qed.

Lemma word_at_prepared mask d i : (i < nr_cis desc)%nat ->
  word_at (ci_prepare_mask mask d) i = if CI_MASK_ON mask i then d else CI_EMPTY.
Proof.
  intros Hi. unfold word_at, ci_prepare_mask. rewrite (nth_indep _ 0 (if CI_MASK_ON mask 0 then d else CI_EMPTY)).
  - rewrite (map_nth (fun i => if CI_MASK_ON mask i then d else CI_EMPTY)), seq_nth; [done |]. lia.
  - rewrite length_map, length_seq. lia.
Qed.

(** * What a command changes *)

Lemma update_data_context s : same_context s (update_data s).1.
Proof.
  unfold update_data, ci_update_commands, mbind, cmd_bind. by destruct (update_commands (hw s)) as [[w words] []].
Qed.

Lemma wait_for_results_context n e ws s : same_context s (wait_for_results n e ws s).1.
Proof.
  revert ws s. induction n as [| n IH]; intros ws s; cbn [wait_for_results]; unfold mbind, cmd_bind;
    pose proof (update_data_context s) as C; destruct (update_data s) as [s1 [words | |]]; cbn [fst] in C; try done;
    destruct (determine_scan words e 0 ws s1) as (s2 & -> & C2 & _ & _); destruct ((scan words e 0 ws).2);
    try (by eapply same_context_trans). eapply same_context_trans; [exact C |]. by eapply same_context_trans.
Qed.

Lemma compute_masks_state commands add cis s : (compute_masks desc commands add cis s).1 = s.
Proof.
  revert s. induction cis as [| i cis IH]; intros s; cbn [compute_masks]; [done |].
  unfold mbind at 1, cmd_bind at 1.
  match goal with |- context [(if ?b then ?x else ?y) s] => destruct ((if b then x else y) s) as [s1 r] eqn:E end.
  assert (s1 = s) as ->.
  { destruct (word_at commands i =? CI_EMPTY); [by injection E as <- |]. destruct add; [| by injection E as <-].
    unfold ci_fill_selected_dpu_mask, get_slice, read, mbind, cmd_bind, defined in E.
    destruct (slices s !! i) as [sl |]; [| by injection E as <-]. cbn in E.
    destruct (slice_target sl); cbn in E; try (by injection E as <-).
    destruct (load _ _); cbn in E; by injection E as <-. }
  destruct r; [| done | done]. specialize (IH s). unfold mbind, cmd_bind.
  by destruct (compute_masks desc commands add cis s) as [s2 [ws' | |]].
Qed.

(** Nothing is given to the driver only when an interface has no target yet. *)
Lemma exec_cmd_context commands add s :
  let '(s', r) := exec_cmd desc commands add s in
  cmds s' = cmds s /\ slices s' = slices s /\ (sent s' = commands :: sent s \/ sent s' = sent s /\ r <> Return tt).
Proof.
  unfold exec_cmd. unfold mbind at 1, cmd_bind at 1. pose proof (compute_masks_state commands add (all_cis desc) s) as E.
  destruct (compute_masks desc commands add (all_cis desc) s) as [s0 [ws | |]]; cbn [fst] in E; subst s0.
  2, 3: split_and!; [done | done | by right].
  unfold mbind, cmd_bind, read, invert_color, update, ci_commit_commands at 1. cbn [hw with_color with_context].
  destruct (commit_commands (hw s) commands) as [w ok]. destruct ok; [| split_and!; [done | done | by left]].
  match goal with |- context [wait_for_results ?n ?e ?ws ?x] =>
    pose proof (wait_for_results_context n e ws x) as (C1 & C2 & C3 & _); destruct (wait_for_results n e ws x) as [s1 [[] | |]] end;
    cbn [fst] in C1, C2, C3.
  2, 3: split_and!; [done | done | by left].
  destruct (is_chip_v1_4 desc); [split_and!; [done | done | by left] |].
  pose proof (update_data_context s1) as (D1 & D2 & D3 & _). destruct (update_data s1) as [s2 [words | |]]; cbn [fst] in D1, D2, D3;
    (split_and!; [exact (eq_trans D1 C1) | exact (eq_trans D2 C2) | left; exact (eq_trans D3 C3)]).
Qed.

Lemma compute_masks_void commands cis s : exists ws, compute_masks desc commands false cis s = (s, Return ws).
Proof.
  induction cis as [| i cis [ws E]]; cbn [compute_masks]; [by eexists |]. unfold mbind, cmd_bind, mret, cmd_ret.
  destruct (word_at commands i =? CI_EMPTY); rewrite E; by eexists.
Qed.

Lemma exec_void_sent commands s : let '(s', _) := exec_cmd desc commands false s in sent s' = commands :: sent s.
Proof.
  destruct (compute_masks_void commands (all_cis desc) s) as [ws E]. unfold exec_cmd. unfold mbind at 1, cmd_bind at 1. rewrite E.
  unfold mbind, cmd_bind, read, invert_color, update, ci_commit_commands at 1. cbn [hw with_color with_context].
  destruct (commit_commands (hw s) commands) as [w []]; [| done].
  match goal with |- context [wait_for_results ?n ?e ?ws ?x] =>
    pose proof (wait_for_results_context n e ws x) as (C1 & C2 & C3 & _); destruct (wait_for_results n e ws x) as [s1 [[] | |]] end;
    cbn [fst] in C3; try done.
  destruct (is_chip_v1_4 desc); [done |].
  pose proof (update_data_context s1) as (D1 & D2 & D3 & _). destruct (update_data s1) as [s2 [words | |]]; cbn [fst] in D3; exact (eq_trans D3 C3).
Qed.

(** * The structures noted are those given *)

Definition agrees (i : nat) (sl : slice_info) s : Prop :=
  (structure_of i (sent s) = Some (structure_value sl)
   \/ structure_of i (sent s) = None /\ is_structure (structure_value sl) = false)
  /\ (is_structure (word_at (cmds s) i) = true -> word_at (cmds s) i = structure_value sl).

Definition coherent s : Prop :=
  length (cmds s) = DPU_MAX_NR_CIS /\ forall i sl, (i < nr_cis desc)%nat -> slices s !! i = Some sl -> agrees i sl s.

(** Some interface does not have the structure it is to have. *)
Definition differs (wanted : nat -> option Z) (l : list slice_info) (i : nat) : bool :=
  match l !! i, wanted i with Some sl, Some v => negb (structure_value sl =? v) | _, _ => false end.

(** A slice but for its structure. *)
Definition strip (sl : slice_info) : slice_info := with_structure_value 0 sl.

(** The structure of an interface once it is noted. *)
Definition noted (wanted : nat -> option Z) (cis : list nat) (i : nat) (sl : slice_info) : Z :=
  if existsb (Nat.eqb i) cis then default (structure_value sl) (wanted i) else structure_value sl.

Lemma with_own_structure sl : with_structure_value (structure_value sl) sl = sl.
Proof. by destruct sl. Qed.

Lemma existsb_in i cis : existsb (Nat.eqb i) cis = true <-> In i cis.
Proof.
  rewrite existsb_exists. split.
  - intros (j & Hj & E). apply Nat.eqb_eq in E. by subst j.
  - intros Hi. exists i. split; [done |]. apply Nat.eqb_refl.
Qed.

Lemma set_slice_spec i f s :
  match set_slice i f s with
  | (s', Return _) => exists sl, slices s !! i = Some sl /\ s' = with_slices (alter f i (slices s)) s
  | (s', Failed _) => False
  | (s', Undefined) => slices s !! i = None
  end.
Proof.
  unfold set_slice, get_slice, read, mbind, cmd_bind, defined, update. destruct (slices s !! i) as [sl |] eqn:E; [| done]. by exists sl.
Qed.

Lemma note_structures_spec wanted cis s :
  match note_structures wanted cis s with
  | (s', Return b) =>
      s' = with_slices (slices s') s
      /\ (forall i, slices s' !! i = (fun sl => with_structure_value (noted wanted cis i sl) sl) <$> slices s !! i)
      /\ (b = false -> slices s' = slices s) /\ b = existsb (differs wanted (slices s)) cis
  | (_, Failed _) => False
  | (_, Undefined) => True
  end.
Proof.
  revert s. induction cis as [| j cis IH]; intros s; cbn [note_structures].
  { split_and!; [by destruct s | | done | done]. intros i. unfold noted. cbn [existsb]. destruct (slices s !! i) as [sl |]; [| done].
    cbn. by rewrite with_own_structure. }
  unfold get_slice, read, mbind, cmd_bind, defined. destruct (slices s !! j) as [sl |] eqn:Ej; [| done]. unfold mret, cmd_ret.
  assert (Hsame : (forall v, wanted j = Some v -> structure_value sl = v) ->
    match note_structures wanted cis s with
    | (s', Return b) => s' = with_slices (slices s') s
      /\ (forall i, slices s' !! i = (fun sl => with_structure_value (noted wanted (j :: cis) i sl) sl) <$> slices s !! i)
      /\ (b = false -> slices s' = slices s) /\ b = existsb (differs wanted (slices s)) (j :: cis)
    | (_, Failed _) => False | (_, Undefined) => True end).
  { intros Hj. specialize (IH s). destruct (note_structures wanted cis s) as [s1 [b | |]]; [| done | done].
    destruct IH as (E1 & E2 & E3 & E4). split_and!; [done | | done |].
    2: { rewrite E4. cbn [existsb]. replace (differs wanted (slices s) j) with false; [done |]. unfold differs. rewrite Ej.
         destruct (wanted j) as [v |]; [| done]. rewrite (Hj v eq_refl). by rewrite Z.eqb_refl. }
    intros i. rewrite E2. destruct (slices s !! i) as [sli |] eqn:Ei; [| done].
    cbn. do 2 f_equal. unfold noted. cbn [existsb]. destruct (Nat.eqb_spec i j) as [-> | Hij]; [| done]. cbn [orb].
    assert (sli = sl) as -> by congruence. destruct (wanted j) as [v |] eqn:Ew; cbn; [| by destruct (existsb (Nat.eqb _) _)].
    rewrite (Hj v eq_refl). by destruct (existsb (Nat.eqb _) _). }
  destruct (wanted j) as [v |] eqn:Ew; [destruct (Z.eqb_spec (structure_value sl) v) as [Ev | Ev] |].
  - specialize (Hsame ltac:(by intros ? [= <-])). cbv beta iota. by destruct (note_structures wanted cis s) as [s1 [b | |]].
  - pose proof (set_slice_spec j (with_structure_value v) s) as Hset. destruct (set_slice j (with_structure_value v) s) as [s1 [[] | |]]; [| done | done].
    destruct Hset as (sl' & _ & ->). match goal with |- context [note_structures _ _ ?x] => set (s1 := x); specialize (IH s1) end.
    destruct (note_structures wanted cis s1) as [s2 [b | |]]; [| done | done]. destruct IH as (E1 & E2 & E3 & _).
    split_and!; [by rewrite E1 | | done |].
    2: { cbn [existsb]. unfold differs at 1. rewrite Ej, Ew. by destruct (Z.eqb_spec (structure_value sl) v). } intros i. rewrite E2. unfold s1. cbn [slices with_slices].
    destruct (Nat.eq_dec i j) as [-> | Hij].
    + rewrite list_lookup_alter, decide_True, Ej by done. cbn. f_equal. unfold noted. cbn [existsb]. rewrite Nat.eqb_refl. cbn [orb]. rewrite Ew.
      by destruct (existsb (Nat.eqb _) _).
    + rewrite list_lookup_alter_ne by done. destruct (slices s !! i) as [sli |]; [| done]. cbn. do 2 f_equal. unfold noted. cbn [existsb].
      by destruct (Nat.eqb_spec i j).
  - specialize (Hsame ltac:(done)). cbv beta iota. by destruct (note_structures wanted cis s) as [s1 [b | |]].
Qed.

Lemma coherent_given s i sl v : coherent s -> (i < nr_cis desc)%nat -> slices s !! i = Some sl -> structure_value sl = v ->
  is_structure v = true -> structure_of i (sent s) = Some v.
Proof. intros [_ Hs] Hi E <- Hv. destruct (Hs i sl Hi E) as [[-> | [_ E']] _]; [done |]. by rewrite Hv in E'. Qed.

(** What a command that is given a packet leaves. *)
Definition sends {A} (commands : list Z) (m : cmd (ci W) A) : Prop := forall s,
  let '(s', r) := m s in
  cmds s' = cmds s /\ slices s' = slices s /\ (sent s' = commands :: sent s \/ sent s' = sent s /\ forall a, r <> Return a).

Lemma sends_void commands : sends commands (ci_exec_void_cmd desc commands).
Proof. intros s. pose proof (exec_cmd_context commands false s) as E. unfold ci_exec_void_cmd. destruct (exec_cmd _ _ _ s) as [s' r].
  destruct E as (E1 & E2 & E3). split_and!; [done.. |]. destruct E3 as [E3 | [E3 Hr]]; [by left | right]. split; [done |]. by intros []. Qed.

Lemma sends_wait_mask commands : sends commands (ci_exec_wait_mask_cmd desc commands).
Proof. intros s. pose proof (exec_cmd_context commands true s) as E. unfold ci_exec_wait_mask_cmd. destruct (exec_cmd _ _ _ s) as [s' r].
  destruct E as (E1 & E2 & E3). split_and!; [done.. |]. destruct E3 as [E3 | [E3 Hr]]; [by left | right]. split; [done |]. by intros []. Qed.

Lemma sends_results {A} commands (f : list Z -> A) :
  sends commands (exec_cmd desc commands false ≫= fun _ => read data ≫= fun words => mret (f words)).
Proof.
  intros s. pose proof (exec_cmd_context commands false s) as E. unfold mbind, cmd_bind. destruct (exec_cmd _ _ _ s) as [s' [[] | |]];
    destruct E as (E1 & E2 & E3); unfold read; (split_and!; [done | done |]); destruct E3 as [E3 | [E3 Hr]];
    [by left | by destruct Hr | by left | right; by split | by left | right; by split].
Qed.

Lemma sends_map {A B} commands (m : cmd (ci W) A) (g : A -> B) : sends commands m -> sends commands (m ≫= fun a => mret (g a)).
Proof.
  intros Hm s. specialize (Hm s). unfold mbind, cmd_bind. destruct (m s) as [s' [a | e |]]; destruct Hm as (E1 & E2 & E3);
    (split_and!; [done | done |]); destruct E3 as [E3 | [E3 Hr]]; [by left | by destruct (Hr a) | by left | right; by split | by left | right; by split].
Qed.

Lemma sends_8bit commands results : sends commands (ci_exec_8bit_cmd desc commands results).
Proof. apply sends_results. Qed.

Lemma sends_32bit commands results : sends commands (ci_exec_32bit_cmd desc commands results).
Proof. apply sends_results. Qed.

(** A packet without structures leaves them, and is executed under them. *)
Lemma coherent_packet p s s' : coherent s -> (forall i, (i < nr_cis desc)%nat -> is_structure (word_at p i) = false) ->
  cmds s' = p -> length p = DPU_MAX_NR_CIS -> slices s' = slices s -> sent s' = p :: sent s \/ sent s' = sent s -> coherent s'.
Proof.
  intros [_ Hs] Hp Ec Hlen Es Ed. split; [by rewrite Ec |]. intros i sl Hi E. rewrite Es in E. destruct (Hs i sl Hi E) as [Hst _]. split.
  - destruct Ed as [-> | ->]; [| done]. cbn [structure_of]. by rewrite Hp.
  - rewrite Ec, Hp by done. done.
Qed.

Definition on_mask (mask : Z) (i : nat) : Prop := (i < nr_cis desc)%nat /\ CI_MASK_ON mask i = true.

Lemma write_structure_spec mask structure s : coherent s -> is_structure structure = true ->
  match UFI_exec_write_structure desc mask structure s with
  | (_, Undefined) => True
  | (s', r) =>
      coherent s'
      /\ (forall i, executions i (sent s') = executions i (sent s) \/ (nr_cis desc <= i)%nat)
      /\ (forall i, on_mask mask i \/ (nr_cis desc <= i)%nat \/ structure_of i (sent s') = structure_of i (sent s))
      /\ (forall a, r = Return a -> forall i sl, on_mask mask i -> slices s' !! i = Some sl -> structure_of i (sent s') = Some structure)
      /\ (forall i, strip <$> slices s' !! i = strip <$> slices s !! i)
      /\ (if existsb (differs (fun _ => Some structure) (slices s)) (each_ci desc mask)
          then cmds s' = ci_prepare_mask mask structure else s' = s)
  end.
Proof.
  intros Hs Hst. unfold UFI_exec_write_structure. set (wanted := fun _ : nat => Some structure).
  pose proof (note_structures_spec wanted (each_ci desc mask) s) as Hn. unfold mbind at 1, cmd_bind at 1.
  destruct (note_structures wanted (each_ci desc mask) s) as [s1 [b | |]]; [| done | done]. destruct Hn as (E1 & E2 & E3 & E4).
  rewrite <- E4. clear E4.
  assert (Hv : forall i sl, on_mask mask i -> slices s1 !! i = Some sl -> structure_value sl = structure).
  { intros i sl Hi. rewrite E2. destruct (slices s !! i) as [sli |]; [| done]. cbn. intros [= <-]. cbn. unfold noted, wanted.
    destruct (existsb (Nat.eqb i) (each_ci desc mask)) eqn:Ei; [done |].
    assert (In i (each_ci desc mask)) as Hin by (by apply elem_of_each_ci). apply existsb_in in Hin. congruence. }
  assert (Hf : forall i sl, CI_MASK_ON mask i = false -> slices s1 !! i = Some sl -> slices s !! i = Some sl).
  { intros i sl Hi. rewrite E2. destruct (slices s !! i) as [sli |]; [| done]. cbn. intros [= <-]. unfold noted, wanted.
    destruct (existsb (Nat.eqb i) (each_ci desc mask)) eqn:Ei; [| by rewrite with_own_structure].
    apply existsb_in, elem_of_each_ci in Ei. destruct Ei. congruence. }
  assert (Ht : forall i, strip <$> slices s1 !! i = strip <$> slices s !! i).
  { intros i. rewrite E2. by destruct (slices s !! i). }
  destruct b.
  - unfold set_cmds, exec_cmds, update, mbind, cmd_bind, read. cbn [cmds with_cmds].
    match goal with |- context [ci_exec_void_cmd _ ?p ?x] => set (s2 := x); pose proof (exec_void_sent p s2) as Hsent;
      pose proof (sends_void p s2) as Hc end.
    unfold ci_exec_void_cmd in *. destruct (exec_cmd _ _ _ s2) as [s3 r]. destruct Hc as (C1 & C2 & _).
    assert (D1 : cmds s3 = ci_prepare_mask mask structure) by done. assert (D2 : slices s3 = slices s1) by done.
    assert (D3 : sent s3 = ci_prepare_mask mask structure :: sent s) by (rewrite Hsent; unfold s2; by rewrite E1).
    assert (Hcoh : coherent s3 /\ forall i sl, on_mask mask i -> slices s3 !! i = Some sl -> structure_of i (sent s3) = Some structure).
    { split; [split; [by rewrite D1 |] |].
      - intros i sl Hi E. rewrite D2 in E. split; [rewrite D3; cbn [structure_of] | rewrite D1]; rewrite word_at_prepared by done;
          destruct (CI_MASK_ON mask i) eqn:Eon.
        + left. rewrite Hst. by rewrite (Hv i sl).
        + rewrite empty_not_structure. destruct Hs as [_ Hs]. destruct (Hs i sl Hi ltac:(by apply Hf)) as [? _]. done.
        + by rewrite (Hv i sl).
        + by rewrite empty_not_structure.
      - intros i sl [Hi Eon] E. rewrite D3. cbn [structure_of]. rewrite word_at_prepared, Eon, Hst by done. done. }
    assert (Hrest : (forall i, executions i (sent s3) = executions i (sent s) \/ (nr_cis desc <= i)%nat)
      /\ (forall i, on_mask mask i \/ (nr_cis desc <= i)%nat \/ structure_of i (sent s3) = structure_of i (sent s))
      /\ (forall i, strip <$> slices s3 !! i = strip <$> slices s !! i)).
    { rewrite D2, D3. split_and!; [| | done]; intros i; destruct (Nat.lt_ge_cases i (nr_cis desc)) as [Hi |]; auto; cbn [executions structure_of];
        rewrite word_at_prepared by done; destruct (CI_MASK_ON mask i) eqn:Eon.
      - left. by rewrite Hst, orb_true_r.
      - by left.
      - by left.
      - right; right. by rewrite empty_not_structure. }
    destruct Hcoh as [Hcoh Hon], Hrest as (R1 & R2 & R3). destruct r; [| | done]; (split_and!; [done.. | | done | done]); intros ? ?; [exact Hon | done].
  - assert (s1 = s) as ->. { rewrite E1, (E3 eq_refl). by destruct s. }
    cbn. split_and!; [done | by left | by right; right | | done | done].
    intros _ _ i sl Hi E. apply (coherent_given s i sl structure); [done | apply Hi | done | by apply (Hv i) | done].
Qed.

(** But for the structures the slices are the same; the words of the rank are the last packet. *)
Definition settled s s' : Prop :=
  (forall i, strip <$> slices s' !! i = strip <$> slices s !! i) /\ exists rest, sent s' = cmds s' :: rest.

(** One frame to all the interfaces of a mask. *)
Definition send_frame {A} (mask structure frame : Z) (k : list Z -> cmd (ci W) A) : cmd (ci W) A :=
  _ ← UFI_exec_write_structure desc mask structure;
  _ ← set_cmds (ci_prepare_mask mask frame);
  c ← read cmds; k c.

Lemma send_frame_spec {A} mask structure frame (k : list Z -> cmd (ci W) A) s :
  coherent s -> is_structure structure = true -> is_frame frame = true -> (forall c, sends c (k c)) ->
  match send_frame mask structure frame k s with
  | (_, Undefined) => True
  | (s', r) => coherent s' /\ forall a, r = Return a -> settled s s' /\ forall i sl, (i < nr_cis desc)%nat -> slices s' !! i = Some sl ->
      executions i (sent s') = if CI_MASK_ON mask i then (Some structure, frame) :: executions i (sent s) else executions i (sent s)
  end.
Proof.
  intros Hs Hst Hf Hk. unfold send_frame. pose proof (write_structure_spec mask structure s Hs Hst) as Hw.
  unfold is_frame in Hf. apply andb_true_iff in Hf as [Hf0 Hf1]. apply negb_true_iff in Hf0, Hf1.
  unfold mbind, cmd_bind, set_cmds, update, read. destruct (UFI_exec_write_structure desc mask structure s) as [s1 [[] | |]]; [| | done].
  2: { destruct Hw as (Hc & _). split; [done |]. intros a. done. }
  destruct Hw as (Hc & Hx & _ & Hon & Ht & _). cbn [cmds with_cmds].
  match goal with |- context [k ?p ?x] => set (s2 := x); pose proof (Hk p s2) as Hsend end.
  destruct (k _ s2) as [s3 r]. destruct Hsend as (C1 & C2 & C3).
  assert (Hword : forall i, (i < nr_cis desc)%nat -> is_structure (word_at (ci_prepare_mask mask frame) i) = false).
  { intros i Hi. rewrite word_at_prepared by done. by destruct (CI_MASK_ON mask i). }
  assert (Hcoh : coherent s3).
  { apply (coherent_packet (ci_prepare_mask mask frame) s1 s3); [done | done | done | done | done |].
    destruct C3 as [-> | [-> _]]; [by left | by right]. }
  destruct r as [a | e |]; [| | done]; (split; [done |]); [| intros a; done].
  intros a' _. destruct C3 as [C3 | [_ C3]]; [| by destruct (C3 a)].
  split; [split; [by rewrite C2 | exists (sent s1); by rewrite C1, C3] |]. intros i sl Hi E. rewrite C3. cbn [executions].
  rewrite Hword by done. rewrite word_at_prepared by done. destruct (Hx i) as [Hxi |]; [| lia].
  destruct (CI_MASK_ON mask i) eqn:Eon; cbn [orb].
  - rewrite Hf0. cbn [orb]. rewrite C2 in E. rewrite <- Hxi. f_equal. f_equal. apply (Hon tt eq_refl i sl); [by split | done].
  - exact Hxi.
Qed.

(** * A frame of its own for each interface *)

Definition send_frames {A} (mask structure : Z) (frame : nat -> option Z) (k : list Z -> cmd (ci W) A) : cmd (ci W) A :=
  _ ← UFI_exec_write_structure desc mask structure;
  _ ← set_frames desc mask frame;
  c ← read cmds; k c.

Lemma word_at_insert l i j v : (j < length l)%nat -> word_at (<[i := v]> l) j = if (i =? j)%nat then v else word_at l j.
Proof.
  intros Hj. unfold word_at. destruct (Nat.eqb_spec i j) as [-> | Hij].
  - apply nth_lookup_Some. by apply list_lookup_insert_eq.
  - rewrite !nth_lookup. by rewrite list_lookup_insert_ne.
Qed.

Lemma for_each_set_cmd (frame : nat -> option Z) cis s :
  match for_each cis (fun i => f ← defined (frame i); set_cmd i f) s with
  | (s', Return _) => s' = with_cmds (cmds s') s /\ length (cmds s') = length (cmds s)
      /\ forall j, (j < length (cmds s))%nat ->
         word_at (cmds s') j = (if existsb (Nat.eqb j) cis then default (word_at (cmds s) j) (frame j) else word_at (cmds s) j)
         /\ (existsb (Nat.eqb j) cis = true -> is_Some (frame j))
  | (_, Failed _) => False
  | (_, Undefined) => True
  end.
Proof.
  revert s. induction cis as [| i cis IH]; intros s; cbn [for_each].
  { split_and!; [by destruct s | done | by intros j _]. }
  unfold mbind, cmd_bind, defined, mret, cmd_ret, set_cmd, update. destruct (frame i) as [f |] eqn:Ef; [| done]. cbv beta iota.
  match goal with |- context [for_each cis ?g ?x] => specialize (IH x); unfold mbind, cmd_bind in IH; change (for_each cis _ x) with (for_each cis g x) in IH;
    destruct (for_each cis g x) as [s1 [[] | |]] end; [| done | done].
  destruct IH as (E1 & E2 & E3). cbn [cmds with_cmds] in *. rewrite length_insert in E2, E3.
  split_and!; [by rewrite E1 | done |]. intros j Hj. destruct (E3 j Hj) as [E4 E5]. rewrite E4, word_at_insert by done. cbn [existsb].
  rewrite (Nat.eqb_sym i j). destruct (Nat.eqb_spec j i) as [-> |]; cbn [orb]; [| done]. rewrite Ef. split; [by destruct (existsb _ _) | done].
Qed.

Definition in_place (mask structure : Z) s : bool := negb (existsb (differs (fun _ => Some structure) (slices s)) (each_ci desc mask)).

Lemma send_frames_spec {A} mask structure frame (k : list Z -> cmd (ci W) A) s :
  coherent s -> is_structure structure = true -> (forall i f, frame i = Some f -> is_frame f = true) -> (forall c, sends c (k c)) ->
  match send_frames mask structure frame k s with
  | (_, Undefined) => True
  | (s', r) => coherent s' /\ forall a, r = Return a -> settled s s' /\ forall i sl, (i < nr_cis desc)%nat -> slices s' !! i = Some sl ->
      if CI_MASK_ON mask i then exists f, frame i = Some f /\ executions i (sent s') = (Some structure, f) :: executions i (sent s)
      else executions i (sent s') = if in_place mask structure s && is_frame (word_at (cmds s) i)
                                    then (structure_of i (sent s), word_at (cmds s) i) :: executions i (sent s)
                                    else executions i (sent s)
  end.
Proof.
  intros Hs Hst Hf Hk. unfold send_frames, in_place. pose proof (write_structure_spec mask structure s Hs Hst) as Hw.
  unfold mbind at 1, cmd_bind at 1. destruct (UFI_exec_write_structure desc mask structure s) as [s1 [[] | |]]; [| | done].
  2: { destruct Hw as (Hc & _). split; [done |]. intros a. done. }
  destruct Hw as (Hc & Hx & Hstr & Hon & Ht & Hplace).
  unfold mbind at 1, cmd_bind at 1, set_frames. pose proof (for_each_set_cmd frame (each_ci desc mask) s1) as Hfr.
  match goal with |- context [for_each ?l ?g s1] => change (for_each l _ s1) with (for_each l g s1) in Hfr; destruct (for_each l g s1) as [s2 [[] | |]] end; [| done | done].
  destruct Hfr as (E1 & E2 & E3). unfold mbind, cmd_bind, read.
  pose proof (Hk (cmds s2) s2) as Hsend. destruct (k (cmds s2) s2) as [s3 r]. destruct Hsend as (C1 & C2 & C3).
  assert (Hlen : length (cmds s1) = DPU_MAX_NR_CIS) by (destruct Hc as [Hc _]; exact Hc).
  assert (Hword : forall i, (i < nr_cis desc)%nat -> word_at (cmds s2) i = (if CI_MASK_ON mask i then default 0 (frame i) else word_at (cmds s1) i)
            /\ (CI_MASK_ON mask i = true -> exists f, frame i = Some f /\ is_frame f = true)).
  { intros i Hi. destruct (E3 i ltac:(lia)) as [E4 E5]. rewrite E4. destruct (existsb (Nat.eqb i) (each_ci desc mask)) eqn:Ei.
    - apply existsb_in, elem_of_each_ci in Ei. destruct Ei as [_ ->]. destruct (E5 eq_refl) as [f Ef]. rewrite Ef. split; [done |]. intros _.
      exists f. split; [done | by apply (Hf i)].
    - destruct (CI_MASK_ON mask i) eqn:Eon; [| done]. assert (In i (each_ci desc mask)) as Hin by (by apply elem_of_each_ci).
      apply existsb_in in Hin. congruence. }
  assert (Hframe : forall f, is_frame f = true -> is_structure f = false /\ (f =? CI_EMPTY) = false).
  { intros f. unfold is_frame. intros Ef. apply andb_true_iff in Ef as [Ef0 Ef1]. apply negb_true_iff in Ef0, Ef1. done. }
  assert (Hcoh : coherent s3).
  { destruct Hc as [Hl Hc]. split; [congruence |]. intros i sl Hi E. rewrite C2, E1 in E. destruct (Hc i sl Hi E) as [A1 A2].
    destruct (Hword i Hi) as [Ew Hex]. unfold agrees. rewrite C1. assert (Hd : sent s2 = sent s1) by (by rewrite E1).
    destruct (CI_MASK_ON mask i) eqn:Eon.
    - destruct (Hex eq_refl) as (f & Ef & Hff). rewrite Ef in Ew. cbn in Ew. destruct (Hframe f Hff) as [Hf1 _]. split.
      + destruct C3 as [-> | [-> _]]; rewrite ?Hd; [| done]. cbn [structure_of]. by rewrite Ew, Hf1.
      + rewrite Ew, Hf1. done.
    - rewrite Ew. split; [| done]. destruct C3 as [-> | [-> _]]; rewrite ?Hd; [| done]. cbn [structure_of]. rewrite Ew.
      destruct (is_structure (word_at (cmds s1) i)) eqn:Es; [| done]. left. f_equal. by apply A2. }
  destruct r as [a | e |]; [| | done]; (split; [done |]); [| intros a; done].
  intros a' _. destruct C3 as [C3 | [_ C3]]; [| by destruct (C3 a)].
  assert (Hd : sent s2 = sent s1) by (by rewrite E1).
  split; [split; [rewrite C2, E1; exact Ht | exists (sent s1); by rewrite C1, C3, Hd] |]. intros i sl Hi E. destruct (Hword i Hi) as [Ew Hex]. rewrite C3, Hd. cbn [executions]. rewrite Ew.
  destruct (Hx i) as [Hxi |]; [| lia]. destruct (CI_MASK_ON mask i) eqn:Eon.
  - destruct (Hex eq_refl) as (f & Ef & Hff). exists f. split; [done |]. rewrite Ef. change (default 0 (Some f)) with f. destruct (Hframe f Hff) as [-> ->].
    cbn [orb]. rewrite Hxi. f_equal. f_equal. rewrite C2, E1 in E. apply (Hon tt eq_refl i sl); [by split | done].
  - destruct (existsb (differs (fun _ => Some structure) (slices s)) (each_ci desc mask)); cbn [negb andb].
    + rewrite Hplace, word_at_prepared, Eon by done. exact Hxi.
    + subst s1. unfold is_frame. destruct (word_at (cmds s) i =? CI_EMPTY); cbn [orb negb andb]; [done |].
      by destruct (is_structure (word_at (cmds s) i)).
Qed.

(** * Every operation, however it ends *)

Lemma keeps_send_frame {A} mask structure frame (k : list Z -> cmd (ci W) A) :
  is_structure structure = true -> is_frame frame = true -> (forall c, sends c (k c)) -> keeps coherent (send_frame mask structure frame k).
Proof.
  intros Hst Hf Hk s Hs. pose proof (send_frame_spec mask structure frame k s Hs Hst Hf Hk) as E.
  destruct (send_frame mask structure frame k s) as [s' [a | e |]]; [by destruct E.. | done].
Qed.

Lemma keeps_send_frames {A} mask structure frame (k : list Z -> cmd (ci W) A) :
  is_structure structure = true -> (forall i f, frame i = Some f -> is_frame f = true) -> (forall c, sends c (k c)) ->
  keeps coherent (send_frames mask structure frame k).
Proof.
  intros Hst Hf Hk s Hs. pose proof (send_frames_spec mask structure frame k s Hs Hst Hf Hk) as E.
  destruct (send_frames mask structure frame k s) as [s' [a | e |]]; [by destruct E.. | done].
Qed.

Lemma keeps_void_frame mask structure frame :
  is_structure structure = true -> is_frame frame = true -> keeps coherent (UFI_exec_void_frame desc mask structure frame).
Proof. intros Hst Hf. apply (keeps_send_frame mask structure frame (ci_exec_void_cmd desc) Hst Hf), sends_void. Qed.

Lemma keeps_8bit_frame mask structure frame results :
  is_structure structure = true -> is_frame frame = true -> keeps coherent (UFI_exec_8bit_frame desc mask structure frame results).
Proof.
  intros Hst Hf. apply (keeps_send_frame mask structure frame (fun c => ci_exec_8bit_cmd desc c results) Hst Hf).
  intros c. apply sends_8bit.
Qed.

Lemma keeps_32bit_frame mask structure frame results :
  is_structure structure = true -> is_frame frame = true -> keeps coherent (UFI_exec_32bit_frame desc mask structure frame results).
Proof.
  intros Hst Hf. apply (keeps_send_frame mask structure frame (fun c => ci_exec_32bit_cmd desc c results) Hst Hf).
  intros c. apply sends_32bit.
Qed.

Lemma keeps_frame mask structure frame results :
  is_structure structure = true -> is_frame frame = true -> keeps coherent (exec_frame desc mask structure frame results).
Proof.
  intros Hst Hf. unfold exec_frame. destruct results.
  - apply keeps_bind; [by apply keeps_8bit_frame |]. eauto with keeps.
  - apply keeps_bind; [by apply keeps_void_frame |]. eauto with keeps.
Qed.

Lemma keeps_structure_frames mask structure frame :
  is_structure structure = true -> (forall i f, frame i = Some f -> is_frame f = true) ->
  keeps coherent (exec_structure_frames desc mask structure frame).
Proof. intros Hst Hf. apply (keeps_send_frames mask structure frame (ci_exec_void_cmd desc) Hst Hf), sends_void. Qed.

(** The slices but for the structures. *)
Lemma coherent_slices f i s : coherent s -> (forall sl, structure_value (f sl) = structure_value sl) ->
  coherent (with_slices (alter f i (slices s)) s).
Proof.
  intros [Hl Hs] Hf. split; [done |]. intros j sl Hj. cbn [slices with_slices]. destruct (Nat.eq_dec j i) as [-> | Hne].
  - rewrite list_lookup_alter, decide_True by done. destruct (slices s !! i) as [sl0 |] eqn:E; [| done]. cbn. intros [= <-].
    destruct (Hs i sl0 Hj E) as [A1 A2]. unfold agrees. cbn [sent cmds with_slices]. rewrite Hf. done.
  - rewrite list_lookup_alter_ne by done. intros E. exact (Hs j sl Hj E).
Qed.

Lemma keeps_set_slice f i : (forall sl, structure_value (f sl) = structure_value sl) -> keeps coherent (set_slice i f).
Proof.
  intros Hf s Hs. pose proof (set_slice_spec i f s) as E. destruct (set_slice i f s) as [s' [[] | |]]; [| done | done].
  destruct E as (sl & _ & ->). by apply coherent_slices.
Qed.

Lemma keeps_get_slice I i : keeps I (get_slice (W := W) i).
Proof. unfold get_slice. eauto with keeps. Qed.

Lemma keeps_set_cmd i f : is_structure f = false -> keeps coherent (set_cmd i f).
Proof.
  intros Hf s [Hl Hs]. split; [cbn; by rewrite length_insert |]. intros j sl Hj E. destruct (Hs j sl Hj E) as [A1 A2].
  unfold agrees. cbn [sent cmds with_cmds]. rewrite word_at_insert by (unfold DPU_MAX_NR_CIS in *; lia).
  destruct (i =? j)%nat; [| done]. rewrite Hf. done.
Qed.

Lemma keeps_retarget choose store cis mask : (forall i t, keeps coherent (store i t)) -> keeps coherent (retarget choose store cis mask).
Proof.
  intros Hstore. revert mask. induction cis as [| i cis IH]; intros mask; cbn [retarget]; [eauto with keeps |].
  apply keeps_bind; [apply keeps_get_slice |]. intros sl. apply keeps_bind; [eauto with keeps |]. intros [| | t]; [done | done |].
  apply keeps_bind; [done |]. intros _. apply keeps_bind; [by apply keeps_set_slice |]. intros _. apply keeps_bind; [done |]. eauto with keeps.
Qed.

Lemma keeps_select_when mask choose structure frame :
  is_structure structure = true -> is_frame frame = true -> keeps coherent (select_when desc mask choose structure frame).
Proof.
  intros Hst Hf. apply keeps_bind; [apply keeps_retarget; intros; apply keeps_ret |]. intros r.
  apply keeps_bind; [| eauto with keeps]. apply keeps_if; [eauto with keeps | by apply keeps_void_frame].
Qed.

(** ** All DPUs: interfaces with structures and frames of their own *)

Lemma target_frame_spec t : is_frame (target_frame t) = true.
Proof. destruct t; apply packet_is_frame. Qed.

Lemma target_struct_spec t : is_structure (target_struct t) = true.
Proof. by destruct t. Qed.

Lemma mask_without mask i j : CI_MASK_ON (Z.ldiff mask (CI_MASK_ONE i)) j = CI_MASK_ON mask j && negb (i =? j)%nat.
Proof using Type.
  clear few_cis.
  unfold CI_MASK_ON, CI_MASK_ONE. rewrite Z.ldiff_spec. f_equal. f_equal. rewrite Z.shiftl_1_l, Z.pow2_bits_eqb by lia.
  destruct (Nat.eqb_spec i j) as [-> |]; [by rewrite Z.eqb_refl |]. apply Z.eqb_neq. lia.
Qed.

(** The interfaces with another target have their frame in the words of the
    rank, and are in the mask. *)
Definition retargeted (cis : list nat) (mask : Z) s s' (r : Z * list (nat * dpu_slice_target)) : Prop :=
  Forall (fun x => In x.1 cis /\ CI_MASK_ON r.1 x.1 = CI_MASK_ON mask x.1
           /\ ((x.1 < length (cmds s))%nat -> is_structure (word_at (cmds s') x.1) = false)) r.2
  /\ sent s' = sent s /\ length (cmds s') = length (cmds s)
  /\ forall i, ~ In i cis -> word_at (cmds s') i = word_at (cmds s) i /\ CI_MASK_ON r.1 i = CI_MASK_ON mask i.

Lemma retargeted_tail i cis mask mask' s s1 s' r : ~ In i cis -> (forall j, j <> i -> CI_MASK_ON mask' j = CI_MASK_ON mask j) ->
  sent s1 = sent s -> length (cmds s1) = length (cmds s) -> (forall j, j <> i -> word_at (cmds s1) j = word_at (cmds s) j) ->
  retargeted cis mask' s1 s' r -> retargeted (i :: cis) mask s s' r.
Proof.
  intros Hi Hmask Hsent Hlen Hword (R1 & R2 & R3 & R4). split_and!; [| congruence | congruence |].
  - eapply list.Forall_impl; [exact R1 |]. intros x (X1 & X2 & X3). split_and!; [by right | | by rewrite <- Hlen].
    rewrite X2. apply Hmask. intros E. by rewrite E in X1.
  - intros j Hj. destruct (R4 j) as [E1 E2]; [by intros ?; apply Hj; right |].
    assert (j <> i) by (intros ->; apply Hj; by left). rewrite E1, E2. auto.
Qed.

Lemma retarget_frames choose cis mask s : NoDup cis ->
  match retarget choose (fun i t => set_cmd i (target_frame t)) cis mask s with
  | (s', Return r) => retargeted cis mask s s' r
  | (_, Failed _) => False
  | (_, Undefined) => True
  end.
Proof.
  revert mask s. induction cis as [| i cis IH]; intros mask s Hnd; cbn [retarget]; [done |].
  apply list.NoDup_cons in Hnd as [Hni Hnd]. rewrite list_elem_of_In in Hni. specialize (fun mask s => IH mask s Hnd).
  unfold get_slice, read, defined, mbind, cmd_bind, mret, cmd_ret. destruct (slices s !! i) as [sl |] eqn:Ei; [| done]. cbv beta iota.
  destruct (choose sl) as [[| | t] |]; [| | | done].
  - specialize (IH mask s). destruct (retarget choose _ cis mask s) as [s' [r | |]]; [| done | done]. by apply (retargeted_tail i cis mask mask s s s').
  - specialize (IH (Z.ldiff mask (CI_MASK_ONE i)) s). destruct (retarget choose _ cis _ s) as [s' [r | |]]; [| done | done].
    eapply (retargeted_tail i cis mask _ s s s'); [done | | done | done | done | exact IH]. intros j Hj. rewrite mask_without.
    destruct (Nat.eqb_spec i j); [congruence | by rewrite andb_true_r].
  - unfold set_cmd, update. match goal with |- context [set_slice i ?f ?x] => set (s1 := x); pose proof (set_slice_spec i f s1) as Hset;
      destruct (set_slice i f s1) as [s2 [[] | |]]; [| done | done] end.
    destruct Hset as (sl' & _ & Es2). specialize (IH mask s2). destruct (retarget choose _ cis mask s2) as [s' [r | |]]; [| done | done].
    assert (C2 : cmds s2 = <[i := target_frame t]> (cmds s)) by (by rewrite Es2). assert (D2 : sent s2 = sent s) by (by rewrite Es2).
    assert (Hlen : length (cmds s2) = length (cmds s)) by (by rewrite C2, length_insert).
    assert (Hother : forall j, j <> i -> word_at (cmds s2) j = word_at (cmds s) j).
    { intros j Hj. rewrite C2. unfold word_at. rewrite !nth_lookup. by rewrite list_lookup_insert_ne. }
    pose proof (retargeted_tail i cis mask mask s s2 s' r Hni ltac:(done) D2 Hlen Hother IH) as (R1 & R2 & R3 & R4).
    split_and!; [| done | done | done]. destruct IH as (_ & _ & _ & IH4). destruct (IH4 i Hni) as [W1 W2].
    constructor; [| done]. cbn [fst]. split_and!; [by left | done |]. intros Hi. rewrite W1, C2, word_at_insert by done.
    rewrite Nat.eqb_refl. pose proof (target_frame_spec t) as Hf. unfold is_frame in Hf.
    apply andb_true_iff in Hf as [_ Hf]. by apply negb_true_iff.
Qed.

Lemma structs_of_spec l i : (i < DPU_MAX_NR_CIS)%nat ->
  word_at (structs_of l) i = CI_EMPTY
  \/ is_structure (word_at (structs_of l) i) = true /\ exists x, In x l /\ x.1 = i.
Proof using Type.
  clear few_cis.
  unfold structs_of. intros Hi.
  assert (Hgen : forall acc, length acc = DPU_MAX_NR_CIS ->
    let w := word_at (fold_left (fun structs x => <[x.1 := target_struct x.2]> structs) l acc) i in
    w = word_at acc i \/ is_structure w = true /\ exists x, In x l /\ x.1 = i).
  { induction l as [| x l IH]; intros acc Ha; cbn [fold_left]; [by left |].
    destruct (IH (<[x.1 := target_struct x.2]> acc)) as [E | (E & y & Hy & Ey)]; [by rewrite length_insert | |].
    - cbn zeta. rewrite E, word_at_insert by lia. destruct (Nat.eqb_spec x.1 i) as [Ex |]; [| by left]. right.
      split; [apply target_struct_spec | exists x; split; [by left | done]].
    - right. split; [done |]. exists y. split; [by right | done]. }
  specialize (Hgen (ci_prepare_mask 0 0) eq_refl). cbn zeta in Hgen. destruct Hgen as [E | E]; [left | by right].
  rewrite E. clear E. unfold DPU_MAX_NR_CIS in Hi. do 8 (destruct i as [| i]; [done |]). lia.
Qed.

(** The words of the rank given again. *)
Lemma coherent_again s s' : coherent s -> cmds s' = cmds s -> slices s' = slices s ->
  sent s' = cmds s :: sent s \/ sent s' = sent s -> coherent s'.
Proof.
  intros [Hl Hs] Ec Es Ed. split; [congruence |]. intros i sl Hi E. rewrite Es in E. destruct (Hs i sl Hi E) as [A1 A2].
  unfold agrees. rewrite Ec. split; [| done]. destruct Ed as [-> | ->]; [| done]. cbn [structure_of].
  destruct (is_structure (word_at (cmds s) i)) eqn:Ew; [| done]. left. by rewrite A2.
Qed.

Lemma write_structures_spec mask structs s : coherent s ->
  (forall i, (i < nr_cis desc)%nat -> word_at structs i = CI_EMPTY \/ CI_MASK_ON mask i = true /\ is_structure (word_at structs i) = true
             /\ is_structure (word_at (cmds s) i) = false) ->
  match UFI_exec_write_structures desc mask structs s with
  | (_, Undefined) => True
  | (s', r) => coherent s' /\ cmds s' = cmds s
      /\ (forall i, strip <$> slices s' !! i = strip <$> slices s !! i)
      /\ (forall a, r = Return a -> forall i sl, (i < nr_cis desc)%nat -> slices s' !! i = Some sl ->
          executions i (sent s') = executions i (sent s)
          /\ structure_of i (sent s') = if word_at structs i =? CI_EMPTY then structure_of i (sent s) else Some (word_at structs i))
  end.
Proof.
  intros Hs Hw. unfold UFI_exec_write_structures. set (wanted := fun i => if word_at structs i =? CI_EMPTY then None else Some (word_at structs i)).
  pose proof (note_structures_spec wanted (each_ci desc mask) s) as Hn. unfold mbind at 1, cmd_bind at 1.
  destruct (note_structures wanted (each_ci desc mask) s) as [s1 [b | |]]; [| done | done]. destruct Hn as (E1 & E2 & E3 & _).
  assert (Hv : forall i sl, (i < nr_cis desc)%nat -> slices s1 !! i = Some sl -> exists sl0, slices s !! i = Some sl0
    /\ structure_value sl = if word_at structs i =? CI_EMPTY then structure_value sl0 else word_at structs i).
  { intros i sl Hi. rewrite E2. destruct (slices s !! i) as [sl0 |]; [| done]. cbn. intros [= <-]. exists sl0. split; [done |]. cbn.
    unfold noted, wanted. destruct (Hw i Hi) as [-> | (Hon & Hst & _)]; [by destruct (existsb _ _) |].
    assert (In i (each_ci desc mask)) as Hin by (by apply elem_of_each_ci). apply existsb_in in Hin. rewrite Hin.
    by destruct (word_at structs i =? CI_EMPTY). }
  assert (Ht : forall i, strip <$> slices s1 !! i = strip <$> slices s !! i).
  { intros i. rewrite E2. by destruct (slices s !! i). }
  assert (Hne : forall i, (i < nr_cis desc)%nat -> (word_at structs i =? CI_EMPTY) = false ->
    is_structure (word_at structs i) = true /\ is_structure (word_at (cmds s) i) = false).
  { intros i Hi E. destruct (Hw i Hi) as [E' | (_ & ? & ?)]; [| done]. rewrite E' in E. done. }
  destruct b.
  - pose proof (exec_void_sent structs s1) as Hsent. pose proof (sends_void structs s1) as Hc.
    unfold ci_exec_void_cmd in *. destruct (exec_cmd _ _ _ s1) as [s3 r]. destruct Hc as (C1 & C2 & _).
    assert (D1 : cmds s3 = cmds s) by (rewrite C1, E1; done). assert (D3 : sent s3 = structs :: sent s) by (rewrite Hsent, E1; done).
    assert (Hcoh : coherent s3).
    { destruct Hs as [Hl Hs]. split; [congruence |]. intros i sl Hi E. rewrite C2 in E. destruct (Hv i sl Hi E) as (sl0 & Es & Ev).
      destruct (Hs i sl0 Hi Es) as [A1 A2]. unfold agrees. rewrite D1, D3, Ev. cbn [structure_of].
      destruct (word_at structs i =? CI_EMPTY) eqn:Ee.
      - apply Z.eqb_eq in Ee. rewrite Ee, empty_not_structure. done.
      - destruct (Hne i Hi Ee) as [-> ->]. split; [by left | done]. }
    assert (Hex : forall i, (i < nr_cis desc)%nat -> executions i (sent s3) = executions i (sent s)
      /\ structure_of i (sent s3) = if word_at structs i =? CI_EMPTY then structure_of i (sent s) else Some (word_at structs i)).
    { intros i Hi. rewrite D3. cbn [executions structure_of]. destruct (word_at structs i =? CI_EMPTY) eqn:Ee; cbn [orb].
      - apply Z.eqb_eq in Ee. by rewrite Ee, empty_not_structure.
      - by destruct (Hne i Hi Ee) as [-> _]. }
    destruct r; [| | done]; (split_and!; [done | done | by rewrite C2 | intros ? ? i sl Hi _; by apply Hex]).
  - assert (s1 = s) as ->. { rewrite E1, (E3 eq_refl). by destruct s. }
    cbn. split_and!; [done.. |]. intros _ _ i sl Hi E. split; [done |]. destruct (Hv i sl Hi E) as (sl0 & Es & Ev).
    destruct (word_at structs i =? CI_EMPTY) eqn:Ee; [done |]. destruct (Hne i Hi Ee) as [Hst _].
    assert (sl0 = sl) as -> by congruence. by apply (coherent_given s i sl).
Qed.

(** The structures of the interfaces with another target. *)
Lemma structs_ready mask s s1 r : length (cmds s) = DPU_MAX_NR_CIS ->
  retargeted (each_ci desc mask) mask s s1 r ->
  forall i, (i < nr_cis desc)%nat -> word_at (structs_of r.2) i = CI_EMPTY
    \/ CI_MASK_ON r.1 i = true /\ is_structure (word_at (structs_of r.2) i) = true /\ is_structure (word_at (cmds s1) i) = false.
Proof.
  intros Hl (R1 & _ & _ & _) i Hi. destruct (structs_of_spec r.2 i) as [E | (E & x & Hx & Ex)]; [lia | by left | right].
  rewrite list.Forall_forall in R1. destruct (R1 x) as (X1 & X2 & X3); [by apply list_elem_of_In |]. rewrite Ex in X1, X2, X3.
  apply elem_of_each_ci in X1 as [_ X1]. split_and!; [congruence | done | apply X3; lia].
Qed.

Lemma each_ci_nodup mask : NoDup (each_ci desc mask).
Proof.
  unfold each_ci. rewrite for_each_ci_spec by (unfold DPU_MAX_NR_CIS in few_cis; lia).
  apply NoDup_ListNoDup, List.NoDup_filter, seq_NoDup.
Qed.

Lemma keeps_write_structure mask structure : is_structure structure = true -> keeps coherent (UFI_exec_write_structure desc mask structure).
Proof.
  intros Hst s Hs. pose proof (write_structure_spec mask structure s Hs Hst) as E.
  destruct (UFI_exec_write_structure desc mask structure s) as [s' [a | e |]]; [by destruct E.. | done].
Qed.

Lemma keeps_again {A} (k : list Z -> cmd (ci W) A) : (forall c, sends c (k c)) -> keeps coherent (read cmds ≫= k).
Proof.
  intros Hk s Hs. unfold mbind, cmd_bind, read. pose proof (Hk (cmds s) s) as E.
  destruct (k (cmds s) s) as [s' [a | e |]]; [| | done]; destruct E as (E1 & E2 & E3);
    (eapply coherent_again; [exact Hs | done | done |]); destruct E3 as [-> | [-> _]]; auto.
Qed.

Lemma keeps_exec_cmds : keeps coherent (exec_cmds desc).
Proof. apply keeps_again, sends_void. Qed.

Lemma keeps_select_frames mask choose : keeps coherent (select_frames desc mask choose).
Proof.
  intros s Hs. unfold select_frames, mbind, cmd_bind.
  pose proof (retarget_frames choose (each_ci desc mask) mask s (each_ci_nodup mask)) as Hr.
  pose proof (keeps_retarget choose (fun i t => set_cmd i (target_frame t)) (each_ci desc mask) mask) as Hk.
  specialize (Hk ltac:(intros i t; apply keeps_set_cmd; pose proof (target_frame_spec t) as Hf; unfold is_frame in Hf;
    apply andb_true_iff in Hf as [_ Hf]; by apply negb_true_iff) s Hs).
  destruct (retarget choose _ (each_ci desc mask) mask s) as [s1 [r | |]]; [| done | done].
  destruct (bool_decide (r.2 = [])); [done |].
  unfold UFI_exec_void_frames, mbind, cmd_bind.
  pose proof (write_structures_spec r.1 (structs_of r.2) s1 Hk (structs_ready mask s s1 r (proj1 Hs) Hr)) as Hw.
  destruct (UFI_exec_write_structures desc r.1 (structs_of r.2) s1) as [s2 [[] | |]]; [| by destruct Hw | done].
  destruct Hw as (Hc & _). pose proof (keeps_exec_cmds s2 Hc) as Hx. by destruct (exec_cmds desc s2) as [s3 [[] | |]].
Qed.

Lemma not_structure f : is_frame f = true -> is_structure f = false.
Proof. unfold is_frame. intros Hf. apply andb_true_iff in Hf as [_ Hf]. by apply negb_true_iff. Qed.

Lemma keeps_set_frames mask frame : (forall i f, frame i = Some f -> is_frame f = true) -> keeps coherent (set_frames (W := W) desc mask frame).
Proof.
  intros Hf. apply keeps_for_each. intros i. destruct (frame i) as [f |] eqn:Ef; [| by intros s].
  apply (keeps_set_cmd i f). by apply not_structure, (Hf i).
Qed.

Lemma keeps_send_word mask word : is_structure word = false ->
  keeps coherent (set_cmds (W := W) (ci_prepare_mask mask word) ≫= fun _ => exec_cmds desc).
Proof.
  intros Hw. apply keeps_bind; [| intros _; apply keeps_exec_cmds]. intros s [_ Hs]. split; [done |]. intros i sl Hi E.
  destruct (Hs i sl Hi E) as [A1 A2]. split; [done |]. cbn [cmds with_cmds]. rewrite word_at_prepared by done.
  destruct (CI_MASK_ON mask i); rewrite ?Hw, ?empty_not_structure; done.
Qed.
End cache.

(** * Sequences of operations *)

Inductive call :=
| Select_cis (mask : Z) | Select_all (mask : Z) | Select_all_even_disabled (mask : Z) | Select_group (mask group : Z)
| Select_dpu (mask dpu : Z) | Select_dpu_even_disabled (mask dpu : Z)
| Select_all_uncached (mask : Z) | Select_group_uncached (mask group : Z) | Select_dpu_uncached (mask dpu : Z)
| Write_group (mask group : Z) | Carousel_config (mask : Z) (config : dpu_carousel_config)
| Clear_debug_replace (mask : Z) | Clear_fault_poison (mask : Z) | Clear_fault_bkp (mask : Z) | Clear_fault_dma (mask : Z)
| Clear_fault_mem (mask : Z) | Clear_fault_dpu (mask : Z) | Clear_fault_intercept (mask : Z)
| Clear_run_bit (mask run_bit : Z) (previous : option (list Z))
| Iram_repair_config (mask : Z) (config : list dpu_repair_config) | Wram_repair_config (mask bank : Z) (config : list dpu_repair_config)
| Get_pc_mode (modes : list Z) (mask : Z) (pc_mode : list Z) | Set_pc_mode (mask : Z) (pc_mode : list Z)
| Set_stack_direction (mask : Z) (direction : list bool) (previous : option (list Z))
| Write_dma_ctrl (mask address data : Z) | Write_dma_ctrl_datas (mask address : Z) (datas : list Z)
| Read_dma_ctrl (mask : Z) (data : list Z) | Clear_dma_ctrl (mask : Z) | Set_mram_mux (mask ci_mux_pos : Z)
| Iram_write (mask : Z) (src : list (list Z)) (offset len : Z) | Iram_read (bytes : list Z) (mask : Z) (dst : list (list Z)) (offset len : Z)
| Wram_write (mask : Z) (src : list (list Z)) (offset len : Z) | Wram_read (words : list Z) (mask : Z) (dst : list (list Z)) (offset len : Z)
| Thread_boot (mask thread : Z) (previous : option (list Z)) | Thread_resume (mask thread : Z) (previous : option (list Z))
| Read_run_bit (mask run_bit : Z) (running : list Z) | Read_dpu_run (mask : Z) (run : list Z) | Read_dpu_fault (mask : Z) (fault : list Z)
| Set_dpu_fault_and_step (mask : Z) | Set_bkp_fault (mask : Z) | Set_poison_fault (mask : Z)
| Read_bkp_fault (mask : Z) (fault : option (list Z)) | Read_poison_fault (mask : Z) (fault : list Z)
| Read_and_clear_dma_fault (mask : Z) (fault : option (list Z)) | Read_and_clear_mem_fault (mask : Z) (fault : option (list Z))
| Read_bkp_fault_thread_index (mask : Z) (thread : list Z) | Read_dma_fault_thread_index (mask : Z) (thread : list Z)
| Read_mem_fault_thread_index (mask : Z) (thread : list Z)
| Debug_replace_stop (mask : Z) | Debug_pc_read (iram_size : Z) (lsb msb : list Z) (mask : Z) (pcs : list Z) | Debug_pc_sample (mask : Z).

(** Arguments of the widths of the code, where it matters. *)
Definition call_ok (c : call) : Prop :=
  match c with
  | Carousel_config _ config => 0 <= cmd_duration config < 256 /\ 0 <= res_duration config < 256 /\ 0 <= res_sampling config < 256
  | Select_group _ t | Select_group_uncached _ t | Select_dpu _ t | Select_dpu_even_disabled _ t | Select_dpu_uncached _ t => 0 <= t < 256
  | _ => True
  end.

Section calls.
Context {W : Type} `{driver W}.
Variable desc : hw_description.

(** The result is not looked at. *)
Definition drop {A} (m : cmd (ci W) A) : cmd (ci W) () := _ ← m; mret tt.

Definition perform (c : call) : cmd (ci W) () :=
  match c with
  | Select_cis m => drop (ufi_select_cis desc m) | Select_all m => drop (ufi_select_all desc m)
  | Select_all_even_disabled m => drop (ufi_select_all_even_disabled desc m) | Select_group m g => drop (ufi_select_group desc m g)
  | Select_dpu m d => drop (ufi_select_dpu desc m d) | Select_dpu_even_disabled m d => drop (ufi_select_dpu_even_disabled desc m d)
  | Select_all_uncached m => ufi_select_all_uncached desc m | Select_group_uncached m g => ufi_select_group_uncached desc m g
  | Select_dpu_uncached m d => ufi_select_dpu_uncached desc m d
  | Write_group m g => ufi_write_group desc m g | Carousel_config m c => ufi_carousel_config desc m c
  | Clear_debug_replace m => ufi_clear_debug_replace desc m | Clear_fault_poison m => ufi_clear_fault_poison desc m
  | Clear_fault_bkp m => ufi_clear_fault_bkp desc m | Clear_fault_dma m => ufi_clear_fault_dma desc m
  | Clear_fault_mem m => ufi_clear_fault_mem desc m | Clear_fault_dpu m => ufi_clear_fault_dpu desc m
  | Clear_fault_intercept m => ufi_clear_fault_intercept desc m
  | Clear_run_bit m b p => drop (ufi_clear_run_bit desc m b p)
  | Iram_repair_config m c => ufi_iram_repair_config desc m c | Wram_repair_config m b c => ufi_wram_repair_config desc m b c
  | Get_pc_mode l m p => drop (ufi_get_pc_mode desc l m p) | Set_pc_mode m p => ufi_set_pc_mode desc m p
  | Set_stack_direction m d p => drop (ufi_set_stack_direction desc m d p)
  | Write_dma_ctrl m a d => ufi_write_dma_ctrl desc m a d | Write_dma_ctrl_datas m a d => ufi_write_dma_ctrl_datas desc m a d
  | Read_dma_ctrl m d => drop (ufi_read_dma_ctrl desc m d) | Clear_dma_ctrl m => ufi_clear_dma_ctrl desc m
  | Set_mram_mux m p => ufi_set_mram_mux desc m p
  | Iram_write m src o n => ufi_iram_write desc m src o n | Iram_read b m dst o n => drop (ufi_iram_read desc b m dst o n)
  | Wram_write m src o n => ufi_wram_write desc m src o n | Wram_read b m dst o n => drop (ufi_wram_read desc b m dst o n)
  | Thread_boot m t p => drop (ufi_thread_boot desc m t p) | Thread_resume m t p => drop (ufi_thread_resume desc m t p)
  | Read_run_bit m b r => drop (ufi_read_run_bit desc m b r) | Read_dpu_run m r => drop (ufi_read_dpu_run desc m r)
  | Read_dpu_fault m f => drop (ufi_read_dpu_fault desc m f)
  | Set_dpu_fault_and_step m => ufi_set_dpu_fault_and_step desc m | Set_bkp_fault m => ufi_set_bkp_fault desc m
  | Set_poison_fault m => ufi_set_poison_fault desc m
  | Read_bkp_fault m f => drop (ufi_read_bkp_fault desc m f) | Read_poison_fault m f => drop (ufi_read_poison_fault desc m f)
  | Read_and_clear_dma_fault m f => drop (ufi_read_and_clear_dma_fault desc m f)
  | Read_and_clear_mem_fault m f => drop (ufi_read_and_clear_mem_fault desc m f)
  | Read_bkp_fault_thread_index m t => drop (ufi_read_bkp_fault_thread_index desc m t)
  | Read_dma_fault_thread_index m t => drop (ufi_read_dma_fault_thread_index desc m t)
  | Read_mem_fault_thread_index m t => drop (ufi_read_mem_fault_thread_index desc m t)
  | Debug_replace_stop m => ufi_debug_replace_stop desc m | Debug_pc_read i l b m p => drop (ufi_debug_pc_read desc i l b m p)
  | Debug_pc_sample m => ufi_debug_pc_sample desc m
  end.

(** The calls of a program that goes on whatever their status. *)
Fixpoint perform_all (calls : list call) : cmd (ci W) () :=
  match calls with
  | [] => mret tt
  | c :: calls => _ ← ignore (perform c); perform_all calls
  end.

Hypothesis few_cis : (nr_cis desc <= DPU_MAX_NR_CIS)%nat.

Lemma futur_not_structure k b : is_structure k = false -> 0 <= b < 256 -> is_structure (Z.lor k (place 0 b)) = false.
Proof.
  intros Hk Hb. unfold is_structure in *. rewrite Z.shiftr_lor, (shiftr_56_small (place 0 b)); [by rewrite Z.lor_0_r |].
  by apply place_byte.
Qed.

Lemma is_frame_fmap {A} (o : option A) (g : A -> Z) f : (forall a, is_frame (g a) = true) -> g <$> o = Some f -> is_frame f = true.
Proof. intros Hg. destruct o; [| done]. intros [= <-]. apply Hg. Qed.

(** The structures and frames of a command, by their shape. *)
Ltac frames :=
  match goal with
  | |- is_structure (CI_IRAM_WRITE_INSTRUCTION_STRUCT _) = true => apply iram_write_structure
  | |- is_structure (CI_WRAM_WRITE_WORD_STRUCT _) = true => apply wram_write_structure
  | |- is_structure _ = true => reflexivity
  | |- is_frame _ = true => apply packet_is_frame
  | |- forall _ _, _ = Some _ -> is_frame _ = true => intros ? ?; apply is_frame_fmap; intros ?; try apply packet_is_frame
  | |- is_structure _ = false => apply futur_not_structure; [reflexivity | lia]
  end.

Ltac kept :=
  repeat match goal with
  | |- forall _, keeps _ _ => intros ?
  | |- forall _ _, keeps _ _ => intros ? ?
  | |- keeps _ (let '(_, _) := ?x in _) => destruct x
  | |- keeps _ (UFI_exec_void_frame _ _ _ _) => apply keeps_void_frame; [done | frames | frames]
  | |- keeps _ (UFI_exec_8bit_frame _ _ _ _ _) => apply keeps_8bit_frame; [done | frames | frames]
  | |- keeps _ (UFI_exec_32bit_frame _ _ _ _ _) => apply keeps_32bit_frame; [done | frames | frames]
  | |- keeps _ (exec_frame _ _ _ _ _) => apply keeps_frame; [done | frames | frames]
  | |- keeps _ (exec_structure_frames _ _ _ _) => apply keeps_structure_frames; [done | frames | frames]
  | |- keeps _ (set_frames _ _ _) => apply keeps_set_frames; [done | frames]
  | |- keeps _ (exec_cmds _) => by apply keeps_exec_cmds
  | |- keeps _ (set_slice _ _) => apply keeps_set_slice; done
  | |- keeps _ (get_slice _) => apply keeps_get_slice
  | |- keeps _ (for_each _ _) => apply keeps_for_each
  | |- keeps _ (accumulate _ _ _) => apply keeps_accumulate
  | |- keeps _ (_ ≫= _) => apply keeps_bind
  | |- keeps _ (mret _) => apply keeps_ret
  | |- keeps _ (defined _) => apply keeps_defined
  | |- keeps _ (read _) => apply keeps_read
  end.

Lemma keeps_fill mask i : keeps (coherent desc) (ci_fill_selected_dpu_mask (W := W) mask i).
Proof.
  unfold ci_fill_selected_dpu_mask. apply keeps_bind; [apply keeps_get_slice |]. intros sl. destruct (slice_target sl); eauto with keeps.
Qed.

Lemma keeps_drop {A} I (m : cmd (ci W) A) : keeps I m -> keeps I (drop m).
Proof. intros Hm. apply keeps_bind; [done | eauto with keeps]. Qed.

Lemma keeps_select_uncached mask t structure frame : is_structure structure = true -> is_frame frame = true ->
  keeps (coherent desc) (select_uncached desc mask t structure frame).
Proof. intros. unfold select_uncached. kept. by apply keeps_void_frame. Qed.

Lemma keeps_iram_write mask src offset len : keeps (coherent desc) (ufi_iram_write desc mask src offset len).
Proof.
  unfold ufi_iram_write. apply keeps_for_each. intros j. cbv zeta.
  apply (keeps_send_frames desc few_cis mask _ _ (ci_exec_wait_mask_cmd desc)); [frames | frames | intros c; apply sends_wait_mask].
Qed.

Lemma keeps_wram_write mask src offset len : keeps (coherent desc) (ufi_wram_write desc mask src offset len).
Proof.
  unfold ufi_wram_write. apply keeps_for_each. intros j. cbv zeta.
  apply (keeps_send_frames desc few_cis mask _ _ (ci_exec_wait_mask_cmd desc)); [frames | frames | intros c; apply sends_wait_mask].
Qed.

Lemma keeps_iram_read bytes mask dst offset len : keeps (coherent desc) (ufi_iram_read desc bytes mask dst offset len).
Proof.
  unfold ufi_iram_read. apply keeps_bind; [| eauto with keeps]. apply keeps_accumulate. intros r j.
  apply keeps_accumulate_in. intros r' c Hc. assert (exists k st fr, c = (k, st, fr) /\ is_structure st = true /\ forall a, is_frame (fr a) = true) as (k & st & fr & -> & Hst & Hfr).
  { unfold iram_read_commands in Hc. repeat destruct Hc as [<- | Hc]; [do 3 eexists; split; [done |]; split; [done |]; intros a; apply packet_is_frame.. | done]. }
  apply keeps_bind; [by apply keeps_8bit_frame | kept].
Qed.

Lemma keeps_carousel mask config : call_ok (Carousel_config mask config) -> keeps (coherent desc) (ufi_carousel_config desc mask config).
Proof.
  cbn. intros (H1 & H2 & H3). unfold ufi_carousel_config.
  apply keeps_bind_pair; [apply (keeps_send_word desc few_cis mask); frames | intros _].
  do 3 (apply keeps_bind; [kept | intros _]).
  do 2 (apply keeps_bind_pair; [apply (keeps_send_word desc few_cis mask); frames | intros _]). kept.
Qed.

Lemma keeps_stack_direction mask direction previous : keeps (coherent desc) (ufi_set_stack_direction desc mask direction previous).
Proof.
  apply keeps_bind; [by apply keeps_write_structure | intros _]. apply keeps_bind; [| intros _].
  { apply keeps_set_frames; [done |]. intros i f. apply is_frame_fmap. intros []; apply packet_is_frame. }
  destruct previous as [previous |]; [| kept].
  apply keeps_bind_pair; [| kept]. apply keeps_again. intros c. apply sends_8bit.
Qed.

Lemma keeps_wram_repair mask bank config : keeps (coherent desc) (ufi_wram_repair_config desc mask bank config).
Proof.
  unfold ufi_wram_repair_config. apply keeps_bind; [by apply keeps_write_structure | intros _].
  kept. all: unfold ufi_clear_dma_ctrl; kept.
Qed.

Lemma keeps_perform c : call_ok c -> keeps (coherent desc) (perform c).
Proof.
  intros Hc. destruct c; cbn [perform]; try apply keeps_drop.
  all: match goal with
    | |- keeps _ (ufi_select_cis _ _) => apply keeps_bind; [| kept]; apply keeps_retarget; intros; apply keeps_ret
    | |- keeps _ (ufi_select_all _ _) => by apply keeps_select_frames
    | |- keeps _ (ufi_select_all_even_disabled _ _) => by apply keeps_select_frames
    | |- keeps _ (ufi_select_group _ _ _) => apply keeps_select_when; [done | frames | frames]
    | |- keeps _ (ufi_select_dpu _ _ _) => apply keeps_select_when; [done | frames | frames]
    | |- keeps _ (ufi_select_dpu_even_disabled _ _ _) => apply keeps_select_when; [done | frames | frames]
    | |- keeps _ (ufi_select_all_uncached _ _) => apply keeps_select_uncached; frames
    | |- keeps _ (ufi_select_group_uncached _ _ _) => apply keeps_select_uncached; frames
    | |- keeps _ (ufi_select_dpu_uncached _ _ _) => apply keeps_select_uncached; frames
    | |- keeps _ (ufi_write_group _ _ _) =>
        apply keeps_bind; [apply keeps_for_each; intros i; apply keeps_bind; [apply keeps_fill | kept] | kept]
    | |- keeps _ (ufi_carousel_config _ _ _) => by apply keeps_carousel
    | |- keeps _ (ufi_wram_repair_config _ _ _ _) => apply keeps_wram_repair
    | |- keeps _ (ufi_set_stack_direction _ _ _ _) => apply keeps_stack_direction
    | |- keeps _ (ufi_iram_write _ _ _ _ _) => apply keeps_iram_write
    | |- keeps _ (ufi_wram_write _ _ _ _ _) => apply keeps_wram_write
    | |- keeps _ (ufi_iram_read _ _ _ _ _ _) => apply keeps_iram_read
    | _ => idtac
    end.
  all: (cbv delta [ufi_clear_debug_replace ufi_clear_fault_poison ufi_clear_fault_bkp ufi_clear_fault_dma ufi_clear_fault_mem
    ufi_clear_fault_dpu ufi_clear_fault_intercept ufi_clear_run_bit ufi_iram_repair_config ufi_get_pc_mode ufi_set_pc_mode
    ufi_write_dma_ctrl ufi_write_dma_ctrl_datas ufi_read_dma_ctrl ufi_clear_dma_ctrl ufi_set_mram_mux ufi_wram_read ufi_thread_boot
    ufi_thread_resume ufi_read_run_bit ufi_read_dpu_run ufi_read_dpu_fault ufi_set_dpu_fault_and_step ufi_set_bkp_fault
    ufi_set_poison_fault ufi_read_bkp_fault ufi_read_poison_fault ufi_read_and_clear_dma_fault ufi_read_and_clear_mem_fault
    ufi_read_bkp_fault_thread_index ufi_read_dma_fault_thread_index ufi_read_mem_fault_thread_index ufi_debug_replace_stop
    ufi_debug_pc_read ufi_debug_pc_sample frame_of] beta zeta; kept; done).
Qed.

Lemma keeps_perform_all calls : Forall call_ok calls -> keeps (coherent desc) (perform_all calls).
Proof.
  induction calls as [| c calls IH]; intros Hc; cbn [perform_all]; [apply keeps_ret |]. apply list.Forall_cons in Hc as [Hc Hcs].
  apply keeps_bind; [by apply keeps_ignore, keeps_perform | intros _; by apply IH].
Qed.

(** Nothing has been given to the interfaces yet. *)
Definition fresh (s : ci W) : Prop :=
  length (cmds s) = DPU_MAX_NR_CIS /\ sent s = []
  /\ (forall i, (i < nr_cis desc)%nat -> is_frame (word_at (cmds s) i) = false /\ is_structure (word_at (cmds s) i) = false)
  /\ forall i sl, slices s !! i = Some sl -> is_structure (structure_value sl) = false /\ slice_target sl = DPU_SLICE_TARGET_NONE.

Lemma fresh_coherent s : fresh s -> coherent desc s.
Proof.
  intros (Hl & Hsent & Hw & Hs). split; [done |]. intros i sl Hi E. destruct (Hs i sl E) as [Hst _]. destruct (Hw i Hi) as [_ Hwi].
  unfold agrees. rewrite Hsent, Hwi. cbn. split; [by right | done].
Qed.



(** A command with a frame for each interface of a mask, under a structure:
    when it succeeds each of them has executed its own frame once, under the
    structure.  When all of them had the structure already, an interface outside
    of the mask executes again the frame the words of the rank still hold for it. *)
Theorem stale_frames_executed mask structure frame s s' :
  coherent desc s -> is_structure structure = true -> (forall i f, frame i = Some f -> is_frame f = true) ->
  exec_structure_frames desc mask structure frame s = (s', Return tt) ->
  forall i sl, (i < nr_cis desc)%nat -> slices s' !! i = Some sl ->
    if CI_MASK_ON mask i then exists f, frame i = Some f /\ executions i (sent s') = (Some structure, f) :: executions i (sent s)
    else executions i (sent s') = if in_place desc mask structure s && is_frame (word_at (cmds s) i)
                                  then (structure_of i (sent s), word_at (cmds s) i) :: executions i (sent s)
                                  else executions i (sent s).
Proof.
  intros Hs Hst Hf E. pose proof (send_frames_spec desc few_cis mask structure frame (ci_exec_void_cmd desc) s Hs Hst Hf (sends_void desc)) as Hx.
  change (exec_structure_frames desc mask structure frame) with (send_frames desc mask structure frame (ci_exec_void_cmd desc)) in E.
  rewrite E in Hx. destruct Hx as [_ Hx]. by destruct (Hx tt eq_refl).
Qed.
End calls.

(** * Interfaces that do what they are given *)

(** The state: the colours, and the last packet.  The results are valid, all DPUs
    answer, the bits of the colour alternate with each command. *)
Definition obedient : driver (Z * list Z) :=
  {| commit_commands w commands :=
       ((fold_left (fun c i => if word_at commands i =? CI_EMPTY then c else Z.lxor c (CI_MASK_ONE i)) (seq 0 8) w.1, commands), true);
     update_commands w :=
       (w, map (fun i => Z.lor 0x000000ff000000ff (if CI_MASK_ON w.1 i then 0 else 0x00ff000000000000)) (seq 0 8), true) |}.

Definition sample_rank : ci (Z * list Z) := sample_ci (0, []).

Definition sample_calls : list call :=
  [Select_all 3; Wram_write 1 [[5; 6]] 0 2; Select_dpu 2 3; Thread_boot 3 1 None].

Lemma sample_fresh : fresh sample_hw sample_rank.
Proof.
  split_and!; [done | done | |].
  - intros i Hi. cbn in Hi. do 2 (destruct i as [| i]; [done |]). lia.
  - intros i sl E. unfold sample_rank, sample_ci in E. cbn [slices] in E.
    apply lookup_replicate in E as [-> _]. done.
Qed.



(** A word is written at address 0 of both interfaces, then once more for the
    second interface: the first one writes its word again. *)
Definition sample_twice : ci (Z * list Z) :=
  (@perform_all _ obedient sample_hw [Select_all 3; Write_dma_ctrl 1 0x20 1; Write_dma_ctrl 2 0x20 2; Write_dma_ctrl 1 0x20 3] sample_rank).1.

Lemma stale_frames_executed_witness :
  let frame := fun i : nat => Some (ci_dma_ctrl_write_frame 0x21 4) in
  let r := @exec_structure_frames _ obedient sample_hw 2 CI_DMA_CTRL_WRITE_STRUCT frame sample_twice in
  executions 0 (sent r.1) = (Some CI_DMA_CTRL_WRITE_STRUCT, ci_dma_ctrl_write_frame 0x20 3) :: executions 0 (sent sample_twice)
  /\ executions 1 (sent r.1) = (Some CI_DMA_CTRL_WRITE_STRUCT, ci_dma_ctrl_write_frame 0x21 4) :: executions 1 (sent sample_twice).
Proof.
  intros frame r.
  assert (Hc : coherent sample_hw sample_twice).
  { pose proof (@keeps_perform_all _ obedient sample_hw ltac:(cbn; unfold DPU_MAX_NR_CIS; lia)
      [Select_all 3; Write_dma_ctrl 1 0x20 1; Write_dma_ctrl 2 0x20 2; Write_dma_ctrl 1 0x20 3]) as Hk.
    apply (keeps_run _ _ sample_rank (Hk ltac:(repeat constructor)) (fresh_coherent _ _ sample_fresh)). vm_compute. done. }
  pose proof (@stale_frames_executed _ obedient sample_hw ltac:(cbn; unfold DPU_MAX_NR_CIS; lia) 2 CI_DMA_CTRL_WRITE_STRUCT frame
    sample_twice r.1 Hc eq_refl ltac:(intros i f [= <-]; reflexivity) ltac:(vm_compute; reflexivity)) as Hx.
  split.
  - specialize (Hx 0%nat _ ltac:(cbn; lia) ltac:(vm_compute; reflexivity)). exact Hx.
  - specialize (Hx 1%nat _ ltac:(cbn; lia) ltac:(vm_compute; reflexivity)). destruct Hx as (f & [= <-] & ->). reflexivity.
Defined.
