(* ===== verification/UfiSelect.v ===== *)
(** Which DPUs the commands of the universal interface reach (Ufi.v): the rank
    notes the target it has given to each interface and does not select it again.
    The target of an interface is the one of the last selection it executed
    (UfiCache.v); while commands succeed it is the one the rank has noted.  A
    selection that fails is noted all the same, and the next one is then left
    out. *)
From stdpp Require Import list.
From S2P Require Import Prelude Errors Mask Status CiCommands Ci BitConfig Ufi UfiCache.

(** * Selections *)

(** What a frame executed under a structure selects, by the bytes of the frame. *)
Definition selection (x : option Z * Z) : option dpu_slice_target :=
  match x with
  | (None, _) => None
  | (Some structure, frame) =>
    if negb (Z.shiftr frame 56 =? 0x33) then None
    else if structure =? CI_SELECT_DPU_STRUCT then
      if byte_of 0 frame =? 0xa then Some (DPU_SLICE_TARGET_DPU (byte_of 1 frame))
      else if byte_of 0 frame =? 9 then Some (DPU_SLICE_TARGET_GROUP (byte_of 1 frame)) else None
    else if structure =? CI_SELECT_ALL_STRUCT then
      if byte_of 0 frame =? 8 then Some DPU_SLICE_TARGET_ALL else None
    else None
  end.

Fixpoint selected (l : list (option Z * Z)) : option dpu_slice_target :=
  match l with
  | [] => None
  | x :: l => match selection x with Some t => Some t | None => selected l end
  end.

(** A target the frames can carry. *)
Definition target_ok (t : dpu_slice_target) : Prop :=
  match t with
  | DPU_SLICE_TARGET_DPU d => 0 <= d < 256
  | DPU_SLICE_TARGET_GROUP g => 0 <= g < 256
  | _ => True
  end.

Lemma packet_kind kind l : Forall (fun b => 0 <= b < 256) l -> (length l <= 7)%nat -> Z.shiftr (packet kind l) 56 = kind.
Proof.
  intros Hl Hlen. unfold packet. rewrite place_bytes_kind by (done || lia). rewrite Z.shiftr_shiftl_l by done. by rewrite Z.shiftl_0_r.
Qed.

Lemma selection_dpu d : 0 <= d < 256 -> selection (Some CI_SELECT_DPU_STRUCT, CI_SELECT_DPU_FRAME d) = Some (DPU_SLICE_TARGET_DPU d).
Proof.
  intros Hd. assert (Hl : Forall (fun b => 0 <= b < 256) [0xa; d; 0xff; 2; 0; 0; 0]) by (repeat constructor; lia).
  unfold selection. unfold CI_SELECT_DPU_FRAME. rewrite (packet_kind 0x33 _ Hl) by (cbn; lia). rewrite !Z.eqb_refl. cbn [negb].
  pose proof (packet_byte 0x33 _ 0 0xa Hl ltac:(cbn; lia) eq_refl) as E0. pose proof (packet_byte 0x33 _ 1 d Hl ltac:(cbn; lia) eq_refl) as E1.
  change (Z.of_nat 0) with 0 in E0. change (Z.of_nat 1) with 1 in E1. by rewrite E0, E1.
Qed.

Lemma selection_group g : 0 <= g < 256 -> selection (Some CI_SELECT_GROUP_STRUCT, CI_SELECT_GROUP_FRAME g) = Some (DPU_SLICE_TARGET_GROUP g).
Proof.
  intros Hd. assert (Hl : Forall (fun b => 0 <= b < 256) [9; g; 0xff; 2; 0; 0; 0]) by (repeat constructor; lia).
  unfold selection. change CI_SELECT_GROUP_STRUCT with CI_SELECT_DPU_STRUCT. unfold CI_SELECT_GROUP_FRAME.
  rewrite (packet_kind 0x33 _ Hl) by (cbn; lia). rewrite !Z.eqb_refl. cbn [negb].
  pose proof (packet_byte 0x33 _ 0 9 Hl ltac:(cbn; lia) eq_refl) as E0. pose proof (packet_byte 0x33 _ 1 g Hl ltac:(cbn; lia) eq_refl) as E1.
  change (Z.of_nat 0) with 0 in E0. change (Z.of_nat 1) with 1 in E1. by rewrite E0, E1.
Qed.

Lemma selection_all : selection (Some CI_SELECT_ALL_STRUCT, CI_SELECT_ALL_FRAME) = Some DPU_SLICE_TARGET_ALL.
Proof. by vm_compute. Qed.

Lemma selected_again x l : selected (x :: x :: l) = selected (x :: l).
Proof. cbn. by destruct (selection x). Qed.

(** * Retargeting *)

Section select.
Context {W : Type} `{driver W}.
Variable desc : hw_description.
Hypothesis few_cis : (nr_cis desc <= DPU_MAX_NR_CIS)%nat.
Implicit Types s : ci W.

Definition chosen (choose : slice_info -> option choice) s (i : nat) : option choice := slices s !! i ≫= choose.

Definition store_frames (stored : bool) (i : nat) (t : dpu_slice_target) : cmd (ci W) () :=
  if stored then set_cmd i (target_frame t) else mret tt.

Definition after_choice (c : option choice) (o : option slice_info) : option slice_info :=
  match c with Some (Retarget t) => with_target t <$> o | _ => o end.

Definition retarget_result (choose : slice_info -> option choice) (stored : bool) (cis : list nat) (mask : Z) s s'
    (r : Z * list (nat * dpu_slice_target)) : Prop :=
  sent s' = sent s /\ length (cmds s') = length (cmds s)
  /\ (forall i, slices s' !! i = if existsb (Nat.eqb i) cis then after_choice (chosen choose s i) (slices s !! i) else slices s !! i)
  /\ (forall i, CI_MASK_ON r.1 i = CI_MASK_ON mask i && negb (existsb (Nat.eqb i) cis && bool_decide (chosen choose s i = Some Drop)))
  /\ (forall i t, In (i, t) r.2 <-> In i cis /\ chosen choose s i = Some (Retarget t))
  /\ (forall i, In i cis -> chosen choose s i <> None)
  /\ (forall i, (i < length (cmds s))%nat -> word_at (cmds s') i =
        match chosen choose s i with
        | Some (Retarget t) => if stored && existsb (Nat.eqb i) cis then target_frame t else word_at (cmds s) i
        | _ => word_at (cmds s) i
        end).

Lemma existsb_not_in i cis : ~ In i cis -> existsb (Nat.eqb i) cis = false.
Proof. intros Hi. destruct (existsb (Nat.eqb i) cis) eqn:E; [| done]. by apply existsb_in in E. Qed.

Lemma retarget_spec choose stored cis mask s : NoDup cis ->
  match retarget choose (store_frames stored) cis mask s with
  | (s', Return r) => retarget_result choose stored cis mask s s' r
  | (_, Failed _) => False
  | (_, Undefined) => True
  end.
Proof.
  revert mask s. induction cis as [| i cis IH]; intros mask s Hnd; cbn [retarget].
  { split_and!; try done.
    - intros i. cbn. by rewrite andb_true_r.
    - intros i t. split; [done | by intros []].
    - intros i Hi. cbn. rewrite andb_false_r. by destruct (chosen choose s i) as [[] |]. }
  apply list.NoDup_cons in Hnd as [Hni Hnd]. rewrite list_elem_of_In in Hni. specialize (fun mask s => IH mask s Hnd).
  unfold get_slice, read, defined, mbind, cmd_bind, mret, cmd_ret. destruct (slices s !! i) as [sl |] eqn:Ei; [| done]. cbv beta iota.
  destruct (choose sl) as [c |] eqn:Ec; [| done]. assert (Hch : chosen choose s i = Some c) by (unfold chosen; by rewrite Ei).
  set (mask1 := match c with Drop => Z.ldiff mask (CI_MASK_ONE i) | _ => mask end).
  set (s1 := match c with
    | Retarget t => with_slices (alter (with_target t) i (slices s)) (if stored then with_cmds (<[i := target_frame t]> (cmds s)) s else s)
    | _ => s end).
  assert (Hs1 : sent s1 = sent s /\ length (cmds s1) = length (cmds s)
    /\ (forall j, slices s1 !! j = if (j =? i)%nat then after_choice (Some c) (slices s !! j) else slices s !! j)
    /\ (forall j, j <> i -> chosen choose s1 j = chosen choose s j)
    /\ (forall j, (j < length (cmds s))%nat -> word_at (cmds s1) j =
          match c with Retarget t => if stored && (j =? i)%nat then target_frame t else word_at (cmds s) j | _ => word_at (cmds s) j end)).
  { assert (Hsl : forall j, slices s1 !! j = if (j =? i)%nat then after_choice (Some c) (slices s !! j) else slices s !! j).
    { intros j. unfold s1. destruct c as [| | t]; cbn [after_choice]; try (by destruct (j =? i)%nat). cbn [slices with_slices].
      destruct (Nat.eqb_spec j i) as [-> | Hne]; [rewrite list_lookup_alter, decide_True by done; done | by rewrite list_lookup_alter_ne]. }
    split_and!; [unfold s1; by destruct c, stored | unfold s1; destruct c, stored; cbn; by rewrite ?length_insert | exact Hsl | |].
    - intros j Hj. unfold chosen. rewrite Hsl. by destruct (Nat.eqb_spec j i).
    - intros j Hj. unfold s1. destruct c as [| | t]; try done. destruct stored; cbn [cmds with_slices with_cmds andb]; [| done].
      rewrite word_at_insert by done. by rewrite (Nat.eqb_sym i j). }
  destruct Hs1 as (D1 & D2 & D3 & D4 & D5).
  assert (Hgoal : match retarget choose (store_frames stored) cis mask1 s1 with
    | (s', Return r) => retarget_result choose stored (i :: cis) mask s s'
        (r.1, match c with Retarget t => (i, t) :: r.2 | _ => r.2 end)
    | (_, Failed _) => False | (_, Undefined) => True end).
  { specialize (IH mask1 s1). destruct (retarget choose (store_frames stored) cis mask1 s1) as [s' [r | |]]; [| done | done].
    destruct IH as (R1 & R2 & R3 & R4 & R5 & R6 & R7).
    assert (Hmask : forall j, CI_MASK_ON mask1 j = CI_MASK_ON mask j && negb ((j =? i)%nat && bool_decide (Some c = Some Drop))).
    { intros j. unfold mask1. destruct c; cbn [negb]; rewrite ?andb_false_r, ?andb_true_r; try done.
      rewrite mask_without, (Nat.eqb_sym i j). by destruct (j =? i)%nat. }
    split_and!; cbn [fst snd].
    - congruence.
    - congruence.
    - intros j. rewrite R3, D3. cbn [existsb]. destruct (Nat.eqb_spec j i) as [-> | Hne]; cbn [orb].
      + rewrite (existsb_not_in i cis Hni), Hch. done.
      + by rewrite D4.
    - intros j. rewrite R4, Hmask. cbn [existsb]. destruct (Nat.eqb_spec j i) as [-> | Hne]; cbn [orb].
      + rewrite (existsb_not_in i cis Hni), Hch. cbn [andb negb]. by rewrite andb_true_r.
      + rewrite D4 by done. cbn [andb negb]. by rewrite andb_true_r.
    - intros j t. assert (Htail : In (j, t) r.2 <-> In j cis /\ chosen choose s j = Some (Retarget t)).
      { rewrite R5. split; intros [Hj E]; (split; [done |]); assert (j <> i) by (intros ->; done); [by rewrite <- D4 | by rewrite D4]. }
      split.
      + intros Hin. assert (In (j, t) r.2 \/ (j = i /\ c = Retarget t)) as [Hin' | [-> ->]].
        { destruct c; auto. destruct Hin as [[= <- <-] |]; auto. }
        * apply Htail in Hin' as [Hj E]. split; [by right | done].
        * split; [by left | done].
      + intros [[<- | Hj] E].
        * assert (c = Retarget t) as -> by congruence. by left.
        * assert (In (j, t) r.2) by (by apply Htail). destruct c; [done | done | by right].
    - intros j [<- | Hj]; [by rewrite Hch |]. rewrite <- D4; [by apply R6 |]. by intros ->.
    - intros j Hj. rewrite R7, D5 by (rewrite ?D2; done). cbn [existsb]. destruct (Nat.eqb_spec j i) as [-> | Hne]; cbn [orb].
      + rewrite Hch. rewrite (existsb_not_in i cis Hni), !andb_false_r, andb_true_r. unfold chosen. rewrite D3, Nat.eqb_refl, Ei.
        destruct c as [| | t]; cbn [after_choice]; cbn; [by rewrite Ec | by rewrite Ec |]. by destruct (choose (with_target t sl)) as [[] |].
      + rewrite D4 by done. rewrite andb_false_r. by destruct c. }
  clear IH. destruct c as [| | t].
  - unfold mask1, s1 in Hgoal. destruct (retarget _ _ _ _ _) as [s' [r | |]]; [by destruct r | done | done].
  - unfold mask1, s1 in Hgoal. destruct (retarget _ _ _ _ _) as [s' [r | |]]; [by destruct r | done | done].
  - unfold mask1, s1 in Hgoal. unfold store_frames at 1, set_cmd, update.
    assert (Hset : forall s0, slices s0 !! i = Some sl -> set_slice i (with_target t) s0 = (with_slices (alter (with_target t) i (slices s0)) s0, Return tt)).
    { intros s0 E0. unfold set_slice, get_slice, read, mbind, cmd_bind, defined, update. by rewrite E0. }
    destruct stored; cbv beta iota; unfold mret, cmd_ret; cbv beta iota; rewrite Hset by done; cbn [slices with_cmds];
      destruct (retarget choose _ cis mask _) as [s' [r | |]]; done.
Qed.

(** * The targets noted are those selected *)

(** The words of the rank are the last packet, or nothing that is executed. *)
Definition repeated s : Prop :=
  (exists rest, sent s = cmds s :: rest) \/ forall i, (i < nr_cis desc)%nat -> is_frame (word_at (cmds s) i) = false.

Definition target_agrees (i : nat) (sl : slice_info) s : Prop :=
  slice_target sl = DPU_SLICE_TARGET_NONE \/ selected (executions i (sent s)) = Some (slice_target sl).

Definition tracked s : Prop :=
  coherent desc s /\ repeated s /\ forall i sl, (i < nr_cis desc)%nat -> slices s !! i = Some sl -> target_agrees i sl s.

Lemma stale_again s i : repeated s -> (i < nr_cis desc)%nat -> is_frame (word_at (cmds s) i) = true ->
  selected ((structure_of i (sent s), word_at (cmds s) i) :: executions i (sent s)) = selected (executions i (sent s)).
Proof.
  intros [[rest E] | Hno] Hi Hf; [| by rewrite Hno in Hf]. rewrite E. cbn [structure_of executions]. rewrite not_structure by done.
  unfold is_frame in Hf. apply andb_true_iff in Hf as [Hf _]. apply negb_true_iff in Hf. rewrite Hf. cbn [orb]. apply selected_again.
Qed.

Lemma settled_slice s s' i sl' : settled s s' -> slices s' !! i = Some sl' ->
  exists sl, slices s !! i = Some sl /\ slice_target sl = slice_target sl'.
Proof.
  intros [Ht _] E. specialize (Ht i). rewrite E in Ht. destruct (slices s !! i) as [sl |]; [| done].
  exists sl. split; [done |]. injection Ht as _ Ht _ _ _ _. by rewrite Ht.
Qed.

Lemma selected_other x l : selection x = None -> selected (x :: l) = selected l.
Proof. intros E. cbn. by rewrite E. Qed.

(** A frame that is not a selection. *)
Lemma tracked_frame {A} mask structure frame (k : list Z -> cmd (ci W) A) :
  is_structure structure = true -> is_frame frame = true -> (forall c, sends c (k c)) -> selection (Some structure, frame) = None ->
  triple tracked (send_frame desc mask structure frame k) (fun _ => tracked).
Proof.
  intros Hst Hf Hk Hsel s (Hc & Hr & Hs). pose proof (send_frame_spec desc few_cis mask structure frame k s Hc Hst Hf Hk) as E.
  destruct (send_frame desc mask structure frame k s) as [s' [a | e |]]; [| done | done]. destruct E as [Hc' E]. destruct (E a eq_refl) as [Hset Hex].
  split_and!; [done | left; apply Hset |]. intros i sl' Hi E'. destruct (settled_slice _ _ _ _ Hset E') as (sl & Es & Et).
  unfold target_agrees. rewrite <- Et, (Hex i sl' Hi E'). destruct (CI_MASK_ON mask i); [rewrite selected_other by done |]; by apply Hs.
Qed.

Lemma tracked_frames {A} mask structure frame (k : list Z -> cmd (ci W) A) :
  is_structure structure = true -> (forall i f, frame i = Some f -> is_frame f = true) -> (forall c, sends c (k c)) ->
  (forall i f, frame i = Some f -> selection (Some structure, f) = None) ->
  triple tracked (send_frames desc mask structure frame k) (fun _ => tracked).
Proof.
  intros Hst Hf Hk Hsel s (Hc & Hr & Hs). pose proof (send_frames_spec desc few_cis mask structure frame k s Hc Hst Hf Hk) as E.
  destruct (send_frames desc mask structure frame k s) as [s' [a | e |]]; [| done | done]. destruct E as [Hc' E]. destruct (E a eq_refl) as [Hset Hex].
  split_and!; [done | left; apply Hset |]. intros i sl' Hi E'. destruct (settled_slice _ _ _ _ Hset E') as (sl & Es & Et).
  specialize (Hex i sl' Hi E'). unfold target_agrees. rewrite <- Et. destruct (CI_MASK_ON mask i).
  - destruct Hex as (f & Ef & ->). rewrite selected_other by (by apply (Hsel i)). by apply Hs.
  - rewrite Hex. destruct (in_place desc mask structure s); cbn [andb]; [| by apply Hs].
    destruct (is_frame (word_at (cmds s) i)) eqn:Ew; [rewrite stale_again by done |]; by apply Hs.
Qed.

(** A selection for the interfaces of a mask that have its target noted. *)
Definition pending (mask : Z) (t : dpu_slice_target) s : Prop :=
  coherent desc s /\ forall i sl, (i < nr_cis desc)%nat -> slices s !! i = Some sl ->
    if CI_MASK_ON mask i then slice_target sl = t else target_agrees i sl s.

Lemma tracked_selection mask t structure frame :
  is_structure structure = true -> is_frame frame = true -> selection (Some structure, frame) = Some t ->
  triple (pending mask t) (UFI_exec_void_frame desc mask structure frame) (fun _ => tracked).
Proof.
  intros Hst Hf Hsel s (Hc & Hs).
  pose proof (send_frame_spec desc few_cis mask structure frame (ci_exec_void_cmd desc) s Hc Hst Hf (sends_void desc)) as E.
  change (UFI_exec_void_frame desc mask structure frame) with (send_frame desc mask structure frame (ci_exec_void_cmd desc)).
  destruct (send_frame desc mask structure frame (ci_exec_void_cmd desc) s) as [s' [a | e |]]; [| done | done].
  destruct E as [Hc' E]. destruct (E a eq_refl) as [Hset Hex].
  split_and!; [done | left; apply Hset |]. intros i sl' Hi E'. destruct (settled_slice _ _ _ _ Hset E') as (sl & Es & Et).
  specialize (Hex i sl' Hi E'). specialize (Hs i sl Hi Es). unfold target_agrees in *. rewrite <- Et, Hex. destruct (CI_MASK_ON mask i).
  - right. cbn [selected]. by rewrite Hsel, Hs.
  - done.
Qed.

(** ** One target for all *)

Definition directs (choose : slice_info -> option choice) (t : dpu_slice_target) : Prop := forall sl,
  match choose sl with Some Keep => slice_target sl = t | Some (Retarget t') => t' = t | _ => True end.

Lemma tracked_select_when mask choose t structure frame :
  is_structure structure = true -> is_frame frame = true -> selection (Some structure, frame) = Some t -> directs choose t ->
  triple tracked (select_when desc mask choose structure frame) (fun mask' s => tracked s
    /\ forall i sl, on_mask desc mask' i -> slices s !! i = Some sl -> slice_target sl = t).
Proof.
  intros Hst Hf Hsel Hdir s (Hc & Hr & Hs). unfold select_when. unfold mbind at 1, cmd_bind at 1.
  pose proof (retarget_spec choose false (each_ci desc mask) mask s (each_ci_nodup desc few_cis mask)) as E.
  pose proof (keeps_retarget desc choose no_store (each_ci desc mask) mask (fun i t => keeps_ret _ tt) s Hc) as Hk.
  change (store_frames false) with (@no_store W) in E.
  destruct (retarget choose no_store (each_ci desc mask) mask s) as [s1 [r | |]]; [| done | done].
  destruct E as (R1 & R2 & R3 & R4 & R5 & R6 & R7).
  assert (Htgt : forall i sl, (i < nr_cis desc)%nat -> slices s1 !! i = Some sl -> CI_MASK_ON r.1 i = true -> slice_target sl = t).
  { intros i sl Hi E Hon. rewrite R3 in E. rewrite R4 in Hon. apply andb_true_iff in Hon as [Hon Hnd].
    assert (Hin : In i (each_ci desc mask)) by (by apply elem_of_each_ci).
    specialize (R6 i Hin). apply existsb_in in Hin. rewrite Hin in E, Hnd. cbn [andb] in Hnd. unfold chosen in *.
    destruct (slices s !! i) as [sl0 |] eqn:Es; cbn in E, Hnd, R6; [| done]. specialize (Hdir sl0). destruct (choose sl0) as [[| | t'] |]; cbn in E.
    - injection E as <-. done.
    - by rewrite bool_decide_true in Hnd.
    - injection E as <-. done.
    - done. }
  assert (Hkept : forall i sl, slices s1 !! i = Some sl -> CI_MASK_ON r.1 i = false -> slices s !! i = Some sl).
  { intros i sl E Hoff. rewrite R3 in E. rewrite R4 in Hoff. destruct (existsb (Nat.eqb i) (each_ci desc mask)) eqn:Hin; [| done].
    apply existsb_in, elem_of_each_ci in Hin as [Hi Hon]; [| done]. rewrite Hon in Hoff. cbn [andb] in Hoff.
    apply negb_false_iff, bool_decide_eq_true in Hoff. rewrite Hoff in E. done. }
  unfold mbind, cmd_bind. destruct (bool_decide (r.2 = [])) eqn:Er.
  - apply bool_decide_eq_true in Er.
    assert (Hsame : forall i, slices s1 !! i = slices s !! i).
    { intros i. rewrite R3. destruct (existsb (Nat.eqb i) (each_ci desc mask)) eqn:Hin; [| done]. apply existsb_in in Hin.
      specialize (R5 i). destruct (chosen choose s i) as [[| | t'] |]; cbn [after_choice]; try done.
      assert (In (i, t') r.2) as Hx by (by apply R5). by rewrite Er in Hx. }
    assert (Hcmds : cmds s1 = cmds s).
    { apply (nth_ext _ _ 0 0); [done |]. rewrite R2. intros n Hn. specialize (R7 n Hn). unfold word_at in R7. rewrite R7.
      by destruct (chosen choose s n) as [[] |]. }
    cbn [mret cmd_ret]. split; [split_and!; [exact Hk | |] |].
    + unfold repeated. by rewrite R1, Hcmds.
    + intros i sl Hi E. rewrite Hsame in E. unfold target_agrees. rewrite R1. by apply Hs.
    + intros i sl [Hi Hon] E. by apply (Htgt i).
  - assert (Hpend : pending r.1 t s1).
    { split; [done |]. intros i sl Hi E. destruct (CI_MASK_ON r.1 i) eqn:Hon; [by apply (Htgt i) |].
      unfold target_agrees. rewrite R1. by apply Hs, Hkept. }
    pose proof (tracked_selection r.1 t structure frame Hst Hf Hsel s1 Hpend) as Hx.
    pose proof (send_frame_spec desc few_cis r.1 structure frame (ci_exec_void_cmd desc) s1 Hk Hst Hf (sends_void desc)) as Hset.
    change (UFI_exec_void_frame desc r.1 structure frame) with (send_frame desc r.1 structure frame (ci_exec_void_cmd desc)) in *.
    destruct (send_frame desc r.1 structure frame (ci_exec_void_cmd desc) s1) as [s2 [[] | |]]; [| done | done].
    split; [done |]. intros i sl [Hi Hon] E. destruct Hset as [_ Hset]. destruct (Hset tt eq_refl) as [Hset' _].
    destruct (settled_slice _ _ _ _ Hset' E) as (sl1 & E1 & <-). by apply (Htgt i).
Qed.

(** ** A target of its own for each interface *)

Lemma structs_of_at l i t : (forall t', In (i, t') l -> t' = t) -> (exists t', In (i, t') l) -> (i < DPU_MAX_NR_CIS)%nat ->
  word_at (structs_of l) i = target_struct t.
Proof.
  intros Huniq Hex Hi. unfold structs_of.
  assert (Hgen : forall acc, length acc = DPU_MAX_NR_CIS -> word_at acc i = target_struct t \/ (exists t', In (i, t') l) ->
    word_at (fold_left (fun structs x => <[x.1 := target_struct x.2]> structs) l acc) i = target_struct t).
  { clear Hex. induction l as [| [j u] l IH]; intros acc Ha Hor; cbn [fold_left].
    { destruct Hor as [| [t' []]]; done. }
    apply IH; [intros t' Ht'; apply Huniq; by right | by rewrite length_insert |]. cbn [fst snd]. rewrite word_at_insert by lia.
    destruct (Nat.eqb_spec j i) as [-> | Hne]; [left; f_equal; apply Huniq; by left |].
    destruct Hor as [Ha' | [t' [[= -> _] | Ht']]]; [by left | done | right; by exists t']. }
  apply Hgen; [done | by right].
Qed.

Lemma selection_target t : target_ok t -> t <> DPU_SLICE_TARGET_NONE -> (forall d, t <> DPU_SLICE_TARGET_DPU d) ->
  selection (Some (target_struct t), target_frame t) = Some t.
Proof. intros Hok Hn Hd. destruct t as [| d | | g]; [done | by destruct (Hd d) | apply selection_all | by apply selection_group]. Qed.

(** The target that is chosen, from what the slice has of DPUs. *)
Definition aims (choose : slice_info -> option choice) (f : slice_info -> dpu_slice_target) : Prop :=
  (forall sl, match choose sl with Some Keep => slice_target sl = f sl | Some (Retarget t) => t = f sl | _ => True end)
  /\ (forall sl, f (strip sl) = f sl) /\ (forall sl t, f (with_target t sl) = f sl)
  /\ forall sl, target_ok (f sl) /\ f sl <> DPU_SLICE_TARGET_NONE /\ forall d, f sl <> DPU_SLICE_TARGET_DPU d.

Lemma settled_strip s s' i sl' : strip <$> slices s' !! i = strip <$> slices s !! i -> slices s' !! i = Some sl' ->
  exists sl, slices s !! i = Some sl /\ strip sl = strip sl'.
Proof. intros E E'. rewrite E' in E. destruct (slices s !! i) as [sl |]; [| done]. exists sl. split; [done |]. change (Some (strip sl') = Some (strip sl)) in E. congruence. Qed.

Lemma tracked_select_frames mask choose f : aims choose f ->
  triple tracked (select_frames desc mask choose) (fun mask' s => tracked s
    /\ forall i sl, on_mask desc mask' i -> slices s !! i = Some sl -> slice_target sl = f sl).
Proof.
  intros (Haim & Hstrip & Htarget & Hgood) s (Hc & Hr & Hs). unfold select_frames. unfold mbind at 1, cmd_bind at 1.
  pose proof (each_ci_nodup desc few_cis mask) as Hnd.
  pose proof (retarget_spec choose true (each_ci desc mask) mask s Hnd) as E.
  pose proof (retarget_frames choose (each_ci desc mask) mask s Hnd) as Hready.
  pose proof (keeps_retarget desc choose (store_frames true) (each_ci desc mask) mask) as Hk.
  specialize (Hk ltac:(intros i t; apply keeps_set_cmd; [done |]; apply not_structure, target_frame_spec) s Hc).
  change (fun i t => set_cmd i (target_frame t)) with (store_frames true) in *.
  destruct (retarget choose (store_frames true) (each_ci desc mask) mask s) as [s1 [r | |]]; [| done | done].
  destruct E as (R1 & R2 & R3 & R4 & R5 & R6 & R7).
  assert (Hlen : length (cmds s) = DPU_MAX_NR_CIS) by (by destruct Hc).
  (* the slices after the choice *)
  assert (Hchosen : forall i sl, (i < nr_cis desc)%nat -> slices s1 !! i = Some sl ->
    (exists t, In (i, t) r.2 /\ t = f sl /\ slice_target sl = t /\ word_at (cmds s1) i = target_frame t)
    \/ slices s !! i = Some sl /\ word_at (cmds s1) i = word_at (cmds s) i /\ (forall t, ~ In (i, t) r.2)
       /\ (CI_MASK_ON r.1 i = true -> slice_target sl = f sl)).
  { intros i sl Hi E. rewrite R3 in E. specialize (R7 i ltac:(lia)). specialize (R5 i). specialize (R6 i). specialize (R4 i).
    destruct (existsb (Nat.eqb i) (each_ci desc mask)) eqn:Hin.
    - assert (Hin' := Hin). apply existsb_in in Hin'. specialize (R6 Hin'). unfold chosen in *.
      destruct (slices s !! i) as [sl0 |] eqn:Es; [| by destruct R6]. cbn in R4, R5, R6, R7, E. specialize (Haim sl0).
      destruct (choose sl0) as [[| | t] |]; cbn in E, R7.
      + right. injection E as <-. split_and!; [done | done | | done]. intros t Ht. apply R5 in Ht as [_ Ht]. done.
      + right. injection E as <-. split_and!; [done | done | |]. { intros t Ht. apply R5 in Ht as [_ Ht]. done. }
        rewrite R4, bool_decide_true by done. rewrite andb_false_r. done.
      + left. injection E as <-. exists t. split_and!; [by apply R5 | by rewrite Htarget | done | done].
      + done.
    - right. split_and!; [done | | |].
      + rewrite R7. destruct (chosen choose s i) as [[| | t] |]; by cbn.
      + intros t Ht. apply R5 in Ht as [Ht _]. apply existsb_in in Ht. congruence.
      + rewrite R4. cbn [andb negb]. rewrite andb_true_r. intros Hon. exfalso.
        assert (In i (each_ci desc mask)) as Hx by (by apply elem_of_each_ci). apply existsb_in in Hx. congruence. }
  unfold mbind, cmd_bind. destruct (bool_decide (r.2 = [])) eqn:Er.
  - apply bool_decide_eq_true in Er.
    assert (Hsame : forall i sl, (i < nr_cis desc)%nat -> slices s1 !! i = Some sl -> slices s !! i = Some sl
      /\ word_at (cmds s1) i = word_at (cmds s) i /\ (CI_MASK_ON r.1 i = true -> slice_target sl = f sl)).
    { intros i sl Hi E. destruct (Hchosen i sl Hi E) as [(t & Ht & _) | (? & ? & _ & ?)]; [by rewrite Er in Ht | done]. }
    assert (Hcmds : cmds s1 = cmds s).
    { apply (nth_ext _ _ 0 0); [done |]. rewrite R2. intros n Hn. specialize (R7 n Hn). unfold word_at in R7. rewrite R7.
      specialize (R5 n). destruct (chosen choose s n) as [[| | t] |]; try done. cbn [andb].
      destruct (existsb (Nat.eqb n) (each_ci desc mask)) eqn:Hin; [| done]. apply existsb_in in Hin.
      assert (In (n, t) r.2) as Hx by (by apply R5). by rewrite Er in Hx. }
    cbn [mret cmd_ret]. split; [split_and!; [exact Hk | |] |].
    + unfold repeated. by rewrite R1, Hcmds.
    + intros i sl Hi E. unfold target_agrees. rewrite R1. apply Hs; [done |]. by apply Hsame.
    + intros i sl [Hi Hon] E. by apply (Hsame i sl Hi E).
  - unfold UFI_exec_void_frames. unfold mbind at 1, cmd_bind at 1.
    pose proof (structs_ready desc few_cis mask s s1 r Hlen Hready) as Hst.
    pose proof (write_structures_spec desc few_cis r.1 (structs_of r.2) s1 Hk Hst) as Hw.
    destruct (UFI_exec_write_structures desc r.1 (structs_of r.2) s1) as [s2 [[] | |]]; [| done | done].
    destruct Hw as (Hc2 & Ec2 & Ht2 & Hx2). specialize (Hx2 tt eq_refl).
    unfold exec_cmds, mbind, cmd_bind, read. pose proof (sends_void desc (cmds s2) s2) as Hsend.
    destruct (ci_exec_void_cmd desc (cmds s2) s2) as [s3 [[] | |]]; [| done | done]. destruct Hsend as (C1 & C2 & C3).
    destruct C3 as [C3 | [_ C3]]; [| by destruct (C3 tt)].
    assert (Hc3 : coherent desc s3) by (eapply coherent_again; [exact Hc2 | done | done | by left]).
    assert (Hfin : forall i sl3, (i < nr_cis desc)%nat -> slices s3 !! i = Some sl3 ->
      target_agrees i sl3 s3 /\ (CI_MASK_ON r.1 i = true -> slice_target sl3 = f sl3)).
    { intros i sl3 Hi E3. rewrite C2 in E3. destruct (settled_strip s1 s2 i sl3 (Ht2 i) E3) as (sl1 & E1 & Estrip).
      assert (Etgt : slice_target sl1 = slice_target sl3) by (by injection Estrip).
      assert (Ef : f sl1 = f sl3) by (by rewrite <- (Hstrip sl1), Estrip, Hstrip).
      destruct (Hx2 i sl3 Hi E3) as [Hex Hso]. unfold target_agrees. rewrite C3. cbn [executions]. rewrite <- Etgt, <- Ef.
      destruct (Hchosen i sl1 Hi E1) as [(t & Hin & Et & Est & Ew) | (Es & Ew & Hnot & Hon)].
      - split; [| by rewrite Est]. right. rewrite Ec2, Ew. pose proof (target_frame_spec t) as Hf. rewrite (not_structure _ Hf).
        unfold is_frame in Hf. apply andb_true_iff in Hf as [Hf _]. apply negb_true_iff in Hf. rewrite Hf. cbn [orb].
        assert (Hstruct : word_at (structs_of r.2) i = target_struct t).
        { apply structs_of_at; [| by exists t | lia]. intros t' Ht'. apply R5 in Ht' as [_ Ht']. apply R5 in Hin as [_ Hin]. congruence. }
        rewrite Hstruct in Hso. pose proof (target_struct_spec t) as Hts. destruct (Z.eqb_spec (target_struct t) CI_EMPTY) as [E0 |].
        { rewrite E0 in Hts. done. }
        rewrite Hso. cbn [selected]. rewrite Est. destruct (Hgood sl1) as (G1 & G2 & G3). rewrite <- Et in G1, G2, G3.
        by rewrite (selection_target t).
      - split; [| done]. assert (Hempty : word_at (structs_of r.2) i = CI_EMPTY).
        { destruct (structs_of_spec r.2 i) as [| (_ & [j t] & Hin & Ej)]; [lia | done |]. cbn in Ej. subst j. by destruct (Hnot t). }
        rewrite Hempty in Hso. rewrite Z.eqb_refl in Hso. rewrite Ec2, Ew, Hex, Hso, R1.
        specialize (Hs i sl1 Hi Es). unfold target_agrees in Hs.
        destruct ((word_at (cmds s) i =? CI_EMPTY) || is_structure (word_at (cmds s) i)) eqn:Efr; [done |].
        rewrite stale_again; [done | done | done |]. unfold is_frame. apply orb_false_iff in Efr as [-> ->]. done. }
    cbn [mret cmd_ret]. split; [split_and!; [exact Hc3 | left; exists (sent s2); by rewrite C1, C3 |] |].
    + intros i sl Hi E. by apply Hfin.
    + intros i sl [Hi Hon] E. by apply (Hfin i sl Hi E).
Qed.

(** ** The words of the rank, changed in part *)

Definition harmless (word : Z) : Prop := is_structure word = false /\ forall o, selection (o, word) = None.

Lemma tracked_words {A} (change_words : cmd (ci W) ()) (k : list Z -> cmd (ci W) A) : (forall c, sends c (k c)) ->
  (forall s, length (cmds s) = DPU_MAX_NR_CIS ->
             match change_words s with
             | (s1, Return _) => s1 = with_cmds (cmds s1) s /\ length (cmds s1) = length (cmds s)
                 /\ forall i, (i < nr_cis desc)%nat -> word_at (cmds s1) i = word_at (cmds s) i \/ harmless (word_at (cmds s1) i)
             | _ => True
             end) ->
  triple tracked (change_words ≫= fun _ => read cmds ≫= k) (fun _ => tracked).
Proof.
  intros Hk Hch s (Hc & Hr & Hs). assert (Hl : length (cmds s) = DPU_MAX_NR_CIS) by (by destruct Hc).
  specialize (Hch s Hl). unfold mbind at 1, cmd_bind at 1. destruct (change_words s) as [s1 [[] | |]]; [| done | done]. destruct Hch as (E1 & E2 & E3).
  assert (Hc1 : coherent desc s1).
  { destruct Hc as [_ Hc]. split; [congruence |]. intros i sl Hi E. rewrite E1 in E. destruct (Hc i sl Hi E) as [A1 A2].
    unfold agrees. replace (sent s1) with (sent s) by (by rewrite E1). split; [done |].
    destruct (E3 i Hi) as [-> | [-> _]]; [done | done]. }
  assert (Hd1 : sent s1 = sent s /\ slices s1 = slices s) by (by rewrite E1). destruct Hd1 as [Hd1 Hd2].
  unfold mbind, cmd_bind, read. pose proof (Hk (cmds s1) s1) as Hsend.
  destruct (k (cmds s1) s1) as [s3 [a | |]]; [| done | done]. destruct Hsend as (C1 & C2 & C3).
  destruct C3 as [C3 | [_ C3]]; [| by destruct (C3 a)].
  split_and!; [by eapply coherent_again; [exact Hc1 | done | done | left] | left; exists (sent s1); by rewrite C1, C3 |].
  intros i sl Hi E. rewrite C2, Hd2 in E. specialize (Hs i sl Hi E). unfold target_agrees in *. rewrite C3, Hd1. cbn [executions].
  destruct ((word_at (cmds s1) i =? CI_EMPTY) || is_structure (word_at (cmds s1) i)) eqn:Efr; [done |].
  destruct (E3 i Hi) as [Ew | [_ Hsel]]; [| by rewrite selected_other].
  rewrite Ew in *. rewrite stale_again; [done | done | done |]. unfold is_frame. by apply orb_false_iff in Efr as [-> ->].
Qed.

Lemma harmless_empty : harmless CI_EMPTY.
Proof. split; [done | by intros []]. Qed.

Lemma tracked_send_word mask word : harmless word ->
  triple tracked (set_cmds (ci_prepare_mask mask word) ≫= fun _ => exec_cmds desc) (fun _ => tracked).
Proof.
  intros Hw. apply tracked_words; [apply sends_void |]. intros s Hl. unfold set_cmds, update. split_and!; [done | by rewrite Hl |].
  intros i Hi. right. cbn [cmds with_cmds]. rewrite (word_at_prepared desc few_cis) by done.
  destruct (CI_MASK_ON mask i); [done | apply harmless_empty].
Qed.

Lemma tracked_set_frames {A} mask frame (k : list Z -> cmd (ci W) A) : (forall i f, frame i = Some f -> harmless f) ->
  (forall c, sends c (k c)) -> triple tracked (set_frames desc mask frame ≫= fun _ => read cmds ≫= k) (fun _ => tracked).
Proof.
  intros Hf Hk. apply tracked_words; [done |]. intros s Hl. unfold set_frames.
  pose proof (for_each_set_cmd frame (each_ci desc mask) s) as E.
  match goal with |- context [for_each ?l ?g s] => change (for_each l _ s) with (for_each l g s) in E;
    destruct (for_each l g s) as [s1 [[] | |]] end; [| done | done].
  destruct E as (E1 & E2 & E3). split_and!; [done | done |]. intros i Hi. destruct (E3 i ltac:(lia)) as [-> Hex].
  destruct (existsb (Nat.eqb i) (each_ci desc mask)); [| by left]. destruct (Hex eq_refl) as [f Ef]. rewrite Ef. right. by apply (Hf i).
Qed.

(** ** The slices *)

Lemma tracked_set_slice f i : (forall sl, structure_value (f sl) = structure_value sl) -> (forall sl, slice_target (f sl) = slice_target sl) ->
  triple tracked (set_slice i f) (fun _ => tracked).
Proof.
  intros Hf Ht s (Hc & Hr & Hs). pose proof (set_slice_spec i f s) as E. destruct (set_slice i f s) as [s1 [[] | |]]; [| done | done].
  destruct E as (sl0 & E0 & ->). split_and!; [by apply coherent_slices | exact Hr |].
  intros j sl Hj. cbn [slices with_slices]. unfold target_agrees. cbn [sent with_slices]. destruct (Nat.eq_dec j i) as [-> | Hne].
  - rewrite list_lookup_alter, decide_True, E0 by done. cbn. intros [= <-]. rewrite Ht. by apply Hs.
  - rewrite list_lookup_alter_ne by done. by apply Hs.
Qed.

Lemma set_targets t cis s : NoDup cis ->
  match for_each cis (fun i => set_slice i (with_target t)) s with
  | (s', Return _) => cmds s' = cmds s /\ sent s' = sent s
      /\ forall i, slices s' !! i = if existsb (Nat.eqb i) cis then with_target t <$> slices s !! i else slices s !! i
  | (_, Failed _) => False
  | (_, Undefined) => True
  end.
Proof.
  revert s. induction cis as [| j cis IH]; intros s Hnd; cbn [for_each]; [done |].
  apply list.NoDup_cons in Hnd as [Hni Hnd]. rewrite list_elem_of_In in Hni. unfold mbind, cmd_bind.
  pose proof (set_slice_spec j (with_target t) s) as E. destruct (set_slice j (with_target t) s) as [s1 [[] | |]]; [| done | done].
  destruct E as (sl & E & Es1). specialize (IH s1 Hnd).
  match goal with |- context [for_each cis ?g s1] => change (for_each cis _ s1) with (for_each cis g s1) in IH; destruct (for_each cis g s1) as [s2 [[] | |]] end;
    [| done | done]. destruct IH as (I1 & I2 & I3). subst s1. split_and!; [done | done |]. intros i. rewrite I3. cbn [existsb slices with_slices].
  destruct (Nat.eqb_spec i j) as [-> | Hne]; cbn [orb].
  - rewrite existsb_not_in by done. by rewrite list_lookup_alter, decide_True.
  - by rewrite list_lookup_alter_ne.
Qed.

Lemma tracked_select_uncached mask t structure frame :
  is_structure structure = true -> is_frame frame = true -> selection (Some structure, frame) = Some t ->
  triple tracked (select_uncached desc mask t structure frame) (fun _ => tracked).
Proof.
  intros Hst Hf Hsel. apply (triple_seq _ _ _ (fun _ => pending mask t)); [| intros _; by apply tracked_selection].
  intros s (Hc & Hr & Hs). pose proof (set_targets t (each_ci desc mask) s (each_ci_nodup desc few_cis mask)) as E.
  pose proof (keeps_for_each (coherent desc) (each_ci desc mask) (fun i => set_slice i (with_target t))
    (fun i => keeps_set_slice desc (with_target t) i (fun _ => eq_refl)) s Hc) as Hk.
  destruct (for_each (each_ci desc mask) _ s) as [s1 [[] | |]]; [| done | done]. destruct E as (_ & E2 & E3).
  split; [done |]. intros i sl Hi E. rewrite E3 in E. destruct (CI_MASK_ON mask i) eqn:Eon.
  - assert (In i (each_ci desc mask)) as Hin by (by apply elem_of_each_ci). apply existsb_in in Hin. rewrite Hin in E.
    destruct (slices s !! i); [| done]. by injection E as <-.
  - rewrite existsb_not_in in E; [| intros Hin; apply elem_of_each_ci in Hin as [_ ?]; [congruence | done]].
    unfold target_agrees. rewrite E2. by apply Hs.
Qed.
End select.

(** * Sequences of operations *)

Lemma selection_struct structure frame :
  (structure =? CI_SELECT_DPU_STRUCT) = false -> (structure =? CI_SELECT_ALL_STRUCT) = false -> selection (Some structure, frame) = None.
Proof. unfold selection. intros -> ->. by destruct (negb (Z.shiftr frame 56 =? 0x33)). Qed.

Lemma selection_bit5 frame : Z.testbit frame 5 = true -> forall o, selection (o, frame) = None.
Proof.
  intros Hb [structure |]; [| done]. assert (Hbyte : Z.testbit (byte_of 0 frame) 5 = true) by (by rewrite byte_of_testbit).
  unfold selection. destruct (negb (Z.shiftr frame 56 =? 0x33)); [done |].
  destruct (Z.eqb_spec (byte_of 0 frame) 0xa) as [E |]; [by rewrite E in Hbyte |].
  destruct (Z.eqb_spec (byte_of 0 frame) 9) as [E |]; [by rewrite E in Hbyte |].
  destruct (Z.eqb_spec (byte_of 0 frame) 8) as [E |]; [by rewrite E in Hbyte |].
  by destruct (structure =? CI_SELECT_DPU_STRUCT), (structure =? CI_SELECT_ALL_STRUCT).
Qed.

Lemma selection_bit2 frame : Z.testbit frame 2 = true -> selection (Some CI_SELECT_DPU_STRUCT, frame) = None.
Proof.
  intros Hb. assert (Hbyte : Z.testbit (byte_of 0 frame) 2 = true) by (by rewrite byte_of_testbit).
  unfold selection. destruct (negb (Z.shiftr frame 56 =? 0x33)); [done |]. rewrite Z.eqb_refl.
  destruct (Z.eqb_spec (byte_of 0 frame) 0xa) as [E |]; [by rewrite E in Hbyte |].
  destruct (Z.eqb_spec (byte_of 0 frame) 9) as [E |]; [by rewrite E in Hbyte | done].
Qed.

Lemma place_low_bit b n : 0 <= n < 64 -> Z.testbit (place 0 b) n = Z.testbit b n.
Proof. intros Hn. unfold place. rewrite Z.shiftl_0_r. unfold u64, wrap. by rewrite !Z.mod_pow2_bits_low by lia. Qed.

Lemma packet_bit kind b l n : 0 <= n < 64 -> Z.testbit b n = true -> Z.testbit (packet kind (b :: l)) n = true.
Proof. intros Hn Hb. unfold packet. cbn [place_bytes]. apply place_bytes_bit. by rewrite Z.lor_spec, place_low_bit, Hb, orb_true_r. Qed.

Lemma structure_bit7 structure : Z.testbit structure 7 = true ->
  (structure =? CI_SELECT_DPU_STRUCT) = false /\ (structure =? CI_SELECT_ALL_STRUCT) = false.
Proof. intros Hb. split; apply Z.eqb_neq; intros ->; done. Qed.

Lemma harmless_futur k b : Z.shiftr k 56 = 1 -> 0 <= b < 256 -> harmless (Z.lor k (place 0 b)).
Proof.
  intros Hk Hb. assert (E : Z.shiftr (Z.lor k (place 0 b)) 56 = 1).
  { rewrite Z.shiftr_lor, (shiftr_56_small (place 0 b)), Hk; [done |]. by apply place_byte. }
  split; [unfold is_structure; by rewrite E |]. intros [o |]; [| done]. unfold selection. by rewrite E.
Qed.

Section tracking.
Context {W : Type} `{driver W}.
Variable desc : hw_description.
Hypothesis few_cis : (nr_cis desc <= DPU_MAX_NR_CIS)%nat.

Local Abbreviation tracked := (tracked (W := W) desc).
Definition tracks {A} (m : cmd (ci W) A) : Prop := triple tracked m (fun _ => tracked).

Lemma tracks_ret {A} (a : A) : tracks (mret a).
Proof. by apply triple_mret. Qed.

Lemma tracks_bind {A B} (m : cmd (ci W) A) (k : A -> cmd (ci W) B) : tracks m -> (forall a, tracks (k a)) -> tracks (m ≫= k).
Proof. intros Hm Hk. by apply (triple_seq _ _ _ (fun _ => tracked)). Qed.

Lemma tracks_bind_pair {A B C} (m1 : cmd (ci W) A) (m2 : A -> cmd (ci W) B) (k : B -> cmd (ci W) C) :
  tracks (m1 ≫= m2) -> (forall b, tracks (k b)) -> tracks (m1 ≫= fun a => m2 a ≫= k).
Proof.
  intros Hm Hk s Hs. specialize (Hm s Hs). unfold mbind, cmd_bind in *. destruct (m1 s) as [s1 [a | e |]]; [| done | done].
  destruct (m2 a s1) as [s2 [b | e |]]; [by apply (Hk b) | done | done].
Qed.

Lemma tracks_for_each {A} (l : list A) (f : A -> cmd (ci W) ()) : (forall a, tracks (f a)) -> tracks (for_each l f).
Proof. apply triple_for_each. Qed.

Lemma tracks_weaken {A} (m : cmd (ci W) A) (Q : A -> ci W -> Prop) : triple tracked m Q -> (forall a s, Q a s -> tracked s) -> tracks m.
Proof. intros Hm HQ. by eapply triple_mono. Qed.

Lemma tracks_void_frame mask structure frame : is_structure structure = true -> is_frame frame = true ->
  selection (Some structure, frame) = None -> tracks (UFI_exec_void_frame desc mask structure frame).
Proof. intros Hst Hf Hs. apply (tracked_frame desc few_cis mask structure frame (ci_exec_void_cmd desc) Hst Hf); [apply sends_void | done]. Qed.

Lemma tracks_8bit_frame mask structure frame results : is_structure structure = true -> is_frame frame = true ->
  selection (Some structure, frame) = None -> tracks (UFI_exec_8bit_frame desc mask structure frame results).
Proof.
  intros Hst Hf Hs. apply (tracked_frame desc few_cis mask structure frame (fun c => ci_exec_8bit_cmd desc c results) Hst Hf);
    [intros c; apply sends_8bit | done].
Qed.

Lemma tracks_32bit_frame mask structure frame results : is_structure structure = true -> is_frame frame = true ->
  selection (Some structure, frame) = None -> tracks (UFI_exec_32bit_frame desc mask structure frame results).
Proof.
  intros Hst Hf Hs. apply (tracked_frame desc few_cis mask structure frame (fun c => ci_exec_32bit_cmd desc c results) Hst Hf);
    [intros c; apply sends_32bit | done].
Qed.

Lemma tracks_frame mask structure frame results : is_structure structure = true -> is_frame frame = true ->
  selection (Some structure, frame) = None -> tracks (exec_frame desc mask structure frame results).
Proof.
  intros Hst Hf Hs. destruct results as [results |]; (apply tracks_bind; [| intros a; apply tracks_ret]);
    [by apply tracks_8bit_frame | by apply tracks_void_frame].
Qed.

Lemma tracks_structure_frames mask structure frame : is_structure structure = true ->
  (forall i f, frame i = Some f -> is_frame f = true) -> (forall i f, frame i = Some f -> selection (Some structure, f) = None) ->
  tracks (exec_structure_frames desc mask structure frame).
Proof. intros Hst Hf Hs. apply (tracked_frames desc few_cis mask structure frame (ci_exec_void_cmd desc)); [done | done | apply sends_void | done]. Qed.

Lemma tracks_write_structure mask structure : is_structure structure = true -> tracks (UFI_exec_write_structure desc mask structure).
Proof.
  intros Hst s (Hc & Hr & Hs). pose proof (write_structure_spec desc few_cis mask structure s Hc Hst) as E.
  destruct (UFI_exec_write_structure desc mask structure s) as [s' [[] | |]]; [| done | done].
  destruct E as (Hc' & Hx & _ & _ & Ht & Hw). split_and!; [done | |].
  - destruct (existsb _ _); [| by rewrite Hw]. right. intros i Hi. rewrite Hw, (word_at_prepared desc few_cis) by done.
    destruct (CI_MASK_ON mask i); [| done]. unfold is_frame. by rewrite Hst, andb_false_r.
  - intros i sl Hi E. destruct (settled_strip s s' i sl (Ht i) E) as (sl0 & E0 & Es). unfold target_agrees.
    assert (slice_target sl = slice_target sl0) as -> by (by injection Es). destruct (Hx i) as [-> |]; [by apply Hs | lia].
Qed.

(** The structures and frames of a command, by their shape. *)
Ltac shapes :=
  match goal with
  | |- is_structure (CI_IRAM_WRITE_INSTRUCTION_STRUCT _) = true => apply iram_write_structure
  | |- is_structure (CI_WRAM_WRITE_WORD_STRUCT _) = true => apply wram_write_structure
  | |- is_structure _ = true => vm_compute; reflexivity
  | |- is_frame _ = true => apply packet_is_frame
  | |- forall _ _, _ = Some _ -> is_frame _ = true => intros ? ?; apply is_frame_fmap; intros ?; try apply packet_is_frame
  | |- selection _ = None =>
      first [ apply selection_struct; [vm_compute; reflexivity | vm_compute; reflexivity]
            | apply selection_bit2; apply packet_bit; [lia | reflexivity]
            | vm_compute; reflexivity ]
  | |- forall _ _, _ = Some _ -> selection _ = None => intros ? ? _; apply selection_struct; reflexivity
  end.

Ltac tracked_op :=
  repeat match goal with
  | |- forall _, tracks _ => intros ?
  | |- forall _ _, tracks _ => intros ? ?
  | |- tracks (let '(_, _) := ?x in _) => destruct x
  | |- tracks (UFI_exec_void_frame _ _ _ _) => apply tracks_void_frame; [shapes | shapes | shapes]
  | |- tracks (UFI_exec_8bit_frame _ _ _ _ _) => apply tracks_8bit_frame; [shapes | shapes | shapes]
  | |- tracks (UFI_exec_32bit_frame _ _ _ _ _) => apply tracks_32bit_frame; [shapes | shapes | shapes]
  | |- tracks (exec_frame _ _ _ _ _) => apply tracks_frame; [shapes | shapes | shapes]
  | |- tracks (exec_structure_frames _ _ _ _) => apply tracks_structure_frames; [shapes | shapes | shapes]
  | |- tracks (get_slice _) => apply (triple_seq _ _ _ (fun _ => tracked)); [apply triple_read | intros ?; apply triple_defined]
  | |- tracks (set_slice _ _) => apply tracked_set_slice; done
  | |- tracks (for_each _ _) => apply tracks_for_each
  | |- tracks (_ ≫= _) => apply tracks_bind
  | |- tracks (mret _) => apply tracks_ret
  | |- tracks (defined _) => apply triple_defined
  | |- tracks (read _) => apply triple_read
  | |- tracks (error _) => by intros ? ?
  end.

Lemma tracks_fill i : tracks (ci_fill_selected_dpu_mask desc i).
Proof. unfold ci_fill_selected_dpu_mask. apply tracks_bind; [tracked_op |]. intros sl. destruct (slice_target sl); tracked_op. Qed.

Lemma tracks_wait_frames mask structure frame : is_structure structure = true ->
  (forall i f, frame i = Some f -> is_frame f = true) ->
  (structure =? CI_SELECT_DPU_STRUCT) = false /\ (structure =? CI_SELECT_ALL_STRUCT) = false ->
  tracks (send_frames desc mask structure frame (ci_exec_wait_mask_cmd desc)).
Proof.
  intros Hst Hf [H1 H2]. apply tracked_frames; [done | done | done | intros c; apply sends_wait_mask |].
  intros i f _. by apply selection_struct.
Qed.

Lemma tracks_iram_write mask src offset len : tracks (ufi_iram_write desc mask src offset len).
Proof.
  apply triple_for_each. intros j. cbv zeta. apply (tracks_wait_frames mask _ _); [shapes | shapes |].
  apply structure_bit7, packet_bit; [lia | done].
Qed.

Lemma tracks_wram_write mask src offset len : tracks (ufi_wram_write desc mask src offset len).
Proof.
  apply triple_for_each. intros j. cbv zeta. apply (tracks_wait_frames mask _ _); [shapes | shapes |].
  apply structure_bit7, packet_bit; [lia | done].
Qed.

Lemma tracks_iram_read bytes mask dst offset len : tracks (ufi_iram_read desc bytes mask dst offset len).
Proof.
  apply tracks_bind; [| tracked_op]. apply triple_accumulate. intros r j _.
  apply triple_accumulate. intros r' c Hc.
  assert (exists k st fr, c = (k, st, fr) /\ is_structure st = true /\ (forall a, is_frame (fr a) = true)
    /\ (st =? CI_SELECT_DPU_STRUCT) = false /\ (st =? CI_SELECT_ALL_STRUCT) = false) as (k & st & fr & -> & Hst & Hfr & Hs1 & Hs2).
  { unfold iram_read_commands in Hc. repeat destruct Hc as [<- | Hc];
      [do 3 eexists; split; [done |]; split; [done |]; split; [intros a; apply packet_is_frame | done].. | done]. }
  apply tracks_bind; [apply tracks_8bit_frame; [done | done | by apply selection_struct] | tracked_op].
Qed.

Lemma tracks_wram_read words mask dst offset len : tracks (ufi_wram_read desc words mask dst offset len).
Proof. apply tracks_bind; [| tracked_op]. apply triple_accumulate. intros r j _. apply tracks_bind; tracked_op. Qed.

Lemma tracks_carousel mask config : call_ok (Carousel_config mask config) -> tracks (ufi_carousel_config desc mask config).
Proof.
  cbn. intros (H1 & H2 & H3).
  apply tracks_bind_pair; [apply tracked_send_word; [exact few_cis | apply harmless_futur; [reflexivity | lia]] | intros _].
  do 3 (apply tracks_bind; [tracked_op | intros _]).
  do 2 (apply tracks_bind_pair; [apply tracked_send_word; [exact few_cis | apply harmless_futur; [reflexivity | lia]] | intros _]). tracked_op.
Qed.

Lemma harmless_repair bank b1 b2 b3 c : harmless (repair_frames (u8 (Z.lor 0x60 (Z.shiftl bank 2))) b1 b2 b3 c).
Proof.
  unfold repair_frames, CI_DMA_CTRL_WRITE_FRAME. split; [apply packet_frame |]. apply selection_bit5, packet_bit; [lia |].
  unfold u8, wrap. by rewrite Z.mod_pow2_bits_low, Z.lor_spec by lia.
Qed.

Lemma tracks_wram_repair mask bank config : tracks (ufi_wram_repair_config desc mask bank config).
Proof.
  unfold ufi_wram_repair_config, exec_cmds. cbv beta zeta. apply tracks_bind; [by apply tracks_write_structure | intros _].
  assert (Hf : forall b1 b2 b3 i f, frame_of config (repair_frames (u8 (Z.lor 0x60 (Z.shiftl bank 2))) b1 b2 b3) i = Some f -> harmless f).
  { intros b1 b2 b3 i f. unfold frame_of. destruct (config !! i); [intros [= <-]; apply harmless_repair | done]. }
  do 5 (apply tracks_bind; [by apply tracked_set_frames; [| apply Hf | apply sends_void] | intros _]).
  apply tracks_bind; [tracked_op | intros _]. unfold ufi_clear_dma_ctrl. tracked_op.
Qed.

Lemma tracks_stack_direction mask direction previous : tracks (ufi_set_stack_direction desc mask direction previous).
Proof.
  apply tracks_bind; [by apply tracks_write_structure | intros _].
  assert (Hf : forall i f, (fun up : bool => if up then CI_STACK_UP_READ_AND_SET_FRAME else CI_STACK_UP_READ_AND_CLR_FRAME) <$> direction !! i = Some f
    -> harmless f).
  { intros i f. destruct (direction !! i) as [[] |]; [| | done]; intros [= <-]; (split; [apply packet_frame | by apply selection_bit5]). }
  destruct previous as [previous |].
  - apply (tracked_set_frames desc) with (k := fun c => r ← ci_exec_8bit_cmd desc c previous; mret (Some r)); [done | exact Hf |].
    intros c. apply sends_map, sends_8bit.
  - apply tracks_bind_pair; [| tracked_op]. apply tracked_set_frames; [done | exact Hf | apply sends_void].
Qed.

(** What the operations aim at. *)
Definition aim_all (s : slice_info) : dpu_slice_target :=
  if all_dpus_are_enabled s then DPU_SLICE_TARGET_ALL else DPU_SLICE_TARGET_GROUP DPU_ENABLED_GROUP.

Lemma aims_all : aims (fun s => Some (choose_all s)) aim_all.
Proof.
  split_and!; [| done | done |].
  - intros sl. unfold choose_all, aim_all. destruct (all_dpus_are_enabled sl).
    + destruct (decide _); done.
    + destruct (decide _); [done |]. by destruct (enabled_dpus sl =? 0).
  - intros sl. unfold aim_all. by destruct (all_dpus_are_enabled sl).
Qed.

Lemma aims_all_even_disabled : aims (fun s => Some (choose_all_even_disabled s)) (fun _ => DPU_SLICE_TARGET_ALL).
Proof.
  split_and!; [| done | done | done]. intros sl. unfold choose_all_even_disabled. destruct (enabled_dpus sl =? 0); [done |].
  by destruct (decide _).
Qed.

Lemma directs_target (available : slice_info -> option bool) t :
  directs (fun s => b ← available s; Some (choose_target b t s)) t.
Proof.
  intros sl. destruct (available sl) as [b |]; [| done]. cbn. unfold choose_target. destruct b; [| done]. by destruct (decide _).
Qed.

Lemma select_dpu_spec mask d : 0 <= d < 256 ->
  triple tracked (ufi_select_dpu desc mask d) (fun mask' s => tracked s
    /\ forall i sl, on_mask desc mask' i -> slices s !! i = Some sl -> slice_target sl = DPU_SLICE_TARGET_DPU d).
Proof.
  intros Hd. apply tracked_select_when; [done | reflexivity | apply packet_is_frame | by apply selection_dpu |].
  apply (directs_target (fun s => Some (negb (Z.land (enabled_dpus s) (Z.shiftl 1 d) =? 0)))).
Qed.

Lemma tracks_select_group mask g : 0 <= g < 256 -> tracks (ufi_select_group desc mask g).
Proof.
  intros Hg. eapply tracks_weaken; [apply (tracked_select_when desc few_cis mask _ (DPU_SLICE_TARGET_GROUP g)) |].
  - reflexivity.
  - apply packet_is_frame.
  - by apply selection_group.
  - intros sl. cbn. unfold mbind, option_bind. destruct (load (dpus_per_group sl) g) as [dpus |]; [| done].
    unfold choose_target. destruct (negb (dpus =? 0)); [| done]. by destruct (decide _).
  - intros a s Hs. apply Hs.
Qed.

Lemma tracks_select_dpu_even_disabled mask d : 0 <= d < 256 -> tracks (ufi_select_dpu_even_disabled desc mask d).
Proof.
  intros Hd. eapply tracks_weaken; [apply (tracked_select_when desc few_cis mask _ (DPU_SLICE_TARGET_DPU d)) |].
  - reflexivity.
  - apply packet_is_frame.
  - by apply selection_dpu.
  - apply (directs_target (fun s => Some (negb (enabled_dpus s =? 0)))).
  - intros a s Hs. apply Hs.
Qed.

Lemma tracks_select_cis mask : tracks (ufi_select_cis desc mask).
Proof.
  intros s Hs. unfold ufi_select_cis, mbind, cmd_bind.
  set (choose := fun s => Some (if enabled_dpus s =? 0 then Drop else Keep)).
  assert (E : forall cis mask (s : ci W), match retarget choose no_store cis mask s with (s', Return _) => s' = s | _ => True end).
  { intros cis. induction cis as [| i cis IH]; intros m s0; cbn [retarget]; [done |].
    unfold get_slice, read, defined, mbind, cmd_bind, mret, cmd_ret. destruct (slices s0 !! i) as [sl |]; [| done]. cbv beta iota.
    unfold choose at 1. destruct (enabled_dpus sl =? 0); apply IH. }
  specialize (E (each_ci desc mask) mask s). destruct (retarget choose no_store (each_ci desc mask) mask s) as [s1 [r | |]]; [| done | done].
  by subst s1.
Qed.

Lemma tracks_drop {A} (m : cmd (ci W) A) : tracks m -> tracks (drop m).
Proof. intros Hm. apply tracks_bind; [done | tracked_op]. Qed.

Lemma tracks_perform c : call_ok c -> tracks (perform desc c).
Proof.
  intros Hc. destruct c; cbn [perform]; try apply tracks_drop.
  all: match goal with
    | |- tracks (ufi_select_cis _ _) => apply tracks_select_cis
    | |- tracks (ufi_select_all _ _) => eapply tracks_weaken; [apply tracked_select_frames; [done | apply aims_all] | by intros ? ? []]
    | |- tracks (ufi_select_all_even_disabled _ _) =>
        eapply tracks_weaken; [apply tracked_select_frames; [done | apply aims_all_even_disabled] | by intros ? ? []]
    | |- tracks (ufi_select_group _ _ _) => by apply tracks_select_group
    | |- tracks (ufi_select_dpu _ _ _) => eapply tracks_weaken; [by apply select_dpu_spec | by intros ? ? []]
    | |- tracks (ufi_select_dpu_even_disabled _ _ _) => by apply tracks_select_dpu_even_disabled
    | |- tracks (ufi_select_all_uncached _ _) => apply tracked_select_uncached; [done | reflexivity | apply packet_is_frame | apply selection_all]
    | |- tracks (ufi_select_group_uncached _ _ _) => apply tracked_select_uncached; [done | reflexivity | apply packet_is_frame | by apply selection_group]
    | |- tracks (ufi_select_dpu_uncached _ _ _) => apply tracked_select_uncached; [done | reflexivity | apply packet_is_frame | by apply selection_dpu]
    | |- tracks (ufi_write_group _ _ _) => unfold ufi_write_group; tracked_op; apply tracks_fill
    | |- tracks (ufi_carousel_config _ _ _) => by apply tracks_carousel
    | |- tracks (ufi_wram_repair_config _ _ _ _) => apply tracks_wram_repair
    | |- tracks (ufi_set_stack_direction _ _ _ _) => apply tracks_stack_direction
    | |- tracks (ufi_iram_write _ _ _ _ _) => apply tracks_iram_write
    | |- tracks (ufi_wram_write _ _ _ _ _) => apply tracks_wram_write
    | |- tracks (ufi_iram_read _ _ _ _ _ _) => apply tracks_iram_read
    | |- tracks (ufi_wram_read _ _ _ _ _ _) => apply tracks_wram_read
    | _ => idtac
    end.
  all: (cbv delta [ufi_clear_debug_replace ufi_clear_fault_poison ufi_clear_fault_bkp ufi_clear_fault_dma ufi_clear_fault_mem
    ufi_clear_fault_dpu ufi_clear_fault_intercept ufi_clear_run_bit ufi_iram_repair_config ufi_get_pc_mode ufi_set_pc_mode
    ufi_write_dma_ctrl ufi_write_dma_ctrl_datas ufi_read_dma_ctrl ufi_clear_dma_ctrl ufi_set_mram_mux ufi_thread_boot
    ufi_thread_resume ufi_read_run_bit ufi_read_dpu_run ufi_read_dpu_fault ufi_set_dpu_fault_and_step ufi_set_bkp_fault
    ufi_set_poison_fault ufi_read_bkp_fault ufi_read_poison_fault ufi_read_and_clear_dma_fault ufi_read_and_clear_mem_fault
    ufi_read_bkp_fault_thread_index ufi_read_dma_fault_thread_index ufi_read_mem_fault_thread_index ufi_debug_replace_stop
    ufi_debug_pc_read ufi_debug_pc_sample frame_of] beta zeta; tracked_op; done).
Qed.

Lemma fresh_tracked s : fresh desc s -> tracked s.
Proof.
  intros Hs. pose proof (fresh_coherent desc s Hs) as Hc. destruct Hs as (_ & _ & Hw & Hs). split_and!; [done | |].
  - right. intros i Hi. by apply Hw.
  - intros i sl Hi E. left. by apply (Hs i sl E).
Qed.

(** The mask an operation is left with. *)
Lemma select_dpu_mask mask d s s' mask' : 0 <= d < 256 -> ufi_select_dpu desc mask d s = (s', Return mask') -> coherent desc s ->
  forall i sl, (i < nr_cis desc)%nat -> slices s !! i = Some sl ->
    CI_MASK_ON mask' i = CI_MASK_ON mask i && negb (Z.land (enabled_dpus sl) (Z.shiftl 1 d) =? 0).
Proof.
  intros Hd. unfold ufi_select_dpu, select_when, mbind, cmd_bind. intros E Hc i sl Hi Es.
  match type of E with context [retarget ?c _ _ _ _] => set (choose := c) in * end.
  pose proof (retarget_spec choose false (each_ci desc mask) mask s (each_ci_nodup desc few_cis mask)) as Hr.
  change (store_frames false) with (@no_store W) in Hr.
  destruct (retarget choose no_store (each_ci desc mask) mask s) as [s1 [r | |]]; [| done | done]. destruct Hr as (_ & _ & _ & R4 & _).
  assert (mask' = r.1) as ->.
  { destruct (bool_decide (r.2 = [])); [by injection E as _ <- |].
    destruct (UFI_exec_void_frame desc r.1 CI_SELECT_DPU_STRUCT (CI_SELECT_DPU_FRAME d) s1) as [s2 [[] | |]]; [by injection E as _ <- | done | done]. }
  rewrite R4. unfold chosen. rewrite Es. cbn. unfold choose, choose_target.
  destruct (CI_MASK_ON mask i) eqn:Eon; cbn [andb]; [| done].
  assert (In i (each_ci desc mask)) as Hin by (by apply elem_of_each_ci). apply existsb_in in Hin. rewrite Hin. cbn [andb].
  destruct (Z.land (enabled_dpus sl) (Z.shiftl 1 d) =? 0); cbn [negb]; [by rewrite bool_decide_true |].
  rewrite bool_decide_false; [done |]. by destruct (decide _).
Qed.

(** C6: after any commands that succeeded, a DPU is selected on the interfaces of
    a mask where it is enabled, and only those stay in the mask; whether frames
    had to be sent or not, the last selection each of them executed is that DPU,
    and so is the target noted. *)
Theorem commands_reach_selection calls mask d s s1 s2 mask' : Forall call_ok calls -> fresh desc s -> 0 <= d < 256 ->
  for_each calls (perform desc) s = (s1, Return tt) -> ufi_select_dpu desc mask d s1 = (s2, Return mask') ->
  (forall i sl, (i < nr_cis desc)%nat -> slices s1 !! i = Some sl ->
    CI_MASK_ON mask' i = CI_MASK_ON mask i && negb (Z.land (enabled_dpus sl) (Z.shiftl 1 d) =? 0))
  /\ (forall i sl, (i < nr_cis desc)%nat -> slices s2 !! i = Some sl ->
       if CI_MASK_ON mask' i then selected (executions i (sent s2)) = Some (DPU_SLICE_TARGET_DPU d) /\ slice_target sl = DPU_SLICE_TARGET_DPU d
       else slice_target sl = DPU_SLICE_TARGET_NONE \/ selected (executions i (sent s2)) = Some (slice_target sl)).
Proof.
  intros Hcalls Hs Hd E1 E2.
  assert (Ht : tracks (for_each calls (perform desc))).
  { clear E1. induction calls as [| c calls IH]; [apply tracks_ret |]. apply list.Forall_cons in Hcalls as [Hc Hcs].
    apply tracks_bind; [by apply tracks_perform | intros _; by apply IH]. }
  pose proof (triple_run _ _ _ _ _ _ Ht (fresh_tracked s Hs) E1) as Htr. cbn in Htr.
  pose proof (triple_run _ _ _ _ _ _ (select_dpu_spec mask d Hd) Htr E2) as [Htr2 Hon].
  split; [apply (select_dpu_mask mask d s1 s2 mask' Hd E2); by destruct Htr |].
  intros i sl Hi E. destruct Htr2 as (_ & _ & Hag). specialize (Hag i sl Hi E). destruct (CI_MASK_ON mask' i) eqn:Eon; [| exact Hag].
  assert (Et : slice_target sl = DPU_SLICE_TARGET_DPU d) by (by apply (Hon i)). unfold target_agrees in Hag. rewrite Et in Hag.
  by destruct Hag as [|].
Qed.
End tracking.

Lemma commands_reach_selection_witness :
  let r := for_each sample_calls (@perform _ obedient sample_hw) sample_rank in
  let r' := @ufi_select_dpu _ obedient sample_hw 3 3 r.1 in
  r'.2 = Return 3 /\ sent r'.1 <> sent r.1
  /\ forall sl, slices r'.1 !! 0%nat = Some sl -> selected (executions 0 (sent r'.1)) = Some (DPU_SLICE_TARGET_DPU 3).
Proof.
  intros r r'. split; [by vm_compute |]. split; [by vm_compute |]. intros sl E.
  destruct (@commands_reach_selection _ obedient sample_hw ltac:(cbn; unfold DPU_MAX_NR_CIS; lia) sample_calls 3 3 sample_rank r.1 r'.1 3) as [_ Hx].
  - repeat constructor; cbn; lia.
  - exact sample_fresh.
  - lia.
  - vm_compute. reflexivity.
  - vm_compute. reflexivity.
  - by destruct (Hx 0%nat sl ltac:(cbn; lia) E).
Defined.

(** A driver that refuses the first packet. *)
Definition unlucky : driver (bool * (Z * list Z)) :=
  {| commit_commands w commands :=
       if (w.1 : bool) then ((false, w.2), false) else ((false, (@commit_commands _ obedient w.2 commands).1), true);
     update_commands w := ((w.1, (@update_commands _ obedient w.2).1.1), (@update_commands _ obedient w.2).1.2, true) |}.

(** A selection that fails has been noted.  Here the driver refuses the
    structure of the first selection of DPU 5; the second one succeeds without a
    packet, and no interface has executed a selection. *)
Theorem failed_selection_believed :
  let s := sample_ci (W := bool * (Z * list Z)) (true, (0, [])) in
  let r := @ufi_select_dpu _ unlucky sample_hw 3 5 s in
  let r' := @ufi_select_dpu _ unlucky sample_hw 3 5 r.1 in
  r.2 = Failed (error_code DPU_ERR_DRIVER) /\ r'.2 = Return 3 /\ sent r'.1 = sent r.1
  /\ selected (executions 0 (sent r'.1)) = None /\ selected (executions 1 (sent r'.1)) = None.
Proof. vm_compute. split_and!; reflexivity. Qed.
