(* ===== verification/UfiFixed.v ===== *)
(** What the commands of the universal interface (Ufi.v) leave of the slices of a
    rank: all but the structure and the target noted; only writing groups changes
    the groups. *)
From stdpp Require Import list.
From S2P Require Import Prelude Errors Mask Status CiCommands Ci BitConfig Ufi UfiCache.

(** A slice but for its structure and its target. *)
Definition fixed (sl : slice_info) : slice_info := with_target DPU_SLICE_TARGET_NONE (with_structure_value 0 sl).

Section fixed.
Context {W : Type} `{driver W}.
Variable desc : hw_description.
Variable l : list slice_info.

Definition unchanged (s : ci W) : Prop := map fixed (slices s) = l.

Lemma unchanged_set_slice i f : (forall sl, fixed (f sl) = fixed sl) -> keeps unchanged (set_slice i f).
Proof.
  intros Hf s Hs. pose proof (set_slice_spec i f s) as E. destruct (set_slice i f s) as [s' [[] | |]]; [| done | done].
  destruct E as (sl & _ & ->). unfold unchanged in *. cbn [slices with_slices]. rewrite <- Hs.
  apply list_eq. intros j. rewrite !list_lookup_fmap. destruct (Nat.eq_dec j i) as [-> | Hne].
  - rewrite list_lookup_alter, decide_True by done. destruct (slices s !! i); [| done]. cbn. by rewrite Hf.
  - by rewrite list_lookup_alter_ne.
Qed.

Lemma unchanged_exec commands add : keeps unchanged (exec_cmd desc commands add).
Proof.
  intros s Hs. pose proof (exec_cmd_context desc commands add s) as E. destruct (exec_cmd desc commands add s) as [s' r].
  destruct E as (_ & E & _). unfold unchanged in *. rewrite <- E in Hs. by destruct r.
Qed.

Lemma unchanged_set_cmds x : keeps unchanged (set_cmds (W := W) x).
Proof. by apply keeps_update. Qed.

Lemma unchanged_set_cmd i v : keeps unchanged (set_cmd (W := W) i v).
Proof. by apply keeps_update. Qed.

Ltac prims :=
  repeat match goal with
  | |- forall _, keeps _ _ => intros ?
  | |- forall _ _, keeps _ _ => intros ? ?
  | |- keeps _ (let '(_, _) := ?x in _) => destruct x
  | |- keeps _ (exec_cmd _ _ _) => apply unchanged_exec
  | |- keeps _ (ci_exec_void_cmd _ _) => apply unchanged_exec
  | |- keeps _ (ci_exec_wait_mask_cmd _ _) => apply unchanged_exec
  | |- keeps _ (ci_exec_8bit_cmd _ _ _) => apply keeps_bind
  | |- keeps _ (ci_exec_32bit_cmd _ _ _) => apply keeps_bind
  | |- keeps _ (exec_cmds _) => apply keeps_bind
  | |- keeps _ (set_cmds _) => apply unchanged_set_cmds
  | |- keeps _ (set_cmd _ _) => apply unchanged_set_cmd
  | |- keeps _ (set_slice _ _) => apply unchanged_set_slice; done
  | |- keeps _ (get_slice _) => apply keeps_get_slice
  | |- keeps _ (for_each _ _) => apply keeps_for_each
  | |- keeps _ (accumulate _ _ _) => apply keeps_accumulate
  | |- keeps _ (_ ≫= _) => apply keeps_bind
  | |- keeps _ (mret _) => apply keeps_ret
  | |- keeps _ (defined _) => apply keeps_defined
  | |- keeps _ (read _) => apply keeps_read
  | |- keeps _ (if ?b then _ else _) => destruct b
  | |- keeps _ (match ?x with _ => _ end) => destruct x
  end.

Lemma unchanged_note wanted cis : keeps unchanged (note_structures (W := W) wanted cis).
Proof. induction cis as [| i cis IH]; cbn [note_structures]; prims; done. Qed.

Lemma unchanged_write_structure mask structure : keeps unchanged (UFI_exec_write_structure desc mask structure).
Proof. apply keeps_bind; [apply unchanged_note | prims]. Qed.

Lemma unchanged_void_frame mask structure frame : keeps unchanged (UFI_exec_void_frame desc mask structure frame).
Proof. apply keeps_bind; [apply unchanged_write_structure | prims]. Qed.

Lemma unchanged_8bit_frame mask structure frame results : keeps unchanged (UFI_exec_8bit_frame desc mask structure frame results).
Proof. apply keeps_bind; [apply unchanged_write_structure | prims]. Qed.

Lemma unchanged_32bit_frame mask structure frame results : keeps unchanged (UFI_exec_32bit_frame desc mask structure frame results).
Proof. apply keeps_bind; [apply unchanged_write_structure | prims]. Qed.

Lemma unchanged_structure_frames mask structure frame : keeps unchanged (exec_structure_frames desc mask structure frame).
Proof. apply keeps_bind; [apply unchanged_write_structure | unfold set_frames; prims]. Qed.

Lemma unchanged_retarget choose store cis mask : (forall i t, keeps unchanged (store i t)) ->
  keeps unchanged (retarget (W := W) choose store cis mask).
Proof. intros Hs. revert mask. induction cis as [| i cis IH]; intros mask; cbn [retarget]; prims; try apply Hs; try apply IH; done. Qed.

Lemma unchanged_select_when mask choose structure frame : keeps unchanged (select_when desc mask choose structure frame).
Proof.
  unfold select_when. apply keeps_bind; [apply unchanged_retarget; intros; apply keeps_ret | intros r].
  prims; apply unchanged_void_frame.
Qed.

Lemma unchanged_select_frames mask choose : keeps unchanged (select_frames desc mask choose).
Proof.
  unfold select_frames. apply keeps_bind; [apply unchanged_retarget; prims | intros r].
  unfold UFI_exec_void_frames, UFI_exec_write_structures. prims; apply unchanged_note.
Qed.

Lemma unchanged_write_dma_ctrl mask address data : keeps unchanged (ufi_write_dma_ctrl desc mask address data).
Proof. unfold ufi_write_dma_ctrl. apply unchanged_void_frame. Qed.

Lemma unchanged_clear_dma_ctrl mask : keeps unchanged (ufi_clear_dma_ctrl desc mask).
Proof. unfold ufi_clear_dma_ctrl. apply unchanged_void_frame. Qed.

Lemma unchanged_read_dma_ctrl mask data : keeps unchanged (ufi_read_dma_ctrl desc mask data).
Proof. unfold ufi_read_dma_ctrl. apply unchanged_8bit_frame. Qed.

Lemma unchanged_set_mram_mux mask pos : keeps unchanged (ufi_set_mram_mux desc mask pos).
Proof.
  unfold ufi_set_mram_mux, ufi_write_dma_ctrl_datas, ufi_write_dma_ctrl, ufi_clear_dma_ctrl. cbv zeta.
  repeat (apply keeps_bind; [first [apply unchanged_structure_frames | apply unchanged_void_frame] | intros _]). apply unchanged_void_frame.
Qed.
End fixed.

#[export] Hint Resolve unchanged_write_dma_ctrl unchanged_clear_dma_ctrl unchanged_read_dma_ctrl unchanged_set_mram_mux
  unchanged_select_when unchanged_select_frames unchanged_void_frame unchanged_8bit_frame unchanged_32bit_frame : keeps.
