(* ===== verification/Mux.v ===== *)
(** Who has the MRAMs (library/src/backends/ufi/src/ufi_config.c, the state of the
    multiplexers in api/src/dpu_config.c): the multiplexers of a pair of DPUs are
    set to the host or to the DPUs, and noted, by line of DPUs or for the whole
    rank; the threads are started (ufi/src/ufi_runner.c), the MRAMs transferred
    (ufi/src/ufi_memory.c) once they are set.

    What the driver does with a transfer is an argument; the transfers given to
    it are recorded, with the multiplexers as they were noted then.  The lock of
    the rank and logging are left out; a failed assertion is Undefined.  Theorems
    are in MuxFacts.v. *)
From stdpp Require Import list.
From S2P Require Import Prelude Errors Mask Status CiCommands Ci BitConfig Ufi.
From S2P Require XferMatrix.

(** * State *)

Local Abbreviation matrix := XferMatrix.dpu_transfer_matrix.

Record transfer := { to_mram : bool; moved : matrix; muxes : list Z }.

Record rank {W : Type} := {
  interface : ci W;
  dpu_enabled : list (list bool);
  dpu_running : list Z;
  nb_dpu_running : Z;
  transfers : list transfer }.
Arguments rank : clear implicits.

Record configuration := { api_must_switch_mram_mux : bool; init_mram_mux : bool; disable_api_safe_checks : bool }.

(** The driver: false is a failure. *)
Class copier (W : Type) := copy_rank : bool -> W -> matrix -> W * bool.

Section state.
Context {W : Type}.
Implicit Types s : rank W.

Definition with_interface (x : ci W) s : rank W :=
  {| interface := x; dpu_enabled := dpu_enabled s; dpu_running := dpu_running s; nb_dpu_running := nb_dpu_running s; transfers := transfers s |}.
Definition with_transfers (x : list transfer) s : rank W :=
  {| interface := interface s; dpu_enabled := dpu_enabled s; dpu_running := dpu_running s; nb_dpu_running := nb_dpu_running s; transfers := x |}.

(** An operation on the interfaces. *)
Definition lift {A} (m : cmd (ci W) A) : cmd (rank W) A := fun s => let '(c, r) := m (interface s) in (with_interface c s, r).
End state.

(** * The state noted *)

Section mux.
Context {W : Type} `{driver W}.
Variable desc : hw_description.
Variable conf : configuration.
Local Abbreviation op := (cmd (rank W)).

(** The words an array on the stack held. *)
Variable junk : list Z.

Definition dpu_get_host_mux_mram_state (slice_id : nat) (dpu_id : Z) : op Z :=
  s ← lift (get_slice slice_id); mret (Z.land (Z.shiftr (host_mux_mram_state s) dpu_id) 1).

Definition dpu_set_host_mux_mram_state (slice_id : nat) (dpu_id : Z) (set : bool) : op () :=
  lift (set_slice slice_id (fun s => with_mux
    (if set then Z.lor (host_mux_mram_state s) (Z.shiftl 1 dpu_id) else Z.ldiff (host_mux_mram_state s) (Z.shiftl 1 dpu_id)) s)).

(** * Checks *)

Definition WAVEGEN_MUX_HOST_EXPECTED : Z := 0x00.
Definition WAVEGEN_MUX_DPU_EXPECTED : Z := Z.lor (Z.shiftl 1 0) (Z.shiftl 1 1).
Definition TIMEOUT_MUX_STATUS : nat := 100.
Definition CMD_GET_MUX_CTRL : Z := 0x02.

(** Some interface of the mask does not show what is expected. *)
Definition should_retry (ci_mask : Z) (expected : nat -> Z) (result_array : list Z) : bool :=
  existsb (fun i => CI_MASK_ON ci_mask i && negb (Z.land (word_at result_array i) 0x7b =? expected i)) (all_cis desc).

(** What is left of the time-out. *)
Fixpoint mux_tries (timeout : nat) (look : list Z -> op (list Z)) (ci_mask : Z) (expected : nat -> Z) (result_array : list Z)
  : op (nat * list Z) :=
  match timeout with
  | O => undefined
  | S timeout =>
    result_array ← look result_array;
    if (timeout =? 0)%nat || negb (should_retry ci_mask expected result_array) then mret (timeout, result_array)
    else mux_tries timeout look ci_mask expected result_array
  end.

Definition timed_out : op () := if disable_api_safe_checks conf then mret tt else error DPU_ERR_TIMEOUT.

Definition dpu_check_wavegen_mux_status_for_dpu (dpu_id : Z) (expected : list Z) : op () :=
  ci_mask ← lift (ufi_select_dpu_even_disabled desc ALL_CIS dpu_id);
  _ ← lift (ufi_write_dma_ctrl desc ci_mask 0xff CMD_GET_MUX_CTRL);
  _ ← lift (ufi_clear_dma_ctrl desc ci_mask);
  r ← mux_tries TIMEOUT_MUX_STATUS (fun l => lift (ufi_read_dma_ctrl desc ci_mask l)) ci_mask (word_at expected) junk;
  if (r.1 =? 0)%nat then timed_out else mret tt.

(** A time-out that is not reported leaves the DPUs that follow out. *)
Fixpoint check_each_dpu (ci_mask expected : Z) (dpus : list nat) (result_array : list Z) : op () :=
  match dpus with
  | [] => mret tt
  | each_dpu :: dpus =>
    r ← mux_tries TIMEOUT_MUX_STATUS
          (fun l => mask ← lift (ufi_select_dpu_even_disabled desc ALL_CIS (Z.of_nat each_dpu)); lift (ufi_read_dma_ctrl desc mask l))
          ci_mask (fun _ => expected) result_array;
    if (r.1 =? 0)%nat then timed_out else check_each_dpu ci_mask expected dpus r.2
  end.

Definition dpu_check_wavegen_mux_status_for_rank (expected : Z) : op () :=
  ci_mask ← lift (ufi_select_all_even_disabled desc ALL_CIS);
  _ ← lift (ufi_write_dma_ctrl desc ci_mask 0xff CMD_GET_MUX_CTRL);
  _ ← lift (ufi_clear_dma_ctrl desc ci_mask);
  check_each_dpu ci_mask expected (seq 0 (nr_dpus desc)) junk.

(** * Switching *)

Definition host_handle_access_for_dpu (dpu_id ci_mux_pos : Z) : op () :=
  ci_mask ← lift (ufi_select_dpu_even_disabled desc ALL_CIS dpu_id);
  _ ← lift (ufi_set_mram_mux desc ci_mask ci_mux_pos);
  dpu_check_wavegen_mux_status_for_dpu dpu_id
    (map (fun i => if Z.land ci_mux_pos (CI_MASK_ONE i) =? 0 then WAVEGEN_MUX_DPU_EXPECTED else WAVEGEN_MUX_HOST_EXPECTED) (all_cis desc)).

Definition host_handle_access_for_rank (set_mux_for_host : bool) : op () :=
  mask ← lift (ufi_select_all_even_disabled desc ALL_CIS);
  _ ← lift (ufi_set_mram_mux desc mask (if set_mux_for_host then 0xff else 0));
  dpu_check_wavegen_mux_status_for_rank (if set_mux_for_host then WAVEGEN_MUX_HOST_EXPECTED else WAVEGEN_MUX_DPU_EXPECTED).

(** The multiplexers of a line, a bit for each interface. *)
Definition line_mask (dpu_id : Z) : op Z :=
  accumulate (all_cis desc) (fun m each_slice =>
    b ← dpu_get_host_mux_mram_state each_slice dpu_id; mret (Z.lor m (Z.shiftl b (Z.of_nat each_slice)))) 0.

Definition count_running (run_mask : Z) : op Z :=
  accumulate (all_cis desc) (fun n each_slice =>
    running ← read dpu_running;
    run ← defined (running !! each_slice);
    mret (n + dpu_mask_count (dpu_mask_intersection run run_mask))) 0.

Definition note_line (dpu_id mask : Z) (each_slice : nat) : op () :=
  dpu_set_host_mux_mram_state each_slice dpu_id (negb (Z.land mask (CI_MASK_ONE each_slice) =? 0)).

Definition dpu_switch_mux_for_dpu_line (dpu_id mask : Z) : op () :=
  let base := Z.ldiff dpu_id 1 in
  base_mask ← line_mask base;
  let switch_base_line := negb (base_mask =? mask) in
  switch_friend_line ← (if base + 1 <? Z.of_nat (nr_dpus desc) then m ← line_mask (base + 1); mret (negb (m =? mask)) else mret false);
  if negb switch_base_line && negb (switch_friend_line : bool) then mret tt
  else
    let run_mask := if switch_base_line then dpu_mask_select dpu_mask_empty base else dpu_mask_empty in
    let run_mask := if switch_friend_line : bool then dpu_mask_select run_mask (base + 1) else run_mask in
    nb_running ← count_running run_mask;
    if 0 <? nb_running then error DPU_ERR_MRAM_BUSY
    else
      _ ← for_each (all_cis desc) (fun each_slice =>
            _ ← (if switch_base_line then note_line base mask each_slice else mret tt);
            if switch_friend_line : bool then note_line (base + 1) mask each_slice else mret tt);
      if negb (api_must_switch_mram_mux conf) then mret tt
      else
        _ ← (if switch_base_line then host_handle_access_for_dpu base mask else mret tt);
        if switch_friend_line : bool then host_handle_access_for_dpu (base + 1) mask else mret tt.

(** The first interface in the wrong direction ends the loop. *)
Fixpoint wrong_direction (set_mux_for_host : bool) (cis : list nat) : op bool :=
  match cis with
  | [] => mret false
  | i :: cis =>
    s ← lift (get_slice i);
    if (set_mux_for_host && (popcount (host_mux_mram_state s) <? Z.of_nat (nr_dpus desc)))
       || (negb set_mux_for_host && negb (host_mux_mram_state s =? 0)) then mret true
    else wrong_direction set_mux_for_host cis
  end.

Definition dpu_switch_mux_for_rank (set_mux_for_host : bool) : op () :=
  n ← read nb_dpu_running;
  if 0 <? n then error DPU_ERR_MRAM_BUSY
  else
    switch_mux ← wrong_direction set_mux_for_host (all_cis desc);
    if negb (switch_mux : bool) then mret tt
    else
      _ ← for_each (all_cis desc) (fun each_slice => lift (set_slice each_slice
            (with_mux (if set_mux_for_host then u8 (Z.shiftl 1 (Z.of_nat (nr_dpus desc)) - 1) else 0))));
      if negb (api_must_switch_mram_mux conf) && negb (init_mram_mux conf) then mret tt
      else host_handle_access_for_rank set_mux_for_host.

(** * Threads (ufi_runner.c) *)

Definition mux_mask_of (ci_mask dpu_id : Z) : op Z :=
  accumulate (all_cis desc) (fun m each_slice =>
    if CI_MASK_ON ci_mask each_slice then mret m
    else b ← dpu_get_host_mux_mram_state each_slice dpu_id; mret (Z.lor m (Z.shiftl b (Z.of_nat each_slice)))) 0.

Definition start_thread (ci_mask thread : Z) (resume : bool) (previous : option (list Z)) : op (option (list Z)) :=
  lift (if resume then ufi_thread_resume desc ci_mask thread previous else ufi_thread_boot desc ci_mask thread previous).

Definition ci_start_thread_rank (thread : Z) (resume : bool) (previous : option (list Z)) : op (option (list Z)) :=
  ci_mask ← lift (ufi_select_all desc ALL_CIS);
  _ ← (if ci_mask =? ALL_CIS then dpu_switch_mux_for_rank false
       else for_each (seq 0 (nr_dpus desc)) (fun each_dpu =>
              mux_mask ← mux_mask_of ci_mask (Z.of_nat each_dpu);
              dpu_switch_mux_for_dpu_line (Z.of_nat each_dpu) mux_mask));
  ci_mask ← lift (ufi_select_all desc ci_mask);
  start_thread ci_mask thread resume previous.

Definition ci_start_thread_dpu (slice_id : nat) (dpu_id thread : Z) (resume : bool) (previous : option (list Z))
  : op (option (list Z)) :=
  let ci_mask := CI_MASK_ONE slice_id in
  mux_mask ← mux_mask_of ci_mask dpu_id;
  _ ← dpu_switch_mux_for_dpu_line dpu_id mux_mask;
  ci_mask ← lift (ufi_select_dpu desc ci_mask dpu_id);
  start_thread ci_mask thread resume previous.

Definition ci_poll_rank (run fault : list Z) : op (list Z * list Z) :=
  mask ← lift (ufi_select_all desc ALL_CIS);
  run ← lift (ufi_read_dpu_run desc mask run);
  fault ← lift (ufi_read_dpu_fault desc mask fault);
  mret (run, fault).

Definition ci_sample_pc_dpu (iram_size : Z) (slice_id : nat) (dpu_id : Z) : op Z :=
  ci_mask ← lift (ufi_select_dpu desc (CI_MASK_ONE slice_id) dpu_id);
  _ ← lift (ufi_debug_pc_sample desc ci_mask);
  pcs ← lift (ufi_debug_pc_read desc iram_size junk junk ci_mask junk);
  mret (word_at pcs slice_id).
End mux.
