(* ===== verification/MuxFacts.v ===== *)
(** What switching the multiplexers of a line of DPUs does (Mux.v): nothing when
    both lines of the pair are right already; refused when a DPU of a line to
    switch runs; otherwise both lines are noted, before anything is sent. *)
From stdpp Require Import list.
From S2P Require Import Prelude Errors Mask Status CiCommands Ci BitConfig Ufi UfiCache UfiFixed Mux.

Section facts.
Context {W : Type} `{driver W}.
Variable desc : hw_description.
Variable conf : configuration.
Variable junk : list Z.
Implicit Types s : rank W.

(** The multiplexer of a DPU, true for the host. *)
Definition mux_bit s (i : nat) (d : Z) : bool :=
  match slices (interface s) !! i with Some sl => Z.testbit (host_mux_mram_state sl) d | None => false end.

(** What the operations need of the state. *)
Definition sized s : Prop := (nr_cis desc <= length (slices (interface s)))%nat /\ (nr_cis desc <= length (dpu_running s))%nat.

Definition right s (d mask : Z) : Prop := forall i, (i < nr_cis desc)%nat -> mux_bit s i d = CI_MASK_ON mask i.

Definition runs s (d : Z) : Prop := exists i run, (i < nr_cis desc)%nat /\ dpu_running s !! i = Some run /\ Z.testbit run d = true.

(** All but the slices, which differ at most in the multiplexers of some lines. *)
Definition only_lines (lines : list Z) s s' : Prop :=
  dpu_running s' = dpu_running s /\ nb_dpu_running s' = nb_dpu_running s /\ dpu_enabled s' = dpu_enabled s
  /\ transfers s' = transfers s /\ length (slices (interface s')) = length (slices (interface s))
  /\ (forall i sl', slices (interface s') !! i = Some sl' -> exists sl, slices (interface s) !! i = Some sl /\ enabled_dpus sl' = enabled_dpus sl)
  /\ forall i d, 0 <= d -> ~ In d lines -> mux_bit s' i d = mux_bit s i d.

Lemma accumulate_pure {S A B} (f : B -> A -> cmd S B) (g : B -> A -> B) l b (s : S) :
  (forall b a, In a l -> f b a s = (s, Return (g b a))) -> accumulate l f b s = (s, Return (fold_left g l b)).
Proof.
  revert b. induction l as [| a l IH]; intros b Hf; [done |]. cbn [accumulate fold_left]. unfold mbind, cmd_bind.
  rewrite Hf by (by left). apply IH. intros b' a' Ha. apply Hf. by right.
Qed.

Lemma get_mux_spec s i d : (i < length (slices (interface s)))%nat -> 0 <= d ->
  dpu_get_host_mux_mram_state i d s = (s, Return (Z.b2z (mux_bit s i d))).
Proof.
  intros Hi Hd. destruct (lookup_lt_is_Some_2 _ _ Hi) as [sl E]. unfold dpu_get_host_mux_mram_state, lift, get_slice, read, mbind, cmd_bind, defined, mux_bit.
  rewrite E. unfold mret, cmd_ret. replace (with_interface (interface s) s) with s by (by destruct s). do 3 f_equal.
  apply Z.bits_inj'. intros n Hn. rewrite Z.land_spec, Z.shiftr_spec by done. destruct (Z.eq_dec n 0) as [-> | Hn0].
  - rewrite Z.add_0_l. by destruct (Z.testbit (host_mux_mram_state sl) d).
  - assert (E1 : Z.testbit 1 n = false) by (apply (Z.bits_above_log2 1); [done | cbn; lia]). rewrite E1, andb_false_r.
    by destruct (Z.testbit (host_mux_mram_state sl) d); cbn [Z.b2z]; rewrite ?E1, ?Z.testbit_0_l.
Qed.

Definition line_value s (d : Z) (l : list nat) (m : Z) : Z :=
  fold_left (fun m i => Z.lor m (Z.shiftl (Z.b2z (mux_bit s i d)) (Z.of_nat i))) l m.

Lemma line_value_bits s d l m n : 0 <= n ->
  Z.testbit (line_value s d l m) n = Z.testbit m n || existsb (fun i => (Z.of_nat i =? n) && mux_bit s i d) l.
Proof.
  intros Hn. revert m. induction l as [| i l IH]; intros m; [cbn; by rewrite orb_false_r |]. cbn [existsb].
  change (line_value s d (i :: l) m) with (line_value s d l (Z.lor m (Z.shiftl (Z.b2z (mux_bit s i d)) (Z.of_nat i)))). rewrite IH, Z.lor_spec, <- orb_assoc. f_equal. f_equal. rewrite Z.shiftl_spec by done.
  destruct (Z.eqb_spec (Z.of_nat i) n) as [<- | Hne]; cbn [andb].
  - rewrite Z.sub_diag. by destruct (mux_bit s i d).
  - destruct (mux_bit s i d); cbn [Z.b2z]; [| apply Z.testbit_0_l].
    destruct (Z.lt_ge_cases (n - Z.of_nat i) 0); [by apply Z.testbit_neg_r |]. apply (Z.bits_above_log2 1); [done | cbn; lia].
Qed.

Lemma line_mask_spec s d : sized s -> 0 <= d ->
  line_mask desc d s = (s, Return (line_value s d (all_cis desc) 0)).
Proof.
  intros [Hs _] Hd. apply accumulate_pure. intros m i Hi. apply in_seq in Hi. unfold mbind, cmd_bind.
  rewrite get_mux_spec by (done || lia). done.
Qed.

Lemma line_right s d mask : 0 <= mask < 2 ^ Z.of_nat (nr_cis desc) ->
  (line_value s d (all_cis desc) 0 =? mask) = true <-> right s d mask.
Proof.
  intros Hmask.
  assert (Hbit : forall n, 0 <= n -> Z.testbit (line_value s d (all_cis desc) 0) n =
      if n <? Z.of_nat (nr_cis desc) then mux_bit s (Z.to_nat n) d else false).
  { intros n Hn. rewrite line_value_bits, Z.testbit_0_l by done. cbn [orb]. unfold all_cis. destruct (Z.ltb_spec n (Z.of_nat (nr_cis desc))).
    - destruct (mux_bit s (Z.to_nat n) d) eqn:E.
      + apply existsb_exists. exists (Z.to_nat n). rewrite in_seq, E, andb_true_r, Z2Nat.id by done. split; [lia | apply Z.eqb_refl].
      + apply not_true_iff_false. rewrite existsb_exists. intros (i & Hi & Ei). apply andb_true_iff in Ei as [Ei Eb].
        apply Z.eqb_eq in Ei. subst n. rewrite Nat2Z.id in E. congruence.
    - apply not_true_iff_false. rewrite existsb_exists. intros (i & Hi & Ei). apply in_seq in Hi. apply andb_true_iff in Ei as [Ei _].
      apply Z.eqb_eq in Ei. lia. }
  rewrite Z.eqb_eq. split.
  - intros E i Hi. unfold CI_MASK_ON. rewrite <- E, Hbit by lia. destruct (Z.ltb_spec (Z.of_nat i) (Z.of_nat (nr_cis desc))); [| lia].
    by rewrite Nat2Z.id.
  - intros Hr. apply Z.bits_inj'. intros n Hn. rewrite Hbit by done. destruct (Z.ltb_spec n (Z.of_nat (nr_cis desc))).
    + rewrite Hr by lia. unfold CI_MASK_ON. by rewrite Z2Nat.id.
    + symmetry. destruct (Z.eq_dec mask 0) as [-> |]; [apply Z.testbit_0_l |]. apply Z.bits_above_log2; [lia |].
      apply Z.log2_lt_pow2; [lia |]. eapply Z.lt_le_trans; [apply Hmask |]. by apply Z.pow_le_mono_r.
Qed.

(** * Noting *)

Lemma only_lines_refl l s : only_lines l s s.
Proof. repeat split; try done. intros i sl Hi. by exists sl. Qed.

Lemma only_lines_trans l s1 s2 s3 : only_lines l s1 s2 -> only_lines l s2 s3 -> only_lines l s1 s3.
Proof.
  intros (A1 & A2 & A3 & A4 & A5 & A6 & A7) (B1 & B2 & B3 & B4 & B5 & B6 & B7). repeat split; try congruence.
  - intros i sl Hi. destruct (B6 i sl Hi) as (sl1 & E1 & F1). destruct (A6 i sl1 E1) as (sl0 & E0 & F0). exists sl0. split; [done | congruence].
  - intros i d Hd Hn. rewrite B7, A7; done.
Qed.

Lemma only_lines_mono l l' s s' : (forall d, In d l -> In d l') -> only_lines l s s' -> only_lines l' s s'.
Proof.
  intros Hl (A1 & A2 & A3 & A4 & A5 & A6 & A7). repeat split; try done. intros i d Hd Hn. apply A7; [done |]. by intros Hi%Hl.
Qed.

Lemma sized_only_lines l s s' : only_lines l s s' -> sized s -> sized s'.
Proof. intros (A1 & _ & _ & _ & A5 & _) [Hs Hr]. split; [by rewrite A5 | by rewrite A1]. Qed.

(** The state with a multiplexer noted. *)
Definition noted (i : nat) (d : Z) (set : bool) s : rank W :=
  with_interface (with_slices (alter (fun sl => with_mux
    (if set then Z.lor (host_mux_mram_state sl) (Z.shiftl 1 d) else Z.ldiff (host_mux_mram_state sl) (Z.shiftl 1 d)) sl)
    i (slices (interface s))) (interface s)) s.

Lemma note_spec s i d set : (i < length (slices (interface s)))%nat ->
  dpu_set_host_mux_mram_state i d set s = (noted i d set s, Return tt).
Proof.
  intros Hi. destruct (lookup_lt_is_Some_2 _ _ Hi) as [sl E].
  unfold dpu_set_host_mux_mram_state, lift, set_slice, get_slice, read, update, defined, mbind, cmd_bind. by rewrite E.
Qed.

Lemma mux_bit_noted s i d set j d' : (i < length (slices (interface s)))%nat -> 0 <= d -> 0 <= d' ->
  mux_bit (noted i d set s) j d' = if (j =? i)%nat && (d' =? d) then set else mux_bit s j d'.
Proof.
  intros Hi Hd Hd'. unfold mux_bit, noted. cbn [interface with_interface slices with_slices]. rewrite list_lookup_alter.
  destruct (Nat.eqb_spec j i) as [-> | Hne]; [| by rewrite decide_False by done].
  rewrite decide_True by done. destruct (lookup_lt_is_Some_2 _ _ Hi) as [sl E]. rewrite E. cbn.
  rewrite shiftl_1_pow2 by done.
  destruct set; [rewrite testbit_set by done | rewrite testbit_clear by done]; destruct (Z.eqb_spec d' d); cbn;
    by rewrite ?orb_true_r, ?orb_false_r, ?andb_true_r, ?andb_false_r.
Qed.

Lemma only_lines_noted s i d set : (i < length (slices (interface s)))%nat -> 0 <= d -> only_lines [d] s (noted i d set s).
Proof.
  intros Hi Hd. repeat split; try done.
  - cbn. by rewrite length_alter.
  - intros j sl'. cbn. rewrite list_lookup_alter. destruct (decide (i = j)) as [-> |]; [| intros E; by exists sl'].
    destruct (slices (interface s) !! j) as [sl |]; [| done]. cbn. intros [= <-]. by exists sl.
  - intros j d' Hd' Hn. rewrite mux_bit_noted by done. destruct (Z.eqb_spec d' d) as [-> |]; [| by rewrite andb_false_r].
    destruct Hn. by left.
Qed.

Lemma note_line_spec s i d mask : sized s -> (i < nr_cis desc)%nat -> 0 <= d ->
  exists s', note_line d mask i s = (s', Return tt) /\ only_lines [d] s s' /\ sent (interface s') = sent (interface s)
    /\ forall j d', 0 <= d' -> mux_bit s' j d' = if (j =? i)%nat && (d' =? d) then CI_MASK_ON mask i else mux_bit s j d'.
Proof.
  intros [Hs _] Hi Hd. unfold note_line, CI_MASK_ONE. rewrite shiftl_1_pow2, land_pow2_eqb, negb_involutive by lia.
  fold (CI_MASK_ON mask i). eexists. rewrite note_spec by lia. split; [done |]. split; [apply only_lines_noted; [lia | done] |].
  split; [done |]. intros j d' Hd'. apply mux_bit_noted; [lia | done | done].
Qed.

(** Noting some lines, interface after interface. *)
Definition note_lines (lines : list Z) (mask : Z) (i : nat) : cmd (rank W) () := for_each lines (fun d => note_line d mask i).

Lemma note_lines_spec s i lines mask : sized s -> (i < nr_cis desc)%nat -> (forall d, In d lines -> 0 <= d) ->
  exists s', note_lines lines mask i s = (s', Return tt) /\ only_lines lines s s' /\ sent (interface s') = sent (interface s)
    /\ forall j d', 0 <= d' -> mux_bit s' j d' = if (j =? i)%nat && existsb (Z.eqb d') lines then CI_MASK_ON mask i else mux_bit s j d'.
Proof.
  intros Hs Hi. revert s Hs. induction lines as [| d lines IH]; intros s Hs Hl.
  { exists s. split; [done |]. split; [apply only_lines_refl |]. split; [done |]. intros j d' _. cbn. by rewrite andb_false_r. }
  destruct (note_line_spec s i d mask Hs Hi (Hl d (or_introl eq_refl))) as (s1 & E1 & O1 & F1 & B1).
  destruct (IH s1) as (s2 & E2 & O2 & F2 & B2); [by eapply sized_only_lines | intros; apply Hl; by right |].
  exists s2. unfold note_lines in *. cbn [for_each]. unfold mbind, cmd_bind. rewrite E1, E2. split; [done |]. split.
  { eapply only_lines_trans; eapply only_lines_mono; [| done | | done]; cbn; tauto. }
  split; [congruence |]. intros j d' Hd'. rewrite B2, B1 by done. cbn [existsb].
  destruct (j =? i)%nat, (d' =? d), (existsb (Z.eqb d') lines); done.
Qed.

Lemma note_all s lines mask cis : sized s -> (forall i, In i cis -> i < nr_cis desc)%nat -> (forall d, In d lines -> 0 <= d) ->
  exists s', for_each cis (note_lines lines mask) s = (s', Return tt) /\ only_lines lines s s' /\ sent (interface s') = sent (interface s)
    /\ forall j d', 0 <= d' -> mux_bit s' j d' =
         if existsb (Nat.eqb j) cis && existsb (Z.eqb d') lines then CI_MASK_ON mask j else mux_bit s j d'.
Proof.
  intros Hs Hc Hl. revert s Hs. induction cis as [| i cis IH]; intros s Hs.
  { exists s. split; [done |]. split; [apply only_lines_refl |]. split; [done |]. by intros j d' _. }
  destruct (note_lines_spec s i lines mask Hs (Hc i (or_introl eq_refl)) Hl) as (s1 & E1 & O1 & F1 & B1).
  destruct (IH (fun i' Hi' => Hc i' (or_intror Hi')) s1) as (s2 & E2 & O2 & F2 & B2); [by eapply sized_only_lines |].
  exists s2. cbn [for_each]. unfold mbind, cmd_bind. rewrite E1, E2. split; [done |]. split; [by eapply only_lines_trans |].
  split; [congruence |]. intros j d' Hd'. rewrite B2, B1 by done. cbn [existsb].
  destruct (Nat.eqb_spec j i) as [-> |], (existsb (Nat.eqb _) cis), (existsb (Z.eqb d') lines); done.
Qed.

(** * Counting *)

Lemma popcount_land_pos x m : 0 <= m -> 0 <= popcount (Z.land x m) /\
  (0 < popcount (Z.land x m) <-> exists d, 0 <= d /\ Z.testbit m d = true /\ Z.testbit x d = true).
Proof.
  intros Hm. assert (0 <= Z.land x m) as Hp by (apply Z.land_nonneg; by right).
  destruct (Z.land x m) as [| p | p] eqn:E; cbn [popcount]; [| | lia].
  - split; [done |]. split; [done |]. intros (d & Hd & E1 & E2). exfalso.
    assert (Z.testbit (Z.land x m) d = true) as E3 by (by rewrite Z.land_spec, E1, E2). by rewrite E, Z.testbit_0_l in E3.
  - pose proof (pos_popcount_pos p). split; [lia |]. split; [| intros _; lia]. intros _. exists (Z.log2 (Z.pos p)). split; [apply Z.log2_nonneg |].
    assert (Z.testbit (Z.land x m) (Z.log2 (Z.pos p)) = true) as E1 by (rewrite E; by apply Z.bit_log2).
    rewrite Z.land_spec in E1. apply andb_true_iff in E1. tauto.
Qed.

Definition count_value s (run_mask : Z) (l : list nat) (n : Z) : Z :=
  fold_left (fun n i => n + popcount (Z.land (nth i (dpu_running s) 0) run_mask)) l n.

Lemma count_running_spec s run_mask : sized s ->
  count_running desc run_mask s = (s, Return (count_value s run_mask (all_cis desc) 0)).
Proof.
  intros [_ Hr]. apply accumulate_pure. intros n i Hi. apply in_seq in Hi. unfold read, mbind, cmd_bind, defined.
  destruct (lookup_lt_is_Some_2 (dpu_running s) i ltac:(lia)) as [run E]. rewrite E. by rewrite (nth_lookup_Some _ _ _ _ E).
Qed.

Lemma count_value_pos s run_mask l n : 0 <= run_mask -> 0 <= n ->
  0 < count_value s run_mask l n <->
  0 < n \/ exists i d, In i l /\ 0 <= d /\ Z.testbit run_mask d = true /\ Z.testbit (nth i (dpu_running s) 0) d = true.
Proof.
  intros Hm. revert n. induction l as [| i l IH]; intros n Hn; [cbn; split; [by left | intros [| (i & d & [] & _)]; done] |].
  change (count_value s run_mask (i :: l) n) with (count_value s run_mask l (n + popcount (Z.land (nth i (dpu_running s) 0) run_mask))).
  destruct (popcount_land_pos (nth i (dpu_running s) 0) run_mask Hm) as [Hp Hx]. rewrite IH by lia. split.
  - intros [Hn' | (j & d & Hj & E)]; [| right; exists j, d; split; [by right | done]].
    destruct (Z.eq_dec n 0) as [-> |]; [| left; lia]. right. destruct (proj1 Hx ltac:(lia)) as (d & E). exists i, d. split; [by left | done].
  - intros [Hn' | (j & d & [<- | Hj] & E)]; [left; lia | | right; by exists j, d].
    left. assert (0 < popcount (Z.land (nth i (dpu_running s) 0) run_mask)) by (apply Hx; by exists d). lia.
Qed.

(** * A line *)

Definition base_of (dpu_id : Z) : Z := Z.ldiff dpu_id 1.

(** The lines of the pair. *)
Definition pair_of (dpu_id : Z) : list Z :=
  base_of dpu_id :: if base_of dpu_id + 1 <? Z.of_nat (nr_dpus desc) then [base_of dpu_id + 1] else [].

Definition to_switch s (dpu_id mask : Z) : list Z :=
  List.filter (fun d => negb (line_value s d (all_cis desc) 0 =? mask)) (pair_of dpu_id).

Definition runs_of (lines : list Z) : Z := fold_left dpu_mask_select lines dpu_mask_empty.

Lemma base_range d : 0 <= d -> 0 <= base_of d <= d.
Proof.
  intros Hd. unfold base_of. assert (Z.ldiff d 1 = 2 * (d / 2)) as ->; [| pose proof (Z.div_mod d 2); pose proof (Z.mod_pos_bound d 2); lia].
  change 1 with (Z.ones 1). rewrite Z.ldiff_ones_r, Z.shiftl_mul_pow2, Z.shiftr_div_pow2 by lia. change (2 ^ 1) with 2. lia.
Qed.

Lemma for_each_ext {S A} (f g : A -> cmd S ()) l (t : S) : (forall a t, f a t = g a t) -> for_each l f t = for_each l g t.
Proof.
  intros Hf. revert t. induction l as [| a l IH]; intros t; [done |]. cbn [for_each]. unfold mbind, cmd_bind. rewrite Hf.
  by destruct (g a t) as [t1 [[] | |]].
Qed.

Lemma for_each_one {S A} (f : A -> cmd S ()) a (t : S) : for_each [a] f t = f a t.
Proof. cbn [for_each]. unfold mbind, cmd_bind. by destruct (f a t) as [t1 [[] | |]]. Qed.

Lemma for_each_two {S A} (f : A -> cmd S ()) a b (t : S) : for_each [a; b] f t = (_ ← f a; f b) t.
Proof.
  cbn [for_each]. unfold mbind, cmd_bind. destruct (f a t) as [t1 [[] | |]]; [| done | done]. by destruct (f b t1) as [t2 [[] | |]].
Qed.

Lemma bind_ext {S A B} (m m' : cmd S A) (k k' : A -> cmd S B) (t : S) :
  m t = m' t -> (forall a t, k a t = k' a t) -> (m ≫= k) t = (m' ≫= k') t.
Proof. intros Hm Hk. unfold mbind, cmd_bind. rewrite Hm. destruct (m' t) as [t1 [a | |]]; [apply Hk | done | done]. Qed.

Lemma switch_line_unfold s dpu_id mask : sized s -> 0 <= dpu_id ->
  dpu_switch_mux_for_dpu_line desc conf junk dpu_id mask s =
  match to_switch s dpu_id mask with
  | [] => (s, Return tt)
  | lines =>
    if 0 <? count_value s (runs_of lines) (all_cis desc) 0 then (s, Failed (error_code DPU_ERR_MRAM_BUSY))
    else (for_each (all_cis desc) (note_lines lines mask) ≫= fun _ =>
          if negb (api_must_switch_mram_mux conf) then mret tt
          else for_each lines (fun d => host_handle_access_for_dpu desc conf junk d mask)) s
  end.
Proof.
  intros Hs Hd. pose proof (base_range dpu_id Hd) as Hb. unfold dpu_switch_mux_for_dpu_line, to_switch, pair_of.
  fold (base_of dpu_id). set (base := base_of dpu_id) in *. cbv zeta.
  unfold mbind at 1, cmd_bind at 1. rewrite line_mask_spec by (done || lia).
  set (vb := line_value s base (all_cis desc) 0). set (vf := line_value s (base + 1) (all_cis desc) 0).
  assert (Hf : (if base + 1 <? Z.of_nat (nr_dpus desc) then m ← line_mask desc (base + 1); mret (negb (m =? mask)) else mret false) s
    = (s, Return (if base + 1 <? Z.of_nat (nr_dpus desc) then negb (vf =? mask) else false))).
  { destruct (base + 1 <? Z.of_nat (nr_dpus desc)); [| done]. unfold mbind, cmd_bind. by rewrite line_mask_spec by (done || lia). }
  unfold mbind at 1, cmd_bind at 1. rewrite Hf. clear Hf. cbn [List.filter].
  fold vb. replace (List.filter (fun d => negb (line_value s d (all_cis desc) 0 =? mask)) (if base + 1 <? Z.of_nat (nr_dpus desc) then [base + 1] else []))
    with (if (if base + 1 <? Z.of_nat (nr_dpus desc) then negb (vf =? mask) else false) then [base + 1] else [])
    by (destruct (base + 1 <? Z.of_nat (nr_dpus desc)); [cbn [List.filter]; fold vf |]; done).
  generalize (if base + 1 <? Z.of_nat (nr_dpus desc) then negb (vf =? mask) else false). generalize (negb (vb =? mask)).
  intros sb sf. destruct sb, sf; cbn [negb andb app]; [| | | done];
    unfold mbind at 1, cmd_bind at 1; rewrite count_running_spec by done; unfold runs_of; cbn [fold_left];
    (match goal with |- context [count_value s ?m ?l 0] => destruct (0 <? count_value s m l 0) end; [done |]);
    (apply bind_ext; [apply for_each_ext; intros i t | intros [] t; destruct (negb _); [done |]]); unfold note_lines.
  - by rewrite for_each_two.
  - by rewrite for_each_two.
  - rewrite for_each_one. unfold mbind, cmd_bind, mret, cmd_ret. by destruct (note_line base mask i t) as [t1 [[] | |]].
  - rewrite for_each_one. unfold mbind, cmd_bind, mret, cmd_ret. by destruct (host_handle_access_for_dpu desc conf junk base mask t) as [t1 [[] | |]].
  - by rewrite for_each_one.
  - by rewrite for_each_one.
Qed.

(** * Switching for good *)

(** [s] but for what commands change. *)
Definition commanded (t s : rank W) : Prop :=
  dpu_running s = dpu_running t /\ nb_dpu_running s = nb_dpu_running t /\ dpu_enabled s = dpu_enabled t /\ transfers s = transfers t
  /\ map fixed (slices (interface s)) = map fixed (slices (interface t)).

Lemma commanded_only_lines t s : commanded t s -> only_lines [] t s.
Proof.
  intros (A1 & A2 & A3 & A4 & A5). do 4 (split; [done |]).
  assert (Hl : length (slices (interface s)) = length (slices (interface t))) by (by rewrite <- (length_map fixed), A5, length_map).
  split; [done |].
  assert (Hi : forall i, fixed <$> slices (interface s) !! i = fixed <$> slices (interface t) !! i)
    by (intros i; rewrite <- !list_lookup_fmap; by f_equal).
  split.
  - intros i sl' E. specialize (Hi i). rewrite E in Hi. destruct (slices (interface t) !! i) as [sl |]; [| done].
    exists sl. split; [done |]. by injection Hi.
  - intros i d _ _. unfold mux_bit. specialize (Hi i). destruct (slices (interface s) !! i), (slices (interface t) !! i); try done.
    injection Hi. congruence.
Qed.

Lemma commanded_lift {A} t (m : cmd (ci W) A) : (forall l, keeps (unchanged l) m) -> keeps (commanded t) (lift m).
Proof.
  intros Hm s (A1 & A2 & A3 & A4 & A5). specialize (Hm _ (interface s) A5). unfold lift.
  destruct (m (interface s)) as [c [a | e |]]; [| | done]; (do 4 (split; [done |])); exact Hm.
Qed.

Lemma commanded_tries t n look ci_mask expected l : (forall l, keeps (commanded t) (look l)) ->
  keeps (commanded t) (mux_tries desc n look ci_mask expected l).
Proof.
  intros Hk. revert l. induction n as [| n IH]; intros l; cbn [mux_tries]; [apply keeps_undefined |].
  apply keeps_bind; [done | intros r]. destruct (_ || _); [apply keeps_ret | apply IH].
Qed.

Lemma commanded_select t mask d : keeps (commanded t) (lift (ufi_select_dpu_even_disabled desc mask d)).
Proof. apply commanded_lift. intros l. unfold ufi_select_dpu_even_disabled. apply unchanged_select_when. Qed.

Lemma commanded_access t d mask : keeps (commanded t) (host_handle_access_for_dpu desc conf junk d mask).
Proof.
  unfold host_handle_access_for_dpu, dpu_check_wavegen_mux_status_for_dpu.
  apply keeps_bind; [apply commanded_select | intros m].
  apply keeps_bind; [apply commanded_lift; intros l; apply unchanged_set_mram_mux | intros []].
  apply keeps_bind; [apply commanded_select | intros m'].
  apply keeps_bind; [apply commanded_lift; intros l; apply unchanged_write_dma_ctrl | intros []].
  apply keeps_bind; [apply commanded_lift; intros l; apply unchanged_clear_dma_ctrl | intros []].
  apply keeps_bind; [apply commanded_tries; intros l; apply commanded_lift; intros l'; apply unchanged_read_dma_ctrl | intros r].
  unfold timed_out. destruct (_ =? 0)%nat; [destruct (disable_api_safe_checks conf) |]; auto with keeps.
Qed.

Lemma in_to_switch s dpu_id mask d : 0 <= mask < 2 ^ Z.of_nat (nr_cis desc) ->
  In d (to_switch s dpu_id mask) <-> In d (pair_of dpu_id) /\ ~ right s d mask.
Proof.
  intros Hm. unfold to_switch. rewrite filter_In. apply and_iff_compat_l.
  rewrite negb_true_iff. pose proof (line_right s d mask Hm) as Hr. rewrite <- Hr. symmetry. apply not_true_iff_false.
Qed.

Lemma runs_of_bits lines d : (forall d, In d lines -> 0 <= d < 8) -> 0 <= d ->
  0 <= runs_of lines /\ (Z.testbit (runs_of lines) d = true <-> In d lines).
Proof.
  intros Hl Hd. unfold runs_of. assert (Hg : forall m, 0 <= m -> 0 <= fold_left dpu_mask_select lines m /\
    (Z.testbit (fold_left dpu_mask_select lines m) d = true <-> Z.testbit m d = true \/ In d lines)).
  { induction lines as [| x lines IH]; intros m Hm; cbn [fold_left]; [cbn; tauto |].
    specialize (IH (fun d' Hd' => Hl d' (or_intror Hd')) (dpu_mask_select m x)).
    pose proof (Hl x (or_introl eq_refl)) as Hx. unfold dpu_mask_select, dpu_mask_union in *. rewrite mask_one_pow2 in * by done.
    destruct IH as [IH1 IH2]; [apply Z.lor_nonneg; split; [done | by apply Z.pow_nonneg] |]. split; [done |]. rewrite IH2, testbit_set by lia.
    rewrite orb_true_iff, Z.eqb_eq. cbn [In]. split; [intros [[| ->] |]; tauto | intros [| [-> |]]; tauto]. }
  destruct (Hg dpu_mask_empty) as [H1 H2]; [done |]. split; [done |]. rewrite H2. unfold dpu_mask_empty. rewrite Z.testbit_0_l. intuition congruence.
Qed.

Lemma pair_range dpu_id d : 0 <= dpu_id < Z.of_nat (nr_dpus desc) -> In d (pair_of dpu_id) -> 0 <= d < Z.of_nat (nr_dpus desc).
Proof.
  intros Hd. pose proof (base_range dpu_id ltac:(lia)). unfold pair_of. cbn [In].
  destruct (Z.ltb_spec (base_of dpu_id + 1) (Z.of_nat (nr_dpus desc))); cbn [In]; intros [<- | Hin]; try destruct Hin; try lia; done.
Qed.

(** A line of the pair of [dpu_id] to switch has a DPU that runs. *)
Definition busy s (dpu_id mask : Z) : Prop := exists d, In d (pair_of dpu_id) /\ ~ right s d mask /\ runs s d.

Lemma counted_busy s dpu_id mask : (nr_dpus desc <= 8)%nat -> 0 <= dpu_id < Z.of_nat (nr_dpus desc) ->
  0 <= mask < 2 ^ Z.of_nat (nr_cis desc) -> sized s ->
  0 < count_value s (runs_of (to_switch s dpu_id mask)) (all_cis desc) 0 <-> busy s dpu_id mask.
Proof.
  intros H8 Hd Hm [Hs Hr]. assert (Hl : forall d, In d (to_switch s dpu_id mask) -> 0 <= d < 8).
  { intros d Hi%in_to_switch; [| done]. destruct Hi as [Hi%pair_range _]; [lia | done]. }
  rewrite count_value_pos by (done || by apply (runs_of_bits _ 0)). split.
  - intros [| (i & d & Hi & Hd0 & Hrd & Hb)]; [done |]. apply runs_of_bits, in_to_switch in Hrd; [| done ..].
    exists d. split; [tauto |]. split; [tauto |]. apply in_seq in Hi. exists i.
    destruct (lookup_lt_is_Some_2 (dpu_running s) i ltac:(lia)) as [run E]. exists run. rewrite (nth_lookup_Some _ _ _ _ E) in Hb.
    split; [lia | done].
  - intros (d & Hp & Hn & i & run & Hi & E & Hb). right. exists i, d. split; [apply in_seq; lia |].
    destruct (pair_range dpu_id d Hd Hp). split; [done |]. rewrite (nth_lookup_Some _ _ _ _ E). split; [| done].
    apply runs_of_bits; [done | done |]. by apply in_to_switch.
Qed.

(** What is switched: both lines noted to be right, other lines as they were. *)
Definition switched s s' (dpu_id mask : Z) : Prop :=
  (forall d, In d (pair_of dpu_id) -> right s' d mask) /\ only_lines (pair_of dpu_id) s s'.

Lemma right_or_switched s dpu_id mask d : 0 <= mask < 2 ^ Z.of_nat (nr_cis desc) ->
  In d (pair_of dpu_id) -> ~ In d (to_switch s dpu_id mask) -> right s d mask.
Proof.
  intros Hm Hp Hn. apply line_right; [done |]. unfold to_switch in Hn. rewrite filter_In in Hn.
  destruct (_ =? mask); [done |]. by destruct Hn.
Qed.

Lemma switched_commanded s s1 s2 dpu_id mask : switched s s1 dpu_id mask -> commanded s1 s2 ->
  0 <= dpu_id < Z.of_nat (nr_dpus desc) -> switched s s2 dpu_id mask.
Proof.
  intros [Hr Ho] Hc%commanded_only_lines Hd. split.
  - intros d Hp i Hi. destruct Hc as (_ & _ & _ & _ & _ & _ & Hc). rewrite Hc; [by apply Hr | | by intros []].
    by apply (pair_range dpu_id d Hd).
  - eapply only_lines_trans; [done |]. eapply only_lines_mono; [| done]. by intros d [].
Qed.

Section line.
Variables (s : rank W) (dpu_id mask : Z).
Hypothesis few_dpus : (nr_dpus desc <= 8)%nat.
Hypothesis dpu_range : 0 <= dpu_id < Z.of_nat (nr_dpus desc).
Hypothesis mask_range : 0 <= mask < 2 ^ Z.of_nat (nr_cis desc).
Hypothesis is_sized : sized s.

Lemma switch_line_right : (forall d, In d (pair_of dpu_id) -> right s d mask) ->
  dpu_switch_mux_for_dpu_line desc conf junk dpu_id mask s = (s, Return tt).
Proof.
  intros Hr. rewrite switch_line_unfold by (done || lia).
  assert (Hin := fun d => in_to_switch s dpu_id mask d mask_range).
  destruct (to_switch s dpu_id mask) as [| d l]; [done |]. destruct (Hin d) as [Hin1 _].
  destruct Hin1 as [Hp Hn]; [by left |]. destruct Hn. by apply Hr.
Qed.

Lemma switch_line_busy : busy s dpu_id mask ->
  dpu_switch_mux_for_dpu_line desc conf junk dpu_id mask s = (s, Failed (error_code DPU_ERR_MRAM_BUSY)).
Proof.
  intros Hy. rewrite switch_line_unfold by (done || lia).
  pose proof (counted_busy s dpu_id mask few_dpus dpu_range mask_range is_sized) as Hb.
  assert (Hin := fun d => in_to_switch s dpu_id mask d mask_range).
  apply Hb in Hy. destruct (to_switch s dpu_id mask) as [| d l].
  - apply Hb in Hy. destruct Hy as (d & Hp & Hn & _). destruct (proj2 (Hin d)). by split.
  - apply Z.ltb_lt in Hy. cbv beta iota zeta. by rewrite Hy.
Qed.

Lemma switch_line_switches : ~ busy s dpu_id mask ->
  match dpu_switch_mux_for_dpu_line desc conf junk dpu_id mask s with
  | (s', Undefined) => api_must_switch_mram_mux conf = true
  | (s', r) => switched s s' dpu_id mask
      /\ (api_must_switch_mram_mux conf = false -> r = Return tt /\ sent (interface s') = sent (interface s))
  end.
Proof.
  intros Hy. rewrite switch_line_unfold by (done || lia).
  pose proof (counted_busy s dpu_id mask few_dpus dpu_range mask_range is_sized) as Hb.
  assert (Hin := fun d => in_to_switch s dpu_id mask d mask_range).
  assert (Hc : (0 <? count_value s (runs_of (to_switch s dpu_id mask)) (all_cis desc) 0) = false).
  { apply Z.ltb_ge. apply Z.le_ngt. tauto. } clear Hb Hy.
  assert (Hlines : to_switch s dpu_id mask = [] \/ to_switch s dpu_id mask <> []) by (destruct (to_switch s dpu_id mask); auto).
  destruct Hlines as [E | Hne].
  + rewrite E. split; [| done]. split; [| apply only_lines_refl]. intros d Hp.
    apply (right_or_switched s dpu_id mask d mask_range); [done |]. rewrite E. by intros [].
  + destruct (note_all s (to_switch s dpu_id mask) mask (all_cis desc) is_sized) as (s1 & E1 & O1 & F1 & B1).
    { intros i Hi. apply in_seq in Hi. lia. }
    { intros d Hi%Hin. destruct Hi as [Hi%pair_range _]; lia. }
    assert (Hs1 : switched s s1 dpu_id mask).
    { split; [| eapply only_lines_mono; [| done]; intros d; rewrite Hin; tauto]. intros d Hp i Hi.
      rewrite B1 by (by apply (pair_range dpu_id d dpu_range)).
      rewrite (proj2 (existsb_exists _ _)) by (exists i; split; [apply in_seq; lia | apply Nat.eqb_refl]). cbn [andb].
      destruct (existsb (Z.eqb d) (to_switch s dpu_id mask)) eqn:Ex; [done |].
      revert i Hi. apply (right_or_switched s dpu_id mask d mask_range); [done |]. intros Hd1.
      apply not_true_iff_false in Ex. apply Ex, existsb_exists. exists d. split; [done | apply Z.eqb_refl]. }
    destruct (to_switch s dpu_id mask) as [| d0 l0] eqn:E; [done |]. cbv beta iota zeta.
    rewrite Hc. rewrite <- E in *. clear E.
    unfold mbind, cmd_bind. rewrite E1. destruct (negb _) eqn:Em; [done |]. apply negb_false_iff in Em.
    pose proof (keeps_for_each (commanded s1) (to_switch s dpu_id mask) (fun d => host_handle_access_for_dpu desc conf junk d mask)
      (fun d => commanded_access s1 d mask) s1) as Hk.
    destruct (for_each _ _ s1) as [s2 [[] | |]]; [| | done]; (split; [| by rewrite Em]);
      eapply switched_commanded; (done || apply Hk; by repeat split).
Qed.

Lemma switch_line_return s' x : dpu_switch_mux_for_dpu_line desc conf junk dpu_id mask s = (s', Return x) -> switched s s' dpu_id mask.
Proof.
  intros E. assert (Hn : ~ busy s dpu_id mask) by (intros Hy%switch_line_busy; congruence).
  pose proof (switch_line_switches Hn) as Hx. rewrite E in Hx. apply Hx.
Qed.
End line.

(** C25: switching the multiplexers of a line of DPUs does nothing when both lines of
    its pair are right; fails, changing nothing, when a DPU of a line that is not
    runs; in all other cases both lines are noted and no other, whether the
    commands then succeed or not, and nothing is sent if the API does not switch. *)
Theorem switch_line_outcome s dpu_id mask : (nr_dpus desc <= 8)%nat -> 0 <= dpu_id < Z.of_nat (nr_dpus desc) ->
  0 <= mask < 2 ^ Z.of_nat (nr_cis desc) -> sized s ->
  ((forall d, In d (pair_of dpu_id) -> right s d mask) ->
   dpu_switch_mux_for_dpu_line desc conf junk dpu_id mask s = (s, Return tt))
  /\ (busy s dpu_id mask ->
      dpu_switch_mux_for_dpu_line desc conf junk dpu_id mask s = (s, Failed (error_code DPU_ERR_MRAM_BUSY)))
  /\ (~ busy s dpu_id mask ->
      match dpu_switch_mux_for_dpu_line desc conf junk dpu_id mask s with
      | (s', Undefined) => api_must_switch_mram_mux conf = true
      | (s', r) => switched s s' dpu_id mask
          /\ (api_must_switch_mram_mux conf = false -> r = Return tt /\ sent (interface s') = sent (interface s))
      end).
Proof.
  intros H8 Hd Hm Hs. split; [by apply switch_line_right |]. split; [by apply switch_line_busy | by apply switch_line_switches].
Qed.
End facts.

(** * A rank *)

(** Two interfaces of eight DPUs, the first DPU of the first one runs. *)
Definition rank_of_two (c : ci (Z * list Z)) : rank (Z * list Z) :=
  {| interface := c; dpu_enabled := replicate 2 (replicate 8 true); dpu_running := [1; 0]; nb_dpu_running := 1; transfers := [] |}.

Definition not_switching : configuration :=
  {| api_must_switch_mram_mux := false; init_mram_mux := false; disable_api_safe_checks := false |}.

Lemma switch_line_outcome_witness :
  let s := rank_of_two sample_rank in
  @dpu_switch_mux_for_dpu_line _ obedient sample_hw not_switching [] 5 0 s = (s, Return tt)
  /\ @dpu_switch_mux_for_dpu_line _ obedient sample_hw not_switching [] 1 2 s = (s, Failed (error_code DPU_ERR_MRAM_BUSY))
  /\ mux_bit (@dpu_switch_mux_for_dpu_line _ obedient sample_hw not_switching [] 3 2 s).1 1 2 = true.
Proof.
  intros s. assert (Hs : sized sample_hw s) by (split; cbn; lia).
  assert (Ho : forall d mask, 0 <= d < 8 -> 0 <= mask < 4 -> _)
    by (intros d mask Hd Hm; exact (@switch_line_outcome _ obedient sample_hw not_switching [] s d mask ltac:(cbn; lia) Hd Hm Hs)).
  split_and!.
  - apply (Ho 5 0); [lia | lia |]. intros d _ [| [| i]] Hi; [apply Z.testbit_0_l | apply Z.testbit_0_l |]. cbn in Hi. lia.
  - apply (Ho 1 2); [lia | lia |]. exists 0. split; [by left |]. split; [| by exists 0%nat, 1; split; [cbn; lia |]].
    intros Hr. specialize (Hr 1%nat ltac:(cbn; lia)). discriminate Hr.
  - destruct (Ho 3 2 ltac:(lia) ltac:(lia)) as (_ & _ & Hx). destruct (dpu_switch_mux_for_dpu_line _ _ _ 3 2 s) as [s' r] eqn:E.
    assert (Hn : ~ busy sample_hw s 3 2).
    { intros (d & Hd & _ & i & run & _ & Ei & Hb). destruct i as [| [| i]]; cbn in Ei; [| | done]; injection Ei as <-;
        destruct Hd as [<- | [<- | []]]; discriminate Hb. }
    specialize (Hx Hn). cbn [fst]. destruct r as [[] | |]; [| | discriminate Hx]; destruct Hx as [[Hx _] _];
      apply (Hx 2 (or_introl eq_refl) 1%nat); cbn; lia.
Defined.
