(* ===== verification/MramXfer.v ===== *)
(** The memories of the DPUs from the host (library/src/backends/ufi/src/ufi_memory.c):
    IRAM and WRAM of a rank, of a DPU, of the DPUs of a matrix; the MRAM transfers
    of a matrix, for which the multiplexers (Mux.v) have to be on the side of the
    host for the DPUs that have a buffer and no other.  The two DPUs of a pair have
    the same multiplexer, so a matrix in which only one of them has a buffer is
    split in two.

    The buffers of the host are lists of words, one for each DPU.
    Theorems are in MramFacts.v. *)
From stdpp Require Import list.
From S2P Require Import Prelude Errors Mask Status CiCommands Ci BitConfig Ufi Mux.
From S2P Require XferMatrix.

Local Abbreviation matrix := XferMatrix.dpu_transfer_matrix.

Section matrix.
Variable desc : hw_description.

(** [get_transfer_matrix_index]. *)
Definition matrix_index (slice_id dpu_id : nat) : Z := u8 (Z.of_nat dpu_id * Z.of_nat (nr_cis desc) + Z.of_nat slice_id).

Definition matrix_ptr (m : matrix) (slice_id dpu_id : nat) : option XferMatrix.entry := load (XferMatrix.ptr m) (matrix_index slice_id dpu_id).

Definition is_null (e : XferMatrix.entry) : bool := match e with XferMatrix.Null => true | _ => false end.

(** [dpu_transfer_matrix_add_dpu]. *)
Definition add_dpu (m : matrix) (slice_id dpu_id : nat) (buffer : XferMatrix.entry) : option matrix :=
  XferMatrix.set_ptr m <$> store (XferMatrix.ptr m) (matrix_index slice_id dpu_id) buffer.
End matrix.

Section transfers.
Context {W : Type} `{driver W} `{copier W}.
Variable desc : hw_description.
Variable conf : configuration.
Variable junk : list Z.
Local Abbreviation op := (cmd (rank W)).

Definition dpu_is_enabled (slice_id dpu_id : nat) : op bool :=
  l ← read dpu_enabled; row ← defined (l !! slice_id); defined (row !! dpu_id).

(** * Pairs of DPUs *)

(** Each second DPU: [each_dpu += 2]. *)
Definition pairs : list nat := List.filter Nat.even (seq 0 (nr_dpus desc)).

(** What a line has found when an interface has the transfer of one DPU of the
    pair only, which ends its loop. *)
Record found := { first_line : bool; second_line : bool; needed : bool }.

Fixpoint look_at_pair (m : matrix) (each_dpu : nat) (cis : list nat) (f : found) : op found :=
  match cis with
  | [] => mret f
  | each_slice :: cis =>
    first_enabled ← dpu_is_enabled each_slice each_dpu;
    both_enabled ← (if first_enabled : bool then dpu_is_enabled each_slice (S each_dpu) else mret false);
    if both_enabled : bool then
      p1 ← defined (matrix_ptr desc m each_slice each_dpu);
      p2 ← defined (matrix_ptr desc m each_slice (S each_dpu));
      let first_dpu_has_transfer := negb (is_null p1) in
      let second_dpu_has_transfer := negb (is_null p2) in
      let f := {| first_line := first_line f || first_dpu_has_transfer; second_line := second_line f || second_dpu_has_transfer;
                  needed := needed f |} in
      if eqb first_dpu_has_transfer second_dpu_has_transfer then look_at_pair m each_dpu cis f
      else mret {| first_line := first_line f; second_line := second_line f; needed := true |}
    else look_at_pair m each_dpu cis f
  end.

(** The first line that needs it ends the loop. *)
Fixpoint is_duplication_needed (m : matrix) (dpus : list nat) : op bool :=
  match dpus with
  | [] => mret false
  | each_dpu :: dpus =>
    f ← look_at_pair m each_dpu (all_cis desc) {| first_line := false; second_line := false; needed := false |};
    if first_line f && second_line f && needed f then mret true else is_duplication_needed m dpus
  end.

(** The matrices of the even and of the odd DPUs, when they are needed. *)
Definition duplicate_transfer_matrix (m even odd : matrix) : op (option (matrix * matrix)) :=
  if (nr_dpus desc <=? 1)%nat then mret None
  else if negb (api_must_switch_mram_mux conf) then mret None
  else
    needed ← is_duplication_needed m pairs;
    if needed : bool then
      r ← accumulate pairs (fun r each_dpu =>
            accumulate (all_cis desc) (fun r each_slice =>
                p1 ← defined (matrix_ptr desc m each_slice each_dpu);
                even ← defined (add_dpu desc r.1 each_slice each_dpu p1);
                p2 ← defined (matrix_ptr desc m each_slice (S each_dpu));
                odd ← defined (add_dpu desc r.2 each_slice (S each_dpu) p2);
                mret (even, odd)) r) (even, odd);
      mret (Some r)
    else mret None.

(** The first enabled DPU without buffer ends the loop. *)
Fixpoint full_from (m : matrix) (dpus : list (nat * nat)) : op bool :=
  match dpus with
  | [] => mret true
  | (each_slice, each_dpu) :: dpus =>
    s ← lift (get_slice each_slice);
    if negb (dpu_mask_is_selected (enabled_dpus s) (Z.of_nat each_dpu)) then full_from m dpus
    else
      p ← defined (matrix_ptr desc m each_slice each_dpu);
      enabled ← (if is_null p then dpu_is_enabled each_slice each_dpu else mret false);
      if enabled : bool then mret false else full_from m dpus
  end.

Definition is_transfer_matrix_full (m : matrix) : op bool :=
  full_from m (flat_map (fun each_slice => map (pair each_slice) (seq 0 (nr_dpus desc))) (all_cis desc)).

(** The bits of a line: enabled DPUs with a buffer. *)
Definition buffers_of_line (m : matrix) (each_dpu : nat) : op Z :=
  accumulate (all_cis desc) (fun mask each_slice =>
    p ← defined (matrix_ptr desc m each_slice each_dpu);
    enabled ← dpu_is_enabled each_slice each_dpu;
    mret (if enabled : bool then u8 (Z.lor mask (Z.shiftl (if is_null p then 0 else 1) (Z.of_nat each_slice))) else mask)) 0.

Definition host_get_access_for_transfer_matrix (m : matrix) : op () :=
  for_each pairs (fun each_dpu =>
    mask1 ← buffers_of_line m each_dpu;
    mask2 ← buffers_of_line m (S each_dpu);
    if (mask1 =? 0) && (mask2 =? 0) then mret tt
    else
      _ ← (if (mask1 =? 0) || (mask2 =? 0) || (mask1 =? mask2) then mret tt else undefined);
      let mask := Z.lor mask1 mask2 in
      _ ← dpu_switch_mux_for_dpu_line desc conf junk (Z.of_nat each_dpu) mask;
      dpu_switch_mux_for_dpu_line desc conf junk (Z.of_nat (S each_dpu)) mask).

Definition host_get_access_for_transfer (m : matrix) : op () :=
  is_full_matrix ← is_transfer_matrix_full m;
  if is_full_matrix : bool then dpu_switch_mux_for_rank desc conf junk true else host_get_access_for_transfer_matrix m.

(** * Transfers *)

Definition do_mram_transfer (to : bool) (m : matrix) : op () := fun s =>
  if forallb is_null (XferMatrix.ptr m) then (s, Return tt)
  else
    let '(w, ok) := copy_rank to (hw (interface s)) m in
    let s := with_interface (with_hw w (sent (interface s)) (interface s)) s in
    let s := with_transfers ({| to_mram := to; moved := m; muxes := map host_mux_mram_state (slices (interface s)) |} :: transfers s) s in
    (s, if ok : bool then Return tt else Failed (error_code DPU_ERR_DRIVER)).

(** [size], [offset] and [type] of the whole. *)
Definition like (m m' : matrix) : matrix :=
  {| XferMatrix.ptr := XferMatrix.ptr m'; XferMatrix.offset := XferMatrix.offset m; XferMatrix.size := XferMatrix.size m;
     XferMatrix.type := XferMatrix.type m |}.

Definition copy_mram_for_dpus (to : bool) (m : matrix) : op () :=
  dup ← duplicate_transfer_matrix m XferMatrix.dpu_transfer_matrix_clear_all XferMatrix.dpu_transfer_matrix_clear_all;
  match dup with
  | None => _ ← host_get_access_for_transfer m; do_mram_transfer to m
  | Some (even, odd) =>
    let even := like m even in
    _ ← host_get_access_for_transfer_matrix even;
    _ ← do_mram_transfer to even;
    let odd := like m odd in
    _ ← host_get_access_for_transfer_matrix odd;
    do_mram_transfer to odd
  end.

Definition ci_copy_to_mrams (m : matrix) : op () := copy_mram_for_dpus true m.
Definition ci_copy_from_mrams (m : matrix) : op () := copy_mram_for_dpus false m.

(** * IRAM and WRAM *)

(** An array of pointers of which one is set. *)
Definition only (slice_id : nat) (buffer : list Z) : list (list Z) := <[slice_id := buffer]> (replicate DPU_MAX_NR_CIS []).

Definition ci_copy_to_irams_rank (iram_instruction_index : Z) (source : list Z) (nb_of_instructions : Z) : op () :=
  mask ← lift (ufi_select_all desc ALL_CIS);
  lift (ufi_iram_write desc mask (replicate DPU_MAX_NR_CIS source) iram_instruction_index nb_of_instructions).

Definition ci_copy_to_irams_dpu (slice_id : nat) (dpu_id iram_instruction_index : Z) (source : list Z) (nb_of_instructions : Z) : op () :=
  mask ← lift (ufi_select_dpu desc (CI_MASK_ONE slice_id) dpu_id);
  lift (ufi_iram_write desc mask (only slice_id source) iram_instruction_index nb_of_instructions).

Definition ci_copy_from_irams_dpu (slice_id : nat) (dpu_id : Z) (destination : list Z) (iram_instruction_index nb_of_instructions : Z)
  : op (list Z) :=
  mask ← lift (ufi_select_dpu desc (CI_MASK_ONE slice_id) dpu_id);
  dst ← lift (ufi_iram_read desc junk mask (only slice_id destination) iram_instruction_index nb_of_instructions);
  defined (dst !! slice_id).

(** The DPUs of the rank with a buffer, in the order of the loops. *)
Definition all_dpus : list (nat * nat) := flat_map (fun each_ci => map (pair each_ci) (seq 0 (nr_dpus desc))) (all_cis desc).

(** The buffers by DPU; whether one has been copied. *)
Definition for_each_buffer (m : matrix) (copy : nat -> nat -> list Z -> op (list Z)) (buffers : list (list Z)) : op (bool * list (list Z)) :=
  accumulate all_dpus (fun r d =>
    enabled ← dpu_is_enabled d.1 d.2;
    if negb (enabled : bool) then mret r
    else
      p ← defined (matrix_ptr desc m d.1 d.2);
      if is_null p then mret r
      else
        buffer ← defined (load r.2 (matrix_index desc d.1 d.2));
        buffer ← copy d.1 d.2 buffer;
        buffers ← defined (store r.2 (matrix_index desc d.1 d.2) buffer);
        mret (true, buffers)) (false, buffers).

(** When no DPU has a buffer the status that is returned has not been set. *)
Definition with_status {A} (r : bool * A) : op A := if r.1 then mret r.2 else undefined.

Definition ci_copy_to_irams_matrix (m : matrix) (buffers : list (list Z)) : op () :=
  r ← for_each_buffer m (fun each_ci each_dpu buffer =>
        _ ← ci_copy_to_irams_dpu each_ci (Z.of_nat each_dpu) (u16 (XferMatrix.offset m)) buffer (u16 (XferMatrix.size m));
        mret buffer) buffers;
  _ ← with_status r; mret tt.

Definition ci_copy_from_irams_matrix (m : matrix) (buffers : list (list Z)) : op (list (list Z)) :=
  r ← for_each_buffer m (fun each_ci each_dpu buffer =>
        ci_copy_from_irams_dpu each_ci (Z.of_nat each_dpu) buffer (u16 (XferMatrix.offset m)) (u16 (XferMatrix.size m))) buffers;
  with_status r.

Definition ci_copy_to_wrams_rank (wram_word_offset : Z) (source : list Z) (nb_of_words : Z) : op () :=
  mask ← lift (ufi_select_all desc ALL_CIS);
  lift (ufi_wram_write desc mask (replicate DPU_MAX_NR_CIS source) (u16 wram_word_offset) (u16 nb_of_words)).

Definition ci_copy_to_wrams_dpu (slice_id : nat) (dpu_id wram_word_offset : Z) (source : list Z) (nb_of_words : Z) : op () :=
  mask ← lift (ufi_select_dpu desc (CI_MASK_ONE slice_id) dpu_id);
  lift (ufi_wram_write desc mask (only slice_id source) (u16 wram_word_offset) (u16 nb_of_words)).

Definition ci_copy_from_wrams_dpu (slice_id : nat) (dpu_id : Z) (destination : list Z) (wram_word_offset nb_of_words : Z) : op (list Z) :=
  mask ← lift (ufi_select_dpu desc (CI_MASK_ONE slice_id) dpu_id);
  dst ← lift (ufi_wram_read desc junk mask (only slice_id destination) (u16 wram_word_offset) (u16 nb_of_words));
  defined (dst !! slice_id).

(** The buffers of a line of DPUs, with the interfaces that have one; the array
    of pointers keeps those of the lines before. *)
Definition line_buffers (m : matrix) (buffers : list (list Z)) (each_dpu : nat) (wram_array : list (list Z)) : op (Z * list (list Z)) :=
  accumulate (all_cis desc) (fun r each_ci =>
    p ← defined (matrix_ptr desc m each_ci each_dpu);
    if is_null p then mret r
    else
      buffer ← defined (load buffers (matrix_index desc each_ci each_dpu));
      mret (Z.lor r.1 (CI_MASK_ONE each_ci), <[each_ci := buffer]> r.2)) (0, wram_array).

Definition ci_copy_to_wrams_matrix (m : matrix) (buffers : list (list Z)) : op () :=
  _ ← accumulate (seq 0 (nr_dpus desc)) (fun wram_array each_dpu =>
        r ← line_buffers m buffers each_dpu wram_array;
        if r.1 =? 0 then mret r.2
        else
          mask ← lift (ufi_select_dpu desc r.1 (Z.of_nat each_dpu));
          _ ← lift (ufi_wram_write desc mask r.2 (u16 (XferMatrix.offset m)) (u16 (XferMatrix.size m)));
          mret r.2) (replicate DPU_MAX_NR_CIS []);
  mret tt.

(** The buffers that were read take their place among those of the DPUs. *)
Definition put_back (mask : Z) (each_dpu : nat) (dst buffers : list (list Z)) : option (list (list Z)) :=
  fold_left (fun o each_ci => o ← o; buffer ← dst !! each_ci; store o (matrix_index desc each_ci each_dpu) buffer)
    (each_ci desc mask) (Some buffers).

Definition ci_copy_from_wrams_matrix (m : matrix) (buffers : list (list Z)) : op (list (list Z)) :=
  accumulate (seq 0 (nr_dpus desc)) (fun buffers each_dpu =>
    r ← line_buffers m buffers each_dpu (replicate DPU_MAX_NR_CIS []);
    if r.1 =? 0 then mret buffers
    else
      mask ← lift (ufi_select_dpu desc r.1 (Z.of_nat each_dpu));
      dst ← lift (ufi_wram_read desc junk mask r.2 (u16 (XferMatrix.offset m)) (u16 (XferMatrix.size m)));
      defined (put_back mask each_dpu dst buffers)) buffers.
End transfers.
