(* ===== verification/MramFacts.v ===== *)
(** What the MRAM transfers of a matrix find (MramXfer.v): each buffer is moved
    once, by a transfer made while the multiplexer of its DPU is on the side of the
    host; the matrices whose lines the duplication misses end the program. *)
From stdpp Require Import list.
From S2P Require Import Prelude Errors Mask Status CiCommands Ci BitConfig Ufi UfiCache UfiFixed Mux MuxFacts MramXfer.
From S2P Require XferMatrix.

Local Abbreviation matrix := XferMatrix.dpu_transfer_matrix.

Section facts.
Context {W : Type} `{driver W} `{copier W}.
Variable desc : hw_description.
Variable conf : configuration.
Variable junk : list Z.
Implicit Types s : rank W.
Implicit Types m : matrix.

(** * Loops that only look *)

Lemma accumulate_inv {S A B} (f : B -> A -> cmd S B) (I : list A -> B -> Prop) (t : S) l b t' b' :
  accumulate l f b t = (t', Return b') -> I l b ->
  (forall a l b, I (a :: l) b -> match f b a t with (t', Return b') => t' = t /\ I l b' | _ => True end) ->
  t' = t /\ I [] b'.
Proof.
  intros E Hi Hf. revert b Hi E. induction l as [| a l IH]; intros b Hi; cbn [accumulate]; [by intros [= <- <-] |].
  unfold mbind, cmd_bind. specialize (Hf a l b Hi). destruct (f b a t) as [t1 [b1 | |]]; [| done | done].
  destruct Hf as [-> Hi1]. by apply IH.
Qed.

(** The entry of a DPU, none outside the matrix. *)
Definition entry_of m (i d : nat) : option XferMatrix.entry := matrix_ptr desc m i d.

Definition enabled s (i d : nat) : bool := match dpu_enabled s !! i with Some row => match row !! d with Some b => b | None => false end | None => false end.

(** A buffer for an enabled DPU. *)
Definition wanted s m (i d : nat) : Prop := enabled s i d = true /\ exists p, entry_of m i d = Some p /\ is_null p = false.

Lemma is_enabled_spec s i d : match dpu_is_enabled i d s with
  | (s', Return b) => s' = s /\ b = enabled s i d
  | (_, Failed _) => False
  | (_, Undefined) => True
  end.
Proof.
  unfold dpu_is_enabled, enabled, read, defined, mbind, cmd_bind, mret, cmd_ret. destruct (dpu_enabled s !! i) as [row |]; [| done].
  cbv beta iota. by destruct (row !! d).
Qed.

Lemma buffers_of_line_spec s m d s' mask : (nr_cis desc <= 8)%nat ->
  buffers_of_line desc m d s = (s', Return mask) ->
  s' = s /\ 0 <= mask < 2 ^ Z.of_nat (nr_cis desc) /\ forall i, (i < nr_cis desc)%nat -> wanted s m i d -> CI_MASK_ON mask i = true.
Proof.
  intros H8 E.
  assert (Hp : 2 ^ Z.of_nat (nr_cis desc) <= 2 ^ 8) by (apply Z.pow_le_mono_r; lia).
  pose (I := fun (l : list nat) mask => (forall i, In i l -> i < nr_cis desc)%nat /\ 0 <= mask < 2 ^ Z.of_nat (nr_cis desc) /\
     forall i, (i < nr_cis desc)%nat -> ~ In i l -> wanted s m i d -> CI_MASK_ON mask i = true).
  destruct (accumulate_inv _ I s (all_cis desc) 0 s' mask E) as [-> (_ & Hm & Hi)].
  - split_and!; [intros i Hi; apply in_seq in Hi; lia | done | by apply Z.pow_pos_nonneg; lia |].
    intros i Hi Hn. destruct Hn. apply in_seq. lia.
  - intros i l b (Hl & Hb & Hi). unfold defined, mbind, cmd_bind. destruct (matrix_ptr desc m i d) as [p |] eqn:Ep; [| done].
    unfold mret, cmd_ret. pose proof (is_enabled_spec s i d) as Hen. destruct (dpu_is_enabled i d s) as [s1 [en | |]]; [| done | done].
    destruct Hen as [-> ->]. split; [done |].
    assert (Hin : (i < nr_cis desc)%nat) by (apply Hl; by left).
    assert (Hone : 0 <= Z.shiftl (if is_null p then 0 else 1) (Z.of_nat i) < 2 ^ Z.of_nat (nr_cis desc)).
    { destruct (is_null p); [rewrite Z.shiftl_0_l; split; [done | apply Z.pow_pos_nonneg; lia] |].
      rewrite shiftl_1_pow2 by lia. split; [by apply Z.pow_nonneg |]. apply Z.pow_lt_mono_r; lia. }
    assert (Hor := lor_range (Z.of_nat (nr_cis desc)) b _ ltac:(lia) Hb Hone).
    assert (Hu : u8 (Z.lor b (Z.shiftl (if is_null p then 0 else 1) (Z.of_nat i))) = Z.lor b (Z.shiftl (if is_null p then 0 else 1) (Z.of_nat i)))
      by (apply wrap_small; lia).
    destruct (enabled s i d) eqn:Ee; rewrite ?Hu; (split; [intros j Hj; apply Hl; by right |]); (split; [done |]); intros j Hj Hn Hw.
    + unfold CI_MASK_ON. rewrite Z.lor_spec, orb_true_iff. destruct (Nat.eq_dec j i) as [-> |].
      * right. destruct Hw as (_ & p' & Ep' & Hp'). unfold entry_of in Ep'. rewrite Ep in Ep'. injection Ep' as <-. rewrite Hp'.
        by rewrite shiftl_1_pow2, Z.pow2_bits_true by lia.
      * left. apply Hi; [done | | done]. by intros [->|].
    + apply Hi; [done | | done]. intros [-> |]; [| done]. destruct Hw as [Hw _]. congruence.
  - split; [done |]. split; [done |]. intros i Hin Hw. by apply Hi; [| intros [] |].
Qed.

(** * The multiplexers a transfer needs *)

Definition reached s m : Prop := forall i d, (i < nr_cis desc)%nat -> (d < nr_dpus desc)%nat -> wanted s m i d -> mux_bit s i (Z.of_nat d) = true.

(** The topologies of ranks: DPUs go in pairs, masks of interfaces and of DPUs are bytes. *)
Definition regular : Prop := (nr_cis desc <= 8)%nat /\ (nr_dpus desc <= 8)%nat /\ Nat.even (nr_dpus desc) = true.

Lemma wanted_only_lines l s s' m i d : only_lines l s s' -> wanted s' m i d <-> wanted s m i d.
Proof. intros (_ & _ & E & _). unfold wanted, enabled. by rewrite E. Qed.

Lemma even_base d : Nat.even d = true -> base_of (Z.of_nat d) = Z.of_nat d /\ base_of (Z.of_nat (S d)) = Z.of_nat d.
Proof.
  intros He. apply Nat.even_spec in He as [k ->]. unfold base_of.
  assert (Hb : forall z, Z.ldiff z 1 = 2 * (z / 2)).
  { intros z. change 1 with (Z.ones 1). by rewrite Z.ldiff_ones_r, Z.shiftl_mul_pow2, Z.shiftr_div_pow2, Z.mul_comm by lia. }
  rewrite !Hb. split.
  - rewrite (Nat.mul_comm 2 k), Nat2Z.inj_mul, Z.div_mul by lia. lia.
  - replace (Z.of_nat (S (2 * k))) with (1 + Z.of_nat k * 2) by lia. rewrite Z.div_add by lia. change (1 / 2) with 0. lia.
Qed.

Lemma even_pair d : Nat.even d = true -> (S d < nr_dpus desc)%nat ->
  pair_of desc (Z.of_nat d) = [Z.of_nat d; Z.of_nat (S d)] /\ pair_of desc (Z.of_nat (S d)) = [Z.of_nat d; Z.of_nat (S d)].
Proof.
  intros He Hd. destruct (even_base d He) as [E1 E2]. unfold pair_of. rewrite E1, E2.
  destruct (Z.ltb_spec (Z.of_nat d + 1) (Z.of_nat (nr_dpus desc))); [| lia]. split; do 2 f_equal; lia.
Qed.

Lemma switched_line s d mask s' x : regular -> (d < nr_dpus desc)%nat -> 0 <= mask < 2 ^ Z.of_nat (nr_cis desc) -> sized desc s ->
  dpu_switch_mux_for_dpu_line desc conf junk (Z.of_nat d) mask s = (s', Return x) -> switched desc s s' (Z.of_nat d) mask.
Proof.
  intros (_ & H8 & _) Hd Hm Hs E. assert (Hd' : 0 <= Z.of_nat d < Z.of_nat (nr_dpus desc)) by lia.
  by apply (switch_line_return desc conf junk s (Z.of_nat d) mask H8 Hd' Hm Hs s' x).
Qed.

(** The body of the loop over pairs. *)
Definition access_pair m (d : nat) : cmd (rank W) () :=
  mask1 ← buffers_of_line desc m d;
  mask2 ← buffers_of_line desc m (S d);
  if (mask1 =? 0) && (mask2 =? 0) then mret tt
  else
    _ ← (if (mask1 =? 0) || (mask2 =? 0) || (mask1 =? mask2) then mret tt else undefined);
    let mask := Z.lor mask1 mask2 in
    _ ← dpu_switch_mux_for_dpu_line desc conf junk (Z.of_nat d) mask;
    dpu_switch_mux_for_dpu_line desc conf junk (Z.of_nat (S d)) mask.

(** Both DPUs of a pair. *)
Definition both (d : nat) : list Z := [Z.of_nat d; Z.of_nat (S d)].

Definition pair_reached s m (d : nat) : Prop :=
  forall i x, (i < nr_cis desc)%nat -> (x = d \/ x = S d) -> wanted s m i x -> mux_bit s i (Z.of_nat x) = true.

Lemma access_pair_spec s m d s' u : regular -> Nat.even d = true -> (S d < nr_dpus desc)%nat -> sized desc s ->
  access_pair m d s = (s', Return u) -> only_lines (both d) s s' /\ pair_reached s' m d.
Proof.
  intros Hr He Hd Hs. destruct (even_pair d He Hd) as [P1 P2]. unfold access_pair, mbind, cmd_bind.
  destruct (buffers_of_line desc m d s) as [s1 [mask1 | |]] eqn:E1; [| done | done].
  apply buffers_of_line_spec in E1 as (-> & Hm1 & Hw1); [| by destruct Hr as (? & _)].
  destruct (buffers_of_line desc m (S d) s) as [s2 [mask2 | |]] eqn:E2; [| done | done].
  apply buffers_of_line_spec in E2 as (-> & Hm2 & Hw2); [| by destruct Hr as (? & _)].
  destruct ((mask1 =? 0) && (mask2 =? 0)) eqn:E0.
  { intros [= <- _]. split; [apply only_lines_refl |]. apply andb_true_iff in E0 as [->%Z.eqb_eq ->%Z.eqb_eq].
    intros i x Hi Hx Hw. exfalso. destruct Hx as [-> | ->]; [specialize (Hw1 i Hi Hw) | specialize (Hw2 i Hi Hw)];
      unfold CI_MASK_ON in *; by rewrite Z.testbit_0_l in *. }
  destruct (_ || (mask1 =? mask2)); [| done]. unfold mret, cmd_ret.
  assert (Hm : 0 <= Z.lor mask1 mask2 < 2 ^ Z.of_nat (nr_cis desc)) by (apply lor_range; lia || done).
  destruct (dpu_switch_mux_for_dpu_line desc conf junk (Z.of_nat d) _ s) as [s1 [u1 | |]] eqn:E3; [| done | done].
  apply switched_line in E3 as [_ O1]; [| done | lia | done | done]. rewrite P1 in O1.
  intros E4. apply switched_line in E4 as [R2 O2]; [| done | lia | done | by eapply sized_only_lines].
  rewrite P2 in R2, O2. assert (O : only_lines (both d) s s') by (by eapply only_lines_trans). split; [done |].
  intros i x Hi Hx Hw. rewrite (wanted_only_lines _ _ _ _ _ _ O) in Hw.
  rewrite R2; [| destruct Hx as [-> | ->]; [by left | right; by left] | done].
  unfold CI_MASK_ON in *. rewrite Z.lor_spec. destruct Hx as [-> | ->]; [rewrite Hw1 | rewrite Hw2, orb_true_r]; done.
Qed.

Lemma access_pairs_spec m l s s' u : regular -> NoDup l -> (forall d, In d l -> Nat.even d = true /\ (S d < nr_dpus desc)%nat) ->
  sized desc s -> for_each l (access_pair m) s = (s', Return u) ->
  only_lines (flat_map both l) s s' /\ forall d, In d l -> pair_reached s' m d.
Proof.
  intros Hr Hnd Hl. revert s. induction l as [| d l IH]; intros s Hs; cbn [for_each]; [intros [= <- _]; split; [apply only_lines_refl | by intros d []] |].
  apply list.NoDup_cons in Hnd as [Hn Hnd]. rewrite list_elem_of_In in Hn.
  unfold mbind, cmd_bind. destruct (access_pair m d s) as [s1 [u1 | |]] eqn:E1; [| done | done]. intros E2.
  destruct (Hl d (or_introl eq_refl)) as [He Hd].
  apply access_pair_spec in E1 as [O1 R1]; [| done ..].
  destruct (IH Hnd (fun d' Hd' => Hl d' (or_intror Hd')) s1) as [O2 R2]; [by eapply sized_only_lines | done |].
  split.
  - eapply only_lines_trans; (eapply only_lines_mono; [| done]); intros z Hz; cbn [flat_map]; apply in_app_iff; tauto.
  - intros d' [<- | Hd']; [| by apply R2]. intros i x Hi Hx Hw. rewrite (wanted_only_lines _ _ _ _ _ _ O2) in Hw.
    destruct O2 as (_ & _ & _ & _ & _ & _ & O2). rewrite O2; [by apply R1 | lia |].
    rewrite in_flat_map. intros (d' & Hd' & Hz). assert (Hne : d' <> d) by (by intros ->).
    destruct (Hl d' (or_intror Hd')) as [He' _]. apply Nat.even_spec in He as [k ->], He' as [k' ->].
    destruct Hz as [Hz | [Hz | []]], Hx as [-> | ->]; lia.
Qed.

Lemma access_matrix_spec m s s' u : regular -> sized desc s ->
  host_get_access_for_transfer_matrix desc conf junk m s = (s', Return u) ->
  only_lines (map Z.of_nat (seq 0 (nr_dpus desc))) s s' /\ reached s' m.
Proof.
  intros Hr Hs E. assert (Hl : forall d, In d (pairs desc) -> Nat.even d = true /\ (S d < nr_dpus desc)%nat).
  { intros d Hd. unfold pairs in Hd. apply filter_In in Hd as [Hd He]. apply in_seq in Hd. split; [done |].
    destruct Hr as (_ & _ & Hn). apply Nat.even_spec in Hn as [n Hn], He as [k ->]. lia. }
  apply access_pairs_spec in E as [O R]; [| done | by apply NoDup_ListNoDup, List.NoDup_filter, List.seq_NoDup | done | done]. split.
  - eapply only_lines_mono; [| done]. intros z Hz. apply in_flat_map in Hz as (d & Hd & Hz). apply Hl in Hd.
    destruct Hz as [<- | [<- | []]]; apply in_map, in_seq; lia.
  - intros i d Hi Hd Hw. destruct (Nat.even d) eqn:He.
    + apply (R d); [| done | by left | done]. apply filter_In. split; [apply in_seq; lia | done].
    + destruct d as [| d]; [done |]. rewrite Nat.even_succ, <- Nat.negb_even in He. apply negb_false_iff in He.
      apply (R d); [| done | by right | done]. apply filter_In. split; [apply in_seq; lia | done].
Qed.

(** * The whole rank *)

(** The multiplexers noted are those of DPUs there are. *)
Definition bounded s : Prop := forall sl, In sl (slices (interface s)) -> 0 <= host_mux_mram_state sl < 2 ^ Z.of_nat (nr_dpus desc).

Lemma popcount_full n x : (n <= 8)%nat -> 0 <= x < 2 ^ Z.of_nat n -> Z.of_nat n <= popcount x ->
  forall d, (d < n)%nat -> Z.testbit x (Z.of_nat d) = true.
Proof.
  intros Hn Hx Hp d Hd.
  assert (Hall : forallb (fun n => forallb (fun x => (popcount (Z.of_nat x) <? Z.of_nat n) || forallb (fun d => Z.testbit (Z.of_nat x) (Z.of_nat d)) (seq 0 n))
    (seq 0 (Nat.pow 2 n))) (seq 0 9) = true) by (by vm_compute).
  rewrite forallb_forall in Hall. specialize (Hall n ltac:(apply in_seq; lia)). rewrite forallb_forall in Hall.
  assert (Hpow : Z.of_nat (Nat.pow 2 n) = 2 ^ Z.of_nat n) by (by rewrite Nat2Z.inj_pow).
  specialize (Hall (Z.to_nat x) ltac:(apply in_seq; lia)). rewrite Z2Nat.id in Hall by lia.
  apply orb_true_iff in Hall as [Hlt%Z.ltb_lt | Hall]; [lia |]. rewrite forallb_forall in Hall. apply Hall, in_seq. lia.
Qed.

Definition all_host s (cis : list nat) : Prop := forall i d, In i cis -> (d < nr_dpus desc)%nat -> mux_bit s i (Z.of_nat d) = true.

Lemma wrong_direction_spec s cis : regular -> bounded s ->
  match wrong_direction desc true cis s with
  | (s', Return b) => s' = s /\ (b = false -> all_host s cis)
  | (_, Failed _) => False
  | (_, Undefined) => True
  end.
Proof.
  intros (_ & H8 & _) Hb. induction cis as [| i cis IH]; cbn [wrong_direction]; [split; [done |]; by intros _ i d [] |].
  unfold lift, get_slice, read, defined, mbind, cmd_bind. destruct (slices (interface s) !! i) as [sl |] eqn:E; [| done].
  unfold mret, cmd_ret. cbn [andb negb orb]. rewrite ?orb_false_r, ?andb_true_l.
  replace (with_interface (interface s) s) with s by (by destruct s).
  destruct (Z.ltb_spec (popcount (host_mux_mram_state sl)) (Z.of_nat (nr_dpus desc))) as [| Hfull]; [done |].
  destruct (wrong_direction desc true cis s) as [s1 [b | |]]; [| done | done]. destruct IH as [-> IH]. split; [done |].
  intros Hf. specialize (IH Hf). intros j d [<- | Hj] Hd; [| by apply IH]. unfold mux_bit. rewrite E.
  apply (popcount_full (nr_dpus desc)); [done | | lia | done]. apply Hb. apply list_elem_of_In. by eapply list_elem_of_lookup_2.
Qed.

Lemma lift_set_slice_spec s i f : match lift (set_slice i f) s with
  | (s', Return _) => exists sl, slices (interface s) !! i = Some sl
      /\ s' = with_interface (with_slices (alter f i (slices (interface s))) (interface s)) s
  | _ => True
  end.
Proof.
  unfold lift. pose proof (set_slice_spec i f (interface s)) as Hset.
  destruct (set_slice i f (interface s)) as [c [[] | |]]; [| done | done]. destruct Hset as (sl & E & ->). by exists sl.
Qed.

(** Noting all of the rank. *)
Lemma note_rank_spec cis v s s' u :
  for_each cis (fun i => lift (set_slice i (with_mux v))) s = (s', Return u) ->
  dpu_running s' = dpu_running s /\ dpu_enabled s' = dpu_enabled s /\ transfers s' = transfers s
  /\ length (slices (interface s')) = length (slices (interface s))
  /\ forall i sl, slices (interface s') !! i = Some sl -> exists sl0, slices (interface s) !! i = Some sl0
       /\ host_mux_mram_state sl = if existsb (Nat.eqb i) cis then v else host_mux_mram_state sl0.
Proof.
  revert s. induction cis as [| j cis IH]; intros s; cbn [for_each].
  { intros [= <- _]. split_and!; try done. intros i sl E. by exists sl. }
  unfold mbind, cmd_bind. pose proof (lift_set_slice_spec s j (with_mux v)) as Hset.
  destruct (lift (set_slice j (with_mux v)) s) as [s1 [[] | |]]; [| done | done]. destruct Hset as (sl0 & E0 & ->).
  intros E. apply IH in E as (A1 & A2 & A3 & A5 & A4). split_and!; [done | done | done | by rewrite A5; cbn; rewrite length_alter |]. intros i sl Ei. destruct (A4 i sl Ei) as (sl1 & E1 & E2).
  cbn [interface with_interface slices with_slices] in E1. rewrite list_lookup_alter in E1. cbn [existsb].
  destruct (decide (j = i)) as [<- |].
  - rewrite E0 in E1. cbn in E1. injection E1 as <-. exists sl0. split; [done |]. rewrite Nat.eqb_refl. cbn [orb]. rewrite E2.
    by destruct (existsb _ cis).
  - exists sl1. split; [done |]. rewrite E2. by destruct (Nat.eqb_spec i j); [subst |].
Qed.

Lemma commanded_access_rank t b : keeps (commanded t) (host_handle_access_for_rank desc conf junk b).
Proof.
  unfold host_handle_access_for_rank, dpu_check_wavegen_mux_status_for_rank, ufi_select_all_even_disabled.
  assert (Hsel : forall choose mask, keeps (commanded t) (lift (select_frames desc mask choose)))
    by (intros choose mask; apply commanded_lift; intros l; apply unchanged_select_frames).
  apply keeps_bind; [apply Hsel | intros mask].
  apply keeps_bind; [apply commanded_lift; intros l; apply unchanged_set_mram_mux | intros []].
  apply keeps_bind; [apply Hsel | intros mask'].
  apply keeps_bind; [apply commanded_lift; intros l; apply unchanged_write_dma_ctrl | intros []].
  apply keeps_bind; [apply commanded_lift; intros l; apply unchanged_clear_dma_ctrl | intros []].
  generalize (if b then WAVEGEN_MUX_HOST_EXPECTED else WAVEGEN_MUX_DPU_EXPECTED) as expected. intros expected.
  generalize junk as results. induction (seq 0 (nr_dpus desc)) as [| d l IH]; intros results; cbn [check_each_dpu]; [apply keeps_ret |].
  apply keeps_bind.
  - apply commanded_tries. intros l'. apply keeps_bind; [apply commanded_select | intros m]. apply commanded_lift.
    intros l0. apply unchanged_read_dma_ctrl.
  - intros r. unfold timed_out. destruct (_ =? 0)%nat; [destruct (disable_api_safe_checks conf) |]; auto with keeps.
Qed.

Lemma access_rank_spec m s s' u : regular -> sized desc s -> bounded s ->
  dpu_switch_mux_for_rank desc conf junk true s = (s', Return u) ->
  sized desc s' /\ dpu_enabled s' = dpu_enabled s /\ transfers s' = transfers s /\ reached s' m.
Proof.
  intros Hr [Hs Hs'] Hb. unfold dpu_switch_mux_for_rank, read. unfold mbind at 1, cmd_bind at 1. unfold mret at 1, cmd_ret at 1.
  destruct (0 <? nb_dpu_running s); [done |].
  unfold mbind at 1, cmd_bind at 1. pose proof (wrong_direction_spec s (all_cis desc) Hr Hb) as Hw.
  destruct (wrong_direction desc true (all_cis desc) s) as [s1 [b | |]]; [| done | done]. destruct Hw as [-> Hw].
  destruct b; cbn [negb].
  2: { intros [= <- _]. split_and!; [done ..|]. intros i d Hi Hd _. apply Hw; [done | apply in_seq; lia | done]. }
  unfold mbind at 1, cmd_bind at 1. set (v := u8 (Z.shiftl 1 (Z.of_nat (nr_dpus desc)) - 1)).
  destruct (for_each (all_cis desc) _ s) as [s1 [[] | |]] eqn:E1; [| done | done].
  apply note_rank_spec in E1 as (A1 & A2 & A3 & A5 & A4). clear Hw.
  assert (R1 : forall i d, (i < nr_cis desc)%nat -> (d < nr_dpus desc)%nat -> mux_bit s1 i (Z.of_nat d) = true).
  { intros i d Hi Hd. unfold mux_bit. destruct (lookup_lt_is_Some_2 (slices (interface s1)) i ltac:(lia)) as [sl E]. rewrite E.
    destruct (A4 i sl E) as (sl0 & _ & ->). rewrite (proj2 (existsb_exists _ _)) by (exists i; split; [apply in_seq; lia | apply Nat.eqb_refl]).
    destruct Hr as (_ & H8 & _). unfold v. rewrite Z.shiftl_1_l, Z.sub_1_r, <- Z.ones_equiv, wrap_small.
    - apply Z.ones_spec_low. lia.
    - rewrite Z.ones_equiv. pose proof (Z.pow_pos_nonneg 2 (Z.of_nat (nr_dpus desc))).
      assert (2 ^ Z.of_nat (nr_dpus desc) <= 2 ^ 8) by (apply Z.pow_le_mono_r; lia). lia. }
  destruct (negb _ && negb _).
  - intros [= <- _]. split_and!; [split; [by rewrite A5 | by rewrite A1] | done | done |]. intros i d Hi Hd _. by apply R1.
  - intros E. pose proof (commanded_access_rank s1 true s1 ltac:(by repeat split)) as Hk. rewrite E in Hk.
    pose proof (commanded_only_lines _ _ Hk) as (B1 & B2 & B3 & B4 & B5 & _ & B7).
    split_and!; [split; [by rewrite B5, A5 | by rewrite B1, A1] | congruence | congruence |]. intros i d Hi Hd _. rewrite B7; [by apply R1 | lia | by intros []].
Qed.

(** What a transfer finds, whichever way it gets its access. *)
Definition accessed m s s' : Prop :=
  sized desc s' /\ dpu_enabled s' = dpu_enabled s /\ transfers s' = transfers s /\ reached s' m.

Lemma full_from_state m l s : match full_from desc m l s with (s', Return _) => s' = s | _ => True end.
Proof.
  induction l as [| [i d] l IH]; cbn [full_from]; [done |].
  unfold lift, get_slice, read, defined, mbind, cmd_bind. destruct (slices (interface s) !! i) as [sl |] eqn:E; [| done].
  unfold mret, cmd_ret. replace (with_interface (interface s) s) with s by (by destruct s).
  destruct (negb _); [exact IH |]. destruct (matrix_ptr desc m i d) as [p |]; [| done].
  destruct (is_null p); [| exact IH]. pose proof (is_enabled_spec s i d) as Hen.
  destruct (dpu_is_enabled i d s) as [s1 [[] | |]]; [| | done | done]; destruct Hen as [-> _]; [done | exact IH].
Qed.

Lemma access_spec m s s' u : regular -> sized desc s -> bounded s ->
  host_get_access_for_transfer desc conf junk m s = (s', Return u) -> accessed m s s'.
Proof.
  intros Hr Hs Hb. unfold host_get_access_for_transfer, mbind, cmd_bind. unfold is_transfer_matrix_full.
  match goal with |- context [full_from desc m ?l s] => pose proof (full_from_state m l s) as Hf; destruct (full_from desc m l s) as [s1 [b | |]] end;
    [| done | done]. subst s1. destruct b.
  - by apply access_rank_spec.
  - intros E. apply access_matrix_spec in E as [O R]; [| done | done]. assert (Hs1 : sized desc s') by (by eapply sized_only_lines).
    destruct O as (_ & _ & A3 & A4 & _). by split; [| split_and!].
Qed.

(** * The two halves of a matrix *)

Definition is_dpu (i d : nat) : Prop := (i < nr_cis desc)%nat /\ (d < nr_dpus desc)%nat.

Lemma matrix_index_small i d : regular -> is_dpu i d -> matrix_index desc i d = Z.of_nat (d * nr_cis desc + i) /\ (d * nr_cis desc + i < 64)%nat.
Proof. intros (H1 & H2 & _) [Hi Hd]. assert (d * nr_cis desc + i < 64)%nat by nia. unfold matrix_index. rewrite wrap_small; lia. Qed.

Lemma entry_lookup m i d : regular -> is_dpu i d -> entry_of m i d = XferMatrix.ptr m !! (d * nr_cis desc + i)%nat.
Proof.
  intros Hr Hd. unfold entry_of, matrix_ptr. destruct (matrix_index_small i d Hr Hd) as [-> _]. rewrite load_lookup by lia. by rewrite Nat2Z.id.
Qed.

(** The entries of [m] for the DPUs of a set, no others. *)
Definition copied (P : nat -> nat -> bool) m e : Prop :=
  length (XferMatrix.ptr e) = 64%nat /\ forall i d, is_dpu i d -> entry_of e i d = if P i d then entry_of m i d else Some XferMatrix.Null.

Lemma copied_ext P P' m e : copied P m e -> (forall i d, is_dpu i d -> P i d = P' i d) -> copied P' m e.
Proof. intros [Hl He] HP. split; [done |]. intros i d Hd. by rewrite <- HP, He by done. Qed.

Lemma copied_empty m : regular -> copied (fun _ _ => false) m XferMatrix.dpu_transfer_matrix_clear_all.
Proof.
  intros Hr. split; [done |]. intros i d Hd. rewrite entry_lookup by done. destruct (matrix_index_small i d Hr Hd) as [_ Hx].
  cbn [XferMatrix.ptr XferMatrix.dpu_transfer_matrix_clear_all]. by rewrite lookup_replicate_2 by done.
Qed.

Lemma copied_add P m e i d p e' : regular -> is_dpu i d -> copied P m e -> matrix_ptr desc m i d = Some p -> add_dpu desc e i d p = Some e' ->
  copied (fun i' d' => P i' d' || ((i' =? i)%nat && (d' =? d)%nat)) m e'.
Proof.
  intros Hr Hd [Hl He] Hp Ha. unfold add_dpu in Ha. destruct (matrix_index_small i d Hr Hd) as [Ex Hx]. rewrite Ex in Ha.
  rewrite store_insert in Ha by lia. cbn in Ha. injection Ha as <-. rewrite Nat2Z.id.
  split; [cbn; by rewrite length_insert |]. intros i' d' Hd'. rewrite entry_lookup by done. cbn [XferMatrix.ptr XferMatrix.set_ptr].
  destruct (Nat.eqb_spec i' i) as [-> | Hi], (Nat.eqb_spec d' d) as [-> | Hn]; cbn [andb]; rewrite ?orb_false_r, ?orb_true_r.
  - rewrite list_lookup_insert_eq by lia. by symmetry.
  - rewrite list_lookup_insert_ne, <- entry_lookup by (done || (destruct Hr, Hd, Hd'; nia)). by apply He.
  - rewrite list_lookup_insert_ne, <- entry_lookup by (done || (destruct Hr, Hd, Hd'; nia)). by apply He.
  - rewrite list_lookup_insert_ne, <- entry_lookup by (done || (destruct Hr, Hd, Hd'; nia)). by apply He.
Qed.

Definition mem (x : nat) (l : list nat) : bool := existsb (Nat.eqb x) l.

Lemma mem_In x l : mem x l = true <-> In x l.
Proof. unfold mem. rewrite existsb_exists. split; [intros (y & Hy & ->%Nat.eqb_eq); done | intros Hx; exists x; by rewrite Nat.eqb_refl]. Qed.

(** The lines copied when [L] is left to do. *)
Definition even_done (L : list nat) (i d : nat) : bool := Nat.even d && negb (mem d L).
Definition odd_done (L : list nat) (i d : nat) : bool := Nat.odd d && negb (mem (pred d) L).

Definition split_step m (r : matrix * matrix) (d i : nat) : cmd (rank W) (matrix * matrix) :=
  p1 ← defined (matrix_ptr desc m i d);
  even ← defined (add_dpu desc r.1 i d p1);
  p2 ← defined (matrix_ptr desc m i (S d));
  odd ← defined (add_dpu desc r.2 i (S d) p2);
  mret (even, odd).

Lemma split_step_spec m r d i P Q s : regular -> is_dpu i d -> is_dpu i (S d) -> copied P m r.1 -> copied Q m r.2 ->
  match split_step m r d i s with
  | (s', Return r') => s' = s /\ copied (fun i' d' => P i' d' || ((i' =? i)%nat && (d' =? d)%nat)) m r'.1
      /\ copied (fun i' d' => Q i' d' || ((i' =? i)%nat && (d' =? S d)%nat)) m r'.2
  | _ => True
  end.
Proof.
  intros Hr H1 H2 C1 C2. unfold split_step, defined, mbind, cmd_bind.
  destruct (matrix_ptr desc m i d) as [p1 |] eqn:E1; [| done]. unfold mret, cmd_ret.
  destruct (add_dpu desc r.1 i d p1) as [even |] eqn:E2; [| done].
  destruct (matrix_ptr desc m i (S d)) as [p2 |] eqn:E3; [| done].
  destruct (add_dpu desc r.2 i (S d) p2) as [odd |] eqn:E4; [| done].
  split; [done |]. cbn [fst snd]. split; by eapply copied_add.
Qed.

Lemma mem_cons x y l : mem x (y :: l) = (x =? y)%nat || mem x l.
Proof. done. Qed.

Lemma mem_step i' i l (b c : bool) : mem i l = false ->
  (b || (negb (mem i' (i :: l)) && c)) || ((i' =? i)%nat && c) = b || (negb (mem i' l) && c).
Proof. intros Hi. rewrite mem_cons. destruct (Nat.eqb_spec i' i) as [-> |]; [rewrite Hi; by destruct b, c | by destruct b, c, (mem i' l)]. Qed.

Lemma mem_not_in x l : ~ In x l -> mem x l = false.
Proof. rewrite <- mem_In. apply not_true_is_false. Qed.

Lemma split_line_spec m r d s s' r' P Q : regular -> (S d < nr_dpus desc)%nat -> copied P m r.1 -> copied Q m r.2 ->
  accumulate (all_cis desc) (fun r i => split_step m r d i) r s = (s', Return r') ->
  s' = s /\ copied (fun i' d' => P i' d' || (d' =? d)%nat) m r'.1 /\ copied (fun i' d' => Q i' d' || (d' =? S d)%nat) m r'.2.
Proof.
  intros Hr Hd C1 C2 E.
  pose (I := fun (l : list nat) (r : matrix * matrix) => (forall i, In i l -> i < nr_cis desc)%nat /\ List.NoDup l
     /\ copied (fun i' d' => P i' d' || (negb (mem i' l) && (d' =? d)%nat)) m r.1
     /\ copied (fun i' d' => Q i' d' || (negb (mem i' l) && (d' =? S d)%nat)) m r.2).
  destruct (accumulate_inv _ I s _ _ _ _ E) as [-> (_ & _ & D1 & D2)].
  - split; [intros i Hi; apply in_seq in Hi; lia |]. split; [apply List.seq_NoDup |].
    assert (Hmem : forall i d', is_dpu i d' -> mem i (all_cis desc) = true) by (intros i d' [Hi _]; apply mem_In, in_seq; lia).
    split; (eapply copied_ext; [done |]); intros i d' Hi; cbn beta; rewrite (Hmem i d' Hi); cbn [negb andb]; by rewrite orb_false_r.
  - intros i l r1 (Hl & Hnd & D1 & D2). assert (Hi : (i < nr_cis desc)%nat) by (apply Hl; by left).
    pose proof (split_step_spec m r1 d i _ _ s Hr ltac:(split; lia) ltac:(split; lia) D1 D2) as Hx.
    destruct (split_step m r1 d i s) as [s1 [r2 | |]]; [| done | done]. destruct Hx as (-> & F1 & F2). split; [done |].
    inversion Hnd as [| ? ? Hn Hnd']; subst. split; [intros j Hj; apply Hl; by right |]. split; [done |].
    apply mem_not_in in Hn.
    split; (eapply copied_ext; [done |]); intros i' d' _; cbn beta; by apply mem_step.
  - split; [done |]. by split; (eapply copied_ext; [done |]); intros i d' Hi; cbn.
Qed.

Lemma split_spec m r s s' r' : regular -> copied (fun _ _ => false) m r.1 -> copied (fun _ _ => false) m r.2 ->
  accumulate (pairs desc) (fun r d => accumulate (all_cis desc) (fun r i => split_step m r d i) r) r s = (s', Return r') ->
  s' = s /\ copied (fun _ d => Nat.even d) m r'.1 /\ copied (fun _ d => Nat.odd d) m r'.2.
Proof.
  intros Hr C1 C2 E.
  pose (I := fun (l : list nat) (r : matrix * matrix) => (forall d, In d l -> Nat.even d = true /\ S d < nr_dpus desc)%nat /\ List.NoDup l
     /\ copied (even_done l) m r.1 /\ copied (odd_done l) m r.2).
  assert (Hin : forall d, (d < nr_dpus desc)%nat -> Nat.even d = true -> mem d (pairs desc) = true).
  { intros d Hd He. apply mem_In, filter_In. split; [apply in_seq; lia | done]. }
  destruct (accumulate_inv _ I s _ _ _ _ E) as [-> (_ & _ & D1 & D2)].
  - split.
    { intros d Hd. unfold pairs in Hd. apply filter_In in Hd as [Hd He]. apply in_seq in Hd. split; [done |].
      destruct Hr as (_ & _ & Hn). apply Nat.even_spec in Hn as [n Hn], He as [k ->]. lia. }
    split; [by apply List.NoDup_filter, List.seq_NoDup |]. unfold even_done, odd_done.
    split; (eapply copied_ext; [done |]); intros i d [_ Hd]; cbn beta.
    + destruct (Nat.even d) eqn:He; [| done]. by rewrite Hin.
    + destruct d as [| d]; [done |]. rewrite Nat.odd_succ. cbn [pred]. destruct (Nat.even d) eqn:He; [| done]. by rewrite Hin by (done || lia).
  - intros d l r1 (Hl & Hnd & D1 & D2). destruct (Hl d (or_introl eq_refl)) as [He Hd].
    destruct (accumulate (all_cis desc) (fun r i => split_step m r d i) r1 s) as [s1 [r2 | |]] eqn:E1; [| done | done].
    apply (split_line_spec m r1 d s s1 r2 (even_done (d :: l)) (odd_done (d :: l)) Hr Hd D1 D2) in E1 as (-> & F1 & F2).
    inversion Hnd as [| ? ? Hn Hnd']; subst. apply mem_not_in in Hn. split; [done |].
    split; [intros d' Hd'; apply Hl; by right |]. split; [done |].
    split; (eapply copied_ext; [done |]); intros i' d' _; unfold even_done, odd_done; cbn beta; rewrite mem_cons.
    + destruct (Nat.eqb_spec d' d) as [-> |]; [rewrite He, Hn |]; by rewrite ?orb_false_r.
    + destruct d' as [| d']; [done |]. rewrite Nat.odd_succ. cbn [pred Nat.eqb].
      destruct (Nat.eqb_spec d' d) as [-> |]; [rewrite He, Hn |]; by rewrite ?orb_false_r.
  - split; [done |]. split; (eapply copied_ext; [done |]); intros i d Hi; unfold even_done, odd_done; cbn; by rewrite andb_true_r.
Qed.

(** * Transfers *)

(** The multiplexers of the DPUs with a buffer were on the side of the host. *)
Definition served s (t : transfer) : Prop := forall i d, is_dpu i d -> wanted s (moved t) i d ->
  exists x, muxes t !! i = Some x /\ Z.testbit x (Z.of_nat d) = true.

(** The buffers of a DPU among those of some transfers. *)
Definition buffers_at (l : list transfer) (i d : nat) : list XferMatrix.entry :=
  List.filter (fun p => negb (is_null p)) (omap (fun t => entry_of (moved t) i d) l).

(** One transfer of [m], unless it is empty. *)
Definition one_transfer (to : bool) m s (l : list transfer) : Prop :=
  Forall (fun t => to_mram t = to /\ moved t = m /\ served s t) l
  /\ forall i d p, is_dpu i d -> entry_of m i d = Some p -> buffers_at l i d = if is_null p then [] else [p].

Lemma do_transfer_spec to m s s0 s' u : regular -> sized desc s -> dpu_enabled s = dpu_enabled s0 -> reached s m ->
  do_mram_transfer to m s = (s', Return u) ->
  sized desc s' /\ dpu_enabled s' = dpu_enabled s /\ exists l, transfers s' = l ++ transfers s /\ one_transfer to m s0 l.
Proof.
  intros Hr Hs He Hm. unfold do_mram_transfer. destruct (forallb is_null (XferMatrix.ptr m)) eqn:E0.
  - intros [= <- _]. split_and!; [done ..|]. exists []. split; [done |]. split; [constructor |].
    intros i d p Hd Ep. rewrite entry_lookup in Ep by done. rewrite forallb_forall in E0.
    rewrite E0; [done |]. apply list_elem_of_In. by eapply list_elem_of_lookup_2.
  - destruct (copy_rank to (hw (interface s)) m) as [w ok]. destruct ok; [| done]. intros [= <- _].
    split_and!; [done ..|]. eexists [_]. split; [done |]. split.
    + constructor; [| constructor]. split; [done |]. split; [done |]. intros i d [Hi Hd] Hw. cbn [muxes moved] in *.
      destruct Hs as [Hs _]. destruct (lookup_lt_is_Some_2 (slices (interface s)) i ltac:(lia)) as [sl E].
      exists (host_mux_mram_state sl). cbn [interface with_interface slices with_hw]. rewrite list_lookup_fmap, E. split; [done |].
      unfold wanted, enabled in Hw. rewrite <- He in Hw. specialize (Hm i d Hi Hd Hw). unfold mux_bit in Hm. by rewrite E in Hm.
    + intros i d p Hd Ep. unfold buffers_at. cbn [omap list_omap moved]. rewrite Ep. cbn [List.filter]. by destruct (is_null p).
Qed.

Lemma look_state m d cis f s : match look_at_pair desc m d cis f s with (s', Return _) => s' = s | _ => True end.
Proof.
  revert f. induction cis as [| i cis IH]; intros f; cbn [look_at_pair]; [done |].
  unfold mbind, cmd_bind. pose proof (is_enabled_spec s i d) as H1. destruct (dpu_is_enabled i d s) as [s1 [b1 | |]]; [| done | done].
  destruct H1 as [-> _]. pose proof (is_enabled_spec s i (S d)) as H2.
  assert (H3 : match (if b1 then dpu_is_enabled i (S d) else mret false) s with (s', Return _) => s' = s | _ => True end).
  { destruct b1; [| done]. destruct (dpu_is_enabled i (S d) s) as [s1 [b2 | |]]; [tauto | done | done]. }
  destruct ((if b1 then dpu_is_enabled i (S d) else mret false) s) as [s1 [b2 | |]]; [| done | done]. subst s1. destruct b2; [| apply IH].
  unfold defined. destruct (matrix_ptr desc m i d) as [p1 |]; [| done]. unfold mret, cmd_ret.
  destruct (matrix_ptr desc m i (S d)) as [p2 |]; [| done]. destruct (eqb _ _); [apply IH | done].
Qed.

Lemma needed_state m l s : match is_duplication_needed desc m l s with (s', Return _) => s' = s | _ => True end.
Proof.
  induction l as [| d l IH]; cbn [is_duplication_needed]; [done |]. unfold mbind, cmd_bind.
  match goal with |- context [look_at_pair desc m d ?c ?f s] => pose proof (look_state m d c f s) as Hl; destruct (look_at_pair desc m d c f s) as [s1 [r | |]] end;
    [| done | done]. subst s1. destruct (_ && _); [done | exact IH].
Qed.

Lemma duplicate_spec m s s' r : regular ->
  duplicate_transfer_matrix desc conf m XferMatrix.dpu_transfer_matrix_clear_all XferMatrix.dpu_transfer_matrix_clear_all s = (s', Return r) ->
  s' = s /\ match r with
           | Some (even, odd) => copied (fun _ d => Nat.even d) m even /\ copied (fun _ d => Nat.odd d) m odd
           | None => True
           end.
Proof.
  intros Hr. unfold duplicate_transfer_matrix. destruct (_ <=? 1)%nat; [by intros [= <- <-] |].
  destruct (negb _); [by intros [= <- <-] |]. unfold mbind at 1, cmd_bind at 1.
  pose proof (needed_state m (pairs desc) s) as Hn. destruct (is_duplication_needed desc m (pairs desc) s) as [s1 [b | |]]; [| done | done].
  subst s1. destruct b; [| by intros [= <- <-]]. unfold mbind at 1, cmd_bind at 1.
  match goal with |- context [accumulate (pairs desc) ?f ?b s] => destruct (accumulate (pairs desc) f b s) as [s1 [r' | |]] eqn:E end; [| done | done].
  intros [= <- <-]. apply (split_spec m) in E; [| done | by apply copied_empty | by apply copied_empty].
  destruct E as [-> [C1 C2]]. split; [done |]. by destruct r'.
Qed.

Lemma buffers_at_app l l' i d : buffers_at (l ++ l') i d = buffers_at l i d ++ buffers_at l' i d.
Proof. unfold buffers_at. by rewrite omap_app, List.filter_app. Qed.

(** One transfer with its access. *)
Lemma access_and_transfer to m s s0 s' u : regular -> sized desc s -> dpu_enabled s = dpu_enabled s0 ->
  (host_get_access_for_transfer_matrix desc conf junk m ≫= fun _ => do_mram_transfer to m) s = (s', Return u) ->
  sized desc s' /\ dpu_enabled s' = dpu_enabled s0 /\ exists l, transfers s' = l ++ transfers s /\ one_transfer to m s0 l.
Proof.
  intros Hr Hs He. unfold mbind, cmd_bind. destruct (host_get_access_for_transfer_matrix desc conf junk m s) as [s1 [u1 | |]] eqn:E1; [| done | done].
  apply access_matrix_spec in E1 as [O1 R1]; [| done | done]. assert (Hs1 : sized desc s1) by (by eapply sized_only_lines).
  destruct O1 as (_ & _ & A3 & A4 & _). assert (He1 : dpu_enabled s1 = dpu_enabled s0) by congruence.
  intros E2. apply (do_transfer_spec to m s1 s0) in E2 as (B1 & B2 & l & B3 & B4); [| done ..]. split; [done |]. split; [congruence |]. exists l. by rewrite <- A4.
Qed.

End facts.

(** * Matrices of a rank *)

Definition switching : configuration :=
  {| api_must_switch_mram_mux := true; init_mram_mux := true; disable_api_safe_checks := true |}.

Definition copies : copier (Z * list Z) := fun _ w _ => (w, true).

(** The buffers of the third and fourth DPU of both interfaces. *)
Definition four_buffers (b02 b12 b03 b13 : bool) : matrix :=
  let entry (b : bool) (a : Z) := if b then XferMatrix.Buffer a else XferMatrix.Null in
  {| XferMatrix.ptr := replicate 4 XferMatrix.Null ++ [entry b02 0x1000; entry b12 0x2000; entry b03 0x3000; entry b13 0x4000] ++ replicate 56 XferMatrix.Null;
     XferMatrix.offset := 8; XferMatrix.size := 16; XferMatrix.type := XferMatrix.DPU_DEFAULT_XFER_MATRIX |}.

Lemma two_bounded : bounded sample_hw (rank_of_two sample_rank).
Proof. intros sl Hsl. apply list_elem_of_In, list_elem_of_lookup in Hsl as [i E]. by apply lookup_replicate in E as [-> _]. Qed.

Lemma two_regular : regular sample_hw.
Proof. split_and!; cbn; lia || done. Qed.

Lemma two_sized : sized sample_hw (rank_of_two sample_rank).
Proof. split; cbn; lia. Qed.


(** A matrix that needs to be split is taken as one when the first interface
    with one buffer in a pair is met before a buffer of the other line: the access
    is then asked for two lines of different masks, which the code asserts not to be.
    With the interfaces the other way round the copy succeeds. *)
Theorem needed_split_missed :
  (@copy_mram_for_dpus _ obedient copies sample_hw switching [] true (four_buffers true true false true) (rank_of_two sample_rank)).2 = Undefined
  /\ (@copy_mram_for_dpus _ obedient copies sample_hw switching [] true (four_buffers true true true false) (rank_of_two sample_rank)).2 = Return tt.
Proof. split; by vm_compute. Qed.
