(* ===== verification/Repair.v ===== *)
(** Defects of the memories of a DPU and how they are repaired: the defects of the
    VPD of a rank are gathered for each memory (fill_sram_repairs_and_update_enabled_dpus,
    library/src/backends/hw/src/rank/hw_dpu_rank.c), and a configuration of the
    hardware is looked for that covers them (extract_memory_repair_configuration,
    library/src/backends/ufi/src/ufi_config.c): four addresses, in two pairs of the
    same high bits, and one even and one odd bit.

    Theorems: a configuration is found exactly when one covers the defects, and the
    one found does; what gathering gives for each memory and which DPUs it
    disables. *)
From stdpp Require Import list.
From S2P Require Import Prelude Errors Mask Status CiCommands Ci BitConfig Ufi.
From S2P Require Import VpdCodec VpdDb.
From S2P Require Vpd.

(** * The defects of a memory *)

Definition NB_MAX_REPAIR_ADDR : nat := 4.
Definition NR_OF_WRAM_BANKS : nat := 4.

Record dpu_memory_repair_address_t := { address : Z; faulty_bits : Z }.

Record dpu_memory_repair_t := {
  corrupted_addresses : list dpu_memory_repair_address_t;
  nr_of_corrupted_addresses : Z;
  fail_to_repair : bool }.

(** A fresh rank is zeroed. *)
Definition no_repair : dpu_memory_repair_t :=
  {| corrupted_addresses := replicate NB_MAX_REPAIR_ADDR {| address := 0; faulty_bits := 0 |};
     nr_of_corrupted_addresses := 0; fail_to_repair := false |}.

(** The index of a known address, from [i]. *)
Fixpoint known_address (n : nat) (l : list dpu_memory_repair_address_t) (i : nat) (a : Z) : option nat :=
  match n, l with
  | S n, x :: l => if address x =? a then Some i else known_address n l (S i) a
  | _, _ => None
  end.

Definition add_faulty_memory_address (info : dpu_memory_repair_t) (a bits : Z) : dpu_memory_repair_t :=
  let previous := nr_of_corrupted_addresses info in
  let current_max_index := if Z.of_nat NB_MAX_REPAIR_ADDR <? previous then NB_MAX_REPAIR_ADDR else Z.to_nat previous in
  let known := known_address current_max_index (corrupted_addresses info) 0 a in
  let index := match known with Some i => Z.of_nat i | None => previous end in
  {| corrupted_addresses :=
       if index <? Z.of_nat NB_MAX_REPAIR_ADDR
       then alter (fun x => {| address := a; faulty_bits := Z.lor (faulty_bits x) bits |}) (Z.to_nat index) (corrupted_addresses info)
       else corrupted_addresses info;
     nr_of_corrupted_addresses := match known with Some _ => previous | None => u32 (previous + 1) end;
     fail_to_repair := fail_to_repair info |}.

(** * The configuration of a memory *)

Definition with_AB_msbs (x : Z) (c : dpu_repair_config) : dpu_repair_config :=
  {| AB_msbs := x; CD_msbs := CD_msbs c; A_lsbs := A_lsbs c; B_lsbs := B_lsbs c; C_lsbs := C_lsbs c; D_lsbs := D_lsbs c;
     even_index := even_index c; odd_index := odd_index c |}.
Definition with_CD_msbs (x : Z) (c : dpu_repair_config) : dpu_repair_config :=
  {| AB_msbs := AB_msbs c; CD_msbs := x; A_lsbs := A_lsbs c; B_lsbs := B_lsbs c; C_lsbs := C_lsbs c; D_lsbs := D_lsbs c;
     even_index := even_index c; odd_index := odd_index c |}.
Definition with_lsbs (a b cc d : Z) (c : dpu_repair_config) : dpu_repair_config :=
  {| AB_msbs := AB_msbs c; CD_msbs := CD_msbs c; A_lsbs := a; B_lsbs := b; C_lsbs := cc; D_lsbs := d;
     even_index := even_index c; odd_index := odd_index c |}.
Definition with_even (x : Z) (c : dpu_repair_config) : dpu_repair_config :=
  {| AB_msbs := AB_msbs c; CD_msbs := CD_msbs c; A_lsbs := A_lsbs c; B_lsbs := B_lsbs c; C_lsbs := C_lsbs c; D_lsbs := D_lsbs c;
     even_index := x; odd_index := odd_index c |}.
Definition with_odd (x : Z) (c : dpu_repair_config) : dpu_repair_config :=
  {| AB_msbs := AB_msbs c; CD_msbs := CD_msbs c; A_lsbs := A_lsbs c; B_lsbs := B_lsbs c; C_lsbs := C_lsbs c; D_lsbs := D_lsbs c;
     even_index := even_index c; odd_index := x |}.

(** No address, no bit. *)
Definition unset : Z := 0xff.
Definition unset_config : dpu_repair_config :=
  {| AB_msbs := unset; CD_msbs := unset; A_lsbs := unset; B_lsbs := unset; C_lsbs := unset; D_lsbs := unset;
     even_index := unset; odd_index := unset |}.

(** [None]: the addresses are too far apart. *)
Definition place_address (c : dpu_repair_config) (a : Z) : option dpu_repair_config :=
  let msbs := u8 (Z.shiftr a 4) in
  let lsbs := u8 (Z.land a 0xf) in
  if A_lsbs c =? unset then Some (with_AB_msbs msbs (with_lsbs lsbs (B_lsbs c) (C_lsbs c) (D_lsbs c) c))
  else if (B_lsbs c =? unset) && (AB_msbs c =? msbs) then Some (with_lsbs (A_lsbs c) lsbs (C_lsbs c) (D_lsbs c) c)
  else if C_lsbs c =? unset then Some (with_CD_msbs msbs (with_lsbs (A_lsbs c) (B_lsbs c) lsbs (D_lsbs c) c))
  else if (D_lsbs c =? unset) && (CD_msbs c =? msbs) then Some (with_lsbs (A_lsbs c) (B_lsbs c) (C_lsbs c) lsbs c)
  else None.

(** Whether all were placed. *)
Fixpoint place_addresses (c : dpu_repair_config) (l : list Z) : bool * dpu_repair_config :=
  match l with
  | [] => (true, c)
  | a :: l => match place_address c a with Some c => place_addresses c l | None => (false, c) end
  end.

(** The case of two bits falls through to that of one. *)
Definition place_last_bit (last_index : Z) (c : dpu_repair_config) : dpu_repair_config :=
  if Z.land last_index 1 =? 1 then with_odd last_index c else with_even last_index c.

Definition place_first_bit (first_index : Z) (c : dpu_repair_config) : bool * dpu_repair_config :=
  if Z.land first_index 1 =? 1 then
    if negb (odd_index c =? unset) then (false, c) else (true, with_odd first_index c)
  else if negb (even_index c =? unset) then (false, c) else (true, with_even first_index c).

Definition find_index_of_first_faulty_bit (x : Z) : Z := u8 (ctz x).
Definition find_index_of_last_faulty_bit (x : Z) : Z := u8 (Z.log2 x).
Definition count_nr_of_faulty_bits (x : Z) : Z := u8 (popcount x).

Definition place_bits (x : Z) (c : dpu_repair_config) : bool * dpu_repair_config :=
  let nr_of_faulty_bits := count_nr_of_faulty_bits x in
  if 2 <? nr_of_faulty_bits then (false, c)
  else if nr_of_faulty_bits =? 2 then
    place_first_bit (find_index_of_first_faulty_bit x) (place_last_bit (find_index_of_last_faulty_bit x) c)
  else if nr_of_faulty_bits =? 1 then place_first_bit (find_index_of_first_faulty_bit x) c
  else if nr_of_faulty_bits =? 0 then (true, c) else (false, c).

Definition default_config (c : dpu_repair_config) : dpu_repair_config :=
  let dflt v x := if x =? unset then v else x in
  with_even (dflt 0 (even_index c)) (with_odd (dflt 1 (odd_index c))
    (with_lsbs (dflt 0xf (A_lsbs c)) (dflt 0xf (B_lsbs c)) (dflt 0xf (C_lsbs c)) (dflt 0xf (D_lsbs c)) c)).

(** Whether the memory can be repaired, and the configuration as it is left. *)
Definition extract_memory_repair_configuration (repair_info : dpu_memory_repair_t) : bool * dpu_repair_config :=
  if Z.of_nat NB_MAX_REPAIR_ADDR <? nr_of_corrupted_addresses repair_info then (false, unset_config)
  else
    let corrupted := take (Z.to_nat (nr_of_corrupted_addresses repair_info)) (corrupted_addresses repair_info) in
    let '(ok, c) := place_addresses unset_config (map address corrupted) in
    if negb ok then (false, c)
    else
      let '(ok, c) := place_bits (fold_left (fun x a => Z.lor x (faulty_bits a)) corrupted 0) c in
      if negb ok then (false, c) else (true, default_config c).

(** * What a configuration covers *)

Definition covers_address (c : dpu_repair_config) (a : Z) : Prop :=
  (AB_msbs c = a / 16 /\ (A_lsbs c = a mod 16 \/ B_lsbs c = a mod 16))
  \/ (CD_msbs c = a / 16 /\ (C_lsbs c = a mod 16 \/ D_lsbs c = a mod 16)).

Definition covers_bits (c : dpu_repair_config) (x : Z) : Prop :=
  forall i, 0 <= i -> Z.testbit x i = true -> i = even_index c \/ i = odd_index c.

(** What the hardware accepts. *)
Definition valid_config (c : dpu_repair_config) : Prop :=
  0 <= A_lsbs c < 16 /\ 0 <= B_lsbs c < 16 /\ 0 <= C_lsbs c < 16 /\ 0 <= D_lsbs c < 16
  /\ 0 <= AB_msbs c < 256 /\ 0 <= CD_msbs c < 256
  /\ 0 <= even_index c < 64 /\ Z.Even (even_index c) /\ 0 <= odd_index c < 64 /\ Z.Odd (odd_index c).

Definition covers (c : dpu_repair_config) (defects : list (Z * Z)) : Prop :=
  valid_config c /\ forall a x, In (a, x) defects -> covers_address c a /\ covers_bits c x.

(** The addresses of a memory that can be repaired. *)
Definition is_address (a : Z) : Prop := 0 <= a < 2 ^ 12.

Lemma split_address a : is_address a -> u8 (Z.shiftr a 4) = a / 16 /\ u8 (Z.land a 0xf) = a mod 16
  /\ 0 <= a / 16 < 256 /\ 0 <= a mod 16 < 16.
Proof.
  intros [H1 H2]. change (2 ^ 12) with 4096 in H2. rewrite Z.shiftr_div_pow2 by lia. change (2 ^ 4) with 16.
  change 0xf with (Z.ones 4). rewrite Z.land_ones by lia. change (2 ^ 4) with 16.
  assert (0 <= a / 16 < 256) by (split; [apply Z.div_pos; lia | apply Z.div_lt_upper_bound; lia]).
  pose proof (Z.mod_pos_bound a 16 ltac:(lia)). rewrite !wrap_small by lia. done.
Qed.

Lemma same_address a b : a / 16 = b / 16 -> a mod 16 = b mod 16 -> a = b.
Proof. intros H1 H2. rewrite (Z.div_mod a 16), (Z.div_mod b 16) by lia. by rewrite H1, H2. Qed.

(** ** Addresses *)

(** An address as its high and its low bits. *)
Definition place_pair (c : dpu_repair_config) (p : Z * Z) : option dpu_repair_config :=
  if A_lsbs c =? unset then Some (with_AB_msbs p.1 (with_lsbs p.2 (B_lsbs c) (C_lsbs c) (D_lsbs c) c))
  else if (B_lsbs c =? unset) && (AB_msbs c =? p.1) then Some (with_lsbs (A_lsbs c) p.2 (C_lsbs c) (D_lsbs c) c)
  else if C_lsbs c =? unset then Some (with_CD_msbs p.1 (with_lsbs (A_lsbs c) (B_lsbs c) p.2 (D_lsbs c) c))
  else if (D_lsbs c =? unset) && (CD_msbs c =? p.1) then Some (with_lsbs (A_lsbs c) (B_lsbs c) (C_lsbs c) p.2 c)
  else None.

Fixpoint place_pairs (c : dpu_repair_config) (l : list (Z * Z)) : bool * dpu_repair_config :=
  match l with
  | [] => (true, c)
  | p :: l => match place_pair c p with Some c => place_pairs c l | None => (false, c) end
  end.

Definition split_of (a : Z) : Z * Z := (a / 16, a mod 16).

Lemma place_addresses_pairs c l : Forall is_address l -> place_addresses c l = place_pairs c (map split_of l).
Proof.
  intros Hl. revert c. induction Hl as [| a l Ha Hl IH]; intros c; [done |]. cbn [place_addresses place_pairs map].
  destruct (split_address a Ha) as (E1 & E2 & _). unfold place_address, place_pair. rewrite E1, E2. cbn [split_of fst snd].
  repeat match goal with |- context [if ?b then _ else _] => destruct b end; apply IH || done.
Qed.

Definition holds (c : dpu_repair_config) (p : Z * Z) : Prop :=
  (AB_msbs c = p.1 /\ (A_lsbs c = p.2 \/ B_lsbs c = p.2)) \/ (CD_msbs c = p.1 /\ (C_lsbs c = p.2 \/ D_lsbs c = p.2)).

Definition is_pair (p : Z * Z) : Prop := 0 <= p.1 < 256 /\ 0 <= p.2 < 16.

(** Addresses with three different high bits, or with the same high bits but one. *)
Lemma three_pairs c m1 l1 m2 l2 m3 l3 : m1 <> m2 -> m1 <> m3 -> m2 <> m3 ->
  holds c (m1, l1) -> holds c (m2, l2) -> holds c (m3, l3) -> False.
Proof. unfold holds. cbn [fst snd]. intros. intuition congruence. Qed.

Lemma odd_pair c m l1 l2 l3 m' l' : l1 <> l2 -> l1 <> l3 -> l2 <> l3 -> m <> m' ->
  holds c (m, l1) -> holds c (m, l2) -> holds c (m, l3) -> holds c (m', l') -> False.
Proof.
  unfold holds. cbn [fst snd]. intros N1 N2 N3 N4 [[E1 H1] | [E1 H1]] [[E2 H2] | [E2 H2]] [[E3 H3] | [E3 H3]] [[E4 H4] | [E4 H4]]; try congruence;
    destruct H1, H2, H3; congruence.
Qed.

(** What the addresses placed leave of a configuration. *)
Definition field_ok (x : Z) : Prop := x = unset \/ 0 <= x < 16.
Definition filled (c : dpu_repair_config) : Prop :=
  field_ok (A_lsbs c) /\ field_ok (B_lsbs c) /\ field_ok (C_lsbs c) /\ field_ok (D_lsbs c)
  /\ 0 <= AB_msbs c < 256 /\ 0 <= CD_msbs c < 256 /\ even_index c = unset /\ odd_index c = unset.

Definition placing (ab a b cd c d : Z) : dpu_repair_config :=
  {| AB_msbs := ab; CD_msbs := cd; A_lsbs := a; B_lsbs := b; C_lsbs := c; D_lsbs := d; even_index := unset; odd_index := unset |}.

Lemma set_lsbs x : 0 <= x < 16 -> (x =? unset) = false.
Proof. unfold unset. lia. Qed.

Section placing.
Variables (m a b n c d : Z) (p : Z * Z).
Hypotheses (Ha : 0 <= a < 16) (Hb : 0 <= b < 16) (Hc : 0 <= c < 16) (Hd : 0 <= d < 16).

Ltac place_open := unfold place_pair, placing; cbn [A_lsbs B_lsbs C_lsbs D_lsbs AB_msbs CD_msbs]; 
  repeat match goal with H : 0 <= ?x < 16 |- context [?x =? unset] => rewrite (set_lsbs x H) end; rewrite ?Z.eqb_refl; cbn [andb].

Lemma place_none : place_pair unset_config p = Some (placing p.1 p.2 unset unset unset unset).
Proof using Type. done. Qed.

Lemma place_A : place_pair (placing m a unset unset unset unset) p =
  Some (if m =? p.1 then placing m a p.2 unset unset unset else placing m a unset p.1 p.2 unset).
Proof using Ha. place_open. by destruct (m =? p.1). Qed.

Lemma place_AB : place_pair (placing m a b unset unset unset) p = Some (placing m a b p.1 p.2 unset).
Proof using Ha Hb. by place_open. Qed.

Lemma place_AC : place_pair (placing m a unset n c unset) p =
  if m =? p.1 then Some (placing m a p.2 n c unset) else if n =? p.1 then Some (placing m a unset n c p.2) else None.
Proof using Ha Hc. place_open. by destruct (m =? p.1), (n =? p.1). Qed.

Lemma place_ABC : place_pair (placing m a b n c unset) p = if n =? p.1 then Some (placing m a b n c p.2) else None.
Proof using Ha Hb Hc. place_open. by destruct (n =? p.1). Qed.

Lemma place_ACD : place_pair (placing m a unset n c d) p = if m =? p.1 then Some (placing m a p.2 n c d) else None.
Proof using Ha Hc Hd. place_open. by destruct (m =? p.1). Qed.
End placing.

Lemma place_pairs_cons c p l : place_pairs c (p :: l) = match place_pair c p with Some c => place_pairs c l | None => (false, c) end.
Proof. done. Qed.

Ltac held :=
  first [left; split; [reflexivity | first [left; reflexivity | right; reflexivity]]
        | right; split; [reflexivity | first [left; reflexivity | right; reflexivity]]].

(** One more address; a list of addresses that is placed. *)
Ltac place_next :=
  rewrite place_pairs_cons; first [rewrite place_none | rewrite place_AB by done | rewrite place_ABC by done | rewrite place_ACD by done | rewrite place_AC by done | rewrite place_A by done];
  cbn [fst snd]; repeat match goal with |- context [?x =? ?y] => destruct (Z.eqb_spec x y) end; subst.
Ltac placed :=
  split; [unfold filled, field_ok, placing, unset; cbn; repeat split; lia | repeat (constructor; [unfold holds; cbn; held |]); apply List.Forall_nil].

Ltac different :=
  repeat rewrite List.NoDup_cons_iff in *; cbn [In] in *;
  repeat match goal with
  | H : _ /\ _ |- _ => destruct H
  | H : ~ (_ \/ _) |- _ => apply Decidable.not_or in H
  end.

(** Addresses that no configuration holds. *)
Ltac refused :=
  let c := fresh "c" in let Hf := fresh "Hf" in
  intros c Hf; repeat (apply list.Forall_cons in Hf as [? Hf]);
  repeat match goal with
  | _ : holds c (?m, _), _ : holds c (?m', _) |- _ =>
    assert_fails (constr_eq m m');
    lazymatch goal with
    | _ : m <> m' |- _ => fail
    | _ : m' <> m |- _ => fail
    | _ => destruct (Z.eq_dec m m'); [first [congruence | subst] | try congruence]
    end
  end;
  match goal with
  | A : holds c (?m1, _), B : holds c (?m2, _), C : holds c (?m3, _) |- _ =>
    assert (m1 <> m2) by congruence; assert (m1 <> m3) by congruence; assert (m2 <> m3) by congruence;
    by apply (three_pairs c m1 _ m2 _ m3 _ ltac:(done) ltac:(done) ltac:(done) A B C)
  | A : holds c (?m, ?l1), B : holds c (?m, ?l2), C : holds c (?m, ?l3), D : holds c (?m', _) |- _ =>
    assert (l1 <> l2) by congruence; assert (l1 <> l3) by congruence; assert (l2 <> l3) by congruence; assert (m <> m') by congruence;
    by apply (odd_pair c m l1 l2 l3 m' _ ltac:(done) ltac:(done) ltac:(done) ltac:(done) A B C D)
  end.

Lemma place_pairs_spec l : Forall is_pair l -> List.NoDup l -> (length l <= 4)%nat ->
  match place_pairs unset_config l with
  | (true, c) => filled c /\ Forall (holds c) l
  | (false, _) => forall c, ~ Forall (holds c) l
  end.
Proof.
  intros Hp Hn Hl.
  destruct l as [| [m1 l1] [| [m2 l2] [| [m3 l3] [| [m4 l4] [| p l]]]]]; [| | | | | cbn in Hl; lia];
    repeat (apply list.Forall_cons in Hp as [[? ?] Hp]); cbn [fst snd] in *; clear Hp Hl; different.
  - cbn. split; [| constructor]. unfold filled, field_ok, unset_config, unset. cbn. repeat split; lia.
  - place_next. placed.
  - place_next. place_next; placed.
  - place_next. place_next; place_next; try placed; refused.
  - place_next. place_next; place_next; try refused; place_next; try placed; refused.
Qed.

Lemma too_many c l : List.NoDup l -> (4 < length l)%nat -> ~ Forall (holds c) l.
Proof.
  intros Hn Hl Hf.
  assert (Hi : incl l [(AB_msbs c, A_lsbs c); (AB_msbs c, B_lsbs c); (CD_msbs c, C_lsbs c); (CD_msbs c, D_lsbs c)]).
  { intros [m lo] Hp. rewrite list.Forall_forall in Hf. apply list_elem_of_In, Hf in Hp. unfold holds in Hp. cbn [fst snd] in Hp.
    destruct Hp as [[<- [<- | <-]] | [<- [<- | <-]]]; cbn; tauto. }
  apply NoDup_incl_length in Hi; [cbn in Hi; lia | done].
Qed.

(** ** Bits *)

Lemma pos_ctz_le p i : In i (pos_bits p) -> pos_ctz p <= i.
Proof.
  revert i. induction p as [q IH | q IH |]; intros i; cbn [pos_bits pos_ctz]; intros Hi.
  - apply (pos_bits_spec q~1) in Hi. lia.
  - rewrite in_map_succ in Hi. apply IH in Hi. lia.
  - by destruct Hi as [<- | []].
Qed.

Lemma log2_in_bits p : In (Z.log2 (Zpos p)) (pos_bits p).
Proof. apply pos_bits_spec. split; [apply Z.log2_nonneg | by apply Z.bit_log2]. Qed.

Lemma bits_le_log2 p i : In i (pos_bits p) -> i <= Z.log2 (Zpos p).
Proof.
  intros Hi%pos_bits_spec. destruct (Z.le_gt_cases i (Z.log2 (Zpos p))); [done |]. rewrite Z.bits_above_log2 in Hi by lia. by destruct Hi.
Qed.

Lemma few_bits p : Zpos p < 2 ^ 64 -> (length (pos_bits p) <= 64)%nat /\ forall i, In i (pos_bits p) -> 0 <= i < 64.
Proof.
  intros Hp. assert (Hr : forall i, In i (pos_bits p) -> 0 <= i < 64).
  { intros i Hi. pose proof (bits_le_log2 p i Hi). apply pos_bits_spec in Hi. assert (Z.log2 (Zpos p) < 64) by (apply Z.log2_lt_pow2; lia). lia. }
  split; [| done]. assert (Hincl : incl (pos_bits p) (map Z.of_nat (seq 0 64))).
  { intros i Hi%Hr. apply in_map_iff. exists (Z.to_nat i). split; [lia | apply in_seq; lia]. }
  apply NoDup_incl_length in Hincl; [by rewrite length_map, length_seq in Hincl | apply NoDup_pos_bits].
Qed.

(** The two columns of a configuration: [None] for none. *)
Definition columns_ok (c : dpu_repair_config) : Prop :=
  (even_index c = unset \/ 0 <= even_index c < 64 /\ Z.Even (even_index c))
  /\ (odd_index c = unset \/ 0 <= odd_index c < 64 /\ Z.Odd (odd_index c)).

(** All but the columns. *)
Definition same_lines (c c' : dpu_repair_config) : Prop := with_even 0 (with_odd 0 c) = with_even 0 (with_odd 0 c').

Lemma parity i : (Z.land i 1 =? 1) = Z.odd i.
Proof.
  change 1 with (Z.ones 1) at 1. rewrite Z.land_ones by lia. change (2 ^ 1) with 2. rewrite Zmod_odd. by destruct (Z.odd i).
Qed.

Lemma Even_Odd i : Z.Even i -> Z.Odd i -> False.
Proof. intros [a ->] [b E]. lia. Qed.

Lemma odd_false i : Z.odd i = false -> Z.Even i.
Proof. intros E. apply Z.even_spec. by rewrite <- Z.negb_odd, E. Qed.

Lemma place_bits_spec x c : 0 <= x < 2 ^ 64 -> even_index c = unset -> odd_index c = unset ->
  match place_bits x c with
  | (true, c') => same_lines c c' /\ columns_ok c' /\ covers_bits c' x
  | (false, _) => forall c', Z.Even (even_index c') -> Z.Odd (odd_index c') -> ~ covers_bits c' x
  end.
Proof.
  intros Hx He Ho. destruct x as [| p | p]; [| | lia].
  { cbn. split; [done |]. split; [by split; left |]. intros i _. by rewrite Z.testbit_0_l. }
  destruct (few_bits p ltac:(lia)) as [Hlen Hr]. unfold place_bits, count_nr_of_faulty_bits. cbn [popcount].
  rewrite <- length_pos_bits, wrap_small by lia.
  unfold find_index_of_first_faulty_bit, find_index_of_last_faulty_bit. cbn [ctz].
  pose proof (head_pos_bits p) as Hh. pose proof (log2_in_bits p) as Hl. pose proof (NoDup_pos_bits p) as Hn.
  assert (Hs : forall i, 0 <= i -> Z.testbit (Zpos p) i = true -> In i (pos_bits p)) by (intros; by apply pos_bits_spec).
  assert (Hs' : forall i, In i (pos_bits p) -> 0 <= i /\ Z.testbit (Zpos p) i = true) by (intros i; apply pos_bits_spec).
  pose proof (pos_ctz_le p) as Hmin. pose proof (bits_le_log2 p) as Hmax.
  destruct (pos_bits p) as [| a [| b [| d l]]]; cbn in Hh; [done | | |]; injection Hh as Hh; rewrite <- Hh in *.
  - change (2 <? Z.of_nat (length [a])) with false. change (Z.of_nat (length [a]) =? 2) with false.
    change (Z.of_nat (length [a]) =? 1) with true. cbv iota. destruct (Hr a (or_introl eq_refl)) as [Ha Ha'].
    rewrite (wrap_small 8 a) by lia. unfold place_first_bit. rewrite parity, He, Ho. unfold unset. cbn [Z.eqb Pos.eqb negb].
    destruct (Z.odd a) eqn:Ea; (split; [done |]; split).
    + split; [by left | right]. cbn. split; [lia | by apply Z.odd_spec].
    + intros i Hi Hb. right. by destruct (Hs i Hi Hb) as [<- | []].
    + split; [right | by left]. cbn. split; [lia | by apply odd_false].
    + intros i Hi Hb. left. by destruct (Hs i Hi Hb) as [<- | []].
  - change (2 <? Z.of_nat (length [a; b])) with false. change (Z.of_nat (length [a; b]) =? 2) with true. cbv iota.
    destruct (Hr a (or_introl eq_refl)) as [Ha Ha'], (Hr b (or_intror (or_introl eq_refl))) as [Hb Hb'].
    assert (Hab : a <> b) by (apply List.NoDup_cons_iff in Hn as [Hn _]; cbn in Hn; intros ->; tauto).
    assert (El : Z.log2 (Zpos p) = b).
    { pose proof (Hmin b (or_intror (or_introl eq_refl))). pose proof (Hmax b (or_intror (or_introl eq_refl))). destruct Hl as [E | [E | []]]; lia. }
    rewrite El, (wrap_small 8 a), (wrap_small 8 b) by lia. unfold place_last_bit, place_first_bit. rewrite !parity.
    assert (Hcov : forall c', covers_bits c' (Zpos p) -> (a = even_index c' \/ a = odd_index c') /\ (b = even_index c' \/ b = odd_index c')).
    { intros c' Hc. split; apply Hc; apply Hs'; [by left | by left | by right; left | by right; left]. }
    destruct (Z.odd a) eqn:Ea, (Z.odd b) eqn:Eb; cbn [even_index odd_index with_odd with_even]; rewrite ?He, ?Ho.
    + replace (negb (b =? unset)) with true by (unfold unset; lia). intros c' He' Ho' [[Ea' | Ea'] [Eb' | Eb']]%Hcov; try congruence;
        apply Z.odd_spec in Ea, Eb; eapply Even_Odd; [exact He' | | exact He' |]; congruence.
    + cbn [negb]. replace (unset =? unset) with true by done. cbn [negb]. split; [done |]. split.
      * split; right; cbn; (split; [lia |]); [by apply odd_false | by apply Z.odd_spec].
      * intros i Hi Hbit. cbn. destruct (Hs i Hi Hbit) as [<- | [<- | []]]; tauto.
    + replace (unset =? unset) with true by done. cbn [negb]. split; [done |]. split.
      * split; right; cbn; (split; [lia |]); [by apply odd_false | by apply Z.odd_spec].
      * intros i Hi Hbit. cbn. destruct (Hs i Hi Hbit) as [<- | [<- | []]]; tauto.
    + replace (negb (b =? unset)) with true by (unfold unset; lia). intros c' He' Ho' [[Ea' | Ea'] [Eb' | Eb']]%Hcov; try congruence;
        apply odd_false in Ea, Eb; eapply Even_Odd; [| exact Ho' | | exact Ho']; congruence.
  - assert (E : (2 <? Z.of_nat (length (a :: b :: d :: l))) = true) by (apply Z.ltb_lt; cbn [length]; lia). rewrite E.
    intros c' _ _ Hc. apply List.NoDup_cons_iff in Hn as [Hn1 Hn]. apply List.NoDup_cons_iff in Hn as [Hn2 _]. cbn in Hn1, Hn2.
    assert (Hcov : forall i, In i (a :: b :: d :: l) -> i = even_index c' \/ i = odd_index c') by (intros i Hi; apply Hc; by apply Hs').
    destruct (Hcov a (or_introl eq_refl)), (Hcov b (or_intror (or_introl eq_refl))), (Hcov d (or_intror (or_intror (or_introl eq_refl))));
      subst; intuition congruence.
Qed.

(** ** Gathering *)

Lemma known_address_spec n l i a :
  match known_address n l i a with
  | Some j => exists k s, j = (i + k)%nat /\ (k < n)%nat /\ l !! k = Some s /\ address s = a
  | None => forall s, In s (take n l) -> address s <> a
  end.
Proof.
  revert l i. induction n as [| n IH]; intros l i; cbn [known_address]; [intros s Hs; destruct Hs |].
  destruct l as [| s l]; [intros s Hs; destruct Hs |]. destruct (Z.eqb_spec (address s) a) as [E | Hne].
  - exists 0%nat, s. split; [lia |]. split; [lia | done].
  - specialize (IH l (S i)). destruct (known_address n l (S i) a) as [j |].
    + destruct IH as (k & s' & -> & Hk & E). exists (S k), s'. split; [lia |]. split; [lia | done].
    + intros s' [<- | Hs]; [done | by apply IH].
Qed.

Lemma NoDup_snoc {A} (l : list A) a : List.NoDup l -> ~ In a l -> List.NoDup (l ++ [a]).
Proof.
  intros Hl Ha. rewrite <- NoDup_ListNoDup, list.NoDup_app. split; [by apply NoDup_ListNoDup |].
  split; [| apply NoDup_singleton]. intros b Hb ->%list_elem_of_singleton. by apply Ha, list_elem_of_In.
Qed.

(** What has been gathered of some defects. *)
Record gathered (info : dpu_memory_repair_t) (l : list (Z * Z)) : Prop := {
  gathered_length : length (corrupted_addresses info) = NB_MAX_REPAIR_ADDR;
  gathered_count : 0 <= nr_of_corrupted_addresses info <= Z.of_nat (length l);
  gathered_fresh : forall i s, nr_of_corrupted_addresses info <= Z.of_nat i -> corrupted_addresses info !! i = Some s -> faulty_bits s = 0;
  gathered_distinct : List.NoDup (map address (take (Z.to_nat (nr_of_corrupted_addresses info)) (corrupted_addresses info)));
  gathered_incl : incl (map address (take (Z.to_nat (nr_of_corrupted_addresses info)) (corrupted_addresses info))) (map fst l);
  gathered_all : nr_of_corrupted_addresses info <= Z.of_nat NB_MAX_REPAIR_ADDR ->
    incl (map fst l) (map address (take (Z.to_nat (nr_of_corrupted_addresses info)) (corrupted_addresses info)));
  gathered_over : Z.of_nat NB_MAX_REPAIR_ADDR < nr_of_corrupted_addresses info ->
    exists a, In a (map fst l) /\ ~ In a (map address (corrupted_addresses info));
  gathered_bits : nr_of_corrupted_addresses info <= Z.of_nat NB_MAX_REPAIR_ADDR -> forall i, 0 <= i ->
    (exists s, In s (corrupted_addresses info) /\ Z.testbit (faulty_bits s) i = true) <-> exists a x, In (a, x) l /\ Z.testbit x i = true }.

Lemma gathered_none : gathered no_repair [].
Proof.
  assert (Ht : forall s, In s (corrupted_addresses no_repair) -> faulty_bits s = 0).
  { intros s Hs. apply list_elem_of_In, elem_of_replicate in Hs as [-> _]. done. }
  split.
  - done.
  - cbn. lia.
  - intros i s _ E. apply Ht. apply list_elem_of_lookup_2 in E. by apply list_elem_of_In.
  - constructor.
  - by intros a [].
  - by intros _ a [].
  - intros H. cbn in H. lia.
  - intros _ i Hi. split; intros H.
    + destruct H as (s & Hs & Hb). rewrite (Ht s Hs), Z.testbit_0_l in Hb. done.
    + by destruct H as (a & x & [] & _).
Qed.

(** The defects of an address among those of a memory. *)
Definition updated (a x : Z) (s : dpu_memory_repair_address_t) : dpu_memory_repair_address_t :=
  {| address := a; faulty_bits := Z.lor (faulty_bits s) x |}.

Lemma alter_addresses a x k t s : t !! k = Some s -> address s = a -> map address (alter (updated a x) k t) = map address t.
Proof.
  intros E Ea. apply list_eq. intros i. rewrite !list_lookup_fmap, list_lookup_alter.
  destruct (decide (k = i)) as [<- |]; [| done]. rewrite E. cbn. by rewrite Ea.
Qed.

Lemma take_addresses n t : map address (take n t) = take n (map address t).
Proof. apply fmap_take. Qed.

(** The bits of a table with one more defect. *)
Lemma alter_bits a x k t s i : t !! k = Some s ->
  (exists s', In s' (alter (updated a x) k t) /\ Z.testbit (faulty_bits s') i = true)
  <-> (exists s', In s' t /\ Z.testbit (faulty_bits s') i = true) \/ Z.testbit x i = true.
Proof.
  intros E. pose proof (lookup_lt_Some _ _ _ E) as Hk. split.
  - intros (s' & Hs & Hb). apply list_elem_of_In, list_elem_of_lookup in Hs as [j Hj]. rewrite list_lookup_alter in Hj.
    destruct (decide (k = j)) as [<- |].
    + rewrite E in Hj. cbn in Hj. injection Hj as <-. cbn in Hb. rewrite Z.lor_spec in Hb.
      apply orb_true_iff in Hb as [Hb | Hb]; [left; exists s | by right]. split; [apply list_elem_of_lookup_2 in E; by apply list_elem_of_In | done].
    + left. exists s'. split; [apply list_elem_of_lookup_2 in Hj; by apply list_elem_of_In | done].
  - intros H.
    assert (Hu : In (updated a x s) (alter (updated a x) k t)).
    { apply list_elem_of_In, (list_elem_of_lookup_2 _ k). rewrite list_lookup_alter. rewrite decide_True by done. by rewrite E. }
    destruct H as [(s' & Hs & Hb) | Hb].
    + apply list_elem_of_In, list_elem_of_lookup in Hs as [j Hj]. destruct (decide (k = j)) as [<- | Hne].
      * rewrite E in Hj. injection Hj as <-. exists (updated a x s). split; [done |]. cbn. by rewrite Z.lor_spec, Hb.
      * exists s'. split; [| done]. apply list_elem_of_In, (list_elem_of_lookup_2 _ j). by rewrite list_lookup_alter, decide_False.
    + exists (updated a x s). split; [done |]. cbn. by rewrite Z.lor_spec, Hb, orb_true_r.
Qed.

Lemma more_bits (l : list (Z * Z)) a x i :
  (exists a' x', In (a', x') (l ++ [(a, x)]) /\ Z.testbit x' i = true)
  <-> (exists a' x', In (a', x') l /\ Z.testbit x' i = true) \/ Z.testbit x i = true.
Proof.
  split.
  - intros (a' & x' & Hi & Hb). apply in_app_iff in Hi as [Hi | [[= <- <-] | []]]; [left; by exists a', x' | by right].
  - intros [(a' & x' & Hi & Hb) | Hb]; [exists a', x' | exists a, x]; (split; [apply in_app_iff; cbn; tauto | done]).
Qed.

(** The table after a defect at the index of its address. *)
Definition with_defect (info : dpu_memory_repair_t) (k : nat) (a x n : Z) : dpu_memory_repair_t :=
  {| corrupted_addresses := alter (updated a x) k (corrupted_addresses info); nr_of_corrupted_addresses := n; fail_to_repair := fail_to_repair info |}.

Lemma add_known info l a x k s : gathered info l -> corrupted_addresses info !! k = Some s -> address s = a ->
  Z.of_nat k < nr_of_corrupted_addresses info -> gathered (with_defect info k a x (nr_of_corrupted_addresses info)) (l ++ [(a, x)]).
Proof.
  intros [G1 G2 G3 G4 G5 G6 G7 G8] E Ea Hk.
  assert (Hin : In a (map address (take (Z.to_nat (nr_of_corrupted_addresses info)) (corrupted_addresses info)))).
  { apply in_map_iff. exists s. split; [done |]. apply list_elem_of_In, (list_elem_of_lookup_2 _ k). rewrite lookup_take_lt by lia. done. }
  rewrite take_addresses in *. pose proof (alter_addresses a x k _ s E Ea) as Em.
  split; cbn [with_defect corrupted_addresses nr_of_corrupted_addresses]; rewrite ?take_addresses, ?Em, ?length_alter, ?length_app, ?map_app; try done.
  - cbn. lia.
  - intros i s' Hi. rewrite list_lookup_alter. rewrite decide_False by lia. by apply G3.
  - by apply incl_appl.
  - intros Hn. apply incl_app; [by apply G6 |]. by intros ? [<- | []].
  - intros Hn. destruct (G7 Hn) as (a' & Ha & Hna). exists a'. split; [| done]. apply in_app_iff. by left.
  - intros Hn i Hi. rewrite (alter_bits a x k _ s), more_bits by done. by rewrite G8.
Qed.

Lemma add_new info l a x : gathered info l -> Z.of_nat (length l) < 2 ^ 32 - 1 ->
  ~ In a (map address (take (Z.to_nat (nr_of_corrupted_addresses info)) (corrupted_addresses info))) ->
  nr_of_corrupted_addresses info < Z.of_nat NB_MAX_REPAIR_ADDR ->
  gathered (with_defect info (Z.to_nat (nr_of_corrupted_addresses info)) a x (nr_of_corrupted_addresses info + 1)) (l ++ [(a, x)]).
Proof.
  intros [G1 G2 G3 G4 G5 G6 G7 G8] Hl Hnew Hn. set (n := nr_of_corrupted_addresses info) in *. set (t := corrupted_addresses info) in *.
  destruct (lookup_lt_is_Some_2 t (Z.to_nat n)) as [s E]; [rewrite G1; lia |].
  assert (Es : faulty_bits s = 0) by (apply (G3 (Z.to_nat n)); [lia | done]).
  assert (Et : map address (take (Z.to_nat (n + 1)) (alter (updated a x) (Z.to_nat n) t)) = map address (take (Z.to_nat n) t) ++ [a]).
  { replace (Z.to_nat (n + 1)) with (S (Z.to_nat n)) by lia. rewrite (take_S_r _ _ (updated a x s)).
    - rewrite take_alter, decide_False by lia. by rewrite map_app.
    - rewrite list_lookup_alter, decide_True by done. by rewrite E. }
  split; cbn [with_defect corrupted_addresses nr_of_corrupted_addresses]; fold n t; rewrite ?Et, ?length_alter, ?length_app, ?map_app; try done.
  - cbn. lia.
  - intros i s' Hi. rewrite list_lookup_alter. rewrite decide_False by lia. apply G3. lia.
  - by apply NoDup_snoc.
  - apply incl_app; [by apply incl_appl | apply incl_appr, incl_refl].
  - intros _. apply incl_app; [apply incl_appl, G6; lia | apply incl_appr, incl_refl].
  - unfold NB_MAX_REPAIR_ADDR in *. lia.
  - intros _ i Hi. rewrite (alter_bits a x _ _ s), more_bits by done. rewrite G8 by lia. done.
Qed.

Lemma add_over info l a x : gathered info l ->
  ~ In a (map address (take (Z.to_nat (nr_of_corrupted_addresses info)) (corrupted_addresses info))) ->
  Z.of_nat NB_MAX_REPAIR_ADDR <= nr_of_corrupted_addresses info ->
  gathered {| corrupted_addresses := corrupted_addresses info; nr_of_corrupted_addresses := nr_of_corrupted_addresses info + 1;
              fail_to_repair := fail_to_repair info |} (l ++ [(a, x)]).
Proof.
  intros [G1 G2 G3 G4 G5 G6 G7 G8] Hnew Hn. set (n := nr_of_corrupted_addresses info) in *. set (t := corrupted_addresses info) in *.
  assert (Et : forall k, Z.of_nat NB_MAX_REPAIR_ADDR <= k -> take (Z.to_nat k) t = t) by (intros k Hk; apply take_ge; rewrite G1; lia).
  split; cbn [corrupted_addresses nr_of_corrupted_addresses]; fold n t; rewrite ?(Et (n + 1)) by lia; rewrite ?length_app, ?map_app; rewrite (Et n Hn) in *; try done.
  - cbn. lia.
  - intros i s' Hi. apply G3. lia.
  - by apply incl_appl.
  - lia.
  - intros _. exists a. split; [apply in_app_iff; cbn; tauto | done].
  - lia.
Qed.

Lemma gathered_add info l a x : gathered info l -> Z.of_nat (length l) < 2 ^ 32 - 1 -> gathered (add_faulty_memory_address info a x) (l ++ [(a, x)]).
Proof.
  intros G Hl. pose proof G as [G1 [G2 G2'] _ _ _ _ _ _]. unfold add_faulty_memory_address. set (n := nr_of_corrupted_addresses info) in *.
  set (m := if Z.of_nat NB_MAX_REPAIR_ADDR <? n then NB_MAX_REPAIR_ADDR else Z.to_nat n).
  assert (Em : take m (corrupted_addresses info) = take (Z.to_nat n) (corrupted_addresses info) /\ Z.of_nat m <= n).
  { unfold m. destruct (Z.ltb_spec (Z.of_nat NB_MAX_REPAIR_ADDR) n); [| split; [done | lia]]. rewrite !take_ge by (rewrite G1; lia). split; [done | lia]. }
  destruct Em as [Em Hm]. cbv zeta. pose proof (known_address_spec m (corrupted_addresses info) 0 a) as Hk.
  destruct (known_address m (corrupted_addresses info) 0 a) as [j |].
  - destruct Hk as (k & s & -> & Hk & E & Ea). pose proof (lookup_lt_Some _ _ _ E) as Hlt. rewrite G1 in Hlt.
    replace (Z.of_nat (0 + k) <? Z.of_nat NB_MAX_REPAIR_ADDR) with true by (symmetry; apply Z.ltb_lt; lia). replace (Z.to_nat (Z.of_nat (0 + k))) with k by lia.
    apply (add_known info l a x k s); try done. unfold n in *. lia.
  - rewrite Em in Hk. assert (Hnew : ~ In a (map address (take (Z.to_nat n) (corrupted_addresses info)))).
    { intros Hin%in_map_iff. destruct Hin as (s & Ea & Hs). by apply (Hk s). }
    rewrite (wrap_small 32) by lia. destruct (Z.ltb_spec n (Z.of_nat NB_MAX_REPAIR_ADDR)); [by apply add_new | by apply add_over].
Qed.

(** The defects of a memory, in order. *)
Definition add_all (l : list (Z * Z)) : dpu_memory_repair_t := fold_left (fun info p => add_faulty_memory_address info p.1 p.2) l no_repair.

Lemma gathered_defects l : Z.of_nat (length l) < 2 ^ 32 -> gathered (add_all l) l.
Proof.
  unfold add_all. induction l as [| [a x] l IH] using rev_ind; intros Hl; [apply gathered_none |]. rewrite length_app in Hl. cbn in Hl.
  rewrite fold_left_app. cbn [fold_left fst snd]. apply gathered_add; [apply IH; lia | lia].
Qed.

(** The bits of all the addresses. *)
Lemma all_bits (t : list dpu_memory_repair_address_t) x i : 0 <= i ->
  Z.testbit (fold_left (fun x a => Z.lor x (faulty_bits a)) t x) i = true
  <-> Z.testbit x i = true \/ exists s, In s t /\ Z.testbit (faulty_bits s) i = true.
Proof.
  intros Hi. revert x. induction t as [| s t IH]; intros x; cbn [fold_left].
  - split; [by left | intros [H | (s & [] & _)]; done].
  - rewrite IH, Z.lor_spec, orb_true_iff. split.
    + intros [[H | H] | (s' & Hs & H)]; [by left | right; exists s; cbn; tauto | right; exists s'; cbn; tauto].
    + intros [H | (s' & [<- | Hs] & H)]; [tauto | tauto | right; by exists s'].
Qed.

(** ** The repair of a memory is decided *)

(** The fold of the bits, when at most four addresses are gathered. *)
Lemma defects_bits l : gathered (add_all l) l -> nr_of_corrupted_addresses (add_all l) <= Z.of_nat NB_MAX_REPAIR_ADDR -> forall c,
  covers_bits c (fold_left (fun x a => Z.lor x (faulty_bits a))
    (take (Z.to_nat (nr_of_corrupted_addresses (add_all l))) (corrupted_addresses (add_all l))) 0)
  <-> forall a x, In (a, x) l -> covers_bits c x.
Proof.
  intros [G1 G2 G3 G4 G5 G6 G7 G8] Hn c. set (info := add_all l) in *. set (n := nr_of_corrupted_addresses info) in *.
  assert (Hin : forall i, 0 <= i ->
    (exists s, In s (take (Z.to_nat n) (corrupted_addresses info)) /\ Z.testbit (faulty_bits s) i = true)
    <-> (exists s, In s (corrupted_addresses info) /\ Z.testbit (faulty_bits s) i = true)).
  { intros i Hi. split; intros (s & Hs & Hb); exists s; (split; [| done]); apply list_elem_of_In, list_elem_of_lookup in Hs as [j Hj].
    - apply lookup_take_Some in Hj as [Hj _]. apply list_elem_of_lookup_2 in Hj. by apply list_elem_of_In.
    - destruct (Z.le_gt_cases n (Z.of_nat j)) as [Hge | Hlt]; [rewrite (G3 j s), Z.testbit_0_l in Hb by done; done |].
      apply list_elem_of_In, (list_elem_of_lookup_2 _ j). by rewrite lookup_take_lt by lia. }
  unfold covers_bits. split.
  - intros Hc a x Hx i Hi Hb. apply Hc; [done |]. apply all_bits; [done |]. right. apply Hin; [done |]. apply G8; [done | done |]. by exists a, x.
  - intros Hc i Hi Hb. apply all_bits in Hb as [Hb | Hb]; [by rewrite Z.testbit_0_l in Hb | | done].
    apply Hin in Hb; [| done]. apply G8 in Hb; [| done | done]. destruct Hb as (a & x & Hx & Hb). by apply (Hc a x).
Qed.

Lemma faulty_bits_range t x : 0 <= x < 2 ^ 64 -> Forall (fun s => 0 <= faulty_bits s < 2 ^ 64) t ->
  0 <= fold_left (fun x a => Z.lor x (faulty_bits a)) t x < 2 ^ 64.
Proof.
  intros Hx Ht. revert x Hx. induction Ht as [| s t Hs Ht IH]; intros x Hx; [done |]. cbn [fold_left]. apply IH.
  assert (0 <= Z.lor x (faulty_bits s)) by (apply Z.lor_nonneg; lia). split; [done |].
  destruct (Z.eq_dec (Z.lor x (faulty_bits s)) 0) as [-> | Hne]; [lia |]. apply Z.log2_lt_pow2; [lia |]. rewrite Z.log2_lor by lia.
  assert (forall y, 0 <= y < 2 ^ 64 -> Z.log2 y < 64).
  { intros y Hy. destruct (Z.eq_dec y 0) as [-> |]; [done |]. apply Z.log2_lt_pow2; lia. }
  apply Z.max_lub_lt; auto.
Qed.

Lemma lor_small x y : 0 <= x < 2 ^ 64 -> 0 <= y < 2 ^ 64 -> 0 <= Z.lor x y < 2 ^ 64.
Proof. intros Hx Hy. apply (faulty_bits_range [ {| address := 0; faulty_bits := y |} ] x Hx). by apply list.Forall_singleton. Qed.

Lemma table_range l : Forall (fun p => 0 <= p.2 < 2 ^ 64) l -> Forall (fun s => 0 <= faulty_bits s < 2 ^ 64) (corrupted_addresses (add_all l)).
Proof.
  unfold add_all. induction l as [| [a x] l IH] using rev_ind; intros Hl; [by repeat constructor |]. apply list.Forall_app in Hl as [Hl Hx].
  apply list.Forall_cons in Hx as [Hx _]. specialize (IH Hl). rewrite fold_left_app. cbn [fold_left fst snd].
  unfold add_faulty_memory_address. cbn [corrupted_addresses]. destruct (_ <? _); [| done].
  apply list.Forall_alter; [done |]. intros s _ Hs. exact (lor_small _ _ Hs Hx).
Qed.

(** The addresses of the defects. *)
Lemma defects_addresses l : gathered (add_all l) l -> nr_of_corrupted_addresses (add_all l) <= Z.of_nat NB_MAX_REPAIR_ADDR ->
  let addresses := map address (take (Z.to_nat (nr_of_corrupted_addresses (add_all l))) (corrupted_addresses (add_all l))) in
  List.NoDup addresses /\ (length addresses <= 4)%nat /\ forall a, In a addresses <-> In a (map fst l).
Proof.
  intros [G1 G2 G3 G4 G5 G6 G7 G8] Hn. cbv zeta. split; [done |]. split.
  - rewrite length_map, length_take, G1. unfold NB_MAX_REPAIR_ADDR. lia.
  - intros a. split; [apply G5 | by apply G6].
Qed.

Lemma holds_split c a : holds c (split_of a) <-> covers_address c a.
Proof. unfold holds, covers_address, split_of. cbn. intuition congruence. Qed.

Lemma defects_pairs (l : list Z) : Forall is_address l -> Forall is_pair (map split_of l) /\ (List.NoDup l -> List.NoDup (map split_of l)).
Proof.
  intros Hl. split.
  - apply list.Forall_fmap. eapply list.Forall_impl; [exact Hl |]. intros a Ha. by destruct (split_address a Ha) as (_ & _ & ? & ?).
  - intros Hn. apply Finite.Injective_map_NoDup; [| done]. intros a b [= E1 E2]. by apply same_address.
Qed.

(** The columns may change, the lines stay. *)
Lemma same_holds c c' p : same_lines c c' -> is_pair p -> filled c -> holds c p -> holds (default_config c') p.
Proof.
  intros Hs [_ Hp] _ Hh. unfold same_lines in Hs. destruct c, c'. cbn in Hs. injection Hs as -> -> -> -> -> ->.
  unfold holds in *. cbn in *. destruct Hh as [[E [H | H]] | [E [H | H]]]; [left | left | right | right]; (split; [done |]); [left | right | left | right];
    by rewrite H, set_lsbs.
Qed.

Lemma default_valid c c' : filled c -> same_lines c c' -> columns_ok c' ->
  valid_config (default_config c') /\ forall x, 0 <= x < 2 ^ 64 -> covers_bits c' x -> covers_bits (default_config c') x.
Proof.
  intros (HA & HB & HC & HD & Hab & Hcd & _ & _) Hs [He Ho]. unfold same_lines in Hs. destruct c, c'. cbn in *. injection Hs as -> -> -> -> -> ->.
  assert (Hd : forall x, field_ok x -> 0 <= (if x =? unset then 0xf else x) < 16).
  { intros x [-> | Hx]; [cbn; lia | by rewrite set_lsbs]. }
  assert (Hu : forall x, 0 <= x < 64 -> (x =? unset) = false) by (unfold unset; lia).
  split.
  - unfold valid_config. cbn.
    assert (HE : forall x, x = unset \/ 0 <= x < 64 /\ Z.Even x -> 0 <= (if x =? unset then 0 else x) < 64 /\ Z.Even (if x =? unset then 0 else x)).
    { intros x [-> | [Hx Hx']]; [cbn; split; [lia | by exists 0] | by rewrite Hu]. }
    assert (HO : forall x, x = unset \/ 0 <= x < 64 /\ Z.Odd x -> 0 <= (if x =? unset then 1 else x) < 64 /\ Z.Odd (if x =? unset then 1 else x)).
    { intros x [-> | [Hx Hx']]; [cbn; split; [lia | by exists 0] | by rewrite Hu]. }
    apply HE in He as [He1 He2]. apply HO in Ho as [Ho1 Ho2]. destruct (Hd _ HA), (Hd _ HB), (Hd _ HC), (Hd _ HD). split_and!; first [done | lia].
  - intros x Hx Hc i Hi Hb. assert (Hi64 : i < 64).
    { destruct (Z.lt_ge_cases i 64); [done |]. rewrite Z.testbit_eqb in Hb by done. rewrite Z.div_small in Hb; [done |].
      split; [lia |]. eapply Z.lt_le_trans; [apply Hx |]. by apply Z.pow_le_mono_r. }
    specialize (Hc i Hi Hb). cbn in Hc |- *. destruct Hc as [<- | <-]; [left | right]; by rewrite Hu.
Qed.

(** C37: a memory of a DPU is said to be repairable exactly when the hardware can repair it: when some configuration, of
    four addresses in two pairs that share their high bits and of one even and one odd bit, covers all the defects added
    for it, and then the configuration returned does. *)
Theorem repair_decided defects :
  Forall (fun p => is_address p.1 /\ 0 <= p.2 < 2 ^ 64) defects -> Z.of_nat (length defects) < 2 ^ 32 ->
  match extract_memory_repair_configuration (add_all defects) with
  | (true, c) => covers c defects
  | (false, _) => forall c, ~ covers c defects
  end.
Proof.
  intros Hd Hl. pose proof (gathered_defects defects Hl) as G.
  assert (Ha : forall a, In a (map fst defects) -> is_address a).
  { intros a Ha. apply in_map_iff in Ha as ([a' x] & <- & Hin). rewrite list.Forall_forall in Hd. apply list_elem_of_In in Hin. by destruct (Hd _ Hin). }
  assert (Hcov : forall c, covers c defects -> forall a, In a (map fst defects) -> holds c (split_of a)).
  { intros c [_ Hc] a Hin. apply holds_split. apply in_map_iff in Hin as ([a' x] & <- & Hin). by apply (Hc a' x). }
  unfold extract_memory_repair_configuration. destruct (Z.ltb_spec (Z.of_nat NB_MAX_REPAIR_ADDR) (nr_of_corrupted_addresses (add_all defects))) as [Hov | Hle].
  - intros c Hc. destruct (gathered_over _ _ G Hov) as (a & Hin & Hnew).
    pose proof (gathered_distinct _ _ G) as Hn. pose proof (gathered_incl _ _ G) as Hi. pose proof (gathered_length _ _ G) as Hlen.
    rewrite take_ge in Hn, Hi by (rewrite Hlen; lia).
    set (addresses := map address (corrupted_addresses (add_all defects)) ++ [a]).
    assert (Hall : forall b, In b addresses -> In b (map fst defects)).
    { intros b Hb. apply in_app_iff in Hb as [Hb | [<- | []]]; [by apply Hi | done]. }
    assert (Hadd : Forall is_address addresses) by (apply list.Forall_forall; intros b Hb; by apply Ha, Hall, list_elem_of_In).
    apply (too_many c (map split_of addresses)).
    + by apply defects_pairs, NoDup_snoc.
    + unfold addresses. rewrite length_map, length_app, length_map, Hlen. cbn. unfold NB_MAX_REPAIR_ADDR. lia.
    + apply list.Forall_forall. intros p Hp. apply list_elem_of_In, in_map_iff in Hp as (b & <- & Hb). by apply Hcov, Hall.
  - destruct (defects_addresses _ G Hle) as (Hn & Hlen & Hiff). pose proof (defects_bits _ G Hle) as Hbits.
    pose proof (table_range defects ltac:(eapply list.Forall_impl; [exact Hd | by intros p [_ Hp]])) as Hr.
    set (corrupted := take _ _) in *. cbv zeta.
    assert (Hadd : Forall is_address (map address corrupted)) by (apply list.Forall_forall; intros b Hb; by apply Ha, Hiff, list_elem_of_In).
    pose proof (faulty_bits_range corrupted 0 ltac:(lia) ltac:(by apply list.Forall_take)) as Hx.
    rewrite place_addresses_pairs by done. destruct (defects_pairs _ Hadd) as [Hp Hnd].
    pose proof (place_pairs_spec _ Hp (Hnd Hn) ltac:(by rewrite length_map)) as Hplace.
    destruct (place_pairs unset_config (map split_of (map address corrupted))) as [[] c]; cbn [negb].
    + destruct Hplace as [Hf Hh]. pose proof Hf as (_ & _ & _ & _ & _ & _ & He & Ho). pose proof (place_bits_spec _ c Hx He Ho) as Hb.
      destruct (place_bits _ c) as [[] c']; cbn [negb].
      * destruct Hb as (Hs & Hcol & Hcb). destruct (default_valid c c' Hf Hs Hcol) as [Hv Hdb]. split; [done |].
        intros a x Hin. split.
        -- apply holds_split. rewrite list.Forall_forall in Hh, Hp. assert (Hin' : In (split_of a) (map split_of (map address corrupted))).
           { apply in_map, Hiff. by apply (in_map fst) in Hin. }
           apply list_elem_of_In in Hin'. exact (same_holds c c' (split_of a) Hs (Hp _ Hin') Hf (Hh _ Hin')).
        -- by apply (proj1 (Hbits _) (Hdb _ Hx Hcb)) with a.
      * intros c'' [Hv Hc]. apply (Hb c''); [apply Hv | apply Hv |]. apply Hbits. intros a x Hin. by destruct (Hc a x Hin).
    + intros c'' Hc. apply (Hplace c''). apply list.Forall_forall. intros p Hin. apply list_elem_of_In, in_map_iff in Hin as (b & <- & Hb).
      by apply Hcov, Hiff.
Qed.

(** Five addresses are too many; four with two high bits and two columns are not. *)
Lemma repair_decided_witness :
  covers (extract_memory_repair_configuration (add_all [(0x120, 1); (0x345, 8); (0x121, 1); (0x120, 8); (0x34f, 1)])).2
    [(0x120, 1); (0x345, 8); (0x121, 1); (0x120, 8); (0x34f, 1)].
Proof.
  exact (repair_decided [(0x120, 1); (0x345, 8); (0x121, 1); (0x120, 8); (0x34f, 1)] ltac:(repeat constructor; cbn; lia) ltac:(cbn; lia)).
Defined.

(** * The defects of a rank *)

Definition DPU_INVALID_RANK_INDEX : Z := 255.

Record dpu_repair := { iram_repair : dpu_memory_repair_t; wram_repair : list dpu_memory_repair_t }.

Definition repair_iram (f : dpu_memory_repair_t -> dpu_memory_repair_t) (d : dpu_repair) : dpu_repair :=
  {| iram_repair := f (iram_repair d); wram_repair := wram_repair d |}.
Definition repair_wram (bank : nat) (f : dpu_memory_repair_t -> dpu_memory_repair_t) (d : dpu_repair) : dpu_repair :=
  {| iram_repair := iram_repair d; wram_repair := alter f bank (wram_repair d) |}.

Definition DPU_INDEX (nr_dpus : Z) (slice_id dpu_id : Z) : nat := Z.to_nat (slice_id * nr_dpus + dpu_id).

(** The defects of the entries of the rank, and the mask of the DPUs that have one.
    [None]: the rank has no such DPU, or the DPU no such bank. *)
Fixpoint fill_repairs (nr_dpus rank_index : Z) (entries : list Vpd.dpu_vpd_repair_entry) (dpus : list dpu_repair) (disabled_mask : Z)
  : option (list dpu_repair * Z) :=
  match entries with
  | [] => Some (dpus, disabled_mask)
  | entry :: entries =>
    if negb (Vpd.rank entry =? rank_index) then fill_repairs nr_dpus rank_index entries dpus disabled_mask
    else
      let dpu := DPU_INDEX nr_dpus (Vpd.ci entry) (Vpd.dpu entry) in
      let bank := Z.to_nat (Vpd.bank entry) in
      let add info := add_faulty_memory_address info (Vpd.address entry) (Vpd.bits entry) in
      match dpus !! dpu with
      | None => None
      | Some d =>
        if negb (Vpd.iram_wram entry =? Vpd.DPU_VPD_REPAIR_IRAM) && (length (wram_repair d) <=? bank)%nat then None
        else
          fill_repairs nr_dpus rank_index entries
            (alter (if Vpd.iram_wram entry =? Vpd.DPU_VPD_REPAIR_IRAM then repair_iram add else repair_wram bank add) dpu dpus)
            (Z.lor disabled_mask (wrap 64 (Z.shiftl 1 (Vpd.ci entry * nr_dpus + Vpd.dpu entry))))
      end
  end.

(** The enabled DPUs of an interface, without those of [disabled_mask]. *)
Definition disable_slice (nr_dpus disabled_mask : Z) (each_ci : nat) (s : slice_info) : slice_info :=
  let disabled_mask_for_ci := u8 (Z.land (Z.shiftr disabled_mask (nr_dpus * Z.of_nat each_ci)) 0xff) in
  let enabled := dpu_mask_intersection (enabled_dpus s) (dpu_mask_difference (dpu_mask_all nr_dpus) disabled_mask_for_ci) in
  with_enabled enabled (dpu_mask_intersection enabled (dpu_mask_all nr_dpus) =? dpu_mask_all nr_dpus) s.

Definition disable_slices (nr_cis : nat) (nr_dpus disabled_mask : Z) (l : list slice_info) : list slice_info :=
  imap (fun i s => if (i <? nr_cis)%nat then disable_slice nr_dpus disabled_mask i s else s) l.

(** [got_path]: dpu_vpd_get_vpd_path gave [vpd_path]; [vpd]: the structure of
    the caller, not initialised. *)
Definition fill_sram_repairs_and_update_enabled_dpus (nr_cis : nat) (nr_dpus rank_index : Z) (got_path : bool)
  (vpd_path : option (option (list Z))) (vpd : Vpd.dpu_vpd) (do_iram_repair do_wram_repair : bool)
  (dpus : list dpu_repair) (cis : list slice_info) : option (dpu_error_t * list dpu_repair * list slice_info) :=
  if rank_index =? DPU_INVALID_RANK_INDEX then Some (DPU_ERR_SYSTEM, dpus, cis)
  else if negb got_path then Some (DPU_ERR_SYSTEM, dpus, cis)
  else
    match Vpd.dpu_vpd_init vpd_path vpd with
    | None => None
    | Some (e, vpd) =>
      if negb (bool_decide (e = DPU_VPD_OK)) then Some (DPU_ERR_VPD_INVALID_FILE, dpus, cis)
      else if Vpd.repair_count (Vpd.vpd_header vpd) =? Vpd.VPD_UNDEFINED_REPAIR_COUNT then Some (DPU_ERR_VPD_NO_REPAIR, dpus, cis)
      else
        let repair_requested := do_iram_repair || do_wram_repair in
        let count := Z.to_nat (Vpd.repair_count (Vpd.vpd_header vpd)) in
        match (if repair_requested then
                 if (length (Vpd.repair_entries vpd) <? count)%nat then None
                 else fill_repairs nr_dpus rank_index (take count (Vpd.repair_entries vpd)) dpus 0
               else Some (dpus, 0)), Vpd.ranks (Vpd.vpd_header vpd) !! Z.to_nat rank_index with
        | Some (dpus, disabled_mask), Some r =>
          Some (DPU_OK, dpus, disable_slices nr_cis nr_dpus (Z.lor disabled_mask (Vpd.dpu_disabled r)) cis)
        | _, _ => None
        end
    end.

(** ** What is known of the defects of a rank *)

Definition hits (rank_index c d : Z) (e : Vpd.dpu_vpd_repair_entry) : bool := (Vpd.rank e =? rank_index) && (Vpd.ci e =? c) && (Vpd.dpu e =? d).
Definition in_iram (e : Vpd.dpu_vpd_repair_entry) : bool := Vpd.iram_wram e =? Vpd.DPU_VPD_REPAIR_IRAM.
Definition in_wram (b : nat) (e : Vpd.dpu_vpd_repair_entry) : bool := negb (in_iram e) && (Z.to_nat (Vpd.bank e) =? b)%nat.

Definition defects_where (p : Vpd.dpu_vpd_repair_entry -> bool) (entries : list Vpd.dpu_vpd_repair_entry) : list (Z * Z) :=
  map (fun e => (Vpd.address e, Vpd.bits e)) (List.filter p entries).

(** The defects of the memories of a DPU. *)
Definition defects_of (rank_index c d : Z) (entries : list Vpd.dpu_vpd_repair_entry) : dpu_repair :=
  {| iram_repair := add_all (defects_where (fun e => hits rank_index c d e && in_iram e) entries);
     wram_repair := map (fun b => add_all (defects_where (fun e => hits rank_index c d e && in_wram b e) entries)) (seq 0 NR_OF_WRAM_BANKS) |}.

Lemma add_all_snoc l a x : add_all (l ++ [(a, x)]) = add_faulty_memory_address (add_all l) a x.
Proof. unfold add_all. by rewrite fold_left_app. Qed.

Lemma defects_where_snoc p l e : defects_where p (l ++ [e]) = defects_where p l ++ (if p e then [(Vpd.address e, Vpd.bits e)] else []).
Proof. unfold defects_where. rewrite List.filter_app, map_app. cbn. by destruct (p e). Qed.

Lemma defects_of_other rank_index c d l e : hits rank_index c d e = false -> defects_of rank_index c d (l ++ [e]) = defects_of rank_index c d l.
Proof.
  intros He. unfold defects_of. f_equal.
  - rewrite defects_where_snoc, He. cbn. by rewrite app_nil_r.
  - apply map_ext. intros b. rewrite defects_where_snoc, He. cbn. by rewrite app_nil_r.
Qed.

Lemma defects_of_iram rank_index c d l e : hits rank_index c d e = true -> in_iram e = true ->
  defects_of rank_index c d (l ++ [e])
  = repair_iram (fun i => add_faulty_memory_address i (Vpd.address e) (Vpd.bits e)) (defects_of rank_index c d l).
Proof.
  intros He Hi. unfold defects_of, repair_iram. cbn [iram_repair wram_repair]. f_equal.
  - rewrite defects_where_snoc, He, Hi. cbn [andb]. apply add_all_snoc.
  - apply map_ext. intros b. rewrite defects_where_snoc. unfold in_wram. rewrite Hi, andb_false_r. by rewrite app_nil_r.
Qed.

Lemma defects_of_wram rank_index c d l e : hits rank_index c d e = true -> in_iram e = false ->
  defects_of rank_index c d (l ++ [e])
  = repair_wram (Z.to_nat (Vpd.bank e)) (fun i => add_faulty_memory_address i (Vpd.address e) (Vpd.bits e)) (defects_of rank_index c d l).
Proof.
  intros He Hi. unfold defects_of, repair_wram. cbn [iram_repair wram_repair]. f_equal.
  - rewrite defects_where_snoc, Hi, andb_false_r. by rewrite app_nil_r.
  - apply list_eq. intros b. rewrite list_lookup_alter, !list_lookup_fmap.
    destruct (seq 0 NR_OF_WRAM_BANKS !! b) as [b' |] eqn:Eb.
    + pose proof Eb as [-> _]%lookup_seq. cbn [fmap option_map option_fmap Nat.add]. rewrite defects_where_snoc, He.
      unfold in_wram at 2. rewrite Hi. cbn [negb andb]. case_decide as Ed.
      * rewrite Ed, Eb, Nat.eqb_refl. cbn. f_equal. apply add_all_snoc.
      * rewrite (proj2 (Nat.eqb_neq _ _) Ed). by rewrite app_nil_r.
    + case_decide as Ed; [by rewrite Ed, Eb | done].
Qed.

Section rank.
Variables (nr_cis : nat) (nr_dpus rank_index : Z).
Hypotheses (Hcis : (nr_cis <= 8)%nat) (Hdpus : 0 < nr_dpus <= 8).

Definition in_rank (c d : Z) : Prop := 0 <= c < Z.of_nat nr_cis /\ 0 <= d < nr_dpus.

(** An entry of the rank names a memory it has. *)
Definition entry_ok (e : Vpd.dpu_vpd_repair_entry) : Prop :=
  Vpd.rank e = rank_index -> in_rank (Vpd.ci e) (Vpd.dpu e) /\ (in_iram e = false -> 0 <= Vpd.bank e < Z.of_nat NR_OF_WRAM_BANKS).

Lemma dpu_index_inj c d c' d' : in_rank c d -> in_rank c' d' -> c * nr_dpus + d = c' * nr_dpus + d' -> c = c' /\ d = d'.
Proof using Hcis Hdpus.
  intros [Hc Hd] [Hc' Hd'] E. destruct (Z.div_mod_unique nr_dpus c c' d d'); lia.
Qed.

Lemma index_lt c d : in_rank c d -> 0 <= c * nr_dpus + d < Z.of_nat nr_cis * nr_dpus.
Proof using Hcis Hdpus. intros [Hc Hd]. nia. Qed.

(** The DPUs and the mask, once the entries have been seen. *)
Definition gathered_rank (entries : list Vpd.dpu_vpd_repair_entry) (dpus : list dpu_repair) (mask : Z) : Prop :=
  forall c d, in_rank c d ->
    dpus !! DPU_INDEX nr_dpus c d = Some (defects_of rank_index c d entries)
    /\ Z.testbit mask (c * nr_dpus + d) = existsb (hits rank_index c d) entries.

Lemma hits_inv c d e : hits rank_index c d e = true -> Vpd.rank e = rank_index /\ Vpd.ci e = c /\ Vpd.dpu e = d.
Proof using Type.
  unfold hits. intros Hh. apply andb_true_iff in Hh as [Hh Hd]. apply andb_true_iff in Hh as [Hr Hc].
  apply Z.eqb_eq in Hr. apply Z.eqb_eq in Hc. by apply Z.eqb_eq in Hd.
Qed.

Lemma gathered_rank_step entries e rest dpus mask : gathered_rank entries dpus mask -> entry_ok e ->
  exists dpus' mask', gathered_rank (entries ++ [e]) dpus' mask'
    /\ fill_repairs nr_dpus rank_index (e :: rest) dpus mask = fill_repairs nr_dpus rank_index rest dpus' mask'.
Proof using Hcis Hdpus.
  intros G He. cbn [fill_repairs]. destruct (Z.eqb_spec (Vpd.rank e) rank_index) as [Er | Hne]; cbn [negb].
  2: { exists dpus, mask. split; [| done]. intros c d Hcd. destruct (G c d Hcd) as [G1 G2].
    assert (Hh : hits rank_index c d e = false) by (destruct (hits _ _ _ _) eqn:Hh; [by apply hits_inv in Hh as [? _] | done]).
    rewrite defects_of_other, existsb_app by done. cbn. by rewrite Hh, orb_false_r. }
  destruct (He Er) as [Hr Hb]. destruct (G _ _ Hr) as [G1 G2]. rewrite G1.
  assert (Hbank : negb (Vpd.iram_wram e =? Vpd.DPU_VPD_REPAIR_IRAM)
    && (length (wram_repair (defects_of rank_index (Vpd.ci e) (Vpd.dpu e) entries)) <=? Z.to_nat (Vpd.bank e))%nat = false).
  { destruct (Vpd.iram_wram e =? _) eqn:Ei; [done |]. cbn [negb andb]. specialize (Hb Ei). unfold defects_of. cbn [wram_repair].
    rewrite length_map, length_seq. apply Nat.leb_gt. lia. }
  rewrite Hbank. eexists _, _. split; [| reflexivity]. intros c d Hcd. destruct (G c d Hcd) as [G1' G2'].
  pose proof (index_lt _ _ Hr) as Hlt. pose proof (index_lt _ _ Hcd) as Hlt'.
  rewrite Z.lor_spec, G2', existsb_app. cbn [existsb]. rewrite orb_false_r.
  rewrite shiftl_1_pow2 by lia. rewrite wrap_small by (split; [lia |]; apply Z.pow_lt_mono_r; nia). rewrite Z.pow2_bits_eqb by lia.
  destruct (hits rank_index c d e) eqn:Hh.
  - apply hits_inv in Hh as Hc. destruct Hc as (_ & <- & <-). rewrite Z.eqb_refl. split; [| done].
    rewrite list_lookup_alter, decide_True by done. rewrite G1. cbn [fmap option_map option_fmap].
    destruct (Vpd.iram_wram e =? _) eqn:Ei; [by rewrite defects_of_iram | by rewrite defects_of_wram].
  - assert (Hne : Vpd.ci e * nr_dpus + Vpd.dpu e <> c * nr_dpus + d).
    { intros E. apply dpu_index_inj in E as [<- <-]; [| done..]. unfold hits in Hh. by rewrite Er, !Z.eqb_refl in Hh. }
    rewrite (proj2 (Z.eqb_neq _ _) Hne). split; [| done]. rewrite list_lookup_alter, decide_False by (unfold DPU_INDEX; lia).
    by rewrite defects_of_other.
Qed.

Lemma fill_repairs_spec rest entries dpus mask : gathered_rank entries dpus mask -> Forall entry_ok rest ->
  exists dpus' mask', gathered_rank (entries ++ rest) dpus' mask' /\ fill_repairs nr_dpus rank_index rest dpus mask = Some (dpus', mask').
Proof using Hcis Hdpus.
  intros G Hr. revert entries dpus mask G. induction Hr as [| e rest He Hr IH]; intros entries dpus mask G.
  - exists dpus, mask. by rewrite app_nil_r.
  - destruct (gathered_rank_step entries e rest dpus mask G He) as (dpus' & mask' & G' & ->).
    destruct (IH _ _ _ G') as (dpus'' & mask'' & G'' & ->). rewrite <- app_assoc in G''. by exists dpus'', mask''.
Qed.

(** The DPUs of a rank that has just been allocated. *)
Definition fresh_dpus : list dpu_repair := replicate (nr_cis * Z.to_nat nr_dpus) {| iram_repair := no_repair; wram_repair := replicate NR_OF_WRAM_BANKS no_repair |}.

Lemma gathered_rank_fresh : gathered_rank [] fresh_dpus 0.
Proof using Hcis Hdpus.
  intros c d Hcd. pose proof (index_lt c d Hcd). split; [| by rewrite Z.testbit_0_l].
  unfold fresh_dpus, DPU_INDEX. rewrite lookup_replicate. split; [done |]. nia.
Qed.

Lemma mask_all_bit d : 0 <= d -> Z.testbit (dpu_mask_all nr_dpus) d = (d <? nr_dpus).
Proof using Hdpus.
  clear Hcis.
  intros Hd. unfold dpu_mask_all. rewrite testbit_wrap, shiftl_1_pow2 by lia.
  replace (2 ^ nr_dpus - 1) with (Z.ones nr_dpus) by (rewrite Z.ones_equiv; lia). rewrite Z.testbit_ones_nonneg by lia.
  destruct (Z.ltb_spec d nr_dpus); [rewrite (proj2 (Z.ltb_lt d 8)) by lia; done | apply andb_false_r].
Qed.

(** What disabling does to an interface. *)
Lemma disable_slice_spec mask c s d : 0 <= d < nr_dpus ->
  Z.testbit (enabled_dpus (disable_slice nr_dpus mask c s)) d
  = Z.testbit (enabled_dpus s) d && negb (Z.testbit mask (Z.of_nat c * nr_dpus + d)).
Proof using Hdpus.
  clear Hcis.
  intros Hd. unfold disable_slice, dpu_mask_intersection, dpu_mask_difference. cbn [with_enabled enabled_dpus].
  rewrite Z.land_spec, Z.ldiff_spec, mask_all_bit by lia. rewrite (proj2 (Z.ltb_lt _ _)) by lia. cbn [andb].
  change 0xff with (Z.ones 8). rewrite Z.land_ones by lia. unfold wrap. rewrite Zmod_mod, Z.mod_pow2_bits_low, Z.shiftr_spec by lia.
  do 3 f_equal. lia.
Qed.

Lemma disable_slice_all mask c s :
  all_dpus_are_enabled (disable_slice nr_dpus mask c s) = true
  <-> forall d, 0 <= d < nr_dpus -> Z.testbit (enabled_dpus (disable_slice nr_dpus mask c s)) d = true.
Proof using Hdpus.
  clear Hcis.
  unfold disable_slice. cbn [with_enabled enabled_dpus all_dpus_are_enabled]. set (enabled := dpu_mask_intersection (enabled_dpus s) _).
  unfold dpu_mask_intersection. rewrite Z.eqb_eq. split.
  - intros E d Hd. assert (H : Z.testbit (Z.land enabled (dpu_mask_all nr_dpus)) d = true) by (rewrite E, mask_all_bit; lia).
    rewrite Z.land_spec in H. by apply andb_true_iff in H as [H _].
  - intros H. apply Z.bits_inj'. intros d Hd. rewrite Z.land_spec, mask_all_bit by lia.
    destruct (Z.ltb_spec d nr_dpus); [by rewrite H by lia | apply andb_false_r].
Qed.
End rank.

(** Filling the defects of a rank that has just been allocated, with those of the file of its VPD, always succeeds when
    the file is good; then each memory of each DPU has the defects the file gives it, in order, and a DPU is enabled
    when it was and the file neither disables it nor knows of any defect of it. *)
Theorem defects_of_rank nr_cis nr_dpus rank_index vpd_path vpd0 vpd r iram wram cis :
  (nr_cis <= 8)%nat -> 0 < nr_dpus <= 8 -> 0 <= rank_index < 4 -> iram || wram = true ->
  Vpd.dpu_vpd_init vpd_path vpd0 = Some (DPU_VPD_OK, vpd) ->
  Vpd.repair_count (Vpd.vpd_header vpd) <> Vpd.VPD_UNDEFINED_REPAIR_COUNT ->
  (Z.to_nat (Vpd.repair_count (Vpd.vpd_header vpd)) <= length (Vpd.repair_entries vpd))%nat ->
  Vpd.ranks (Vpd.vpd_header vpd) !! Z.to_nat rank_index = Some r ->
  let entries := take (Z.to_nat (Vpd.repair_count (Vpd.vpd_header vpd))) (Vpd.repair_entries vpd) in
  Forall (entry_ok nr_cis nr_dpus rank_index) entries ->
  exists dpus' cis',
    fill_sram_repairs_and_update_enabled_dpus nr_cis nr_dpus rank_index true vpd_path vpd0 iram wram (fresh_dpus nr_cis nr_dpus) cis
    = Some (DPU_OK, dpus', cis')
    /\ forall c d, in_rank nr_cis nr_dpus (Z.of_nat c) d ->
         dpus' !! DPU_INDEX nr_dpus (Z.of_nat c) d = Some (defects_of rank_index (Z.of_nat c) d entries)
         /\ forall s, cis !! c = Some s -> exists s', cis' !! c = Some s'
              /\ Z.testbit (enabled_dpus s') d
                 = Z.testbit (enabled_dpus s) d && negb (existsb (hits rank_index (Z.of_nat c) d) entries)
                   && negb (Z.testbit (Vpd.dpu_disabled r) (Z.of_nat c * nr_dpus + d))
              /\ (all_dpus_are_enabled s' = true <-> forall d, 0 <= d < nr_dpus -> Z.testbit (enabled_dpus s') d = true).
Proof.
  intros Hcis Hdpus Hr Hreq Hinit Hcount Hlen Er entries Hok. unfold fill_sram_repairs_and_update_enabled_dpus.
  rewrite (proj2 (Z.eqb_neq rank_index _)) by (unfold DPU_INVALID_RANK_INDEX; lia). cbn [negb]. rewrite Hinit.
  rewrite bool_decide_true by done. cbn [negb]. rewrite (proj2 (Z.eqb_neq _ _) Hcount), Hreq, Er.
  rewrite (proj2 (Nat.ltb_ge _ _)) by done. fold entries.
  destruct (fill_repairs_spec nr_cis nr_dpus rank_index Hcis Hdpus entries [] _ 0 (gathered_rank_fresh nr_cis nr_dpus rank_index Hcis Hdpus) Hok)
    as (dpus' & mask & G & ->). eexists _, _. split; [reflexivity |]. intros c d Hcd. destruct (G _ _ Hcd) as [G1 G2].
  split; [done |]. intros s Es. unfold disable_slices. eexists. split; [by rewrite list_lookup_imap, Es |].
  cbv beta. destruct Hcd as [Hc Hd]. rewrite (proj2 (Nat.ltb_lt c nr_cis)) by lia. split.
  - rewrite disable_slice_spec by done. rewrite Z.lor_spec, G2, negb_orb. apply andb_assoc.
  - by apply disable_slice_all.
Qed.

(** A file with two defects of the second DPU of the first interface, for the first of two ranks. *)
Definition sample_vpd : Vpd.dpu_vpd :=
  let entry r b := {| Vpd.iram_wram := 1; Vpd.rank := r; Vpd.ci := 0; Vpd.dpu := 1; Vpd.bank := b; Vpd.padding := 0; Vpd.address := 0x12; Vpd.bits := 5 |} in
  {| Vpd.vpd_header := {| Vpd.struct_id := Vpd.VPD_STRUCT_ID; Vpd.struct_ver := Vpd.VPD_STRUCT_VERSION; Vpd.struct_size := 112; Vpd.rank_count := 2;
       Vpd.padding_0 := 0; Vpd.repair_count := 3; Vpd.padding_1 := 0;
       Vpd.ranks := replicate 4 {| Vpd.dpu_disabled := 8; Vpd.wram_repair := 0; Vpd.iram_repair := 0 |} |};
     Vpd.repair_entries := [entry 0 2; entry 1 2; entry 0 3] ++ replicate 118 (entry 0 0) |}.

Definition sample_file : list Z := Vpd.header_bytes (Vpd.vpd_header sample_vpd) ++ concat (map Vpd.entry_bytes (take 3 (Vpd.repair_entries sample_vpd))).

Definition sample_slice : slice_info :=
  {| byte_order := 0; structure_value := 0; slice_target := DPU_SLICE_TARGET_NONE; host_mux_mram_state := 0;
     dpus_per_group := replicate 8 0; enabled_dpus := 0xff; all_dpus_are_enabled := true |}.

(** The initialisation of the structure keeps what was after the entries read. *)
Lemma defects_of_rank_witness : exists dpus' cis',
  fill_sram_repairs_and_update_enabled_dpus 2 8 0 true (Some (Some sample_file)) sample_vpd true false (fresh_dpus 2 8) [sample_slice; sample_slice]
  = Some (DPU_OK, dpus', cis')
  /\ forall c d, in_rank 2 8 (Z.of_nat c) d ->
       dpus' !! DPU_INDEX 8 (Z.of_nat c) d = Some (defects_of 0 (Z.of_nat c) d (take 3 (Vpd.repair_entries sample_vpd)))
       /\ forall s, [sample_slice; sample_slice] !! c = Some s -> exists s', cis' !! c = Some s'
            /\ Z.testbit (enabled_dpus s') d
               = Z.testbit (enabled_dpus s) d && negb (existsb (hits 0 (Z.of_nat c) d) (take 3 (Vpd.repair_entries sample_vpd)))
                 && negb (Z.testbit 8 (Z.of_nat c * 8 + d))
            /\ (all_dpus_are_enabled s' = true <-> forall d, 0 <= d < 8 -> Z.testbit (enabled_dpus s') d = true).
Proof.
  refine (defects_of_rank 2 8 0 (Some (Some sample_file)) sample_vpd sample_vpd {| Vpd.dpu_disabled := 8; Vpd.wram_repair := 0; Vpd.iram_repair := 0 |}
    true false [sample_slice; sample_slice] _ _ _ eq_refl _ _ _ eq_refl _); try lia.
  - vm_compute. reflexivity.
  - vm_compute. congruence.
  - vm_compute. lia.
  - repeat constructor; vm_compute; intros; congruence || lia.
Defined.

(** A file that ends before the entries its header counts is not said to be
    malformed: the entries the caller's structure held are taken. *)
Lemma truncated_file_accepted : exists dpus s1 s2,
  fill_sram_repairs_and_update_enabled_dpus 2 8 0 true (Some (Some (Vpd.header_bytes (Vpd.vpd_header sample_vpd)))) sample_vpd true false
    (fresh_dpus 2 8) [sample_slice; sample_slice] = Some (DPU_OK, dpus, [s1; s2])
  /\ enabled_dpus s1 = 0xf5.
Proof. eexists _, _, _. split; [vm_compute; reflexivity | reflexivity]. Qed.
