(* ===== verification/DmaWavegen.v ===== *)
(** The timings of the DMA engine and of the waveform generator of the DPUs
    (library/src/backends/ufi/src/ufi_dma_wavegen_config.c): the reference
    configurations, what is computed from the frequency, how both are written
    through the control of the DMA.

    Theorems: the adjustment of the refresh ends, and with what; the bytes written
    for the engine give its timings back. *)
From stdpp Require Import list.
From S2P Require Import Prelude Errors Mask Status CiCommands Ci BitConfig Ufi.

(** * Configurations *)

Record dpu_dma_config := {
  refresh_access_number : Z; column_read_latency : Z; minimal_access_number : Z; default_time_origin : Z;
  ldma_to_sdma_time_origin : Z; xdma_time_start_activate : Z; xdma_time_start_access : Z; sdma_time_start_wb_f1 : Z }.

Record dpu_wavegen_reg_config := { rise : Z; fall : Z; counter_enable : Z; counter_disable : Z }.

Record dpu_wavegen_timing_config := {
  activate : Z; read_timing : Z; write_timing : Z; precharge : Z;
  refresh_start : Z; refresh_activ : Z; refresh_prech : Z; refresh_end : Z }.

Record dpu_wavegen_vector_sampling_config := { rab_gross : Z; cat_gross : Z; dwbsb_gross : Z; drbsb_gross : Z; drbsb_fine : Z }.

Record dpu_wavegen_config := {
  MCBAB : dpu_wavegen_reg_config; RCYCLKB : dpu_wavegen_reg_config; WCYCLKB : dpu_wavegen_reg_config; DWCLKB : dpu_wavegen_reg_config;
  DWAEB : dpu_wavegen_reg_config; DRAPB : dpu_wavegen_reg_config; DRAOB : dpu_wavegen_reg_config; DWBSB_EN : dpu_wavegen_reg_config;
  timing_completion : dpu_wavegen_timing_config;
  vector_sampling : dpu_wavegen_vector_sampling_config;
  refresh_and_row_hammer_info : Z;
  row_hammer_config : Z;
  refresh_ctrl : Z }.

Definition reg (r f e d : Z) : dpu_wavegen_reg_config := {| rise := r; fall := f; counter_enable := e; counter_disable := d |}.

(** The fields a designated initialiser leaves out are 0. *)
Definition timings (a r w p : Z) : dpu_wavegen_timing_config :=
  {| activate := a; read_timing := r; write_timing := w; precharge := p; refresh_start := 0; refresh_activ := 0; refresh_prech := 0; refresh_end := 0 |}.

Definition sampling (r c w d f : Z) : dpu_wavegen_vector_sampling_config :=
  {| rab_gross := r; cat_gross := c; dwbsb_gross := w; drbsb_gross := d; drbsb_fine := f |}.

Definition dma_engine_cas_config : dpu_dma_config :=
  {| refresh_access_number := 53; column_read_latency := 7; minimal_access_number := 0; default_time_origin := u8 (-4);
     ldma_to_sdma_time_origin := u8 (-10); xdma_time_start_activate := 9; xdma_time_start_access := 18; sdma_time_start_wb_f1 := 0 |}.

Definition dma_engine_clock_div2_config : dpu_dma_config :=
  {| refresh_access_number := 0; column_read_latency := 9; minimal_access_number := 0; default_time_origin := u8 (-4);
     ldma_to_sdma_time_origin := u8 (-10); xdma_time_start_activate := 9; xdma_time_start_access := 18; sdma_time_start_wb_f1 := 0 |}.

Definition waveform_generator_clock_div2_config : dpu_wavegen_config :=
  {| MCBAB := reg 0x00 0x39 0x01 0x01; RCYCLKB := reg 0x33 0x39 0x01 0x03; WCYCLKB := reg 0x31 0x00 0x02 0x03; DWCLKB := reg 0x31 0x00 0x01 0x02;
     DWAEB := reg 0x31 0x08 0x02 0x04; DRAPB := reg 0x33 0x39 0x01 0x03; DRAOB := reg 0x31 0x39 0x03 0x04; DWBSB_EN := reg 0x3C 0x3E 0x01 0x03;
     vector_sampling := sampling 0x01 0x01 0x01 0x01 0x02; timing_completion := timings 0x0A 0x03 0x03 0x0B;
     refresh_and_row_hammer_info := 0; row_hammer_config := 0x06; refresh_ctrl := 0x01 |}.

Definition dma_engine_clock_div3_config : dpu_dma_config :=
  {| refresh_access_number := 0; column_read_latency := 8; minimal_access_number := 0; default_time_origin := u8 (-4);
     ldma_to_sdma_time_origin := u8 (-10); xdma_time_start_activate := 9; xdma_time_start_access := 18; sdma_time_start_wb_f1 := 0 |}.

Definition waveform_generator_clock_div3_config : dpu_wavegen_config :=
  {| MCBAB := reg 0x00 0x39 0x02 0x02; RCYCLKB := reg 0x33 0x39 0x02 0x04; WCYCLKB := reg 0x31 0x00 0x03 0x04; DWCLKB := reg 0x31 0x00 0x02 0x03;
     DWAEB := reg 0x31 0x08 0x03 0x05; DRAPB := reg 0x33 0x39 0x02 0x04; DRAOB := reg 0x31 0x39 0x04 0x05; DWBSB_EN := reg 0x3C 0x3E 0x02 0x04;
     vector_sampling := sampling 0x01 0x01 0x01 0x01 0x02; timing_completion := timings 0x0F 0x05 0x05 0x0B;
     refresh_and_row_hammer_info := 0; row_hammer_config := 0x06; refresh_ctrl := 0x01 |}.

Definition dma_engine_clock_div4_config : dpu_dma_config :=
  {| refresh_access_number := 0; column_read_latency := 7; minimal_access_number := 0; default_time_origin := u8 (-4);
     ldma_to_sdma_time_origin := u8 (-10); xdma_time_start_activate := 9; xdma_time_start_access := 18; sdma_time_start_wb_f1 := 0 |}.

Definition waveform_generator_clock_div4_config : dpu_wavegen_config :=
  {| MCBAB := reg 0x00 0x39 0x03 0x03; RCYCLKB := reg 0x33 0x39 0x03 0x05; WCYCLKB := reg 0x31 0x00 0x04 0x05; DWCLKB := reg 0x31 0x00 0x03 0x04;
     DWAEB := reg 0x31 0x08 0x04 0x06; DRAPB := reg 0x33 0x39 0x03 0x05; DRAOB := reg 0x31 0x39 0x05 0x06; DWBSB_EN := reg 0x3C 0x3E 0x03 0x05;
     vector_sampling := sampling 0x02 0x02 0x01 0x01 0x02; timing_completion := timings 0x14 0x07 0x07 0x0B;
     refresh_and_row_hammer_info := 0; row_hammer_config := 0x06; refresh_ctrl := 0x01 |}.

(** * The timings of the refresh *)

Definition DIV_ROUND_UP_ULL (ll d : Z) : Z := (wrap 64 (ll + d - 1)) / d.

Definition nr_cycles_for (duration_in_ns_tenfold frequency_in_mhz : Z) : Z :=
  u32 (DIV_ROUND_UP_ULL (duration_in_ns_tenfold * frequency_in_mhz) 1000).

Definition REFRESH_START_VALUE : Z := 2.
Definition REFRESH_END_VALUE : Z := 2.
Definition REFRESH_ACTIVATE_DURATION_TENFOLD_NS : Z := 512.
Definition REFRESH_PRECHARGE_DURATION_TENFOLD_NS : Z := 269.
Definition REFRESH_NR_PULSES_DEFAULT : Z := 4.

(** tRFC and the logarithm of the mode. *)
Definition mode_values (refresh_mode : Z) : Z * Z :=
  if refresh_mode =? 1 then (345, 0) else if refresh_mode =? 2 then (255, 1) else (155, 2).

Definition refresh_cycles (refresh_nr_pulses half_tenth refresh_activate refresh_precharge : Z) : Z :=
  u32 (REFRESH_START_VALUE + 1 + refresh_nr_pulses * (refresh_activate + 1) + (refresh_nr_pulses - 1) * (refresh_precharge + 1)
       + nr_cycles_for (14 * 10) half_tenth).

Definition refresh_cycles_total (refresh_nr_pulses refresh_activate refresh_precharge : Z) : Z :=
  u32 (1 + REFRESH_START_VALUE + 1 + refresh_nr_pulses * (refresh_activate + 1) + refresh_nr_pulses * (refresh_precharge + 1)
       + REFRESH_END_VALUE + 1).

Definition refresh_dma_of (tRFC fck_frequency fck_division : Z) : Z := u32 (u32 (tRFC * fck_frequency) / (4 * fck_division * 1000) - 1).

Definition dma_cycles_of (refresh_dma fck_division : Z) : Z := u32 (u32 (u32 (refresh_dma + 1) * 4) * fck_division) / 2.

(** The cycles of the refresh when the DMA engine has more than it: both
    durations are shortened till then.  [None]: not within [fuel] turns. *)
Fixpoint shorten_refresh (fuel : nat) (refresh_nr_pulses dma_cycles refresh_activate refresh_precharge : Z) : option (Z * Z) :=
  match fuel with
  | O => None
  | S fuel =>
    if dma_cycles <=? refresh_cycles_total refresh_nr_pulses refresh_activate refresh_precharge
    then shorten_refresh fuel refresh_nr_pulses dma_cycles (u32 (refresh_activate - 1)) (u32 (refresh_precharge - 1))
    else Some (refresh_activate, refresh_precharge)
  end.

Definition with_refresh_access_number (x : Z) (c : dpu_dma_config) : dpu_dma_config :=
  {| refresh_access_number := x; column_read_latency := column_read_latency c; minimal_access_number := minimal_access_number c;
     default_time_origin := default_time_origin c; ldma_to_sdma_time_origin := ldma_to_sdma_time_origin c;
     xdma_time_start_activate := xdma_time_start_activate c; xdma_time_start_access := xdma_time_start_access c;
     sdma_time_start_wb_f1 := sdma_time_start_wb_f1 c |}.

Definition with_refresh (start activ prech finish : Z) (c : dpu_wavegen_timing_config) : dpu_wavegen_timing_config :=
  {| activate := activate c; read_timing := read_timing c; write_timing := write_timing c; precharge := precharge c;
     refresh_start := start; refresh_activ := activ; refresh_prech := prech; refresh_end := finish |}.

Definition with_timing (t : dpu_wavegen_timing_config) (info ctrl : Z) (c : dpu_wavegen_config) : dpu_wavegen_config :=
  {| MCBAB := MCBAB c; RCYCLKB := RCYCLKB c; WCYCLKB := WCYCLKB c; DWCLKB := DWCLKB c; DWAEB := DWAEB c; DRAPB := DRAPB c; DRAOB := DRAOB c;
     DWBSB_EN := DWBSB_EN c; timing_completion := t; vector_sampling := vector_sampling c; refresh_and_row_hammer_info := info;
     row_hammer_config := row_hammer_config c; refresh_ctrl := ctrl |}.

(** [None]: a division by zero, or the loop has not ended. *)
Definition fill_timing_configuration (fuel : nat) (dma_configuration : dpu_dma_config) (wavegen_configuration : dpu_wavegen_config)
  (fck_frequency fck_division refresh_mode : Z) : option (dpu_dma_config * dpu_wavegen_config) :=
  if (refresh_mode =? 0) || (fck_division =? 0) then None
  else
    let half_tenth := fck_frequency / (2 * 10) in
    let refresh_activate := u32 (nr_cycles_for REFRESH_ACTIVATE_DURATION_TENFOLD_NS half_tenth - 1) in
    let refresh_precharge := u32 (nr_cycles_for REFRESH_PRECHARGE_DURATION_TENFOLD_NS half_tenth - 1) in
    let refresh_nr_pulses := REFRESH_NR_PULSES_DEFAULT / refresh_mode in
    let '(tRFC, refresh_mode_log2) := mode_values refresh_mode in
    let refresh_dma := refresh_dma_of tRFC fck_frequency fck_division in
    match shorten_refresh fuel refresh_nr_pulses (dma_cycles_of refresh_dma fck_division) refresh_activate refresh_precharge with
    | None => None
    | Some (refresh_activate, refresh_precharge) =>
      let refresh := refresh_cycles refresh_nr_pulses half_tenth refresh_activate refresh_precharge in
      let info := u16 (Z.lor (Z.lor (Z.shiftl (Z.land (Z.shiftr refresh 8) 1) 15) (Z.shiftl (Z.land refresh_mode_log2 0x3) 8)) (Z.land refresh 0xff)) in
      Some (with_refresh_access_number (u8 refresh_dma) dma_configuration,
            with_timing (with_refresh (u8 REFRESH_START_VALUE) (u8 refresh_activate) (u8 refresh_precharge) (u8 REFRESH_END_VALUE)
                           (timing_completion wavegen_configuration))
              info (refresh_ctrl wavegen_configuration) wavegen_configuration)
    end.

Inductive dpu_clock_division_t := DPU_CLOCK_DIV8 | DPU_CLOCK_DIV4 | DPU_CLOCK_DIV3 | DPU_CLOCK_DIV2.

Definition clock_code (d : dpu_clock_division_t) : Z :=
  match d with DPU_CLOCK_DIV8 => 0x0 | DPU_CLOCK_DIV4 => 0x4 | DPU_CLOCK_DIV3 => 0x3 | DPU_CLOCK_DIV2 => 0x8 end.

Definition from_division_factor_to_dpu_enum (factor : Z) : dpu_clock_division_t :=
  if factor =? 3 then DPU_CLOCK_DIV3 else if factor =? 4 then DPU_CLOCK_DIV4 else if factor =? 8 then DPU_CLOCK_DIV8 else DPU_CLOCK_DIV2.

Definition fetch_dma_and_wavegen_configs (fuel : nat) (fck_frequency clock_division refresh_mode : Z) (ctrl_refresh : bool)
  : option (dpu_dma_config * dpu_wavegen_config) :=
  let '(dma, wavegen, clock_division) :=
    match from_division_factor_to_dpu_enum clock_division with
    | DPU_CLOCK_DIV4 => (dma_engine_clock_div4_config, waveform_generator_clock_div4_config, clock_division)
    | DPU_CLOCK_DIV3 => (dma_engine_clock_div3_config, waveform_generator_clock_div3_config, clock_division)
    | _ => (dma_engine_clock_div2_config, waveform_generator_clock_div2_config, 2)
    end in
  match fill_timing_configuration fuel dma wavegen fck_frequency clock_division refresh_mode with
  | None => None
  | Some (dma, wavegen) =>
    Some (dma, if ctrl_refresh then wavegen else with_timing (timing_completion wavegen) (refresh_and_row_hammer_info wavegen) 0 wavegen)
  end.

(** * Writing them *)

Section write.
Context {W : Type} `{driver W}.
Variable desc : hw_description.
Local Abbreviation op := (cmd (ci W)).

Definition write_dma_ctrls (mask : Z) (l : list (Z * Z)) : op () := for_each l (fun p => ufi_write_dma_ctrl desc mask p.1 p.2).

(** The values at consecutive addresses. *)
Definition at_address (address : Z) (l : list Z) : list (Z * Z) := imap (fun i v => (u8 (address + Z.of_nat i), v)) l.

Definition dpu_dma_shuffling_box_config (config : dpu_bit_config) : op () :=
  mask ← ufi_select_all desc ALL_CIS;
  _ ← write_dma_ctrls mask [ (0x10, Z.land (Z.shiftr (dpu2cpu config) 8) 0xff); (0x11, Z.land (dpu2cpu config) 0xff);
                             (0x12, Z.land (Z.shiftr (cpu2dpu config) 8) 0xff); (0x13, Z.land (cpu2dpu config) 0xff);
                             (0x14, nibble_swap config) ];
  ufi_clear_dma_ctrl desc mask.

Definition dpu_wavegen_reg_config_op (mask address : Z) (config : dpu_wavegen_reg_config) : op () :=
  write_dma_ctrls mask (at_address address [rise config; fall config; counter_enable config; counter_disable config]).

Definition dpu_wavegen_timing_config_op (mask address : Z) (config : dpu_wavegen_timing_config) : op () :=
  write_dma_ctrls mask (at_address address [activate config; read_timing config; write_timing config; precharge config;
    refresh_start config; refresh_activ config; refresh_prech config; refresh_end config]).

Definition dpu_wavegen_vector_sampling_config_op (mask address : Z) (config : dpu_wavegen_vector_sampling_config) : op () :=
  write_dma_ctrls mask (at_address address [rab_gross config; cat_gross config; dwbsb_gross config; drbsb_gross config; drbsb_fine config]).

Definition dpu_wavegen_rowhammer_and_refresh_config (mask address rowhammer_info rowhammer_config : Z) : op () :=
  write_dma_ctrls mask (at_address address [Z.land rowhammer_info 0xff; Z.land (Z.shiftr rowhammer_info 8) 0xff; rowhammer_config]).

(** The DPUs of the second half first, when there are more than four. *)
Definition wavegen_target (nr_dpus each_dpu : nat) : nat :=
  if (nr_dpus <=? 4)%nat then each_dpu else if (4 <=? each_dpu)%nat then each_dpu - 4 else each_dpu + 4.

Definition dpu_wavegen_config_op (config : dpu_wavegen_config) : op () :=
  mask ← ufi_select_all desc ALL_CIS;
  _ ← for_each [ (0xC0, MCBAB config); (0xC4, RCYCLKB config); (0xC8, WCYCLKB config); (0xCC, DWCLKB config);
                 (0xD0, DWAEB config); (0xD4, DRAPB config); (0xD8, DRAOB config); (0xDC, DWBSB_EN config) ]
        (fun p => dpu_wavegen_reg_config_op mask p.1 p.2);
  _ ← dpu_wavegen_timing_config_op mask 0xE0 (timing_completion config);
  _ ← dpu_wavegen_vector_sampling_config_op mask 0xE8 (vector_sampling config);
  _ ← dpu_wavegen_rowhammer_and_refresh_config mask 0xFC (refresh_and_row_hammer_info config) (row_hammer_config config);
  for_each (seq 0 (nr_dpus desc)) (fun each_dpu =>
    mask ← ufi_select_dpu desc ALL_CIS (Z.of_nat (wavegen_target (nr_dpus desc) each_dpu));
    _ ← ufi_write_dma_ctrl desc mask 0x83 (refresh_ctrl config);
    ufi_clear_dma_ctrl desc mask).

Definition dma_engine_timing (config : dpu_dma_config) : Z :=
  fold_left Z.lor
    [ Z.shiftl (Z.land (refresh_access_number config) 0x7f) 36; Z.shiftl (Z.land (column_read_latency config) 0x0f) 32;
      Z.shiftl (Z.land (minimal_access_number config) 0x07) 29; Z.shiftl (Z.land (default_time_origin config) 0x7f) 22;
      Z.shiftl (Z.land (ldma_to_sdma_time_origin config) 0x7f) 15; Z.shiftl (Z.land (xdma_time_start_activate config) 0x1f) 10;
      Z.shiftl (Z.land (xdma_time_start_access config) 0x1f) 5; Z.shiftl (Z.land (sdma_time_start_wb_f1 config) 0x1f) 0 ] 0.

Definition dma_engine_bytes (config : dpu_dma_config) : list (Z * Z) :=
  map (fun k => (0x20 + k, Z.land (Z.shiftr (dma_engine_timing config) (8 * k)) 0xff)) [0; 1; 2; 3; 4; 5].

Definition dpu_dma_config_op (config : dpu_dma_config) : op () :=
  mask ← ufi_select_all desc ALL_CIS;
  _ ← write_dma_ctrls mask (dma_engine_bytes config);
  ufi_clear_dma_ctrl desc mask.
End write.

(** * The refresh is adjusted *)

(** The turns of the loop, as the cycles left to the refresh. *)
Definition refresh_budget (a p : Z) : Z := 11 + 2 * a + 2 * p.

Lemma total_turn a p k : refresh_cycles_total 2 (u32 (a - k)) (u32 (p - k)) = u32 (refresh_budget a p - 4 * k).
Proof.
  unfold refresh_cycles_total, refresh_budget, REFRESH_START_VALUE, REFRESH_END_VALUE, wrap.
  rewrite (Z.mod_eq (a - k)), (Z.mod_eq (p - k)) by lia.
  set (x := (a - k) / 2 ^ 32). set (y := (p - k) / 2 ^ 32).
  replace (1 + 2 + 1 + 2 * (a - k - 2 ^ 32 * x + 1) + 2 * (p - k - 2 ^ 32 * y + 1) + 2 + 1)
    with (11 + 2 * a + 2 * p - 4 * k + (- 2 * x - 2 * y) * 2 ^ 32) by lia.
  by rewrite Z_mod_plus_full.
Qed.

Lemma u32_pred x k : u32 (u32 (x - k) - 1) = u32 (x - (k + 1)).
Proof. unfold wrap. rewrite Zminus_mod_idemp_l. f_equal. lia. Qed.

Lemma u8_u32 x : u8 (u32 x) = u8 x.
Proof. unfold wrap. apply Z.mod_mod_divide. by exists (2 ^ 24). Qed.

(** How often both durations are shortened. *)
Definition turns_needed (dma_cycles budget : Z) : Z := Z.max 0 ((budget - dma_cycles) / 4 + 1).

Lemma shorten_refresh_from fuel dma_cycles a p k :
  4 <= dma_cycles -> 0 <= refresh_budget a p < 2 ^ 32 -> Z.odd (refresh_budget a p) = true ->
  0 <= k <= turns_needed dma_cycles (refresh_budget a p) -> turns_needed dma_cycles (refresh_budget a p) - k < Z.of_nat fuel ->
  shorten_refresh fuel 2 dma_cycles (u32 (a - k)) (u32 (p - k))
  = Some (u32 (a - turns_needed dma_cycles (refresh_budget a p)), u32 (p - turns_needed dma_cycles (refresh_budget a p))).
Proof.
  intros Hd Hb Ho. set (b := refresh_budget a p) in *. set (n := turns_needed dma_cycles b).
  assert (Hn : n = Z.max 0 ((b - dma_cycles) / 4 + 1)) by done. revert k.
  induction fuel as [| fuel IH]; intros k Hk Hf; [lia |]. cbn [shorten_refresh]. rewrite total_turn. fold b.
  assert (Hpos : 0 <= b - 4 * k).
  { pose proof (Z.div_mod (b - dma_cycles) 4 ltac:(lia)). pose proof (Z.mod_pos_bound (b - dma_cycles) 4 ltac:(lia)). lia. }
  rewrite wrap_small by lia. pose proof (Z.div_mod (b - dma_cycles) 4 ltac:(lia)). pose proof (Z.mod_pos_bound (b - dma_cycles) 4 ltac:(lia)).
  destruct (Z.leb_spec dma_cycles (b - 4 * k)).
  - rewrite !u32_pred. apply IH; lia.
  - assert (k = n) as -> by lia. done.
Qed.

Lemma shorten_refresh_never fuel n a p : 0 < n -> shorten_refresh fuel n 0 a p = None.
Proof.
  intros Hn. revert a p. induction fuel as [| fuel IH]; intros a p; [done |]. cbn [shorten_refresh].
  rewrite (proj2 (Z.leb_le _ _)); [apply IH |]. apply Z.mod_pos_bound. lia.
Qed.

(** The durations the code starts from. *)
Definition activate_cycles (f : Z) : Z := (512 * (f / 20) + 999) / 1000 - 1.
Definition precharge_cycles (f : Z) : Z := (269 * (f / 20) + 999) / 1000 - 1.

Lemma nr_cycles_small d h : 0 <= d < 1000 -> 0 <= h < 2 ^ 24 -> nr_cycles_for d h = (d * h + 999) / 1000 /\ 0 <= (d * h + 999) / 1000 < 2 ^ 25.
Proof.
  intros Hd Hh. unfold nr_cycles_for, DIV_ROUND_UP_ULL. assert (0 <= d * h < 1000 * 2 ^ 24) by nia.
  assert (0 <= (d * h + 999) / 1000 < 2 ^ 25) by (split; [apply Z.div_pos; lia | apply Z.div_lt_upper_bound; lia]).
  rewrite (wrap_small 64) by lia. replace (d * h + 1000 - 1) with (d * h + 999) by lia. by rewrite wrap_small by lia.
Qed.

(** The budget of the refresh, the cycles of the DMA. *)
Definition budget_of (f : Z) : Z := refresh_budget (activate_cycles f) (precharge_cycles f).
Definition dma_cycles_at (f d : Z) : Z := 2 * d * (255 * f / (4000 * d)).

Lemma dma_cycles_ok f d : 0 <= f < 2 ^ 24 -> 2 <= d <= 4 ->
  dma_cycles_of (refresh_dma_of 255 f d) d = dma_cycles_at f d /\ refresh_dma_of 255 f d = u32 (255 * f / (4000 * d) - 1).
Proof.
  intros Hf Hd. unfold dma_cycles_of, refresh_dma_of, dma_cycles_at. rewrite (wrap_small 32 (255 * f)) by lia.
  replace (4 * d * 1000) with (4000 * d) by lia. set (q := 255 * f / (4000 * d)). split; [| done].
  assert (Hq : 0 <= q < 2 ^ 20) by (split; [apply Z.div_pos; lia | apply Z.div_lt_upper_bound; nia]).
  replace (u32 (u32 (q - 1) + 1)) with q.
  2: { unfold wrap. rewrite Zplus_mod_idemp_l. replace (q - 1 + 1) with q by lia. by rewrite Z.mod_small by lia. }
  rewrite (wrap_small 32 (q * 4)) by lia. rewrite wrap_small by nia. replace (q * 4 * d) with (2 * d * q * 2) by lia. apply Z.div_mul. lia.
Qed.

Lemma budget_ok f : 0 <= f < 2 ^ 24 ->
  u32 (nr_cycles_for REFRESH_ACTIVATE_DURATION_TENFOLD_NS (f / (2 * 10)) - 1) = u32 (activate_cycles f - 0)
  /\ u32 (nr_cycles_for REFRESH_PRECHARGE_DURATION_TENFOLD_NS (f / (2 * 10)) - 1) = u32 (precharge_cycles f - 0)
  /\ 7 <= budget_of f < 2 ^ 32 /\ Z.odd (budget_of f) = true.
Proof.
  intros Hf. change (2 * 10) with 20. assert (0 <= f / 20 < 2 ^ 24) by (split; [apply Z.div_pos; lia | apply Z.div_lt_upper_bound; lia]).
  unfold REFRESH_ACTIVATE_DURATION_TENFOLD_NS, REFRESH_PRECHARGE_DURATION_TENFOLD_NS, budget_of, refresh_budget, activate_cycles, precharge_cycles.
  destruct (nr_cycles_small 512 (f / 20)) as [-> H1]; [lia.. |]. destruct (nr_cycles_small 269 (f / 20)) as [-> H2]; [lia.. |].
  rewrite !Z.sub_0_r. split_and!; [done | done | lia | lia |].
  match goal with |- Z.odd ?x = true => replace x with (1 + 2 * (3 + (512 * (f / 20) + 999) / 1000 + (269 * (f / 20) + 999) / 1000)) by lia end.
  by rewrite Z.odd_add_mul_2.
Qed.

(** The adjustment of the refresh to the frequency of the DPUs ends, when the DMA engine has a cycle, after shortening
    both durations as often as it takes for the refresh to fit between two accesses of the engine, and no more; at a lower
    frequency it never ends. *)
Theorem refresh_adjustment_ends dma wavegen f d fuel :
  0 <= f < 2 ^ 24 -> 2 <= d <= 4 ->
  let k := turns_needed (dma_cycles_at f d) (budget_of f) in
  (4000 * d <= 255 * f -> k < Z.of_nat fuel -> exists dma' wavegen',
     fill_timing_configuration fuel dma wavegen f d 2 = Some (dma', wavegen')
     /\ refresh_access_number dma' = u8 (255 * f / (4000 * d) - 1)
     /\ refresh_activ (timing_completion wavegen') = u8 (activate_cycles f - k)
     /\ refresh_prech (timing_completion wavegen') = u8 (precharge_cycles f - k)
     /\ budget_of f - 4 * k < dma_cycles_at f d /\ (k = 0 \/ dma_cycles_at f d <= budget_of f - 4 * (k - 1)))
  /\ (255 * f < 4000 * d -> fill_timing_configuration fuel dma wavegen f d 2 = None).
Proof.
  intros Hf Hd k. destruct (budget_ok f Hf) as (Ea & Ep & Hb & Ho). destruct (dma_cycles_ok f d Hf Hd) as [Ec Er].
  unfold fill_timing_configuration. rewrite (proj2 (Z.eqb_neq d 0)) by lia. cbn [orb Z.eqb Pos.eqb mode_values].
  change (mode_values 2) with (255, 1). change (REFRESH_NR_PULSES_DEFAULT / 2) with 2. cbv zeta beta iota. rewrite Ea, Ep, Ec.
  split; intros Hq.
  - intros Hk. assert (H1 : 1 <= 255 * f / (4000 * d)) by (apply Z.div_le_lower_bound; lia).
    assert (H4 : 4 <= dma_cycles_at f d) by (unfold dma_cycles_at; nia).
    assert (Hk0 : 0 <= k) by (unfold k, turns_needed; lia).
    rewrite (shorten_refresh_from fuel _ _ _ 0) by (fold (budget_of f); fold k; first [done | lia]). fold (budget_of f). fold k.
    eexists _, _. split; [reflexivity |]. cbn [refresh_access_number with_refresh_access_number timing_completion with_timing refresh_activ refresh_prech with_refresh].
    rewrite Er, !u8_u32. split_and!; [done.. | |];
      unfold k, turns_needed; pose proof (Z.div_mod (budget_of f - dma_cycles_at f d) 4 ltac:(lia));
      pose proof (Z.mod_pos_bound (budget_of f - dma_cycles_at f d) 4 ltac:(lia)); lia.
  - assert (dma_cycles_at f d = 0) as -> by (unfold dma_cycles_at; rewrite Z.div_small by lia; lia). by rewrite shorten_refresh_never.
Qed.

(** 200 MHz divided by four: one turn. *)
Lemma refresh_adjustment_ends_witness :
  let k := turns_needed (dma_cycles_at 200 4) (budget_of 200) in
  exists dma' wavegen',
     fill_timing_configuration 4 dma_engine_clock_div4_config waveform_generator_clock_div4_config 200 4 2 = Some (dma', wavegen')
     /\ refresh_access_number dma' = u8 (255 * 200 / (4000 * 4) - 1)
     /\ refresh_activ (timing_completion wavegen') = u8 (activate_cycles 200 - k)
     /\ refresh_prech (timing_completion wavegen') = u8 (precharge_cycles 200 - k)
     /\ budget_of 200 - 4 * k < dma_cycles_at 200 4 /\ (k = 0 \/ dma_cycles_at 200 4 <= budget_of 200 - 4 * (k - 1)).
Proof.
  exact (proj1 (refresh_adjustment_ends dma_engine_clock_div4_config waveform_generator_clock_div4_config 200 4 4 ltac:(lia) ltac:(lia))
    ltac:(lia) ltac:(vm_compute; reflexivity)).
Defined.

(** * What is written for the DMA engine *)

(** What the engine makes of the six bytes. *)
Definition word_of_bytes (l : list Z) : Z := fold_right (fun b w => b + 256 * w) 0 l.

Definition field (w first width : Z) : Z := wrap width (Z.shiftr w first).

Definition engine_timings (bytes : list (Z * Z)) : dpu_dma_config :=
  let w := word_of_bytes (map snd bytes) in
  {| refresh_access_number := field w 36 7; column_read_latency := field w 32 4; minimal_access_number := field w 29 3;
     default_time_origin := field w 22 7; ldma_to_sdma_time_origin := field w 15 7; xdma_time_start_activate := field w 10 5;
     xdma_time_start_access := field w 5 5; sdma_time_start_wb_f1 := field w 0 5 |}.

(** The times are signed numbers of seven bits. *)
Definition masked (c : dpu_dma_config) : dpu_dma_config :=
  {| refresh_access_number := wrap 7 (refresh_access_number c); column_read_latency := wrap 4 (column_read_latency c);
     minimal_access_number := wrap 3 (minimal_access_number c); default_time_origin := wrap 7 (default_time_origin c);
     ldma_to_sdma_time_origin := wrap 7 (ldma_to_sdma_time_origin c); xdma_time_start_activate := wrap 5 (xdma_time_start_activate c);
     xdma_time_start_access := wrap 5 (xdma_time_start_access c); sdma_time_start_wb_f1 := wrap 5 (sdma_time_start_wb_f1 c) |}.

Lemma word_of_six_bytes w : word_of_bytes (map (fun k => Z.land (Z.shiftr w (8 * k)) 0xff) [0; 1; 2; 3; 4; 5]) = wrap 48 w.
Proof.
  unfold word_of_bytes. cbn [map fold_right]. change 0xff with (Z.ones 8). rewrite !Z.land_ones, !Z.shiftr_div_pow2 by lia.
  change (8 * 0) with 0. change (8 * 1) with 8. change (8 * 2) with (8 + 8). change (8 * 3) with (8 + 8 + 8). change (8 * 4) with (8 + 8 + 8 + 8).
  change (8 * 5) with (8 + 8 + 8 + 8 + 8). rewrite !Z.pow_add_r by lia. change (2 ^ 0) with 1. change (2 ^ 8) with 256. rewrite Z.div_1_r.
  rewrite <- !Z.div_div by lia. unfold wrap. change (2 ^ 48) with (256 * 256 * 256 * 256 * 256 * 256).
  rewrite !Z.rem_mul_r by lia. rewrite <- !Z.div_div by lia. lia.
Qed.

(** A field of a word put together from fields that do not meet. *)
Lemma field_bits w first width x : 0 <= first -> 0 <= width ->
  (forall i, 0 <= i < width -> Z.testbit w (i + first) = Z.testbit x i) -> field w first width = wrap width x.
Proof.
  intros Hf Hw H. unfold field. apply Z.bits_inj'. intros i Hi. rewrite !testbit_wrap by lia.
  destruct (Z.ltb_spec i width); [cbn; rewrite Z.shiftr_spec by done; by apply H | done].
Qed.

Lemma field_bit x width first i : 0 <= i -> 0 <= width ->
  Z.testbit (Z.shiftl (Z.land x (Z.ones width)) first) i = (first <=? i) && (i - first <? width) && Z.testbit x (i - first).
Proof.
  intros Hi Hw. rewrite Z.shiftl_spec by done. destruct (Z.leb_spec first i); cbn [andb].
  - rewrite <- wrap_land_ones, testbit_wrap by lia. done.
  - by rewrite Z.testbit_neg_r by lia.
Qed.

Lemma dma_engine_timing_fields c : dma_engine_timing c =
  Z.lor (Z.lor (Z.lor (Z.lor (Z.lor (Z.lor (Z.lor (Z.lor 0
    (Z.shiftl (Z.land (refresh_access_number c) (Z.ones 7)) 36)) (Z.shiftl (Z.land (column_read_latency c) (Z.ones 4)) 32))
    (Z.shiftl (Z.land (minimal_access_number c) (Z.ones 3)) 29)) (Z.shiftl (Z.land (default_time_origin c) (Z.ones 7)) 22))
    (Z.shiftl (Z.land (ldma_to_sdma_time_origin c) (Z.ones 7)) 15)) (Z.shiftl (Z.land (xdma_time_start_activate c) (Z.ones 5)) 10))
    (Z.shiftl (Z.land (xdma_time_start_access c) (Z.ones 5)) 5)) (Z.shiftl (Z.land (sdma_time_start_wb_f1 c) (Z.ones 5)) 0).
Proof. reflexivity. Qed.

Ltac engine_field :=
  apply field_bits; [lia | lia |]; intros i Hi; rewrite testbit_wrap by lia;
  rewrite (proj2 (Z.ltb_lt _ 48)) by lia; cbn [andb]; rewrite dma_engine_timing_fields;
  rewrite !Z.lor_spec, !field_bit, Z.testbit_0_l by lia;
  repeat match goal with
  | |- context [?a <=? ?b] => first [rewrite (proj2 (Z.leb_le a b)) by lia | rewrite (proj2 (Z.leb_gt a b)) by lia]
  | |- context [?a <? ?b] => first [rewrite (proj2 (Z.ltb_lt a b)) by lia | rewrite (proj2 (Z.ltb_ge a b)) by lia]
  end;
  cbn [andb orb]; rewrite ?orb_false_r; f_equal; lia.

(** The DMA engine is given the timings of the configuration: the fields of the six bytes written are those timings in
    as many bits as the engine has for them, none over another. *)
Theorem engine_timings_written config : engine_timings (dma_engine_bytes config) = masked config.
Proof.
  unfold engine_timings, dma_engine_bytes. rewrite map_map. cbn [snd]. rewrite word_of_six_bytes. unfold masked. f_equal; engine_field.
Qed.

(** * The values fit their registers *)

(** The cycles of a refresh, from the word written for them. *)
Definition info_cycles (info : Z) : Z := field info 0 8 + 256 * field info 15 1.

Definition fits (f d : Z) : bool :=
  match fetch_dma_and_wavegen_configs 8 f d 2 true with
  | None => false
  | Some (dma, wavegen) =>
    let t := timing_completion wavegen in
    let k := turns_needed (dma_cycles_at f d) (budget_of f) in
    (wrap 7 (refresh_access_number dma) =? 255 * f / (4000 * d) - 1)
    && (refresh_activ t =? activate_cycles f - k) && (0 <=? activate_cycles f - k) && (activate_cycles f - k <? 2 ^ 8)
    && (refresh_prech t =? precharge_cycles f - k) && (0 <=? precharge_cycles f - k) && (precharge_cycles f - k <? 2 ^ 8)
    && (info_cycles (refresh_and_row_hammer_info wavegen) =? 6 + 2 * refresh_activ t + refresh_prech t + (140 * (f / 20) + 999) / 1000)
    && (field (refresh_and_row_hammer_info wavegen) 8 2 =? 1)
  end.

Lemma all_fit : forallb (fun f => fits f 2 && fits f 3 && fits f 4) (map Z.of_nat (seq 142 (4048 - 142))) = true.
Proof. vm_compute. reflexivity. Qed.

(** C40: from 142 to 4047 MHz, with each division of the clock, the timings are computed within eight turns and none of the
    values is cut by its register: the accesses between refreshes in seven bits, the durations in eight, the cycles of a
    refresh in the nine bits of two fields, beside the mode. *)
Theorem timings_fit f d : 142 <= f <= 4047 -> 2 <= d <= 4 ->
  let k := turns_needed (dma_cycles_at f d) (budget_of f) in
  exists dma wavegen, fetch_dma_and_wavegen_configs 8 f d 2 true = Some (dma, wavegen)
    /\ refresh_access_number (masked dma) = 255 * f / (4000 * d) - 1
    /\ refresh_activ (timing_completion wavegen) = activate_cycles f - k /\ 0 <= activate_cycles f - k < 2 ^ 8
    /\ refresh_prech (timing_completion wavegen) = precharge_cycles f - k /\ 0 <= precharge_cycles f - k < 2 ^ 8
    /\ info_cycles (refresh_and_row_hammer_info wavegen)
       = 6 + 2 * refresh_activ (timing_completion wavegen) + refresh_prech (timing_completion wavegen) + (140 * (f / 20) + 999) / 1000
    /\ field (refresh_and_row_hammer_info wavegen) 8 2 = 1.
Proof.
  intros Hf Hd k. assert (Hfit : fits f d = true).
  { pose proof all_fit as H. rewrite forallb_forall in H. specialize (H f). rewrite in_map_iff in H.
    specialize (H ltac:(exists (Z.to_nat f); split; [lia | apply in_seq; lia])). apply andb_true_iff in H as [H H4]. apply andb_true_iff in H as [H2 H3].
    assert (d = 2 \/ d = 3 \/ d = 4) as [-> | [-> | ->]] by lia; done. }
  unfold fits in Hfit. destruct (fetch_dma_and_wavegen_configs 8 f d 2 true) as [[dma wavegen] |]; [| done]. fold k in Hfit.
  exists dma, wavegen. repeat (apply andb_true_iff in Hfit as [Hfit ?]).
  repeat match goal with H : (_ =? _) = true |- _ => apply Z.eqb_eq in H end. unfold masked. cbn [refresh_access_number]. split_and!; done || lia.
Qed.

(** A frequency and a division of the defaults. *)
Lemma timings_fit_witness : exists dma wavegen, fetch_dma_and_wavegen_configs 8 1000 2 2 true = Some (dma, wavegen)
  /\ refresh_access_number (masked dma) = 255 * 1000 / (4000 * 2) - 1.
Proof. destruct (timings_fit 1000 2 ltac:(lia) ltac:(lia)) as (dma & wavegen & E & Ea & _). exists dma, wavegen. split; [exact E | exact Ea]. Defined.

(** Below, the durations go under zero: the registers get 255 for -1, 254 for -2. *)
Lemma low_frequency_wraps : exists dma wavegen, fetch_dma_and_wavegen_configs 8 102 3 2 true = Some (dma, wavegen)
  /\ refresh_activ (timing_completion wavegen) = 0 /\ refresh_prech (timing_completion wavegen) = 255.
Proof. eexists _, _. split; [vm_compute; reflexivity | done]. Qed.
