(* ===== verification/RankConfig.v ===== *)
(** The reset of a rank (library/src/backends/ufi/src/ufi_config.c): its
    interfaces, bit order, identity and timings, the repair of the memories of its
    DPUs, their faults, threads and modes, the groups of the DPUs that are enabled.
    All DPUs are enabled while it lasts.

    [poll_fuel] bounds the wait for the program that clears the state of the DPUs:
    the code waits without limit; running out is Undefined.  The program itself is
    read from a file and an argument, as are the arrays that are not initialised;
    the lock of the rank and logging are left out.  Theorems are in RankFacts.v. *)
From stdpp Require Import list.
From S2P Require Import Prelude Errors Mask Status CiCommands Ci BitConfig Ufi Mux Repair DmaWavegen.

(** * State *)

(** A rank with what is known of the memories of its DPUs, the number of DPUs
    enabled, the bit order of its module. *)
Record rank_state {W : Type} := {
  base : rank W;
  dpu_repairs : list dpu_repair;
  nr_dpus_enabled : Z;
  pcb_transformation : dpu_bit_config }.
Arguments rank_state : clear implicits.

Inductive dpu_type_t := FUNCTIONAL_SIMULATOR | CYCLE_ACCURATE_SIMULATOR | RTL_SIMULATOR | HW | BACKUP_SPI | SCENARIO.

#[export] Instance dpu_type_eq_dec : EqDecision dpu_type_t.
Proof. solve_decision. Defined.

(** The description of a rank that its reset reads. *)
Record settings := {
  type_of_rank : dpu_type_t;
  enable_cycle_accurate_behavior : bool;
  do_iram_repair : bool;
  do_wram_repair : bool;
  ila_control_refresh : bool;
  fck_frequency_in_mhz : Z;
  std_temperature : Z;
  carousel : dpu_carousel_config;
  nr_of_threads : nat;
  nr_of_notify_bits : nat;
  internal_reset_program : option (list Z) }.

(** The custom operations of the driver, for the whole rank or a DPU: false is a failure. *)
Class customiser (W : Type) := custom_operation : W -> Z -> option (nat * Z) -> W * bool.

Definition DPU_COMMAND_SET_SLICE_INFO : Z := 12.

Section state.
Context {W : Type}.
Implicit Types s : rank_state W.

Definition with_base (x : rank W) s : rank_state W :=
  {| base := x; dpu_repairs := dpu_repairs s; nr_dpus_enabled := nr_dpus_enabled s; pcb_transformation := pcb_transformation s |}.
Definition with_repairs (x : list dpu_repair) s : rank_state W :=
  {| base := base s; dpu_repairs := x; nr_dpus_enabled := nr_dpus_enabled s; pcb_transformation := pcb_transformation s |}.
Definition with_nr_enabled (x : Z) s : rank_state W :=
  {| base := base s; dpu_repairs := dpu_repairs s; nr_dpus_enabled := x; pcb_transformation := pcb_transformation s |}.
Definition with_pcb (x : dpu_bit_config) s : rank_state W :=
  {| base := base s; dpu_repairs := dpu_repairs s; nr_dpus_enabled := nr_dpus_enabled s; pcb_transformation := x |}.

Definition with_dpu_enabled (x : list (list bool)) (s : rank W) : rank W :=
  {| interface := interface s; dpu_enabled := x; dpu_running := dpu_running s; nb_dpu_running := nb_dpu_running s; transfers := transfers s |}.

(** An operation on the rank, on its interfaces. *)
Definition on_rank {A} (m : cmd (rank W) A) : cmd (rank_state W) A := fun s => let '(r, a) := m (base s) in (with_base r s, a).
Definition on_ci {A} (m : cmd (ci W) A) : cmd (rank_state W) A := on_rank (lift m).
End state.

Section rank.
Context {W : Type} `{driver W, customiser W}.
Variable desc : hw_description.
Variable conf : configuration.
Variable settings : settings.
Local Abbreviation op := (cmd (rank_state W)).

(** What arrays on the stack held. *)
Variable junk : list Z.

(** The fields of a DPU. *)
Definition get_dpu_enabled (slice_id dpu_id : nat) : op bool :=
  rows ← on_rank (read dpu_enabled); defined (row ← rows !! slice_id; row !! dpu_id).

Definition set_dpu_enabled (slice_id dpu_id : nat) (b : bool) : op () :=
  _ ← get_dpu_enabled slice_id dpu_id;
  on_rank (update (fun s => with_dpu_enabled (alter (fun row => <[dpu_id := b]> row) slice_id (dpu_enabled s)) s)).

Definition dpu_custom_for_rank (command : Z) : op () := on_ci (fun s =>
  let '(w, ok) := custom_operation (hw s) command None in
  (with_hw w (sent s) s, if ok : bool then Return tt else Failed (error_code DPU_ERR_DRIVER))).

(** * The DPUs that are enabled *)

Definition from_celsius_to_dpu_enum (temperature : Z) : Z :=
  if temperature <? 50 then 0 else if temperature <? 60 then 1 else if temperature <? 70 then 2 else if temperature <? 80 then 3
  else if temperature <? 90 then 4 else if temperature <? 100 then 5 else if temperature <? 110 then 6 else 7.

Definition all_dpus_mask : Z := dpu_mask_all (Z.of_nat (nr_dpus desc)).

(** What is saved of an interface. *)
Definition save_slice (update_save : bool) (saved : bool * Z) (each_ci : nat) : op (bool * Z) :=
  ci_info ← on_ci (get_slice each_ci);
  let saved := if update_save then (saved.1 && all_dpus_are_enabled ci_info, Z.land saved.2 (enabled_dpus ci_info))
               else (all_dpus_are_enabled ci_info, enabled_dpus ci_info) in
  if enabled_dpus ci_info =? 0 then mret saved
  else
    _ ← on_ci (set_slice each_ci (with_enabled all_dpus_mask true));
    _ ← for_each (seq 0 (nr_dpus desc)) (fun each_dpu => set_dpu_enabled each_ci each_dpu true);
    mret saved.

Fixpoint save_slices (update_save : bool) (saved : list (bool * Z)) (each_ci : nat) : op (list (bool * Z)) :=
  match saved with
  | [] => mret []
  | x :: saved => y ← save_slice update_save x each_ci; l ← save_slices update_save saved (S each_ci); mret (y :: l)
  end.

(** [saved]: an entry for each interface. *)
Definition save_enabled_dpus (saved : list (bool * Z)) (update_save : bool) : op (list (bool * Z)) := save_slices update_save saved 0.

(** * The interfaces *)

Definition EXPECTED_BYTE_ORDER_RESULT_AFTER_CONFIGURATION : Z := 0x000103FF0F8FCFEF.

Definition byte_order_values_are_compatible (reference found : Z) : bool :=
  forallb (fun each_byte => popcount (u8 (Z.land (Z.shiftr reference (8 * each_byte)) 0xff))
                            =? popcount (u8 (Z.land (Z.shiftr found (8 * each_byte)) 0xff))) [0; 1; 2; 3; 4; 5; 6; 7].

(** On the hardware the driver has read the byte orders. *)
Definition dpu_byte_order : op () :=
  r ← (if decide (type_of_rank settings = HW) then
         words ← on_ci (read (fun s => map byte_order (take (nr_cis desc) (slices s))));
         _ ← on_ci (update (fun s => with_data (words ++ drop (length words) (data s)) s));
         mret (ALL_CIS, words)
       else
         mask ← on_ci (ufi_select_cis desc ALL_CIS);
         words ← on_ci (ufi_byte_order desc mask);
         _ ← on_ci (update (with_data words));
         mret (mask, words));
  if forallb (fun slice_id => negb (CI_MASK_ON r.1 slice_id)
                || byte_order_values_are_compatible (word_at r.2 slice_id) EXPECTED_BYTE_ORDER_RESULT_AFTER_CONFIGURATION) (all_cis desc)
  then mret tt else error DPU_ERR_DRIVER.

(** The status of the command is not looked at. *)
Definition dpu_soft_reset (division : dpu_clock_division_t) : op () :=
  mask ← on_ci (ufi_select_cis desc ALL_CIS);
  ignore (on_ci (ufi_soft_reset desc mask (clock_code division) (if enable_cycle_accurate_behavior settings then 1 else 0))).

(** The result of the first interface of the mask, when the others agree:
    [__builtin_ctz(0)] is undefined. *)
Definition common_result (mask : Z) (results : list Z) : op Z :=
  if mask =? 0 then undefined
  else
    let result := word_at results (Z.to_nat (ctz mask)) in
    if forallb (fun slice_id => negb (CI_MASK_ON mask slice_id) || (word_at results slice_id =? result)) (all_cis desc)
    then mret result else error DPU_ERR_INTERNAL.

Definition with_stutter (x : Z) (c : dpu_bit_config) : dpu_bit_config :=
  {| cpu2dpu := cpu2dpu c; dpu2cpu := dpu2cpu c; nibble_swap := nibble_swap c; stutter := x |}.

(** Into the bit order of the module. *)
Definition dpu_bit_config_op : op () :=
  mask ← on_ci (ufi_select_cis desc ALL_CIS);
  pcb ← read pcb_transformation;
  results ← on_ci (ufi_bit_config desc pcb mask None (Some junk));
  result ← common_result mask (default junk results);
  update (fun s => with_pcb (with_stutter 0 (dpu_bit_config_compute result (pcb_transformation s))) s).

Definition dpu_identity : op () :=
  mask ← on_ci (ufi_select_cis desc ALL_CIS);
  pcb ← read pcb_transformation;
  results ← on_ci (ufi_identity desc pcb mask junk);
  result ← common_result mask results;
  if negb (result =? chip_id desc) then error DPU_ERR_INTERNAL else mret tt.

Definition dpu_ci_shuffling_box_config : op () :=
  mask ← on_ci (ufi_select_cis desc ALL_CIS);
  pcb ← read pcb_transformation;
  _ ← on_ci (ufi_bit_config desc pcb mask (Some pcb) None);
  mret tt.

Definition dpu_thermal_config (thermal_config : Z) : op () :=
  mask ← on_ci (ufi_select_cis desc ALL_CIS);
  ignore (on_ci (ufi_thermal_config desc mask (from_celsius_to_dpu_enum thermal_config))).

Definition dpu_carousel_config (config : dpu_carousel_config) : op () :=
  mask ← on_ci (ufi_select_all desc ALL_CIS);
  on_ci (ufi_carousel_config desc mask config).

(** * Repair *)

(** A memory of a DPU, with how it is changed. *)
Definition iram (d : dpu_repair) : option dpu_memory_repair_t := Some (iram_repair d).
Definition wram (bank : nat) (d : dpu_repair) : option dpu_memory_repair_t := wram_repair d !! bank.

Definition failed_repair (i : dpu_memory_repair_t) : dpu_memory_repair_t :=
  {| corrupted_addresses := corrupted_addresses i; nr_of_corrupted_addresses := nr_of_corrupted_addresses i; fail_to_repair := true |}.

Definition disable_one (each_dpu : nat) (s : slice_info) : slice_info :=
  with_enabled (Z.ldiff (enabled_dpus s) (Z.shiftl 1 (Z.of_nat each_dpu))) false s.

(** The configuration of a memory of each interface; a DPU that cannot be
    repaired is disabled. *)
Definition extract_configs (memory : dpu_repair -> option dpu_memory_repair_t)
  (change : (dpu_memory_repair_t -> dpu_memory_repair_t) -> dpu_repair -> dpu_repair) (each_dpu : nat) : op (list dpu_repair_config) :=
  accumulate (all_cis desc) (fun configs each_ci =>
    let dpu := DPU_INDEX (Z.of_nat (nr_dpus desc)) (Z.of_nat each_ci) (Z.of_nat each_dpu) in
    repairs ← read dpu_repairs;
    repair_info ← defined (d ← repairs !! dpu; memory d);
    let '(ok, config) := extract_memory_repair_configuration repair_info in
    _ ← (if ok : bool then mret tt
         else
           _ ← update (fun s => with_repairs (alter (change failed_repair) dpu (dpu_repairs s)) s);
           _ ← set_dpu_enabled each_ci each_dpu false;
           on_ci (set_slice each_ci (disable_one each_dpu)));
    mret (configs ++ [config])) [].

Definition check_some_enabled : op () :=
  l ← accumulate (all_cis desc) (fun some each_ci =>
        s ← on_ci (get_slice each_ci); mret (some || negb (enabled_dpus s =? 0))) false;
  if l : bool then mret tt else error DPU_ERR_CORRUPTED_MEMORY.

Definition try_to_repair_iram : op () :=
  _ ← for_each (seq 0 (nr_dpus desc)) (fun each_dpu =>
        configs ← extract_configs iram repair_iram each_dpu;
        ci_mask ← on_ci (ufi_select_dpu desc ALL_CIS (Z.of_nat each_dpu));
        on_ci (ufi_iram_repair_config desc ci_mask configs));
  check_some_enabled.

Definition try_to_repair_wram : op () :=
  _ ← for_each (seq 0 (nr_dpus desc)) (fun each_dpu =>
        for_each (seq 0 NR_OF_WRAM_BANKS) (fun each_wram_bank =>
          configs ← extract_configs (wram each_wram_bank) (repair_wram each_wram_bank) each_dpu;
          ci_mask ← on_ci (ufi_select_dpu desc ALL_CIS (Z.of_nat each_dpu));
          on_ci (ufi_wram_repair_config desc ci_mask (Z.of_nat each_wram_bank) configs)));
  check_some_enabled.

Definition no_repair_config : dpu_repair_config :=
  {| AB_msbs := 0; CD_msbs := 0; A_lsbs := 0; B_lsbs := 0; C_lsbs := 0; D_lsbs := 0; even_index := 0; odd_index := 1 |}.

Definition dpu_iram_repair_config : op () :=
  if do_iram_repair settings then try_to_repair_iram
  else
    mask ← on_ci (ufi_select_all desc ALL_CIS);
    on_ci (ufi_iram_repair_config desc mask (replicate DPU_MAX_NR_CIS no_repair_config)).

Definition dpu_wram_repair_config : op () :=
  if do_wram_repair settings then try_to_repair_wram
  else
    mask ← on_ci (ufi_select_all desc ALL_CIS);
    for_each (seq 0 NR_OF_WRAM_BANKS) (fun each_wram_bank =>
      on_ci (ufi_wram_repair_config desc mask (Z.of_nat each_wram_bank) (replicate DPU_MAX_NR_CIS no_repair_config))).

(** * Faults, threads, modes *)

Definition dpu_clear_debug : op () :=
  mask ← on_ci (ufi_select_all desc ALL_CIS);
  _ ← on_ci (ufi_clear_debug_replace desc mask);
  _ ← on_ci (ufi_clear_fault_poison desc mask);
  _ ← on_ci (ufi_clear_fault_bkp desc mask);
  _ ← on_ci (ufi_clear_fault_dma desc mask);
  _ ← on_ci (ufi_clear_fault_mem desc mask);
  _ ← on_ci (ufi_clear_fault_dpu desc mask);
  on_ci (ufi_clear_fault_intercept desc mask).

Definition dpu_clear_run_bits : op () :=
  mask ← on_ci (ufi_select_all desc ALL_CIS);
  for_each (seq 0 (nr_of_threads settings + nr_of_notify_bits settings)) (fun each_bit =>
    _ ← on_ci (ufi_clear_run_bit desc mask (Z.of_nat each_bit) None); mret tt).

Definition DPU_PC_MODE_16 : Z := 4.

(** Whether an enabled DPU of the line shows another mode: the entry of the
    number of the DPU is looked at, not of its interface. *)
Definition wrong_mode (pc_mode : Z) (pc_modes : list Z) (dpu_id : nat) : op bool :=
  accumulate (all_cis desc) (fun wrong slice_id =>
    if wrong : bool then mret true
    else enabled ← get_dpu_enabled slice_id dpu_id; mret (enabled && negb (word_at pc_modes dpu_id =? pc_mode))) false.

(** The status of a DPU replaces that of those before it. *)
Definition dpu_set_pc_mode (pc_mode : Z) : op () :=
  let pc_modes := replicate DPU_MAX_NR_CIS pc_mode in
  mask ← on_ci (ufi_select_all desc ALL_CIS);
  _ ← on_ci (ufi_set_pc_mode desc mask pc_modes);
  r ← accumulate (seq 0 (nr_dpus desc)) (fun r dpu_id =>
        mask ← on_ci (ufi_select_dpu desc ALL_CIS (Z.of_nat dpu_id));
        pc_modes ← on_ci (ufi_get_pc_mode desc junk mask r.1);
        wrong ← wrong_mode pc_mode pc_modes dpu_id;
        mret (pc_modes, wrong)) (pc_modes, false);
  if r.2 : bool then error DPU_ERR_INTERNAL else mret tt.

Definition dpu_set_stack_direction (stack_is_up : bool) : op () :=
  let stack_directions := replicate DPU_MAX_NR_CIS stack_is_up in
  mask ← on_ci (ufi_select_all desc ALL_CIS);
  _ ← on_ci (ufi_set_stack_direction desc mask stack_directions None);
  previous_directions ← on_ci (ufi_set_stack_direction desc mask stack_directions (Some junk));
  wrong ← accumulate (all_cis desc) (fun wrong slice_id =>
            accumulate (seq 0 (nr_dpus desc)) (fun wrong dpu_id =>
              enabled ← get_dpu_enabled slice_id dpu_id;
              mret (wrong || enabled && negb (eqb (dpu_mask_is_selected (word_at (default junk previous_directions) slice_id) (Z.of_nat dpu_id)) stack_is_up)))
            wrong) false;
  if wrong : bool then error DPU_ERR_INTERNAL else mret tt.

(** Till no DPU of the interfaces of the mask runs. *)
Fixpoint wait_stopped (poll_fuel : nat) (mask : Z) (state : list Z) : op () :=
  match poll_fuel with
  | O => undefined
  | S poll_fuel =>
    state ← on_ci (ufi_read_dpu_run desc mask state);
    if existsb (fun each_ci => CI_MASK_ON mask each_ci && negb (Z.land (word_at state each_ci) all_dpus_mask =? 0)) (all_cis desc)
    then wait_stopped poll_fuel mask state else mret tt
  end.

Definition dpu_reset_internal_state (poll_fuel : nat) : op () :=
  match internal_reset_program settings with
  | None => error DPU_ERR_SYSTEM
  | Some internal_state_reset =>
    mask ← on_ci (ufi_select_all desc ALL_CIS);
    _ ← on_ci (ufi_iram_write desc mask (replicate DPU_MAX_NR_CIS internal_state_reset) 0 (Z.of_nat (length internal_state_reset)));
    _ ← for_each (seq 0 (nr_of_threads settings)) (fun each_thread =>
          _ ← on_ci (ufi_thread_boot desc mask (Z.of_nat each_thread) None); mret tt);
    wait_stopped poll_fuel mask junk
  end.

(** * Groups *)

(** The interfaces whose DPUs are all enabled. *)
Definition write_groups (saved : list (bool * Z)) : op Z :=
  accumulate (zip (all_cis desc) saved) (fun ci_mask (p : nat * (bool * Z)) =>
    let '(each_ci, (all_enabled, enabled)) := p in
    if all_enabled : bool then mret (Z.lor ci_mask (CI_MASK_ONE each_ci))
    else if enabled =? 0 then mret ci_mask
    else
      _ ← for_each (seq 0 (nr_dpus desc)) (fun each_dpu =>
            let group := if Z.land enabled (Z.shiftl 1 (Z.of_nat each_dpu)) =? 0 then DPU_DISABLED_GROUP else DPU_ENABLED_GROUP in
            single_ci_mask ← on_ci (ufi_select_dpu desc (CI_MASK_ONE each_ci) (Z.of_nat each_dpu));
            on_ci (ufi_write_group desc single_ci_mask group));
      mret ci_mask) 0.

(** What was saved comes back. *)
Definition restore_slice (p : nat * (bool * Z)) : op () :=
  let '(each_ci, (all_enabled, enabled)) := p in
  _ ← on_ci (set_slice each_ci (with_enabled enabled all_enabled));
  _ ← update (fun s => with_nr_enabled (u32 (nr_dpus_enabled s + popcount enabled)) s);
  for_each (seq 0 (nr_dpus desc)) (fun each_dpu =>
    set_dpu_enabled each_ci each_dpu (negb (Z.land enabled (Z.shiftl 1 (Z.of_nat each_dpu)) =? 0))).

Definition dpu_init_groups (saved : list (bool * Z)) : op () :=
  ci_mask ← write_groups saved;
  _ ← (if ci_mask =? 0 then mret tt
       else ci_mask ← on_ci (ufi_select_all desc ci_mask); on_ci (ufi_write_group desc ci_mask DPU_ENABLED_GROUP));
  _ ← update (with_nr_enabled 0);
  for_each (zip (all_cis desc) saved) restore_slice.

(** * The reset *)

Definition REFRESH_MODE_VALUE : Z := 2.

(** The turns of the adjustment of the refresh and of the wait. *)
Variables refresh_fuel poll_fuel : nat.

Definition ci_reset_rank : op () :=
  configs ← defined (fetch_dma_and_wavegen_configs refresh_fuel (fck_frequency_in_mhz settings) (clock_division desc) REFRESH_MODE_VALUE
                       (negb (ila_control_refresh settings)));
  let dma_config := if decide (type_of_rank settings = CYCLE_ACCURATE_SIMULATOR) then dma_engine_cas_config else configs.1 in
  saved ← save_enabled_dpus (replicate (nr_cis desc) (false, 0)) false;
  _ ← dpu_byte_order;
  _ ← dpu_soft_reset DPU_CLOCK_DIV8;
  _ ← dpu_bit_config_op;
  _ ← dpu_ci_shuffling_box_config;
  _ ← dpu_soft_reset (from_division_factor_to_dpu_enum (clock_division desc));
  _ ← dpu_ci_shuffling_box_config;
  _ ← dpu_identity;
  _ ← dpu_thermal_config (std_temperature settings);
  _ ← dpu_carousel_config (carousel settings);
  _ ← dpu_iram_repair_config;
  saved ← save_enabled_dpus saved true;
  _ ← dpu_wram_repair_config;
  saved ← save_enabled_dpus saved true;
  _ ← on_ci (dpu_dma_config_op desc dma_config);
  pcb ← read pcb_transformation;
  _ ← on_ci (dpu_dma_shuffling_box_config desc pcb);
  _ ← on_ci (dpu_wavegen_config_op desc configs.2);
  _ ← dpu_clear_debug;
  _ ← dpu_clear_run_bits;
  _ ← dpu_set_pc_mode DPU_PC_MODE_16;
  _ ← dpu_set_stack_direction true;
  _ ← dpu_reset_internal_state poll_fuel;
  _ ← on_rank (dpu_switch_mux_for_rank desc conf junk (api_must_switch_mram_mux conf));
  _ ← dpu_init_groups saved;
  dpu_custom_for_rank DPU_COMMAND_SET_SLICE_INFO.

(** * One DPU *)

Definition ci_disable_dpu (slice_id : nat) (dpu_id : Z) : op () :=
  ci_mask ← on_ci (ufi_select_dpu desc (CI_MASK_ONE slice_id) dpu_id);
  on_ci (ufi_write_group desc ci_mask DPU_DISABLED_GROUP).

Definition dpu_wavegen_read_status (slice_id dpu_id : nat) (address : Z) : op Z :=
  enabled ← get_dpu_enabled slice_id dpu_id;
  if negb (enabled : bool) then error DPU_ERR_DPU_DISABLED
  else
    mask ← on_ci (ufi_select_dpu desc (CI_MASK_ONE slice_id) (Z.of_nat dpu_id));
    _ ← on_ci (ufi_write_dma_ctrl desc mask 0xff (Z.land address 3));
    _ ← on_ci (ufi_clear_dma_ctrl desc mask);
    results ← on_ci (ufi_read_dma_ctrl desc mask junk);
    mret (word_at results slice_id).
End rank.
