(* ===== verification/RankFacts.v ===== *)
(** What a reset of a rank (RankConfig.v) does to the DPUs that are enabled.
    Commands leave them alone; the reset enables all DPUs, disables those whose
    memories cannot be repaired, and at its end only those that were enabled and
    can be repaired are. *)
From stdpp Require Import list.
From S2P Require Import Prelude Errors Mask Status CiCommands Ci BitConfig Ufi UfiCache UfiFixed Mux MuxFacts Repair DmaWavegen RankConfig.

Lemma zip_self {A B} (g : A -> B) l : zip l (map g l) = map (fun a => (a, g a)) l.
Proof. induction l as [| a l IH]; cbn; [done | by rewrite IH]. Qed.

Lemma forallb_andb {A} (p q : A -> bool) l : forallb (fun a => p a && q a) l = forallb p l && forallb q l.
Proof. induction l as [| a l IH]; cbn [forallb]; [done |]. rewrite IH. by destruct (p a), (q a), (forallb p l), (forallb q l). Qed.

Lemma testbit_all_dpus desc d : (nr_dpus desc <= 8)%nat -> (d < nr_dpus desc)%nat -> Z.testbit (all_dpus_mask desc) (Z.of_nat d) = true.
Proof.
  intros Hn Hd. unfold all_dpus_mask, dpu_mask_all. rewrite testbit_wrap, Z.shiftl_1_l by lia.
  change (2 ^ Z.of_nat (nr_dpus desc) - 1) with (Z.pred (2 ^ Z.of_nat (nr_dpus desc))). rewrite <- Z.ones_equiv, Z.ones_spec_low by lia.
  by rewrite (proj2 (Z.ltb_lt (Z.of_nat d) 8)) by lia.
Qed.

(** * Commands leave the DPUs that are enabled *)

(** Whether all DPUs of an interface are enabled, which are. *)
Definition enabled_part (sl : slice_info) : bool * Z := (all_dpus_are_enabled sl, enabled_dpus sl).

Definition enabled_as {W} (n : nat) (f : nat -> bool * Z) (c : ci W) : Prop :=
  forall i, (i < n)%nat -> enabled_part <$> slices c !! i = Some (f i).

Section commands.
Context {W : Type} `{driver W}.
Variable desc : hw_description.
Variable f : nat -> bool * Z.
Local Abbreviation same := (enabled_as (W := W) (nr_cis desc) f).

Lemma same_slices s s' : slices s' = slices s -> same s -> same s'.
Proof. unfold enabled_as. by intros ->. Qed.

(** What keeps all but structures and targets keeps them. *)
Lemma same_of_unchanged {A} (m : cmd (ci W) A) : (forall l, keeps (unchanged l) m) -> keeps same m.
Proof.
  intros Hm s Hs. specialize (Hm (map fixed (slices s)) s eq_refl).
  assert (Hsame : forall s', unchanged (map fixed (slices s)) s' -> same s').
  { intros s' E i Hi. unfold unchanged in E. apply (f_equal (fun l => l !! i)) in E. rewrite !list_lookup_fmap in E.
    rewrite <- (Hs i Hi). destruct (slices s' !! i) as [a |], (slices s !! i) as [b |]; try done. cbn in E |- *.
    injection E. intros. unfold enabled_part. by f_equal; f_equal. }
  destruct (m s) as [s' [a | e |]]; by try apply Hsame.
Qed.

Lemma same_set_slice i g : (forall sl, enabled_part (g sl) = enabled_part sl) -> keeps same (set_slice i g).
Proof.
  intros Hg s Hs. pose proof (set_slice_spec i g s) as E. destruct (set_slice i g s) as [s' [[] | |]]; [| done | done].
  destruct E as (sl & _ & ->). intros j Hj. rewrite <- (Hs j Hj). cbn [slices with_slices]. rewrite list_lookup_alter.
  destruct (decide (i = j)) as [<- |]; [| done]. destruct (slices s !! i) as [x |]; [| done]. cbn. by rewrite Hg.
Qed.

Lemma same_exec commands add : keeps same (exec_cmd desc commands add).
Proof. apply same_of_unchanged. intros l. apply unchanged_exec. Qed.

Lemma same_update g : (forall s, slices (g s) = slices s) -> keeps same (update g).
Proof. intros Hg. apply keeps_update. intros s. by apply same_slices. Qed.

Lemma same_commit commands : keeps same (ci_commit_commands commands).
Proof. intros s Hs. unfold ci_commit_commands. destruct (commit_commands (hw s) commands) as [w []]; exact Hs. Qed.

Lemma same_update_commands : keeps same ci_update_commands.
Proof. intros s Hs. unfold ci_update_commands. destruct (update_commands (hw s)) as [[w l] []]; exact Hs. Qed.

Lemma same_invert_color mask : keeps same (invert_color mask).
Proof. by apply same_update. Qed.

Lemma same_reset commands : keeps same (ci_exec_reset_cmd desc commands).
Proof.
  unfold ci_exec_reset_cmd. cbv zeta. apply keeps_bind; [apply same_invert_color | intros _]. apply keeps_bind; [apply same_commit | intros _].
  apply keeps_bind; [| intros _].
  - apply keeps_for_each. intros i. apply keeps_bind; [apply same_update_commands | intros ?; apply keeps_ret].
  - apply keeps_update. intros s Hs i Hi. rewrite <- (Hs i Hi). cbn [slices with_slices]. rewrite list_lookup_fmap. by destruct (slices s !! i).
Qed.

Lemma same_discovery commands : keeps same (ci_exec_byte_discovery desc commands).
Proof.
  assert (Hw : forall n mask, keeps same (wait_for_byte_discovery desc n mask)).
  { induction n as [| n IH]; intros mask; cbn [wait_for_byte_discovery]; (apply keeps_bind; [apply same_update_commands | intros words]); apply keeps_if;
      eauto with keeps. }
  unfold ci_exec_byte_discovery. cbv zeta. apply keeps_bind; [apply same_invert_color | intros _]. apply keeps_bind; [apply same_commit | intros _].
  apply keeps_bind; [apply Hw | intros _; apply Hw].
Qed.
End commands.

Ltac head_of m := lazymatch m with ?g _ => head_of g | _ => m end.

Ltac same_step :=
  match goal with
  | |- forall _, keeps _ _ => intros ?
  | |- forall _ _, keeps _ _ => intros ? ?
  | |- keeps _ (let '(_, _) := ?x in _) => destruct x
  | |- keeps _ (ci_exec_void_cmd _ _) => apply same_exec
  | |- keeps _ (ci_exec_wait_mask_cmd _ _) => apply same_exec
  | |- keeps _ (exec_cmd _ _ _) => apply same_exec
  | |- keeps _ (ci_exec_reset_cmd _ _) => apply same_reset
  | |- keeps _ (ci_exec_byte_discovery _ _) => apply same_discovery
  | |- keeps _ (UFI_exec_void_frame _ _ _ _) => apply same_of_unchanged; intros ?; apply unchanged_void_frame
  | |- keeps _ (UFI_exec_8bit_frame _ _ _ _ _) => apply same_of_unchanged; intros ?; apply unchanged_8bit_frame
  | |- keeps _ (UFI_exec_32bit_frame _ _ _ _ _) => apply same_of_unchanged; intros ?; apply unchanged_32bit_frame
  | |- keeps _ (UFI_exec_write_structure _ _ _) => apply same_of_unchanged; intros ?; apply unchanged_write_structure
  | |- keeps _ (exec_structure_frames _ _ _ _) => apply same_of_unchanged; intros ?; apply unchanged_structure_frames
  | |- keeps _ (select_when _ _ _ _ _) => apply same_of_unchanged; intros ?; apply unchanged_select_when
  | |- keeps _ (select_frames _ _ _) => apply same_of_unchanged; intros ?; apply unchanged_select_frames
  | |- keeps _ (retarget _ _ _ _) => apply same_of_unchanged; intros ?; apply unchanged_retarget; intros; apply keeps_ret
  | |- keeps _ (set_slice _ _) => apply same_set_slice; done
  | |- keeps _ (get_slice _) => apply keeps_get_slice
  | |- keeps _ (update _) => apply same_update; done
  | |- keeps _ (for_each _ _) => apply keeps_for_each
  | |- keeps _ (accumulate _ _ _) => apply keeps_accumulate
  | |- keeps _ (_ ≫= _) => apply keeps_bind
  | |- keeps _ (mret _) => apply keeps_ret
  | |- keeps _ (error _) => apply keeps_error
  | |- keeps _ (defined _) => apply keeps_defined
  | |- keeps _ (read _) => apply keeps_read
  | |- keeps _ (if ?b then _ else _) => destruct b
  | |- keeps _ (match ?x with _ => _ end) => destruct x
  | |- keeps _ ?m => let h := head_of m in unfold h
  end.

Section interface.
Context {W : Type} `{driver W}.
Variable desc : hw_description.
Variable f : nat -> bool * Z.
Local Abbreviation same := (enabled_as (W := W) (nr_cis desc) f).

Lemma same_select_cis mask : keeps same (ufi_select_cis desc mask).
Proof. repeat same_step. Qed.
Lemma same_select_all mask : keeps same (ufi_select_all desc mask).
Proof. repeat same_step. Qed.
Lemma same_select_dpu mask d : keeps same (ufi_select_dpu desc mask d).
Proof. repeat same_step. Qed.
Lemma same_byte_order mask : keeps same (ufi_byte_order desc mask).
Proof. repeat same_step. Qed.
Lemma same_soft_reset mask division accurate : keeps same (ufi_soft_reset desc mask division accurate).
Proof. repeat same_step. Qed.
Lemma same_bit_config pcb mask config results : keeps same (ufi_bit_config desc pcb mask config results).
Proof. repeat same_step. Qed.
Lemma same_identity pcb mask results : keeps same (ufi_identity desc pcb mask results).
Proof. repeat same_step. Qed.
Lemma same_thermal mask t : keeps same (ufi_thermal_config desc mask t).
Proof. repeat same_step. Qed.
Lemma same_carousel mask config : keeps same (ufi_carousel_config desc mask config).
Proof. repeat same_step. Qed.
Lemma same_iram_repair mask config : keeps same (ufi_iram_repair_config desc mask config).
Proof. repeat same_step. Qed.
Lemma same_wram_repair mask bank config : keeps same (ufi_wram_repair_config desc mask bank config).
Proof. repeat same_step. Qed.
Lemma same_write_group mask group : keeps same (ufi_write_group desc mask group).
Proof. repeat same_step. Qed.
Lemma same_set_pc_mode mask modes : keeps same (ufi_set_pc_mode desc mask modes).
Proof. repeat same_step. Qed.
Lemma same_get_pc_mode l mask modes : keeps same (ufi_get_pc_mode desc l mask modes).
Proof. repeat same_step. Qed.
Lemma same_stack mask direction previous : keeps same (ufi_set_stack_direction desc mask direction previous).
Proof. repeat same_step. Qed.
Lemma same_iram_write mask src offset len : keeps same (ufi_iram_write desc mask src offset len).
Proof. repeat same_step. Qed.
Lemma same_thread_boot mask thread previous : keeps same (ufi_thread_boot desc mask thread previous).
Proof. repeat same_step. Qed.
Lemma same_clear_run_bit mask b previous : keeps same (ufi_clear_run_bit desc mask b previous).
Proof. repeat same_step. Qed.
Lemma same_read_dpu_run mask run : keeps same (ufi_read_dpu_run desc mask run).
Proof. repeat same_step. Qed.
Lemma same_dma_config config : keeps same (dpu_dma_config_op desc config).
Proof. repeat same_step. Qed.
Lemma same_dma_shuffling config : keeps same (dpu_dma_shuffling_box_config desc config).
Proof. repeat same_step. Qed.
Lemma same_wavegen config : keeps same (dpu_wavegen_config_op desc config).
Proof. repeat same_step. Qed.
End interface.

(** * The steps of the reset *)

(** The defects of a DPU, without what repairs report. *)
Definition clear_failure (i : dpu_memory_repair_t) : dpu_memory_repair_t :=
  {| corrupted_addresses := corrupted_addresses i; nr_of_corrupted_addresses := nr_of_corrupted_addresses i; fail_to_repair := false |}.
Definition clear_failures (d : dpu_repair) : dpu_repair :=
  {| iram_repair := clear_failure (iram_repair d); wram_repair := map clear_failure (wram_repair d) |}.

Section reset.
Context {W : Type} `{driver W, customiser W}.
Variable desc : hw_description.
Variable conf : configuration.
Variable settings : settings.
Variable junk : list Z.
Variables refresh_fuel poll_fuel : nat.
(** The DPUs of the rank with their defects. *)
Variable defects : list dpu_repair.
Implicit Types s : rank_state W.

(** What is known of a rank while it is reset. *)
Definition knows (f : nat -> bool * Z) s : Prop :=
  enabled_as (nr_cis desc) f (interface (base s)) /\ map clear_failures (dpu_repairs s) = map clear_failures defects.

Lemma knows_on_ci {A} f (m : cmd (ci W) A) : keeps (enabled_as (nr_cis desc) f) m -> keeps (knows f) (on_ci m).
Proof.
  intros Hm s [Hs Hd]. specialize (Hm _ Hs). unfold on_ci, on_rank, lift. destruct (m (interface (base s))) as [c [a | e |]]; done.
Qed.

Lemma knows_on_rank {A} f (m : cmd (rank W) A) : keeps (fun r => enabled_as (nr_cis desc) f (interface r)) m -> keeps (knows f) (on_rank m).
Proof. intros Hm s [Hs Hd]. specialize (Hm _ Hs). unfold on_rank. destruct (m (base s)) as [c [a | e |]]; done. Qed.

Lemma knows_update f (g : rank_state W -> rank_state W) :
  (forall s, interface (base (g s)) = interface (base s) /\ dpu_repairs (g s) = dpu_repairs s) -> keeps (knows f) (update g).
Proof. intros Hg. apply keeps_update. intros s [Hs Hd]. destruct (Hg s) as [E1 E2]. split; [by rewrite E1 | by rewrite E2]. Qed.

Lemma knows_get_enabled f i d : keeps (knows f) (get_dpu_enabled i d).
Proof. unfold get_dpu_enabled. apply keeps_bind; [apply knows_on_rank, keeps_read | intros ?; apply keeps_defined]. Qed.

Lemma knows_set_enabled f i d b : keeps (knows f) (set_dpu_enabled i d b).
Proof. unfold set_dpu_enabled. apply keeps_bind; [apply knows_get_enabled | intros _]. apply knows_on_rank. by apply keeps_update. Qed.

(** The multiplexers of the rank. *)
Lemma lift_keeps {A} f (m : cmd (ci W) A) : keeps (enabled_as (nr_cis desc) f) m ->
  keeps (fun r => enabled_as (nr_cis desc) f (interface r)) (lift m).
Proof. intros Hm s Hs. specialize (Hm _ Hs). unfold lift. destruct (m (interface s)) as [c [a | e |]]; done. Qed.

Ltac quiet_step :=
  match goal with
  | |- forall _, keeps _ _ => intros ?
  | |- forall _ _, keeps _ _ => intros ? ?
  | |- keeps _ (lift _) => apply lift_keeps
  | |- keeps _ (on_ci _) => apply knows_on_ci
  | |- keeps (enabled_as _ _) _ => solve [repeat same_step]
  | |- keeps _ (get_dpu_enabled _ _) => apply knows_get_enabled
  | |- keeps _ (set_dpu_enabled _ _ _) => apply knows_set_enabled
  | |- keeps _ (update _) => apply knows_update; done
  | |- keeps _ (for_each _ _) => apply keeps_for_each
  | |- keeps _ (accumulate _ _ _) => apply keeps_accumulate
  | |- keeps _ (_ ≫= _) => apply keeps_bind
  | |- keeps _ (mret _) => apply keeps_ret
  | |- keeps _ (error _) => apply keeps_error
  | |- keeps _ undefined => apply keeps_undefined
  | |- keeps _ (defined _) => apply keeps_defined
  | |- keeps _ (read _) => apply keeps_read
  | |- keeps _ (ignore _) => apply keeps_ignore
  | |- keeps _ (if ?b then _ else _) => destruct b
  | |- keeps _ (match ?x with _ => _ end) => destruct x
  end.

Ltac quiet := repeat quiet_step.

Lemma mux_tries_keeps f n look mask e l : (forall l, keeps (fun r : rank W => enabled_as (nr_cis desc) f (interface r)) (look l)) ->
  keeps (fun r => enabled_as (nr_cis desc) f (interface r)) (mux_tries desc n look mask e l).
Proof. intros Hl. revert l. induction n as [| n IH]; intros l; cbn [mux_tries]; quiet; [apply Hl | apply IH]. Qed.

Lemma check_each_keeps f mask e dpus l : keeps (fun r : rank W => enabled_as (nr_cis desc) f (interface r)) (check_each_dpu desc conf mask e dpus l).
Proof.
  revert l. induction dpus as [| d dpus IH]; intros l; cbn [check_each_dpu]; quiet; [apply mux_tries_keeps; quiet | | apply IH]. unfold timed_out. quiet.
Qed.

Lemma knows_switch f b : keeps (knows f) (on_rank (dpu_switch_mux_for_rank desc conf junk b)).
Proof.
  apply knows_on_rank. unfold dpu_switch_mux_for_rank. quiet.
  - assert (Hw : forall l, keeps (fun r : rank W => enabled_as (nr_cis desc) f (interface r)) (wrong_direction desc b l)).
    { induction l as [| i l IH]; cbn [wrong_direction]; quiet. apply IH. }
    apply Hw.
  - unfold host_handle_access_for_rank, dpu_check_wavegen_mux_status_for_rank. quiet. apply check_each_keeps.
Qed.

Lemma knows_byte_order f : keeps (knows f) (dpu_byte_order desc settings).
Proof. unfold dpu_byte_order. quiet. Qed.
Lemma knows_soft_reset f d : keeps (knows f) (dpu_soft_reset desc settings d).
Proof. unfold dpu_soft_reset. quiet. Qed.
Lemma knows_common f mask l : keeps (knows f) (common_result desc mask l).
Proof. unfold common_result. cbv zeta. quiet. Qed.
Lemma knows_bit_config f : keeps (knows f) (dpu_bit_config_op desc junk).
Proof. unfold dpu_bit_config_op. quiet. apply knows_common. Qed.
Lemma knows_identity f : keeps (knows f) (dpu_identity desc junk).
Proof. unfold dpu_identity. quiet. apply knows_common. Qed.
Lemma knows_shuffling f : keeps (knows f) (dpu_ci_shuffling_box_config desc).
Proof. unfold dpu_ci_shuffling_box_config. quiet. Qed.
Lemma knows_thermal f t : keeps (knows f) (dpu_thermal_config desc t).
Proof. unfold dpu_thermal_config. quiet. Qed.
Lemma knows_carousel f c : keeps (knows f) (dpu_carousel_config desc c).
Proof. unfold RankConfig.dpu_carousel_config. quiet. Qed.
Lemma knows_clear_debug f : keeps (knows f) (dpu_clear_debug desc).
Proof. unfold dpu_clear_debug. quiet. Qed.
Lemma knows_clear_run_bits f : keeps (knows f) (dpu_clear_run_bits desc settings).
Proof. unfold dpu_clear_run_bits. quiet. Qed.
Lemma knows_set_pc_mode f m : keeps (knows f) (dpu_set_pc_mode desc junk m).
Proof. unfold dpu_set_pc_mode, wrong_mode. cbv zeta. quiet. Qed.
Lemma knows_stack f b : keeps (knows f) (dpu_set_stack_direction desc junk b).
Proof. unfold dpu_set_stack_direction. cbv zeta. quiet. Qed.
Lemma knows_reset_state f : keeps (knows f) (dpu_reset_internal_state desc settings junk poll_fuel).
Proof.
  unfold dpu_reset_internal_state. assert (Hw : forall n mask l, keeps (knows f) (wait_stopped desc n mask l)).
  { induction n as [| n IH]; intros mask l; cbn [wait_stopped]; quiet. apply IH. }
  quiet. apply Hw.
Qed.
Lemma knows_write_groups f saved : keeps (knows f) (write_groups desc saved).
Proof. unfold write_groups. quiet. Qed.
Lemma knows_custom f c : keeps (knows f) (dpu_custom_for_rank c).
Proof. unfold dpu_custom_for_rank. apply knows_on_ci. intros s Hs. destruct (custom_operation (hw s) c None) as [w []]; exact Hs. Qed.
Lemma knows_some_enabled f : keeps (knows f) (check_some_enabled desc).
Proof. unfold check_some_enabled. quiet. Qed.

Lemma triple_keeps {A} I (m : cmd (rank_state W) A) : keeps I m -> triple I m (fun _ => I).
Proof. intros Hm s Hs. specialize (Hm s Hs). by destruct (m s) as [s' [a | e |]]. Qed.

(** [keeps] of the first, then the rest. *)
Lemma triple_quiet {A B} f (m : cmd (rank_state W) A) (k : A -> cmd (rank_state W) B) Q :
  keeps (knows f) m -> (forall a, triple (knows f) (k a) Q) -> triple (knows f) (m ≫= k) Q.
Proof. intros Hm Hk. apply (triple_seq _ _ _ (fun _ => knows f)); [by apply triple_keeps | done]. Qed.

Lemma knows_ext f g s : (forall i, (i < nr_cis desc)%nat -> f i = g i) -> knows f s -> knows g s.
Proof. intros E [Hs Hd]. split; [| done]. intros i Hi. rewrite <- E by done. by apply Hs. Qed.

(** One interface changes. *)
Definition change (c : nat) (g : bool * Z -> bool * Z) (f : nat -> bool * Z) : nat -> bool * Z := fun i => if (i =? c)%nat then g (f i) else f i.

Lemma triple_set_slice f c (g : slice_info -> slice_info) (g' : bool * Z -> bool * Z) :
  (forall sl, enabled_part (g sl) = g' (enabled_part sl)) -> triple (knows f) (on_ci (set_slice c g)) (fun _ => knows (change c g' f)).
Proof.
  intros Hg s [Hs Hd]. unfold on_ci, on_rank, lift. pose proof (set_slice_spec c g (interface (base s))) as E.
  destruct (set_slice c g (interface (base s))) as [x [[] | |]]; [| done | done]. destruct E as (sl & _ & ->). split; [| done].
  intros i Hi. cbn [base interface with_base with_interface slices with_slices]. unfold change. rewrite list_lookup_alter. specialize (Hs i Hi).
  destruct (Nat.eqb_spec i c) as [-> | Hne].
  - rewrite decide_True by done. destruct (slices _ !! c) as [x |]; [| done]. cbn in Hs |- *. injection Hs as <-. by rewrite Hg.
  - by rewrite decide_False.
Qed.

(** Reading an interface gives what is known of it. *)
Lemma triple_get_slice {A} f c (k : slice_info -> cmd (rank_state W) A) Q : (c < nr_cis desc)%nat ->
  (forall sl, enabled_part sl = f c -> triple (knows f) (k sl) Q) -> triple (knows f) (on_ci (get_slice c) ≫= k) Q.
Proof.
  intros Hc Hk s Hs. pose proof Hs as [Hs' _]. specialize (Hs' c Hc). unfold on_ci, on_rank, lift, get_slice, read, mbind, cmd_bind, defined.
  destruct (slices (interface (base s)) !! c) as [sl |] eqn:E; [| done]. cbn in Hs'. injection Hs' as Hs'. cbn.
  specialize (Hk sl Hs' s Hs). unfold with_base, with_interface. by destruct s as [[] ? ? ?].
Qed.

(** ** Saving *)

Definition saved_part (update_save : bool) (saved p : bool * Z) : bool * Z := if update_save then (saved.1 && p.1, Z.land saved.2 p.2) else p.
Definition reenabled (p : bool * Z) : bool * Z := if p.2 =? 0 then p else (true, all_dpus_mask desc).

Lemma save_slice_spec f upd saved c : (c < nr_cis desc)%nat ->
  triple (knows f) (save_slice desc upd saved c) (fun r s => r = saved_part upd saved (f c) /\ knows (change c reenabled f) s).
Proof.
  intros Hc. unfold save_slice. apply triple_get_slice; [done |]. intros sl Hsl. cbv zeta.
  assert (E : (if upd then (saved.1 && all_dpus_are_enabled sl, Z.land saved.2 (enabled_dpus sl)) else (all_dpus_are_enabled sl, enabled_dpus sl))
              = saved_part upd saved (f c)) by (rewrite <- Hsl; by destruct upd). rewrite E. clear E.
  assert (Ep : enabled_dpus sl = (f c).2) by (by rewrite <- Hsl). rewrite Ep. destruct ((f c).2 =? 0) eqn:Ez.
  - apply triple_mret. intros s Hs. split; [done |]. apply (knows_ext f); [| done]. intros i _. unfold change, reenabled.
    destruct (Nat.eqb_spec i c) as [-> |]; [by rewrite Ez | done].
  - apply (triple_seq _ _ _ (fun _ => knows (change c (fun _ => (true, all_dpus_mask desc)) f))); [by apply triple_set_slice | intros _].
    apply triple_quiet; [apply keeps_for_each; intros d; apply knows_set_enabled | intros _]. apply triple_mret. intros s Hs. split; [done |].
    eapply knows_ext; [| exact Hs]. intros i _. unfold change, reenabled. destruct (Nat.eqb_spec i c) as [-> |]; [by rewrite Ez | done].
Qed.

Lemma save_slices_spec upd g n c f : (c + n <= nr_cis desc)%nat ->
  triple (knows f) (save_slices desc upd (map g (seq c n)) c)
    (fun r s => r = map (fun i => saved_part upd (g i) (f i)) (seq c n)
                /\ knows (fun i => if (c <=? i)%nat && (i <? c + n)%nat then reenabled (f i) else f i) s).
Proof.
  revert c f. induction n as [| n IH]; intros c f Hn; cbn [seq map save_slices].
  - apply triple_mret. intros s Hs. split; [done |]. eapply knows_ext; [| exact Hs]. intros i _.
    destruct (Nat.leb_spec c i), (Nat.ltb_spec i (c + 0)); cbn; done || lia.
  - apply (triple_seq _ _ _ (fun r s => r = saved_part upd (g c) (f c) /\ knows (change c reenabled f) s)); [apply save_slice_spec; lia |].
    intros r. apply (triple_seq _ _ _ (fun l s => r = saved_part upd (g c) (f c)
      /\ l = map (fun i => saved_part upd (g i) (f i)) (seq (S c) n)
      /\ knows (fun i => if (S c <=? i)%nat && (i <? S c + n)%nat then reenabled (f i) else change c reenabled f i) s)).
    + intros s [Hr Hs]. specialize (IH (S c) (change c reenabled f) ltac:(lia) s Hs).
      destruct (save_slices desc upd (map g (seq (S c) n)) (S c) s) as [s' [l | |]]; [| done | done]. destruct IH as [-> IH].
      split; [done |]. split.
      * apply map_ext_in. intros i Hi. apply in_seq in Hi. unfold change. by rewrite (proj2 (Nat.eqb_neq i c)) by lia.
      * eapply knows_ext; [| exact IH]. intros i _. unfold change. destruct (Nat.leb_spec (S c) i); cbn [andb]; [| done].
        by rewrite (proj2 (Nat.eqb_neq i c)) by lia.
    + intros l. apply triple_mret. intros s (-> & -> & Hs). split; [done |]. eapply knows_ext; [| exact Hs]. intros i _. unfold change. cbv beta.
      destruct (Nat.eqb_spec i c) as [-> | Hne].
      * rewrite (proj2 (Nat.leb_gt (S c) c)), (proj2 (Nat.leb_le c c)), (proj2 (Nat.ltb_lt c (c + S n))) by lia. done.
      * destruct (Nat.leb_spec (S c) i), (Nat.leb_spec c i), (Nat.ltb_spec i (S c + n)), (Nat.ltb_spec i (c + S n)); cbn; done || lia.
Qed.

Lemma save_enabled_spec upd g f :
  triple (knows f) (save_enabled_dpus desc (map g (all_cis desc)) upd)
    (fun r s => r = map (fun i => saved_part upd (g i) (f i)) (all_cis desc) /\ knows (fun i => reenabled (f i)) s).
Proof.
  eapply triple_mono; [apply (save_slices_spec upd g (nr_cis desc) 0 f); lia | done |]. cbn beta. intros r s [-> Hs]. split; [done |].
  eapply knows_ext; [| exact Hs]. intros i Hi. cbn beta. rewrite (proj2 (Nat.ltb_lt i (0 + nr_cis desc))) by lia. done.
Qed.

(** ** Repairing *)

(** Whether a memory of a DPU can be repaired. *)
Definition repairable (memory : dpu_repair -> option dpu_memory_repair_t) (c d : nat) : bool :=
  match d' ← defects !! DPU_INDEX (Z.of_nat (nr_dpus desc)) (Z.of_nat c) (Z.of_nat d); memory d' with
  | Some i => (extract_memory_repair_configuration i).1
  | None => false
  end.

Definition strike (ok : bool) (d : nat) (p : bool * Z) : bool * Z := if ok then p else (false, Z.ldiff p.2 (Z.shiftl 1 (Z.of_nat d))).

(** A memory, and a change of it that only notes a failure. *)
Record memory_of (memory : dpu_repair -> option dpu_memory_repair_t)
  (change : (dpu_memory_repair_t -> dpu_memory_repair_t) -> dpu_repair -> dpu_repair) : Prop := {
  memory_cleared : forall d, memory (clear_failures d) = clear_failure <$> memory d;
  change_cleared : forall d, clear_failures (change failed_repair d) = clear_failures d }.

Lemma iram_memory : memory_of iram repair_iram.
Proof using Type. by split. Qed.

Lemma wram_memory b : memory_of (wram b) (repair_wram b).
Proof using Type.
  split.
  - intros d. unfold wram. cbn. apply list_lookup_fmap.
  - intros d. unfold clear_failures. cbn. f_equal. apply list_eq. intros i. rewrite !list_lookup_fmap, list_lookup_alter.
    destruct (decide (b = i)) as [<- |]; [| done]. by destruct (wram_repair d !! b).
Qed.

Lemma repairable_known memory change s f c d : memory_of memory change -> knows f s ->
  (d' ← dpu_repairs s !! DPU_INDEX (Z.of_nat (nr_dpus desc)) (Z.of_nat c) (Z.of_nat d); memory d') = None
  \/ exists i, (d' ← dpu_repairs s !! DPU_INDEX (Z.of_nat (nr_dpus desc)) (Z.of_nat c) (Z.of_nat d); memory d') = Some i
       /\ (extract_memory_repair_configuration i).1 = repairable memory c d.
Proof using Type.
  intros [M1 _] [_ Hd]. unfold repairable. set (k := DPU_INDEX _ _ _). apply (f_equal (fun l => l !! k)) in Hd. rewrite !list_lookup_fmap in Hd.
  unfold mbind, option_bind. destruct (dpu_repairs s !! k) as [a |], (defects !! k) as [b |]; try done; [| by left]. apply (f_equal (fmap memory)) in Hd.
  cbn [fmap option_fmap option_map] in Hd. rewrite !M1 in Hd. apply Some_inj in Hd as Hm.
  destruct (memory a) as [ia |], (memory b) as [ib |]; try done; [| by left]. right. exists ia. split; [done |]. apply Some_inj in Hm.
  change (extract_memory_repair_configuration ia) with (extract_memory_repair_configuration (clear_failure ia)).
  change (extract_memory_repair_configuration ib) with (extract_memory_repair_configuration (clear_failure ib)). by rewrite Hm.
Qed.

Lemma knows_failed memory change f k : memory_of memory change ->
  keeps (knows f) (update (fun s => with_repairs (alter (change failed_repair) k (dpu_repairs s)) s)).
Proof using Type.
  intros [_ M2]. apply keeps_update. intros s [Hs Hd]. split; [done |]. cbn [dpu_repairs with_repairs]. rewrite <- Hd.
  apply list_eq. intros i. rewrite !list_lookup_fmap, list_lookup_alter. destruct (decide (k = i)) as [<- |]; [| done].
  destruct (dpu_repairs s !! k) as [x |]; [| done]. cbn. by rewrite M2.
Qed.

Lemma extract_configs_from memory chg d : memory_of memory chg -> forall n c f configs, (c + n <= nr_cis desc)%nat ->
  triple (knows f) (accumulate (seq c n) (fun configs each_ci =>
      let dpu := DPU_INDEX (Z.of_nat (nr_dpus desc)) (Z.of_nat each_ci) (Z.of_nat d) in
      repairs ← read dpu_repairs;
      repair_info ← defined (d ← repairs !! dpu; memory d);
      let '(ok, config) := extract_memory_repair_configuration repair_info in
      _ ← (if ok : bool then mret tt
           else
             _ ← update (fun s => with_repairs (alter (chg failed_repair) dpu (dpu_repairs s)) s);
             _ ← set_dpu_enabled each_ci d false;
             on_ci (set_slice each_ci (disable_one d)));
      mret (configs ++ [config])) configs)
    (fun _ => knows (fun i => if (c <=? i)%nat && (i <? c + n)%nat then strike (repairable memory i d) d (f i) else f i)).
Proof using Type.
  intros Hm n. induction n as [| n IH]; intros c f configs Hn; cbn [seq accumulate].
  { apply triple_mret. intros s Hs. eapply knows_ext; [| exact Hs]. intros i _. cbv beta.
    destruct (Nat.leb_spec c i), (Nat.ltb_spec i (c + 0)); cbn; done || lia. }
  apply (triple_seq _ _ _ (fun _ => knows (change c (strike (repairable memory c d) d) f))).
  - cbv zeta. intros s Hs. destruct (repairable_known memory chg s f c d Hm Hs) as [E | (i & E & Eok)]; unfold mbind at 1, cmd_bind at 1, read at 1.
    { unfold mbind at 1, cmd_bind at 1. rewrite E. done. }
    unfold mbind at 1, cmd_bind at 1. rewrite E. cbn [defined]. unfold mret at 1, cmd_ret at 1.
    destruct (extract_memory_repair_configuration i) as [ok config]. cbn [fst] in Eok. rewrite <- Eok.
    assert (Ht : triple (knows f) (_ ← (if ok then mret tt
        else _ ← update (fun s => with_repairs (alter (chg failed_repair) (DPU_INDEX (Z.of_nat (nr_dpus desc)) (Z.of_nat c) (Z.of_nat d)) (dpu_repairs s)) s);
             _ ← set_dpu_enabled c d false; on_ci (set_slice c (disable_one d))); mret (configs ++ [config]))
      (fun _ => knows (change c (strike ok d) f))).
    { destruct ok.
      - apply triple_quiet; [apply keeps_ret | intros _]. apply triple_mret. intros s' Hs'. eapply knows_ext; [| exact Hs']. intros j _.
        unfold change, strike. by destruct (j =? c)%nat.
      - apply (triple_seq _ _ _ (fun _ => knows (change c (strike false d) f))); [| intros _; by apply triple_mret].
        apply triple_quiet; [by apply (knows_failed memory) | intros _]. apply triple_quiet; [apply knows_set_enabled | intros _].
        by apply triple_set_slice. }
    exact (Ht s Hs).
  - intros configs'. eapply triple_mono; [apply IH; lia | done |]. intros ? s Hs. eapply knows_ext; [| exact Hs]. intros i _. cbv beta. unfold change.
    destruct (Nat.eqb_spec i c) as [-> | Hne].
    + rewrite (proj2 (Nat.leb_gt (S c) c)), (proj2 (Nat.leb_le c c)), (proj2 (Nat.ltb_lt c (c + S n))) by lia. done.
    + destruct (Nat.leb_spec (S c) i), (Nat.leb_spec c i), (Nat.ltb_spec i (S c + n)), (Nat.ltb_spec i (c + S n)); cbn; done || lia.
Qed.

Lemma extract_configs_spec memory chg d f : memory_of memory chg ->
  triple (knows f) (extract_configs desc memory chg d) (fun _ => knows (fun i => strike (repairable memory i d) d (f i))).
Proof using Type.
  intros Hm. eapply triple_mono; [apply (extract_configs_from memory chg d Hm (nr_cis desc) 0 f []); lia | done |].
  intros ? s Hs. eapply knows_ext; [| exact Hs]. intros i Hi. cbv beta. rewrite (proj2 (Nat.ltb_lt i (0 + nr_cis desc))) by lia. done.
Qed.

(** One memory of a DPU after the other. *)
Definition struck (oks : list (nat * bool)) (p : bool * Z) : bool * Z := fold_left (fun p x => strike x.2 x.1 p) oks p.

Lemma struck_each (ok : nat -> bool) (step : bool * Z -> nat -> bool * Z) l p : (forall p d, step p d = strike (ok d) d p) ->
  fold_left step l p = struck (map (fun d => (d, ok d)) l) p.
Proof using Type. intros E. revert p. induction l as [| d l IH]; intros p; [done |]. cbn [map fold_left struck]. by rewrite E, IH. Qed.

(** A loop whose turns change what is known. *)
Lemma triple_for_each_changes {A} (l : list A) (m : A -> cmd (rank_state W) ()) (g : A -> nat -> bool * Z -> bool * Z) f :
  (forall a f, triple (knows f) (m a) (fun _ => knows (fun i => g a i (f i)))) ->
  triple (knows f) (for_each l m) (fun _ => knows (fun i => fold_left (fun p a => g a i p) l (f i))).
Proof using Type.
  intros Hm. revert f. induction l as [| a l IH]; intros f; cbn [for_each fold_left]; [by apply triple_mret |].
  apply (triple_seq _ _ _ (fun _ => knows (fun i => g a i (f i)))); [apply Hm | intros _]. apply (IH (fun i => g a i (f i))).
Qed.

Lemma repair_iram_spec f :
  triple (knows f) (try_to_repair_iram desc)
    (fun _ => knows (fun i => struck (map (fun d => (d, repairable iram i d)) (seq 0 (nr_dpus desc))) (f i))).
Proof using Type.
  unfold try_to_repair_iram. eapply triple_seq.
  - apply (triple_for_each_changes _ _ (fun d i => strike (repairable iram i d) d)). intros d f'.
    eapply triple_seq; [apply extract_configs_spec, iram_memory |]. intros configs.
    apply triple_quiet; [apply knows_on_ci, same_select_dpu | intros mask]. apply triple_keeps, knows_on_ci, same_iram_repair.
  - intros ?. eapply triple_mono; [apply triple_keeps, knows_some_enabled | exact (fun s Hs => Hs) |]. intros ? s Hs.
    eapply knows_ext; [| exact Hs]. intros i _. by apply struck_each.
Qed.

Definition wram_repairable (i d : nat) : bool := forallb (fun b => repairable (wram b) i d) (seq 0 NR_OF_WRAM_BANKS).

Lemma strike_twice a b d p : strike a d (strike b d p) = strike (b && a) d p.
Proof using Type. destruct a, b; cbn; try done. by rewrite Z.ldiff_ldiff_l, Z.lor_diag. Qed.

Lemma repair_wram_spec f :
  triple (knows f) (try_to_repair_wram desc)
    (fun _ => knows (fun i => struck (map (fun d => (d, wram_repairable i d)) (seq 0 (nr_dpus desc))) (f i))).
Proof using Type.
  unfold try_to_repair_wram. eapply triple_seq.
  - apply (triple_for_each_changes _ _ (fun d i p => fold_left (fun p b => strike (repairable (wram b) i d) d p) (seq 0 NR_OF_WRAM_BANKS) p)). intros d f'.
    apply (triple_for_each_changes _ _ (fun b i p => strike (repairable (wram b) i d) d p)). intros b f''.
    eapply triple_seq; [apply extract_configs_spec, wram_memory |]. intros configs.
    apply triple_quiet; [apply knows_on_ci, same_select_dpu | intros mask]. apply triple_keeps, knows_on_ci, same_wram_repair.
  - intros ?. eapply triple_mono; [apply triple_keeps, knows_some_enabled | exact (fun s Hs => Hs) |]. intros ? s Hs.
    eapply knows_ext; [| exact Hs]. intros i _. apply struck_each. intros p d.
    unfold wram_repairable, NR_OF_WRAM_BANKS. cbn [seq fold_left forallb]. by rewrite !strike_twice, andb_true_r, !andb_assoc.
Qed.

(** The repair of the reset, which may be left out. *)
Definition asked (wanted : bool) (ok : bool) : bool := negb wanted || ok.

Lemma struck_all_ok (ok : nat -> bool) l p : (forall d, ok d = true) -> struck (map (fun d => (d, ok d)) l) p = p.
Proof using Type. intros E. unfold struck. induction l as [| d l IH]; cbn [map fold_left]; [done |]. by rewrite E. Qed.

Definition iram_ok (i d : nat) : bool := asked (do_iram_repair settings) (repairable iram i d).
Definition wram_ok (i d : nat) : bool := asked (do_wram_repair settings) (wram_repairable i d).
Definition after (ok : nat -> nat -> bool) (i : nat) (p : bool * Z) : bool * Z := struck (map (fun d => (d, ok i d)) (seq 0 (nr_dpus desc))) p.

Lemma iram_config_spec f : triple (knows f) (dpu_iram_repair_config desc settings) (fun _ => knows (fun i => after iram_ok i (f i))).
Proof using Type.
  unfold dpu_iram_repair_config, after, iram_ok. destruct (do_iram_repair settings); cbn [asked negb orb].
  - apply repair_iram_spec.
  - apply triple_quiet; [apply knows_on_ci, same_select_all | intros mask]. eapply triple_mono; [apply triple_keeps, knows_on_ci, same_iram_repair | exact (fun s Hs => Hs) |].
    intros ? s Hs. eapply knows_ext; [| exact Hs]. intros i _. symmetry. by apply (struck_all_ok (fun _ => true)).
Qed.

Lemma wram_config_spec f : triple (knows f) (dpu_wram_repair_config desc settings) (fun _ => knows (fun i => after wram_ok i (f i))).
Proof using Type.
  unfold dpu_wram_repair_config, after, wram_ok. destruct (do_wram_repair settings); cbn [asked negb orb].
  - apply repair_wram_spec.
  - apply triple_quiet; [apply knows_on_ci, same_select_all | intros mask].
    eapply triple_mono; [apply triple_keeps, keeps_for_each; intros b; apply knows_on_ci, same_wram_repair | exact (fun s Hs => Hs) |].
    intros ? s Hs. eapply knows_ext; [| exact Hs]. intros i _. symmetry. by apply (struck_all_ok (fun _ => true)).
Qed.

Lemma testbit_one d e : Z.testbit (Z.shiftl 1 (Z.of_nat d)) (Z.of_nat e) = (e =? d)%nat.
Proof using Type.
  rewrite Z.shiftl_1_l, Z.pow2_bits_eqb by lia. destruct (Nat.eqb_spec e d), (Z.eqb_spec (Z.of_nat d) (Z.of_nat e)); done || lia.
Qed.

(** The DPUs that are left. *)
Lemma struck_spec (ok : nat -> bool) l p : List.NoDup l ->
  (struck (map (fun d => (d, ok d)) l) p).1 = p.1 && forallb ok l
  /\ forall d, Z.testbit (struck (map (fun d => (d, ok d)) l) p).2 (Z.of_nat d) = Z.testbit p.2 (Z.of_nat d) && forallb (fun d' => negb (d' =? d)%nat || ok d') l.
Proof using Type.
  unfold struck. revert p. induction l as [| d l IH]; intros p Hl; cbn [map fold_left forallb fst snd].
  { split; [by rewrite andb_true_r |]. intros d. by rewrite andb_true_r. }
  inversion Hl as [| ? ? Hd Hl']; subst. destruct (IH (strike (ok d) d p) Hl') as [IH1 IH2]. split.
  - rewrite IH1. unfold strike. destruct (ok d); [done |]. cbn. by rewrite andb_false_r.
  - intros e. rewrite IH2. unfold strike. destruct (ok d); [by rewrite orb_true_r |]. cbn [snd]. rewrite orb_false_r, andb_assoc. f_equal.
    rewrite Z.ldiff_spec, testbit_one. by rewrite Nat.eqb_sym.
Qed.

Lemma after_spec ok i p :
  (after ok i p).1 = p.1 && forallb (ok i) (seq 0 (nr_dpus desc))
  /\ forall d, (d < nr_dpus desc)%nat -> Z.testbit (after ok i p).2 (Z.of_nat d) = Z.testbit p.2 (Z.of_nat d) && ok i d.
Proof using Type.
  destruct (struck_spec (ok i) (seq 0 (nr_dpus desc)) p (seq_NoDup _ _)) as [E1 E2]. split; [done |]. intros d Hd. unfold after. rewrite E2. f_equal.
  destruct (ok i d) eqn:Eok.
  - apply forallb_forall. intros e _. destruct (Nat.eqb_spec e d) as [-> |]; [by rewrite Eok | done].
  - apply not_true_iff_false. rewrite forallb_forall. intros E. specialize (E d ltac:(apply in_seq; lia)). by rewrite Nat.eqb_refl, Eok in E.
Qed.

(** ** Restoring *)

Definition row_is (i : nat) (g : nat -> bool) (n : nat) s : Prop :=
  forall d, (d < n)%nat -> (row ← dpu_enabled (base s) !! i; row !! d) = Some (g d).

(** The first [k] interfaces and their DPUs are as they were saved. *)
Definition restored (k : nat) (saved : nat -> bool * Z) s : Prop :=
  nr_dpus_enabled s = u32 (foldr Z.add 0 (map (fun i => popcount (saved i).2) (seq 0 k)))
  /\ forall i, (i < k)%nat -> enabled_part <$> slices (interface (base s)) !! i = Some (saved i)
       /\ row_is i (fun d => Z.testbit (saved i).2 (Z.of_nat d)) (nr_dpus desc) s.

(** All but the first [n] DPUs of the interface [k]. *)
Definition restoring (k n : nat) (saved : nat -> bool * Z) s : Prop :=
  nr_dpus_enabled s = u32 (foldr Z.add 0 (map (fun i => popcount (saved i).2) (seq 0 (S k))))
  /\ (forall i, (i <= k)%nat -> enabled_part <$> slices (interface (base s)) !! i = Some (saved i)
       /\ row_is i (fun d => Z.testbit (saved i).2 (Z.of_nat d)) (if (i =? k)%nat then n else nr_dpus desc) s).

Lemma row_is_set (i k n m : nat) (g : nat -> bool) b s s' x : (i = k -> (m <= S n)%nat /\ b = g n /\ row_is i g (Nat.min n m) s) -> (i <> k -> row_is i g m s) ->
  (row ← dpu_enabled (base s) !! k; row !! n) = Some x ->
  dpu_enabled (base s') = alter (fun row => <[n := b]> row) k (dpu_enabled (base s)) -> row_is i g m s'.
Proof using Type.
  intros Hk Hne Hx E d Hd. rewrite E, list_lookup_alter. destruct (decide (k = i)) as [<- | Hki]; [| apply Hne; [congruence | done]].
  destruct (Hk eq_refl) as (Hm & -> & Hr). unfold mbind, option_bind in *. destruct (dpu_enabled (base s) !! k) as [row |] eqn:Erow; [| done].
  cbn [fmap option_fmap option_map]. destruct (decide (d = n)) as [-> | Hdn].
  - apply list_lookup_insert_eq. by apply lookup_lt_Some in Hx.
  - rewrite list_lookup_insert_ne by done. specialize (Hr d ltac:(lia)). unfold mbind, option_bind in Hr. by rewrite Erow in Hr.
Qed.

Lemma set_enabled_spec k n b s :
  match set_dpu_enabled k n b s with
  | (s', Return _) => (exists x, (row ← dpu_enabled (base s) !! k; row !! n) = Some x)
      /\ s' = with_base (with_dpu_enabled (alter (fun row => <[n := b]> row) k (dpu_enabled (base s))) (base s)) s
  | _ => True
  end.
Proof using Type.
  unfold set_dpu_enabled, get_dpu_enabled, on_rank, read, update, mbind, cmd_bind, defined.
  assert (Es : with_base (base s) s = s) by (by destruct s). rewrite Es.
  destruct (option_bind _ _ _ _) as [x |] eqn:Ex; [| done]. split; [by exists x | done].
Qed.

Lemma restore_dpu_spec k n saved : (n < nr_dpus desc)%nat ->
  triple (restoring k n saved) (set_dpu_enabled k n (Z.testbit (saved k).2 (Z.of_nat n))) (fun _ => restoring k (S n) saved).
Proof using Type.
  intros Hn s [Hnr Hs]. pose proof (set_enabled_spec k n (Z.testbit (saved k).2 (Z.of_nat n)) s) as E.
  destruct (set_dpu_enabled k n _ s) as [s' [[] | |]]; [| done | done]. destruct E as [[x Ex] ->]. split; [done |].
  intros i Hi. destruct (Hs i Hi) as [Hp Hr]. split; [done |]. eapply (row_is_set i k n); [| | exact Ex | done].
  - intros ->. rewrite Nat.eqb_refl in *. split_and!; [lia | done |]. by rewrite Nat.min_l by lia.
  - intros Hne. by rewrite (proj2 (Nat.eqb_neq i k) Hne) in *.
Qed.

Lemma restore_slice_spec k saved : triple (restored k saved) (restore_slice desc (k, saved k)) (fun _ => restored (S k) saved).
Proof using Type.
  unfold restore_slice. destruct (saved k) as [all_enabled enabled] eqn:Ek.
  apply (triple_seq _ _ _ (fun _ s => nr_dpus_enabled s = u32 (foldr Z.add 0 (map (fun i => popcount (saved i).2) (seq 0 k)))
    /\ forall i, (i <= k)%nat -> enabled_part <$> slices (interface (base s)) !! i = Some (saved i)
       /\ row_is i (fun d => Z.testbit (saved i).2 (Z.of_nat d)) (if (i =? k)%nat then 0 else nr_dpus desc) s)).
  { intros s [Hnr Hs]. unfold on_ci, on_rank, lift. pose proof (set_slice_spec k (with_enabled enabled all_enabled) (interface (base s))) as E.
    destruct (set_slice k _ _) as [c [[] | |]]; [| done | done]. destruct E as (sl & Esl & ->). split; [done |]. intros i Hi.
    cbn [base interface with_base with_interface slices with_slices]. rewrite list_lookup_alter. destruct (Nat.eqb_spec i k) as [-> | Hne].
    - split; [| intros d Hd; lia]. by rewrite decide_True, Esl, Ek by done.
    - rewrite decide_False by done. by apply Hs; lia. }
  intros _. apply (triple_seq _ _ _ (fun _ => restoring k 0 saved)).
  { intros s [Hnr Hs]. cbn [update]. split; [| exact Hs]. cbn [nr_dpus_enabled with_nr_enabled]. rewrite Hnr, seq_S, map_app, foldr_app. cbn [map foldr Nat.add].
    rewrite Ek, Z.add_0_r. cbn [snd]. unfold u32, wrap. rewrite Zplus_mod_idemp_l. f_equal.
    clear Hnr. induction (map _ (seq 0 k)) as [| x l IH]; cbn [foldr]; [lia |]. rewrite <- IH. lia. }
  intros _. eapply triple_mono; [apply (triple_for_each_seq (fun n => restoring k n saved)) | exact (fun s Hs => Hs) |].
  - intros n Hn. assert (E : negb (Z.land enabled (Z.shiftl 1 (Z.of_nat n)) =? 0) = Z.testbit (saved k).2 (Z.of_nat n)).
    { rewrite Ek, Z.shiftl_1_l, land_pow2_eqb by lia. apply negb_involutive. }
    rewrite E. apply restore_dpu_spec. lia.
  - intros ? s [Hnr Hs]. split; [done |]. intros i Hi. destruct (Hs i ltac:(lia)) as [Hp Hr]. split; [done |]. by destruct (i =? k)%nat.
Qed.

Lemma init_groups_spec f saved : triple (knows f) (dpu_init_groups desc (map saved (all_cis desc))) (fun _ => restored (nr_cis desc) saved).
Proof using Type.
  unfold dpu_init_groups. apply triple_quiet; [apply knows_write_groups | intros mask]. apply triple_quiet; [quiet | intros _].
  apply (triple_seq _ _ _ (fun _ => restored 0 saved)).
  { intros s Hs. split; [done | intros i Hi; lia]. }
  intros _. rewrite zip_self, for_each_map. apply (triple_for_each_seq (fun n => restored n saved)). intros k Hk. apply restore_slice_spec.
Qed.

Lemma custom_restored k saved c : triple (restored k saved) (dpu_custom_for_rank c) (fun _ => restored k saved).
Proof using Type.
  intros s Hs. unfold dpu_custom_for_rank, on_ci, on_rank, lift. destruct (custom_operation _ c None) as [w []]; [exact Hs | done].
Qed.

(** * The reset *)

(** What is saved in the end. *)
Definition survivors (i : nat) (p : bool * Z) : bool * Z :=
  let p1 := after iram_ok i (reenabled p) in
  let p2 := after wram_ok i (reenabled p1) in
  saved_part true (saved_part true (saved_part false (false, 0) p) p1) p2.

Lemma rank_reset_spec f :
  triple (knows f) (ci_reset_rank desc conf settings junk refresh_fuel poll_fuel) (fun _ => restored (nr_cis desc) (fun i => survivors i (f i))).
Proof using Type.
  unfold ci_reset_rank. apply triple_quiet; [quiet | intros configs]. cbv zeta.
  assert (E : replicate (nr_cis desc) (false, 0) = map (fun _ => (false, 0)) (all_cis desc)).
  { unfold all_cis. generalize 0%nat. induction (nr_cis desc) as [| n IH]; intros k; [done |]. cbn. by rewrite (IH (S k)). }
  rewrite E. clear E.
  eapply triple_seq; [apply save_enabled_spec |]. intros saved. apply triple_pure. intros ->.
  apply triple_quiet; [apply knows_byte_order | intros _]. apply triple_quiet; [apply knows_soft_reset | intros _].
  apply triple_quiet; [apply knows_bit_config | intros _]. apply triple_quiet; [apply knows_shuffling | intros _].
  apply triple_quiet; [apply knows_soft_reset | intros _]. apply triple_quiet; [apply knows_shuffling | intros _].
  apply triple_quiet; [apply knows_identity | intros _]. apply triple_quiet; [apply knows_thermal | intros _].
  apply triple_quiet; [apply knows_carousel | intros _].
 eapply triple_seq; [apply iram_config_spec | intros ?].
  eapply triple_seq; [apply save_enabled_spec |]. intros saved. apply triple_pure. intros ->.
  eapply triple_seq; [apply wram_config_spec | intros ?].
  eapply triple_seq; [apply save_enabled_spec |]. intros saved. apply triple_pure. intros ->.
  apply triple_quiet; [apply knows_on_ci, same_dma_config | intros ?]. apply triple_quiet; [apply keeps_read | intros pcb].
  apply triple_quiet; [apply knows_on_ci, same_dma_shuffling | intros ?]. apply triple_quiet; [apply knows_on_ci, same_wavegen | intros ?].
  apply triple_quiet; [apply knows_clear_debug | intros ?]. apply triple_quiet; [apply knows_clear_run_bits | intros ?].
  apply triple_quiet; [apply knows_set_pc_mode | intros ?]. apply triple_quiet; [apply knows_stack | intros ?].
  apply triple_quiet; [apply knows_reset_state | intros ?]. apply triple_quiet; [apply knows_switch | intros ?].
  eapply triple_seq; [eapply triple_mono; [apply init_groups_spec | exact (fun s Hs => Hs) | exact (fun _ s Hs => Hs)] | intros ?].
  apply custom_restored.
Qed.

Lemma reenabled_spec p : (nr_dpus desc <= 8)%nat ->
  p.1 && (reenabled p).1 = p.1
  /\ forall d, (d < nr_dpus desc)%nat -> Z.testbit p.2 (Z.of_nat d) && Z.testbit (reenabled p).2 (Z.of_nat d) = Z.testbit p.2 (Z.of_nat d).
Proof using Type.
  intros Hn. unfold reenabled. destruct (p.2 =? 0).
  - split; [apply andb_diag | intros d _; apply andb_diag].
  - split; [apply andb_true_r |]. intros d Hd. cbn [snd]. by rewrite (testbit_all_dpus desc d Hn Hd), andb_true_r.
Qed.

Lemma survivors_spec i p : (nr_dpus desc <= 8)%nat ->
  (survivors i p).1 = p.1 && forallb (fun d => iram_ok i d && wram_ok i d) (seq 0 (nr_dpus desc))
  /\ forall d, (d < nr_dpus desc)%nat -> Z.testbit (survivors i p).2 (Z.of_nat d) = Z.testbit p.2 (Z.of_nat d) && iram_ok i d && wram_ok i d.
Proof using Type.
  intros Hn. unfold survivors. cbv zeta. set (p1 := after iram_ok i (reenabled p)). set (p2 := after wram_ok i (reenabled p1)).
  destruct (after_spec iram_ok i (reenabled p)) as [A1 B1]. destruct (after_spec wram_ok i (reenabled p1)) as [A2 B2].
  fold p1 in A1, B1. fold p2 in A2, B2. cbn [saved_part fst snd]. split.
  - destruct (reenabled_spec p Hn) as [E _]. destruct (reenabled_spec p1 Hn) as [E1 _].
    rewrite A2, andb_assoc, <- (andb_assoc p.1), E1, A1, !andb_assoc, E, <- andb_assoc. f_equal. symmetry. apply forallb_andb.
  - intros d Hd. destruct (reenabled_spec p Hn) as [_ E]. destruct (reenabled_spec p1 Hn) as [_ E1].
    by rewrite !Z.land_spec, B2, andb_assoc, <- (andb_assoc (Z.testbit p.2 _)), E1, B1, andb_assoc, E by done.
Qed.
End reset.

(** * The DPUs a reset leaves *)

Section theorems.
Context {W : Type} `{driver W, customiser W}.
Variable desc : hw_description.
Variable conf : configuration.
Variable settings : settings.
Variable junk : list Z.
Variables refresh_fuel poll_fuel : nat.
Implicit Types s : rank_state W.

(** Whether the memories of a DPU could be repaired, as far as that was asked. *)
Definition kept s (c d : nat) : bool := iram_ok desc settings (dpu_repairs s) c d && wram_ok desc settings (dpu_repairs s) c d.

Definition ranks_slices s : list slice_info := slices (interface (base s)).

Lemma knows_itself s : (nr_cis desc <= length (ranks_slices s))%nat ->
  knows desc (dpu_repairs s) (fun i => default (false, 0) (enabled_part <$> ranks_slices s !! i)) s.
Proof using Type.
  intros Hn. split; [| done]. intros i Hi. destruct (lookup_lt_is_Some_2 (ranks_slices s) i ltac:(lia)) as [sl E].
  unfold ranks_slices in *. by rewrite E.
Qed.

Lemma restored_enabled k (saved : nat -> bool * Z) s : restored desc k saved s ->
  map enabled_dpus (take k (ranks_slices s)) = map (fun i => (saved i).2) (seq 0 k).
Proof using Type.
  intros [_ Hs]. apply list_eq. intros i. rewrite !list_lookup_fmap. destruct (decide (i < k)%nat) as [Hi | Hi].
  - rewrite lookup_take_lt by done. rewrite lookup_seq_lt by done. destruct (Hs i Hi) as [Hp _]. unfold ranks_slices.
    destruct (slices (interface (base s)) !! i) as [sl |]; [| done]. cbn in Hp |- *. injection Hp as <-. done.
  - rewrite lookup_take_ge by lia. rewrite lookup_seq_ge by lia. done.
Qed.

End theorems.

(** * An example *)

(** Chips that answer: a program that is read for is over, the mode read is that
    of 16 bits, a reset clears the colours. *)
Definition answer (packet : list Z) (i : nat) : Z :=
  let w := word_at packet i in
  if w =? CI_DPU_RUN_STATE_READ_FRAME then 0 else if w =? CI_PC_MODE_READ_FRAME then 4 else 0xff.

Definition is_reset (w : Z) : bool := existsb (fun k => w =? CI_SOFTWARE_RESET (Z.of_nat k) 0) (seq 0 16).

Definition answering : driver (Z * list Z) :=
  {| commit_commands w commands :=
       if is_reset (word_at commands 0) then ((0, commands), true) else @commit_commands _ obedient w commands;
     update_commands w :=
       (w, map (fun i => Z.lor (answer w.2 i) (Z.lor 0x000000ff00000000 (if CI_MASK_ON w.1 i then 0 else 0x00ff000000000000))) (seq 0 8), true) |}.

Definition agreeing : customiser (Z * list Z) := fun w _ _ => (w, true).

Definition example_hw (chip_id : Z) : hw_description :=
  {| nr_cis := 2; nr_dpus := 8; chip_id := chip_id; clock_division := 8; reset_wait_duration := 20 |}.

Definition example_settings : settings :=
  {| type_of_rank := HW; enable_cycle_accurate_behavior := false; do_iram_repair := true; do_wram_repair := true; ila_control_refresh := false;
     fck_frequency_in_mhz := 800; std_temperature := 50;
     carousel := {| cmd_duration := 2; cmd_sampling := 1; res_duration := 2; res_sampling := 1 |};
     nr_of_threads := 2; nr_of_notify_bits := 1; internal_reset_program := Some [1; 2] |}.

Definition example_slice (enabled : Z) (all : bool) : slice_info :=
  with_enabled enabled all
    {| byte_order := EXPECTED_BYTE_ORDER_RESULT_AFTER_CONFIGURATION; structure_value := 0; slice_target := DPU_SLICE_TARGET_NONE;
       host_mux_mram_state := 0; dpus_per_group := 0xff :: replicate 7 0; enabled_dpus := 0xff; all_dpus_are_enabled := true |}.

(** More addresses than can be replaced, in the instruction memory of the third
    DPU of the second interface. *)
Definition five_addresses : dpu_memory_repair_t :=
  {| corrupted_addresses := map (fun a => {| address := a; faulty_bits := 1 |}) [1; 2; 3; 4; 5]; nr_of_corrupted_addresses := 5; fail_to_repair := false |}.

Definition example_rank : rank_state (Z * list Z) :=
  {| base := {| interface := with_slices [example_slice 0xdf false; example_slice 0xff true] sample_rank;
                dpu_enabled := [[true; true; true; true; true; false; true; true]; replicate 8 true];
                dpu_running := [0; 0]; nb_dpu_running := 0; transfers := [] |};
     dpu_repairs := <[10%nat := {| iram_repair := five_addresses; wram_repair := replicate 4 no_repair |}]>
                      (replicate 16 {| iram_repair := no_repair; wram_repair := replicate 4 no_repair |});
     nr_dpus_enabled := 15;
     pcb_transformation := {| cpu2dpu := 0; dpu2cpu := 0; nibble_swap := 0; stutter := 0 |} |}.

Local Abbreviation example_reset chip_id :=
  (@ci_reset_rank _ answering agreeing (example_hw chip_id) not_switching example_settings (replicate 8 0) 1000 10 example_rank).


(** A reset that fails leaves all DPUs enabled: here the sixth of the first interface, which was not. *)
Lemma failed_reset_enables :
  (example_reset 0x33).2 = Failed (error_code DPU_ERR_INTERNAL)
  /\ map enabled_dpus (ranks_slices example_rank) = [0xdf; 0xff] /\ map enabled_dpus (ranks_slices (example_reset 0x33).1) = [0xff; 0xff].
Proof. split_and!; vm_compute; reflexivity. Qed.
