(* ===== verification/Checkpoint.v ===== *)
(** The context of a DPU as bytes (library/src/backends/api/src/dpu_debug.c):
    the context a debugger or a checkpoint fills, how it is written into a buffer
    and read back, the core dump that holds it.

    A memory that was not saved has no bytes: what is read back has the size 0 for
    it.  [memcpy] of nothing from a null pointer does nothing; reading or writing
    past a buffer is Undefined, as is a failed allocation's context, which is not
    returned.  What else the caller finds in a context after a failure is left out. *)
From stdpp Require Import list.
From S2P Require Import Prelude Errors Status.

(** * Contexts *)

Record dpu_context_t := {
  nr_threads : Z;
  nr_registers : Z;
  nr_atomic_bits : Z;
  iram_size : Z;
  mram_size : Z;
  wram_size : Z;
  iram : option (list Z);
  mram : option (list Z);
  wram : option (list Z);
  registers : list Z;
  pcs : list Z;
  atomic_register : list bool;
  zero_flags : list bool;
  carry_flags : list bool;
  nr_of_running_threads : Z;
  scheduling : list Z;
  bkp_fault : bool;
  dma_fault : bool;
  mem_fault : bool;
  bkp_fault_thread_index : Z;
  dma_fault_thread_index : Z;
  mem_fault_thread_index : Z;
  bkp_fault_id : Z }.

(** The sizes of the types of the elements, in bytes. *)
Definition SIZEOF_INSTRUCTION : Z := 8.
Definition SIZEOF_WORD : Z := 4.
Definition SIZEOF_IRAM_ADDR : Z := 2.

Definition SERIALIZED_CONTEXT_MAGIC : Z := 0xfabddbaf.
Definition SERIALIZED_CONTEXT_CHIP_VERSION : Z := 18.
Definition SERIALIZED_CONTEXT_VERSION : Z := 3.

(** The bytes of an array. *)
Definition bytes_of (width : nat) (l : list Z) : list Z := concat (map (le_bytes width) l).
Definition bytes_of_flags (l : list bool) : list Z := map (fun b : bool => if b then 1 else 0) l.

(** [calloc(count, width)], then the bytes copied into it. *)
Fixpoint words (width count : nat) (bytes : list Z) : list Z :=
  match count with
  | O => []
  | S count => le_val (take width bytes) :: words width count (drop width bytes)
  end.

Definition flags (count : nat) (bytes : list Z) : list bool := map (fun b => negb (b =? 0)) (words 1 count bytes).

(** * Writing *)

(** The size of a memory in bytes, none when it was not saved. *)
Definition saved_size (memory : option (list Z)) (width size : Z) : Z := if memory is None then 0 else u32 (width * size).

Definition registers_size (c : dpu_context_t) : Z := u32 (4 * nr_threads c * nr_registers c).
Definition pcs_size (c : dpu_context_t) : Z := u32 (SIZEOF_IRAM_ADDR * nr_threads c).

Definition dpu_checkpoint_get_serialized_context_size (c : dpu_context_t) : Z :=
  u32 (10 * 4 + saved_size (iram c) SIZEOF_INSTRUCTION (iram_size c) + saved_size (mram c) 1 (mram_size c) + saved_size (wram c) SIZEOF_WORD (wram_size c)
       + registers_size c + pcs_size c + u32 (nr_atomic_bits c) + u32 (nr_threads c) + u32 (nr_threads c) + 1 + u32 (nr_threads c)
       + 1 + 1 + 1 + 1 + 1 + 1 + 4).

(** [size] bytes of an array at the end of what is written. *)
Definition SERIALIZED_ELEM (capacity : Z) (elem : list Z * Z) : cmd (list Z) () := fun curr =>
  let '(elem, size) := elem in
  if (size <=? Z.of_nat (length elem)) && (Z.of_nat (length curr) + size <=? capacity) then (curr ++ take (Z.to_nat size) elem, Return tt)
  else (curr, Undefined).

Definition size_of_saved (memory : option (list Z)) (size : Z) : Z := if memory is None then 0 else size.

(** What is written, in order, with the sizes. *)
Definition serialized_elems (c : dpu_context_t) : list (list Z * Z) :=
  let nr_instructions := size_of_saved (iram c) (iram_size c) in
  let nr_wram_words := size_of_saved (wram c) (wram_size c) in
  let mram_size' := size_of_saved (mram c) (mram_size c) in
  [(le_bytes 4 SERIALIZED_CONTEXT_MAGIC, 4); (le_bytes 4 SERIALIZED_CONTEXT_CHIP_VERSION, 4); (le_bytes 4 SERIALIZED_CONTEXT_VERSION, 4);
   (le_bytes 4 SERIALIZED_CONTEXT_MAGIC, 4); (le_bytes 4 (nr_threads c), 4); (le_bytes 4 (nr_registers c), 4); (le_bytes 4 (nr_atomic_bits c), 4);
   (le_bytes 4 nr_instructions, 4); (le_bytes 4 mram_size', 4); (le_bytes 4 nr_wram_words, 4);
   (bytes_of 8 (default [] (iram c)), u32 (SIZEOF_INSTRUCTION * nr_instructions)); (bytes_of 1 (default [] (mram c)), mram_size');
   (bytes_of 4 (default [] (wram c)), u32 (SIZEOF_WORD * nr_wram_words)); (bytes_of 4 (registers c), registers_size c);
   (bytes_of 2 (pcs c), pcs_size c); (bytes_of_flags (atomic_register c), u32 (nr_atomic_bits c)); (bytes_of_flags (zero_flags c), u32 (nr_threads c));
   (bytes_of_flags (carry_flags c), u32 (nr_threads c)); (le_bytes 1 (nr_of_running_threads c), 1); (bytes_of 1 (scheduling c), u32 (nr_threads c));
   (bytes_of_flags [bkp_fault c], 1); (bytes_of_flags [dma_fault c], 1); (bytes_of_flags [mem_fault c], 1);
   (le_bytes 1 (bkp_fault_thread_index c), 1); (le_bytes 1 (dma_fault_thread_index c), 1); (le_bytes 1 (mem_fault_thread_index c), 1);
   (le_bytes 4 (bkp_fault_id c), 4)].

Section memory.
(** Whether so many bytes can be allocated. *)
Variable allocates : Z -> bool.

(** [buffer]: the size of the one that is given, if any. *)
Definition dpu_checkpoint_serialize (c : dpu_context_t) (buffer : option Z) : result (list Z * Z) :=
  let serialized_size := dpu_checkpoint_get_serialized_context_size c in
  let write := for_each (serialized_elems c) (SERIALIZED_ELEM serialized_size) [] in
  let written := match write.2 with Return _ => Return (write.1, serialized_size) | Failed e => Failed e | Undefined => Undefined end in
  match buffer with
  | None => if allocates serialized_size then written else Failed (error_code DPU_ERR_SYSTEM)
  | Some size => if negb (size =? serialized_size) then Failed (error_code DPU_ERR_INVALID_BUFFER_SIZE) else written
  end.

(** The core dump is a file given the bytes. *)
Definition dpu_create_core_dump (create : list Z -> Z -> Z) (c : dpu_context_t) : result () :=
  match dpu_checkpoint_serialize c None with
  | Return (bytes, size) => let status := create bytes size in if status =? error_code DPU_OK then Return tt else Failed status
  | Failed e => Failed e
  | Undefined => Undefined
  end.

(** * Reading *)

(** An empty context for a DPU of these sizes, in the structure [c]: the fields about
    the threads that run and the faults stay as they were. *)
Definition dpu_context_fill {S} (c : dpu_context_t) (nr_threads nr_work_registers nr_atomic_bits iram_size mram_size wram_size : Z) : cmd S dpu_context_t :=
  let nr_of_registers := u32 (nr_threads * nr_work_registers) in
  if forallb allocates [nr_of_registers * 4; nr_threads * SIZEOF_IRAM_ADDR; nr_atomic_bits; nr_threads; nr_threads; nr_threads] then
    mret {| nr_threads := nr_threads; nr_registers := nr_work_registers; nr_atomic_bits := nr_atomic_bits; iram_size := u16 iram_size;
            mram_size := mram_size; wram_size := wram_size; iram := None; mram := None; wram := None;
            registers := replicate (Z.to_nat nr_of_registers) 0; pcs := replicate (Z.to_nat nr_threads) 0;
            atomic_register := replicate (Z.to_nat nr_atomic_bits) false; zero_flags := replicate (Z.to_nat nr_threads) false;
            carry_flags := replicate (Z.to_nat nr_threads) false; nr_of_running_threads := nr_of_running_threads c; scheduling := replicate (Z.to_nat nr_threads) 0;
            bkp_fault := bkp_fault c; dma_fault := dma_fault c; mem_fault := mem_fault c; bkp_fault_thread_index := bkp_fault_thread_index c;
            dma_fault_thread_index := dma_fault_thread_index c; mem_fault_thread_index := mem_fault_thread_index c;
            bkp_fault_id := bkp_fault_id c |}
  else error DPU_ERR_SYSTEM.

(** The state: what is left of the buffer. *)
Definition peek (size : nat) : cmd (list Z) (list Z) := fun rest =>
  if (length rest <? size)%nat then (rest, Undefined) else (rest, Return (take size rest)).

Definition DESERIALIZED_NEXT_ELEM (curr_elem_size : nat) : cmd (list Z) () := fun rest =>
  if (length rest <? curr_elem_size)%nat then (rest, Failed (error_code DPU_ERR_ELF_INVALID_FILE)) else (drop curr_elem_size rest, Return tt).

(** The bytes are copied before their number is checked. *)
Definition DESERIALIZED_ELEM (curr_elem_size : nat) : cmd (list Z) (list Z) :=
  elem ← peek curr_elem_size; _ ← DESERIALIZED_NEXT_ELEM curr_elem_size; mret elem.

Definition deserialized_number (width : nat) : cmd (list Z) Z := elem ← DESERIALIZED_ELEM width; mret (le_val elem).
Definition deserialized_flag : cmd (list Z) bool := elem ← DESERIALIZED_ELEM 1; mret (negb (le_val elem =? 0)).

(** A word that has to be there. *)
Definition expect (magic : Z) : cmd (list Z) () :=
  word ← peek 4;
  if le_val word =? magic then DESERIALIZED_NEXT_ELEM 4 else error DPU_ERR_ELF_INVALID_FILE.

(** A memory of so many bytes, if any. *)
Definition deserialized_memory (width : nat) (count size : Z) : cmd (list Z) (option (list Z)) :=
  if count =? 0 then mret None
  else if negb (allocates size) then error DPU_ERR_SYSTEM
  else elem ← DESERIALIZED_ELEM (Z.to_nat size); mret (Some (words width (Z.to_nat size / width) elem)).

Definition dpu_checkpoint_deserialize (c : dpu_context_t) : cmd (list Z) dpu_context_t :=
  _ ← expect SERIALIZED_CONTEXT_MAGIC;
  _ ← expect SERIALIZED_CONTEXT_CHIP_VERSION;
  _ ← expect SERIALIZED_CONTEXT_VERSION;
  _ ← expect SERIALIZED_CONTEXT_MAGIC;
  nr_of_threads ← deserialized_number 4;
  nr_of_work_registers_per_thread ← deserialized_number 4;
  nr_of_atomic_bits ← deserialized_number 4;
  iram_size ← deserialized_number 4;
  mram_size ← deserialized_number 4;
  wram_size ← deserialized_number 4;
  c ← dpu_context_fill c nr_of_threads nr_of_work_registers_per_thread nr_of_atomic_bits iram_size mram_size wram_size;
  iram ← deserialized_memory 8 iram_size (u32 (SIZEOF_INSTRUCTION * iram_size));
  mram ← deserialized_memory 1 mram_size mram_size;
  wram ← deserialized_memory 4 wram_size (u32 (SIZEOF_WORD * wram_size));
  registers ← DESERIALIZED_ELEM (Z.to_nat (u32 (4 * nr_of_threads * nr_of_work_registers_per_thread)));
  pcs ← DESERIALIZED_ELEM (Z.to_nat (u32 (SIZEOF_IRAM_ADDR * nr_of_threads)));
  atomic_register ← DESERIALIZED_ELEM (Z.to_nat nr_of_atomic_bits);
  zero_flags ← DESERIALIZED_ELEM (Z.to_nat nr_of_threads);
  carry_flags ← DESERIALIZED_ELEM (Z.to_nat nr_of_threads);
  nr_of_running_threads ← deserialized_number 1;
  scheduling ← DESERIALIZED_ELEM (Z.to_nat nr_of_threads);
  bkp_fault ← deserialized_flag;
  dma_fault ← deserialized_flag;
  mem_fault ← deserialized_flag;
  bkp_fault_thread_index ← deserialized_number 1;
  dma_fault_thread_index ← deserialized_number 1;
  mem_fault_thread_index ← deserialized_number 1;
  bkp_fault_id ← deserialized_number 4;
  mret {| nr_threads := nr_threads c; nr_registers := nr_registers c; nr_atomic_bits := nr_atomic_bits c; iram_size := Checkpoint.iram_size c;
          mram_size := Checkpoint.mram_size c; wram_size := Checkpoint.wram_size c; iram := iram; mram := mram; wram := wram;
          registers := words 4 (length (Checkpoint.registers c)) registers; pcs := words 2 (length (Checkpoint.pcs c)) pcs;
          atomic_register := flags (length (Checkpoint.atomic_register c)) atomic_register;
          zero_flags := flags (length (Checkpoint.zero_flags c)) zero_flags; carry_flags := flags (length (Checkpoint.carry_flags c)) carry_flags;
          nr_of_running_threads := nr_of_running_threads; scheduling := words 1 (length (Checkpoint.scheduling c)) scheduling;
          bkp_fault := bkp_fault; dma_fault := dma_fault; mem_fault := mem_fault; bkp_fault_thread_index := bkp_fault_thread_index;
          dma_fault_thread_index := dma_fault_thread_index; mem_fault_thread_index := mem_fault_thread_index; bkp_fault_id := bkp_fault_id |}.
End memory.

(** * What is written is read back *)

Definition fits (n : Z) (l : list Z) : Prop := Forall (fun z => 0 <= z < 2 ^ n) l.

(** The memory of a context, of so many elements. *)
Definition memory_fits (n size : Z) (memory : option (list Z)) : Prop :=
  forall l, memory = Some l -> Z.of_nat (length l) = size /\ fits n l.

Record good (c : dpu_context_t) : Prop := {
  numbers_fit : fits 32 [nr_threads c; nr_registers c; nr_atomic_bits c; mram_size c; wram_size c; bkp_fault_id c];
  bytes_fit : fits 8 [nr_of_running_threads c; bkp_fault_thread_index c; dma_fault_thread_index c; mem_fault_thread_index c];
  iram_size_fits : 0 <= iram_size c < 2 ^ 16;
  iram_fits : memory_fits 64 (iram_size c) (iram c);
  mram_fits : memory_fits 8 (mram_size c) (mram c);
  wram_fits : memory_fits 32 (wram_size c) (wram c);
  registers_fit : Z.of_nat (length (registers c)) = nr_threads c * nr_registers c /\ fits 32 (registers c);
  pcs_fit : Z.of_nat (length (pcs c)) = nr_threads c /\ fits 16 (pcs c);
  scheduling_fit : Z.of_nat (length (scheduling c)) = nr_threads c /\ fits 8 (scheduling c);
  flags_fit : Z.of_nat (length (atomic_register c)) = nr_atomic_bits c /\ Z.of_nat (length (zero_flags c)) = nr_threads c
              /\ Z.of_nat (length (carry_flags c)) = nr_threads c }.

(** A memory that has no element is not saved. *)
Definition stored_memory (memory : option (list Z)) : option (list Z) := if memory is Some (x :: l) then Some (x :: l) else None.

(** What is read back: a memory that was not saved has no size. *)
Definition stored (c : dpu_context_t) : dpu_context_t :=
  {| nr_threads := nr_threads c; nr_registers := nr_registers c; nr_atomic_bits := nr_atomic_bits c;
     iram_size := size_of_saved (iram c) (iram_size c); mram_size := size_of_saved (mram c) (mram_size c);
     wram_size := size_of_saved (wram c) (wram_size c);
     iram := stored_memory (iram c); mram := stored_memory (mram c); wram := stored_memory (wram c);
     registers := registers c; pcs := pcs c; atomic_register := atomic_register c; zero_flags := zero_flags c; carry_flags := carry_flags c;
     nr_of_running_threads := nr_of_running_threads c; scheduling := scheduling c; bkp_fault := bkp_fault c; dma_fault := dma_fault c;
     mem_fault := mem_fault c; bkp_fault_thread_index := bkp_fault_thread_index c; dma_fault_thread_index := dma_fault_thread_index c;
     mem_fault_thread_index := mem_fault_thread_index c; bkp_fault_id := bkp_fault_id c |}.

(** ** Arrays *)

Lemma length_bytes_of w l : length (bytes_of w l) = (length l * w)%nat.
Proof. unfold bytes_of. induction l as [| z l IH]; [done |]. cbn [map concat]. rewrite length_app, length_le_bytes, IH. done. Qed.

Lemma words_bytes w l : fits (8 * Z.of_nat w) l -> words w (length l) (bytes_of w l) = l.
Proof.
  intros Hl. induction Hl as [| z l Hz Hl IH]; [done |]. unfold bytes_of. cbn [length words map concat].
  rewrite take_app_length', drop_app_length' by (by rewrite length_le_bytes). fold (bytes_of w l). rewrite IH. f_equal. apply le_val_bytes.
  replace 256 with (2 ^ 8) by done. by rewrite <- Z.pow_mul_r by lia.
Qed.

Lemma le_val_byte b : le_val [b] = b.
Proof. cbn [le_val]. lia. Qed.

Lemma words_one l : words 1 (length l) l = l.
Proof. induction l as [| z l IH]; [done |]. cbn [length words take drop]. by rewrite take_0, drop_0, le_val_byte, IH. Qed.

Lemma flags_bytes l : flags (length l) (bytes_of_flags l) = l.
Proof.
  unfold flags. rewrite <- (length_map (fun b : bool => if b then 1 else 0) l). fold (bytes_of_flags l). rewrite words_one.
  unfold bytes_of_flags. rewrite map_map. rewrite <- (map_id l) at 2. apply map_ext. by intros [].
Qed.

(** ** The steps *)

Lemma elem_read {A} n a rest (k : list Z -> cmd (list Z) A) : length a = n -> (DESERIALIZED_ELEM n ≫= k) (a ++ rest) = k a rest.
Proof.
  intros <-. unfold DESERIALIZED_ELEM, peek, DESERIALIZED_NEXT_ELEM, mbind, cmd_bind, mret, cmd_ret.
  assert (E : (length (a ++ rest) <? length a)%nat = false) by (apply Nat.ltb_ge; rewrite length_app; lia).
  by rewrite E, E, take_app_length, drop_app_length.
Qed.

Lemma number_read {A} n z rest (k : Z -> cmd (list Z) A) : 0 <= z < 256 ^ Z.of_nat n -> (deserialized_number n ≫= k) (le_bytes n z ++ rest) = k z rest.
Proof.
  intros Hz. unfold deserialized_number.
  transitivity ((DESERIALIZED_ELEM n ≫= fun e => k (le_val e)) (le_bytes n z ++ rest)).
  - unfold mbind, cmd_bind. by destruct (DESERIALIZED_ELEM n _) as [s [a | e |]].
  - rewrite elem_read by apply length_le_bytes. by rewrite le_val_bytes.
Qed.

Lemma flag_read {A} b rest (k : bool -> cmd (list Z) A) : (deserialized_flag ≫= k) (bytes_of_flags [b] ++ rest) = k b rest.
Proof. by destruct b. Qed.

Lemma expected {A} z rest (k : () -> cmd (list Z) A) : 0 <= z < 2 ^ 32 -> (expect z ≫= k) (le_bytes 4 z ++ rest) = k tt rest.
Proof.
  intros Hz. unfold expect, peek, mbind, cmd_bind.
  assert (E : (length (le_bytes 4 z ++ rest) <? 4)%nat = false) by (apply Nat.ltb_ge; rewrite length_app, length_le_bytes; lia).
  rewrite E. rewrite take_app_length' by (by rewrite length_le_bytes). rewrite le_val_bytes, Z.eqb_refl by exact Hz. unfold DESERIALIZED_NEXT_ELEM.
  rewrite E. by rewrite drop_app_length' by (by rewrite length_le_bytes).
Qed.

Lemma written cap l curr : Forall (fun e : list Z * Z => Z.of_nat (length e.1) = e.2) l ->
  Z.of_nat (length curr) + Z.of_nat (length (concat (map fst l))) <= cap ->
  for_each l (SERIALIZED_ELEM cap) curr = (curr ++ concat (map fst l), Return tt).
Proof.
  intros Hl. revert curr. induction Hl as [| [e n] l He Hl IH]; intros curr Hc; cbn [for_each map concat fst]; [by rewrite app_nil_r |].
  cbn [map concat fst snd] in *. rewrite length_app in Hc. unfold mbind, cmd_bind, SERIALIZED_ELEM at 1.
  assert (E : (n <=? Z.of_nat (length e)) && (Z.of_nat (length curr) + n <=? cap) = true) by (apply andb_true_intro; split; apply Z.leb_le; lia).
  rewrite E. rewrite take_ge by lia. rewrite IH by (rewrite length_app; lia). by rewrite app_assoc.
Qed.

Definition serialized (c : dpu_context_t) : list Z := concat (map fst (serialized_elems c)).

Lemma length_flags l : length (bytes_of_flags l) = length l.
Proof. apply length_map. Qed.

Definition saved_length (memory : option (list Z)) : Z := Z.of_nat (length (default [] memory)).

Lemma length_serialized c : Z.of_nat (length (serialized c)) =
  51 + 8 * saved_length (iram c) + saved_length (mram c) + 4 * saved_length (wram c) + 4 * Z.of_nat (length (registers c))
  + 2 * Z.of_nat (length (pcs c)) + Z.of_nat (length (atomic_register c)) + Z.of_nat (length (zero_flags c))
  + Z.of_nat (length (carry_flags c)) + Z.of_nat (length (scheduling c)).
Proof.
  unfold serialized, serialized_elems, saved_length. cbn [map concat fst]. rewrite !length_app, !length_bytes_of, !length_flags, !length_le_bytes.
  cbn [length]. lia.
Qed.

Lemma size_saved n size memory : memory_fits n size memory -> size_of_saved memory size = saved_length memory.
Proof. intros Hm. unfold size_of_saved, saved_length. destruct memory as [l |]; [| done]. by destruct (Hm l eq_refl) as [<- _]. Qed.

Lemma stored_read w memory size : memory_fits (8 * Z.of_nat w) size memory ->
  stored_memory memory = if saved_length memory =? 0 then None else Some (words w (length (default [] memory)) (bytes_of w (default [] memory))).
Proof.
  intros Hm. unfold stored_memory, saved_length. destruct memory as [l |]; [| done]. cbn [default id].
  destruct (Hm l eq_refl) as [_ Hl]. rewrite words_bytes by done. by destruct l.
Qed.

(** The sizes of a context that has at most 4 GB. *)
Record sized (c : dpu_context_t) : Prop := {
  threads_lists : nr_threads c = Z.of_nat (length (pcs c)) /\ nr_threads c = Z.of_nat (length (scheduling c))
    /\ nr_threads c = Z.of_nat (length (zero_flags c)) /\ nr_threads c = Z.of_nat (length (carry_flags c));
  registers_list : nr_threads c * nr_registers c = Z.of_nat (length (registers c));
  atomic_list : nr_atomic_bits c = Z.of_nat (length (atomic_register c));
  iram_list : size_of_saved (iram c) (iram_size c) = saved_length (iram c);
  mram_list : size_of_saved (mram c) (mram_size c) = saved_length (mram c);
  wram_list : size_of_saved (wram c) (wram_size c) = saved_length (wram c) }.

Lemma good_sized c : good c -> sized c.
Proof.
  intros [_ _ _ Hi Hm Hw [Hr _] [Hp _] [Hs _] (Ha & Hz & Hc)]. split; [split_and! | ..]; try (by symmetry); by eapply size_saved.
Qed.

Lemma saved_size_length memory w size : size_of_saved memory size = saved_length memory -> 0 <= w * saved_length memory < 2 ^ 32 ->
  saved_size memory w size = w * saved_length memory.
Proof. unfold size_of_saved, saved_size, saved_length. destruct memory as [l |]; cbn [default id length]; intros E Hl; [| lia]. rewrite <- E in *. by apply wrap_small. Qed.

Lemma serialized_sizes c : sized c -> Z.of_nat (length (serialized c)) < 2 ^ 32 ->
  Forall (fun e : list Z * Z => Z.of_nat (length e.1) = e.2) (serialized_elems c)
  /\ dpu_checkpoint_get_serialized_context_size c = Z.of_nat (length (serialized c)).
Proof.
  intros [(E1 & E2 & E3 & E4) Er Ea Ei Em Ew] Hlen. rewrite length_serialized in *.
  assert (Hi : 0 <= saved_length (iram c)) by (unfold saved_length; lia). assert (Hm : 0 <= saved_length (mram c)) by (unfold saved_length; lia).
  assert (Hw : 0 <= saved_length (wram c)) by (unfold saved_length; lia).
  assert (Er' : registers_size c = 4 * Z.of_nat (length (registers c))) by (unfold registers_size; rewrite <- Z.mul_assoc, Er; apply wrap_small; lia).
  assert (Ep' : pcs_size c = 2 * Z.of_nat (length (pcs c))) by (unfold pcs_size, SIZEOF_IRAM_ADDR; rewrite E1; apply wrap_small; lia).
  split.
  - unfold serialized_elems. rewrite Ei, Em, Ew, Er', Ep'. unfold SIZEOF_INSTRUCTION, SIZEOF_WORD.
    repeat (apply List.Forall_cons; [cbn [fst snd]; rewrite ?length_bytes_of, ?length_flags, ?length_le_bytes; rewrite ?(wrap_small 32) by lia; unfold saved_length; cbn [length]; lia |]).
    apply List.Forall_nil.
  - unfold dpu_checkpoint_get_serialized_context_size. rewrite !saved_size_length by (done || unfold SIZEOF_INSTRUCTION, SIZEOF_WORD; lia).
    rewrite Er', Ep', !(wrap_small 32 (nr_threads c)), (wrap_small 32 (nr_atomic_bits c)) by lia.
    unfold SIZEOF_INSTRUCTION, SIZEOF_WORD. rewrite wrap_small by lia. lia.
Qed.

(** ** Reading the parts *)

Section reading.
Variable allocates : Z -> bool.
Hypothesis allocates_all : forall n, allocates n = true.

Lemma memory_read {A} w memory size rest (k : option (list Z) -> cmd (list Z) A) n : (0 < w)%nat -> memory_fits (8 * Z.of_nat w) size memory ->
  n = Z.of_nat w * saved_length memory ->
  (deserialized_memory allocates w (saved_length memory) n ≫= k) (bytes_of w (default [] memory) ++ rest) = k (stored_memory memory) rest.
Proof using allocates_all.
  intros Hw Hm ->. rewrite (stored_read _ _ _ Hm). unfold deserialized_memory. destruct (saved_length memory =? 0) eqn:E.
  - apply Z.eqb_eq in E. unfold saved_length in E. destruct (default [] memory) as [| z l]; [done | cbn in E; lia].
  - rewrite allocates_all. cbn [negb]. unfold saved_length. rewrite <- Nat2Z.inj_mul, Nat2Z.id.
    transitivity ((DESERIALIZED_ELEM (w * length (default [] memory)) ≫= fun e => k (Some (words w (w * length (default [] memory) / w) e)))
                    (bytes_of w (default [] memory) ++ rest)).
    + unfold mbind, cmd_bind. by destruct (DESERIALIZED_ELEM _ _) as [s [a | e |]].
    + rewrite elem_read by (rewrite length_bytes_of; lia). by rewrite (Nat.mul_comm w), Nat.div_mul by lia.
Qed.

Lemma fill_all c t r a i m w : exists c',
  (forall A rest (k : dpu_context_t -> cmd (list Z) A), (dpu_context_fill allocates c t r a i m w ≫= k) rest = k c' rest)
  /\ nr_threads c' = t /\ nr_registers c' = r /\ nr_atomic_bits c' = a /\ iram_size c' = u16 i /\ mram_size c' = m /\ wram_size c' = w
  /\ length (registers c') = Z.to_nat (u32 (t * r)) /\ length (pcs c') = Z.to_nat t /\ length (atomic_register c') = Z.to_nat a
  /\ length (zero_flags c') = Z.to_nat t /\ length (carry_flags c') = Z.to_nat t /\ length (scheduling c') = Z.to_nat t.
Proof using allocates_all.
  unfold dpu_context_fill. cbn [forallb]. rewrite !allocates_all. eexists. split; [reflexivity |]. cbn. by rewrite !length_replicate.
Qed.

Lemma deserialize_serialized c c0 rest : good c -> sized c -> Z.of_nat (length (serialized c)) < 2 ^ 32 ->
  dpu_checkpoint_deserialize allocates c0 (serialized c ++ rest) = (rest, Return (stored c)).
Proof using allocates_all.
  intros [Hn Hb Hi Mi Mm Mw [_ Fr] [_ Fp] [_ Fs] _] [(E1 & E2 & E3 & E4) Er Ea Ei Em Ew] Hlen. rewrite length_serialized in Hlen.
  unfold fits in Hn, Hb. rewrite !list.Forall_cons in Hn. rewrite !list.Forall_cons in Hb. destruct Hn as (N1 & N2 & N3 & N4 & N5 & N6 & _). destruct Hb as (B1 & B2 & B3 & B4 & _).
  assert (Li : 0 <= saved_length (iram c)) by (unfold saved_length; lia). assert (Lm : 0 <= saved_length (mram c)) by (unfold saved_length; lia).
  assert (Lw : 0 <= saved_length (wram c)) by (unfold saved_length; lia).
  unfold serialized, serialized_elems, dpu_checkpoint_deserialize. cbn [map concat fst]. rewrite Ei, Em, Ew, app_nil_r, <- !app_assoc.
  rewrite !expected by (vm_compute; split; congruence). rewrite !number_read by (change (256 ^ Z.of_nat 4) with (2 ^ 32); lia).
  destruct (fill_all c0 (nr_threads c) (nr_registers c) (nr_atomic_bits c) (saved_length (iram c)) (saved_length (mram c)) (saved_length (wram c)))
    as (c' & -> & F1 & F2 & F3 & F4 & F5 & F6 & F7 & F8 & F9 & F10 & F11 & F12).
  assert (Hi' : saved_length (iram c) < 2 ^ 16) by (rewrite <- Ei; unfold size_of_saved; destruct (iram c); lia).
  assert (Mi' : memory_fits (8 * Z.of_nat 8) (iram_size c) (iram c)) by exact Mi.
  rewrite (memory_read 8 _ _ _ _ _ ltac:(lia) Mi) by (unfold SIZEOF_INSTRUCTION; apply wrap_small; lia).
  rewrite (memory_read 1 _ _ _ _ _ ltac:(lia) Mm) by lia.
  rewrite (memory_read 4 _ _ _ _ _ ltac:(lia) Mw) by (unfold SIZEOF_WORD; apply wrap_small; lia).
  rewrite (elem_read _ (bytes_of 4 (registers c))) by (rewrite length_bytes_of, <- Z.mul_assoc, Er, wrap_small by lia; lia).
  rewrite (elem_read _ (bytes_of 2 (pcs c))) by (rewrite length_bytes_of; unfold SIZEOF_IRAM_ADDR; rewrite wrap_small by lia; lia).
  rewrite !(elem_read _ (bytes_of_flags _)) by (rewrite length_flags; lia).
  rewrite number_read by exact B1. rewrite (elem_read _ (bytes_of 1 (scheduling c))) by (rewrite length_bytes_of; lia).
  rewrite !flag_read. rewrite !number_read by (exact B2 || exact B3 || exact B4).
  rewrite number_read by exact N6.
  unfold stored. unfold mret, cmd_ret. f_equal. f_equal.
  replace (length (registers c')) with (length (registers c)) by (rewrite F7, Er, wrap_small; lia).
  replace (length (pcs c')) with (length (pcs c)) by lia. replace (length (atomic_register c')) with (length (atomic_register c)) by lia.
  replace (length (zero_flags c')) with (length (zero_flags c)) by lia. replace (length (carry_flags c')) with (length (carry_flags c)) by lia.
  replace (length (scheduling c')) with (length (scheduling c)) by lia.
  rewrite !flags_bytes, (words_bytes 4 _ Fr), (words_bytes 2 _ Fp), (words_bytes 1 _ Fs), F1, F2, F3, F4, F5, F6, Ei, Em, Ew.
  by rewrite wrap_small by lia.
Qed.


(** C32: a context of less than 4 GB whose arrays have the sizes it tells is written
    into a new buffer of just the size of it; what is read from the buffer, whatever
    follows, is the context, but for the sizes of memories that were not saved. *)
Theorem checkpoint_roundtrip c c0 rest : good c -> Z.of_nat (length (serialized c)) < 2 ^ 32 ->
  dpu_checkpoint_serialize allocates c None = Return (serialized c, Z.of_nat (length (serialized c)))
  /\ dpu_checkpoint_get_serialized_context_size c = Z.of_nat (length (serialized c))
  /\ dpu_checkpoint_deserialize allocates c0 (serialized c ++ rest) = (rest, Return (stored c)).
Proof using allocates_all.
  intros Hg Hlen. pose proof (good_sized c Hg) as Hs. destruct (serialized_sizes c Hs Hlen) as [Hf Hsize]. split_and!; [| done |].
  - unfold dpu_checkpoint_serialize. rewrite Hsize, allocates_all, (written _ _ [] Hf) by (cbn [length]; unfold serialized; lia). done.
  - apply (deserialize_serialized c c0 rest Hg Hs Hlen).
Qed.
End reading.

(** * Buffers that are too short *)

(** What is read from a buffer is read from a longer one too. *)
Definition extends {A} (m : cmd (list Z) A) : Prop := forall p q,
  match m p with
  | (r, Return a) => m (p ++ q) = (r ++ q, Return a)
  | (r, Failed e) => m (p ++ q) = (r ++ q, Failed e)
  | (_, Undefined) => True
  end.

Lemma extends_ret {A} (a : A) : extends (mret a).
Proof. done. Qed.

Lemma extends_error {A} e : extends (A := A) (error e).
Proof. done. Qed.

Lemma extends_bind {A B} (m : cmd (list Z) A) (k : A -> cmd (list Z) B) : extends m -> (forall a, extends (k a)) -> extends (m ≫= k).
Proof.
  intros Hm Hk p q. specialize (Hm p q). unfold mbind, cmd_bind. destruct (m p) as [r [a | e |]]; [| by rewrite Hm | done].
  rewrite Hm. apply (Hk a).
Qed.

Lemma extends_elem n : extends (DESERIALIZED_ELEM n).
Proof.
  intros p q. unfold DESERIALIZED_ELEM, peek, DESERIALIZED_NEXT_ELEM, mbind, cmd_bind, mret, cmd_ret.
  destruct (Nat.ltb_spec (length p) n) as [Hn | Hn]; [done |]. rewrite (proj2 (Nat.ltb_ge _ _) Hn).
  rewrite (proj2 (Nat.ltb_ge (length (p ++ q)) n)) by (rewrite length_app; lia).
  rewrite (proj2 (Nat.ltb_ge (length (p ++ q)) n)) by (rewrite length_app; lia).
  by rewrite take_app_le, drop_app_le by lia.
Qed.

Lemma extends_expect z : extends (expect z).
Proof.
  intros p q. unfold expect, peek, DESERIALIZED_NEXT_ELEM, mbind, cmd_bind.
  destruct (Nat.ltb_spec (length p) 4) as [Hn | Hn]; [done |].
  rewrite (proj2 (Nat.ltb_ge (length (p ++ q)) 4)) by (rewrite length_app; lia). rewrite take_app_le by lia.
  destruct (le_val (take 4 p) =? z); [| done]. rewrite (proj2 (Nat.ltb_ge (length p) 4)) by lia.
  rewrite (proj2 (Nat.ltb_ge (length (p ++ q)) 4)) by (rewrite length_app; lia). by rewrite drop_app_le by lia.
Qed.

Lemma extends_deserialize allocates c : extends (dpu_checkpoint_deserialize allocates c).
Proof.
  unfold dpu_checkpoint_deserialize, deserialized_number, deserialized_flag.
  repeat first [apply extends_ret | apply extends_elem | apply extends_expect | apply extends_bind | intros ?].
  all: unfold dpu_context_fill, deserialized_memory.
  - destruct (forallb _ _); [apply extends_ret | apply extends_error].
  - destruct (_ =? 0); [apply extends_ret |]. destruct (negb _); [apply extends_error |]. apply extends_bind; [apply extends_elem | intros ?; apply extends_ret].
  - destruct (_ =? 0); [apply extends_ret |]. destruct (negb _); [apply extends_error |]. apply extends_bind; [apply extends_elem | intros ?; apply extends_ret].
  - destruct (_ =? 0); [apply extends_ret |]. destruct (negb _); [apply extends_error |]. apply extends_bind; [apply extends_elem | intros ?; apply extends_ret].
Qed.

(** A buffer that lost its end is read past it: the number of bytes left is
    checked once they were copied. *)
Theorem truncated_context_overread allocates c c0 n : (forall n, allocates n = true) -> good c -> Z.of_nat (length (serialized c)) < 2 ^ 32 ->
  (n < length (serialized c))%nat -> (dpu_checkpoint_deserialize allocates c0 (take n (serialized c))).2 = Undefined.
Proof.
  intros Hall Hg Hlen Hn. pose proof (extends_deserialize allocates c0 (take n (serialized c)) (drop n (serialized c))) as E.
  rewrite take_drop in E. pose proof (deserialize_serialized allocates Hall c c0 [] Hg (good_sized c Hg) Hlen) as E'. rewrite app_nil_r in E'.
  rewrite E' in E. destruct (dpu_checkpoint_deserialize allocates c0 (take n (serialized c))) as [r [a | e |]]; [| done | done].
  exfalso. apply (f_equal fst) in E. cbn [fst] in E. symmetry in E. apply app_eq_nil in E as [_ E]. apply (f_equal length) in E.
  rewrite length_drop in E. cbn [length] in E. lia.
Qed.

(** * An example *)

(** Two threads with two registers, without the MRAM. *)
Definition sample_context : dpu_context_t :=
  {| nr_threads := 2; nr_registers := 2; nr_atomic_bits := 3; iram_size := 1; mram_size := 64; wram_size := 2;
     iram := Some [0x7ef320000000]; mram := None; wram := Some [7; 0xffffffff]; registers := [1; 2; 3; 4]; pcs := [0x10; 0x20];
     atomic_register := [true; false; true]; zero_flags := [true; false]; carry_flags := [false; false]; nr_of_running_threads := 1;
     scheduling := [0; 0xff]; bkp_fault := true; dma_fault := false; mem_fault := false; bkp_fault_thread_index := 1;
     dma_fault_thread_index := 0; mem_fault_thread_index := 0; bkp_fault_id := 0xffffff |}.

Lemma sample_context_good : good sample_context.
Proof.
  split; cbn; unfold fits, memory_fits; split_and?; try intros l [= <-]; split_and?; try done; repeat (apply List.Forall_cons; [lia |]); try apply List.Forall_nil; lia.
Qed.

Lemma checkpoint_roundtrip_witness :
  (dpu_checkpoint_deserialize (fun _ => true) sample_context (serialized sample_context ++ [1; 2; 3])).2 = Return (stored sample_context)
  /\ mram_size (stored sample_context) = 0.
Proof.
  split; [| reflexivity].
  destruct (checkpoint_roundtrip (fun _ => true) (fun _ => eq_refl) sample_context sample_context [1; 2; 3] sample_context_good ltac:(vm_compute; reflexivity))
    as (_ & _ & ->). reflexivity.
Defined.

Lemma truncated_context_overread_witness :
  (dpu_checkpoint_deserialize (fun _ => true) sample_context (take 90 (serialized sample_context))).2 = Undefined.
Proof.
  apply (truncated_context_overread (fun _ => true) sample_context sample_context 90 (fun _ => eq_refl) sample_context_good);
    [vm_compute; reflexivity | apply Nat.ltb_lt; vm_compute; reflexivity].
Defined.
