(* ===== verification/Encoder.v ===== *)
(** Instructions of a DPU as words: how a macro of the encoder
    (library/src/backends/commons/src/dpu_instruction_encoder.h) places its
    arguments around its opcode, and how they are read back.  The macros are in
    Encodings.v. *)
From stdpp Require Import list.
From S2P Require Import Prelude CiCommands.

(** * Macros *)

(** The arguments of a macro, by name. *)
Inductive operand := rc | dc | ra | rb | db | imm | off | pc | cc | shift | endian | immDma.

#[export] Instance operand_eq_dec : EqDecision operand.
Proof. solve_decision. Defined.

(** The bits of an argument: [((dpuinstruction_t)x >> from) & mask) << to]. *)
Local Abbreviation field := (operand * Z * Z * Z)%type.

Record encoding := macro { arguments : list operand; opcode : Z; fields : list field }.

#[export] Instance encoding_eq_dec : EqDecision encoding.
Proof. solve_decision. Defined.

(** The macro with a value for each argument. *)
Definition encode (e : encoding) (v : operand -> Z) : Z :=
  instruction (opcode e) (map (fun f => let '(x, from, mask, to) := f in (v x, from, mask, to)) (fields e)).

(** Values for the arguments, in order. *)
Fixpoint values (args : list operand) (l : list Z) (x : operand) : Z :=
  match args, l with
  | a :: args, z :: l => if decide (x = a) then z else values args l x
  | _, _ => 0
  end.

Definition call (e : encoding) (l : list Z) : Z := encode e (values (arguments e) l).

(** * Reading an instruction *)

(** The bits of an argument that are kept. *)
Definition kept_bits (x : operand) (f : field) : Z :=
  let '(y, from, mask, _) := f in if decide (y = x) then Z.shiftl mask from else 0.
Definition kept (e : encoding) (x : operand) : Z := fold_right (fun f acc => Z.lor (kept_bits x f) acc) 0 (fields e).

Definition read_bits (x : operand) (word : Z) (f : field) : Z :=
  let '(y, from, mask, to) := f in if decide (y = x) then Z.shiftl (Z.land (Z.shiftr word to) mask) from else 0.
Definition operand_of (e : encoding) (x : operand) (word : Z) : Z :=
  fold_right (fun f acc => Z.lor (read_bits x word f) acc) 0 (fields e).

(** A number of [n] bits, as a signed one. *)
Definition signed (n z : Z) : Z := if Z.testbit z (n - 1) then z - 2 ^ n else z.

(** * Macros whose bits do not meet *)

Definition place_of (f : field) : Z := let '(_, _, mask, to) := f in Z.shiftl mask to.

(** The places of the fields, apart from each other and from [used]. *)
Fixpoint apart (used : Z) (l : list field) : bool :=
  match l with
  | [] => true
  | f :: l => (Z.land used (place_of f) =? 0) && apart (Z.lor used (place_of f)) l
  end.

Definition placed (l : list field) : Z := fold_right (fun f acc => Z.lor (place_of f) acc) 0 l.

Definition well_placed (f : field) : bool :=
  let '(_, from, mask, to) := f in (0 <=? from) && (0 <=? to) && (0 <=? mask) && (Z.shiftr (Z.shiftl mask to) 48 =? 0).

(** Within the 48 bits of an instruction; all arguments used, no other. *)
Definition well_formed (e : encoding) : bool :=
  (0 <=? opcode e) && (opcode e <? 2 ^ 48) && forallb well_placed (fields e) && apart (opcode e) (fields e)
  && forallb (fun x => negb (kept e x =? 0)) (arguments e)
  && forallb (fun f => bool_decide (f.1.1.1 ∈ arguments e)) (fields e).

(** Equations between words, bit by bit. *)
Ltac by_bits :=
  apply Z.bits_inj'; intros ? ?; rewrite ?Z.land_spec, ?Z.lor_spec, ?Z.land_spec, ?Z.lor_spec;
  repeat match goal with |- context [Z.testbit ?x ?n] => destruct (Z.testbit x n) end; reflexivity.

Lemma land_shifted a m k : 0 <= k -> Z.land (Z.shiftl (Z.shiftr a k) k) (Z.shiftl m k) = Z.land a (Z.shiftl m k).
Proof.
  intros Hk. apply Z.bits_inj'. intros n Hn. rewrite !Z.land_spec. destruct (Z.ltb_spec n k).
  - rewrite (Z.shiftl_spec_low m) by lia. by rewrite !andb_false_r.
  - f_equal. rewrite Z.shiftl_spec_high, Z.shiftr_spec by lia. f_equal. lia.
Qed.

Section reading.
Variable v : operand -> Z.

Definition bits_of (f : field) : Z := let '(x, from, mask, to) := f in operand_field (v x, from, mask, to).

Definition fill (l : list field) (acc : Z) : Z := fold_left (fun acc f => Z.lor acc (bits_of f)) l acc.

Lemma encode_fill e : encode e v = fill (fields e) (opcode e).
Proof.
  unfold encode, instruction, fill. generalize (opcode e). induction (fields e) as [| [[[x from] mask] to] l IH]; intros acc; [done |]. apply IH.
Qed.

Lemma bits_in_place f : well_placed f = true -> Z.land (bits_of f) (place_of f) = bits_of f.
Proof.
  destruct f as [[[x from] mask] to]. unfold well_placed, place_of, bits_of, operand_field. intros H. apply andb_prop in H as [H _].
  apply andb_prop in H as [H Hm]. apply andb_prop in H as [_ Ht]. apply Z.leb_le in Ht.
  by rewrite <- Z.shiftl_land, <- Z.land_assoc, Z.land_diag.
Qed.

(** Bits apart from those of the fields stay. *)
Lemma fill_others used l acc u : forallb well_placed l = true -> apart used l = true -> Z.land u used = u -> Z.land (fill l acc) u = Z.land acc u.
Proof.
  revert used acc. induction l as [| f l IH]; intros used acc Hl Ha Hu; [done |]. cbn [forallb apart fill fold_left] in *.
  apply andb_prop in Hl as [Hf Hl]. apply andb_prop in Ha as [Hd Ha]. apply Z.eqb_eq in Hd.
  change (Z.land (fill l (Z.lor acc (bits_of f))) u = Z.land acc u).
  rewrite (IH _ _ Hl Ha) by (rewrite Z.land_lor_distr_r, Hu; by_bits).
  rewrite Z.land_lor_distr_l, <- (bits_in_place f Hf), <- Hu. rewrite <- (Z.land_assoc (bits_of f)), (Z.land_comm u used), (Z.land_assoc (place_of f)),
    (Z.land_comm (place_of f)), Hd, Z.land_0_l, Z.land_0_r. by rewrite Z.lor_0_r.
Qed.

(** Each field is read back. *)
Lemma fill_field used l acc f : forallb well_placed l = true -> apart used l = true -> Z.land acc used = acc -> f ∈ l ->
  Z.land (fill l acc) (place_of f) = bits_of f.
Proof.
  revert used acc. induction l as [| g l IH]; intros used acc Hl Ha Hacc Hf; [by apply not_elem_of_nil in Hf |]. cbn [forallb apart] in *.
  apply andb_prop in Hl as [Hg Hl]. apply andb_prop in Ha as [Hd Ha]. apply Z.eqb_eq in Hd.
  change (fill (g :: l) acc) with (fill l (Z.lor acc (bits_of g))). apply elem_of_cons in Hf as [-> | Hf].
  - rewrite (fill_others _ _ _ _ Hl Ha) by by_bits.
    by rewrite Z.land_lor_distr_l, <- Hacc, <- Z.land_assoc, Hd, Z.land_0_r, Z.lor_0_l, bits_in_place.
  - apply (IH _ _ Hl Ha); [| done]. rewrite <- Hacc, <- (bits_in_place g Hg). by_bits.
Qed.
End reading.

Lemma fill_bound l acc : 0 <= acc < 2 ^ 48 -> forallb well_placed l = true -> forall v, 0 <= fill v l acc < 2 ^ 48.
Proof.
  intros Hacc Hl v. revert acc Hacc. induction l as [| f l IH]; intros acc Hacc; [done |]. cbn [forallb] in Hl. apply andb_prop in Hl as [Hf Hl].
  change (fill v (f :: l) acc) with (fill v l (Z.lor acc (bits_of v f))). apply (IH Hl). apply lor_range; [lia | exact Hacc |].
  rewrite <- (bits_in_place v f Hf). destruct f as [[[x from] mask] to]. unfold well_placed in Hf. cbn [place_of].
  apply andb_prop in Hf as [Hf H48]. apply Z.eqb_eq in H48. apply andb_prop in Hf as [Hf Hm]. apply andb_prop in Hf as [_ Ht].
  apply Z.leb_le in Hm, Ht. assert (Hp : 0 <= Z.shiftl mask to) by (by apply Z.shiftl_nonneg).
  rewrite Z.shiftr_div_pow2 in H48 by lia. apply Z.div_small_iff in H48; [| lia]. apply land_range_r; lia.
Qed.

Lemma well_formed_parts e : well_formed e = true ->
  0 <= opcode e < 2 ^ 48 /\ forallb well_placed (fields e) = true /\ apart (opcode e) (fields e) = true.
Proof.
  unfold well_formed. intros H. do 2 apply andb_prop in H as [H _]. apply andb_prop in H as [H Ha]. apply andb_prop in H as [H Hw].
  apply andb_prop in H as [Ho Ho']. apply Z.leb_le in Ho. apply Z.ltb_lt in Ho'. by split_and!.
Qed.

(** What is read back of an argument: the bits that are kept. *)
Lemma operand_read e v x : well_formed e = true -> operand_of e x (encode e v) = Z.land (u64 (v x)) (kept e x).
Proof.
  intros He. apply well_formed_parts in He as (_ & Hw & Ha).
  rewrite encode_fill. unfold operand_of, kept.
  assert (Hf : forall f, f ∈ fields e -> read_bits x (fill v (fields e) (opcode e)) f = Z.land (u64 (v x)) (kept_bits x f)).
  { intros f Hin. pose proof (fill_field v _ _ (opcode e) f Hw Ha (Z.land_diag _) Hin) as E. destruct f as [[[y from] mask] to].
    unfold read_bits, kept_bits. destruct (decide (y = x)) as [-> |]; [| by rewrite Z.land_0_r].
    rewrite forallb_forall in Hw. apply list_elem_of_In, Hw in Hin. unfold well_placed in Hin. apply andb_prop in Hin as [Hin _].
    apply andb_prop in Hin as [Hin Hm]. apply andb_prop in Hin as [Hfrom Hto]. apply Z.leb_le in Hfrom, Hto.
    cbn [place_of bits_of operand_field] in E. apply (f_equal (fun z => Z.shiftr z to)) in E.
    rewrite Z.shiftr_land, !Z.shiftr_shiftl_l in E by lia. rewrite Z.sub_diag, !Z.shiftl_0_r in E. rewrite E.
    rewrite Z.shiftl_land. by apply land_shifted. }
  revert Hf. generalize (fill v (fields e) (opcode e)) as word. clear. intros word Hf. induction (fields e) as [| f l IH]; cbn [fold_right]; [by rewrite Z.land_0_r |].
  rewrite Z.land_lor_distr_r, (Hf f) by (by left). f_equal. apply IH. intros g Hg. apply Hf. by right.
Qed.

Lemma encode_range e v : well_formed e = true -> 0 <= encode e v < 2 ^ 48.
Proof. intros He. apply well_formed_parts in He as (Ho & Hw & _). rewrite encode_fill. by apply fill_bound. Qed.

Lemma apart_placed u l : apart u l = true -> Z.land u (placed l) = 0.
Proof.
  revert u. induction l as [| f l IH]; intros u Ha; [apply Z.land_0_r |]. cbn [apart placed fold_right] in *. apply andb_prop in Ha as [Hd Ha].
  apply Z.eqb_eq in Hd. specialize (IH _ Ha). rewrite Z.land_lor_distr_l in IH. apply Z.lor_eq_0_iff in IH as [IH _].
  rewrite Z.land_lor_distr_r, Hd, Z.lor_0_l. exact IH.
Qed.

Lemma ldiff_fill v p l acc : forallb well_placed l = true -> Z.land (placed l) p = placed l -> Z.ldiff (fill v l acc) p = Z.ldiff acc p.
Proof.
  revert acc. induction l as [| f l IH]; intros acc Hl Hp; [done |]. cbn [forallb placed fold_right] in *. apply andb_prop in Hl as [Hf Hl].
  fold (placed l) in Hp. assert (Hp' : Z.land (placed l) p = placed l /\ Z.land (place_of f) p = place_of f).
  { split; apply Z.bits_inj'; intros n Hn; apply (f_equal (fun z => Z.testbit z n)) in Hp; rewrite ?Z.land_spec, ?Z.lor_spec in *;
      by destruct (Z.testbit (placed l) n), (Z.testbit (place_of f) n), (Z.testbit p n). }
  destruct Hp' as [Hp1 Hp2]. change (fill v (f :: l) acc) with (fill v l (Z.lor acc (bits_of v f))). rewrite (IH _ Hl Hp1).
  rewrite <- (bits_in_place v f Hf), <- Hp2. apply Z.bits_inj'. intros n Hn. rewrite !Z.ldiff_spec, Z.lor_spec, !Z.land_spec.
  by destruct (Z.testbit acc n), (Z.testbit p n), (Z.testbit (bits_of v f) n), (Z.testbit (place_of f) n).
Qed.

(** The bits beside those of the fields are those of the opcode. *)
Lemma opcode_read e v : well_formed e = true -> Z.ldiff (encode e v) (placed (fields e)) = opcode e.
Proof.
  intros He. apply well_formed_parts in He as (_ & Hw & Ha). rewrite encode_fill, ldiff_fill by (done || apply Z.land_diag).
  rewrite <- (Z.lor_ldiff_and (opcode e) (placed (fields e))) at 2. by rewrite (apart_placed _ _ Ha), Z.lor_0_r.
Qed.

(** ** Arguments *)

(** The width of an argument of a macro, from its first bit that is kept. *)
Definition width (e : encoding) (x : operand) : Z := Z.log2 (kept e x) + 1.

(** All bits of the argument are kept, but maybe the lowest of a pair of registers. *)
Definition plain (e : encoding) (x : operand) : bool :=
  (kept e x =? Z.ones (width e x)) || bool_decide (x = dc) && (kept e x =? 0x1e).

Lemma u64_land z k n : 0 <= n <= 64 -> k = Z.ones n -> Z.land (u64 z) k = z mod 2 ^ n.
Proof.
  intros Hn ->. rewrite Z.land_ones by lia. unfold u64, wrap. apply Z.mod_mod_divide. exists (2 ^ (64 - n)). rewrite <- Z.pow_add_r by lia. f_equal. lia.
Qed.

(** A value that fits is recovered; a signed value up to its sign. *)
Lemma signed_read z n : 0 < n -> - 2 ^ (n - 1) <= z < 2 ^ (n - 1) -> signed n (z mod 2 ^ n) = z.
Proof.
  intros Hn Hz. assert (Hp : 2 ^ n = 2 * 2 ^ (n - 1)) by (rewrite <- Z.pow_succ_r by lia; f_equal; lia).
  unfold signed. destruct (Z.leb_spec 0 z).
  - rewrite Z.mod_small by lia. rewrite (testbit_high (n - 1)) by lia. done.
  - assert (E : z mod 2 ^ n = z + 2 ^ n) by (symmetry; apply (Z.mod_unique _ _ (-1)); lia). rewrite E.
    assert (Hb : Z.testbit (z + 2 ^ n) (n - 1) = true).
    { apply Z.testbit_true; [lia |]. replace (z + 2 ^ n) with (z + 2 ^ (n - 1) + 1 * 2 ^ (n - 1)) by lia.
      rewrite Z.div_add by lia. by rewrite Z.div_small by lia. }
    rewrite Hb. lia.
Qed.
