(* ===== verification/Encodings.v ===== *)
(** The registers, conditions and instructions of a DPU
    (library/src/backends/commons/src/dpu_instruction_encoder.h): each macro with its
    arguments, its opcode and the places of the bits of its arguments, as
    Encoder.v reads them.  Theorems, at the end: what is given to a macro is read
    back from the word, whichever the macro; opposite conditions differ by a bit;
    the instructions inside the commands of the control interfaces (CiCommands.v)
    are those of the encoder. *)
From stdpp Require Import list.
From S2P Require Import Prelude CiCommands Encoder.

(** * Registers *)

Definition REG_D0 : Z := 0.
Definition REG_D10 : Z := 10.
Definition REG_D12 : Z := 12.
Definition REG_D14 : Z := 14.
Definition REG_D16 : Z := 16.
Definition REG_D18 : Z := 18.
Definition REG_D2 : Z := 2.
Definition REG_D20 : Z := 20.
Definition REG_D22 : Z := 22.
Definition REG_D4 : Z := 4.
Definition REG_D6 : Z := 6.
Definition REG_D8 : Z := 8.
Definition REG_ID : Z := 28.
Definition REG_ID2 : Z := 29.
Definition REG_ID4 : Z := 30.
Definition REG_ID8 : Z := 31.
Definition REG_LNEG : Z := 26.
Definition REG_MNEG : Z := 27.
Definition REG_ONE : Z := 25.
Definition REG_R0 : Z := 0.
Definition REG_R1 : Z := 1.
Definition REG_R10 : Z := 10.
Definition REG_R11 : Z := 11.
Definition REG_R12 : Z := 12.
Definition REG_R13 : Z := 13.
Definition REG_R14 : Z := 14.
Definition REG_R15 : Z := 15.
Definition REG_R16 : Z := 16.
Definition REG_R17 : Z := 17.
Definition REG_R18 : Z := 18.
Definition REG_R19 : Z := 19.
Definition REG_R2 : Z := 2.
Definition REG_R20 : Z := 20.
Definition REG_R21 : Z := 21.
Definition REG_R22 : Z := 22.
Definition REG_R23 : Z := 23.
Definition REG_R3 : Z := 3.
Definition REG_R4 : Z := 4.
Definition REG_R5 : Z := 5.
Definition REG_R6 : Z := 6.
Definition REG_R7 : Z := 7.
Definition REG_R8 : Z := 8.
Definition REG_R9 : Z := 9.
Definition REG_S0 : Z := 0.
Definition REG_S1 : Z := 1.
Definition REG_S10 : Z := 10.
Definition REG_S11 : Z := 11.
Definition REG_S12 : Z := 12.
Definition REG_S13 : Z := 13.
Definition REG_S14 : Z := 14.
Definition REG_S15 : Z := 15.
Definition REG_S16 : Z := 16.
Definition REG_S17 : Z := 17.
Definition REG_S18 : Z := 18.
Definition REG_S19 : Z := 19.
Definition REG_S2 : Z := 2.
Definition REG_S20 : Z := 20.
Definition REG_S21 : Z := 21.
Definition REG_S22 : Z := 22.
Definition REG_S23 : Z := 23.
Definition REG_S3 : Z := 3.
Definition REG_S4 : Z := 4.
Definition REG_S5 : Z := 5.
Definition REG_S6 : Z := 6.
Definition REG_S7 : Z := 7.
Definition REG_S8 : Z := 8.
Definition REG_S9 : Z := 9.
Definition REG_ZERO : Z := 24.

(** * Conditions *)

Inductive condition :=
  | cc_C | cc_E | cc_EQ | cc_FALSE | cc_GES | cc_GEU | cc_GTS | cc_GTU | cc_LARGE | cc_LES | cc_LEU | cc_LTS | cc_LTU
  | cc_MAX | cc_MI | cc_NC | cc_NC10 | cc_NC11 | cc_NC12 | cc_NC13 | cc_NC14 | cc_NC5 | cc_NC6 | cc_NC7 | cc_NC8
  | cc_NC9 | cc_NEQ | cc_NMAX | cc_NOV | cc_NSH32 | cc_NZ | cc_O | cc_OV | cc_PL | cc_SE | cc_SH32 | cc_SMALL | cc_SMI
  | cc_SNZ | cc_SO | cc_SPL | cc_SZ | cc_TRUE | cc_XGTS | cc_XGTU | cc_XLES | cc_XLEU | cc_XNZ | cc_XZ | cc_Z.

(** The code of a condition, for those a group of instructions has. *)

Definition ACQUIRE_CC (x : condition) : option Z :=
  match x with
  | cc_NZ => Some 3 | cc_TRUE => Some 1 | cc_Z => Some 2
  | _ => None
  end.

Definition ADD_NZ_CC (x : condition) : option Z :=
  match x with
  | cc_C => Some 20 | cc_MI => Some 9 | cc_NC => Some 21 | cc_NC10 => Some 27 | cc_NC11 => Some 28
  | cc_NC12 => Some 29 | cc_NC13 => Some 30 | cc_NC14 => Some 31 | cc_NC5 => Some 22 | cc_NC6 => Some 23
  | cc_NC7 => Some 24 | cc_NC8 => Some 25 | cc_NC9 => Some 26 | cc_NOV => Some 19 | cc_NZ => Some 3 | cc_OV => Some 18
  | cc_PL => Some 8 | cc_SMI => Some 15 | cc_SNZ => Some 13 | cc_SPL => Some 14 | cc_SZ => Some 12 | cc_TRUE => Some 1
  | cc_XNZ => Some 5 | cc_XZ => Some 4 | cc_Z => Some 2
  | _ => None
  end.

Definition BOOT_CC (x : condition) : option Z :=
  match x with
  | cc_FALSE => Some 0 | cc_NZ => Some 3 | cc_SMI => Some 15 | cc_SNZ => Some 13 | cc_SPL => Some 14
  | cc_SZ => Some 12 | cc_TRUE => Some 1 | cc_XNZ => Some 5 | cc_XZ => Some 4 | cc_Z => Some 2
  | _ => None
  end.

Definition CONST_CC_GE0 (x : condition) : option Z :=
  match x with
  | cc_PL => Some 0
  | _ => None
  end.

Definition CONST_CC_GEU (x : condition) : option Z :=
  match x with
  | cc_GEU => Some 0
  | _ => None
  end.

Definition CONST_CC_ZERO (x : condition) : option Z :=
  match x with
  | cc_Z => Some 0
  | _ => None
  end.

Definition COUNT_NZ_CC (x : condition) : option Z :=
  match x with
  | cc_MAX => Some 8 | cc_NMAX => Some 9 | cc_NZ => Some 3 | cc_SMI => Some 15 | cc_SNZ => Some 13 | cc_SPL => Some 14
  | cc_SZ => Some 12 | cc_TRUE => Some 1 | cc_XNZ => Some 5 | cc_XZ => Some 4 | cc_Z => Some 2
  | _ => None
  end.

Definition DIV_CC (x : condition) : option Z :=
  match x with
  | cc_FALSE => Some 0 | cc_SMI => Some 15 | cc_SNZ => Some 13 | cc_SPL => Some 14 | cc_SZ => Some 12
  | cc_TRUE => Some 1
  | _ => None
  end.

Definition DIV_NZ_CC (x : condition) : option Z :=
  match x with
  | cc_SMI => Some 15 | cc_SNZ => Some 13 | cc_SPL => Some 14 | cc_SZ => Some 12 | cc_TRUE => Some 1
  | _ => None
  end.

Definition EXT_SUB_SET_CC (x : condition) : option Z :=
  match x with
  | cc_C => Some 53 | cc_EQ => Some 6 | cc_GES => Some 55 | cc_GEU => Some 53 | cc_GTS => Some 57 | cc_GTU => Some 59
  | cc_LES => Some 56 | cc_LEU => Some 58 | cc_LTS => Some 54 | cc_LTU => Some 52 | cc_MI => Some 41
  | cc_NC => Some 52 | cc_NEQ => Some 7 | cc_NOV => Some 51 | cc_NZ => Some 7 | cc_OV => Some 50 | cc_PL => Some 40
  | cc_SMI => Some 47 | cc_SNZ => Some 45 | cc_SPL => Some 46 | cc_SZ => Some 44 | cc_TRUE => Some 33
  | cc_XGTS => Some 61 | cc_XGTU => Some 63 | cc_XLES => Some 60 | cc_XLEU => Some 62 | cc_XNZ => Some 11
  | cc_XZ => Some 10 | cc_Z => Some 6
  | _ => None
  end.

Definition FALSE_CC (x : condition) : option Z :=
  match x with
  | cc_FALSE => Some 0
  | _ => None
  end.

Definition IMM_SHIFT_NZ_CC (x : condition) : option Z :=
  match x with
  | cc_E => Some 24 | cc_MI => Some 9 | cc_NZ => Some 3 | cc_O => Some 25 | cc_PL => Some 8 | cc_SE => Some 30
  | cc_SMI => Some 15 | cc_SNZ => Some 13 | cc_SO => Some 31 | cc_SPL => Some 14 | cc_SZ => Some 12
  | cc_TRUE => Some 1 | cc_XNZ => Some 5 | cc_XZ => Some 4 | cc_Z => Some 2
  | _ => None
  end.

Definition LOG_NZ_CC (x : condition) : option Z :=
  match x with
  | cc_MI => Some 9 | cc_NZ => Some 3 | cc_PL => Some 8 | cc_SMI => Some 15 | cc_SNZ => Some 13 | cc_SPL => Some 14
  | cc_SZ => Some 12 | cc_TRUE => Some 1 | cc_XNZ => Some 5 | cc_XZ => Some 4 | cc_Z => Some 2
  | _ => None
  end.

Definition LOG_SET_CC (x : condition) : option Z :=
  match x with
  | cc_NZ => Some 7 | cc_XNZ => Some 11 | cc_XZ => Some 10 | cc_Z => Some 6
  | _ => None
  end.

Definition MUL_NZ_CC (x : condition) : option Z :=
  match x with
  | cc_LARGE => Some 31 | cc_NZ => Some 3 | cc_SMALL => Some 30 | cc_SMI => Some 15 | cc_SNZ => Some 13
  | cc_SPL => Some 14 | cc_SZ => Some 12 | cc_TRUE => Some 1 | cc_XNZ => Some 5 | cc_XZ => Some 4 | cc_Z => Some 2
  | _ => None
  end.

Definition NO_CC (x : condition) : option Z := None.

Definition RELEASE_CC (x : condition) : option Z :=
  match x with
  | cc_NZ => Some 0
  | _ => None
  end.

Definition SHIFT_NZ_CC (x : condition) : option Z :=
  match x with
  | cc_E => Some 24 | cc_MI => Some 9 | cc_NSH32 => Some 28 | cc_NZ => Some 3 | cc_O => Some 25 | cc_PL => Some 8
  | cc_SE => Some 30 | cc_SH32 => Some 29 | cc_SMI => Some 15 | cc_SNZ => Some 13 | cc_SO => Some 31
  | cc_SPL => Some 14 | cc_SZ => Some 12 | cc_TRUE => Some 1 | cc_XNZ => Some 5 | cc_XZ => Some 4 | cc_Z => Some 2
  | _ => None
  end.

Definition SUB_NZ_CC (x : condition) : option Z :=
  match x with
  | cc_C => Some 21 | cc_EQ => Some 2 | cc_GES => Some 23 | cc_GEU => Some 21 | cc_GTS => Some 25 | cc_GTU => Some 27
  | cc_LES => Some 24 | cc_LEU => Some 26 | cc_LTS => Some 22 | cc_LTU => Some 20 | cc_MI => Some 9 | cc_NC => Some 20
  | cc_NEQ => Some 3 | cc_NOV => Some 19 | cc_NZ => Some 3 | cc_OV => Some 18 | cc_PL => Some 8 | cc_SMI => Some 15
  | cc_SNZ => Some 13 | cc_SPL => Some 14 | cc_SZ => Some 12 | cc_TRUE => Some 1 | cc_XGTS => Some 29
  | cc_XGTU => Some 31 | cc_XLES => Some 28 | cc_XLEU => Some 30 | cc_XNZ => Some 5 | cc_XZ => Some 4 | cc_Z => Some 2
  | _ => None
  end.

Definition SUB_SET_CC (x : condition) : option Z :=
  match x with
  | cc_EQ => Some 6 | cc_NEQ => Some 7 | cc_NZ => Some 7 | cc_XNZ => Some 11 | cc_XZ => Some 10 | cc_Z => Some 6
  | _ => None
  end.

Definition TRUE_CC (x : condition) : option Z :=
  match x with
  | cc_TRUE => Some 1
  | _ => None
  end.

Definition TRUE_FALSE_CC (x : condition) : option Z :=
  match x with
  | cc_FALSE => Some 0 | cc_TRUE => Some 1
  | _ => None
  end.

Definition AT_PC (x : Z) : Z := x.

(** * Instructions *)

Definition ACQUIRErici : encoding := macro [ra; imm; cc; pc] 0x7c0380000000 [(ra, 0, 0x1f, 34); (imm, 0, 0xf, 20); (imm, 4, 0xf, 16);
    (imm, 8, 0x1f, 26); (imm, 13, 0x7, 39); (pc, 0, 0xffff, 0); (cc, 0, 0x3, 24)].
Definition ADD_Srri : encoding := macro [dc; rb; imm] 0xe000000000 [(rb, 0, 0x7, 17); (rb, 3, 0x3, 32); (dc, 1, 0xf, 40);
    (imm, 0, 0xf, 20); (imm, 4, 0x7, 34); (imm, 7, 0x1, 44); (imm, 8, 0x1, 15); (imm, 9, 0x1, 14); (imm, 10, 0x1, 13); (imm, 11, 0x1, 12);
    (imm, 12, 0xfff, 0); (imm, 24, 0xff, 24)].
Definition ADD_Srric : encoding := macro [dc; ra; imm; cc] 0x4c8300000000 [(dc, 1, 0x3, 40); (dc, 3, 0x3, 44); (ra, 0, 0x1f, 34);
    (cc, 0, 0x1f, 24); (imm, 0, 0xf, 20); (imm, 4, 0xf, 16); (imm, 8, 0x1, 15); (imm, 9, 0x1, 14); (imm, 10, 0x1, 13); (imm, 11, 0x1, 12);
    (imm, 12, 0xfff, 0)].
Definition ADD_Srrici : encoding := macro [dc; ra; imm; cc; pc] 0x4c8300000000 [(dc, 1, 0x3, 40); (dc, 3, 0x3, 44); (ra, 0, 0x1f, 34);
    (cc, 0, 0x1f, 24); (imm, 0, 0xf, 20); (imm, 4, 0xf, 16); (pc, 0, 0xffff, 0)].
Definition ADD_Srrif : encoding := macro [dc; ra; imm] 0x4c8300000000 [(dc, 1, 0x3, 40); (dc, 3, 0x3, 44); (ra, 0, 0x1f, 34);
    (imm, 0, 0xf, 20); (imm, 4, 0xf, 16); (imm, 8, 0x1, 15); (imm, 9, 0x1, 14); (imm, 10, 0x1, 13); (imm, 11, 0x1, 12);
    (imm, 12, 0xfff, 0)].
Definition ADD_Srrr : encoding := macro [dc; ra; rb] 0x4c8000c00000 [(dc, 1, 0x3, 40); (dc, 3, 0x3, 44); (rb, 0, 0x7, 17);
    (rb, 3, 0x3, 32); (ra, 0, 0x1f, 34)].
Definition ADD_Srrrc : encoding := macro [dc; ra; rb; cc] 0x4c8000c00000 [(dc, 1, 0x3, 40); (dc, 3, 0x3, 44); (rb, 0, 0x7, 17);
    (rb, 3, 0x3, 32); (ra, 0, 0x1f, 34); (cc, 0, 0x1f, 24)].
Definition ADD_Srrrci : encoding := macro [dc; ra; rb; cc; pc] 0x4c8000c00000 [(dc, 1, 0x3, 40); (dc, 3, 0x3, 44); (rb, 0, 0x7, 17);
    (rb, 3, 0x3, 32); (ra, 0, 0x1f, 34); (cc, 0, 0x1f, 24); (pc, 0, 0xffff, 0)].
Definition ADD_Urri : encoding := macro [dc; rb; imm] 0x6000000000 [(rb, 0, 0x7, 17); (rb, 3, 0x3, 32); (dc, 1, 0xf, 40);
    (imm, 0, 0xf, 20); (imm, 4, 0x7, 34); (imm, 7, 0x1, 44); (imm, 8, 0x1, 15); (imm, 9, 0x1, 14); (imm, 10, 0x1, 13); (imm, 11, 0x1, 12);
    (imm, 12, 0xfff, 0); (imm, 24, 0xff, 24)].
Definition ADD_Urric : encoding := macro [dc; ra; imm; cc] 0x4c0300000000 [(dc, 1, 0x3, 40); (dc, 3, 0x3, 44); (ra, 0, 0x1f, 34);
    (cc, 0, 0x1f, 24); (imm, 0, 0xf, 20); (imm, 4, 0xf, 16); (imm, 8, 0x1, 15); (imm, 9, 0x1, 14); (imm, 10, 0x1, 13); (imm, 11, 0x1, 12);
    (imm, 12, 0xfff, 0)].
Definition ADD_Urrici : encoding := macro [dc; ra; imm; cc; pc] 0x4c0300000000 [(dc, 1, 0x3, 40); (dc, 3, 0x3, 44); (ra, 0, 0x1f, 34);
    (cc, 0, 0x1f, 24); (imm, 0, 0xf, 20); (imm, 4, 0xf, 16); (pc, 0, 0xffff, 0)].
Definition ADD_Urrif : encoding := macro [dc; ra; imm] 0x4c0300000000 [(dc, 1, 0x3, 40); (dc, 3, 0x3, 44); (ra, 0, 0x1f, 34);
    (imm, 0, 0xf, 20); (imm, 4, 0xf, 16); (imm, 8, 0x1, 15); (imm, 9, 0x1, 14); (imm, 10, 0x1, 13); (imm, 11, 0x1, 12);
    (imm, 12, 0xfff, 0)].
Definition ADD_Urrr : encoding := macro [dc; ra; rb] 0x4c0000c00000 [(dc, 1, 0x3, 40); (dc, 3, 0x3, 44); (rb, 0, 0x7, 17);
    (rb, 3, 0x3, 32); (ra, 0, 0x1f, 34)].
Definition ADD_Urrrc : encoding := macro [dc; ra; rb; cc] 0x4c0000c00000 [(dc, 1, 0x3, 40); (dc, 3, 0x3, 44); (rb, 0, 0x7, 17);
    (rb, 3, 0x3, 32); (ra, 0, 0x1f, 34); (cc, 0, 0x1f, 24)].
Definition ADD_Urrrci : encoding := macro [dc; ra; rb; cc; pc] 0x4c0000c00000 [(dc, 1, 0x3, 40); (dc, 3, 0x3, 44); (rb, 0, 0x7, 17);
    (rb, 3, 0x3, 32); (ra, 0, 0x1f, 34); (cc, 0, 0x1f, 24); (pc, 0, 0xffff, 0)].
Definition ADDrri : encoding := macro [rc; ra; imm] 0x300000000 [(rc, 0, 0x1f, 39); (ra, 0, 0x1f, 34); (imm, 0, 0xf, 20);
    (imm, 4, 0xf, 16); (imm, 8, 0x1, 15); (imm, 9, 0x1, 14); (imm, 10, 0x1, 13); (imm, 11, 0x1, 12); (imm, 12, 0xfff, 0);
    (imm, 24, 0xff, 24)].
Definition ADDrric : encoding := macro [rc; ra; imm; cc] 0xc0300000000 [(rc, 0, 0x7, 39); (rc, 3, 0x3, 44); (ra, 0, 0x1f, 34);
    (cc, 0, 0x1f, 24); (imm, 0, 0xf, 20); (imm, 4, 0xf, 16); (imm, 8, 0x1, 15); (imm, 9, 0x1, 14); (imm, 10, 0x1, 13); (imm, 11, 0x1, 12);
    (imm, 12, 0xfff, 0)].
Definition ADDrrici : encoding := macro [rc; ra; imm; cc; pc] 0xc0300000000 [(rc, 0, 0x7, 39); (rc, 3, 0x3, 44); (ra, 0, 0x1f, 34);
    (cc, 0, 0x1f, 24); (imm, 0, 0xf, 20); (imm, 4, 0xf, 16); (pc, 0, 0xffff, 0)].
Definition ADDrrif : encoding := macro [rc; ra; imm] 0xc0300000000 [(rc, 0, 0x7, 39); (rc, 3, 0x3, 44); (ra, 0, 0x1f, 34);
    (imm, 0, 0xf, 20); (imm, 4, 0xf, 16); (imm, 8, 0x1, 15); (imm, 9, 0x1, 14); (imm, 10, 0x1, 13); (imm, 11, 0x1, 12);
    (imm, 12, 0xfff, 0)].
Definition ADDrrr : encoding := macro [rc; ra; rb] 0xc0000c00000 [(rc, 0, 0x7, 39); (rc, 3, 0x3, 44); (rb, 0, 0x7, 17); (rb, 3, 0x3, 32);
    (ra, 0, 0x1f, 34)].
Definition ADDrrrc : encoding := macro [rc; ra; rb; cc] 0xc0000c00000 [(rc, 0, 0x7, 39); (rc, 3, 0x3, 44); (rb, 0, 0x7, 17);
    (rb, 3, 0x3, 32); (ra, 0, 0x1f, 34); (cc, 0, 0x1f, 24)].
Definition ADDrrrci : encoding := macro [rc; ra; rb; cc; pc] 0xc0000c00000 [(rc, 0, 0x7, 39); (rc, 3, 0x3, 44); (rb, 0, 0x7, 17);
    (rb, 3, 0x3, 32); (ra, 0, 0x1f, 34); (cc, 0, 0x1f, 24); (pc, 0, 0xffff, 0)].
Definition ADDssi : encoding := macro [rc; ra; imm] 0xc0310000000 [(rc, 0, 0x7, 39); (rc, 3, 0x3, 44); (ra, 0, 0x1f, 34);
    (imm, 0, 0xf, 20); (imm, 4, 0xf, 16); (imm, 8, 0x1, 15); (imm, 9, 0x1, 14); (imm, 10, 0x1, 13); (imm, 11, 0x1, 12);
    (imm, 12, 0x1f, 0); (imm, 16, 0x1, 5); (imm, 16, 0x1, 6); (imm, 16, 0x1, 7); (imm, 16, 0x1, 8); (imm, 16, 0x1, 9); (imm, 16, 0x1, 10);
    (imm, 16, 0x1, 11)].
Definition ADDsss : encoding := macro [rc; ra; rb] 0xc0010c00000 [(rc, 0, 0x7, 39); (rc, 3, 0x3, 44); (rb, 0, 0x1f, 34); (ra, 0, 0x7, 17);
    (ra, 3, 0x3, 32)].
Definition ADDzri : encoding := macro [rb; imm] 0x606000000000 [(rb, 0, 0x7, 17); (rb, 3, 0x3, 32); (imm, 0, 0xf, 20); (imm, 4, 0x7, 34);
    (imm, 7, 0x1, 39); (imm, 8, 0x1, 15); (imm, 9, 0x1, 14); (imm, 10, 0x1, 13); (imm, 11, 0x1, 12); (imm, 12, 0xfff, 0);
    (imm, 24, 0xff, 24)].
Definition ADDzric : encoding := macro [ra; imm; cc] 0x3c0300000000 [(ra, 0, 0x1f, 34); (cc, 0, 0x1f, 24); (imm, 0, 0xf, 20);
    (imm, 4, 0xf, 16); (imm, 8, 0x1, 15); (imm, 9, 0x1, 14); (imm, 10, 0x1, 13); (imm, 11, 0x1, 12); (imm, 12, 0xfff, 0);
    (imm, 24, 0x7, 39)].
Definition ADDzrici : encoding := macro [ra; imm; cc; pc] 0x3c0300000000 [(ra, 0, 0x1f, 34); (cc, 0, 0x1f, 24); (imm, 0, 0xf, 20);
    (imm, 4, 0xf, 16); (imm, 8, 0x7, 39); (pc, 0, 0xffff, 0)].
Definition ADDzrif : encoding := macro [ra; imm] 0x3c0300000000 [(ra, 0, 0x1f, 34); (imm, 0, 0xf, 20); (imm, 4, 0xf, 16);
    (imm, 8, 0x1, 15); (imm, 9, 0x1, 14); (imm, 10, 0x1, 13); (imm, 11, 0x1, 12); (imm, 12, 0xfff, 0); (imm, 24, 0x7, 39)].
Definition ADDzrr : encoding := macro [ra; rb] 0x3c0000c00000 [(rb, 0, 0x7, 17); (rb, 3, 0x3, 32); (ra, 0, 0x1f, 34)].
Definition ADDzrrc : encoding := macro [ra; rb; cc] 0x3c0000c00000 [(rb, 0, 0x7, 17); (rb, 3, 0x3, 32); (ra, 0, 0x1f, 34);
    (cc, 0, 0x1f, 24)].
Definition ADDzrrci : encoding := macro [ra; rb; cc; pc] 0x3c0000c00000 [(rb, 0, 0x7, 17); (rb, 3, 0x3, 32); (ra, 0, 0x1f, 34);
    (cc, 0, 0x1f, 24); (pc, 0, 0xffff, 0)].
Definition ADDC_Srric : encoding := macro [dc; ra; imm; cc] 0x4c8320000000 [(dc, 1, 0x3, 40); (dc, 3, 0x3, 44); (ra, 0, 0x1f, 34);
    (cc, 0, 0x1f, 24); (imm, 0, 0xf, 20); (imm, 4, 0xf, 16); (imm, 8, 0x1, 15); (imm, 9, 0x1, 14); (imm, 10, 0x1, 13); (imm, 11, 0x1, 12);
    (imm, 12, 0xfff, 0)].
Definition ADDC_Srrici : encoding := macro [dc; ra; imm; cc; pc] 0x4c8320000000 [(dc, 1, 0x3, 40); (dc, 3, 0x3, 44); (ra, 0, 0x1f, 34);
    (cc, 0, 0x1f, 24); (imm, 0, 0xf, 20); (imm, 4, 0xf, 16); (pc, 0, 0xffff, 0)].
Definition ADDC_Srrif : encoding := macro [dc; ra; imm] 0x4c8320000000 [(dc, 1, 0x3, 40); (dc, 3, 0x3, 44); (ra, 0, 0x1f, 34);
    (imm, 0, 0xf, 20); (imm, 4, 0xf, 16); (imm, 8, 0x1, 15); (imm, 9, 0x1, 14); (imm, 10, 0x1, 13); (imm, 11, 0x1, 12);
    (imm, 12, 0xfff, 0)].
Definition ADDC_Srrr : encoding := macro [dc; ra; rb] 0x4c8020c00000 [(dc, 1, 0x3, 40); (dc, 3, 0x3, 44); (rb, 0, 0x7, 17);
    (rb, 3, 0x3, 32); (ra, 0, 0x1f, 34)].
Definition ADDC_Srrrc : encoding := macro [dc; ra; rb; cc] 0x4c8020c00000 [(dc, 1, 0x3, 40); (dc, 3, 0x3, 44); (rb, 0, 0x7, 17);
    (rb, 3, 0x3, 32); (ra, 0, 0x1f, 34); (cc, 0, 0x1f, 24)].
Definition ADDC_Srrrci : encoding := macro [dc; ra; rb; cc; pc] 0x4c8020c00000 [(dc, 1, 0x3, 40); (dc, 3, 0x3, 44); (rb, 0, 0x7, 17);
    (rb, 3, 0x3, 32); (ra, 0, 0x1f, 34); (cc, 0, 0x1f, 24); (pc, 0, 0xffff, 0)].
Definition ADDC_Urric : encoding := macro [dc; ra; imm; cc] 0x4c0320000000 [(dc, 1, 0x3, 40); (dc, 3, 0x3, 44); (ra, 0, 0x1f, 34);
    (cc, 0, 0x1f, 24); (imm, 0, 0xf, 20); (imm, 4, 0xf, 16); (imm, 8, 0x1, 15); (imm, 9, 0x1, 14); (imm, 10, 0x1, 13); (imm, 11, 0x1, 12);
    (imm, 12, 0xfff, 0)].
Definition ADDC_Urrici : encoding := macro [dc; ra; imm; cc; pc] 0x4c0320000000 [(dc, 1, 0x3, 40); (dc, 3, 0x3, 44); (ra, 0, 0x1f, 34);
    (cc, 0, 0x1f, 24); (imm, 0, 0xf, 20); (imm, 4, 0xf, 16); (pc, 0, 0xffff, 0)].
Definition ADDC_Urrif : encoding := macro [dc; ra; imm] 0x4c0320000000 [(dc, 1, 0x3, 40); (dc, 3, 0x3, 44); (ra, 0, 0x1f, 34);
    (imm, 0, 0xf, 20); (imm, 4, 0xf, 16); (imm, 8, 0x1, 15); (imm, 9, 0x1, 14); (imm, 10, 0x1, 13); (imm, 11, 0x1, 12);
    (imm, 12, 0xfff, 0)].
Definition ADDC_Urrr : encoding := macro [dc; ra; rb] 0x4c0020c00000 [(dc, 1, 0x3, 40); (dc, 3, 0x3, 44); (rb, 0, 0x7, 17);
    (rb, 3, 0x3, 32); (ra, 0, 0x1f, 34)].
Definition ADDC_Urrrc : encoding := macro [dc; ra; rb; cc] 0x4c0020c00000 [(dc, 1, 0x3, 40); (dc, 3, 0x3, 44); (rb, 0, 0x7, 17);
    (rb, 3, 0x3, 32); (ra, 0, 0x1f, 34); (cc, 0, 0x1f, 24)].
Definition ADDC_Urrrci : encoding := macro [dc; ra; rb; cc; pc] 0x4c0020c00000 [(dc, 1, 0x3, 40); (dc, 3, 0x3, 44); (rb, 0, 0x7, 17);
    (rb, 3, 0x3, 32); (ra, 0, 0x1f, 34); (cc, 0, 0x1f, 24); (pc, 0, 0xffff, 0)].
Definition ADDCrri : encoding := macro [rc; ra; imm] 0x100300000000 [(rc, 0, 0x1f, 39); (ra, 0, 0x1f, 34); (imm, 0, 0xf, 20);
    (imm, 4, 0xf, 16); (imm, 8, 0x1, 15); (imm, 9, 0x1, 14); (imm, 10, 0x1, 13); (imm, 11, 0x1, 12); (imm, 12, 0xfff, 0);
    (imm, 24, 0xff, 24)].
Definition ADDCrric : encoding := macro [rc; ra; imm; cc] 0xc0320000000 [(rc, 0, 0x7, 39); (rc, 3, 0x3, 44); (ra, 0, 0x1f, 34);
    (cc, 0, 0x1f, 24); (imm, 0, 0xf, 20); (imm, 4, 0xf, 16); (imm, 8, 0x1, 15); (imm, 9, 0x1, 14); (imm, 10, 0x1, 13); (imm, 11, 0x1, 12);
    (imm, 12, 0xfff, 0)].
Definition ADDCrrici : encoding := macro [rc; ra; imm; cc; pc] 0xc0320000000 [(rc, 0, 0x7, 39); (rc, 3, 0x3, 44); (ra, 0, 0x1f, 34);
    (cc, 0, 0x1f, 24); (imm, 0, 0xf, 20); (imm, 4, 0xf, 16); (pc, 0, 0xffff, 0)].
Definition ADDCrrif : encoding := macro [rc; ra; imm] 0xc0320000000 [(rc, 0, 0x7, 39); (rc, 3, 0x3, 44); (ra, 0, 0x1f, 34);
    (imm, 0, 0xf, 20); (imm, 4, 0xf, 16); (imm, 8, 0x1, 15); (imm, 9, 0x1, 14); (imm, 10, 0x1, 13); (imm, 11, 0x1, 12);
    (imm, 12, 0xfff, 0)].
Definition ADDCrrr : encoding := macro [rc; ra; rb] 0xc0020c00000 [(rc, 0, 0x7, 39); (rc, 3, 0x3, 44); (rb, 0, 0x7, 17); (rb, 3, 0x3, 32);
    (ra, 0, 0x1f, 34)].
Definition ADDCrrrc : encoding := macro [rc; ra; rb; cc] 0xc0020c00000 [(rc, 0, 0x7, 39); (rc, 3, 0x3, 44); (rb, 0, 0x7, 17);
    (rb, 3, 0x3, 32); (ra, 0, 0x1f, 34); (cc, 0, 0x1f, 24)].
Definition ADDCrrrci : encoding := macro [rc; ra; rb; cc; pc] 0xc0020c00000 [(rc, 0, 0x7, 39); (rc, 3, 0x3, 44); (rb, 0, 0x7, 17);
    (rb, 3, 0x3, 32); (ra, 0, 0x1f, 34); (cc, 0, 0x1f, 24); (pc, 0, 0xffff, 0)].
Definition ADDCzri : encoding := macro [rb; imm] 0x616000000000 [(rb, 0, 0x7, 17); (rb, 3, 0x3, 32); (imm, 0, 0xf, 20); (imm, 4, 0x7, 34);
    (imm, 7, 0x1, 39); (imm, 8, 0x1, 15); (imm, 9, 0x1, 14); (imm, 10, 0x1, 13); (imm, 11, 0x1, 12); (imm, 12, 0xfff, 0);
    (imm, 24, 0xff, 24)].
Definition ADDCzric : encoding := macro [ra; imm; cc] 0x3c0320000000 [(ra, 0, 0x1f, 34); (cc, 0, 0x1f, 24); (imm, 0, 0xf, 20);
    (imm, 4, 0xf, 16); (imm, 8, 0x1, 15); (imm, 9, 0x1, 14); (imm, 10, 0x1, 13); (imm, 11, 0x1, 12); (imm, 12, 0xfff, 0);
    (imm, 24, 0x7, 39)].
Definition ADDCzrici : encoding := macro [ra; imm; cc; pc] 0x3c0320000000 [(ra, 0, 0x1f, 34); (cc, 0, 0x1f, 24); (imm, 0, 0xf, 20);
    (imm, 4, 0xf, 16); (imm, 8, 0x7, 39); (pc, 0, 0xffff, 0)].
Definition ADDCzrif : encoding := macro [ra; imm] 0x3c0320000000 [(ra, 0, 0x1f, 34); (imm, 0, 0xf, 20); (imm, 4, 0xf, 16);
    (imm, 8, 0x1, 15); (imm, 9, 0x1, 14); (imm, 10, 0x1, 13); (imm, 11, 0x1, 12); (imm, 12, 0xfff, 0); (imm, 24, 0x7, 39)].
Definition ADDCzrr : encoding := macro [ra; rb] 0x3c0020c00000 [(rb, 0, 0x7, 17); (rb, 3, 0x3, 32); (ra, 0, 0x1f, 34)].
Definition ADDCzrrc : encoding := macro [ra; rb; cc] 0x3c0020c00000 [(rb, 0, 0x7, 17); (rb, 3, 0x3, 32); (ra, 0, 0x1f, 34);
    (cc, 0, 0x1f, 24)].
Definition ADDCzrrci : encoding := macro [ra; rb; cc; pc] 0x3c0020c00000 [(rb, 0, 0x7, 17); (rb, 3, 0x3, 32); (ra, 0, 0x1f, 34);
    (cc, 0, 0x1f, 24); (pc, 0, 0xffff, 0)].
Definition ADDSrri : encoding := macro [rc; ra; imm] 0xc0310000000 [(rc, 0, 0x7, 39); (rc, 3, 0x3, 44); (ra, 0, 0x1f, 34);
    (imm, 0, 0xf, 20); (imm, 4, 0xf, 16); (imm, 8, 0x1, 15); (imm, 9, 0x1, 14); (imm, 10, 0x1, 13); (imm, 11, 0x1, 12);
    (imm, 12, 0x1f, 0); (imm, 16, 0x1, 5); (imm, 16, 0x1, 6); (imm, 16, 0x1, 7); (imm, 16, 0x1, 8); (imm, 16, 0x1, 9); (imm, 16, 0x1, 10);
    (imm, 16, 0x1, 11)].
Definition ADDSrrr : encoding := macro [rc; ra; rb] 0xc0010c00000 [(rc, 0, 0x7, 39); (rc, 3, 0x3, 44); (rb, 0, 0x1f, 34);
    (ra, 0, 0x7, 17); (ra, 3, 0x3, 32)].
Definition AND_Srki : encoding := macro [dc; ra; imm] 0x508300000000 [(ra, 0, 0x1f, 34); (dc, 1, 0xf, 40); (imm, 0, 0xf, 20);
    (imm, 4, 0xf, 16); (imm, 8, 0x1, 15); (imm, 9, 0x1, 14); (imm, 10, 0x1, 13); (imm, 11, 0x1, 12); (imm, 12, 0xfff, 0);
    (imm, 24, 0xff, 24)].
Definition AND_Srri : encoding := macro [dc; rb; imm] 0x20e000000000 [(rb, 0, 0x7, 17); (rb, 3, 0x3, 32); (dc, 1, 0xf, 40);
    (imm, 0, 0xf, 20); (imm, 4, 0x7, 34); (imm, 7, 0x1, 44); (imm, 8, 0x1, 15); (imm, 9, 0x1, 14); (imm, 10, 0x1, 13); (imm, 11, 0x1, 12);
    (imm, 12, 0xfff, 0); (imm, 24, 0xff, 24)].
Definition AND_Srric : encoding := macro [dc; ra; imm; cc] 0x9083a0000000 [(dc, 1, 0xf, 40); (ra, 0, 0x1f, 34); (cc, 0, 0xf, 24);
    (imm, 0, 0xf, 20); (imm, 4, 0xf, 16); (imm, 8, 0x1, 15); (imm, 9, 0x1, 14); (imm, 10, 0x1, 13); (imm, 11, 0x1, 12);
    (imm, 12, 0xfff, 0)].
Definition AND_Srrici : encoding := macro [dc; ra; imm; cc; pc] 0x9083a0000000 [(dc, 1, 0xf, 40); (ra, 0, 0x1f, 34); (cc, 0, 0xf, 24);
    (imm, 0, 0xf, 20); (imm, 4, 0xf, 16); (pc, 0, 0xffff, 0)].
Definition AND_Srrif : encoding := macro [dc; ra; imm] 0x9083a0000000 [(dc, 1, 0xf, 40); (ra, 0, 0x1f, 34); (imm, 0, 0xf, 20);
    (imm, 4, 0xf, 16); (imm, 8, 0x1, 15); (imm, 9, 0x1, 14); (imm, 10, 0x1, 13); (imm, 11, 0x1, 12); (imm, 12, 0xfff, 0)].
Definition AND_Srrr : encoding := macro [dc; ra; rb] 0x9080c0a00000 [(rb, 0, 0x7, 17); (rb, 3, 0x3, 32); (dc, 1, 0xf, 40);
    (ra, 0, 0x1f, 34)].
Definition AND_Srrrc : encoding := macro [dc; ra; rb; cc] 0x9080c0a00000 [(rb, 0, 0x7, 17); (rb, 3, 0x3, 32); (dc, 1, 0xf, 40);
    (ra, 0, 0x1f, 34); (cc, 0, 0xf, 24)].
Definition AND_Srrrci : encoding := macro [dc; ra; rb; cc; pc] 0x9080c0a00000 [(rb, 0, 0x7, 17); (rb, 3, 0x3, 32); (dc, 1, 0xf, 40);
    (ra, 0, 0x1f, 34); (cc, 0, 0xf, 24); (pc, 0, 0xffff, 0)].
Definition AND_Urki : encoding := macro [dc; ra; imm] 0x500300000000 [(ra, 0, 0x1f, 34); (dc, 1, 0xf, 40); (imm, 0, 0xf, 20);
    (imm, 4, 0xf, 16); (imm, 8, 0x1, 15); (imm, 9, 0x1, 14); (imm, 10, 0x1, 13); (imm, 11, 0x1, 12); (imm, 12, 0xfff, 0);
    (imm, 24, 0xff, 24)].
Definition AND_Urri : encoding := macro [dc; rb; imm] 0x206000000000 [(rb, 0, 0x7, 17); (rb, 3, 0x3, 32); (dc, 1, 0xf, 40);
    (imm, 0, 0xf, 20); (imm, 4, 0x7, 34); (imm, 7, 0x1, 44); (imm, 8, 0x1, 15); (imm, 9, 0x1, 14); (imm, 10, 0x1, 13); (imm, 11, 0x1, 12);
    (imm, 12, 0xfff, 0); (imm, 24, 0xff, 24)].
Definition AND_Urric : encoding := macro [dc; ra; imm; cc] 0x9003a0000000 [(dc, 1, 0xf, 40); (ra, 0, 0x1f, 34); (cc, 0, 0xf, 24);
    (imm, 0, 0xf, 20); (imm, 4, 0xf, 16); (imm, 8, 0x1, 15); (imm, 9, 0x1, 14); (imm, 10, 0x1, 13); (imm, 11, 0x1, 12);
    (imm, 12, 0xfff, 0)].
Definition AND_Urrici : encoding := macro [dc; ra; imm; cc; pc] 0x9003a0000000 [(dc, 1, 0xf, 40); (ra, 0, 0x1f, 34); (cc, 0, 0xf, 24);
    (imm, 0, 0xf, 20); (imm, 4, 0xf, 16); (pc, 0, 0xffff, 0)].
Definition AND_Urrif : encoding := macro [dc; ra; imm] 0x9003a0000000 [(dc, 1, 0xf, 40); (ra, 0, 0x1f, 34); (imm, 0, 0xf, 20);
    (imm, 4, 0xf, 16); (imm, 8, 0x1, 15); (imm, 9, 0x1, 14); (imm, 10, 0x1, 13); (imm, 11, 0x1, 12); (imm, 12, 0xfff, 0)].
Definition AND_Urrr : encoding := macro [dc; ra; rb] 0x9000c0a00000 [(rb, 0, 0x7, 17); (rb, 3, 0x3, 32); (dc, 1, 0xf, 40);
    (ra, 0, 0x1f, 34)].
Definition AND_Urrrc : encoding := macro [dc; ra; rb; cc] 0x9000c0a00000 [(rb, 0, 0x7, 17); (rb, 3, 0x3, 32); (dc, 1, 0xf, 40);
    (ra, 0, 0x1f, 34); (cc, 0, 0xf, 24)].
Definition AND_Urrrci : encoding := macro [dc; ra; rb; cc; pc] 0x9000c0a00000 [(rb, 0, 0x7, 17); (rb, 3, 0x3, 32); (dc, 1, 0xf, 40);
    (ra, 0, 0x1f, 34); (cc, 0, 0xf, 24); (pc, 0, 0xffff, 0)].
Definition ANDrri : encoding := macro [rc; ra; imm] 0x500300000000 [(ra, 0, 0x1f, 34); (rc, 0, 0x1f, 39); (imm, 0, 0xf, 20);
    (imm, 4, 0xf, 16); (imm, 8, 0x1, 15); (imm, 9, 0x1, 14); (imm, 10, 0x1, 13); (imm, 11, 0x1, 12); (imm, 12, 0xfff, 0);
    (imm, 24, 0xff, 24)].
Definition ANDrric : encoding := macro [rc; ra; imm; cc] 0x8003a0000000 [(rc, 0, 0x1f, 39); (ra, 0, 0x1f, 34); (cc, 0, 0xf, 24);
    (imm, 0, 0xf, 20); (imm, 4, 0xf, 16); (imm, 8, 0x1, 15); (imm, 9, 0x1, 14); (imm, 10, 0x1, 13); (imm, 11, 0x1, 12);
    (imm, 12, 0xfff, 0)].
Definition ANDrrici : encoding := macro [rc; ra; imm; cc; pc] 0x8003a0000000 [(rc, 0, 0x1f, 39); (ra, 0, 0x1f, 34); (cc, 0, 0xf, 24);
    (imm, 0, 0xf, 20); (imm, 4, 0xf, 16); (pc, 0, 0xffff, 0)].
Definition ANDrrif : encoding := macro [rc; ra; imm] 0x8003a0000000 [(rc, 0, 0x1f, 39); (ra, 0, 0x1f, 34); (imm, 0, 0xf, 20);
    (imm, 4, 0xf, 16); (imm, 8, 0x1, 15); (imm, 9, 0x1, 14); (imm, 10, 0x1, 13); (imm, 11, 0x1, 12); (imm, 12, 0xfff, 0)].
Definition ANDrrr : encoding := macro [rc; ra; rb] 0x8000c0a00000 [(rb, 0, 0x7, 17); (rb, 3, 0x3, 32); (rc, 0, 0x1f, 39);
    (ra, 0, 0x1f, 34)].
Definition ANDrrrc : encoding := macro [rc; ra; rb; cc] 0x8000c0a00000 [(rb, 0, 0x7, 17); (rb, 3, 0x3, 32); (rc, 0, 0x1f, 39);
    (ra, 0, 0x1f, 34); (cc, 0, 0xf, 24)].
Definition ANDrrrci : encoding := macro [rc; ra; rb; cc; pc] 0x8000c0a00000 [(rb, 0, 0x7, 17); (rb, 3, 0x3, 32); (rc, 0, 0x1f, 39);
    (ra, 0, 0x1f, 34); (cc, 0, 0xf, 24); (pc, 0, 0xffff, 0)].
Definition ANDzri : encoding := macro [rb; imm] 0x656000000000 [(rb, 0, 0x7, 17); (rb, 3, 0x3, 32); (imm, 0, 0xf, 20); (imm, 4, 0x7, 34);
    (imm, 7, 0x1, 39); (imm, 8, 0x1, 15); (imm, 9, 0x1, 14); (imm, 10, 0x1, 13); (imm, 11, 0x1, 12); (imm, 12, 0xfff, 0);
    (imm, 24, 0xff, 24)].
Definition ANDzric : encoding := macro [ra; imm; cc] 0x8c03a0000000 [(ra, 0, 0x1f, 34); (cc, 0, 0xf, 24); (imm, 0, 0xf, 20);
    (imm, 4, 0xf, 16); (imm, 8, 0x1, 15); (imm, 9, 0x1, 14); (imm, 10, 0x1, 13); (imm, 11, 0x1, 12); (imm, 12, 0xfff, 0);
    (imm, 24, 0x7, 39); (imm, 27, 0x1, 44)].
Definition ANDzrici : encoding := macro [ra; imm; cc; pc] 0x8c03a0000000 [(ra, 0, 0x1f, 34); (cc, 0, 0xf, 24); (imm, 0, 0xf, 20);
    (imm, 4, 0xf, 16); (imm, 8, 0x7, 39); (imm, 11, 0x1, 44); (pc, 0, 0xffff, 0)].
Definition ANDzrif : encoding := macro [ra; imm] 0x8c03a0000000 [(ra, 0, 0x1f, 34); (imm, 0, 0xf, 20); (imm, 4, 0xf, 16);
    (imm, 8, 0x1, 15); (imm, 9, 0x1, 14); (imm, 10, 0x1, 13); (imm, 11, 0x1, 12); (imm, 12, 0xfff, 0); (imm, 24, 0x7, 39);
    (imm, 27, 0x1, 44)].
Definition ANDzrr : encoding := macro [ra; rb] 0x8c00c0a00000 [(rb, 0, 0x7, 17); (rb, 3, 0x3, 32); (ra, 0, 0x1f, 34)].
Definition ANDzrrc : encoding := macro [ra; rb; cc] 0x8c00c0a00000 [(rb, 0, 0x7, 17); (rb, 3, 0x3, 32); (ra, 0, 0x1f, 34);
    (cc, 0, 0xf, 24)].
Definition ANDzrrci : encoding := macro [ra; rb; cc; pc] 0x8c00c0a00000 [(rb, 0, 0x7, 17); (rb, 3, 0x3, 32); (ra, 0, 0x1f, 34);
    (cc, 0, 0xf, 24); (pc, 0, 0xffff, 0)].
Definition ANDN_Srric : encoding := macro [dc; ra; imm; cc] 0x9083c0000000 [(dc, 1, 0xf, 40); (ra, 0, 0x1f, 34); (cc, 0, 0xf, 24);
    (imm, 0, 0xf, 20); (imm, 4, 0xf, 16); (imm, 8, 0x1, 15); (imm, 9, 0x1, 14); (imm, 10, 0x1, 13); (imm, 11, 0x1, 12);
    (imm, 12, 0xfff, 0)].
Definition ANDN_Srrici : encoding := macro [dc; ra; imm; cc; pc] 0x9083c0000000 [(dc, 1, 0xf, 40); (ra, 0, 0x1f, 34); (cc, 0, 0xf, 24);
    (imm, 0, 0xf, 20); (imm, 4, 0xf, 16); (pc, 0, 0xffff, 0)].
Definition ANDN_Srrif : encoding := macro [dc; ra; imm] 0x9083c0000000 [(dc, 1, 0xf, 40); (ra, 0, 0x1f, 34); (imm, 0, 0xf, 20);
    (imm, 4, 0xf, 16); (imm, 8, 0x1, 15); (imm, 9, 0x1, 14); (imm, 10, 0x1, 13); (imm, 11, 0x1, 12); (imm, 12, 0xfff, 0)].
Definition ANDN_Srrr : encoding := macro [dc; ra; rb] 0x9080c0c00000 [(rb, 0, 0x7, 17); (rb, 3, 0x3, 32); (dc, 1, 0xf, 40);
    (ra, 0, 0x1f, 34)].
Definition ANDN_Srrrc : encoding := macro [dc; ra; rb; cc] 0x9080c0c00000 [(rb, 0, 0x7, 17); (rb, 3, 0x3, 32); (dc, 1, 0xf, 40);
    (ra, 0, 0x1f, 34); (cc, 0, 0xf, 24)].
Definition ANDN_Srrrci : encoding := macro [dc; ra; rb; cc; pc] 0x9080c0c00000 [(rb, 0, 0x7, 17); (rb, 3, 0x3, 32); (dc, 1, 0xf, 40);
    (ra, 0, 0x1f, 34); (cc, 0, 0xf, 24); (pc, 0, 0xffff, 0)].
Definition ANDN_Urric : encoding := macro [dc; ra; imm; cc] 0x9003c0000000 [(dc, 1, 0xf, 40); (ra, 0, 0x1f, 34); (cc, 0, 0xf, 24);
    (imm, 0, 0xf, 20); (imm, 4, 0xf, 16); (imm, 8, 0x1, 15); (imm, 9, 0x1, 14); (imm, 10, 0x1, 13); (imm, 11, 0x1, 12);
    (imm, 12, 0xfff, 0)].
Definition ANDN_Urrici : encoding := macro [dc; ra; imm; cc; pc] 0x9003c0000000 [(dc, 1, 0xf, 40); (ra, 0, 0x1f, 34); (cc, 0, 0xf, 24);
    (imm, 0, 0xf, 20); (imm, 4, 0xf, 16); (pc, 0, 0xffff, 0)].
Definition ANDN_Urrif : encoding := macro [dc; ra; imm] 0x9003c0000000 [(dc, 1, 0xf, 40); (ra, 0, 0x1f, 34); (imm, 0, 0xf, 20);
    (imm, 4, 0xf, 16); (imm, 8, 0x1, 15); (imm, 9, 0x1, 14); (imm, 10, 0x1, 13); (imm, 11, 0x1, 12); (imm, 12, 0xfff, 0)].
Definition ANDN_Urrr : encoding := macro [dc; ra; rb] 0x9000c0c00000 [(rb, 0, 0x7, 17); (rb, 3, 0x3, 32); (dc, 1, 0xf, 40);
    (ra, 0, 0x1f, 34)].
Definition ANDN_Urrrc : encoding := macro [dc; ra; rb; cc] 0x9000c0c00000 [(rb, 0, 0x7, 17); (rb, 3, 0x3, 32); (dc, 1, 0xf, 40);
    (ra, 0, 0x1f, 34); (cc, 0, 0xf, 24)].
Definition ANDN_Urrrci : encoding := macro [dc; ra; rb; cc; pc] 0x9000c0c00000 [(rb, 0, 0x7, 17); (rb, 3, 0x3, 32); (dc, 1, 0xf, 40);
    (ra, 0, 0x1f, 34); (cc, 0, 0xf, 24); (pc, 0, 0xffff, 0)].
Definition ANDNrri : encoding := macro [rc; ra; imm] 0x8003c0000000 [(rc, 0, 0x1f, 39); (ra, 0, 0x1f, 34); (imm, 0, 0xf, 20);
    (imm, 4, 0xf, 16); (imm, 8, 0x1, 15); (imm, 9, 0x1, 14); (imm, 10, 0x1, 13); (imm, 11, 0x1, 12); (imm, 12, 0xfff, 0)].
Definition ANDNrric : encoding := macro [rc; ra; imm; cc] 0x8003c0000000 [(rc, 0, 0x1f, 39); (ra, 0, 0x1f, 34); (cc, 0, 0xf, 24);
    (imm, 0, 0xf, 20); (imm, 4, 0xf, 16); (imm, 8, 0x1, 15); (imm, 9, 0x1, 14); (imm, 10, 0x1, 13); (imm, 11, 0x1, 12);
    (imm, 12, 0xfff, 0)].
Definition ANDNrrici : encoding := macro [rc; ra; imm; cc; pc] 0x8003c0000000 [(rc, 0, 0x1f, 39); (ra, 0, 0x1f, 34); (cc, 0, 0xf, 24);
    (imm, 0, 0xf, 20); (imm, 4, 0xf, 16); (pc, 0, 0xffff, 0)].
Definition ANDNrrif : encoding := macro [rc; ra; imm] 0x8003c0000000 [(rc, 0, 0x1f, 39); (ra, 0, 0x1f, 34); (imm, 0, 0xf, 20);
    (imm, 4, 0xf, 16); (imm, 8, 0x1, 15); (imm, 9, 0x1, 14); (imm, 10, 0x1, 13); (imm, 11, 0x1, 12); (imm, 12, 0xfff, 0)].
Definition ANDNrrr : encoding := macro [rc; ra; rb] 0x8000c0c00000 [(rb, 0, 0x7, 17); (rb, 3, 0x3, 32); (rc, 0, 0x1f, 39);
    (ra, 0, 0x1f, 34)].
Definition ANDNrrrc : encoding := macro [rc; ra; rb; cc] 0x8000c0c00000 [(rb, 0, 0x7, 17); (rb, 3, 0x3, 32); (rc, 0, 0x1f, 39);
    (ra, 0, 0x1f, 34); (cc, 0, 0xf, 24)].
Definition ANDNrrrci : encoding := macro [rc; ra; rb; cc; pc] 0x8000c0c00000 [(rb, 0, 0x7, 17); (rb, 3, 0x3, 32); (rc, 0, 0x1f, 39);
    (ra, 0, 0x1f, 34); (cc, 0, 0xf, 24); (pc, 0, 0xffff, 0)].
Definition ANDNzric : encoding := macro [ra; imm; cc] 0x8c03c0000000 [(ra, 0, 0x1f, 34); (cc, 0, 0xf, 24); (imm, 0, 0xf, 20);
    (imm, 4, 0xf, 16); (imm, 8, 0x1, 15); (imm, 9, 0x1, 14); (imm, 10, 0x1, 13); (imm, 11, 0x1, 12); (imm, 12, 0xfff, 0);
    (imm, 24, 0x7, 39); (imm, 27, 0x1, 44)].
Definition ANDNzrici : encoding := macro [ra; imm; cc; pc] 0x8c03c0000000 [(ra, 0, 0x1f, 34); (cc, 0, 0xf, 24); (imm, 0, 0xf, 20);
    (imm, 4, 0xf, 16); (imm, 8, 0x7, 39); (imm, 11, 0x1, 44); (pc, 0, 0xffff, 0)].
Definition ANDNzrif : encoding := macro [ra; imm] 0x8c03c0000000 [(ra, 0, 0x1f, 34); (imm, 0, 0xf, 20); (imm, 4, 0xf, 16);
    (imm, 8, 0x1, 15); (imm, 9, 0x1, 14); (imm, 10, 0x1, 13); (imm, 11, 0x1, 12); (imm, 12, 0xfff, 0); (imm, 24, 0x7, 39);
    (imm, 27, 0x1, 44)].
Definition ANDNzrr : encoding := macro [ra; rb] 0x8c00c0c00000 [(rb, 0, 0x7, 17); (rb, 3, 0x3, 32); (ra, 0, 0x1f, 34)].
Definition ANDNzrrc : encoding := macro [ra; rb; cc] 0x8c00c0c00000 [(rb, 0, 0x7, 17); (rb, 3, 0x3, 32); (ra, 0, 0x1f, 34);
    (cc, 0, 0xf, 24)].
Definition ANDNzrrci : encoding := macro [ra; rb; cc; pc] 0x8c00c0c00000 [(rb, 0, 0x7, 17); (rb, 3, 0x3, 32); (ra, 0, 0x1f, 34);
    (cc, 0, 0xf, 24); (pc, 0, 0xffff, 0)].
Definition ASR_Srri : encoding := macro [dc; ra; shift] 0x908340080000 [(dc, 1, 0xf, 40); (ra, 0, 0x1f, 34); (shift, 0, 0xf, 20);
    (shift, 4, 0x1, 28)].
Definition ASR_Srric : encoding := macro [dc; ra; shift; cc] 0x908340080000 [(dc, 1, 0xf, 40); (ra, 0, 0x1f, 34); (cc, 0, 0xf, 24);
    (shift, 0, 0xf, 20); (shift, 4, 0x1, 28)].
Definition ASR_Srrici : encoding := macro [dc; ra; shift; cc; pc] 0x908340080000 [(dc, 1, 0xf, 40); (ra, 0, 0x1f, 34); (cc, 0, 0xf, 24);
    (cc, 4, 0x1, 29); (shift, 0, 0xf, 20); (shift, 4, 0x1, 28); (pc, 0, 0xffff, 0)].
Definition ASR_Srrr : encoding := macro [dc; ra; rb] 0x9080d0800000 [(rb, 0, 0x7, 17); (rb, 3, 0x3, 32); (dc, 1, 0xf, 40);
    (ra, 0, 0x1f, 34)].
Definition ASR_Srrrc : encoding := macro [dc; ra; rb; cc] 0x9080d0800000 [(rb, 0, 0x7, 17); (rb, 3, 0x3, 32); (dc, 1, 0xf, 40);
    (ra, 0, 0x1f, 34); (cc, 0, 0xf, 24)].
Definition ASR_Srrrci : encoding := macro [dc; ra; rb; cc; pc] 0x9080d0800000 [(rb, 0, 0x7, 17); (rb, 3, 0x3, 32); (dc, 1, 0xf, 40);
    (ra, 0, 0x1f, 34); (cc, 0, 0xf, 24); (cc, 4, 0x1, 29); (pc, 0, 0xffff, 0)].
Definition ASR_Urri : encoding := macro [dc; ra; shift] 0x900340080000 [(dc, 1, 0xf, 40); (ra, 0, 0x1f, 34); (shift, 0, 0xf, 20);
    (shift, 4, 0x1, 28)].
Definition ASR_Urric : encoding := macro [dc; ra; shift; cc] 0x900340080000 [(dc, 1, 0xf, 40); (ra, 0, 0x1f, 34); (cc, 0, 0xf, 24);
    (shift, 0, 0xf, 20); (shift, 4, 0x1, 28)].
Definition ASR_Urrici : encoding := macro [dc; ra; shift; cc; pc] 0x900340080000 [(dc, 1, 0xf, 40); (ra, 0, 0x1f, 34); (cc, 0, 0xf, 24);
    (cc, 4, 0x1, 29); (shift, 0, 0xf, 20); (shift, 4, 0x1, 28); (pc, 0, 0xffff, 0)].
Definition ASR_Urrr : encoding := macro [dc; ra; rb] 0x9000d0800000 [(rb, 0, 0x7, 17); (rb, 3, 0x3, 32); (dc, 1, 0xf, 40);
    (ra, 0, 0x1f, 34)].
Definition ASR_Urrrc : encoding := macro [dc; ra; rb; cc] 0x9000d0800000 [(rb, 0, 0x7, 17); (rb, 3, 0x3, 32); (dc, 1, 0xf, 40);
    (ra, 0, 0x1f, 34); (cc, 0, 0xf, 24)].
Definition ASR_Urrrci : encoding := macro [dc; ra; rb; cc; pc] 0x9000d0800000 [(rb, 0, 0x7, 17); (rb, 3, 0x3, 32); (dc, 1, 0xf, 40);
    (ra, 0, 0x1f, 34); (cc, 0, 0xf, 24); (cc, 4, 0x1, 29); (pc, 0, 0xffff, 0)].
Definition ASRrri : encoding := macro [rc; ra; shift] 0x800340080000 [(rc, 0, 0x1f, 39); (ra, 0, 0x1f, 34); (shift, 0, 0xf, 20);
    (shift, 4, 0x1, 28)].
Definition ASRrric : encoding := macro [rc; ra; shift; cc] 0x800340080000 [(rc, 0, 0x1f, 39); (ra, 0, 0x1f, 34); (cc, 0, 0xf, 24);
    (shift, 0, 0xf, 20); (shift, 4, 0x1, 28)].
Definition ASRrrici : encoding := macro [rc; ra; shift; cc; pc] 0x800340080000 [(rc, 0, 0x1f, 39); (ra, 0, 0x1f, 34); (cc, 0, 0xf, 24);
    (cc, 4, 0x1, 29); (shift, 0, 0xf, 20); (shift, 4, 0x1, 28); (pc, 0, 0xffff, 0)].
Definition ASRrrr : encoding := macro [rc; ra; rb] 0x8000d0800000 [(rb, 0, 0x7, 17); (rb, 3, 0x3, 32); (rc, 0, 0x1f, 39);
    (ra, 0, 0x1f, 34)].
Definition ASRrrrc : encoding := macro [rc; ra; rb; cc] 0x8000d0800000 [(rb, 0, 0x7, 17); (rb, 3, 0x3, 32); (rc, 0, 0x1f, 39);
    (ra, 0, 0x1f, 34); (cc, 0, 0xf, 24)].
Definition ASRrrrci : encoding := macro [rc; ra; rb; cc; pc] 0x8000d0800000 [(rb, 0, 0x7, 17); (rb, 3, 0x3, 32); (rc, 0, 0x1f, 39);
    (ra, 0, 0x1f, 34); (cc, 0, 0xf, 24); (cc, 4, 0x1, 29); (pc, 0, 0xffff, 0)].
Definition ASRzri : encoding := macro [ra; shift] 0x8c0340080000 [(ra, 0, 0x1f, 34); (shift, 0, 0xf, 20); (shift, 4, 0x1, 28)].
Definition ASRzric : encoding := macro [ra; shift; cc] 0x8c0340080000 [(ra, 0, 0x1f, 34); (cc, 0, 0xf, 24); (shift, 0, 0xf, 20);
    (shift, 4, 0x1, 28)].
Definition ASRzrici : encoding := macro [ra; shift; cc; pc] 0x8c0340080000 [(ra, 0, 0x1f, 34); (cc, 0, 0xf, 24); (cc, 4, 0x1, 29);
    (shift, 0, 0xf, 20); (shift, 4, 0x1, 28); (pc, 0, 0xffff, 0)].
Definition ASRzrr : encoding := macro [ra; rb] 0x8c00d0800000 [(rb, 0, 0x7, 17); (rb, 3, 0x3, 32); (ra, 0, 0x1f, 34)].
Definition ASRzrrc : encoding := macro [ra; rb; cc] 0x8c00d0800000 [(rb, 0, 0x7, 17); (rb, 3, 0x3, 32); (ra, 0, 0x1f, 34);
    (cc, 0, 0xf, 24)].
Definition ASRzrrci : encoding := macro [ra; rb; cc; pc] 0x8c00d0800000 [(rb, 0, 0x7, 17); (rb, 3, 0x3, 32); (ra, 0, 0x1f, 34);
    (cc, 0, 0xf, 24); (cc, 4, 0x1, 29); (pc, 0, 0xffff, 0)].
Definition BKP : encoding := macro [] 0x7e6320000000 [].
Definition BOOTri : encoding := macro [ra; imm] 0x7d8320000000 [(ra, 0, 0x1f, 34); (imm, 0, 0xf, 20); (imm, 4, 0xf, 16)].
Definition BOOTrici : encoding := macro [ra; imm; cc; pc] 0x7d8320000000 [(ra, 0, 0x1f, 34); (cc, 0, 0xf, 24); (imm, 0, 0xf, 20);
    (imm, 4, 0xf, 16); (pc, 0, 0xffff, 0)].
Definition CALLri : encoding := macro [rc; off] 0x806300000000 [(rc, 0, 0x1f, 39); (off, 0, 0xf, 20); (off, 4, 0xf, 16);
    (off, 8, 0x1, 15); (off, 9, 0x1, 14); (off, 10, 0x1, 13); (off, 11, 0x1, 12); (off, 12, 0xfff, 0)].
Definition CALLrr : encoding := macro [rc; ra] 0x800300000000 [(rc, 0, 0x1f, 39); (ra, 0, 0x1f, 34)].
Definition CALLrri : encoding := macro [rc; ra; off] 0x800300000000 [(rc, 0, 0x1f, 39); (ra, 0, 0x1f, 34); (off, 0, 0xf, 20);
    (off, 4, 0xf, 16); (off, 8, 0x1, 15); (off, 9, 0x1, 14); (off, 10, 0x1, 13); (off, 11, 0x1, 12); (off, 12, 0xfff, 0)].
Definition CALLrrr : encoding := macro [rc; ra; rb] 0x8000c0000000 [(rb, 0, 0x7, 17); (rb, 3, 0x3, 32); (rc, 0, 0x1f, 39);
    (ra, 0, 0x1f, 34)].
Definition CALLzri : encoding := macro [ra; off] 0x8c0300000000 [(ra, 0, 0x1f, 34); (off, 0, 0xf, 20); (off, 4, 0xf, 16);
    (off, 8, 0x1, 15); (off, 9, 0x1, 14); (off, 10, 0x1, 13); (off, 11, 0x1, 12); (off, 12, 0xfff, 0); (off, 24, 0x7, 39);
    (off, 27, 0x1, 44)].
Definition CALLzrr : encoding := macro [ra; rb] 0x8c00c0000000 [(rb, 0, 0x7, 17); (rb, 3, 0x3, 32); (ra, 0, 0x1f, 34)].
Definition CAO_Srr : encoding := macro [dc; ra] 0x908330000000 [(ra, 0, 0x1f, 34); (dc, 1, 0xf, 40)].
Definition CAO_Srrc : encoding := macro [dc; ra; cc] 0x908330000000 [(ra, 0, 0x1f, 34); (dc, 1, 0xf, 40); (cc, 0, 0xf, 24)].
Definition CAO_Srrci : encoding := macro [dc; ra; cc; pc] 0x908330000000 [(ra, 0, 0x1f, 34); (dc, 1, 0xf, 40); (cc, 0, 0xf, 24);
    (pc, 0, 0xffff, 0)].
Definition CAO_Urr : encoding := macro [dc; ra] 0x900330000000 [(ra, 0, 0x1f, 34); (dc, 1, 0xf, 40)].
Definition CAO_Urrc : encoding := macro [dc; ra; cc] 0x900330000000 [(ra, 0, 0x1f, 34); (dc, 1, 0xf, 40); (cc, 0, 0xf, 24)].
Definition CAO_Urrci : encoding := macro [dc; ra; cc; pc] 0x900330000000 [(ra, 0, 0x1f, 34); (dc, 1, 0xf, 40); (cc, 0, 0xf, 24);
    (pc, 0, 0xffff, 0)].
Definition CAOrr : encoding := macro [rc; ra] 0x800330000000 [(ra, 0, 0x1f, 34); (rc, 0, 0x1f, 39)].
Definition CAOrrc : encoding := macro [rc; ra; cc] 0x800330000000 [(ra, 0, 0x1f, 34); (rc, 0, 0x1f, 39); (cc, 0, 0xf, 24)].
Definition CAOrrci : encoding := macro [rc; ra; cc; pc] 0x800330000000 [(ra, 0, 0x1f, 34); (rc, 0, 0x1f, 39); (cc, 0, 0xf, 24);
    (pc, 0, 0xffff, 0)].
Definition CAOzr : encoding := macro [ra] 0x8c0330000000 [(ra, 0, 0x1f, 34)].
Definition CAOzrc : encoding := macro [ra; cc] 0x8c0330000000 [(ra, 0, 0x1f, 34); (cc, 0, 0xf, 24)].
Definition CAOzrci : encoding := macro [ra; cc; pc] 0x8c0330000000 [(ra, 0, 0x1f, 34); (cc, 0, 0xf, 24); (pc, 0, 0xffff, 0)].
Definition CLO_Srr : encoding := macro [dc; ra] 0x908330100000 [(ra, 0, 0x1f, 34); (dc, 1, 0xf, 40)].
Definition CLO_Srrc : encoding := macro [dc; ra; cc] 0x908330100000 [(ra, 0, 0x1f, 34); (dc, 1, 0xf, 40); (cc, 0, 0xf, 24)].
Definition CLO_Srrci : encoding := macro [dc; ra; cc; pc] 0x908330100000 [(ra, 0, 0x1f, 34); (dc, 1, 0xf, 40); (cc, 0, 0xf, 24);
    (pc, 0, 0xffff, 0)].
Definition CLO_Urr : encoding := macro [dc; ra] 0x900330100000 [(ra, 0, 0x1f, 34); (dc, 1, 0xf, 40)].
Definition CLO_Urrc : encoding := macro [dc; ra; cc] 0x900330100000 [(ra, 0, 0x1f, 34); (dc, 1, 0xf, 40); (cc, 0, 0xf, 24)].
Definition CLO_Urrci : encoding := macro [dc; ra; cc; pc] 0x900330100000 [(ra, 0, 0x1f, 34); (dc, 1, 0xf, 40); (cc, 0, 0xf, 24);
    (pc, 0, 0xffff, 0)].
Definition CLOrr : encoding := macro [rc; ra] 0x800330100000 [(ra, 0, 0x1f, 34); (rc, 0, 0x1f, 39)].
Definition CLOrrc : encoding := macro [rc; ra; cc] 0x800330100000 [(ra, 0, 0x1f, 34); (rc, 0, 0x1f, 39); (cc, 0, 0xf, 24)].
Definition CLOrrci : encoding := macro [rc; ra; cc; pc] 0x800330100000 [(ra, 0, 0x1f, 34); (rc, 0, 0x1f, 39); (cc, 0, 0xf, 24);
    (pc, 0, 0xffff, 0)].
Definition CLOzr : encoding := macro [ra] 0x8c0330100000 [(ra, 0, 0x1f, 34)].
Definition CLOzrc : encoding := macro [ra; cc] 0x8c0330100000 [(ra, 0, 0x1f, 34); (cc, 0, 0xf, 24)].
Definition CLOzrci : encoding := macro [ra; cc; pc] 0x8c0330100000 [(ra, 0, 0x1f, 34); (cc, 0, 0xf, 24); (pc, 0, 0xffff, 0)].
Definition CLR_RUNrici : encoding := macro [ra; imm; cc; pc] 0x7c8320000000 [(ra, 0, 0x1f, 34); (cc, 0, 0xf, 24); (imm, 0, 0xf, 20);
    (imm, 4, 0xf, 16); (pc, 0, 0xffff, 0)].
Definition CLS_Srr : encoding := macro [dc; ra] 0x908330200000 [(ra, 0, 0x1f, 34); (dc, 1, 0xf, 40)].
Definition CLS_Srrc : encoding := macro [dc; ra; cc] 0x908330200000 [(ra, 0, 0x1f, 34); (dc, 1, 0xf, 40); (cc, 0, 0xf, 24)].
Definition CLS_Srrci : encoding := macro [dc; ra; cc; pc] 0x908330200000 [(ra, 0, 0x1f, 34); (dc, 1, 0xf, 40); (cc, 0, 0xf, 24);
    (pc, 0, 0xffff, 0)].
Definition CLS_Urr : encoding := macro [dc; ra] 0x900330200000 [(ra, 0, 0x1f, 34); (dc, 1, 0xf, 40)].
Definition CLS_Urrc : encoding := macro [dc; ra; cc] 0x900330200000 [(ra, 0, 0x1f, 34); (dc, 1, 0xf, 40); (cc, 0, 0xf, 24)].
Definition CLS_Urrci : encoding := macro [dc; ra; cc; pc] 0x900330200000 [(ra, 0, 0x1f, 34); (dc, 1, 0xf, 40); (cc, 0, 0xf, 24);
    (pc, 0, 0xffff, 0)].
Definition CLSrr : encoding := macro [rc; ra] 0x800330200000 [(ra, 0, 0x1f, 34); (rc, 0, 0x1f, 39)].
Definition CLSrrc : encoding := macro [rc; ra; cc] 0x800330200000 [(ra, 0, 0x1f, 34); (rc, 0, 0x1f, 39); (cc, 0, 0xf, 24)].
Definition CLSrrci : encoding := macro [rc; ra; cc; pc] 0x800330200000 [(ra, 0, 0x1f, 34); (rc, 0, 0x1f, 39); (cc, 0, 0xf, 24);
    (pc, 0, 0xffff, 0)].
Definition CLSzr : encoding := macro [ra] 0x8c0330200000 [(ra, 0, 0x1f, 34)].
Definition CLSzrc : encoding := macro [ra; cc] 0x8c0330200000 [(ra, 0, 0x1f, 34); (cc, 0, 0xf, 24)].
Definition CLSzrci : encoding := macro [ra; cc; pc] 0x8c0330200000 [(ra, 0, 0x1f, 34); (cc, 0, 0xf, 24); (pc, 0, 0xffff, 0)].
Definition CLZ_Srr : encoding := macro [dc; ra] 0x908330300000 [(ra, 0, 0x1f, 34); (dc, 1, 0xf, 40)].
Definition CLZ_Srrc : encoding := macro [dc; ra; cc] 0x908330300000 [(ra, 0, 0x1f, 34); (dc, 1, 0xf, 40); (cc, 0, 0xf, 24)].
Definition CLZ_Srrci : encoding := macro [dc; ra; cc; pc] 0x908330300000 [(ra, 0, 0x1f, 34); (dc, 1, 0xf, 40); (cc, 0, 0xf, 24);
    (pc, 0, 0xffff, 0)].
Definition CLZ_Urr : encoding := macro [dc; ra] 0x900330300000 [(ra, 0, 0x1f, 34); (dc, 1, 0xf, 40)].
Definition CLZ_Urrc : encoding := macro [dc; ra; cc] 0x900330300000 [(ra, 0, 0x1f, 34); (dc, 1, 0xf, 40); (cc, 0, 0xf, 24)].
Definition CLZ_Urrci : encoding := macro [dc; ra; cc; pc] 0x900330300000 [(ra, 0, 0x1f, 34); (dc, 1, 0xf, 40); (cc, 0, 0xf, 24);
    (pc, 0, 0xffff, 0)].
Definition CLZrr : encoding := macro [rc; ra] 0x800330300000 [(ra, 0, 0x1f, 34); (rc, 0, 0x1f, 39)].
Definition CLZrrc : encoding := macro [rc; ra; cc] 0x800330300000 [(ra, 0, 0x1f, 34); (rc, 0, 0x1f, 39); (cc, 0, 0xf, 24)].
Definition CLZrrci : encoding := macro [rc; ra; cc; pc] 0x800330300000 [(ra, 0, 0x1f, 34); (rc, 0, 0x1f, 39); (cc, 0, 0xf, 24);
    (pc, 0, 0xffff, 0)].
Definition CLZzr : encoding := macro [ra] 0x8c0330300000 [(ra, 0, 0x1f, 34)].
Definition CLZzrc : encoding := macro [ra; cc] 0x8c0330300000 [(ra, 0, 0x1f, 34); (cc, 0, 0xf, 24)].
Definition CLZzrci : encoding := macro [ra; cc; pc] 0x8c0330300000 [(ra, 0, 0x1f, 34); (cc, 0, 0xf, 24); (pc, 0, 0xffff, 0)].
Definition CMPB4_Srrr : encoding := macro [dc; ra; rb] 0x908080000000 [(rb, 0, 0x7, 17); (rb, 3, 0x3, 32); (dc, 1, 0xf, 40);
    (ra, 0, 0x1f, 34)].
Definition CMPB4_Srrrc : encoding := macro [dc; ra; rb; cc] 0x908080000000 [(rb, 0, 0x7, 17); (rb, 3, 0x3, 32); (dc, 1, 0xf, 40);
    (ra, 0, 0x1f, 34); (cc, 0, 0xf, 24)].
Definition CMPB4_Srrrci : encoding := macro [dc; ra; rb; cc; pc] 0x908080000000 [(rb, 0, 0x7, 17); (rb, 3, 0x3, 32); (dc, 1, 0xf, 40);
    (ra, 0, 0x1f, 34); (cc, 0, 0xf, 24); (pc, 0, 0xffff, 0)].
Definition CMPB4_Urrr : encoding := macro [dc; ra; rb] 0x900080000000 [(rb, 0, 0x7, 17); (rb, 3, 0x3, 32); (dc, 1, 0xf, 40);
    (ra, 0, 0x1f, 34)].
Definition CMPB4_Urrrc : encoding := macro [dc; ra; rb; cc] 0x900080000000 [(rb, 0, 0x7, 17); (rb, 3, 0x3, 32); (dc, 1, 0xf, 40);
    (ra, 0, 0x1f, 34); (cc, 0, 0xf, 24)].
Definition CMPB4_Urrrci : encoding := macro [dc; ra; rb; cc; pc] 0x900080000000 [(rb, 0, 0x7, 17); (rb, 3, 0x3, 32); (dc, 1, 0xf, 40);
    (ra, 0, 0x1f, 34); (cc, 0, 0xf, 24); (pc, 0, 0xffff, 0)].
Definition CMPB4rrr : encoding := macro [rc; ra; rb] 0x800080000000 [(rb, 0, 0x7, 17); (rb, 3, 0x3, 32); (rc, 0, 0x1f, 39);
    (ra, 0, 0x1f, 34)].
Definition CMPB4rrrc : encoding := macro [rc; ra; rb; cc] 0x800080000000 [(rb, 0, 0x7, 17); (rb, 3, 0x3, 32); (rc, 0, 0x1f, 39);
    (ra, 0, 0x1f, 34); (cc, 0, 0xf, 24)].
Definition CMPB4rrrci : encoding := macro [rc; ra; rb; cc; pc] 0x800080000000 [(rb, 0, 0x7, 17); (rb, 3, 0x3, 32); (rc, 0, 0x1f, 39);
    (ra, 0, 0x1f, 34); (cc, 0, 0xf, 24); (pc, 0, 0xffff, 0)].
Definition CMPB4zrr : encoding := macro [ra; rb] 0x8c0080000000 [(rb, 0, 0x7, 17); (rb, 3, 0x3, 32); (ra, 0, 0x1f, 34)].
Definition CMPB4zrrc : encoding := macro [ra; rb; cc] 0x8c0080000000 [(rb, 0, 0x7, 17); (rb, 3, 0x3, 32); (ra, 0, 0x1f, 34);
    (cc, 0, 0xf, 24)].
Definition CMPB4zrrci : encoding := macro [ra; rb; cc; pc] 0x8c0080000000 [(rb, 0, 0x7, 17); (rb, 3, 0x3, 32); (ra, 0, 0x1f, 34);
    (cc, 0, 0xf, 24); (pc, 0, 0xffff, 0)].
Definition DIV_STEPrrri : encoding := macro [dc; ra; db; shift] 0x800060010000 [(db, 0, 0x7, 17); (db, 3, 0x3, 32); (dc, 0, 0x1f, 39);
    (ra, 0, 0x1f, 34); (shift, 0, 0xf, 20); (shift, 4, 0x1, 28)].
Definition DIV_STEPrrrici : encoding := macro [dc; ra; db; shift; cc; pc] 0x800060010000 [(db, 0, 0x7, 17); (db, 3, 0x3, 32);
    (dc, 0, 0x1f, 39); (cc, 0, 0xf, 24); (ra, 0, 0x1f, 34); (shift, 0, 0xf, 20); (shift, 4, 0x1, 28); (pc, 0, 0xffff, 0)].
Definition EXTSB_Srr : encoding := macro [dc; ra] 0x908330500000 [(ra, 0, 0x1f, 34); (dc, 1, 0xf, 40)].
Definition EXTSB_Srrc : encoding := macro [dc; ra; cc] 0x908330500000 [(ra, 0, 0x1f, 34); (dc, 1, 0xf, 40); (cc, 0, 0xf, 24)].
Definition EXTSB_Srrci : encoding := macro [dc; ra; cc; pc] 0x908330500000 [(ra, 0, 0x1f, 34); (dc, 1, 0xf, 40); (cc, 0, 0xf, 24);
    (pc, 0, 0xffff, 0)].
Definition EXTSBrr : encoding := macro [rc; ra] 0x800330500000 [(ra, 0, 0x1f, 34); (rc, 0, 0x1f, 39)].
Definition EXTSBrrc : encoding := macro [rc; ra; cc] 0x800330500000 [(ra, 0, 0x1f, 34); (rc, 0, 0x1f, 39); (cc, 0, 0xf, 24)].
Definition EXTSBrrci : encoding := macro [rc; ra; cc; pc] 0x800330500000 [(ra, 0, 0x1f, 34); (rc, 0, 0x1f, 39); (cc, 0, 0xf, 24);
    (pc, 0, 0xffff, 0)].
Definition EXTSBzr : encoding := macro [ra] 0x8c0330500000 [(ra, 0, 0x1f, 34)].
Definition EXTSBzrc : encoding := macro [ra; cc] 0x8c0330500000 [(ra, 0, 0x1f, 34); (cc, 0, 0xf, 24)].
Definition EXTSBzrci : encoding := macro [ra; cc; pc] 0x8c0330500000 [(ra, 0, 0x1f, 34); (cc, 0, 0xf, 24); (pc, 0, 0xffff, 0)].
Definition EXTSH_Srr : encoding := macro [dc; ra] 0x908330700000 [(ra, 0, 0x1f, 34); (dc, 1, 0xf, 40)].
Definition EXTSH_Srrc : encoding := macro [dc; ra; cc] 0x908330700000 [(ra, 0, 0x1f, 34); (dc, 1, 0xf, 40); (cc, 0, 0xf, 24)].
Definition EXTSH_Srrci : encoding := macro [dc; ra; cc; pc] 0x908330700000 [(ra, 0, 0x1f, 34); (dc, 1, 0xf, 40); (cc, 0, 0xf, 24);
    (pc, 0, 0xffff, 0)].
Definition EXTSHrr : encoding := macro [rc; ra] 0x800330700000 [(ra, 0, 0x1f, 34); (rc, 0, 0x1f, 39)].
Definition EXTSHrrc : encoding := macro [rc; ra; cc] 0x800330700000 [(ra, 0, 0x1f, 34); (rc, 0, 0x1f, 39); (cc, 0, 0xf, 24)].
Definition EXTSHrrci : encoding := macro [rc; ra; cc; pc] 0x800330700000 [(ra, 0, 0x1f, 34); (rc, 0, 0x1f, 39); (cc, 0, 0xf, 24);
    (pc, 0, 0xffff, 0)].
Definition EXTSHzr : encoding := macro [ra] 0x8c0330700000 [(ra, 0, 0x1f, 34)].
Definition EXTSHzrc : encoding := macro [ra; cc] 0x8c0330700000 [(ra, 0, 0x1f, 34); (cc, 0, 0xf, 24)].
Definition EXTSHzrci : encoding := macro [ra; cc; pc] 0x8c0330700000 [(ra, 0, 0x1f, 34); (cc, 0, 0xf, 24); (pc, 0, 0xffff, 0)].
Definition EXTUB_Urr : encoding := macro [dc; ra] 0x900330400000 [(ra, 0, 0x1f, 34); (dc, 1, 0xf, 40)].
Definition EXTUB_Urrc : encoding := macro [dc; ra; cc] 0x900330400000 [(ra, 0, 0x1f, 34); (dc, 1, 0xf, 40); (cc, 0, 0xf, 24)].
Definition EXTUB_Urrci : encoding := macro [dc; ra; cc; pc] 0x900330400000 [(ra, 0, 0x1f, 34); (dc, 1, 0xf, 40); (cc, 0, 0xf, 24);
    (pc, 0, 0xffff, 0)].
Definition EXTUBrr : encoding := macro [rc; ra] 0x800330400000 [(ra, 0, 0x1f, 34); (rc, 0, 0x1f, 39)].
Definition EXTUBrrc : encoding := macro [rc; ra; cc] 0x800330400000 [(ra, 0, 0x1f, 34); (rc, 0, 0x1f, 39); (cc, 0, 0xf, 24)].
Definition EXTUBrrci : encoding := macro [rc; ra; cc; pc] 0x800330400000 [(ra, 0, 0x1f, 34); (rc, 0, 0x1f, 39); (cc, 0, 0xf, 24);
    (pc, 0, 0xffff, 0)].
Definition EXTUBzr : encoding := macro [ra] 0x8c0330400000 [(ra, 0, 0x1f, 34)].
Definition EXTUBzrc : encoding := macro [ra; cc] 0x8c0330400000 [(ra, 0, 0x1f, 34); (cc, 0, 0xf, 24)].
Definition EXTUBzrci : encoding := macro [ra; cc; pc] 0x8c0330400000 [(ra, 0, 0x1f, 34); (cc, 0, 0xf, 24); (pc, 0, 0xffff, 0)].
Definition EXTUH_Urr : encoding := macro [dc; ra] 0x900330600000 [(ra, 0, 0x1f, 34); (dc, 1, 0xf, 40)].
Definition EXTUH_Urrc : encoding := macro [dc; ra; cc] 0x900330600000 [(ra, 0, 0x1f, 34); (dc, 1, 0xf, 40); (cc, 0, 0xf, 24)].
Definition EXTUH_Urrci : encoding := macro [dc; ra; cc; pc] 0x900330600000 [(ra, 0, 0x1f, 34); (dc, 1, 0xf, 40); (cc, 0, 0xf, 24);
    (pc, 0, 0xffff, 0)].
Definition EXTUHrr : encoding := macro [rc; ra] 0x800330600000 [(ra, 0, 0x1f, 34); (rc, 0, 0x1f, 39)].
Definition EXTUHrrc : encoding := macro [rc; ra; cc] 0x800330600000 [(ra, 0, 0x1f, 34); (rc, 0, 0x1f, 39); (cc, 0, 0xf, 24)].
Definition EXTUHrrci : encoding := macro [rc; ra; cc; pc] 0x800330600000 [(ra, 0, 0x1f, 34); (rc, 0, 0x1f, 39); (cc, 0, 0xf, 24);
    (pc, 0, 0xffff, 0)].
Definition EXTUHzr : encoding := macro [ra] 0x8c0330600000 [(ra, 0, 0x1f, 34)].
Definition EXTUHzrc : encoding := macro [ra; cc] 0x8c0330600000 [(ra, 0, 0x1f, 34); (cc, 0, 0xf, 24)].
Definition EXTUHzrci : encoding := macro [ra; cc; pc] 0x8c0330600000 [(ra, 0, 0x1f, 34); (cc, 0, 0xf, 24); (pc, 0, 0xffff, 0)].
Definition FAULTi : encoding := macro [imm] 0x7e6320000000 [(imm, 0, 0xf, 20); (imm, 4, 0xf, 16); (imm, 8, 0x1, 15); (imm, 9, 0x1, 14);
    (imm, 10, 0x1, 13); (imm, 11, 0x1, 12); (imm, 12, 0xfff, 0)].
Definition HASH_Srric : encoding := macro [dc; ra; imm; cc] 0x908310000000 [(dc, 1, 0xf, 40); (ra, 0, 0x1f, 34); (cc, 0, 0xf, 24);
    (imm, 0, 0xf, 20); (imm, 4, 0xf, 16); (imm, 8, 0x1, 15); (imm, 9, 0x1, 14); (imm, 10, 0x1, 13); (imm, 11, 0x1, 12);
    (imm, 12, 0xfff, 0)].
Definition HASH_Srrici : encoding := macro [dc; ra; imm; cc; pc] 0x908310000000 [(dc, 1, 0xf, 40); (ra, 0, 0x1f, 34); (cc, 0, 0xf, 24);
    (imm, 0, 0xf, 20); (imm, 4, 0xf, 16); (pc, 0, 0xffff, 0)].
Definition HASH_Srrif : encoding := macro [dc; ra; imm] 0x908310000000 [(dc, 1, 0xf, 40); (ra, 0, 0x1f, 34); (imm, 0, 0xf, 20);
    (imm, 4, 0xf, 16); (imm, 8, 0x1, 15); (imm, 9, 0x1, 14); (imm, 10, 0x1, 13); (imm, 11, 0x1, 12); (imm, 12, 0xfff, 0)].
Definition HASH_Srrr : encoding := macro [dc; ra; rb] 0x9080c0100000 [(rb, 0, 0x7, 17); (rb, 3, 0x3, 32); (dc, 1, 0xf, 40);
    (ra, 0, 0x1f, 34)].
Definition HASH_Srrrc : encoding := macro [dc; ra; rb; cc] 0x9080c0100000 [(rb, 0, 0x7, 17); (rb, 3, 0x3, 32); (dc, 1, 0xf, 40);
    (ra, 0, 0x1f, 34); (cc, 0, 0xf, 24)].
Definition HASH_Srrrci : encoding := macro [dc; ra; rb; cc; pc] 0x9080c0100000 [(rb, 0, 0x7, 17); (rb, 3, 0x3, 32); (dc, 1, 0xf, 40);
    (ra, 0, 0x1f, 34); (cc, 0, 0xf, 24); (pc, 0, 0xffff, 0)].
Definition HASH_Urric : encoding := macro [dc; ra; imm; cc] 0x900310000000 [(dc, 1, 0xf, 40); (ra, 0, 0x1f, 34); (cc, 0, 0xf, 24);
    (imm, 0, 0xf, 20); (imm, 4, 0xf, 16); (imm, 8, 0x1, 15); (imm, 9, 0x1, 14); (imm, 10, 0x1, 13); (imm, 11, 0x1, 12);
    (imm, 12, 0xfff, 0)].
Definition HASH_Urrici : encoding := macro [dc; ra; imm; cc; pc] 0x900310000000 [(dc, 1, 0xf, 40); (ra, 0, 0x1f, 34); (cc, 0, 0xf, 24);
    (imm, 0, 0xf, 20); (imm, 4, 0xf, 16); (pc, 0, 0xffff, 0)].
Definition HASH_Urrif : encoding := macro [dc; ra; imm] 0x900310000000 [(dc, 1, 0xf, 40); (ra, 0, 0x1f, 34); (imm, 0, 0xf, 20);
    (imm, 4, 0xf, 16); (imm, 8, 0x1, 15); (imm, 9, 0x1, 14); (imm, 10, 0x1, 13); (imm, 11, 0x1, 12); (imm, 12, 0xfff, 0)].
Definition HASH_Urrr : encoding := macro [dc; ra; rb] 0x9000c0100000 [(rb, 0, 0x7, 17); (rb, 3, 0x3, 32); (dc, 1, 0xf, 40);
    (ra, 0, 0x1f, 34)].
Definition HASH_Urrrc : encoding := macro [dc; ra; rb; cc] 0x9000c0100000 [(rb, 0, 0x7, 17); (rb, 3, 0x3, 32); (dc, 1, 0xf, 40);
    (ra, 0, 0x1f, 34); (cc, 0, 0xf, 24)].
Definition HASH_Urrrci : encoding := macro [dc; ra; rb; cc; pc] 0x9000c0100000 [(rb, 0, 0x7, 17); (rb, 3, 0x3, 32); (dc, 1, 0xf, 40);
    (ra, 0, 0x1f, 34); (cc, 0, 0xf, 24); (pc, 0, 0xffff, 0)].
Definition HASHrri : encoding := macro [rc; ra; imm] 0x800310000000 [(rc, 0, 0x1f, 39); (ra, 0, 0x1f, 34); (imm, 0, 0xf, 20);
    (imm, 4, 0xf, 16); (imm, 8, 0x1, 15); (imm, 9, 0x1, 14); (imm, 10, 0x1, 13); (imm, 11, 0x1, 12); (imm, 12, 0xfff, 0)].
Definition HASHrric : encoding := macro [rc; ra; imm; cc] 0x800310000000 [(rc, 0, 0x1f, 39); (ra, 0, 0x1f, 34); (cc, 0, 0xf, 24);
    (imm, 0, 0xf, 20); (imm, 4, 0xf, 16); (imm, 8, 0x1, 15); (imm, 9, 0x1, 14); (imm, 10, 0x1, 13); (imm, 11, 0x1, 12);
    (imm, 12, 0xfff, 0)].
Definition HASHrrici : encoding := macro [rc; ra; imm; cc; pc] 0x800310000000 [(rc, 0, 0x1f, 39); (ra, 0, 0x1f, 34); (cc, 0, 0xf, 24);
    (imm, 0, 0xf, 20); (imm, 4, 0xf, 16); (pc, 0, 0xffff, 0)].
Definition HASHrrif : encoding := macro [rc; ra; imm] 0x800310000000 [(rc, 0, 0x1f, 39); (ra, 0, 0x1f, 34); (imm, 0, 0xf, 20);
    (imm, 4, 0xf, 16); (imm, 8, 0x1, 15); (imm, 9, 0x1, 14); (imm, 10, 0x1, 13); (imm, 11, 0x1, 12); (imm, 12, 0xfff, 0)].
Definition HASHrrr : encoding := macro [rc; ra; rb] 0x8000c0100000 [(rb, 0, 0x7, 17); (rb, 3, 0x3, 32); (rc, 0, 0x1f, 39);
    (ra, 0, 0x1f, 34)].
Definition HASHrrrc : encoding := macro [rc; ra; rb; cc] 0x8000c0100000 [(rb, 0, 0x7, 17); (rb, 3, 0x3, 32); (rc, 0, 0x1f, 39);
    (ra, 0, 0x1f, 34); (cc, 0, 0xf, 24)].
Definition HASHrrrci : encoding := macro [rc; ra; rb; cc; pc] 0x8000c0100000 [(rb, 0, 0x7, 17); (rb, 3, 0x3, 32); (rc, 0, 0x1f, 39);
    (ra, 0, 0x1f, 34); (cc, 0, 0xf, 24); (pc, 0, 0xffff, 0)].
Definition HASHzric : encoding := macro [ra; imm; cc] 0x8c0310000000 [(ra, 0, 0x1f, 34); (cc, 0, 0xf, 24); (imm, 0, 0xf, 20);
    (imm, 4, 0xf, 16); (imm, 8, 0x1, 15); (imm, 9, 0x1, 14); (imm, 10, 0x1, 13); (imm, 11, 0x1, 12); (imm, 12, 0xfff, 0);
    (imm, 24, 0x7, 39); (imm, 27, 0x1, 44)].
Definition HASHzrici : encoding := macro [ra; imm; cc; pc] 0x8c0310000000 [(ra, 0, 0x1f, 34); (cc, 0, 0xf, 24); (imm, 0, 0xf, 20);
    (imm, 4, 0xf, 16); (imm, 8, 0x7, 39); (imm, 11, 0x1, 44); (pc, 0, 0xffff, 0)].
Definition HASHzrif : encoding := macro [ra; imm] 0x8c0310000000 [(ra, 0, 0x1f, 34); (imm, 0, 0xf, 20); (imm, 4, 0xf, 16);
    (imm, 8, 0x1, 15); (imm, 9, 0x1, 14); (imm, 10, 0x1, 13); (imm, 11, 0x1, 12); (imm, 12, 0xfff, 0); (imm, 24, 0x7, 39);
    (imm, 27, 0x1, 44)].
Definition HASHzrr : encoding := macro [ra; rb] 0x8c00c0100000 [(rb, 0, 0x7, 17); (rb, 3, 0x3, 32); (ra, 0, 0x1f, 34)].
Definition HASHzrrc : encoding := macro [ra; rb; cc] 0x8c00c0100000 [(rb, 0, 0x7, 17); (rb, 3, 0x3, 32); (ra, 0, 0x1f, 34);
    (cc, 0, 0xf, 24)].
Definition HASHzrrci : encoding := macro [ra; rb; cc; pc] 0x8c00c0100000 [(rb, 0, 0x7, 17); (rb, 3, 0x3, 32); (ra, 0, 0x1f, 34);
    (cc, 0, 0xf, 24); (pc, 0, 0xffff, 0)].
Definition JEQrii : encoding := macro [ra; imm; pc] 0x3c0382000000 [(ra, 0, 0x1f, 34); (imm, 0, 0xf, 20); (imm, 4, 0xf, 16);
    (imm, 8, 0x7, 39); (pc, 0, 0xffff, 0)].
Definition JEQrri : encoding := macro [ra; rb; pc] 0x3c0082c00000 [(rb, 0, 0x7, 17); (rb, 3, 0x3, 32); (ra, 0, 0x1f, 34);
    (pc, 0, 0xffff, 0)].
Definition JGESrii : encoding := macro [ra; imm; pc] 0x3c0397000000 [(ra, 0, 0x1f, 34); (imm, 0, 0xf, 20); (imm, 4, 0xf, 16);
    (imm, 8, 0x7, 39); (pc, 0, 0xffff, 0)].
Definition JGESrri : encoding := macro [ra; rb; pc] 0x3c0097c00000 [(rb, 0, 0x7, 17); (rb, 3, 0x3, 32); (ra, 0, 0x1f, 34);
    (pc, 0, 0xffff, 0)].
Definition JGEUrii : encoding := macro [ra; imm; pc] 0x3c0395000000 [(ra, 0, 0x1f, 34); (imm, 0, 0xf, 20); (imm, 4, 0xf, 16);
    (imm, 8, 0x7, 39); (pc, 0, 0xffff, 0)].
Definition JGEUrri : encoding := macro [ra; rb; pc] 0x3c0095c00000 [(rb, 0, 0x7, 17); (rb, 3, 0x3, 32); (ra, 0, 0x1f, 34);
    (pc, 0, 0xffff, 0)].
Definition JGTSrii : encoding := macro [ra; imm; pc] 0x3c0399000000 [(ra, 0, 0x1f, 34); (imm, 0, 0xf, 20); (imm, 4, 0xf, 16);
    (imm, 8, 0x7, 39); (pc, 0, 0xffff, 0)].
Definition JGTSrri : encoding := macro [ra; rb; pc] 0x3c0099c00000 [(rb, 0, 0x7, 17); (rb, 3, 0x3, 32); (ra, 0, 0x1f, 34);
    (pc, 0, 0xffff, 0)].
Definition JGTUrii : encoding := macro [ra; imm; pc] 0x3c039b000000 [(ra, 0, 0x1f, 34); (imm, 0, 0xf, 20); (imm, 4, 0xf, 16);
    (imm, 8, 0x7, 39); (pc, 0, 0xffff, 0)].
Definition JGTUrri : encoding := macro [ra; rb; pc] 0x3c009bc00000 [(rb, 0, 0x7, 17); (rb, 3, 0x3, 32); (ra, 0, 0x1f, 34);
    (pc, 0, 0xffff, 0)].
Definition JLESrii : encoding := macro [ra; imm; pc] 0x3c0398000000 [(ra, 0, 0x1f, 34); (imm, 0, 0xf, 20); (imm, 4, 0xf, 16);
    (imm, 8, 0x7, 39); (pc, 0, 0xffff, 0)].
Definition JLESrri : encoding := macro [ra; rb; pc] 0x3c0098c00000 [(rb, 0, 0x7, 17); (rb, 3, 0x3, 32); (ra, 0, 0x1f, 34);
    (pc, 0, 0xffff, 0)].
Definition JLEUrii : encoding := macro [ra; imm; pc] 0x3c039a000000 [(ra, 0, 0x1f, 34); (imm, 0, 0xf, 20); (imm, 4, 0xf, 16);
    (imm, 8, 0x7, 39); (pc, 0, 0xffff, 0)].
Definition JLEUrri : encoding := macro [ra; rb; pc] 0x3c009ac00000 [(rb, 0, 0x7, 17); (rb, 3, 0x3, 32); (ra, 0, 0x1f, 34);
    (pc, 0, 0xffff, 0)].
Definition JLTSrii : encoding := macro [ra; imm; pc] 0x3c0396000000 [(ra, 0, 0x1f, 34); (imm, 0, 0xf, 20); (imm, 4, 0xf, 16);
    (imm, 8, 0x7, 39); (pc, 0, 0xffff, 0)].
Definition JLTSrri : encoding := macro [ra; rb; pc] 0x3c0096c00000 [(rb, 0, 0x7, 17); (rb, 3, 0x3, 32); (ra, 0, 0x1f, 34);
    (pc, 0, 0xffff, 0)].
Definition JLTUrii : encoding := macro [ra; imm; pc] 0x3c0394000000 [(ra, 0, 0x1f, 34); (imm, 0, 0xf, 20); (imm, 4, 0xf, 16);
    (imm, 8, 0x7, 39); (pc, 0, 0xffff, 0)].
Definition JLTUrri : encoding := macro [ra; rb; pc] 0x3c0094c00000 [(rb, 0, 0x7, 17); (rb, 3, 0x3, 32); (ra, 0, 0x1f, 34);
    (pc, 0, 0xffff, 0)].
Definition JNEQrii : encoding := macro [ra; imm; pc] 0x3c0383000000 [(ra, 0, 0x1f, 34); (imm, 0, 0xf, 20); (imm, 4, 0xf, 16);
    (imm, 8, 0x7, 39); (pc, 0, 0xffff, 0)].
Definition JNEQrri : encoding := macro [ra; rb; pc] 0x3c0083c00000 [(rb, 0, 0x7, 17); (rb, 3, 0x3, 32); (ra, 0, 0x1f, 34);
    (pc, 0, 0xffff, 0)].
Definition JNZri : encoding := macro [ra; pc] 0x3c0383000000 [(ra, 0, 0x1f, 34); (pc, 0, 0xffff, 0)].
Definition JUMPi : encoding := macro [off] 0x8c6300000000 [(off, 0, 0xf, 20); (off, 4, 0xf, 16); (off, 8, 0x1, 15); (off, 9, 0x1, 14);
    (off, 10, 0x1, 13); (off, 11, 0x1, 12); (off, 12, 0xfff, 0); (off, 24, 0x7, 39); (off, 27, 0x1, 44)].
Definition JUMPr : encoding := macro [ra] 0x8c0300000000 [(ra, 0, 0x1f, 34)].
Definition JUMPri : encoding := macro [ra; off] 0x8c0300000000 [(ra, 0, 0x1f, 34); (off, 0, 0xf, 20); (off, 4, 0xf, 16);
    (off, 8, 0x1, 15); (off, 9, 0x1, 14); (off, 10, 0x1, 13); (off, 11, 0x1, 12); (off, 12, 0xfff, 0); (off, 24, 0x7, 39);
    (off, 27, 0x1, 44)].
Definition JZri : encoding := macro [ra; pc] 0x3c0382000000 [(ra, 0, 0x1f, 34); (pc, 0, 0xffff, 0)].
Definition LBS_Serri : encoding := macro [endian; dc; ra; off] 0x708361000000 [(ra, 0, 0x1f, 34); (endian, 0, 0x1, 27); (off, 0, 0xf, 20);
    (off, 4, 0xf, 16); (off, 8, 0x1, 15); (off, 9, 0x1, 14); (off, 10, 0x1, 13); (off, 11, 0x1, 12); (off, 12, 0xfff, 0);
    (dc, 1, 0xf, 40)].
Definition LBS_Srri : encoding := macro [dc; ra; off] 0x708361000000 [(ra, 0, 0x1f, 34); (off, 0, 0xf, 20); (off, 4, 0xf, 16);
    (off, 8, 0x1, 15); (off, 9, 0x1, 14); (off, 10, 0x1, 13); (off, 11, 0x1, 12); (off, 12, 0xfff, 0); (dc, 1, 0xf, 40)].
Definition LBSerri : encoding := macro [endian; rc; ra; off] 0x700341000000 [(ra, 0, 0x1f, 34); (endian, 0, 0x1, 27); (off, 0, 0xf, 20);
    (off, 4, 0xf, 16); (off, 8, 0x1, 15); (off, 9, 0x1, 14); (off, 10, 0x1, 13); (off, 11, 0x1, 12); (off, 12, 0xfff, 0);
    (rc, 0, 0x1f, 39)].
Definition LBSersi : encoding := macro [endian; rc; ra; off] 0x700351000000 [(ra, 0, 0x1f, 34); (endian, 0, 0x1, 27); (off, 0, 0xf, 20);
    (off, 4, 0xf, 16); (off, 8, 0x1, 15); (off, 9, 0x1, 14); (off, 10, 0x1, 13); (off, 11, 0x1, 12); (off, 12, 0xfff, 0);
    (rc, 0, 0x1f, 39)].
Definition LBSrri : encoding := macro [rc; ra; off] 0x700341000000 [(ra, 0, 0x1f, 34); (off, 0, 0xf, 20); (off, 4, 0xf, 16);
    (off, 8, 0x1, 15); (off, 9, 0x1, 14); (off, 10, 0x1, 13); (off, 11, 0x1, 12); (off, 12, 0xfff, 0); (rc, 0, 0x1f, 39)].
Definition LBSSrri : encoding := macro [rc; ra; off] 0x700351000000 [(ra, 0, 0x1f, 34); (off, 0, 0xf, 20); (off, 4, 0xf, 16);
    (off, 8, 0x1, 15); (off, 9, 0x1, 14); (off, 10, 0x1, 13); (off, 11, 0x1, 12); (off, 12, 0xfff, 0); (rc, 0, 0x1f, 39)].
Definition LBU_Uerri : encoding := macro [endian; dc; ra; off] 0x700360000000 [(ra, 0, 0x1f, 34); (endian, 0, 0x1, 27); (off, 0, 0xf, 20);
    (off, 4, 0xf, 16); (off, 8, 0x1, 15); (off, 9, 0x1, 14); (off, 10, 0x1, 13); (off, 11, 0x1, 12); (off, 12, 0xfff, 0);
    (dc, 1, 0xf, 40)].
Definition LBU_Urri : encoding := macro [dc; ra; off] 0x700360000000 [(ra, 0, 0x1f, 34); (off, 0, 0xf, 20); (off, 4, 0xf, 16);
    (off, 8, 0x1, 15); (off, 9, 0x1, 14); (off, 10, 0x1, 13); (off, 11, 0x1, 12); (off, 12, 0xfff, 0); (dc, 1, 0xf, 40)].
Definition LBUerri : encoding := macro [endian; rc; ra; off] 0x700340000000 [(ra, 0, 0x1f, 34); (endian, 0, 0x1, 27); (off, 0, 0xf, 20);
    (off, 4, 0xf, 16); (off, 8, 0x1, 15); (off, 9, 0x1, 14); (off, 10, 0x1, 13); (off, 11, 0x1, 12); (off, 12, 0xfff, 0);
    (rc, 0, 0x1f, 39)].
Definition LBUersi : encoding := macro [endian; rc; ra; off] 0x700350000000 [(ra, 0, 0x1f, 34); (endian, 0, 0x1, 27); (off, 0, 0xf, 20);
    (off, 4, 0xf, 16); (off, 8, 0x1, 15); (off, 9, 0x1, 14); (off, 10, 0x1, 13); (off, 11, 0x1, 12); (off, 12, 0xfff, 0);
    (rc, 0, 0x1f, 39)].
Definition LBUrri : encoding := macro [rc; ra; off] 0x700340000000 [(ra, 0, 0x1f, 34); (off, 0, 0xf, 20); (off, 4, 0xf, 16);
    (off, 8, 0x1, 15); (off, 9, 0x1, 14); (off, 10, 0x1, 13); (off, 11, 0x1, 12); (off, 12, 0xfff, 0); (rc, 0, 0x1f, 39)].
Definition LBUSrri : encoding := macro [rc; ra; off] 0x700350000000 [(ra, 0, 0x1f, 34); (off, 0, 0xf, 20); (off, 4, 0xf, 16);
    (off, 8, 0x1, 15); (off, 9, 0x1, 14); (off, 10, 0x1, 13); (off, 11, 0x1, 12); (off, 12, 0xfff, 0); (rc, 0, 0x1f, 39)].
Definition LDerri : encoding := macro [endian; dc; ra; off] 0x700346000000 [(ra, 0, 0x1f, 34); (endian, 0, 0x1, 27); (off, 0, 0xf, 20);
    (off, 4, 0xf, 16); (off, 8, 0x1, 15); (off, 9, 0x1, 14); (off, 10, 0x1, 13); (off, 11, 0x1, 12); (off, 12, 0xfff, 0);
    (dc, 0, 0x1f, 39)].
Definition LDersi : encoding := macro [endian; dc; ra; off] 0x700356000000 [(ra, 0, 0x1f, 34); (endian, 0, 0x1, 27); (off, 0, 0xf, 20);
    (off, 4, 0xf, 16); (off, 8, 0x1, 15); (off, 9, 0x1, 14); (off, 10, 0x1, 13); (off, 11, 0x1, 12); (off, 12, 0xfff, 0);
    (dc, 0, 0x1f, 39)].
Definition LDrri : encoding := macro [dc; ra; off] 0x700346000000 [(ra, 0, 0x1f, 34); (off, 0, 0xf, 20); (off, 4, 0xf, 16);
    (off, 8, 0x1, 15); (off, 9, 0x1, 14); (off, 10, 0x1, 13); (off, 11, 0x1, 12); (off, 12, 0xfff, 0); (dc, 0, 0x1f, 39)].
Definition LDMArri : encoding := macro [ra; rb; immDma] 0x700000000000 [(rb, 0, 0x7, 17); (rb, 3, 0x3, 32); (ra, 0, 0x1f, 34);
    (immDma, 0, 0xff, 24)].
Definition LDMAIrri : encoding := macro [ra; rb; immDma] 0x700000000001 [(rb, 0, 0x7, 17); (rb, 3, 0x3, 32); (ra, 0, 0x1f, 34);
    (immDma, 0, 0xff, 24)].
Definition LDSrri : encoding := macro [dc; ra; off] 0x700356000000 [(ra, 0, 0x1f, 34); (off, 0, 0xf, 20); (off, 4, 0xf, 16);
    (off, 8, 0x1, 15); (off, 9, 0x1, 14); (off, 10, 0x1, 13); (off, 11, 0x1, 12); (off, 12, 0xfff, 0); (dc, 0, 0x1f, 39)].
Definition LHS_Serri : encoding := macro [endian; dc; ra; off] 0x708363000000 [(ra, 0, 0x1f, 34); (endian, 0, 0x1, 27); (off, 0, 0xf, 20);
    (off, 4, 0xf, 16); (off, 8, 0x1, 15); (off, 9, 0x1, 14); (off, 10, 0x1, 13); (off, 11, 0x1, 12); (off, 12, 0xfff, 0);
    (dc, 1, 0xf, 40)].
Definition LHS_Srri : encoding := macro [dc; ra; off] 0x708363000000 [(ra, 0, 0x1f, 34); (off, 0, 0xf, 20); (off, 4, 0xf, 16);
    (off, 8, 0x1, 15); (off, 9, 0x1, 14); (off, 10, 0x1, 13); (off, 11, 0x1, 12); (off, 12, 0xfff, 0); (dc, 1, 0xf, 40)].
Definition LHSerri : encoding := macro [endian; rc; ra; off] 0x700343000000 [(ra, 0, 0x1f, 34); (endian, 0, 0x1, 27); (off, 0, 0xf, 20);
    (off, 4, 0xf, 16); (off, 8, 0x1, 15); (off, 9, 0x1, 14); (off, 10, 0x1, 13); (off, 11, 0x1, 12); (off, 12, 0xfff, 0);
    (rc, 0, 0x1f, 39)].
Definition LHSersi : encoding := macro [endian; rc; ra; off] 0x700353000000 [(ra, 0, 0x1f, 34); (endian, 0, 0x1, 27); (off, 0, 0xf, 20);
    (off, 4, 0xf, 16); (off, 8, 0x1, 15); (off, 9, 0x1, 14); (off, 10, 0x1, 13); (off, 11, 0x1, 12); (off, 12, 0xfff, 0);
    (rc, 0, 0x1f, 39)].
Definition LHSrri : encoding := macro [rc; ra; off] 0x700343000000 [(ra, 0, 0x1f, 34); (off, 0, 0xf, 20); (off, 4, 0xf, 16);
    (off, 8, 0x1, 15); (off, 9, 0x1, 14); (off, 10, 0x1, 13); (off, 11, 0x1, 12); (off, 12, 0xfff, 0); (rc, 0, 0x1f, 39)].
Definition LHSSrri : encoding := macro [rc; ra; off] 0x700353000000 [(ra, 0, 0x1f, 34); (off, 0, 0xf, 20); (off, 4, 0xf, 16);
    (off, 8, 0x1, 15); (off, 9, 0x1, 14); (off, 10, 0x1, 13); (off, 11, 0x1, 12); (off, 12, 0xfff, 0); (rc, 0, 0x1f, 39)].
Definition LHU_Uerri : encoding := macro [endian; dc; ra; off] 0x700362000000 [(ra, 0, 0x1f, 34); (endian, 0, 0x1, 27); (off, 0, 0xf, 20);
    (off, 4, 0xf, 16); (off, 8, 0x1, 15); (off, 9, 0x1, 14); (off, 10, 0x1, 13); (off, 11, 0x1, 12); (off, 12, 0xfff, 0);
    (dc, 1, 0xf, 40)].
Definition LHU_Urri : encoding := macro [dc; ra; off] 0x700362000000 [(ra, 0, 0x1f, 34); (off, 0, 0xf, 20); (off, 4, 0xf, 16);
    (off, 8, 0x1, 15); (off, 9, 0x1, 14); (off, 10, 0x1, 13); (off, 11, 0x1, 12); (off, 12, 0xfff, 0); (dc, 1, 0xf, 40)].
Definition LHUerri : encoding := macro [endian; rc; ra; off] 0x700342000000 [(ra, 0, 0x1f, 34); (endian, 0, 0x1, 27); (off, 0, 0xf, 20);
    (off, 4, 0xf, 16); (off, 8, 0x1, 15); (off, 9, 0x1, 14); (off, 10, 0x1, 13); (off, 11, 0x1, 12); (off, 12, 0xfff, 0);
    (rc, 0, 0x1f, 39)].
Definition LHUersi : encoding := macro [endian; rc; ra; off] 0x700352000000 [(ra, 0, 0x1f, 34); (endian, 0, 0x1, 27); (off, 0, 0xf, 20);
    (off, 4, 0xf, 16); (off, 8, 0x1, 15); (off, 9, 0x1, 14); (off, 10, 0x1, 13); (off, 11, 0x1, 12); (off, 12, 0xfff, 0);
    (rc, 0, 0x1f, 39)].
Definition LHUrri : encoding := macro [rc; ra; off] 0x700342000000 [(ra, 0, 0x1f, 34); (off, 0, 0xf, 20); (off, 4, 0xf, 16);
    (off, 8, 0x1, 15); (off, 9, 0x1, 14); (off, 10, 0x1, 13); (off, 11, 0x1, 12); (off, 12, 0xfff, 0); (rc, 0, 0x1f, 39)].
Definition LHUSrri : encoding := macro [rc; ra; off] 0x700352000000 [(ra, 0, 0x1f, 34); (off, 0, 0xf, 20); (off, 4, 0xf, 16);
    (off, 8, 0x1, 15); (off, 9, 0x1, 14); (off, 10, 0x1, 13); (off, 11, 0x1, 12); (off, 12, 0xfff, 0); (rc, 0, 0x1f, 39)].
Definition LSL_Srri : encoding := macro [dc; ra; shift] 0x908340040000 [(dc, 1, 0xf, 40); (ra, 0, 0x1f, 34); (shift, 0, 0xf, 20);
    (shift, 4, 0x1, 28)].
Definition LSL_Srric : encoding := macro [dc; ra; shift; cc] 0x908340040000 [(dc, 1, 0xf, 40); (ra, 0, 0x1f, 34); (cc, 0, 0xf, 24);
    (shift, 0, 0xf, 20); (shift, 4, 0x1, 28)].
Definition LSL_Srrici : encoding := macro [dc; ra; shift; cc; pc] 0x908340040000 [(dc, 1, 0xf, 40); (ra, 0, 0x1f, 34); (cc, 0, 0xf, 24);
    (cc, 4, 0x1, 29); (shift, 0, 0xf, 20); (shift, 4, 0x1, 28); (pc, 0, 0xffff, 0)].
Definition LSL_Srrr : encoding := macro [dc; ra; rb] 0x9080d0400000 [(rb, 0, 0x7, 17); (rb, 3, 0x3, 32); (dc, 1, 0xf, 40);
    (ra, 0, 0x1f, 34)].
Definition LSL_Srrrc : encoding := macro [dc; ra; rb; cc] 0x9080d0400000 [(rb, 0, 0x7, 17); (rb, 3, 0x3, 32); (dc, 1, 0xf, 40);
    (ra, 0, 0x1f, 34); (cc, 0, 0xf, 24)].
Definition LSL_Srrrci : encoding := macro [dc; ra; rb; cc; pc] 0x9080d0400000 [(rb, 0, 0x7, 17); (rb, 3, 0x3, 32); (dc, 1, 0xf, 40);
    (ra, 0, 0x1f, 34); (cc, 0, 0xf, 24); (cc, 4, 0x1, 29); (pc, 0, 0xffff, 0)].
Definition LSL_Urri : encoding := macro [dc; ra; shift] 0x900340040000 [(dc, 1, 0xf, 40); (ra, 0, 0x1f, 34); (shift, 0, 0xf, 20);
    (shift, 4, 0x1, 28)].
Definition LSL_Urric : encoding := macro [dc; ra; shift; cc] 0x900340040000 [(dc, 1, 0xf, 40); (ra, 0, 0x1f, 34); (cc, 0, 0xf, 24);
    (shift, 0, 0xf, 20); (shift, 4, 0x1, 28)].
Definition LSL_Urrici : encoding := macro [dc; ra; shift; cc; pc] 0x900340040000 [(dc, 1, 0xf, 40); (ra, 0, 0x1f, 34); (cc, 0, 0xf, 24);
    (cc, 4, 0x1, 29); (shift, 0, 0xf, 20); (shift, 4, 0x1, 28); (pc, 0, 0xffff, 0)].
Definition LSL_Urrr : encoding := macro [dc; ra; rb] 0x9000d0400000 [(rb, 0, 0x7, 17); (rb, 3, 0x3, 32); (dc, 1, 0xf, 40);
    (ra, 0, 0x1f, 34)].
Definition LSL_Urrrc : encoding := macro [dc; ra; rb; cc] 0x9000d0400000 [(rb, 0, 0x7, 17); (rb, 3, 0x3, 32); (dc, 1, 0xf, 40);
    (ra, 0, 0x1f, 34); (cc, 0, 0xf, 24)].
Definition LSL_Urrrci : encoding := macro [dc; ra; rb; cc; pc] 0x9000d0400000 [(rb, 0, 0x7, 17); (rb, 3, 0x3, 32); (dc, 1, 0xf, 40);
    (ra, 0, 0x1f, 34); (cc, 0, 0xf, 24); (cc, 4, 0x1, 29); (pc, 0, 0xffff, 0)].
Definition LSL1_Srri : encoding := macro [dc; ra; shift] 0x908340060000 [(dc, 1, 0xf, 40); (ra, 0, 0x1f, 34); (shift, 0, 0xf, 20);
    (shift, 4, 0x1, 28)].
Definition LSL1_Srric : encoding := macro [dc; ra; shift; cc] 0x908340060000 [(dc, 1, 0xf, 40); (ra, 0, 0x1f, 34); (cc, 0, 0xf, 24);
    (shift, 0, 0xf, 20); (shift, 4, 0x1, 28)].
Definition LSL1_Srrici : encoding := macro [dc; ra; shift; cc; pc] 0x908340060000 [(dc, 1, 0xf, 40); (ra, 0, 0x1f, 34); (cc, 0, 0xf, 24);
    (cc, 4, 0x1, 29); (shift, 0, 0xf, 20); (shift, 4, 0x1, 28); (pc, 0, 0xffff, 0)].
Definition LSL1_Srrr : encoding := macro [dc; ra; rb] 0x9080d0600000 [(rb, 0, 0x7, 17); (rb, 3, 0x3, 32); (dc, 1, 0xf, 40);
    (ra, 0, 0x1f, 34)].
Definition LSL1_Srrrc : encoding := macro [dc; ra; rb; cc] 0x9080d0600000 [(rb, 0, 0x7, 17); (rb, 3, 0x3, 32); (dc, 1, 0xf, 40);
    (ra, 0, 0x1f, 34); (cc, 0, 0xf, 24)].
Definition LSL1_Srrrci : encoding := macro [dc; ra; rb; cc; pc] 0x9080d0600000 [(rb, 0, 0x7, 17); (rb, 3, 0x3, 32); (dc, 1, 0xf, 40);
    (ra, 0, 0x1f, 34); (cc, 0, 0xf, 24); (cc, 4, 0x1, 29); (pc, 0, 0xffff, 0)].
Definition LSL1_Urri : encoding := macro [dc; ra; shift] 0x900340060000 [(dc, 1, 0xf, 40); (ra, 0, 0x1f, 34); (shift, 0, 0xf, 20);
    (shift, 4, 0x1, 28)].
Definition LSL1_Urric : encoding := macro [dc; ra; shift; cc] 0x900340060000 [(dc, 1, 0xf, 40); (ra, 0, 0x1f, 34); (cc, 0, 0xf, 24);
    (shift, 0, 0xf, 20); (shift, 4, 0x1, 28)].
Definition LSL1_Urrici : encoding := macro [dc; ra; shift; cc; pc] 0x900340060000 [(dc, 1, 0xf, 40); (ra, 0, 0x1f, 34); (cc, 0, 0xf, 24);
    (cc, 4, 0x1, 29); (shift, 0, 0xf, 20); (shift, 4, 0x1, 28); (pc, 0, 0xffff, 0)].
Definition LSL1_Urrr : encoding := macro [dc; ra; rb] 0x9000d0600000 [(rb, 0, 0x7, 17); (rb, 3, 0x3, 32); (dc, 1, 0xf, 40);
    (ra, 0, 0x1f, 34)].
Definition LSL1_Urrrc : encoding := macro [dc; ra; rb; cc] 0x9000d0600000 [(rb, 0, 0x7, 17); (rb, 3, 0x3, 32); (dc, 1, 0xf, 40);
    (ra, 0, 0x1f, 34); (cc, 0, 0xf, 24)].
Definition LSL1_Urrrci : encoding := macro [dc; ra; rb; cc; pc] 0x9000d0600000 [(rb, 0, 0x7, 17); (rb, 3, 0x3, 32); (dc, 1, 0xf, 40);
    (ra, 0, 0x1f, 34); (cc, 0, 0xf, 24); (cc, 4, 0x1, 29); (pc, 0, 0xffff, 0)].
Definition LSL1rri : encoding := macro [rc; ra; shift] 0x800340060000 [(rc, 0, 0x1f, 39); (ra, 0, 0x1f, 34); (shift, 0, 0xf, 20);
    (shift, 4, 0x1, 28)].
Definition LSL1rric : encoding := macro [rc; ra; shift; cc] 0x800340060000 [(rc, 0, 0x1f, 39); (ra, 0, 0x1f, 34); (cc, 0, 0xf, 24);
    (shift, 0, 0xf, 20); (shift, 4, 0x1, 28)].
Definition LSL1rrici : encoding := macro [rc; ra; shift; cc; pc] 0x800340060000 [(rc, 0, 0x1f, 39); (ra, 0, 0x1f, 34); (cc, 0, 0xf, 24);
    (cc, 4, 0x1, 29); (shift, 0, 0xf, 20); (shift, 4, 0x1, 28); (pc, 0, 0xffff, 0)].
Definition LSL1rrr : encoding := macro [rc; ra; rb] 0x8000d0600000 [(rb, 0, 0x7, 17); (rb, 3, 0x3, 32); (rc, 0, 0x1f, 39);
    (ra, 0, 0x1f, 34)].
Definition LSL1rrrc : encoding := macro [rc; ra; rb; cc] 0x8000d0600000 [(rb, 0, 0x7, 17); (rb, 3, 0x3, 32); (rc, 0, 0x1f, 39);
    (ra, 0, 0x1f, 34); (cc, 0, 0xf, 24)].
Definition LSL1rrrci : encoding := macro [rc; ra; rb; cc; pc] 0x8000d0600000 [(rb, 0, 0x7, 17); (rb, 3, 0x3, 32); (rc, 0, 0x1f, 39);
    (ra, 0, 0x1f, 34); (cc, 0, 0xf, 24); (cc, 4, 0x1, 29); (pc, 0, 0xffff, 0)].
Definition LSL1zri : encoding := macro [ra; shift] 0x8c0340060000 [(ra, 0, 0x1f, 34); (shift, 0, 0xf, 20); (shift, 4, 0x1, 28)].
Definition LSL1zric : encoding := macro [ra; shift; cc] 0x8c0340060000 [(ra, 0, 0x1f, 34); (cc, 0, 0xf, 24); (shift, 0, 0xf, 20);
    (shift, 4, 0x1, 28)].
Definition LSL1zrici : encoding := macro [ra; shift; cc; pc] 0x8c0340060000 [(ra, 0, 0x1f, 34); (cc, 0, 0xf, 24); (cc, 4, 0x1, 29);
    (shift, 0, 0xf, 20); (shift, 4, 0x1, 28); (pc, 0, 0xffff, 0)].
Definition LSL1zrr : encoding := macro [ra; rb] 0x8c00d0600000 [(rb, 0, 0x7, 17); (rb, 3, 0x3, 32); (ra, 0, 0x1f, 34)].
Definition LSL1zrrc : encoding := macro [ra; rb; cc] 0x8c00d0600000 [(rb, 0, 0x7, 17); (rb, 3, 0x3, 32); (ra, 0, 0x1f, 34);
    (cc, 0, 0xf, 24)].
Definition LSL1zrrci : encoding := macro [ra; rb; cc; pc] 0x8c00d0600000 [(rb, 0, 0x7, 17); (rb, 3, 0x3, 32); (ra, 0, 0x1f, 34);
    (cc, 0, 0xf, 24); (cc, 4, 0x1, 29); (pc, 0, 0xffff, 0)].
Definition LSL1X_Srri : encoding := macro [dc; ra; shift] 0x908340070000 [(dc, 1, 0xf, 40); (ra, 0, 0x1f, 34); (shift, 0, 0xf, 20);
    (shift, 4, 0x1, 28)].
Definition LSL1X_Srric : encoding := macro [dc; ra; shift; cc] 0x908340070000 [(dc, 1, 0xf, 40); (ra, 0, 0x1f, 34); (cc, 0, 0xf, 24);
    (shift, 0, 0xf, 20); (shift, 4, 0x1, 28)].
Definition LSL1X_Srrici : encoding := macro [dc; ra; shift; cc; pc] 0x908340070000 [(dc, 1, 0xf, 40); (ra, 0, 0x1f, 34); (cc, 0, 0xf, 24);
    (cc, 4, 0x1, 29); (shift, 0, 0xf, 20); (shift, 4, 0x1, 28); (pc, 0, 0xffff, 0)].
Definition LSL1X_Srrr : encoding := macro [dc; ra; rb] 0x9080d0700000 [(rb, 0, 0x7, 17); (rb, 3, 0x3, 32); (dc, 1, 0xf, 40);
    (ra, 0, 0x1f, 34)].
Definition LSL1X_Srrrc : encoding := macro [dc; ra; rb; cc] 0x9080d0700000 [(rb, 0, 0x7, 17); (rb, 3, 0x3, 32); (dc, 1, 0xf, 40);
    (ra, 0, 0x1f, 34); (cc, 0, 0xf, 24)].
Definition LSL1X_Srrrci : encoding := macro [dc; ra; rb; cc; pc] 0x9080d0700000 [(rb, 0, 0x7, 17); (rb, 3, 0x3, 32); (dc, 1, 0xf, 40);
    (ra, 0, 0x1f, 34); (cc, 0, 0xf, 24); (cc, 4, 0x1, 29); (pc, 0, 0xffff, 0)].
Definition LSL1X_Urri : encoding := macro [dc; ra; shift] 0x900340070000 [(dc, 1, 0xf, 40); (ra, 0, 0x1f, 34); (shift, 0, 0xf, 20);
    (shift, 4, 0x1, 28)].
Definition LSL1X_Urric : encoding := macro [dc; ra; shift; cc] 0x900340070000 [(dc, 1, 0xf, 40); (ra, 0, 0x1f, 34); (cc, 0, 0xf, 24);
    (shift, 0, 0xf, 20); (shift, 4, 0x1, 28)].
Definition LSL1X_Urrici : encoding := macro [dc; ra; shift; cc; pc] 0x900340070000 [(dc, 1, 0xf, 40); (ra, 0, 0x1f, 34); (cc, 0, 0xf, 24);
    (cc, 4, 0x1, 29); (shift, 0, 0xf, 20); (shift, 4, 0x1, 28); (pc, 0, 0xffff, 0)].
Definition LSL1X_Urrr : encoding := macro [dc; ra; rb] 0x9000d0700000 [(rb, 0, 0x7, 17); (rb, 3, 0x3, 32); (dc, 1, 0xf, 40);
    (ra, 0, 0x1f, 34)].
Definition LSL1X_Urrrc : encoding := macro [dc; ra; rb; cc] 0x9000d0700000 [(rb, 0, 0x7, 17); (rb, 3, 0x3, 32); (dc, 1, 0xf, 40);
    (ra, 0, 0x1f, 34); (cc, 0, 0xf, 24)].
Definition LSL1X_Urrrci : encoding := macro [dc; ra; rb; cc; pc] 0x9000d0700000 [(rb, 0, 0x7, 17); (rb, 3, 0x3, 32); (dc, 1, 0xf, 40);
    (ra, 0, 0x1f, 34); (cc, 0, 0xf, 24); (cc, 4, 0x1, 29); (pc, 0, 0xffff, 0)].
Definition LSL1Xrri : encoding := macro [rc; ra; shift] 0x800340070000 [(rc, 0, 0x1f, 39); (ra, 0, 0x1f, 34); (shift, 0, 0xf, 20);
    (shift, 4, 0x1, 28)].
Definition LSL1Xrric : encoding := macro [rc; ra; shift; cc] 0x800340070000 [(rc, 0, 0x1f, 39); (ra, 0, 0x1f, 34); (cc, 0, 0xf, 24);
    (shift, 0, 0xf, 20); (shift, 4, 0x1, 28)].
Definition LSL1Xrrici : encoding := macro [rc; ra; shift; cc; pc] 0x800340070000 [(rc, 0, 0x1f, 39); (ra, 0, 0x1f, 34); (cc, 0, 0xf, 24);
    (cc, 4, 0x1, 29); (shift, 0, 0xf, 20); (shift, 4, 0x1, 28); (pc, 0, 0xffff, 0)].
Definition LSL1Xrrr : encoding := macro [rc; ra; rb] 0x8000d0700000 [(rb, 0, 0x7, 17); (rb, 3, 0x3, 32); (rc, 0, 0x1f, 39);
    (ra, 0, 0x1f, 34)].
Definition LSL1Xrrrc : encoding := macro [rc; ra; rb; cc] 0x8000d0700000 [(rb, 0, 0x7, 17); (rb, 3, 0x3, 32); (rc, 0, 0x1f, 39);
    (ra, 0, 0x1f, 34); (cc, 0, 0xf, 24)].
Definition LSL1Xrrrci : encoding := macro [rc; ra; rb; cc; pc] 0x8000d0700000 [(rb, 0, 0x7, 17); (rb, 3, 0x3, 32); (rc, 0, 0x1f, 39);
    (ra, 0, 0x1f, 34); (cc, 0, 0xf, 24); (cc, 4, 0x1, 29); (pc, 0, 0xffff, 0)].
Definition LSL1Xzri : encoding := macro [ra; shift] 0x8c0340070000 [(ra, 0, 0x1f, 34); (shift, 0, 0xf, 20); (shift, 4, 0x1, 28)].
Definition LSL1Xzric : encoding := macro [ra; shift; cc] 0x8c0340070000 [(ra, 0, 0x1f, 34); (cc, 0, 0xf, 24); (shift, 0, 0xf, 20);
    (shift, 4, 0x1, 28)].
Definition LSL1Xzrici : encoding := macro [ra; shift; cc; pc] 0x8c0340070000 [(ra, 0, 0x1f, 34); (cc, 0, 0xf, 24); (cc, 4, 0x1, 29);
    (shift, 0, 0xf, 20); (shift, 4, 0x1, 28); (pc, 0, 0xffff, 0)].
Definition LSL1Xzrr : encoding := macro [ra; rb] 0x8c00d0700000 [(rb, 0, 0x7, 17); (rb, 3, 0x3, 32); (ra, 0, 0x1f, 34)].
Definition LSL1Xzrrc : encoding := macro [ra; rb; cc] 0x8c00d0700000 [(rb, 0, 0x7, 17); (rb, 3, 0x3, 32); (ra, 0, 0x1f, 34);
    (cc, 0, 0xf, 24)].
Definition LSL1Xzrrci : encoding := macro [ra; rb; cc; pc] 0x8c00d0700000 [(rb, 0, 0x7, 17); (rb, 3, 0x3, 32); (ra, 0, 0x1f, 34);
    (cc, 0, 0xf, 24); (cc, 4, 0x1, 29); (pc, 0, 0xffff, 0)].
Definition LSLrri : encoding := macro [rc; ra; shift] 0x800340040000 [(rc, 0, 0x1f, 39); (ra, 0, 0x1f, 34); (shift, 0, 0xf, 20);
    (shift, 4, 0x1, 28)].
Definition LSLrric : encoding := macro [rc; ra; shift; cc] 0x800340040000 [(rc, 0, 0x1f, 39); (ra, 0, 0x1f, 34); (cc, 0, 0xf, 24);
    (shift, 0, 0xf, 20); (shift, 4, 0x1, 28)].
Definition LSLrrici : encoding := macro [rc; ra; shift; cc; pc] 0x800340040000 [(rc, 0, 0x1f, 39); (ra, 0, 0x1f, 34); (cc, 0, 0xf, 24);
    (cc, 4, 0x1, 29); (shift, 0, 0xf, 20); (shift, 4, 0x1, 28); (pc, 0, 0xffff, 0)].
Definition LSLrrr : encoding := macro [rc; ra; rb] 0x8000d0400000 [(rb, 0, 0x7, 17); (rb, 3, 0x3, 32); (rc, 0, 0x1f, 39);
    (ra, 0, 0x1f, 34)].
Definition LSLrrrc : encoding := macro [rc; ra; rb; cc] 0x8000d0400000 [(rb, 0, 0x7, 17); (rb, 3, 0x3, 32); (rc, 0, 0x1f, 39);
    (ra, 0, 0x1f, 34); (cc, 0, 0xf, 24)].
Definition LSLrrrci : encoding := macro [rc; ra; rb; cc; pc] 0x8000d0400000 [(rb, 0, 0x7, 17); (rb, 3, 0x3, 32); (rc, 0, 0x1f, 39);
    (ra, 0, 0x1f, 34); (cc, 0, 0xf, 24); (cc, 4, 0x1, 29); (pc, 0, 0xffff, 0)].
Definition LSLzri : encoding := macro [ra; shift] 0x8c0340040000 [(ra, 0, 0x1f, 34); (shift, 0, 0xf, 20); (shift, 4, 0x1, 28)].
Definition LSLzric : encoding := macro [ra; shift; cc] 0x8c0340040000 [(ra, 0, 0x1f, 34); (cc, 0, 0xf, 24); (shift, 0, 0xf, 20);
    (shift, 4, 0x1, 28)].
Definition LSLzrici : encoding := macro [ra; shift; cc; pc] 0x8c0340040000 [(ra, 0, 0x1f, 34); (cc, 0, 0xf, 24); (cc, 4, 0x1, 29);
    (shift, 0, 0xf, 20); (shift, 4, 0x1, 28); (pc, 0, 0xffff, 0)].
Definition LSLzrr : encoding := macro [ra; rb] 0x8c00d0400000 [(rb, 0, 0x7, 17); (rb, 3, 0x3, 32); (ra, 0, 0x1f, 34)].
Definition LSLzrrc : encoding := macro [ra; rb; cc] 0x8c00d0400000 [(rb, 0, 0x7, 17); (rb, 3, 0x3, 32); (ra, 0, 0x1f, 34);
    (cc, 0, 0xf, 24)].
Definition LSLzrrci : encoding := macro [ra; rb; cc; pc] 0x8c00d0400000 [(rb, 0, 0x7, 17); (rb, 3, 0x3, 32); (ra, 0, 0x1f, 34);
    (cc, 0, 0xf, 24); (cc, 4, 0x1, 29); (pc, 0, 0xffff, 0)].
Definition LSL_ADD_Srrri : encoding := macro [dc; rb; ra; shift] 0x908040000000 [(rb, 0, 0x7, 17); (rb, 3, 0x3, 32); (dc, 1, 0xf, 40);
    (ra, 0, 0x1f, 34); (shift, 0, 0xf, 20); (shift, 4, 0x1, 28)].
Definition LSL_ADD_Srrrici : encoding := macro [dc; rb; ra; shift; cc; pc] 0x908040000000 [(rb, 0, 0x7, 17); (rb, 3, 0x3, 32);
    (dc, 1, 0xf, 40); (ra, 0, 0x1f, 34); (cc, 0, 0xf, 24); (shift, 0, 0xf, 20); (shift, 4, 0x1, 28); (pc, 0, 0xffff, 0)].
Definition LSL_ADD_Urrri : encoding := macro [dc; rb; ra; shift] 0x900040000000 [(rb, 0, 0x7, 17); (rb, 3, 0x3, 32); (dc, 1, 0xf, 40);
    (ra, 0, 0x1f, 34); (shift, 0, 0xf, 20); (shift, 4, 0x1, 28)].
Definition LSL_ADD_Urrrici : encoding := macro [dc; rb; ra; shift; cc; pc] 0x900040000000 [(rb, 0, 0x7, 17); (rb, 3, 0x3, 32);
    (dc, 1, 0xf, 40); (ra, 0, 0x1f, 34); (cc, 0, 0xf, 24); (shift, 0, 0xf, 20); (shift, 4, 0x1, 28); (pc, 0, 0xffff, 0)].
Definition LSL_ADDrrri : encoding := macro [rc; rb; ra; shift] 0x800040000000 [(rb, 0, 0x7, 17); (rb, 3, 0x3, 32); (rc, 0, 0x1f, 39);
    (ra, 0, 0x1f, 34); (shift, 0, 0xf, 20); (shift, 4, 0x1, 28)].
Definition LSL_ADDrrrici : encoding := macro [rc; rb; ra; shift; cc; pc] 0x800040000000 [(rb, 0, 0x7, 17); (rb, 3, 0x3, 32);
    (rc, 0, 0x1f, 39); (ra, 0, 0x1f, 34); (cc, 0, 0xf, 24); (shift, 0, 0xf, 20); (shift, 4, 0x1, 28); (pc, 0, 0xffff, 0)].
Definition LSL_ADDzrri : encoding := macro [rb; ra; shift] 0x8c0040000000 [(rb, 0, 0x7, 17); (rb, 3, 0x3, 32); (ra, 0, 0x1f, 34);
    (shift, 0, 0xf, 20); (shift, 4, 0x1, 28)].
Definition LSL_ADDzrrici : encoding := macro [rb; ra; shift; cc; pc] 0x8c0040000000 [(rb, 0, 0x7, 17); (rb, 3, 0x3, 32);
    (ra, 0, 0x1f, 34); (cc, 0, 0xf, 24); (shift, 0, 0xf, 20); (shift, 4, 0x1, 28); (pc, 0, 0xffff, 0)].
Definition LSL_SUB_Srrri : encoding := macro [dc; rb; ra; shift] 0x908060000000 [(rb, 0, 0x7, 17); (rb, 3, 0x3, 32); (dc, 1, 0xf, 40);
    (ra, 0, 0x1f, 34); (shift, 0, 0xf, 20); (shift, 4, 0x1, 28)].
Definition LSL_SUB_Srrrici : encoding := macro [dc; rb; ra; shift; cc; pc] 0x908060000000 [(rb, 0, 0x7, 17); (rb, 3, 0x3, 32);
    (dc, 1, 0xf, 40); (ra, 0, 0x1f, 34); (cc, 0, 0xf, 24); (shift, 0, 0xf, 20); (shift, 4, 0x1, 28); (pc, 0, 0xffff, 0)].
Definition LSL_SUB_Urrri : encoding := macro [dc; rb; ra; shift] 0x900060000000 [(rb, 0, 0x7, 17); (rb, 3, 0x3, 32); (dc, 1, 0xf, 40);
    (ra, 0, 0x1f, 34); (shift, 0, 0xf, 20); (shift, 4, 0x1, 28)].
Definition LSL_SUB_Urrrici : encoding := macro [dc; rb; ra; shift; cc; pc] 0x900060000000 [(rb, 0, 0x7, 17); (rb, 3, 0x3, 32);
    (dc, 1, 0xf, 40); (ra, 0, 0x1f, 34); (cc, 0, 0xf, 24); (shift, 0, 0xf, 20); (shift, 4, 0x1, 28); (pc, 0, 0xffff, 0)].
Definition LSL_SUBrrri : encoding := macro [rc; rb; ra; shift] 0x800060000000 [(rb, 0, 0x7, 17); (rb, 3, 0x3, 32); (rc, 0, 0x1f, 39);
    (ra, 0, 0x1f, 34); (shift, 0, 0xf, 20); (shift, 4, 0x1, 28)].
Definition LSL_SUBrrrici : encoding := macro [rc; rb; ra; shift; cc; pc] 0x800060000000 [(rb, 0, 0x7, 17); (rb, 3, 0x3, 32);
    (rc, 0, 0x1f, 39); (ra, 0, 0x1f, 34); (cc, 0, 0xf, 24); (shift, 0, 0xf, 20); (shift, 4, 0x1, 28); (pc, 0, 0xffff, 0)].
Definition LSL_SUBzrri : encoding := macro [rb; ra; shift] 0x8c0060000000 [(rb, 0, 0x7, 17); (rb, 3, 0x3, 32); (ra, 0, 0x1f, 34);
    (shift, 0, 0xf, 20); (shift, 4, 0x1, 28)].
Definition LSL_SUBzrrici : encoding := macro [rb; ra; shift; cc; pc] 0x8c0060000000 [(rb, 0, 0x7, 17); (rb, 3, 0x3, 32);
    (ra, 0, 0x1f, 34); (cc, 0, 0xf, 24); (shift, 0, 0xf, 20); (shift, 4, 0x1, 28); (pc, 0, 0xffff, 0)].
Definition LSLX_Srri : encoding := macro [dc; ra; shift] 0x908340050000 [(dc, 1, 0xf, 40); (ra, 0, 0x1f, 34); (shift, 0, 0xf, 20);
    (shift, 4, 0x1, 28)].
Definition LSLX_Srric : encoding := macro [dc; ra; shift; cc] 0x908340050000 [(dc, 1, 0xf, 40); (ra, 0, 0x1f, 34); (cc, 0, 0xf, 24);
    (shift, 0, 0xf, 20); (shift, 4, 0x1, 28)].
Definition LSLX_Srrici : encoding := macro [dc; ra; shift; cc; pc] 0x908340050000 [(dc, 1, 0xf, 40); (ra, 0, 0x1f, 34); (cc, 0, 0xf, 24);
    (cc, 4, 0x1, 29); (shift, 0, 0xf, 20); (shift, 4, 0x1, 28); (pc, 0, 0xffff, 0)].
Definition LSLX_Srrr : encoding := macro [dc; ra; rb] 0x9080d0500000 [(rb, 0, 0x7, 17); (rb, 3, 0x3, 32); (dc, 1, 0xf, 40);
    (ra, 0, 0x1f, 34)].
Definition LSLX_Srrrc : encoding := macro [dc; ra; rb; cc] 0x9080d0500000 [(rb, 0, 0x7, 17); (rb, 3, 0x3, 32); (dc, 1, 0xf, 40);
    (ra, 0, 0x1f, 34); (cc, 0, 0xf, 24)].
Definition LSLX_Srrrci : encoding := macro [dc; ra; rb; cc; pc] 0x9080d0500000 [(rb, 0, 0x7, 17); (rb, 3, 0x3, 32); (dc, 1, 0xf, 40);
    (ra, 0, 0x1f, 34); (cc, 0, 0xf, 24); (cc, 4, 0x1, 29); (pc, 0, 0xffff, 0)].
Definition LSLX_Urri : encoding := macro [dc; ra; shift] 0x900340050000 [(dc, 1, 0xf, 40); (ra, 0, 0x1f, 34); (shift, 0, 0xf, 20);
    (shift, 4, 0x1, 28)].
Definition LSLX_Urric : encoding := macro [dc; ra; shift; cc] 0x900340050000 [(dc, 1, 0xf, 40); (ra, 0, 0x1f, 34); (cc, 0, 0xf, 24);
    (shift, 0, 0xf, 20); (shift, 4, 0x1, 28)].
Definition LSLX_Urrici : encoding := macro [dc; ra; shift; cc; pc] 0x900340050000 [(dc, 1, 0xf, 40); (ra, 0, 0x1f, 34); (cc, 0, 0xf, 24);
    (cc, 4, 0x1, 29); (shift, 0, 0xf, 20); (shift, 4, 0x1, 28); (pc, 0, 0xffff, 0)].
Definition LSLX_Urrr : encoding := macro [dc; ra; rb] 0x9000d0500000 [(rb, 0, 0x7, 17); (rb, 3, 0x3, 32); (dc, 1, 0xf, 40);
    (ra, 0, 0x1f, 34)].
Definition LSLX_Urrrc : encoding := macro [dc; ra; rb; cc] 0x9000d0500000 [(rb, 0, 0x7, 17); (rb, 3, 0x3, 32); (dc, 1, 0xf, 40);
    (ra, 0, 0x1f, 34); (cc, 0, 0xf, 24)].
Definition LSLX_Urrrci : encoding := macro [dc; ra; rb; cc; pc] 0x9000d0500000 [(rb, 0, 0x7, 17); (rb, 3, 0x3, 32); (dc, 1, 0xf, 40);
    (ra, 0, 0x1f, 34); (cc, 0, 0xf, 24); (cc, 4, 0x1, 29); (pc, 0, 0xffff, 0)].
Definition LSLXrri : encoding := macro [rc; ra; shift] 0x800340050000 [(rc, 0, 0x1f, 39); (ra, 0, 0x1f, 34); (shift, 0, 0xf, 20);
    (shift, 4, 0x1, 28)].
Definition LSLXrric : encoding := macro [rc; ra; shift; cc] 0x800340050000 [(rc, 0, 0x1f, 39); (ra, 0, 0x1f, 34); (cc, 0, 0xf, 24);
    (shift, 0, 0xf, 20); (shift, 4, 0x1, 28)].
Definition LSLXrrici : encoding := macro [rc; ra; shift; cc; pc] 0x800340050000 [(rc, 0, 0x1f, 39); (ra, 0, 0x1f, 34); (cc, 0, 0xf, 24);
    (cc, 4, 0x1, 29); (shift, 0, 0xf, 20); (shift, 4, 0x1, 28); (pc, 0, 0xffff, 0)].
Definition LSLXrrr : encoding := macro [rc; ra; rb] 0x8000d0500000 [(rb, 0, 0x7, 17); (rb, 3, 0x3, 32); (rc, 0, 0x1f, 39);
    (ra, 0, 0x1f, 34)].
Definition LSLXrrrc : encoding := macro [rc; ra; rb; cc] 0x8000d0500000 [(rb, 0, 0x7, 17); (rb, 3, 0x3, 32); (rc, 0, 0x1f, 39);
    (ra, 0, 0x1f, 34); (cc, 0, 0xf, 24)].
Definition LSLXrrrci : encoding := macro [rc; ra; rb; cc; pc] 0x8000d0500000 [(rb, 0, 0x7, 17); (rb, 3, 0x3, 32); (rc, 0, 0x1f, 39);
    (ra, 0, 0x1f, 34); (cc, 0, 0xf, 24); (cc, 4, 0x1, 29); (pc, 0, 0xffff, 0)].
Definition LSLXzri : encoding := macro [ra; shift] 0x8c0340050000 [(ra, 0, 0x1f, 34); (shift, 0, 0xf, 20); (shift, 4, 0x1, 28)].
Definition LSLXzric : encoding := macro [ra; shift; cc] 0x8c0340050000 [(ra, 0, 0x1f, 34); (cc, 0, 0xf, 24); (shift, 0, 0xf, 20);
    (shift, 4, 0x1, 28)].
Definition LSLXzrici : encoding := macro [ra; shift; cc; pc] 0x8c0340050000 [(ra, 0, 0x1f, 34); (cc, 0, 0xf, 24); (cc, 4, 0x1, 29);
    (shift, 0, 0xf, 20); (shift, 4, 0x1, 28); (pc, 0, 0xffff, 0)].
Definition LSLXzrr : encoding := macro [ra; rb] 0x8c00d0500000 [(rb, 0, 0x7, 17); (rb, 3, 0x3, 32); (ra, 0, 0x1f, 34)].
Definition LSLXzrrc : encoding := macro [ra; rb; cc] 0x8c00d0500000 [(rb, 0, 0x7, 17); (rb, 3, 0x3, 32); (ra, 0, 0x1f, 34);
    (cc, 0, 0xf, 24)].
Definition LSLXzrrci : encoding := macro [ra; rb; cc; pc] 0x8c00d0500000 [(rb, 0, 0x7, 17); (rb, 3, 0x3, 32); (ra, 0, 0x1f, 34);
    (cc, 0, 0xf, 24); (cc, 4, 0x1, 29); (pc, 0, 0xffff, 0)].
Definition LSR_Srri : encoding := macro [dc; ra; shift] 0x9083400c0000 [(dc, 1, 0xf, 40); (ra, 0, 0x1f, 34); (shift, 0, 0xf, 20);
    (shift, 4, 0x1, 28)].
Definition LSR_Srric : encoding := macro [dc; ra; shift; cc] 0x9083400c0000 [(dc, 1, 0xf, 40); (ra, 0, 0x1f, 34); (cc, 0, 0xf, 24);
    (shift, 0, 0xf, 20); (shift, 4, 0x1, 28)].
Definition LSR_Srrici : encoding := macro [dc; ra; shift; cc; pc] 0x9083400c0000 [(dc, 1, 0xf, 40); (ra, 0, 0x1f, 34); (cc, 0, 0xf, 24);
    (cc, 4, 0x1, 29); (shift, 0, 0xf, 20); (shift, 4, 0x1, 28); (pc, 0, 0xffff, 0)].
Definition LSR_Srrr : encoding := macro [dc; ra; rb] 0x9080d0c00000 [(rb, 0, 0x7, 17); (rb, 3, 0x3, 32); (dc, 1, 0xf, 40);
    (ra, 0, 0x1f, 34)].
Definition LSR_Srrrc : encoding := macro [dc; ra; rb; cc] 0x9080d0c00000 [(rb, 0, 0x7, 17); (rb, 3, 0x3, 32); (dc, 1, 0xf, 40);
    (ra, 0, 0x1f, 34); (cc, 0, 0xf, 24)].
Definition LSR_Srrrci : encoding := macro [dc; ra; rb; cc; pc] 0x9080d0c00000 [(rb, 0, 0x7, 17); (rb, 3, 0x3, 32); (dc, 1, 0xf, 40);
    (ra, 0, 0x1f, 34); (cc, 0, 0xf, 24); (cc, 4, 0x1, 29); (pc, 0, 0xffff, 0)].
Definition LSR_Urri : encoding := macro [dc; ra; shift] 0x9003400c0000 [(dc, 1, 0xf, 40); (ra, 0, 0x1f, 34); (shift, 0, 0xf, 20);
    (shift, 4, 0x1, 28)].
Definition LSR_Urric : encoding := macro [dc; ra; shift; cc] 0x9003400c0000 [(dc, 1, 0xf, 40); (ra, 0, 0x1f, 34); (cc, 0, 0xf, 24);
    (shift, 0, 0xf, 20); (shift, 4, 0x1, 28)].
Definition LSR_Urrici : encoding := macro [dc; ra; shift; cc; pc] 0x9003400c0000 [(dc, 1, 0xf, 40); (ra, 0, 0x1f, 34); (cc, 0, 0xf, 24);
    (cc, 4, 0x1, 29); (shift, 0, 0xf, 20); (shift, 4, 0x1, 28); (pc, 0, 0xffff, 0)].
Definition LSR_Urrr : encoding := macro [dc; ra; rb] 0x9000d0c00000 [(rb, 0, 0x7, 17); (rb, 3, 0x3, 32); (dc, 1, 0xf, 40);
    (ra, 0, 0x1f, 34)].
Definition LSR_Urrrc : encoding := macro [dc; ra; rb; cc] 0x9000d0c00000 [(rb, 0, 0x7, 17); (rb, 3, 0x3, 32); (dc, 1, 0xf, 40);
    (ra, 0, 0x1f, 34); (cc, 0, 0xf, 24)].
Definition LSR_Urrrci : encoding := macro [dc; ra; rb; cc; pc] 0x9000d0c00000 [(rb, 0, 0x7, 17); (rb, 3, 0x3, 32); (dc, 1, 0xf, 40);
    (ra, 0, 0x1f, 34); (cc, 0, 0xf, 24); (cc, 4, 0x1, 29); (pc, 0, 0xffff, 0)].
Definition LSR1_Srri : encoding := macro [dc; ra; shift] 0x9083400e0000 [(dc, 1, 0xf, 40); (ra, 0, 0x1f, 34); (shift, 0, 0xf, 20);
    (shift, 4, 0x1, 28)].
Definition LSR1_Srric : encoding := macro [dc; ra; shift; cc] 0x9083400e0000 [(dc, 1, 0xf, 40); (ra, 0, 0x1f, 34); (cc, 0, 0xf, 24);
    (shift, 0, 0xf, 20); (shift, 4, 0x1, 28)].
Definition LSR1_Srrici : encoding := macro [dc; ra; shift; cc; pc] 0x9083400e0000 [(dc, 1, 0xf, 40); (ra, 0, 0x1f, 34); (cc, 0, 0xf, 24);
    (cc, 4, 0x1, 29); (shift, 0, 0xf, 20); (shift, 4, 0x1, 28); (pc, 0, 0xffff, 0)].
Definition LSR1_Srrr : encoding := macro [dc; ra; rb] 0x9080d0e00000 [(rb, 0, 0x7, 17); (rb, 3, 0x3, 32); (dc, 1, 0xf, 40);
    (ra, 0, 0x1f, 34)].
Definition LSR1_Srrrc : encoding := macro [dc; ra; rb; cc] 0x9080d0e00000 [(rb, 0, 0x7, 17); (rb, 3, 0x3, 32); (dc, 1, 0xf, 40);
    (ra, 0, 0x1f, 34); (cc, 0, 0xf, 24)].
Definition LSR1_Srrrci : encoding := macro [dc; ra; rb; cc; pc] 0x9080d0e00000 [(rb, 0, 0x7, 17); (rb, 3, 0x3, 32); (dc, 1, 0xf, 40);
    (ra, 0, 0x1f, 34); (cc, 0, 0xf, 24); (cc, 4, 0x1, 29); (pc, 0, 0xffff, 0)].
Definition LSR1_Urri : encoding := macro [dc; ra; shift] 0x9003400e0000 [(dc, 1, 0xf, 40); (ra, 0, 0x1f, 34); (shift, 0, 0xf, 20);
    (shift, 4, 0x1, 28)].
Definition LSR1_Urric : encoding := macro [dc; ra; shift; cc] 0x9003400e0000 [(dc, 1, 0xf, 40); (ra, 0, 0x1f, 34); (cc, 0, 0xf, 24);
    (shift, 0, 0xf, 20); (shift, 4, 0x1, 28)].
Definition LSR1_Urrici : encoding := macro [dc; ra; shift; cc; pc] 0x9003400e0000 [(dc, 1, 0xf, 40); (ra, 0, 0x1f, 34); (cc, 0, 0xf, 24);
    (cc, 4, 0x1, 29); (shift, 0, 0xf, 20); (shift, 4, 0x1, 28); (pc, 0, 0xffff, 0)].
Definition LSR1_Urrr : encoding := macro [dc; ra; rb] 0x9000d0e00000 [(rb, 0, 0x7, 17); (rb, 3, 0x3, 32); (dc, 1, 0xf, 40);
    (ra, 0, 0x1f, 34)].
Definition LSR1_Urrrc : encoding := macro [dc; ra; rb; cc] 0x9000d0e00000 [(rb, 0, 0x7, 17); (rb, 3, 0x3, 32); (dc, 1, 0xf, 40);
    (ra, 0, 0x1f, 34); (cc, 0, 0xf, 24)].
Definition LSR1_Urrrci : encoding := macro [dc; ra; rb; cc; pc] 0x9000d0e00000 [(rb, 0, 0x7, 17); (rb, 3, 0x3, 32); (dc, 1, 0xf, 40);
    (ra, 0, 0x1f, 34); (cc, 0, 0xf, 24); (cc, 4, 0x1, 29); (pc, 0, 0xffff, 0)].
Definition LSR1rri : encoding := macro [rc; ra; shift] 0x8003400e0000 [(rc, 0, 0x1f, 39); (ra, 0, 0x1f, 34); (shift, 0, 0xf, 20);
    (shift, 4, 0x1, 28)].
Definition LSR1rric : encoding := macro [rc; ra; shift; cc] 0x8003400e0000 [(rc, 0, 0x1f, 39); (ra, 0, 0x1f, 34); (cc, 0, 0xf, 24);
    (shift, 0, 0xf, 20); (shift, 4, 0x1, 28)].
Definition LSR1rrici : encoding := macro [rc; ra; shift; cc; pc] 0x8003400e0000 [(rc, 0, 0x1f, 39); (ra, 0, 0x1f, 34); (cc, 0, 0xf, 24);
    (cc, 4, 0x1, 29); (shift, 0, 0xf, 20); (shift, 4, 0x1, 28); (pc, 0, 0xffff, 0)].
Definition LSR1rrr : encoding := macro [rc; ra; rb] 0x8000d0e00000 [(rb, 0, 0x7, 17); (rb, 3, 0x3, 32); (rc, 0, 0x1f, 39);
    (ra, 0, 0x1f, 34)].
Definition LSR1rrrc : encoding := macro [rc; ra; rb; cc] 0x8000d0e00000 [(rb, 0, 0x7, 17); (rb, 3, 0x3, 32); (rc, 0, 0x1f, 39);
    (ra, 0, 0x1f, 34); (cc, 0, 0xf, 24)].
Definition LSR1rrrci : encoding := macro [rc; ra; rb; cc; pc] 0x8000d0e00000 [(rb, 0, 0x7, 17); (rb, 3, 0x3, 32); (rc, 0, 0x1f, 39);
    (ra, 0, 0x1f, 34); (cc, 0, 0xf, 24); (cc, 4, 0x1, 29); (pc, 0, 0xffff, 0)].
Definition LSR1zri : encoding := macro [ra; shift] 0x8c03400e0000 [(ra, 0, 0x1f, 34); (shift, 0, 0xf, 20); (shift, 4, 0x1, 28)].
Definition LSR1zric : encoding := macro [ra; shift; cc] 0x8c03400e0000 [(ra, 0, 0x1f, 34); (cc, 0, 0xf, 24); (shift, 0, 0xf, 20);
    (shift, 4, 0x1, 28)].
Definition LSR1zrici : encoding := macro [ra; shift; cc; pc] 0x8c03400e0000 [(ra, 0, 0x1f, 34); (cc, 0, 0xf, 24); (cc, 4, 0x1, 29);
    (shift, 0, 0xf, 20); (shift, 4, 0x1, 28); (pc, 0, 0xffff, 0)].
Definition LSR1zrr : encoding := macro [ra; rb] 0x8c00d0e00000 [(rb, 0, 0x7, 17); (rb, 3, 0x3, 32); (ra, 0, 0x1f, 34)].
Definition LSR1zrrc : encoding := macro [ra; rb; cc] 0x8c00d0e00000 [(rb, 0, 0x7, 17); (rb, 3, 0x3, 32); (ra, 0, 0x1f, 34);
    (cc, 0, 0xf, 24)].
Definition LSR1zrrci : encoding := macro [ra; rb; cc; pc] 0x8c00d0e00000 [(rb, 0, 0x7, 17); (rb, 3, 0x3, 32); (ra, 0, 0x1f, 34);
    (cc, 0, 0xf, 24); (cc, 4, 0x1, 29); (pc, 0, 0xffff, 0)].
Definition LSR1X_Srri : encoding := macro [dc; ra; shift] 0x9083400f0000 [(dc, 1, 0xf, 40); (ra, 0, 0x1f, 34); (shift, 0, 0xf, 20);
    (shift, 4, 0x1, 28)].
Definition LSR1X_Srric : encoding := macro [dc; ra; shift; cc] 0x9083400f0000 [(dc, 1, 0xf, 40); (ra, 0, 0x1f, 34); (cc, 0, 0xf, 24);
    (shift, 0, 0xf, 20); (shift, 4, 0x1, 28)].
Definition LSR1X_Srrici : encoding := macro [dc; ra; shift; cc; pc] 0x9083400f0000 [(dc, 1, 0xf, 40); (ra, 0, 0x1f, 34); (cc, 0, 0xf, 24);
    (cc, 4, 0x1, 29); (shift, 0, 0xf, 20); (shift, 4, 0x1, 28); (pc, 0, 0xffff, 0)].
Definition LSR1X_Srrr : encoding := macro [dc; ra; rb] 0x9080d0f00000 [(rb, 0, 0x7, 17); (rb, 3, 0x3, 32); (dc, 1, 0xf, 40);
    (ra, 0, 0x1f, 34)].
Definition LSR1X_Srrrc : encoding := macro [dc; ra; rb; cc] 0x9080d0f00000 [(rb, 0, 0x7, 17); (rb, 3, 0x3, 32); (dc, 1, 0xf, 40);
    (ra, 0, 0x1f, 34); (cc, 0, 0xf, 24)].
Definition LSR1X_Srrrci : encoding := macro [dc; ra; rb; cc; pc] 0x9080d0f00000 [(rb, 0, 0x7, 17); (rb, 3, 0x3, 32); (dc, 1, 0xf, 40);
    (ra, 0, 0x1f, 34); (cc, 0, 0xf, 24); (cc, 4, 0x1, 29); (pc, 0, 0xffff, 0)].
Definition LSR1X_Urri : encoding := macro [dc; ra; shift] 0x9003400f0000 [(dc, 1, 0xf, 40); (ra, 0, 0x1f, 34); (shift, 0, 0xf, 20);
    (shift, 4, 0x1, 28)].
Definition LSR1X_Urric : encoding := macro [dc; ra; shift; cc] 0x9003400f0000 [(dc, 1, 0xf, 40); (ra, 0, 0x1f, 34); (cc, 0, 0xf, 24);
    (shift, 0, 0xf, 20); (shift, 4, 0x1, 28)].
Definition LSR1X_Urrici : encoding := macro [dc; ra; shift; cc; pc] 0x9003400f0000 [(dc, 1, 0xf, 40); (ra, 0, 0x1f, 34); (cc, 0, 0xf, 24);
    (cc, 4, 0x1, 29); (shift, 0, 0xf, 20); (shift, 4, 0x1, 28); (pc, 0, 0xffff, 0)].
Definition LSR1X_Urrr : encoding := macro [dc; ra; rb] 0x9000d0f00000 [(rb, 0, 0x7, 17); (rb, 3, 0x3, 32); (dc, 1, 0xf, 40);
    (ra, 0, 0x1f, 34)].
Definition LSR1X_Urrrc : encoding := macro [dc; ra; rb; cc] 0x9000d0f00000 [(rb, 0, 0x7, 17); (rb, 3, 0x3, 32); (dc, 1, 0xf, 40);
    (ra, 0, 0x1f, 34); (cc, 0, 0xf, 24)].
Definition LSR1X_Urrrci : encoding := macro [dc; ra; rb; cc; pc] 0x9000d0f00000 [(rb, 0, 0x7, 17); (rb, 3, 0x3, 32); (dc, 1, 0xf, 40);
    (ra, 0, 0x1f, 34); (cc, 0, 0xf, 24); (cc, 4, 0x1, 29); (pc, 0, 0xffff, 0)].
Definition LSR1Xrri : encoding := macro [rc; ra; shift] 0x8003400f0000 [(rc, 0, 0x1f, 39); (ra, 0, 0x1f, 34); (shift, 0, 0xf, 20);
    (shift, 4, 0x1, 28)].
Definition LSR1Xrric : encoding := macro [rc; ra; shift; cc] 0x8003400f0000 [(rc, 0, 0x1f, 39); (ra, 0, 0x1f, 34); (cc, 0, 0xf, 24);
    (shift, 0, 0xf, 20); (shift, 4, 0x1, 28)].
Definition LSR1Xrrici : encoding := macro [rc; ra; shift; cc; pc] 0x8003400f0000 [(rc, 0, 0x1f, 39); (ra, 0, 0x1f, 34); (cc, 0, 0xf, 24);
    (cc, 4, 0x1, 29); (shift, 0, 0xf, 20); (shift, 4, 0x1, 28); (pc, 0, 0xffff, 0)].
Definition LSR1Xrrr : encoding := macro [rc; ra; rb] 0x8000d0f00000 [(rb, 0, 0x7, 17); (rb, 3, 0x3, 32); (rc, 0, 0x1f, 39);
    (ra, 0, 0x1f, 34)].
Definition LSR1Xrrrc : encoding := macro [rc; ra; rb; cc] 0x8000d0f00000 [(rb, 0, 0x7, 17); (rb, 3, 0x3, 32); (rc, 0, 0x1f, 39);
    (ra, 0, 0x1f, 34); (cc, 0, 0xf, 24)].
Definition LSR1Xrrrci : encoding := macro [rc; ra; rb; cc; pc] 0x8000d0f00000 [(rb, 0, 0x7, 17); (rb, 3, 0x3, 32); (rc, 0, 0x1f, 39);
    (ra, 0, 0x1f, 34); (cc, 0, 0xf, 24); (cc, 4, 0x1, 29); (pc, 0, 0xffff, 0)].
Definition LSR1Xzri : encoding := macro [ra; shift] 0x8c03400f0000 [(ra, 0, 0x1f, 34); (shift, 0, 0xf, 20); (shift, 4, 0x1, 28)].
Definition LSR1Xzric : encoding := macro [ra; shift; cc] 0x8c03400f0000 [(ra, 0, 0x1f, 34); (cc, 0, 0xf, 24); (shift, 0, 0xf, 20);
    (shift, 4, 0x1, 28)].
Definition LSR1Xzrici : encoding := macro [ra; shift; cc; pc] 0x8c03400f0000 [(ra, 0, 0x1f, 34); (cc, 0, 0xf, 24); (cc, 4, 0x1, 29);
    (shift, 0, 0xf, 20); (shift, 4, 0x1, 28); (pc, 0, 0xffff, 0)].
Definition LSR1Xzrr : encoding := macro [ra; rb] 0x8c00d0f00000 [(rb, 0, 0x7, 17); (rb, 3, 0x3, 32); (ra, 0, 0x1f, 34)].
Definition LSR1Xzrrc : encoding := macro [ra; rb; cc] 0x8c00d0f00000 [(rb, 0, 0x7, 17); (rb, 3, 0x3, 32); (ra, 0, 0x1f, 34);
    (cc, 0, 0xf, 24)].
Definition LSR1Xzrrci : encoding := macro [ra; rb; cc; pc] 0x8c00d0f00000 [(rb, 0, 0x7, 17); (rb, 3, 0x3, 32); (ra, 0, 0x1f, 34);
    (cc, 0, 0xf, 24); (cc, 4, 0x1, 29); (pc, 0, 0xffff, 0)].
Definition LSRrri : encoding := macro [rc; ra; shift] 0x8003400c0000 [(rc, 0, 0x1f, 39); (ra, 0, 0x1f, 34); (shift, 0, 0xf, 20);
    (shift, 4, 0x1, 28)].
Definition LSRrric : encoding := macro [rc; ra; shift; cc] 0x8003400c0000 [(rc, 0, 0x1f, 39); (ra, 0, 0x1f, 34); (cc, 0, 0xf, 24);
    (shift, 0, 0xf, 20); (shift, 4, 0x1, 28)].
Definition LSRrrici : encoding := macro [rc; ra; shift; cc; pc] 0x8003400c0000 [(rc, 0, 0x1f, 39); (ra, 0, 0x1f, 34); (cc, 0, 0xf, 24);
    (cc, 4, 0x1, 29); (shift, 0, 0xf, 20); (shift, 4, 0x1, 28); (pc, 0, 0xffff, 0)].
Definition LSRrrr : encoding := macro [rc; ra; rb] 0x8000d0c00000 [(rb, 0, 0x7, 17); (rb, 3, 0x3, 32); (rc, 0, 0x1f, 39);
    (ra, 0, 0x1f, 34)].
Definition LSRrrrc : encoding := macro [rc; ra; rb; cc] 0x8000d0c00000 [(rb, 0, 0x7, 17); (rb, 3, 0x3, 32); (rc, 0, 0x1f, 39);
    (ra, 0, 0x1f, 34); (cc, 0, 0xf, 24)].
Definition LSRrrrci : encoding := macro [rc; ra; rb; cc; pc] 0x8000d0c00000 [(rb, 0, 0x7, 17); (rb, 3, 0x3, 32); (rc, 0, 0x1f, 39);
    (ra, 0, 0x1f, 34); (cc, 0, 0xf, 24); (cc, 4, 0x1, 29); (pc, 0, 0xffff, 0)].
Definition LSRzri : encoding := macro [ra; shift] 0x8c03400c0000 [(ra, 0, 0x1f, 34); (shift, 0, 0xf, 20); (shift, 4, 0x1, 28)].
Definition LSRzric : encoding := macro [ra; shift; cc] 0x8c03400c0000 [(ra, 0, 0x1f, 34); (cc, 0, 0xf, 24); (shift, 0, 0xf, 20);
    (shift, 4, 0x1, 28)].
Definition LSRzrici : encoding := macro [ra; shift; cc; pc] 0x8c03400c0000 [(ra, 0, 0x1f, 34); (cc, 0, 0xf, 24); (cc, 4, 0x1, 29);
    (shift, 0, 0xf, 20); (shift, 4, 0x1, 28); (pc, 0, 0xffff, 0)].
Definition LSRzrr : encoding := macro [ra; rb] 0x8c00d0c00000 [(rb, 0, 0x7, 17); (rb, 3, 0x3, 32); (ra, 0, 0x1f, 34)].
Definition LSRzrrc : encoding := macro [ra; rb; cc] 0x8c00d0c00000 [(rb, 0, 0x7, 17); (rb, 3, 0x3, 32); (ra, 0, 0x1f, 34);
    (cc, 0, 0xf, 24)].
Definition LSRzrrci : encoding := macro [ra; rb; cc; pc] 0x8c00d0c00000 [(rb, 0, 0x7, 17); (rb, 3, 0x3, 32); (ra, 0, 0x1f, 34);
    (cc, 0, 0xf, 24); (cc, 4, 0x1, 29); (pc, 0, 0xffff, 0)].
Definition LSR_ADD_Srrri : encoding := macro [dc; rb; ra; shift] 0x908020000000 [(rb, 0, 0x7, 17); (rb, 3, 0x3, 32); (dc, 1, 0xf, 40);
    (ra, 0, 0x1f, 34); (shift, 0, 0xf, 20); (shift, 4, 0x1, 28)].
Definition LSR_ADD_Srrrici : encoding := macro [dc; rb; ra; shift; cc; pc] 0x908020000000 [(rb, 0, 0x7, 17); (rb, 3, 0x3, 32);
    (dc, 1, 0xf, 40); (ra, 0, 0x1f, 34); (cc, 0, 0xf, 24); (shift, 0, 0xf, 20); (shift, 4, 0x1, 28); (pc, 0, 0xffff, 0)].
Definition LSR_ADD_Urrri : encoding := macro [dc; rb; ra; shift] 0x900020000000 [(rb, 0, 0x7, 17); (rb, 3, 0x3, 32); (dc, 1, 0xf, 40);
    (ra, 0, 0x1f, 34); (shift, 0, 0xf, 20); (shift, 4, 0x1, 28)].
Definition LSR_ADD_Urrrici : encoding := macro [dc; rb; ra; shift; cc; pc] 0x900020000000 [(rb, 0, 0x7, 17); (rb, 3, 0x3, 32);
    (dc, 1, 0xf, 40); (ra, 0, 0x1f, 34); (cc, 0, 0xf, 24); (shift, 0, 0xf, 20); (shift, 4, 0x1, 28); (pc, 0, 0xffff, 0)].
Definition LSR_ADDrrri : encoding := macro [rc; rb; ra; shift] 0x800020000000 [(rb, 0, 0x7, 17); (rb, 3, 0x3, 32); (rc, 0, 0x1f, 39);
    (ra, 0, 0x1f, 34); (shift, 0, 0xf, 20); (shift, 4, 0x1, 28)].
Definition LSR_ADDrrrici : encoding := macro [rc; rb; ra; shift; cc; pc] 0x800020000000 [(rb, 0, 0x7, 17); (rb, 3, 0x3, 32);
    (rc, 0, 0x1f, 39); (ra, 0, 0x1f, 34); (cc, 0, 0xf, 24); (shift, 0, 0xf, 20); (shift, 4, 0x1, 28); (pc, 0, 0xffff, 0)].
Definition LSR_ADDzrri : encoding := macro [rb; ra; shift] 0x8c0020000000 [(rb, 0, 0x7, 17); (rb, 3, 0x3, 32); (ra, 0, 0x1f, 34);
    (shift, 0, 0xf, 20); (shift, 4, 0x1, 28)].
Definition LSR_ADDzrrici : encoding := macro [rb; ra; shift; cc; pc] 0x8c0020000000 [(rb, 0, 0x7, 17); (rb, 3, 0x3, 32);
    (ra, 0, 0x1f, 34); (cc, 0, 0xf, 24); (shift, 0, 0xf, 20); (shift, 4, 0x1, 28); (pc, 0, 0xffff, 0)].
Definition LSRX_Srri : encoding := macro [dc; ra; shift] 0x9083400d0000 [(dc, 1, 0xf, 40); (ra, 0, 0x1f, 34); (shift, 0, 0xf, 20);
    (shift, 4, 0x1, 28)].
Definition LSRX_Srric : encoding := macro [dc; ra; shift; cc] 0x9083400d0000 [(dc, 1, 0xf, 40); (ra, 0, 0x1f, 34); (cc, 0, 0xf, 24);
    (shift, 0, 0xf, 20); (shift, 4, 0x1, 28)].
Definition LSRX_Srrici : encoding := macro [dc; ra; shift; cc; pc] 0x9083400d0000 [(dc, 1, 0xf, 40); (ra, 0, 0x1f, 34); (cc, 0, 0xf, 24);
    (cc, 4, 0x1, 29); (shift, 0, 0xf, 20); (shift, 4, 0x1, 28); (pc, 0, 0xffff, 0)].
Definition LSRX_Srrr : encoding := macro [dc; ra; rb] 0x9080d0d00000 [(rb, 0, 0x7, 17); (rb, 3, 0x3, 32); (dc, 1, 0xf, 40);
    (ra, 0, 0x1f, 34)].
Definition LSRX_Srrrc : encoding := macro [dc; ra; rb; cc] 0x9080d0d00000 [(rb, 0, 0x7, 17); (rb, 3, 0x3, 32); (dc, 1, 0xf, 40);
    (ra, 0, 0x1f, 34); (cc, 0, 0xf, 24)].
Definition LSRX_Srrrci : encoding := macro [dc; ra; rb; cc; pc] 0x9080d0d00000 [(rb, 0, 0x7, 17); (rb, 3, 0x3, 32); (dc, 1, 0xf, 40);
    (ra, 0, 0x1f, 34); (cc, 0, 0xf, 24); (cc, 4, 0x1, 29); (pc, 0, 0xffff, 0)].
Definition LSRX_Urri : encoding := macro [dc; ra; shift] 0x9003400d0000 [(dc, 1, 0xf, 40); (ra, 0, 0x1f, 34); (shift, 0, 0xf, 20);
    (shift, 4, 0x1, 28)].
Definition LSRX_Urric : encoding := macro [dc; ra; shift; cc] 0x9003400d0000 [(dc, 1, 0xf, 40); (ra, 0, 0x1f, 34); (cc, 0, 0xf, 24);
    (shift, 0, 0xf, 20); (shift, 4, 0x1, 28)].
Definition LSRX_Urrici : encoding := macro [dc; ra; shift; cc; pc] 0x9003400d0000 [(dc, 1, 0xf, 40); (ra, 0, 0x1f, 34); (cc, 0, 0xf, 24);
    (cc, 4, 0x1, 29); (shift, 0, 0xf, 20); (shift, 4, 0x1, 28); (pc, 0, 0xffff, 0)].
Definition LSRX_Urrr : encoding := macro [dc; ra; rb] 0x9000d0d00000 [(rb, 0, 0x7, 17); (rb, 3, 0x3, 32); (dc, 1, 0xf, 40);
    (ra, 0, 0x1f, 34)].
Definition LSRX_Urrrc : encoding := macro [dc; ra; rb; cc] 0x9000d0d00000 [(rb, 0, 0x7, 17); (rb, 3, 0x3, 32); (dc, 1, 0xf, 40);
    (ra, 0, 0x1f, 34); (cc, 0, 0xf, 24)].
Definition LSRX_Urrrci : encoding := macro [dc; ra; rb; cc; pc] 0x9000d0d00000 [(rb, 0, 0x7, 17); (rb, 3, 0x3, 32); (dc, 1, 0xf, 40);
    (ra, 0, 0x1f, 34); (cc, 0, 0xf, 24); (cc, 4, 0x1, 29); (pc, 0, 0xffff, 0)].
Definition LSRXrri : encoding := macro [rc; ra; shift] 0x8003400d0000 [(rc, 0, 0x1f, 39); (ra, 0, 0x1f, 34); (shift, 0, 0xf, 20);
    (shift, 4, 0x1, 28)].
Definition LSRXrric : encoding := macro [rc; ra; shift; cc] 0x8003400d0000 [(rc, 0, 0x1f, 39); (ra, 0, 0x1f, 34); (cc, 0, 0xf, 24);
    (shift, 0, 0xf, 20); (shift, 4, 0x1, 28)].
Definition LSRXrrici : encoding := macro [rc; ra; shift; cc; pc] 0x8003400d0000 [(rc, 0, 0x1f, 39); (ra, 0, 0x1f, 34); (cc, 0, 0xf, 24);
    (cc, 4, 0x1, 29); (shift, 0, 0xf, 20); (shift, 4, 0x1, 28); (pc, 0, 0xffff, 0)].
Definition LSRXrrr : encoding := macro [rc; ra; rb] 0x8000d0d00000 [(rb, 0, 0x7, 17); (rb, 3, 0x3, 32); (rc, 0, 0x1f, 39);
    (ra, 0, 0x1f, 34)].
Definition LSRXrrrc : encoding := macro [rc; ra; rb; cc] 0x8000d0d00000 [(rb, 0, 0x7, 17); (rb, 3, 0x3, 32); (rc, 0, 0x1f, 39);
    (ra, 0, 0x1f, 34); (cc, 0, 0xf, 24)].
Definition LSRXrrrci : encoding := macro [rc; ra; rb; cc; pc] 0x8000d0d00000 [(rb, 0, 0x7, 17); (rb, 3, 0x3, 32); (rc, 0, 0x1f, 39);
    (ra, 0, 0x1f, 34); (cc, 0, 0xf, 24); (cc, 4, 0x1, 29); (pc, 0, 0xffff, 0)].
Definition LSRXzri : encoding := macro [ra; shift] 0x8c03400d0000 [(ra, 0, 0x1f, 34); (shift, 0, 0xf, 20); (shift, 4, 0x1, 28)].
Definition LSRXzric : encoding := macro [ra; shift; cc] 0x8c03400d0000 [(ra, 0, 0x1f, 34); (cc, 0, 0xf, 24); (shift, 0, 0xf, 20);
    (shift, 4, 0x1, 28)].
Definition LSRXzrici : encoding := macro [ra; shift; cc; pc] 0x8c03400d0000 [(ra, 0, 0x1f, 34); (cc, 0, 0xf, 24); (cc, 4, 0x1, 29);
    (shift, 0, 0xf, 20); (shift, 4, 0x1, 28); (pc, 0, 0xffff, 0)].
Definition LSRXzrr : encoding := macro [ra; rb] 0x8c00d0d00000 [(rb, 0, 0x7, 17); (rb, 3, 0x3, 32); (ra, 0, 0x1f, 34)].
Definition LSRXzrrc : encoding := macro [ra; rb; cc] 0x8c00d0d00000 [(rb, 0, 0x7, 17); (rb, 3, 0x3, 32); (ra, 0, 0x1f, 34);
    (cc, 0, 0xf, 24)].
Definition LSRXzrrci : encoding := macro [ra; rb; cc; pc] 0x8c00d0d00000 [(rb, 0, 0x7, 17); (rb, 3, 0x3, 32); (ra, 0, 0x1f, 34);
    (cc, 0, 0xf, 24); (cc, 4, 0x1, 29); (pc, 0, 0xffff, 0)].
Definition LW_Serri : encoding := macro [endian; dc; ra; off] 0x708364000000 [(ra, 0, 0x1f, 34); (endian, 0, 0x1, 27); (off, 0, 0xf, 20);
    (off, 4, 0xf, 16); (off, 8, 0x1, 15); (off, 9, 0x1, 14); (off, 10, 0x1, 13); (off, 11, 0x1, 12); (off, 12, 0xfff, 0);
    (dc, 1, 0xf, 40)].
Definition LW_Srri : encoding := macro [dc; ra; off] 0x708364000000 [(ra, 0, 0x1f, 34); (off, 0, 0xf, 20); (off, 4, 0xf, 16);
    (off, 8, 0x1, 15); (off, 9, 0x1, 14); (off, 10, 0x1, 13); (off, 11, 0x1, 12); (off, 12, 0xfff, 0); (dc, 1, 0xf, 40)].
Definition LW_Uerri : encoding := macro [endian; dc; ra; off] 0x700364000000 [(ra, 0, 0x1f, 34); (endian, 0, 0x1, 27); (off, 0, 0xf, 20);
    (off, 4, 0xf, 16); (off, 8, 0x1, 15); (off, 9, 0x1, 14); (off, 10, 0x1, 13); (off, 11, 0x1, 12); (off, 12, 0xfff, 0);
    (dc, 1, 0xf, 40)].
Definition LW_Urri : encoding := macro [dc; ra; off] 0x700364000000 [(ra, 0, 0x1f, 34); (off, 0, 0xf, 20); (off, 4, 0xf, 16);
    (off, 8, 0x1, 15); (off, 9, 0x1, 14); (off, 10, 0x1, 13); (off, 11, 0x1, 12); (off, 12, 0xfff, 0); (dc, 1, 0xf, 40)].
Definition LWerri : encoding := macro [endian; rc; ra; off] 0x700344000000 [(ra, 0, 0x1f, 34); (endian, 0, 0x1, 27); (off, 0, 0xf, 20);
    (off, 4, 0xf, 16); (off, 8, 0x1, 15); (off, 9, 0x1, 14); (off, 10, 0x1, 13); (off, 11, 0x1, 12); (off, 12, 0xfff, 0);
    (rc, 0, 0x1f, 39)].
Definition LWersi : encoding := macro [endian; rc; ra; off] 0x700354000000 [(ra, 0, 0x1f, 34); (endian, 0, 0x1, 27); (off, 0, 0xf, 20);
    (off, 4, 0xf, 16); (off, 8, 0x1, 15); (off, 9, 0x1, 14); (off, 10, 0x1, 13); (off, 11, 0x1, 12); (off, 12, 0xfff, 0);
    (rc, 0, 0x1f, 39)].
Definition LWrri : encoding := macro [rc; ra; off] 0x700344000000 [(ra, 0, 0x1f, 34); (off, 0, 0xf, 20); (off, 4, 0xf, 16);
    (off, 8, 0x1, 15); (off, 9, 0x1, 14); (off, 10, 0x1, 13); (off, 11, 0x1, 12); (off, 12, 0xfff, 0); (rc, 0, 0x1f, 39)].
Definition LWSrri : encoding := macro [rc; ra; off] 0x700354000000 [(ra, 0, 0x1f, 34); (off, 0, 0xf, 20); (off, 4, 0xf, 16);
    (off, 8, 0x1, 15); (off, 9, 0x1, 14); (off, 10, 0x1, 13); (off, 11, 0x1, 12); (off, 12, 0xfff, 0); (rc, 0, 0x1f, 39)].
Definition MOVDrr : encoding := macro [dc; db] 0x806020010000 [(db, 0, 0x7, 17); (db, 3, 0x3, 32); (dc, 0, 0x1f, 39)].
Definition MOVDrrci : encoding := macro [dc; db; cc; pc] 0x806020010000 [(db, 0, 0x7, 17); (db, 3, 0x3, 32); (dc, 0, 0x1f, 39);
    (cc, 0, 0xf, 24); (pc, 0, 0xffff, 0)].
Definition MOVE_Sri : encoding := macro [dc; imm] 0x50eb00000000 [(dc, 1, 0xf, 40); (imm, 0, 0xf, 20); (imm, 4, 0xf, 16);
    (imm, 8, 0x1, 15); (imm, 9, 0x1, 14); (imm, 10, 0x1, 13); (imm, 11, 0x1, 12); (imm, 12, 0xfff, 0); (imm, 24, 0xff, 24)].
Definition MOVE_Srici : encoding := macro [dc; imm; cc; pc] 0x90e3b0000000 [(dc, 1, 0xf, 40); (cc, 0, 0xf, 24); (imm, 0, 0xf, 20);
    (imm, 4, 0xf, 16); (pc, 0, 0xffff, 0)].
Definition MOVE_Srr : encoding := macro [dc; ra] 0x9083b0000000 [(dc, 1, 0xf, 40); (ra, 0, 0x1f, 34)].
Definition MOVE_Srrci : encoding := macro [dc; ra; cc; pc] 0x9083b0000000 [(dc, 1, 0xf, 40); (ra, 0, 0x1f, 34); (cc, 0, 0xf, 24);
    (pc, 0, 0xffff, 0)].
Definition MOVE_Uri : encoding := macro [dc; imm] 0x506b00000000 [(dc, 1, 0xf, 40); (imm, 0, 0xf, 20); (imm, 4, 0xf, 16);
    (imm, 8, 0x1, 15); (imm, 9, 0x1, 14); (imm, 10, 0x1, 13); (imm, 11, 0x1, 12); (imm, 12, 0xfff, 0); (imm, 24, 0xff, 24)].
Definition MOVE_Urici : encoding := macro [dc; imm; cc; pc] 0x9063b0000000 [(dc, 1, 0xf, 40); (cc, 0, 0xf, 24); (imm, 0, 0xf, 20);
    (imm, 4, 0xf, 16); (pc, 0, 0xffff, 0)].
Definition MOVE_Urr : encoding := macro [dc; ra] 0x9003b0000000 [(dc, 1, 0xf, 40); (ra, 0, 0x1f, 34)].
Definition MOVE_Urrci : encoding := macro [dc; ra; cc; pc] 0x9003b0000000 [(dc, 1, 0xf, 40); (ra, 0, 0x1f, 34); (cc, 0, 0xf, 24);
    (pc, 0, 0xffff, 0)].
Definition MOVEri : encoding := macro [rc; imm] 0x606300000000 [(imm, 0, 0xf, 20); (imm, 4, 0xf, 16); (imm, 8, 0x1, 15);
    (imm, 9, 0x1, 14); (imm, 10, 0x1, 13); (imm, 11, 0x1, 12); (imm, 12, 0xfff, 0); (imm, 24, 0xff, 24); (rc, 0, 0x1f, 39)].
Definition MOVErici : encoding := macro [rc; imm; cc; pc] 0x8063b0000000 [(rc, 0, 0x1f, 39); (cc, 0, 0xf, 24); (imm, 0, 0xf, 20);
    (imm, 4, 0xf, 16); (pc, 0, 0xffff, 0)].
Definition MOVErr : encoding := macro [rc; ra] 0x8003b0000000 [(rc, 0, 0x1f, 39); (ra, 0, 0x1f, 34)].
Definition MOVErrci : encoding := macro [rc; ra; cc; pc] 0x8003b0000000 [(rc, 0, 0x1f, 39); (ra, 0, 0x1f, 34); (cc, 0, 0xf, 24);
    (pc, 0, 0xffff, 0)].
Definition MUL_SH_SH_Srrr : encoding := macro [dc; ra; rb] 0x4c8000700000 [(rb, 0, 0x7, 17); (rb, 3, 0x3, 32); (ra, 0, 0x1f, 34);
    (dc, 1, 0x3, 40); (dc, 3, 0x3, 44)].
Definition MUL_SH_SH_Srrrc : encoding := macro [dc; ra; rb; cc] 0x4c8000700000 [(rb, 0, 0x7, 17); (rb, 3, 0x3, 32); (ra, 0, 0x1f, 34);
    (dc, 1, 0x3, 40); (dc, 3, 0x3, 44); (cc, 0, 0xf, 24)].
Definition MUL_SH_SH_Srrrci : encoding := macro [dc; ra; rb; cc; pc] 0x4c8000700000 [(rb, 0, 0x7, 17); (rb, 3, 0x3, 32);
    (ra, 0, 0x1f, 34); (dc, 1, 0x3, 40); (dc, 3, 0x3, 44); (cc, 0, 0x1f, 24); (pc, 0, 0xffff, 0)].
Definition MUL_SH_SHrrr : encoding := macro [rc; ra; rb] 0xc0000700000 [(rb, 0, 0x7, 17); (rb, 3, 0x3, 32); (ra, 0, 0x1f, 34);
    (rc, 0, 0x7, 39); (rc, 3, 0x3, 44)].
Definition MUL_SH_SHrrrc : encoding := macro [rc; ra; rb; cc] 0xc0000700000 [(rb, 0, 0x7, 17); (rb, 3, 0x3, 32); (ra, 0, 0x1f, 34);
    (rc, 0, 0x7, 39); (rc, 3, 0x3, 44); (cc, 0, 0xf, 24)].
Definition MUL_SH_SHrrrci : encoding := macro [rc; ra; rb; cc; pc] 0xc0000700000 [(rb, 0, 0x7, 17); (rb, 3, 0x3, 32); (ra, 0, 0x1f, 34);
    (rc, 0, 0x7, 39); (rc, 3, 0x3, 44); (cc, 0, 0x1f, 24); (pc, 0, 0xffff, 0)].
Definition MUL_SH_SHzrr : encoding := macro [ra; rb] 0x3c0000700000 [(rb, 0, 0x7, 17); (rb, 3, 0x3, 32); (ra, 0, 0x1f, 34)].
Definition MUL_SH_SHzrrc : encoding := macro [ra; rb; cc] 0x3c0000700000 [(rb, 0, 0x7, 17); (rb, 3, 0x3, 32); (ra, 0, 0x1f, 34);
    (cc, 0, 0xf, 24)].
Definition MUL_SH_SHzrrci : encoding := macro [ra; rb; cc; pc] 0x3c0000700000 [(rb, 0, 0x7, 17); (rb, 3, 0x3, 32); (ra, 0, 0x1f, 34);
    (cc, 0, 0x1f, 24); (pc, 0, 0xffff, 0)].
Definition MUL_SH_SL_Srrr : encoding := macro [dc; ra; rb] 0x4c8000600000 [(rb, 0, 0x7, 17); (rb, 3, 0x3, 32); (ra, 0, 0x1f, 34);
    (dc, 1, 0x3, 40); (dc, 3, 0x3, 44)].
Definition MUL_SH_SL_Srrrc : encoding := macro [dc; ra; rb; cc] 0x4c8000600000 [(rb, 0, 0x7, 17); (rb, 3, 0x3, 32); (ra, 0, 0x1f, 34);
    (dc, 1, 0x3, 40); (dc, 3, 0x3, 44); (cc, 0, 0xf, 24)].
Definition MUL_SH_SL_Srrrci : encoding := macro [dc; ra; rb; cc; pc] 0x4c8000600000 [(rb, 0, 0x7, 17); (rb, 3, 0x3, 32);
    (ra, 0, 0x1f, 34); (dc, 1, 0x3, 40); (dc, 3, 0x3, 44); (cc, 0, 0x1f, 24); (pc, 0, 0xffff, 0)].
Definition MUL_SH_SLrrr : encoding := macro [rc; ra; rb] 0xc0000600000 [(rb, 0, 0x7, 17); (rb, 3, 0x3, 32); (ra, 0, 0x1f, 34);
    (rc, 0, 0x7, 39); (rc, 3, 0x3, 44)].
Definition MUL_SH_SLrrrc : encoding := macro [rc; ra; rb; cc] 0xc0000600000 [(rb, 0, 0x7, 17); (rb, 3, 0x3, 32); (ra, 0, 0x1f, 34);
    (rc, 0, 0x7, 39); (rc, 3, 0x3, 44); (cc, 0, 0xf, 24)].
Definition MUL_SH_SLrrrci : encoding := macro [rc; ra; rb; cc; pc] 0xc0000600000 [(rb, 0, 0x7, 17); (rb, 3, 0x3, 32); (ra, 0, 0x1f, 34);
    (rc, 0, 0x7, 39); (rc, 3, 0x3, 44); (cc, 0, 0x1f, 24); (pc, 0, 0xffff, 0)].
Definition MUL_SH_SLzrr : encoding := macro [ra; rb] 0x3c0000600000 [(rb, 0, 0x7, 17); (rb, 3, 0x3, 32); (ra, 0, 0x1f, 34)].
Definition MUL_SH_SLzrrc : encoding := macro [ra; rb; cc] 0x3c0000600000 [(rb, 0, 0x7, 17); (rb, 3, 0x3, 32); (ra, 0, 0x1f, 34);
    (cc, 0, 0xf, 24)].
Definition MUL_SH_SLzrrci : encoding := macro [ra; rb; cc; pc] 0x3c0000600000 [(rb, 0, 0x7, 17); (rb, 3, 0x3, 32); (ra, 0, 0x1f, 34);
    (cc, 0, 0x1f, 24); (pc, 0, 0xffff, 0)].
Definition MUL_SH_UH_Srrr : encoding := macro [dc; ra; rb] 0x4c8000b00000 [(rb, 0, 0x7, 17); (rb, 3, 0x3, 32); (ra, 0, 0x1f, 34);
    (dc, 1, 0x3, 40); (dc, 3, 0x3, 44)].
Definition MUL_SH_UH_Srrrc : encoding := macro [dc; ra; rb; cc] 0x4c8000b00000 [(rb, 0, 0x7, 17); (rb, 3, 0x3, 32); (ra, 0, 0x1f, 34);
    (dc, 1, 0x3, 40); (dc, 3, 0x3, 44); (cc, 0, 0xf, 24)].
Definition MUL_SH_UH_Srrrci : encoding := macro [dc; ra; rb; cc; pc] 0x4c8000b00000 [(rb, 0, 0x7, 17); (rb, 3, 0x3, 32);
    (ra, 0, 0x1f, 34); (dc, 1, 0x3, 40); (dc, 3, 0x3, 44); (cc, 0, 0x1f, 24); (pc, 0, 0xffff, 0)].
Definition MUL_SH_UHrrr : encoding := macro [rc; ra; rb] 0xc0000b00000 [(rb, 0, 0x7, 17); (rb, 3, 0x3, 32); (ra, 0, 0x1f, 34);
    (rc, 0, 0x7, 39); (rc, 3, 0x3, 44)].
Definition MUL_SH_UHrrrc : encoding := macro [rc; ra; rb; cc] 0xc0000b00000 [(rb, 0, 0x7, 17); (rb, 3, 0x3, 32); (ra, 0, 0x1f, 34);
    (rc, 0, 0x7, 39); (rc, 3, 0x3, 44); (cc, 0, 0xf, 24)].
Definition MUL_SH_UHrrrci : encoding := macro [rc; ra; rb; cc; pc] 0xc0000b00000 [(rb, 0, 0x7, 17); (rb, 3, 0x3, 32); (ra, 0, 0x1f, 34);
    (rc, 0, 0x7, 39); (rc, 3, 0x3, 44); (cc, 0, 0x1f, 24); (pc, 0, 0xffff, 0)].
Definition MUL_SH_UHzrr : encoding := macro [ra; rb] 0x3c0000b00000 [(rb, 0, 0x7, 17); (rb, 3, 0x3, 32); (ra, 0, 0x1f, 34)].
Definition MUL_SH_UHzrrc : encoding := macro [ra; rb; cc] 0x3c0000b00000 [(rb, 0, 0x7, 17); (rb, 3, 0x3, 32); (ra, 0, 0x1f, 34);
    (cc, 0, 0xf, 24)].
Definition MUL_SH_UHzrrci : encoding := macro [ra; rb; cc; pc] 0x3c0000b00000 [(rb, 0, 0x7, 17); (rb, 3, 0x3, 32); (ra, 0, 0x1f, 34);
    (cc, 0, 0x1f, 24); (pc, 0, 0xffff, 0)].
Definition MUL_SH_UL_Srrr : encoding := macro [dc; ra; rb] 0x4c8000a00000 [(rb, 0, 0x7, 17); (rb, 3, 0x3, 32); (ra, 0, 0x1f, 34);
    (dc, 1, 0x3, 40); (dc, 3, 0x3, 44)].
Definition MUL_SH_UL_Srrrc : encoding := macro [dc; ra; rb; cc] 0x4c8000a00000 [(rb, 0, 0x7, 17); (rb, 3, 0x3, 32); (ra, 0, 0x1f, 34);
    (dc, 1, 0x3, 40); (dc, 3, 0x3, 44); (cc, 0, 0xf, 24)].
Definition MUL_SH_UL_Srrrci : encoding := macro [dc; ra; rb; cc; pc] 0x4c8000a00000 [(rb, 0, 0x7, 17); (rb, 3, 0x3, 32);
    (ra, 0, 0x1f, 34); (dc, 1, 0x3, 40); (dc, 3, 0x3, 44); (cc, 0, 0x1f, 24); (pc, 0, 0xffff, 0)].
Definition MUL_SH_ULrrr : encoding := macro [rc; ra; rb] 0xc0000a00000 [(rb, 0, 0x7, 17); (rb, 3, 0x3, 32); (ra, 0, 0x1f, 34);
    (rc, 0, 0x7, 39); (rc, 3, 0x3, 44)].
Definition MUL_SH_ULrrrc : encoding := macro [rc; ra; rb; cc] 0xc0000a00000 [(rb, 0, 0x7, 17); (rb, 3, 0x3, 32); (ra, 0, 0x1f, 34);
    (rc, 0, 0x7, 39); (rc, 3, 0x3, 44); (cc, 0, 0xf, 24)].
Definition MUL_SH_ULrrrci : encoding := macro [rc; ra; rb; cc; pc] 0xc0000a00000 [(rb, 0, 0x7, 17); (rb, 3, 0x3, 32); (ra, 0, 0x1f, 34);
    (rc, 0, 0x7, 39); (rc, 3, 0x3, 44); (cc, 0, 0x1f, 24); (pc, 0, 0xffff, 0)].
Definition MUL_SH_ULzrr : encoding := macro [ra; rb] 0x3c0000a00000 [(rb, 0, 0x7, 17); (rb, 3, 0x3, 32); (ra, 0, 0x1f, 34)].
Definition MUL_SH_ULzrrc : encoding := macro [ra; rb; cc] 0x3c0000a00000 [(rb, 0, 0x7, 17); (rb, 3, 0x3, 32); (ra, 0, 0x1f, 34);
    (cc, 0, 0xf, 24)].
Definition MUL_SH_ULzrrci : encoding := macro [ra; rb; cc; pc] 0x3c0000a00000 [(rb, 0, 0x7, 17); (rb, 3, 0x3, 32); (ra, 0, 0x1f, 34);
    (cc, 0, 0x1f, 24); (pc, 0, 0xffff, 0)].
Definition MUL_SL_SH_Srrr : encoding := macro [dc; ra; rb] 0x4c8000500000 [(rb, 0, 0x7, 17); (rb, 3, 0x3, 32); (ra, 0, 0x1f, 34);
    (dc, 1, 0x3, 40); (dc, 3, 0x3, 44)].
Definition MUL_SL_SH_Srrrc : encoding := macro [dc; ra; rb; cc] 0x4c8000500000 [(rb, 0, 0x7, 17); (rb, 3, 0x3, 32); (ra, 0, 0x1f, 34);
    (dc, 1, 0x3, 40); (dc, 3, 0x3, 44); (cc, 0, 0xf, 24)].
Definition MUL_SL_SH_Srrrci : encoding := macro [dc; ra; rb; cc; pc] 0x4c8000500000 [(rb, 0, 0x7, 17); (rb, 3, 0x3, 32);
    (ra, 0, 0x1f, 34); (dc, 1, 0x3, 40); (dc, 3, 0x3, 44); (cc, 0, 0x1f, 24); (pc, 0, 0xffff, 0)].
Definition MUL_SL_SHrrr : encoding := macro [rc; ra; rb] 0xc0000500000 [(rb, 0, 0x7, 17); (rb, 3, 0x3, 32); (ra, 0, 0x1f, 34);
    (rc, 0, 0x7, 39); (rc, 3, 0x3, 44)].
Definition MUL_SL_SHrrrc : encoding := macro [rc; ra; rb; cc] 0xc0000500000 [(rb, 0, 0x7, 17); (rb, 3, 0x3, 32); (ra, 0, 0x1f, 34);
    (rc, 0, 0x7, 39); (rc, 3, 0x3, 44); (cc, 0, 0xf, 24)].
Definition MUL_SL_SHrrrci : encoding := macro [rc; ra; rb; cc; pc] 0xc0000500000 [(rb, 0, 0x7, 17); (rb, 3, 0x3, 32); (ra, 0, 0x1f, 34);
    (rc, 0, 0x7, 39); (rc, 3, 0x3, 44); (cc, 0, 0x1f, 24); (pc, 0, 0xffff, 0)].
Definition MUL_SL_SHzrr : encoding := macro [ra; rb] 0x3c0000500000 [(rb, 0, 0x7, 17); (rb, 3, 0x3, 32); (ra, 0, 0x1f, 34)].
Definition MUL_SL_SHzrrc : encoding := macro [ra; rb; cc] 0x3c0000500000 [(rb, 0, 0x7, 17); (rb, 3, 0x3, 32); (ra, 0, 0x1f, 34);
    (cc, 0, 0xf, 24)].
Definition MUL_SL_SHzrrci : encoding := macro [ra; rb; cc; pc] 0x3c0000500000 [(rb, 0, 0x7, 17); (rb, 3, 0x3, 32); (ra, 0, 0x1f, 34);
    (cc, 0, 0x1f, 24); (pc, 0, 0xffff, 0)].
Definition MUL_SL_SL_Srrr : encoding := macro [dc; ra; rb] 0x4c8000400000 [(rb, 0, 0x7, 17); (rb, 3, 0x3, 32); (ra, 0, 0x1f, 34);
    (dc, 1, 0x3, 40); (dc, 3, 0x3, 44)].
Definition MUL_SL_SL_Srrrc : encoding := macro [dc; ra; rb; cc] 0x4c8000400000 [(rb, 0, 0x7, 17); (rb, 3, 0x3, 32); (ra, 0, 0x1f, 34);
    (dc, 1, 0x3, 40); (dc, 3, 0x3, 44); (cc, 0, 0xf, 24)].
Definition MUL_SL_SL_Srrrci : encoding := macro [dc; ra; rb; cc; pc] 0x4c8000400000 [(rb, 0, 0x7, 17); (rb, 3, 0x3, 32);
    (ra, 0, 0x1f, 34); (dc, 1, 0x3, 40); (dc, 3, 0x3, 44); (cc, 0, 0x1f, 24); (pc, 0, 0xffff, 0)].
Definition MUL_SL_SLrrr : encoding := macro [rc; ra; rb] 0xc0000400000 [(rb, 0, 0x7, 17); (rb, 3, 0x3, 32); (ra, 0, 0x1f, 34);
    (rc, 0, 0x7, 39); (rc, 3, 0x3, 44)].
Definition MUL_SL_SLrrrc : encoding := macro [rc; ra; rb; cc] 0xc0000400000 [(rb, 0, 0x7, 17); (rb, 3, 0x3, 32); (ra, 0, 0x1f, 34);
    (rc, 0, 0x7, 39); (rc, 3, 0x3, 44); (cc, 0, 0xf, 24)].
Definition MUL_SL_SLrrrci : encoding := macro [rc; ra; rb; cc; pc] 0xc0000400000 [(rb, 0, 0x7, 17); (rb, 3, 0x3, 32); (ra, 0, 0x1f, 34);
    (rc, 0, 0x7, 39); (rc, 3, 0x3, 44); (cc, 0, 0x1f, 24); (pc, 0, 0xffff, 0)].
Definition MUL_SL_SLzrr : encoding := macro [ra; rb] 0x3c0000400000 [(rb, 0, 0x7, 17); (rb, 3, 0x3, 32); (ra, 0, 0x1f, 34)].
Definition MUL_SL_SLzrrc : encoding := macro [ra; rb; cc] 0x3c0000400000 [(rb, 0, 0x7, 17); (rb, 3, 0x3, 32); (ra, 0, 0x1f, 34);
    (cc, 0, 0xf, 24)].
Definition MUL_SL_SLzrrci : encoding := macro [ra; rb; cc; pc] 0x3c0000400000 [(rb, 0, 0x7, 17); (rb, 3, 0x3, 32); (ra, 0, 0x1f, 34);
    (cc, 0, 0x1f, 24); (pc, 0, 0xffff, 0)].
Definition MUL_SL_UH_Srrr : encoding := macro [dc; ra; rb] 0x4c8000900000 [(rb, 0, 0x7, 17); (rb, 3, 0x3, 32); (ra, 0, 0x1f, 34);
    (dc, 1, 0x3, 40); (dc, 3, 0x3, 44)].
Definition MUL_SL_UH_Srrrc : encoding := macro [dc; ra; rb; cc] 0x4c8000900000 [(rb, 0, 0x7, 17); (rb, 3, 0x3, 32); (ra, 0, 0x1f, 34);
    (dc, 1, 0x3, 40); (dc, 3, 0x3, 44); (cc, 0, 0xf, 24)].
Definition MUL_SL_UH_Srrrci : encoding := macro [dc; ra; rb; cc; pc] 0x4c8000900000 [(rb, 0, 0x7, 17); (rb, 3, 0x3, 32);
    (ra, 0, 0x1f, 34); (dc, 1, 0x3, 40); (dc, 3, 0x3, 44); (cc, 0, 0x1f, 24); (pc, 0, 0xffff, 0)].
Definition MUL_SL_UHrrr : encoding := macro [rc; ra; rb] 0xc0000900000 [(rb, 0, 0x7, 17); (rb, 3, 0x3, 32); (ra, 0, 0x1f, 34);
    (rc, 0, 0x7, 39); (rc, 3, 0x3, 44)].
Definition MUL_SL_UHrrrc : encoding := macro [rc; ra; rb; cc] 0xc0000900000 [(rb, 0, 0x7, 17); (rb, 3, 0x3, 32); (ra, 0, 0x1f, 34);
    (rc, 0, 0x7, 39); (rc, 3, 0x3, 44); (cc, 0, 0xf, 24)].
Definition MUL_SL_UHrrrci : encoding := macro [rc; ra; rb; cc; pc] 0xc0000900000 [(rb, 0, 0x7, 17); (rb, 3, 0x3, 32); (ra, 0, 0x1f, 34);
    (rc, 0, 0x7, 39); (rc, 3, 0x3, 44); (cc, 0, 0x1f, 24); (pc, 0, 0xffff, 0)].
Definition MUL_SL_UHzrr : encoding := macro [ra; rb] 0x3c0000900000 [(rb, 0, 0x7, 17); (rb, 3, 0x3, 32); (ra, 0, 0x1f, 34)].
Definition MUL_SL_UHzrrc : encoding := macro [ra; rb; cc] 0x3c0000900000 [(rb, 0, 0x7, 17); (rb, 3, 0x3, 32); (ra, 0, 0x1f, 34);
    (cc, 0, 0xf, 24)].
Definition MUL_SL_UHzrrci : encoding := macro [ra; rb; cc; pc] 0x3c0000900000 [(rb, 0, 0x7, 17); (rb, 3, 0x3, 32); (ra, 0, 0x1f, 34);
    (cc, 0, 0x1f, 24); (pc, 0, 0xffff, 0)].
Definition MUL_SL_UL_Srrr : encoding := macro [dc; ra; rb] 0x4c8000800000 [(rb, 0, 0x7, 17); (rb, 3, 0x3, 32); (ra, 0, 0x1f, 34);
    (dc, 1, 0x3, 40); (dc, 3, 0x3, 44)].
Definition MUL_SL_UL_Srrrc : encoding := macro [dc; ra; rb; cc] 0x4c8000800000 [(rb, 0, 0x7, 17); (rb, 3, 0x3, 32); (ra, 0, 0x1f, 34);
    (dc, 1, 0x3, 40); (dc, 3, 0x3, 44); (cc, 0, 0xf, 24)].
Definition MUL_SL_UL_Srrrci : encoding := macro [dc; ra; rb; cc; pc] 0x4c8000800000 [(rb, 0, 0x7, 17); (rb, 3, 0x3, 32);
    (ra, 0, 0x1f, 34); (dc, 1, 0x3, 40); (dc, 3, 0x3, 44); (cc, 0, 0x1f, 24); (pc, 0, 0xffff, 0)].
Definition MUL_SL_ULrrr : encoding := macro [rc; ra; rb] 0xc0000800000 [(rb, 0, 0x7, 17); (rb, 3, 0x3, 32); (ra, 0, 0x1f, 34);
    (rc, 0, 0x7, 39); (rc, 3, 0x3, 44)].
Definition MUL_SL_ULrrrc : encoding := macro [rc; ra; rb; cc] 0xc0000800000 [(rb, 0, 0x7, 17); (rb, 3, 0x3, 32); (ra, 0, 0x1f, 34);
    (rc, 0, 0x7, 39); (rc, 3, 0x3, 44); (cc, 0, 0xf, 24)].
Definition MUL_SL_ULrrrci : encoding := macro [rc; ra; rb; cc; pc] 0xc0000800000 [(rb, 0, 0x7, 17); (rb, 3, 0x3, 32); (ra, 0, 0x1f, 34);
    (rc, 0, 0x7, 39); (rc, 3, 0x3, 44); (cc, 0, 0x1f, 24); (pc, 0, 0xffff, 0)].
Definition MUL_SL_ULzrr : encoding := macro [ra; rb] 0x3c0000800000 [(rb, 0, 0x7, 17); (rb, 3, 0x3, 32); (ra, 0, 0x1f, 34)].
Definition MUL_SL_ULzrrc : encoding := macro [ra; rb; cc] 0x3c0000800000 [(rb, 0, 0x7, 17); (rb, 3, 0x3, 32); (ra, 0, 0x1f, 34);
    (cc, 0, 0xf, 24)].
Definition MUL_SL_ULzrrci : encoding := macro [ra; rb; cc; pc] 0x3c0000800000 [(rb, 0, 0x7, 17); (rb, 3, 0x3, 32); (ra, 0, 0x1f, 34);
    (cc, 0, 0x1f, 24); (pc, 0, 0xffff, 0)].
Definition MUL_STEPrrri : encoding := macro [dc; ra; db; shift] 0x800040010000 [(db, 0, 0x7, 17); (db, 3, 0x3, 32); (dc, 0, 0x1f, 39);
    (ra, 0, 0x1f, 34); (shift, 0, 0xf, 20); (shift, 4, 0x1, 28)].
Definition MUL_STEPrrrici : encoding := macro [dc; ra; db; shift; cc; pc] 0x800040010000 [(db, 0, 0x7, 17); (db, 3, 0x3, 32);
    (dc, 0, 0x1f, 39); (ra, 0, 0x1f, 34); (cc, 0, 0xf, 24); (shift, 0, 0xf, 20); (shift, 4, 0x1, 28); (pc, 0, 0xffff, 0)].
Definition MUL_UH_UH_Urrr : encoding := macro [dc; ra; rb] 0x4c0000300000 [(rb, 0, 0x7, 17); (rb, 3, 0x3, 32); (ra, 0, 0x1f, 34);
    (dc, 1, 0x3, 40); (dc, 3, 0x3, 44)].
Definition MUL_UH_UH_Urrrc : encoding := macro [dc; ra; rb; cc] 0x4c0000300000 [(rb, 0, 0x7, 17); (rb, 3, 0x3, 32); (ra, 0, 0x1f, 34);
    (dc, 1, 0x3, 40); (dc, 3, 0x3, 44); (cc, 0, 0xf, 24)].
Definition MUL_UH_UH_Urrrci : encoding := macro [dc; ra; rb; cc; pc] 0x4c0000300000 [(rb, 0, 0x7, 17); (rb, 3, 0x3, 32);
    (ra, 0, 0x1f, 34); (dc, 1, 0x3, 40); (dc, 3, 0x3, 44); (cc, 0, 0x1f, 24); (pc, 0, 0xffff, 0)].
Definition MUL_UH_UHrrr : encoding := macro [rc; ra; rb] 0xc0000300000 [(rb, 0, 0x7, 17); (rb, 3, 0x3, 32); (ra, 0, 0x1f, 34);
    (rc, 0, 0x7, 39); (rc, 3, 0x3, 44)].
Definition MUL_UH_UHrrrc : encoding := macro [rc; ra; rb; cc] 0xc0000300000 [(rb, 0, 0x7, 17); (rb, 3, 0x3, 32); (ra, 0, 0x1f, 34);
    (rc, 0, 0x7, 39); (rc, 3, 0x3, 44); (cc, 0, 0xf, 24)].
Definition MUL_UH_UHrrrci : encoding := macro [rc; ra; rb; cc; pc] 0xc0000300000 [(rb, 0, 0x7, 17); (rb, 3, 0x3, 32); (ra, 0, 0x1f, 34);
    (rc, 0, 0x7, 39); (rc, 3, 0x3, 44); (cc, 0, 0x1f, 24); (pc, 0, 0xffff, 0)].
Definition MUL_UH_UHzrr : encoding := macro [ra; rb] 0x3c0000300000 [(rb, 0, 0x7, 17); (rb, 3, 0x3, 32); (ra, 0, 0x1f, 34)].
Definition MUL_UH_UHzrrc : encoding := macro [ra; rb; cc] 0x3c0000300000 [(rb, 0, 0x7, 17); (rb, 3, 0x3, 32); (ra, 0, 0x1f, 34);
    (cc, 0, 0xf, 24)].
Definition MUL_UH_UHzrrci : encoding := macro [ra; rb; cc; pc] 0x3c0000300000 [(rb, 0, 0x7, 17); (rb, 3, 0x3, 32); (ra, 0, 0x1f, 34);
    (cc, 0, 0x1f, 24); (pc, 0, 0xffff, 0)].
Definition MUL_UH_UL_Urrr : encoding := macro [dc; ra; rb] 0x4c0000200000 [(rb, 0, 0x7, 17); (rb, 3, 0x3, 32); (ra, 0, 0x1f, 34);
    (dc, 1, 0x3, 40); (dc, 3, 0x3, 44)].
Definition MUL_UH_UL_Urrrc : encoding := macro [dc; ra; rb; cc] 0x4c0000200000 [(rb, 0, 0x7, 17); (rb, 3, 0x3, 32); (ra, 0, 0x1f, 34);
    (dc, 1, 0x3, 40); (dc, 3, 0x3, 44); (cc, 0, 0xf, 24)].
Definition MUL_UH_UL_Urrrci : encoding := macro [dc; ra; rb; cc; pc] 0x4c0000200000 [(rb, 0, 0x7, 17); (rb, 3, 0x3, 32);
    (ra, 0, 0x1f, 34); (dc, 1, 0x3, 40); (dc, 3, 0x3, 44); (cc, 0, 0x1f, 24); (pc, 0, 0xffff, 0)].
Definition MUL_UH_ULrrr : encoding := macro [rc; ra; rb] 0xc0000200000 [(rb, 0, 0x7, 17); (rb, 3, 0x3, 32); (ra, 0, 0x1f, 34);
    (rc, 0, 0x7, 39); (rc, 3, 0x3, 44)].
Definition MUL_UH_ULrrrc : encoding := macro [rc; ra; rb; cc] 0xc0000200000 [(rb, 0, 0x7, 17); (rb, 3, 0x3, 32); (ra, 0, 0x1f, 34);
    (rc, 0, 0x7, 39); (rc, 3, 0x3, 44); (cc, 0, 0xf, 24)].
Definition MUL_UH_ULrrrci : encoding := macro [rc; ra; rb; cc; pc] 0xc0000200000 [(rb, 0, 0x7, 17); (rb, 3, 0x3, 32); (ra, 0, 0x1f, 34);
    (rc, 0, 0x7, 39); (rc, 3, 0x3, 44); (cc, 0, 0x1f, 24); (pc, 0, 0xffff, 0)].
Definition MUL_UH_ULzrr : encoding := macro [ra; rb] 0x3c0000200000 [(rb, 0, 0x7, 17); (rb, 3, 0x3, 32); (ra, 0, 0x1f, 34)].
Definition MUL_UH_ULzrrc : encoding := macro [ra; rb; cc] 0x3c0000200000 [(rb, 0, 0x7, 17); (rb, 3, 0x3, 32); (ra, 0, 0x1f, 34);
    (cc, 0, 0xf, 24)].
Definition MUL_UH_ULzrrci : encoding := macro [ra; rb; cc; pc] 0x3c0000200000 [(rb, 0, 0x7, 17); (rb, 3, 0x3, 32); (ra, 0, 0x1f, 34);
    (cc, 0, 0x1f, 24); (pc, 0, 0xffff, 0)].
Definition MUL_UL_UH_Urrr : encoding := macro [dc; ra; rb] 0x4c0000100000 [(rb, 0, 0x7, 17); (rb, 3, 0x3, 32); (ra, 0, 0x1f, 34);
    (dc, 1, 0x3, 40); (dc, 3, 0x3, 44)].
Definition MUL_UL_UH_Urrrc : encoding := macro [dc; ra; rb; cc] 0x4c0000100000 [(rb, 0, 0x7, 17); (rb, 3, 0x3, 32); (ra, 0, 0x1f, 34);
    (dc, 1, 0x3, 40); (dc, 3, 0x3, 44); (cc, 0, 0xf, 24)].
Definition MUL_UL_UH_Urrrci : encoding := macro [dc; ra; rb; cc; pc] 0x4c0000100000 [(rb, 0, 0x7, 17); (rb, 3, 0x3, 32);
    (ra, 0, 0x1f, 34); (dc, 1, 0x3, 40); (dc, 3, 0x3, 44); (cc, 0, 0x1f, 24); (pc, 0, 0xffff, 0)].
Definition MUL_UL_UHrrr : encoding := macro [rc; ra; rb] 0xc0000100000 [(rb, 0, 0x7, 17); (rb, 3, 0x3, 32); (ra, 0, 0x1f, 34);
    (rc, 0, 0x7, 39); (rc, 3, 0x3, 44)].
Definition MUL_UL_UHrrrc : encoding := macro [rc; ra; rb; cc] 0xc0000100000 [(rb, 0, 0x7, 17); (rb, 3, 0x3, 32); (ra, 0, 0x1f, 34);
    (rc, 0, 0x7, 39); (rc, 3, 0x3, 44); (cc, 0, 0xf, 24)].
Definition MUL_UL_UHrrrci : encoding := macro [rc; ra; rb; cc; pc] 0xc0000100000 [(rb, 0, 0x7, 17); (rb, 3, 0x3, 32); (ra, 0, 0x1f, 34);
    (rc, 0, 0x7, 39); (rc, 3, 0x3, 44); (cc, 0, 0x1f, 24); (pc, 0, 0xffff, 0)].
Definition MUL_UL_UHzrr : encoding := macro [ra; rb] 0x3c0000100000 [(rb, 0, 0x7, 17); (rb, 3, 0x3, 32); (ra, 0, 0x1f, 34)].
Definition MUL_UL_UHzrrc : encoding := macro [ra; rb; cc] 0x3c0000100000 [(rb, 0, 0x7, 17); (rb, 3, 0x3, 32); (ra, 0, 0x1f, 34);
    (cc, 0, 0xf, 24)].
Definition MUL_UL_UHzrrci : encoding := macro [ra; rb; cc; pc] 0x3c0000100000 [(rb, 0, 0x7, 17); (rb, 3, 0x3, 32); (ra, 0, 0x1f, 34);
    (cc, 0, 0x1f, 24); (pc, 0, 0xffff, 0)].
Definition MUL_UL_UL_Urrr : encoding := macro [dc; ra; rb] 0x4c0000000000 [(rb, 0, 0x7, 17); (rb, 3, 0x3, 32); (ra, 0, 0x1f, 34);
    (dc, 1, 0x3, 40); (dc, 3, 0x3, 44)].
Definition MUL_UL_UL_Urrrc : encoding := macro [dc; ra; rb; cc] 0x4c0000000000 [(rb, 0, 0x7, 17); (rb, 3, 0x3, 32); (ra, 0, 0x1f, 34);
    (dc, 1, 0x3, 40); (dc, 3, 0x3, 44); (cc, 0, 0xf, 24)].
Definition MUL_UL_UL_Urrrci : encoding := macro [dc; ra; rb; cc; pc] 0x4c0000000000 [(rb, 0, 0x7, 17); (rb, 3, 0x3, 32);
    (ra, 0, 0x1f, 34); (dc, 1, 0x3, 40); (dc, 3, 0x3, 44); (cc, 0, 0x1f, 24); (pc, 0, 0xffff, 0)].
Definition MUL_UL_ULrrr : encoding := macro [rc; ra; rb] 0xc0000000000 [(rb, 0, 0x7, 17); (rb, 3, 0x3, 32); (ra, 0, 0x1f, 34);
    (rc, 0, 0x7, 39); (rc, 3, 0x3, 44)].
Definition MUL_UL_ULrrrc : encoding := macro [rc; ra; rb; cc] 0xc0000000000 [(rb, 0, 0x7, 17); (rb, 3, 0x3, 32); (ra, 0, 0x1f, 34);
    (rc, 0, 0x7, 39); (rc, 3, 0x3, 44); (cc, 0, 0xf, 24)].
Definition MUL_UL_ULrrrci : encoding := macro [rc; ra; rb; cc; pc] 0xc0000000000 [(rb, 0, 0x7, 17); (rb, 3, 0x3, 32); (ra, 0, 0x1f, 34);
    (rc, 0, 0x7, 39); (rc, 3, 0x3, 44); (cc, 0, 0x1f, 24); (pc, 0, 0xffff, 0)].
Definition MUL_UL_ULzrr : encoding := macro [ra; rb] 0x3c0000000000 [(rb, 0, 0x7, 17); (rb, 3, 0x3, 32); (ra, 0, 0x1f, 34)].
Definition MUL_UL_ULzrrc : encoding := macro [ra; rb; cc] 0x3c0000000000 [(rb, 0, 0x7, 17); (rb, 3, 0x3, 32); (ra, 0, 0x1f, 34);
    (cc, 0, 0xf, 24)].
Definition MUL_UL_ULzrrci : encoding := macro [ra; rb; cc; pc] 0x3c0000000000 [(rb, 0, 0x7, 17); (rb, 3, 0x3, 32); (ra, 0, 0x1f, 34);
    (cc, 0, 0x1f, 24); (pc, 0, 0xffff, 0)].
Definition NAND_Srric : encoding := macro [dc; ra; imm; cc] 0x9083f0000000 [(dc, 1, 0xf, 40); (ra, 0, 0x1f, 34); (cc, 0, 0xf, 24);
    (imm, 0, 0xf, 20); (imm, 4, 0xf, 16); (imm, 8, 0x1, 15); (imm, 9, 0x1, 14); (imm, 10, 0x1, 13); (imm, 11, 0x1, 12);
    (imm, 12, 0xfff, 0)].
Definition NAND_Srrici : encoding := macro [dc; ra; imm; cc; pc] 0x9083f0000000 [(dc, 1, 0xf, 40); (ra, 0, 0x1f, 34); (cc, 0, 0xf, 24);
    (imm, 0, 0xf, 20); (imm, 4, 0xf, 16); (pc, 0, 0xffff, 0)].
Definition NAND_Srrif : encoding := macro [dc; ra; imm] 0x9083f0000000 [(dc, 1, 0xf, 40); (ra, 0, 0x1f, 34); (imm, 0, 0xf, 20);
    (imm, 4, 0xf, 16); (imm, 8, 0x1, 15); (imm, 9, 0x1, 14); (imm, 10, 0x1, 13); (imm, 11, 0x1, 12); (imm, 12, 0xfff, 0)].
Definition NAND_Srrr : encoding := macro [dc; ra; rb] 0x9080c0f00000 [(rb, 0, 0x7, 17); (rb, 3, 0x3, 32); (dc, 1, 0xf, 40);
    (ra, 0, 0x1f, 34)].
Definition NAND_Srrrc : encoding := macro [dc; ra; rb; cc] 0x9080c0f00000 [(rb, 0, 0x7, 17); (rb, 3, 0x3, 32); (dc, 1, 0xf, 40);
    (ra, 0, 0x1f, 34); (cc, 0, 0xf, 24)].
Definition NAND_Srrrci : encoding := macro [dc; ra; rb; cc; pc] 0x9080c0f00000 [(rb, 0, 0x7, 17); (rb, 3, 0x3, 32); (dc, 1, 0xf, 40);
    (ra, 0, 0x1f, 34); (cc, 0, 0xf, 24); (pc, 0, 0xffff, 0)].
Definition NAND_Urric : encoding := macro [dc; ra; imm; cc] 0x9003f0000000 [(dc, 1, 0xf, 40); (ra, 0, 0x1f, 34); (cc, 0, 0xf, 24);
    (imm, 0, 0xf, 20); (imm, 4, 0xf, 16); (imm, 8, 0x1, 15); (imm, 9, 0x1, 14); (imm, 10, 0x1, 13); (imm, 11, 0x1, 12);
    (imm, 12, 0xfff, 0)].
Definition NAND_Urrici : encoding := macro [dc; ra; imm; cc; pc] 0x9003f0000000 [(dc, 1, 0xf, 40); (ra, 0, 0x1f, 34); (cc, 0, 0xf, 24);
    (imm, 0, 0xf, 20); (imm, 4, 0xf, 16); (pc, 0, 0xffff, 0)].
Definition NAND_Urrif : encoding := macro [dc; ra; imm] 0x9003f0000000 [(dc, 1, 0xf, 40); (ra, 0, 0x1f, 34); (imm, 0, 0xf, 20);
    (imm, 4, 0xf, 16); (imm, 8, 0x1, 15); (imm, 9, 0x1, 14); (imm, 10, 0x1, 13); (imm, 11, 0x1, 12); (imm, 12, 0xfff, 0)].
Definition NAND_Urrr : encoding := macro [dc; ra; rb] 0x9000c0f00000 [(rb, 0, 0x7, 17); (rb, 3, 0x3, 32); (dc, 1, 0xf, 40);
    (ra, 0, 0x1f, 34)].
Definition NAND_Urrrc : encoding := macro [dc; ra; rb; cc] 0x9000c0f00000 [(rb, 0, 0x7, 17); (rb, 3, 0x3, 32); (dc, 1, 0xf, 40);
    (ra, 0, 0x1f, 34); (cc, 0, 0xf, 24)].
Definition NAND_Urrrci : encoding := macro [dc; ra; rb; cc; pc] 0x9000c0f00000 [(rb, 0, 0x7, 17); (rb, 3, 0x3, 32); (dc, 1, 0xf, 40);
    (ra, 0, 0x1f, 34); (cc, 0, 0xf, 24); (pc, 0, 0xffff, 0)].
Definition NANDrri : encoding := macro [rc; ra; imm] 0x8003f0000000 [(rc, 0, 0x1f, 39); (ra, 0, 0x1f, 34); (imm, 0, 0xf, 20);
    (imm, 4, 0xf, 16); (imm, 8, 0x1, 15); (imm, 9, 0x1, 14); (imm, 10, 0x1, 13); (imm, 11, 0x1, 12); (imm, 12, 0xfff, 0)].
Definition NANDrric : encoding := macro [rc; ra; imm; cc] 0x8003f0000000 [(rc, 0, 0x1f, 39); (ra, 0, 0x1f, 34); (cc, 0, 0xf, 24);
    (imm, 0, 0xf, 20); (imm, 4, 0xf, 16); (imm, 8, 0x1, 15); (imm, 9, 0x1, 14); (imm, 10, 0x1, 13); (imm, 11, 0x1, 12);
    (imm, 12, 0xfff, 0)].
Definition NANDrrici : encoding := macro [rc; ra; imm; cc; pc] 0x8003f0000000 [(rc, 0, 0x1f, 39); (ra, 0, 0x1f, 34); (cc, 0, 0xf, 24);
    (imm, 0, 0xf, 20); (imm, 4, 0xf, 16); (pc, 0, 0xffff, 0)].
Definition NANDrrif : encoding := macro [rc; ra; imm] 0x8003f0000000 [(rc, 0, 0x1f, 39); (ra, 0, 0x1f, 34); (imm, 0, 0xf, 20);
    (imm, 4, 0xf, 16); (imm, 8, 0x1, 15); (imm, 9, 0x1, 14); (imm, 10, 0x1, 13); (imm, 11, 0x1, 12); (imm, 12, 0xfff, 0)].
Definition NANDrrr : encoding := macro [rc; ra; rb] 0x8000c0f00000 [(rb, 0, 0x7, 17); (rb, 3, 0x3, 32); (rc, 0, 0x1f, 39);
    (ra, 0, 0x1f, 34)].
Definition NANDrrrc : encoding := macro [rc; ra; rb; cc] 0x8000c0f00000 [(rb, 0, 0x7, 17); (rb, 3, 0x3, 32); (rc, 0, 0x1f, 39);
    (ra, 0, 0x1f, 34); (cc, 0, 0xf, 24)].
Definition NANDrrrci : encoding := macro [rc; ra; rb; cc; pc] 0x8000c0f00000 [(rb, 0, 0x7, 17); (rb, 3, 0x3, 32); (rc, 0, 0x1f, 39);
    (ra, 0, 0x1f, 34); (cc, 0, 0xf, 24); (pc, 0, 0xffff, 0)].
Definition NANDzric : encoding := macro [ra; imm; cc] 0x8c03f0000000 [(ra, 0, 0x1f, 34); (cc, 0, 0xf, 24); (imm, 0, 0xf, 20);
    (imm, 4, 0xf, 16); (imm, 8, 0x1, 15); (imm, 9, 0x1, 14); (imm, 10, 0x1, 13); (imm, 11, 0x1, 12); (imm, 12, 0xfff, 0);
    (imm, 24, 0x7, 39); (imm, 27, 0x1, 44)].
Definition NANDzrici : encoding := macro [ra; imm; cc; pc] 0x8c03f0000000 [(ra, 0, 0x1f, 34); (cc, 0, 0xf, 24); (imm, 0, 0xf, 20);
    (imm, 4, 0xf, 16); (imm, 8, 0x7, 39); (imm, 11, 0x1, 44); (pc, 0, 0xffff, 0)].
Definition NANDzrif : encoding := macro [ra; imm] 0x8c03f0000000 [(ra, 0, 0x1f, 34); (imm, 0, 0xf, 20); (imm, 4, 0xf, 16);
    (imm, 8, 0x1, 15); (imm, 9, 0x1, 14); (imm, 10, 0x1, 13); (imm, 11, 0x1, 12); (imm, 12, 0xfff, 0); (imm, 24, 0x7, 39);
    (imm, 27, 0x1, 44)].
Definition NANDzrr : encoding := macro [ra; rb] 0x8c00c0f00000 [(rb, 0, 0x7, 17); (rb, 3, 0x3, 32); (ra, 0, 0x1f, 34)].
Definition NANDzrrc : encoding := macro [ra; rb; cc] 0x8c00c0f00000 [(rb, 0, 0x7, 17); (rb, 3, 0x3, 32); (ra, 0, 0x1f, 34);
    (cc, 0, 0xf, 24)].
Definition NANDzrrci : encoding := macro [ra; rb; cc; pc] 0x8c00c0f00000 [(rb, 0, 0x7, 17); (rb, 3, 0x3, 32); (ra, 0, 0x1f, 34);
    (cc, 0, 0xf, 24); (pc, 0, 0xffff, 0)].
Definition NEGrr : encoding := macro [rc; ra] 0x200300000000 [(rc, 0, 0x1f, 39); (ra, 0, 0x1f, 34)].
Definition NEGrrci : encoding := macro [rc; ra; cc; pc] 0xc0340000000 [(rc, 0, 0x7, 39); (rc, 3, 0x3, 44); (ra, 0, 0x1f, 34);
    (cc, 0, 0x1f, 24); (pc, 0, 0xffff, 0)].
Definition NOP : encoding := macro [] 0x7c6300000000 [].
Definition NOR_Srric : encoding := macro [dc; ra; imm; cc] 0x9083e0000000 [(dc, 1, 0xf, 40); (ra, 0, 0x1f, 34); (cc, 0, 0xf, 24);
    (imm, 0, 0xf, 20); (imm, 4, 0xf, 16); (imm, 8, 0x1, 15); (imm, 9, 0x1, 14); (imm, 10, 0x1, 13); (imm, 11, 0x1, 12);
    (imm, 12, 0xfff, 0)].
Definition NOR_Srrici : encoding := macro [dc; ra; imm; cc; pc] 0x9083e0000000 [(dc, 1, 0xf, 40); (ra, 0, 0x1f, 34); (cc, 0, 0xf, 24);
    (imm, 0, 0xf, 20); (imm, 4, 0xf, 16); (pc, 0, 0xffff, 0)].
Definition NOR_Srrif : encoding := macro [dc; ra; imm] 0x9083e0000000 [(dc, 1, 0xf, 40); (ra, 0, 0x1f, 34); (imm, 0, 0xf, 20);
    (imm, 4, 0xf, 16); (imm, 8, 0x1, 15); (imm, 9, 0x1, 14); (imm, 10, 0x1, 13); (imm, 11, 0x1, 12); (imm, 12, 0xfff, 0)].
Definition NOR_Srrr : encoding := macro [dc; ra; rb] 0x9080c0e00000 [(rb, 0, 0x7, 17); (rb, 3, 0x3, 32); (dc, 1, 0xf, 40);
    (ra, 0, 0x1f, 34)].
Definition NOR_Srrrc : encoding := macro [dc; ra; rb; cc] 0x9080c0e00000 [(rb, 0, 0x7, 17); (rb, 3, 0x3, 32); (dc, 1, 0xf, 40);
    (ra, 0, 0x1f, 34); (cc, 0, 0xf, 24)].
Definition NOR_Srrrci : encoding := macro [dc; ra; rb; cc; pc] 0x9080c0e00000 [(rb, 0, 0x7, 17); (rb, 3, 0x3, 32); (dc, 1, 0xf, 40);
    (ra, 0, 0x1f, 34); (cc, 0, 0xf, 24); (pc, 0, 0xffff, 0)].
Definition NOR_Urric : encoding := macro [dc; ra; imm; cc] 0x9003e0000000 [(dc, 1, 0xf, 40); (ra, 0, 0x1f, 34); (cc, 0, 0xf, 24);
    (imm, 0, 0xf, 20); (imm, 4, 0xf, 16); (imm, 8, 0x1, 15); (imm, 9, 0x1, 14); (imm, 10, 0x1, 13); (imm, 11, 0x1, 12);
    (imm, 12, 0xfff, 0)].
Definition NOR_Urrici : encoding := macro [dc; ra; imm; cc; pc] 0x9003e0000000 [(dc, 1, 0xf, 40); (ra, 0, 0x1f, 34); (cc, 0, 0xf, 24);
    (imm, 0, 0xf, 20); (imm, 4, 0xf, 16); (pc, 0, 0xffff, 0)].
Definition NOR_Urrif : encoding := macro [dc; ra; imm] 0x9003e0000000 [(dc, 1, 0xf, 40); (ra, 0, 0x1f, 34); (imm, 0, 0xf, 20);
    (imm, 4, 0xf, 16); (imm, 8, 0x1, 15); (imm, 9, 0x1, 14); (imm, 10, 0x1, 13); (imm, 11, 0x1, 12); (imm, 12, 0xfff, 0)].
Definition NOR_Urrr : encoding := macro [dc; ra; rb] 0x9000c0e00000 [(rb, 0, 0x7, 17); (rb, 3, 0x3, 32); (dc, 1, 0xf, 40);
    (ra, 0, 0x1f, 34)].
Definition NOR_Urrrc : encoding := macro [dc; ra; rb; cc] 0x9000c0e00000 [(rb, 0, 0x7, 17); (rb, 3, 0x3, 32); (dc, 1, 0xf, 40);
    (ra, 0, 0x1f, 34); (cc, 0, 0xf, 24)].
Definition NOR_Urrrci : encoding := macro [dc; ra; rb; cc; pc] 0x9000c0e00000 [(rb, 0, 0x7, 17); (rb, 3, 0x3, 32); (dc, 1, 0xf, 40);
    (ra, 0, 0x1f, 34); (cc, 0, 0xf, 24); (pc, 0, 0xffff, 0)].
Definition NORrri : encoding := macro [rc; ra; imm] 0x8003e0000000 [(rc, 0, 0x1f, 39); (ra, 0, 0x1f, 34); (imm, 0, 0xf, 20);
    (imm, 4, 0xf, 16); (imm, 8, 0x1, 15); (imm, 9, 0x1, 14); (imm, 10, 0x1, 13); (imm, 11, 0x1, 12); (imm, 12, 0xfff, 0)].
Definition NORrric : encoding := macro [rc; ra; imm; cc] 0x8003e0000000 [(rc, 0, 0x1f, 39); (ra, 0, 0x1f, 34); (cc, 0, 0xf, 24);
    (imm, 0, 0xf, 20); (imm, 4, 0xf, 16); (imm, 8, 0x1, 15); (imm, 9, 0x1, 14); (imm, 10, 0x1, 13); (imm, 11, 0x1, 12);
    (imm, 12, 0xfff, 0)].
Definition NORrrici : encoding := macro [rc; ra; imm; cc; pc] 0x8003e0000000 [(rc, 0, 0x1f, 39); (ra, 0, 0x1f, 34); (cc, 0, 0xf, 24);
    (imm, 0, 0xf, 20); (imm, 4, 0xf, 16); (pc, 0, 0xffff, 0)].
Definition NORrrif : encoding := macro [rc; ra; imm] 0x8003e0000000 [(rc, 0, 0x1f, 39); (ra, 0, 0x1f, 34); (imm, 0, 0xf, 20);
    (imm, 4, 0xf, 16); (imm, 8, 0x1, 15); (imm, 9, 0x1, 14); (imm, 10, 0x1, 13); (imm, 11, 0x1, 12); (imm, 12, 0xfff, 0)].
Definition NORrrr : encoding := macro [rc; ra; rb] 0x8000c0e00000 [(rb, 0, 0x7, 17); (rb, 3, 0x3, 32); (rc, 0, 0x1f, 39);
    (ra, 0, 0x1f, 34)].
Definition NORrrrc : encoding := macro [rc; ra; rb; cc] 0x8000c0e00000 [(rb, 0, 0x7, 17); (rb, 3, 0x3, 32); (rc, 0, 0x1f, 39);
    (ra, 0, 0x1f, 34); (cc, 0, 0xf, 24)].
Definition NORrrrci : encoding := macro [rc; ra; rb; cc; pc] 0x8000c0e00000 [(rb, 0, 0x7, 17); (rb, 3, 0x3, 32); (rc, 0, 0x1f, 39);
    (ra, 0, 0x1f, 34); (cc, 0, 0xf, 24); (pc, 0, 0xffff, 0)].
Definition NORzric : encoding := macro [ra; imm; cc] 0x8c03e0000000 [(ra, 0, 0x1f, 34); (cc, 0, 0xf, 24); (imm, 0, 0xf, 20);
    (imm, 4, 0xf, 16); (imm, 8, 0x1, 15); (imm, 9, 0x1, 14); (imm, 10, 0x1, 13); (imm, 11, 0x1, 12); (imm, 12, 0xfff, 0);
    (imm, 24, 0x7, 39); (imm, 27, 0x1, 44)].
Definition NORzrici : encoding := macro [ra; imm; cc; pc] 0x8c03e0000000 [(ra, 0, 0x1f, 34); (cc, 0, 0xf, 24); (imm, 0, 0xf, 20);
    (imm, 4, 0xf, 16); (imm, 8, 0x7, 39); (imm, 11, 0x1, 44); (pc, 0, 0xffff, 0)].
Definition NORzrif : encoding := macro [ra; imm] 0x8c03e0000000 [(ra, 0, 0x1f, 34); (imm, 0, 0xf, 20); (imm, 4, 0xf, 16);
    (imm, 8, 0x1, 15); (imm, 9, 0x1, 14); (imm, 10, 0x1, 13); (imm, 11, 0x1, 12); (imm, 12, 0xfff, 0); (imm, 24, 0x7, 39);
    (imm, 27, 0x1, 44)].
Definition NORzrr : encoding := macro [ra; rb] 0x8c00c0e00000 [(rb, 0, 0x7, 17); (rb, 3, 0x3, 32); (ra, 0, 0x1f, 34)].
Definition NORzrrc : encoding := macro [ra; rb; cc] 0x8c00c0e00000 [(rb, 0, 0x7, 17); (rb, 3, 0x3, 32); (ra, 0, 0x1f, 34);
    (cc, 0, 0xf, 24)].
Definition NORzrrci : encoding := macro [ra; rb; cc; pc] 0x8c00c0e00000 [(rb, 0, 0x7, 17); (rb, 3, 0x3, 32); (ra, 0, 0x1f, 34);
    (cc, 0, 0xf, 24); (pc, 0, 0xffff, 0)].
Definition NOTrci : encoding := macro [ra; cc; pc] 0x9f8380ff0000 [(ra, 0, 0x1f, 34); (cc, 0, 0xf, 24); (pc, 0, 0xffff, 0)].
Definition NOTrr : encoding := macro [rc; ra] 0x4003ffffffff [(rc, 0, 0x1f, 39); (ra, 0, 0x1f, 34)].
Definition NOTrrci : encoding := macro [rc; ra; cc; pc] 0x800380ff0000 [(rc, 0, 0x1f, 39); (ra, 0, 0x1f, 34); (cc, 0, 0xf, 24);
    (pc, 0, 0xffff, 0)].
Definition NXOR_Srric : encoding := macro [dc; ra; imm; cc] 0x908390000000 [(dc, 1, 0xf, 40); (ra, 0, 0x1f, 34); (cc, 0, 0xf, 24);
    (imm, 0, 0xf, 20); (imm, 4, 0xf, 16); (imm, 8, 0x1, 15); (imm, 9, 0x1, 14); (imm, 10, 0x1, 13); (imm, 11, 0x1, 12);
    (imm, 12, 0xfff, 0)].
Definition NXOR_Srrici : encoding := macro [dc; ra; imm; cc; pc] 0x908390000000 [(dc, 1, 0xf, 40); (ra, 0, 0x1f, 34); (cc, 0, 0xf, 24);
    (imm, 0, 0xf, 20); (imm, 4, 0xf, 16); (pc, 0, 0xffff, 0)].
Definition NXOR_Srrif : encoding := macro [dc; ra; imm] 0x908390000000 [(dc, 1, 0xf, 40); (ra, 0, 0x1f, 34); (imm, 0, 0xf, 20);
    (imm, 4, 0xf, 16); (imm, 8, 0x1, 15); (imm, 9, 0x1, 14); (imm, 10, 0x1, 13); (imm, 11, 0x1, 12); (imm, 12, 0xfff, 0)].
Definition NXOR_Srrr : encoding := macro [dc; ra; rb] 0x9080c0900000 [(rb, 0, 0x7, 17); (rb, 3, 0x3, 32); (dc, 1, 0xf, 40);
    (ra, 0, 0x1f, 34)].
Definition NXOR_Srrrc : encoding := macro [dc; ra; rb; cc] 0x9080c0900000 [(rb, 0, 0x7, 17); (rb, 3, 0x3, 32); (dc, 1, 0xf, 40);
    (ra, 0, 0x1f, 34); (cc, 0, 0xf, 24)].
Definition NXOR_Srrrci : encoding := macro [dc; ra; rb; cc; pc] 0x9080c0900000 [(rb, 0, 0x7, 17); (rb, 3, 0x3, 32); (dc, 1, 0xf, 40);
    (ra, 0, 0x1f, 34); (cc, 0, 0xf, 24); (pc, 0, 0xffff, 0)].
Definition NXOR_Urric : encoding := macro [dc; ra; imm; cc] 0x900390000000 [(dc, 1, 0xf, 40); (ra, 0, 0x1f, 34); (cc, 0, 0xf, 24);
    (imm, 0, 0xf, 20); (imm, 4, 0xf, 16); (imm, 8, 0x1, 15); (imm, 9, 0x1, 14); (imm, 10, 0x1, 13); (imm, 11, 0x1, 12);
    (imm, 12, 0xfff, 0)].
Definition NXOR_Urrici : encoding := macro [dc; ra; imm; cc; pc] 0x900390000000 [(dc, 1, 0xf, 40); (ra, 0, 0x1f, 34); (cc, 0, 0xf, 24);
    (imm, 0, 0xf, 20); (imm, 4, 0xf, 16); (pc, 0, 0xffff, 0)].
Definition NXOR_Urrif : encoding := macro [dc; ra; imm] 0x900390000000 [(dc, 1, 0xf, 40); (ra, 0, 0x1f, 34); (imm, 0, 0xf, 20);
    (imm, 4, 0xf, 16); (imm, 8, 0x1, 15); (imm, 9, 0x1, 14); (imm, 10, 0x1, 13); (imm, 11, 0x1, 12); (imm, 12, 0xfff, 0)].
Definition NXOR_Urrr : encoding := macro [dc; ra; rb] 0x9000c0900000 [(rb, 0, 0x7, 17); (rb, 3, 0x3, 32); (dc, 1, 0xf, 40);
    (ra, 0, 0x1f, 34)].
Definition NXOR_Urrrc : encoding := macro [dc; ra; rb; cc] 0x9000c0900000 [(rb, 0, 0x7, 17); (rb, 3, 0x3, 32); (dc, 1, 0xf, 40);
    (ra, 0, 0x1f, 34); (cc, 0, 0xf, 24)].
Definition NXOR_Urrrci : encoding := macro [dc; ra; rb; cc; pc] 0x9000c0900000 [(rb, 0, 0x7, 17); (rb, 3, 0x3, 32); (dc, 1, 0xf, 40);
    (ra, 0, 0x1f, 34); (cc, 0, 0xf, 24); (pc, 0, 0xffff, 0)].
Definition NXORrri : encoding := macro [rc; ra; imm] 0x800390000000 [(rc, 0, 0x1f, 39); (ra, 0, 0x1f, 34); (imm, 0, 0xf, 20);
    (imm, 4, 0xf, 16); (imm, 8, 0x1, 15); (imm, 9, 0x1, 14); (imm, 10, 0x1, 13); (imm, 11, 0x1, 12); (imm, 12, 0xfff, 0)].
Definition NXORrric : encoding := macro [rc; ra; imm; cc] 0x800390000000 [(rc, 0, 0x1f, 39); (ra, 0, 0x1f, 34); (cc, 0, 0xf, 24);
    (imm, 0, 0xf, 20); (imm, 4, 0xf, 16); (imm, 8, 0x1, 15); (imm, 9, 0x1, 14); (imm, 10, 0x1, 13); (imm, 11, 0x1, 12);
    (imm, 12, 0xfff, 0)].
Definition NXORrrici : encoding := macro [rc; ra; imm; cc; pc] 0x800390000000 [(rc, 0, 0x1f, 39); (ra, 0, 0x1f, 34); (cc, 0, 0xf, 24);
    (imm, 0, 0xf, 20); (imm, 4, 0xf, 16); (pc, 0, 0xffff, 0)].
Definition NXORrrif : encoding := macro [rc; ra; imm] 0x800390000000 [(rc, 0, 0x1f, 39); (ra, 0, 0x1f, 34); (imm, 0, 0xf, 20);
    (imm, 4, 0xf, 16); (imm, 8, 0x1, 15); (imm, 9, 0x1, 14); (imm, 10, 0x1, 13); (imm, 11, 0x1, 12); (imm, 12, 0xfff, 0)].
Definition NXORrrr : encoding := macro [rc; ra; rb] 0x8000c0900000 [(rb, 0, 0x7, 17); (rb, 3, 0x3, 32); (rc, 0, 0x1f, 39);
    (ra, 0, 0x1f, 34)].
Definition NXORrrrc : encoding := macro [rc; ra; rb; cc] 0x8000c0900000 [(rb, 0, 0x7, 17); (rb, 3, 0x3, 32); (rc, 0, 0x1f, 39);
    (ra, 0, 0x1f, 34); (cc, 0, 0xf, 24)].
Definition NXORrrrci : encoding := macro [rc; ra; rb; cc; pc] 0x8000c0900000 [(rb, 0, 0x7, 17); (rb, 3, 0x3, 32); (rc, 0, 0x1f, 39);
    (ra, 0, 0x1f, 34); (cc, 0, 0xf, 24); (pc, 0, 0xffff, 0)].
Definition NXORzric : encoding := macro [ra; imm; cc] 0x8c0390000000 [(ra, 0, 0x1f, 34); (cc, 0, 0xf, 24); (imm, 0, 0xf, 20);
    (imm, 4, 0xf, 16); (imm, 8, 0x1, 15); (imm, 9, 0x1, 14); (imm, 10, 0x1, 13); (imm, 11, 0x1, 12); (imm, 12, 0xfff, 0);
    (imm, 24, 0x7, 39); (imm, 27, 0x1, 44)].
Definition NXORzrici : encoding := macro [ra; imm; cc; pc] 0x8c0390000000 [(ra, 0, 0x1f, 34); (cc, 0, 0xf, 24); (imm, 0, 0xf, 20);
    (imm, 4, 0xf, 16); (imm, 8, 0x7, 39); (imm, 11, 0x1, 44); (pc, 0, 0xffff, 0)].
Definition NXORzrif : encoding := macro [ra; imm] 0x8c0390000000 [(ra, 0, 0x1f, 34); (imm, 0, 0xf, 20); (imm, 4, 0xf, 16);
    (imm, 8, 0x1, 15); (imm, 9, 0x1, 14); (imm, 10, 0x1, 13); (imm, 11, 0x1, 12); (imm, 12, 0xfff, 0); (imm, 24, 0x7, 39);
    (imm, 27, 0x1, 44)].
Definition NXORzrr : encoding := macro [ra; rb] 0x8c00c0900000 [(rb, 0, 0x7, 17); (rb, 3, 0x3, 32); (ra, 0, 0x1f, 34)].
Definition NXORzrrc : encoding := macro [ra; rb; cc] 0x8c00c0900000 [(rb, 0, 0x7, 17); (rb, 3, 0x3, 32); (ra, 0, 0x1f, 34);
    (cc, 0, 0xf, 24)].
Definition NXORzrrci : encoding := macro [ra; rb; cc; pc] 0x8c00c0900000 [(rb, 0, 0x7, 17); (rb, 3, 0x3, 32); (ra, 0, 0x1f, 34);
    (cc, 0, 0xf, 24); (pc, 0, 0xffff, 0)].
Definition OR_Srri : encoding := macro [dc; rb; imm] 0x40e000000000 [(rb, 0, 0x7, 17); (rb, 3, 0x3, 32); (dc, 1, 0xf, 40);
    (imm, 0, 0xf, 20); (imm, 4, 0x7, 34); (imm, 7, 0x1, 44); (imm, 8, 0x1, 15); (imm, 9, 0x1, 14); (imm, 10, 0x1, 13); (imm, 11, 0x1, 12);
    (imm, 12, 0xfff, 0); (imm, 24, 0xff, 24)].
Definition OR_Srric : encoding := macro [dc; ra; imm; cc] 0x9083b0000000 [(dc, 1, 0xf, 40); (ra, 0, 0x1f, 34); (cc, 0, 0xf, 24);
    (imm, 0, 0xf, 20); (imm, 4, 0xf, 16); (imm, 8, 0x1, 15); (imm, 9, 0x1, 14); (imm, 10, 0x1, 13); (imm, 11, 0x1, 12);
    (imm, 12, 0xfff, 0)].
Definition OR_Srrici : encoding := macro [dc; ra; imm; cc; pc] 0x9083b0000000 [(dc, 1, 0xf, 40); (ra, 0, 0x1f, 34); (cc, 0, 0xf, 24);
    (imm, 0, 0xf, 20); (imm, 4, 0xf, 16); (pc, 0, 0xffff, 0)].
Definition OR_Srrif : encoding := macro [dc; ra; imm] 0x9083b0000000 [(dc, 1, 0xf, 40); (ra, 0, 0x1f, 34); (imm, 0, 0xf, 20);
    (imm, 4, 0xf, 16); (imm, 8, 0x1, 15); (imm, 9, 0x1, 14); (imm, 10, 0x1, 13); (imm, 11, 0x1, 12); (imm, 12, 0xfff, 0)].
Definition OR_Srrr : encoding := macro [dc; ra; rb] 0x9080c0b00000 [(rb, 0, 0x7, 17); (rb, 3, 0x3, 32); (dc, 1, 0xf, 40);
    (ra, 0, 0x1f, 34)].
Definition OR_Srrrc : encoding := macro [dc; ra; rb; cc] 0x9080c0b00000 [(rb, 0, 0x7, 17); (rb, 3, 0x3, 32); (dc, 1, 0xf, 40);
    (ra, 0, 0x1f, 34); (cc, 0, 0xf, 24)].
Definition OR_Srrrci : encoding := macro [dc; ra; rb; cc; pc] 0x9080c0b00000 [(rb, 0, 0x7, 17); (rb, 3, 0x3, 32); (dc, 1, 0xf, 40);
    (ra, 0, 0x1f, 34); (cc, 0, 0xf, 24); (pc, 0, 0xffff, 0)].
Definition OR_Urri : encoding := macro [dc; rb; imm] 0x406000000000 [(rb, 0, 0x7, 17); (rb, 3, 0x3, 32); (dc, 1, 0xf, 40);
    (imm, 0, 0xf, 20); (imm, 4, 0x7, 34); (imm, 7, 0x1, 44); (imm, 8, 0x1, 15); (imm, 9, 0x1, 14); (imm, 10, 0x1, 13); (imm, 11, 0x1, 12);
    (imm, 12, 0xfff, 0); (imm, 24, 0xff, 24)].
Definition OR_Urric : encoding := macro [dc; ra; imm; cc] 0x9003b0000000 [(dc, 1, 0xf, 40); (ra, 0, 0x1f, 34); (cc, 0, 0xf, 24);
    (imm, 0, 0xf, 20); (imm, 4, 0xf, 16); (imm, 8, 0x1, 15); (imm, 9, 0x1, 14); (imm, 10, 0x1, 13); (imm, 11, 0x1, 12);
    (imm, 12, 0xfff, 0)].
Definition OR_Urrici : encoding := macro [dc; ra; imm; cc; pc] 0x9003b0000000 [(dc, 1, 0xf, 40); (ra, 0, 0x1f, 34); (cc, 0, 0xf, 24);
    (imm, 0, 0xf, 20); (imm, 4, 0xf, 16); (pc, 0, 0xffff, 0)].
Definition OR_Urrif : encoding := macro [dc; ra; imm] 0x9003b0000000 [(dc, 1, 0xf, 40); (ra, 0, 0x1f, 34); (imm, 0, 0xf, 20);
    (imm, 4, 0xf, 16); (imm, 8, 0x1, 15); (imm, 9, 0x1, 14); (imm, 10, 0x1, 13); (imm, 11, 0x1, 12); (imm, 12, 0xfff, 0)].
Definition OR_Urrr : encoding := macro [dc; ra; rb] 0x9000c0b00000 [(rb, 0, 0x7, 17); (rb, 3, 0x3, 32); (dc, 1, 0xf, 40);
    (ra, 0, 0x1f, 34)].
Definition OR_Urrrc : encoding := macro [dc; ra; rb; cc] 0x9000c0b00000 [(rb, 0, 0x7, 17); (rb, 3, 0x3, 32); (dc, 1, 0xf, 40);
    (ra, 0, 0x1f, 34); (cc, 0, 0xf, 24)].
Definition OR_Urrrci : encoding := macro [dc; ra; rb; cc; pc] 0x9000c0b00000 [(rb, 0, 0x7, 17); (rb, 3, 0x3, 32); (dc, 1, 0xf, 40);
    (ra, 0, 0x1f, 34); (cc, 0, 0xf, 24); (pc, 0, 0xffff, 0)].
Definition ORrri : encoding := macro [rc; ra; imm] 0x600300000000 [(ra, 0, 0x1f, 34); (imm, 0, 0xf, 20); (imm, 4, 0xf, 16);
    (imm, 8, 0x1, 15); (imm, 9, 0x1, 14); (imm, 10, 0x1, 13); (imm, 11, 0x1, 12); (imm, 12, 0xfff, 0); (imm, 24, 0xff, 24);
    (rc, 0, 0x1f, 39)].
Definition ORrric : encoding := macro [rc; ra; imm; cc] 0x8003b0000000 [(rc, 0, 0x1f, 39); (ra, 0, 0x1f, 34); (cc, 0, 0xf, 24);
    (imm, 0, 0xf, 20); (imm, 4, 0xf, 16); (imm, 8, 0x1, 15); (imm, 9, 0x1, 14); (imm, 10, 0x1, 13); (imm, 11, 0x1, 12);
    (imm, 12, 0xfff, 0)].
Definition ORrrici : encoding := macro [rc; ra; imm; cc; pc] 0x8003b0000000 [(rc, 0, 0x1f, 39); (ra, 0, 0x1f, 34); (cc, 0, 0xf, 24);
    (imm, 0, 0xf, 20); (imm, 4, 0xf, 16); (pc, 0, 0xffff, 0)].
Definition ORrrif : encoding := macro [rc; ra; imm] 0x8003b0000000 [(rc, 0, 0x1f, 39); (ra, 0, 0x1f, 34); (imm, 0, 0xf, 20);
    (imm, 4, 0xf, 16); (imm, 8, 0x1, 15); (imm, 9, 0x1, 14); (imm, 10, 0x1, 13); (imm, 11, 0x1, 12); (imm, 12, 0xfff, 0)].
Definition ORrrr : encoding := macro [rc; ra; rb] 0x8000c0b00000 [(rb, 0, 0x7, 17); (rb, 3, 0x3, 32); (rc, 0, 0x1f, 39);
    (ra, 0, 0x1f, 34)].
Definition ORrrrc : encoding := macro [rc; ra; rb; cc] 0x8000c0b00000 [(rb, 0, 0x7, 17); (rb, 3, 0x3, 32); (rc, 0, 0x1f, 39);
    (ra, 0, 0x1f, 34); (cc, 0, 0xf, 24)].
Definition ORrrrci : encoding := macro [rc; ra; rb; cc; pc] 0x8000c0b00000 [(rb, 0, 0x7, 17); (rb, 3, 0x3, 32); (rc, 0, 0x1f, 39);
    (ra, 0, 0x1f, 34); (cc, 0, 0xf, 24); (pc, 0, 0xffff, 0)].
Definition ORzri : encoding := macro [rb; imm] 0x666000000000 [(rb, 0, 0x7, 17); (rb, 3, 0x3, 32); (imm, 0, 0xf, 20); (imm, 4, 0x7, 34);
    (imm, 7, 0x1, 39); (imm, 8, 0x1, 15); (imm, 9, 0x1, 14); (imm, 10, 0x1, 13); (imm, 11, 0x1, 12); (imm, 12, 0xfff, 0);
    (imm, 24, 0xff, 24)].
Definition ORzric : encoding := macro [ra; imm; cc] 0x8c03b0000000 [(ra, 0, 0x1f, 34); (cc, 0, 0xf, 24); (imm, 0, 0xf, 20);
    (imm, 4, 0xf, 16); (imm, 8, 0x1, 15); (imm, 9, 0x1, 14); (imm, 10, 0x1, 13); (imm, 11, 0x1, 12); (imm, 12, 0xfff, 0);
    (imm, 24, 0x7, 39); (imm, 27, 0x1, 44)].
Definition ORzrici : encoding := macro [ra; imm; cc; pc] 0x8c03b0000000 [(ra, 0, 0x1f, 34); (cc, 0, 0xf, 24); (imm, 0, 0xf, 20);
    (imm, 4, 0xf, 16); (imm, 8, 0x7, 39); (imm, 11, 0x1, 44); (pc, 0, 0xffff, 0)].
Definition ORzrif : encoding := macro [ra; imm] 0x8c03b0000000 [(ra, 0, 0x1f, 34); (imm, 0, 0xf, 20); (imm, 4, 0xf, 16);
    (imm, 8, 0x1, 15); (imm, 9, 0x1, 14); (imm, 10, 0x1, 13); (imm, 11, 0x1, 12); (imm, 12, 0xfff, 0); (imm, 24, 0x7, 39);
    (imm, 27, 0x1, 44)].
Definition ORzrr : encoding := macro [ra; rb] 0x8c00c0b00000 [(rb, 0, 0x7, 17); (rb, 3, 0x3, 32); (ra, 0, 0x1f, 34)].
Definition ORzrrc : encoding := macro [ra; rb; cc] 0x8c00c0b00000 [(rb, 0, 0x7, 17); (rb, 3, 0x3, 32); (ra, 0, 0x1f, 34);
    (cc, 0, 0xf, 24)].
Definition ORzrrci : encoding := macro [ra; rb; cc; pc] 0x8c00c0b00000 [(rb, 0, 0x7, 17); (rb, 3, 0x3, 32); (ra, 0, 0x1f, 34);
    (cc, 0, 0xf, 24); (pc, 0, 0xffff, 0)].
Definition ORN_Srric : encoding := macro [dc; ra; imm; cc] 0x9083d0000000 [(dc, 1, 0xf, 40); (ra, 0, 0x1f, 34); (cc, 0, 0xf, 24);
    (imm, 0, 0xf, 20); (imm, 4, 0xf, 16); (imm, 8, 0x1, 15); (imm, 9, 0x1, 14); (imm, 10, 0x1, 13); (imm, 11, 0x1, 12);
    (imm, 12, 0xfff, 0)].
Definition ORN_Srrici : encoding := macro [dc; ra; imm; cc; pc] 0x9083d0000000 [(dc, 1, 0xf, 40); (ra, 0, 0x1f, 34); (cc, 0, 0xf, 24);
    (imm, 0, 0xf, 20); (imm, 4, 0xf, 16); (pc, 0, 0xffff, 0)].
Definition ORN_Srrif : encoding := macro [dc; ra; imm] 0x9083d0000000 [(dc, 1, 0xf, 40); (ra, 0, 0x1f, 34); (imm, 0, 0xf, 20);
    (imm, 4, 0xf, 16); (imm, 8, 0x1, 15); (imm, 9, 0x1, 14); (imm, 10, 0x1, 13); (imm, 11, 0x1, 12); (imm, 12, 0xfff, 0)].
Definition ORN_Srrr : encoding := macro [dc; ra; rb] 0x9080c0d00000 [(rb, 0, 0x7, 17); (rb, 3, 0x3, 32); (dc, 1, 0xf, 40);
    (ra, 0, 0x1f, 34)].
Definition ORN_Srrrc : encoding := macro [dc; ra; rb; cc] 0x9080c0d00000 [(rb, 0, 0x7, 17); (rb, 3, 0x3, 32); (dc, 1, 0xf, 40);
    (ra, 0, 0x1f, 34); (cc, 0, 0xf, 24)].
Definition ORN_Srrrci : encoding := macro [dc; ra; rb; cc; pc] 0x9080c0d00000 [(rb, 0, 0x7, 17); (rb, 3, 0x3, 32); (dc, 1, 0xf, 40);
    (ra, 0, 0x1f, 34); (cc, 0, 0xf, 24); (pc, 0, 0xffff, 0)].
Definition ORN_Urric : encoding := macro [dc; ra; imm; cc] 0x9003d0000000 [(dc, 1, 0xf, 40); (ra, 0, 0x1f, 34); (cc, 0, 0xf, 24);
    (imm, 0, 0xf, 20); (imm, 4, 0xf, 16); (imm, 8, 0x1, 15); (imm, 9, 0x1, 14); (imm, 10, 0x1, 13); (imm, 11, 0x1, 12);
    (imm, 12, 0xfff, 0)].
Definition ORN_Urrici : encoding := macro [dc; ra; imm; cc; pc] 0x9003d0000000 [(dc, 1, 0xf, 40); (ra, 0, 0x1f, 34); (cc, 0, 0xf, 24);
    (imm, 0, 0xf, 20); (imm, 4, 0xf, 16); (pc, 0, 0xffff, 0)].
Definition ORN_Urrif : encoding := macro [dc; ra; imm] 0x9003d0000000 [(dc, 1, 0xf, 40); (ra, 0, 0x1f, 34); (imm, 0, 0xf, 20);
    (imm, 4, 0xf, 16); (imm, 8, 0x1, 15); (imm, 9, 0x1, 14); (imm, 10, 0x1, 13); (imm, 11, 0x1, 12); (imm, 12, 0xfff, 0)].
Definition ORN_Urrr : encoding := macro [dc; ra; rb] 0x9000c0d00000 [(rb, 0, 0x7, 17); (rb, 3, 0x3, 32); (dc, 1, 0xf, 40);
    (ra, 0, 0x1f, 34)].
Definition ORN_Urrrc : encoding := macro [dc; ra; rb; cc] 0x9000c0d00000 [(rb, 0, 0x7, 17); (rb, 3, 0x3, 32); (dc, 1, 0xf, 40);
    (ra, 0, 0x1f, 34); (cc, 0, 0xf, 24)].
Definition ORN_Urrrci : encoding := macro [dc; ra; rb; cc; pc] 0x9000c0d00000 [(rb, 0, 0x7, 17); (rb, 3, 0x3, 32); (dc, 1, 0xf, 40);
    (ra, 0, 0x1f, 34); (cc, 0, 0xf, 24); (pc, 0, 0xffff, 0)].
Definition ORNrri : encoding := macro [rc; ra; imm] 0x8003d0000000 [(rc, 0, 0x1f, 39); (ra, 0, 0x1f, 34); (imm, 0, 0xf, 20);
    (imm, 4, 0xf, 16); (imm, 8, 0x1, 15); (imm, 9, 0x1, 14); (imm, 10, 0x1, 13); (imm, 11, 0x1, 12); (imm, 12, 0xfff, 0)].
Definition ORNrric : encoding := macro [rc; ra; imm; cc] 0x8003d0000000 [(rc, 0, 0x1f, 39); (ra, 0, 0x1f, 34); (cc, 0, 0xf, 24);
    (imm, 0, 0xf, 20); (imm, 4, 0xf, 16); (imm, 8, 0x1, 15); (imm, 9, 0x1, 14); (imm, 10, 0x1, 13); (imm, 11, 0x1, 12);
    (imm, 12, 0xfff, 0)].
Definition ORNrrici : encoding := macro [rc; ra; imm; cc; pc] 0x8003d0000000 [(rc, 0, 0x1f, 39); (ra, 0, 0x1f, 34); (cc, 0, 0xf, 24);
    (imm, 0, 0xf, 20); (imm, 4, 0xf, 16); (pc, 0, 0xffff, 0)].
Definition ORNrrif : encoding := macro [rc; ra; imm] 0x8003d0000000 [(rc, 0, 0x1f, 39); (ra, 0, 0x1f, 34); (imm, 0, 0xf, 20);
    (imm, 4, 0xf, 16); (imm, 8, 0x1, 15); (imm, 9, 0x1, 14); (imm, 10, 0x1, 13); (imm, 11, 0x1, 12); (imm, 12, 0xfff, 0)].
Definition ORNrrr : encoding := macro [rc; ra; rb] 0x8000c0d00000 [(rb, 0, 0x7, 17); (rb, 3, 0x3, 32); (rc, 0, 0x1f, 39);
    (ra, 0, 0x1f, 34)].
Definition ORNrrrc : encoding := macro [rc; ra; rb; cc] 0x8000c0d00000 [(rb, 0, 0x7, 17); (rb, 3, 0x3, 32); (rc, 0, 0x1f, 39);
    (ra, 0, 0x1f, 34); (cc, 0, 0xf, 24)].
Definition ORNrrrci : encoding := macro [rc; ra; rb; cc; pc] 0x8000c0d00000 [(rb, 0, 0x7, 17); (rb, 3, 0x3, 32); (rc, 0, 0x1f, 39);
    (ra, 0, 0x1f, 34); (cc, 0, 0xf, 24); (pc, 0, 0xffff, 0)].
Definition ORNzric : encoding := macro [ra; imm; cc] 0x8c03d0000000 [(ra, 0, 0x1f, 34); (cc, 0, 0xf, 24); (imm, 0, 0xf, 20);
    (imm, 4, 0xf, 16); (imm, 8, 0x1, 15); (imm, 9, 0x1, 14); (imm, 10, 0x1, 13); (imm, 11, 0x1, 12); (imm, 12, 0xfff, 0);
    (imm, 24, 0x7, 39); (imm, 27, 0x1, 44)].
Definition ORNzrici : encoding := macro [ra; imm; cc; pc] 0x8c03d0000000 [(ra, 0, 0x1f, 34); (cc, 0, 0xf, 24); (imm, 0, 0xf, 20);
    (imm, 4, 0xf, 16); (imm, 8, 0x7, 39); (imm, 11, 0x1, 44); (pc, 0, 0xffff, 0)].
Definition ORNzrif : encoding := macro [ra; imm] 0x8c03d0000000 [(ra, 0, 0x1f, 34); (imm, 0, 0xf, 20); (imm, 4, 0xf, 16);
    (imm, 8, 0x1, 15); (imm, 9, 0x1, 14); (imm, 10, 0x1, 13); (imm, 11, 0x1, 12); (imm, 12, 0xfff, 0); (imm, 24, 0x7, 39);
    (imm, 27, 0x1, 44)].
Definition ORNzrr : encoding := macro [ra; rb] 0x8c00c0d00000 [(rb, 0, 0x7, 17); (rb, 3, 0x3, 32); (ra, 0, 0x1f, 34)].
Definition ORNzrrc : encoding := macro [ra; rb; cc] 0x8c00c0d00000 [(rb, 0, 0x7, 17); (rb, 3, 0x3, 32); (ra, 0, 0x1f, 34);
    (cc, 0, 0xf, 24)].
Definition ORNzrrci : encoding := macro [ra; rb; cc; pc] 0x8c00c0d00000 [(rb, 0, 0x7, 17); (rb, 3, 0x3, 32); (ra, 0, 0x1f, 34);
    (cc, 0, 0xf, 24); (pc, 0, 0xffff, 0)].
Definition READ_RUNrici : encoding := macro [ra; imm; cc; pc] 0x7c0330000000 [(ra, 0, 0x1f, 34); (cc, 0, 0xf, 24); (imm, 0, 0xf, 20);
    (imm, 4, 0xf, 16); (pc, 0, 0xffff, 0)].
Definition RELEASErici : encoding := macro [ra; imm; cc; pc] 0x7c0380000000 [(ra, 0, 0x1f, 34); (imm, 0, 0xf, 20); (imm, 4, 0xf, 16);
    (imm, 8, 0x1f, 26); (imm, 13, 0x7, 39); (pc, 0, 0xffff, 0); (cc, 0, 0x3, 24)].
Definition RESUMEri : encoding := macro [ra; imm] 0x7d0320000000 [(ra, 0, 0x1f, 34); (imm, 0, 0xf, 20); (imm, 4, 0xf, 16)].
Definition RESUMErici : encoding := macro [ra; imm; cc; pc] 0x7d0320000000 [(ra, 0, 0x1f, 34); (cc, 0, 0xf, 24); (imm, 0, 0xf, 20);
    (imm, 4, 0xf, 16); (pc, 0, 0xffff, 0)].
Definition ROL_Srri : encoding := macro [dc; ra; shift] 0x908340020000 [(dc, 1, 0xf, 40); (ra, 0, 0x1f, 34); (shift, 0, 0xf, 20);
    (shift, 4, 0x1, 28)].
Definition ROL_Srric : encoding := macro [dc; ra; shift; cc] 0x908340020000 [(dc, 1, 0xf, 40); (ra, 0, 0x1f, 34); (cc, 0, 0xf, 24);
    (shift, 0, 0xf, 20); (shift, 4, 0x1, 28)].
Definition ROL_Srrici : encoding := macro [dc; ra; shift; cc; pc] 0x908340020000 [(dc, 1, 0xf, 40); (ra, 0, 0x1f, 34); (cc, 0, 0xf, 24);
    (cc, 4, 0x1, 29); (shift, 0, 0xf, 20); (shift, 4, 0x1, 28); (pc, 0, 0xffff, 0)].
Definition ROL_Srrr : encoding := macro [dc; ra; rb] 0x9080d0200000 [(rb, 0, 0x7, 17); (rb, 3, 0x3, 32); (dc, 1, 0xf, 40);
    (ra, 0, 0x1f, 34)].
Definition ROL_Srrrc : encoding := macro [dc; ra; rb; cc] 0x9080d0200000 [(rb, 0, 0x7, 17); (rb, 3, 0x3, 32); (dc, 1, 0xf, 40);
    (ra, 0, 0x1f, 34); (cc, 0, 0xf, 24)].
Definition ROL_Srrrci : encoding := macro [dc; ra; rb; cc; pc] 0x9080d0200000 [(rb, 0, 0x7, 17); (rb, 3, 0x3, 32); (dc, 1, 0xf, 40);
    (ra, 0, 0x1f, 34); (cc, 0, 0xf, 24); (cc, 4, 0x1, 29); (pc, 0, 0xffff, 0)].
Definition ROL_Urri : encoding := macro [dc; ra; shift] 0x900340020000 [(dc, 1, 0xf, 40); (ra, 0, 0x1f, 34); (shift, 0, 0xf, 20);
    (shift, 4, 0x1, 28)].
Definition ROL_Urric : encoding := macro [dc; ra; shift; cc] 0x900340020000 [(dc, 1, 0xf, 40); (ra, 0, 0x1f, 34); (cc, 0, 0xf, 24);
    (shift, 0, 0xf, 20); (shift, 4, 0x1, 28)].
Definition ROL_Urrici : encoding := macro [dc; ra; shift; cc; pc] 0x900340020000 [(dc, 1, 0xf, 40); (ra, 0, 0x1f, 34); (cc, 0, 0xf, 24);
    (cc, 4, 0x1, 29); (shift, 0, 0xf, 20); (shift, 4, 0x1, 28); (pc, 0, 0xffff, 0)].
Definition ROL_Urrr : encoding := macro [dc; ra; rb] 0x9000d0200000 [(rb, 0, 0x7, 17); (rb, 3, 0x3, 32); (dc, 1, 0xf, 40);
    (ra, 0, 0x1f, 34)].
Definition ROL_Urrrc : encoding := macro [dc; ra; rb; cc] 0x9000d0200000 [(rb, 0, 0x7, 17); (rb, 3, 0x3, 32); (dc, 1, 0xf, 40);
    (ra, 0, 0x1f, 34); (cc, 0, 0xf, 24)].
Definition ROL_Urrrci : encoding := macro [dc; ra; rb; cc; pc] 0x9000d0200000 [(rb, 0, 0x7, 17); (rb, 3, 0x3, 32); (dc, 1, 0xf, 40);
    (ra, 0, 0x1f, 34); (cc, 0, 0xf, 24); (cc, 4, 0x1, 29); (pc, 0, 0xffff, 0)].
Definition ROLrri : encoding := macro [rc; ra; shift] 0x800340020000 [(rc, 0, 0x1f, 39); (ra, 0, 0x1f, 34); (shift, 0, 0xf, 20);
    (shift, 4, 0x1, 28)].
Definition ROLrric : encoding := macro [rc; ra; shift; cc] 0x800340020000 [(rc, 0, 0x1f, 39); (ra, 0, 0x1f, 34); (cc, 0, 0xf, 24);
    (shift, 0, 0xf, 20); (shift, 4, 0x1, 28)].
Definition ROLrrici : encoding := macro [rc; ra; shift; cc; pc] 0x800340020000 [(rc, 0, 0x1f, 39); (ra, 0, 0x1f, 34); (cc, 0, 0xf, 24);
    (cc, 4, 0x1, 29); (shift, 0, 0xf, 20); (shift, 4, 0x1, 28); (pc, 0, 0xffff, 0)].
Definition ROLrrr : encoding := macro [rc; ra; rb] 0x8000d0200000 [(rb, 0, 0x7, 17); (rb, 3, 0x3, 32); (rc, 0, 0x1f, 39);
    (ra, 0, 0x1f, 34)].
Definition ROLrrrc : encoding := macro [rc; ra; rb; cc] 0x8000d0200000 [(rb, 0, 0x7, 17); (rb, 3, 0x3, 32); (rc, 0, 0x1f, 39);
    (ra, 0, 0x1f, 34); (cc, 0, 0xf, 24)].
Definition ROLrrrci : encoding := macro [rc; ra; rb; cc; pc] 0x8000d0200000 [(rb, 0, 0x7, 17); (rb, 3, 0x3, 32); (rc, 0, 0x1f, 39);
    (ra, 0, 0x1f, 34); (cc, 0, 0xf, 24); (cc, 4, 0x1, 29); (pc, 0, 0xffff, 0)].
Definition ROLzri : encoding := macro [ra; shift] 0x8c0340020000 [(ra, 0, 0x1f, 34); (shift, 0, 0xf, 20); (shift, 4, 0x1, 28)].
Definition ROLzric : encoding := macro [ra; shift; cc] 0x8c0340020000 [(ra, 0, 0x1f, 34); (cc, 0, 0xf, 24); (shift, 0, 0xf, 20);
    (shift, 4, 0x1, 28)].
Definition ROLzrici : encoding := macro [ra; shift; cc; pc] 0x8c0340020000 [(ra, 0, 0x1f, 34); (cc, 0, 0xf, 24); (cc, 4, 0x1, 29);
    (shift, 0, 0xf, 20); (shift, 4, 0x1, 28); (pc, 0, 0xffff, 0)].
Definition ROLzrr : encoding := macro [ra; rb] 0x8c00d0200000 [(rb, 0, 0x7, 17); (rb, 3, 0x3, 32); (ra, 0, 0x1f, 34)].
Definition ROLzrrc : encoding := macro [ra; rb; cc] 0x8c00d0200000 [(rb, 0, 0x7, 17); (rb, 3, 0x3, 32); (ra, 0, 0x1f, 34);
    (cc, 0, 0xf, 24)].
Definition ROLzrrci : encoding := macro [ra; rb; cc; pc] 0x8c00d0200000 [(rb, 0, 0x7, 17); (rb, 3, 0x3, 32); (ra, 0, 0x1f, 34);
    (cc, 0, 0xf, 24); (cc, 4, 0x1, 29); (pc, 0, 0xffff, 0)].
Definition ROL_ADD_Srrri : encoding := macro [dc; rb; ra; shift] 0x908000000000 [(rb, 0, 0x7, 17); (rb, 3, 0x3, 32); (dc, 1, 0xf, 40);
    (ra, 0, 0x1f, 34); (shift, 0, 0xf, 20); (shift, 4, 0x1, 28)].
Definition ROL_ADD_Srrrici : encoding := macro [dc; rb; ra; shift; cc; pc] 0x908000000000 [(rb, 0, 0x7, 17); (rb, 3, 0x3, 32);
    (dc, 1, 0xf, 40); (ra, 0, 0x1f, 34); (cc, 0, 0xf, 24); (shift, 0, 0xf, 20); (shift, 4, 0x1, 28); (pc, 0, 0xffff, 0)].
Definition ROL_ADD_Urrri : encoding := macro [dc; rb; ra; shift] 0x900000000000 [(rb, 0, 0x7, 17); (rb, 3, 0x3, 32); (dc, 1, 0xf, 40);
    (ra, 0, 0x1f, 34); (shift, 0, 0xf, 20); (shift, 4, 0x1, 28)].
Definition ROL_ADD_Urrrici : encoding := macro [dc; rb; ra; shift; cc; pc] 0x900000000000 [(rb, 0, 0x7, 17); (rb, 3, 0x3, 32);
    (dc, 1, 0xf, 40); (ra, 0, 0x1f, 34); (cc, 0, 0xf, 24); (shift, 0, 0xf, 20); (shift, 4, 0x1, 28); (pc, 0, 0xffff, 0)].
Definition ROL_ADDrrri : encoding := macro [rc; rb; ra; shift] 0x800000000000 [(rb, 0, 0x7, 17); (rb, 3, 0x3, 32); (rc, 0, 0x1f, 39);
    (ra, 0, 0x1f, 34); (shift, 0, 0xf, 20); (shift, 4, 0x1, 28)].
Definition ROL_ADDrrrici : encoding := macro [rc; rb; ra; shift; cc; pc] 0x800000000000 [(rb, 0, 0x7, 17); (rb, 3, 0x3, 32);
    (rc, 0, 0x1f, 39); (ra, 0, 0x1f, 34); (cc, 0, 0xf, 24); (shift, 0, 0xf, 20); (shift, 4, 0x1, 28); (pc, 0, 0xffff, 0)].
Definition ROL_ADDzrri : encoding := macro [rb; ra; shift] 0x8c0000000000 [(rb, 0, 0x7, 17); (rb, 3, 0x3, 32); (ra, 0, 0x1f, 34);
    (shift, 0, 0xf, 20); (shift, 4, 0x1, 28)].
Definition ROL_ADDzrrici : encoding := macro [rb; ra; shift; cc; pc] 0x8c0000000000 [(rb, 0, 0x7, 17); (rb, 3, 0x3, 32);
    (ra, 0, 0x1f, 34); (cc, 0, 0xf, 24); (shift, 0, 0xf, 20); (shift, 4, 0x1, 28); (pc, 0, 0xffff, 0)].
Definition ROR_Srri : encoding := macro [dc; ra; shift] 0x9083400a0000 [(dc, 1, 0xf, 40); (ra, 0, 0x1f, 34); (shift, 0, 0xf, 20);
    (shift, 4, 0x1, 28)].
Definition ROR_Srric : encoding := macro [dc; ra; shift; cc] 0x9083400a0000 [(dc, 1, 0xf, 40); (ra, 0, 0x1f, 34); (cc, 0, 0xf, 24);
    (shift, 0, 0xf, 20); (shift, 4, 0x1, 28)].
Definition ROR_Srrici : encoding := macro [dc; ra; shift; cc; pc] 0x9083400a0000 [(dc, 1, 0xf, 40); (ra, 0, 0x1f, 34); (cc, 0, 0xf, 24);
    (cc, 4, 0x1, 29); (shift, 0, 0xf, 20); (shift, 4, 0x1, 28); (pc, 0, 0xffff, 0)].
Definition ROR_Srrr : encoding := macro [dc; ra; rb] 0x9080d0a00000 [(rb, 0, 0x7, 17); (rb, 3, 0x3, 32); (dc, 1, 0xf, 40);
    (ra, 0, 0x1f, 34)].
Definition ROR_Srrrc : encoding := macro [dc; ra; rb; cc] 0x9080d0a00000 [(rb, 0, 0x7, 17); (rb, 3, 0x3, 32); (dc, 1, 0xf, 40);
    (ra, 0, 0x1f, 34); (cc, 0, 0xf, 24)].
Definition ROR_Srrrci : encoding := macro [dc; ra; rb; cc; pc] 0x9080d0a00000 [(rb, 0, 0x7, 17); (rb, 3, 0x3, 32); (dc, 1, 0xf, 40);
    (ra, 0, 0x1f, 34); (cc, 0, 0xf, 24); (cc, 4, 0x1, 29); (pc, 0, 0xffff, 0)].
Definition ROR_Urri : encoding := macro [dc; ra; shift] 0x9003400a0000 [(dc, 1, 0xf, 40); (ra, 0, 0x1f, 34); (shift, 0, 0xf, 20);
    (shift, 4, 0x1, 28)].
Definition ROR_Urric : encoding := macro [dc; ra; shift; cc] 0x9003400a0000 [(dc, 1, 0xf, 40); (ra, 0, 0x1f, 34); (cc, 0, 0xf, 24);
    (shift, 0, 0xf, 20); (shift, 4, 0x1, 28)].
Definition ROR_Urrici : encoding := macro [dc; ra; shift; cc; pc] 0x9003400a0000 [(dc, 1, 0xf, 40); (ra, 0, 0x1f, 34); (cc, 0, 0xf, 24);
    (cc, 4, 0x1, 29); (shift, 0, 0xf, 20); (shift, 4, 0x1, 28); (pc, 0, 0xffff, 0)].
Definition ROR_Urrr : encoding := macro [dc; ra; rb] 0x9000d0a00000 [(rb, 0, 0x7, 17); (rb, 3, 0x3, 32); (dc, 1, 0xf, 40);
    (ra, 0, 0x1f, 34)].
Definition ROR_Urrrc : encoding := macro [dc; ra; rb; cc] 0x9000d0a00000 [(rb, 0, 0x7, 17); (rb, 3, 0x3, 32); (dc, 1, 0xf, 40);
    (ra, 0, 0x1f, 34); (cc, 0, 0xf, 24)].
Definition ROR_Urrrci : encoding := macro [dc; ra; rb; cc; pc] 0x9000d0a00000 [(rb, 0, 0x7, 17); (rb, 3, 0x3, 32); (dc, 1, 0xf, 40);
    (ra, 0, 0x1f, 34); (cc, 0, 0xf, 24); (cc, 4, 0x1, 29); (pc, 0, 0xffff, 0)].
Definition RORrri : encoding := macro [rc; ra; shift] 0x8003400a0000 [(rc, 0, 0x1f, 39); (ra, 0, 0x1f, 34); (shift, 0, 0xf, 20);
    (shift, 4, 0x1, 28)].
Definition RORrric : encoding := macro [rc; ra; shift; cc] 0x8003400a0000 [(rc, 0, 0x1f, 39); (ra, 0, 0x1f, 34); (cc, 0, 0xf, 24);
    (shift, 0, 0xf, 20); (shift, 4, 0x1, 28)].
Definition RORrrici : encoding := macro [rc; ra; shift; cc; pc] 0x8003400a0000 [(rc, 0, 0x1f, 39); (ra, 0, 0x1f, 34); (cc, 0, 0xf, 24);
    (cc, 4, 0x1, 29); (shift, 0, 0xf, 20); (shift, 4, 0x1, 28); (pc, 0, 0xffff, 0)].
Definition RORrrr : encoding := macro [rc; ra; rb] 0x8000d0a00000 [(rb, 0, 0x7, 17); (rb, 3, 0x3, 32); (rc, 0, 0x1f, 39);
    (ra, 0, 0x1f, 34)].
Definition RORrrrc : encoding := macro [rc; ra; rb; cc] 0x8000d0a00000 [(rb, 0, 0x7, 17); (rb, 3, 0x3, 32); (rc, 0, 0x1f, 39);
    (ra, 0, 0x1f, 34); (cc, 0, 0xf, 24)].
Definition RORrrrci : encoding := macro [rc; ra; rb; cc; pc] 0x8000d0a00000 [(rb, 0, 0x7, 17); (rb, 3, 0x3, 32); (rc, 0, 0x1f, 39);
    (ra, 0, 0x1f, 34); (cc, 0, 0xf, 24); (cc, 4, 0x1, 29); (pc, 0, 0xffff, 0)].
Definition RORzri : encoding := macro [ra; shift] 0x8c03400a0000 [(ra, 0, 0x1f, 34); (shift, 0, 0xf, 20); (shift, 4, 0x1, 28)].
Definition RORzric : encoding := macro [ra; shift; cc] 0x8c03400a0000 [(ra, 0, 0x1f, 34); (cc, 0, 0xf, 24); (shift, 0, 0xf, 20);
    (shift, 4, 0x1, 28)].
Definition RORzrici : encoding := macro [ra; shift; cc; pc] 0x8c03400a0000 [(ra, 0, 0x1f, 34); (cc, 0, 0xf, 24); (cc, 4, 0x1, 29);
    (shift, 0, 0xf, 20); (shift, 4, 0x1, 28); (pc, 0, 0xffff, 0)].
Definition RORzrr : encoding := macro [ra; rb] 0x8c00d0a00000 [(rb, 0, 0x7, 17); (rb, 3, 0x3, 32); (ra, 0, 0x1f, 34)].
Definition RORzrrc : encoding := macro [ra; rb; cc] 0x8c00d0a00000 [(rb, 0, 0x7, 17); (rb, 3, 0x3, 32); (ra, 0, 0x1f, 34);
    (cc, 0, 0xf, 24)].
Definition RORzrrci : encoding := macro [ra; rb; cc; pc] 0x8c00d0a00000 [(rb, 0, 0x7, 17); (rb, 3, 0x3, 32); (ra, 0, 0x1f, 34);
    (cc, 0, 0xf, 24); (cc, 4, 0x1, 29); (pc, 0, 0xffff, 0)].
Definition RSUB_Srrr : encoding := macro [dc; ra; rb] 0x4c8040c00000 [(dc, 1, 0x3, 40); (dc, 3, 0x3, 44); (rb, 0, 0x7, 17);
    (rb, 3, 0x3, 32); (ra, 0, 0x1f, 34)].
Definition RSUB_Srrrc : encoding := macro [dc; ra; rb; cc] 0x4c8040c00000 [(dc, 1, 0x3, 40); (dc, 3, 0x3, 44); (rb, 0, 0x7, 17);
    (rb, 3, 0x3, 32); (ra, 0, 0x1f, 34); (cc, 0, 0x1f, 24)].
Definition RSUB_Srrrci : encoding := macro [dc; ra; rb; cc; pc] 0x4c8040c00000 [(dc, 1, 0x3, 40); (dc, 3, 0x3, 44); (rb, 0, 0x7, 17);
    (rb, 3, 0x3, 32); (ra, 0, 0x1f, 34); (cc, 0, 0x1f, 24); (pc, 0, 0xffff, 0)].
Definition RSUB_Urrr : encoding := macro [dc; ra; rb] 0x4c0040c00000 [(dc, 1, 0x3, 40); (dc, 3, 0x3, 44); (rb, 0, 0x7, 17);
    (rb, 3, 0x3, 32); (ra, 0, 0x1f, 34)].
Definition RSUB_Urrrc : encoding := macro [dc; ra; rb; cc] 0x4c0040c00000 [(dc, 1, 0x3, 40); (dc, 3, 0x3, 44); (rb, 0, 0x7, 17);
    (rb, 3, 0x3, 32); (ra, 0, 0x1f, 34); (cc, 0, 0x1f, 24)].
Definition RSUB_Urrrci : encoding := macro [dc; ra; rb; cc; pc] 0x4c0040c00000 [(dc, 1, 0x3, 40); (dc, 3, 0x3, 44); (rb, 0, 0x7, 17);
    (rb, 3, 0x3, 32); (ra, 0, 0x1f, 34); (cc, 0, 0x1f, 24); (pc, 0, 0xffff, 0)].
Definition RSUBrrr : encoding := macro [rc; ra; rb] 0xc0040c00000 [(rc, 0, 0x7, 39); (rc, 3, 0x3, 44); (rb, 0, 0x7, 17); (rb, 3, 0x3, 32);
    (ra, 0, 0x1f, 34)].
Definition RSUBrrrc : encoding := macro [rc; ra; rb; cc] 0xc0040c00000 [(rc, 0, 0x7, 39); (rc, 3, 0x3, 44); (rb, 0, 0x7, 17);
    (rb, 3, 0x3, 32); (ra, 0, 0x1f, 34); (cc, 0, 0x1f, 24)].
Definition RSUBrrrci : encoding := macro [rc; ra; rb; cc; pc] 0xc0040c00000 [(rc, 0, 0x7, 39); (rc, 3, 0x3, 44); (rb, 0, 0x7, 17);
    (rb, 3, 0x3, 32); (ra, 0, 0x1f, 34); (cc, 0, 0x1f, 24); (pc, 0, 0xffff, 0)].
Definition RSUBzrr : encoding := macro [ra; rb] 0x3c0040c00000 [(rb, 0, 0x7, 17); (rb, 3, 0x3, 32); (ra, 0, 0x1f, 34)].
Definition RSUBzrrc : encoding := macro [ra; rb; cc] 0x3c0040c00000 [(rb, 0, 0x7, 17); (rb, 3, 0x3, 32); (ra, 0, 0x1f, 34);
    (cc, 0, 0x1f, 24)].
Definition RSUBzrrci : encoding := macro [ra; rb; cc; pc] 0x3c0040c00000 [(rb, 0, 0x7, 17); (rb, 3, 0x3, 32); (ra, 0, 0x1f, 34);
    (cc, 0, 0x1f, 24); (pc, 0, 0xffff, 0)].
Definition RSUBC_Srrr : encoding := macro [dc; ra; rb] 0x4c8060c00000 [(dc, 1, 0x3, 40); (dc, 3, 0x3, 44); (rb, 0, 0x7, 17);
    (rb, 3, 0x3, 32); (ra, 0, 0x1f, 34)].
Definition RSUBC_Srrrc : encoding := macro [dc; ra; rb; cc] 0x4c8060c00000 [(dc, 1, 0x3, 40); (dc, 3, 0x3, 44); (rb, 0, 0x7, 17);
    (rb, 3, 0x3, 32); (ra, 0, 0x1f, 34); (cc, 0, 0x1f, 24)].
Definition RSUBC_Srrrci : encoding := macro [dc; ra; rb; cc; pc] 0x4c8060c00000 [(dc, 1, 0x3, 40); (dc, 3, 0x3, 44); (rb, 0, 0x7, 17);
    (rb, 3, 0x3, 32); (ra, 0, 0x1f, 34); (cc, 0, 0x1f, 24); (pc, 0, 0xffff, 0)].
Definition RSUBC_Urrr : encoding := macro [dc; ra; rb] 0x4c0060c00000 [(dc, 1, 0x3, 40); (dc, 3, 0x3, 44); (rb, 0, 0x7, 17);
    (rb, 3, 0x3, 32); (ra, 0, 0x1f, 34)].
Definition RSUBC_Urrrc : encoding := macro [dc; ra; rb; cc] 0x4c0060c00000 [(dc, 1, 0x3, 40); (dc, 3, 0x3, 44); (rb, 0, 0x7, 17);
    (rb, 3, 0x3, 32); (ra, 0, 0x1f, 34); (cc, 0, 0x1f, 24)].
Definition RSUBC_Urrrci : encoding := macro [dc; ra; rb; cc; pc] 0x4c0060c00000 [(dc, 1, 0x3, 40); (dc, 3, 0x3, 44); (rb, 0, 0x7, 17);
    (rb, 3, 0x3, 32); (ra, 0, 0x1f, 34); (cc, 0, 0x1f, 24); (pc, 0, 0xffff, 0)].
Definition RSUBCrrr : encoding := macro [rc; ra; rb] 0xc0060c00000 [(rc, 0, 0x7, 39); (rc, 3, 0x3, 44); (rb, 0, 0x7, 17);
    (rb, 3, 0x3, 32); (ra, 0, 0x1f, 34)].
Definition RSUBCrrrc : encoding := macro [rc; ra; rb; cc] 0xc0060c00000 [(rc, 0, 0x7, 39); (rc, 3, 0x3, 44); (rb, 0, 0x7, 17);
    (rb, 3, 0x3, 32); (ra, 0, 0x1f, 34); (cc, 0, 0x1f, 24)].
Definition RSUBCrrrci : encoding := macro [rc; ra; rb; cc; pc] 0xc0060c00000 [(rc, 0, 0x7, 39); (rc, 3, 0x3, 44); (rb, 0, 0x7, 17);
    (rb, 3, 0x3, 32); (ra, 0, 0x1f, 34); (cc, 0, 0x1f, 24); (pc, 0, 0xffff, 0)].
Definition RSUBCzrr : encoding := macro [ra; rb] 0x3c0060c00000 [(rb, 0, 0x7, 17); (rb, 3, 0x3, 32); (ra, 0, 0x1f, 34)].
Definition RSUBCzrrc : encoding := macro [ra; rb; cc] 0x3c0060c00000 [(rb, 0, 0x7, 17); (rb, 3, 0x3, 32); (ra, 0, 0x1f, 34);
    (cc, 0, 0x1f, 24)].
Definition RSUBCzrrci : encoding := macro [ra; rb; cc; pc] 0x3c0060c00000 [(rb, 0, 0x7, 17); (rb, 3, 0x3, 32); (ra, 0, 0x1f, 34);
    (cc, 0, 0x1f, 24); (pc, 0, 0xffff, 0)].
Definition SATS_Srr : encoding := macro [dc; ra] 0x908320000000 [(ra, 0, 0x1f, 34); (dc, 1, 0xf, 40)].
Definition SATS_Srrc : encoding := macro [dc; ra; cc] 0x908320000000 [(ra, 0, 0x1f, 34); (dc, 1, 0xf, 40); (cc, 0, 0xf, 24)].
Definition SATS_Srrci : encoding := macro [dc; ra; cc; pc] 0x908320000000 [(ra, 0, 0x1f, 34); (dc, 1, 0xf, 40); (cc, 0, 0xf, 24);
    (pc, 0, 0xffff, 0)].
Definition SATS_Urr : encoding := macro [dc; ra] 0x900320000000 [(ra, 0, 0x1f, 34); (dc, 1, 0xf, 40)].
Definition SATS_Urrc : encoding := macro [dc; ra; cc] 0x900320000000 [(ra, 0, 0x1f, 34); (dc, 1, 0xf, 40); (cc, 0, 0xf, 24)].
Definition SATS_Urrci : encoding := macro [dc; ra; cc; pc] 0x900320000000 [(ra, 0, 0x1f, 34); (dc, 1, 0xf, 40); (cc, 0, 0xf, 24);
    (pc, 0, 0xffff, 0)].
Definition SATSrr : encoding := macro [rc; ra] 0x800320000000 [(ra, 0, 0x1f, 34); (rc, 0, 0x1f, 39)].
Definition SATSrrc : encoding := macro [rc; ra; cc] 0x800320000000 [(ra, 0, 0x1f, 34); (rc, 0, 0x1f, 39); (cc, 0, 0xf, 24)].
Definition SATSrrci : encoding := macro [rc; ra; cc; pc] 0x800320000000 [(ra, 0, 0x1f, 34); (rc, 0, 0x1f, 39); (cc, 0, 0xf, 24);
    (pc, 0, 0xffff, 0)].
Definition SATSzr : encoding := macro [ra] 0x8c0320000000 [(ra, 0, 0x1f, 34)].
Definition SATSzrc : encoding := macro [ra; cc] 0x8c0320000000 [(ra, 0, 0x1f, 34); (cc, 0, 0xf, 24)].
Definition SATSzrci : encoding := macro [ra; cc; pc] 0x8c0320000000 [(ra, 0, 0x1f, 34); (cc, 0, 0xf, 24); (pc, 0, 0xffff, 0)].
Definition SBerii : encoding := macro [endian; ra; off; imm] 0x7c0340000000 [(ra, 0, 0x1f, 34); (endian, 0, 0x1, 27); (off, 0, 0xf, 20);
    (off, 4, 0x7, 39); (off, 7, 0x1, 24); (off, 8, 0x1, 15); (off, 9, 0x1, 14); (off, 10, 0x1, 13); (off, 11, 0x1, 12); (imm, 0, 0xf, 16);
    (imm, 4, 0xf, 0)].
Definition SBerir : encoding := macro [endian; ra; off; rb] 0x7c0040000000 [(rb, 0, 0x7, 17); (rb, 3, 0x3, 32); (ra, 0, 0x1f, 34);
    (endian, 0, 0x1, 27); (off, 0, 0xf, 20); (off, 4, 0x7, 39); (off, 7, 0x1, 24); (off, 8, 0x1, 15); (off, 9, 0x1, 14);
    (off, 10, 0x1, 13); (off, 11, 0x1, 12); (off, 12, 0xfff, 0)].
Definition SBesii : encoding := macro [endian; ra; off; imm] 0x7c0350000000 [(ra, 0, 0x1f, 34); (endian, 0, 0x1, 27); (off, 0, 0xf, 20);
    (off, 4, 0x7, 39); (off, 7, 0x1, 24); (off, 8, 0x1, 15); (off, 9, 0x1, 14); (off, 10, 0x1, 13); (off, 11, 0x1, 12); (imm, 0, 0xf, 16);
    (imm, 4, 0xf, 0)].
Definition SBesir : encoding := macro [endian; ra; off; rb] 0x7c0050000000 [(rb, 0, 0x7, 17); (rb, 3, 0x3, 32); (ra, 0, 0x1f, 34);
    (endian, 0, 0x1, 27); (off, 0, 0xf, 20); (off, 4, 0x7, 39); (off, 7, 0x1, 24); (off, 8, 0x1, 15); (off, 9, 0x1, 14);
    (off, 10, 0x1, 13); (off, 11, 0x1, 12); (off, 12, 0xfff, 0)].
Definition SBrii : encoding := macro [ra; off; imm] 0x7c0340000000 [(ra, 0, 0x1f, 34); (off, 0, 0xf, 20); (off, 4, 0x7, 39);
    (off, 7, 0x1, 24); (off, 8, 0x1, 15); (off, 9, 0x1, 14); (off, 10, 0x1, 13); (off, 11, 0x1, 12); (imm, 0, 0xf, 16); (imm, 4, 0xf, 0)].
Definition SBrir : encoding := macro [ra; off; rb] 0x7c0040000000 [(rb, 0, 0x7, 17); (rb, 3, 0x3, 32); (ra, 0, 0x1f, 34);
    (off, 0, 0xf, 20); (off, 4, 0x7, 39); (off, 7, 0x1, 24); (off, 8, 0x1, 15); (off, 9, 0x1, 14); (off, 10, 0x1, 13); (off, 11, 0x1, 12);
    (off, 12, 0xfff, 0)].
Definition SB_IDerii : encoding := macro [endian; ra; off; imm] 0x7c0360000000 [(ra, 0, 0x1f, 34); (endian, 0, 0x1, 27);
    (off, 0, 0xf, 20); (off, 4, 0x7, 39); (off, 7, 0x1, 24); (off, 8, 0x1, 15); (off, 9, 0x1, 14); (off, 10, 0x1, 13); (off, 11, 0x1, 12);
    (imm, 0, 0xf, 16); (imm, 4, 0xf, 0)].
Definition SB_IDri : encoding := macro [ra; off] 0x7c0360000000 [(ra, 0, 0x1f, 34); (off, 0, 0xf, 20); (off, 4, 0x7, 39);
    (off, 7, 0x1, 24); (off, 8, 0x1, 15); (off, 9, 0x1, 14); (off, 10, 0x1, 13); (off, 11, 0x1, 12)].
Definition SB_IDrii : encoding := macro [ra; off; imm] 0x7c0360000000 [(ra, 0, 0x1f, 34); (off, 0, 0xf, 20); (off, 4, 0x7, 39);
    (off, 7, 0x1, 24); (off, 8, 0x1, 15); (off, 9, 0x1, 14); (off, 10, 0x1, 13); (off, 11, 0x1, 12); (imm, 0, 0xf, 16); (imm, 4, 0xf, 0)].
Definition SBSrii : encoding := macro [ra; off; imm] 0x7c0350000000 [(ra, 0, 0x1f, 34); (off, 0, 0xf, 20); (off, 4, 0x7, 39);
    (off, 7, 0x1, 24); (off, 8, 0x1, 15); (off, 9, 0x1, 14); (off, 10, 0x1, 13); (off, 11, 0x1, 12); (imm, 0, 0xf, 16); (imm, 4, 0xf, 0)].
Definition SBSrir : encoding := macro [ra; off; rb] 0x7c0050000000 [(rb, 0, 0x7, 17); (rb, 3, 0x3, 32); (ra, 0, 0x1f, 34);
    (off, 0, 0xf, 20); (off, 4, 0x7, 39); (off, 7, 0x1, 24); (off, 8, 0x1, 15); (off, 9, 0x1, 14); (off, 10, 0x1, 13); (off, 11, 0x1, 12);
    (off, 12, 0xfff, 0)].
Definition SDerii : encoding := macro [endian; ra; off; imm] 0x7c0346000000 [(ra, 0, 0x1f, 34); (endian, 0, 0x1, 27); (off, 0, 0xf, 20);
    (off, 4, 0x7, 39); (off, 7, 0x1, 24); (off, 8, 0x1, 15); (off, 9, 0x1, 14); (off, 10, 0x1, 13); (off, 11, 0x1, 12); (imm, 0, 0xf, 16);
    (imm, 4, 0xfff, 0)].
Definition SDerir : encoding := macro [endian; ra; off; db] 0x7c0046010000 [(db, 0, 0x7, 17); (db, 3, 0x3, 32); (ra, 0, 0x1f, 34);
    (endian, 0, 0x1, 27); (off, 0, 0xf, 20); (off, 4, 0x7, 39); (off, 7, 0x1, 24); (off, 8, 0x1, 15); (off, 9, 0x1, 14);
    (off, 10, 0x1, 13); (off, 11, 0x1, 12); (off, 12, 0xfff, 0)].
Definition SDesii : encoding := macro [endian; ra; off; imm] 0x7c0356000000 [(ra, 0, 0x1f, 34); (endian, 0, 0x1, 27); (off, 0, 0xf, 20);
    (off, 4, 0x7, 39); (off, 7, 0x1, 24); (off, 8, 0x1, 15); (off, 9, 0x1, 14); (off, 10, 0x1, 13); (off, 11, 0x1, 12); (imm, 0, 0xf, 16);
    (imm, 4, 0xfff, 0)].
Definition SDesir : encoding := macro [endian; ra; off; db] 0x7c0056010000 [(db, 0, 0x7, 17); (db, 3, 0x3, 32); (ra, 0, 0x1f, 34);
    (endian, 0, 0x1, 27); (off, 0, 0xf, 20); (off, 4, 0x7, 39); (off, 7, 0x1, 24); (off, 8, 0x1, 15); (off, 9, 0x1, 14);
    (off, 10, 0x1, 13); (off, 11, 0x1, 12); (off, 12, 0xfff, 0)].
Definition SDrii : encoding := macro [ra; off; imm] 0x7c0346000000 [(ra, 0, 0x1f, 34); (off, 0, 0xf, 20); (off, 4, 0x7, 39);
    (off, 7, 0x1, 24); (off, 8, 0x1, 15); (off, 9, 0x1, 14); (off, 10, 0x1, 13); (off, 11, 0x1, 12); (imm, 0, 0xf, 16);
    (imm, 4, 0xfff, 0)].
Definition SDrir : encoding := macro [ra; off; db] 0x7c0046010000 [(db, 0, 0x7, 17); (db, 3, 0x3, 32); (ra, 0, 0x1f, 34);
    (off, 0, 0xf, 20); (off, 4, 0x7, 39); (off, 7, 0x1, 24); (off, 8, 0x1, 15); (off, 9, 0x1, 14); (off, 10, 0x1, 13); (off, 11, 0x1, 12);
    (off, 12, 0xfff, 0)].
Definition SD_IDerii : encoding := macro [endian; ra; off; imm] 0x7c0366000000 [(ra, 0, 0x1f, 34); (endian, 0, 0x1, 27);
    (off, 0, 0xf, 20); (off, 4, 0x7, 39); (off, 7, 0x1, 24); (off, 8, 0x1, 15); (off, 9, 0x1, 14); (off, 10, 0x1, 13); (off, 11, 0x1, 12);
    (imm, 0, 0xf, 16); (imm, 4, 0xfff, 0)].
Definition SD_IDri : encoding := macro [ra; off] 0x7c0366000000 [(ra, 0, 0x1f, 34); (off, 0, 0xf, 20); (off, 4, 0x7, 39);
    (off, 7, 0x1, 24); (off, 8, 0x1, 15); (off, 9, 0x1, 14); (off, 10, 0x1, 13); (off, 11, 0x1, 12)].
Definition SD_IDrii : encoding := macro [ra; off; imm] 0x7c0366000000 [(ra, 0, 0x1f, 34); (off, 0, 0xf, 20); (off, 4, 0x7, 39);
    (off, 7, 0x1, 24); (off, 8, 0x1, 15); (off, 9, 0x1, 14); (off, 10, 0x1, 13); (off, 11, 0x1, 12); (imm, 0, 0xf, 16);
    (imm, 4, 0xfff, 0)].
Definition SDMArri : encoding := macro [ra; rb; immDma] 0x700000000002 [(rb, 0, 0x7, 17); (rb, 3, 0x3, 32); (ra, 0, 0x1f, 34);
    (immDma, 0, 0xff, 24)].
Definition SDSrii : encoding := macro [ra; off; imm] 0x7c0356000000 [(ra, 0, 0x1f, 34); (off, 0, 0xf, 20); (off, 4, 0x7, 39);
    (off, 7, 0x1, 24); (off, 8, 0x1, 15); (off, 9, 0x1, 14); (off, 10, 0x1, 13); (off, 11, 0x1, 12); (imm, 0, 0xf, 16);
    (imm, 4, 0xfff, 0)].
Definition SDSrir : encoding := macro [ra; off; db] 0x7c0056010000 [(db, 0, 0x7, 17); (db, 3, 0x3, 32); (ra, 0, 0x1f, 34);
    (off, 0, 0xf, 20); (off, 4, 0x7, 39); (off, 7, 0x1, 24); (off, 8, 0x1, 15); (off, 9, 0x1, 14); (off, 10, 0x1, 13); (off, 11, 0x1, 12);
    (off, 12, 0xfff, 0)].
Definition SHerii : encoding := macro [endian; ra; off; imm] 0x7c0342000000 [(ra, 0, 0x1f, 34); (endian, 0, 0x1, 27); (off, 0, 0xf, 20);
    (off, 4, 0x7, 39); (off, 7, 0x1, 24); (off, 8, 0x1, 15); (off, 9, 0x1, 14); (off, 10, 0x1, 13); (off, 11, 0x1, 12); (imm, 0, 0xf, 16);
    (imm, 4, 0xfff, 0)].
Definition SHerir : encoding := macro [endian; ra; off; rb] 0x7c0042000000 [(rb, 0, 0x7, 17); (rb, 3, 0x3, 32); (ra, 0, 0x1f, 34);
    (endian, 0, 0x1, 27); (off, 0, 0xf, 20); (off, 4, 0x7, 39); (off, 7, 0x1, 24); (off, 8, 0x1, 15); (off, 9, 0x1, 14);
    (off, 10, 0x1, 13); (off, 11, 0x1, 12); (off, 12, 0xfff, 0)].
Definition SHesii : encoding := macro [endian; ra; off; imm] 0x7c0352000000 [(ra, 0, 0x1f, 34); (endian, 0, 0x1, 27); (off, 0, 0xf, 20);
    (off, 4, 0x7, 39); (off, 7, 0x1, 24); (off, 8, 0x1, 15); (off, 9, 0x1, 14); (off, 10, 0x1, 13); (off, 11, 0x1, 12); (imm, 0, 0xf, 16);
    (imm, 4, 0xfff, 0)].
Definition SHesir : encoding := macro [endian; ra; off; rb] 0x7c0052000000 [(rb, 0, 0x7, 17); (rb, 3, 0x3, 32); (ra, 0, 0x1f, 34);
    (endian, 0, 0x1, 27); (off, 0, 0xf, 20); (off, 4, 0x7, 39); (off, 7, 0x1, 24); (off, 8, 0x1, 15); (off, 9, 0x1, 14);
    (off, 10, 0x1, 13); (off, 11, 0x1, 12); (off, 12, 0xfff, 0)].
Definition SHrii : encoding := macro [ra; off; imm] 0x7c0342000000 [(ra, 0, 0x1f, 34); (off, 0, 0xf, 20); (off, 4, 0x7, 39);
    (off, 7, 0x1, 24); (off, 8, 0x1, 15); (off, 9, 0x1, 14); (off, 10, 0x1, 13); (off, 11, 0x1, 12); (imm, 0, 0xf, 16);
    (imm, 4, 0xfff, 0)].
Definition SHrir : encoding := macro [ra; off; rb] 0x7c0042000000 [(rb, 0, 0x7, 17); (rb, 3, 0x3, 32); (ra, 0, 0x1f, 34);
    (off, 0, 0xf, 20); (off, 4, 0x7, 39); (off, 7, 0x1, 24); (off, 8, 0x1, 15); (off, 9, 0x1, 14); (off, 10, 0x1, 13); (off, 11, 0x1, 12);
    (off, 12, 0xfff, 0)].
Definition SH_IDerii : encoding := macro [endian; ra; off; imm] 0x7c0362000000 [(ra, 0, 0x1f, 34); (endian, 0, 0x1, 27);
    (off, 0, 0xf, 20); (off, 4, 0x7, 39); (off, 7, 0x1, 24); (off, 8, 0x1, 15); (off, 9, 0x1, 14); (off, 10, 0x1, 13); (off, 11, 0x1, 12);
    (imm, 0, 0xf, 16); (imm, 4, 0xfff, 0)].
Definition SH_IDri : encoding := macro [ra; off] 0x7c0362000000 [(ra, 0, 0x1f, 34); (off, 0, 0xf, 20); (off, 4, 0x7, 39);
    (off, 7, 0x1, 24); (off, 8, 0x1, 15); (off, 9, 0x1, 14); (off, 10, 0x1, 13); (off, 11, 0x1, 12)].
Definition SH_IDrii : encoding := macro [ra; off; imm] 0x7c0362000000 [(ra, 0, 0x1f, 34); (off, 0, 0xf, 20); (off, 4, 0x7, 39);
    (off, 7, 0x1, 24); (off, 8, 0x1, 15); (off, 9, 0x1, 14); (off, 10, 0x1, 13); (off, 11, 0x1, 12); (imm, 0, 0xf, 16);
    (imm, 4, 0xfff, 0)].
Definition SHSrii : encoding := macro [ra; off; imm] 0x7c0352000000 [(ra, 0, 0x1f, 34); (off, 0, 0xf, 20); (off, 4, 0x7, 39);
    (off, 7, 0x1, 24); (off, 8, 0x1, 15); (off, 9, 0x1, 14); (off, 10, 0x1, 13); (off, 11, 0x1, 12); (imm, 0, 0xf, 16);
    (imm, 4, 0xfff, 0)].
Definition SHSrir : encoding := macro [ra; off; rb] 0x7c0052000000 [(rb, 0, 0x7, 17); (rb, 3, 0x3, 32); (ra, 0, 0x1f, 34);
    (off, 0, 0xf, 20); (off, 4, 0x7, 39); (off, 7, 0x1, 24); (off, 8, 0x1, 15); (off, 9, 0x1, 14); (off, 10, 0x1, 13); (off, 11, 0x1, 12);
    (off, 12, 0xfff, 0)].
Definition STOP : encoding := macro [] 0x7ef320000000 [].
Definition STOPci : encoding := macro [cc; pc] 0x7ef320000000 [(cc, 0, 0xf, 24); (pc, 0, 0xffff, 0)].
Definition SUB_Srirc : encoding := macro [dc; imm; ra; cc] 0x4c8340000000 [(dc, 1, 0x3, 40); (dc, 3, 0x3, 44); (ra, 0, 0x1f, 34);
    (cc, 0, 0x1f, 24); (imm, 0, 0xf, 20); (imm, 4, 0xf, 16); (imm, 8, 0x1, 15); (imm, 9, 0x1, 14); (imm, 10, 0x1, 13); (imm, 11, 0x1, 12);
    (imm, 12, 0xfff, 0)].
Definition SUB_Srirci : encoding := macro [dc; imm; ra; cc; pc] 0x4c8340000000 [(dc, 1, 0x3, 40); (dc, 3, 0x3, 44); (ra, 0, 0x1f, 34);
    (cc, 0, 0x1f, 24); (imm, 0, 0xf, 20); (imm, 4, 0xf, 16); (pc, 0, 0xffff, 0)].
Definition SUB_Srirf : encoding := macro [dc; imm; ra] 0x4c8340000000 [(dc, 1, 0x3, 40); (dc, 3, 0x3, 44); (ra, 0, 0x1f, 34);
    (imm, 0, 0xf, 20); (imm, 4, 0xf, 16); (imm, 8, 0x1, 15); (imm, 9, 0x1, 14); (imm, 10, 0x1, 13); (imm, 11, 0x1, 12);
    (imm, 12, 0xfff, 0)].
Definition SUB_Srric : encoding := macro [dc; ra; imm; cc] 0x4c8380000000 [(dc, 1, 0x3, 40); (dc, 3, 0x3, 44); (ra, 0, 0x1f, 34);
    (cc, 0, 0x1f, 24); (cc, 5, 0x1, 30); (imm, 0, 0xf, 20); (imm, 4, 0xf, 16); (imm, 8, 0x1, 15); (imm, 9, 0x1, 14); (imm, 10, 0x1, 13);
    (imm, 11, 0x1, 12); (imm, 12, 0xfff, 0)].
Definition SUB_Srrici : encoding := macro [dc; ra; imm; cc; pc] 0x4c8380000000 [(dc, 1, 0x3, 40); (dc, 3, 0x3, 44); (ra, 0, 0x1f, 34);
    (cc, 0, 0x1f, 24); (cc, 5, 0x1, 30); (imm, 0, 0xf, 20); (imm, 4, 0xf, 16); (pc, 0, 0xffff, 0)].
Definition SUB_Srrif : encoding := macro [dc; ra; imm] 0x4c8380000000 [(dc, 1, 0x3, 40); (dc, 3, 0x3, 44); (ra, 0, 0x1f, 34);
    (imm, 0, 0xf, 20); (imm, 4, 0xf, 16); (imm, 8, 0x1, 15); (imm, 9, 0x1, 14); (imm, 10, 0x1, 13); (imm, 11, 0x1, 12);
    (imm, 12, 0xfff, 0)].
Definition SUB_Srrr : encoding := macro [dc; ra; rb] 0x4c8080c00000 [(dc, 1, 0x3, 40); (dc, 3, 0x3, 44); (rb, 0, 0x7, 17);
    (rb, 3, 0x3, 32); (ra, 0, 0x1f, 34)].
Definition SUB_Srrrc : encoding := macro [dc; ra; rb; cc] 0x4c8080c00000 [(dc, 1, 0x3, 40); (dc, 3, 0x3, 44); (rb, 0, 0x7, 17);
    (rb, 3, 0x3, 32); (ra, 0, 0x1f, 34); (cc, 0, 0x1f, 24); (cc, 5, 0x1, 30)].
Definition SUB_Srrrci : encoding := macro [dc; ra; rb; cc; pc] 0x4c8080c00000 [(dc, 1, 0x3, 40); (dc, 3, 0x3, 44); (rb, 0, 0x7, 17);
    (rb, 3, 0x3, 32); (ra, 0, 0x1f, 34); (cc, 0, 0x1f, 24); (cc, 5, 0x1, 30); (pc, 0, 0xffff, 0)].
Definition SUB_Urirc : encoding := macro [dc; imm; ra; cc] 0x4c0340000000 [(dc, 1, 0x3, 40); (dc, 3, 0x3, 44); (ra, 0, 0x1f, 34);
    (cc, 0, 0x1f, 24); (imm, 0, 0xf, 20); (imm, 4, 0xf, 16); (imm, 8, 0x1, 15); (imm, 9, 0x1, 14); (imm, 10, 0x1, 13); (imm, 11, 0x1, 12);
    (imm, 12, 0xfff, 0)].
Definition SUB_Urirci : encoding := macro [dc; imm; ra; cc; pc] 0x4c0340000000 [(dc, 1, 0x3, 40); (dc, 3, 0x3, 44); (ra, 0, 0x1f, 34);
    (cc, 0, 0x1f, 24); (imm, 0, 0xf, 20); (imm, 4, 0xf, 16); (pc, 0, 0xffff, 0)].
Definition SUB_Urirf : encoding := macro [dc; imm; ra] 0x4c0340000000 [(dc, 1, 0x3, 40); (dc, 3, 0x3, 44); (ra, 0, 0x1f, 34);
    (imm, 0, 0xf, 20); (imm, 4, 0xf, 16); (imm, 8, 0x1, 15); (imm, 9, 0x1, 14); (imm, 10, 0x1, 13); (imm, 11, 0x1, 12);
    (imm, 12, 0xfff, 0)].
Definition SUB_Urric : encoding := macro [dc; ra; imm; cc] 0x4c0380000000 [(dc, 1, 0x3, 40); (dc, 3, 0x3, 44); (ra, 0, 0x1f, 34);
    (cc, 0, 0x1f, 24); (cc, 5, 0x1, 30); (imm, 0, 0xf, 20); (imm, 4, 0xf, 16); (imm, 8, 0x1, 15); (imm, 9, 0x1, 14); (imm, 10, 0x1, 13);
    (imm, 11, 0x1, 12); (imm, 12, 0xfff, 0)].
Definition SUB_Urrici : encoding := macro [dc; ra; imm; cc; pc] 0x4c0380000000 [(dc, 1, 0x3, 40); (dc, 3, 0x3, 44); (ra, 0, 0x1f, 34);
    (cc, 0, 0x1f, 24); (cc, 5, 0x1, 30); (imm, 0, 0xf, 20); (imm, 4, 0xf, 16); (pc, 0, 0xffff, 0)].
Definition SUB_Urrif : encoding := macro [dc; ra; imm] 0x4c0380000000 [(dc, 1, 0x3, 40); (dc, 3, 0x3, 44); (ra, 0, 0x1f, 34);
    (imm, 0, 0xf, 20); (imm, 4, 0xf, 16); (imm, 8, 0x1, 15); (imm, 9, 0x1, 14); (imm, 10, 0x1, 13); (imm, 11, 0x1, 12);
    (imm, 12, 0xfff, 0)].
Definition SUB_Urrr : encoding := macro [dc; ra; rb] 0x4c0080c00000 [(dc, 1, 0x3, 40); (dc, 3, 0x3, 44); (rb, 0, 0x7, 17);
    (rb, 3, 0x3, 32); (ra, 0, 0x1f, 34)].
Definition SUB_Urrrc : encoding := macro [dc; ra; rb; cc] 0x4c0080c00000 [(dc, 1, 0x3, 40); (dc, 3, 0x3, 44); (rb, 0, 0x7, 17);
    (rb, 3, 0x3, 32); (ra, 0, 0x1f, 34); (cc, 0, 0x1f, 24); (cc, 5, 0x1, 30)].
Definition SUB_Urrrci : encoding := macro [dc; ra; rb; cc; pc] 0x4c0080c00000 [(dc, 1, 0x3, 40); (dc, 3, 0x3, 44); (rb, 0, 0x7, 17);
    (rb, 3, 0x3, 32); (ra, 0, 0x1f, 34); (cc, 0, 0x1f, 24); (cc, 5, 0x1, 30); (pc, 0, 0xffff, 0)].
Definition SUBrir : encoding := macro [rc; imm; ra] 0x200300000000 [(rc, 0, 0x1f, 39); (ra, 0, 0x1f, 34); (imm, 0, 0xf, 20);
    (imm, 4, 0xf, 16); (imm, 8, 0x1, 15); (imm, 9, 0x1, 14); (imm, 10, 0x1, 13); (imm, 11, 0x1, 12); (imm, 12, 0xfff, 0);
    (imm, 24, 0xff, 24)].
Definition SUBrirc : encoding := macro [rc; imm; ra; cc] 0xc0340000000 [(rc, 0, 0x7, 39); (rc, 3, 0x3, 44); (ra, 0, 0x1f, 34);
    (cc, 0, 0x1f, 24); (imm, 0, 0xf, 20); (imm, 4, 0xf, 16); (imm, 8, 0x1, 15); (imm, 9, 0x1, 14); (imm, 10, 0x1, 13); (imm, 11, 0x1, 12);
    (imm, 12, 0xfff, 0)].
Definition SUBrirci : encoding := macro [rc; imm; ra; cc; pc] 0xc0340000000 [(rc, 0, 0x7, 39); (rc, 3, 0x3, 44); (ra, 0, 0x1f, 34);
    (cc, 0, 0x1f, 24); (imm, 0, 0xf, 20); (imm, 4, 0xf, 16); (pc, 0, 0xffff, 0)].
Definition SUBrirf : encoding := macro [rc; imm; ra] 0xc0340000000 [(rc, 0, 0x7, 39); (rc, 3, 0x3, 44); (ra, 0, 0x1f, 34);
    (imm, 0, 0xf, 20); (imm, 4, 0xf, 16); (imm, 8, 0x1, 15); (imm, 9, 0x1, 14); (imm, 10, 0x1, 13); (imm, 11, 0x1, 12);
    (imm, 12, 0xfff, 0)].
Definition SUBrric : encoding := macro [rc; ra; imm; cc] 0xc0380000000 [(rc, 0, 0x7, 39); (rc, 3, 0x3, 44); (ra, 0, 0x1f, 34);
    (cc, 0, 0x1f, 24); (cc, 5, 0x1, 30); (imm, 0, 0xf, 20); (imm, 4, 0xf, 16); (imm, 8, 0x1, 15); (imm, 9, 0x1, 14); (imm, 10, 0x1, 13);
    (imm, 11, 0x1, 12); (imm, 12, 0xfff, 0)].
Definition SUBrrici : encoding := macro [rc; ra; imm; cc; pc] 0xc0380000000 [(rc, 0, 0x7, 39); (rc, 3, 0x3, 44); (ra, 0, 0x1f, 34);
    (cc, 0, 0x1f, 24); (cc, 5, 0x1, 30); (imm, 0, 0xf, 20); (imm, 4, 0xf, 16); (pc, 0, 0xffff, 0)].
Definition SUBrrif : encoding := macro [rc; ra; imm] 0xc0380000000 [(rc, 0, 0x7, 39); (rc, 3, 0x3, 44); (ra, 0, 0x1f, 34);
    (imm, 0, 0xf, 20); (imm, 4, 0xf, 16); (imm, 8, 0x1, 15); (imm, 9, 0x1, 14); (imm, 10, 0x1, 13); (imm, 11, 0x1, 12);
    (imm, 12, 0xfff, 0)].
Definition SUBrrr : encoding := macro [rc; ra; rb] 0xc0080c00000 [(rc, 0, 0x7, 39); (rc, 3, 0x3, 44); (rb, 0, 0x7, 17); (rb, 3, 0x3, 32);
    (ra, 0, 0x1f, 34)].
Definition SUBrrrc : encoding := macro [rc; ra; rb; cc] 0xc0080c00000 [(rc, 0, 0x7, 39); (rc, 3, 0x3, 44); (rb, 0, 0x7, 17);
    (rb, 3, 0x3, 32); (ra, 0, 0x1f, 34); (cc, 0, 0x1f, 24); (cc, 5, 0x1, 30)].
Definition SUBrrrci : encoding := macro [rc; ra; rb; cc; pc] 0xc0080c00000 [(rc, 0, 0x7, 39); (rc, 3, 0x3, 44); (rb, 0, 0x7, 17);
    (rb, 3, 0x3, 32); (ra, 0, 0x1f, 34); (cc, 0, 0x1f, 24); (cc, 5, 0x1, 30); (pc, 0, 0xffff, 0)].
Definition SUBssi : encoding := macro [rc; ra; imm] 0xc0390000000 [(rc, 0, 0x7, 39); (rc, 3, 0x3, 44); (ra, 0, 0x1f, 34);
    (imm, 0, 0xf, 20); (imm, 4, 0xf, 16); (imm, 8, 0x1, 15); (imm, 9, 0x1, 14); (imm, 10, 0x1, 13); (imm, 11, 0x1, 12);
    (imm, 12, 0x1f, 0); (imm, 16, 0x1, 5); (imm, 16, 0x1, 6); (imm, 16, 0x1, 7); (imm, 16, 0x1, 8); (imm, 16, 0x1, 9); (imm, 16, 0x1, 10);
    (imm, 16, 0x1, 11)].
Definition SUBsss : encoding := macro [rc; ra; rb] 0xc0050c00000 [(rc, 0, 0x7, 39); (rc, 3, 0x3, 44); (rb, 0, 0x1f, 34); (ra, 0, 0x7, 17);
    (ra, 3, 0x3, 32)].
Definition SUBzir : encoding := macro [imm; rb] 0x626000000000 [(rb, 0, 0x7, 17); (rb, 3, 0x3, 32); (imm, 0, 0xf, 20); (imm, 4, 0x7, 34);
    (imm, 7, 0x1, 39); (imm, 8, 0x1, 15); (imm, 9, 0x1, 14); (imm, 10, 0x1, 13); (imm, 11, 0x1, 12); (imm, 12, 0xfff, 0);
    (imm, 24, 0xff, 24)].
Definition SUBzirc : encoding := macro [imm; ra; cc] 0x3c0340000000 [(ra, 0, 0x1f, 34); (cc, 0, 0x1f, 24); (imm, 0, 0xf, 20);
    (imm, 4, 0xf, 16); (imm, 8, 0x1, 15); (imm, 9, 0x1, 14); (imm, 10, 0x1, 13); (imm, 11, 0x1, 12); (imm, 12, 0xfff, 0);
    (imm, 24, 0x7, 39)].
Definition SUBzirci : encoding := macro [imm; ra; cc; pc] 0x3c0340000000 [(ra, 0, 0x1f, 34); (cc, 0, 0x1f, 24); (imm, 0, 0xf, 20);
    (imm, 4, 0xf, 16); (imm, 8, 0x7, 39); (pc, 0, 0xffff, 0)].
Definition SUBzirf : encoding := macro [imm; ra] 0x3c0340000000 [(ra, 0, 0x1f, 34); (imm, 0, 0xf, 20); (imm, 4, 0xf, 16);
    (imm, 8, 0x1, 15); (imm, 9, 0x1, 14); (imm, 10, 0x1, 13); (imm, 11, 0x1, 12); (imm, 12, 0xfff, 0); (imm, 24, 0x7, 39)].
Definition SUBzric : encoding := macro [ra; imm; cc] 0x3c0380000000 [(ra, 0, 0x1f, 34); (cc, 0, 0x1f, 24); (cc, 5, 0x1, 30);
    (imm, 0, 0xf, 20); (imm, 4, 0xf, 16); (imm, 8, 0x1, 15); (imm, 9, 0x1, 14); (imm, 10, 0x1, 13); (imm, 11, 0x1, 12);
    (imm, 12, 0xfff, 0); (imm, 24, 0x7, 39)].
Definition SUBzrici : encoding := macro [ra; imm; cc; pc] 0x3c0380000000 [(ra, 0, 0x1f, 34); (cc, 0, 0x1f, 24); (cc, 5, 0x1, 30);
    (imm, 0, 0xf, 20); (imm, 4, 0xf, 16); (imm, 8, 0x7, 39); (pc, 0, 0xffff, 0)].
Definition SUBzrif : encoding := macro [ra; imm] 0x3c0380000000 [(ra, 0, 0x1f, 34); (imm, 0, 0xf, 20); (imm, 4, 0xf, 16);
    (imm, 8, 0x1, 15); (imm, 9, 0x1, 14); (imm, 10, 0x1, 13); (imm, 11, 0x1, 12); (imm, 12, 0xfff, 0); (imm, 24, 0x7, 39)].
Definition SUBzrr : encoding := macro [ra; rb] 0x3c0080c00000 [(rb, 0, 0x7, 17); (rb, 3, 0x3, 32); (ra, 0, 0x1f, 34)].
Definition SUBzrrc : encoding := macro [ra; rb; cc] 0x3c0080c00000 [(rb, 0, 0x7, 17); (rb, 3, 0x3, 32); (ra, 0, 0x1f, 34);
    (cc, 0, 0x1f, 24); (cc, 5, 0x1, 30)].
Definition SUBzrrci : encoding := macro [ra; rb; cc; pc] 0x3c0080c00000 [(rb, 0, 0x7, 17); (rb, 3, 0x3, 32); (ra, 0, 0x1f, 34);
    (cc, 0, 0x1f, 24); (cc, 5, 0x1, 30); (pc, 0, 0xffff, 0)].
Definition SUBC_Srirc : encoding := macro [dc; imm; ra; cc] 0x4c8360000000 [(dc, 1, 0x3, 40); (dc, 3, 0x3, 44); (ra, 0, 0x1f, 34);
    (cc, 0, 0x1f, 24); (imm, 0, 0xf, 20); (imm, 4, 0xf, 16); (imm, 8, 0x1, 15); (imm, 9, 0x1, 14); (imm, 10, 0x1, 13); (imm, 11, 0x1, 12);
    (imm, 12, 0xfff, 0)].
Definition SUBC_Srirci : encoding := macro [dc; imm; ra; cc; pc] 0x4c8360000000 [(dc, 1, 0x3, 40); (dc, 3, 0x3, 44); (ra, 0, 0x1f, 34);
    (cc, 0, 0x1f, 24); (imm, 0, 0xf, 20); (imm, 4, 0xf, 16); (pc, 0, 0xffff, 0)].
Definition SUBC_Srirf : encoding := macro [dc; imm; ra] 0x4c8360000000 [(dc, 1, 0x3, 40); (dc, 3, 0x3, 44); (ra, 0, 0x1f, 34);
    (imm, 0, 0xf, 20); (imm, 4, 0xf, 16); (imm, 8, 0x1, 15); (imm, 9, 0x1, 14); (imm, 10, 0x1, 13); (imm, 11, 0x1, 12);
    (imm, 12, 0xfff, 0)].
Definition SUBC_Srric : encoding := macro [dc; ra; imm; cc] 0x4c83a0000000 [(dc, 1, 0x3, 40); (dc, 3, 0x3, 44); (ra, 0, 0x1f, 34);
    (cc, 0, 0x1f, 24); (cc, 5, 0x1, 30); (imm, 0, 0xf, 20); (imm, 4, 0xf, 16); (imm, 8, 0x1, 15); (imm, 9, 0x1, 14); (imm, 10, 0x1, 13);
    (imm, 11, 0x1, 12); (imm, 12, 0xfff, 0)].
Definition SUBC_Srrici : encoding := macro [dc; ra; imm; cc; pc] 0x4c83a0000000 [(dc, 1, 0x3, 40); (dc, 3, 0x3, 44); (ra, 0, 0x1f, 34);
    (cc, 0, 0x1f, 24); (cc, 5, 0x1, 30); (imm, 0, 0xf, 20); (imm, 4, 0xf, 16); (pc, 0, 0xffff, 0)].
Definition SUBC_Srrif : encoding := macro [dc; ra; imm] 0x4c83a0000000 [(dc, 1, 0x3, 40); (dc, 3, 0x3, 44); (ra, 0, 0x1f, 34);
    (imm, 0, 0xf, 20); (imm, 4, 0xf, 16); (imm, 8, 0x1, 15); (imm, 9, 0x1, 14); (imm, 10, 0x1, 13); (imm, 11, 0x1, 12);
    (imm, 12, 0xfff, 0)].
Definition SUBC_Srrr : encoding := macro [dc; ra; rb] 0x4c80a0c00000 [(dc, 1, 0x3, 40); (dc, 3, 0x3, 44); (rb, 0, 0x7, 17);
    (rb, 3, 0x3, 32); (ra, 0, 0x1f, 34)].
Definition SUBC_Srrrc : encoding := macro [dc; ra; rb; cc] 0x4c80a0c00000 [(dc, 1, 0x3, 40); (dc, 3, 0x3, 44); (rb, 0, 0x7, 17);
    (rb, 3, 0x3, 32); (ra, 0, 0x1f, 34); (cc, 0, 0x1f, 24); (cc, 5, 0x1, 30)].
Definition SUBC_Srrrci : encoding := macro [dc; ra; rb; cc; pc] 0x4c80a0c00000 [(dc, 1, 0x3, 40); (dc, 3, 0x3, 44); (rb, 0, 0x7, 17);
    (rb, 3, 0x3, 32); (ra, 0, 0x1f, 34); (cc, 0, 0x1f, 24); (cc, 5, 0x1, 30); (pc, 0, 0xffff, 0)].
Definition SUBC_Urirc : encoding := macro [dc; imm; ra; cc] 0x4c0360000000 [(dc, 1, 0x3, 40); (dc, 3, 0x3, 44); (ra, 0, 0x1f, 34);
    (cc, 0, 0x1f, 24); (imm, 0, 0xf, 20); (imm, 4, 0xf, 16); (imm, 8, 0x1, 15); (imm, 9, 0x1, 14); (imm, 10, 0x1, 13); (imm, 11, 0x1, 12);
    (imm, 12, 0xfff, 0)].
Definition SUBC_Urirci : encoding := macro [dc; imm; ra; cc; pc] 0x4c0360000000 [(dc, 1, 0x3, 40); (dc, 3, 0x3, 44); (ra, 0, 0x1f, 34);
    (cc, 0, 0x1f, 24); (imm, 0, 0xf, 20); (imm, 4, 0xf, 16); (pc, 0, 0xffff, 0)].
Definition SUBC_Urirf : encoding := macro [dc; imm; ra] 0x4c0360000000 [(dc, 1, 0x3, 40); (dc, 3, 0x3, 44); (ra, 0, 0x1f, 34);
    (imm, 0, 0xf, 20); (imm, 4, 0xf, 16); (imm, 8, 0x1, 15); (imm, 9, 0x1, 14); (imm, 10, 0x1, 13); (imm, 11, 0x1, 12);
    (imm, 12, 0xfff, 0)].
Definition SUBC_Urric : encoding := macro [dc; ra; imm; cc] 0x4c03a0000000 [(dc, 1, 0x3, 40); (dc, 3, 0x3, 44); (ra, 0, 0x1f, 34);
    (cc, 0, 0x1f, 24); (cc, 5, 0x1, 30); (imm, 0, 0xf, 20); (imm, 4, 0xf, 16); (imm, 8, 0x1, 15); (imm, 9, 0x1, 14); (imm, 10, 0x1, 13);
    (imm, 11, 0x1, 12); (imm, 12, 0xfff, 0)].
Definition SUBC_Urrici : encoding := macro [dc; ra; imm; cc; pc] 0x4c03a0000000 [(dc, 1, 0x3, 40); (dc, 3, 0x3, 44); (ra, 0, 0x1f, 34);
    (cc, 0, 0x1f, 24); (cc, 5, 0x1, 30); (imm, 0, 0xf, 20); (imm, 4, 0xf, 16); (pc, 0, 0xffff, 0)].
Definition SUBC_Urrif : encoding := macro [dc; ra; imm] 0x4c03a0000000 [(dc, 1, 0x3, 40); (dc, 3, 0x3, 44); (ra, 0, 0x1f, 34);
    (imm, 0, 0xf, 20); (imm, 4, 0xf, 16); (imm, 8, 0x1, 15); (imm, 9, 0x1, 14); (imm, 10, 0x1, 13); (imm, 11, 0x1, 12);
    (imm, 12, 0xfff, 0)].
Definition SUBC_Urrr : encoding := macro [dc; ra; rb] 0x4c00a0c00000 [(dc, 1, 0x3, 40); (dc, 3, 0x3, 44); (rb, 0, 0x7, 17);
    (rb, 3, 0x3, 32); (ra, 0, 0x1f, 34)].
Definition SUBC_Urrrc : encoding := macro [dc; ra; rb; cc] 0x4c00a0c00000 [(dc, 1, 0x3, 40); (dc, 3, 0x3, 44); (rb, 0, 0x7, 17);
    (rb, 3, 0x3, 32); (ra, 0, 0x1f, 34); (cc, 0, 0x1f, 24); (cc, 5, 0x1, 30)].
Definition SUBC_Urrrci : encoding := macro [dc; ra; rb; cc; pc] 0x4c00a0c00000 [(dc, 1, 0x3, 40); (dc, 3, 0x3, 44); (rb, 0, 0x7, 17);
    (rb, 3, 0x3, 32); (ra, 0, 0x1f, 34); (cc, 0, 0x1f, 24); (cc, 5, 0x1, 30); (pc, 0, 0xffff, 0)].
Definition SUBCrir : encoding := macro [rc; imm; ra] 0x300300000000 [(rc, 0, 0x1f, 39); (ra, 0, 0x1f, 34); (imm, 0, 0xf, 20);
    (imm, 4, 0xf, 16); (imm, 8, 0x1, 15); (imm, 9, 0x1, 14); (imm, 10, 0x1, 13); (imm, 11, 0x1, 12); (imm, 12, 0xfff, 0);
    (imm, 24, 0xff, 24)].
Definition SUBCrirc : encoding := macro [rc; imm; ra; cc] 0xc0360000000 [(rc, 0, 0x7, 39); (rc, 3, 0x3, 44); (ra, 0, 0x1f, 34);
    (cc, 0, 0x1f, 24); (imm, 0, 0xf, 20); (imm, 4, 0xf, 16); (imm, 8, 0x1, 15); (imm, 9, 0x1, 14); (imm, 10, 0x1, 13); (imm, 11, 0x1, 12);
    (imm, 12, 0xfff, 0)].
Definition SUBCrirci : encoding := macro [rc; imm; ra; cc; pc] 0xc0360000000 [(rc, 0, 0x7, 39); (rc, 3, 0x3, 44); (ra, 0, 0x1f, 34);
    (cc, 0, 0x1f, 24); (imm, 0, 0xf, 20); (imm, 4, 0xf, 16); (pc, 0, 0xffff, 0)].
Definition SUBCrirf : encoding := macro [rc; imm; ra] 0xc0360000000 [(rc, 0, 0x7, 39); (rc, 3, 0x3, 44); (ra, 0, 0x1f, 34);
    (imm, 0, 0xf, 20); (imm, 4, 0xf, 16); (imm, 8, 0x1, 15); (imm, 9, 0x1, 14); (imm, 10, 0x1, 13); (imm, 11, 0x1, 12);
    (imm, 12, 0xfff, 0)].
Definition SUBCrric : encoding := macro [rc; ra; imm; cc] 0xc03a0000000 [(rc, 0, 0x7, 39); (rc, 3, 0x3, 44); (ra, 0, 0x1f, 34);
    (cc, 0, 0x1f, 24); (cc, 5, 0x1, 30); (imm, 0, 0xf, 20); (imm, 4, 0xf, 16); (imm, 8, 0x1, 15); (imm, 9, 0x1, 14); (imm, 10, 0x1, 13);
    (imm, 11, 0x1, 12); (imm, 12, 0xfff, 0)].
Definition SUBCrrici : encoding := macro [rc; ra; imm; cc; pc] 0xc03a0000000 [(rc, 0, 0x7, 39); (rc, 3, 0x3, 44); (ra, 0, 0x1f, 34);
    (cc, 0, 0x1f, 24); (cc, 5, 0x1, 30); (imm, 0, 0xf, 20); (imm, 4, 0xf, 16); (pc, 0, 0xffff, 0)].
Definition SUBCrrif : encoding := macro [rc; ra; imm] 0xc03a0000000 [(rc, 0, 0x7, 39); (rc, 3, 0x3, 44); (ra, 0, 0x1f, 34);
    (imm, 0, 0xf, 20); (imm, 4, 0xf, 16); (imm, 8, 0x1, 15); (imm, 9, 0x1, 14); (imm, 10, 0x1, 13); (imm, 11, 0x1, 12);
    (imm, 12, 0xfff, 0)].
Definition SUBCrrr : encoding := macro [rc; ra; rb] 0xc00a0c00000 [(rc, 0, 0x7, 39); (rc, 3, 0x3, 44); (rb, 0, 0x7, 17); (rb, 3, 0x3, 32);
    (ra, 0, 0x1f, 34)].
Definition SUBCrrrc : encoding := macro [rc; ra; rb; cc] 0xc00a0c00000 [(rc, 0, 0x7, 39); (rc, 3, 0x3, 44); (rb, 0, 0x7, 17);
    (rb, 3, 0x3, 32); (ra, 0, 0x1f, 34); (cc, 0, 0x1f, 24); (cc, 5, 0x1, 30)].
Definition SUBCrrrci : encoding := macro [rc; ra; rb; cc; pc] 0xc00a0c00000 [(rc, 0, 0x7, 39); (rc, 3, 0x3, 44); (rb, 0, 0x7, 17);
    (rb, 3, 0x3, 32); (ra, 0, 0x1f, 34); (cc, 0, 0x1f, 24); (cc, 5, 0x1, 30); (pc, 0, 0xffff, 0)].
Definition SUBCzir : encoding := macro [imm; rb] 0x636000000000 [(rb, 0, 0x7, 17); (rb, 3, 0x3, 32); (imm, 0, 0xf, 20); (imm, 4, 0x7, 34);
    (imm, 7, 0x1, 39); (imm, 8, 0x1, 15); (imm, 9, 0x1, 14); (imm, 10, 0x1, 13); (imm, 11, 0x1, 12); (imm, 12, 0xfff, 0);
    (imm, 24, 0xff, 24)].
Definition SUBCzirc : encoding := macro [imm; ra; cc] 0x3c0360000000 [(ra, 0, 0x1f, 34); (cc, 0, 0x1f, 24); (imm, 0, 0xf, 20);
    (imm, 4, 0xf, 16); (imm, 8, 0x1, 15); (imm, 9, 0x1, 14); (imm, 10, 0x1, 13); (imm, 11, 0x1, 12); (imm, 12, 0xfff, 0);
    (imm, 24, 0x7, 39)].
Definition SUBCzirci : encoding := macro [imm; ra; cc; pc] 0x3c0360000000 [(ra, 0, 0x1f, 34); (cc, 0, 0x1f, 24); (imm, 0, 0xf, 20);
    (imm, 4, 0xf, 16); (imm, 8, 0x7, 39); (pc, 0, 0xffff, 0)].
Definition SUBCzirf : encoding := macro [imm; ra] 0x3c0360000000 [(ra, 0, 0x1f, 34); (imm, 0, 0xf, 20); (imm, 4, 0xf, 16);
    (imm, 8, 0x1, 15); (imm, 9, 0x1, 14); (imm, 10, 0x1, 13); (imm, 11, 0x1, 12); (imm, 12, 0xfff, 0); (imm, 24, 0x7, 39)].
Definition SUBCzric : encoding := macro [ra; imm; cc] 0x3c03a0000000 [(ra, 0, 0x1f, 34); (cc, 0, 0x1f, 24); (cc, 5, 0x1, 30);
    (imm, 0, 0xf, 20); (imm, 4, 0xf, 16); (imm, 8, 0x1, 15); (imm, 9, 0x1, 14); (imm, 10, 0x1, 13); (imm, 11, 0x1, 12);
    (imm, 12, 0xfff, 0); (imm, 24, 0x7, 39)].
Definition SUBCzrici : encoding := macro [ra; imm; cc; pc] 0x3c03a0000000 [(ra, 0, 0x1f, 34); (cc, 0, 0x1f, 24); (cc, 5, 0x1, 30);
    (imm, 0, 0xf, 20); (imm, 4, 0xf, 16); (imm, 8, 0x7, 39); (pc, 0, 0xffff, 0)].
Definition SUBCzrif : encoding := macro [ra; imm] 0x3c03a0000000 [(ra, 0, 0x1f, 34); (imm, 0, 0xf, 20); (imm, 4, 0xf, 16);
    (imm, 8, 0x1, 15); (imm, 9, 0x1, 14); (imm, 10, 0x1, 13); (imm, 11, 0x1, 12); (imm, 12, 0xfff, 0); (imm, 24, 0x7, 39)].
Definition SUBCzrr : encoding := macro [ra; rb] 0x3c00a0c00000 [(rb, 0, 0x7, 17); (rb, 3, 0x3, 32); (ra, 0, 0x1f, 34)].
Definition SUBCzrrc : encoding := macro [ra; rb; cc] 0x3c00a0c00000 [(rb, 0, 0x7, 17); (rb, 3, 0x3, 32); (ra, 0, 0x1f, 34);
    (cc, 0, 0x1f, 24); (cc, 5, 0x1, 30)].
Definition SUBCzrrci : encoding := macro [ra; rb; cc; pc] 0x3c00a0c00000 [(rb, 0, 0x7, 17); (rb, 3, 0x3, 32); (ra, 0, 0x1f, 34);
    (cc, 0, 0x1f, 24); (cc, 5, 0x1, 30); (pc, 0, 0xffff, 0)].
Definition SUBSrri : encoding := macro [rc; ra; imm] 0xc0390000000 [(rc, 0, 0x7, 39); (rc, 3, 0x3, 44); (ra, 0, 0x1f, 34);
    (imm, 0, 0xf, 20); (imm, 4, 0xf, 16); (imm, 8, 0x1, 15); (imm, 9, 0x1, 14); (imm, 10, 0x1, 13); (imm, 11, 0x1, 12);
    (imm, 12, 0x1f, 0); (imm, 16, 0x1, 5); (imm, 16, 0x1, 6); (imm, 16, 0x1, 7); (imm, 16, 0x1, 8); (imm, 16, 0x1, 9); (imm, 16, 0x1, 10);
    (imm, 16, 0x1, 11)].
Definition SUBSrrr : encoding := macro [rc; ra; rb] 0xc0050c00000 [(rc, 0, 0x7, 39); (rc, 3, 0x3, 44); (rb, 0, 0x1f, 34);
    (ra, 0, 0x7, 17); (ra, 3, 0x3, 32)].
Definition SWerii : encoding := macro [endian; ra; off; imm] 0x7c0344000000 [(ra, 0, 0x1f, 34); (endian, 0, 0x1, 27); (off, 0, 0xf, 20);
    (off, 4, 0x7, 39); (off, 7, 0x1, 24); (off, 8, 0x1, 15); (off, 9, 0x1, 14); (off, 10, 0x1, 13); (off, 11, 0x1, 12); (imm, 0, 0xf, 16);
    (imm, 4, 0xfff, 0)].
Definition SWerir : encoding := macro [endian; ra; off; rb] 0x7c0044000000 [(rb, 0, 0x7, 17); (rb, 3, 0x3, 32); (ra, 0, 0x1f, 34);
    (endian, 0, 0x1, 27); (off, 0, 0xf, 20); (off, 4, 0x7, 39); (off, 7, 0x1, 24); (off, 8, 0x1, 15); (off, 9, 0x1, 14);
    (off, 10, 0x1, 13); (off, 11, 0x1, 12); (off, 12, 0xfff, 0)].
Definition SWesii : encoding := macro [endian; ra; off; imm] 0x7c0354000000 [(ra, 0, 0x1f, 34); (endian, 0, 0x1, 27); (off, 0, 0xf, 20);
    (off, 4, 0x7, 39); (off, 7, 0x1, 24); (off, 8, 0x1, 15); (off, 9, 0x1, 14); (off, 10, 0x1, 13); (off, 11, 0x1, 12); (imm, 0, 0xf, 16);
    (imm, 4, 0xfff, 0)].
Definition SWesir : encoding := macro [endian; ra; off; rb] 0x7c0054000000 [(rb, 0, 0x7, 17); (rb, 3, 0x3, 32); (ra, 0, 0x1f, 34);
    (endian, 0, 0x1, 27); (off, 0, 0xf, 20); (off, 4, 0x7, 39); (off, 7, 0x1, 24); (off, 8, 0x1, 15); (off, 9, 0x1, 14);
    (off, 10, 0x1, 13); (off, 11, 0x1, 12); (off, 12, 0xfff, 0)].
Definition SWrii : encoding := macro [ra; off; imm] 0x7c0344000000 [(ra, 0, 0x1f, 34); (off, 0, 0xf, 20); (off, 4, 0x7, 39);
    (off, 7, 0x1, 24); (off, 8, 0x1, 15); (off, 9, 0x1, 14); (off, 10, 0x1, 13); (off, 11, 0x1, 12); (imm, 0, 0xf, 16);
    (imm, 4, 0xfff, 0)].
Definition SWrir : encoding := macro [ra; off; rb] 0x7c0044000000 [(rb, 0, 0x7, 17); (rb, 3, 0x3, 32); (ra, 0, 0x1f, 34);
    (off, 0, 0xf, 20); (off, 4, 0x7, 39); (off, 7, 0x1, 24); (off, 8, 0x1, 15); (off, 9, 0x1, 14); (off, 10, 0x1, 13); (off, 11, 0x1, 12);
    (off, 12, 0xfff, 0)].
Definition SW_IDerii : encoding := macro [endian; ra; off; imm] 0x7c0364000000 [(ra, 0, 0x1f, 34); (endian, 0, 0x1, 27);
    (off, 0, 0xf, 20); (off, 4, 0x7, 39); (off, 7, 0x1, 24); (off, 8, 0x1, 15); (off, 9, 0x1, 14); (off, 10, 0x1, 13); (off, 11, 0x1, 12);
    (imm, 0, 0xf, 16); (imm, 4, 0xfff, 0)].
Definition SW_IDri : encoding := macro [ra; off] 0x7c0364000000 [(ra, 0, 0x1f, 34); (off, 0, 0xf, 20); (off, 4, 0x7, 39);
    (off, 7, 0x1, 24); (off, 8, 0x1, 15); (off, 9, 0x1, 14); (off, 10, 0x1, 13); (off, 11, 0x1, 12)].
Definition SW_IDrii : encoding := macro [ra; off; imm] 0x7c0364000000 [(ra, 0, 0x1f, 34); (off, 0, 0xf, 20); (off, 4, 0x7, 39);
    (off, 7, 0x1, 24); (off, 8, 0x1, 15); (off, 9, 0x1, 14); (off, 10, 0x1, 13); (off, 11, 0x1, 12); (imm, 0, 0xf, 16);
    (imm, 4, 0xfff, 0)].
Definition SWAPDrr : encoding := macro [dc; db] 0x8060a0010000 [(db, 0, 0x7, 17); (db, 3, 0x3, 32); (dc, 0, 0x1f, 39)].
Definition SWAPDrrci : encoding := macro [dc; db; cc; pc] 0x8060a0010000 [(db, 0, 0x7, 17); (db, 3, 0x3, 32); (dc, 0, 0x1f, 39);
    (cc, 0, 0xf, 24); (pc, 0, 0xffff, 0)].
Definition SWSrii : encoding := macro [ra; off; imm] 0x7c0354000000 [(ra, 0, 0x1f, 34); (off, 0, 0xf, 20); (off, 4, 0x7, 39);
    (off, 7, 0x1, 24); (off, 8, 0x1, 15); (off, 9, 0x1, 14); (off, 10, 0x1, 13); (off, 11, 0x1, 12); (imm, 0, 0xf, 16);
    (imm, 4, 0xfff, 0)].
Definition SWSrir : encoding := macro [ra; off; rb] 0x7c0054000000 [(rb, 0, 0x7, 17); (rb, 3, 0x3, 32); (ra, 0, 0x1f, 34);
    (off, 0, 0xf, 20); (off, 4, 0x7, 39); (off, 7, 0x1, 24); (off, 8, 0x1, 15); (off, 9, 0x1, 14); (off, 10, 0x1, 13); (off, 11, 0x1, 12);
    (off, 12, 0xfff, 0)].
Definition TELLri : encoding := macro [ra; off] 0x7c0300000000 [(ra, 0, 0x1f, 34); (off, 0, 0xf, 20); (off, 4, 0xf, 16);
    (off, 8, 0x1, 15); (off, 9, 0x1, 14); (off, 10, 0x1, 13); (off, 11, 0x1, 12); (off, 12, 0xfff, 0)].
Definition TIME_Sr : encoding := macro [dc] 0x4ce020800000 [(dc, 1, 0x3, 40); (dc, 3, 0x3, 44)].
Definition TIME_Srci : encoding := macro [dc; cc; pc] 0x4ce020800000 [(dc, 1, 0x3, 40); (dc, 3, 0x3, 44); (cc, 0, 0xf, 24);
    (pc, 0, 0xffff, 0)].
Definition TIME_Ur : encoding := macro [dc] 0x4c6020800000 [(dc, 1, 0x3, 40); (dc, 3, 0x3, 44)].
Definition TIME_Urci : encoding := macro [dc; cc; pc] 0x4c6020800000 [(dc, 1, 0x3, 40); (dc, 3, 0x3, 44); (cc, 0, 0xf, 24);
    (pc, 0, 0xffff, 0)].
Definition TIMEr : encoding := macro [rc] 0xc6020800000 [(rc, 0, 0x7, 39); (rc, 3, 0x3, 44)].
Definition TIMErci : encoding := macro [rc; cc; pc] 0xc6020800000 [(rc, 0, 0x7, 39); (rc, 3, 0x3, 44); (cc, 0, 0xf, 24);
    (pc, 0, 0xffff, 0)].
Definition TIMEz : encoding := macro [] 0x3c6020800000 [].
Definition TIMEzci : encoding := macro [cc; pc] 0x3c6020800000 [(cc, 0, 0xf, 24); (pc, 0, 0xffff, 0)].
Definition TIME_CFG_Srr : encoding := macro [dc; rb] 0x4ce420800000 [(rb, 0, 0x7, 17); (rb, 3, 0x3, 32); (dc, 1, 0x3, 40);
    (dc, 3, 0x3, 44)].
Definition TIME_CFG_Srrci : encoding := macro [dc; rb; cc; pc] 0x4ce420800000 [(rb, 0, 0x7, 17); (rb, 3, 0x3, 32); (dc, 1, 0x3, 40);
    (dc, 3, 0x3, 44); (cc, 0, 0xf, 24); (pc, 0, 0xffff, 0)].
Definition TIME_CFG_Urr : encoding := macro [dc; rb] 0x4c6420800000 [(rb, 0, 0x7, 17); (rb, 3, 0x3, 32); (dc, 1, 0x3, 40);
    (dc, 3, 0x3, 44)].
Definition TIME_CFG_Urrci : encoding := macro [dc; rb; cc; pc] 0x4c6420800000 [(rb, 0, 0x7, 17); (rb, 3, 0x3, 32); (dc, 1, 0x3, 40);
    (dc, 3, 0x3, 44); (cc, 0, 0xf, 24); (pc, 0, 0xffff, 0)].
Definition TIME_CFGr : encoding := macro [rb] 0x3c6420800000 [(rb, 0, 0x7, 17); (rb, 3, 0x3, 32)].
Definition TIME_CFGrr : encoding := macro [rc; rb] 0xc6420800000 [(rb, 0, 0x7, 17); (rb, 3, 0x3, 32); (rc, 0, 0x7, 39); (rc, 3, 0x3, 44)].
Definition TIME_CFGrrci : encoding := macro [rc; rb; cc; pc] 0xc6420800000 [(rb, 0, 0x7, 17); (rb, 3, 0x3, 32); (rc, 0, 0x7, 39);
    (rc, 3, 0x3, 44); (cc, 0, 0xf, 24); (pc, 0, 0xffff, 0)].
Definition TIME_CFGzr : encoding := macro [rb] 0x3c6420800000 [(rb, 0, 0x7, 17); (rb, 3, 0x3, 32)].
Definition TIME_CFGzrci : encoding := macro [rb; cc; pc] 0x3c6420800000 [(rb, 0, 0x7, 17); (rb, 3, 0x3, 32); (cc, 0, 0xf, 24);
    (pc, 0, 0xffff, 0)].
Definition XOR_Srric : encoding := macro [dc; ra; imm; cc] 0x908380000000 [(dc, 1, 0xf, 40); (ra, 0, 0x1f, 34); (cc, 0, 0xf, 24);
    (imm, 0, 0xf, 20); (imm, 4, 0xf, 16); (imm, 8, 0x1, 15); (imm, 9, 0x1, 14); (imm, 10, 0x1, 13); (imm, 11, 0x1, 12);
    (imm, 12, 0xfff, 0)].
Definition XOR_Srrici : encoding := macro [dc; ra; imm; cc; pc] 0x908380000000 [(dc, 1, 0xf, 40); (ra, 0, 0x1f, 34); (cc, 0, 0xf, 24);
    (imm, 0, 0xf, 20); (imm, 4, 0xf, 16); (pc, 0, 0xffff, 0)].
Definition XOR_Srrif : encoding := macro [dc; ra; imm] 0x908380000000 [(dc, 1, 0xf, 40); (ra, 0, 0x1f, 34); (imm, 0, 0xf, 20);
    (imm, 4, 0xf, 16); (imm, 8, 0x1, 15); (imm, 9, 0x1, 14); (imm, 10, 0x1, 13); (imm, 11, 0x1, 12); (imm, 12, 0xfff, 0)].
Definition XOR_Srrr : encoding := macro [dc; ra; rb] 0x9080c0800000 [(rb, 0, 0x7, 17); (rb, 3, 0x3, 32); (dc, 1, 0xf, 40);
    (ra, 0, 0x1f, 34)].
Definition XOR_Srrrc : encoding := macro [dc; ra; rb; cc] 0x9080c0800000 [(rb, 0, 0x7, 17); (rb, 3, 0x3, 32); (dc, 1, 0xf, 40);
    (ra, 0, 0x1f, 34); (cc, 0, 0xf, 24)].
Definition XOR_Srrrci : encoding := macro [dc; ra; rb; cc; pc] 0x9080c0800000 [(rb, 0, 0x7, 17); (rb, 3, 0x3, 32); (dc, 1, 0xf, 40);
    (ra, 0, 0x1f, 34); (cc, 0, 0xf, 24); (pc, 0, 0xffff, 0)].
Definition XOR_Urric : encoding := macro [dc; ra; imm; cc] 0x900380000000 [(dc, 1, 0xf, 40); (ra, 0, 0x1f, 34); (cc, 0, 0xf, 24);
    (imm, 0, 0xf, 20); (imm, 4, 0xf, 16); (imm, 8, 0x1, 15); (imm, 9, 0x1, 14); (imm, 10, 0x1, 13); (imm, 11, 0x1, 12);
    (imm, 12, 0xfff, 0)].
Definition XOR_Urrici : encoding := macro [dc; ra; imm; cc; pc] 0x900380000000 [(dc, 1, 0xf, 40); (ra, 0, 0x1f, 34); (cc, 0, 0xf, 24);
    (imm, 0, 0xf, 20); (imm, 4, 0xf, 16); (pc, 0, 0xffff, 0)].
Definition XOR_Urrif : encoding := macro [dc; ra; imm] 0x900380000000 [(dc, 1, 0xf, 40); (ra, 0, 0x1f, 34); (imm, 0, 0xf, 20);
    (imm, 4, 0xf, 16); (imm, 8, 0x1, 15); (imm, 9, 0x1, 14); (imm, 10, 0x1, 13); (imm, 11, 0x1, 12); (imm, 12, 0xfff, 0)].
Definition XOR_Urrr : encoding := macro [dc; ra; rb] 0x9000c0800000 [(rb, 0, 0x7, 17); (rb, 3, 0x3, 32); (dc, 1, 0xf, 40);
    (ra, 0, 0x1f, 34)].
Definition XOR_Urrrc : encoding := macro [dc; ra; rb; cc] 0x9000c0800000 [(rb, 0, 0x7, 17); (rb, 3, 0x3, 32); (dc, 1, 0xf, 40);
    (ra, 0, 0x1f, 34); (cc, 0, 0xf, 24)].
Definition XOR_Urrrci : encoding := macro [dc; ra; rb; cc; pc] 0x9000c0800000 [(rb, 0, 0x7, 17); (rb, 3, 0x3, 32); (dc, 1, 0xf, 40);
    (ra, 0, 0x1f, 34); (cc, 0, 0xf, 24); (pc, 0, 0xffff, 0)].
Definition XORrri : encoding := macro [rc; ra; imm] 0x400300000000 [(rc, 0, 0x1f, 39); (ra, 0, 0x1f, 34); (imm, 0, 0xf, 20);
    (imm, 4, 0xf, 16); (imm, 8, 0x1, 15); (imm, 9, 0x1, 14); (imm, 10, 0x1, 13); (imm, 11, 0x1, 12); (imm, 12, 0xfff, 0);
    (imm, 24, 0xff, 24)].
Definition XORrric : encoding := macro [rc; ra; imm; cc] 0x800380000000 [(rc, 0, 0x1f, 39); (ra, 0, 0x1f, 34); (cc, 0, 0xf, 24);
    (imm, 0, 0xf, 20); (imm, 4, 0xf, 16); (imm, 8, 0x1, 15); (imm, 9, 0x1, 14); (imm, 10, 0x1, 13); (imm, 11, 0x1, 12);
    (imm, 12, 0xfff, 0)].
Definition XORrrici : encoding := macro [rc; ra; imm; cc; pc] 0x800380000000 [(rc, 0, 0x1f, 39); (ra, 0, 0x1f, 34); (cc, 0, 0xf, 24);
    (imm, 0, 0xf, 20); (imm, 4, 0xf, 16); (pc, 0, 0xffff, 0)].
Definition XORrrif : encoding := macro [rc; ra; imm] 0x800380000000 [(rc, 0, 0x1f, 39); (ra, 0, 0x1f, 34); (imm, 0, 0xf, 20);
    (imm, 4, 0xf, 16); (imm, 8, 0x1, 15); (imm, 9, 0x1, 14); (imm, 10, 0x1, 13); (imm, 11, 0x1, 12); (imm, 12, 0xfff, 0)].
Definition XORrrr : encoding := macro [rc; ra; rb] 0x8000c0800000 [(rb, 0, 0x7, 17); (rb, 3, 0x3, 32); (rc, 0, 0x1f, 39);
    (ra, 0, 0x1f, 34)].
Definition XORrrrc : encoding := macro [rc; ra; rb; cc] 0x8000c0800000 [(rb, 0, 0x7, 17); (rb, 3, 0x3, 32); (rc, 0, 0x1f, 39);
    (ra, 0, 0x1f, 34); (cc, 0, 0xf, 24)].
Definition XORrrrci : encoding := macro [rc; ra; rb; cc; pc] 0x8000c0800000 [(rb, 0, 0x7, 17); (rb, 3, 0x3, 32); (rc, 0, 0x1f, 39);
    (ra, 0, 0x1f, 34); (cc, 0, 0xf, 24); (pc, 0, 0xffff, 0)].
Definition XORzri : encoding := macro [rb; imm] 0x646000000000 [(rb, 0, 0x7, 17); (rb, 3, 0x3, 32); (imm, 0, 0xf, 20); (imm, 4, 0x7, 34);
    (imm, 7, 0x1, 39); (imm, 8, 0x1, 15); (imm, 9, 0x1, 14); (imm, 10, 0x1, 13); (imm, 11, 0x1, 12); (imm, 12, 0xfff, 0);
    (imm, 24, 0xff, 24)].
Definition XORzric : encoding := macro [ra; imm; cc] 0x8c0380000000 [(ra, 0, 0x1f, 34); (cc, 0, 0xf, 24); (imm, 0, 0xf, 20);
    (imm, 4, 0xf, 16); (imm, 8, 0x1, 15); (imm, 9, 0x1, 14); (imm, 10, 0x1, 13); (imm, 11, 0x1, 12); (imm, 12, 0xfff, 0);
    (imm, 24, 0x7, 39); (imm, 27, 0x1, 44)].
Definition XORzrici : encoding := macro [ra; imm; cc; pc] 0x8c0380000000 [(ra, 0, 0x1f, 34); (cc, 0, 0xf, 24); (imm, 0, 0xf, 20);
    (imm, 4, 0xf, 16); (imm, 8, 0x7, 39); (imm, 11, 0x1, 44); (pc, 0, 0xffff, 0)].
Definition XORzrif : encoding := macro [ra; imm] 0x8c0380000000 [(ra, 0, 0x1f, 34); (imm, 0, 0xf, 20); (imm, 4, 0xf, 16);
    (imm, 8, 0x1, 15); (imm, 9, 0x1, 14); (imm, 10, 0x1, 13); (imm, 11, 0x1, 12); (imm, 12, 0xfff, 0); (imm, 24, 0x7, 39);
    (imm, 27, 0x1, 44)].
Definition XORzrr : encoding := macro [ra; rb] 0x8c00c0800000 [(rb, 0, 0x7, 17); (rb, 3, 0x3, 32); (ra, 0, 0x1f, 34)].
Definition XORzrrc : encoding := macro [ra; rb; cc] 0x8c00c0800000 [(rb, 0, 0x7, 17); (rb, 3, 0x3, 32); (ra, 0, 0x1f, 34);
    (cc, 0, 0xf, 24)].
Definition XORzrrci : encoding := macro [ra; rb; cc; pc] 0x8c00c0800000 [(rb, 0, 0x7, 17); (rb, 3, 0x3, 32); (ra, 0, 0x1f, 34);
    (cc, 0, 0xf, 24); (pc, 0, 0xffff, 0)].

(** All of them. *)
Definition encodings : list encoding := [ACQUIRErici; ADD_Srri; ADD_Srric; ADD_Srrici; ADD_Srrif; ADD_Srrr; ADD_Srrrc; ADD_Srrrci;
  ADD_Urri; ADD_Urric; ADD_Urrici; ADD_Urrif; ADD_Urrr; ADD_Urrrc; ADD_Urrrci; ADDrri; ADDrric; ADDrrici; ADDrrif; ADDrrr; ADDrrrc;
  ADDrrrci; ADDssi; ADDsss; ADDzri; ADDzric; ADDzrici; ADDzrif; ADDzrr; ADDzrrc; ADDzrrci; ADDC_Srric; ADDC_Srrici; ADDC_Srrif; ADDC_Srrr;
  ADDC_Srrrc; ADDC_Srrrci; ADDC_Urric; ADDC_Urrici; ADDC_Urrif; ADDC_Urrr; ADDC_Urrrc; ADDC_Urrrci; ADDCrri; ADDCrric; ADDCrrici;
  ADDCrrif; ADDCrrr; ADDCrrrc; ADDCrrrci; ADDCzri; ADDCzric; ADDCzrici; ADDCzrif; ADDCzrr; ADDCzrrc; ADDCzrrci; ADDSrri; ADDSrrr;
  AND_Srki; AND_Srri; AND_Srric; AND_Srrici; AND_Srrif; AND_Srrr; AND_Srrrc; AND_Srrrci; AND_Urki; AND_Urri; AND_Urric; AND_Urrici;
  AND_Urrif; AND_Urrr; AND_Urrrc; AND_Urrrci; ANDrri; ANDrric; ANDrrici; ANDrrif; ANDrrr; ANDrrrc; ANDrrrci; ANDzri; ANDzric; ANDzrici;
  ANDzrif; ANDzrr; ANDzrrc; ANDzrrci; ANDN_Srric; ANDN_Srrici; ANDN_Srrif; ANDN_Srrr; ANDN_Srrrc; ANDN_Srrrci; ANDN_Urric; ANDN_Urrici;
  ANDN_Urrif; ANDN_Urrr; ANDN_Urrrc; ANDN_Urrrci; ANDNrri; ANDNrric; ANDNrrici; ANDNrrif; ANDNrrr; ANDNrrrc; ANDNrrrci; ANDNzric;
  ANDNzrici; ANDNzrif; ANDNzrr; ANDNzrrc; ANDNzrrci; ASR_Srri; ASR_Srric; ASR_Srrici; ASR_Srrr; ASR_Srrrc; ASR_Srrrci; ASR_Urri;
  ASR_Urric; ASR_Urrici; ASR_Urrr; ASR_Urrrc; ASR_Urrrci; ASRrri; ASRrric; ASRrrici; ASRrrr; ASRrrrc; ASRrrrci; ASRzri; ASRzric; ASRzrici;
  ASRzrr; ASRzrrc; ASRzrrci; BKP; BOOTri; BOOTrici; CALLri; CALLrr; CALLrri; CALLrrr; CALLzri; CALLzrr; CAO_Srr; CAO_Srrc; CAO_Srrci;
  CAO_Urr; CAO_Urrc; CAO_Urrci; CAOrr; CAOrrc; CAOrrci; CAOzr; CAOzrc; CAOzrci; CLO_Srr; CLO_Srrc; CLO_Srrci; CLO_Urr; CLO_Urrc;
  CLO_Urrci; CLOrr; CLOrrc; CLOrrci; CLOzr; CLOzrc; CLOzrci; CLR_RUNrici; CLS_Srr; CLS_Srrc; CLS_Srrci; CLS_Urr; CLS_Urrc; CLS_Urrci;
  CLSrr; CLSrrc; CLSrrci; CLSzr; CLSzrc; CLSzrci; CLZ_Srr; CLZ_Srrc; CLZ_Srrci; CLZ_Urr; CLZ_Urrc; CLZ_Urrci; CLZrr; CLZrrc; CLZrrci;
  CLZzr; CLZzrc; CLZzrci; CMPB4_Srrr; CMPB4_Srrrc; CMPB4_Srrrci; CMPB4_Urrr; CMPB4_Urrrc; CMPB4_Urrrci; CMPB4rrr; CMPB4rrrc; CMPB4rrrci;
  CMPB4zrr; CMPB4zrrc; CMPB4zrrci; DIV_STEPrrri; DIV_STEPrrrici; EXTSB_Srr; EXTSB_Srrc; EXTSB_Srrci; EXTSBrr; EXTSBrrc; EXTSBrrci;
  EXTSBzr; EXTSBzrc; EXTSBzrci; EXTSH_Srr; EXTSH_Srrc; EXTSH_Srrci; EXTSHrr; EXTSHrrc; EXTSHrrci; EXTSHzr; EXTSHzrc; EXTSHzrci; EXTUB_Urr;
  EXTUB_Urrc; EXTUB_Urrci; EXTUBrr; EXTUBrrc; EXTUBrrci; EXTUBzr; EXTUBzrc; EXTUBzrci; EXTUH_Urr; EXTUH_Urrc; EXTUH_Urrci; EXTUHrr;
  EXTUHrrc; EXTUHrrci; EXTUHzr; EXTUHzrc; EXTUHzrci; FAULTi; HASH_Srric; HASH_Srrici; HASH_Srrif; HASH_Srrr; HASH_Srrrc; HASH_Srrrci;
  HASH_Urric; HASH_Urrici; HASH_Urrif; HASH_Urrr; HASH_Urrrc; HASH_Urrrci; HASHrri; HASHrric; HASHrrici; HASHrrif; HASHrrr; HASHrrrc;
  HASHrrrci; HASHzric; HASHzrici; HASHzrif; HASHzrr; HASHzrrc; HASHzrrci; JEQrii; JEQrri; JGESrii; JGESrri; JGEUrii; JGEUrri; JGTSrii;
  JGTSrri; JGTUrii; JGTUrri; JLESrii; JLESrri; JLEUrii; JLEUrri; JLTSrii; JLTSrri; JLTUrii; JLTUrri; JNEQrii; JNEQrri; JNZri; JUMPi;
  JUMPr; JUMPri; JZri; LBS_Serri; LBS_Srri; LBSerri; LBSersi; LBSrri; LBSSrri; LBU_Uerri; LBU_Urri; LBUerri; LBUersi; LBUrri; LBUSrri;
  LDerri; LDersi; LDrri; LDMArri; LDMAIrri; LDSrri; LHS_Serri; LHS_Srri; LHSerri; LHSersi; LHSrri; LHSSrri; LHU_Uerri; LHU_Urri; LHUerri;
  LHUersi; LHUrri; LHUSrri; LSL_Srri; LSL_Srric; LSL_Srrici; LSL_Srrr; LSL_Srrrc; LSL_Srrrci; LSL_Urri; LSL_Urric; LSL_Urrici; LSL_Urrr;
  LSL_Urrrc; LSL_Urrrci; LSL1_Srri; LSL1_Srric; LSL1_Srrici; LSL1_Srrr; LSL1_Srrrc; LSL1_Srrrci; LSL1_Urri; LSL1_Urric; LSL1_Urrici;
  LSL1_Urrr; LSL1_Urrrc; LSL1_Urrrci; LSL1rri; LSL1rric; LSL1rrici; LSL1rrr; LSL1rrrc; LSL1rrrci; LSL1zri; LSL1zric; LSL1zrici; LSL1zrr;
  LSL1zrrc; LSL1zrrci; LSL1X_Srri; LSL1X_Srric; LSL1X_Srrici; LSL1X_Srrr; LSL1X_Srrrc; LSL1X_Srrrci; LSL1X_Urri; LSL1X_Urric;
  LSL1X_Urrici; LSL1X_Urrr; LSL1X_Urrrc; LSL1X_Urrrci; LSL1Xrri; LSL1Xrric; LSL1Xrrici; LSL1Xrrr; LSL1Xrrrc; LSL1Xrrrci; LSL1Xzri;
  LSL1Xzric; LSL1Xzrici; LSL1Xzrr; LSL1Xzrrc; LSL1Xzrrci; LSLrri; LSLrric; LSLrrici; LSLrrr; LSLrrrc; LSLrrrci; LSLzri; LSLzric; LSLzrici;
  LSLzrr; LSLzrrc; LSLzrrci; LSL_ADD_Srrri; LSL_ADD_Srrrici; LSL_ADD_Urrri; LSL_ADD_Urrrici; LSL_ADDrrri; LSL_ADDrrrici; LSL_ADDzrri;
  LSL_ADDzrrici; LSL_SUB_Srrri; LSL_SUB_Srrrici; LSL_SUB_Urrri; LSL_SUB_Urrrici; LSL_SUBrrri; LSL_SUBrrrici; LSL_SUBzrri; LSL_SUBzrrici;
  LSLX_Srri; LSLX_Srric; LSLX_Srrici; LSLX_Srrr; LSLX_Srrrc; LSLX_Srrrci; LSLX_Urri; LSLX_Urric; LSLX_Urrici; LSLX_Urrr; LSLX_Urrrc;
  LSLX_Urrrci; LSLXrri; LSLXrric; LSLXrrici; LSLXrrr; LSLXrrrc; LSLXrrrci; LSLXzri; LSLXzric; LSLXzrici; LSLXzrr; LSLXzrrc; LSLXzrrci;
  LSR_Srri; LSR_Srric; LSR_Srrici; LSR_Srrr; LSR_Srrrc; LSR_Srrrci; LSR_Urri; LSR_Urric; LSR_Urrici; LSR_Urrr; LSR_Urrrc; LSR_Urrrci;
  LSR1_Srri; LSR1_Srric; LSR1_Srrici; LSR1_Srrr; LSR1_Srrrc; LSR1_Srrrci; LSR1_Urri; LSR1_Urric; LSR1_Urrici; LSR1_Urrr; LSR1_Urrrc;
  LSR1_Urrrci; LSR1rri; LSR1rric; LSR1rrici; LSR1rrr; LSR1rrrc; LSR1rrrci; LSR1zri; LSR1zric; LSR1zrici; LSR1zrr; LSR1zrrc; LSR1zrrci;
  LSR1X_Srri; LSR1X_Srric; LSR1X_Srrici; LSR1X_Srrr; LSR1X_Srrrc; LSR1X_Srrrci; LSR1X_Urri; LSR1X_Urric; LSR1X_Urrici; LSR1X_Urrr;
  LSR1X_Urrrc; LSR1X_Urrrci; LSR1Xrri; LSR1Xrric; LSR1Xrrici; LSR1Xrrr; LSR1Xrrrc; LSR1Xrrrci; LSR1Xzri; LSR1Xzric; LSR1Xzrici; LSR1Xzrr;
  LSR1Xzrrc; LSR1Xzrrci; LSRrri; LSRrric; LSRrrici; LSRrrr; LSRrrrc; LSRrrrci; LSRzri; LSRzric; LSRzrici; LSRzrr; LSRzrrc; LSRzrrci;
  LSR_ADD_Srrri; LSR_ADD_Srrrici; LSR_ADD_Urrri; LSR_ADD_Urrrici; LSR_ADDrrri; LSR_ADDrrrici; LSR_ADDzrri; LSR_ADDzrrici; LSRX_Srri;
  LSRX_Srric; LSRX_Srrici; LSRX_Srrr; LSRX_Srrrc; LSRX_Srrrci; LSRX_Urri; LSRX_Urric; LSRX_Urrici; LSRX_Urrr; LSRX_Urrrc; LSRX_Urrrci;
  LSRXrri; LSRXrric; LSRXrrici; LSRXrrr; LSRXrrrc; LSRXrrrci; LSRXzri; LSRXzric; LSRXzrici; LSRXzrr; LSRXzrrc; LSRXzrrci; LW_Serri;
  LW_Srri; LW_Uerri; LW_Urri; LWerri; LWersi; LWrri; LWSrri; MOVDrr; MOVDrrci; MOVE_Sri; MOVE_Srici; MOVE_Srr; MOVE_Srrci; MOVE_Uri;
  MOVE_Urici; MOVE_Urr; MOVE_Urrci; MOVEri; MOVErici; MOVErr; MOVErrci; MUL_SH_SH_Srrr; MUL_SH_SH_Srrrc; MUL_SH_SH_Srrrci; MUL_SH_SHrrr;
  MUL_SH_SHrrrc; MUL_SH_SHrrrci; MUL_SH_SHzrr; MUL_SH_SHzrrc; MUL_SH_SHzrrci; MUL_SH_SL_Srrr; MUL_SH_SL_Srrrc; MUL_SH_SL_Srrrci;
  MUL_SH_SLrrr; MUL_SH_SLrrrc; MUL_SH_SLrrrci; MUL_SH_SLzrr; MUL_SH_SLzrrc; MUL_SH_SLzrrci; MUL_SH_UH_Srrr; MUL_SH_UH_Srrrc;
  MUL_SH_UH_Srrrci; MUL_SH_UHrrr; MUL_SH_UHrrrc; MUL_SH_UHrrrci; MUL_SH_UHzrr; MUL_SH_UHzrrc; MUL_SH_UHzrrci; MUL_SH_UL_Srrr;
  MUL_SH_UL_Srrrc; MUL_SH_UL_Srrrci; MUL_SH_ULrrr; MUL_SH_ULrrrc; MUL_SH_ULrrrci; MUL_SH_ULzrr; MUL_SH_ULzrrc; MUL_SH_ULzrrci;
  MUL_SL_SH_Srrr; MUL_SL_SH_Srrrc; MUL_SL_SH_Srrrci; MUL_SL_SHrrr; MUL_SL_SHrrrc; MUL_SL_SHrrrci; MUL_SL_SHzrr; MUL_SL_SHzrrc;
  MUL_SL_SHzrrci; MUL_SL_SL_Srrr; MUL_SL_SL_Srrrc; MUL_SL_SL_Srrrci; MUL_SL_SLrrr; MUL_SL_SLrrrc; MUL_SL_SLrrrci; MUL_SL_SLzrr;
  MUL_SL_SLzrrc; MUL_SL_SLzrrci; MUL_SL_UH_Srrr; MUL_SL_UH_Srrrc; MUL_SL_UH_Srrrci; MUL_SL_UHrrr; MUL_SL_UHrrrc; MUL_SL_UHrrrci;
  MUL_SL_UHzrr; MUL_SL_UHzrrc; MUL_SL_UHzrrci; MUL_SL_UL_Srrr; MUL_SL_UL_Srrrc; MUL_SL_UL_Srrrci; MUL_SL_ULrrr; MUL_SL_ULrrrc;
  MUL_SL_ULrrrci; MUL_SL_ULzrr; MUL_SL_ULzrrc; MUL_SL_ULzrrci; MUL_STEPrrri; MUL_STEPrrrici; MUL_UH_UH_Urrr; MUL_UH_UH_Urrrc;
  MUL_UH_UH_Urrrci; MUL_UH_UHrrr; MUL_UH_UHrrrc; MUL_UH_UHrrrci; MUL_UH_UHzrr; MUL_UH_UHzrrc; MUL_UH_UHzrrci; MUL_UH_UL_Urrr;
  MUL_UH_UL_Urrrc; MUL_UH_UL_Urrrci; MUL_UH_ULrrr; MUL_UH_ULrrrc; MUL_UH_ULrrrci; MUL_UH_ULzrr; MUL_UH_ULzrrc; MUL_UH_ULzrrci;
  MUL_UL_UH_Urrr; MUL_UL_UH_Urrrc; MUL_UL_UH_Urrrci; MUL_UL_UHrrr; MUL_UL_UHrrrc; MUL_UL_UHrrrci; MUL_UL_UHzrr; MUL_UL_UHzrrc;
  MUL_UL_UHzrrci; MUL_UL_UL_Urrr; MUL_UL_UL_Urrrc; MUL_UL_UL_Urrrci; MUL_UL_ULrrr; MUL_UL_ULrrrc; MUL_UL_ULrrrci; MUL_UL_ULzrr;
  MUL_UL_ULzrrc; MUL_UL_ULzrrci; NAND_Srric; NAND_Srrici; NAND_Srrif; NAND_Srrr; NAND_Srrrc; NAND_Srrrci; NAND_Urric; NAND_Urrici;
  NAND_Urrif; NAND_Urrr; NAND_Urrrc; NAND_Urrrci; NANDrri; NANDrric; NANDrrici; NANDrrif; NANDrrr; NANDrrrc; NANDrrrci; NANDzric;
  NANDzrici; NANDzrif; NANDzrr; NANDzrrc; NANDzrrci; NEGrr; NEGrrci; NOP; NOR_Srric; NOR_Srrici; NOR_Srrif; NOR_Srrr; NOR_Srrrc;
  NOR_Srrrci; NOR_Urric; NOR_Urrici; NOR_Urrif; NOR_Urrr; NOR_Urrrc; NOR_Urrrci; NORrri; NORrric; NORrrici; NORrrif; NORrrr; NORrrrc;
  NORrrrci; NORzric; NORzrici; NORzrif; NORzrr; NORzrrc; NORzrrci; NOTrci; NOTrr; NOTrrci; NXOR_Srric; NXOR_Srrici; NXOR_Srrif; NXOR_Srrr;
  NXOR_Srrrc; NXOR_Srrrci; NXOR_Urric; NXOR_Urrici; NXOR_Urrif; NXOR_Urrr; NXOR_Urrrc; NXOR_Urrrci; NXORrri; NXORrric; NXORrrici;
  NXORrrif; NXORrrr; NXORrrrc; NXORrrrci; NXORzric; NXORzrici; NXORzrif; NXORzrr; NXORzrrc; NXORzrrci; OR_Srri; OR_Srric; OR_Srrici;
  OR_Srrif; OR_Srrr; OR_Srrrc; OR_Srrrci; OR_Urri; OR_Urric; OR_Urrici; OR_Urrif; OR_Urrr; OR_Urrrc; OR_Urrrci; ORrri; ORrric; ORrrici;
  ORrrif; ORrrr; ORrrrc; ORrrrci; ORzri; ORzric; ORzrici; ORzrif; ORzrr; ORzrrc; ORzrrci; ORN_Srric; ORN_Srrici; ORN_Srrif; ORN_Srrr;
  ORN_Srrrc; ORN_Srrrci; ORN_Urric; ORN_Urrici; ORN_Urrif; ORN_Urrr; ORN_Urrrc; ORN_Urrrci; ORNrri; ORNrric; ORNrrici; ORNrrif; ORNrrr;
  ORNrrrc; ORNrrrci; ORNzric; ORNzrici; ORNzrif; ORNzrr; ORNzrrc; ORNzrrci; READ_RUNrici; RELEASErici; RESUMEri; RESUMErici; ROL_Srri;
  ROL_Srric; ROL_Srrici; ROL_Srrr; ROL_Srrrc; ROL_Srrrci; ROL_Urri; ROL_Urric; ROL_Urrici; ROL_Urrr; ROL_Urrrc; ROL_Urrrci; ROLrri;
  ROLrric; ROLrrici; ROLrrr; ROLrrrc; ROLrrrci; ROLzri; ROLzric; ROLzrici; ROLzrr; ROLzrrc; ROLzrrci; ROL_ADD_Srrri; ROL_ADD_Srrrici;
  ROL_ADD_Urrri; ROL_ADD_Urrrici; ROL_ADDrrri; ROL_ADDrrrici; ROL_ADDzrri; ROL_ADDzrrici; ROR_Srri; ROR_Srric; ROR_Srrici; ROR_Srrr;
  ROR_Srrrc; ROR_Srrrci; ROR_Urri; ROR_Urric; ROR_Urrici; ROR_Urrr; ROR_Urrrc; ROR_Urrrci; RORrri; RORrric; RORrrici; RORrrr; RORrrrc;
  RORrrrci; RORzri; RORzric; RORzrici; RORzrr; RORzrrc; RORzrrci; RSUB_Srrr; RSUB_Srrrc; RSUB_Srrrci; RSUB_Urrr; RSUB_Urrrc; RSUB_Urrrci;
  RSUBrrr; RSUBrrrc; RSUBrrrci; RSUBzrr; RSUBzrrc; RSUBzrrci; RSUBC_Srrr; RSUBC_Srrrc; RSUBC_Srrrci; RSUBC_Urrr; RSUBC_Urrrc;
  RSUBC_Urrrci; RSUBCrrr; RSUBCrrrc; RSUBCrrrci; RSUBCzrr; RSUBCzrrc; RSUBCzrrci; SATS_Srr; SATS_Srrc; SATS_Srrci; SATS_Urr; SATS_Urrc;
  SATS_Urrci; SATSrr; SATSrrc; SATSrrci; SATSzr; SATSzrc; SATSzrci; SBerii; SBerir; SBesii; SBesir; SBrii; SBrir; SB_IDerii; SB_IDri;
  SB_IDrii; SBSrii; SBSrir; SDerii; SDerir; SDesii; SDesir; SDrii; SDrir; SD_IDerii; SD_IDri; SD_IDrii; SDMArri; SDSrii; SDSrir; SHerii;
  SHerir; SHesii; SHesir; SHrii; SHrir; SH_IDerii; SH_IDri; SH_IDrii; SHSrii; SHSrir; STOP; STOPci; SUB_Srirc; SUB_Srirci; SUB_Srirf;
  SUB_Srric; SUB_Srrici; SUB_Srrif; SUB_Srrr; SUB_Srrrc; SUB_Srrrci; SUB_Urirc; SUB_Urirci; SUB_Urirf; SUB_Urric; SUB_Urrici; SUB_Urrif;
  SUB_Urrr; SUB_Urrrc; SUB_Urrrci; SUBrir; SUBrirc; SUBrirci; SUBrirf; SUBrric; SUBrrici; SUBrrif; SUBrrr; SUBrrrc; SUBrrrci; SUBssi;
  SUBsss; SUBzir; SUBzirc; SUBzirci; SUBzirf; SUBzric; SUBzrici; SUBzrif; SUBzrr; SUBzrrc; SUBzrrci; SUBC_Srirc; SUBC_Srirci; SUBC_Srirf;
  SUBC_Srric; SUBC_Srrici; SUBC_Srrif; SUBC_Srrr; SUBC_Srrrc; SUBC_Srrrci; SUBC_Urirc; SUBC_Urirci; SUBC_Urirf; SUBC_Urric; SUBC_Urrici;
  SUBC_Urrif; SUBC_Urrr; SUBC_Urrrc; SUBC_Urrrci; SUBCrir; SUBCrirc; SUBCrirci; SUBCrirf; SUBCrric; SUBCrrici; SUBCrrif; SUBCrrr;
  SUBCrrrc; SUBCrrrci; SUBCzir; SUBCzirc; SUBCzirci; SUBCzirf; SUBCzric; SUBCzrici; SUBCzrif; SUBCzrr; SUBCzrrc; SUBCzrrci; SUBSrri;
  SUBSrrr; SWerii; SWerir; SWesii; SWesir; SWrii; SWrir; SW_IDerii; SW_IDri; SW_IDrii; SWAPDrr; SWAPDrrci; SWSrii; SWSrir; TELLri;
  TIME_Sr; TIME_Srci; TIME_Ur; TIME_Urci; TIMEr; TIMErci; TIMEz; TIMEzci; TIME_CFG_Srr; TIME_CFG_Srrci; TIME_CFG_Urr; TIME_CFG_Urrci;
  TIME_CFGr; TIME_CFGrr; TIME_CFGrrci; TIME_CFGzr; TIME_CFGzrci; XOR_Srric; XOR_Srrici; XOR_Srrif; XOR_Srrr; XOR_Srrrc; XOR_Srrrci;
  XOR_Urric; XOR_Urrici; XOR_Urrif; XOR_Urrr; XOR_Urrrc; XOR_Urrrci; XORrri; XORrric; XORrrici; XORrrif; XORrrr; XORrrrc; XORrrrci;
  XORzri; XORzric; XORzrici; XORzrif; XORzrr; XORzrrc; XORzrrci].

(** * All macros are well formed *)

Lemma encodings_well_formed : forallb well_formed encodings = true.
Proof. by vm_compute. Qed.

Lemma encodings_plain : forallb (fun e => forallb (fun x => plain e x && (0 <? width e x) && (width e x <=? 64)) (arguments e)) encodings = true.
Proof. by vm_compute. Qed.

Lemma encoding_well_formed e : e ∈ encodings -> well_formed e = true.
Proof. intros He. pose proof encodings_well_formed as H. rewrite forallb_forall in H. by apply H, list_elem_of_In. Qed.

Lemma encoding_plain e x : e ∈ encodings -> x ∈ arguments e ->
  (kept e x = Z.ones (width e x) \/ x = dc /\ kept e x = 0x1e) /\ 0 < width e x <= 64.
Proof.
  intros He Hx. pose proof encodings_plain as H. rewrite forallb_forall in H. apply list_elem_of_In, H in He.
  rewrite forallb_forall in He. apply list_elem_of_In, He in Hx. apply andb_prop in Hx as [Hx H64]. apply andb_prop in Hx as [Hx H0].
  apply Z.ltb_lt in H0. apply Z.leb_le in H64. split; [| done]. unfold plain in Hx. apply orb_prop in Hx as [Hx | Hx]; [left; by apply Z.eqb_eq |].
  apply andb_prop in Hx as [Hd Hk]. right. split; [by apply bool_decide_eq_true in Hd | by apply Z.eqb_eq].
Qed.

(** The lowest bit of the first register of a pair is zero. *)
Definition pairs (e : encoding) (x : operand) : bool := kept e x =? 0x1e.

Lemma pair_read z : 0 <= z < 32 -> Z.even z = true -> Z.land (u64 z) 0x1e = z.
Proof.
  intros Hz He. rewrite wrap_small by lia.
  assert (Hall : forallb (fun k => negb (Z.even (Z.of_nat k)) || (Z.land (Z.of_nat k) 0x1e =? Z.of_nat k)) (seq 0 32) = true) by by vm_compute.
  rewrite forallb_forall in Hall. specialize (Hall (Z.to_nat z) ltac:(apply in_seq; lia)). rewrite Z2Nat.id, He in Hall by lia. by apply Z.eqb_eq.
Qed.

(** A closed proposition that is decided by evaluating it. *)
Ltac decide_it := apply (bool_decide_unpack _); vm_compute; exact I.

(** C36: whichever the macro, an argument is read back from the instruction when it
    fits the bits the macro has for it: an unsigned value, a signed one by its sign,
    an even register where only pairs can be named.  The other bits are those of
    the opcode, the instruction has 48 bits. *)
Theorem arguments_recovered e v x : e ∈ encodings -> x ∈ arguments e ->
  let n := width e x in let word := encode e v in
  0 <= word < 2 ^ 48 /\ Z.ldiff word (placed (fields e)) = opcode e
  /\ (0 <= v x < 2 ^ n -> (pairs e x = true -> Z.even (v x) = true) -> operand_of e x word = v x)
  /\ (pairs e x = false -> - 2 ^ (n - 1) <= v x < 2 ^ (n - 1) -> signed n (operand_of e x word) = v x).
Proof.
  intros He Hx n word. pose proof (encoding_well_formed e He) as Hw. destruct (encoding_plain e x He Hx) as [Hk Hn]. fold n in Hk, Hn.
  split; [by apply encode_range |]. split; [by apply opcode_read |]. unfold word. rewrite (operand_read e v x Hw). destruct Hk as [Hk | [_ Hk]].
  - rewrite (u64_land (v x) (kept e x) n) by (done || lia). split; intros; [by apply Z.mod_small | apply signed_read; lia].
  - unfold pairs. rewrite Hk. split; [| done]. intros Hv Hp. apply pair_read; [| by apply Hp].
    assert (En : n = 5) by (unfold n, width; rewrite Hk; reflexivity). rewrite En in Hv. exact Hv.
Qed.

Lemma arguments_recovered_witness :
  let v := values (arguments ADDSrri) [REG_R1; REG_ID; -300] in
  operand_of ADDSrri ra (encode ADDSrri v) = 28 /\ signed 17 (operand_of ADDSrri imm (encode ADDSrri v)) = -300
  /\ operand_of LW_Urri dc (encode LW_Urri (values (arguments LW_Urri) [REG_D10; REG_ZERO; 16])) = 10.
Proof.
  intros v. assert (H1 : ADDSrri ∈ encodings) by decide_it.
  assert (H2 : LW_Urri ∈ encodings) by decide_it.
  destruct (arguments_recovered ADDSrri v ra H1 ltac:(decide_it)) as (_ & _ & Hra & _).
  destruct (arguments_recovered ADDSrri v imm H1 ltac:(decide_it)) as (_ & _ & _ & Himm).
  destruct (arguments_recovered LW_Urri (values (arguments LW_Urri) [REG_D10; REG_ZERO; 16]) dc H2 ltac:(decide_it)) as (_ & _ & Hdc & _).
  split; [| split].
  - apply Hra; [vm_compute; split; congruence | reflexivity].
  - apply Himm; [reflexivity | vm_compute; split; congruence].
  - apply Hdc; [vm_compute; split; congruence | reflexivity].
Defined.

(** * Conditions *)

(** The condition that holds when the other does not. *)
Definition opposites : list (condition * condition) :=
  [(cc_Z, cc_NZ); (cc_XZ, cc_XNZ); (cc_SZ, cc_SNZ); (cc_EQ, cc_NEQ); (cc_MI, cc_PL); (cc_SMI, cc_SPL); (cc_OV, cc_NOV); (cc_C, cc_NC);
   (cc_GES, cc_LTS); (cc_GEU, cc_LTU); (cc_GTS, cc_LES); (cc_GTU, cc_LEU); (cc_XGTS, cc_XLES); (cc_XGTU, cc_XLEU); (cc_E, cc_O);
   (cc_SE, cc_SO); (cc_SMALL, cc_LARGE); (cc_SH32, cc_NSH32); (cc_MAX, cc_NMAX); (cc_TRUE, cc_FALSE)].

Definition groups_of_conditions : list (condition -> option Z) :=
  [ACQUIRE_CC; ADD_NZ_CC; BOOT_CC; CONST_CC_GE0; CONST_CC_GEU; CONST_CC_ZERO; COUNT_NZ_CC; DIV_CC; DIV_NZ_CC; EXT_SUB_SET_CC; FALSE_CC;
   IMM_SHIFT_NZ_CC; LOG_NZ_CC; LOG_SET_CC; MUL_NZ_CC; NO_CC; RELEASE_CC; SHIFT_NZ_CC; SUB_NZ_CC; SUB_SET_CC; TRUE_CC; TRUE_FALSE_CC].

(** For every group of instructions that has a condition and its opposite, their
    codes differ by the lowest bit. *)
Theorem opposite_conditions group c c' x x' : group ∈ groups_of_conditions -> (c, c') ∈ opposites ->
  group c = Some x -> group c' = Some x' -> x' = Z.lxor x 1.
Proof.
  intros Hg Hc E E'. assert (H : forallb (fun g : condition -> option Z => forallb (fun p : condition * condition =>
    match g p.1, g p.2 with Some x, Some x' => x' =? Z.lxor x 1 | _, _ => true end) opposites) groups_of_conditions = true) by by vm_compute.
  rewrite forallb_forall in H. apply list_elem_of_In, H in Hg. rewrite forallb_forall in Hg. apply list_elem_of_In, Hg in Hc. cbn [fst snd] in Hc.
  rewrite E, E' in Hc. by apply Z.eqb_eq.
Qed.

Lemma opposite_conditions_witness : EXT_SUB_SET_CC cc_GTU = Some 59 /\ 58 = Z.lxor 59 1.
Proof.
  split; [reflexivity |]. apply (opposite_conditions EXT_SUB_SET_CC cc_GTU cc_LEU 59 58); [| | reflexivity | reflexivity].
  - unfold groups_of_conditions. do 9 apply list_elem_of_further. apply list_elem_of_here.
  - unfold opposites. do 11 apply list_elem_of_further. apply list_elem_of_here.
Defined.

(** * Instructions inside of commands *)

(** The instructions inside the commands of the control interfaces are those of
    the encoder, for threads that are always started and words of the working
    memory from its first one; the thread and the address are read back from them. *)
Theorem command_instructions t a :
  BOOT_instruction t = call BOOTrici [REG_ZERO; t; 0; 0] /\ RESUME_instruction t = call RESUMErici [REG_ZERO; t; 0; 0]
  /\ CLR_RUN_instruction t = call CLR_RUNrici [REG_ZERO; t; 0; 0] /\ READ_RUN_instruction t = call READ_RUNrici [REG_ZERO; t; 0; 0]
  /\ SW_instruction a = call SWerir [0; REG_ZERO; Z.shiftl a 2; REG_R0] /\ LW_instruction a = call LWerri [0; REG_R0; REG_ZERO; Z.shiftl a 2]
  /\ STOP_instruction = call STOPci [0; 0] /\ NOP_instruction = call NOP [].
Proof. split_and!; reflexivity. Qed.
