(* ===== verification/Debug.v ===== *)
(** A debugger on a DPU (library/src/backends/ufi/src/ufi_debug.c, its entry points
    in api/src/dpu_debug.c, drain_pipeline and the patch of the dump programs in
    api/src/dpu_internals.c): a DPU is stopped and its threads taken out of the
    pipeline, its faults identified, its registers read and written by programs it
    runs, a thread made to take a step, the threads set going again; the state of the
    interfaces is saved and restored around it.

    [poll_fuel] bounds the waits for the DPU, which have no limit; running out is
    Undefined.  The programs are read from files and are arguments, like the arrays
    that are not initialised and the variable of the program that remembers faults.
    The lock of the rank, logging and the kinds of events are left out, allocations
    succeed.  The context is never null.  Theorems are in DebugFacts.v. *)
From stdpp Require Import list.
From S2P Require Import Prelude Errors Mask Status CiCommands Ci BitConfig Ufi Mux MramXfer RankConfig Encoder Encodings.
From S2P Require Checkpoint.

Local Abbreviation dpu_context_t := Checkpoint.dpu_context_t.

(** * State *)

(** What a debugger keeps of the interfaces it takes over. *)
Record dpu_debug_context_t := {
  debug_color : Z;
  debug_result : list Z;
  debug_slice_info : list slice_info;
  is_rank_for_debugger : bool }.

Record session {W : Type} := { machine : rank_state W; context : dpu_context_t; debug : dpu_debug_context_t }.
Arguments session : clear implicits.

Section state.
Context {W : Type}.
Implicit Types s : session W.

Definition with_machine (x : rank_state W) s : session W := {| machine := x; context := context s; debug := debug s |}.
Definition with_context (x : dpu_context_t) s : session W := {| machine := machine s; context := x; debug := debug s |}.
Definition with_debug (x : dpu_debug_context_t) s : session W := {| machine := machine s; context := context s; debug := x |}.

Definition on_machine {A} (m : cmd (rank_state W) A) : cmd (session W) A := fun s => let '(r, a) := m (machine s) in (with_machine r s, a).
End state.

Section fields.
Import Checkpoint.
Implicit Types c : dpu_context_t.

(** The fields about the threads, the faults and the registers. *)
Definition with_threads (pcs' scheduling' : list Z) (nr : Z) c : dpu_context_t :=
  {| nr_threads := nr_threads c; nr_registers := nr_registers c; nr_atomic_bits := nr_atomic_bits c; iram_size := iram_size c;
     mram_size := mram_size c; wram_size := wram_size c; iram := iram c; mram := mram c; wram := wram c; registers := registers c;
     pcs := pcs'; atomic_register := atomic_register c; zero_flags := zero_flags c; carry_flags := carry_flags c;
     nr_of_running_threads := nr; scheduling := scheduling'; bkp_fault := bkp_fault c; dma_fault := dma_fault c; mem_fault := mem_fault c;
     bkp_fault_thread_index := bkp_fault_thread_index c; dma_fault_thread_index := dma_fault_thread_index c;
     mem_fault_thread_index := mem_fault_thread_index c; bkp_fault_id := bkp_fault_id c |}.

(** A fault: whether there is one, and its thread. *)
Definition with_faults (bkp dma mem : bool * Z) (id : Z) c : dpu_context_t :=
  {| nr_threads := nr_threads c; nr_registers := nr_registers c; nr_atomic_bits := nr_atomic_bits c; iram_size := iram_size c;
     mram_size := mram_size c; wram_size := wram_size c; iram := iram c; mram := mram c; wram := wram c; registers := registers c;
     pcs := pcs c; atomic_register := atomic_register c; zero_flags := zero_flags c; carry_flags := carry_flags c;
     nr_of_running_threads := nr_of_running_threads c; scheduling := scheduling c; bkp_fault := bkp.1; dma_fault := dma.1; mem_fault := mem.1;
     bkp_fault_thread_index := bkp.2; dma_fault_thread_index := dma.2; mem_fault_thread_index := mem.2; bkp_fault_id := id |}.

Definition with_registers (registers' : list Z) (atomic_register' zero_flags' carry_flags' : list bool) c : dpu_context_t :=
  {| nr_threads := nr_threads c; nr_registers := nr_registers c; nr_atomic_bits := nr_atomic_bits c; iram_size := iram_size c;
     mram_size := mram_size c; wram_size := wram_size c; iram := iram c; mram := mram c; wram := wram c; registers := registers';
     pcs := pcs c; atomic_register := atomic_register'; zero_flags := zero_flags'; carry_flags := carry_flags';
     nr_of_running_threads := nr_of_running_threads c; scheduling := scheduling c; bkp_fault := bkp_fault c; dma_fault := dma_fault c;
     mem_fault := mem_fault c; bkp_fault_thread_index := bkp_fault_thread_index c; dma_fault_thread_index := dma_fault_thread_index c;
     mem_fault_thread_index := mem_fault_thread_index c; bkp_fault_id := bkp_fault_id c |}.

Definition bkp c : bool * Z := (bkp_fault c, bkp_fault_thread_index c).
Definition dma c : bool * Z := (dma_fault c, dma_fault_thread_index c).
Definition mem c : bool * Z := (mem_fault c, mem_fault_thread_index c).

Definition set_bkp (x : bool * Z) c := with_faults x (dma c) (mem c) (bkp_fault_id c) c.
Definition set_bkp_id (id : Z) c := with_faults (bkp c) (dma c) (mem c) id c.
Definition set_dma (x : bool * Z) c := with_faults (bkp c) x (mem c) (bkp_fault_id c) c.
Definition set_mem (x : bool * Z) c := with_faults (bkp c) (dma c) x (bkp_fault_id c) c.
Definition set_pcs (l : list Z) c := with_threads l (scheduling c) (nr_of_running_threads c) c.
End fields.

(** [l[i] = x] for each of them, in order: undefined outside of the array. *)
Fixpoint put_all {A} (l : list A) (writes : list (nat * A)) : option (list A) :=
  match writes with
  | [] => Some l
  | (i, x) :: writes => if (i <? length l)%nat then put_all (<[i := x]> l) writes else None
  end.

(** * The variable that remembers faults *)

Definition ERROR_STORAGE_GUARD : Z := 0xFEFEB.

(** The bit fields, from the least significant. *)
Definition encode_error_storage (dma_fault : bool) (dma_fault_thread_id : Z) (mem_fault : bool) (mem_fault_thread_id : Z) : Z :=
  Z.lor (Z.lor (Z.lor (Z.lor (Z.b2z dma_fault) (Z.shiftl (Z.land dma_fault_thread_id 0x1f) 1)) (Z.shiftl (Z.b2z mem_fault) 6))
    (Z.shiftl (Z.land mem_fault_thread_id 0x1f) 7)) (Z.shiftl ERROR_STORAGE_GUARD 12).

(** The faults of the two kinds, if some were stored. *)
Definition decode_error_storage (storage : Z) : option ((bool * Z) * (bool * Z)) :=
  if negb (Z.shiftr storage 12 =? ERROR_STORAGE_GUARD) then None
  else Some ((Z.testbit storage 0, Z.land (Z.shiftr storage 1) 0x1f), (Z.testbit storage 6, Z.land (Z.shiftr storage 7) 0x1f)).

(** The address of the variable: that of the program when one is loaded, which may
    not have it; else the one that is given. *)
Definition get_error_store_symbol (program : option (option Z)) (error_store_addr : Z) : option Z :=
  match program with
  | Some symbol => symbol
  | None => if error_store_addr =? 0 then None else Some error_store_addr
  end.

(** * Instructions *)

Definition DPU_FAULT_UNKNOWN_ID : Z := 0xffffff.

(** The immediate of a FAULT, bit by bit from where the macro puts it. *)
Definition fault_id (instruction : Z) : Z :=
  let fault_instruction_mask := call FAULTi [0] in
  if negb (Z.land instruction fault_instruction_mask =? fault_instruction_mask) then DPU_FAULT_UNKNOWN_ID
  else
    fold_left (fun immediate each_bit =>
      let bit_mask := Z.shiftl 1 (Z.of_nat each_bit) in
      let bit_location := Z.lxor (call FAULTi [bit_mask]) fault_instruction_mask in
      if Z.land instruction bit_location =? 0 then immediate else Z.lor immediate bit_mask) (seq 0 32) 0.

Definition DPU_NR_THREADS : nat := 24.
Definition DPU_NR_WORK_REGS : nat := 24.
Definition DPU_NR_ATOMIC_BITS : nat := 256.

(** The four places of a thread where a dump program takes its program counter back. *)
Definition set_pc_in_core_dump_or_restore_registers (thread : nat) (pc : Z) (program : list Z) : option (list Z) :=
  let upper_index := u32 (Z.of_nat (length program) - 12 * (Z.of_nat DPU_NR_THREADS - Z.of_nat thread - 1)) in
  fold_left (fun o k => program ← o; x ← load program (u32 (upper_index - k)); store program (u32 (upper_index - k)) (Z.lor x pc)) [1; 4; 7; 10] (Some program).

(** * Registers in the working memory *)

Definition ATOMIC_REG_SIZE_IN_WORDS : nat := (DPU_NR_ATOMIC_BITS / 4)%nat.
Definition WORK_REGS_SIZE_IN_WORDS : nat := (DPU_NR_THREADS * DPU_NR_WORK_REGS)%nat.
Definition FLAGS_SIZE_IN_WORDS : nat := (DPU_NR_THREADS * 1)%nat.
Definition context_size_in_words : nat := (ATOMIC_REG_SIZE_IN_WORDS + WORK_REGS_SIZE_IN_WORDS + FLAGS_SIZE_IN_WORDS)%nat.

Definition regs_offset : nat := ATOMIC_REG_SIZE_IN_WORDS.
Definition flags_offset : nat := (ATOMIC_REG_SIZE_IN_WORDS + WORK_REGS_SIZE_IN_WORDS)%nat.

Section layout.
Variables nr_of_atomic_bits nr_of_threads nr_of_work_registers : nat.

(** The registers of each thread by pairs: where a register is in the context, and
    in the working memory, where the odd one of a pair comes first. *)
Definition register_slots : list (nat * nat) :=
  flat_map (fun each_thread =>
    flat_map (fun each_pair =>
      let each_register_index := (2 * each_pair)%nat in
      let even_register_index := (each_thread * nr_of_work_registers + each_register_index)%nat in
      let odd_register_context_index := (regs_offset + each_register_index * DPU_NR_THREADS + 2 * each_thread)%nat in
      [(even_register_index, S odd_register_context_index); (S even_register_index, odd_register_context_index)])
      (seq 0 ((nr_of_work_registers + 1) / 2)))
    (seq 0 nr_of_threads).

(** The byte of an atomic bit. *)
Definition atomic_byte (raw_context : list Z) (each_atomic_bit : nat) : option Z :=
  w ← raw_context !! (each_atomic_bit / 4)%nat; Some (byte_of (Z.of_nat (each_atomic_bit mod 4)) w).

Definition set_atomic_byte (raw_context : list Z) (each_atomic_bit : nat) (b : bool) : option (list Z) :=
  w ← raw_context !! (each_atomic_bit / 4)%nat;
  Some (<[(each_atomic_bit / 4)%nat := set_byte (Z.of_nat (each_atomic_bit mod 4)) (if b then 0xff else 0) w]> raw_context).

(** From the working memory into the context. *)
Definition extract_registers (raw_context : list Z) (c : dpu_context_t) : option dpu_context_t :=
  atomic ← mapM (fun i => b ← atomic_byte raw_context i; Some (i, negb (b =? 0))) (seq 0 nr_of_atomic_bits);
  atomic_register ← put_all (Checkpoint.atomic_register c) atomic;
  values ← mapM (fun slot : nat * nat => v ← raw_context !! slot.2; Some (slot.1, v)) register_slots;
  registers ← put_all (Checkpoint.registers c) values;
  flags ← mapM (fun t => v ← raw_context !! (flags_offset + t)%nat; Some (t, v)) (seq 0 nr_of_threads);
  carry_flags ← put_all (Checkpoint.carry_flags c) (map (fun p : nat * Z => (p.1, Z.testbit p.2 0)) flags);
  zero_flags ← put_all (Checkpoint.zero_flags c) (map (fun p : nat * Z => (p.1, Z.testbit p.2 1)) flags);
  Some (with_registers registers atomic_register zero_flags carry_flags c).

(** From the context into the working memory. *)
Definition format_registers (c : dpu_context_t) (raw_context : list Z) : option (list Z) :=
  raw_context ← fold_left (fun o i => raw_context ← o; b ← Checkpoint.atomic_register c !! i; set_atomic_byte raw_context i b)
                  (seq 0 nr_of_atomic_bits) (Some raw_context);
  values ← mapM (fun slot : nat * nat => v ← Checkpoint.registers c !! slot.1; Some (slot.2, v)) register_slots;
  raw_context ← put_all raw_context values;
  flags ← mapM (fun t => carry ← Checkpoint.carry_flags c !! t; zero ← Checkpoint.zero_flags c !! t;
                         Some ((flags_offset + t)%nat, (if carry : bool then 1 else 0) + (if zero : bool then 2 else 0)))
            (seq 0 nr_of_threads);
  put_all raw_context flags.
End layout.

(** * Operations *)

Definition DPU_COMMAND_DPU_SOFT_RESET : Z := 0.
Definition DPU_COMMAND_EVENT_START : Z := 10.
Definition DPU_COMMAND_EVENT_END : Z := 11.

(** What the description of the rank says of a DPU. *)
Record dpu_hw := { nr_of_threads : nat; nr_of_atomic_bits : nat; nr_of_work_registers_per_thread : nat; iram_size : Z }.

Section debugger.
Context {W : Type} `{driver W, customiser W}.
Variable desc : hw_description.
Variable conf : configuration.
Variable hw : dpu_hw.
Variable junk : list Z.
Variable poll_fuel : nat.
(** The DPU. *)
Variables slice_id member_id : nat.
Local Abbreviation op := (cmd (session W)).

Definition ci {A} (m : cmd (Ci.ci W) A) : op A := on_machine (on_ci m).

(** The bit of the DPU in the result of its interface. *)
Definition mask_one_of (results : list Z) : bool := dpu_mask_is_selected (word_at results slice_id) (Z.of_nat member_id).

Definition select_dpu : op Z := ci (ufi_select_dpu desc (CI_MASK_ONE slice_id) (Z.of_nat member_id)).

Definition if_enabled {A} (m : op A) : op A :=
  enabled ← on_machine (get_dpu_enabled slice_id member_id);
  if negb (enabled : bool) then error DPU_ERR_DPU_DISABLED else m.

Definition dpu_custom_for_dpu (command : Z) : op () :=
  if_enabled (ci (fun s => let '(w, ok) := custom_operation (Ci.hw s) command (Some (slice_id, Z.of_nat member_id)) in
    (with_hw w (sent s) s, if ok : bool then Return tt else Failed (error_code DPU_ERR_DRIVER)))).

Definition dpu_thread_boot_safe_for_dpu (thread : nat) (resume : bool) : op () :=
  _ ← on_machine (on_rank (ci_start_thread_dpu desc conf junk slice_id (Z.of_nat member_id) (Z.of_nat thread) resume None)); mret tt.

(** [size] is not zero. *)
Definition verify_iram_access (o size : Z) : op () :=
  if (iram_size hw <=? o) || (iram_size hw <? o + size) then error DPU_ERR_INVALID_IRAM_ACCESS else mret tt.

Definition dpu_copy_from_iram_for_dpu (pc : Z) : op Z :=
  if_enabled (
    _ ← verify_iram_access pc 1;
    instruction ← on_machine (on_rank (ci_copy_from_irams_dpu desc junk slice_id (Z.of_nat member_id) [0] pc 1));
    defined (instruction !! 0%nat)).

Definition iram_read (mask : Z) (count : nat) : op (list Z) :=
  dst ← ci (ufi_iram_read desc junk mask (only slice_id (replicate count 0)) 0 (Z.of_nat count)); defined (dst !! slice_id).
Definition iram_write (mask : Z) (program : list Z) : op () :=
  ci (ufi_iram_write desc mask (only slice_id program) 0 (Z.of_nat (length program))).
Definition wram_read (mask : Z) (count : nat) : op (list Z) :=
  dst ← ci (ufi_wram_read desc junk mask (only slice_id (replicate count 0)) 0 (Z.of_nat count)); defined (dst !! slice_id).
Definition wram_write (mask : Z) (words : list Z) : op () :=
  ci (ufi_wram_write desc mask (only slice_id words) 0 (Z.of_nat (length words))).

(** Till a turn says that the DPU does not run. *)
Fixpoint wait_while (poll_fuel : nat) (turn : op bool) : op () :=
  match poll_fuel with
  | O => undefined
  | S poll_fuel => runs ← turn; if runs : bool then wait_while poll_fuel turn else mret tt
  end.

Definition dpu_runs (mask : Z) : op bool := result ← ci (ufi_read_dpu_run desc mask junk); mret (mask_one_of result).

(** ** The pipeline *)

(** The bits of the threads in the RUN register. *)
Definition read_run_register (mask : Z) : op (list bool) :=
  accumulate (seq 0 (nr_of_threads hw)) (fun run_register each_thread =>
    result ← ci (ufi_read_run_bit desc mask (Z.of_nat each_thread) junk); mret (run_register ++ [mask_one_of result])) [].

(** A thread that left the pipeline: its program counter, its rank in the schedule. *)
Definition note_thread (should_add_to_schedule : bool) (pc : Z) (each_thread : nat) : op () :=
  c ← read context;
  pcs ← defined (put_all (Checkpoint.pcs c) [(each_thread, pc)]);
  scheduling ← defined (if should_add_to_schedule then put_all (Checkpoint.scheduling c) [(each_thread, Checkpoint.nr_of_running_threads c)]
                        else Some (Checkpoint.scheduling c));
  let nr := if should_add_to_schedule then u8 (Checkpoint.nr_of_running_threads c + 1) else Checkpoint.nr_of_running_threads c in
  update (with_context (with_threads pcs scheduling nr c)).

(** A turn: the threads that ran before it, then whether one still does. *)
Definition drain_turn (mask : Z) (should_add_to_schedule : bool) (previous_run_register : list bool) : op (list bool * bool) :=
  _ ← ci (ufi_debug_replace_stop desc mask);
  _ ← ci (ufi_set_dpu_fault_and_step desc mask);
  pc_results ← ci (ufi_debug_pc_read desc (iram_size hw) junk junk mask junk);
  run_register ← read_run_register mask;
  _ ← for_each (seq 0 (nr_of_threads hw)) (fun each_thread =>
        if negb (nth each_thread run_register false) && nth each_thread previous_run_register false
        then note_thread should_add_to_schedule (word_at pc_results slice_id) each_thread else mret tt);
  mret (zip_with andb previous_run_register run_register, existsb id run_register).

Fixpoint drain_turns (poll_fuel : nat) (mask : Z) (should_add_to_schedule : bool) (previous_run_register : list bool) : op () :=
  match poll_fuel with
  | O => undefined
  | S poll_fuel =>
    r ← drain_turn mask should_add_to_schedule previous_run_register;
    if r.2 : bool then drain_turns poll_fuel mask should_add_to_schedule r.1 else mret tt
  end.

Definition drain_pipeline (should_add_to_schedule : bool) : op () :=
  mask ← select_dpu;
  previous_run_register ← read_run_register mask;
  if existsb id previous_run_register then
    _ ← drain_turns poll_fuel mask should_add_to_schedule previous_run_register;
    ci (ufi_clear_debug_replace desc mask)
  else mret tt.

(** ** Faults *)

Definition previous_pc (pc : Z) : Z := if pc =? 0 then u16 (iram_size hw - 1) else pc - 1.

Definition extract_bkp_fault_id (pc : Z) : op () :=
  instruction ← dpu_copy_from_iram_for_dpu pc;
  update (fun s => with_context (set_bkp_id (fault_id instruction) (context s)) s).

(** The program counter of a thread goes back by one: it runs a STOP that jumps. *)
Definition decrement_thread_pc (thread : nat) : op () :=
  _ ← dpu_custom_for_dpu DPU_COMMAND_EVENT_START;
  c ← read context;
  pc ← defined (Checkpoint.pcs c !! thread);
  let pc := previous_pc pc in
  _ ← update (fun s => with_context (set_pcs (<[thread := pc]> (Checkpoint.pcs (context s))) (context s)) s);
  true_cc ← defined (BOOT_CC cc_TRUE);
  mask ← select_dpu;
  instruction ← iram_read mask 1;
  _ ← iram_write mask [call STOPci [true_cc; pc]];
  _ ← dpu_thread_boot_safe_for_dpu thread false;
  _ ← wait_while poll_fuel (dpu_runs mask);
  _ ← iram_write mask instruction;
  dpu_custom_for_dpu DPU_COMMAND_EVENT_END.

(** A fault is 0 or 1, and its bit at the place of the DPU is looked at. *)
Definition fault_of (results : option (list Z)) : Z := Z.b2z (mask_one_of (default junk results)).
Definition fault_seen (fault : Z) : bool := negb (Z.land fault (dpu_mask_one (Z.of_nat member_id)) =? 0).

(** The threads that do not run are set going under a fault, to be taken out again. *)
Definition resume_stopped_threads (mask : Z) : op () :=
  _ ← ci (ufi_clear_fault_dpu desc mask);
  _ ← ci (ufi_set_dpu_fault_and_step desc mask);
  _ ← for_each (seq 0 (nr_of_threads hw)) (fun each_thread =>
        c ← read context;
        position ← defined (Checkpoint.scheduling c !! each_thread);
        if position =? 0xff then dpu_thread_boot_safe_for_dpu each_thread true else mret tt);
  _ ← ci (ufi_read_bkp_fault desc mask None);
  drain_pipeline false.

Definition note_bkp_fault (thread : Z) : op () :=
  _ ← update (fun s => with_context (set_bkp (true, thread) (context s)) s);
  c ← read context;
  current_pc ← defined (Checkpoint.pcs c !! Z.to_nat thread);
  _ ← extract_bkp_fault_id (previous_pc current_pc);
  c ← read context;
  if Checkpoint.bkp_fault_id c =? DPU_FAULT_UNKNOWN_ID then update (fun s => with_context (set_bkp (false, thread) (context s)) s)
  else decrement_thread_pc (Z.to_nat thread).

(** The faults remembered from before, which are remembered again. *)
Definition recall_faults (address : Z) (dma_seen mem_seen : bool) : op () :=
  let word := Z.div address 4 in
  storage ← on_machine (on_rank (ci_copy_from_wrams_dpu desc junk slice_id (Z.of_nat member_id) [0] word 1));
  storage ← defined (storage !! 0%nat);
  _ ← match decode_error_storage storage with
      | None => mret tt
      | Some ((dma_f, dma_thread), (mem_f, mem_thread)) =>
        update (fun s =>
          let c := context s in
          let c := set_dma ((dma c).1 || dma_f, if dma_seen then (dma c).2 else dma_thread) c in
          with_context (set_mem ((mem c).1 || mem_f, if mem_seen then (mem c).2 else mem_thread) c) s)
      end;
  if dma_seen || mem_seen then
    c ← read context;
    on_machine (on_rank (ci_copy_to_wrams_dpu desc slice_id (Z.of_nat member_id) word
      [encode_error_storage (dma c).1 (dma c).2 (mem c).1 (dma c).2] 1))
  else mret tt.

Definition ci_debug_init_dpu (program : option (option Z)) (error_store_addr : Z) : op () :=
  mask ← select_dpu;
  result_array ← ci (ufi_read_bkp_fault_thread_index desc mask junk);
  let bkp_fault_thread_index := word_at result_array slice_id in
  result_array ← ci (ufi_read_bkp_fault desc mask (Some result_array));
  let bkp_fault := fault_of result_array in
  _ ← ci (ufi_set_bkp_fault desc mask);
  _ ← drain_pipeline true;
  c ← read context;
  _ ← (if Checkpoint.nr_of_running_threads c =? Z.of_nat (nr_of_threads hw) then mret tt else resume_stopped_threads mask);
  result_array ← ci (ufi_read_dma_fault_thread_index desc mask junk);
  let dma_fault_thread_index := word_at result_array slice_id in
  result_array ← ci (ufi_read_mem_fault_thread_index desc mask junk);
  let mem_fault_thread_index := word_at result_array slice_id in
  _ ← ci (ufi_clear_fault_bkp desc mask);
  result_array ← ci (ufi_read_and_clear_dma_fault desc mask (Some junk));
  let dma_fault := fault_of result_array in
  result_array ← ci (ufi_read_and_clear_mem_fault desc mask (Some junk));
  let mem_fault := fault_of result_array in
  _ ← ci (ufi_clear_fault_dpu desc mask);
  _ ← (if fault_seen bkp_fault then note_bkp_fault bkp_fault_thread_index else mret tt);
  _ ← (if fault_seen dma_fault then
         _ ← update (fun s => with_context (set_dma (true, dma_fault_thread_index) (context s)) s);
         decrement_thread_pc (Z.to_nat dma_fault_thread_index)
       else mret tt);
  _ ← (if fault_seen mem_fault then
         _ ← update (fun s => with_context (set_mem (true, mem_fault_thread_index) (context s)) s);
         decrement_thread_pc (Z.to_nat mem_fault_thread_index)
       else mret tt);
  match get_error_store_symbol program error_store_addr with
  | Some address => recall_faults address (fault_seen dma_fault) (fault_seen mem_fault)
  | None => mret tt
  end.

(** ** Leaving, steps *)

(** The threads that run, in the order of the schedule. *)
Definition scheduling_order (c : dpu_context_t) : op (list nat) :=
  positions ← defined (mapM (fun t => p ← Checkpoint.scheduling c !! t; Some (Z.to_nat p, t)) (seq 0 (nr_of_threads hw)));
  defined (put_all (replicate (nr_of_threads hw) 0%nat) (List.filter (fun p : nat * nat => negb (p.1 =? 0xff)%nat) positions)).

Definition running_threads (c : dpu_context_t) : op (list nat) :=
  order ← scheduling_order c;
  let n := Z.to_nat (Checkpoint.nr_of_running_threads c) in
  if (n <=? length order)%nat then mret (take n order) else undefined.

Definition ci_debug_teardown_dpu : op () :=
  c ← read context;
  mask ← select_dpu;
  _ ← ci (ufi_set_dpu_fault_and_step desc mask);
  _ ← ci (ufi_set_bkp_fault desc mask);
  threads ← running_threads c;
  _ ← for_each threads (fun each_thread => dpu_thread_boot_safe_for_dpu each_thread true);
  _ ← ci (ufi_read_bkp_fault desc mask None);
  _ ← ci (ufi_clear_fault_bkp desc mask);
  if (Checkpoint.bkp_fault c && negb (Checkpoint.bkp_fault_id c =? 0)) || Checkpoint.mem_fault c || Checkpoint.dma_fault c then mret tt
  else ci (ufi_clear_fault_dpu desc mask).

(** The thread, then the others in their order. *)
Definition resume_for_step (thread : nat) (c : dpu_context_t) : op () :=
  _ ← dpu_thread_boot_safe_for_dpu thread true;
  threads ← running_threads c;
  for_each threads (fun thread_to_be_resumed =>
    if (thread_to_be_resumed =? thread)%nat then mret tt else dpu_thread_boot_safe_for_dpu thread_to_be_resumed true).

Definition step_runs (mask : Z) : op bool :=
  result_array ← ci (ufi_read_dpu_run desc mask junk);
  let step_run_state := result_array in
  result_array ← ci (ufi_read_dpu_fault desc mask result_array);
  mret (mask_one_of step_run_state && negb (mask_one_of result_array)).

Definition no_thread_runs (s : session W) : session W :=
  let c := context s in
  with_context (with_threads (Checkpoint.pcs c) (replicate (nr_of_threads hw) 0xff ++ drop (nr_of_threads hw) (Checkpoint.scheduling c)) 0 c) s.

Definition ci_debug_step_dpu (thread : nat) : op () :=
  c ← read context;
  mask ← select_dpu;
  _ ← ci (ufi_set_dpu_fault_and_step desc mask);
  _ ← ci (ufi_set_poison_fault desc mask);
  _ ← resume_for_step thread c;
  _ ← ci (ufi_read_bkp_fault desc mask None);
  _ ← ci (ufi_clear_fault_bkp desc mask);
  _ ← ci (ufi_clear_fault_dpu desc mask);
  _ ← wait_while poll_fuel (step_runs mask);
  poison_fault ← ci (ufi_read_poison_fault desc mask junk);
  _ ← ci (ufi_clear_fault_poison desc mask);
  _ ← ci (ufi_read_bkp_fault desc mask None);
  _ ← ci (ufi_clear_fault_bkp desc mask);
  dma_fault ← ci (ufi_read_and_clear_dma_fault desc mask (Some junk));
  mem_fault ← ci (ufi_read_and_clear_mem_fault desc mask (Some junk));
  let nr_of_waiting_threads := u32 (Checkpoint.nr_of_running_threads c - 1) in
  _ ← (if (length (Checkpoint.scheduling c) <? nr_of_threads hw)%nat then undefined else update no_thread_runs);
  _ ← drain_pipeline true;
  _ ← ci (ufi_clear_fault_dpu desc mask);
  c ← read context;
  if negb (u32 (Checkpoint.nr_of_running_threads c - nr_of_waiting_threads) =? 1) then mret tt
  else
    _ ← (if mask_one_of poison_fault then mret tt
         else
           _ ← update (fun s => with_context (set_bkp (true, Z.of_nat thread) (context s)) s);
           _ ← decrement_thread_pc thread;
           c ← read context;
           pc ← defined (Checkpoint.pcs c !! thread);
           extract_bkp_fault_id pc);
    _ ← (if mask_one_of (default junk dma_fault) then
           _ ← update (fun s => with_context (set_dma (true, Z.of_nat thread) (context s)) s); decrement_thread_pc thread
         else mret tt);
    if mask_one_of (default junk mem_fault) then
      _ ← update (fun s => with_context (set_mem (true, Z.of_nat thread) (context s)) s); decrement_thread_pc thread
    else mret tt.

Definition ci_debug_read_pcs_dpu : op () :=
  mask ← select_dpu;
  _ ← ci (ufi_set_dpu_fault_and_step desc mask);
  _ ← ci (ufi_set_bkp_fault desc mask);
  _ ← for_each (seq 0 (nr_of_threads hw)) (fun each_thread => dpu_thread_boot_safe_for_dpu each_thread true);
  _ ← ci (ufi_read_bkp_fault desc mask None);
  _ ← drain_pipeline false;
  mask ← ci (ufi_select_dpu desc mask (Z.of_nat member_id));
  _ ← ci (ufi_clear_fault_bkp desc mask);
  ci (ufi_clear_fault_dpu desc mask).

(** ** Registers *)

Definition dpu_boot_and_wait_for_dpu : op () :=
  mask ← select_dpu;
  _ ← dpu_thread_boot_safe_for_dpu 0 false;
  wait_while poll_fuel (running ← ci (ufi_read_run_bit desc mask 0 junk); mret (mask_one_of running)).

Definition dpu_extract_context_for_dpu_routine : op () :=
  _ ← dpu_boot_and_wait_for_dpu;
  mask ← select_dpu;
  raw_context ← wram_read mask context_size_in_words;
  c ← read context;
  c ← defined (extract_registers (nr_of_atomic_bits hw) (nr_of_threads hw) (nr_of_work_registers_per_thread hw) raw_context c);
  update (with_context c).

(** [raw_context]: what was in the memory that was allocated. *)
Definition dpu_restore_context_for_dpu_routine (raw_context : list Z) : op () :=
  c ← read context;
  raw_context ← defined (format_registers (nr_of_atomic_bits hw) (nr_of_threads hw) (nr_of_work_registers_per_thread hw) c raw_context);
  mask ← select_dpu;
  _ ← wram_write mask raw_context;
  dpu_boot_and_wait_for_dpu.

(** The memories the program takes are saved before and restored after. *)
Definition dpu_execute_routine_for_dpu (program : option (list Z)) (routine : op ()) : op () :=
  _ ← dpu_custom_for_dpu DPU_COMMAND_EVENT_START;
  match program with
  | None => error DPU_ERR_SYSTEM
  | Some program =>
    mask ← select_dpu;
    iram_backup ← iram_read mask (length program);
    wram_backup ← wram_read mask context_size_in_words;
    c ← read context;
    program ← accumulate (seq 0 (nr_of_threads hw)) (fun program each_thread =>
                pc ← defined (Checkpoint.pcs c !! each_thread);
                defined (set_pc_in_core_dump_or_restore_registers each_thread pc program)) program;
    _ ← iram_write mask program;
    _ ← routine;
    _ ← wram_write mask wram_backup;
    _ ← iram_write mask iram_backup;
    dpu_custom_for_dpu DPU_COMMAND_EVENT_END
  end.

Definition ci_debug_extract_context_dpu (core_dump_program : option (list Z)) : op () :=
  dpu_execute_routine_for_dpu core_dump_program dpu_extract_context_for_dpu_routine.

Definition ci_debug_restore_context_dpu (restore_registers_program : option (list Z)) (raw_context : list Z) : op () :=
  dpu_execute_routine_for_dpu restore_registers_program (dpu_restore_context_for_dpu_routine raw_context).

(** ** The entry points *)

Definition dpu_extract_pcs_for_dpu : op () := if_enabled ci_debug_read_pcs_dpu.
Definition dpu_extract_context_for_dpu (core_dump_program : option (list Z)) : op () := if_enabled (ci_debug_extract_context_dpu core_dump_program).
Definition dpu_restore_context_for_dpu (restore_registers_program : option (list Z)) (raw_context : list Z) : op () :=
  if_enabled (ci_debug_restore_context_dpu restore_registers_program raw_context).
Definition dpu_initialize_fault_process_for_dpu (program : option (option Z)) (error_store_addr : Z) : op () :=
  if_enabled (ci_debug_init_dpu program error_store_addr).
Definition dpu_finalize_fault_process_for_dpu : op () := if_enabled ci_debug_teardown_dpu.

Definition dpu_execute_thread_step_in_fault_for_dpu (thread : nat) : op () :=
  if_enabled (
    if (nr_of_threads hw <=? thread)%nat then error DPU_ERR_INVALID_THREAD_ID
    else
      c ← read context;
      position ← defined (Checkpoint.scheduling c !! thread);
      if position =? 0xff then error DPU_ERR_INTERNAL else ci_debug_step_dpu thread).

(** ** A reset *)

(** The DPU is stopped by a debugger that leaves no thread in its schedule, the
    program counters are set to 0 by a STOP each thread runs. [c]: the context,
    of the size of the DPU, before anything is stored into it. *)
Definition ci_reset_dpu (program : option (option Z)) (c : dpu_context_t) : op () :=
  true_cc ← defined (BOOT_CC cc_TRUE);
  _ ← update (with_context (with_faults (false, (bkp c).2) (false, (dma c).2) (false, (mem c).2) (Checkpoint.bkp_fault_id c)
         (with_threads (Checkpoint.pcs c) (replicate (nr_of_threads hw) 0xff) 0 c)));
  _ ← dpu_custom_for_dpu DPU_COMMAND_DPU_SOFT_RESET;
  _ ← dpu_initialize_fault_process_for_dpu program 0;
  mask ← select_dpu;
  _ ← iram_write mask [call STOPci [true_cc; 0]];
  _ ← for_each (seq 0 (nr_of_threads hw)) (fun each_thread => dpu_thread_boot_safe_for_dpu each_thread false);
  wait_while poll_fuel (dpu_runs mask).

(** * The interfaces *)

Definition ci_debug_save_context_rank : op () :=
  result ← ci (ci_get_color desc);
  color ← ci (read color);
  update (fun s => with_debug {| debug_color := color; debug_result := result; debug_slice_info := debug_slice_info (debug s);
                                 is_rank_for_debugger := is_rank_for_debugger (debug s) |} s).

Definition dpu_save_context_for_rank : op () :=
  _ ← ci_debug_save_context_rank;
  update (fun s => with_debug {| debug_color := debug_color (debug s); debug_result := debug_result (debug s);
                                 debug_slice_info := debug_slice_info (debug s); is_rank_for_debugger := true |} s).

Definition dpu_set_debug_slice_info (slice_id : nat) (structure_value : Z) (target : dpu_slice_target) (host_mux_mram_state : Z) : op () :=
  s ← read debug;
  sl ← defined (debug_slice_info s !! slice_id);
  update (with_debug {| debug_color := debug_color s; debug_result := debug_result s;
    debug_slice_info := <[slice_id := with_structure_value structure_value (with_target target (with_mux host_mux_mram_state sl))]> (debug_slice_info s);
    is_rank_for_debugger := is_rank_for_debugger s |}).

(** The results of the interfaces, once all are as they should be. *)
Definition wait_results (stable : Z -> bool) : op (list Z) :=
  r ← ci (stable_results desc TIMEOUT_COLOR stable false);
  let '(timeout, _, data) := (r : nat * bool * list Z) in
  if (timeout =? 0)%nat then error DPU_ERR_TIMEOUT else mret data.

Definition restore_target (each_slice : nat) : op () :=
  s ← read debug;
  sl ← defined (debug_slice_info s !! each_slice);
  match slice_target sl with
  | DPU_SLICE_TARGET_NONE => mret tt
  | DPU_SLICE_TARGET_DPU dpu_id => ci (ufi_select_dpu_uncached desc (CI_MASK_ONE each_slice) dpu_id)
  | DPU_SLICE_TARGET_GROUP group_id => ci (ufi_select_group_uncached desc (CI_MASK_ONE each_slice) group_id)
  | DPU_SLICE_TARGET_ALL => ci (ufi_select_all_uncached desc (CI_MASK_ONE each_slice))
  end.

(** The interfaces whose colour is that the application expects. *)
Definition same_color (color debug_color : Z) : Z :=
  fold_left (fun identity_mask each_slice =>
    if eqb (CI_MASK_ON color each_slice) (CI_MASK_ON debug_color each_slice) then Z.lor identity_mask (CI_MASK_ONE each_slice) else identity_mask)
    (all_cis desc) 0.

(** The words of the interfaces of the rank, the others as they are. *)
Definition data_of (word : nat -> Z) (data : list Z) : list Z := map word (all_cis desc) ++ drop (nr_cis desc) data.

Definition ci_debug_restore_context_rank : op () :=
  data ← wait_results (fun word => command_type word =? 0);
  _ ← for_each (all_cis desc) restore_target;
  color ← ci (read color);
  d ← read debug;
  let identity_mask := same_color color (debug_color d) in
  _ ← (if identity_mask =? 0 then mret tt
       else pcb ← on_machine (read pcb_transformation); _ ← ci (ufi_identity desc pcb identity_mask junk); mret tt);
  structures ← accumulate (all_cis desc) (fun structures each_slice =>
                 sl ← defined (debug_slice_info d !! each_slice);
                 _ ← ci (set_slice each_slice (with_structure_value (structure_value sl)));
                 mret (structures ++ [structure_value sl])) [];
  let data := data_of (word_at structures) data in
  _ ← ci (ci_commit_commands data);
  data ← wait_results (fun word => (command_type word =? 0) && (result_byte word =? 0xff));
  _ ← ci (update (fun s => with_color (u8 (Z.lxor (Ci.color s) (Z.shiftl 1 (Z.of_nat (nr_cis desc)) - 1))) s));
  ci (ci_commit_commands (data_of (fun each_slice => Z.lor 0xff00000000000000 (word_at (debug_result d) each_slice)) data)).

Definition ci_debug_restore_mux_context_rank : op () :=
  for_each (seq 0 (nr_dpus desc)) (fun each_dpu =>
    d ← read debug;
    mux_mask ← accumulate (all_cis desc) (fun mux_mask each_slice =>
                 sl ← defined (debug_slice_info d !! each_slice);
                 mret (u8 (Z.lor mux_mask (Z.shiftl (Z.land (Z.shiftr (host_mux_mram_state sl) (Z.of_nat each_dpu)) 1) (Z.of_nat each_slice))))) 0;
    on_machine (on_rank (dpu_switch_mux_for_dpu_line desc conf junk (Z.of_nat each_dpu) mux_mask))).
End debugger.
