(* ===== verification/DebugFacts.v ===== *)
(** What a debugger does to a DPU (Debug.v): registers written to a DPU are those it
    reads back, the faults a program stores are recognised, faults of most DPUs are
    not noticed. *)
From S2P Require Import Prelude Errors Mask Status CiCommands Ci BitConfig Ufi UfiCache UfiFixed Mux MuxFacts MramXfer RankConfig RankFacts Encoder Encodings Debug.
From S2P Require Checkpoint.
From stdpp Require Import list sets.
#[local] Open Scope Z_scope.

Local Abbreviation dpu_context_t := Checkpoint.dpu_context_t.

(** * Arrays *)

Lemma put_all_spec {A} (l : list A) writes : NoDup writes.*1 -> Forall (fun w : nat * A => (w.1 < length l)%nat) writes ->
  exists l', put_all l writes = Some l' /\ length l' = length l /\ (forall i x, (i, x) ∈ writes -> l' !! i = Some x)
             /\ (forall i, i ∉ writes.*1 -> l' !! i = l !! i).
Proof.
  revert l. induction writes as [| [i x] writes IH]; intros l Hn Hl; [exists l; split_and!; [done.. | set_solver | done] |].
  cbn [fmap list_fmap fst] in Hn. apply NoDup_cons in Hn as [Hi Hn]. apply Forall_cons in Hl as [Hlt Hl]. cbn [fst] in Hlt.
  destruct (IH (<[i := x]> l)) as (l' & E & Hlen & Hin & Hout); [done | by rewrite length_insert |].
  exists l'. cbn [put_all]. rewrite (proj2 (Nat.ltb_lt i (length l))) by done. rewrite length_insert in Hlen. split_and!; [done.. | |].
  - intros j y [[= -> ->] | Hj]%elem_of_cons; [| by apply Hin]. rewrite Hout by done. by apply list_lookup_insert_eq.
  - intros j Hj. cbn [fmap list_fmap fst] in Hj. apply not_elem_of_cons in Hj as [Hne Hj]. rewrite Hout by done. by apply list_lookup_insert_ne.
Qed.

(** The writes take all of the array, in order. *)
Lemma put_all_whole {A} (l l' : list A) : length l = length l' -> put_all l (zip (seq 0 (length l')) l') = Some l'.
Proof.
  intros Hl. assert (Hfst : (zip (seq 0 (length l')) l').*1 = seq 0 (length l')) by (apply fst_zip; rewrite length_seq; lia).
  destruct (put_all_spec l (zip (seq 0 (length l')) l')) as (l1 & E & Hlen & Hin & _).
  - rewrite Hfst. apply NoDup_seq.
  - apply Forall_forall. intros [i x] Hx. apply elem_of_zip_l in Hx. apply elem_of_seq in Hx. cbn. lia.
  - rewrite E. f_equal. apply (list_eq_same_length _ _ (length l')); [lia | lia |]. intros i x y Hi H1 H2.
    enough (Hy : l1 !! i = Some y) by congruence. apply Hin. apply list_elem_of_lookup. exists i. apply lookup_zip_with_Some.
    exists i, y. split_and!; [done | by apply lookup_seq | done].
Qed.

Lemma put_all_indexed {A} (l l' : list A) (f : nat -> A) : length l = length l' -> (forall i x, l' !! i = Some x -> f i = x) ->
  put_all l (map (fun i => (i, f i)) (seq 0 (length l'))) = Some l'.
Proof.
  intros Hl Hf. rewrite <- (put_all_whole l l' Hl). f_equal. apply list_eq. intros i. rewrite list_lookup_fmap, lookup_zip_with.
  destruct (decide (i < length l')%nat) as [Hi | Hi].
  - rewrite lookup_seq_lt by done. cbn. destruct (lookup_lt_is_Some_2 l' i Hi) as [x Ex]. by rewrite Ex, (Hf i x Ex).
  - rewrite lookup_seq_ge by lia. done.
Qed.

(** Each of the values is there. *)
Lemma mapM_values {A B} (f : A -> option B) (g : A -> B) l : (forall a, a ∈ l -> f a = Some (g a)) -> mapM f l = Some (map g l).
Proof.
  induction l as [| a l IH]; intros Hf; [done |]. cbn [mapM]. rewrite Hf by left. cbn. rewrite IH by (intros; apply Hf; by right). done.
Qed.

Lemma flat_map_pairs {A} (f : nat -> A) m k : flat_map (fun p => [f (2 * p)%nat; f (S (2 * p))]) (seq k m) = map f (seq (2 * k) (2 * m)).
Proof.
  revert k. induction m as [| m IH]; intros k; [done |]. cbn [seq flat_map]. rewrite IH. replace (2 * S m)%nat with (S (S (2 * m))) by lia.
  cbn [seq map app]. replace (2 * S k)%nat with (S (S (2 * k))) by lia. done.
Qed.

Lemma flat_map_rows {A} (g : nat -> nat -> A) r n : (0 < r)%nat ->
  flat_map (fun t => map (g t) (seq 0 r)) (seq 0 n) = map (fun i => g (i / r) (i mod r))%nat (seq 0 (n * r)).
Proof.
  intros Hr. induction n as [| n IH]; [done |]. rewrite seq_S, flat_map_app, IH. replace (S n * r)%nat with (n * r + r)%nat by lia.
  rewrite seq_app, map_app. f_equal. cbn [flat_map]. rewrite app_nil_r.
  replace (seq (0 + n * r) r) with (map (Nat.add (n * r)) (seq 0 r)) by (cbn [Nat.add]; etrans; [apply (fmap_add_seq (n * r) 0) | by rewrite Nat.add_0_r]).
  rewrite map_map. apply map_ext_in. intros k Hk%in_seq. f_equal; [apply Nat.div_unique with k | apply Nat.mod_unique with n]; lia.
Qed.

(** * Registers *)

(** Where the register [k] of the thread [t] is in the working memory. *)
Definition slot (t k : nat) : nat := (regs_offset + k / 2 * 2 * DPU_NR_THREADS + 2 * t + (1 - k mod 2))%nat.

Lemma slot_even t p : slot t (2 * p) = S (regs_offset + 2 * p * DPU_NR_THREADS + 2 * t).
Proof. unfold slot. rewrite (Nat.mul_comm 2 p), Nat.div_mul, Nat.Div0.mod_mul by lia. lia. Qed.

Lemma slot_odd t p : slot t (S (2 * p)) = (regs_offset + 2 * p * DPU_NR_THREADS + 2 * t)%nat.
Proof.
  unfold slot. replace (S (2 * p)) with (1 + p * 2)%nat by lia. rewrite Nat.div_add, Nat.Div0.mod_add by lia. cbn [Nat.div Nat.modulo Nat.divmod fst snd Nat.sub]. lia.
Qed.

Lemma slot_inj t k t' k' : (t < DPU_NR_THREADS)%nat -> (t' < DPU_NR_THREADS)%nat -> slot t k = slot t' k' -> t = t' /\ k = k'.
Proof.
  intros Ht Ht' E. unfold slot, DPU_NR_THREADS in *.
  pose proof (Nat.div_mod_eq k 2). pose proof (Nat.div_mod_eq k' 2).
  pose proof (Nat.mod_upper_bound k 2 ltac:(lia)). pose proof (Nat.mod_upper_bound k' 2 ltac:(lia)).
  assert (k / 2 = k' / 2)%nat by lia. lia.
Qed.

Lemma slot_range t k r : (t < DPU_NR_THREADS)%nat -> (k < r)%nat -> (r <= DPU_NR_WORK_REGS)%nat -> (regs_offset <= slot t k < flags_offset)%nat.
Proof.
  intros Ht Hk Hr. pose proof (Nat.div_mod_eq k 2). pose proof (Nat.mod_upper_bound k 2 ltac:(lia)).
  assert (k / 2 < 12)%nat by (apply Nat.Div0.div_lt_upper_bound; unfold DPU_NR_WORK_REGS in Hr; lia).
  change flags_offset with (regs_offset + 576)%nat. unfold slot, DPU_NR_THREADS in *. lia.
Qed.

Lemma byte_of_set (k j b x : Z) : 0 <= k -> 0 <= j -> 0 <= b < 256 -> byte_of k (set_byte j b x) = if k =? j then b else byte_of k x.
Proof.
  intros Hk Hj Hb. apply Z.bits_inj'. intros i Hi. destruct (Z.ltb_spec i 8).
  - rewrite byte_of_testbit by lia. unfold set_byte. rewrite Z.lor_spec, Z.ldiff_spec, !Z.shiftl_spec by lia. change 0xff with (Z.ones 8).
    destruct (Z.eqb_spec k j) as [-> | Hne].
    + replace (8 * j + i - 8 * j) with i by lia. rewrite Z.ones_spec_low by lia. by rewrite andb_false_r.
    + rewrite byte_of_testbit by lia. destruct (Z.ltb_spec k j).
      * rewrite (Z.testbit_neg_r _ (8 * k + i - 8 * j)), (Z.testbit_neg_r b) by lia. by rewrite andb_true_r, orb_false_r.
      * rewrite Z.ones_spec_high, (testbit_high 8 b) by lia. by rewrite andb_true_r, orb_false_r.
  - rewrite (testbit_high 8 (byte_of k (set_byte j b x))) by (pose proof (byte_of_range k (set_byte j b x)); lia).
    destruct (k =? j); rewrite (testbit_high 8); [done | lia | lia | done | pose proof (byte_of_range k x); lia | lia].
Qed.

(** The byte an atomic bit is stored as. *)
Definition atomic_value (b : bool) : Z := if b then 0xff else 0.

Lemma set_atomic_byte_spec raw i b : (i < 4 * length raw)%nat ->
  exists raw', set_atomic_byte raw i b = Some raw' /\ length raw' = length raw /\ atomic_byte raw' i = Some (atomic_value b)
    /\ (forall j, j <> i -> atomic_byte raw' j = atomic_byte raw j) /\ (forall k, (i / 4 < k)%nat -> raw' !! k = raw !! k).
Proof.
  intros Hi. assert (Hw : (i / 4 < length raw)%nat) by (apply Nat.Div0.div_lt_upper_bound; lia).
  destruct (lookup_lt_is_Some_2 raw (i / 4)%nat Hw) as [w Ew]. unfold set_atomic_byte. rewrite Ew. cbn [mbind option_bind]. eexists. split_and!; [done | ..].
  - by rewrite length_insert.
  - unfold atomic_byte. rewrite list_lookup_insert_eq by done. cbn [mbind option_bind]. rewrite byte_of_set by (destruct b; lia).
    by rewrite Z.eqb_refl.
  - intros j Hj. unfold atomic_byte. destruct (decide (j / 4 = i / 4)%nat) as [Eq | Hne]; [| by rewrite list_lookup_insert_ne by done].
    rewrite Eq, list_lookup_insert_eq, Ew by done. cbn [mbind option_bind]. rewrite byte_of_set by (destruct b; lia).
    assert (j mod 4 <> i mod 4)%nat by (pose proof (Nat.div_mod_eq i 4); pose proof (Nat.div_mod_eq j 4); lia).
    by rewrite (proj2 (Z.eqb_neq _ _)) by lia.
  - intros k Hk. apply list_lookup_insert_ne. lia.
Qed.

Lemma set_atomic_bytes atomic raw n : (n <= length atomic)%nat -> (n <= 4 * ATOMIC_REG_SIZE_IN_WORDS)%nat -> (ATOMIC_REG_SIZE_IN_WORDS <= length raw)%nat ->
  exists raw', fold_left (fun o i => raw ← o; b ← atomic !! i; set_atomic_byte raw i b) (seq 0 n) (Some raw) = Some raw' /\ length raw' = length raw
    /\ (forall i, (i < n)%nat -> atomic_byte raw' i = atomic_value <$> atomic !! i) /\ (forall k, (ATOMIC_REG_SIZE_IN_WORDS <= k)%nat -> raw' !! k = raw !! k).
Proof.
  intros Hn Hn' Hraw. induction n as [| n IH]; [exists raw; split_and!; [done.. | lia | done] |].
  destruct IH as (raw1 & E1 & L1 & A1 & K1); [lia.. |]. rewrite seq_S, fold_left_app, E1. cbn [fold_left Nat.add mbind option_bind].
  destruct (lookup_lt_is_Some_2 atomic n) as [b Eb]; [lia |]. rewrite Eb. cbn [mbind option_bind].
  destruct (set_atomic_byte_spec raw1 n b) as (raw2 & E2 & L2 & A2 & O2 & K2); [lia |]. exists raw2. split_and!; [done | lia | |].
  - intros i Hi. destruct (decide (i = n)) as [-> | Hne]; [by rewrite Eb | rewrite O2 by done; apply A1; lia].
  - intros k Hk. rewrite K2; [by apply K1 |]. apply Nat.lt_le_trans with ATOMIC_REG_SIZE_IN_WORDS; [apply Nat.Div0.div_lt_upper_bound; lia | done].
Qed.

Section registers.
(** A DPU within the limits of the hardware, an even number of registers. *)
Variables (a n m : nat).
Hypothesis Ha : (a <= DPU_NR_ATOMIC_BITS)%nat.
Hypothesis Hn : (n <= DPU_NR_THREADS)%nat.
Hypothesis Hm : (0 < m)%nat.
Local Abbreviation r := (2 * m)%nat.
Hypothesis Hr : (r <= DPU_NR_WORK_REGS)%nat.

Definition in_memory (i : nat) : nat := slot (i / r) (i mod r).

Lemma register_slots_eq : register_slots n r = map (fun i => (i, in_memory i)) (seq 0 (n * r)).
Proof using Ha Hn Hm Hr.
  unfold register_slots. replace ((r + 1) / 2)%nat with m by (replace (r + 1)%nat with (1 + m * 2)%nat by lia; by rewrite Nat.div_add by lia).
  transitivity (flat_map (fun t => map (fun k => ((t * r + k)%nat, slot t k)) (seq 0 r)) (seq 0 n)).
  - apply flat_map_ext. intros t. cbv zeta. etrans; [| exact (flat_map_pairs (fun k => ((t * r + k)%nat, slot t k)) m 0)]. apply flat_map_ext.
    intros p. by rewrite slot_even, slot_odd, Nat.add_succ_r.
  - rewrite (flat_map_rows (fun t k => ((t * r + k)%nat, slot t k))) by lia. apply map_ext. intros i. unfold in_memory. f_equal.
    pose proof (Nat.div_mod_eq i r). lia.
Qed.

Lemma in_memory_range i : (i < n * r)%nat -> (regs_offset <= in_memory i < flags_offset)%nat.
Proof using Ha Hn Hm Hr.
  intros Hi. apply (slot_range (i / r) (i mod r) r); [| apply Nat.mod_upper_bound; lia | done].
  apply Nat.lt_le_trans with n; [apply Nat.Div0.div_lt_upper_bound; lia | done].
Qed.

Lemma in_memory_inj i j : (i < n * r)%nat -> (j < n * r)%nat -> in_memory i = in_memory j -> i = j.
Proof using Ha Hn Hm Hr.
  intros Hi Hj E. assert (Hlt : forall k, (k < n * r)%nat -> (k / r < DPU_NR_THREADS)%nat).
  { intros k Hk. apply Nat.lt_le_trans with n; [apply Nat.Div0.div_lt_upper_bound; lia | done]. }
  destruct (slot_inj (i / r) (i mod r) (j / r) (j mod r) (Hlt i Hi) (Hlt j Hj) E) as [E1 E2].
  etrans; [apply (Nat.div_mod_eq i r) |]. rewrite E1, E2. symmetry. apply Nat.div_mod_eq.
Qed.

(** A context of this size. *)
Definition registers_fit (c : dpu_context_t) : Prop :=
  length (Checkpoint.atomic_register c) = a /\ length (Checkpoint.registers c) = (n * r)%nat
  /\ length (Checkpoint.zero_flags c) = n /\ length (Checkpoint.carry_flags c) = n.

Definition flags_word (carry zero : bool) : Z := (if carry then 1 else 0) + (if zero then 2 else 0).

Lemma flags_word_bits carry zero : Z.testbit (flags_word carry zero) 0 = carry /\ Z.testbit (flags_word carry zero) 1 = zero.
Proof. by destruct carry, zero. Qed.

(** What is in the working memory once it is written. *)
Record written (c : dpu_context_t) (raw : list Z) : Prop := {
  written_atomic : forall i b, Checkpoint.atomic_register c !! i = Some b -> atomic_byte raw i = Some (atomic_value b);
  written_register : forall i v, Checkpoint.registers c !! i = Some v -> raw !! in_memory i = Some v;
  written_flags : forall t carry zero, Checkpoint.carry_flags c !! t = Some carry -> Checkpoint.zero_flags c !! t = Some zero ->
                  raw !! (flags_offset + t)%nat = Some (flags_word carry zero) }.

Lemma atomic_byte_low raw raw' i : (forall k, (k < regs_offset)%nat -> raw' !! k = raw !! k) -> (i < a)%nat -> atomic_byte raw' i = atomic_byte raw i.
Proof using Ha Hn Hm Hr.
  intros E Hi. unfold atomic_byte. rewrite E; [done |]. change regs_offset with 64%nat. apply Nat.Div0.div_lt_upper_bound.
  unfold DPU_NR_ATOMIC_BITS in Ha. lia.
Qed.

Lemma write_registers c raw : registers_fit c -> length raw = context_size_in_words ->
  exists raw', (values ← mapM (fun s : nat * nat => v ← Checkpoint.registers c !! s.1; Some (s.2, v)) (register_slots n r); put_all raw values) = Some raw'
    /\ length raw' = context_size_in_words /\ (forall i v, Checkpoint.registers c !! i = Some v -> raw' !! in_memory i = Some v)
    /\ (forall k, (k < regs_offset)%nat -> raw' !! k = raw !! k).
Proof using Ha Hn Hm Hr.
  intros (_ & Lr & _ & _) Lraw. change context_size_in_words with 664%nat in *. unfold DPU_NR_THREADS in *.
  set (value i := default 0 (Checkpoint.registers c !! i)).
  assert (E2 : mapM (fun s : nat * nat => v ← Checkpoint.registers c !! s.1; Some (s.2, v)) (register_slots n r)
    = Some (map (fun i => (in_memory i, value i)) (seq 0 (n * r)))).
  { rewrite register_slots_eq, (mapM_values _ (fun s : nat * nat => (s.2, value s.1))); [by rewrite map_map |].
    intros s (i & -> & Hi%elem_of_seq)%list_elem_of_fmap. cbn [fst snd]. unfold value.
    destruct (lookup_lt_is_Some_2 (Checkpoint.registers c) i) as [v Ev]; [lia |]. by rewrite Ev. }
  assert (F2 : (map (fun i => (in_memory i, value i)) (seq 0 (n * r))).*1 = map in_memory (seq 0 (n * r))) by apply map_map.
  destruct (put_all_spec raw (map (fun i => (in_memory i, value i)) (seq 0 (n * r)))) as (raw2 & P2 & L2 & A2 & O2).
  - rewrite F2. apply NoDup_fmap_2_strong; [| apply NoDup_seq]. intros i j Hi%elem_of_seq Hj%elem_of_seq. apply in_memory_inj; lia.
  - apply Forall_forall. intros s (i & -> & Hi%elem_of_seq)%list_elem_of_fmap. cbn [fst]. pose proof (in_memory_range i ltac:(lia)).
    change flags_offset with 640%nat in *. lia.
  - rewrite F2 in O2. rewrite E2. exists raw2. split_and!; [done | lia | |].
    + intros i v Ev. apply A2, list_elem_of_fmap. exists i. pose proof (lookup_lt_Some _ _ _ Ev).
      split; [unfold value; by rewrite Ev | apply elem_of_seq; lia].
    + intros k Hk. apply O2. intros (i & -> & Hi%elem_of_seq)%list_elem_of_fmap. pose proof (in_memory_range i ltac:(lia)). lia.
Qed.

Lemma write_flags c raw : registers_fit c -> length raw = context_size_in_words ->
  exists raw', (flags ← mapM (fun t => carry ← Checkpoint.carry_flags c !! t; zero ← Checkpoint.zero_flags c !! t;
                  Some ((flags_offset + t)%nat, (if carry : bool then 1 else 0) + (if zero : bool then 2 else 0))) (seq 0 n); put_all raw flags) = Some raw'
    /\ length raw' = context_size_in_words
    /\ (forall t carry zero, Checkpoint.carry_flags c !! t = Some carry -> Checkpoint.zero_flags c !! t = Some zero ->
         raw' !! (flags_offset + t)%nat = Some (flags_word carry zero))
    /\ (forall k, (k < flags_offset)%nat -> raw' !! k = raw !! k).
Proof using Ha Hn Hm Hr.
  intros (_ & _ & Lz & Lc) Lraw. change context_size_in_words with 664%nat in *. unfold DPU_NR_THREADS in *.
  set (word t := flags_word (default false (Checkpoint.carry_flags c !! t)) (default false (Checkpoint.zero_flags c !! t))).
  rewrite (mapM_values _ (fun t => ((flags_offset + t)%nat, word t))).
  2:{ intros t Ht%elem_of_seq. unfold word. destruct (lookup_lt_is_Some_2 (Checkpoint.carry_flags c) t) as [x Ex]; [lia |].
    destruct (lookup_lt_is_Some_2 (Checkpoint.zero_flags c) t) as [y Ey]; [lia |]. by rewrite Ex, Ey. }
  assert (F3 : (map (fun t => ((flags_offset + t)%nat, word t)) (seq 0 n)).*1 = map (Nat.add flags_offset) (seq 0 n)) by apply map_map.
  destruct (put_all_spec raw (map (fun t => ((flags_offset + t)%nat, word t)) (seq 0 n))) as (raw3 & P3 & L3 & A3 & O3).
  - rewrite F3. apply NoDup_fmap_2; [intros ? ?; lia | apply NoDup_seq].
  - apply Forall_forall. intros s (t & -> & Ht%elem_of_seq)%list_elem_of_fmap. cbn [fst]. change flags_offset with 640%nat. lia.
  - rewrite F3 in O3. exists raw3. split_and!; [done | lia | |].
    + intros t carry zero Ec Ez. apply A3, list_elem_of_fmap. exists t. pose proof (lookup_lt_Some _ _ _ Ec).
      split; [unfold word; by rewrite Ec, Ez | apply elem_of_seq; lia].
    + intros k Hk. apply O3. intros (t & -> & Ht%elem_of_seq)%list_elem_of_fmap. lia.
Qed.

Lemma format_written c raw : registers_fit c -> length raw = context_size_in_words ->
  exists raw', format_registers a n r c raw = Some raw' /\ length raw' = context_size_in_words /\ written c raw'.
Proof using Ha Hn Hm Hr.
  intros Hc Lraw. pose proof Hc as (La & Lr & _).
  destruct (set_atomic_bytes (Checkpoint.atomic_register c) raw a) as (raw1 & E1 & L1 & A1 & _);
    [lia | exact Ha | rewrite Lraw; apply Nat.leb_le; reflexivity |].
  destruct (write_registers c raw1 Hc) as (raw2 & E2 & L2 & A2 & O2); [congruence |].
  destruct (write_flags c raw2 Hc L2) as (raw3 & E3 & L3 & A3 & O3).
  exists raw3. split_and!; [| done |].
  - unfold format_registers. rewrite E1. cbn [mbind option_bind]. destruct (mapM _ (register_slots n r)) as [values |]; [| discriminate E2].
    cbn [mbind option_bind] in E2 |- *. rewrite E2. exact E3.
  - assert (Hlow : forall k, (k < regs_offset)%nat -> (k < flags_offset)%nat) by (intros k Hk; apply Nat.lt_le_trans with regs_offset; [done | apply Nat.leb_le; reflexivity]).
    split; [| | done].
    + intros i b Eb. pose proof (lookup_lt_Some _ _ _ Eb). rewrite (atomic_byte_low raw1 raw3), A1, Eb by lia || (intros; rewrite O3, O2 by auto; done). done.
    + intros i v Ev. pose proof (lookup_lt_Some _ _ _ Ev). rewrite O3; [by apply A2 |]. apply in_memory_range. lia.
Qed.

Lemma extract_written c c0 raw : registers_fit c -> registers_fit c0 -> written c raw ->
  extract_registers a n r raw c0
  = Some (with_registers (Checkpoint.registers c) (Checkpoint.atomic_register c) (Checkpoint.zero_flags c) (Checkpoint.carry_flags c) c0).
Proof using Ha Hn Hm Hr.
  intros (La & Lr & Lz & Lc) (La0 & Lr0 & Lz0 & Lc0) Hw. unfold extract_registers.
  rewrite (mapM_values _ (fun i => (i, default false (Checkpoint.atomic_register c !! i)))).
  2:{ intros i Hi%elem_of_seq. destruct (lookup_lt_is_Some_2 (Checkpoint.atomic_register c) i) as [b Eb]; [lia |].
    rewrite (written_atomic _ _ Hw i b Eb), Eb. by destruct b. }
  cbn [mbind option_bind]. rewrite <- La, put_all_indexed by (by rewrite ?La || (intros i b Eb; by rewrite Eb)).
  cbn [mbind option_bind]. rewrite register_slots_eq, (mapM_values _ (fun s : nat * nat => (s.1, default 0 (Checkpoint.registers c !! s.1)))).
  2:{ intros s (i & -> & Hi%elem_of_seq)%list_elem_of_fmap. cbn [fst snd].
    destruct (lookup_lt_is_Some_2 (Checkpoint.registers c) i) as [v Ev]; [lia |]. by rewrite (written_register _ _ Hw i v Ev), Ev. }
  cbn [mbind option_bind]. rewrite map_map. cbn [fst]. rewrite <- Lr, put_all_indexed by (by rewrite ?Lr || (intros i v Ev; by rewrite Ev)).
  cbn [mbind option_bind].
  rewrite (mapM_values _ (fun t => (t, flags_word (default false (Checkpoint.carry_flags c !! t)) (default false (Checkpoint.zero_flags c !! t))))).
  2:{ intros t Ht%elem_of_seq. destruct (lookup_lt_is_Some_2 (Checkpoint.carry_flags c) t) as [x Ex]; [lia |].
    destruct (lookup_lt_is_Some_2 (Checkpoint.zero_flags c) t) as [y Ey]; [lia |]. by rewrite (written_flags _ _ Hw t x y Ex Ey), Ex, Ey. }
  cbn [mbind option_bind]. rewrite !map_map. cbn [fst snd].
  rewrite <- Lc at 1. rewrite put_all_indexed by (congruence || (intros t x Ex; by rewrite (proj1 (flags_word_bits _ _)), Ex)).
  cbn [mbind option_bind]. rewrite <- Lz at 1.
  rewrite put_all_indexed by (congruence || (intros t x Ex; by rewrite (proj2 (flags_word_bits _ _)), Ex)). done.
Qed.

(** C22: the registers of a context, written to the working memory of a DPU, whatever
    was there, are those read back from it into any context: each register, each
    atomic bit, the flags of each thread. *)
Theorem registers_roundtrip c c0 raw : registers_fit c -> registers_fit c0 -> length raw = context_size_in_words ->
  exists raw', format_registers a n r c raw = Some raw' /\ length raw' = context_size_in_words
    /\ extract_registers a n r raw' c0
       = Some (with_registers (Checkpoint.registers c) (Checkpoint.atomic_register c) (Checkpoint.zero_flags c) (Checkpoint.carry_flags c) c0).
Proof using Ha Hn Hm Hr.
  intros Hc Hc0 Hraw. destruct (format_written c raw Hc Hraw) as (raw' & E & L & Hw).
  exists raw'. split_and!; [done | done | by apply extract_written].
Qed.
End registers.

(** * The immediate of a FAULT *)

(** Where each of its 24 bits is. *)
Definition fault_places : list Z := [20; 21; 22; 23; 16; 17; 18; 19; 15; 14; 13; 12; 0; 1; 2; 3; 4; 5; 6; 7; 8; 9; 10; 11].

Definition fault_opcode : Z := call FAULTi [0].

Lemma fault_locations : map (fun k => Z.lxor (call FAULTi [Z.shiftl 1 (Z.of_nat k)]) fault_opcode) (seq 0 32)
  = map (fun p => 2 ^ p) fault_places ++ replicate 8 0.
Proof. by vm_compute. Qed.

(** Bits gathered one by one. *)
Lemma gather_testbit (bit : nat -> bool) n i : 0 <= i ->
  Z.testbit (fold_left (fun acc k => if bit k : bool then Z.lor acc (Z.shiftl 1 (Z.of_nat k)) else acc) (seq 0 n) 0) i
  = (i <? Z.of_nat n) && bit (Z.to_nat i).
Proof.
  intros Hi. induction n as [| n IH]; [by rewrite (proj2 (Z.ltb_ge i (Z.of_nat 0))), Z.testbit_0_l by lia |].
  rewrite seq_S, fold_left_app. cbn [fold_left Nat.add]. set (acc := fold_left _ _ _) in *.
  destruct (Z.eqb_spec i (Z.of_nat n)) as [-> | Hne].
  - rewrite (proj2 (Z.ltb_lt _ _)), Nat2Z.id by lia. rewrite (proj2 (Z.ltb_ge _ _)) in IH by lia. destruct (bit n) eqn:E; [| done].
    rewrite Z.lor_spec, Z.shiftl_1_l, Z.pow2_bits_true by lia. by rewrite orb_true_r.
  - transitivity (Z.testbit acc i).
    + destruct (bit n); [| done]. rewrite Z.lor_spec, Z.shiftl_1_l, Z.pow2_bits_false by lia. by rewrite orb_false_r.
    + rewrite IH. f_equal. destruct (Z.ltb_spec i (Z.of_nat n)), (Z.ltb_spec i (Z.of_nat (S n))); lia.
Qed.

Lemma fold_left_ext_in {A B} (f g : A -> B -> A) l a : (forall a b, In b l -> f a b = g a b) -> fold_left f l a = fold_left g l a.
Proof. revert a. induction l as [| b l IH]; intros a Hf; [reflexivity |]. cbn. rewrite Hf by (left; reflexivity). apply IH. intros a' b' Hb'. apply Hf. right. exact Hb'. Qed.

(** The bits of the number found in an instruction that has those of a FAULT. *)
Lemma fault_id_bits w i : Z.land w fault_opcode = fault_opcode -> 0 <= i ->
  Z.testbit (fault_id w) i = match fault_places !! Z.to_nat i with Some p => Z.testbit w p | None => false end.
Proof.
  intros Hw Hi. unfold fault_id. fold fault_opcode. rewrite Hw, Z.eqb_refl. cbn [negb]. cbv zeta.
  set (bit k := match fault_places !! k with Some p => Z.testbit w p | None => false end).
  rewrite (fold_left_ext_in _ (fun acc k => if bit k : bool then Z.lor acc (Z.shiftl 1 (Z.of_nat k)) else acc)).
  - rewrite gather_testbit by done. change (match fault_places !! Z.to_nat i with Some p => Z.testbit w p | None => false end) with (bit (Z.to_nat i)).
    destruct (Z.ltb_spec i (Z.of_nat 32)); [done |]. unfold bit. rewrite lookup_ge_None_2; [done | cbn; lia].
  - intros acc k Hk%in_seq. pose proof (f_equal (lookup k) fault_locations) as E.
    rewrite list_lookup_fmap, lookup_seq_lt in E by lia. cbn [fmap option_fmap option_map Nat.add] in E.
    destruct (decide (k < 24)%nat) as [Hlt | Hge].
    + rewrite lookup_app_l, list_lookup_fmap in E by done. unfold bit. destruct (lookup_lt_is_Some_2 fault_places k) as [p Ep]; [done |].
      rewrite Ep in E |- *. cbn [fmap option_fmap option_map] in E. injection E as E. rewrite E.
      assert (0 <= p) by (apply (proj1 (Forall_forall (fun p => 0 <= p) fault_places)); [repeat constructor; lia | by apply list_elem_of_lookup_2 in Ep]).
      rewrite land_pow2_eqb by done. by destruct (Z.testbit w p).
    + rewrite lookup_app_r, lookup_replicate_2 in E by (cbn; lia). injection E as E. rewrite E, Z.land_0_r.
      unfold bit. by rewrite lookup_ge_None_2 by (cbn; lia).
Qed.

Lemma operand_field_testbit x from mask to p : 0 <= from -> 0 <= to -> 0 <= p ->
  Z.testbit (operand_field (x, from, mask, to)) p = (to <=? p) && Z.testbit mask (p - to) && Z.testbit (u64 x) (p - to + from).
Proof.
  intros Hf Ht Hp. unfold operand_field. rewrite Z.shiftl_spec, Z.land_spec by done. destruct (Z.leb_spec to p).
  - rewrite Z.shiftr_spec, andb_comm by lia. done.
  - rewrite !(Z.testbit_neg_r _ (p - to)) by lia. done.
Qed.

Lemma fault_bit imm i p : 0 <= imm < 2 ^ 24 -> fault_places !! i = Some p -> Z.testbit (call FAULTi [imm]) p = Z.testbit imm (Z.of_nat i).
Proof.
  intros Himm. assert (E64 : u64 imm = imm) by (apply wrap_small; lia).
  assert (E : call FAULTi [imm] = fold_left (fun acc f => Z.lor acc (operand_field f)) (map (fun f : operand * Z * Z * Z => let '(x, from, mask, to) := f in (imm, from, mask, to)) (fields FAULTi)) (opcode FAULTi)) by reflexivity.
  rewrite E. cbn [fields FAULTi map fold_left opcode]. clear E.
  do 24 (destruct i as [| i]; [intros [= <-]; rewrite !Z.lor_spec, !operand_field_testbit, E64 by lia; cbn -[Z.testbit]; cbn [Z.testbit Pos.testbit andb]; rewrite ?orb_false_r; reflexivity |]).
  done.
Qed.

Lemma instruction_opcode opcode fields : Z.land (instruction opcode fields) opcode = opcode.
Proof.
  unfold instruction. revert opcode. induction fields as [| f fields IH]; intros opcode; cbn [fold_left]; [apply Z.land_diag |].
  apply Z.bits_inj'. intros i Hi. pose proof (f_equal (fun z => Z.testbit z i) (IH (Z.lor opcode (operand_field f)))) as E. cbn beta in E.
  rewrite Z.land_spec, Z.lor_spec in E. rewrite Z.land_spec. destruct (Z.testbit opcode i); [| apply andb_false_r].
  rewrite andb_true_r in E |- *. exact E.
Qed.

Lemma fault_opcode_read imm : Z.land (call FAULTi [imm]) fault_opcode = fault_opcode.
Proof. exact (instruction_opcode (opcode FAULTi) _). Qed.

(** The number a FAULT instruction was made with is found in it, whatever the 24
    bits; the greatest is the one that stands for an unknown fault. *)
Theorem fault_number_found imm : 0 <= imm < 2 ^ 24 -> fault_id (call FAULTi [imm]) = imm.
Proof.
  intros Himm. apply Z.bits_inj'. intros i Hi. rewrite fault_id_bits by (done || apply fault_opcode_read).
  destruct (fault_places !! Z.to_nat i) as [p |] eqn:Ep.
  - rewrite (fault_bit imm (Z.to_nat i) p Himm Ep). by rewrite Z2Nat.id.
  - apply lookup_ge_None in Ep. cbn in Ep. by rewrite (testbit_high 24) by lia.
Qed.

Lemma fault_number_found_witness : 0 <= 0xabcdef < 2 ^ 24 /\ fault_id (call FAULTi [0xabcdef]) = 0xabcdef.
Proof. split; [lia | apply fault_number_found; lia]. Defined.

(** A STOP has the bits of a FAULT too: its fields are taken for a number that is
    never the unknown one. *)
Theorem stop_taken_for_fault condition pc : fault_id (call STOPci [condition; pc]) <> DPU_FAULT_UNKNOWN_ID.
Proof.
  intros E. pose proof (f_equal (fun z => Z.testbit z 0) E) as Hb. cbn beta in Hb.
  rewrite fault_id_bits in Hb; [| | done].
  - change (fault_places !! Z.to_nat 0) with (Some 20) in Hb. cbv iota in Hb.
    assert (Ec : call STOPci [condition; pc] = fold_left (fun acc f => Z.lor acc (operand_field f)) [(condition, 0, 0xf, 24); (pc, 0, 0xffff, 0)] (opcode STOPci)) by reflexivity.
    rewrite Ec in Hb. cbn [fold_left opcode STOPci] in Hb. rewrite !Z.lor_spec, !operand_field_testbit in Hb by lia.
    cbn -[Z.testbit] in Hb. cbn [Z.testbit Pos.testbit andb orb] in Hb. done.
  - assert (Hs : Z.land (call STOPci [condition; pc]) (opcode STOPci) = opcode STOPci) by exact (instruction_opcode (opcode STOPci) _).
    change fault_opcode with (Z.land (opcode STOPci) fault_opcode) at 1. by rewrite Z.land_assoc, Hs.
Qed.

(** * The variable that remembers faults *)

(** The faults stored for a program are those read back from its variable. *)
Theorem error_storage_roundtrip dma_fault dma_thread mem_fault mem_thread :
  0 <= dma_thread < Z.of_nat DPU_NR_THREADS -> 0 <= mem_thread < Z.of_nat DPU_NR_THREADS ->
  0 <= encode_error_storage dma_fault dma_thread mem_fault mem_thread < 2 ^ 32
  /\ decode_error_storage (encode_error_storage dma_fault dma_thread mem_fault mem_thread) = Some ((dma_fault, dma_thread), (mem_fault, mem_thread)).
Proof.
  intros Hd Hm. assert (Hin : forall t, 0 <= t < Z.of_nat DPU_NR_THREADS -> In t (map Z.of_nat (seq 0 24))).
  { intros t Ht. apply in_map_iff. exists (Z.to_nat t). change (Z.of_nat DPU_NR_THREADS) with 24 in Ht. split; [lia | apply in_seq; lia]. }
  set (good d m := forallb (fun x : bool * bool => let e := encode_error_storage x.1 d x.2 m in
    (0 <=? e) && (e <? 2 ^ 32) && bool_decide (decode_error_storage e = Some ((x.1, d), (x.2, m)))) [(true, true); (true, false); (false, true); (false, false)]).
  assert (Hall : forallb (fun d => forallb (good d) (map Z.of_nat (seq 0 24))) (map Z.of_nat (seq 0 24)) = true) by (vm_compute; reflexivity).
  rewrite forallb_forall in Hall. specialize (Hall _ (Hin _ Hd)). rewrite forallb_forall in Hall. specialize (Hall _ (Hin _ Hm)).
  unfold good in Hall. rewrite forallb_forall in Hall. specialize (Hall (dma_fault, mem_fault)). cbn [fst snd] in Hall.
  apply andb_prop in Hall as [Hr He]; [| by destruct dma_fault, mem_fault; cbn; auto]. apply andb_prop in Hr as [H0 H1].
  split; [lia | by apply bool_decide_eq_true in He].
Qed.

Lemma error_storage_roundtrip_witness : decode_error_storage (encode_error_storage true 5 true 7) = Some ((true, 5), (true, 7)).
Proof. apply (error_storage_roundtrip true 5 true 7); split; [lia | reflexivity | lia | reflexivity]. Defined.

(** * Faults that are not noticed *)

Section unnoticed.
Context {W : Type} `{driver W, customiser W}.
Variable desc : hw_description.
Variable conf : configuration.
Variable hw : dpu_hw.
Variable junk : list Z.
Variable poll_fuel : nat.
Variables slice_id member_id : nat.

(** A part of the context that taking threads out of the pipeline leaves. *)
Context {X : Type} (part : dpu_context_t -> X) (x : X).
Hypothesis part_threads : forall pcs scheduling nr c, part (with_threads pcs scheduling nr c) = part c.

Local Abbreviation same := (fun s : session W => part (context s) = x).

Lemma same_machine {A} (m : cmd (rank_state W) A) : keeps same (on_machine m).
Proof using. intros s Hs. unfold on_machine. destruct (m (machine s)) as [r [a | e |]]; done. Qed.

Lemma same_wait fuel (turn : cmd (session W) bool) : keeps same turn -> keeps same (wait_while fuel turn).
Proof using. intros Ht. induction fuel as [| fuel IH]; cbn [wait_while]; [apply keeps_undefined |]. apply keeps_bind; [done | intros []; [done | apply keeps_ret]]. Qed.

(** The context that is read has the part. *)
Lemma same_read {A} (k : dpu_context_t -> cmd (session W) A) : (forall c, part c = x -> keeps same (k c)) -> keeps same (read context ≫= k).
Proof using. intros Hk s Hs. exact (Hk (context s) Hs s Hs). Qed.

Lemma same_after_update (f : session W -> session W) : (forall s, part (context s) = x -> part (context (f s)) = x) -> keeps same (update f).
Proof using. intros Hf. exact (keeps_update same f Hf). Qed.

Lemma same_note add pc t : keeps same (note_thread add pc t).
Proof using part_threads.
  apply same_read. intros c Hc. apply keeps_bind; [apply keeps_defined | intros pcs]. apply keeps_bind; [apply keeps_defined | intros scheduling].
  apply same_after_update. intros s _. cbn [context with_context]. by rewrite part_threads.
Qed.

Local Ltac same_step :=
  lazymatch goal with
  | |- forall _, _ => intros ?
  | |- keeps _ (on_machine _) => apply same_machine
  | |- keeps _ (note_thread _ _ _) => apply same_note
  | |- keeps _ (wait_while _ _) => apply same_wait
  | |- keeps _ (read context ≫= _) => apply same_read
  | |- keeps _ (read _) => apply keeps_read
  | |- keeps _ (_ ≫= _) => apply keeps_bind
  | |- keeps _ (for_each _ _) => apply keeps_for_each
  | |- keeps _ (accumulate _ _ _) => apply keeps_accumulate
  | |- keeps _ (mret _) => apply keeps_ret
  | |- keeps _ (error _) => apply keeps_error
  | |- keeps _ undefined => apply keeps_undefined
  | |- keeps _ (defined _) => apply keeps_defined
  | |- keeps _ (if _ then _ else _) => apply keeps_if
  end.
Local Ltac same_steps := repeat same_step.

Lemma same_drain add : keeps same (drain_pipeline desc hw junk poll_fuel slice_id member_id add).
Proof using part_threads.
  assert (Hrun : forall mask, keeps same (read_run_register desc hw junk slice_id member_id mask)).
  { intros mask. unfold read_run_register, ci. same_steps. }
  assert (Hturns : forall fuel mask previous, keeps same (drain_turns desc hw junk slice_id member_id fuel mask add previous)).
  { induction fuel as [| fuel IH]; intros mask previous; cbn [drain_turns]; [apply keeps_undefined |].
    apply keeps_bind; [unfold drain_turn, ci; same_steps; apply Hrun | intros []; apply keeps_if; [apply IH | apply keeps_ret]]. }
  unfold drain_pipeline, select_dpu, ci. same_steps; [apply Hrun | apply Hturns].
Qed.

Lemma same_decrement t : keeps same (decrement_thread_pc desc conf hw junk poll_fuel slice_id member_id t).
Proof using part_threads.
  unfold decrement_thread_pc, dpu_custom_for_dpu, if_enabled, dpu_thread_boot_safe_for_dpu, select_dpu, iram_read, iram_write, dpu_runs, ci.
  same_steps. apply same_after_update. intros s Hs. cbn [context with_context]. unfold set_pcs. by rewrite part_threads.
Qed.

Lemma same_resume mask : keeps same (resume_stopped_threads desc conf hw junk poll_fuel slice_id member_id mask).
Proof using part_threads. unfold resume_stopped_threads, dpu_thread_boot_safe_for_dpu, ci. same_steps. apply same_drain. Qed.

(** The fault bits of a DPU that is not the first of its interface are 0 or 1, and
    not at its place. *)
Lemma fault_not_seen results : (0 < member_id < 8)%nat -> fault_seen member_id (fault_of junk slice_id member_id results) = false.
Proof using.
  intros Hm. unfold fault_seen, fault_of. rewrite mask_one_pow2, land_pow2_eqb, negb_involutive by lia.
  apply (testbit_high 1); [destruct (mask_one_of _ _ _); cbn; lia | lia].
Qed.

Lemma same_recall word : (forall d m c, part (set_mem m (set_dma d c)) = part c) ->
  keeps same (recall_faults desc junk slice_id member_id word false false).
Proof using.
  intros Hpart. unfold recall_faults. cbv zeta. same_steps. destruct (decode_error_storage _) as [[[dma_f dma_thread] [mem_f mem_thread]] |]; [| apply keeps_ret].
  apply same_after_update. intros s Hs. cbn [context with_context]. by rewrite Hpart.
Qed.

Lemma same_init program address : (0 < member_id < 8)%nat ->
  (forall address, keeps same (recall_faults desc junk slice_id member_id address false false)) \/ get_error_store_symbol program address = None ->
  keeps same (ci_debug_init_dpu desc conf hw junk poll_fuel slice_id member_id program address).
Proof using part_threads.
  intros Hm Hrecall. unfold ci_debug_init_dpu, select_dpu, ci.
  repeat (cbv zeta; lazymatch goal with
    | |- keeps _ (drain_pipeline _ _ _ _ _ _ _) => apply same_drain
    | |- keeps _ (resume_stopped_threads _ _ _ _ _ _ _ _) => apply same_resume
    | |- keeps _ (if fault_seen _ _ then _ else _) => rewrite fault_not_seen by exact Hm
    | |- keeps _ (match get_error_store_symbol _ _ with _ => _ end) => rewrite !fault_not_seen by exact Hm; destruct Hrecall as [Hrecall | Hrecall];
        [destruct (get_error_store_symbol program address); [apply Hrecall | apply keeps_ret] | rewrite Hrecall; apply keeps_ret]
    | _ => same_step
    end).
Qed.
End unnoticed.

Section unnoticed_faults.
Context {W : Type} `{driver W, customiser W}.
Variable desc : hw_description.
Variable conf : configuration.
Variable hw : dpu_hw.
Variable junk : list Z.
Variable poll_fuel : nat.
Variables slice_id member_id : nat.
Variables (program : option (option Z)) (address : Z).

(** A debugger that stops a DPU other than the first of its interface does not
    notice a fault it has: no breakpoint is ever recorded, and of the other faults only
    those its program remembers. *)
Theorem faults_of_other_dpus_unnoticed s : (0 < member_id < 8)%nat ->
  let r := ci_debug_init_dpu desc conf hw junk poll_fuel slice_id member_id program address s in
  status_of r <> None ->
  bkp (context r.1) = bkp (context s)
  /\ (get_error_store_symbol program address = None -> dma (context r.1) = dma (context s) /\ mem (context r.1) = mem (context s)).
Proof using.
  intros Hm r Hr.
  split; [| intros Hsymbol; split].
  - apply (keeps_run (fun s1 => bkp (context s1) = bkp (context s))); [| done | done].
    apply same_init; [done | done |]. left. intros word. by apply same_recall.
  - apply (keeps_run (fun s1 => dma (context s1) = dma (context s))); [| done | done]. apply same_init; [done | done | by right].
  - apply (keeps_run (fun s1 => mem (context s1) = mem (context s))); [| done | done]. apply same_init; [done | done | by right].
Qed.
End unnoticed_faults.

(** * Examples *)

Definition stopped_context : dpu_context_t :=
  {| Checkpoint.nr_threads := 2; Checkpoint.nr_registers := 2; Checkpoint.nr_atomic_bits := 4; Checkpoint.iram_size := 16; Checkpoint.mram_size := 16;
     Checkpoint.wram_size := 16; Checkpoint.iram := None; Checkpoint.mram := None; Checkpoint.wram := None;
     Checkpoint.registers := [1; 2; 3; 4]; Checkpoint.pcs := [5; 6]; Checkpoint.atomic_register := [true; false; true; false];
     Checkpoint.zero_flags := [true; false]; Checkpoint.carry_flags := [true; true]; Checkpoint.nr_of_running_threads := 0;
     Checkpoint.scheduling := [0xff; 0xff]; Checkpoint.bkp_fault := false; Checkpoint.dma_fault := false; Checkpoint.mem_fault := false;
     Checkpoint.bkp_fault_thread_index := 0; Checkpoint.dma_fault_thread_index := 0; Checkpoint.mem_fault_thread_index := 0; Checkpoint.bkp_fault_id := 0 |}.

Definition cleared_context : dpu_context_t := with_registers (replicate 4 0) (replicate 4 false) (replicate 2 false) (replicate 2 false) stopped_context.

Lemma registers_roundtrip_witness :
  let raw := replicate context_size_in_words 0x55555555 in
  exists raw', format_registers 4 2 2 stopped_context raw = Some raw' /\ raw' !! 64%nat = Some 2 /\ raw' !! 641%nat = Some 1
    /\ extract_registers 4 2 2 raw' cleared_context = Some stopped_context.
Proof.
  intros raw. destruct (registers_roundtrip 4 2 1 (proj1 (Nat.leb_le 4 256) eq_refl) (proj1 (Nat.leb_le 2 24) eq_refl) (le_n 1) (proj1 (Nat.leb_le 2 24) eq_refl)
    stopped_context cleared_context raw) as (raw' & E & _ & Eback); [by split_and! | by split_and! | apply length_replicate |].
  exists raw'. split; [exact E |]. assert (Eraw : format_registers 4 2 2 stopped_context raw = Some raw') by exact E. clear E.
  apply (f_equal (fun o => (o ≫= lookup 64%nat, o ≫= lookup 641%nat))) in Eraw. vm_compute in Eraw. injection Eraw as E1 E2.
  split; [by rewrite E1 |]. split; [by rewrite E2 | exact Eback].
Defined.

(** All the DPUs of the first interface have a fault of their DMA, no thread runs. *)
Definition faulting : driver (Z * list Z) :=
  {| commit_commands := @commit_commands _ obedient;
     update_commands w :=
       (w, map (fun i => Z.lor (if (i =? 0)%nat && (word_at w.2 0 =? CI_DMA_FAULT_READ_AND_CLR_FRAME) then 0xff else 0)
                           (Z.lor 0x000000ff00000000 (if CI_MASK_ON w.1 i then 0 else 0x00ff000000000000))) (seq 0 8), true) |}.

Definition small_dpu : dpu_hw := {| nr_of_threads := 2; nr_of_atomic_bits := 4; nr_of_work_registers_per_thread := 2; iram_size := 16 |}.

Definition stopped_session : session (Z * list Z) :=
  {| machine := example_rank; context := stopped_context;
     debug := {| debug_color := 0; debug_result := []; debug_slice_info := []; is_rank_for_debugger := false |} |}.

Local Abbreviation example_stop member_id :=
  (@ci_debug_init_dpu _ faulting agreeing (example_hw 0x99) not_switching small_dpu (replicate 8 0) 10 0 member_id (Some None) 0 stopped_session).

(** The fault of the first DPU is noticed, that of the second is not. *)
Lemma faults_of_other_dpus_unnoticed_witness :
  dma (context (example_stop 0%nat).1) = (true, 0) /\ dma (context (example_stop 1%nat).1) = (false, 0).
Proof.
  split; [vm_compute; reflexivity |]. assert (Hr : status_of (example_stop 1%nat) <> None) by (vm_compute; discriminate).
  assert (Hm : (0 < 1 < 8)%nat) by lia.
  exact (proj1 (proj2 (@faults_of_other_dpus_unnoticed _ faulting agreeing (example_hw 0x99) not_switching small_dpu (replicate 8 0) 10 0 1 (Some None) 0
    stopped_session Hm Hr) eq_refl)).
Defined.
