(* ===== verification/Properties.v ===== *)
(** The properties that configure a rank
    (library/src/backends/commons/src/properties/dpu_properties.c and
    dpu_properties_loader.c): a table of names and values, filled from lines of
    files, from a text, or from a profile of the form name=value,name=value, which the
    environment completes.

    A string is the list of its characters, without the one that ends it; the code
    cuts strings in place, so that what is read again is what was left.
    [allocates k] tells whether the [k]-th allocation succeeds.  Files are their
    lines, as getline gives them.  Messages are left out.

    Theorems: properties refine a finite map; a profile is read back as written,
    the later definition of a name winning, whether it is in the environment or not;
    trimming; a text is never loaded. *)
From S2P Require Import Prelude Status.
From stdpp Require Import list gmap.
#[local] Open Scope Z_scope.

(** * Strings *)

Local Abbreviation chars := (list Z).

Definition isspace (c : Z) : bool := (c =? 32) || (9 <=? c) && (c <=? 13).
Definition isprint (c : Z) : bool := (32 <=? c) && (c <=? 126).

(** What precedes the first [c] and what follows it. *)
Fixpoint strchr (l : chars) (c : Z) : option (chars * chars) :=
  match l with
  | [] => None
  | x :: l => if x =? c then Some ([], l) else r ← strchr l c; Some (x :: r.1, r.2)
  end.

(** * The table *)

Record property := { name : chars; value : option chars; used : bool }.

(** [entries]: null before the first property, and once it could not grow. *)
Record props := { nr_properties : nat; properties : option (list property) }.

Record state := { asked : nat; held : props }.

Definition with_held (p : props) (s : state) : state := {| asked := asked s; held := p |}.
Definition with_properties (l : list property) (s : state) : state := with_held {| nr_properties := nr_properties (held s); properties := Some l |} s.

Definition reset_properties : props := {| nr_properties := 0; properties := None |}.

Section properties.
Variable allocates : nat -> bool.
Local Abbreviation op := (cmd state).

Definition allocate : op bool := fun s => ({| asked := S (asked s); held := held s |}, Return (allocates (asked s))).

Definition dpu_properties_create : op bool :=
  ok ← allocate;
  if negb (ok : bool) then mret false else _ ← update (with_held reset_properties); mret true.

Definition dpu_properties_delete : op () := update (with_held reset_properties).

(** The array, where it is read. *)
Definition array : op (list property) :=
  p ← read held;
  if (nr_properties p =? 0)%nat then mret []
  else match properties p with Some l => mret (take (nr_properties p) l) | None => undefined end.

Definition lookup_for_property_called (n : chars) : op (option nat) :=
  l ← array; mret (fst <$> list_find (fun p => name p = n) l).

Definition dpu_properties_get (n : chars) : op (option chars) :=
  found ← lookup_for_property_called n;
  match found with
  | None => mret None
  | Some i =>
    l ← array;
    p ← defined (l !! i);
    _ ← update (with_properties (<[i := {| name := name p; value := value p; used := true |}]> l));
    mret (value p)
  end.

Definition add_properties (n v : chars) : op bool :=
  p ← read held;
  ok ← allocate;
  if negb (ok : bool) then _ ← update (with_held {| nr_properties := nr_properties p; properties := None |}); mret false
  else
    l ← array;
    _ ← update (with_properties l);
    ok ← allocate;
    if negb (ok : bool) then mret false
    else
      ok ← allocate;
      if negb (ok : bool) then mret false
      else
        _ ← update (with_held {| nr_properties := S (nr_properties p); properties := Some (l ++ [{| name := n; value := Some v; used := false |}]) |});
        mret true.

Definition update_properties (i : nat) (v : chars) : op bool :=
  l ← array;
  p ← defined (l !! i);
  ok ← allocate;
  let v := if ok : bool then Some v else None in
  _ ← update (with_properties (<[i := {| name := name p; value := v; used := used p |}]> l));
  mret ok.

Definition dpu_properties_add (n v : chars) : op bool :=
  found ← lookup_for_property_called n;
  match found with
  | Some i => update_properties i v
  | None => add_properties n v
  end.

Definition dpu_properties_get_idx (index : nat) : op (option (chars * option chars * bool)) :=
  p ← read held;
  if (nr_properties p <=? index)%nat then mret None
  else l ← array; e ← defined (l !! index); mret (Some (name e, value e, used e)).

(** The names and values that are told to be unused, by as many turns as there are
    properties. *)
Fixpoint unused_from (turns property_idx : nat) : op (list (chars * option chars)) :=
  match turns with
  | O => mret []
  | S turns =>
    e ← dpu_properties_get_idx property_idx;
    match e with
    | None => mret []
    | Some (n, v, u) => rest ← unused_from turns (S property_idx); mret (if u : bool then rest else (n, v) :: rest)
    end
  end.

Definition dpu_properties_log_unused : op (list (chars * option chars)) := p ← read held; unused_from (S (nr_properties p)) 0.

(** * Lines *)

(** Blank characters are left out at the beginning. *)
Fixpoint skip_blank (l : chars) : chars :=
  match l with
  | [] => []
  | c :: rest => if isspace c || negb (isprint c) then skip_blank rest else l
  end.

(** From the last character to the second, till one that is not a space. *)
Fixpoint cut_end (each_out_char : nat) (result : chars) : chars :=
  match each_out_char with
  | O => result
  | S below =>
    match result !! each_out_char with
    | Some c => if negb (isspace c) && isprint c then result else cut_end below (take each_out_char result)
    | None => cut_end below result
    end
  end.

Definition trimmed (input : chars) : chars :=
  let result := List.filter isprint (skip_blank input) in
  cut_end (length result - 1) result.

Definition trim_string (input : chars) : op (option chars) :=
  ok ← allocate; mret (if ok : bool then Some (trimmed input) else None).

(** Whether all is well, and what the line has become. *)
Definition decode_properties_line (line : chars) : op (bool * chars) :=
  if (length line <? 1)%nat then mret (true, line)
  else
    let begining_of_line := skip_blank line in
    match begining_of_line with
    | [] => mret (true, line)
    | c :: rest =>
      if (c =? 47) && match rest with c' :: _ => c' =? 47 | [] => false end then mret (true, line)
      else
        match strchr begining_of_line 61 with
        | None => mret (true, line)
        | Some (before, after) =>
          let line := take (length line - length begining_of_line) line ++ before in
          property_name ← trim_string before;
          property_value ← trim_string after;
          match property_name, property_value with
          | Some (c :: n), Some (c' :: v) => ok ← dpu_properties_add (c :: n) (c' :: v); mret (ok, line)
          | _, _ => mret (true, line)
          end
        end
    end.

(** ** A text *)

(** The line after the first is decoded again and again: [None] while it lasts. *)
Fixpoint text_turns (turns : nat) (next : chars) : op (option bool) :=
  match turns with
  | O => mret None
  | S turns =>
    r ← decode_properties_line next;
    if negb (r.1 : bool) then mret (Some false) else text_turns turns r.2
  end.

Definition try_load_properties_from_text (turns : nat) (text : chars) : op (option bool) :=
  match strchr text 10 with
  | None => mret (Some true)
  | Some (first, next) =>
    r ← decode_properties_line first;
    if negb (r.1 : bool) then mret (Some false) else text_turns turns next
  end.

(** ** A file *)

Fixpoint try_load_properties_from (lines : list chars) : op bool :=
  match lines with
  | [] => mret true
  | line :: lines => r ← decode_properties_line line; if negb (r.1 : bool) then mret false else try_load_properties_from lines
  end.

Definition try_to_load_properties_file (file : option (list chars)) : op bool :=
  match file with
  | Some lines => try_load_properties_from lines
  | None => mret false
  end.

(** ** A profile *)

(** The first of the two separators. *)
Definition next_separator (text : chars) : option (chars * chars) :=
  match strchr text 44, strchr text 38 with
  | None, legacy => legacy
  | Some sep, Some legacy => if (length legacy.1 <? length sep.1)%nat then Some legacy else Some sep
  | Some sep, None => Some sep
  end.

Fixpoint profile_turns (turns : nat) (current : chars) : op bool :=
  match turns with
  | O => undefined
  | S turns =>
    let '(definition, next) := match next_separator current with Some (d, n) => (d, Some n) | None => (current, None) end in
    match strchr definition 61 with
    | None => mret false
    | Some (n, v) =>
      ok ← dpu_properties_add n v;
      if negb (ok : bool) then mret false
      else match next with Some next => profile_turns turns next | None => mret true end
    end
  end.

(** Each turn leaves a shorter text. *)
Definition try_load_properties_from_profile (text : chars) : op bool :=
  match text with
  | [] => mret true
  | _ => profile_turns (S (length text)) text
  end.

(** * Loading *)

Definition populate_properties_with_default (default_properties : list chars) : op () :=
  for_each default_properties (fun each_property =>
    ok ← allocate;
    if negb (ok : bool) then undefined else _ ← decode_properties_line each_property; mret tt).

Definition load_properties_using_file (primary : option chars) (files : chars -> option (list chars)) (default_properties : list chars) : op () :=
  _ ← populate_properties_with_default default_properties;
  match primary with
  | Some path => _ ← try_to_load_properties_file (files path); mret tt
  | None => mret tt
  end.

(** Into an array of 32 characters: "dpu_", the type, ".cfg" and the one that ends it. *)
Definition properties_file_name_for_type (dpu_type : chars) : op chars :=
  if (length dpu_type + 9 <=? 32)%nat then mret ([100; 112; 117; 95] ++ dpu_type ++ [46; 99; 102; 103]) else undefined.

Definition user_path_to_properties_file_for_type_or_null (home : option chars) (dpu_type : chars) : op (option chars) :=
  file_name ← properties_file_name_for_type dpu_type;
  match home with
  | None => mret None
  | Some user_home => ok ← allocate; mret (if ok : bool then Some (user_home ++ [47] ++ file_name) else None)
  end.

Definition load_properties_for_dpu_type (home : option chars) (files : chars -> option (list chars)) (dpu_type : chars) (default_properties : list chars) : op () :=
  user_properties_file ← user_path_to_properties_file_for_type_or_null home dpu_type;
  load_properties_using_file user_properties_file files default_properties.

(** What is returned: whether there are properties. *)
Definition dpu_properties_load_for_type (home : option chars) (files : chars -> option (list chars)) (dpu_type : chars) (default_properties : list chars) : op bool :=
  created ← dpu_properties_create;
  if negb (created : bool) then mret false
  else _ ← load_properties_for_dpu_type home files dpu_type default_properties; mret true.

Definition dpu_properties_load_from_string (turns : nat) (config : option chars) : op (option bool) :=
  created ← dpu_properties_create;
  if negb (created : bool) then mret (Some false)
  else
    match config with
    | None => mret (Some true)
    | Some text =>
      r ← try_load_properties_from_text turns text;
      match r with
      | None => mret None
      | Some true => mret (Some true)
      | Some false => _ ← dpu_properties_delete; mret (Some false)
      end
    end.

Definition dpu_profile_concat3 (first second third : option chars) : op (option chars) :=
  let first_profile := default [] first in
  let second_profile := default [] second in
  let third_profile := default [] third in
  let empty (l : chars) := match l with [] => true | _ => false end in
  let first_separator := if negb (empty first_profile) && negb (empty second_profile) then [44] else [] in
  let second_separator := if negb (empty third_profile) && (negb (empty first_profile) || negb (empty second_profile)) then [44] else [] in
  ok ← allocate;
  mret (if ok : bool then Some (first_profile ++ first_separator ++ second_profile ++ second_separator ++ third_profile) else None).

(** [base], [user]: UPMEM_PROFILE_BASE and UPMEM_PROFILE. *)
Definition dpu_properties_load_from_profile (base user profile : option chars) : op bool :=
  full_profile ← dpu_profile_concat3 base profile user;
  created ← dpu_properties_create;
  if negb (created : bool) then mret false
  else
    match full_profile with
    | None => mret true
    | Some full_profile =>
      ok ← allocate;
      if negb (ok : bool) then _ ← dpu_properties_delete; mret false
      else
        loaded ← try_load_properties_from_profile full_profile;
        if negb (loaded : bool) then _ ← dpu_properties_delete; mret false else mret true
    end.
End properties.

(** Two profiles as one. *)
Definition join (a b : chars) : chars := match a, b with [], _ => b | _, [] => a | _, _ => a ++ [44] ++ b end.

(** * Properties are a map *)

Definition table (p : props) : list property := default [] (properties p).

Definition binding (e : property) : option (chars * chars) := v ← value e; Some (name e, v).

(** The map, of the properties that have a value. *)
Definition content (p : props) : gmap chars chars := list_to_map (omap binding (table p)).

(** Each name once, each with a value. *)
Record good (p : props) : Prop := {
  good_number : nr_properties p = length (table p);
  good_names : NoDup (name <$> table p);
  good_values : Forall (fun e => is_Some (value e)) (table p) }.

Lemma array_good s : good (held s) -> array s = (s, Return (table (held s))).
Proof.
  intros [Hn _ _]. unfold array, mbind, cmd_bind, read. rewrite Hn. unfold table. destruct (properties (held s)) as [[| e l] |]; cbn -[take]; [done | | done].
  change (S (length l)) with (length (e :: l)). by rewrite firstn_all.
Qed.

Lemma found_content (l : list property) n : NoDup (name <$> l) ->
  list_to_map (M := gmap chars chars) (omap binding l) !! n = (e ← snd <$> list_find (fun p => name p = n) l; value e).
Proof.
  induction l as [| e l IH]; intros Hn; [done |]. cbn [fmap list_fmap] in Hn. apply NoDup_cons in Hn as [He Hn]. cbn [omap list_omap].
  cbn [list_find]. destruct (decide (name e = n)) as [<- | Hne].
  - cbn. unfold binding. destruct (value e) as [v |] eqn:Ev; cbn; rewrite ?Ev; [by apply lookup_insert_eq |].
    apply not_elem_of_list_to_map. intros Hin. apply He. apply list_elem_of_fmap in Hin as ([n' v'] & E & Hin). apply list_elem_of_omap in Hin as (x & Hx & Ex).
    apply list_elem_of_fmap. exists x. split; [| done]. unfold binding in Ex. destruct (value x); [| done]. cbn in Ex, E. injection Ex as <- <-. done.
  - cbn. unfold binding at 1. destruct (value e) as [v |]; cbn; [rewrite lookup_insert_ne by done |].
    all: rewrite IH by done; by destruct (list_find _ l) as [[i e'] |].
Qed.

Lemma content_iff p n v : NoDup (name <$> table p) ->
  content p !! n = Some v <-> exists i e, table p !! i = Some e /\ name e = n /\ value e = Some v.
Proof.
  intros Hn. unfold content. rewrite found_content by done. split.
  - intros E. destruct (list_find _ _) as [[i e] |] eqn:Ef; [| done]. apply list_find_Some in Ef as (Hi & Hname & _). by exists i, e.
  - intros (i & e & Hi & Hname & Hv). destruct (list_find (fun p => name p = n) (table p)) as [[j e'] |] eqn:Ef.
    + apply list_find_Some in Ef as (Hj & Hname' & _).
      assert (j = i) as -> by (apply (NoDup_lookup _ _ _ n Hn); rewrite list_lookup_fmap; [by rewrite Hj, <- Hname' | by rewrite Hi, <- Hname]).
      cbn. congruence.
    + apply list_find_None in Ef. rewrite Forall_forall in Ef. by destruct (Ef e (list_elem_of_lookup_2 _ _ _ Hi)).
Qed.

(** A value is set, of a property that is there or of a new one. *)
Lemma content_set p p' n v : NoDup (name <$> table p) -> NoDup (name <$> table p') ->
  (exists i e, table p' !! i = Some e /\ name e = n /\ value e = Some v) ->
  (forall i e, name e <> n -> table p !! i = Some e <-> table p' !! i = Some e) -> content p' = <[n := v]> (content p).
Proof.
  intros Hp Hp' Hset Hsame. apply map_eq. intros m. destruct (decide (m = n)) as [-> | Hne].
  - rewrite lookup_insert_eq. by apply content_iff.
  - rewrite lookup_insert_ne by done. apply option_eq. intros w. rewrite !content_iff by done.
    split; intros (i & e & Hi & <- & Hv); exists i, e; (split; [by apply Hsame | done]).
Qed.

Section memory.
Variable allocates : nat -> bool.
(** There is memory. *)
Hypothesis Hall : forall k, allocates k = true.

Lemma allocate_eq s : allocate allocates s = ({| asked := S (asked s); held := held s |}, Return true).
Proof using Hall. unfold allocate. by rewrite Hall. Qed.

Lemma lookup_eq n s : good (held s) -> lookup_for_property_called n s = (s, Return (fst <$> list_find (fun p => name p = n) (table (held s)))).
Proof using. intros Hs. unfold lookup_for_property_called, mbind, cmd_bind. by rewrite array_good. Qed.

Lemma set_value s i e n v u : good (held s) -> table (held s) !! i = Some e -> name e = n ->
  let s' := with_properties (<[i := {| name := n; value := Some v; used := u |}]> (table (held s))) s in
  good (held s') /\ content (held s') = <[n := v]> (content (held s)).
Proof using.
  intros [Hn Hnames Hvalues] Hi Hname s'. subst n.
  assert (Hl : name <$> table (held s') = name <$> table (held s)).
  { unfold s', table at 1. cbn. rewrite list_fmap_insert. apply list_insert_id. by rewrite list_lookup_fmap, Hi. }
  assert (Hi' : table (held s') !! i = Some {| name := name e; value := Some v; used := u |}).
  { unfold s', table at 1. cbn. apply list_lookup_insert_eq. by apply lookup_lt_Some in Hi. }
  split; [split |].
  - unfold s', table at 1. cbn. by rewrite length_insert.
  - by rewrite Hl.
  - unfold s', table at 1. cbn. apply Forall_insert; [done | by eexists].
  - apply content_set; [done | by rewrite Hl | by eexists i, _ |].
    intros j x Hx. unfold s', table at 2. cbn. destruct (decide (j = i)) as [-> | Hne]; [| by rewrite list_lookup_insert_ne].
    change (table (held s') !! i = Some {| name := name e; value := Some v; used := u |}) in Hi'. unfold s', table at 1 in Hi'. cbn in Hi'.
    rewrite Hi', Hi. split; intros [= <-]; by destruct Hx.
Qed.

Lemma append_value p n v : good p -> Forall (fun e => name e <> n) (table p) ->
  let p' := {| nr_properties := S (nr_properties p); properties := Some (table p ++ [{| name := n; value := Some v; used := false |}]) |} in
  good p' /\ content p' = <[n := v]> (content p).
Proof using.
  intros [Hn Hnames Hvalues] Hnew p'. rewrite Forall_forall in Hnew.
  assert (Et : table p' = table p ++ [{| name := n; value := Some v; used := false |}]) by done.
  assert (Hnames' : NoDup (name <$> table p')).
  { rewrite Et, fmap_app. apply NoDup_app. split_and!; [done | | apply NoDup_singleton].
    intros x (e & -> & He)%list_elem_of_fmap Hx%list_elem_of_singleton. by apply (Hnew e He). }
  split; [split; [change (S (nr_properties p) = length (table p')); rewrite Et, length_app, Hn; cbn; lia | done | rewrite Et; apply Forall_app; split; [done | by repeat econstructor]] |].
  apply content_set; [done | done | | rewrite Et].
  - eexists (length (table p)), _. rewrite Et. split; [rewrite lookup_app_r, Nat.sub_diag by lia; reflexivity | done].
  - intros i e He. rewrite lookup_app_Some. split; [by left |]. intros [? | [_ Hi]]; [done |].
    apply list_lookup_singleton_Some in Hi as [_ <-]. by destruct He.
Qed.

Lemma add_good n v s : good (held s) ->
  exists s', dpu_properties_add allocates n v s = (s', Return true) /\ good (held s') /\ content (held s') = <[n := v]> (content (held s)).
Proof using Hall.
  intros Hs. unfold dpu_properties_add, mbind, cmd_bind. rewrite lookup_eq by done.
  destruct (list_find _ (table (held s))) as [[i e] |] eqn:Ef; cbn [fmap option_fmap option_map fst].
  - apply list_find_Some in Ef as (Hi & Hname & _). unfold update_properties, mbind, cmd_bind. rewrite array_good by done. cbn [defined mret cmd_ret].
    rewrite Hi. cbn [defined mret cmd_ret]. rewrite allocate_eq. eexists. split; [reflexivity |].
    rewrite Hname. exact (set_value {| asked := S (asked s); held := held s |} i e n v (used e) Hs Hi Hname).
  - apply list_find_None in Ef. unfold add_properties, mbind, cmd_bind, read, update. rewrite allocate_eq. cbn [negb].
    rewrite array_good by done. rewrite allocate_eq. cbn [negb]. rewrite allocate_eq. cbn [negb]. eexists. split; [reflexivity |].
    exact (append_value (held s) n v Hs Ef).
Qed.

Lemma get_good n s : good (held s) ->
  exists s', dpu_properties_get n s = (s', Return (content (held s) !! n)) /\ good (held s') /\ content (held s') = content (held s).
Proof using.
  intros Hs. unfold dpu_properties_get, mbind, cmd_bind, content. rewrite lookup_eq, found_content by (done || apply Hs).
  destruct (list_find _ (table (held s))) as [[i e] |] eqn:Ef; cbn [fmap option_fmap option_map fst snd].
  - apply list_find_Some in Ef as (Hi & Hname & _). rewrite array_good by done. rewrite Hi. cbn [defined mret cmd_ret mbind option_bind].
    pose proof (good_values _ Hs) as Hv. rewrite Forall_forall in Hv. destruct (Hv e (list_elem_of_lookup_2 _ _ _ Hi)) as [v Ev].
    eexists. split; [reflexivity |]. rewrite Ev, Hname. destruct (set_value s i e n v true Hs Hi Hname) as [Hg Hc]. split; [exact Hg |].
    unfold content in Hc. rewrite Hc. apply insert_id. rewrite found_content by apply Hs.
    destruct (list_find _ (table (held s))) as [[j x] |] eqn:Ef.
    + apply list_find_Some in Ef as (Hj & Hx & _).
      assert (j = i) as -> by (apply (NoDup_lookup _ _ _ n (good_names _ Hs)); rewrite list_lookup_fmap; [by rewrite Hj, <- Hx | by rewrite Hi, <- Hname]).
      cbn. congruence.
    + apply list_find_None in Ef. rewrite Forall_forall in Ef. by destruct (Ef e (list_elem_of_lookup_2 _ _ _ Hi)).
  - by exists s.
Qed.

(** ** Profiles *)

Definition set_all (l : list (chars * chars)) (m : gmap chars chars) : gmap chars chars := fold_left (fun m p => <[p.1 := p.2]> m) l m.

(** The definitions of a text as they are cut. *)
Fixpoint split (text : chars) : list chars :=
  match text with
  | [] => [[]]
  | c :: text =>
    if (c =? 44) || (c =? 38) then [] :: split text
    else match split text with d :: l => (c :: d) :: l | [] => [[c]] end
  end.

Definition definitions (text : chars) : option (list (chars * chars)) :=
  match text with [] => Some [] | _ => mapM (fun d => strchr d 61) (split text) end.

Lemma next_separator_cons c l : next_separator (c :: l) =
  if (c =? 44) || (c =? 38) then Some ([], l) else r ← next_separator l; Some (c :: r.1, r.2).
Proof using.
  unfold next_separator. cbn [strchr]. destruct (Z.eqb_spec c 44) as [-> | H44]; cbn; [by destruct (strchr l 38) as [[] |] |].
  destruct (Z.eqb_spec c 38) as [-> | H38]; cbn.
  - by destruct (strchr l 44) as [[a b] |].
  - destruct (strchr l 44) as [[a b] |], (strchr l 38) as [[a' b'] |]; cbn; try done.
    by destruct (match length a with O => false | S m' => (length a' <=? m')%nat end).
Qed.

Lemma split_next text : split text = match next_separator text with Some (d, next) => d :: split next | None => [text] end.
Proof using.
  induction text as [| c text IH]; [done |]. rewrite next_separator_cons. cbn [split]. destruct ((c =? 44) || (c =? 38)); [done |].
  rewrite IH. by destruct (next_separator text) as [[d next] |].
Qed.

Lemma next_shorter text d next : next_separator text = Some (d, next) -> (length next < length text)%nat.
Proof using.
  revert d. induction text as [| c text IH]; intros d; [done |]. rewrite next_separator_cons. destruct ((c =? 44) || (c =? 38)); [intros [= _ <-]; cbn; lia |].
  destruct (next_separator text) as [[d' next'] |]; [| done]. intros [= _ <-]. specialize (IH d' eq_refl). cbn. lia.
Qed.

(** The table after a profile: its definitions up to the first that is wrong. *)
Lemma profile_turns_eq turns text s : good (held s) -> (length text < turns)%nat ->
  exists s' ok, profile_turns allocates turns text s = (s', Return ok) /\ good (held s')
  /\ match mapM (fun d => strchr d 61) (split text) with
     | Some l => ok = true /\ content (held s') = set_all l (content (held s))
     | None => ok = false
     end.
Proof using Hall.
  revert text s. induction turns as [| turns IH]; intros text s Hs Hlen; [lia |]. rewrite split_next. cbn [profile_turns].
  destruct (next_separator text) as [[d next] |] eqn:En; cbn [mapM].
  - destruct (strchr d 61) as [[n v] |] eqn:Ed; cbn [mbind option_bind]; [| by exists s, false].
    destruct (add_good n v s Hs) as (s1 & E1 & H1 & C1). unfold mbind, cmd_bind. rewrite E1. cbn [negb].
    destruct (IH next s1 H1) as (s' & ok & E & Hg & Hc); [apply next_shorter in En; lia |].
    exists s', ok. split_and!; [done | done |]. destruct (mapM _ (split next)) as [l |]; cbn; [| done].
    destruct Hc as [-> ->]. by rewrite C1.
  - destruct (strchr text 61) as [[n v] |] eqn:Ed; cbn [mbind option_bind]; [| by exists s, false].
    destruct (add_good n v s Hs) as (s1 & E1 & H1 & C1). unfold mbind, cmd_bind. rewrite E1. cbn [negb]. by exists s1, true.
Qed.

Lemma profile_eq text s : good (held s) ->
  exists s' ok, try_load_properties_from_profile allocates text s = (s', Return ok) /\ good (held s')
  /\ match definitions text with
     | Some l => ok = true /\ content (held s') = set_all l (content (held s))
     | None => ok = false
     end.
Proof using Hall.
  intros Hs. destruct text as [| c text]; [by exists s, true |]. apply profile_turns_eq; [done | lia].
Qed.

Lemma empty_good : good reset_properties.
Proof using. by split; [| apply NoDup_nil_2 | apply Forall_nil]. Qed.

(** The text of a profile the environment completes. *)
Definition full_text (base user profile : option chars) : chars := join (join (default [] base) (default [] profile)) (default [] user).

Lemma concat_eq first second third s : dpu_profile_concat3 allocates first second third s
  = ({| asked := S (asked s); held := held s |}, Return (Some (full_text first third second))).
Proof using Hall.
  unfold dpu_profile_concat3, mbind, cmd_bind. rewrite allocate_eq. cbn [mret cmd_ret]. do 3 f_equal. unfold full_text, join.
  destruct (default [] first) as [| a l1], (default [] second) as [| b l2], (default [] third) as [| c l3]; cbn; rewrite ?app_nil_r, <- ?app_assoc; done.
Qed.

(** C39: a profile is loaded, completed by the environment, exactly when each of its
    definitions has a sign of equality; the properties are then those of the
    definitions taken in order, and no property otherwise. *)
Theorem profile_loaded base user profile s :
  exists s' ok, dpu_properties_load_from_profile allocates base user profile s = (s', Return ok) /\ good (held s')
  /\ match definitions (full_text base user profile) with
     | Some l => ok = true /\ content (held s') = set_all l ∅
     | None => ok = false /\ held s' = reset_properties
     end.
Proof using Hall.
  unfold dpu_properties_load_from_profile, mbind, cmd_bind. rewrite concat_eq.
  unfold dpu_properties_create, mbind, cmd_bind. rewrite allocate_eq. cbn [negb]. unfold update. cbn beta iota delta [mret cmd_ret negb]. rewrite allocate_eq. cbn [negb].
  set (s0 := {| asked := _; held := _ |}). destruct (profile_eq (full_text base user profile) s0 empty_good) as (s1 & ok & -> & Hg & Hc).
  destruct (definitions (full_text base user profile)) as [l |].
  - destruct Hc as [-> Hc]. by exists s1, true.
  - subst ok. eexists _, false. split; [reflexivity |]. split; [exact empty_good | done].
Qed.
End memory.

(** * Writing profiles *)

Definition definition_text (p : chars * chars) : chars := p.1 ++ 61 :: p.2.

Fixpoint profile_text (l : list (chars * chars)) : chars :=
  match l with
  | [] => []
  | [p] => definition_text p
  | p :: l => definition_text p ++ 44 :: profile_text l
  end.

(** A name and a value that can be written: no separator, no sign of equality in the name. *)
Definition clean (p : chars * chars) : Prop :=
  Forall (fun c => c <> 44 /\ c <> 38 /\ c <> 61) p.1 /\ Forall (fun c => c <> 44 /\ c <> 38) p.2.

Lemma strchr_found c a b : Forall (fun x => x <> c) a -> strchr (a ++ c :: b) c = Some (a, b).
Proof.
  induction a as [| x a IH]; intros Ha; cbn [app strchr]; [by rewrite Z.eqb_refl |]. apply Forall_cons in Ha as [Hx Ha].
  rewrite (proj2 (Z.eqb_neq x c)) by done. by rewrite IH.
Qed.

Lemma split_definition d rest : Forall (fun c => c <> 44 /\ c <> 38) d -> split (d ++ 44 :: rest) = d :: split rest /\ split d = [d].
Proof.
  induction d as [| c d IH]; intros Hd; [done |]. apply Forall_cons in Hd as [[H1 H2] Hd]. cbn [app split].
  rewrite (proj2 (Z.eqb_neq c 44)), (proj2 (Z.eqb_neq c 38)) by done. cbn [orb]. destruct (IH Hd) as [-> ->]. done.
Qed.

Lemma clean_definition p : clean p -> Forall (fun c => c <> 44 /\ c <> 38) (definition_text p) /\ strchr (definition_text p) 61 = Some p.
Proof.
  intros [Hn Hv]. split.
  - unfold definition_text. apply Forall_app. split; [| by constructor]. eapply Forall_impl; [exact Hn | by intros ? (? & ? & ?)].
  - destruct p as [n v]. apply strchr_found. eapply Forall_impl; [exact Hn | by intros ? (? & ? & ?)].
Qed.

Lemma definitions_written l : Forall clean l -> definitions (profile_text l) = Some l.
Proof.
  intros Hl. assert (Hs : l <> [] -> mapM (fun d => strchr d 61) (split (profile_text l)) = Some l).
  { induction Hl as [| p l Hp Hl IH]; intros Hne; [done |]. apply clean_definition in Hp as [Hd Hc]. destruct l as [| q l].
    - cbn [profile_text]. rewrite (proj2 (split_definition _ [] Hd)). cbn [mapM]. by rewrite Hc.
    - change (profile_text (p :: q :: l)) with (definition_text p ++ 44 :: profile_text (q :: l)).
      rewrite (proj1 (split_definition _ _ Hd)). cbn [mapM]. rewrite Hc. cbn [mbind option_bind]. by rewrite IH. }
  unfold definitions. destruct l as [| p l]; [done |]. rewrite <- Hs by done.
  destruct (profile_text (p :: l)) as [| c text] eqn:E; [| done]. exfalso. destruct p as [[| x n] v], l; done.
Qed.

Lemma profile_text_app a b : profile_text (a ++ b) = join (profile_text a) (profile_text b).
Proof.
  assert (Hne : forall p l, profile_text (p :: l) <> []) by (intros [[| x n] v] []; done).
  assert (Hcons : forall p l, l <> [] -> profile_text (p :: l) = definition_text p ++ 44 :: profile_text l) by (intros p []; done).
  destruct b as [| q b].
  - rewrite app_nil_r. by destruct (profile_text a).
  - induction a as [| p a IH]; [done |]. rewrite <- app_comm_cons, Hcons, IH by (by destruct a).
    destruct (profile_text (q :: b)) as [| c text] eqn:Eb; [by destruct (Hne q b) |].
    destruct a as [| p' a].
    + cbn [profile_text]. by destruct p as [[| x n] v].
    + rewrite (Hcons p (p' :: a)) by done. destruct (profile_text (p' :: a)) as [| c' text'] eqn:Ea; [by destruct (Hne p' a) |].
      destruct p as [[| x n] v]; unfold definition_text; cbn; by rewrite <- ?app_assoc.
Qed.

(** Of three profiles that were written, the definitions are taken in order. *)
Lemma full_text_written b p u : Forall clean (b ++ p ++ u) ->
  definitions (full_text (Some (profile_text b)) (Some (profile_text u)) (Some (profile_text p))) = Some (b ++ p ++ u).
Proof.
  intros Hc. change (definitions (join (join (profile_text b) (profile_text p)) (profile_text u)) = Some (b ++ p ++ u)). rewrite <- !profile_text_app, <- app_assoc. by apply definitions_written.
Qed.

(** * Lines *)

(** Characters that show, and those that do not. *)
Definition shows (c : Z) : Prop := isspace c = false /\ isprint c = true.
Definition is_blank (c : Z) : Prop := isspace c = true \/ isprint c = false.

(** A name or a value without blanks around: printable, its ends show. *)
Definition word (w : chars) : Prop :=
  Forall (fun c => isprint c = true) w /\ (exists c, head w = Some c /\ shows c) /\ (exists c, last w = Some c /\ shows c).

Lemma skip_blanks b l : Forall is_blank b -> skip_blank (b ++ l) = skip_blank l.
Proof.
  induction b as [| c b IH]; intros Hb; [done |]. apply Forall_cons in Hb as [Hc Hb]. cbn [app skip_blank].
  assert (isspace c || negb (isprint c) = true) as -> by (destruct Hc as [-> | ->]; [done | apply orb_true_r]). by apply IH.
Qed.

Lemma skip_word w l : word w -> skip_blank (w ++ l) = w ++ l.
Proof. intros (_ & (c & Hc & Hs & Hp) & _). destruct w as [| x w]; [done |]. cbn in Hc. injection Hc as ->. cbn [app skip_blank]. by rewrite Hs, Hp. Qed.

Lemma filter_word w : Forall (fun c => isprint c = true) w -> List.filter isprint w = w.
Proof. induction w as [| c w IH]; intros Hw; [done |]. apply Forall_cons in Hw as [Hc Hw]. cbn. by rewrite Hc, IH. Qed.

Lemma cut_spaces w e : word w -> Forall (fun c => isspace c = true) e -> cut_end (length (w ++ e) - 1) (w ++ e) = w.
Proof.
  intros Hw. assert (Hpos : (0 < length w)%nat) by (destruct Hw as (_ & (c & Hc & _) & _); destruct w; [done | cbn; lia]).
  induction e as [| c e IH] using rev_ind; intros He.
  - rewrite app_nil_r. destruct Hw as (_ & _ & (c & Hc & Hs & Hp)). rewrite last_lookup in Hc.
    replace (length w - 1)%nat with (pred (length w)) by lia. destruct (pred (length w)) as [| k] eqn:Ek; [done |]. cbn [cut_end]. by rewrite Hc, Hs, Hp.
  - apply Forall_app in He as [He Hc]. apply Forall_cons in Hc as [Hc _]. rewrite app_assoc.
    replace (length ((w ++ e) ++ [c]) - 1)%nat with (length (w ++ e)) by (rewrite (length_app (w ++ e)); cbn; lia).
    assert (Hl : length (w ++ e) = S (length (w ++ e) - 1)) by (rewrite length_app; lia). rewrite Hl at 1. cbn [cut_end]. rewrite <- Hl.
    rewrite lookup_app_r, Nat.sub_diag by done. cbn [lookup list_lookup]. rewrite Hc. cbn [negb andb]. rewrite take_app_length. by apply IH.
Qed.

Lemma trimmed_word b w e : Forall is_blank b -> word w -> Forall is_blank e -> trimmed (b ++ w ++ e) = w.
Proof.
  intros Hb Hw He. unfold trimmed. rewrite skip_blanks, skip_word by done. rewrite List.filter_app, (filter_word w) by apply Hw.
  apply cut_spaces; [done |]. induction He as [| c e Hc He IH]; [done |]. cbn. destruct (isprint c) eqn:Ep; [| done].
  constructor; [| done]. destruct Hc as [? | ?]; [done | congruence].
Qed.

Section lines.
Variable allocates : nat -> bool.
Hypothesis Hall : forall k, allocates k = true.

(** A line that gives a value to a name, with blanks around both, sets the
    property, unless it starts as a comment. *)
Theorem line_defines b1 n e1 b2 v e2 s : good (held s) -> Forall is_blank b1 -> Forall is_blank e1 -> Forall is_blank b2 -> Forall is_blank e2 ->
  word n -> word v -> Forall (fun c => c <> 61) (n ++ e1) -> take 2 n <> [47; 47] ->
  exists s' line, decode_properties_line allocates (b1 ++ n ++ e1 ++ 61 :: b2 ++ v ++ e2) s = (s', Return (true, line))
    /\ good (held s') /\ content (held s') = <[n := v]> (content (held s)).
Proof using Hall.
  intros Hs Hb1 He1 Hb2 He2 Hn Hv Heq Hc.
  assert (Hne : exists c n', n = c :: n') by (destruct Hn as (_ & (c & Hh & _) & _); destruct n; [done | by eexists _, _]).
  assert (Hve : exists c v', v = c :: v') by (destruct Hv as (_ & (c & Hh & _) & _); destruct v; [done | by eexists _, _]).
  assert (Ht1 : trimmed (n ++ e1) = n) by (apply (trimmed_word []); done).
  assert (Ht2 : trimmed (b2 ++ v ++ e2) = v) by (by apply trimmed_word).
  assert (Hsep : strchr (n ++ e1 ++ 61 :: b2 ++ v ++ e2) 61 = Some (n ++ e1, b2 ++ v ++ e2)) by (rewrite app_assoc; by apply strchr_found).
  unfold decode_properties_line. destruct (Nat.ltb_spec (length (b1 ++ n ++ e1 ++ 61 :: b2 ++ v ++ e2)) 1) as [Hl | _];
    [rewrite !length_app in Hl; cbn in Hl; lia |]. cbv zeta. rewrite skip_blanks, skip_word, Hsep by done.
  destruct Hne as (c & n' & ->). cbn [app]. replace ((c =? 47) && match n' ++ e1 ++ 61 :: b2 ++ v ++ e2 with c' :: _ => c' =? 47 | [] => false end) with false.
  - unfold trim_string, mbind, cmd_bind. rewrite !allocate_eq by done. cbn beta iota delta [mret cmd_ret]. rewrite allocate_eq by done. cbn beta iota delta [mret cmd_ret].
    change ((c :: n') ++ e1) with (c :: n' ++ e1) in Ht1. rewrite Ht1, Ht2. destruct Hve as (c' & v' & ->).
    lazymatch goal with |- context [dpu_properties_add _ ?x ?y ?s0] => destruct (add_good allocates Hall x y s0 Hs) as (s' & E & Hg & Hcont) end.
    rewrite E. by eexists s', _.
  - symmetry. destruct (Z.eqb_spec c 47) as [-> |]; [| done]. destruct n' as [| c' n']; cbn.
    + apply Forall_cons in Heq as [_ Heq]. cbn in Heq.
      destruct e1 as [| x e1]; [done |]. apply Forall_cons in He1 as [[Hx | Hx] _]; cbn; apply Z.eqb_neq; intros ->; done.
    + apply Z.eqb_neq. intros ->. by apply Hc.
Qed.

Lemma decode_good line s : good (held s) -> exists s' line', decode_properties_line allocates line s = (s', Return (true, line')) /\ good (held s').
Proof using Hall.
  intros Hs. unfold decode_properties_line. destruct (_ <? 1)%nat; [by eexists _, _ |]. cbv zeta. destruct (skip_blank line) as [| c rest]; [by eexists _, _ |].
  destruct (_ && _); [by eexists _, _ |]. destruct (strchr (c :: rest) 61) as [[before after] |]; [| by eexists _, _].
  unfold trim_string, mbind, cmd_bind. rewrite !allocate_eq by done. cbn beta iota delta [mret cmd_ret]. rewrite allocate_eq by done. cbn beta iota delta [mret cmd_ret].
  destruct (trimmed before) as [| x n], (trimmed after) as [| y v]; try by eexists _, _.
  lazymatch goal with |- context [dpu_properties_add _ ?n0 ?v0 ?s0] => destruct (add_good allocates Hall n0 v0 s0 Hs) as (s' & E & Hg & _) end.
  rewrite E. by eexists _, _.
Qed.

(** The properties of a text of several lines are never loaded: its second line is
    decoded for ever.  Those of a text of one line are left out. *)
Theorem text_never_loaded turns text s :
  exists s', dpu_properties_load_from_string allocates turns (Some text) s = (s', Return (match strchr text 10 with Some _ => None | None => Some true end))
    /\ (strchr text 10 = None -> content (held s') = ∅).
Proof using Hall.
  assert (Hturns : forall k line s, good (held s) -> exists s', text_turns allocates k line s = (s', Return None)).
  { induction k as [| k IH]; intros line s1 Hs1; [by exists s1 |]. cbn [text_turns]. destruct (decode_good line s1 Hs1) as (s2 & line' & E & H2).
    unfold mbind, cmd_bind. rewrite E. cbn [fst snd negb]. by apply IH. }
  unfold dpu_properties_load_from_string, dpu_properties_create, mbind, cmd_bind. rewrite allocate_eq by done. unfold update. cbn beta iota delta [mret cmd_ret negb].
  set (s0 := with_held _ _). unfold try_load_properties_from_text. destruct (strchr text 10) as [[first next] |]; [| exists s0; split; [reflexivity | intros _; reflexivity]].
  destruct (decode_good first s0 empty_good) as (s1 & line & E & H1). unfold mbind, cmd_bind. rewrite E. cbn [fst snd negb].
  destruct (Hturns turns next s1 H1) as [s2 E2]. rewrite E2. exists s2. split; [reflexivity | discriminate].
Qed.
End lines.

(** * Examples *)

Definition enough (k : nat) : bool := true.
Definition fresh : state := {| asked := 0; held := reset_properties |}.

(** "x=1" in the base profile, "x=2" in the profile, "x=3,y=5" in that of the user. *)
Lemma profile_loaded_witness :
  exists s', dpu_properties_load_from_profile enough (Some [120; 61; 49]) (Some [120; 61; 51; 44; 121; 61; 53]) (Some [120; 61; 50]) fresh = (s', Return true)
    /\ content (held s') !! [120] = Some [51] /\ content (held s') !! [121] = Some [53].
Proof.
  destruct (profile_loaded enough (fun _ => eq_refl) (Some [120; 61; 49]) (Some [120; 61; 51; 44; 121; 61; 53]) (Some [120; 61; 50]) fresh)
    as (s' & ok & E & _ & Hc).
  change (ok = true /\ content (held s') = set_all [([120], [49]); ([120], [50]); ([120], [51]); ([121], [53])] ∅) in Hc. destruct Hc as [-> Hc].
  exists s'. split; [exact E |]. rewrite Hc. split; vm_compute; reflexivity.
Defined.

Lemma blank_space : Forall is_blank [32].
Proof. by repeat constructor. Qed.

Lemma word_one c : shows c -> word [c].
Proof. intros Hc. split; [constructor; [apply Hc | constructor] |]. split; by exists c. Qed.

(** " x = 7". *)
Lemma line_defines_witness :
  exists s' line, decode_properties_line enough [32; 120; 32; 61; 32; 55] fresh = (s', Return (true, line)) /\ content (held s') !! [120] = Some [55].
Proof.
  destruct (line_defines enough (fun _ => eq_refl) [32] [120] [32] [32] [55] [] fresh empty_good blank_space blank_space blank_space (Forall_nil_2 _)
    (word_one 120 (conj eq_refl eq_refl)) (word_one 55 (conj eq_refl eq_refl))) as (s' & line & E & _ & Hc).
  - repeat constructor; discriminate.
  - discriminate.
  - exists s', line. split; [exact E |]. rewrite Hc. vm_compute. reflexivity.
Defined.

(** The table is lost when it cannot grow, but not the number of its properties: the
    next one that is looked for is looked for in a null array. *)
Lemma failed_growth_loses_table :
  let s := (dpu_properties_add (fun k => negb (k =? 3)%nat) [121] [53] (dpu_properties_add enough [120] [49] fresh).1).1 in
  nr_properties (held s) = 1%nat /\ properties (held s) = None /\ (dpu_properties_get [120] s).2 = Undefined.
Proof. by vm_compute. Qed.

(** The value of a property that cannot be replaced is lost. *)
Lemma failed_update_loses_value :
  let s := (dpu_properties_add (fun k => negb (k =? 3)%nat) [120] [53] (dpu_properties_add enough [120] [49] fresh).1).1 in
  (dpu_properties_get [120] s).2 = Return None.
Proof. by vm_compute. Qed.
