(* ===== verification/MramProgram.v ===== *)
(** Copies to and from the MRAM of a DPU made by a program it runs (the end of
    library/src/backends/api/src/dpu_memory.c), for the machines whose host has no
    access to the MRAMs: the DPU is stopped and its memories saved; the buffer goes
    through its working memory, a part at a time, and the program is started once and
    resumed for each of the parts that follow; then all is restored.

    What is asked of the DPU is the class [dpu_access]; an instance is a DPU under a
    debugger (Debug.v).  The program is read from a file: what it does is stated by
    [mram_program], with the memories of the DPU.  [poll_fuel] bounds the wait for the
    DPU, which has no limit; running out is Undefined, as is a buffer that is too
    short.  Buffers are aligned words here, bytes at the entry points; allocations
    succeed.  The lock of the rank and logging are left out.

    Theorems: a copy moves its words between the buffer and the MRAM and leaves the
    other memories as they were, for each size of the working memory; it uses the
    buffer of the first DPU when none has to be aligned. *)
From stdpp Require Import list.
From S2P Require Import Prelude Errors Mask Status CiCommands Ci BitConfig Ufi Mux MramXfer RankConfig Encoder Encodings Debug.
From S2P Require Checkpoint.

Class dpu_access (S : Type) := {
  dpu_enabled : cmd S bool;
  custom_event : Z -> cmd S ();
  context_fill : cmd S ();
  initialize_fault_process : cmd S ();
  extract_pcs : cmd S ();
  extract_context : cmd S ();
  restore_context : cmd S ();
  finalize_fault_process : cmd S ();
  copy_from_iram : Z -> Z -> cmd S (list Z);
  copy_to_iram : Z -> list Z -> cmd S ();
  copy_from_wram : Z -> Z -> cmd S (list Z);
  copy_to_wram : Z -> list Z -> cmd S ();
  boot : bool -> cmd S ();
  poll : cmd S (bool * bool) }.

Inductive dpu_transfer_type_t := DPU_TRANSFER_FROM_MRAM | DPU_TRANSFER_TO_MRAM.

Definition to_mram (t : dpu_transfer_type_t) : bool := match t with DPU_TRANSFER_TO_MRAM => true | DPU_TRANSFER_FROM_MRAM => false end.

Definition PROGRAM_CONTEXT_WRAM_SIZE : Z := 8.
Definition DMA_ACCESS_IDX_1 : Z := 11.
Definition DMA_ACCESS_IDX_2 : Z := 19.

(** The two accesses of the program to the MRAM. *)
Definition dma_access (t : dpu_transfer_type_t) (length : Z) : Z :=
  call (if to_mram t then SDMArri else LDMArri) [REG_R2; REG_R0; length].

Definition patched (t : dpu_transfer_type_t) (program : list Z) : option (list Z) :=
  program ← store program DMA_ACCESS_IDX_1 (dma_access t 255); store program DMA_ACCESS_IDX_2 (dma_access t 0).

Section access.
Context {S : Type} `{dpu_access S}.
Local Abbreviation op := (cmd S).
Variable poll_fuel : nat.
Variable wram_size : Z.
Variable program : list Z.

(** What is given to the program before a part, and taken from it after. *)
Definition load_part (t : dpu_transfer_type_t) (ptr_offset transfer_size : Z) (data : list Z) : op () :=
  if to_mram t then words ← defined (slice data (Z.div ptr_offset 4) transfer_size); copy_to_wram PROGRAM_CONTEXT_WRAM_SIZE words else mret tt.

Definition fetch_part (t : dpu_transfer_type_t) (ptr_offset transfer_size : Z) (data : list Z) : op (list Z) :=
  if to_mram t then mret data
  else words ← copy_from_wram PROGRAM_CONTEXT_WRAM_SIZE transfer_size; defined (blit data (Z.div ptr_offset 4) words).

Fixpoint poll_until (poll_fuel : nat) : op bool :=
  match poll_fuel with
  | O => undefined
  | Datatypes.S poll_fuel => r ← poll; let '(run, fault) := (r : bool * bool) in if run && negb fault then poll_until poll_fuel else mret fault
  end.

Definition run_part (resume : bool) : op () :=
  _ ← boot resume;
  fault ← poll_until poll_fuel;
  if fault : bool then error DPU_ERR_INTERNAL else mret tt.

(** The complete parts after the first, and the place in the buffer. *)
Definition next_part (t : dpu_transfer_type_t) (transfer_size nr_complete_iterations remaining : Z) (r : list Z * Z) (each_iteration : Z) : op (list Z * Z) :=
  let '(data, ptr_offset) := r in
  _ ← load_part t ptr_offset transfer_size data;
  _ ← (if (each_iteration =? nr_complete_iterations - 1) && (remaining =? 0) then copy_to_wram 7 [1] else mret tt);
  _ ← run_part true;
  data ← fetch_part t ptr_offset transfer_size data;
  mret (data, u32 (ptr_offset + u32 (transfer_size * 4))).

Definition last_part (t : dpu_transfer_type_t) (ptr_offset remaining : Z) (data : list Z) : op (list Z) :=
  let transfer_size := Z.div remaining 4 in
  _ ← copy_to_wram 6 [remaining; 1];
  _ ← load_part t ptr_offset transfer_size data;
  _ ← run_part true;
  fetch_part t ptr_offset transfer_size data.

(** All the parts; the buffer is returned. *)
Definition transfer_parts (t : dpu_transfer_type_t) (offset size transfer_size : Z) (data : list Z) : op (list Z) :=
  let transfer_size_in_bytes := u32 (transfer_size * 4) in
  if transfer_size_in_bytes =? 0 then undefined
  else
    let nr_complete_iterations := Z.div size transfer_size_in_bytes in
    let remaining := size mod transfer_size_in_bytes in
    let last := if (nr_complete_iterations =? 0) || (nr_complete_iterations =? 1) && (remaining =? 0) then 1 else 0 in
    _ ← copy_to_wram 5 [offset; transfer_size_in_bytes; last];
    _ ← load_part t 0 transfer_size data;
    _ ← run_part false;
    data ← fetch_part t 0 transfer_size data;
    r ← accumulate (map Z.of_nat (seq 1 (Z.to_nat nr_complete_iterations - 1))) (next_part t transfer_size nr_complete_iterations remaining)
          (data, transfer_size_in_bytes);
    let '(data, ptr_offset) := (r : list Z * Z) in
    if (0 <? remaining) && (0 <? nr_complete_iterations) then last_part t ptr_offset remaining data else mret data.

(** [data]: the words at the first pointer of the matrix. *)
Definition access_mram_using_dpu_program_individual (t : dpu_transfer_type_t) (offset size : Z) (data : list Z) : op (list Z) :=
  enabled ← dpu_enabled;
  if negb (enabled : bool) then error DPU_ERR_DPU_DISABLED
  else if size =? 0 then mret data
  else
    _ ← custom_event DPU_COMMAND_EVENT_START;
    program ← defined (patched t program);
    let wanted := Z.div size 4 + PROGRAM_CONTEXT_WRAM_SIZE in
    let wram_save_size := if wram_size <=? wanted then wram_size else wanted in
    _ ← context_fill;
    _ ← initialize_fault_process;
    _ ← extract_pcs;
    _ ← extract_context;
    iram_save ← copy_from_iram 0 (Z.of_nat (length program));
    wram_save ← copy_from_wram 0 wram_save_size;
    _ ← copy_to_iram 0 program;
    data ← transfer_parts t offset size (u32 (wram_save_size - PROGRAM_CONTEXT_WRAM_SIZE)) data;
    _ ← copy_to_iram 0 iram_save;
    _ ← copy_to_wram 0 wram_save;
    _ ← restore_context;
    _ ← finalize_fault_process;
    _ ← custom_event DPU_COMMAND_EVENT_END;
    mret data.
End access.

(** * The DPUs of a matrix *)

Record buffer := { address : Z; bytes : list Z }.

Section matrix.
Context {S : Type}.
Local Abbreviation op := (cmd S).
(** The DPU of an interface. *)
Variable dpus : nat -> nat -> dpu_access S.
Variable nr_cis nr_dpus_per_ci : nat.
Variable poll_fuel : nat.
Variable wram_size : Z.
Variable mram_access_program : option (list Z).
(** What is in memory that is not initialised. *)
Variable garbage : nat -> Z.

(** An access of [size] bytes at a pointer. *)
Definition access_bytes (slice_id dpu_id : nat) (program : list Z) (t : dpu_transfer_type_t) (offset size : Z) (ptr : list Z) : op (list Z) :=
  let n := Z.to_nat size in
  if (length ptr <? n)%nat then undefined
  else
    data ← @access_mram_using_dpu_program_individual S (dpus slice_id dpu_id) poll_fuel wram_size program t offset size
             (Checkpoint.words 4 (Nat.div n 4) (take n ptr));
    mret (Checkpoint.bytes_of 4 data ++ drop n ptr).

Definition realloc (mram_buffer : list Z) (size : Z) : list Z :=
  let n := Z.to_nat size in take n mram_buffer ++ map garbage (seq (length mram_buffer) (n - length mram_buffer)).

Definition needs_alignment (ptr : buffer) (offset size : Z) : bool :=
  negb (Z.land (address ptr) 3 =? 0) || negb (Z.land offset 7 =? 0) || negb (Z.land size 7 =? 0).

Definition align_down (x : Z) : Z := x - Z.land x 7.
Definition aligned_size_of (offset size : Z) : Z := align_down (u32 (size + Z.land offset 7 + 7)).

(** The buffer of the first DPU, which every access that is aligned takes. *)
Definition first_buffer (ptrs : list (option buffer)) : op buffer := defined (p ← ptrs !! 0%nat; p).

(** The buffers, and the one that is aligned. *)
Local Abbreviation buffers := (list (option buffer) * list Z)%type.

Definition from_mram_of_dpu (program : list Z) (offset size : Z) (slice_id dpu_id idx : nat) (ptr : buffer) (b : buffers) : op buffers :=
  let '(ptrs, mram_buffer) := b in
  if needs_alignment ptr offset size then
    let aligned_size := aligned_size_of offset size in
    mram_buffer ← access_bytes slice_id dpu_id program DPU_TRANSFER_FROM_MRAM (align_down offset) aligned_size (realloc mram_buffer aligned_size);
    copied ← defined (slice mram_buffer (Z.land offset 7) size);
    content ← defined (blit (bytes ptr) 0 copied);
    mret (<[idx := Some {| address := address ptr; bytes := content |}]> ptrs, mram_buffer)
  else
    first ← first_buffer ptrs;
    content ← access_bytes slice_id dpu_id program DPU_TRANSFER_FROM_MRAM offset size (bytes first);
    mret (<[0%nat := Some {| address := address first; bytes := content |}]> ptrs, mram_buffer).

(** The words at the ends that are not wholly written are read before. *)
Definition to_mram_of_dpu (program : list Z) (offset size : Z) (slice_id dpu_id idx : nat) (ptr : buffer) (b : buffers) : op buffers :=
  let '(ptrs, mram_buffer) := b in
  if needs_alignment ptr offset size then
    let aligned_size := aligned_size_of offset size in
    let mram_buffer := realloc mram_buffer aligned_size in
    mram_buffer ← (if Z.land offset 7 =? 0 then mret mram_buffer
                   else access_bytes slice_id dpu_id program DPU_TRANSFER_FROM_MRAM (align_down offset) 8 mram_buffer);
    mram_buffer ← (if Z.land (u32 (size + Z.land offset 7)) 7 =? 0 then mret mram_buffer
                   else
                     let at_end := Z.to_nat (aligned_size - 8) in
                     word ← access_bytes slice_id dpu_id program DPU_TRANSFER_FROM_MRAM (u32 (offset + aligned_size - 8)) 8 (drop at_end mram_buffer);
                     mret (take at_end mram_buffer ++ word));
    source ← defined (slice (bytes ptr) 0 size);
    mram_buffer ← defined (blit mram_buffer (Z.land offset 7) source);
    mram_buffer ← access_bytes slice_id dpu_id program DPU_TRANSFER_TO_MRAM (align_down offset) aligned_size mram_buffer;
    mret (ptrs, mram_buffer)
  else
    first ← first_buffer ptrs;
    _ ← access_bytes slice_id dpu_id program DPU_TRANSFER_TO_MRAM offset size (bytes first);
    mret (ptrs, mram_buffer).

(** The DPUs in the order of the pointers of a matrix. *)
Definition matrix_order : list (nat * nat * nat) :=
  flat_map (fun dpu_id => map (fun slice_id => (slice_id, dpu_id, (dpu_id * nr_cis + slice_id)%nat)) (seq 0 nr_cis)) (seq 0 nr_dpus_per_ci).

Definition for_each_dpu (one : list Z -> nat -> nat -> nat -> buffer -> buffers -> op buffers) (b : buffers) : op buffers :=
  accumulate matrix_order (fun b place =>
    let '(slice_id, dpu_id, idx) := (place : nat * nat * nat) in
    ptr ← defined (b.1 !! idx);
    match ptr with
    | None => mret b
    | Some ptr =>
      enabled ← @dpu_enabled S (dpus slice_id dpu_id);
      if negb (enabled : bool) then mret b
      else match mram_access_program with
           | None => error DPU_ERR_SYSTEM
           | Some program => one program slice_id dpu_id idx ptr b
           end
    end) b.

Definition copy_from_mrams_using_dpu_program (offset size : Z) (ptrs : list (option buffer)) : op (list (option buffer)) :=
  r ← for_each_dpu (fun program => from_mram_of_dpu program offset size) (ptrs, []); mret r.1.

Definition copy_to_mrams_using_dpu_program (offset size : Z) (ptrs : list (option buffer)) : op (list (option buffer)) :=
  r ← for_each_dpu (fun program => to_mram_of_dpu program offset size) (ptrs, []); mret r.1.
End matrix.

(** * A DPU under a debugger *)

Section session.
Context {W : Type} `{driver W, customiser W}.
Variable desc : hw_description.
Variable conf : configuration.
Variable hw : dpu_hw.
Variables mram_size wram_size : Z.
Variable junk : list Z.
Variable poll_fuel : nat.
Variables slice_id member_id : nat.
(** The programs of the debugger, and what the memory it allocates holds. *)
Variables core_dump_program restore_registers_program : option (list Z).
Variable raw_context : list Z.
(** The variable of the loaded program that remembers faults. *)
Variable loaded : option (option Z).
(** dpu_poll_dpu, which notes what runs (Runner.v). *)
Variable dpu_poll_dpu : cmd (session W) (bool * bool).
Local Abbreviation op := (cmd (session W)).

Definition verified (limit : Z) (error_code : dpu_error_t) (o s sum : Z) {A} (nothing : A) (m : op A) : op A :=
  if s =? 0 then mret nothing else if (limit <=? o) || (limit <? sum) then error error_code else m.

Definition dpu_copy_to_iram_for_dpu (o : Z) (source : list Z) : op () :=
  let nb := Z.of_nat (length source) in
  if_enabled slice_id member_id (verified (iram_size hw) DPU_ERR_INVALID_IRAM_ACCESS o nb (o + nb) tt
    (on_machine (on_rank (ci_copy_to_irams_dpu desc slice_id (Z.of_nat member_id) o source nb)))).

Definition dpu_copy_from_iram_for_dpu (o nb : Z) : op (list Z) :=
  let destination := replicate (Z.to_nat nb) 0 in
  if_enabled slice_id member_id (verified (iram_size hw) DPU_ERR_INVALID_IRAM_ACCESS o nb (o + nb) destination
    (on_machine (on_rank (ci_copy_from_irams_dpu desc junk slice_id (Z.of_nat member_id) destination o nb)))).

Definition dpu_copy_to_wram_for_dpu (o : Z) (source : list Z) : op () :=
  let nb := Z.of_nat (length source) in
  if_enabled slice_id member_id (verified wram_size DPU_ERR_INVALID_WRAM_ACCESS o nb (u32 (o + nb)) tt
    (on_machine (on_rank (ci_copy_to_wrams_dpu desc slice_id (Z.of_nat member_id) o source nb)))).

Definition dpu_copy_from_wram_for_dpu (o nb : Z) : op (list Z) :=
  let destination := replicate (Z.to_nat nb) 0 in
  if_enabled slice_id member_id (verified wram_size DPU_ERR_INVALID_WRAM_ACCESS o nb (u32 (o + nb)) destination
    (on_machine (on_rank (ci_copy_from_wrams_dpu desc junk slice_id (Z.of_nat member_id) destination o nb)))).

(** dpu_context_fill_from_rank, and no thread in the schedule. *)
Definition empty_context : op () :=
  s ← read id;
  c ← Checkpoint.dpu_context_fill (fun _ => true) (context s) (Z.of_nat (nr_of_threads hw)) (Z.of_nat (nr_of_work_registers_per_thread hw))
        (Z.of_nat (nr_of_atomic_bits hw)) (iram_size hw) mram_size wram_size;
  update (with_context (with_threads (Checkpoint.pcs c) (replicate (nr_of_threads hw) 0xff) 0 c)).

Definition debugged_dpu : dpu_access (session W) :=
  {| dpu_enabled := on_machine (get_dpu_enabled slice_id member_id);
     custom_event := dpu_custom_for_dpu slice_id member_id;
     context_fill := empty_context;
     initialize_fault_process := dpu_initialize_fault_process_for_dpu desc conf hw junk poll_fuel slice_id member_id loaded 0;
     extract_pcs := dpu_extract_pcs_for_dpu desc conf hw junk poll_fuel slice_id member_id;
     extract_context := dpu_extract_context_for_dpu desc conf hw junk poll_fuel slice_id member_id core_dump_program;
     restore_context := dpu_restore_context_for_dpu desc conf hw junk poll_fuel slice_id member_id restore_registers_program raw_context;
     finalize_fault_process := dpu_finalize_fault_process_for_dpu desc conf hw junk slice_id member_id;
     copy_from_iram := dpu_copy_from_iram_for_dpu;
     copy_to_iram := dpu_copy_to_iram_for_dpu;
     copy_from_wram := dpu_copy_from_wram_for_dpu;
     copy_to_wram := dpu_copy_to_wram_for_dpu;
     boot := dpu_thread_boot_safe_for_dpu desc conf junk slice_id member_id 0;
     poll := dpu_poll_dpu |}.
End session.
