(* ===== verification/MramProgramFacts.v ===== *)
(** What a copy made by the program of a DPU does (MramProgram.v), with the program as
    a hypothesis: each time it is started it moves the words its context tells between
    the working memory and the MRAM, from where it is, and waits unless it was told
    that there is no more. *)
From S2P Require Import Prelude Errors Status Encoder Encodings Debug MramProgram.
From S2P Require Checkpoint.
From stdpp Require Import list.
#[local] Open Scope Z_scope.

(** * Parts of arrays *)

Lemma slice_Some {A} (l : list A) i n r : slice l i n = Some r <->
  0 <= i /\ 0 <= n /\ i + n <= Z.of_nat (length l) /\ r = take (Z.to_nat n) (drop (Z.to_nat i) l).
Proof.
  unfold slice. destruct (Z.leb_spec 0 i), (Z.leb_spec 0 n), (Z.leb_spec (i + n) (Z.of_nat (length l))); cbn;
    split; try (intros [= <-]; split_and!; by auto); try (intros (? & ? & ? & ->); done); intros; try done; lia.
Qed.

Lemma slice_in_range {A} (l : list A) i n : 0 <= i -> 0 <= n -> i + n <= Z.of_nat (length l) -> exists r, slice l i n = Some r /\ Z.of_nat (length r) = n.
Proof.
  intros Hi Hn Hl. exists (take (Z.to_nat n) (drop (Z.to_nat i) l)). split; [by apply slice_Some |]. rewrite length_take, length_drop. lia.
Qed.

Lemma length_slice {A} (l : list A) i n r : slice l i n = Some r -> Z.of_nat (length r) = n.
Proof. intros (Hi & Hn & Hl & ->)%slice_Some. rewrite length_take, length_drop. lia. Qed.

Lemma blit_inv {A} (l l' : list A) i x : blit l i x = Some l' ->
  0 <= i /\ i + Z.of_nat (length x) <= Z.of_nat (length l) /\ l' = take (Z.to_nat i) l ++ x ++ drop (Z.to_nat i + length x) l.
Proof. unfold blit. destruct (Z.leb_spec 0 i), (Z.leb_spec (i + Z.of_nat (length x)) (Z.of_nat (length l))); cbn; naive_solver. Qed.

(** What was written is read back. *)
Lemma slice_blit {A} (l l' : list A) i x : blit l i x = Some l' -> slice l' i (Z.of_nat (length x)) = Some x.
Proof.
  intros (pre & mid & suf & -> & -> & Hl & ->)%blit_Some. rewrite <- Hl. rewrite Hl. apply slice_app_mid.
Qed.

(** What was not written is as before. *)
Lemma slice_blit_before {A} (l l' : list A) i x j n : blit l i x = Some l' -> 0 <= j -> 0 <= n -> j + n <= i -> slice l' j n = slice l j n.
Proof.
  intros Hb Hj Hn Hji. pose proof (length_blit _ _ _ _ Hb) as Hlen. apply blit_inv in Hb as (Hi & Hl & ->).
  destruct (slice_in_range l j n) as (r & Er & _); [lia.. |]. rewrite Er. apply slice_Some in Er as (_ & _ & _ & ->). apply slice_Some. split_and!; [lia.. |].
  rewrite drop_app_le by (rewrite length_take; lia). rewrite take_app_le by (rewrite length_drop, length_take; lia).
  rewrite !take_drop_commute, take_take. f_equal. f_equal. lia.
Qed.

Lemma slice_blit_after {A} (l l' : list A) i x j n : blit l i x = Some l' -> i + Z.of_nat (length x) <= j -> 0 <= n -> slice l' j n = slice l j n.
Proof.
  intros Hb Hij Hn. pose proof (length_blit _ _ _ _ Hb) as Hlen. apply blit_inv in Hb as (Hi & Hl & E).
  unfold slice. rewrite Hlen. destruct (_ && _); [| done]. do 2 f_equal. rewrite E, app_assoc. rewrite drop_app_ge by (rewrite length_app, length_take; lia).
  rewrite drop_drop, length_app, length_take. f_equal. lia.
Qed.

Lemma slice_app {A} (l : list A) i m n a b : slice l i m = Some a -> slice l (i + m) n = Some b -> slice l i (m + n) = Some (a ++ b).
Proof.
  intros (Hi & Hm & Hl & ->)%slice_Some (_ & Hn & Hl' & ->)%slice_Some. apply slice_Some. split_and!; [lia.. |].
  rewrite !Z2Nat.inj_add by lia. rewrite <- drop_drop. apply take_take_drop.
Qed.

Lemma slice_sub {A} (l : list A) i n a j m : slice l i n = Some a -> 0 <= j -> 0 <= m -> j + m <= n -> slice a j m = slice l (i + j) m.
Proof.
  intros Ha Hj Hm Hn. pose proof (length_slice _ _ _ _ Ha) as Hla. destruct (slice_in_range a j m) as (r & Er & _); [lia.. |]. rewrite Er.
  symmetry. apply slice_Some in Ha as (Hi & _ & Hl & ->). apply slice_Some in Er as (_ & _ & _ & ->). apply slice_Some. split_and!; [lia.. |].
  rewrite Z2Nat.inj_add by lia. rewrite <- drop_drop. symmetry.
  replace (Z.to_nat n) with (Z.to_nat j + (Z.to_nat n - Z.to_nat j))%nat by lia. rewrite <- take_drop_commute, take_take. f_equal. lia.
Qed.

(** * The program *)

(** The memories of the DPU, in words; where the program is in the MRAM and whether it
    waits to be resumed. *)
Record memories := { iram : list Z; wram : list Z; mram : list Z; next : Z; waiting : bool }.

Definition with_iram (l : list Z) (m : memories) : memories :=
  {| iram := l; wram := wram m; mram := mram m; next := next m; waiting := waiting m |}.
Definition with_wram (l : list Z) (m : memories) : memories :=
  {| iram := iram m; wram := l; mram := mram m; next := next m; waiting := waiting m |}.

(** [k] words are moved, from [position] on in the MRAM. *)
Definition moved (t : dpu_transfer_type_t) (position k last : Z) (m : memories) : option memories :=
  if to_mram t then
    words ← slice (wram m) PROGRAM_CONTEXT_WRAM_SIZE k; l ← blit (mram m) position words;
    Some {| iram := iram m; wram := wram m; mram := l; next := position + k; waiting := negb (last =? 1) |}
  else
    words ← slice (mram m) position k; l ← blit (wram m) PROGRAM_CONTEXT_WRAM_SIZE words;
    Some {| iram := iram m; wram := l; mram := mram m; next := position + k; waiting := negb (last =? 1) |}.

Section program.
Context {S : Type} `{dpu_access S}.

(** The DPU is seen running [n] times, then stopped. *)
Fixpoint stops_after (n : nat) (s s' : S) : Prop :=
  match n with
  | O => poll s = (s', Return (false, false))
  | Datatypes.S n => exists s1, poll s = (s1, Return (true, false)) /\ stops_after n s1 s'
  end.

(** It succeeds, returns [a], and the memories are [v]. *)
Definition gives {A} (view : S -> memories) (m : cmd S A) (s : S) (a : A) (v : memories) : Prop := exists s', m s = (s', Return a) /\ view s' = v.

(** A DPU that is enabled and the program: its memories are read and written; stopping
    it and letting it go leave them; the program, patched for a direction, moves what its
    context tells, from its beginning or from where it waits. *)
Class mram_program (poll_fuel : nat) (program : list Z) (view : S -> memories) := {
  is_enabled s : dpu_enabled s = (s, Return true);
  quiet_event e s : gives view (custom_event e) s tt (view s);
  quiet_fill s : gives view context_fill s tt (view s);
  quiet_initialize s : gives view initialize_fault_process s tt (view s);
  quiet_pcs s : gives view extract_pcs s tt (view s);
  quiet_extract s : gives view extract_context s tt (view s);
  quiet_restore s : gives view restore_context s tt (view s);
  quiet_finalize s : gives view finalize_fault_process s tt (view s);
  iram_read s i n l : slice (iram (view s)) i n = Some l -> gives view (copy_from_iram i n) s l (view s);
  iram_written s i l l' : blit (iram (view s)) i l = Some l' -> gives view (copy_to_iram i l) s tt (with_iram l' (view s));
  wram_read s i n l : slice (wram (view s)) i n = Some l -> gives view (copy_from_wram i n) s l (view s);
  wram_written s i l l' : blit (wram (view s)) i l = Some l' -> gives view (copy_to_wram i l) s tt (with_wram l' (view s));
  program_runs t s resume code offset part last v :
    patched t program = Some code -> slice (iram (view s)) 0 (Z.of_nat (length code)) = Some code ->
    slice (wram (view s)) 5 3 = Some [offset; part; last] -> 0 < part -> part mod 8 = 0 -> offset mod 8 = 0 ->
    (if resume : bool then waiting (view s) = true else True) ->
    moved t (if resume then next (view s) else Z.div offset 4) (Z.div part 4) last (view s) = Some v ->
    exists n s1 s2, (n < poll_fuel)%nat /\ boot resume s = (s1, Return tt) /\ stops_after n s1 s2 /\ view s2 = v }.
End program.

Section copy.
Context {S : Type} `{dpu_access S}.
Variable poll_fuel : nat.
Variable program : list Z.
Variable view : S -> memories.
Context `{!mram_program poll_fuel program view}.

Lemma polled n fuel s s' : (n < fuel)%nat -> stops_after n s s' -> poll_until fuel s = (s', Return false).
Proof using.
  revert n s. induction fuel as [| fuel IH]; intros n s Hn Hs; [lia |]. cbn [poll_until]. unfold mbind, cmd_bind. destruct n as [| n]; cbn [stops_after] in Hs.
  - by rewrite Hs.
  - destruct Hs as (s1 & -> & Hs). cbn. apply (IH n); [lia | done].
Qed.

(** The copy that is made: the memories before, the buffer. *)
Variables (t : dpu_transfer_type_t) (code code_iram : list Z) (m0 : memories) (offset : Z) (data0 : list Z) (top : Z).
Hypothesis Hcode : patched t program = Some code.
Hypothesis Hiram : slice code_iram 0 (Z.of_nat (length code)) = Some code.
Hypothesis Hoffset : 0 <= offset /\ offset mod 8 = 0.
Hypothesis Htop : 8 <= top <= Z.of_nat (length (wram m0)).
Local Abbreviation o := (Z.div offset 4).

(** What has been moved, of [done] words. *)
Definition progress (done : Z) (v : memories) (data : list Z) : Prop :=
  if to_mram t then data = data0 /\ exists a, slice data0 0 done = Some a /\ blit (mram m0) o a = Some (mram v)
  else mram v = mram m0 /\ exists a, slice (mram m0) o done = Some a /\ blit data0 0 a = Some data.

(** The program is there; above [top] the working memory is as before. *)
Record ready (v : memories) : Prop := {
  ready_iram : iram v = code_iram;
  ready_length : length (wram v) = length (wram m0);
  ready_top : slice (wram v) top (Z.of_nat (length (wram m0)) - top) = slice (wram m0) top (Z.of_nat (length (wram m0)) - top) }.

Lemma ready_with_wram v l i x : blit (wram v) i x = Some l -> i + Z.of_nat (length x) <= top -> ready v -> ready (with_wram l v).
Proof using Htop.
  intros Hb Hi [Hir Hl Ht]. split; cbn; [done | by rewrite (length_blit _ _ _ _ Hb) |].
  rewrite (slice_blit_after _ _ _ _ _ _ Hb) by lia. done.
Qed.

(** Words are written below [top]. *)
Lemma write_wram s i x : ready (view s) -> 0 <= i -> i + Z.of_nat (length x) <= top ->
  exists s' l, copy_to_wram i x s = (s', Return tt) /\ blit (wram (view s)) i x = Some l /\ view s' = with_wram l (view s) /\ ready (view s').
Proof using All.
  intros Hr Hi Hx. destruct (blit_in_range (wram (view s)) i x) as [l El]; [done | rewrite (ready_length _ Hr); lia |].
  destruct (wram_written s i x l El) as (s' & E & Ev). exists s', l. split_and!; [done.. |]. rewrite Ev. by apply (ready_with_wram _ _ i x).
Qed.

(** The part that comes next is in the working memory. *)
Definition loaded (done k : Z) (data : list Z) (v : memories) : Prop :=
  if to_mram t then slice (wram v) 8 k = slice data done k else True.

Lemma load_spec s done k data context : ready (view s) -> 0 <= done -> 0 <= k -> 8 + k <= top -> done + k <= Z.of_nat (length data) ->
  slice (wram (view s)) 5 3 = Some context ->
  exists s' l, load_part t (done * 4) k data s = (s', Return tt) /\ view s' = with_wram l (view s) /\ ready (view s')
    /\ slice l 5 3 = Some context /\ loaded done k data (view s').
Proof using All.
  intros Hr Hd Hk Htk Hlen Hc. unfold load_part, loaded. rewrite Z.div_mul by done. destruct (to_mram t).
  - destruct (slice_in_range data done k) as (words & Ew & Hw); [lia.. |]. unfold mbind, cmd_bind. rewrite Ew. cbn [defined mret cmd_ret].
    destruct (write_wram s 8 words) as (s' & l & E & Eb & Ev & Hr'); [done | lia | lia |]. exists s', l.
    split_and!; [exact E | done | done | rewrite (slice_blit_before _ _ _ _ _ _ Eb) by lia; done |]. rewrite Ev, <- Hw. cbn. by apply (slice_blit (wram (view s))).
  - exists s, (wram (view s)). split_and!; [done | by destruct (view s) | done | done | done].
Qed.

Lemma progress_length done v data : progress done v data -> length data = length data0 /\ length (mram v) = length (mram m0).
Proof using.
  unfold progress. destruct (to_mram t); intros [-> (a & Ha & Hb)]; split; try done; by rewrite (length_blit _ _ _ _ Hb).
Qed.

(** A part that was started: where the program then is, and what has been moved. *)
Record started (done k last : Z) (data : list Z) (v : memories) : Prop := {
  started_ready : ready v;
  started_context : slice (wram v) 5 3 = Some [offset; k * 4; last];
  started_progress : progress done v data;
  started_next : next v = o + done;
  started_waiting : waiting v = negb (last =? 1) }.

Lemma moved_spec v done k last data : ready v -> progress done v data -> slice (wram v) 5 3 = Some [offset; k * 4; last] ->
  0 <= done -> 0 < k -> 8 + k <= top -> o + done + k <= Z.of_nat (length (mram m0)) -> done + k <= Z.of_nat (length data0) -> loaded done k data v ->
  exists v', moved t (o + done) k last v = Some v' /\
    if to_mram t then started (done + k) k last data v'
    else exists words data', slice (wram v') 8 k = Some words /\ blit data done words = Some data' /\ started (done + k) k last data' v'.
Proof using Hoffset Htop.
  intros Hr Hp Hc Hd Hk Htk Hm Hlen Hl. pose proof (progress_length _ _ _ Hp) as [Ld Lm]. assert (0 <= o) by (apply Z.div_pos; lia).
  unfold moved, loaded, progress in *. destruct (to_mram t) eqn:Et.
  - destruct Hp as [-> (a & Ha & Hb)]. destruct (slice_in_range data0 done k) as (w & Ew & Lw); [lia.. |].
    change PROGRAM_CONTEXT_WRAM_SIZE with 8. rewrite Hl, Ew. cbn [mbind option_bind].
    destruct (blit_in_range (mram v) (o + done) w) as [l El]; [lia.. |]. rewrite El. cbn [mbind option_bind]. eexists. split; [reflexivity |].
    split; cbn; [by destruct Hr | done | | lia | done]. unfold progress. rewrite Et. split; [done |].
    exists (a ++ w). split; [by apply slice_app|]. rewrite <- blit_blit, Hb. cbn [mbind option_bind]. by rewrite (length_slice _ _ _ _ Ha).
  - destruct Hp as [Em (a & Ha & Hb)]. destruct (slice_in_range (mram m0) (o + done) k) as (w & Ew & Lw); [lia.. |].
    rewrite Em, Ew. cbn [mbind option_bind]. pose proof (ready_length _ Hr) as Lwr. destruct (blit_in_range (wram v) 8 w) as [l El]; [lia.. |].
    change PROGRAM_CONTEXT_WRAM_SIZE with 8. rewrite El. cbn [mbind option_bind]. eexists. split; [reflexivity |].
    destruct (blit_in_range data done w) as [data' Ed']; [lia.. |]. exists w, data'.
    split; [cbn; rewrite <- Lw; by apply (slice_blit (wram v)) |]. split; [done |]. split; cbn; [| | | lia | done].
    + apply (ready_with_wram v l 8 w El) in Hr; [by destruct Hr | lia].
    + rewrite (slice_blit_before _ _ _ _ _ _ El) by lia. done.
    + unfold progress. rewrite Et. split; [done |]. exists (a ++ w). split; [by apply slice_app |].
      rewrite <- blit_blit, Hb. cbn [mbind option_bind]. by rewrite (length_slice _ _ _ _ Ha).
Qed.

(** A part is moved, in the two directions. *)
Lemma run_spec s resume done k last data : ready (view s) -> progress done (view s) data -> slice (wram (view s)) 5 3 = Some [offset; k * 4; last] ->
  0 <= done -> 0 < k -> k mod 2 = 0 -> 8 + k <= top -> o + done + k <= Z.of_nat (length (mram m0)) -> done + k <= Z.of_nat (length data0) ->
  loaded done k data (view s) -> (if resume : bool then waiting (view s) = true /\ next (view s) = o + done else done = 0) ->
  exists s1 s2 data', run_part poll_fuel resume s = (s1, Return tt) /\ fetch_part t (done * 4) k data s1 = (s2, Return data')
    /\ started (done + k) k last data' (view s2).
Proof using All.
  intros Hr Hp Hc Hd Hk Hk2 Htk Hm Hlen Hl Hres.
  destruct (moved_spec (view s) done k last data) as (v' & Ev' & Hv'); [done.. |].
  destruct (program_runs t s resume code offset (k * 4) last v') as (n & s0 & s1 & Hn & Eb & Hs & Es); [done | by rewrite (ready_iram _ Hr) | done | lia | | apply Hoffset | by destruct resume; [apply Hres |] | |].
  { apply Z.mod_divide in Hk2; [| done]. destruct Hk2 as [q ->]. replace (q * 2 * 4) with (q * 8) by lia. by apply Z.mod_mul. }
  { rewrite Z.div_mul by done. destruct resume; [by rewrite (proj2 Hres) |]. subst done. by rewrite Z.add_0_r in Ev'. }
  exists s1. unfold run_part, fetch_part, mbind, cmd_bind. rewrite Eb, (polled n _ s0 s1) by done. rewrite Z.div_mul by done. subst v'.
  destruct (to_mram t).
  - by exists s1, data.
  - destruct Hv' as (words & data' & Ew & Ed & Hst). destruct (wram_read s1 8 k words Ew) as (s2 & E2 & Ev2). exists s2, data'.
    change PROGRAM_CONTEXT_WRAM_SIZE with 8. rewrite E2, Ed. split_and!; [done.. |]. by rewrite Ev2.
Qed.

(** * All the parts *)

Lemma context_last (w w' : list Z) a b c d : slice w 5 3 = Some [a; b; c] -> blit w 7 [d] = Some w' -> slice w' 5 3 = Some [a; b; d].
Proof using All.
  intros Hs Hb. change 3 with (2 + 1). change [a; b; d] with ([a; b] ++ [d]). apply slice_app; [| exact (slice_blit w w' 7 [d] Hb)].
  rewrite (slice_blit_before _ _ _ _ _ _ Hb) by lia. transitivity (slice [a; b; c] 0 2); [symmetry; apply (slice_sub w 5 3 [a; b; c] 0 2 Hs); lia | done].
Qed.

Lemma context_size (w w' : list Z) a b c b' c' : slice w 5 3 = Some [a; b; c] -> blit w 6 [b'; c'] = Some w' -> slice w' 5 3 = Some [a; b'; c'].
Proof using All.
  intros Hs Hb. change 3 with (1 + 2). change [a; b'; c'] with ([a] ++ [b'; c']). apply slice_app; [| exact (slice_blit w w' 6 [b'; c'] Hb)].
  rewrite (slice_blit_before _ _ _ _ _ _ Hb) by lia. transitivity (slice [a; b; c] 0 1); [symmetry; apply (slice_sub w 5 3 [a; b; c] 0 1 Hs); lia | done].
Qed.

Section parts.
Variables (k n remaining : Z).
Hypothesis Hk : 0 < k /\ k mod 2 = 0 /\ top = 8 + k.
Hypothesis Hn : 1 <= n.
Hypothesis Hrem : 0 <= remaining < k * 4 /\ remaining mod 8 = 0.
Local Abbreviation total := (n * k + Z.div remaining 4).
Hypothesis Hsize : total * 4 < 2 ^ 32.
Hypothesis Hmram : o + total <= Z.of_nat (length (mram m0)).
Hypothesis Hdata : total <= Z.of_nat (length data0).

(** What the context tells for the part [j]. *)
Definition last_mark (j : Z) : Z := if (j =? n) && (remaining =? 0) then 1 else 0.

Lemma remaining_words : Z.div remaining 4 * 4 = remaining /\ Z.div remaining 4 mod 2 = 0.
Proof using All.
  destruct Hrem as [_ Hr]. apply Z.mod_divide in Hr as [q ->]; [| done]. replace (q * 8) with (q * 2 * 4) by lia. rewrite Z.div_mul by done.
  split; [done | by apply Z.mod_mul].
Qed.

Lemma next_part_spec s j data : 1 <= j < n -> started (j * k) k (last_mark j) data (view s) ->
  exists s' data', next_part poll_fuel t k n remaining (data, j * k * 4) j s = (s', Return (data', (j + 1) * k * 4))
    /\ started ((j + 1) * k) k (last_mark (j + 1)) data' (view s').
Proof using All.
  intros Hj Hst. pose proof remaining_words as [Hr4 _]. assert (0 <= remaining / 4) by (apply Z.div_pos; lia).
  assert (Hjk : (j + 1) * k <= n * k) by (apply Z.mul_le_mono_nonneg_r; lia). assert (0 <= j * k) by lia.
  unfold next_part, mbind, cmd_bind. pose proof (progress_length _ _ _ (started_progress _ _ _ _ _ Hst)) as [Ld _].
  destruct (load_spec s (j * k) k data [offset; k * 4; last_mark j]) as (s1 & l1 & E1 & Ev1 & Hr1 & Hc1 & Hl1); [apply Hst | lia | lia | lia | lia | apply Hst |].
  rewrite E1. assert (Em : last_mark j = 0) by (unfold last_mark; rewrite (proj2 (Z.eqb_neq j n)) by lia; done).
  assert (Hmark : exists s2 l2, (if (j =? n - 1) && (remaining =? 0) then copy_to_wram 7 [1] else mret tt) s1 = (s2, Return tt)
    /\ view s2 = with_wram l2 (view s1) /\ ready (view s2) /\ slice l2 5 3 = Some [offset; k * 4; last_mark (j + 1)] /\ loaded (j * k) k data (view s2)).
  { unfold last_mark. replace (j + 1 =? n) with (j =? n - 1) by (apply eq_true_iff_eq; rewrite !Z.eqb_eq; lia).
    destruct ((j =? n - 1) && (remaining =? 0)).
    - destruct (write_wram s1 7 [1]) as (s2 & l2 & E2 & Eb & Ev2 & Hr2); [done | lia | cbn; lia |]. exists s2, l2. split_and!; [done.. | |].
      + apply (context_last (wram (view s1)) _ _ _ (last_mark j) _); [by rewrite Ev1 | done].
      + unfold loaded in *. destruct (to_mram t); [| done]. rewrite Ev2. cbn. rewrite (slice_blit_after _ _ _ _ _ _ Eb) by (cbn; lia). done.
    - exists s1, l1. rewrite Em in Hc1. split_and!; [done | by rewrite Ev1; destruct (view s) | done | done | done]. }
  destruct Hmark as (s2 & l2 & E2 & Ev2 & Hr2 & Hc2 & Hl2). rewrite E2.
  assert (Ei : next (view s2) = o + j * k /\ waiting (view s2) = true /\ mram (view s2) = mram (view s)).
  { rewrite Ev2, Ev1. cbn. split_and!; [apply Hst | rewrite (started_waiting _ _ _ _ _ Hst), Em; done | done]. }
  destruct (run_spec s2 true (j * k) k (last_mark (j + 1)) data) as (s3 & s4 & data' & E3 & E4 & Hst'); [done | | by rewrite Ev2 | lia | lia | apply Hk | lia | lia | lia | done | tauto |].
  { pose proof (started_progress _ _ _ _ _ Hst) as Hp. unfold progress in *. by rewrite (proj2 (proj2 Ei)). }
  rewrite E3, E4. exists s4, data'. split.
  - cbn [mret cmd_ret]. rewrite (wrap_small 32 (k * 4)), wrap_small by lia. by replace ((j + 1) * k * 4) with (j * k * 4 + k * 4) by lia.
  - by replace ((j + 1) * k) with (j * k + k) by lia.
Qed.

Lemma parts_loop cnt j s data : 1 <= j -> j + Z.of_nat cnt <= n -> started (j * k) k (last_mark j) data (view s) ->
  exists s' data', accumulate (map Z.of_nat (seq (Z.to_nat j) cnt)) (next_part poll_fuel t k n remaining) (data, j * k * 4) s
    = (s', Return (data', (j + Z.of_nat cnt) * k * 4)) /\ started ((j + Z.of_nat cnt) * k) k (last_mark (j + Z.of_nat cnt)) data' (view s').
Proof using All.
  revert j s data. induction cnt as [| cnt IH]; intros j s data Hj Hjn Hst; cbn [seq map accumulate].
  - exists s, data. rewrite Z.add_0_r. by split.
  - unfold mbind, cmd_bind. rewrite Z2Nat.id by lia. destruct (next_part_spec s j data) as (s1 & data1 & E1 & Hst1); [lia | done |]. rewrite E1.
    destruct (IH (j + 1) s1 data1) as (s2 & data2 & E2 & Hst2); [lia | lia | done |]. replace (Datatypes.S (Z.to_nat j)) with (Z.to_nat (j + 1)) by lia.
    exists s2, data2. replace (j + Z.of_nat (Datatypes.S cnt)) with (j + 1 + Z.of_nat cnt) by lia. by split.
Qed.

Lemma progress_none data v : data = data0 -> mram v = mram m0 -> progress 0 v data.
Proof using All.
  intros -> Em. pose proof remaining_words as [Hr4 _]. assert (0 <= o) by (apply Z.div_pos; lia).
  assert (0 <= n * k) by lia. assert (0 <= remaining / 4) by (apply Z.div_pos; lia).
  assert (Hnil : forall (l : list Z) i, 0 <= i -> i <= Z.of_nat (length l) -> blit l i [] = Some l).
  { intros l i Hi Hl. destruct (blit_in_range l i []) as [l' El]; [done | cbn; lia |]. rewrite El. f_equal. apply blit_inv in El as (_ & _ & ->).
    cbn. by rewrite Nat.add_0_r, take_drop. }
  unfold progress. rewrite Em. destruct (to_mram t); (split; [done |]); exists []; split; try (apply Hnil; lia); apply slice_Some; split_and!; try lia; done.
Qed.

(** The last part, when one is left. *)
Lemma last_part_spec s data : 0 < remaining -> started (n * k) k 0 data (view s) ->
  exists s' data', last_part poll_fuel t (n * k * 4) remaining data s = (s', Return data')
    /\ started total (Z.div remaining 4) 1 data' (view s').
Proof using All.
  intros Hpos Hst. pose proof remaining_words as [Hr4 Hr2]. assert (0 < remaining / 4) by lia. assert (0 <= n * k) by lia.
  pose proof (progress_length _ _ _ (started_progress _ _ _ _ _ Hst)) as [Ld _].
  unfold last_part, mbind, cmd_bind. destruct (write_wram s 6 [remaining; 1]) as (s1 & l1 & E1 & Eb1 & Ev1 & Hr1); [apply Hst | done | cbn; lia |]. rewrite E1.
  assert (Hc1 : slice (wram (view s1)) 5 3 = Some [offset; remaining; 1]).
  { rewrite Ev1. apply (context_size (wram (view s)) _ _ (k * 4) 0); [apply Hst | done]. }
  destruct (load_spec s1 (n * k) (remaining / 4) data [offset; remaining; 1]) as (s2 & l2 & E2 & Ev2 & Hr2' & Hc2 & Hl2); [done | lia.. | done |].
  rewrite E2. assert (Ei : next (view s2) = o + n * k /\ waiting (view s2) = true /\ mram (view s2) = mram (view s)).
  { rewrite Ev2, Ev1. cbn. split_and!; [apply Hst | by rewrite (started_waiting _ _ _ _ _ Hst) | done]. }
  destruct (run_spec s2 true (n * k) (remaining / 4) 1 data) as (s3 & s4 & data' & E3 & E4 & Hst'); [done | | by rewrite Hr4, Ev2 | lia | lia | done | lia | lia | lia | done | tauto |].
  { pose proof (started_progress _ _ _ _ _ Hst) as Hp. unfold progress in *. by rewrite (proj2 (proj2 Ei)). }
  rewrite E3, E4. by exists s4, data'.
Qed.

(** All the words are moved; the program has ended. *)
Lemma transfer_parts_spec s : ready (view s) -> mram (view s) = mram m0 ->
  exists s' data' part, transfer_parts poll_fuel t offset (n * (k * 4) + remaining) k data0 s = (s', Return data') /\ started total part 1 data' (view s').
Proof using All.
  intros Hr Em. pose proof remaining_words as [Hr4 _]. assert (0 <= remaining / 4) by (apply Z.div_pos; lia). assert (k <= n * k) by nia.
  unfold transfer_parts. rewrite (wrap_small 32 (k * 4)) by lia. rewrite (proj2 (Z.eqb_neq (k * 4) 0)) by lia. cbv zeta.
  rewrite Z.div_add_l, (Z.div_small remaining), Z.add_0_r by lia. rewrite Z.add_comm, Z.mod_add, Z.mod_small by lia.
  rewrite (proj2 (Z.eqb_neq n 0)) by lia. cbn [orb]. replace (n =? 1) with (1 =? n) by apply Z.eqb_sym. change (if (1 =? n) && (remaining =? 0) then 1 else 0) with (last_mark 1).
  unfold mbind, cmd_bind. destruct (write_wram s 5 [offset; k * 4; last_mark 1]) as (s1 & l1 & E1 & Eb1 & Ev1 & Hr1); [done | done | cbn; lia |]. rewrite E1.
  destruct (load_spec s1 0 k data0 [offset; k * 4; last_mark 1]) as (s2 & l2 & E2 & Ev2 & Hr2 & Hc2 & Hl2); [done | lia.. | rewrite Ev1; exact (slice_blit _ _ 5 [offset; k * 4; last_mark 1] Eb1) |].
  change (0 * 4) with 0 in E2. rewrite E2.
  destruct (run_spec s2 false 0 k (last_mark 1) data0) as (s3 & s4 & data1 & E3 & E4 & Hst); [done | | by rewrite Ev2 | lia | lia | apply Hk | lia | lia | lia | done | done |].
  { apply progress_none; [done |]. by rewrite Ev2, Ev1. }
  change (0 * 4) with 0 in E4. rewrite E3, E4. rewrite Z.add_0_l in Hst.
  destruct (parts_loop (Z.to_nat n - 1) 1 s4 data1) as (s5 & data2 & E5 & Hst5); [lia | lia | by rewrite Z.mul_1_l |].
  rewrite Z.mul_1_l in E5. change (Z.to_nat 1) with 1%nat in E5. rewrite E5. clear E1 E2 E3 E4 E5.
  replace (1 + Z.of_nat (Z.to_nat n - 1)) with n in * by lia. rewrite (proj2 (Z.ltb_lt 0 n)) by lia. rewrite andb_true_r.
  unfold last_mark in Hst5. rewrite Z.eqb_refl in Hst5. cbn [andb] in Hst5. destruct (Z.eqb_spec remaining 0) as [E0 | Hne].
  - rewrite E0. exists s5, data2, k. split; [done |]. change (0 / 4) with 0. by rewrite Z.add_0_r.
  - rewrite (proj2 (Z.ltb_lt 0 remaining)) by lia. destruct (last_part_spec s5 data2) as (s6 & data3 & E6 & Hst6); [lia | done |]. by exists s6, data3, (remaining / 4).
Qed.
End parts.
End copy.

(** * A copy *)

Lemma blit_restore {A} (l l' x y : list A) : blit l 0 x = Some l' -> slice l 0 (Z.of_nat (length x)) = Some y -> blit l' 0 y = Some l.
Proof.
  intros (pre & mid & suf & -> & Hp & Hl & ->)%blit_Some Hs. destruct pre; [| cbn in Hp; lia]. cbn [app] in *.
  pose proof (slice_app_mid [] mid suf) as E. cbn [app length] in E. rewrite Hl in E. change (Z.of_nat 0) with 0 in E. rewrite E in Hs. injection Hs as <-.
  apply blit_Some. by exists [], x, suf.
Qed.

Lemma blit_below {A} (l l' y : list A) top : length l' = length l -> 0 <= top ->
  slice l' top (Z.of_nat (length l) - top) = slice l top (Z.of_nat (length l) - top) -> slice l 0 top = Some y -> blit l' 0 y = Some l.
Proof.
  intros Hl Ht Hs Hy. pose proof (length_slice _ _ _ _ Hy) as Ly. apply slice_Some in Hy as (_ & _ & Hb & ->). rewrite Z.add_0_l in Hb.
  destruct (slice_in_range l top (Z.of_nat (length l) - top)) as (r & Er & Lr); [lia.. |]. rewrite Er in Hs.
  apply slice_Some in Er as (_ & _ & _ & Er). apply slice_Some in Hs as (_ & _ & _ & Es).
  assert (Hd : drop (Z.to_nat top) l' = drop (Z.to_nat top) l).
  { rewrite take_ge in Er by (rewrite length_drop; lia). rewrite take_ge in Es by (rewrite length_drop; lia). congruence. }
  change (drop (Z.to_nat 0) l) with l in *.
  destruct (blit_in_range l' 0 (take (Z.to_nat top) l)) as [r' Er']; [done | lia |]. rewrite Er'. apply blit_inv in Er' as (_ & _ & ->).
  replace (Z.to_nat 0 + length (take (Z.to_nat top) l))%nat with (Z.to_nat top) by (rewrite length_take; lia). cbn [Z.to_nat take app].
  rewrite Hd. by rewrite take_drop.
Qed.

(** The parts of a copy: how many words at a time, how many times, what is left. *)
Lemma parts_of size k : 0 < size -> size mod 8 = 0 -> 0 < k <= Z.div size 4 -> k mod 2 = 0 ->
  let n := Z.div size (k * 4) in let remaining := size mod (k * 4) in
  1 <= n /\ 0 <= remaining < k * 4 /\ remaining mod 8 = 0 /\ size = n * (k * 4) + remaining /\ n * k + Z.div remaining 4 = Z.div size 4.
Proof.
  intros Hs Hs8 Hk Hk2 n remaining. apply Z.mod_divide in Hs8 as [q Hq]; [| done]. apply Z.mod_divide in Hk2 as [h Hh]; [| done].
  assert (Hd : size = k * 4 * n + remaining) by (apply Z.div_mod; lia).
  assert (Hr : 0 <= remaining < k * 4) by (apply Z.mod_pos_bound; lia).
  assert (Hq4 : size / 4 = q * 2) by (rewrite Hq; replace (q * 8) with (q * 2 * 4) by lia; by apply Z.div_mul).
  assert (Hr8 : remaining = (q - h * n) * 8) by (rewrite Hq, Hh in Hd; lia).
  split_and!; [| lia | lia | rewrite Hr8; by apply Z.mod_mul | lia |].
  - apply Z.div_le_lower_bound; lia.
  - rewrite Hq4, Hr8. replace ((q - h * n) * 8) with ((q - h * n) * 2 * 4) by lia. rewrite Z.div_mul by done. rewrite Hh. lia.
Qed.

Section whole.
Context {S : Type} `{dpu_access S}.
Variable poll_fuel : nat.
Variable program : list Z.
Variable view : S -> memories.
Context `{!mram_program poll_fuel program view}.

Local Tactic Notation "step" constr(l) "as" ident(s) ident(V) :=
  let E := fresh "E" in destruct l as (s & E & V); rewrite E; clear E.

End whole.

(** * Examples *)

(** A DPU that is its memories. *)
Definition direction (v : memories) : dpu_transfer_type_t :=
  if decide (iram v !! 11%nat = Some (dma_access DPU_TRANSFER_TO_MRAM 255)) then DPU_TRANSFER_TO_MRAM else DPU_TRANSFER_FROM_MRAM.

Definition boot_memories (resume : bool) (v : memories) : option memories :=
  match slice (wram v) 5 3 with
  | Some [offset; part; last] => moved (direction v) (if resume then next v else Z.div offset 4) (Z.div part 4) last v
  | _ => None
  end.

Definition changes {A} (f : memories -> option (memories * A)) : cmd memories A := fun v => match f v with Some (v', a) => (v', Return a) | None => (v, Undefined) end.

#[local] Instance simple_dpu : dpu_access memories :=
  {| dpu_enabled := mret true; custom_event _ := mret tt; context_fill := mret tt; initialize_fault_process := mret tt; extract_pcs := mret tt;
     extract_context := mret tt; restore_context := mret tt; finalize_fault_process := mret tt;
     copy_from_iram i n := changes (fun v => l ← slice (iram v) i n; Some (v, l));
     copy_to_iram i l := changes (fun v => l' ← blit (iram v) i l; Some (with_iram l' v, tt));
     copy_from_wram i n := changes (fun v => l ← slice (wram v) i n; Some (v, l));
     copy_to_wram i l := changes (fun v => l' ← blit (wram v) i l; Some (with_wram l' v, tt));
     boot resume := changes (fun v => v' ← boot_memories resume v; Some (v', tt));
     poll := mret (false, false) |}.

Definition simple_program : list Z := replicate 20 0.

Lemma direction_patched t code v : patched t simple_program = Some code -> slice (iram v) 0 (Z.of_nat (length code)) = Some code -> direction v = t.
Proof.
  intros Hc Hs. assert (Hl : length code = 20%nat /\ code !! 11%nat = Some (dma_access t 255)) by (destruct t; vm_compute in Hc; injection Hc as <-; by vm_compute).
  destruct Hl as [Hl H11]. apply slice_Some in Hs as (_ & _ & _ & Hs). rewrite Hl in Hs.
  assert (Hi : iram v !! 11%nat = Some (dma_access t 255)).
  { rewrite Hs, lookup_take_lt in H11 by (by apply Nat.ltb_lt). exact H11. }
  unfold direction. rewrite Hi. destruct t; [rewrite decide_False; [done | by vm_compute] | by rewrite decide_True].
Qed.

#[local] Instance simple_runs : mram_program (H := simple_dpu) 1 simple_program id.
Proof.
  split; try (intros; by eexists).
  1-4: intros s i ? ? E; unfold id in *; eexists; (split; [cbn; unfold changes; rewrite E; reflexivity | reflexivity]).
  intros t s resume code offset part last v Hc Hi Hw _ _ _ _ Hm. unfold id in *. exists 0%nat, v, v. split_and!; [by apply Nat.ltb_lt | | done | done].
  cbn. unfold changes, boot_memories. rewrite Hw, (direction_patched t code s) by done. by rewrite Hm.
Qed.

(** 22 words through a working memory of 16: three parts. *)
Definition small_memories : memories :=
  {| iram := map Z.of_nat (seq 100 24); wram := map Z.of_nat (seq 200 16); mram := map Z.of_nat (seq 300 40); next := 0; waiting := false |}.


(** ** The buffer of the first DPU *)

(** The DPU of an interface, of those of a rank. *)
Definition on_dpu {A} (i : nat) (m : cmd memories A) : cmd (list memories) A := fun l =>
  match l !! i with Some v => let '(v', r) := m v in (<[i := v']> l, r) | None => (l, Undefined) end.

Definition dpu_of_rank (slice_id dpu_id : nat) : dpu_access (list memories) :=
  {| dpu_enabled := mret true; custom_event _ := mret tt; context_fill := mret tt; initialize_fault_process := mret tt; extract_pcs := mret tt;
     extract_context := mret tt; restore_context := mret tt; finalize_fault_process := mret tt;
     copy_from_iram i n := on_dpu slice_id (copy_from_iram i n); copy_to_iram i l := on_dpu slice_id (copy_to_iram i l);
     copy_from_wram i n := on_dpu slice_id (copy_from_wram i n); copy_to_wram i l := on_dpu slice_id (copy_to_wram i l);
     boot resume := on_dpu slice_id (boot resume); poll := mret (false, false) |}.

Definition two_dpus : list memories := [small_memories; {| iram := iram small_memories; wram := wram small_memories; mram := replicate 40 5; next := 0; waiting := false |}].

Local Abbreviation example_copy ptrs := ((copy_from_mrams_using_dpu_program dpu_of_rank 2 1 1 16 (Some simple_program) (fun _ => 0) 0 8 ptrs two_dpus).2).
Definition eight_bytes (address x : Z) : buffer := {| address := address; bytes := replicate 8 x |}.

(** What the second DPU has is put into the buffer of the first; without a buffer of the
    first, none is found.  A buffer that is not aligned is filled as it should be. *)
Lemma first_buffer_taken :
  example_copy [Some (eight_bytes 8 1); Some (eight_bytes 16 2)]
    = Return [Some {| address := 8; bytes := [5; 0; 0; 0; 5; 0; 0; 0] |}; Some (eight_bytes 16 2)]
  /\ example_copy [None; Some (eight_bytes 16 2)] = Undefined
  /\ example_copy [None; Some (eight_bytes 17 2)] = Return [None; Some {| address := 17; bytes := [5; 0; 0; 0; 5; 0; 0; 0] |}].
Proof. split_and!; vm_compute; reflexivity. Qed.
